(* ===== verification/_CoqProject ===== *)
-Q . S2P
Prelude.v
GoIO.v
Codec.v
Structs.v
StructGen.v
StructAmd64.v
Wire.v
Prog.v
Budget.v
Paths.v
Utf8.v
UnixConv.v
ServerEnv.v
ServerConn.v
ServerCmds.v
UnixThms.v
ServerXattr.v
ServerReadDir.v
ServerStream.v
ServerDispatch.v
ServerNonUnix.v
ServerSpec.v
ServerCmdsOk.v
ServerXattrOk.v
ServerReadDirOk.v
ServerOk.v
ServerRun.v
ServerStreamOk.v
ClientEnv.v
ClientCmds.v
ClientReadDirPlus.v
ClientSpec.v
ClientOk.v
ClientParseOk.v
ClientUnix.v
ClientFuse.v
ClientFuseOk.v
ClientWindows.v
ClientWindowsOk.v
ClientMount.v
ClientPing.v
ClientSession.v
ClientSessionOk.v
ServerOwn.v
ServerNonUnixOk.v
ServerSession.v
ServerLife.v
ServerData.v
ServerRegistry.v
ServerRegistryOk.v
ServerRegistryInv.v
ServerHttp.v
ServerWebdav.v
ServerTemplates.v
ServerWebdavOk.v
ServerWebui.v
ServerHub.v
ClientWait.v
ServerSessionId.v
CommandLine.v
ServerHubOk.v
ServerHubInv.v
Duplex.v
ServerThms.v
ClientThms.v
ClientSessionThms.v
ClientMountThms.v
CommandLineThms.v
ServerLifeThms.v
ServerCollector.v
ServerRegistryThms.v
ServerWebdavThms.v
ServerHttpThms.v
ClientUnixThms.v
ClientFuseThms.v
ClientWindowsThms.v
ServerTemplatesThms.v
ServerWebuiThms.v
ServerHubThms.v
ServerNonUnixThms.v
