(* ===== verification/Prelude.v ===== *)
(** * WSFS-Core: a verification development

    WSFS serves a directory of a Unix host to remote clients over one websocket
    connection per mount. This library models the Go code of the server, of the
    client and of the protocol (src/src/internal) as Rocq definitions and proves
    what they promise to each other and to the kernel that mounts the client. Paths below are relative to src/src/internal.

    ** The program and its parts

    A client opens a connection and sends commands. A command is one binary
    message: a mark (one byte, chosen by the client), a command code, and the
    struct of the command. The session of the connection (server/wsfs/session.go)
    reads messages in a loop; dispatchCommand (commands.go) and doCommandCall
    (commandCalls.go, generated) decode them and start one goroutine for each. The
    goroutine runs a handler (commands-unix.go, commands.go), which calls the
    operating system, keeps open files in a table of the session, and answers
    through the shared connection with one or more frames that begin with the
    mark and a code: any number of partial ones, then a final one. Two commands
    (the write streams) instead feed a long-lived goroutine through a channel.

    ** Files and what they correspond to

    - [Prelude], [GoIO]: lists, machine integers, results; Go's io.Reader with
      arbitrary short reads, io.ReadFull, io.Writer; util/buffer.go.
    - [Codec], [Structs], [StructGen], [StructAmd64], [Wire]:
      share/wsfsprotocol. [Structs] has one record per struct of struct.go and
      the constants of const.go; [StructGen] and [StructAmd64] one definition per
      function of struct.gen.go and struct_amd64.gen.go. [Codec.CodecOk] is the
      interface between both and everything else: the image of a struct, and that
      writer, size and reader agree with it. [Wire] quantifies over all structs.
    - [Prog]: programs with effects, an inductive tree of requests to an
      environment, its interpreter [run] (the environment is a function on a
      state of its own), and a specification logic [wp] by ghost state.
    - [Paths], [Utf8], [UnixConv]: util/url.go, server/storage/storage.go and the
      functions of path and strings they use; share/wsfsunixconv for Linux.
    - [ServerEnv]: the requests a handler makes: session tables (sync.Map),
      connection, buffer pools, system calls; error codes (oserr-nonwindows.go,
      commands.go).
    - [ServerCmds]: commands-unix.go with ofdlock, reflink, renameat2, timeval,
      copyfilerange, fallocate. [ServerXattr]: the xattr commands and package
      xattr. [ServerReadDir]: cmdGetAttr, cmdReadDir, cmdReadDirPlus.
      [ServerStream]: the write streams. [ServerDispatch]: dispatchCommand and
      doCommandCall. One definition per Go function, under its name.
    - [ServerConn]: requireWrite, writeDone, write and the response functions of
      session.go over an abstract websocket connection (class [WsConn]).
    - [ServerSession]: the state the goroutines of a session share and
      its step relation: the read loop delivers any message, a goroutine performs
      its next request, in every order ([reachable]).
    - [ServerSpec] and the files named [Server...Ok], [ServerRun], [ServerData]: the
      specification of the handlers and the proofs that they meet it.
      [ServerOwn], [ServerLife]: what a goroutine owns (its place in cmdGroup, its
      stream, its buffers) and the invariant of a session over its whole life.
    - [ClientEnv], [ClientCmds], [ClientReadDirPlus]: client/session/commands.go
      and writeStream.go, the request functions as programs of requests to the
      session, and the parser of listings with prefetched directories.
      [ClientSpec], [Budget], [ClientOk], [ClientParseOk]: the specification of
      the session they are proved against ([cli_env]) and the proofs.
    - [ClientSession], [ClientSessionOk]: client/session/session.go, the state of
      a session with any number of calls as a function of actions ([act]), and
      the invariant that a response finds its request.
    - [ServerRegistry], [ServerRegistryOk], [ServerRegistryInv],
      [ServerCollector]: server/wsfs/registry.go and handler.go: sessions that
      survive their connections, upgrades that resume them, the collector.
    - [ServerHttp]: users, authentication and routing (server.go, user.go);
      [ServerWebdav], [ServerWebdavOk]: the WebDAV file system (server/webdav);
      [ServerWebui]: the web interface (server/webui).
    - [ServerHub], [ServerHubOk], [ServerHubInv]: hub.go, listen.go, NewServer:
      Run, reloading and shutting down as goroutines over the fields of the hub, the
      servers of net/http, listeners, socket files and registries, in any order;
      what each goroutine keeps to and the invariant of what they share.
    - [ClientUnix], [ClientFuse], [ClientFuseOk], [ClientFuseThms]: client/unix for
      Linux: conversions of attributes, flags and errors, the caches and one
      definition per FUSE operation, their specification, and any number of
      operations interleaved with notices and time.
    - [ClientWindows], [ClientWindowsOk], [ClientWindowsThms]: client/windows: the
      callbacks of WinFsp over one cache with paths as keys, the cleaner and the
      goroutines of prefetched listings, their specification, and all of them
      interleaved.
    - [ServerNonUnix], [ServerNonUnixOk]: the handlers of
      commands-nonunix.go and what they use on Windows (open-windows.go,
      oserr-windows.go, url-windows.go), over the calls of package os and of the
      Windows API; every request they make stays below the storage.
    - [ServerTemplates]: the generated functions of the templates of WebDAV and of
      the web interface, as the bytes they write.
    - [ClientMount]: mount.go, wsdial.go and fuseConnection-linux.go: dialling,
      dialling again, Mount; [ClientWait]: fuseMount and fuseMountWait: the options
      of the FUSE libraries and the goroutines that wait for the end.
    - [ClientPing]: the pings of a session and the errors of connections it records
      (client/session/session.go), over any number of connections.
    - [ServerSessionId]: where the ids of sessions come from (sessionId.go), upgrade.go.
    - [CommandLine]: what the commands of cmd do after their flags were parsed, and
      server/config: mount, serve, quick-serve, hash, reload-server, passwords.
    - [Duplex]: a client and a server joined: the client's requests are carried
      out by [dispatchCommand] and its frames come back in order.
    - [UnixThms], [ServerThms], [ServerLifeThms], [ServerRegistryThms],
      [ServerHttpThms], [ServerWebdavThms], [ServerWebuiThms], [ServerHubThms], [ClientThms], [ClientSessionThms],
      [ClientUnixThms], [ClientFuseThms], [ClientWindowsThms], [ServerNonUnixThms],
      [ServerTemplatesThms], [ClientMountThms], [CommandLineThms], and the ends of
      [ClientWait], [ClientPing] and [ServerSessionId]: the theorems.

    ** How the model works

    A handler is a value of [prog sev]. [Vis e k] is a request whose answer is
    passed to [k]; [Panic] is a Go run-time panic (an index out of range is one,
    written out where the code indexes); [Diverge] is a loop cut off by its fuel.
    The same program is read in three ways: run against one environment ([run]),
    run among other goroutines ([session_step]), or specified by the ghost state
    of a protocol ([answers], [SW], [LW]). [lawful] states what is documented of
    the operating system and the pools, for instance that read(2) returns no more
    than the buffer holds; nothing else is assumed of answers.

    Machine integers are [Z] with wrap-around written [u8], [u32], [u64], [i64];
    memory is [list byte]. Fuel: loops over data recur on the data; the loops
    that repeat an interrupted system call, read a directory to its end, look for
    a free descriptor or receive from a channel take fuel. The theorems on single
    runs assume fuel greater than the number of times the environment makes a loop
    go round ([within os budget]) plus 502, and prove that the run is then [Done],
    never [Diverge]; 502 is one more than the entries of a directory the
    prefetch of cmdReadDirPlus goes through before it gives up. Theorems on
    reachable states hold at every fuel.

    A client's request function is a program of the same kind; its environment is
    the session ([answer]), a server ([duplex_step]) or a specification.

    ** The groups of theorems

    - Wire: round trip of all structs across the two architectures' helpers
      ([struct_roundtrip]), agreement of the two ([struct_amd64_portable]),
      readers accept images only ([struct_reader_sound]), buffered readers
      ([buffered_reader]).
    - Sessions of the server: the protocol invariant over all interleavings
      ([session_protocol]), every message but those of write streams is answered
      ([dispatch_answers]),
      dispatch decodes what was encoded ([dispatch_roundtrip]), write streams
      ([stream_in_order], [stream_channel_fifo], [stream_ends]), handles
      ([handle_stable], [newFD_finds_free]), the race of two closes
      ([close_race]).
    - The life of a session of the server over several connections: channels
      ([channel_discipline]), buffers ([buffers_conserved]), the end of a
      connection ([teardown_progress]), the limit of 64 ([reader_deadlock]).
    - The registry: one connection at a time holds a session
      ([sessions_exclusive]), a resumed session keeps its descriptors
      ([descriptors_kept]), the collector takes idle sessions and no others
      ([collector_collects]), a session that nobody collects
      ([orphaned_session]).
    - HTTP and WebDAV: who may do what ([http_access]), what a WebDAV request
      does to the file system ([webdav_request]), ranges ([parseRange_spec]), a
      failed move ([move_loses_source]); what the web interface shows
      ([webui_confined]) and, in the default configuration, gives away
      ([custom_resources_leak]).
    - The hub: what requests are served with ([hub_serves_built]), one reload at a
      time ([reload_exclusive]), what a reload does ([reload_effect], [listen_spec]),
      the end of the process, also by a reload ([shutdown_ends_process]), which the
      comments of hub.go and the documentation say does not happen.
    - The client's file system: answers from the caches are answers the server
      gave ([cached_answers_honest]), every handle the server opened is closed
      once ([handles_balanced]), flags, modes, locks and errors survive the way
      from the kernel of the client to that of the server
      ([open_flags_end_to_end], [modes_end_to_end], [locks_end_to_end],
      [errors_end_to_end]); what goes wrong ([setattr_changes_owner],
      [lookup_race_crashes], [changes_unseen]).
    - The file system on Windows: the cache says what the session said under a key,
      and of a path as long as no name has a backslash ([windows_answers_honest],
      [backslash_key]); what each callback asks and deletes ([windows_calls]); a
      change other than Write is seen ([windows_read_your_changes]) unless a
      listing was on its way ([removed_file_reappears]); flags and errors
      ([win_open_accepted], [win_errors]).
    - Servers on other systems: [nonunix_answers], reserved names of devices
      ([device_names_refused]), and what goes wrong there ([backslash_leaves],
      [fd_mtime_ignored], [rmdir_removes], [drive_target]).
    - Pages: [propfind_well_formed], [pages_no_injection], [quote_breaks_href],
      [script_link].
    - Connecting: [credentials_arrive], [redial_bounded], [tlsConfig_pins]; waiting
      for the end of a mount: [unmount_wait], [windows_exit], [signals_lost]; the
      kernel's list of mounts: [mountinfo_lookup]; errors of connections
      ([connection_errors]) and what pings do to them ([stale_ping_cancels],
      [stale_ping_fails_close]).
    - Commands: [quick_serve_access], [mount_command], [stdin_without_line_end],
      [no_home_no_config], [reload_keeps]; ids: [session_ids_equal], [math_ids_known].
    - Confinement: [request_path_confined], and the parts of [session_protocol]
      and [dispatch_answers] on the paths handlers pass to the system.
    - Contents of responses: reading ([read_at_contents]), directories
      ([readdir_lists]), extended attributes ([list_xattr_names],
      [get_xattr_value], [filterXAttrList_exact]).
    - The connection when the websocket library fails ([connection_prefix]).
    - Client and server together: [client_reads_file], [client_lists_dir],
      [client_gets_xattr].
    - The client: every request function keeps to the discipline of marks and
      ends ([client_calls_balanced]), the parser of listings ([parser_resolves],
      [prefetch_misplaced]), the session ([responses_routed], [close_graceful],
      [stale_response]).
    - Conversions: [IsUrlValid_exact], [lock_roundtrip], [open_flags_translated],
      [TimevalParts_rounds].

    ** What is not modelled

    Builds for other systems than Linux and Windows, whose tables differ; of Windows
    filepath.Join and the constants of cgofuse and of package os are parameters. The
    code generators, whose output is modelled instead; logging and what is printed; the
    declaration of flags and the TOML decoder; the
    websocket, FUSE and WinFsp libraries, which are parameters. In the client's
    session, its parsers of listings and
    write streams are modelled, but [responses_routed] covers neither, and
    [connection_errors] looks at failures apart from calls. Time outs of writes
    appear as failures of the connection. Symbolic links are confined as the code
    does it, by the text of their targets: a race between the check and the use
    of a path is outside the model. *)
From Stdlib Require Export ZArith Lia.
From Stdlib Require Export Strings.Byte.
From stdpp Require Export base gmap strings numbers tactics.
From stdpp Require Export list_basics list_relations list_monad list_misc.

#[global] Open Scope Z_scope.

(** ** Results of fallible code *)

Inductive result (E A : Type) : Type :=
| Ok (a : A)
| Err (e : E).
Arguments Ok {E A} a.
Arguments Err {E A} e.

Definition is_ok {E A} (r : result E A) : bool :=
  match r with Ok _ => true | Err _ => false end.

Definition ok_of {E A} (r : result E A) : option A :=
  match r with Ok a => Some a | Err _ => None end.

(** ** The state-and-error monad of Go code that returns [(T, error)] and
    mutates one object. *)

Definition SE (E S A : Type) : Type := S -> result E A * S.

#[global] Instance SE_ret {E S} : MRet (SE E S) := fun _ a s => (Ok a, s).
#[global] Instance SE_bind {E S} : MBind (SE E S) := fun _ _ k m s =>
  match m s with
  | (Ok a, s') => k a s'
  | (Err e, s') => (Err e, s')
  end.
Definition se_fail {E S A} (e : E) : SE E S A := fun s => (Err e, s).

Lemma se_bind_assoc {E S A B C} (m : SE E S A) (f : A -> SE E S B) (g : B -> SE E S C) s :
  ((m ≫= f) ≫= g) s = (m ≫= (fun x => f x ≫= g)) s.
Proof. unfold mbind, SE_bind. by destruct (m s) as [[?|?] ?]. Qed.

Lemma se_bind_ext {E S A B} (m m' : SE E S A) (f f' : A -> SE E S B) s :
  m s = m' s -> (forall a s', f a s' = f' a s') -> (m ≫= f) s = (m' ≫= f') s.
Proof. intros Hm Hf. unfold mbind, SE_bind. rewrite Hm. destruct (m' s) as [[?|?] ?]; auto. Qed.

(** ** Machine integers: a w-bit integer is a [Z] with its wrap-around written out. *)

Definition wrapu (w : Z) (v : Z) : Z := v mod 2 ^ w.
Definition wraps (w : Z) (v : Z) : Z :=
  let u := v mod 2 ^ w in if u <? 2 ^ (w - 1) then u else u - 2 ^ w.

Definition u8 := wrapu 8.
Definition u16 := wrapu 16.
Definition u32 := wrapu 32.
Definition u64 := wrapu 64.
Definition i16 := wraps 16.
Definition i32 := wraps 32.
Definition i64 := wraps 64.

Definition in_u (w v : Z) : bool := (0 <=? v) && (v <? 2 ^ w).
Definition in_s (w v : Z) : bool := (- 2 ^ (w - 1) <=? v) && (v <? 2 ^ (w - 1)).

Lemma in_u_spec w v : in_u w v = true <-> 0 <= v < 2 ^ w.
Proof. unfold in_u. rewrite andb_true_iff. lia. Qed.

Lemma in_s_spec w v : in_s w v = true <-> - 2 ^ (w - 1) <= v < 2 ^ (w - 1).
Proof. unfold in_s. rewrite andb_true_iff. lia. Qed.

Lemma wrapu_id w v : in_u w v = true -> wrapu w v = v.
Proof. rewrite in_u_spec. intros. unfold wrapu. by apply Z.mod_small. Qed.

Lemma wrapu_range w v : 0 <= w -> in_u w (wrapu w v) = true.
Proof.
  intros. rewrite in_u_spec. unfold wrapu. apply Z.mod_pos_bound.
  apply Z.pow_pos_nonneg; lia.
Qed.

Lemma pow2_half w : 0 < w -> 2 ^ w = 2 * 2 ^ (w - 1).
Proof.
  intros. replace w with (1 + (w - 1)) at 1 by lia. rewrite Z.pow_add_r by lia. lia.
Qed.

Lemma wraps_range w v : 0 < w -> in_s w (wraps w v) = true.
Proof.
  intros Hw. rewrite in_s_spec. unfold wraps. pose proof (pow2_half w Hw) as Hp.
  assert (0 < 2 ^ w) by (apply Z.pow_pos_nonneg; lia).
  pose proof (Z.mod_pos_bound v (2 ^ w)).
  destruct (Z.ltb_spec (v mod 2 ^ w) (2 ^ (w - 1))); lia.
Qed.

(** A signed value survives the trip through the unsigned representation. *)
Lemma wraps_wrapu w v : 0 < w -> in_s w v = true -> wraps w (wrapu w v) = v.
Proof.
  intros Hw. rewrite in_s_spec. unfold wraps, wrapu. intros.
  pose proof (pow2_half w Hw) as Hp.
  assert (0 < 2 ^ w) by (apply Z.pow_pos_nonneg; lia).
  rewrite Z.mod_mod by lia.
  destruct (Z.ltb_spec v 0).
  - replace (v mod 2 ^ w) with (v + 2 ^ w).
    + destruct (Z.ltb_spec (v + 2 ^ w) (2 ^ (w - 1))); lia.
    + apply (Z.mod_unique_pos _ _ (-1)); lia.
  - rewrite Z.mod_small by lia.
    destruct (Z.ltb_spec v (2 ^ (w - 1))); lia.
Qed.

Lemma wraps_id w v : 0 < w -> in_s w v = true -> wraps w v = v.
Proof.
  intros Hw Hv. rewrite <-(wraps_wrapu w v Hw Hv) at 2. unfold wraps, wrapu.
  rewrite Z.mod_mod; [done|]. pose proof (Z.pow_pos_nonneg 2 w). lia.
Qed.

(** Values below the sign bit are kept by the conversions to and from int64. *)
Lemma i64_id v : 0 <= v < 9223372036854775808 -> i64 v = v.
Proof. intros. apply wraps_id; [lia|]. rewrite in_s_spec. simpl. lia. Qed.
Lemma u64_id v : 0 <= v < 18446744073709551616 -> u64 v = v.
Proof. intros. apply wrapu_id. rewrite in_u_spec. lia. Qed.
Lemma u32_id v : 0 <= v < 4294967296 -> u32 v = v.
Proof. intros. apply wrapu_id. rewrite in_u_spec. lia. Qed.

Lemma wrapu_wraps w v : 0 < w -> wrapu w (wraps w v) = wrapu w v.
Proof.
  intros Hw. unfold wraps, wrapu.
  assert (0 < 2 ^ w) by (apply Z.pow_pos_nonneg; lia).
  destruct (Z.ltb_spec (v mod 2 ^ w) (2 ^ (w - 1))).
  - by rewrite Z.mod_mod by lia.
  - rewrite <-(Z_mod_plus_full (v mod 2 ^ w - 2 ^ w) 1 (2 ^ w)).
    replace (v mod 2 ^ w - 2 ^ w + 1 * 2 ^ w) with (v mod 2 ^ w) by lia.
    by rewrite Z.mod_mod by lia.
Qed.

(** ** Bytes, byte strings and little-endian integers *)

Abbreviation bytes := (list byte) (only parsing).
(** A Go string is a sequence of bytes. *)
Abbreviation gostring := (list byte) (only parsing).

#[global] Instance byte_eq_dec : EqDecision byte := Byte.byte_eq_dec.
#[global] Program Instance byte_countable : Countable byte :=
  inj_countable Byte.to_N Byte.of_N _.
Next Obligation. intros b. apply Byte.of_to_N. Qed.

Definition byte_val (b : byte) : Z := Z.of_N (Byte.to_N b).
Definition byte_of_Z (v : Z) : byte :=
  match Byte.of_N (Z.to_N (v mod 256)) with Some b => b | None => x00 end.

Definition str (s : string) : gostring := String.list_byte_of_string s.

Definition len {A} (l : list A) : Z := Z.of_nat (length l).

Lemma byte_val_range b : 0 <= byte_val b < 256.
Proof.
  unfold byte_val. split; [apply N2Z.is_nonneg|].
  pose proof (Byte.to_N_bounded b). lia.
Qed.

Lemma byte_val_of_Z v : byte_val (byte_of_Z v) = v mod 256.
Proof.
  unfold byte_val, byte_of_Z. pose proof (Z.mod_pos_bound v 256 ltac:(lia)) as Hb.
  destruct (Byte.of_N (Z.to_N (v mod 256))) as [b|] eqn:E.
  - apply Byte.to_of_N in E. rewrite E. lia.
  - apply Byte.of_N_None_iff in E. lia.
Qed.

Lemma byte_of_Z_val b : byte_of_Z (byte_val b) = b.
Proof.
  unfold byte_of_Z. rewrite Z.mod_small by apply byte_val_range.
  unfold byte_val. rewrite N2Z.id. by rewrite Byte.of_to_N.
Qed.

#[global] Instance byte_val_inj : Inj (=) (=) byte_val.
Proof. intros a b H. by rewrite <-(byte_of_Z_val a), H, byte_of_Z_val. Qed.

Fixpoint le_bytes (n : nat) (v : Z) : bytes :=
  match n with
  | O => []
  | S n' => byte_of_Z (v mod 256) :: le_bytes n' (v / 256)
  end.

Fixpoint le_value (bs : bytes) : Z :=
  match bs with
  | [] => 0
  | b :: bs' => byte_val b + 256 * le_value bs'
  end.

Lemma length_le_bytes n v : length (le_bytes n v) = n.
Proof. revert v. induction n; intros; simpl; auto. Qed.

Lemma le_value_range bs : 0 <= le_value bs < 256 ^ len bs.
Proof.
  induction bs as [|b bs IH]; [simpl; unfold len; simpl; lia|].
  unfold len in *. simpl length. rewrite Nat2Z.inj_succ, Z.pow_succ_r by lia.
  simpl. pose proof (byte_val_range b). lia.
Qed.

Lemma le_value_le_bytes n v : le_value (le_bytes n v) = v mod 256 ^ Z.of_nat n.
Proof.
  revert v. induction n as [|n IH]; intros v.
  - simpl. by rewrite Z.mod_1_r.
  - cbn [le_bytes le_value].
    rewrite IH, byte_val_of_Z, Z.mod_mod by lia.
    rewrite Nat2Z.inj_succ, Z.pow_succ_r by lia.
    rewrite Z.rem_mul_r; [lia|lia|]. apply Z.pow_pos_nonneg; lia.
Qed.

Lemma le_bytes_le_value bs n : length bs = n -> le_bytes n (le_value bs) = bs.
Proof.
  intros <-. induction bs as [|b bs IH]; [done|].
  cbn [le_bytes le_value length]. f_equal.
  - rewrite (Z.mul_comm 256), Z_mod_plus_full.
    rewrite Z.mod_small by apply byte_val_range. apply byte_of_Z_val.
  - rewrite (Z.mul_comm 256), Z_div_plus_full by lia.
    rewrite Z.div_small by apply byte_val_range. by rewrite Z.add_0_l.
Qed.

(** ** Lists *)

Lemma sum_insert {A} (f : A -> nat) (l : list A) i x y :
  l !! i = Some y -> (sum_list_with f (<[i := x]> l) + f y = sum_list_with f l + f x)%nat.
Proof.
  revert i. induction l as [|z l IH]; intros [|i] Hi; simpl in *; try done.
  - injection Hi as ->. lia.
  - specialize (IH i Hi). lia.
Qed.
