(* ===== verification/GoIO.v ===== *)
(** * Readers, writers and byte buffers

    The part of Go's [io] the protocol code is written against, and
    [util.Buffer] (src/src/internal/util/buffer.go), the fixed-size buffer every
    response is assembled in.

    - A reader is one message: the bytes still to be read, the condition met
      after them ([EOF] for a complete message, any other error for a broken
      connection) and a schedule that bounds what each single [Read] returns
      (an entry [s] allows [S s] bytes, so a [Read] into a non-empty slice makes
      progress, as the [io.Reader] contract asks). Statements quantified over
      readers so cover every way the transport may split a message.
    - A writer is anything with [Write]; the two laws of class [Writer] say that
      writing in pieces is writing the concatenation. [Buffer] is an instance,
      and so is [wstream], the frame under construction of a websocket writer. *)
From S2P Require Import Prelude.

Inductive goerror :=
| EOF
| ErrUnexpectedEOF
| ErrShortBuffer
| ErrShortWrite
| ErrStringTooLong
| ErrConn (n : Z). (* an error of the transport *)

#[global] Instance goerror_eq_dec : EqDecision goerror.
Proof. solve_decision. Defined.

(** ** Readers *)

Record reader := mkReader {
  rd_data : bytes;
  rd_sched : list nat;
  rd_end : goerror;
}.

Abbreviation RM := (SE goerror reader).

Definition set_data (d : bytes) (r : reader) : reader :=
  mkReader d (rd_sched r) (rd_end r).

(** [r.Read(p)] with [len(p) = n]: what was read and the error. *)
Definition rd_Read (n : nat) (r : reader) : (bytes * option goerror) * reader :=
  match n, rd_data r with
  | O, _ => (([], None), r)
  | _, [] => (([], Some (rd_end r)), r)
  | _, d =>
      let k := match rd_sched r with [] => n | s :: _ => S s `min` n end%nat in
      ((take k d, None), mkReader (drop k d) (tail (rd_sched r)) (rd_end r))
  end.

(** [io.ReadFull(r, buf)] with [len(buf) = n]. *)
Definition ReadFull (n : nat) : RM bytes := fun r =>
  if decide (n <= length (rd_data r))%nat
  then (Ok (take n (rd_data r)), set_data (drop n (rd_data r)) r)
  else (Err (match rd_end r, rd_data r with
             | EOF, [] => EOF
             | EOF, _ => ErrUnexpectedEOF
             | e, _ => e
             end), set_data [] r).

(** [io.ReadAll(r)]. *)
Definition ReadAll : RM bytes := fun r =>
  (match rd_end r with EOF => Ok (rd_data r) | e => Err e end, set_data [] r).

Lemma ReadFull_app bs rest r :
  rd_data r = bs ++ rest -> ReadFull (length bs) r = (Ok bs, set_data rest r).
Proof.
  intros H. unfold ReadFull. rewrite H, length_app, decide_True by lia.
  by rewrite take_app_length, drop_app_length.
Qed.

Lemma ReadFull_Ok n r bs r' :
  ReadFull n r = (Ok bs, r') ->
  length bs = n /\ rd_data r = bs ++ rd_data r' /\
  rd_end r' = rd_end r /\ rd_sched r' = rd_sched r.
Proof.
  unfold ReadFull. case_decide; intros; simplify_eq/=.
  rewrite length_take, take_drop. auto with lia.
Qed.

(** ** Writers *)

Class Writer (W : Type) := {
  w_Write : bytes -> SE goerror W unit;
  w_ok : W -> Prop;
  w_Write_ok : forall a w, w_ok w -> w_ok (w_Write a w).2;
  w_Write_nil : forall w, w_ok w -> w_Write [] w = (Ok tt, w);
  w_Write_app : forall a b w,
    w_ok w -> w_Write (a ++ b) w = (w_Write a ≫= fun _ => w_Write b) w;
}.

(** The writer of a websocket message: bytes are collected until the message
    is closed; [ws_room] is the number of bytes after which the connection
    breaks, [None] while it does not. *)
Record wstream := mkStream { ws_out : bytes; ws_room : option nat }.

Definition wstream_Write (d : bytes) : SE goerror wstream unit := fun w =>
  match ws_room w with
  | None => (Ok tt, mkStream (ws_out w ++ d) None)
  | Some k =>
      if decide (length d <= k)%nat
      then (Ok tt, mkStream (ws_out w ++ d) (Some (k - length d)%nat))
      else (Err (ErrConn 0), mkStream (ws_out w ++ take k d) (Some 0%nat))
  end.

#[global] Program Instance wstream_Writer : Writer wstream :=
  {| w_Write := wstream_Write; w_ok := fun _ => True |}.
Next Obligation. done. Qed.
Next Obligation.
  intros [o [k|]] _; unfold wstream_Write; simpl; rewrite app_nil_r; [|done].
  by rewrite Nat.sub_0_r.
Qed.
Next Obligation.
  intros a b [o [k|]] _; unfold wstream_Write, mbind, SE_bind; simpl; [|by rewrite app_assoc].
  rewrite length_app. repeat (case_decide; simpl in *); try lia; rewrite <-?app_assoc.
  - do 2 f_equal. f_equal. lia.
  - do 2 f_equal. rewrite take_app, (take_ge a) by lia. done.
  - do 2 f_equal. rewrite take_app_le by lia. done.
Qed.

(** ** util.Buffer *)

Record Buffer := mkBuffer { Bytes : bytes; written : Z }.

Definition NewBuffer (size : Z) : Buffer := mkBuffer (replicate (Z.to_nat size) x00) 0.

(** [copy(dst[off:], d)] on an array. *)
Definition splice (off : nat) (d dst : bytes) : bytes :=
  take off dst ++ d ++ drop (off + length d) dst.

(** [(b *Buffer) Write]: the bytes that fit are copied; the result is [n, err]. *)
Definition Buffer_Write (d : bytes) (b : Buffer) : (Z * option goerror) * Buffer :=
  let avail := len (Bytes b) - written b in
  let '(size, err) :=
    if len d >? avail then (avail, Some ErrShortWrite) else (len d, None) in
  let n := size in
  ((n, err),
   mkBuffer (splice (Z.to_nat (written b)) (take (Z.to_nat size) d) (Bytes b))
            (written b + n)).

Definition Buffer_Written (b : Buffer) : Z := written b.
Definition Buffer_Done (b : Buffer) : bytes * Buffer :=
  (take (Z.to_nat (written b)) (Bytes b), mkBuffer (Bytes b) 0).
Definition Buffer_Grow (n : Z) (b : Buffer) : Buffer := mkBuffer (Bytes b) (written b + n).
Definition Buffer_Reset (b : Buffer) : Buffer := mkBuffer (Bytes b) 0.

(** What the buffer holds, and the invariant its operations keep. *)
Definition buf_contents (b : Buffer) : bytes := take (Z.to_nat (written b)) (Bytes b).
Definition buf_ok (b : Buffer) : Prop := 0 <= written b <= len (Bytes b).
Definition buf_room (b : Buffer) : Z := len (Bytes b) - written b.

Lemma length_splice off d dst :
  (off + length d <= length dst)%nat -> length (splice off d dst) = length dst.
Proof. intros. unfold splice. rewrite !length_app, length_take, length_drop. lia. Qed.

Lemma take_splice off d dst :
  (off + length d <= length dst)%nat ->
  take (off + length d) (splice off d dst) = take off dst ++ d.
Proof.
  intros. unfold splice. rewrite app_assoc, take_app_length'; [done|].
  rewrite length_app, length_take. lia.
Qed.

(** One [Write]: the contents grow by the part of [d] that fits, and an error is
    reported exactly when it does not fit as a whole. *)
Lemma Buffer_Write_spec d b :
  buf_ok b ->
  let k := Z.to_nat (buf_room b) in
  let '((n, err), b') := Buffer_Write d b in
  buf_ok b' /\ len (Bytes b') = len (Bytes b) /\
  buf_contents b' = buf_contents b ++ take k d /\
  n = len (take k d) /\
  err = if len d >? buf_room b then Some ErrShortWrite else None.
Proof.
  intros [H0 H1] k. unfold Buffer_Write, buf_room, buf_ok, buf_contents, len in *.
  set (t := if Z.of_nat (length d) >? Z.of_nat (length (Bytes b)) - written b
            then (Z.of_nat (length (Bytes b)) - written b, Some ErrShortWrite)
            else (Z.of_nat (length d), None)).
  assert (take (Z.to_nat t.1) d = take k d /\ t.1 = Z.of_nat (length (take k d)) /\
          t.2 = if Z.of_nat (length d) >? Z.of_nat (length (Bytes b)) - written b
                then Some ErrShortWrite else None) as (Ht & Hn & He).
  { unfold t, k. destruct (Z.gtb_spec (Z.of_nat (length d)) (Z.of_nat (length (Bytes b)) - written b)); simpl.
    - rewrite length_take. repeat split; lia.
    - rewrite Nat2Z.id, !take_ge by lia. done. }
  destruct t as [size err]. simpl in *. subst err size. rewrite Ht.
  pose proof (length_take d k) as Hk.
  assert (Z.to_nat (written b) + length (take k d) <= length (Bytes b))%nat by lia.
  simpl. rewrite length_splice by done. split_and!; try done; try lia.
  replace (Z.to_nat (written b + Z.of_nat (length (take k d))))
    with (Z.to_nat (written b) + length (take k d))%nat by lia.
  by rewrite take_splice.
Qed.

(** [Buffer] through the [io.Writer] interface, where the count is dropped. *)
Definition Buffer_writer (d : bytes) : SE goerror Buffer unit := fun b =>
  let '((_, err), b') := Buffer_Write d b in
  (match err with None => Ok tt | Some e => Err e end, b').

Lemma Buffer_Write_fits d b :
  buf_ok b -> len d <= buf_room b ->
  Buffer_writer d b =
    (Ok tt, mkBuffer (splice (Z.to_nat (written b)) d (Bytes b)) (written b + len d)).
Proof.
  intros _ H. unfold Buffer_writer, Buffer_Write, buf_room, len in *.
  destruct (Z.gtb_spec (Z.of_nat (length d)) (Z.of_nat (length (Bytes b)) - written b)); [lia|].
  by rewrite Nat2Z.id, firstn_all.
Qed.

Lemma Buffer_Write_short d b :
  buf_ok b -> buf_room b < len d ->
  Buffer_writer d b =
    (Err ErrShortWrite,
     mkBuffer (splice (Z.to_nat (written b)) (take (Z.to_nat (buf_room b)) d) (Bytes b))
              (len (Bytes b))).
Proof.
  intros _ H. unfold Buffer_writer, Buffer_Write, buf_room, len in *.
  destruct (Z.gtb_spec (Z.of_nat (length d)) (Z.of_nat (length (Bytes b)) - written b)); [|lia].
  do 2 f_equal. lia.
Qed.

Lemma splice_splice off a b dst :
  (off + length a <= length dst)%nat ->
  splice (off + length a) b (splice off a dst) = splice off (a ++ b) dst.
Proof.
  intros. unfold splice at 1. rewrite take_splice by done.
  unfold splice. rewrite length_app, <-!app_assoc. do 3 f_equal.
  rewrite !app_assoc, drop_app_ge by (rewrite length_app, length_take; lia).
  rewrite length_app, length_take, drop_drop. f_equal. lia.
Qed.

Lemma buf_ok_splice off d dst w :
  (off + length d <= length dst)%nat -> w = Z.of_nat (off + length d) ->
  buf_ok (mkBuffer (splice off d dst) w).
Proof. intros. unfold buf_ok, len. simpl. rewrite length_splice by done. lia. Qed.

#[global] Program Instance Buffer_Writer : Writer Buffer :=
  {| w_Write := Buffer_writer; w_ok := buf_ok |}.
Next Obligation.
  intros a b Hb. pose proof (Buffer_Write_spec a b Hb) as H. unfold Buffer_writer.
  destruct (Buffer_Write a b) as [[n e] b']. naive_solver.
Qed.
Next Obligation.
  intros [d w] Hb. rewrite Buffer_Write_fits by (done || unfold buf_ok, buf_room, len in *; simpl in *; lia).
  unfold splice. simpl. rewrite Nat.add_0_r, take_drop. do 2 f_equal. unfold len. simpl. lia.
Qed.
Next Obligation.
  intros x y b Hb. pose proof Hb as [H0 H1]. unfold mbind, SE_bind.
  assert (len (x ++ y) = len x + len y) as Hl by (unfold len; rewrite length_app; lia).
  destruct (decide (len x <= buf_room b)) as [Hx|Hx].
  - rewrite (Buffer_Write_fits x b) by done.
    set (b1 := mkBuffer _ _).
    assert (Z.to_nat (written b) + length x <= length (Bytes b))%nat as Hf
      by (unfold buf_room, len in *; lia).
    assert (buf_ok b1) as Hb1 by (apply buf_ok_splice; [done|unfold len; lia]).
    assert (buf_room b1 = buf_room b - len x) as Hr.
    { unfold b1, buf_room, len. simpl. rewrite length_splice by done. lia. }
    assert (Z.to_nat (written b1) = (Z.to_nat (written b) + length x)%nat) as Hw
      by (unfold b1, len; simpl; lia).
    destruct (decide (len (x ++ y) <= buf_room b)) as [Hxy|Hxy].
    + rewrite !Buffer_Write_fits by (done || lia). rewrite Hw. unfold b1 at 1. simpl.
      rewrite splice_splice by done. do 2 f_equal. lia.
    + rewrite !Buffer_Write_short by (done || lia). rewrite Hw, Hr. unfold b1 at 1. simpl.
      rewrite splice_splice by done. f_equal. f_equal; [f_equal|].
      * rewrite take_app, (take_ge x) by (unfold len in *; lia). do 2 f_equal.
        unfold len; lia.
      * unfold b1, len. simpl. rewrite length_splice by done. done.
  - rewrite !Buffer_Write_short by (done || (unfold len in *; lia)).
    rewrite take_app_le by (unfold buf_room, len in *; lia). done.
Qed.

(** ** Contents of a buffer *)

Lemma Buffer_Done_contents b : (Buffer_Done b).1 = buf_contents b.
Proof. done. Qed.

Lemma Buffer_Done_reset b : (Buffer_Done b).2 = mkBuffer (Bytes b) 0.
Proof. done. Qed.

Lemma buf_contents_length b : buf_ok b -> len (buf_contents b) = written b.
Proof.
  intros [H0 H1]. unfold buf_contents, len in *. rewrite length_take. lia.
Qed.

(** A write that fits. *)
Lemma Buffer_Write_contents d b :
  buf_ok b -> len d <= buf_room b ->
  let b' := (Buffer_Write d b).2 in
  buf_ok b' /\ buf_contents b' = buf_contents b ++ d /\
  written b' = written b + len d /\ len (Bytes b') = len (Bytes b).
Proof.
  intros Hb Hl b'. pose proof (Buffer_Write_spec d b Hb) as H. subst b'.
  destruct (Buffer_Write d b) as [[n e] b'] eqn:E. simpl.
  destruct H as (Hb' & Hlen & Hc & _ & _).
  rewrite take_ge in Hc by (unfold len in *; lia). split_and!; try done.
  rewrite <-(buf_contents_length b' Hb'), Hc, <-(buf_contents_length b Hb).
  unfold len. rewrite length_app. lia.
Qed.

(** Bytes stored behind the contents and counted with [Grow]. *)
Lemma Buffer_fill_contents d b :
  buf_ok b -> len d <= buf_room b ->
  let b' := Buffer_Grow (len d)
              (mkBuffer (splice (Z.to_nat (Buffer_Written b)) d (Bytes b)) (written b)) in
  buf_ok b' /\ buf_contents b' = buf_contents b ++ d.
Proof.
  intros Hb Hl. unfold Buffer_Grow, Buffer_Written. simpl.
  pose proof (Buffer_Write_fits d b Hb Hl) as E. unfold Buffer_writer in E.
  pose proof (Buffer_Write_contents d b Hb Hl) as (H1 & H2 & _).
  destruct (Buffer_Write d b) as [[n e] b']. simpl in *. injection E as _ <-. done.
Qed.

Lemma take_splice_inside off d dst n :
  (off + length d <= n)%nat -> (n <= length dst)%nat ->
  take n (splice off d dst) = splice off d (take n dst).
Proof.
  intros H1 H2. unfold splice. rewrite app_assoc, take_app_ge.
  - rewrite <-app_assoc, take_take. f_equal; [f_equal; lia|]. f_equal.
    rewrite length_app, length_take, take_drop_commute. do 2 f_equal. lia.
  - rewrite length_app, length_take. lia.
Qed.

(** Overwriting the second byte of the contents. *)
Lemma Buffer_set_second d b x y rest :
  buf_ok b -> length d = 1%nat -> buf_contents b = x :: y :: rest ->
  let b' := mkBuffer (splice 1 d (Bytes b)) (written b) in
  buf_ok b' /\ buf_contents b' = x :: d ++ rest.
Proof.
  intros Hb Hd Hc. pose proof (buf_contents_length b Hb) as Hl. rewrite Hc in Hl.
  destruct Hb as [H0 H1]. unfold len in Hl. simpl in Hl. unfold len in H1. split.
  - split; simpl; [lia|]. unfold len. rewrite length_splice by lia. lia.
  - unfold buf_contents in *. simpl. rewrite take_splice_inside by lia. rewrite Hc.
    unfold splice. rewrite Hd. done.
Qed.
