(* ===== verification/Codec.v ===== *)
(** * The wire format and the interface of a struct codec

    The generated helpers of src/src/internal/share/wsfsprotocol come in two
    versions, one for amd64 and one for every other architecture. What both
    promise is stated here once: a struct is a list of typed fields ([fval], in
    the order of the declarations of struct.go) and its wire image is the
    little-endian image of the fields, strings with a 16-bit length prefix and a
    final byte slice without one ([enc]). [codec] is the record of operations of
    a struct (write, read, required size) and [CodecOk] the laws; StructGen and
    StructAmd64 prove them for every struct, and what is derived here (round
    trips, agreement of the two versions, injectivity) is proved from the laws
    alone. string.go and its two architecture files are modelled here too. *)
From S2P Require Import Prelude GoIO.

(** ** Fields and their wire image *)

Inductive fval :=
| FU8 (v : Z)
| FU32 (v : Z)
| FU64 (v : Z)
| FI64 (v : Z)
| FStr (s : gostring)
| FBytes (b : bytes).

Definition fval_wf (f : fval) : bool :=
  match f with
  | FU8 v => in_u 8 v
  | FU32 v => in_u 32 v
  | FU64 v => in_u 64 v
  | FI64 v => in_s 64 v
  | FStr s => len s <=? 65535
  | FBytes _ => true
  end.

Definition is_FBytes (f : fval) : bool := if f is FBytes _ then true else false.

Definition wf_fields (fs : list fval) : bool := forallb fval_wf fs.
Definition has_tail (fs : list fval) : bool := existsb is_FBytes fs.

(** What is written for a field, and the error met after writing it. *)
Abbreviation image := (bytes * option goerror)%type.

Definition enc1 (f : fval) : image :=
  match f with
  | FU8 v => (le_bytes 1 v, None)
  | FU32 v => (le_bytes 4 v, None)
  | FU64 v => (le_bytes 8 v, None)
  | FI64 v => (le_bytes 8 (u64 v), None)
  | FStr s => if len s >? 65535 then ([], Some ErrStringTooLong)
              else (le_bytes 2 (len s) ++ s, None)
  | FBytes b => (b, None)
  end.

Definition icat (p q : image) : image :=
  match p with
  | (a, None) => (a ++ q.1, q.2)
  | (a, Some e) => (a, Some e)
  end.

Fixpoint enc (fs : list fval) : image :=
  match fs with
  | [] => ([], None)
  | f :: fs' => icat (enc1 f) (enc fs')
  end.

(** The wire image of a struct. *)
Definition wire (fs : list fval) : bytes := (enc fs).1.

#[global] Instance icat_assoc : Assoc (=) icat.
Proof.
  intros [a [e|]] [b [e'|]] [c e'']; unfold icat; simpl; rewrite ?app_assoc; done.
Qed.

Lemma icat_nil_l p : icat ([], None) p = p.
Proof. by destruct p. Qed.

Lemma icat_nil_r p : icat p ([], None) = p.
Proof. destruct p as [a [e|]]; simpl; rewrite ?app_nil_r; done. Qed.

Lemma enc_app fs gs : enc (fs ++ gs) = icat (enc fs) (enc gs).
Proof.
  induction fs as [|f fs IH]; cbn [enc app]; [by rewrite icat_nil_l|].
  by rewrite IH, assoc by apply _.
Qed.

Lemma wf_fields_app fs gs : wf_fields (fs ++ gs) = wf_fields fs && wf_fields gs.
Proof. apply forallb_app. Qed.

Lemma wf_fields_cons f fs : wf_fields (f :: fs) = fval_wf f && wf_fields fs.
Proof. done. Qed.
Lemma wf_fields_nil : wf_fields [] = true.
Proof. done. Qed.

Lemma wf_enc1 f : fval_wf f = true -> (enc1 f).2 = None.
Proof.
  destruct f; simpl; try done. intros H%Z.leb_le.
  destruct (Z.gtb_spec (len s) 65535); [lia|done].
Qed.

Lemma wf_enc fs : wf_fields fs = true -> enc fs = (wire fs, None).
Proof.
  unfold wire. induction fs as [|f fs IH]; [done|]. cbn [wf_fields forallb].
  intros [Hf%wf_enc1 H]%andb_true_iff. specialize (IH H). cbn [enc].
  destruct (enc1 f) as [a e]. simpl in Hf. subst e. simpl.
  destruct (enc fs) as [b e']. simpl in *. by simplify_eq.
Qed.

Lemma wire_app fs gs : wf_fields fs = true -> wire (fs ++ gs) = wire fs ++ wire gs.
Proof. intros H. unfold wire. rewrite enc_app, (wf_enc _ H). done. Qed.

(** ** Writing an image *)

Section Out.
Context {W : Type} `{Writer W}.

Definition out (p : image) : SE goerror W unit :=
  match p with
  | (b, None) => w_Write b
  | (b, Some e) => w_Write b ≫= fun _ => se_fail e
  end.

Lemma out_ok p w : w_ok w -> w_ok (out p w).2.
Proof.
  intros Hw. pose proof (w_Write_ok p.1 w Hw) as Hk.
  destruct p as [b [e|]]; [|done]. simpl in *. unfold mbind, SE_bind.
  by destruct (w_Write b w) as [[?|?] ?].
Qed.

Lemma out_nil w : w_ok w -> out ([], None) w = (Ok tt, w).
Proof. apply w_Write_nil. Qed.

Lemma out_Write b w : w_Write b w = out (b, None) w.
Proof. done. Qed.

Lemma out_ret w : w_ok w -> (mret tt : SE goerror W unit) w = out ([], None) w.
Proof. intros. by rewrite out_nil. Qed.

(** Two statements in a row. *)
Lemma out_seq (m k : SE goerror W unit) p q w :
  (forall w, w_ok w -> m w = out p w) -> (forall w, w_ok w -> k w = out q w) ->
  w_ok w -> (m ≫= fun _ => k) w = out (icat p q) w.
Proof.
  intros Hm Hk Hw. unfold mbind at 1, SE_bind at 1. rewrite Hm by done.
  pose proof (out_ok p w Hw) as Hp.
  destruct p as [a [e|]]; simpl in *.
  - unfold mbind, SE_bind in *. by destruct (w_Write a w) as [[[]|?] ?].
  - destruct q as [b [e|]]; simpl.
    + unfold mbind at 1, SE_bind at 1. rewrite w_Write_app by done.
      unfold mbind, SE_bind. destruct (w_Write a w) as [[[]|?] w']; [|done].
      by rewrite Hk by done.
    + rewrite w_Write_app by done. unfold mbind, SE_bind.
      destruct (w_Write a w) as [[[]|?] w']; [|done]. by rewrite Hk by done.
Qed.
End Out.

(** ** Strings: string.go, string-nonamd64.go, string-amd64.go *)

(** [var buf [n]byte], [binary.LittleEndian.PutUintN(buf[off:], v)],
    [binary.LittleEndian.UintN(buf[off:])] and single-byte accesses. *)
Definition make_array (n : nat) : bytes := replicate n x00.
Definition PutUint8 (buf : bytes) (off : nat) (v : Z) : bytes := splice off (le_bytes 1 v) buf.
Definition PutUint16 (buf : bytes) (off : nat) (v : Z) : bytes := splice off (le_bytes 2 v) buf.
Definition PutUint32 (buf : bytes) (off : nat) (v : Z) : bytes := splice off (le_bytes 4 v) buf.
Definition PutUint64 (buf : bytes) (off : nat) (v : Z) : bytes := splice off (le_bytes 8 v) buf.
Definition Uint8 (buf : bytes) (off : nat) : Z := le_value (take 1 (drop off buf)).
Definition Uint16 (buf : bytes) (off : nat) : Z := le_value (take 2 (drop off buf)).
Definition Uint32 (buf : bytes) (off : nat) : Z := le_value (take 4 (drop off buf)).
Definition Uint64 (buf : bytes) (off : nat) : Z := le_value (take 8 (drop off buf)).

(** The memory image of an integer on a little-endian machine, which is what
    [unsafe.Slice] of a byte pointer to the field and its size denotes on amd64. *)
Definition mem (n : nat) (v : Z) : bytes := le_bytes n v.
Definition of_mem (bs : bytes) : Z := le_value bs.

Definition writeStrLenPrefix {W} `{Writer W} (length : Z) : SE goerror W unit :=
  let buf := make_array 2 in
  let buf := PutUint16 buf 0 length in
  w_Write buf.

Definition readStrLenPrefix : RM Z :=
  buf ← ReadFull 2;
  mret (Uint16 buf 0).

Definition writeStrLenPrefix_amd64 {W} `{Writer W} (length : Z) : SE goerror W unit :=
  w_Write (mem 2 length).

Definition readStrLenPrefix_amd64 : RM Z :=
  buf ← ReadFull 2;
  mret (of_mem buf).

Section Strings.
(** string.go is shared: it calls the prefix functions of the architecture. *)
Context (readPrefix : RM Z) (writePrefix : forall W, Writer W -> Z -> SE goerror W unit).

Definition ReadStrFromReader_ : RM gostring :=
  size ← readPrefix;
  if size =? 0 then mret []
  else ReadFull (Z.to_nat size).

Definition WriteStrToWriter_ {W} `{HW : Writer W} (s : gostring) : SE goerror W unit :=
  if len s >? 0xffff then se_fail ErrStringTooLong
  else
    writePrefix W HW (u16 (len s)) ;;
    if len s =? 0 then mret tt
    else w_Write s.
End Strings.

Definition ReadStrFromReader : RM gostring := ReadStrFromReader_ readStrLenPrefix.
Definition ReadStrFromReader_amd64 : RM gostring := ReadStrFromReader_ readStrLenPrefix_amd64.
Definition WriteStrToWriter {W} `{Writer W} (s : gostring) : SE goerror W unit :=
  WriteStrToWriter_ (fun _ _ => writeStrLenPrefix) s.
Definition WriteStrToWriter_amd64 {W} `{Writer W} (s : gostring) : SE goerror W unit :=
  WriteStrToWriter_ (fun _ _ => writeStrLenPrefix_amd64) s.

(** ** readAllToBuffer: the payload of a command into a preallocated buffer *)

(** The loop [for n < len(dataBuf)]; [n] is the length of [acc]. *)
Fixpoint readAllToBuffer_loop (fuel : nat) (L : nat) (acc : bytes) (r : reader)
  : (bytes * option (result goerror bytes)) * reader :=
  if decide (length acc < L)%nat then
    match fuel with
    | O => ((acc, None), r)
    | S fuel' =>
        let '((got, err), r') := rd_Read (L - length acc) r in
        match err with
        | Some EOF => ((acc ++ got, Some (Ok (acc ++ got))), r')
        | Some e => ((acc ++ got, Some (Err e)), r')
        | None => readAllToBuffer_loop fuel' L (acc ++ got) r'
        end
    end
  else ((acc, None), r).

(** Every [Read] that returns no error consumes a byte, so one more iteration
    than there are bytes reaches the end of the loop ([readAllToBuffer_spec]). *)
Definition readAllToBuffer (L : nat) : RM bytes := fun r =>
  match readAllToBuffer_loop (S (length (rd_data r))) L [] r with
  | ((_, Some res), r') => (res, r')
  | ((acc, None), r') =>
      let '((extra, err), r'') := rd_Read 1 r' in
      if len extra >? 0 then (Err ErrShortBuffer, r'')
      else match err with
           | Some EOF => (Ok acc, r'')
           | Some e => (Err e, r'')
           | None => (Ok [], r'')
           end
  end.

(** ** The codec interface *)

Record codec (A : Type) := mkCodec {
  c_write : forall W, Writer W -> A -> SE goerror W unit;
  c_read : RM A;
  c_size : A -> Z;
}.
Arguments c_write {A} _ {W} {_} _.
Arguments c_read {A} _.
Arguments c_size {A} _ _.

Class CodecOk {A} (fields : A -> list fval) (c : codec A) := {
  c_write_spec W `{Writer W} d w : w_ok w -> c_write c d w = out (enc (fields d)) w;
  c_read_complete d r rest :
    wf_fields (fields d) = true ->
    rd_data r = wire (fields d) ++ rest ->
    (has_tail (fields d) = true -> rest = [] /\ rd_end r = EOF) ->
    c_read c r = (Ok d, set_data rest r);
  c_read_sound r d r' :
    c_read c r = (Ok d, r') ->
    wf_fields (fields d) = true /\
    rd_data r = wire (fields d) ++ rd_data r' /\
    r' = set_data (rd_data r') r /\
    (has_tail (fields d) = true -> rd_data r' = [] /\ rd_end r = EOF);
  c_size_spec d : wf_fields (fields d) = true -> c_size c d = len (wire (fields d));
}.

(** ** Helper lemmas of the struct proofs *)

Lemma se_bind_Ok {E S A B} (m : SE E S A) (k : A -> SE E S B) s a s' :
  m s = (Ok a, s') -> (m ≫= k) s = k a s'.
Proof. intros H. unfold mbind, SE_bind. by rewrite H. Qed.

Lemma se_bind_inv {E S A B} (m : SE E S A) (k : A -> SE E S B) s b s' :
  (m ≫= k) s = (Ok b, s') -> exists a s1, m s = (Ok a, s1) /\ k a s1 = (Ok b, s').
Proof. unfold mbind, SE_bind. destruct (m s) as [[a|e] s1]; naive_solver. Qed.

Lemma se_ret_inv {E S A} (a b : A) (s s' : S) :
  (mret a : SE E S A) s = (Ok b, s') -> a = b /\ s = s'.
Proof. unfold mret, SE_ret. naive_solver. Qed.

Lemma set_data_set_data a b r : set_data a (set_data b r) = set_data a r.
Proof. done. Qed.

Lemma set_data_id r : set_data (rd_data r) r = r.
Proof. by destruct r. Qed.

Lemma set_data_eq r r' : rd_end r' = rd_end r -> rd_sched r' = rd_sched r ->
  r' = set_data (rd_data r') r.
Proof. destruct r, r'; unfold set_data; simpl. by intros -> ->. Qed.

Lemma ReadFull_data n L r :
  rd_data r = L -> (n <= length L)%nat ->
  ReadFull n r = (Ok (take n L), set_data (drop n L) r).
Proof. intros <- H. unfold ReadFull. by rewrite decide_True. Qed.

(** [r'] is [r] after the bytes [bs]. *)
Definition consumed (r : reader) (bs : bytes) (r' : reader) : Prop :=
  rd_data r = bs ++ rd_data r' /\ r' = set_data (rd_data r') r.

Lemma reader_chain r r1 r2 :
  r1 = set_data (rd_data r1) r -> r2 = set_data (rd_data r2) r1 -> r2 = set_data (rd_data r2) r.
Proof. intros H1 H2. rewrite H2 at 1. by rewrite H1. Qed.

Lemma consumed_nil r : consumed r [] r.
Proof. split; [done|by rewrite set_data_id]. Qed.

Lemma consumed_app r a r1 b r2 :
  consumed r a r1 -> consumed r1 b r2 -> consumed r (a ++ b) r2.
Proof.
  intros [H1 E1] [H2 E2]. split; [by rewrite H1, H2, app_assoc|].
  by apply (reader_chain r r1 r2).
Qed.

Lemma consumed_end r bs r' : consumed r bs r' -> rd_end r' = rd_end r.
Proof. intros [_ ->]. done. Qed.

Lemma ReadFull_sound n r bs r' :
  ReadFull n r = (Ok bs, r') ->
  length bs = n /\ consumed r bs r'.
Proof.
  intros (? & ? & ? & ?)%ReadFull_Ok. repeat split; auto using set_data_eq.
Qed.

Lemma ReadAll_complete r : rd_end r = EOF -> ReadAll r = (Ok (rd_data r), set_data [] r).
Proof. unfold ReadAll. by intros ->. Qed.

Lemma ReadAll_sound r d r' :
  ReadAll r = (Ok d, r') -> rd_data r = d /\ rd_end r = EOF /\ r' = set_data [] r.
Proof. unfold ReadAll. destruct (rd_end r); naive_solver. Qed.

(** Little-endian integers of the widths the structs use. *)
Lemma le_value_1 v : in_u 8 v = true -> le_value (le_bytes 1 v) = v.
Proof. rewrite in_u_spec, le_value_le_bytes. apply Z.mod_small. Qed.
Lemma le_value_2 v : in_u 16 v = true -> le_value (le_bytes 2 v) = v.
Proof. rewrite in_u_spec, le_value_le_bytes. apply Z.mod_small. Qed.
Lemma le_value_4 v : in_u 32 v = true -> le_value (le_bytes 4 v) = v.
Proof. rewrite in_u_spec, le_value_le_bytes. apply Z.mod_small. Qed.
Lemma le_value_8 v : in_u 64 v = true -> le_value (le_bytes 8 v) = v.
Proof. rewrite in_u_spec, le_value_le_bytes. apply Z.mod_small. Qed.
Lemma le_value_s8 v : in_s 64 v = true -> i64 (le_value (le_bytes 8 (u64 v))) = v.
Proof.
  intros. unfold i64, u64. rewrite le_value_8 by (by apply wrapu_range).
  by apply wraps_wrapu.
Qed.

Lemma le_value_in_u bs w : w = 8 * len bs -> in_u w (le_value bs) = true.
Proof.
  intros ->. rewrite in_u_spec. pose proof (le_value_range bs) as H.
  rewrite Z.pow_mul_r by (unfold len; lia). exact H.
Qed.

Lemma le_bytes_u bs n : length bs = n -> le_bytes n (le_value bs) = bs.
Proof. apply le_bytes_le_value. Qed.

Lemma le_bytes_s bs :
  length bs = 8%nat -> le_bytes 8 (u64 (i64 (le_value bs))) = bs.
Proof.
  intros H. unfold u64, i64. rewrite wrapu_wraps by lia.
  rewrite wrapu_id; [by apply le_bytes_le_value|].
  apply le_value_in_u. unfold len. by rewrite H.
Qed.

Lemma enc1_str_wf s : len s <= 65535 -> enc1 (FStr s) = (le_bytes 2 (len s) ++ s, None).
Proof. intros. simpl. destruct (Z.gtb_spec (len s) 65535); [lia|done]. Qed.

(** *** Strings *)

Section StringFacts.
Context (readPrefix : RM Z) (writePrefix : forall W, Writer W -> Z -> SE goerror W unit).
Hypothesis Hrp : forall r, readPrefix r = (buf ← ReadFull 2; mret (le_value buf)) r.
Hypothesis Hwp : forall W (HW : Writer W) v w, writePrefix W HW v w = w_Write (le_bytes 2 v) w.

Lemma WriteStr_out_ {W} `{HW : Writer W} s w :
  w_ok w -> WriteStrToWriter_ writePrefix s w = out (enc1 (FStr s)) w.
Proof.
  intros Hw. unfold WriteStrToWriter_. cbn [enc1].
  destruct (Z.gtb_spec (len s) 65535).
  - simpl. unfold mbind, SE_bind. by rewrite w_Write_nil.
  - assert (u16 (len s) = len s) as ->
      by (apply wrapu_id; rewrite in_u_spec; unfold len in *; lia).
    rewrite out_seq with (p := (le_bytes 2 (len s), None)) (q := (s, None));
      [done|auto| |done].
    intros w' Hw'. destruct (Z.eqb_spec (len s) 0) as [E|E]; [|done].
    destruct s; [|unfold len in E; simpl in E; lia]. simpl. by rewrite w_Write_nil.
Qed.

Lemma ReadStr_complete_ s r rest :
  len s <= 65535 -> rd_data r = (le_bytes 2 (len s) ++ s) ++ rest ->
  ReadStrFromReader_ readPrefix r = (Ok s, set_data rest r).
Proof.
  intros Hs Hr. unfold ReadStrFromReader_. rewrite <-app_assoc in Hr.
  erewrite se_bind_Ok.
  2:{ rewrite Hrp. erewrite se_bind_Ok; [done|].
      apply (ReadFull_app (le_bytes 2 (len s)) (s ++ rest)). done. }
  cbn beta. rewrite le_value_2 by (rewrite in_u_spec; unfold len in *; lia).
  destruct (Z.eqb_spec (len s) 0) as [E|E].
  - destruct s; [|unfold len in E; simpl in E; lia]. done.
  - unfold len. rewrite Nat2Z.id. by rewrite (ReadFull_app s rest).
Qed.

Lemma ReadStr_sound_ r s r' :
  ReadStrFromReader_ readPrefix r = (Ok s, r') ->
  len s <= 65535 /\ consumed r (le_bytes 2 (len s) ++ s) r'.
Proof.
  unfold ReadStrFromReader_. intros (v & r1 & H1 & H2)%se_bind_inv.
  rewrite Hrp in H1. apply se_bind_inv in H1 as (buf & r2 & H1 & H3).
  apply ReadFull_sound in H1 as (Hl & Hr2). unfold mret, SE_ret in H3. simplify_eq.
  assert (in_u 16 (le_value buf) = true) as Hv
    by (apply le_value_in_u; unfold len; by rewrite Hl).
  rewrite in_u_spec in Hv.
  destruct (Z.eqb_spec (le_value buf) 0) as [E|E].
  - unfold mret, SE_ret in H2. simplify_eq. split; [unfold len; simpl; lia|].
    change (len (@nil byte)) with 0. rewrite <-E, le_bytes_le_value, app_nil_r by done. done.
  - apply ReadFull_sound in H2 as (Hl2 & Hr').
    assert (len s = le_value buf) as Hs by (unfold len; lia).
    split; [lia|]. rewrite Hs, le_bytes_le_value by done. by eapply consumed_app.
Qed.
End StringFacts.

Lemma writeStrLenPrefix_le {W} `{Writer W} v w : writeStrLenPrefix v w = w_Write (le_bytes 2 v) w.
Proof. done. Qed.

Lemma readStrLenPrefix_le r : readStrLenPrefix r = (buf ← ReadFull 2; mret (le_value buf)) r.
Proof.
  unfold readStrLenPrefix, mbind, SE_bind. destruct (ReadFull 2 r) as [[buf|e] r'] eqn:E; [|done].
  apply ReadFull_sound in E as (Hl & _). unfold Uint16. by rewrite drop_0, take_ge by lia.
Qed.

Lemma WriteStr_out {W} `{HW : Writer W} s w :
  w_ok w -> WriteStrToWriter s w = out (enc1 (FStr s)) w.
Proof. by apply WriteStr_out_. Qed.
Lemma WriteStr_amd64_out {W} `{HW : Writer W} s w :
  w_ok w -> WriteStrToWriter_amd64 s w = out (enc1 (FStr s)) w.
Proof. by apply WriteStr_out_. Qed.
Lemma ReadStr_complete s r rest :
  rd_data r = le_bytes 2 (len s) ++ s ++ rest -> len s <= 65535 ->
  ReadStrFromReader r = (Ok s, set_data rest r).
Proof. intros. apply (ReadStr_complete_ _ readStrLenPrefix_le); [done|by rewrite <-app_assoc]. Qed.
Lemma ReadStr_amd64_complete s r rest :
  rd_data r = le_bytes 2 (len s) ++ s ++ rest -> len s <= 65535 ->
  ReadStrFromReader_amd64 r = (Ok s, set_data rest r).
Proof.
  intros. apply (ReadStr_complete_ readStrLenPrefix_amd64); [done..|by rewrite <-app_assoc].
Qed.
Lemma ReadStr_sound r s r' :
  ReadStrFromReader r = (Ok s, r') ->
  len s <= 65535 /\ consumed r (le_bytes 2 (len s) ++ s) r'.
Proof. apply ReadStr_sound_, readStrLenPrefix_le. Qed.
Lemma ReadStr_amd64_sound r s r' :
  ReadStrFromReader_amd64 r = (Ok s, r') ->
  len s <= 65535 /\ consumed r (le_bytes 2 (len s) ++ s) r'.
Proof. by apply ReadStr_sound_. Qed.

(** *** readAllToBuffer *)

(** What a complete read of the rest of the message gives. *)
Definition rest_of (r : reader) : result goerror bytes :=
  match rd_end r with EOF => Ok (rd_data r) | e => Err e end.

Lemma readAllToBuffer_loop_spec fuel L acc r :
  (length (rd_data r) < fuel)%nat -> (length acc <= L)%nat ->
  exists sc,
    readAllToBuffer_loop fuel L acc r =
      (if decide (length acc + length (rd_data r) < L)%nat
       then (acc ++ rd_data r,
             Some (match rd_end r with EOF => Ok (acc ++ rd_data r) | e => Err e end))
       else (acc ++ take (L - length acc) (rd_data r), None),
       mkReader (drop (L - length acc) (rd_data r)) sc (rd_end r)).
Proof.
  revert acc r. induction fuel as [|fuel IH]; intros acc [data sc e] Hf HL; [lia|]. simpl in Hf.
  cbn [readAllToBuffer_loop rd_data rd_end].
  destruct (decide (length acc < L)%nat) as [Hlt|Hge].
  2:{ exists sc. rewrite decide_False by lia.
      replace (L - length acc)%nat with 0%nat by lia. by rewrite take_0, app_nil_r. }
  destruct (L - length acc)%nat as [|m] eqn:Em; [lia|].
  destruct data as [|b data].
  { exists sc. simpl. rewrite decide_True by lia. by destruct e. }
  unfold rd_Read. cbn [rd_data rd_sched rd_end].
  set (k := match sc with [] => S m | s :: _ => S s `min` S m end%nat).
  assert (1 <= k <= S m)%nat as Hk by (unfold k; destruct sc; lia).
  destruct (IH (acc ++ take k (b :: data)) (mkReader (drop k (b :: data)) (tail sc) e)) as [sc' ->].
  { cbn [rd_data]. rewrite length_drop. cbn [length] in *. lia. }
  { rewrite length_app, length_take. cbn [length] in *. lia. }
  exists sc'. cbn [rd_data rd_end].
  rewrite !length_app, length_drop, length_take.
  rewrite <-!app_assoc, take_drop, drop_drop.
  cbn [length] in *.
  destruct (decide (k <= S (length data))%nat) as [Hkd|Hkd].
  - replace (k `min` S (length data))%nat with k by lia.
    replace (k + (L - (length acc + k)))%nat with (S m) by lia.
    f_equal. repeat case_decide; try lia; [done|]. do 2 f_equal.
    replace (L - (length acc + k))%nat with (S m - k)%nat by lia.
    rewrite take_take_drop. f_equal. lia.
  - rewrite (take_ge (b :: data)) by (simpl; lia). rewrite (drop_ge _ k) by (simpl; lia).
    rewrite !drop_ge by (simpl; lia).
    rewrite take_nil, app_nil_r, (take_ge (b :: data)) by (simpl; lia).
    f_equal. repeat case_decide; try lia; done.
Qed.

(** The result does not depend on how the transport splits the message. *)
Lemma readAllToBuffer_result L r :
  (readAllToBuffer L r).1 =
    if decide (length (rd_data r) <= L)%nat then rest_of r else Err ErrShortBuffer.
Proof.
  unfold readAllToBuffer, rest_of.
  destruct (readAllToBuffer_loop_spec (S (length (rd_data r))) L [] r) as [sc ->];
    [lia|simpl; lia|].
  cbn [length app]. rewrite Nat.add_0_l, Nat.sub_0_r.
  destruct (decide (length (rd_data r) < L)%nat).
  - rewrite decide_True by lia. by destruct (rd_end r).
  - cbn [rd_Read rd_data rd_end]. unfold rd_Read. cbn [rd_data rd_end rd_sched].
    destruct (drop L (rd_data r)) as [|b d] eqn:E.
    + assert (length (drop L (rd_data r)) = 0%nat) as HE by (by rewrite E).
      rewrite length_drop in HE. rewrite decide_True by lia.
      rewrite take_ge by lia. by destruct (rd_end r).
    + assert (length (drop L (rd_data r)) = S (length d)) as HE by (by rewrite E).
      rewrite length_drop in HE. rewrite decide_False by lia.
      assert (match sc with [] => 1 | s :: _ => S s `min` 1 end = 1)%nat as ->
        by (destruct sc; lia).
      done.
Qed.

(** The [WithBuffer] reader of a struct accepts what the plain reader accepts,
    when the payload fits the buffer, and decodes it to the same value. *)
Definition with_buffer {A} (m : RM A) (mb : nat -> RM A) (data : A -> bytes) : Prop :=
  forall L r,
    ok_of (mb L r).1 = match (m r).1 with
                       | Ok d => if decide (length (data d) <= L)%nat then Some d else None
                       | Err _ => None
                       end.

(** A payload field read last: [f] builds the struct from the payload. *)
Lemma with_buffer_last {A} (f : bytes -> A) (data : A -> bytes) :
  (forall b, data (f b) = b) ->
  with_buffer (b ← ReadAll; mret (f b)) (fun L => b ← readAllToBuffer L; mret (f b)) data.
Proof.
  intros Hf L r. pose proof (readAllToBuffer_result L r) as H.
  unfold mbind, SE_bind, mret, SE_ret, ReadAll.
  destruct (readAllToBuffer L r) as [res r']. simpl in H. subst res.
  unfold rest_of. destruct (rd_end r); simpl; rewrite ?Hf; case_decide; done.
Qed.

Lemma with_buffer_bind {A B} (m : RM B) (k : B -> RM A) (kb : B -> nat -> RM A) data :
  (forall b, with_buffer (k b) (kb b) data) ->
  with_buffer (m ≫= k) (fun L => m ≫= fun b => kb b L) data.
Proof.
  intros H L r. unfold mbind, SE_bind. destruct (m r) as [[b|e] r']; [apply H|done].
Qed.

(** ** What follows from the laws *)

Section Derived.
Context {A : Type} (fields : A -> list fval).

(** Two codecs of the same struct write the same bytes to any writer, fail
    alike, and leave the writer in the same state. *)
Lemma codec_write_agree c1 c2 `{!CodecOk fields c1} `{!CodecOk fields c2}
    W `{Writer W} d w :
  w_ok w -> c_write c1 d w = c_write c2 d w.
Proof. intros. by rewrite !c_write_spec. Qed.

(** They accept the same inputs, with the same value and the same rest. *)
Lemma codec_read_agree c1 c2 `{!CodecOk fields c1} `{!CodecOk fields c2} r d r' :
  c_read c1 r = (Ok d, r') -> c_read c2 r = (Ok d, r').
Proof.
  intros (Hwf & Hd & Hr & Ht)%c_read_sound.
  rewrite (c_read_complete d r (rd_data r')) by done. by rewrite <-Hr.
Qed.

(** Encoding is injective on well-formed values. *)
Lemma codec_wire_inj c `{!CodecOk fields c} d1 d2 :
  wf_fields (fields d1) = true -> wf_fields (fields d2) = true ->
  wire (fields d1) = wire (fields d2) -> d1 = d2.
Proof.
  intros H1 H2 He.
  pose proof (c_read_complete d1 (mkReader (wire (fields d1)) [] EOF) [] H1) as E1.
  pose proof (c_read_complete d2 (mkReader (wire (fields d2)) [] EOF) [] H2) as E2.
  rewrite He in E1. rewrite app_nil_r in *. simpl in *.
  specialize (E1 eq_refl ltac:(done)). specialize (E2 eq_refl ltac:(done)). congruence.
Qed.

(** What one end writes the other end reads back, whatever the versions. *)
Lemma codec_roundtrip c1 c2 `{!CodecOk fields c1} `{!CodecOk fields c2} d sched :
  wf_fields (fields d) = true ->
  exists bs,
    c_write c1 d (mkStream [] None) = (Ok tt, mkStream bs None) /\
    len bs = c_size c1 d /\
    c_read c2 (mkReader bs sched EOF) = (Ok d, mkReader [] sched EOF).
Proof.
  intros Hwf. exists (wire (fields d)). split_and!.
  - rewrite c_write_spec by done. by rewrite (wf_enc _ Hwf).
  - by rewrite (c_size_spec d Hwf).
  - rewrite (c_read_complete d _ []); [done|done| |done]. simpl. by rewrite app_nil_r.
Qed.
End Derived.

(** ** Automation of the struct proofs *)

Lemma wire_nil : wire [] = [].
Proof. done. Qed.
Lemma wire_u8 v fs : wire (FU8 v :: fs) = le_bytes 1 v ++ wire fs.
Proof. done. Qed.
Lemma wire_u32 v fs : wire (FU32 v :: fs) = le_bytes 4 v ++ wire fs.
Proof. done. Qed.
Lemma wire_u64 v fs : wire (FU64 v :: fs) = le_bytes 8 v ++ wire fs.
Proof. done. Qed.
Lemma wire_i64 v fs : wire (FI64 v :: fs) = le_bytes 8 (u64 v) ++ wire fs.
Proof. done. Qed.
Lemma wire_bytes b fs : wire (FBytes b :: fs) = b ++ wire fs.
Proof. done. Qed.
Lemma wire_str s fs : len s <= 65535 -> wire (FStr s :: fs) = le_bytes 2 (len s) ++ s ++ wire fs.
Proof.
  intros H. unfold wire. cbn [enc]. by rewrite enc1_str_wf by done.
Qed.

(** Sizes of fields on the wire. *)
Definition fsize (f : fval) : Z :=
  match f with
  | FU8 _ => 1 | FU32 _ => 4 | FU64 _ => 8 | FI64 _ => 8
  | FStr s => 2 + len s | FBytes b => len b
  end.
Fixpoint fsizes (fs : list fval) : Z :=
  match fs with [] => 0 | f :: fs' => fsize f + fsizes fs' end.

Lemma len_app {A} (a b : list A) : len (a ++ b) = len a + len b.
Proof. unfold len. rewrite length_app. lia. Qed.
Lemma len_le_bytes n v : len (le_bytes n v) = Z.of_nat n.
Proof. unfold len. by rewrite length_le_bytes. Qed.
Lemma len_cons {A} (x : A) l : len (x :: l) = 1 + len l.
Proof. unfold len. simpl length. lia. Qed.
Lemma len_nil {A} : len (@nil A) = 0.
Proof. done. Qed.
Lemma len_nonneg {A} (l : list A) : 0 <= len l.
Proof. unfold len. lia. Qed.

Lemma wire_length fs : wf_fields fs = true -> len (wire fs) = fsizes fs.
Proof.
  induction fs as [|f fs IH]; [done|]. cbn [wf_fields forallb].
  intros [Hf H]%andb_true_iff. specialize (IH H). cbn [fsizes]. rewrite <-IH.
  destruct f; rewrite ?wire_u8, ?wire_u32, ?wire_u64, ?wire_i64, ?wire_bytes;
    try (rewrite wire_str by (simpl in Hf; lia)); rewrite !len_app, ?len_le_bytes;
    cbn [fsize]; try done; lia.
Qed.

Lemma fsizes_app fs gs : fsizes (fs ++ gs) = fsizes fs + fsizes gs.
Proof. induction fs as [|f fs IH]; [done|]. cbn [fsizes app]. lia. Qed.

(** Facts about the helpers of structs that occur inside other structs. *)
Create HintDb codec_nested.
Create HintDb codec_size.

Ltac codec_write :=
  intros; etrans;
  [ repeat first
      [ eapply out_seq; [intros|intros|assumption]
      | by apply WriteStr_out
      | by apply WriteStr_amd64_out
      | solve [eauto with codec_nested nocore]
      | by apply out_ret
      | apply out_Write ]
  | f_equal; cbn [enc1];
    repeat match goal with |- context [len ?s >? 65535] => destruct (len s >? 65535) end;
    reflexivity ].

Ltac codec_wf H :=
  cbn [app] in H;
  repeat rewrite ?wf_fields_app, ?wf_fields_cons, ?andb_true_iff in H;
  cbn [fval_wf] in H; destruct_and? H.

(** Goals [wf_fields _ = true] from the facts [codec_wf] leaves. *)
Ltac codec_wf_goal tac :=
  repeat rewrite ?wf_fields_app, ?wf_fields_cons, ?wf_fields_nil, ?andb_true_iff;
  cbn [fval_wf]; split_and?; tac.

Ltac codec_wire H :=
  cbn [app] in H;
  repeat first
    [ rewrite wire_u8 in H | rewrite wire_u32 in H | rewrite wire_u64 in H
    | rewrite wire_i64 in H | rewrite wire_bytes in H | rewrite wire_nil in H
    | rewrite wire_str in H by lia
    | rewrite wire_app in H by codec_wf_goal ltac:(auto; lia) ];
  repeat progress (cbn [app] in H; rewrite <-?app_assoc in H).

Ltac codec_int :=
  lazymatch goal with
  | |- ?lhs = ?lhs => reflexivity
  | |- _ = ?v =>
      first [ exact (le_value_4 v ltac:(assumption))
            | exact (le_value_8 v ltac:(assumption))
            | exact (le_value_1 v ltac:(assumption))
            | exact (le_value_s8 v ltac:(assumption)) ]
  end.

Ltac codec_read_step Hd :=
  lazymatch goal with
  | |- (ReadFull _ ≫= _) ?r = _ =>
      erewrite se_bind_Ok;
      [| apply (ReadFull_data _ _ r Hd);
         rewrite ?length_app, ?length_le_bytes; simpl; lia];
      cbn beta; cbn [le_bytes take drop app]; rewrite ?take_0, ?drop_0
  | |- (ReadStrFromReader ≫= _) ?r = _ =>
      erewrite se_bind_Ok; [|eapply (ReadStr_complete _ _ _ Hd); lia];
      cbn beta
  | |- (ReadStrFromReader_amd64 ≫= _) ?r = _ =>
      erewrite se_bind_Ok; [|eapply (ReadStr_amd64_complete _ _ _ Hd); lia];
      cbn beta
  | |- (ReadAll ≫= _) ?r = _ =>
      erewrite se_bind_Ok; [|apply ReadAll_complete; assumption]; cbn beta; rewrite Hd
  | |- (_ ≫= _) ?r = _ =>
      erewrite se_bind_Ok; [|solve [eauto with codec_nested nocore]]; cbn beta
  end;
  clear Hd;
  lazymatch goal with
  | |- _ (set_data ?Y ?r0) = _ => pose proof (eq_refl : rd_data (set_data Y r0) = Y) as Hd
  | _ => idtac
  end.

Ltac codec_read_done :=
  lazymatch goal with
  | |- mret _ _ = (Ok ?d, _) => destruct d; unfold mret, SE_ret, set_data;
      cbn [rd_data rd_sched rd_end];
      lazymatch goal with
      | |- (Ok ?x, ?a) = (Ok ?y, ?b) =>
          let H := fresh in
          assert (x = y) as H by (first [reflexivity | f_equal; codec_int]);
          rewrite H; reflexivity
      end
  end.

Ltac codec_read_complete :=
  intros d r rest Hwf Hd Htail;
  codec_wf Hwf; codec_wire Hd;
  try (destruct (Htail eq_refl) as [Hrest Hend]; rewrite Hrest, ?app_nil_r in Hd; subst rest);
  clear Htail;
  repeat codec_read_step Hd;
  first [ codec_read_done | rewrite <-Hd, set_data_id; destruct d; reflexivity ].

(** *** Soundness of a reader *)

Lemma ReadAll_consumed r d r' :
  ReadAll r = (Ok d, r') -> rd_end r = EOF /\ rd_data r' = [] /\ consumed r d r'.
Proof.
  intros (<- & He & ->)%ReadAll_sound. split_and!; [done..|].
  split; [by rewrite app_nil_r|done].
Qed.

(** The reader of a struct that occurs inside other structs. *)
Class NestedRead {A} (fields : A -> list fval) (m : RM A) := nested_read :
  forall r d r', m r = (Ok d, r') ->
    wf_fields (fields d) = true /\ consumed r (wire (fields d)) r'.

Lemma codec_nested_read {A} (fields : A -> list fval) c `{!CodecOk fields c} :
  NestedRead fields (c_read c).
Proof. intros r d r' (? & ? & ? & _)%c_read_sound. done. Qed.

Ltac codec_proj := cbn -[wire le_bytes le_value len u64 i64 app in_u in_s Z.leb wf_fields].

Ltac explode l H :=
  lazymatch type of H with
  | length l = O => apply nil_length_inv in H; subst l
  | length l = S _ =>
      destruct l as [|? l]; [discriminate H|]; cbn [length] in H; apply eq_add_S in H; explode l H
  end.

Ltac codec_sound_step H Hc Hend :=
  let x := fresh "x" in let r1 := fresh "r" in let Hm := fresh in let Hl := fresh in
  apply se_bind_inv in H as (x & r1 & Hm & H);
  lazymatch type of Hm with
  | ReadFull _ _ = _ => apply ReadFull_sound in Hm as (Hl & Hm); explode x Hl
  | ReadStrFromReader _ = _ => apply ReadStr_sound in Hm as (Hl & Hm)
  | ReadStrFromReader_amd64 _ = _ => apply ReadStr_amd64_sound in Hm as (Hl & Hm)
  | ReadAll _ = _ =>
      let He := fresh in
      apply ReadAll_consumed in Hm as (He & Hl & Hm);
      pose proof (conj Hl (eq_trans (eq_sym (consumed_end _ _ _ Hc)) He)) as Hend; clear He
  | _ => apply nested_read in Hm as (Hl & Hm)
  end;
  apply (consumed_app _ _ _ _ _ Hc) in Hm; clear Hc; rename Hm into Hc.

Ltac codec_wf_int :=
  first [ assumption | reflexivity | lia | apply wraps_range; lia
        | apply le_value_in_u; reflexivity ].

Ltac codec_sound_wf :=
  codec_proj; codec_wf_goal codec_wf_int.

Ltac codec_sound_wire :=
  codec_proj; repeat first
    [ rewrite wire_u8 | rewrite wire_u32 | rewrite wire_u64 | rewrite wire_i64
    | rewrite wire_bytes | rewrite wire_nil | rewrite wire_str by lia
    | rewrite wire_app by codec_sound_wf ];
  rewrite ?le_bytes_s by reflexivity;
  rewrite ?le_bytes_u by reflexivity;
  repeat progress (cbn [app]; rewrite <-?app_assoc).

Ltac codec_read_sound :=
  let Hc := fresh "Hc" in let Hend := fresh "Hend" in
  intros r d r' H; pose proof (consumed_nil r) as Hc;
  repeat codec_sound_step H Hc Hend;
  apply se_ret_inv in H as [<- <-];
  unfold Uint8, Uint16, Uint32, Uint64, of_mem; cbn [take drop];
  split; [codec_sound_wf|];
  destruct Hc as [Hc Hr];
  split; [rewrite Hc; codec_sound_wire; reflexivity|];
  split; [exact Hr|];
  first [intros _; exact Hend | intros Ht; discriminate Ht].

Ltac codec_size :=
  intros d Hwf; rewrite wire_length by exact Hwf; autounfold with codec_size;
  rewrite ?fsizes_app;
  cbn [fsizes fsize]; lia.

(** The four laws of a codec, for the helpers of one struct. *)
Ltac codec_ok c fields write read size :=
  split;
  [ intros W ? d w; unfold c, c_write, write, fields; revert d w; codec_write
  | unfold c, c_read, read, fields; codec_read_complete
  | unfold c, c_read, read, fields; codec_read_sound
  | unfold c, c_size, size, fields; codec_size ].

Ltac with_buffer_ok :=
  repeat (apply with_buffer_bind; intros); apply with_buffer_last; intros; reflexivity.
