(* ===== verification/Structs.v ===== *)
(** * Constants and structs of the protocol

    const.go and struct.go of src/src/internal/share/wsfsprotocol: the command
    codes, error codes, flags and limits, one record per struct, and for every
    struct its fields in declaration order ([fields_S]), which is the
    specification the generated helpers are proved against. *)
From S2P Require Import Prelude GoIO Codec.

(** ** Constants (const.go) *)

Definition MaxMsgSize : Z := 8192.
Definition MaxCommandLength : Z := MaxMsgSize.
Definition MaxResponseLength : Z := MaxMsgSize.
Definition CmdOpen : Z := 1.
Definition CmdClose : Z := 2.
Definition CmdRead : Z := 3.
Definition CmdReadDir : Z := 4.
Definition CmdReadLink : Z := 5.
Definition CmdWrite : Z := 6.
Definition CmdSeek : Z := 7.
Definition CmdAllocate : Z := 8.
Definition CmdGetAttr : Z := 9.
Definition CmdSetAttr : Z := 10.
Definition CmdSync : Z := 11.
Definition CmdMkdir : Z := 12.
Definition CmdSymLink : Z := 13.
Definition CmdRemove : Z := 14.
Definition CmdRmDir : Z := 15.
Definition CmdFsStat : Z := 16.
Definition CmdReadAt : Z := 17.
Definition CmdWriteAt : Z := 18.
Definition CmdCopyFileRange : Z := 19.
Definition CmdRename : Z := 20.
Definition CmdSetAttrByFD : Z := 21.
Definition CmdReadDirPlus : Z := 22.
Definition CmdWriteStreamOpen : Z := 23.
Definition CmdWriteStreamData : Z := 24.
Definition CmdCloneFileRange : Z := 25.
Definition CmdGetFileLock : Z := 26.
Definition CmdSetFileLock : Z := 27.
Definition CmdSetFileLockWait : Z := 28.
Definition CmdLink : Z := 29.
Definition CmdSetXAttr : Z := 30.
Definition CmdGetXAttr : Z := 31.
Definition CmdListXAttr : Z := 32.
Definition CmdRemoveXAttr : Z := 33.
Definition ErrorOK : Z := 0.
Definition ErrorPartialResponse : Z := 1.
Definition ErrorUnknown : Z := 2.
Definition ErrorBusy : Z := 3.
Definition ErrorExists : Z := 4.
Definition ErrorNotExists : Z := 5.
Definition ErrorLoop : Z := 6.
Definition ErrorNoSpace : Z := 7.
Definition ErrorNotEmpty : Z := 8.
Definition ErrorInvalid : Z := 9.
Definition ErrorInvalidFD : Z := 10.
Definition ErrorType : Z := 11.
Definition ErrorIO : Z := 12.
Definition ErrorNotSupport : Z := 13.
Definition ErrorAccessRestricted : Z := 14.
Definition ErrorTooLong : Z := 15.
Definition ErrorStateBlocked : Z := 16.
Definition ErrorSpecialFileBlocked : Z := 17.
Definition ErrorCrossDevice : Z := 18.
Definition ErrorNoXAttr : Z := 19.
Definition ErrorRange : Z := 20.
Definition O_RDONLY : Z := 0x0.
Definition O_WRONLY : Z := 0x1.
Definition O_RDWR : Z := 0x2.
Definition O_ACCMODE : Z := 0x3.
Definition O_TRUNC : Z := 0x200.
Definition O_EXCL : Z := 0x80.
Definition O_CREAT : Z := 0x40.
Definition O_DIRECTORY : Z := 0x10000.
Definition O_APPEND : Z := 0x400.
Definition O_SYNC : Z := 0x101000.
Definition O_DSYNC : Z := 0x1000.
Definition O_NOFOLLOW : Z := 0x20000.
Definition O_NOATIME : Z := 0x40000.
Definition O_DIRECT : Z := 0x4000.
Definition FALLOC_FL_FALLOCATE : Z := 0x00.
Definition FALLOC_FL_KEEP_SIZE : Z := 0x01.
Definition FALLOC_FL_PUNCH_HOLE : Z := 0x02.
Definition FALLOC_FL_COLLAPSE_RANGE : Z := 0x08.
Definition FALLOC_FL_ZERO_RANGE : Z := 0x10.
Definition FALLOC_FL_INSERT_RANGE : Z := 0x20.
Definition FALLOC_FL_UNSHARE_RANGE : Z := 0x40.
Definition WHENCE_SET : Z := 0.
Definition WHENCE_CUR : Z := 1.
Definition WHENCE_END : Z := 2.
Definition WHENCE_DATA : Z := 3.
Definition WHENCE_HOLE : Z := 4.
Definition RENAME_NOREPLACE : Z := 0x1.
Definition RENAME_EXCHANGE : Z := 0x2.
Definition RENAME_WHITEOUT : Z := 0x4.
Definition OWNER_NN : Z := 0.
Definition OWNER_UN : Z := 1.
Definition OWNER_NG : Z := 2.
Definition OWNER_UG : Z := 3.
Definition SETATTR_SIZE : Z := 1.
Definition SETATTR_MTIME : Z := 2.
Definition SETATTR_MODE : Z := 4.
Definition SETATTR_OWNER : Z := 8.
Definition READDIRPLUS_INDICATOR_CONTINUE : Z := 1.
Definition READDIRPLUS_INDICATOR_PREFETCH : Z := 2.
Definition READDIRPLUS_INDICATOR_PREFETCH_SKIP : Z := 3.
Definition FILELOCK_UNLOCK : Z := 0.
Definition FILELOCK_READLOCK : Z := 1.
Definition FILELOCK_WRITELOCK : Z := 2.
Definition SETXATTR_NORMAL : Z := 0.
Definition SETXATTR_APPEND : Z := 1.
Definition SETXATTR_CREATE : Z := 2.
Definition SETXATTR_REPLACE : Z := 3.
Definition XATTR_NOFOLLOW : Z := 0x80000000.
Definition MaxCopyFileRangeChunk : Z := Z.shiftl 32 20.
Definition MaxErrorDescLength : Z := MaxResponseLength - 4.

Definition OpenFlags : list Z :=
  [O_RDONLY; O_WRONLY; O_RDWR; O_TRUNC; O_EXCL; O_CREAT; O_DIRECTORY; O_APPEND; O_SYNC; O_DSYNC; O_NOFOLLOW; O_NOATIME; O_DIRECT].
Definition RenameFlags : list Z :=
  [RENAME_NOREPLACE; RENAME_EXCHANGE; RENAME_WHITEOUT].

(** ** Structs (struct.go) *)

Record Timespec := mkTimespec {
  Timespec_Seconds : Z;
  Timespec_Nanoseconds : Z;
}.
Record FileInfo := mkFileInfo {
  FileInfo_Size : Z;
  FileInfo_MTime : Timespec;
  FileInfo_Mode : Z;
  FileInfo_Owner : Z;
}.
Record Dirent := mkDirent {
  Dirent_Name : gostring;
  Dirent_Size : Z;
  Dirent_MTime : Timespec;
  Dirent_Mode : Z;
  Dirent_Owner : Z;
}.
Record FileLockInfo := mkFileLockInfo {
  FileLockInfo_Type : Z;
  FileLockInfo_Whence : Z;
  FileLockInfo_Start : Z;
  FileLockInfo_Size : Z;
}.
Record CmdOpenStruct := mkCmdOpenStruct {
  CmdOpen_Path : gostring;
  CmdOpen_OFlag : Z;
  CmdOpen_FMode : Z;
}.
Record CmdCloseStruct := mkCmdCloseStruct {
  CmdClose_FD : Z;
}.
Record CmdReadStruct := mkCmdReadStruct {
  CmdRead_FD : Z;
  CmdRead_Size : Z;
}.
Record CmdReadDirStruct := mkCmdReadDirStruct {
  CmdReadDir_Path : gostring;
}.
Record CmdReadLinkStruct := mkCmdReadLinkStruct {
  CmdReadLink_Path : gostring;
}.
Record CmdWriteStruct := mkCmdWriteStruct {
  CmdWrite_FD : Z;
  CmdWrite_Data : bytes;
}.
Record CmdSeekStruct := mkCmdSeekStruct {
  CmdSeek_FD : Z;
  CmdSeek_Whence : Z;
  CmdSeek_Offset : Z;
}.
Record CmdAllocateStruct := mkCmdAllocateStruct {
  CmdAllocate_FD : Z;
  CmdAllocate_Flag : Z;
  CmdAllocate_Offset : Z;
  CmdAllocate_Size : Z;
}.
Record CmdGetAttrStruct := mkCmdGetAttrStruct {
  CmdGetAttr_Path : gostring;
}.
Record CmdSetAttrStruct := mkCmdSetAttrStruct {
  CmdSetAttr_Path : gostring;
  CmdSetAttr_Flag : Z;
  CmdSetAttr_FI : FileInfo;
}.
Record CmdSyncStruct := mkCmdSyncStruct {
  CmdSync_FD : Z;
}.
Record CmdMkdirStruct := mkCmdMkdirStruct {
  CmdMkdir_Path : gostring;
  CmdMkdir_Mode : Z;
}.
Record CmdSymLinkStruct := mkCmdSymLinkStruct {
  CmdSymLink_TargetPath : gostring;
  CmdSymLink_FilePath : gostring;
}.
Record CmdRemoveStruct := mkCmdRemoveStruct {
  CmdRemove_Path : gostring;
}.
Record CmdRmDirStruct := mkCmdRmDirStruct {
  CmdRmDir_Path : gostring;
}.
Record CmdFsStatStruct := mkCmdFsStatStruct {
  CmdFsStat_Path : gostring;
}.
Record CmdReadAtStruct := mkCmdReadAtStruct {
  CmdReadAt_FD : Z;
  CmdReadAt_Offset : Z;
  CmdReadAt_Size : Z;
}.
Record CmdWriteAtStruct := mkCmdWriteAtStruct {
  CmdWriteAt_FD : Z;
  CmdWriteAt_Offset : Z;
  CmdWriteAt_Data : bytes;
}.
Record CmdRenameStruct := mkCmdRenameStruct {
  CmdRename_OldPath : gostring;
  CmdRename_NewPath : gostring;
  CmdRename_Flag : Z;
}.
Record CmdCopyFileRangeStruct := mkCmdCopyFileRangeStruct {
  CmdCopyFileRange_SrcFD : Z;
  CmdCopyFileRange_DstFD : Z;
  CmdCopyFileRange_SrcOffset : Z;
  CmdCopyFileRange_DstOffset : Z;
  CmdCopyFileRange_Size : Z;
}.
Record CmdCloneFileRangeStruct := mkCmdCloneFileRangeStruct {
  CmdCloneFileRange_SrcFD : Z;
  CmdCloneFileRange_DstFD : Z;
  CmdCloneFileRange_SrcOffset : Z;
  CmdCloneFileRange_DstOffset : Z;
  CmdCloneFileRange_Size : Z;
}.
Record CmdSetAttrByFDStruct := mkCmdSetAttrByFDStruct {
  CmdSetAttrByFD_FD : Z;
  CmdSetAttrByFD_Flag : Z;
  CmdSetAttrByFD_FI : FileInfo;
}.
Record CmdReadDirPlusStruct := mkCmdReadDirPlusStruct {
  CmdReadDirPlus_Path : gostring;
}.
Record CmdWriteStreamOpenStruct := mkCmdWriteStreamOpenStruct {
  CmdWriteStreamOpen_FD : Z;
  CmdWriteStreamOpen_Offset : Z;
  CmdWriteStreamOpen_Data : bytes;
}.
Record CmdWriteStreamDataStruct := mkCmdWriteStreamDataStruct {
  CmdWriteStreamData_IsEnd : Z;
  CmdWriteStreamData_Data : bytes;
}.
Record CmdGetFileLockStruct := mkCmdGetFileLockStruct {
  CmdGetFileLock_FD : Z;
  CmdGetFileLock_FileLock : FileLockInfo;
}.
Record CmdSetFileLockStruct := mkCmdSetFileLockStruct {
  CmdSetFileLock_FD : Z;
  CmdSetFileLock_FileLock : FileLockInfo;
}.
Record CmdSetFileLockWaitStruct := mkCmdSetFileLockWaitStruct {
  CmdSetFileLockWait_FD : Z;
  CmdSetFileLockWait_FileLock : FileLockInfo;
}.
Record CmdLinkStruct := mkCmdLinkStruct {
  CmdLink_TargetPath : gostring;
  CmdLink_FilePath : gostring;
}.
Record CmdSetXAttrStruct := mkCmdSetXAttrStruct {
  CmdSetXAttr_Path : gostring;
  CmdSetXAttr_Flag : Z;
  CmdSetXAttr_Key : gostring;
  CmdSetXAttr_Value : bytes;
}.
Record CmdGetXAttrStruct := mkCmdGetXAttrStruct {
  CmdGetXAttr_Path : gostring;
  CmdGetXAttr_Key : gostring;
  CmdGetXAttr_Mode : Z;
}.
Record CmdListXAttrStruct := mkCmdListXAttrStruct {
  CmdListXAttr_Path : gostring;
  CmdListXAttr_Mode : Z;
}.
Record CmdRemoveXAttrStruct := mkCmdRemoveXAttrStruct {
  CmdRemoveXAttr_Path : gostring;
  CmdRemoveXAttr_Key : gostring;
  CmdRemoveXAttr_Mode : Z;
}.
Record RspError := mkRspError {
  RspError_Desc : gostring;
}.
Record RspOpen := mkRspOpen {
  RspOpen_FD : Z;
}.
Record RspClose := mkRspClose {}.
Record RspRead := mkRspRead {
  RspRead_Data : bytes;
}.
Record RspReadDir := mkRspReadDir {
  RspReadDir_Data : bytes;
}.
Record RspReadLink := mkRspReadLink {
  RspReadLink_TargetPath : gostring;
}.
Record RspWrite := mkRspWrite {
  RspWrite_Written : Z;
}.
Record RspSeek := mkRspSeek {
  RspSeek_Offset : Z;
}.
Record RspAllocate := mkRspAllocate {}.
Record RspGetAttr := mkRspGetAttr {
  RspGetAttr_FI : FileInfo;
}.
Record RspSetAttr := mkRspSetAttr {}.
Record RspSync := mkRspSync {}.
Record RspMkdir := mkRspMkdir {}.
Record RspSymLink := mkRspSymLink {}.
Record RspRemove := mkRspRemove {}.
Record RspRmDir := mkRspRmDir {}.
Record RspFsStat := mkRspFsStat {
  RspFsStat_Total : Z;
  RspFsStat_Free : Z;
  RspFsStat_Available : Z;
}.
Record RspReadAt := mkRspReadAt {
  RspReadAt_Data : bytes;
}.
Record RspWriteAt := mkRspWriteAt {
  RspWriteAt_Written : Z;
}.
Record RspCopyFileRange := mkRspCopyFileRange {
  RspCopyFileRange_Copied : Z;
}.
Record RspCloneFileRange := mkRspCloneFileRange {}.
Record RspRename := mkRspRename {}.
Record RspSetAttrByFD := mkRspSetAttrByFD {}.
Record RspWriteStreamClose := mkRspWriteStreamClose {
  RspWriteStreamClose_Written : Z;
}.
Record RspGetFileLock := mkRspGetFileLock {
  RspGetFileLock_FileLock : FileLockInfo;
}.
Record RspSetFileLock := mkRspSetFileLock {}.
Record RspSetFileLockWait := mkRspSetFileLockWait {}.
Record RspLink := mkRspLink {}.
Record RspSetXAttr := mkRspSetXAttr {}.
Record RspGetXAttr := mkRspGetXAttr {
  RspGetXAttr_Data : bytes;
}.
Record RspListXAttr := mkRspListXAttr {
  RspListXAttr_Data : bytes;
}.
Record RspRemoveXAttr := mkRspRemoveXAttr {}.

(** ** Their fields, in declaration order *)

Definition fields_Timespec (d : Timespec) : list fval :=
  [FI64 (Timespec_Seconds d); FI64 (Timespec_Nanoseconds d)].
Definition fields_FileInfo (d : FileInfo) : list fval :=
  [FU64 (FileInfo_Size d)] ++ fields_Timespec (FileInfo_MTime d) ++ [FU32 (FileInfo_Mode d); FU8 (FileInfo_Owner d)].
Definition fields_Dirent (d : Dirent) : list fval :=
  [FStr (Dirent_Name d); FU64 (Dirent_Size d)] ++ fields_Timespec (Dirent_MTime d) ++ [FU32 (Dirent_Mode d); FU8 (Dirent_Owner d)].
Definition fields_FileLockInfo (d : FileLockInfo) : list fval :=
  [FU8 (FileLockInfo_Type d); FU8 (FileLockInfo_Whence d); FU64 (FileLockInfo_Start d); FU64 (FileLockInfo_Size d)].
Definition fields_CmdOpenStruct (d : CmdOpenStruct) : list fval :=
  [FStr (CmdOpen_Path d); FU32 (CmdOpen_OFlag d); FU32 (CmdOpen_FMode d)].
Definition fields_CmdCloseStruct (d : CmdCloseStruct) : list fval :=
  [FU32 (CmdClose_FD d)].
Definition fields_CmdReadStruct (d : CmdReadStruct) : list fval :=
  [FU32 (CmdRead_FD d); FU64 (CmdRead_Size d)].
Definition fields_CmdReadDirStruct (d : CmdReadDirStruct) : list fval :=
  [FStr (CmdReadDir_Path d)].
Definition fields_CmdReadLinkStruct (d : CmdReadLinkStruct) : list fval :=
  [FStr (CmdReadLink_Path d)].
Definition fields_CmdWriteStruct (d : CmdWriteStruct) : list fval :=
  [FU32 (CmdWrite_FD d); FBytes (CmdWrite_Data d)].
Definition fields_CmdSeekStruct (d : CmdSeekStruct) : list fval :=
  [FU32 (CmdSeek_FD d); FU8 (CmdSeek_Whence d); FI64 (CmdSeek_Offset d)].
Definition fields_CmdAllocateStruct (d : CmdAllocateStruct) : list fval :=
  [FU32 (CmdAllocate_FD d); FU32 (CmdAllocate_Flag d); FU64 (CmdAllocate_Offset d); FU64 (CmdAllocate_Size d)].
Definition fields_CmdGetAttrStruct (d : CmdGetAttrStruct) : list fval :=
  [FStr (CmdGetAttr_Path d)].
Definition fields_CmdSetAttrStruct (d : CmdSetAttrStruct) : list fval :=
  [FStr (CmdSetAttr_Path d); FU8 (CmdSetAttr_Flag d)] ++ fields_FileInfo (CmdSetAttr_FI d).
Definition fields_CmdSyncStruct (d : CmdSyncStruct) : list fval :=
  [FU32 (CmdSync_FD d)].
Definition fields_CmdMkdirStruct (d : CmdMkdirStruct) : list fval :=
  [FStr (CmdMkdir_Path d); FU32 (CmdMkdir_Mode d)].
Definition fields_CmdSymLinkStruct (d : CmdSymLinkStruct) : list fval :=
  [FStr (CmdSymLink_TargetPath d); FStr (CmdSymLink_FilePath d)].
Definition fields_CmdRemoveStruct (d : CmdRemoveStruct) : list fval :=
  [FStr (CmdRemove_Path d)].
Definition fields_CmdRmDirStruct (d : CmdRmDirStruct) : list fval :=
  [FStr (CmdRmDir_Path d)].
Definition fields_CmdFsStatStruct (d : CmdFsStatStruct) : list fval :=
  [FStr (CmdFsStat_Path d)].
Definition fields_CmdReadAtStruct (d : CmdReadAtStruct) : list fval :=
  [FU32 (CmdReadAt_FD d); FU64 (CmdReadAt_Offset d); FU64 (CmdReadAt_Size d)].
Definition fields_CmdWriteAtStruct (d : CmdWriteAtStruct) : list fval :=
  [FU32 (CmdWriteAt_FD d); FU64 (CmdWriteAt_Offset d); FBytes (CmdWriteAt_Data d)].
Definition fields_CmdRenameStruct (d : CmdRenameStruct) : list fval :=
  [FStr (CmdRename_OldPath d); FStr (CmdRename_NewPath d); FU32 (CmdRename_Flag d)].
Definition fields_CmdCopyFileRangeStruct (d : CmdCopyFileRangeStruct) : list fval :=
  [FU32 (CmdCopyFileRange_SrcFD d); FU32 (CmdCopyFileRange_DstFD d); FU64 (CmdCopyFileRange_SrcOffset d); FU64 (CmdCopyFileRange_DstOffset d); FU64 (CmdCopyFileRange_Size d)].
Definition fields_CmdCloneFileRangeStruct (d : CmdCloneFileRangeStruct) : list fval :=
  [FU32 (CmdCloneFileRange_SrcFD d); FU32 (CmdCloneFileRange_DstFD d); FU64 (CmdCloneFileRange_SrcOffset d); FU64 (CmdCloneFileRange_DstOffset d); FU64 (CmdCloneFileRange_Size d)].
Definition fields_CmdSetAttrByFDStruct (d : CmdSetAttrByFDStruct) : list fval :=
  [FU32 (CmdSetAttrByFD_FD d); FU8 (CmdSetAttrByFD_Flag d)] ++ fields_FileInfo (CmdSetAttrByFD_FI d).
Definition fields_CmdReadDirPlusStruct (d : CmdReadDirPlusStruct) : list fval :=
  [FStr (CmdReadDirPlus_Path d)].
Definition fields_CmdWriteStreamOpenStruct (d : CmdWriteStreamOpenStruct) : list fval :=
  [FU32 (CmdWriteStreamOpen_FD d); FU64 (CmdWriteStreamOpen_Offset d); FBytes (CmdWriteStreamOpen_Data d)].
Definition fields_CmdWriteStreamDataStruct (d : CmdWriteStreamDataStruct) : list fval :=
  [FU8 (CmdWriteStreamData_IsEnd d); FBytes (CmdWriteStreamData_Data d)].
Definition fields_CmdGetFileLockStruct (d : CmdGetFileLockStruct) : list fval :=
  [FU32 (CmdGetFileLock_FD d)] ++ fields_FileLockInfo (CmdGetFileLock_FileLock d).
Definition fields_CmdSetFileLockStruct (d : CmdSetFileLockStruct) : list fval :=
  [FU32 (CmdSetFileLock_FD d)] ++ fields_FileLockInfo (CmdSetFileLock_FileLock d).
Definition fields_CmdSetFileLockWaitStruct (d : CmdSetFileLockWaitStruct) : list fval :=
  [FU32 (CmdSetFileLockWait_FD d)] ++ fields_FileLockInfo (CmdSetFileLockWait_FileLock d).
Definition fields_CmdLinkStruct (d : CmdLinkStruct) : list fval :=
  [FStr (CmdLink_TargetPath d); FStr (CmdLink_FilePath d)].
Definition fields_CmdSetXAttrStruct (d : CmdSetXAttrStruct) : list fval :=
  [FStr (CmdSetXAttr_Path d); FU32 (CmdSetXAttr_Flag d); FStr (CmdSetXAttr_Key d); FBytes (CmdSetXAttr_Value d)].
Definition fields_CmdGetXAttrStruct (d : CmdGetXAttrStruct) : list fval :=
  [FStr (CmdGetXAttr_Path d); FStr (CmdGetXAttr_Key d); FU32 (CmdGetXAttr_Mode d)].
Definition fields_CmdListXAttrStruct (d : CmdListXAttrStruct) : list fval :=
  [FStr (CmdListXAttr_Path d); FU32 (CmdListXAttr_Mode d)].
Definition fields_CmdRemoveXAttrStruct (d : CmdRemoveXAttrStruct) : list fval :=
  [FStr (CmdRemoveXAttr_Path d); FStr (CmdRemoveXAttr_Key d); FU32 (CmdRemoveXAttr_Mode d)].
Definition fields_RspError (d : RspError) : list fval :=
  [FStr (RspError_Desc d)].
Definition fields_RspOpen (d : RspOpen) : list fval :=
  [FU32 (RspOpen_FD d)].
Definition fields_RspClose (d : RspClose) : list fval :=
  [].
Definition fields_RspRead (d : RspRead) : list fval :=
  [FBytes (RspRead_Data d)].
Definition fields_RspReadDir (d : RspReadDir) : list fval :=
  [FBytes (RspReadDir_Data d)].
Definition fields_RspReadLink (d : RspReadLink) : list fval :=
  [FStr (RspReadLink_TargetPath d)].
Definition fields_RspWrite (d : RspWrite) : list fval :=
  [FU64 (RspWrite_Written d)].
Definition fields_RspSeek (d : RspSeek) : list fval :=
  [FU64 (RspSeek_Offset d)].
Definition fields_RspAllocate (d : RspAllocate) : list fval :=
  [].
Definition fields_RspGetAttr (d : RspGetAttr) : list fval :=
  fields_FileInfo (RspGetAttr_FI d).
Definition fields_RspSetAttr (d : RspSetAttr) : list fval :=
  [].
Definition fields_RspSync (d : RspSync) : list fval :=
  [].
Definition fields_RspMkdir (d : RspMkdir) : list fval :=
  [].
Definition fields_RspSymLink (d : RspSymLink) : list fval :=
  [].
Definition fields_RspRemove (d : RspRemove) : list fval :=
  [].
Definition fields_RspRmDir (d : RspRmDir) : list fval :=
  [].
Definition fields_RspFsStat (d : RspFsStat) : list fval :=
  [FU64 (RspFsStat_Total d); FU64 (RspFsStat_Free d); FU64 (RspFsStat_Available d)].
Definition fields_RspReadAt (d : RspReadAt) : list fval :=
  [FBytes (RspReadAt_Data d)].
Definition fields_RspWriteAt (d : RspWriteAt) : list fval :=
  [FU64 (RspWriteAt_Written d)].
Definition fields_RspCopyFileRange (d : RspCopyFileRange) : list fval :=
  [FU64 (RspCopyFileRange_Copied d)].
Definition fields_RspCloneFileRange (d : RspCloneFileRange) : list fval :=
  [].
Definition fields_RspRename (d : RspRename) : list fval :=
  [].
Definition fields_RspSetAttrByFD (d : RspSetAttrByFD) : list fval :=
  [].
Definition fields_RspWriteStreamClose (d : RspWriteStreamClose) : list fval :=
  [FU64 (RspWriteStreamClose_Written d)].
Definition fields_RspGetFileLock (d : RspGetFileLock) : list fval :=
  fields_FileLockInfo (RspGetFileLock_FileLock d).
Definition fields_RspSetFileLock (d : RspSetFileLock) : list fval :=
  [].
Definition fields_RspSetFileLockWait (d : RspSetFileLockWait) : list fval :=
  [].
Definition fields_RspLink (d : RspLink) : list fval :=
  [].
Definition fields_RspSetXAttr (d : RspSetXAttr) : list fval :=
  [].
Definition fields_RspGetXAttr (d : RspGetXAttr) : list fval :=
  [FBytes (RspGetXAttr_Data d)].
Definition fields_RspListXAttr (d : RspListXAttr) : list fval :=
  [FBytes (RspListXAttr_Data d)].
Definition fields_RspRemoveXAttr (d : RspRemoveXAttr) : list fval :=
  [].
