(* ===== verification/StructAmd64.v ===== *)
(** * The amd64 struct helpers (struct_amd64.gen.go)

    One definition per function of struct_amd64.gen.go, which reads and writes
    every fixed-size field through its memory image, one field at a time. The
    definitions live in module [Amd64], since they carry the names of their
    portable counterparts. *)
From S2P Require Import Prelude GoIO Codec Structs.

Module Amd64.

Definition GetTimespecRequiredSize (d : Timespec) : Z :=
  16.
Definition WriteTimespecToWriter {W} `{Writer W} (d : Timespec) : SE goerror W unit :=
  w_Write (mem 8 (u64 (Timespec_Seconds d))) ;;
  w_Write (mem 8 (u64 (Timespec_Nanoseconds d))) ;;
  mret tt.
Definition ReadTimespecFromReader : RM Timespec :=
  m_Seconds ← ReadFull 8;
  let v_Seconds := i64 (of_mem m_Seconds) in
  m_Nanoseconds ← ReadFull 8;
  let v_Nanoseconds := i64 (of_mem m_Nanoseconds) in
  mret (mkTimespec v_Seconds v_Nanoseconds).

Definition GetFileInfoRequiredSize (d : FileInfo) : Z :=
  GetTimespecRequiredSize (FileInfo_MTime d) + 13.
Definition WriteFileInfoToWriter {W} `{Writer W} (d : FileInfo) : SE goerror W unit :=
  w_Write (mem 8 (FileInfo_Size d)) ;;
  WriteTimespecToWriter (FileInfo_MTime d) ;;
  w_Write (mem 4 (FileInfo_Mode d)) ;;
  w_Write (mem 1 (FileInfo_Owner d)) ;;
  mret tt.
Definition ReadFileInfoFromReader : RM FileInfo :=
  m_Size ← ReadFull 8;
  let v_Size := of_mem m_Size in
  v_MTime ← ReadTimespecFromReader;
  m_Mode ← ReadFull 4;
  let v_Mode := of_mem m_Mode in
  m_Owner ← ReadFull 1;
  let v_Owner := of_mem m_Owner in
  mret (mkFileInfo v_Size v_MTime v_Mode v_Owner).

Definition GetFileLockInfoRequiredSize (d : FileLockInfo) : Z :=
  18.
Definition WriteFileLockInfoToWriter {W} `{Writer W} (d : FileLockInfo) : SE goerror W unit :=
  w_Write (mem 1 (FileLockInfo_Type d)) ;;
  w_Write (mem 1 (FileLockInfo_Whence d)) ;;
  w_Write (mem 8 (FileLockInfo_Start d)) ;;
  w_Write (mem 8 (FileLockInfo_Size d)) ;;
  mret tt.
Definition ReadFileLockInfoFromReader : RM FileLockInfo :=
  m_Type ← ReadFull 1;
  let v_Type := of_mem m_Type in
  m_Whence ← ReadFull 1;
  let v_Whence := of_mem m_Whence in
  m_Start ← ReadFull 8;
  let v_Start := of_mem m_Start in
  m_Size ← ReadFull 8;
  let v_Size := of_mem m_Size in
  mret (mkFileLockInfo v_Type v_Whence v_Start v_Size).

Definition GetCmdAllocateStructRequiredSize (d : CmdAllocateStruct) : Z :=
  24.
Definition WriteCmdAllocateStructToWriter {W} `{Writer W} (d : CmdAllocateStruct) : SE goerror W unit :=
  w_Write (mem 4 (CmdAllocate_FD d)) ;;
  w_Write (mem 4 (CmdAllocate_Flag d)) ;;
  w_Write (mem 8 (CmdAllocate_Offset d)) ;;
  w_Write (mem 8 (CmdAllocate_Size d)) ;;
  mret tt.
Definition ReadCmdAllocateStructFromReader : RM CmdAllocateStruct :=
  m_FD ← ReadFull 4;
  let v_FD := of_mem m_FD in
  m_Flag ← ReadFull 4;
  let v_Flag := of_mem m_Flag in
  m_Offset ← ReadFull 8;
  let v_Offset := of_mem m_Offset in
  m_Size ← ReadFull 8;
  let v_Size := of_mem m_Size in
  mret (mkCmdAllocateStruct v_FD v_Flag v_Offset v_Size).

Definition GetCmdCloneFileRangeStructRequiredSize (d : CmdCloneFileRangeStruct) : Z :=
  32.
Definition WriteCmdCloneFileRangeStructToWriter {W} `{Writer W} (d : CmdCloneFileRangeStruct) : SE goerror W unit :=
  w_Write (mem 4 (CmdCloneFileRange_SrcFD d)) ;;
  w_Write (mem 4 (CmdCloneFileRange_DstFD d)) ;;
  w_Write (mem 8 (CmdCloneFileRange_SrcOffset d)) ;;
  w_Write (mem 8 (CmdCloneFileRange_DstOffset d)) ;;
  w_Write (mem 8 (CmdCloneFileRange_Size d)) ;;
  mret tt.
Definition ReadCmdCloneFileRangeStructFromReader : RM CmdCloneFileRangeStruct :=
  m_SrcFD ← ReadFull 4;
  let v_SrcFD := of_mem m_SrcFD in
  m_DstFD ← ReadFull 4;
  let v_DstFD := of_mem m_DstFD in
  m_SrcOffset ← ReadFull 8;
  let v_SrcOffset := of_mem m_SrcOffset in
  m_DstOffset ← ReadFull 8;
  let v_DstOffset := of_mem m_DstOffset in
  m_Size ← ReadFull 8;
  let v_Size := of_mem m_Size in
  mret (mkCmdCloneFileRangeStruct v_SrcFD v_DstFD v_SrcOffset v_DstOffset v_Size).

Definition GetCmdCloseStructRequiredSize (d : CmdCloseStruct) : Z :=
  4.
Definition WriteCmdCloseStructToWriter {W} `{Writer W} (d : CmdCloseStruct) : SE goerror W unit :=
  w_Write (mem 4 (CmdClose_FD d)) ;;
  mret tt.
Definition ReadCmdCloseStructFromReader : RM CmdCloseStruct :=
  m_FD ← ReadFull 4;
  let v_FD := of_mem m_FD in
  mret (mkCmdCloseStruct v_FD).

Definition GetCmdCopyFileRangeStructRequiredSize (d : CmdCopyFileRangeStruct) : Z :=
  32.
Definition WriteCmdCopyFileRangeStructToWriter {W} `{Writer W} (d : CmdCopyFileRangeStruct) : SE goerror W unit :=
  w_Write (mem 4 (CmdCopyFileRange_SrcFD d)) ;;
  w_Write (mem 4 (CmdCopyFileRange_DstFD d)) ;;
  w_Write (mem 8 (CmdCopyFileRange_SrcOffset d)) ;;
  w_Write (mem 8 (CmdCopyFileRange_DstOffset d)) ;;
  w_Write (mem 8 (CmdCopyFileRange_Size d)) ;;
  mret tt.
Definition ReadCmdCopyFileRangeStructFromReader : RM CmdCopyFileRangeStruct :=
  m_SrcFD ← ReadFull 4;
  let v_SrcFD := of_mem m_SrcFD in
  m_DstFD ← ReadFull 4;
  let v_DstFD := of_mem m_DstFD in
  m_SrcOffset ← ReadFull 8;
  let v_SrcOffset := of_mem m_SrcOffset in
  m_DstOffset ← ReadFull 8;
  let v_DstOffset := of_mem m_DstOffset in
  m_Size ← ReadFull 8;
  let v_Size := of_mem m_Size in
  mret (mkCmdCopyFileRangeStruct v_SrcFD v_DstFD v_SrcOffset v_DstOffset v_Size).

Definition GetCmdFsStatStructRequiredSize (d : CmdFsStatStruct) : Z :=
  len (CmdFsStat_Path d) + 2.
Definition WriteCmdFsStatStructToWriter {W} `{Writer W} (d : CmdFsStatStruct) : SE goerror W unit :=
  WriteStrToWriter_amd64 (CmdFsStat_Path d) ;;
  mret tt.
Definition ReadCmdFsStatStructFromReader : RM CmdFsStatStruct :=
  v_Path ← ReadStrFromReader_amd64;
  mret (mkCmdFsStatStruct v_Path).

Definition GetCmdGetAttrStructRequiredSize (d : CmdGetAttrStruct) : Z :=
  len (CmdGetAttr_Path d) + 2.
Definition WriteCmdGetAttrStructToWriter {W} `{Writer W} (d : CmdGetAttrStruct) : SE goerror W unit :=
  WriteStrToWriter_amd64 (CmdGetAttr_Path d) ;;
  mret tt.
Definition ReadCmdGetAttrStructFromReader : RM CmdGetAttrStruct :=
  v_Path ← ReadStrFromReader_amd64;
  mret (mkCmdGetAttrStruct v_Path).

Definition GetCmdGetFileLockStructRequiredSize (d : CmdGetFileLockStruct) : Z :=
  GetFileLockInfoRequiredSize (CmdGetFileLock_FileLock d) + 4.
Definition WriteCmdGetFileLockStructToWriter {W} `{Writer W} (d : CmdGetFileLockStruct) : SE goerror W unit :=
  w_Write (mem 4 (CmdGetFileLock_FD d)) ;;
  WriteFileLockInfoToWriter (CmdGetFileLock_FileLock d) ;;
  mret tt.
Definition ReadCmdGetFileLockStructFromReader : RM CmdGetFileLockStruct :=
  m_FD ← ReadFull 4;
  let v_FD := of_mem m_FD in
  v_FileLock ← ReadFileLockInfoFromReader;
  mret (mkCmdGetFileLockStruct v_FD v_FileLock).

Definition GetCmdGetXAttrStructRequiredSize (d : CmdGetXAttrStruct) : Z :=
  len (CmdGetXAttr_Path d) + len (CmdGetXAttr_Key d) + 8.
Definition WriteCmdGetXAttrStructToWriter {W} `{Writer W} (d : CmdGetXAttrStruct) : SE goerror W unit :=
  WriteStrToWriter_amd64 (CmdGetXAttr_Path d) ;;
  WriteStrToWriter_amd64 (CmdGetXAttr_Key d) ;;
  w_Write (mem 4 (CmdGetXAttr_Mode d)) ;;
  mret tt.
Definition ReadCmdGetXAttrStructFromReader : RM CmdGetXAttrStruct :=
  v_Path ← ReadStrFromReader_amd64;
  v_Key ← ReadStrFromReader_amd64;
  m_Mode ← ReadFull 4;
  let v_Mode := of_mem m_Mode in
  mret (mkCmdGetXAttrStruct v_Path v_Key v_Mode).

Definition GetCmdLinkStructRequiredSize (d : CmdLinkStruct) : Z :=
  len (CmdLink_TargetPath d) + len (CmdLink_FilePath d) + 4.
Definition WriteCmdLinkStructToWriter {W} `{Writer W} (d : CmdLinkStruct) : SE goerror W unit :=
  WriteStrToWriter_amd64 (CmdLink_TargetPath d) ;;
  WriteStrToWriter_amd64 (CmdLink_FilePath d) ;;
  mret tt.
Definition ReadCmdLinkStructFromReader : RM CmdLinkStruct :=
  v_TargetPath ← ReadStrFromReader_amd64;
  v_FilePath ← ReadStrFromReader_amd64;
  mret (mkCmdLinkStruct v_TargetPath v_FilePath).

Definition GetCmdListXAttrStructRequiredSize (d : CmdListXAttrStruct) : Z :=
  len (CmdListXAttr_Path d) + 6.
Definition WriteCmdListXAttrStructToWriter {W} `{Writer W} (d : CmdListXAttrStruct) : SE goerror W unit :=
  WriteStrToWriter_amd64 (CmdListXAttr_Path d) ;;
  w_Write (mem 4 (CmdListXAttr_Mode d)) ;;
  mret tt.
Definition ReadCmdListXAttrStructFromReader : RM CmdListXAttrStruct :=
  v_Path ← ReadStrFromReader_amd64;
  m_Mode ← ReadFull 4;
  let v_Mode := of_mem m_Mode in
  mret (mkCmdListXAttrStruct v_Path v_Mode).

Definition GetCmdMkdirStructRequiredSize (d : CmdMkdirStruct) : Z :=
  len (CmdMkdir_Path d) + 6.
Definition WriteCmdMkdirStructToWriter {W} `{Writer W} (d : CmdMkdirStruct) : SE goerror W unit :=
  WriteStrToWriter_amd64 (CmdMkdir_Path d) ;;
  w_Write (mem 4 (CmdMkdir_Mode d)) ;;
  mret tt.
Definition ReadCmdMkdirStructFromReader : RM CmdMkdirStruct :=
  v_Path ← ReadStrFromReader_amd64;
  m_Mode ← ReadFull 4;
  let v_Mode := of_mem m_Mode in
  mret (mkCmdMkdirStruct v_Path v_Mode).

Definition GetCmdOpenStructRequiredSize (d : CmdOpenStruct) : Z :=
  len (CmdOpen_Path d) + 10.
Definition WriteCmdOpenStructToWriter {W} `{Writer W} (d : CmdOpenStruct) : SE goerror W unit :=
  WriteStrToWriter_amd64 (CmdOpen_Path d) ;;
  w_Write (mem 4 (CmdOpen_OFlag d)) ;;
  w_Write (mem 4 (CmdOpen_FMode d)) ;;
  mret tt.
Definition ReadCmdOpenStructFromReader : RM CmdOpenStruct :=
  v_Path ← ReadStrFromReader_amd64;
  m_OFlag ← ReadFull 4;
  let v_OFlag := of_mem m_OFlag in
  m_FMode ← ReadFull 4;
  let v_FMode := of_mem m_FMode in
  mret (mkCmdOpenStruct v_Path v_OFlag v_FMode).

Definition GetCmdReadAtStructRequiredSize (d : CmdReadAtStruct) : Z :=
  20.
Definition WriteCmdReadAtStructToWriter {W} `{Writer W} (d : CmdReadAtStruct) : SE goerror W unit :=
  w_Write (mem 4 (CmdReadAt_FD d)) ;;
  w_Write (mem 8 (CmdReadAt_Offset d)) ;;
  w_Write (mem 8 (CmdReadAt_Size d)) ;;
  mret tt.
Definition ReadCmdReadAtStructFromReader : RM CmdReadAtStruct :=
  m_FD ← ReadFull 4;
  let v_FD := of_mem m_FD in
  m_Offset ← ReadFull 8;
  let v_Offset := of_mem m_Offset in
  m_Size ← ReadFull 8;
  let v_Size := of_mem m_Size in
  mret (mkCmdReadAtStruct v_FD v_Offset v_Size).

Definition GetCmdReadDirPlusStructRequiredSize (d : CmdReadDirPlusStruct) : Z :=
  len (CmdReadDirPlus_Path d) + 2.
Definition WriteCmdReadDirPlusStructToWriter {W} `{Writer W} (d : CmdReadDirPlusStruct) : SE goerror W unit :=
  WriteStrToWriter_amd64 (CmdReadDirPlus_Path d) ;;
  mret tt.
Definition ReadCmdReadDirPlusStructFromReader : RM CmdReadDirPlusStruct :=
  v_Path ← ReadStrFromReader_amd64;
  mret (mkCmdReadDirPlusStruct v_Path).

Definition GetCmdReadDirStructRequiredSize (d : CmdReadDirStruct) : Z :=
  len (CmdReadDir_Path d) + 2.
Definition WriteCmdReadDirStructToWriter {W} `{Writer W} (d : CmdReadDirStruct) : SE goerror W unit :=
  WriteStrToWriter_amd64 (CmdReadDir_Path d) ;;
  mret tt.
Definition ReadCmdReadDirStructFromReader : RM CmdReadDirStruct :=
  v_Path ← ReadStrFromReader_amd64;
  mret (mkCmdReadDirStruct v_Path).

Definition GetCmdReadLinkStructRequiredSize (d : CmdReadLinkStruct) : Z :=
  len (CmdReadLink_Path d) + 2.
Definition WriteCmdReadLinkStructToWriter {W} `{Writer W} (d : CmdReadLinkStruct) : SE goerror W unit :=
  WriteStrToWriter_amd64 (CmdReadLink_Path d) ;;
  mret tt.
Definition ReadCmdReadLinkStructFromReader : RM CmdReadLinkStruct :=
  v_Path ← ReadStrFromReader_amd64;
  mret (mkCmdReadLinkStruct v_Path).

Definition GetCmdReadStructRequiredSize (d : CmdReadStruct) : Z :=
  12.
Definition WriteCmdReadStructToWriter {W} `{Writer W} (d : CmdReadStruct) : SE goerror W unit :=
  w_Write (mem 4 (CmdRead_FD d)) ;;
  w_Write (mem 8 (CmdRead_Size d)) ;;
  mret tt.
Definition ReadCmdReadStructFromReader : RM CmdReadStruct :=
  m_FD ← ReadFull 4;
  let v_FD := of_mem m_FD in
  m_Size ← ReadFull 8;
  let v_Size := of_mem m_Size in
  mret (mkCmdReadStruct v_FD v_Size).

Definition GetCmdRemoveStructRequiredSize (d : CmdRemoveStruct) : Z :=
  len (CmdRemove_Path d) + 2.
Definition WriteCmdRemoveStructToWriter {W} `{Writer W} (d : CmdRemoveStruct) : SE goerror W unit :=
  WriteStrToWriter_amd64 (CmdRemove_Path d) ;;
  mret tt.
Definition ReadCmdRemoveStructFromReader : RM CmdRemoveStruct :=
  v_Path ← ReadStrFromReader_amd64;
  mret (mkCmdRemoveStruct v_Path).

Definition GetCmdRemoveXAttrStructRequiredSize (d : CmdRemoveXAttrStruct) : Z :=
  len (CmdRemoveXAttr_Path d) + len (CmdRemoveXAttr_Key d) + 8.
Definition WriteCmdRemoveXAttrStructToWriter {W} `{Writer W} (d : CmdRemoveXAttrStruct) : SE goerror W unit :=
  WriteStrToWriter_amd64 (CmdRemoveXAttr_Path d) ;;
  WriteStrToWriter_amd64 (CmdRemoveXAttr_Key d) ;;
  w_Write (mem 4 (CmdRemoveXAttr_Mode d)) ;;
  mret tt.
Definition ReadCmdRemoveXAttrStructFromReader : RM CmdRemoveXAttrStruct :=
  v_Path ← ReadStrFromReader_amd64;
  v_Key ← ReadStrFromReader_amd64;
  m_Mode ← ReadFull 4;
  let v_Mode := of_mem m_Mode in
  mret (mkCmdRemoveXAttrStruct v_Path v_Key v_Mode).

Definition GetCmdRenameStructRequiredSize (d : CmdRenameStruct) : Z :=
  len (CmdRename_OldPath d) + len (CmdRename_NewPath d) + 8.
Definition WriteCmdRenameStructToWriter {W} `{Writer W} (d : CmdRenameStruct) : SE goerror W unit :=
  WriteStrToWriter_amd64 (CmdRename_OldPath d) ;;
  WriteStrToWriter_amd64 (CmdRename_NewPath d) ;;
  w_Write (mem 4 (CmdRename_Flag d)) ;;
  mret tt.
Definition ReadCmdRenameStructFromReader : RM CmdRenameStruct :=
  v_OldPath ← ReadStrFromReader_amd64;
  v_NewPath ← ReadStrFromReader_amd64;
  m_Flag ← ReadFull 4;
  let v_Flag := of_mem m_Flag in
  mret (mkCmdRenameStruct v_OldPath v_NewPath v_Flag).

Definition GetCmdRmDirStructRequiredSize (d : CmdRmDirStruct) : Z :=
  len (CmdRmDir_Path d) + 2.
Definition WriteCmdRmDirStructToWriter {W} `{Writer W} (d : CmdRmDirStruct) : SE goerror W unit :=
  WriteStrToWriter_amd64 (CmdRmDir_Path d) ;;
  mret tt.
Definition ReadCmdRmDirStructFromReader : RM CmdRmDirStruct :=
  v_Path ← ReadStrFromReader_amd64;
  mret (mkCmdRmDirStruct v_Path).

Definition GetCmdSeekStructRequiredSize (d : CmdSeekStruct) : Z :=
  13.
Definition WriteCmdSeekStructToWriter {W} `{Writer W} (d : CmdSeekStruct) : SE goerror W unit :=
  w_Write (mem 4 (CmdSeek_FD d)) ;;
  w_Write (mem 1 (CmdSeek_Whence d)) ;;
  w_Write (mem 8 (u64 (CmdSeek_Offset d))) ;;
  mret tt.
Definition ReadCmdSeekStructFromReader : RM CmdSeekStruct :=
  m_FD ← ReadFull 4;
  let v_FD := of_mem m_FD in
  m_Whence ← ReadFull 1;
  let v_Whence := of_mem m_Whence in
  m_Offset ← ReadFull 8;
  let v_Offset := i64 (of_mem m_Offset) in
  mret (mkCmdSeekStruct v_FD v_Whence v_Offset).

Definition GetCmdSetAttrByFDStructRequiredSize (d : CmdSetAttrByFDStruct) : Z :=
  GetFileInfoRequiredSize (CmdSetAttrByFD_FI d) + 5.
Definition WriteCmdSetAttrByFDStructToWriter {W} `{Writer W} (d : CmdSetAttrByFDStruct) : SE goerror W unit :=
  w_Write (mem 4 (CmdSetAttrByFD_FD d)) ;;
  w_Write (mem 1 (CmdSetAttrByFD_Flag d)) ;;
  WriteFileInfoToWriter (CmdSetAttrByFD_FI d) ;;
  mret tt.
Definition ReadCmdSetAttrByFDStructFromReader : RM CmdSetAttrByFDStruct :=
  m_FD ← ReadFull 4;
  let v_FD := of_mem m_FD in
  m_Flag ← ReadFull 1;
  let v_Flag := of_mem m_Flag in
  v_FI ← ReadFileInfoFromReader;
  mret (mkCmdSetAttrByFDStruct v_FD v_Flag v_FI).

Definition GetCmdSetAttrStructRequiredSize (d : CmdSetAttrStruct) : Z :=
  len (CmdSetAttr_Path d) + GetFileInfoRequiredSize (CmdSetAttr_FI d) + 3.
Definition WriteCmdSetAttrStructToWriter {W} `{Writer W} (d : CmdSetAttrStruct) : SE goerror W unit :=
  WriteStrToWriter_amd64 (CmdSetAttr_Path d) ;;
  w_Write (mem 1 (CmdSetAttr_Flag d)) ;;
  WriteFileInfoToWriter (CmdSetAttr_FI d) ;;
  mret tt.
Definition ReadCmdSetAttrStructFromReader : RM CmdSetAttrStruct :=
  v_Path ← ReadStrFromReader_amd64;
  m_Flag ← ReadFull 1;
  let v_Flag := of_mem m_Flag in
  v_FI ← ReadFileInfoFromReader;
  mret (mkCmdSetAttrStruct v_Path v_Flag v_FI).

Definition GetCmdSetFileLockStructRequiredSize (d : CmdSetFileLockStruct) : Z :=
  GetFileLockInfoRequiredSize (CmdSetFileLock_FileLock d) + 4.
Definition WriteCmdSetFileLockStructToWriter {W} `{Writer W} (d : CmdSetFileLockStruct) : SE goerror W unit :=
  w_Write (mem 4 (CmdSetFileLock_FD d)) ;;
  WriteFileLockInfoToWriter (CmdSetFileLock_FileLock d) ;;
  mret tt.
Definition ReadCmdSetFileLockStructFromReader : RM CmdSetFileLockStruct :=
  m_FD ← ReadFull 4;
  let v_FD := of_mem m_FD in
  v_FileLock ← ReadFileLockInfoFromReader;
  mret (mkCmdSetFileLockStruct v_FD v_FileLock).

Definition GetCmdSetFileLockWaitStructRequiredSize (d : CmdSetFileLockWaitStruct) : Z :=
  GetFileLockInfoRequiredSize (CmdSetFileLockWait_FileLock d) + 4.
Definition WriteCmdSetFileLockWaitStructToWriter {W} `{Writer W} (d : CmdSetFileLockWaitStruct) : SE goerror W unit :=
  w_Write (mem 4 (CmdSetFileLockWait_FD d)) ;;
  WriteFileLockInfoToWriter (CmdSetFileLockWait_FileLock d) ;;
  mret tt.
Definition ReadCmdSetFileLockWaitStructFromReader : RM CmdSetFileLockWaitStruct :=
  m_FD ← ReadFull 4;
  let v_FD := of_mem m_FD in
  v_FileLock ← ReadFileLockInfoFromReader;
  mret (mkCmdSetFileLockWaitStruct v_FD v_FileLock).

Definition GetCmdSetXAttrStructRequiredSize (d : CmdSetXAttrStruct) : Z :=
  len (CmdSetXAttr_Path d) + len (CmdSetXAttr_Key d) + len (CmdSetXAttr_Value d) + 8.
Definition WriteCmdSetXAttrStructToWriter {W} `{Writer W} (d : CmdSetXAttrStruct) : SE goerror W unit :=
  WriteStrToWriter_amd64 (CmdSetXAttr_Path d) ;;
  w_Write (mem 4 (CmdSetXAttr_Flag d)) ;;
  WriteStrToWriter_amd64 (CmdSetXAttr_Key d) ;;
  w_Write (CmdSetXAttr_Value d) ;;
  mret tt.
Definition ReadCmdSetXAttrStructFromReader : RM CmdSetXAttrStruct :=
  v_Path ← ReadStrFromReader_amd64;
  m_Flag ← ReadFull 4;
  let v_Flag := of_mem m_Flag in
  v_Key ← ReadStrFromReader_amd64;
  v_Value ← ReadAll;
  mret (mkCmdSetXAttrStruct v_Path v_Flag v_Key v_Value).
Definition ReadCmdSetXAttrStructFromReaderWithBuffer (dataBuf : nat) : RM CmdSetXAttrStruct :=
  v_Path ← ReadStrFromReader_amd64;
  m_Flag ← ReadFull 4;
  let v_Flag := of_mem m_Flag in
  v_Key ← ReadStrFromReader_amd64;
  v_Value ← readAllToBuffer dataBuf;
  mret (mkCmdSetXAttrStruct v_Path v_Flag v_Key v_Value).

Definition GetCmdSymLinkStructRequiredSize (d : CmdSymLinkStruct) : Z :=
  len (CmdSymLink_TargetPath d) + len (CmdSymLink_FilePath d) + 4.
Definition WriteCmdSymLinkStructToWriter {W} `{Writer W} (d : CmdSymLinkStruct) : SE goerror W unit :=
  WriteStrToWriter_amd64 (CmdSymLink_TargetPath d) ;;
  WriteStrToWriter_amd64 (CmdSymLink_FilePath d) ;;
  mret tt.
Definition ReadCmdSymLinkStructFromReader : RM CmdSymLinkStruct :=
  v_TargetPath ← ReadStrFromReader_amd64;
  v_FilePath ← ReadStrFromReader_amd64;
  mret (mkCmdSymLinkStruct v_TargetPath v_FilePath).

Definition GetCmdSyncStructRequiredSize (d : CmdSyncStruct) : Z :=
  4.
Definition WriteCmdSyncStructToWriter {W} `{Writer W} (d : CmdSyncStruct) : SE goerror W unit :=
  w_Write (mem 4 (CmdSync_FD d)) ;;
  mret tt.
Definition ReadCmdSyncStructFromReader : RM CmdSyncStruct :=
  m_FD ← ReadFull 4;
  let v_FD := of_mem m_FD in
  mret (mkCmdSyncStruct v_FD).

Definition GetCmdWriteAtStructRequiredSize (d : CmdWriteAtStruct) : Z :=
  len (CmdWriteAt_Data d) + 12.
Definition WriteCmdWriteAtStructToWriter {W} `{Writer W} (d : CmdWriteAtStruct) : SE goerror W unit :=
  w_Write (mem 4 (CmdWriteAt_FD d)) ;;
  w_Write (mem 8 (CmdWriteAt_Offset d)) ;;
  w_Write (CmdWriteAt_Data d) ;;
  mret tt.
Definition ReadCmdWriteAtStructFromReader : RM CmdWriteAtStruct :=
  m_FD ← ReadFull 4;
  let v_FD := of_mem m_FD in
  m_Offset ← ReadFull 8;
  let v_Offset := of_mem m_Offset in
  v_Data ← ReadAll;
  mret (mkCmdWriteAtStruct v_FD v_Offset v_Data).
Definition ReadCmdWriteAtStructFromReaderWithBuffer (dataBuf : nat) : RM CmdWriteAtStruct :=
  m_FD ← ReadFull 4;
  let v_FD := of_mem m_FD in
  m_Offset ← ReadFull 8;
  let v_Offset := of_mem m_Offset in
  v_Data ← readAllToBuffer dataBuf;
  mret (mkCmdWriteAtStruct v_FD v_Offset v_Data).

Definition GetCmdWriteStreamDataStructRequiredSize (d : CmdWriteStreamDataStruct) : Z :=
  len (CmdWriteStreamData_Data d) + 1.
Definition WriteCmdWriteStreamDataStructToWriter {W} `{Writer W} (d : CmdWriteStreamDataStruct) : SE goerror W unit :=
  w_Write (mem 1 (CmdWriteStreamData_IsEnd d)) ;;
  w_Write (CmdWriteStreamData_Data d) ;;
  mret tt.
Definition ReadCmdWriteStreamDataStructFromReader : RM CmdWriteStreamDataStruct :=
  m_IsEnd ← ReadFull 1;
  let v_IsEnd := of_mem m_IsEnd in
  v_Data ← ReadAll;
  mret (mkCmdWriteStreamDataStruct v_IsEnd v_Data).
Definition ReadCmdWriteStreamDataStructFromReaderWithBuffer (dataBuf : nat) : RM CmdWriteStreamDataStruct :=
  m_IsEnd ← ReadFull 1;
  let v_IsEnd := of_mem m_IsEnd in
  v_Data ← readAllToBuffer dataBuf;
  mret (mkCmdWriteStreamDataStruct v_IsEnd v_Data).

Definition GetCmdWriteStreamOpenStructRequiredSize (d : CmdWriteStreamOpenStruct) : Z :=
  len (CmdWriteStreamOpen_Data d) + 12.
Definition WriteCmdWriteStreamOpenStructToWriter {W} `{Writer W} (d : CmdWriteStreamOpenStruct) : SE goerror W unit :=
  w_Write (mem 4 (CmdWriteStreamOpen_FD d)) ;;
  w_Write (mem 8 (CmdWriteStreamOpen_Offset d)) ;;
  w_Write (CmdWriteStreamOpen_Data d) ;;
  mret tt.
Definition ReadCmdWriteStreamOpenStructFromReader : RM CmdWriteStreamOpenStruct :=
  m_FD ← ReadFull 4;
  let v_FD := of_mem m_FD in
  m_Offset ← ReadFull 8;
  let v_Offset := of_mem m_Offset in
  v_Data ← ReadAll;
  mret (mkCmdWriteStreamOpenStruct v_FD v_Offset v_Data).
Definition ReadCmdWriteStreamOpenStructFromReaderWithBuffer (dataBuf : nat) : RM CmdWriteStreamOpenStruct :=
  m_FD ← ReadFull 4;
  let v_FD := of_mem m_FD in
  m_Offset ← ReadFull 8;
  let v_Offset := of_mem m_Offset in
  v_Data ← readAllToBuffer dataBuf;
  mret (mkCmdWriteStreamOpenStruct v_FD v_Offset v_Data).

Definition GetCmdWriteStructRequiredSize (d : CmdWriteStruct) : Z :=
  len (CmdWrite_Data d) + 4.
Definition WriteCmdWriteStructToWriter {W} `{Writer W} (d : CmdWriteStruct) : SE goerror W unit :=
  w_Write (mem 4 (CmdWrite_FD d)) ;;
  w_Write (CmdWrite_Data d) ;;
  mret tt.
Definition ReadCmdWriteStructFromReader : RM CmdWriteStruct :=
  m_FD ← ReadFull 4;
  let v_FD := of_mem m_FD in
  v_Data ← ReadAll;
  mret (mkCmdWriteStruct v_FD v_Data).
Definition ReadCmdWriteStructFromReaderWithBuffer (dataBuf : nat) : RM CmdWriteStruct :=
  m_FD ← ReadFull 4;
  let v_FD := of_mem m_FD in
  v_Data ← readAllToBuffer dataBuf;
  mret (mkCmdWriteStruct v_FD v_Data).

Definition GetDirentRequiredSize (d : Dirent) : Z :=
  len (Dirent_Name d) + GetTimespecRequiredSize (Dirent_MTime d) + 15.
Definition WriteDirentToWriter {W} `{Writer W} (d : Dirent) : SE goerror W unit :=
  WriteStrToWriter_amd64 (Dirent_Name d) ;;
  w_Write (mem 8 (Dirent_Size d)) ;;
  WriteTimespecToWriter (Dirent_MTime d) ;;
  w_Write (mem 4 (Dirent_Mode d)) ;;
  w_Write (mem 1 (Dirent_Owner d)) ;;
  mret tt.
Definition ReadDirentFromReader : RM Dirent :=
  v_Name ← ReadStrFromReader_amd64;
  m_Size ← ReadFull 8;
  let v_Size := of_mem m_Size in
  v_MTime ← ReadTimespecFromReader;
  m_Mode ← ReadFull 4;
  let v_Mode := of_mem m_Mode in
  m_Owner ← ReadFull 1;
  let v_Owner := of_mem m_Owner in
  mret (mkDirent v_Name v_Size v_MTime v_Mode v_Owner).

Definition GetRspAllocateRequiredSize (d : RspAllocate) : Z :=
  0.
Definition WriteRspAllocateToWriter {W} `{Writer W} (d : RspAllocate) : SE goerror W unit :=
  mret tt.
Definition ReadRspAllocateFromReader : RM RspAllocate :=
  mret (mkRspAllocate).

Definition GetRspCloneFileRangeRequiredSize (d : RspCloneFileRange) : Z :=
  0.
Definition WriteRspCloneFileRangeToWriter {W} `{Writer W} (d : RspCloneFileRange) : SE goerror W unit :=
  mret tt.
Definition ReadRspCloneFileRangeFromReader : RM RspCloneFileRange :=
  mret (mkRspCloneFileRange).

Definition GetRspCloseRequiredSize (d : RspClose) : Z :=
  0.
Definition WriteRspCloseToWriter {W} `{Writer W} (d : RspClose) : SE goerror W unit :=
  mret tt.
Definition ReadRspCloseFromReader : RM RspClose :=
  mret (mkRspClose).

Definition GetRspCopyFileRangeRequiredSize (d : RspCopyFileRange) : Z :=
  8.
Definition WriteRspCopyFileRangeToWriter {W} `{Writer W} (d : RspCopyFileRange) : SE goerror W unit :=
  w_Write (mem 8 (RspCopyFileRange_Copied d)) ;;
  mret tt.
Definition ReadRspCopyFileRangeFromReader : RM RspCopyFileRange :=
  m_Copied ← ReadFull 8;
  let v_Copied := of_mem m_Copied in
  mret (mkRspCopyFileRange v_Copied).

Definition GetRspErrorRequiredSize (d : RspError) : Z :=
  len (RspError_Desc d) + 2.
Definition WriteRspErrorToWriter {W} `{Writer W} (d : RspError) : SE goerror W unit :=
  WriteStrToWriter_amd64 (RspError_Desc d) ;;
  mret tt.
Definition ReadRspErrorFromReader : RM RspError :=
  v_Desc ← ReadStrFromReader_amd64;
  mret (mkRspError v_Desc).

Definition GetRspFsStatRequiredSize (d : RspFsStat) : Z :=
  24.
Definition WriteRspFsStatToWriter {W} `{Writer W} (d : RspFsStat) : SE goerror W unit :=
  w_Write (mem 8 (RspFsStat_Total d)) ;;
  w_Write (mem 8 (RspFsStat_Free d)) ;;
  w_Write (mem 8 (RspFsStat_Available d)) ;;
  mret tt.
Definition ReadRspFsStatFromReader : RM RspFsStat :=
  m_Total ← ReadFull 8;
  let v_Total := of_mem m_Total in
  m_Free ← ReadFull 8;
  let v_Free := of_mem m_Free in
  m_Available ← ReadFull 8;
  let v_Available := of_mem m_Available in
  mret (mkRspFsStat v_Total v_Free v_Available).

Definition GetRspGetAttrRequiredSize (d : RspGetAttr) : Z :=
  GetFileInfoRequiredSize (RspGetAttr_FI d) + 0.
Definition WriteRspGetAttrToWriter {W} `{Writer W} (d : RspGetAttr) : SE goerror W unit :=
  WriteFileInfoToWriter (RspGetAttr_FI d) ;;
  mret tt.
Definition ReadRspGetAttrFromReader : RM RspGetAttr :=
  v_FI ← ReadFileInfoFromReader;
  mret (mkRspGetAttr v_FI).

Definition GetRspGetFileLockRequiredSize (d : RspGetFileLock) : Z :=
  GetFileLockInfoRequiredSize (RspGetFileLock_FileLock d) + 0.
Definition WriteRspGetFileLockToWriter {W} `{Writer W} (d : RspGetFileLock) : SE goerror W unit :=
  WriteFileLockInfoToWriter (RspGetFileLock_FileLock d) ;;
  mret tt.
Definition ReadRspGetFileLockFromReader : RM RspGetFileLock :=
  v_FileLock ← ReadFileLockInfoFromReader;
  mret (mkRspGetFileLock v_FileLock).

Definition GetRspGetXAttrRequiredSize (d : RspGetXAttr) : Z :=
  len (RspGetXAttr_Data d) + 0.
Definition WriteRspGetXAttrToWriter {W} `{Writer W} (d : RspGetXAttr) : SE goerror W unit :=
  w_Write (RspGetXAttr_Data d) ;;
  mret tt.
Definition ReadRspGetXAttrFromReader : RM RspGetXAttr :=
  v_Data ← ReadAll;
  mret (mkRspGetXAttr v_Data).
Definition ReadRspGetXAttrFromReaderWithBuffer (dataBuf : nat) : RM RspGetXAttr :=
  v_Data ← readAllToBuffer dataBuf;
  mret (mkRspGetXAttr v_Data).

Definition GetRspLinkRequiredSize (d : RspLink) : Z :=
  0.
Definition WriteRspLinkToWriter {W} `{Writer W} (d : RspLink) : SE goerror W unit :=
  mret tt.
Definition ReadRspLinkFromReader : RM RspLink :=
  mret (mkRspLink).

Definition GetRspListXAttrRequiredSize (d : RspListXAttr) : Z :=
  len (RspListXAttr_Data d) + 0.
Definition WriteRspListXAttrToWriter {W} `{Writer W} (d : RspListXAttr) : SE goerror W unit :=
  w_Write (RspListXAttr_Data d) ;;
  mret tt.
Definition ReadRspListXAttrFromReader : RM RspListXAttr :=
  v_Data ← ReadAll;
  mret (mkRspListXAttr v_Data).
Definition ReadRspListXAttrFromReaderWithBuffer (dataBuf : nat) : RM RspListXAttr :=
  v_Data ← readAllToBuffer dataBuf;
  mret (mkRspListXAttr v_Data).

Definition GetRspMkdirRequiredSize (d : RspMkdir) : Z :=
  0.
Definition WriteRspMkdirToWriter {W} `{Writer W} (d : RspMkdir) : SE goerror W unit :=
  mret tt.
Definition ReadRspMkdirFromReader : RM RspMkdir :=
  mret (mkRspMkdir).

Definition GetRspOpenRequiredSize (d : RspOpen) : Z :=
  4.
Definition WriteRspOpenToWriter {W} `{Writer W} (d : RspOpen) : SE goerror W unit :=
  w_Write (mem 4 (RspOpen_FD d)) ;;
  mret tt.
Definition ReadRspOpenFromReader : RM RspOpen :=
  m_FD ← ReadFull 4;
  let v_FD := of_mem m_FD in
  mret (mkRspOpen v_FD).

Definition GetRspReadRequiredSize (d : RspRead) : Z :=
  len (RspRead_Data d) + 0.
Definition WriteRspReadToWriter {W} `{Writer W} (d : RspRead) : SE goerror W unit :=
  w_Write (RspRead_Data d) ;;
  mret tt.
Definition ReadRspReadFromReader : RM RspRead :=
  v_Data ← ReadAll;
  mret (mkRspRead v_Data).
Definition ReadRspReadFromReaderWithBuffer (dataBuf : nat) : RM RspRead :=
  v_Data ← readAllToBuffer dataBuf;
  mret (mkRspRead v_Data).

Definition GetRspReadAtRequiredSize (d : RspReadAt) : Z :=
  len (RspReadAt_Data d) + 0.
Definition WriteRspReadAtToWriter {W} `{Writer W} (d : RspReadAt) : SE goerror W unit :=
  w_Write (RspReadAt_Data d) ;;
  mret tt.
Definition ReadRspReadAtFromReader : RM RspReadAt :=
  v_Data ← ReadAll;
  mret (mkRspReadAt v_Data).
Definition ReadRspReadAtFromReaderWithBuffer (dataBuf : nat) : RM RspReadAt :=
  v_Data ← readAllToBuffer dataBuf;
  mret (mkRspReadAt v_Data).

Definition GetRspReadDirRequiredSize (d : RspReadDir) : Z :=
  len (RspReadDir_Data d) + 0.
Definition WriteRspReadDirToWriter {W} `{Writer W} (d : RspReadDir) : SE goerror W unit :=
  w_Write (RspReadDir_Data d) ;;
  mret tt.
Definition ReadRspReadDirFromReader : RM RspReadDir :=
  v_Data ← ReadAll;
  mret (mkRspReadDir v_Data).
Definition ReadRspReadDirFromReaderWithBuffer (dataBuf : nat) : RM RspReadDir :=
  v_Data ← readAllToBuffer dataBuf;
  mret (mkRspReadDir v_Data).

Definition GetRspReadLinkRequiredSize (d : RspReadLink) : Z :=
  len (RspReadLink_TargetPath d) + 2.
Definition WriteRspReadLinkToWriter {W} `{Writer W} (d : RspReadLink) : SE goerror W unit :=
  WriteStrToWriter_amd64 (RspReadLink_TargetPath d) ;;
  mret tt.
Definition ReadRspReadLinkFromReader : RM RspReadLink :=
  v_TargetPath ← ReadStrFromReader_amd64;
  mret (mkRspReadLink v_TargetPath).

Definition GetRspRemoveRequiredSize (d : RspRemove) : Z :=
  0.
Definition WriteRspRemoveToWriter {W} `{Writer W} (d : RspRemove) : SE goerror W unit :=
  mret tt.
Definition ReadRspRemoveFromReader : RM RspRemove :=
  mret (mkRspRemove).

Definition GetRspRemoveXAttrRequiredSize (d : RspRemoveXAttr) : Z :=
  0.
Definition WriteRspRemoveXAttrToWriter {W} `{Writer W} (d : RspRemoveXAttr) : SE goerror W unit :=
  mret tt.
Definition ReadRspRemoveXAttrFromReader : RM RspRemoveXAttr :=
  mret (mkRspRemoveXAttr).

Definition GetRspRenameRequiredSize (d : RspRename) : Z :=
  0.
Definition WriteRspRenameToWriter {W} `{Writer W} (d : RspRename) : SE goerror W unit :=
  mret tt.
Definition ReadRspRenameFromReader : RM RspRename :=
  mret (mkRspRename).

Definition GetRspRmDirRequiredSize (d : RspRmDir) : Z :=
  0.
Definition WriteRspRmDirToWriter {W} `{Writer W} (d : RspRmDir) : SE goerror W unit :=
  mret tt.
Definition ReadRspRmDirFromReader : RM RspRmDir :=
  mret (mkRspRmDir).

Definition GetRspSeekRequiredSize (d : RspSeek) : Z :=
  8.
Definition WriteRspSeekToWriter {W} `{Writer W} (d : RspSeek) : SE goerror W unit :=
  w_Write (mem 8 (RspSeek_Offset d)) ;;
  mret tt.
Definition ReadRspSeekFromReader : RM RspSeek :=
  m_Offset ← ReadFull 8;
  let v_Offset := of_mem m_Offset in
  mret (mkRspSeek v_Offset).

Definition GetRspSetAttrRequiredSize (d : RspSetAttr) : Z :=
  0.
Definition WriteRspSetAttrToWriter {W} `{Writer W} (d : RspSetAttr) : SE goerror W unit :=
  mret tt.
Definition ReadRspSetAttrFromReader : RM RspSetAttr :=
  mret (mkRspSetAttr).

Definition GetRspSetAttrByFDRequiredSize (d : RspSetAttrByFD) : Z :=
  0.
Definition WriteRspSetAttrByFDToWriter {W} `{Writer W} (d : RspSetAttrByFD) : SE goerror W unit :=
  mret tt.
Definition ReadRspSetAttrByFDFromReader : RM RspSetAttrByFD :=
  mret (mkRspSetAttrByFD).

Definition GetRspSetFileLockRequiredSize (d : RspSetFileLock) : Z :=
  0.
Definition WriteRspSetFileLockToWriter {W} `{Writer W} (d : RspSetFileLock) : SE goerror W unit :=
  mret tt.
Definition ReadRspSetFileLockFromReader : RM RspSetFileLock :=
  mret (mkRspSetFileLock).

Definition GetRspSetFileLockWaitRequiredSize (d : RspSetFileLockWait) : Z :=
  0.
Definition WriteRspSetFileLockWaitToWriter {W} `{Writer W} (d : RspSetFileLockWait) : SE goerror W unit :=
  mret tt.
Definition ReadRspSetFileLockWaitFromReader : RM RspSetFileLockWait :=
  mret (mkRspSetFileLockWait).

Definition GetRspSetXAttrRequiredSize (d : RspSetXAttr) : Z :=
  0.
Definition WriteRspSetXAttrToWriter {W} `{Writer W} (d : RspSetXAttr) : SE goerror W unit :=
  mret tt.
Definition ReadRspSetXAttrFromReader : RM RspSetXAttr :=
  mret (mkRspSetXAttr).

Definition GetRspSymLinkRequiredSize (d : RspSymLink) : Z :=
  0.
Definition WriteRspSymLinkToWriter {W} `{Writer W} (d : RspSymLink) : SE goerror W unit :=
  mret tt.
Definition ReadRspSymLinkFromReader : RM RspSymLink :=
  mret (mkRspSymLink).

Definition GetRspSyncRequiredSize (d : RspSync) : Z :=
  0.
Definition WriteRspSyncToWriter {W} `{Writer W} (d : RspSync) : SE goerror W unit :=
  mret tt.
Definition ReadRspSyncFromReader : RM RspSync :=
  mret (mkRspSync).

Definition GetRspWriteRequiredSize (d : RspWrite) : Z :=
  8.
Definition WriteRspWriteToWriter {W} `{Writer W} (d : RspWrite) : SE goerror W unit :=
  w_Write (mem 8 (RspWrite_Written d)) ;;
  mret tt.
Definition ReadRspWriteFromReader : RM RspWrite :=
  m_Written ← ReadFull 8;
  let v_Written := of_mem m_Written in
  mret (mkRspWrite v_Written).

Definition GetRspWriteAtRequiredSize (d : RspWriteAt) : Z :=
  8.
Definition WriteRspWriteAtToWriter {W} `{Writer W} (d : RspWriteAt) : SE goerror W unit :=
  w_Write (mem 8 (RspWriteAt_Written d)) ;;
  mret tt.
Definition ReadRspWriteAtFromReader : RM RspWriteAt :=
  m_Written ← ReadFull 8;
  let v_Written := of_mem m_Written in
  mret (mkRspWriteAt v_Written).

Definition GetRspWriteStreamCloseRequiredSize (d : RspWriteStreamClose) : Z :=
  8.
Definition WriteRspWriteStreamCloseToWriter {W} `{Writer W} (d : RspWriteStreamClose) : SE goerror W unit :=
  w_Write (mem 8 (RspWriteStreamClose_Written d)) ;;
  mret tt.
Definition ReadRspWriteStreamCloseFromReader : RM RspWriteStreamClose :=
  m_Written ← ReadFull 8;
  let v_Written := of_mem m_Written in
  mret (mkRspWriteStreamClose v_Written).

(** ** The helpers are codecs *)

Definition codec_Timespec_amd64 : codec Timespec :=
  mkCodec Timespec (fun W _ d => WriteTimespecToWriter d) ReadTimespecFromReader GetTimespecRequiredSize.

#[global] Instance codec_Timespec_amd64_ok : CodecOk fields_Timespec codec_Timespec_amd64.
Proof.
  codec_ok codec_Timespec_amd64 fields_Timespec (@WriteTimespecToWriter) ReadTimespecFromReader GetTimespecRequiredSize.
Qed.

Lemma WriteTimespec_amd64_out {W} `{Writer W} d w :
  w_ok w -> WriteTimespecToWriter d w = out (enc (fields_Timespec d)) w.
Proof. apply (c_write_spec (c := codec_Timespec_amd64)). Qed.
Lemma ReadTimespec_amd64_complete d r rest :
  rd_data r = wire (fields_Timespec d) ++ rest -> wf_fields (fields_Timespec d) = true ->
  ReadTimespecFromReader r = (Ok d, set_data rest r).
Proof. intros. by apply (c_read_complete (c := codec_Timespec_amd64)). Qed.
#[export] Hint Resolve WriteTimespec_amd64_out ReadTimespec_amd64_complete : codec_nested.
#[export] Hint Unfold fields_Timespec GetTimespecRequiredSize : codec_size.
#[global] Instance ReadTimespec_amd64_nested : NestedRead fields_Timespec ReadTimespecFromReader :=
  codec_nested_read fields_Timespec codec_Timespec_amd64.

Definition codec_FileInfo_amd64 : codec FileInfo :=
  mkCodec FileInfo (fun W _ d => WriteFileInfoToWriter d) ReadFileInfoFromReader GetFileInfoRequiredSize.

#[global] Instance codec_FileInfo_amd64_ok : CodecOk fields_FileInfo codec_FileInfo_amd64.
Proof.
  codec_ok codec_FileInfo_amd64 fields_FileInfo (@WriteFileInfoToWriter) ReadFileInfoFromReader GetFileInfoRequiredSize.
Qed.

Lemma WriteFileInfo_amd64_out {W} `{Writer W} d w :
  w_ok w -> WriteFileInfoToWriter d w = out (enc (fields_FileInfo d)) w.
Proof. apply (c_write_spec (c := codec_FileInfo_amd64)). Qed.
Lemma ReadFileInfo_amd64_complete d r rest :
  rd_data r = wire (fields_FileInfo d) ++ rest -> wf_fields (fields_FileInfo d) = true ->
  ReadFileInfoFromReader r = (Ok d, set_data rest r).
Proof. intros. by apply (c_read_complete (c := codec_FileInfo_amd64)). Qed.
#[export] Hint Resolve WriteFileInfo_amd64_out ReadFileInfo_amd64_complete : codec_nested.
#[export] Hint Unfold fields_FileInfo GetFileInfoRequiredSize : codec_size.
#[global] Instance ReadFileInfo_amd64_nested : NestedRead fields_FileInfo ReadFileInfoFromReader :=
  codec_nested_read fields_FileInfo codec_FileInfo_amd64.

Definition codec_FileLockInfo_amd64 : codec FileLockInfo :=
  mkCodec FileLockInfo (fun W _ d => WriteFileLockInfoToWriter d) ReadFileLockInfoFromReader GetFileLockInfoRequiredSize.

#[global] Instance codec_FileLockInfo_amd64_ok : CodecOk fields_FileLockInfo codec_FileLockInfo_amd64.
Proof.
  codec_ok codec_FileLockInfo_amd64 fields_FileLockInfo (@WriteFileLockInfoToWriter) ReadFileLockInfoFromReader GetFileLockInfoRequiredSize.
Qed.

Lemma WriteFileLockInfo_amd64_out {W} `{Writer W} d w :
  w_ok w -> WriteFileLockInfoToWriter d w = out (enc (fields_FileLockInfo d)) w.
Proof. apply (c_write_spec (c := codec_FileLockInfo_amd64)). Qed.
Lemma ReadFileLockInfo_amd64_complete d r rest :
  rd_data r = wire (fields_FileLockInfo d) ++ rest -> wf_fields (fields_FileLockInfo d) = true ->
  ReadFileLockInfoFromReader r = (Ok d, set_data rest r).
Proof. intros. by apply (c_read_complete (c := codec_FileLockInfo_amd64)). Qed.
#[export] Hint Resolve WriteFileLockInfo_amd64_out ReadFileLockInfo_amd64_complete : codec_nested.
#[export] Hint Unfold fields_FileLockInfo GetFileLockInfoRequiredSize : codec_size.
#[global] Instance ReadFileLockInfo_amd64_nested : NestedRead fields_FileLockInfo ReadFileLockInfoFromReader :=
  codec_nested_read fields_FileLockInfo codec_FileLockInfo_amd64.

Definition codec_CmdAllocateStruct_amd64 : codec CmdAllocateStruct :=
  mkCodec CmdAllocateStruct (fun W _ d => WriteCmdAllocateStructToWriter d) ReadCmdAllocateStructFromReader GetCmdAllocateStructRequiredSize.

#[global] Instance codec_CmdAllocateStruct_amd64_ok : CodecOk fields_CmdAllocateStruct codec_CmdAllocateStruct_amd64.
Proof.
  codec_ok codec_CmdAllocateStruct_amd64 fields_CmdAllocateStruct (@WriteCmdAllocateStructToWriter) ReadCmdAllocateStructFromReader GetCmdAllocateStructRequiredSize.
Qed.

Definition codec_CmdCloneFileRangeStruct_amd64 : codec CmdCloneFileRangeStruct :=
  mkCodec CmdCloneFileRangeStruct (fun W _ d => WriteCmdCloneFileRangeStructToWriter d) ReadCmdCloneFileRangeStructFromReader GetCmdCloneFileRangeStructRequiredSize.

#[global] Instance codec_CmdCloneFileRangeStruct_amd64_ok : CodecOk fields_CmdCloneFileRangeStruct codec_CmdCloneFileRangeStruct_amd64.
Proof.
  codec_ok codec_CmdCloneFileRangeStruct_amd64 fields_CmdCloneFileRangeStruct (@WriteCmdCloneFileRangeStructToWriter) ReadCmdCloneFileRangeStructFromReader GetCmdCloneFileRangeStructRequiredSize.
Qed.

Definition codec_CmdCloseStruct_amd64 : codec CmdCloseStruct :=
  mkCodec CmdCloseStruct (fun W _ d => WriteCmdCloseStructToWriter d) ReadCmdCloseStructFromReader GetCmdCloseStructRequiredSize.

#[global] Instance codec_CmdCloseStruct_amd64_ok : CodecOk fields_CmdCloseStruct codec_CmdCloseStruct_amd64.
Proof.
  codec_ok codec_CmdCloseStruct_amd64 fields_CmdCloseStruct (@WriteCmdCloseStructToWriter) ReadCmdCloseStructFromReader GetCmdCloseStructRequiredSize.
Qed.

Definition codec_CmdCopyFileRangeStruct_amd64 : codec CmdCopyFileRangeStruct :=
  mkCodec CmdCopyFileRangeStruct (fun W _ d => WriteCmdCopyFileRangeStructToWriter d) ReadCmdCopyFileRangeStructFromReader GetCmdCopyFileRangeStructRequiredSize.

#[global] Instance codec_CmdCopyFileRangeStruct_amd64_ok : CodecOk fields_CmdCopyFileRangeStruct codec_CmdCopyFileRangeStruct_amd64.
Proof.
  codec_ok codec_CmdCopyFileRangeStruct_amd64 fields_CmdCopyFileRangeStruct (@WriteCmdCopyFileRangeStructToWriter) ReadCmdCopyFileRangeStructFromReader GetCmdCopyFileRangeStructRequiredSize.
Qed.

Definition codec_CmdFsStatStruct_amd64 : codec CmdFsStatStruct :=
  mkCodec CmdFsStatStruct (fun W _ d => WriteCmdFsStatStructToWriter d) ReadCmdFsStatStructFromReader GetCmdFsStatStructRequiredSize.

#[global] Instance codec_CmdFsStatStruct_amd64_ok : CodecOk fields_CmdFsStatStruct codec_CmdFsStatStruct_amd64.
Proof.
  codec_ok codec_CmdFsStatStruct_amd64 fields_CmdFsStatStruct (@WriteCmdFsStatStructToWriter) ReadCmdFsStatStructFromReader GetCmdFsStatStructRequiredSize.
Qed.

Definition codec_CmdGetAttrStruct_amd64 : codec CmdGetAttrStruct :=
  mkCodec CmdGetAttrStruct (fun W _ d => WriteCmdGetAttrStructToWriter d) ReadCmdGetAttrStructFromReader GetCmdGetAttrStructRequiredSize.

#[global] Instance codec_CmdGetAttrStruct_amd64_ok : CodecOk fields_CmdGetAttrStruct codec_CmdGetAttrStruct_amd64.
Proof.
  codec_ok codec_CmdGetAttrStruct_amd64 fields_CmdGetAttrStruct (@WriteCmdGetAttrStructToWriter) ReadCmdGetAttrStructFromReader GetCmdGetAttrStructRequiredSize.
Qed.

Definition codec_CmdGetFileLockStruct_amd64 : codec CmdGetFileLockStruct :=
  mkCodec CmdGetFileLockStruct (fun W _ d => WriteCmdGetFileLockStructToWriter d) ReadCmdGetFileLockStructFromReader GetCmdGetFileLockStructRequiredSize.

#[global] Instance codec_CmdGetFileLockStruct_amd64_ok : CodecOk fields_CmdGetFileLockStruct codec_CmdGetFileLockStruct_amd64.
Proof.
  codec_ok codec_CmdGetFileLockStruct_amd64 fields_CmdGetFileLockStruct (@WriteCmdGetFileLockStructToWriter) ReadCmdGetFileLockStructFromReader GetCmdGetFileLockStructRequiredSize.
Qed.

Definition codec_CmdGetXAttrStruct_amd64 : codec CmdGetXAttrStruct :=
  mkCodec CmdGetXAttrStruct (fun W _ d => WriteCmdGetXAttrStructToWriter d) ReadCmdGetXAttrStructFromReader GetCmdGetXAttrStructRequiredSize.

#[global] Instance codec_CmdGetXAttrStruct_amd64_ok : CodecOk fields_CmdGetXAttrStruct codec_CmdGetXAttrStruct_amd64.
Proof.
  codec_ok codec_CmdGetXAttrStruct_amd64 fields_CmdGetXAttrStruct (@WriteCmdGetXAttrStructToWriter) ReadCmdGetXAttrStructFromReader GetCmdGetXAttrStructRequiredSize.
Qed.

Definition codec_CmdLinkStruct_amd64 : codec CmdLinkStruct :=
  mkCodec CmdLinkStruct (fun W _ d => WriteCmdLinkStructToWriter d) ReadCmdLinkStructFromReader GetCmdLinkStructRequiredSize.

#[global] Instance codec_CmdLinkStruct_amd64_ok : CodecOk fields_CmdLinkStruct codec_CmdLinkStruct_amd64.
Proof.
  codec_ok codec_CmdLinkStruct_amd64 fields_CmdLinkStruct (@WriteCmdLinkStructToWriter) ReadCmdLinkStructFromReader GetCmdLinkStructRequiredSize.
Qed.

Definition codec_CmdListXAttrStruct_amd64 : codec CmdListXAttrStruct :=
  mkCodec CmdListXAttrStruct (fun W _ d => WriteCmdListXAttrStructToWriter d) ReadCmdListXAttrStructFromReader GetCmdListXAttrStructRequiredSize.

#[global] Instance codec_CmdListXAttrStruct_amd64_ok : CodecOk fields_CmdListXAttrStruct codec_CmdListXAttrStruct_amd64.
Proof.
  codec_ok codec_CmdListXAttrStruct_amd64 fields_CmdListXAttrStruct (@WriteCmdListXAttrStructToWriter) ReadCmdListXAttrStructFromReader GetCmdListXAttrStructRequiredSize.
Qed.

Definition codec_CmdMkdirStruct_amd64 : codec CmdMkdirStruct :=
  mkCodec CmdMkdirStruct (fun W _ d => WriteCmdMkdirStructToWriter d) ReadCmdMkdirStructFromReader GetCmdMkdirStructRequiredSize.

#[global] Instance codec_CmdMkdirStruct_amd64_ok : CodecOk fields_CmdMkdirStruct codec_CmdMkdirStruct_amd64.
Proof.
  codec_ok codec_CmdMkdirStruct_amd64 fields_CmdMkdirStruct (@WriteCmdMkdirStructToWriter) ReadCmdMkdirStructFromReader GetCmdMkdirStructRequiredSize.
Qed.

Definition codec_CmdOpenStruct_amd64 : codec CmdOpenStruct :=
  mkCodec CmdOpenStruct (fun W _ d => WriteCmdOpenStructToWriter d) ReadCmdOpenStructFromReader GetCmdOpenStructRequiredSize.

#[global] Instance codec_CmdOpenStruct_amd64_ok : CodecOk fields_CmdOpenStruct codec_CmdOpenStruct_amd64.
Proof.
  codec_ok codec_CmdOpenStruct_amd64 fields_CmdOpenStruct (@WriteCmdOpenStructToWriter) ReadCmdOpenStructFromReader GetCmdOpenStructRequiredSize.
Qed.

Definition codec_CmdReadAtStruct_amd64 : codec CmdReadAtStruct :=
  mkCodec CmdReadAtStruct (fun W _ d => WriteCmdReadAtStructToWriter d) ReadCmdReadAtStructFromReader GetCmdReadAtStructRequiredSize.

#[global] Instance codec_CmdReadAtStruct_amd64_ok : CodecOk fields_CmdReadAtStruct codec_CmdReadAtStruct_amd64.
Proof.
  codec_ok codec_CmdReadAtStruct_amd64 fields_CmdReadAtStruct (@WriteCmdReadAtStructToWriter) ReadCmdReadAtStructFromReader GetCmdReadAtStructRequiredSize.
Qed.

Definition codec_CmdReadDirPlusStruct_amd64 : codec CmdReadDirPlusStruct :=
  mkCodec CmdReadDirPlusStruct (fun W _ d => WriteCmdReadDirPlusStructToWriter d) ReadCmdReadDirPlusStructFromReader GetCmdReadDirPlusStructRequiredSize.

#[global] Instance codec_CmdReadDirPlusStruct_amd64_ok : CodecOk fields_CmdReadDirPlusStruct codec_CmdReadDirPlusStruct_amd64.
Proof.
  codec_ok codec_CmdReadDirPlusStruct_amd64 fields_CmdReadDirPlusStruct (@WriteCmdReadDirPlusStructToWriter) ReadCmdReadDirPlusStructFromReader GetCmdReadDirPlusStructRequiredSize.
Qed.

Definition codec_CmdReadDirStruct_amd64 : codec CmdReadDirStruct :=
  mkCodec CmdReadDirStruct (fun W _ d => WriteCmdReadDirStructToWriter d) ReadCmdReadDirStructFromReader GetCmdReadDirStructRequiredSize.

#[global] Instance codec_CmdReadDirStruct_amd64_ok : CodecOk fields_CmdReadDirStruct codec_CmdReadDirStruct_amd64.
Proof.
  codec_ok codec_CmdReadDirStruct_amd64 fields_CmdReadDirStruct (@WriteCmdReadDirStructToWriter) ReadCmdReadDirStructFromReader GetCmdReadDirStructRequiredSize.
Qed.

Definition codec_CmdReadLinkStruct_amd64 : codec CmdReadLinkStruct :=
  mkCodec CmdReadLinkStruct (fun W _ d => WriteCmdReadLinkStructToWriter d) ReadCmdReadLinkStructFromReader GetCmdReadLinkStructRequiredSize.

#[global] Instance codec_CmdReadLinkStruct_amd64_ok : CodecOk fields_CmdReadLinkStruct codec_CmdReadLinkStruct_amd64.
Proof.
  codec_ok codec_CmdReadLinkStruct_amd64 fields_CmdReadLinkStruct (@WriteCmdReadLinkStructToWriter) ReadCmdReadLinkStructFromReader GetCmdReadLinkStructRequiredSize.
Qed.

Definition codec_CmdReadStruct_amd64 : codec CmdReadStruct :=
  mkCodec CmdReadStruct (fun W _ d => WriteCmdReadStructToWriter d) ReadCmdReadStructFromReader GetCmdReadStructRequiredSize.

#[global] Instance codec_CmdReadStruct_amd64_ok : CodecOk fields_CmdReadStruct codec_CmdReadStruct_amd64.
Proof.
  codec_ok codec_CmdReadStruct_amd64 fields_CmdReadStruct (@WriteCmdReadStructToWriter) ReadCmdReadStructFromReader GetCmdReadStructRequiredSize.
Qed.

Definition codec_CmdRemoveStruct_amd64 : codec CmdRemoveStruct :=
  mkCodec CmdRemoveStruct (fun W _ d => WriteCmdRemoveStructToWriter d) ReadCmdRemoveStructFromReader GetCmdRemoveStructRequiredSize.

#[global] Instance codec_CmdRemoveStruct_amd64_ok : CodecOk fields_CmdRemoveStruct codec_CmdRemoveStruct_amd64.
Proof.
  codec_ok codec_CmdRemoveStruct_amd64 fields_CmdRemoveStruct (@WriteCmdRemoveStructToWriter) ReadCmdRemoveStructFromReader GetCmdRemoveStructRequiredSize.
Qed.

Definition codec_CmdRemoveXAttrStruct_amd64 : codec CmdRemoveXAttrStruct :=
  mkCodec CmdRemoveXAttrStruct (fun W _ d => WriteCmdRemoveXAttrStructToWriter d) ReadCmdRemoveXAttrStructFromReader GetCmdRemoveXAttrStructRequiredSize.

#[global] Instance codec_CmdRemoveXAttrStruct_amd64_ok : CodecOk fields_CmdRemoveXAttrStruct codec_CmdRemoveXAttrStruct_amd64.
Proof.
  codec_ok codec_CmdRemoveXAttrStruct_amd64 fields_CmdRemoveXAttrStruct (@WriteCmdRemoveXAttrStructToWriter) ReadCmdRemoveXAttrStructFromReader GetCmdRemoveXAttrStructRequiredSize.
Qed.

Definition codec_CmdRenameStruct_amd64 : codec CmdRenameStruct :=
  mkCodec CmdRenameStruct (fun W _ d => WriteCmdRenameStructToWriter d) ReadCmdRenameStructFromReader GetCmdRenameStructRequiredSize.

#[global] Instance codec_CmdRenameStruct_amd64_ok : CodecOk fields_CmdRenameStruct codec_CmdRenameStruct_amd64.
Proof.
  codec_ok codec_CmdRenameStruct_amd64 fields_CmdRenameStruct (@WriteCmdRenameStructToWriter) ReadCmdRenameStructFromReader GetCmdRenameStructRequiredSize.
Qed.

Definition codec_CmdRmDirStruct_amd64 : codec CmdRmDirStruct :=
  mkCodec CmdRmDirStruct (fun W _ d => WriteCmdRmDirStructToWriter d) ReadCmdRmDirStructFromReader GetCmdRmDirStructRequiredSize.

#[global] Instance codec_CmdRmDirStruct_amd64_ok : CodecOk fields_CmdRmDirStruct codec_CmdRmDirStruct_amd64.
Proof.
  codec_ok codec_CmdRmDirStruct_amd64 fields_CmdRmDirStruct (@WriteCmdRmDirStructToWriter) ReadCmdRmDirStructFromReader GetCmdRmDirStructRequiredSize.
Qed.

Definition codec_CmdSeekStruct_amd64 : codec CmdSeekStruct :=
  mkCodec CmdSeekStruct (fun W _ d => WriteCmdSeekStructToWriter d) ReadCmdSeekStructFromReader GetCmdSeekStructRequiredSize.

#[global] Instance codec_CmdSeekStruct_amd64_ok : CodecOk fields_CmdSeekStruct codec_CmdSeekStruct_amd64.
Proof.
  codec_ok codec_CmdSeekStruct_amd64 fields_CmdSeekStruct (@WriteCmdSeekStructToWriter) ReadCmdSeekStructFromReader GetCmdSeekStructRequiredSize.
Qed.

Definition codec_CmdSetAttrByFDStruct_amd64 : codec CmdSetAttrByFDStruct :=
  mkCodec CmdSetAttrByFDStruct (fun W _ d => WriteCmdSetAttrByFDStructToWriter d) ReadCmdSetAttrByFDStructFromReader GetCmdSetAttrByFDStructRequiredSize.

#[global] Instance codec_CmdSetAttrByFDStruct_amd64_ok : CodecOk fields_CmdSetAttrByFDStruct codec_CmdSetAttrByFDStruct_amd64.
Proof.
  codec_ok codec_CmdSetAttrByFDStruct_amd64 fields_CmdSetAttrByFDStruct (@WriteCmdSetAttrByFDStructToWriter) ReadCmdSetAttrByFDStructFromReader GetCmdSetAttrByFDStructRequiredSize.
Qed.

Definition codec_CmdSetAttrStruct_amd64 : codec CmdSetAttrStruct :=
  mkCodec CmdSetAttrStruct (fun W _ d => WriteCmdSetAttrStructToWriter d) ReadCmdSetAttrStructFromReader GetCmdSetAttrStructRequiredSize.

#[global] Instance codec_CmdSetAttrStruct_amd64_ok : CodecOk fields_CmdSetAttrStruct codec_CmdSetAttrStruct_amd64.
Proof.
  codec_ok codec_CmdSetAttrStruct_amd64 fields_CmdSetAttrStruct (@WriteCmdSetAttrStructToWriter) ReadCmdSetAttrStructFromReader GetCmdSetAttrStructRequiredSize.
Qed.

Definition codec_CmdSetFileLockStruct_amd64 : codec CmdSetFileLockStruct :=
  mkCodec CmdSetFileLockStruct (fun W _ d => WriteCmdSetFileLockStructToWriter d) ReadCmdSetFileLockStructFromReader GetCmdSetFileLockStructRequiredSize.

#[global] Instance codec_CmdSetFileLockStruct_amd64_ok : CodecOk fields_CmdSetFileLockStruct codec_CmdSetFileLockStruct_amd64.
Proof.
  codec_ok codec_CmdSetFileLockStruct_amd64 fields_CmdSetFileLockStruct (@WriteCmdSetFileLockStructToWriter) ReadCmdSetFileLockStructFromReader GetCmdSetFileLockStructRequiredSize.
Qed.

Definition codec_CmdSetFileLockWaitStruct_amd64 : codec CmdSetFileLockWaitStruct :=
  mkCodec CmdSetFileLockWaitStruct (fun W _ d => WriteCmdSetFileLockWaitStructToWriter d) ReadCmdSetFileLockWaitStructFromReader GetCmdSetFileLockWaitStructRequiredSize.

#[global] Instance codec_CmdSetFileLockWaitStruct_amd64_ok : CodecOk fields_CmdSetFileLockWaitStruct codec_CmdSetFileLockWaitStruct_amd64.
Proof.
  codec_ok codec_CmdSetFileLockWaitStruct_amd64 fields_CmdSetFileLockWaitStruct (@WriteCmdSetFileLockWaitStructToWriter) ReadCmdSetFileLockWaitStructFromReader GetCmdSetFileLockWaitStructRequiredSize.
Qed.

Definition codec_CmdSetXAttrStruct_amd64 : codec CmdSetXAttrStruct :=
  mkCodec CmdSetXAttrStruct (fun W _ d => WriteCmdSetXAttrStructToWriter d) ReadCmdSetXAttrStructFromReader GetCmdSetXAttrStructRequiredSize.

#[global] Instance codec_CmdSetXAttrStruct_amd64_ok : CodecOk fields_CmdSetXAttrStruct codec_CmdSetXAttrStruct_amd64.
Proof.
  codec_ok codec_CmdSetXAttrStruct_amd64 fields_CmdSetXAttrStruct (@WriteCmdSetXAttrStructToWriter) ReadCmdSetXAttrStructFromReader GetCmdSetXAttrStructRequiredSize.
Qed.

Definition codec_CmdSymLinkStruct_amd64 : codec CmdSymLinkStruct :=
  mkCodec CmdSymLinkStruct (fun W _ d => WriteCmdSymLinkStructToWriter d) ReadCmdSymLinkStructFromReader GetCmdSymLinkStructRequiredSize.

#[global] Instance codec_CmdSymLinkStruct_amd64_ok : CodecOk fields_CmdSymLinkStruct codec_CmdSymLinkStruct_amd64.
Proof.
  codec_ok codec_CmdSymLinkStruct_amd64 fields_CmdSymLinkStruct (@WriteCmdSymLinkStructToWriter) ReadCmdSymLinkStructFromReader GetCmdSymLinkStructRequiredSize.
Qed.

Definition codec_CmdSyncStruct_amd64 : codec CmdSyncStruct :=
  mkCodec CmdSyncStruct (fun W _ d => WriteCmdSyncStructToWriter d) ReadCmdSyncStructFromReader GetCmdSyncStructRequiredSize.

#[global] Instance codec_CmdSyncStruct_amd64_ok : CodecOk fields_CmdSyncStruct codec_CmdSyncStruct_amd64.
Proof.
  codec_ok codec_CmdSyncStruct_amd64 fields_CmdSyncStruct (@WriteCmdSyncStructToWriter) ReadCmdSyncStructFromReader GetCmdSyncStructRequiredSize.
Qed.

Definition codec_CmdWriteAtStruct_amd64 : codec CmdWriteAtStruct :=
  mkCodec CmdWriteAtStruct (fun W _ d => WriteCmdWriteAtStructToWriter d) ReadCmdWriteAtStructFromReader GetCmdWriteAtStructRequiredSize.

#[global] Instance codec_CmdWriteAtStruct_amd64_ok : CodecOk fields_CmdWriteAtStruct codec_CmdWriteAtStruct_amd64.
Proof.
  codec_ok codec_CmdWriteAtStruct_amd64 fields_CmdWriteAtStruct (@WriteCmdWriteAtStructToWriter) ReadCmdWriteAtStructFromReader GetCmdWriteAtStructRequiredSize.
Qed.

Definition codec_CmdWriteStreamDataStruct_amd64 : codec CmdWriteStreamDataStruct :=
  mkCodec CmdWriteStreamDataStruct (fun W _ d => WriteCmdWriteStreamDataStructToWriter d) ReadCmdWriteStreamDataStructFromReader GetCmdWriteStreamDataStructRequiredSize.

#[global] Instance codec_CmdWriteStreamDataStruct_amd64_ok : CodecOk fields_CmdWriteStreamDataStruct codec_CmdWriteStreamDataStruct_amd64.
Proof.
  codec_ok codec_CmdWriteStreamDataStruct_amd64 fields_CmdWriteStreamDataStruct (@WriteCmdWriteStreamDataStructToWriter) ReadCmdWriteStreamDataStructFromReader GetCmdWriteStreamDataStructRequiredSize.
Qed.

Definition codec_CmdWriteStreamOpenStruct_amd64 : codec CmdWriteStreamOpenStruct :=
  mkCodec CmdWriteStreamOpenStruct (fun W _ d => WriteCmdWriteStreamOpenStructToWriter d) ReadCmdWriteStreamOpenStructFromReader GetCmdWriteStreamOpenStructRequiredSize.

#[global] Instance codec_CmdWriteStreamOpenStruct_amd64_ok : CodecOk fields_CmdWriteStreamOpenStruct codec_CmdWriteStreamOpenStruct_amd64.
Proof.
  codec_ok codec_CmdWriteStreamOpenStruct_amd64 fields_CmdWriteStreamOpenStruct (@WriteCmdWriteStreamOpenStructToWriter) ReadCmdWriteStreamOpenStructFromReader GetCmdWriteStreamOpenStructRequiredSize.
Qed.

Definition codec_CmdWriteStruct_amd64 : codec CmdWriteStruct :=
  mkCodec CmdWriteStruct (fun W _ d => WriteCmdWriteStructToWriter d) ReadCmdWriteStructFromReader GetCmdWriteStructRequiredSize.

#[global] Instance codec_CmdWriteStruct_amd64_ok : CodecOk fields_CmdWriteStruct codec_CmdWriteStruct_amd64.
Proof.
  codec_ok codec_CmdWriteStruct_amd64 fields_CmdWriteStruct (@WriteCmdWriteStructToWriter) ReadCmdWriteStructFromReader GetCmdWriteStructRequiredSize.
Qed.

Definition codec_Dirent_amd64 : codec Dirent :=
  mkCodec Dirent (fun W _ d => WriteDirentToWriter d) ReadDirentFromReader GetDirentRequiredSize.

#[global] Instance codec_Dirent_amd64_ok : CodecOk fields_Dirent codec_Dirent_amd64.
Proof.
  codec_ok codec_Dirent_amd64 fields_Dirent (@WriteDirentToWriter) ReadDirentFromReader GetDirentRequiredSize.
Qed.

Definition codec_RspAllocate_amd64 : codec RspAllocate :=
  mkCodec RspAllocate (fun W _ d => WriteRspAllocateToWriter d) ReadRspAllocateFromReader GetRspAllocateRequiredSize.

#[global] Instance codec_RspAllocate_amd64_ok : CodecOk fields_RspAllocate codec_RspAllocate_amd64.
Proof.
  codec_ok codec_RspAllocate_amd64 fields_RspAllocate (@WriteRspAllocateToWriter) ReadRspAllocateFromReader GetRspAllocateRequiredSize.
Qed.

Definition codec_RspCloneFileRange_amd64 : codec RspCloneFileRange :=
  mkCodec RspCloneFileRange (fun W _ d => WriteRspCloneFileRangeToWriter d) ReadRspCloneFileRangeFromReader GetRspCloneFileRangeRequiredSize.

#[global] Instance codec_RspCloneFileRange_amd64_ok : CodecOk fields_RspCloneFileRange codec_RspCloneFileRange_amd64.
Proof.
  codec_ok codec_RspCloneFileRange_amd64 fields_RspCloneFileRange (@WriteRspCloneFileRangeToWriter) ReadRspCloneFileRangeFromReader GetRspCloneFileRangeRequiredSize.
Qed.

Definition codec_RspClose_amd64 : codec RspClose :=
  mkCodec RspClose (fun W _ d => WriteRspCloseToWriter d) ReadRspCloseFromReader GetRspCloseRequiredSize.

#[global] Instance codec_RspClose_amd64_ok : CodecOk fields_RspClose codec_RspClose_amd64.
Proof.
  codec_ok codec_RspClose_amd64 fields_RspClose (@WriteRspCloseToWriter) ReadRspCloseFromReader GetRspCloseRequiredSize.
Qed.

Definition codec_RspCopyFileRange_amd64 : codec RspCopyFileRange :=
  mkCodec RspCopyFileRange (fun W _ d => WriteRspCopyFileRangeToWriter d) ReadRspCopyFileRangeFromReader GetRspCopyFileRangeRequiredSize.

#[global] Instance codec_RspCopyFileRange_amd64_ok : CodecOk fields_RspCopyFileRange codec_RspCopyFileRange_amd64.
Proof.
  codec_ok codec_RspCopyFileRange_amd64 fields_RspCopyFileRange (@WriteRspCopyFileRangeToWriter) ReadRspCopyFileRangeFromReader GetRspCopyFileRangeRequiredSize.
Qed.

Definition codec_RspError_amd64 : codec RspError :=
  mkCodec RspError (fun W _ d => WriteRspErrorToWriter d) ReadRspErrorFromReader GetRspErrorRequiredSize.

#[global] Instance codec_RspError_amd64_ok : CodecOk fields_RspError codec_RspError_amd64.
Proof.
  codec_ok codec_RspError_amd64 fields_RspError (@WriteRspErrorToWriter) ReadRspErrorFromReader GetRspErrorRequiredSize.
Qed.

Definition codec_RspFsStat_amd64 : codec RspFsStat :=
  mkCodec RspFsStat (fun W _ d => WriteRspFsStatToWriter d) ReadRspFsStatFromReader GetRspFsStatRequiredSize.

#[global] Instance codec_RspFsStat_amd64_ok : CodecOk fields_RspFsStat codec_RspFsStat_amd64.
Proof.
  codec_ok codec_RspFsStat_amd64 fields_RspFsStat (@WriteRspFsStatToWriter) ReadRspFsStatFromReader GetRspFsStatRequiredSize.
Qed.

Definition codec_RspGetAttr_amd64 : codec RspGetAttr :=
  mkCodec RspGetAttr (fun W _ d => WriteRspGetAttrToWriter d) ReadRspGetAttrFromReader GetRspGetAttrRequiredSize.

#[global] Instance codec_RspGetAttr_amd64_ok : CodecOk fields_RspGetAttr codec_RspGetAttr_amd64.
Proof.
  codec_ok codec_RspGetAttr_amd64 fields_RspGetAttr (@WriteRspGetAttrToWriter) ReadRspGetAttrFromReader GetRspGetAttrRequiredSize.
Qed.

Definition codec_RspGetFileLock_amd64 : codec RspGetFileLock :=
  mkCodec RspGetFileLock (fun W _ d => WriteRspGetFileLockToWriter d) ReadRspGetFileLockFromReader GetRspGetFileLockRequiredSize.

#[global] Instance codec_RspGetFileLock_amd64_ok : CodecOk fields_RspGetFileLock codec_RspGetFileLock_amd64.
Proof.
  codec_ok codec_RspGetFileLock_amd64 fields_RspGetFileLock (@WriteRspGetFileLockToWriter) ReadRspGetFileLockFromReader GetRspGetFileLockRequiredSize.
Qed.

Definition codec_RspGetXAttr_amd64 : codec RspGetXAttr :=
  mkCodec RspGetXAttr (fun W _ d => WriteRspGetXAttrToWriter d) ReadRspGetXAttrFromReader GetRspGetXAttrRequiredSize.

#[global] Instance codec_RspGetXAttr_amd64_ok : CodecOk fields_RspGetXAttr codec_RspGetXAttr_amd64.
Proof.
  codec_ok codec_RspGetXAttr_amd64 fields_RspGetXAttr (@WriteRspGetXAttrToWriter) ReadRspGetXAttrFromReader GetRspGetXAttrRequiredSize.
Qed.

Definition codec_RspLink_amd64 : codec RspLink :=
  mkCodec RspLink (fun W _ d => WriteRspLinkToWriter d) ReadRspLinkFromReader GetRspLinkRequiredSize.

#[global] Instance codec_RspLink_amd64_ok : CodecOk fields_RspLink codec_RspLink_amd64.
Proof.
  codec_ok codec_RspLink_amd64 fields_RspLink (@WriteRspLinkToWriter) ReadRspLinkFromReader GetRspLinkRequiredSize.
Qed.

Definition codec_RspListXAttr_amd64 : codec RspListXAttr :=
  mkCodec RspListXAttr (fun W _ d => WriteRspListXAttrToWriter d) ReadRspListXAttrFromReader GetRspListXAttrRequiredSize.

#[global] Instance codec_RspListXAttr_amd64_ok : CodecOk fields_RspListXAttr codec_RspListXAttr_amd64.
Proof.
  codec_ok codec_RspListXAttr_amd64 fields_RspListXAttr (@WriteRspListXAttrToWriter) ReadRspListXAttrFromReader GetRspListXAttrRequiredSize.
Qed.

Definition codec_RspMkdir_amd64 : codec RspMkdir :=
  mkCodec RspMkdir (fun W _ d => WriteRspMkdirToWriter d) ReadRspMkdirFromReader GetRspMkdirRequiredSize.

#[global] Instance codec_RspMkdir_amd64_ok : CodecOk fields_RspMkdir codec_RspMkdir_amd64.
Proof.
  codec_ok codec_RspMkdir_amd64 fields_RspMkdir (@WriteRspMkdirToWriter) ReadRspMkdirFromReader GetRspMkdirRequiredSize.
Qed.

Definition codec_RspOpen_amd64 : codec RspOpen :=
  mkCodec RspOpen (fun W _ d => WriteRspOpenToWriter d) ReadRspOpenFromReader GetRspOpenRequiredSize.

#[global] Instance codec_RspOpen_amd64_ok : CodecOk fields_RspOpen codec_RspOpen_amd64.
Proof.
  codec_ok codec_RspOpen_amd64 fields_RspOpen (@WriteRspOpenToWriter) ReadRspOpenFromReader GetRspOpenRequiredSize.
Qed.

Definition codec_RspRead_amd64 : codec RspRead :=
  mkCodec RspRead (fun W _ d => WriteRspReadToWriter d) ReadRspReadFromReader GetRspReadRequiredSize.

#[global] Instance codec_RspRead_amd64_ok : CodecOk fields_RspRead codec_RspRead_amd64.
Proof.
  codec_ok codec_RspRead_amd64 fields_RspRead (@WriteRspReadToWriter) ReadRspReadFromReader GetRspReadRequiredSize.
Qed.

Definition codec_RspReadAt_amd64 : codec RspReadAt :=
  mkCodec RspReadAt (fun W _ d => WriteRspReadAtToWriter d) ReadRspReadAtFromReader GetRspReadAtRequiredSize.

#[global] Instance codec_RspReadAt_amd64_ok : CodecOk fields_RspReadAt codec_RspReadAt_amd64.
Proof.
  codec_ok codec_RspReadAt_amd64 fields_RspReadAt (@WriteRspReadAtToWriter) ReadRspReadAtFromReader GetRspReadAtRequiredSize.
Qed.

Definition codec_RspReadDir_amd64 : codec RspReadDir :=
  mkCodec RspReadDir (fun W _ d => WriteRspReadDirToWriter d) ReadRspReadDirFromReader GetRspReadDirRequiredSize.

#[global] Instance codec_RspReadDir_amd64_ok : CodecOk fields_RspReadDir codec_RspReadDir_amd64.
Proof.
  codec_ok codec_RspReadDir_amd64 fields_RspReadDir (@WriteRspReadDirToWriter) ReadRspReadDirFromReader GetRspReadDirRequiredSize.
Qed.

Definition codec_RspReadLink_amd64 : codec RspReadLink :=
  mkCodec RspReadLink (fun W _ d => WriteRspReadLinkToWriter d) ReadRspReadLinkFromReader GetRspReadLinkRequiredSize.

#[global] Instance codec_RspReadLink_amd64_ok : CodecOk fields_RspReadLink codec_RspReadLink_amd64.
Proof.
  codec_ok codec_RspReadLink_amd64 fields_RspReadLink (@WriteRspReadLinkToWriter) ReadRspReadLinkFromReader GetRspReadLinkRequiredSize.
Qed.

Definition codec_RspRemove_amd64 : codec RspRemove :=
  mkCodec RspRemove (fun W _ d => WriteRspRemoveToWriter d) ReadRspRemoveFromReader GetRspRemoveRequiredSize.

#[global] Instance codec_RspRemove_amd64_ok : CodecOk fields_RspRemove codec_RspRemove_amd64.
Proof.
  codec_ok codec_RspRemove_amd64 fields_RspRemove (@WriteRspRemoveToWriter) ReadRspRemoveFromReader GetRspRemoveRequiredSize.
Qed.

Definition codec_RspRemoveXAttr_amd64 : codec RspRemoveXAttr :=
  mkCodec RspRemoveXAttr (fun W _ d => WriteRspRemoveXAttrToWriter d) ReadRspRemoveXAttrFromReader GetRspRemoveXAttrRequiredSize.

#[global] Instance codec_RspRemoveXAttr_amd64_ok : CodecOk fields_RspRemoveXAttr codec_RspRemoveXAttr_amd64.
Proof.
  codec_ok codec_RspRemoveXAttr_amd64 fields_RspRemoveXAttr (@WriteRspRemoveXAttrToWriter) ReadRspRemoveXAttrFromReader GetRspRemoveXAttrRequiredSize.
Qed.

Definition codec_RspRename_amd64 : codec RspRename :=
  mkCodec RspRename (fun W _ d => WriteRspRenameToWriter d) ReadRspRenameFromReader GetRspRenameRequiredSize.

#[global] Instance codec_RspRename_amd64_ok : CodecOk fields_RspRename codec_RspRename_amd64.
Proof.
  codec_ok codec_RspRename_amd64 fields_RspRename (@WriteRspRenameToWriter) ReadRspRenameFromReader GetRspRenameRequiredSize.
Qed.

Definition codec_RspRmDir_amd64 : codec RspRmDir :=
  mkCodec RspRmDir (fun W _ d => WriteRspRmDirToWriter d) ReadRspRmDirFromReader GetRspRmDirRequiredSize.

#[global] Instance codec_RspRmDir_amd64_ok : CodecOk fields_RspRmDir codec_RspRmDir_amd64.
Proof.
  codec_ok codec_RspRmDir_amd64 fields_RspRmDir (@WriteRspRmDirToWriter) ReadRspRmDirFromReader GetRspRmDirRequiredSize.
Qed.

Definition codec_RspSeek_amd64 : codec RspSeek :=
  mkCodec RspSeek (fun W _ d => WriteRspSeekToWriter d) ReadRspSeekFromReader GetRspSeekRequiredSize.

#[global] Instance codec_RspSeek_amd64_ok : CodecOk fields_RspSeek codec_RspSeek_amd64.
Proof.
  codec_ok codec_RspSeek_amd64 fields_RspSeek (@WriteRspSeekToWriter) ReadRspSeekFromReader GetRspSeekRequiredSize.
Qed.

Definition codec_RspSetAttr_amd64 : codec RspSetAttr :=
  mkCodec RspSetAttr (fun W _ d => WriteRspSetAttrToWriter d) ReadRspSetAttrFromReader GetRspSetAttrRequiredSize.

#[global] Instance codec_RspSetAttr_amd64_ok : CodecOk fields_RspSetAttr codec_RspSetAttr_amd64.
Proof.
  codec_ok codec_RspSetAttr_amd64 fields_RspSetAttr (@WriteRspSetAttrToWriter) ReadRspSetAttrFromReader GetRspSetAttrRequiredSize.
Qed.

Definition codec_RspSetAttrByFD_amd64 : codec RspSetAttrByFD :=
  mkCodec RspSetAttrByFD (fun W _ d => WriteRspSetAttrByFDToWriter d) ReadRspSetAttrByFDFromReader GetRspSetAttrByFDRequiredSize.

#[global] Instance codec_RspSetAttrByFD_amd64_ok : CodecOk fields_RspSetAttrByFD codec_RspSetAttrByFD_amd64.
Proof.
  codec_ok codec_RspSetAttrByFD_amd64 fields_RspSetAttrByFD (@WriteRspSetAttrByFDToWriter) ReadRspSetAttrByFDFromReader GetRspSetAttrByFDRequiredSize.
Qed.

Definition codec_RspSetFileLock_amd64 : codec RspSetFileLock :=
  mkCodec RspSetFileLock (fun W _ d => WriteRspSetFileLockToWriter d) ReadRspSetFileLockFromReader GetRspSetFileLockRequiredSize.

#[global] Instance codec_RspSetFileLock_amd64_ok : CodecOk fields_RspSetFileLock codec_RspSetFileLock_amd64.
Proof.
  codec_ok codec_RspSetFileLock_amd64 fields_RspSetFileLock (@WriteRspSetFileLockToWriter) ReadRspSetFileLockFromReader GetRspSetFileLockRequiredSize.
Qed.

Definition codec_RspSetFileLockWait_amd64 : codec RspSetFileLockWait :=
  mkCodec RspSetFileLockWait (fun W _ d => WriteRspSetFileLockWaitToWriter d) ReadRspSetFileLockWaitFromReader GetRspSetFileLockWaitRequiredSize.

#[global] Instance codec_RspSetFileLockWait_amd64_ok : CodecOk fields_RspSetFileLockWait codec_RspSetFileLockWait_amd64.
Proof.
  codec_ok codec_RspSetFileLockWait_amd64 fields_RspSetFileLockWait (@WriteRspSetFileLockWaitToWriter) ReadRspSetFileLockWaitFromReader GetRspSetFileLockWaitRequiredSize.
Qed.

Definition codec_RspSetXAttr_amd64 : codec RspSetXAttr :=
  mkCodec RspSetXAttr (fun W _ d => WriteRspSetXAttrToWriter d) ReadRspSetXAttrFromReader GetRspSetXAttrRequiredSize.

#[global] Instance codec_RspSetXAttr_amd64_ok : CodecOk fields_RspSetXAttr codec_RspSetXAttr_amd64.
Proof.
  codec_ok codec_RspSetXAttr_amd64 fields_RspSetXAttr (@WriteRspSetXAttrToWriter) ReadRspSetXAttrFromReader GetRspSetXAttrRequiredSize.
Qed.

Definition codec_RspSymLink_amd64 : codec RspSymLink :=
  mkCodec RspSymLink (fun W _ d => WriteRspSymLinkToWriter d) ReadRspSymLinkFromReader GetRspSymLinkRequiredSize.

#[global] Instance codec_RspSymLink_amd64_ok : CodecOk fields_RspSymLink codec_RspSymLink_amd64.
Proof.
  codec_ok codec_RspSymLink_amd64 fields_RspSymLink (@WriteRspSymLinkToWriter) ReadRspSymLinkFromReader GetRspSymLinkRequiredSize.
Qed.

Definition codec_RspSync_amd64 : codec RspSync :=
  mkCodec RspSync (fun W _ d => WriteRspSyncToWriter d) ReadRspSyncFromReader GetRspSyncRequiredSize.

#[global] Instance codec_RspSync_amd64_ok : CodecOk fields_RspSync codec_RspSync_amd64.
Proof.
  codec_ok codec_RspSync_amd64 fields_RspSync (@WriteRspSyncToWriter) ReadRspSyncFromReader GetRspSyncRequiredSize.
Qed.

Definition codec_RspWrite_amd64 : codec RspWrite :=
  mkCodec RspWrite (fun W _ d => WriteRspWriteToWriter d) ReadRspWriteFromReader GetRspWriteRequiredSize.

#[global] Instance codec_RspWrite_amd64_ok : CodecOk fields_RspWrite codec_RspWrite_amd64.
Proof.
  codec_ok codec_RspWrite_amd64 fields_RspWrite (@WriteRspWriteToWriter) ReadRspWriteFromReader GetRspWriteRequiredSize.
Qed.

Definition codec_RspWriteAt_amd64 : codec RspWriteAt :=
  mkCodec RspWriteAt (fun W _ d => WriteRspWriteAtToWriter d) ReadRspWriteAtFromReader GetRspWriteAtRequiredSize.

#[global] Instance codec_RspWriteAt_amd64_ok : CodecOk fields_RspWriteAt codec_RspWriteAt_amd64.
Proof.
  codec_ok codec_RspWriteAt_amd64 fields_RspWriteAt (@WriteRspWriteAtToWriter) ReadRspWriteAtFromReader GetRspWriteAtRequiredSize.
Qed.

Definition codec_RspWriteStreamClose_amd64 : codec RspWriteStreamClose :=
  mkCodec RspWriteStreamClose (fun W _ d => WriteRspWriteStreamCloseToWriter d) ReadRspWriteStreamCloseFromReader GetRspWriteStreamCloseRequiredSize.

#[global] Instance codec_RspWriteStreamClose_amd64_ok : CodecOk fields_RspWriteStreamClose codec_RspWriteStreamClose_amd64.
Proof.
  codec_ok codec_RspWriteStreamClose_amd64 fields_RspWriteStreamClose (@WriteRspWriteStreamCloseToWriter) ReadRspWriteStreamCloseFromReader GetRspWriteStreamCloseRequiredSize.
Qed.

(** ** Reading the payload into a buffer *)

Lemma with_buffer_CmdSetXAttrStruct_amd64 :
  with_buffer ReadCmdSetXAttrStructFromReader ReadCmdSetXAttrStructFromReaderWithBuffer CmdSetXAttr_Value.
Proof. with_buffer_ok. Qed.

Lemma with_buffer_CmdWriteAtStruct_amd64 :
  with_buffer ReadCmdWriteAtStructFromReader ReadCmdWriteAtStructFromReaderWithBuffer CmdWriteAt_Data.
Proof. with_buffer_ok. Qed.

Lemma with_buffer_CmdWriteStreamDataStruct_amd64 :
  with_buffer ReadCmdWriteStreamDataStructFromReader ReadCmdWriteStreamDataStructFromReaderWithBuffer CmdWriteStreamData_Data.
Proof. with_buffer_ok. Qed.

Lemma with_buffer_CmdWriteStreamOpenStruct_amd64 :
  with_buffer ReadCmdWriteStreamOpenStructFromReader ReadCmdWriteStreamOpenStructFromReaderWithBuffer CmdWriteStreamOpen_Data.
Proof. with_buffer_ok. Qed.

Lemma with_buffer_CmdWriteStruct_amd64 :
  with_buffer ReadCmdWriteStructFromReader ReadCmdWriteStructFromReaderWithBuffer CmdWrite_Data.
Proof. with_buffer_ok. Qed.

Lemma with_buffer_RspGetXAttr_amd64 :
  with_buffer ReadRspGetXAttrFromReader ReadRspGetXAttrFromReaderWithBuffer RspGetXAttr_Data.
Proof. with_buffer_ok. Qed.

Lemma with_buffer_RspListXAttr_amd64 :
  with_buffer ReadRspListXAttrFromReader ReadRspListXAttrFromReaderWithBuffer RspListXAttr_Data.
Proof. with_buffer_ok. Qed.

Lemma with_buffer_RspRead_amd64 :
  with_buffer ReadRspReadFromReader ReadRspReadFromReaderWithBuffer RspRead_Data.
Proof. with_buffer_ok. Qed.

Lemma with_buffer_RspReadAt_amd64 :
  with_buffer ReadRspReadAtFromReader ReadRspReadAtFromReaderWithBuffer RspReadAt_Data.
Proof. with_buffer_ok. Qed.

Lemma with_buffer_RspReadDir_amd64 :
  with_buffer ReadRspReadDirFromReader ReadRspReadDirFromReaderWithBuffer RspReadDir_Data.
Proof. with_buffer_ok. Qed.

End Amd64.
