(* ===== verification/Wire.v ===== *)
(** * All structs of the protocol

    The list of the structs with their two generated codecs, and what holds of
    every one of them: round trips across architectures, agreement of the two
    versions, rejection of anything that is not an image, and the buffered
    readers of the payload-carrying structs. *)
From S2P Require Import Prelude GoIO Codec Structs StructGen StructAmd64.

Record struct_codecs := mkStruct {
  sc_type : Type;
  sc_fields : sc_type -> list fval;
  sc_gen : codec sc_type;
  sc_amd64 : codec sc_type;
}.

(** One entry per struct of struct.go. *)
Definition structs : list struct_codecs :=
  [ mkStruct _ fields_Timespec codec_Timespec Amd64.codec_Timespec_amd64;
    mkStruct _ fields_FileInfo codec_FileInfo Amd64.codec_FileInfo_amd64;
    mkStruct _ fields_FileLockInfo codec_FileLockInfo Amd64.codec_FileLockInfo_amd64;
    mkStruct _ fields_CmdAllocateStruct codec_CmdAllocateStruct Amd64.codec_CmdAllocateStruct_amd64;
    mkStruct _ fields_CmdCloneFileRangeStruct codec_CmdCloneFileRangeStruct Amd64.codec_CmdCloneFileRangeStruct_amd64;
    mkStruct _ fields_CmdCloseStruct codec_CmdCloseStruct Amd64.codec_CmdCloseStruct_amd64;
    mkStruct _ fields_CmdCopyFileRangeStruct codec_CmdCopyFileRangeStruct Amd64.codec_CmdCopyFileRangeStruct_amd64;
    mkStruct _ fields_CmdFsStatStruct codec_CmdFsStatStruct Amd64.codec_CmdFsStatStruct_amd64;
    mkStruct _ fields_CmdGetAttrStruct codec_CmdGetAttrStruct Amd64.codec_CmdGetAttrStruct_amd64;
    mkStruct _ fields_CmdGetFileLockStruct codec_CmdGetFileLockStruct Amd64.codec_CmdGetFileLockStruct_amd64;
    mkStruct _ fields_CmdGetXAttrStruct codec_CmdGetXAttrStruct Amd64.codec_CmdGetXAttrStruct_amd64;
    mkStruct _ fields_CmdLinkStruct codec_CmdLinkStruct Amd64.codec_CmdLinkStruct_amd64;
    mkStruct _ fields_CmdListXAttrStruct codec_CmdListXAttrStruct Amd64.codec_CmdListXAttrStruct_amd64;
    mkStruct _ fields_CmdMkdirStruct codec_CmdMkdirStruct Amd64.codec_CmdMkdirStruct_amd64;
    mkStruct _ fields_CmdOpenStruct codec_CmdOpenStruct Amd64.codec_CmdOpenStruct_amd64;
    mkStruct _ fields_CmdReadAtStruct codec_CmdReadAtStruct Amd64.codec_CmdReadAtStruct_amd64;
    mkStruct _ fields_CmdReadDirPlusStruct codec_CmdReadDirPlusStruct Amd64.codec_CmdReadDirPlusStruct_amd64;
    mkStruct _ fields_CmdReadDirStruct codec_CmdReadDirStruct Amd64.codec_CmdReadDirStruct_amd64;
    mkStruct _ fields_CmdReadLinkStruct codec_CmdReadLinkStruct Amd64.codec_CmdReadLinkStruct_amd64;
    mkStruct _ fields_CmdReadStruct codec_CmdReadStruct Amd64.codec_CmdReadStruct_amd64;
    mkStruct _ fields_CmdRemoveStruct codec_CmdRemoveStruct Amd64.codec_CmdRemoveStruct_amd64;
    mkStruct _ fields_CmdRemoveXAttrStruct codec_CmdRemoveXAttrStruct Amd64.codec_CmdRemoveXAttrStruct_amd64;
    mkStruct _ fields_CmdRenameStruct codec_CmdRenameStruct Amd64.codec_CmdRenameStruct_amd64;
    mkStruct _ fields_CmdRmDirStruct codec_CmdRmDirStruct Amd64.codec_CmdRmDirStruct_amd64;
    mkStruct _ fields_CmdSeekStruct codec_CmdSeekStruct Amd64.codec_CmdSeekStruct_amd64;
    mkStruct _ fields_CmdSetAttrByFDStruct codec_CmdSetAttrByFDStruct Amd64.codec_CmdSetAttrByFDStruct_amd64;
    mkStruct _ fields_CmdSetAttrStruct codec_CmdSetAttrStruct Amd64.codec_CmdSetAttrStruct_amd64;
    mkStruct _ fields_CmdSetFileLockStruct codec_CmdSetFileLockStruct Amd64.codec_CmdSetFileLockStruct_amd64;
    mkStruct _ fields_CmdSetFileLockWaitStruct codec_CmdSetFileLockWaitStruct Amd64.codec_CmdSetFileLockWaitStruct_amd64;
    mkStruct _ fields_CmdSetXAttrStruct codec_CmdSetXAttrStruct Amd64.codec_CmdSetXAttrStruct_amd64;
    mkStruct _ fields_CmdSymLinkStruct codec_CmdSymLinkStruct Amd64.codec_CmdSymLinkStruct_amd64;
    mkStruct _ fields_CmdSyncStruct codec_CmdSyncStruct Amd64.codec_CmdSyncStruct_amd64;
    mkStruct _ fields_CmdWriteAtStruct codec_CmdWriteAtStruct Amd64.codec_CmdWriteAtStruct_amd64;
    mkStruct _ fields_CmdWriteStreamDataStruct codec_CmdWriteStreamDataStruct Amd64.codec_CmdWriteStreamDataStruct_amd64;
    mkStruct _ fields_CmdWriteStreamOpenStruct codec_CmdWriteStreamOpenStruct Amd64.codec_CmdWriteStreamOpenStruct_amd64;
    mkStruct _ fields_CmdWriteStruct codec_CmdWriteStruct Amd64.codec_CmdWriteStruct_amd64;
    mkStruct _ fields_Dirent codec_Dirent Amd64.codec_Dirent_amd64;
    mkStruct _ fields_RspAllocate codec_RspAllocate Amd64.codec_RspAllocate_amd64;
    mkStruct _ fields_RspCloneFileRange codec_RspCloneFileRange Amd64.codec_RspCloneFileRange_amd64;
    mkStruct _ fields_RspClose codec_RspClose Amd64.codec_RspClose_amd64;
    mkStruct _ fields_RspCopyFileRange codec_RspCopyFileRange Amd64.codec_RspCopyFileRange_amd64;
    mkStruct _ fields_RspError codec_RspError Amd64.codec_RspError_amd64;
    mkStruct _ fields_RspFsStat codec_RspFsStat Amd64.codec_RspFsStat_amd64;
    mkStruct _ fields_RspGetAttr codec_RspGetAttr Amd64.codec_RspGetAttr_amd64;
    mkStruct _ fields_RspGetFileLock codec_RspGetFileLock Amd64.codec_RspGetFileLock_amd64;
    mkStruct _ fields_RspGetXAttr codec_RspGetXAttr Amd64.codec_RspGetXAttr_amd64;
    mkStruct _ fields_RspLink codec_RspLink Amd64.codec_RspLink_amd64;
    mkStruct _ fields_RspListXAttr codec_RspListXAttr Amd64.codec_RspListXAttr_amd64;
    mkStruct _ fields_RspMkdir codec_RspMkdir Amd64.codec_RspMkdir_amd64;
    mkStruct _ fields_RspOpen codec_RspOpen Amd64.codec_RspOpen_amd64;
    mkStruct _ fields_RspRead codec_RspRead Amd64.codec_RspRead_amd64;
    mkStruct _ fields_RspReadAt codec_RspReadAt Amd64.codec_RspReadAt_amd64;
    mkStruct _ fields_RspReadDir codec_RspReadDir Amd64.codec_RspReadDir_amd64;
    mkStruct _ fields_RspReadLink codec_RspReadLink Amd64.codec_RspReadLink_amd64;
    mkStruct _ fields_RspRemove codec_RspRemove Amd64.codec_RspRemove_amd64;
    mkStruct _ fields_RspRemoveXAttr codec_RspRemoveXAttr Amd64.codec_RspRemoveXAttr_amd64;
    mkStruct _ fields_RspRename codec_RspRename Amd64.codec_RspRename_amd64;
    mkStruct _ fields_RspRmDir codec_RspRmDir Amd64.codec_RspRmDir_amd64;
    mkStruct _ fields_RspSeek codec_RspSeek Amd64.codec_RspSeek_amd64;
    mkStruct _ fields_RspSetAttr codec_RspSetAttr Amd64.codec_RspSetAttr_amd64;
    mkStruct _ fields_RspSetAttrByFD codec_RspSetAttrByFD Amd64.codec_RspSetAttrByFD_amd64;
    mkStruct _ fields_RspSetFileLock codec_RspSetFileLock Amd64.codec_RspSetFileLock_amd64;
    mkStruct _ fields_RspSetFileLockWait codec_RspSetFileLockWait Amd64.codec_RspSetFileLockWait_amd64;
    mkStruct _ fields_RspSetXAttr codec_RspSetXAttr Amd64.codec_RspSetXAttr_amd64;
    mkStruct _ fields_RspSymLink codec_RspSymLink Amd64.codec_RspSymLink_amd64;
    mkStruct _ fields_RspSync codec_RspSync Amd64.codec_RspSync_amd64;
    mkStruct _ fields_RspWrite codec_RspWrite Amd64.codec_RspWrite_amd64;
    mkStruct _ fields_RspWriteAt codec_RspWriteAt Amd64.codec_RspWriteAt_amd64;
    mkStruct _ fields_RspWriteStreamClose codec_RspWriteStreamClose Amd64.codec_RspWriteStreamClose_amd64 ].

Lemma structs_ok :
  Forall (fun sc => CodecOk (sc_fields sc) (sc_gen sc) /\ CodecOk (sc_fields sc) (sc_amd64 sc)) structs.
Proof. repeat (apply Forall_cons; split; [split; cbn [sc_fields sc_gen sc_amd64]; apply _|]). apply Forall_nil; exact I. Qed.

(** What [w] writes for [d] is [w]'s announced size long and is read back by [r]
    as [d], however the transport splits the message. *)
Definition transfers {A} (w r : codec A) (d : A) : Prop :=
  exists bs,
    c_write w d (mkStream [] None) = (Ok tt, mkStream bs None) /\
    len bs = c_size w d /\
    forall sched, c_read r (mkReader bs sched EOF) = (Ok d, mkReader [] sched EOF).

(** C4: Every struct written by the helpers of one architecture, portable or
    amd64, is read back unchanged by the helpers of either architecture, and the
    number of bytes written is the announced required size. *)
Theorem struct_roundtrip :
  Forall (fun sc => forall d : sc_type sc,
    wf_fields (sc_fields sc d) = true ->
    transfers (sc_gen sc) (sc_gen sc) d /\ transfers (sc_gen sc) (sc_amd64 sc) d /\
    transfers (sc_amd64 sc) (sc_gen sc) d /\ transfers (sc_amd64 sc) (sc_amd64 sc) d) structs.
Proof.
  assert (forall A (fields : A -> list fval) w r `{!CodecOk fields w} `{!CodecOk fields r} d,
            wf_fields (fields d) = true -> transfers w r d) as H.
  { intros A fields w r Hw Hr d Hwf. exists (wire (fields d)). split_and!.
    - rewrite c_write_spec by done. by rewrite (wf_enc _ Hwf).
    - by rewrite (c_size_spec d Hwf).
    - intros sched. rewrite (c_read_complete d _ []); [done|done| |done].
      simpl. by rewrite app_nil_r. }
  eapply Forall_impl; [exact structs_ok|]. intros sc [Hg Ha] d Hwf.
  split_and!; by apply (H _ (sc_fields sc)).
Qed.

(** C32: The amd64 helpers, which copy memory images, agree with the portable ones
    on every struct: they write the same bytes to any writer with the same error
    and the same state afterwards, they accept the same messages with the same
    value and the same rest, and they announce the same size. *)
Theorem struct_amd64_portable :
  Forall (fun sc =>
    (forall W (HW : Writer W) (d : sc_type sc) w, w_ok w ->
       c_write (sc_gen sc) d w = c_write (sc_amd64 sc) d w) /\
    (forall r d r', c_read (sc_gen sc) r = (Ok d, r') <-> c_read (sc_amd64 sc) r = (Ok d, r')) /\
    (forall d, wf_fields (sc_fields sc d) = true -> c_size (sc_gen sc) d = c_size (sc_amd64 sc) d)) structs.
Proof.
  eapply Forall_impl; [exact structs_ok|]. intros sc [Hg Ha]. split_and!.
  - intros. by apply (codec_write_agree (sc_fields sc)).
  - intros. split; by apply (codec_read_agree (sc_fields sc)).
  - intros d Hwf. by rewrite !(c_size_spec d Hwf).
Qed.

(** C33: A reader accepts nothing but images: when it returns a struct, the message
    began with exactly the image of that struct, every field is in the range of
    its type, a struct that ends in a byte slice took the message to its end; and
    two different well-formed values never have the same image. *)
Theorem struct_reader_sound :
  Forall (fun sc =>
    (forall r (d : sc_type sc) r', c_read (sc_gen sc) r = (Ok d, r') ->
       wf_fields (sc_fields sc d) = true /\
       rd_data r = wire (sc_fields sc d) ++ rd_data r' /\
       (has_tail (sc_fields sc d) = true -> rd_data r' = [])) /\
    (forall d1 d2, wf_fields (sc_fields sc d1) = true -> wf_fields (sc_fields sc d2) = true ->
       wire (sc_fields sc d1) = wire (sc_fields sc d2) -> d1 = d2)) structs.
Proof.
  eapply Forall_impl; [exact structs_ok|]. intros sc [Hg Ha]. split.
  - intros r d r' (? & ? & ? & Ht)%c_read_sound. split_and!; [done..|]. intros Htl. by apply Ht.
  - intros d1 d2. by apply (codec_wire_inj (sc_fields sc) (sc_gen sc)).
Qed.

(** The readers that take the payload into a preallocated buffer. *)
Record buffered_codecs := mkBuffered {
  bc_type : Type;
  bc_payload : bc_type -> bytes;
  bc_gen : RM bc_type; bc_gen_buf : nat -> RM bc_type;
  bc_amd64 : RM bc_type; bc_amd64_buf : nat -> RM bc_type;
}.

Definition buffered : list buffered_codecs :=
  [ mkBuffered _ CmdSetXAttr_Value ReadCmdSetXAttrStructFromReader ReadCmdSetXAttrStructFromReaderWithBuffer
      Amd64.ReadCmdSetXAttrStructFromReader Amd64.ReadCmdSetXAttrStructFromReaderWithBuffer;
    mkBuffered _ CmdWriteAt_Data ReadCmdWriteAtStructFromReader ReadCmdWriteAtStructFromReaderWithBuffer
      Amd64.ReadCmdWriteAtStructFromReader Amd64.ReadCmdWriteAtStructFromReaderWithBuffer;
    mkBuffered _ CmdWriteStreamData_Data ReadCmdWriteStreamDataStructFromReader ReadCmdWriteStreamDataStructFromReaderWithBuffer
      Amd64.ReadCmdWriteStreamDataStructFromReader Amd64.ReadCmdWriteStreamDataStructFromReaderWithBuffer;
    mkBuffered _ CmdWriteStreamOpen_Data ReadCmdWriteStreamOpenStructFromReader ReadCmdWriteStreamOpenStructFromReaderWithBuffer
      Amd64.ReadCmdWriteStreamOpenStructFromReader Amd64.ReadCmdWriteStreamOpenStructFromReaderWithBuffer;
    mkBuffered _ CmdWrite_Data ReadCmdWriteStructFromReader ReadCmdWriteStructFromReaderWithBuffer
      Amd64.ReadCmdWriteStructFromReader Amd64.ReadCmdWriteStructFromReaderWithBuffer;
    mkBuffered _ RspGetXAttr_Data ReadRspGetXAttrFromReader ReadRspGetXAttrFromReaderWithBuffer
      Amd64.ReadRspGetXAttrFromReader Amd64.ReadRspGetXAttrFromReaderWithBuffer;
    mkBuffered _ RspListXAttr_Data ReadRspListXAttrFromReader ReadRspListXAttrFromReaderWithBuffer
      Amd64.ReadRspListXAttrFromReader Amd64.ReadRspListXAttrFromReaderWithBuffer;
    mkBuffered _ RspRead_Data ReadRspReadFromReader ReadRspReadFromReaderWithBuffer
      Amd64.ReadRspReadFromReader Amd64.ReadRspReadFromReaderWithBuffer;
    mkBuffered _ RspReadAt_Data ReadRspReadAtFromReader ReadRspReadAtFromReaderWithBuffer
      Amd64.ReadRspReadAtFromReader Amd64.ReadRspReadAtFromReaderWithBuffer;
    mkBuffered _ RspReadDir_Data ReadRspReadDirFromReader ReadRspReadDirFromReaderWithBuffer
      Amd64.ReadRspReadDirFromReader Amd64.ReadRspReadDirFromReaderWithBuffer ].

(** Reading the payload of a command into a preallocated buffer gives the same
    struct as reading it into fresh memory when the payload fits the buffer, and
    an error when it does not, for every way the transport splits the message and
    on both architectures. *)
Theorem buffered_reader :
  Forall (fun bc => forall L r,
    ok_of (bc_gen_buf bc L r).1 =
      match (bc_gen bc r).1 with
      | Ok d => if decide (length (bc_payload bc d) <= L)%nat then Some d else None
      | Err _ => None
      end /\
    ok_of (bc_amd64_buf bc L r).1 =
      match (bc_amd64 bc r).1 with
      | Ok d => if decide (length (bc_payload bc d) <= L)%nat then Some d else None
      | Err _ => None
      end) buffered.
Proof.
  repeat apply Forall_cons_2; [..|by apply Forall_nil]; intros L r; split.
  - apply with_buffer_CmdSetXAttrStruct.
  - apply Amd64.with_buffer_CmdSetXAttrStruct_amd64.
  - apply with_buffer_CmdWriteAtStruct.
  - apply Amd64.with_buffer_CmdWriteAtStruct_amd64.
  - apply with_buffer_CmdWriteStreamDataStruct.
  - apply Amd64.with_buffer_CmdWriteStreamDataStruct_amd64.
  - apply with_buffer_CmdWriteStreamOpenStruct.
  - apply Amd64.with_buffer_CmdWriteStreamOpenStruct_amd64.
  - apply with_buffer_CmdWriteStruct.
  - apply Amd64.with_buffer_CmdWriteStruct_amd64.
  - apply with_buffer_RspGetXAttr.
  - apply Amd64.with_buffer_RspGetXAttr_amd64.
  - apply with_buffer_RspListXAttr.
  - apply Amd64.with_buffer_RspListXAttr_amd64.
  - apply with_buffer_RspRead.
  - apply Amd64.with_buffer_RspRead_amd64.
  - apply with_buffer_RspReadAt.
  - apply Amd64.with_buffer_RspReadAt_amd64.
  - apply with_buffer_RspReadDir.
  - apply Amd64.with_buffer_RspReadDir_amd64.
Qed.

(** A string longer than its 16-bit prefix can say is refused before anything is
    written; every other string is written whole. *)
Lemma WriteStr_long {W} `{Writer W} v w :
  w_ok w -> len v > 65535 ->
  WriteStrToWriter v w = (Err ErrStringTooLong, w) /\
  WriteStrToWriter_amd64 v w = (Err ErrStringTooLong, w).
Proof.
  intros Hw Hl. unfold WriteStrToWriter, WriteStrToWriter_amd64, WriteStrToWriter_.
  destruct (Z.gtb_spec (len v) 0xffff); [done|lia].
Qed.
