(* ===== verification/Prog.v ===== *)
(** * Programs with effects

    The handlers of the server and the request functions of the client run
    system calls, take part in shared maps and send messages. They are modelled
    as values of [prog]: a tree of requests ([Vis]) to the environment, whose
    answers select the continuation. A panic of the Go runtime and a loop that
    used up its fuel are leaves of their own.

    - [run] executes a program against a deterministic environment.
    - [wp] is the weakest precondition of a program for a specification of the
      environment ([env]): what the program must respect before each request
      and what it may assume of the answers, with a ghost state. The flag
      [total] says whether running out of fuel is tolerated. *)
From S2P Require Import Prelude.

Inductive prog {ev : Type} (ans : ev -> Type) (A : Type) : Type :=
| Ret (a : A)
| Vis (e : ev) (k : ans e -> prog ans A)
| Panic
| Diverge.
Arguments Ret {ev ans A} a.
Arguments Vis {ev ans A} e k.
Arguments Panic {ev ans A}.
Arguments Diverge {ev ans A}.

Section Prog.
Context {ev : Type} {ans : ev -> Type}.

#[global] Instance prog_ret : MRet (prog ans) := fun _ a => Ret a.
#[global] Instance prog_bind : MBind (prog ans) := fun A B k =>
  fix go (p : prog ans A) : prog ans B :=
    match p with
    | Ret a => k a
    | Vis e c => Vis e (fun r => go (c r))
    | Panic => Panic
    | Diverge => Diverge
    end.

(** One request. *)
Definition trigger (e : ev) : prog ans (ans e) := Vis e Ret.

(** [for { body }]: [body] returns the next loop state or the result. *)
Fixpoint loop {S A} (fuel : nat) (body : S -> prog ans (S + A)) (s : S) : prog ans A :=
  match fuel with
  | O => Diverge
  | Datatypes.S n =>
      r ← body s;
      match r with
      | inl s' => loop n body s'
      | inr a => mret a
      end
  end.

(** ** Running against a deterministic environment *)

Inductive outcome (A : Type) := Done (a : A) | Panicked | OutOfFuel.
Arguments Done {A} a.
Arguments Panicked {A}.
Arguments OutOfFuel {A}.

Fixpoint run {S A} (step : forall e, S -> ans e * S) (p : prog ans A) (s : S)
  : outcome A * S :=
  match p with
  | Ret a => (Done a, s)
  | Vis e k => let '(r, s') := step e s in run step (k r) s'
  | Panic => (Panicked, s)
  | Diverge => (OutOfFuel, s)
  end.

Lemma run_bind {S A B} step (p : prog ans A) (k : A -> prog ans B) (s : S) :
  run step (p ≫= k) s =
    match run step p s with
    | (Done a, s') => run step (k a) s'
    | (Panicked, s') => (Panicked, s')
    | (OutOfFuel, s') => (OutOfFuel, s')
    end.
Proof.
  revert s. induction p as [a|e c IH| |]; intros s; try done. simpl.
  destruct (step e s) as [r s']. apply IH.
Qed.

(** ** Running with a log of requests and answers *)

Definition log_entry : Type := { e : ev & ans e }.
Definition with_log {S} (sys : forall e, S -> ans e * S) (e : ev) (st : S * list log_entry) : ans e * (S * list log_entry) :=
  ((sys e st.1).1, ((sys e st.1).2, st.2 ++ [existT e (sys e st.1).1])).

Lemma run_ask {S A} (sys : forall e, S -> ans e * S) e (k : ans e -> prog ans A) st l :
  run (with_log sys) (Vis e k) (st, l) =
  run (with_log sys) (k (sys e st).1) ((sys e st).2, l ++ [existT e (sys e st).1]).
Proof. done. Qed.

(** ** Specifications of the environment and weakest preconditions *)

Record env := mkEnv {
  env_st : Type;
  env_pre : env_st -> ev -> Prop;
  env_post : env_st -> forall e, ans e -> env_st -> Prop;
}.

Section WP.
Context (total : bool) (E : env).

Fixpoint wp {A} (p : prog ans A) (s : env_st E) (Q : A -> env_st E -> Prop) : Prop :=
  match p with
  | Ret a => Q a s
  | Vis e k => env_pre E s e /\ forall r s', env_post E s e r s' -> wp (k r) s' Q
  | Panic => False
  | Diverge => total = false
  end.

Lemma wp_mono {A} (p : prog ans A) s (Q Q' : A -> env_st E -> Prop) :
  wp p s Q -> (forall a s', Q a s' -> Q' a s') -> wp p s Q'.
Proof.
  revert s. induction p as [a|e k IH| |]; simpl; intros s H HQ; auto.
  destruct H as [Hp Hk]. split; [done|]. intros r s' Hr. eauto.
Qed.

Lemma wp_bind {A B} (p : prog ans A) (k : A -> prog ans B) s Q :
  wp p s (fun a s' => wp (k a) s' Q) -> wp (p ≫= k) s Q.
Proof.
  revert s. induction p as [a|e c IH| |]; simpl; intros s H; auto.
  destruct H as [Hp Hk]. split; [done|]. intros r s' Hr. apply IH. eauto.
Qed.

Lemma wp_bind_mono {A B} (p : prog ans A) (k : A -> prog ans B) s P Q :
  wp p s P -> (forall a s', P a s' -> wp (k a) s' Q) -> wp (p ≫= k) s Q.
Proof. intros Hp Hk. apply wp_bind. eapply wp_mono; eauto. Qed.

Lemma wp_trigger e s (Q : ans e -> env_st E -> Prop) :
  env_pre E s e -> (forall r s', env_post E s e r s' -> Q r s') -> wp (trigger e) s Q.
Proof. done. Qed.

(** Loops: an invariant, and for total correctness a measure below the fuel. *)
Lemma wp_loop {S A} (body : S -> prog ans (S + A)) (I : S -> env_st E -> Prop)
    (m : S -> env_st E -> nat) Q fuel s st :
  (forall s st, I s st ->
     wp (body s) st (fun r st' =>
       match r with
       | inl s' => I s' st' /\ (total = true -> m s' st' < m s st)%nat
       | inr a => Q a st'
       end)) ->
  I s st -> (total = true -> m s st < fuel)%nat -> wp (loop fuel body s) st Q.
Proof.
  intros Hb. revert s st. induction fuel as [|n IH]; intros s st HI Hf.
  - simpl. destruct total; [|done]. specialize (Hf eq_refl). lia.
  - cbn [loop]. eapply wp_bind_mono; [by apply Hb|].
    intros [s'|a] st'; [|done]. intros [HI' Hm]. apply IH; [done|].
    intros Ht. specialize (Hf Ht). specialize (Hm Ht). lia.
Qed.

(** What [wp] promises of a run in an environment that meets the
    specification: [R] relates the states, and the run ends well. *)
Lemma wp_run {S A} (step : forall e, S -> ans e * S) (R : S -> env_st E -> Prop)
    (p : prog ans A) s st Q :
  (forall e s st, R s st -> env_pre E st e ->
     exists st', env_post E st e (step e s).1 st' /\ R (step e s).2 st') ->
  R s st -> wp p st Q ->
  match run step p s with
  | (Done a, s') => exists st', R s' st' /\ Q a st'
  | (Panicked, _) => False
  | (OutOfFuel, _) => total = false
  end.
Proof.
  intros Hstep. revert s st. induction p as [a|e k IH| |]; simpl; intros s st HR Hw;
    [eauto| |done|done].
  destruct Hw as [Hpre Hk]. destruct (Hstep e s st HR Hpre) as (st' & Hpost & HR').
  destruct (step e s) as [r s']. simpl in *. apply (IH r s' st'); auto.
Qed.
End WP.
End Prog.

Arguments Done {A} a.
Arguments Panicked {A}.
Arguments OutOfFuel {A}.
Arguments env {ev} ans.

(** Runs the next request of a program. *)
Ltac run_step :=
  lazymatch goal with
  | |- context [run ?step (mbind ?k (trigger ?e)) ?s] =>
      change (run step (mbind k (trigger e)) s) with (let '(r, s') := step e s in run step (k r) s')
  end; cbv beta.
