(* ===== verification/Budget.v ===== *)
(** * Weakest preconditions with a budget

    The rules of [wp] for an environment whose state is a ghost state and the
    number of answers, still to come, that make a loop go round again. [BW]
    holds from every budget up to a bound, so a loop terminates when its fuel
    exceeds the bound and its own measure. *)
From S2P Require Import Prelude Prog.

Section Budget.
Context {ev : Type} {ans : ev -> Type} {G : Type}.
Context (pre : G -> ev -> Prop) (next : G -> forall e, ans e -> G -> Prop) (retry : G -> forall e, ans e -> bool).

Definition budget_env : env ans :=
  mkEnv (G * nat) (fun '(g, _) e => pre g e)
    (fun '(g, b) e r '(g', b') => next g e r g' /\ if retry g e r then b = S b' else b' = b).

Context (total : bool) (B : nat).

Definition BWb {A} (p : prog ans A) (g : G) (b : nat) (Q : A -> G -> nat -> Prop) : Prop :=
  wp total budget_env p (g, b) (fun a '(g', b') => Q a g' b').
Definition BW {A} (p : prog ans A) (g : G) (Q : A -> G -> Prop) : Prop :=
  forall b, (b <= B)%nat -> BWb p g b (fun a g' b' => (b' <= b)%nat /\ Q a g').

Lemma BWb_mono {A} (p : prog ans A) g b (Q Q' : A -> G -> nat -> Prop) :
  BWb p g b Q -> (forall a g' b', Q a g' b' -> Q' a g' b') -> BWb p g b Q'.
Proof. intros H HQ. eapply wp_mono; [exact H|]. intros a [g' b']. apply HQ. Qed.

Lemma BWb_bind {A C} (p : prog ans A) (k : A -> prog ans C) g b Q :
  BWb p g b (fun a g' b' => BWb (k a) g' b' Q) -> BWb (p ≫= k) g b Q.
Proof. intros H. apply wp_bind. eapply wp_mono; [exact H|]. by intros a [g' b']. Qed.

Lemma BWb_ret {A} (a : A) g b (Q : A -> G -> nat -> Prop) : Q a g b -> BWb (mret a) g b Q.
Proof. done. Qed.

Lemma BWb_trigger e g b (Q : ans e -> G -> nat -> Prop) :
  pre g e ->
  (forall r g' b', next g e r g' -> (if retry g e r then b = S b' else b' = b) -> Q r g' b') ->
  BWb (trigger e) g b Q.
Proof.
  intros Hp HQ. apply (wp_trigger total budget_env); [done|]. intros r [g' b'] (? & ?). auto.
Qed.

Lemma BW_BWb {A} (p : prog ans A) g b (Q : A -> G -> Prop) (Q' : A -> G -> nat -> Prop) :
  BW p g Q -> (b <= B)%nat -> (forall a g' b', (b' <= b)%nat -> Q a g' -> Q' a g' b') -> BWb p g b Q'.
Proof. intros H Hb HQ. eapply BWb_mono; [by apply H|]. intros a g' b' []. auto. Qed.

Lemma BW_trigger e g (Q : ans e -> G -> Prop) :
  pre g e -> (forall r g', next g e r g' -> Q r g') -> BW (trigger e) g Q.
Proof.
  intros Hp HQ b Hb. apply BWb_trigger; [done|]. intros r g' b' Hn Hr.
  split; [destruct (retry g e r); lia|auto].
Qed.

Lemma BW_bind {A C} (p : prog ans A) (k : A -> prog ans C) g Q :
  BW p g (fun a g' => BW (k a) g' Q) -> BW (p ≫= k) g Q.
Proof.
  intros H b Hb. apply BWb_bind. eapply BWb_mono; [by apply H|]. intros a g' b' [Hb' Hk].
  eapply BWb_mono; [apply Hk; lia|]. intros c g2 b2 []. split; [lia|done].
Qed.

Lemma BW_mono {A} (p : prog ans A) g (Q Q' : A -> G -> Prop) :
  BW p g Q -> (forall a g', Q a g' -> Q' a g') -> BW p g Q'.
Proof. intros H HQ b Hb. eapply BWb_mono; [by apply H|]. intros a g' b' []. auto. Qed.

Lemma BW_ret {A} (a : A) g (Q : A -> G -> Prop) : Q a g -> BW (mret a) g Q.
Proof. intros HQ b Hb. by apply BWb_ret. Qed.

Lemma BW_diverge {A} g (Q : A -> G -> Prop) : total = false -> BW (Diverge : prog ans A) g Q.
Proof. intros Ht b Hb. exact Ht. Qed.

(** A loop that goes round again only when the measure together with the budget
    has decreased. *)
Lemma BW_loop_measure {S A} fuel (body : S -> prog ans (S + A)) (I : S -> G -> Prop) (m : S -> nat)
    (Q : A -> G -> Prop) s g :
  (forall s g b, I s g -> (b <= B)%nat ->
     BWb (body s) g b (fun r g' b' => (b' <= b)%nat /\
       match r with
       | inl s' => I s' g' /\ (total = true -> m s' + b' < m s + b)%nat
       | inr a => Q a g'
       end)) ->
  I s g -> (total = true -> m s + B < fuel)%nat -> BW (loop fuel body s) g Q.
Proof.
  intros Hb HI Hf b Hb0. unfold BWb.
  apply (wp_loop total budget_env body (fun s '(g', b') => I s g' /\ (b' <= b)%nat)
           (fun s '(_, b') => m s + b')%nat); [|done|].
  - intros s' [g' b'] [HI' Hb']. eapply wp_mono; [apply (Hb s' g' b'); [done|lia]|].
    intros [s2|a] [g2 b2] [H1 H2]; [|split; [lia|done]].
    destruct H2 as [H2 H3]. split; [split; [done|lia]|]. intros Ht. apply H3 in Ht. lia.
  - intros Ht. apply Hf in Ht. lia.
Qed.

Lemma BW_wp {A} (p : prog ans A) g (Q : A -> G -> Prop) :
  BW p g Q ->
  forall b, (b <= B)%nat -> wp total budget_env p (g, b) (fun a '(g', b') => (b' <= b)%nat /\ Q a g').
Proof. intros H b Hb. by apply H. Qed.
End Budget.
#[global] Opaque BW BWb.

#[global] Arguments BW {ev ans G} _ _ _ _ _ {A} _ _ _ : simpl never.
#[global] Arguments BWb {ev ans G} _ _ _ _ {A} _ _ _ _ : simpl never.

(** One request: what must hold of it, and what is known of its answer. *)
Ltac BW_request :=
  lazymatch goal with
  | |- BW ?p ?n ?r ?t ?B (trigger ?e) ?g ?Q => apply (BW_trigger p n r t B e g Q)
  | |- BWb ?p ?n ?r ?t (trigger ?e) ?g ?b ?Q => apply (BWb_trigger p n r t e g b Q)
  end.
