(* ===== verification/Paths.v ===== *)
(** * Strings and paths

    The functions of Go's [strings], [bytes], [path] and [path/filepath] (Unix)
    the program uses, util.IsUrlValid (src/src/internal/util/url.go), the
    storage root (src/src/internal/server/storage/storage.go) and the facts the
    confinement theorems rest on: a path is described by its components
    ([components]), [confined root p] says that [p] names the root or something
    below it without passing through "." or "..". *)
From S2P Require Import Prelude.

(** ** Go strings *)

Definition slash : byte := x2f.
Definition dot : gostring := str ".".
Definition dotdot : gostring := str "..".

Fixpoint HasPrefix (s prefix : gostring) : bool :=
  match prefix, s with
  | [], _ => true
  | p :: prefix', c :: s' => bool_decide (p = c) && HasPrefix s' prefix'
  | _, [] => false
  end.

Definition HasSuffix (s suffix : gostring) : bool := HasPrefix (rev s) (rev suffix).

Definition TrimPrefix (s prefix : gostring) : gostring :=
  if HasPrefix s prefix then drop (length prefix) s else s.
Definition TrimSuffix (s suffix : gostring) : gostring :=
  if HasSuffix s suffix then take (length s - length suffix) s else s.

Fixpoint Contains (s sub : gostring) : bool :=
  HasPrefix s sub || match s with [] => false | _ :: s' => Contains s' sub end.

(** [IndexByte(s, c)]; [None] stands for -1. *)
Fixpoint IndexByte (s : gostring) (c : byte) : option nat :=
  match s with
  | [] => None
  | b :: s' => if decide (b = c) then Some 0%nat else S <$> IndexByte s' c
  end.

(** [Split(s, sep)] for a one-byte separator. *)
Fixpoint Split (s : gostring) (sep : byte) : list gostring :=
  match s with
  | [] => [[]]
  | b :: s' =>
      if decide (b = sep) then [] :: Split s' sep
      else match Split s' sep with
           | c :: cs => (b :: c) :: cs
           | [] => [[b]]
           end
  end.

(** [strings.Join] for a one-byte separator. *)
Fixpoint join_sep (sep : byte) (cs : list gostring) : gostring :=
  match cs with
  | [] => []
  | [c] => c
  | c :: cs' => c ++ sep :: join_sep sep cs'
  end.

Definition bytes_of (l : list Z) : gostring := map byte_of_Z l.

(** White space in UTF-8 (unicode.IsSpace). *)
Definition spaces : list gostring :=
  map bytes_of
    ([[9]; [10]; [11]; [12]; [13]; [32]; [194; 133]; [194; 160]; [225; 154; 128]; [226; 128; 168]; [226; 128; 169];
      [226; 128; 175]; [226; 129; 159]; [227; 128; 128]] ++ map (fun k => [226; 128; 128 + Z.of_nat k]) (seq 0 11)).

(** [n] is at least the length of [s]. *)
Fixpoint trim_left (sp : list gostring) (n : nat) (s : gostring) : gostring :=
  match n with
  | O => s
  | S n' =>
      match List.find (fun w => HasPrefix s w) sp with
      | Some w => trim_left sp n' (drop (length w) s)
      | None => s
      end
  end.

Definition TrimSpace (s : gostring) : gostring :=
  let s := trim_left spaces (length s) s in
  rev (trim_left (map (@rev byte) spaces) (length s) (rev s)).

Definition lower (b : byte) : byte :=
  if (65 <=? byte_val b) && (byte_val b <=? 90) then byte_of_Z (byte_val b + 32) else b.

(** [EqualFold(s, want)] for a [want] that has no letters outside ASCII: letters match in either case, and k
    and s also the Kelvin sign and the long s. *)
Fixpoint EqualFold (s want : gostring) : bool :=
  match want with
  | [] => bool_decide (s = [])
  | w :: want' =>
      match s with
      | b :: s' =>
          bool_decide (lower b = lower w) && EqualFold s' want' ||
          match s' with
          | b2 :: s'' =>
              bool_decide ([b; b2] = bytes_of [197; 191]) && bool_decide (lower w = x73) && EqualFold s'' want' ||
              match s'' with
              | b3 :: s3 => bool_decide ([b; b2; b3] = bytes_of [226; 132; 170]) && bool_decide (lower w = x6b) && EqualFold s3 want'
              | [] => false
              end
          | [] => false
          end
      | [] => false
      end
  end.

Lemma HasPrefix_spec s p : HasPrefix s p = true <-> exists t, s = p ++ t.
Proof.
  revert s. induction p as [|b p IH]; intros s; cbn [HasPrefix app].
  - split; [by exists s|by destruct s].
  - destruct s as [|c s]; [split; [done|by intros [t ?]]|].
    cbn [HasPrefix]. rewrite andb_true_iff, bool_decide_eq_true, IH.
    split; [intros [-> [t ->]]; by exists t|intros [t [= -> ->]]; eauto].
Qed.

Lemma HasSuffix_spec s p : HasSuffix s p = true <-> exists t, s = t ++ p.
Proof.
  unfold HasSuffix. rewrite HasPrefix_spec. split; intros [t Ht].
  - exists (rev t). rewrite <-(rev_involutive s), Ht, rev_app_distr. by rewrite rev_involutive.
  - exists (rev t). by rewrite Ht, rev_app_distr.
Qed.

Lemma Contains_spec s p : Contains s p = true <-> exists a b, s = a ++ p ++ b.
Proof.
  induction s as [|c s IH]; cbn [Contains]; rewrite orb_true_iff, HasPrefix_spec.
  - split; [intros [[t ->]|?]; [by exists [], t|done]|].
    intros (a & b & H). left. destruct a; [by exists b|done].
  - rewrite IH. split.
    + intros [[t Ht]|(a & b & ->)]; [by exists [], t|by exists (c :: a), b].
    + intros ([|x a] & b & H); [left; by exists b|right]. simplify_eq/=. eauto.
Qed.

Lemma TrimPrefix_app p t : TrimPrefix (p ++ t) p = t.
Proof.
  unfold TrimPrefix. assert (HasPrefix (p ++ t) p = true) as -> by (apply HasPrefix_spec; eauto).
  by rewrite drop_app_length.
Qed.

Lemma Split_not_nil s sep : Split s sep <> [].
Proof. destruct s; simpl; [done|]. case_decide; [done|]. by destruct (Split s sep). Qed.

Lemma Split_app a b sep : Split (a ++ sep :: b) sep = Split a sep ++ Split b sep.
Proof.
  induction a as [|c a IH]; simpl; [by rewrite decide_True|].
  case_decide; [by rewrite IH|]. rewrite IH.
  destruct (Split a sep) eqn:E; [by apply Split_not_nil in E|done].
Qed.

Lemma Split_no_sep s sep : sep ∉ s -> Split s sep = [s].
Proof.
  induction s as [|c s IH]; [done|]. intros Hn. simpl.
  rewrite decide_False by (intros ->; apply Hn; left). by rewrite IH by (intros ?; apply Hn; by right).
Qed.

Lemma Split_elem_no_sep s sep c : c ∈ Split s sep -> sep ∉ c.
Proof.
  revert c. induction s as [|b s IH]; simpl; intros c.
  - rewrite list_elem_of_singleton. intros ->. apply not_elem_of_nil.
  - case_decide as Hb.
    + rewrite elem_of_cons. intros [->|Hc]; [apply not_elem_of_nil|auto].
    + destruct (Split s sep) as [|c0 cs] eqn:E; [by apply Split_not_nil in E|].
      rewrite elem_of_cons. intros [->|Hc]; [|apply IH; by right].
      rewrite not_elem_of_cons. split; [done|]. apply IH. left.
Qed.

Lemma join_Split s sep : join_sep sep (Split s sep) = s.
Proof.
  induction s as [|b s IH]; [done|]. simpl. case_decide as Hb.
  - destruct (Split s sep) eqn:E; [by apply Split_not_nil in E|]. subst b. simpl in *. by rewrite IH.
  - destruct (Split s sep) as [|c0 [|c1 cs]] eqn:E; [by apply Split_not_nil in E| |];
      simpl in *; by rewrite IH.
Qed.

Lemma join_sep_app sep l1 l2 :
  l1 <> [] -> l2 <> [] -> join_sep sep (l1 ++ l2) = join_sep sep l1 ++ sep :: join_sep sep l2.
Proof.
  intros H1 H2. induction l1 as [|c l1 IH]; [done|]. destruct l1 as [|c' l1].
  - destruct l2; done.
  - cbn [app join_sep] in *. rewrite IH by done. by rewrite <-app_assoc.
Qed.

(** ** IsUrlValid *)

(** isUrlValid_os of url-nonwindows.go. *)
Definition isUrlValid_os (v : gostring) : bool := true.

Definition IsUrlValid (v : gostring) : bool :=
  if match v with [] => true | c :: _ => negb (bool_decide (c = slash)) end ||
     Contains v (str "/../") || HasSuffix v (str "/..") ||
     Contains v (str "/./") || HasSuffix v (str "/.")
  then false
  else isUrlValid_os v.

(** A component occurs after the first slash exactly when it is met between two
    slashes or at the end. *)
Lemma component_occurs c v :
  slash ∉ c ->
  (Contains v (slash :: c ++ [slash]) || HasSuffix v (slash :: c) = true <->
   c ∈ tail (Split v slash)).
Proof.
  intros Hc. rewrite orb_true_iff, Contains_spec, HasSuffix_spec. split.
  - assert (forall a t, c ∈ t -> c ∈ tail (Split a slash ++ t)) as Htl.
    { intros a t Ht. pose proof (Split_not_nil a slash).
      destruct (Split a slash); [done|]. simpl. apply elem_of_app. by right. }
    intros [(a & b & ->)|(a & ->)].
    + simpl. rewrite Split_app. apply Htl. rewrite <-app_assoc. cbn [app].
      rewrite Split_app, (Split_no_sep c) by done. left.
    + rewrite Split_app. apply Htl. rewrite (Split_no_sep c) by done. left.
  - intros Ht. destruct (Split v slash) as [|c0 cs] eqn:E; [by apply Split_not_nil in E|].
    simpl in Ht. apply list_elem_of_split in Ht as (l1 & l2 & ->).
    rewrite <-(join_Split v slash), E. change (c0 :: l1 ++ c :: l2) with ((c0 :: l1) ++ (c :: l2)).
    rewrite join_sep_app by done. destruct l2 as [|c2 l2]; [right; by eexists|left].
    exists (join_sep slash (c0 :: l1)), (join_sep slash (c2 :: l2)). cbn [app].
    change (c :: c2 :: l2) with ([c] ++ (c2 :: l2)). rewrite join_sep_app by done.
    simpl. by rewrite <-app_assoc.
Qed.

Lemma slash_dot : slash ∉ dot.
Proof. by apply (bool_decide_eq_true_1 (slash ∉ dot)). Qed.
Lemma slash_dotdot : slash ∉ dotdot.
Proof. by apply (bool_decide_eq_true_1 (slash ∉ dotdot)). Qed.

Lemma IsUrlValid_spec v :
  IsUrlValid v = true <->
  head v = Some slash /\ (dot ∉ Split v slash) /\ (dotdot ∉ Split v slash).
Proof.
  assert (forall c, c <> [] -> head v = Some slash ->
            ((c ∈ tail (Split v slash)) <-> (c ∈ Split v slash))) as Htl.
  { intros c Hc Hv. destruct v as [|b v]; [done|]. injection Hv as ->.
    change (slash :: v) with ([] ++ slash :: v). rewrite Split_app. simpl.
    rewrite elem_of_cons. split; [by right|by intros [->|?]]. }
  unfold IsUrlValid, isUrlValid_os.
  pose proof (component_occurs dot v slash_dot) as Hd.
  pose proof (component_occurs dotdot v slash_dotdot) as Hdd.
  change (slash :: dot ++ [slash]) with (str "/./") in Hd.
  change (slash :: dot) with (str "/.") in Hd.
  change (slash :: dotdot ++ [slash]) with (str "/../") in Hdd.
  change (slash :: dotdot) with (str "/..") in Hdd.
  assert (match v with [] => true | c :: _ => negb (bool_decide (c = slash)) end = false <->
          head v = Some slash) as Hh.
  { destruct v; simpl; [done|]. case_bool_decide; simpl; naive_solver. }
  destruct (match v with [] => true | c :: _ => negb (bool_decide (c = slash)) end) eqn:E; simpl.
  { split; [done|]. intros [Hv _]. by apply Hh in Hv. }
  assert (head v = Some slash) as Hv by (by apply Hh).
  rewrite (Htl dot) in Hd by done. rewrite (Htl dotdot) in Hdd by done.
  destruct (Contains v (str "/../")), (HasSuffix v (str "/..")),
    (Contains v (str "/./")), (HasSuffix v (str "/.")); simpl in *; naive_solver.
Qed.

(** ** Components, Clean, Join, Dir *)

Definition components (p : gostring) : list gostring :=
  filter (fun c => c <> []) (Split p slash).

(** An ordinary file name: what a directory entry may be called. *)
Definition ordinary (c : gostring) : Prop :=
  c <> [] /\ (slash ∉ c) /\ c <> dot /\ c <> dotdot.

(** The rooted path of a list of components; the empty list gives "". *)
Definition abs_path (cs : list gostring) : gostring := concat (map (cons slash) cs).

(** One component of [path.Clean]: the stack is kept in reverse. *)
Definition clean_step (rooted : bool) (stack : list gostring) (c : gostring) : list gostring :=
  if bool_decide (c = []) || bool_decide (c = dot) then stack
  else if bool_decide (c = dotdot) then
    match stack with
    | t :: stack' => if bool_decide (t = dotdot) then c :: stack else stack'
    | [] => if rooted then [] else [c]
    end
  else c :: stack.

Definition is_rooted (p : gostring) : bool := bool_decide (head p = Some slash).

(** [path.Clean] and, on Unix, [filepath.Clean]. *)
Definition Clean (p : gostring) : gostring :=
  let rooted := is_rooted p in
  let cs := rev (foldl (clean_step rooted) [] (Split p slash)) in
  if rooted then slash :: join_sep slash cs
  else if bool_decide (cs = []) then dot else join_sep slash cs.

(** [filepath.Join(a, b)]. *)
Definition Join (a b : gostring) : gostring :=
  match a, b with
  | [], [] => []
  | [], _ => Clean b
  | _, [] => Clean a
  | _, _ => Clean (a ++ slash :: b)
  end.

(** [filepath.Dir(p)]: up to and including the last slash, cleaned. *)
Definition upto_slash (p : gostring) : gostring :=
  let fix go r := match r with [] => [] | c :: r' => if decide (c = slash) then r else go r' end in
  rev (go (rev p)).
Definition Dir (p : gostring) : gostring := Clean (upto_slash p).

(** [filepath.Base] of a path that does not end in a slash: the last component. *)
Definition base_name (p : gostring) : gostring := List.last (Split p slash) [].

(** strings.TrimRight(p, "/"). *)
Definition TrimRight_slash (p : gostring) : gostring :=
  let fix go r := match r with c :: r' => if decide (c = slash) then go r' else r | [] => [] end in
  rev (go (rev p)).

(** path.Base and, on Unix, filepath.Base. *)
Definition Base (p : gostring) : gostring :=
  match p with
  | [] => dot
  | _ => match base_name (TrimRight_slash p) with [] => [slash] | b => b end
  end.

(** ensureDirBase of server/wsfs/commands.go. *)
Definition ensureDirBase (path : gostring) : gostring :=
  if HasSuffix path (str "/") then path else path ++ str "/".

(** NewStorage of server/storage/storage.go; [cwd] is the working directory. *)
Definition Abs (cwd p : gostring) : gostring :=
  if is_rooted p then Clean p else Join cwd p.
Definition NewStorage_Path (cwd cPath : gostring) : gostring :=
  TrimSuffix (Abs cwd cPath) (str "/").

(** ** Components of composed paths *)

#[global] Instance ordinary_dec c : Decision (ordinary c).
Proof. unfold ordinary. apply _. Defined.

(** A storage root: a cleaned absolute path without its trailing slash. *)
Definition root_ok (root : gostring) : Prop :=
  exists cs, Forall ordinary cs /\ root = abs_path cs.

(** [p] names the root or something below it. *)
Definition confined (root p : gostring) : Prop :=
  is_rooted p = true /\
  exists cs, Forall ordinary cs /\ components p = components root ++ cs.

Lemma components_app a b : components (a ++ slash :: b) = components a ++ components b.
Proof. unfold components. by rewrite Split_app, filter_app. Qed.

Lemma components_nil : components [] = [].
Proof. done. Qed.

Lemma components_slash b : components (slash :: b) = components b.
Proof. apply (components_app [] b). Qed.

Lemma components_name c : ordinary c -> components c = [c].
Proof.
  intros (Hn & Hs & _). unfold components. rewrite Split_no_sep by done.
  by rewrite filter_cons_True.
Qed.

Lemma components_no_slash c : slash ∉ c -> components c = if decide (c = []) then [] else [c].
Proof.
  intros Hs. unfold components. rewrite Split_no_sep by done.
  rewrite filter_cons. repeat case_decide; naive_solver.
Qed.

Lemma abs_path_cons c cs : abs_path (c :: cs) = slash :: c ++ abs_path cs.
Proof. done. Qed.

Lemma abs_path_rooted cs : cs <> [] -> is_rooted (abs_path cs) = true.
Proof. by destruct cs. Qed.

Lemma abs_path_app cs ds : abs_path (cs ++ ds) = abs_path cs ++ abs_path ds.
Proof. unfold abs_path. by rewrite map_app, concat_app. Qed.

Lemma components_abs cs : Forall ordinary cs -> components (abs_path cs) = cs.
Proof.
  induction cs as [|c cs IH] using rev_ind; [done|].
  rewrite Forall_app, Forall_singleton. intros [Hcs Hc]. rewrite abs_path_app.
  change (abs_path [c]) with (slash :: c ++ []). rewrite app_nil_r, components_app, IH by done.
  by rewrite (components_name c).
Qed.

(** The components of a valid request path are ordinary names. *)
Lemma IsUrlValid_components v :
  IsUrlValid v = true ->
  exists w, v = slash :: w /\ Forall ordinary (components v).
Proof.
  rewrite IsUrlValid_spec. intros (Hh & Hd & Hdd). destruct v as [|b w]; [done|].
  injection Hh as ->. exists w. split; [done|]. apply Forall_forall. intros c.
  unfold components. rewrite list_elem_of_filter. intros [Hn Hc].
  split_and!; [done|by eapply Split_elem_no_sep|congruence|congruence].
Qed.

Lemma root_ok_rooted_app root v :
  root_ok root -> is_rooted v = true -> is_rooted (root ++ v) = true.
Proof. intros (cs & _ & ->) Hv. by destruct cs. Qed.

(** The path a handler builds from a request is confined to the storage. *)
Lemma confined_valid root v :
  root_ok root -> IsUrlValid v = true -> confined root (root ++ v).
Proof.
  intros Hr Hv. apply IsUrlValid_components in Hv as (w & -> & Hcs). split.
  - by apply root_ok_rooted_app.
  - exists (components (slash :: w)). split; [done|]. rewrite components_app.
    by rewrite components_slash.
Qed.

(** An entry of a confined directory is confined. *)
Lemma confined_entry root d name :
  confined root (d ++ [slash]) -> ordinary name -> confined root ((d ++ [slash]) ++ name).
Proof.
  intros [Hroot (cs & Hcs & Hd)] Hn. split.
  - by destruct d.
  - exists (cs ++ [name]). split; [by rewrite Forall_app, Forall_singleton|].
    rewrite <-app_assoc. cbn [app]. rewrite components_app, (components_name name) by done.
    rewrite app_assoc, <-Hd, components_app. by rewrite components_nil, app_nil_r.
Qed.

Lemma confined_trailing root d : confined root d -> confined root (d ++ [slash]).
Proof.
  intros [Hr (cs & Hcs & Hd)]. split; [by destruct d|]. exists cs. split; [done|].
  by rewrite components_app, components_nil, app_nil_r.
Qed.

Lemma ensureDirBase_ends p : exists d, ensureDirBase p = d ++ [slash].
Proof.
  unfold ensureDirBase. destruct (HasSuffix p (str "/")) eqn:E; [|by exists p].
  by apply HasSuffix_spec in E.
Qed.

Lemma ensureDirBase_confined root p : confined root p -> confined root (ensureDirBase p).
Proof.
  intros H. unfold ensureDirBase. destruct (HasSuffix p (str "/")); [done|].
  by apply confined_trailing.
Qed.

(** ** Clean and Dir on rooted paths *)

Lemma clean_step_ordinary stack c :
  Forall ordinary stack -> slash ∉ c -> Forall ordinary (clean_step true stack c).
Proof.
  intros Hs Hc. unfold clean_step. repeat case_bool_decide; simpl; try done.
  - destruct stack as [|t stack]; [done|]. apply Forall_cons in Hs as [Ht Hs].
    case_bool_decide; [|done]. destruct Ht as (_ & _ & _ & []). done.
  - by constructor.
Qed.

Lemma foldl_clean_ordinary cs stack :
  Forall ordinary stack -> Forall (fun c => slash ∉ c) cs ->
  Forall ordinary (foldl (clean_step true) stack cs).
Proof.
  revert stack. induction cs as [|c cs IH]; intros stack Hs Hcs; [done|].
  apply Forall_cons in Hcs as [Hc Hcs]. simpl. apply IH; [|done]. by apply clean_step_ordinary.
Qed.

Lemma join_abs cs : cs <> [] -> slash :: join_sep slash cs = abs_path cs.
Proof.
  induction cs as [|c [|c' cs] IH]; intros; [done|by rewrite abs_path_cons, app_nil_r|].
  rewrite abs_path_cons, <-IH by done. done.
Qed.

(** Cleaning a rooted path gives "/" or the absolute path of ordinary names. *)
Lemma Clean_rooted p :
  is_rooted p = true ->
  exists cs, Forall ordinary cs /\ Clean p = if decide (cs = []) then [slash] else abs_path cs.
Proof.
  intros Hr. unfold Clean. rewrite Hr.
  exists (rev (foldl (clean_step true) [] (Split p slash))). split.
  - apply Forall_rev, foldl_clean_ordinary; [done|].
    apply Forall_forall. intros c. apply Split_elem_no_sep.
  - case_decide as E; [by rewrite E|]. by apply join_abs.
Qed.

(** A path whose components are ordinary is cleaned to the same components. *)
Lemma foldl_clean_id cs stack :
  Forall (fun c => c = [] \/ ordinary c) cs ->
  foldl (clean_step true) stack cs = rev (filter (fun c => c <> []) cs) ++ stack.
Proof.
  revert stack. induction cs as [|c cs IH]; intros stack Hcs; [done|].
  apply Forall_cons in Hcs as [Hc Hcs]. simpl. rewrite IH by done. destruct Hc as [->|Hc].
  - rewrite filter_cons_False by naive_solver. done.
  - pose proof Hc as (Hn & _ & Hd & Hdd). rewrite filter_cons_True by done. simpl.
    unfold clean_step. rewrite !bool_decide_false by done. simpl. by rewrite <-app_assoc.
Qed.

Lemma Clean_components p :
  is_rooted p = true -> Forall ordinary (components p) ->
  components (Clean p) = components p /\ is_rooted (Clean p) = true.
Proof.
  intros Hr Hcs. unfold Clean. rewrite Hr. split; [|done].
  rewrite foldl_clean_id.
  - rewrite app_nil_r, rev_involutive, components_slash. fold (components p).
    destruct (decide (components p = [])) as [E|E]; [by rewrite E|].
    rewrite <-components_slash, join_abs by done. by apply components_abs.
  - apply Forall_forall. intros c Hc. destruct (decide (c = [])); [by left|right].
    rewrite Forall_forall in Hcs. apply Hcs. unfold components. by apply list_elem_of_filter.
Qed.

(** [upto_slash] splits a path at its last slash. *)
Lemma upto_slash_spec p :
  (slash ∈ p) -> exists d b, p = d ++ slash :: b /\ (slash ∉ b) /\ upto_slash p = d ++ [slash].
Proof.
  intros Hp. unfold upto_slash.
  set (go := fix go r := match r with [] => [] | c :: r' => if decide (c = slash) then r else go r' end).
  assert (forall q, slash ∈ q -> exists d b, rev q = d ++ slash :: b /\ (slash ∉ b) /\
            rev (go q) = d ++ [slash]) as Hgo.
  { induction q as [|c q IH]; [by intros ?%not_elem_of_nil|]. intros Hq. simpl.
    case_decide as Hc.
    - subst c. exists (rev q), []. split_and!; [done|apply not_elem_of_nil|done].
    - apply elem_of_cons in Hq as [?|Hq]; [congruence|].
      destruct (IH Hq) as (d & b & E & Hb & Eg). exists d, (b ++ [c]).
      rewrite E, <-app_assoc. split_and!; [done| |done].
      rewrite not_elem_of_app, not_elem_of_cons. split_and!; [done|congruence|apply not_elem_of_nil]. }
  destruct (Hgo (rev p)) as (d & b & E & Hb & Eg).
  { rewrite list_elem_of_In, <-in_rev, <-list_elem_of_In. done. }
  rewrite rev_involutive in E. eauto.
Qed.

(** The directory of a confined request path is confined. *)
Lemma Dir_confined root v :
  root_ok root -> IsUrlValid v = true -> confined root (Dir (root ++ v)).
Proof.
  intros Hr Hv. unfold Dir. pose proof Hr as (rcs & Hrcs & Eroot).
  apply IsUrlValid_components in Hv as (w & -> & Hw).
  destruct (upto_slash_spec (slash :: w)) as (d & b & E & Hb & _); [left|].
  destruct (upto_slash_spec (root ++ slash :: w)) as (d' & b' & E' & Hb' & ->).
  { apply elem_of_app. right. left. }
  assert (b' = b /\ d' = root ++ d) as [-> ->].
  { rewrite E, app_assoc in E'. clear -E' Hb Hb'. revert E'. generalize (root ++ d). clear root d.
    intros d. revert d d' b b' Hb Hb'. induction d as [|x d IH]; intros [|x' d'] b b' Hb Hb' E.
    - simplify_eq/=. done.
    - simplify_eq/=. destruct Hb. apply elem_of_app. right. left.
    - simplify_eq/=. destruct Hb'. apply elem_of_app. right. left.
    - simplify_eq/=. destruct (IH d' b b') as [-> ->]; done. }
  assert (is_rooted ((root ++ d) ++ [slash]) = true) as Hrt.
  { rewrite Eroot. destruct rcs; [|done]. simpl. destruct d as [|x d]; [done|]. by simplify_eq/=. }
  assert (components ((root ++ d) ++ [slash]) = components root ++ components d) as Hc.
  { rewrite components_app, components_nil, app_nil_r. destruct d as [|x d]; [by rewrite !app_nil_r|].
    injection E as <- _. by rewrite components_app, components_slash. }
  rewrite E, components_app in Hw. apply Forall_app in Hw as [Hw _].
  assert (Forall ordinary (components root)) as Hro by (by rewrite Eroot, components_abs).
  split.
  - apply Clean_components; [done|]. rewrite Hc. by apply Forall_app.
  - exists (components d). split; [done|]. rewrite <-Hc. apply Clean_components; [done|].
    rewrite Hc. by apply Forall_app.
Qed.

(** ** Join on rooted paths *)

(** A rooted path without "." and "..". *)
Definition plain (p : gostring) : Prop := is_rooted p = true /\ Forall ordinary (components p).

Lemma plain_valid v : IsUrlValid v = true -> plain v.
Proof. intros (w & -> & Hw)%IsUrlValid_components. by split. Qed.

Lemma valid_plain v : plain v -> IsUrlValid v = true.
Proof.
  intros [Hr Hc]. apply IsUrlValid_spec. unfold is_rooted in Hr. case_bool_decide as Hh; [|done].
  rewrite Forall_forall in Hc.
  assert (forall d, d <> [] -> ~ ordinary d -> d ∉ Split v slash) as Hno.
  { intros d Hd Ho Hin. apply Ho, Hc. unfold components. by apply list_elem_of_filter. }
  split_and!; [done| |]; apply Hno; try done; unfold ordinary; tauto.
Qed.

Lemma confined_plain root p : root_ok root -> confined root p -> plain p.
Proof.
  intros (rcs & Hrcs & ->) [Hr (cs & Hcs & E)]. split; [done|]. rewrite E, components_abs by done.
  by apply Forall_app.
Qed.

Lemma Join_plain p q : plain p -> plain q -> plain (Join p q) /\ components (Join p q) = components p ++ components q.
Proof.
  intros [Hp Hcp] [Hq Hcq]. destruct p as [|a p]; [done|]. destruct q as [|b q]; [done|].
  change (Join (a :: p) (b :: q)) with (Clean ((a :: p) ++ slash :: b :: q)).
  assert (components ((a :: p) ++ slash :: b :: q) = components (a :: p) ++ components (b :: q)) as E by apply components_app.
  destruct (Clean_components ((a :: p) ++ slash :: b :: q)) as [Hc Hr]; [done|rewrite E; by apply Forall_app|].
  rewrite E in Hc. split; [|done]. split; [done|]. rewrite Hc. by apply Forall_app.
Qed.

Lemma Join_name p name : plain p -> ordinary name -> plain (Join p name) /\ components (Join p name) = components p ++ [name].
Proof.
  intros [Hp Hcp] Hn. destruct p as [|a p]; [done|]. pose proof Hn as (Hne & _). destruct name as [|b name]; [done|].
  change (Join (a :: p) (b :: name)) with (Clean ((a :: p) ++ slash :: b :: name)).
  assert (components ((a :: p) ++ slash :: b :: name) = components (a :: p) ++ [b :: name]) as E
    by (by rewrite components_app, (components_name (b :: name))).
  destruct (Clean_components ((a :: p) ++ slash :: b :: name)) as [Hc Hr];
    [done|rewrite E; apply Forall_app; split; [done|by constructor]|].
  rewrite E in Hc. split; [|done]. split; [done|]. rewrite Hc. apply Forall_app; split; [done|by constructor].
Qed.

Lemma confined_Join_name root p name :
  root_ok root -> confined root p -> ordinary name -> confined root (Join p name).
Proof.
  intros Hroot Hp Hn. destruct (Join_name p name (confined_plain _ _ Hroot Hp) Hn) as [[Hr _] Hc].
  destruct Hp as [_ (cs & Hcs & E)]. split; [done|]. exists (cs ++ [name]). split.
  - apply Forall_app; split; [done|by constructor].
  - by rewrite Hc, E, app_assoc.
Qed.

(** A plain path taken below the root. *)
Lemma confined_Join_root root v : root_ok root -> plain v -> confined root (Join root v).
Proof.
  intros (rcs & Hrcs & ->) Hv. destruct (decide (rcs = [])) as [->|Hne].
  - cbn. destruct v as [|b v]; [by destruct Hv|]. destruct (Clean_components (b :: v)) as [Hc Hr]; [apply Hv..|].
    split; [done|]. exists (components (b :: v)). split; [apply Hv|]. by rewrite Hc.
  - destruct (Join_plain (abs_path rcs) v) as [[Hr _] Hc]; [split; [by apply abs_path_rooted|by rewrite components_abs]|done|].
    split; [done|]. exists (components v). split; [apply Hv|done].
Qed.

(** A trailing slash does not matter. *)
Lemma confined_without_slash root d : confined root (d ++ [slash]) -> d <> [] -> confined root d.
Proof.
  intros [Hr (cs & Hcs & E)] Hd. split; [by destruct d|]. exists cs. split; [done|].
  rewrite <-E, components_app, components_nil. by rewrite app_nil_r.
Qed.

(** NewStorage produces a storage root. *)
Lemma NewStorage_root_ok cwd cPath :
  is_rooted cwd = true -> root_ok (NewStorage_Path cwd cPath).
Proof.
  intros Hcwd. assert (exists q, is_rooted q = true /\ Abs cwd cPath = Clean q) as (q & Hq & E).
  { unfold Abs. destruct (is_rooted cPath) eqn:Hp; [eauto|].
    destruct cwd as [|b cwd]; [done|]. unfold Join. destruct cPath as [|c cPath]; [eauto|].
    exists ((b :: cwd) ++ slash :: c :: cPath). done. }
  unfold NewStorage_Path. rewrite E. destruct (Clean_rooted q Hq) as (cs & Hcs & ->).
  exists cs. split; [done|]. case_decide as Hn; [by subst cs|].
  unfold TrimSuffix. destruct (HasSuffix (abs_path cs) (str "/")) eqn:Es; [|done].
  apply HasSuffix_spec in Es as [t Et]. exfalso.
  destruct cs as [|c cs] using rev_ind; [done|]. apply Forall_app in Hcs as [_ Hc].
  apply Forall_singleton in Hc as (Hc & Hs & _). rewrite abs_path_app in Et.
  change (abs_path [c]) with (slash :: c ++ []) in Et. rewrite app_nil_r in Et.
  destruct c as [|x c _] using rev_ind; [done|]. change (str "/") with [slash] in Et.
  change (slash :: c ++ [x]) with ((slash :: c) ++ [x]) in Et.
  rewrite app_assoc in Et. apply app_inj_tail in Et as [_ ->]. apply Hs, elem_of_app. right. left.
Qed.

(** ** Lengths *)

Definition csize (cs : list gostring) : nat := sum_list_with (fun c => S (length c)) cs.

Lemma csize_app a b : csize (a ++ b) = (csize a + csize b)%nat.
Proof. apply sum_list_with_app. Qed.

Lemma csize_rev a : csize (rev a) = csize a.
Proof.
  induction a as [|c a IH]; [done|]. simpl. rewrite csize_app, IH. unfold csize. simpl. lia.
Qed.

Lemma length_abs_path cs : length (abs_path cs) = csize cs.
Proof.
  induction cs as [|c cs IH]; [done|]. rewrite abs_path_cons. simpl. rewrite length_app, IH.
  unfold csize. simpl. lia.
Qed.

Lemma csize_Split s sep : csize (Split s sep) = S (length s).
Proof.
  induction s as [|b s IH]; [done|]. simpl. case_decide.
  - change (csize ([] :: Split s sep)) with (1 + csize (Split s sep))%nat. lia.
  - destruct (Split s sep) as [|c cs] eqn:E; [by apply Split_not_nil in E|].
    unfold csize in *. simpl in *. lia.
Qed.

Lemma csize_clean_step r stack c : (csize (clean_step r stack c) <= csize stack + S (length c))%nat.
Proof.
  unfold clean_step. repeat case_bool_decide; simpl; try lia;
    try (destruct stack as [|t stack]; [destruct r|case_bool_decide]); unfold csize; simpl; lia.
Qed.

Lemma csize_foldl_clean r cs stack :
  (csize (foldl (clean_step r) stack cs) <= csize stack + csize cs)%nat.
Proof.
  revert stack. induction cs as [|c cs IH]; intros stack; simpl; [lia|].
  specialize (IH (clean_step r stack c)). pose proof (csize_clean_step r stack c).
  unfold csize in *. simpl. lia.
Qed.

(** Cleaning a rooted path does not make it longer and keeps it rooted. *)
Lemma Clean_length p : is_rooted p = true -> (length (Clean p) <= length p)%nat.
Proof.
  intros Hr. destruct p as [|b p]; [done|]. unfold Clean. rewrite Hr.
  unfold is_rooted in Hr. apply bool_decide_eq_true in Hr. injection Hr as ->.
  change (slash :: p) with ([] ++ slash :: p) at 1. rewrite Split_app. simpl foldl.
  change (clean_step true [] []) with (@nil gostring).
  pose proof (csize_foldl_clean true (Split p slash) []) as H. rewrite csize_Split in H.
  set (cs := foldl (clean_step true) [] (Split p slash)) in *.
  destruct (decide (rev cs = [])) as [E|E]; [rewrite E; simpl; lia|].
  rewrite join_abs by done. rewrite length_abs_path, csize_rev. unfold csize at 2 in H. simpl in *. lia.
Qed.

Lemma Clean_is_rooted p : is_rooted p = true -> is_rooted (Clean p) = true.
Proof. intros Hr. unfold Clean. by rewrite Hr. Qed.

Lemma Join_rooted_length a b :
  is_rooted a = true -> (length (Join a b) <= length a + 1 + length b)%nat /\ is_rooted (Join a b) = true.
Proof.
  intros Ha. destruct a as [|x a]; [done|]. unfold Join. destruct b as [|y b].
  - split; [|by apply Clean_is_rooted]. pose proof (Clean_length (x :: a) Ha). lia.
  - assert (is_rooted ((x :: a) ++ slash :: y :: b) = true) as Hr by done.
    split; [|by apply Clean_is_rooted]. pose proof (Clean_length _ Hr) as H.
    rewrite length_app in H. simpl in *. lia.
Qed.

Lemma TrimPrefix_length s p : (length (TrimPrefix s p) <= length s)%nat.
Proof. unfold TrimPrefix. case_match; [rewrite length_drop|]; lia. Qed.
