(* ===== verification/Utf8.v ===== *)
(** * UTF-8 and the words of a line

    utf8.DecodeRune of unicode/utf8, unicode.IsSpace and strings.Fields, with what
    the readers of names and of /proc/self/mountinfo rest on. *)
From S2P Require Import Prelude.

Definition RuneError : Z := 0xfffd.
Definition cont (b : byte) : bool := (0x80 <=? byte_val b) && (byte_val b <=? 0xbf).
Definition cont_val (b : byte) : Z := byte_val b - 0x80.

(** utf8.DecodeRune: the rune and its width; [(RuneError, 1)] for what is no UTF-8. *)
Definition DecodeRune (s : bytes) : Z * nat :=
  match s with
  | [] => (RuneError, 0%nat)
  | b0 :: s1 =>
      let v := byte_val b0 in
      let bad := (RuneError, 1%nat) in
      if v <? 0x80 then (v, 1%nat)
      else if v <? 0xc2 then bad
      else match s1 with
           | [] => bad
           | b1 :: s2 =>
               let lo := if v =? 0xe0 then 0xa0 else if v =? 0xf0 then 0x90 else 0x80 in
               let hi := if v =? 0xed then 0x9f else if v =? 0xf4 then 0x8f else 0xbf in
               if negb ((lo <=? byte_val b1) && (byte_val b1 <=? hi)) then bad
               else if v <? 0xe0 then ((v - 0xc0) * 64 + cont_val b1, 2%nat)
               else match s2 with
                    | [] => bad
                    | b2 :: s3 =>
                        if negb (cont b2) then bad
                        else if v <? 0xf0 then ((v - 0xe0) * 4096 + cont_val b1 * 64 + cont_val b2, 3%nat)
                        else match s3 with
                             | [] => bad
                             | b3 :: _ =>
                                 if negb (cont b3) || (0xf4 <? v) then bad
                                 else ((v - 0xf0) * 262144 + cont_val b1 * 4096 + cont_val b2 * 64 + cont_val b3, 4%nat)
                             end
                    end
           end
  end.

(** ** strings.Fields *)

(** unicode.IsSpace. *)
Definition IsSpace (r : Z) : bool :=
  bool_decide (r ∈ [0x09; 0x0a; 0x0b; 0x0c; 0x0d; 0x20; 0x85; 0xa0; 0x1680; 0x2028; 0x2029; 0x202f; 0x205f; 0x3000]) ||
  ((0x2000 <=? r) && (r <=? 0x200a)).

(** [more] bytes of the rune at hand are still to come, which is a space or not;
    [word] is the field read so far. *)
Fixpoint Fields_loop (sp : bool) (more : nat) (word s : gostring) : list gostring :=
  match s with
  | [] => if bool_decide (word = []) then [] else [word]
  | c :: s' =>
      let '(sp, more) :=
        match more with
        | O => let '(r, width) := DecodeRune s in (IsSpace r, pred width)
        | S rest => (sp, rest)
        end in
      if sp then (if bool_decide (word = []) then Fields_loop sp more [] s' else word :: Fields_loop sp more [] s')
      else Fields_loop sp more (word ++ [c]) s'
  end.
Definition Fields (s : gostring) : list gostring := Fields_loop false 0 [] s.

(** ** Facts *)

(** What DecodeRune takes is one byte below 0x80, one byte that is no UTF-8, or a
    sequence of bytes from 0x80 on. *)
Inductive utf8_decoded : bytes -> Z -> nat -> Prop :=
| dec_ascii c s : byte_val c < 0x80 -> utf8_decoded (c :: s) (byte_val c) 1
| dec_bad c s : utf8_decoded (c :: s) RuneError 1
| dec_seq s r w : 0x80 <= r -> (1 < w <= length s)%nat -> Forall (fun c => 0x80 <= byte_val c) (take w s) -> utf8_decoded s r w.

Lemma DecodeRune_decoded s r w : s <> [] -> DecodeRune s = (r, w) -> utf8_decoded s r w.
Proof.
  destruct s as [|b0 s1]; [done|]. intros _. unfold DecodeRune, cont, cont_val.
  destruct (Z.ltb_spec (byte_val b0) 0x80); [intros [= <- <-]; by constructor|].
  destruct (Z.ltb_spec (byte_val b0) 0xc2); [intros [= <- <-]; constructor|].
  destruct s1 as [|b1 s2]; [intros [= <- <-]; constructor|]. cbv zeta.
  destruct (negb _) eqn:E1; [intros [= <- <-]; constructor|].
  apply negb_false_iff, andb_true_iff in E1 as [L1 U1].
  assert (0x80 <= byte_val b1 <= 0xbf) as H1 by (clear -L1 U1; repeat case_match; lia).
  assert (byte_val b0 = 0xe0 -> 0xa0 <= byte_val b1) as HE by (clear -L1; intros E; rewrite E in L1; simpl in L1; lia).
  assert (byte_val b0 = 0xf0 -> 0x90 <= byte_val b1) as HF by (clear -L1; intros E; rewrite E in L1; simpl in L1; lia).
  clear L1 U1.
  destruct (Z.ltb_spec (byte_val b0) 0xe0).
  { intros [= <- <-]. constructor; [lia|simpl; lia|]. repeat constructor; lia. }
  destruct s2 as [|b2 s3]; [intros [= <- <-]; constructor|].
  destruct (negb _) eqn:E2; [intros [= <- <-]; constructor|]. apply negb_false_iff in E2.
  destruct (Z.ltb_spec (byte_val b0) 0xf0).
  { intros [= <- <-]. constructor; [lia|simpl; lia|]. repeat constructor; lia. }
  destruct s3 as [|b3 s4]; [intros [= <- <-]; constructor|].
  destruct (_ || _) eqn:E3; [intros [= <- <-]; constructor|].
  apply orb_false_iff in E3 as [E3 E4]. apply negb_false_iff in E3.
  intros [= <- <-]. constructor; [lia|simpl; lia|]. repeat constructor; lia.
Qed.

Lemma DecodeRune_width s r w : s <> [] -> DecodeRune s = (r, w) -> (1 <= w <= length s)%nat.
Proof. intros Hs E. apply DecodeRune_decoded in E; [|done]. destruct E; simpl; lia. Qed.

(** A space ends a sequence: what is before it is decoded as if nothing followed. *)
Lemma DecodeRune_space s t : s <> [] -> DecodeRune (s ++ x20 :: t) = DecodeRune s.
Proof.
  destruct s as [|b0 [|b1 [|b2 [|b3 s]]]]; intros Hs; [done|..|reflexivity];
    unfold DecodeRune; cbn [app]; repeat (case_match; try done);
    exfalso; repeat match goal with
      | H : negb _ = false |- _ => apply negb_false_iff in H
      | H : _ && _ = true |- _ => apply andb_true_iff in H as [? ?]
      | H : cont x20 = true |- _ => by vm_compute in H
      | H : (_ || _) = false |- _ => apply orb_false_iff in H as [? ?]
      end.
Qed.

Lemma Fields_loop_new sp word s : Fields_loop sp 0 word s = Fields_loop false 0 word s.
Proof. by destruct s. Qed.

Lemma Fields_loop_space sp more word s t :
  (more <= length s)%nat -> Fields_loop sp more word (s ++ x20 :: t) = Fields_loop sp more word s ++ Fields t.
Proof.
  revert sp more word. induction s as [|c s IH]; intros sp more word Hl; simpl in Hl.
  - assert (more = 0%nat) as -> by lia. cbn [app Fields_loop].
    change (DecodeRune (x20 :: t)) with (0x20, 1%nat). cbn [pred].
    change (IsSpace 0x20) with true. cbv iota. rewrite Fields_loop_new. fold (Fields t). by destruct (bool_decide (word = [])).
  - cbn [app Fields_loop]. destruct more as [|more].
    + change (c :: s ++ x20 :: t) with ((c :: s) ++ x20 :: t). rewrite DecodeRune_space by done.
      destruct (DecodeRune (c :: s)) as [r w] eqn:E. apply DecodeRune_width in E; [|done]. simpl in E.
      repeat case_match; rewrite !IH by lia; done.
    + repeat case_match; rewrite !IH by lia; done.
Qed.

Lemma Fields_space s t : Fields (s ++ x20 :: t) = Fields s ++ Fields t.
Proof. apply Fields_loop_space. lia. Qed.
