(* ===== verification/UnixConv.v ===== *)
(** * Conversion of flags between the protocol and a Unix system

    src/src/internal/share/wsfsunixconv for Linux: the tables of open flags,
    rename flags, whence values and lock types and their inverses, which the
    package computes when it is initialised. The numbers of the platform come
    from golang.org/x/sys/unix, so they are the fields of a class here
    ([UnixABI]); [linux_amd64] gives the numbers of Linux on amd64. *)
From S2P Require Import Prelude GoIO Codec Structs.

Class UnixABI := mkUnixABI {
  unix_O_RDONLY : Z; unix_O_WRONLY : Z; unix_O_RDWR : Z; unix_O_ACCMODE : Z;
  unix_O_TRUNC : Z; unix_O_EXCL : Z; unix_O_CREAT : Z; unix_O_DIRECTORY : Z;
  unix_O_APPEND : Z; unix_O_DSYNC : Z; unix_O_SYNC : Z; unix_O_NOFOLLOW : Z;
  unix_O_DIRECT : Z; unix_O_NOATIME : Z;
  unix_RENAME_NOREPLACE : Z; unix_RENAME_EXCHANGE : Z; unix_RENAME_WHITEOUT : Z;
  unix_SEEK_SET : Z; unix_SEEK_CUR : Z; unix_SEEK_END : Z;
  unix_SEEK_DATA : Z; unix_SEEK_HOLE : Z;
  unix_F_RDLCK : Z; unix_F_UNLCK : Z; unix_F_WRLCK : Z;
  unix_F_OFD_GETLK : Z; unix_F_OFD_SETLK : Z; unix_F_OFD_SETLKW : Z;
  unix_XATTR_CREATE : Z; unix_XATTR_REPLACE : Z;
  unix_O_LARGEFILE : Z; unix_O_CLOEXEC : Z; unix_O_NOCTTY : Z; unix_O_NONBLOCK : Z; unix_O_NDELAY : Z;
  unix_FICLONE : Z; unix_FICLONERANGE : Z;
  runtime_GOARCH : gostring;
}.

Definition linux_amd64 : UnixABI := {|
  unix_O_RDONLY := 0; unix_O_WRONLY := 1; unix_O_RDWR := 2; unix_O_ACCMODE := 3;
  unix_O_TRUNC := 0x200; unix_O_EXCL := 0x80; unix_O_CREAT := 0x40;
  unix_O_DIRECTORY := 0x10000; unix_O_APPEND := 0x400; unix_O_DSYNC := 0x1000;
  unix_O_SYNC := 0x101000; unix_O_NOFOLLOW := 0x20000; unix_O_DIRECT := 0x4000;
  unix_O_NOATIME := 0x40000;
  unix_RENAME_NOREPLACE := 1; unix_RENAME_EXCHANGE := 2; unix_RENAME_WHITEOUT := 4;
  unix_SEEK_SET := 0; unix_SEEK_CUR := 1; unix_SEEK_END := 2;
  unix_SEEK_DATA := 3; unix_SEEK_HOLE := 4;
  unix_F_RDLCK := 0; unix_F_UNLCK := 2; unix_F_WRLCK := 1;
  unix_F_OFD_GETLK := 36; unix_F_OFD_SETLK := 37; unix_F_OFD_SETLKW := 38;
  unix_XATTR_CREATE := 1; unix_XATTR_REPLACE := 2;
  unix_O_LARGEFILE := 0; unix_O_CLOEXEC := 0x80000; unix_O_NOCTTY := 0x100; unix_O_NONBLOCK := 0x800; unix_O_NDELAY := 0x800;
  unix_FICLONE := 0x40049409; unix_FICLONERANGE := 0x4020940d;
  runtime_GOARCH := str "amd64";
|}.

(** Go maps with integer keys, as association lists without repeated keys. *)
Fixpoint mlookup (k : Z) (m : list (Z * Z)) : option Z :=
  match m with
  | [] => None
  | (k', v) :: m' => if k =? k' then Some v else mlookup k m'
  end.

(** [m[k]] with the zero value for a missing key. *)
Definition mget (k : Z) (m : list (Z * Z)) : Z := default 0 (mlookup k m).

(** [m[k] = v]. *)
Fixpoint mset (k v : Z) (m : list (Z * Z)) : list (Z * Z) :=
  match m with
  | [] => [(k, v)]
  | (k', v') :: m' => if k =? k' then (k, v) :: m' else (k', v') :: mset k v m'
  end.

Section UnixConv.
Context {abi : UnixABI}.

Definition OpenFlagToUnix : list (Z * Z) :=
  [(O_RDONLY, unix_O_RDONLY); (O_WRONLY, unix_O_WRONLY); (O_RDWR, unix_O_RDWR);
   (O_TRUNC, unix_O_TRUNC); (O_EXCL, unix_O_EXCL); (O_CREAT, unix_O_CREAT);
   (O_DIRECTORY, unix_O_DIRECTORY); (O_APPEND, unix_O_APPEND);
   (O_DSYNC, unix_O_DSYNC); (O_SYNC, unix_O_SYNC); (O_NOFOLLOW, unix_O_NOFOLLOW);
   (O_DIRECT, unix_O_DIRECT); (O_NOATIME, unix_O_NOATIME)].

Definition RenameFlagToUnix : list (Z * Z) :=
  [(RENAME_NOREPLACE, unix_RENAME_NOREPLACE); (RENAME_EXCHANGE, unix_RENAME_EXCHANGE);
   (RENAME_WHITEOUT, unix_RENAME_WHITEOUT)].

Definition WhenceToUnix : list (Z * Z) :=
  [(WHENCE_SET, unix_SEEK_SET); (WHENCE_CUR, unix_SEEK_CUR); (WHENCE_END, unix_SEEK_END);
   (WHENCE_DATA, unix_SEEK_DATA); (WHENCE_HOLE, unix_SEEK_HOLE)].

Definition LockTypeToUnix : list (Z * Z) :=
  [(FILELOCK_READLOCK, unix_F_RDLCK); (FILELOCK_UNLOCK, unix_F_UNLCK);
   (FILELOCK_WRITELOCK, unix_F_WRLCK)].

(** The [init] functions of the package. *)
Definition invert (m : list (Z * Z)) : list (Z * Z) :=
  foldl (fun acc '(protocol, platform) => mset platform protocol acc) [] m.
Definition union_keys (m : list (Z * Z)) : Z := foldl (fun acc '(k, _) => Z.lor acc k) 0 m.
Definition union_values (m : list (Z * Z)) : Z := foldl (fun acc '(_, v) => Z.lor acc v) 0 m.

Definition WhenceFromUnix : list (Z * Z) := invert WhenceToUnix.
Definition LockTypeFromUnix : list (Z * Z) := invert LockTypeToUnix.
Definition RenameFlagFromUnix : list (Z * Z) := invert RenameFlagToUnix.
Definition AcceptedUnixRenameFlags : Z := union_values RenameFlagToUnix.
Definition AcceptedWSFSRenameFlags : Z := union_keys RenameFlagToUnix.

Definition open_init (st : list (Z * Z) * Z * Z) (kv : Z * Z) : list (Z * Z) * Z * Z :=
  let '(from, ubits, wbits) := st in
  let '(protocol, platform) := kv in
  if negb (Z.land protocol O_ACCMODE =? 0) then st
  else (mset platform protocol from, Z.lor ubits platform, Z.lor wbits protocol).

Definition open_tables : list (Z * Z) * Z * Z :=
  foldl open_init
    (mset unix_O_RDWR O_RDWR (mset unix_O_WRONLY O_WRONLY (mset unix_O_RDONLY O_RDONLY [])),
     unix_O_ACCMODE, O_ACCMODE)
    OpenFlagToUnix.
Definition OpenFlagFromUnix : list (Z * Z) := open_tables.1.1.
Definition AcceptdUnixOpenFlagBits : Z := open_tables.1.2.
Definition AcceptdWSFSOpenFlagBits : Z := open_tables.2.

(** open-linux.go: the bit of O_LARGEFILE the kernel adds. *)
Definition kernelLargeFileOpenFlag : Z :=
  let goarch arch := bool_decide (runtime_GOARCH = arch) in
  if goarch (str "amd64") || goarch (str "loong64") || goarch (str "riscv64") || goarch (str "s390x") then 0x8000
  else if goarch (str "arm64") then 0x20000
  else if goarch (str "mips64") || goarch (str "mips64le") then 0x2000
  else if goarch (str "ppc64") || goarch (str "ppc64le") then 0x10000
  else if goarch (str "sparc64") then 0x40000
  else 0.

Definition IgnoredUnixOpenFlagBits : Z :=
  Z.lor (Z.lor (Z.lor (Z.lor (Z.lor unix_O_LARGEFILE unix_O_CLOEXEC) unix_O_NOCTTY) unix_O_NONBLOCK) unix_O_NDELAY)
    kernelLargeFileOpenFlag.
End UnixConv.

Lemma mlookup_mset k k' v m : mlookup k (mset k' v m) = if k =? k' then Some v else mlookup k m.
Proof.
  induction m as [|[k1 v1] m IH]; simpl; [by destruct (k =? k')|].
  destruct (Z.eqb_spec k' k1); simpl.
  - subst k1. by destruct (Z.eqb_spec k k').
  - rewrite IH. destruct (Z.eqb_spec k k1), (Z.eqb_spec k k'); try done; lia.
Qed.

(** The inverse table undoes the table when no two protocol values share a
    platform value. *)
Lemma invert_spec m k v :
  NoDup m.*2 -> NoDup m.*1 ->
  mlookup k m = Some v -> mlookup v (invert m) = Some k.
Proof.
  assert (forall m acc v, (v ∉ m.*2) ->
     mlookup v (foldl (fun acc '(protocol, platform) => mset platform protocol acc) acc m)
     = mlookup v acc) as Hout.
  { clear. induction m as [|[k1 v1] m IH]; intros acc v Hv; [done|]. simpl.
    simpl in Hv. apply not_elem_of_cons in Hv as [Hn Hv]. rewrite IH by done.
    rewrite mlookup_mset. by destruct (Z.eqb_spec v v1). }
  unfold invert. generalize (@nil (Z * Z)). induction m as [|[k1 v1] m IH]; intros acc H2 H1 Hl; [done|].
  simpl in *. apply NoDup_cons in H2 as [Hn2 H2]. apply NoDup_cons in H1 as [Hn1 H1].
  destruct (Z.eqb_spec k k1).
  - simplify_eq. rewrite Hout by done. rewrite mlookup_mset. by rewrite Z.eqb_refl.
  - by apply IH.
Qed.

(** What holds of every value of a table holds of what is looked up. *)
Lemma mlookup_Forall (P : Z -> Prop) k m v : Forall P m.*2 -> mlookup k m = Some v -> P v.
Proof.
  induction m as [|[k' v'] m IH]; [done|]. simpl. intros Hf. apply Forall_cons in Hf as [Hv Hf].
  destruct (k =? k'); [by intros [= <-]|auto].
Qed.
