(* ===== verification/ServerEnv.v ===== *)
(** * The environment of the server's command handlers

    What a handler of src/src/internal/server/wsfs talks to, as the requests of a
    [prog]: the tables of its session (sync.Map and atomic operations), the
    connection, the pools of buffers, and the operating system (packages
    syscall, os and golang.org/x/sys/unix, for Linux). The error codes of
    commands-unix.go and commands.go are here as well. *)
From S2P Require Import Prelude GoIO Codec Structs Prog Paths UnixConv.

(** ** Errors of the system *)

Abbreviation errno := Z (only parsing).

Definition EPERM : errno := 1.
Definition ENOENT : errno := 2.
Definition EINTR : errno := 4.
Definition EIO : errno := 5.
Definition EBADF : errno := 9.
Definition EACCES : errno := 13.
Definition EBUSY : errno := 16.
Definition EEXIST : errno := 17.
Definition EXDEV : errno := 18.
Definition ENOTDIR : errno := 20.
Definition EINVAL : errno := 22.
Definition ETXTBSY : errno := 26.
Definition ENOSPC : errno := 28.
Definition EROFS : errno := 30.
Definition ERANGE : errno := 34.
Definition ENAMETOOLONG : errno := 36.
Definition ENOTEMPTY : errno := 39.
Definition ELOOP : errno := 40.
Definition ENODATA : errno := 61.
Definition EBADFD : errno := 77.
Definition ENOTSUP : errno := 95.
Definition EDQUOT : errno := 122.

Definition errorCodeMap : list (Z * Z) :=
  [(EACCES, ErrorAccessRestricted);
   (EROFS, ErrorAccessRestricted);
   (EPERM, ErrorStateBlocked);
   (EBUSY, ErrorBusy);
   (EEXIST, ErrorExists);
   (EXDEV, ErrorCrossDevice);
   (ENAMETOOLONG, ErrorTooLong);
   (EINVAL, ErrorInvalid);
   (EBADF, ErrorInvalidFD);
   (ENOENT, ErrorNotExists);
   (ELOOP, ErrorLoop);
   (EDQUOT, ErrorNoSpace);
   (ENOSPC, ErrorNoSpace);
   (ENOTEMPTY, ErrorNotEmpty);
   (ENOTDIR, ErrorType);
   (EIO, ErrorIO);
   (ENOTSUP, ErrorNotSupport);
   (ETXTBSY, ErrorSpecialFileBlocked);
   (ERANGE, ErrorRange);
   (* init of commands-unix-nondarwin.go *)
   (EBADFD, ErrorIO)].

Definition wsfsErrCode (err : errno) : Z :=
  match mlookup err errorCodeMap with
  | Some code => code
  | None => ErrorUnknown
  end.

(** osErrCode_osOverride of oserr-nonwindows.go never overrides; os.IsExist,
    os.IsNotExist and os.IsPermission on a system error. *)
Definition osErrCode_osOverride (err : errno) : option Z := None.
Definition os_IsExist (err : errno) : bool := (err =? EEXIST) || (err =? ENOTEMPTY).
Definition os_IsNotExist (err : errno) : bool := err =? ENOENT.
Definition os_IsPermission (err : errno) : bool := (err =? EACCES) || (err =? EPERM).

Definition osErrCode (err : errno) : Z :=
  match osErrCode_osOverride err with
  | Some code => code
  | None =>
      if os_IsExist err then ErrorExists
      else if os_IsNotExist err then ErrorNotExists
      else if os_IsPermission err then ErrorAccessRestricted
      else ErrorUnknown
  end.

Definition IsNoXAttr (err : errno) : bool := err =? ENODATA.
Definition xattrErrorCode (err : errno) : Z :=
  if IsNoXAttr err then ErrorNoXAttr else wsfsErrCode err.

(** ** The protocol *)

(** The commands whose response may take several frames. *)
Definition multi_frame (cmd : Z) : bool :=
  (cmd =? CmdRead) || (cmd =? CmdReadAt) || (cmd =? CmdReadDir) || (cmd =? CmdReadDirPlus) ||
  (cmd =? CmdGetXAttr) || (cmd =? CmdListXAttr).

(** ** Files as the os package describes them *)

(** fs.FileMode bits. *)
Definition ModeDir : Z := 2 ^ 31.
Definition ModeSymlink : Z := 2 ^ 27.
Definition ModeSetuid : Z := 2 ^ 23.
Definition ModeSetgid : Z := 2 ^ 22.
Definition ModeSticky : Z := 2 ^ 20.
Definition ModeIrregular : Z := 2 ^ 19.
Definition ModePerm : Z := 0x1ff.
Definition S_ISUID : Z := 0x800.
Definition S_ISGID : Z := 0x400.
Definition S_ISVTX : Z := 0x200.

(** The bits of [b] are set in [m]: [m & b != 0]. *)
Definition has_flag (m b : Z) : bool := negb (Z.land m b =? 0).

(** fs.FileInfo: name, size, mode, modification time (Unix seconds and
    nanoseconds) and the owner ids of its [Sys()]. *)
Record fileinfo := mkfileinfo {
  fi_Name : gostring;
  fi_Size : Z;
  fi_Mode : Z;
  fi_ModTime : Timespec;
  fi_Uid : Z;
  fi_Gid : Z;
}.

(** fs.DirEntry. *)
Record direntry := mkdirentry { de_Name : gostring; de_IsDir : bool }.

(** syscall.Flock_t. *)
Record Flock_t := mkFlock {
  Flock_Type : Z; Flock_Whence : Z; Flock_Start : Z; Flock_Len : Z;
}.

(** The result of [File.ReadDir(n)]: entries, and io.EOF or an error. *)
Inductive dirend := DirEOF | DirErr (e : errno).
Abbreviation readdir_result := (list direntry * option dirend)%type.

(** What the writer of a stream hands to its goroutine (session.go,
    writeStreamInput). [in_buf] says that the data lies in a fast buffer. *)
Record writeStreamInput := mkInput {
  in_data : bytes; in_buf : bool; in_isEnd : bool;
}.

(** ** Requests *)

Inductive sev : Type :=
(* the table of open files and the counter of its keys *)
| FdsLoad (fd : Z)
| FdsLoadOrStore (fd sfd : Z)
| FdsDelete (fd : Z)
| FdLastAdd
(* write streams *)
| WsNew
| WsLoad (mark : Z)
| WsLoadOrStore (mark : Z) (stream : nat)
| WsDelete (mark : Z)
| WsSpawn (stream : nat) (mark sfd offset : Z)
| WsEnqueue (stream : nat) (msg : writeStreamInput)
| WsReceive (stream : nat)
| ReleaseFastBuffer
(* the connection: s.write(d), and beginRsp .. writeDone around a struct *)
| Send (d : bytes)
| SendRsp (mark ec : Z) (body : image)
(* bufPool *)
| BufGet
| BufPut
(* system calls on paths *)
| SysOpen (path : gostring) (flags mode : Z)
| SysReadlink (path : gostring) (n : Z)
| SysTruncate (path : gostring) (size : Z)
| SysUtimesNano (path : gostring) (atime mtime : Timespec)
| SysChmod (path : gostring) (mode : Z)
| SysChown (path : gostring) (uid gid : Z)
| SysMkdir (path : gostring) (mode : Z)
| SysSymlink (old new : gostring)
| SysLink (old new : gostring)
| SysUnlink (path : gostring)
| SysRmdir (path : gostring)
| SysStatfs (path : gostring)
| SysRename (old new : gostring)
| SysRenameat2 (fd1 : Z) (old : gostring) (fd2 : Z) (new : gostring) (flags : Z)
| SysSetxattr (nofollow : bool) (path key : gostring) (value : bytes) (flags : Z)
| SysGetxattr (nofollow : bool) (path key : gostring) (n : Z)
| SysListxattr (nofollow : bool) (path : gostring) (n : Z)
| SysRemovexattr (nofollow : bool) (path key : gostring)
(* system calls on file descriptors *)
| SysClose (fd : Z)
| SysRead (fd n : Z)
| SysPread (fd n off : Z)
| SysWrite (fd : Z) (data : bytes)
| SysPwrite (fd : Z) (data : bytes) (off : Z)
| SysSeek (fd off whence : Z)
| SysFallocate (fd mode off len : Z)
| SysFsync (fd : Z)
| SysFtruncate (fd size : Z)
| SysFdUtimesNano (fd : Z) (atime mtime : Timespec)
| SysFchmod (fd mode : Z)
| SysFchown (fd uid gid : Z)
| SysCopyFileRange (rfd roff wfd woff len flags : Z)
| SysFileClone (dst src : Z)
| SysFileCloneRange (dst src srcoff len dstoff : Z)
| SysFcntlFlock (fd cmd : Z) (lk : Flock_t)
(* package os *)
| OsOpen (path : gostring)
| OsReadDir (f n : Z)
| OsClose (f : Z)
| OsReadlink (path : gostring)
| OsStat (path : gostring)
| OsLstat (path : gostring).

(** Answers. A read returns the bytes put into the slice, so never more than
    its length is asked of the environment by [sys_ok] below. *)
Definition sans (e : sev) : Type :=
  match e with
  | FdsLoad _ => option Z
  | FdsLoadOrStore _ _ => bool
  | FdsDelete _ => unit
  | FdLastAdd => Z
  | WsNew => nat
  | WsLoad _ => option nat
  | WsLoadOrStore _ _ => bool
  | WsDelete _ => unit
  | WsSpawn _ _ _ _ => unit
  | WsEnqueue _ _ => unit
  | WsReceive _ => option writeStreamInput
  | ReleaseFastBuffer => unit
  | Send _ => unit
  | SendRsp _ _ _ => unit
  | BufGet => Buffer
  | BufPut => unit
  | SysOpen _ _ _ => result errno Z
  | SysReadlink _ _ => result errno bytes
  | SysStatfs _ => result errno (Z * Z * Z * Z)
  | SysGetxattr _ _ _ _ => result errno (Z * bytes)
  | SysListxattr _ _ _ => result errno (Z * bytes)
  | SysRead _ _ => result errno bytes
  | SysPread _ _ _ => result errno bytes
  | SysWrite _ _ => result errno Z
  | SysPwrite _ _ _ => result errno Z
  | SysSeek _ _ _ => result errno Z
  | SysCopyFileRange _ _ _ _ _ _ => result errno Z
  | SysFcntlFlock _ _ _ => result errno Flock_t
  | OsOpen _ => result errno Z
  | OsReadDir _ _ => readdir_result
  | OsClose _ => result errno unit
  | OsReadlink _ => result errno gostring
  | OsStat _ => result errno fileinfo
  | OsLstat _ => result errno fileinfo
  | _ => result errno unit
  end.

Abbreviation SP := (prog sans).

(** Longer paths are refused by the kernel with ENAMETOOLONG. *)
Definition PATH_MAX : Z := 4096.

(** A directory entry as the os package returns it. *)
Definition entry_ok (e : direntry) : Prop := ordinary (de_Name e) /\ len (de_Name e) <= 255.

(** The times of a file are int64 values. *)
Definition fileinfo_ok (fi : fileinfo) : Prop := wf_fields (fields_Timespec (fi_ModTime fi)) = true.

(** Documented behaviour of the answers: counts and slices within the length of
    the buffer that was passed, identifiers in range, names of directory entries
    that are file names, a symbolic link that is the last component of the path
    it was found by, a pooled buffer that is empty and of its size. *)
Definition sys_ok (e : sev) : sans e -> Prop :=
  match e return sans e -> Prop with
  | FdLastAdd => fun r => in_u 32 r = true
  | BufGet => fun b => buf_ok b /\ written b = 0 /\ len (Bytes b) = MaxMsgSize
  | SysReadlink p n => fun r => match r with Ok t => 0 < len t <= n /\ len p < PATH_MAX | Err _ => True end
  | SysRead _ n => fun r => match r with Ok d => len d <= n | Err _ => True end
  | SysPread _ n _ => fun r => match r with Ok d => len d <= n | Err _ => True end
  | SysWrite _ d => fun r => match r with Ok c => 0 <= c <= len d | Err _ => True end
  | SysPwrite _ d _ => fun r => match r with Ok c => 0 <= c <= len d | Err _ => True end
  | SysSeek _ _ _ => fun r => match r with Ok o => 0 <= o < 2 ^ 63 | Err _ => True end
  | SysCopyFileRange _ _ _ _ n _ => fun r => match r with Ok c => 0 <= c <= n | Err _ => True end
  | SysStatfs _ => fun r =>
      match r with
      | Ok (blocks, bfree, bavail, frsize) =>
          in_u 64 blocks && in_u 64 bfree && in_u 64 bavail && in_u 64 frsize = true
      | Err _ => True
      end
  | SysGetxattr _ _ _ n => fun r =>
      match r with Ok (c, d) => 0 <= c /\ (0 < n -> c = len d /\ len d <= n) | Err _ => True end
  | SysListxattr _ _ n => fun r =>
      match r with Ok (c, d) => 0 <= c /\ (0 < n -> c = len d /\ len d <= n) | Err _ => True end
  | OsReadDir _ n => fun r =>
      Forall entry_ok r.1 /\
      (0 < n -> len r.1 <= n /\ (r.1 = [] -> r.2 <> None) /\ (r.2 = Some DirEOF -> r.1 = []))
  | OsReadlink _ => fun r => match r with Ok t => t <> [] | Err _ => True end
  | OsStat _ => fun r => match r with Ok fi => fileinfo_ok fi | Err _ => True end
  | OsLstat p => fun r =>
      match r with
      | Ok fi =>
          fileinfo_ok fi /\
          (has_flag (fi_Mode fi) ModeSymlink = true ->
           exists d, p = d ++ slash :: fi_Name fi /\ ordinary (fi_Name fi))
      | Err _ => True
      end
  | _ => fun _ => True
  end.

(** ** The session a handler belongs to *)

Record FsIds := mkFsIds { Uid : Z; Gid : Z; OtherUid : Z; OtherGid : Z }.
Record FeatureOptions := mkFeatureOptions {
  EnableLink : bool;
  AllowedXAttrPrefix : list gostring;
}.
Record session := mkSession {
  storage_Path : gostring;
  fsIds : FsIds;
  featureOpts : FeatureOptions;
}.

(** ** Responses *)

(** writeRspOK and writeRspError of session.go, in terms of [beginRsp] and
    [writeDone], which ServerConn models. *)
Definition writeRspOK (clientMark : Z) : SP unit :=
  trigger (SendRsp clientMark ErrorOK ([], None)).

Definition truncate_desc (desc : gostring) : gostring :=
  if len desc >? MaxErrorDescLength then take (Z.to_nat MaxErrorDescLength) desc else desc.

Definition writeRspError (clientMark ec : Z) (desc : gostring) : SP unit :=
  trigger (SendRsp clientMark ec (enc (fields_RspError (mkRspError (truncate_desc desc))))).

(** [if s.beginRsp(clientMark, ErrorOK) { err = WriteT(.., s.writer); s.writeDone(err) }]:
    by the laws of the codecs what WriteT writes is the image of the fields. *)
Definition writeRsp (clientMark : Z) (fields : list fval) : SP unit :=
  trigger (SendRsp clientMark ErrorOK (enc fields)).

Definition s_write (d : bytes) : SP unit := trigger (Send d).
