(* ===== verification/ServerConn.v ===== *)
(** * The server's side of a connection (session.go)

    requireWrite, writeDone, write, beginRsp, writeRspOK and writeRspError of
    src/src/internal/server/wsfs/session.go on the fields of [session] they
    touch. The websocket library is a parameter (class [WsConn]): a message is
    opened, written in pieces and closed, and it reaches the peer whole when it
    is closed. The operations are shown to implement one abstract step: a whole
    frame is sent, or the connection is dead and nothing is sent any more
    ([send_step]); so the peer always sees a prefix of the frames the handlers
    asked for ([sends_prefix]). *)
From S2P Require Import Prelude GoIO Codec Structs StructGen Prog ServerEnv.

(** ** The websocket library *)

Class WsConn (C : Type) := {
  ws_Writer : C -> option goerror * C;
  #[global] ws_Write :: Writer C;
  ws_Close : C -> option goerror * C;
  (* the messages the peer has received, and the one being written *)
  ws_sent : C -> list bytes;
  ws_pending : C -> option bytes;
  ws_broken : C -> bool;

  ws_ok_pending : forall c, w_ok c <-> ws_pending c <> None;
  ws_Writer_spec : forall c,
    let '(e, c') := ws_Writer c in
    ws_sent c' = ws_sent c /\
    match e with
    | None => ws_broken c = false /\ ws_broken c' = false /\ ws_pending c' = Some []
    | Some _ => ws_broken c' = true
    end;
  ws_Write_spec : forall c b d, ws_pending c = Some b ->
    let '(r, c') := w_Write d c in
    ws_sent c' = ws_sent c /\
    match r with
    | Ok _ => ws_broken c' = ws_broken c /\ ws_pending c' = Some (b ++ d)
    | Err _ => ws_broken c' = true /\ ws_pending c' <> None
    end;
  ws_Close_spec : forall c b, ws_pending c = Some b ->
    let '(e, c') := ws_Close c in
    match e with
    | None => ws_broken c = false /\ ws_broken c' = false /\ ws_sent c' = ws_sent c ++ [b]
    | Some _ => ws_broken c' = true /\
        (ws_sent c' = ws_sent c \/ ws_broken c = false /\ ws_sent c' = ws_sent c ++ [b])
    end;
}.

Section ServerConn.
Context {C : Type} `{WsConn C}.

(** The fields of [session] involved. [writeLock] and [connErrLock] say
    whether the mutex is held, [connCtx] whether the context is cancelled. *)
Record sconn := mkSconn {
  ws : C;
  conn : bool; (* s.conn != nil *)
  writer : bool; (* s.writer != nil *)
  writeLock : bool;
  connErr : option goerror;
  connErrLock : bool;
  connCtx : bool;
}.

Definition set_ws c s := mkSconn c (conn s) (writer s) (writeLock s) (connErr s) (connErrLock s) (connCtx s).
Definition set_writer b s := mkSconn (ws s) (conn s) b (writeLock s) (connErr s) (connErrLock s) (connCtx s).
Definition set_lock b s := mkSconn (ws s) (conn s) (writer s) b (connErr s) (connErrLock s) (connCtx s).

(** [if s.connErrLock.TryLock() { s.connErr = err }], then the connection is
    taken away from the writers and its context is cancelled. *)
Definition fail_conn (err : goerror) (s : sconn) : sconn :=
  mkSconn (ws s) false (writer s) (writeLock s)
    (if connErrLock s then connErr s else Some err) true true.

Definition requireWrite (s : sconn) : bool * sconn :=
  let s := set_lock true s in
  if negb (conn s) then (false, set_lock false s)
  else
    let '(err, c) := ws_Writer (ws s) in
    let s := set_writer (match err with None => true | Some _ => false end) (set_ws c s) in
    match err with
    | Some e => (false, set_lock false (fail_conn e s))
    | None => (true, s)
    end.

Definition writeDone (err : option goerror) (s : sconn) : sconn :=
  let '(err, s) :=
    if writer s then
      let '(closeErr, c) := ws_Close (ws s) in
      (match err with None => closeErr | Some _ => err end, set_writer false (set_ws c s))
    else (err, s) in
  let s := match err with Some e => fail_conn e s | None => s end in
  set_lock false s.

Definition writer_Write (d : bytes) (s : sconn) : option goerror * sconn :=
  let '(r, c) := w_Write d (ws s) in
  (match r with Ok _ => None | Err e => Some e end, set_ws c s).

Definition write (d : bytes) (s : sconn) : sconn :=
  let '(ok, s) := requireWrite s in
  if negb ok then s
  else let '(err, s) := writer_Write d s in writeDone err s.

Definition beginRsp (clientMark ec : Z) (s : sconn) : bool * sconn :=
  let '(ok, s) := requireWrite s in
  if negb ok then (false, s)
  else
    let '(err, s) := writer_Write (le_bytes 1 clientMark ++ le_bytes 1 ec) s in
    match err with
    | Some e => (false, writeDone (Some e) s)
    | None => (true, s)
    end.

(** [if s.beginRsp(m, ec) { err = WriteT(v, s.writer); s.writeDone(err) }]. *)
Definition rsp (wr : SE goerror C unit) (clientMark ec : Z) (s : sconn) : sconn :=
  let '(ok, s) := beginRsp clientMark ec s in
  if ok then
    let '(r, c) := wr (ws s) in
    writeDone (match r with Ok _ => None | Err e => Some e end) (set_ws c s)
  else s.

Definition conn_writeRspOK (clientMark : Z) (s : sconn) : sconn :=
  let '(ok, s) := beginRsp clientMark ErrorOK s in
  if ok then writeDone None s else s.

Definition conn_writeRspError (clientMark ec : Z) (desc : gostring) (s : sconn) : sconn :=
  let '(ok, s) := beginRsp clientMark ec s in
  if negb ok then s
  else
    let desc := if len desc >? MaxErrorDescLength
                then take (Z.to_nat MaxErrorDescLength) desc else desc in
    let '(r, c) := WriteRspErrorToWriter (mkRspError desc) (ws s) in
    writeDone (match r with Ok _ => None | Err e => Some e end) (set_ws c s).

(** ** The abstract step *)

(** Between two operations: no lock held, no message open, and the connection
    is given up as soon as it breaks. *)
Definition idle (s : sconn) : Prop :=
  writeLock s = false /\ writer s = false /\
  (conn s = true -> ws_broken (ws s) = false /\ connErrLock s = false) /\
  (conn s = false -> connCtx s = true).

Inductive send_step (frame : bytes) : sconn -> sconn -> Prop :=
| send_ok s s' :
    conn s = true -> conn s' = true -> ws_sent (ws s') = ws_sent (ws s) ++ [frame] ->
    send_step frame s s'
| send_last s s' : (* delivered, but the connection is found broken *)
    conn s = true -> conn s' = false -> ws_sent (ws s') = ws_sent (ws s) ++ [frame] ->
    send_step frame s s'
| send_lost s s' :
    conn s' = false -> ws_sent (ws s') = ws_sent (ws s) -> send_step frame s s'.

(** Writing [frame] and closing, from a state where [b] is already written. *)
Lemma writeDone_None_spec s b :
  writer s = true -> writeLock s = true -> conn s = true -> connErrLock s = false ->
  ws_broken (ws s) = false -> ws_pending (ws s) = Some b ->
  idle (writeDone None s) /\
  (conn (writeDone None s) = true /\ ws_sent (ws (writeDone None s)) = ws_sent (ws s) ++ [b] \/
   conn (writeDone None s) = false /\
     (ws_sent (ws (writeDone None s)) = ws_sent (ws s) ++ [b] \/
      ws_sent (ws (writeDone None s)) = ws_sent (ws s))).
Proof.
  intros Hw Hl Hc He Hbr Hp. unfold writeDone. rewrite Hw.
  pose proof (ws_Close_spec (ws s) b Hp) as Hs. destruct (ws_Close (ws s)) as [[e|] c].
  - destruct Hs as (_ & Hs). unfold idle, fail_conn. simpl. split; [done|].
    right. split; [done|]. destruct Hs as [Hs|[_ Hs]]; auto.
  - destruct Hs as (_ & Hs2 & Hs3). unfold idle. simpl. split; [|by left].
    split_and!; [done..|congruence].
Qed.

(** A failed message: whatever was pending, the connection is given up. *)
Lemma writeDone_Some_spec s b e :
  writer s = true -> writeLock s = true ->
  ws_pending (ws s) = Some b ->
  idle (writeDone (Some e) s) /\ conn (writeDone (Some e) s) = false /\
  (ws_sent (ws (writeDone (Some e) s)) = ws_sent (ws s) \/
   ws_broken (ws s) = false /\ ws_sent (ws (writeDone (Some e) s)) = ws_sent (ws s) ++ [b]).
Proof.
  intros Hw Hl Hp. unfold writeDone. rewrite Hw.
  pose proof (ws_Close_spec (ws s) b Hp) as Hs. destruct (ws_Close (ws s)) as [[e'|] c];
    unfold idle, fail_conn; simpl; (split; [done|split; [done|]]).
  - by destruct Hs as (_ & Hs).
  - destruct Hs as (? & ? & ?). by right.
Qed.

Lemma requireWrite_spec s :
  idle s ->
  let '(ok, s') := requireWrite s in
  ws_sent (ws s') = ws_sent (ws s) /\
  if ok then conn s = true /\ writer s' = true /\ writeLock s' = true /\ conn s' = true /\
             connErrLock s' = false /\ ws_broken (ws s') = false /\ ws_pending (ws s') = Some []
  else idle s' /\ conn s' = false.
Proof.
  intros (Hl & Hw & Hc & Hx). unfold requireWrite. simpl.
  destruct (conn s) eqn:Ec; simpl.
  - pose proof (ws_Writer_spec (ws s)) as Hs. destruct (ws_Writer (ws s)) as [[e|] c];
      destruct Hs as [Hs1 Hs2]; unfold idle, fail_conn; simpl.
    + done.
    + destruct Hs2 as (? & ? & ?), (Hc eq_refl). split_and!; try done.
  - unfold idle. simpl. rewrite Ec. split_and!; try done.
Qed.

(** A sequence of writes on an open message and its close is one abstract
    step with the frame written. *)
Lemma finish_spec (wr : SE goerror C unit) (p : image) s b frame :
  (forall w, w_ok w -> wr w = out p w) -> frame = b ++ p.1 ->
  writer s = true -> writeLock s = true -> conn s = true -> connErrLock s = false ->
  ws_broken (ws s) = false -> ws_pending (ws s) = Some b ->
  let s' := let '(r, c) := wr (ws s) in
            writeDone (match r with Ok _ => None | Err e => Some e end) (set_ws c s) in
  idle s' /\
  (conn s' = true /\ ws_sent (ws s') = ws_sent (ws s) ++ [frame] \/
   conn s' = false /\ (ws_sent (ws s') = ws_sent (ws s) ++ [frame] \/
                       ws_sent (ws s') = ws_sent (ws s))).
Proof.
  intros Hwr -> Hw Hl Hc He Hbr Hp s'. subst s'.
  assert (w_ok (ws s)) as Hok by (apply ws_ok_pending; congruence).
  rewrite Hwr by done. destruct p as [d [e|]]; simpl.
  - unfold mbind, SE_bind, se_fail.
    pose proof (ws_Write_spec (ws s) b d Hp) as Hs.
    destruct (w_Write d (ws s)) as [[u|e'] c]; destruct Hs as (Hs1 & Hs2 & Hs3).
    + destruct (writeDone_Some_spec (set_ws c s) (b ++ d) e) as (? & ? & Hd); [done..|].
      split; [done|]. right. split; [done|]. simpl in Hd. rewrite Hs1 in Hd. naive_solver.
    + destruct (ws_pending c) as [x|] eqn:Ex; [|done].
      destruct (writeDone_Some_spec (set_ws c s) x e') as (? & ? & Hd); [done..|].
      split; [done|]. right. split; [done|]. simpl in Hd. rewrite Hs1 in Hd.
      destruct Hd as [Hd|[Hd _]]; [by right|congruence].
  - pose proof (ws_Write_spec (ws s) b d Hp) as Hs.
    destruct (w_Write d (ws s)) as [[u|e'] c]; destruct Hs as (Hs1 & Hs2 & Hs3).
    + destruct (writeDone_None_spec (set_ws c s) (b ++ d)) as (? & Hd); simpl; [congruence..|].
      split; [done|]. simpl in Hd. rewrite Hs1 in Hd. done.
    + destruct (ws_pending c) as [x|] eqn:Ex; [|done].
      destruct (writeDone_Some_spec (set_ws c s) x e') as (? & ? & Hd); [done..|].
      split; [done|]. right. split; [done|]. simpl in Hd. rewrite Hs1 in Hd.
      destruct Hd as [Hd|[Hd _]]; [by right|congruence].
Qed.

Lemma finish_step s s1 s' frame :
  conn s = true -> ws_sent (ws s1) = ws_sent (ws s) ->
  (conn s' = true /\ ws_sent (ws s') = ws_sent (ws s1) ++ [frame] \/
   conn s' = false /\ (ws_sent (ws s') = ws_sent (ws s1) ++ [frame] \/
                       ws_sent (ws s') = ws_sent (ws s1))) ->
  send_step frame s s'.
Proof.
  intros Hc -> [[? ?]|[? [?|?]]]; [by apply send_ok|by apply send_last|by apply send_lost].
Qed.

(** [s.write(d)] sends the frame [d]. *)
Lemma write_refines d s : idle s -> idle (write d s) /\ send_step d s (write d s).
Proof.
  intros Hi. unfold write. pose proof (requireWrite_spec s Hi) as Hr.
  destruct (requireWrite s) as [[] s1]; simpl.
  - destruct Hr as (Hs & Hc & Hw & Hl & Hc1 & He & Hb & Hp).
    destruct (finish_spec (w_Write d) (d, None) s1 [] d) as [Hi' Hd]; try done.
    unfold writer_Write. destruct (w_Write d (ws s1)) as [[[]|e] c];
      (split; [done|by apply (finish_step s s1)]).
  - destruct Hr as (Hs & Hi' & Hc). split; [done|]. by apply send_lost.
Qed.

Lemma beginRsp_spec m ec s :
  idle s ->
  let '(ok, s') := beginRsp m ec s in
  ws_sent (ws s') = ws_sent (ws s) /\
  if ok then conn s = true /\ writer s' = true /\ writeLock s' = true /\ conn s' = true /\
             connErrLock s' = false /\ ws_broken (ws s') = false /\
             ws_pending (ws s') = Some (le_bytes 1 m ++ le_bytes 1 ec)
  else idle s' /\ conn s' = false.
Proof.
  intros Hi. unfold beginRsp. pose proof (requireWrite_spec s Hi) as Hr.
  destruct (requireWrite s) as [[] s1]; simpl; [|done].
  destruct Hr as (Hs & Hc & Hw & Hl & Hc1 & He & Hb & Hp). unfold writer_Write.
  pose proof (ws_Write_spec (ws s1) [] (le_bytes 1 m ++ le_bytes 1 ec) Hp) as Hws.
  destruct (w_Write _ (ws s1)) as [[u|e] c]; destruct Hws as (Hs1 & Hs2 & Hs3).
  - simpl. split_and!; try done; congruence.
  - destruct (ws_pending c) as [x|] eqn:Ex; [|done].
    destruct (writeDone_Some_spec (set_ws c s1) x e) as (? & ? & Hd); [done..|].
    destruct Hd as [Hd|[Hd _]]; simpl in Hd; [|congruence].
    split; [|done]. rewrite Hd. by rewrite Hs1.
Qed.

(** A response whose body a codec writes is sent as one frame. *)
Lemma rsp_refines wr p m ec s :
  (forall w, w_ok w -> wr w = out p w) -> idle s ->
  idle (rsp wr m ec s) /\ send_step (le_bytes 1 m ++ le_bytes 1 ec ++ p.1) s (rsp wr m ec s).
Proof.
  intros Hwr Hi. unfold rsp. pose proof (beginRsp_spec m ec s Hi) as Hr.
  destruct (beginRsp m ec s) as [[] s1].
  - destruct Hr as (Hs & Hc & Hw & Hl & Hc1 & He & Hb & Hp).
    destruct (finish_spec wr p s1 (le_bytes 1 m ++ le_bytes 1 ec)
      (le_bytes 1 m ++ le_bytes 1 ec ++ p.1) Hwr) as [Hi' Hd];
      try done.
    destruct (wr (ws s1)) as [r c]. split; [done|]. by apply (finish_step s s1).
  - destruct Hr as (Hs & Hi' & Hc). split; [done|]. by apply send_lost.
Qed.

Lemma conn_writeRspOK_rsp m s : idle s -> conn_writeRspOK m s = rsp (mret tt) m ErrorOK s.
Proof.
  intros Hi. unfold conn_writeRspOK, rsp. destruct (beginRsp m ErrorOK s) as [[] s1]; [|done].
  unfold mret, SE_ret. by destruct s1.
Qed.

Lemma conn_writeRspError_rsp m ec desc s :
  conn_writeRspError m ec desc s =
    rsp (WriteRspErrorToWriter (mkRspError (truncate_desc desc))) m ec s.
Proof. unfold conn_writeRspError, rsp. by destruct (beginRsp m ec s) as [[] s1]. Qed.

(** ** Sequences of responses *)

(** The requests of a handler that concern the connection, and the frame each
    asks for. *)
Definition conn_event (e : sev) (s : sconn) : sconn :=
  match e with
  | Send d => write d s
  | SendRsp m ec p => rsp (out p) m ec s
  | _ => s
  end.

Definition frame_of (e : sev) : option bytes :=
  match e with
  | Send d => Some d
  | SendRsp m ec p => Some (le_bytes 1 m ++ le_bytes 1 ec ++ p.1)
  | _ => None
  end.

Lemma conn_event_step e s :
  idle s -> idle (conn_event e s) /\
  match frame_of e with Some f => send_step f s (conn_event e s) | None => conn_event e s = s end.
Proof.
  intros Hi. destruct e; simpl; try done; [by apply write_refines|by apply rsp_refines].
Qed.

Lemma dead_stays e s :
  idle s -> conn s = false ->
  conn (conn_event e s) = false /\ ws_sent (ws (conn_event e s)) = ws_sent (ws s).
Proof.
  intros Hi Hc. destruct (conn_event_step e s Hi) as [_ Hs].
  destruct (frame_of e); [|by rewrite Hs]. inversion Hs; subst; try congruence. done.
Qed.

Lemma dead_stays_all es s :
  idle s -> conn s = false ->
  conn (foldl (flip conn_event) s es) = false /\
  ws_sent (ws (foldl (flip conn_event) s es)) = ws_sent (ws s).
Proof.
  revert s. induction es as [|e es IH]; intros s Hi Hc; [done|]. simpl.
  destruct (dead_stays e s Hi Hc) as [Hc' Hs']. rewrite <-Hs'. apply IH; [|done].
  by apply conn_event_step.
Qed.

Lemma conn_events_idle es s : idle s -> idle (foldl (flip conn_event) s es).
Proof.
  revert s. induction es as [|e es IH]; intros s Hi; [done|]. simpl. apply IH.
  by apply conn_event_step.
Qed.

(** Whatever fails and whenever, the peer receives a prefix of the frames asked
    for, each of them whole and in order, and all of them while the session
    still holds the connection. *)
Lemma sends_prefix es s :
  idle s ->
  let s' := foldl (flip conn_event) s es in
  exists k, ws_sent (ws s') = ws_sent (ws s) ++ take k (omap frame_of es) /\
            (conn s' = true -> (length (omap frame_of es) <= k)%nat).
Proof.
  revert s. induction es as [|e es IH]; intros s Hi s'; subst s'.
  - exists 0%nat. simpl. split; [by rewrite app_nil_r|done].
  - simpl foldl. destruct (conn_event_step e s Hi) as [Hi' Hs].
    change (flip conn_event s e) with (conn_event e s).
    destruct (IH (conn_event e s) Hi') as (k & Hk & Hall). simpl omap.
    destruct (frame_of e) as [f|]; [|rewrite Hs in Hk, Hall |- *; by exists k].
    inversion Hs as [? ? H1 H2 H3|? ? H1 H2 H3|? ? H1 H2]; subst.
    + exists (S k). rewrite Hk, H3. simpl. split; [by rewrite <-app_assoc|].
      intros Hc. apply le_n_S, Hall, Hc.
    + destruct (dead_stays_all es (conn_event e s) Hi' H2) as [Hd ->].
      exists 1%nat. rewrite H3. simpl. split; [done|congruence].
    + destruct (dead_stays_all es (conn_event e s) Hi' H1) as [Hd ->].
      exists 0%nat. rewrite H2. split; [by rewrite app_nil_r|congruence].
Qed.
End ServerConn.

(** ** A connection that breaks after a number of bytes

    An instance of the interface: [None] bytes of room is a connection that
    never breaks. *)
Record bconn := mkBconn {
  bc_sent : list bytes; bc_pending : option bytes; bc_room : option nat; bc_broken : bool;
}.

Definition bconn_Writer (c : bconn) : option goerror * bconn :=
  if bc_broken c then (Some (ErrConn 0), c)
  else (None, mkBconn (bc_sent c) (Some []) (bc_room c) false).

Definition bconn_Write (d : bytes) : SE goerror bconn unit := fun c =>
  match bc_pending c with
  | None => (Err (ErrConn 1), c)
  | Some b =>
      match bc_room c with
      | None => (Ok tt, mkBconn (bc_sent c) (Some (b ++ d)) None (bc_broken c))
      | Some k =>
          if decide (length d <= k)%nat
          then (Ok tt, mkBconn (bc_sent c) (Some (b ++ d)) (Some (k - length d)%nat) (bc_broken c))
          else (Err (ErrConn 0), mkBconn (bc_sent c) (Some (b ++ take k d)) (Some 0%nat) true)
      end
  end.

Definition bconn_Close (c : bconn) : option goerror * bconn :=
  if bc_broken c then (Some (ErrConn 0), mkBconn (bc_sent c) None (bc_room c) true)
  else (None, mkBconn (bc_sent c ++ option_list (bc_pending c)) None (bc_room c) false).

#[global] Program Instance bconn_Writer_instance : Writer bconn :=
  {| w_Write := bconn_Write; w_ok := fun c => bc_pending c <> None |}.
Next Obligation.
  intros a [s [p|] [k|] b] Hp; unfold bconn_Write; simpl in *; try done. by case_decide.
Qed.
Next Obligation.
  intros [s [p|] [k|] b] Hp; unfold bconn_Write; simpl in *; try done; rewrite app_nil_r; [|done].
  by rewrite Nat.sub_0_r.
Qed.
Next Obligation.
  intros x y [s [p|] [k|] b] Hp; unfold bconn_Write, mbind, SE_bind; simpl in *;
    [|by rewrite app_assoc|done..].
  rewrite length_app. repeat (case_decide; simpl in *); try lia; rewrite <-?app_assoc.
  - do 2 f_equal. f_equal. lia.
  - do 2 f_equal. rewrite take_app, (take_ge x) by lia. done.
  - do 2 f_equal. rewrite take_app_le by lia. done.
Qed.

#[global] Program Instance bconn_WsConn : WsConn bconn :=
  {| ws_Writer := bconn_Writer; ws_Close := bconn_Close;
     ws_sent := bc_sent; ws_pending := bc_pending; ws_broken := bc_broken |}.
Next Obligation. done. Qed.
Next Obligation. intros [s p r []]; done. Qed.
Next Obligation.
  intros [s p r b] p' d Hp. simpl in *. subst p. unfold bconn_Write. simpl.
  destruct r as [k|]; [|done]. by case_decide.
Qed.
Next Obligation.
  intros [s p r []] p' Hp; simpl in *; subst p; unfold bconn_Close; simpl; auto.
Qed.
