(* ===== verification/ServerCmds.v ===== *)
(** * Command handlers on files and paths (commands-unix.go)

    One definition per handler of src/src/internal/server/wsfs/commands-unix.go
    and per function of the small packages it calls (ofdlock, reflink,
    renameat2, timeval, util.FsSize) for Linux. [fuel] bounds the loops that
    repeat an interrupted system call and the search for a free descriptor. *)
From S2P Require Import Prelude GoIO Codec Structs Prog Paths UnixConv ServerEnv.

Definition maxReadPayLoad : Z := MaxMsgSize - 2.

(** ** Helpers *)

(** syscallMode. *)
Definition syscallMode (i : Z) : Z :=
  let o := Z.land i ModePerm in
  let o := if has_flag i ModeSetuid then Z.lor o S_ISUID else o in
  let o := if has_flag i ModeSetgid then Z.lor o S_ISGID else o in
  if has_flag i ModeSticky then Z.lor o S_ISVTX else o.

(** timeval: ValidNsec, FitsInt32, TimevalParts, unixTimespecs (64-bit). *)
Definition ValidNsec (nsec : Z) : bool := (nsec >=? 0) && (nsec <? 1000000000).
Definition FitsInt32 (v : Z) : bool := i32 v =? v.
Definition TimevalParts (ts : Timespec) : result errno (Z * Z) :=
  if negb (ValidNsec (Timespec_Nanoseconds ts)) then Err EINVAL
  else
    let sec := Timespec_Seconds ts in
    let usec := Z.quot (i64 (Timespec_Nanoseconds ts + 999)) 1000 in
    if usec >=? 1000000 then
      if sec =? 2 ^ 63 - 1 then Err ERANGE
      else Ok (i64 (sec + 1), usec - 1000000)
    else Ok (sec, usec).
Definition unixTimespecs (ts : Timespec) : result errno (Timespec * Timespec) :=
  if negb (ValidNsec (Timespec_Nanoseconds ts)) then Err EINVAL else Ok (ts, ts).

(** wsfsunixconv tables used to build the flags of open(2). *)
Section OpenFlag.
Context {abi : UnixABI}.

Fixpoint open_flag_loop (OFlag : Z) (flags : list Z) (oflag : Z) : option Z :=
  match flags with
  | [] => Some oflag
  | proctocolFlag :: flags' =>
      if has_flag proctocolFlag O_ACCMODE then open_flag_loop OFlag flags' oflag
      else if has_flag OFlag proctocolFlag then
        match mlookup proctocolFlag OpenFlagToUnix with
        | None => None
        | Some unixFlag => open_flag_loop OFlag flags' (Z.lor oflag unixFlag)
        end
      else open_flag_loop OFlag flags' oflag
  end.

Definition open_access (OFlag : Z) : option Z :=
  let a := Z.land OFlag O_ACCMODE in
  if a =? O_RDONLY then Some (Z.lor 0 (mget O_RDONLY OpenFlagToUnix))
  else if a =? O_WRONLY then Some (Z.lor 0 (mget O_WRONLY OpenFlagToUnix))
  else if a =? O_RDWR then Some (Z.lor 0 (mget O_RDWR OpenFlagToUnix))
  else None.

(** ofdlock-linux.go. *)
Definition lockToSys (lk : FileLockInfo) : option Flock_t :=
  match mlookup (FileLockInfo_Type lk) LockTypeToUnix with
  | None => None
  | Some t =>
      if FileLockInfo_Type lk =? FILELOCK_UNLOCK then Some (mkFlock t 0 0 0)
      else Some (mkFlock t (i16 (mget (FileLockInfo_Whence lk) WhenceToUnix))
                   (i64 (FileLockInfo_Start lk)) (i64 (FileLockInfo_Size lk)))
  end.

Definition lockFromSys (f : Flock_t) : FileLockInfo :=
  let t := mget (Flock_Type f) LockTypeFromUnix in
  if t =? FILELOCK_UNLOCK then mkFileLockInfo t 0 0 0
  else mkFileLockInfo t (mget (Flock_Whence f) WhenceFromUnix)
         (u64 (Flock_Start f)) (u64 (Flock_Len f)).

(** renameat2-linux.go. *)
Definition rename_flags (flag : Z) : Z :=
  foldl (fun acc '(protocolFlag, platformFlag) =>
           if has_flag flag protocolFlag then Z.lor acc platformFlag else acc)
    0 RenameFlagToUnix.
End OpenFlag.

Section Handlers.
Context {abi : UnixABI} (fuel : nat) (s : session).

(** ignoringEINTR. *)
Definition ignoringEINTR {A} (fn : SP (result errno A)) : SP (result errno A) :=
  loop fuel (fun _ : unit =>
    r ← fn;
    match r with
    | Err e => if e =? EINTR then mret (inl tt) else mret (inr r)
    | Ok _ => mret (inr r)
    end) tt.

(** session.newFD. *)
Definition newFD (sfd : Z) : SP Z :=
  loop fuel (fun _ : unit =>
    fd ← trigger FdLastAdd;
    loaded ← trigger (FdsLoadOrStore fd sfd);
    mret (if (loaded : bool) then inl tt else inr fd)) tt.

(** [if !util.IsUrlValid(p) { writeRspError(..); return }; apath := s.storage.Path + p]. *)
Definition with_path (clientMark : Z) (p : gostring) (k : gostring -> SP unit) : SP unit :=
  if negb (IsUrlValid p) then writeRspError clientMark ErrorInvalid (str "bad path")
  else k (storage_Path s ++ p).

(** [rsfd, ok := s.fds.Load(fd); if !ok { writeRspError(..); return }]. *)
Definition with_fd (clientMark fd : Z) (k : Z -> SP unit) : SP unit :=
  r ← trigger (FdsLoad fd);
  match r with
  | None => writeRspError clientMark ErrorInvalidFD (str "bad fd")
  | Some sfd => k sfd
  end.

Definition syscall_error (clientMark : Z) (e : errno) : SP unit :=
  writeRspError clientMark (wsfsErrCode e) (str "syscall error").

(** [if err != nil { writeRspError(..) } else { writeRspOK(..) }]. *)
Definition reply (clientMark : Z) (r : result errno unit) : SP unit :=
  match r with
  | Err e => syscall_error clientMark e
  | Ok _ => writeRspOK clientMark
  end.

(** [if err != nil { writeRspError(..) } else { .. WriteRsp .. }]. *)
Definition reply_with {A} (clientMark : Z) (r : result errno A) (fields : A -> list fval) : SP unit :=
  match r with
  | Err e => syscall_error clientMark e
  | Ok a => writeRsp clientMark (fields a)
  end.

Definition convOwner (fi : fileinfo) : Z :=
  (if fi_Uid fi =? Uid (fsIds s) then 1 else 0) + (if fi_Gid fi =? Gid (fsIds s) then 2 else 0).

(** ** Open and close *)

Definition cmdOpen (clientMark : Z) (req : CmdOpenStruct) : SP unit :=
  with_path clientMark (CmdOpen_Path req) (fun apath =>
    match open_access (CmdOpen_OFlag req) with
    | None => writeRspError clientMark ErrorInvalid (str "bad open access mode")
    | Some oflag =>
        match open_flag_loop (CmdOpen_OFlag req) OpenFlags oflag with
        | None => writeRspError clientMark ErrorNotSupport (str "not supported open flag")
        | Some oflag =>
            r ← ignoringEINTR (trigger (SysOpen apath oflag (syscallMode (CmdOpen_FMode req))));
            match r with
            | Err e => syscall_error clientMark e
            | Ok sfd =>
                wfd ← newFD sfd;
                writeRsp clientMark (fields_RspOpen (mkRspOpen wfd))
            end
        end
    end).

Definition cmdClose (clientMark : Z) (req : CmdCloseStruct) : SP unit :=
  with_fd clientMark (CmdClose_FD req) (fun sfd =>
    trigger (FdsDelete (CmdClose_FD req)) ;;
    err ← trigger (SysClose sfd);
    reply clientMark err).

(** ** Reading *)

(** The part of readAndSend and readAtAndSend around the system call. *)
Definition read_and_send (clientMark size : Z) (partial : bool)
    (call : Z -> SP (result errno bytes)) : SP (Z * bool) :=
  buf ← trigger BufGet;
  let buf := (Buffer_Write (le_bytes 1 clientMark ++ le_bytes 1 ErrorOK) buf).2 in
  let n := i64 size in
  (* buf.Bytes[buf.Written():][:int(size)] *)
  if (n <? 0) || (len (Bytes buf) - Buffer_Written buf <? n) then Panic
  else
    r ← call n;
    match r with
    | Err e =>
        let _ := Buffer_Grow (-1) buf in
        syscall_error clientMark e ;;
        trigger BufPut ;;
        mret (0, false)
    | Ok data =>
        let buf := mkBuffer (splice (Z.to_nat (Buffer_Written buf)) data (Bytes buf)) (written buf) in
        let buf := Buffer_Grow (len data) buf in
        let buf := if partial && (len data =? size)
                   then mkBuffer (splice 1 (le_bytes 1 ErrorPartialResponse) (Bytes buf)) (written buf)
                   else buf in
        s_write (Buffer_Done buf).1 ;;
        trigger BufPut ;;
        mret (len data, true)
    end.

Definition readAndSend (clientMark fd size : Z) (partial : bool) : SP (Z * bool) :=
  read_and_send clientMark size partial (fun n => trigger (SysRead fd n)).

Definition readAtAndSend (clientMark fd off size : Z) (partial : bool) : SP (Z * bool) :=
  read_and_send clientMark size partial (fun n => trigger (SysPread fd n (i64 off))).

(** [for range n { .. }] of cmdRead: true when the handler returned inside. *)
Fixpoint cmdRead_loop (clientMark sfd : Z) (n : nat) : SP bool :=
  match n with
  | O => mret false
  | S n' =>
      r ← readAndSend clientMark sfd maxReadPayLoad true;
      let '(readed, ok) := (r : Z * bool) in
      if negb ok then mret true
      else if readed <? maxReadPayLoad then mret true
      else cmdRead_loop clientMark sfd n'
  end.

Definition cmdRead (clientMark : Z) (req : CmdReadStruct) : SP unit :=
  with_fd clientMark (CmdRead_FD req) (fun sfd =>
    let Size := CmdRead_Size req in
    if Size <? maxReadPayLoad then
      readAndSend clientMark sfd Size false ;; mret tt
    else
      returned ← cmdRead_loop clientMark sfd (Z.to_nat (Size / maxReadPayLoad));
      if (returned : bool) then mret tt
      else if Size mod maxReadPayLoad =? 0 then writeRspOK clientMark
      else readAndSend clientMark sfd (Size mod maxReadPayLoad) false ;; mret tt).

Fixpoint cmdReadAt_loop (clientMark sfd off : Z) (n : nat) : SP (bool * Z) :=
  match n with
  | O => mret (false, off)
  | S n' =>
      r ← readAtAndSend clientMark sfd off maxReadPayLoad true;
      let '(readed, ok) := (r : Z * bool) in
      if negb ok then mret (true, off)
      else if readed <? maxReadPayLoad then mret (true, off)
      else cmdReadAt_loop clientMark sfd (u64 (off + readed)) n'
  end.

Definition cmdReadAt (clientMark : Z) (req : CmdReadAtStruct) : SP unit :=
  with_fd clientMark (CmdReadAt_FD req) (fun sfd =>
    let off := CmdReadAt_Offset req in
    let Size := CmdReadAt_Size req in
    if Size <? maxReadPayLoad then
      readAtAndSend clientMark sfd off Size false ;; mret tt
    else
      r ← cmdReadAt_loop clientMark sfd off (Z.to_nat (Size / maxReadPayLoad));
      let '(returned, off) := (r : bool * Z) in
      if returned then mret tt
      else if Size mod maxReadPayLoad =? 0 then writeRspOK clientMark
      else readAtAndSend clientMark sfd off (Size mod maxReadPayLoad) false ;; mret tt).

Definition cmdReadLink (clientMark : Z) (req : CmdReadLinkStruct) : SP unit :=
  with_path clientMark (CmdReadLink_Path req) (fun apath =>
    r ← ignoringEINTR (trigger (SysReadlink apath 256));
    match r with
    | Err _ => writeRspError clientMark ErrorType (str "syscall error")
    | Ok [] => Panic (* target[0] *)
    | Ok ((c :: _) as target) =>
        let target := if bool_decide (c = slash) then target
                      else Clean (Join apath target) in
        if HasPrefix target (storage_Path s) then
          writeRsp clientMark
            (fields_RspReadLink (mkRspReadLink (TrimPrefix target (storage_Path s))))
        else writeRspError clientMark ErrorType (str "syscall error")
    end).

Definition cmdSeek (clientMark : Z) (req : CmdSeekStruct) : SP unit :=
  with_fd clientMark (CmdSeek_FD req) (fun sfd =>
    match mlookup (CmdSeek_Whence req) WhenceToUnix with
    | None => writeRspError clientMark ErrorNotSupport (str "whence not supported")
    | Some whence =>
        r ← trigger (SysSeek sfd (CmdSeek_Offset req) whence);
        reply_with clientMark r (fun offset => fields_RspSeek (mkRspSeek (u64 offset)))
    end).

(** ** Writing *)

Definition cmdWrite (clientMark : Z) (req : CmdWriteStruct) : SP unit :=
  with_fd clientMark (CmdWrite_FD req) (fun sfd =>
    r ← ignoringEINTR (trigger (SysWrite sfd (CmdWrite_Data req)));
    reply_with clientMark r (fun count => fields_RspWrite (mkRspWrite (u64 count)))).

Definition cmdWriteAt (clientMark : Z) (req : CmdWriteAtStruct) : SP unit :=
  with_fd clientMark (CmdWriteAt_FD req) (fun sfd =>
    r ← ignoringEINTR (trigger (SysPwrite sfd (CmdWriteAt_Data req) (i64 (CmdWriteAt_Offset req))));
    reply_with clientMark r (fun count => fields_RspWriteAt (mkRspWriteAt (u64 count)))).

Definition cmdAllocate (clientMark : Z) (req : CmdAllocateStruct) : SP unit :=
  with_fd clientMark (CmdAllocate_FD req) (fun sfd =>
    err ← trigger (SysFallocate sfd (CmdAllocate_Flag req)
                     (i64 (CmdAllocate_Offset req)) (i64 (CmdAllocate_Size req)));
    reply clientMark err).

Definition cmdSync (clientMark : Z) (req : CmdSyncStruct) : SP unit :=
  with_fd clientMark (CmdSync_FD req) (fun sfd =>
    err ← trigger (SysFsync sfd);
    reply clientMark err).

Definition cmdCopyFileRange (clientMark : Z) (req : CmdCopyFileRangeStruct) : SP unit :=
  if CmdCopyFileRange_Size req >? MaxCopyFileRangeChunk then
    writeRspError clientMark ErrorInvalid (str "copy_file_range size exceeds limit")
  else
    with_fd clientMark (CmdCopyFileRange_SrcFD req) (fun sfd1 =>
      with_fd clientMark (CmdCopyFileRange_DstFD req) (fun sfd2 =>
        r ← trigger (SysCopyFileRange sfd1 (i64 (CmdCopyFileRange_SrcOffset req))
                       sfd2 (i64 (CmdCopyFileRange_DstOffset req))
                       (i64 (CmdCopyFileRange_Size req)) 0);
        reply_with clientMark r (fun writed => fields_RspCopyFileRange (mkRspCopyFileRange (u64 writed))))).

(** reflink-linux.go. *)
Definition CloneFileRange (dstFD srcFD dstOffset srcOffset size : Z) : SP (result errno unit) :=
  if (dstOffset =? 0) && (srcOffset =? 0) && (size =? 0)
  then trigger (SysFileClone dstFD srcFD)
  else trigger (SysFileCloneRange dstFD srcFD srcOffset size dstOffset).

Definition cmdCloneFileRange (clientMark : Z) (req : CmdCloneFileRangeStruct) : SP unit :=
  with_fd clientMark (CmdCloneFileRange_SrcFD req) (fun sfd1 =>
    with_fd clientMark (CmdCloneFileRange_DstFD req) (fun sfd2 =>
      err ← CloneFileRange sfd2 sfd1 (CmdCloneFileRange_DstOffset req)
              (CmdCloneFileRange_SrcOffset req) (CmdCloneFileRange_Size req);
      reply clientMark err)).

(** ** Attributes *)

(** [if flag != 0 { err := call; if err != nil { writeRspError; return } }; rest]. *)
Definition attr_step (clientMark : Z) (flag : bool) (call : SP (result errno unit))
    (rest : SP unit) : SP unit :=
  if flag then
    err ← call;
    match (err : result errno unit) with
    | Err e => syscall_error clientMark e
    | Ok _ => rest
    end
  else rest.

Definition owner_ids (owner : Z) : Z * Z :=
  (if has_flag owner OWNER_UN then Uid (fsIds s) else OtherUid (fsIds s),
   if has_flag owner OWNER_NG then Gid (fsIds s) else OtherGid (fsIds s)).

(** utime_unix.go, fdtime_linux.go. *)
Definition SetPathMTime (path : gostring) (ts : Timespec) : SP (result errno unit) :=
  match unixTimespecs ts with
  | Err e => mret (Err e)
  | Ok (t1, t2) => trigger (SysUtimesNano path t1 t2)
  end.
Definition SetFDMTime (fd : Z) (ts : Timespec) : SP (result errno unit) :=
  match unixTimespecs ts with
  | Err e => mret (Err e)
  | Ok (t1, t2) => trigger (SysFdUtimesNano fd t1 t2)
  end.

Definition cmdSetAttr (clientMark : Z) (req : CmdSetAttrStruct) : SP unit :=
  with_path clientMark (CmdSetAttr_Path req) (fun apath =>
    let Flag := CmdSetAttr_Flag req in
    let FI := CmdSetAttr_FI req in
    attr_step clientMark (has_flag Flag SETATTR_SIZE)
      (trigger (SysTruncate apath (i64 (FileInfo_Size FI))))
    (attr_step clientMark (has_flag Flag SETATTR_MTIME)
      (SetPathMTime apath (FileInfo_MTime FI))
    (attr_step clientMark (has_flag Flag SETATTR_MODE)
      (trigger (SysChmod apath (syscallMode (FileInfo_Mode FI))))
    (attr_step clientMark (has_flag Flag SETATTR_OWNER)
      (let '(uid, gid) := owner_ids (FileInfo_Owner FI) in trigger (SysChown apath uid gid))
      (writeRspOK clientMark))))).

Definition cmdSetAttrByFD (clientMark : Z) (req : CmdSetAttrByFDStruct) : SP unit :=
  with_fd clientMark (CmdSetAttrByFD_FD req) (fun sfd =>
    let Flag := CmdSetAttrByFD_Flag req in
    let FI := CmdSetAttrByFD_FI req in
    attr_step clientMark (has_flag Flag SETATTR_SIZE)
      (trigger (SysFtruncate sfd (i64 (FileInfo_Size FI))))
    (attr_step clientMark (has_flag Flag SETATTR_MTIME)
      (SetFDMTime sfd (FileInfo_MTime FI))
    (attr_step clientMark (has_flag Flag SETATTR_MODE)
      (trigger (SysFchmod sfd (syscallMode (FileInfo_Mode FI))))
    (attr_step clientMark (has_flag Flag SETATTR_OWNER)
      (let '(uid, gid) := owner_ids (FileInfo_Owner FI) in trigger (SysFchown sfd uid gid))
      (writeRspOK clientMark))))).

(** ** Directories and names *)

Definition cmdMkdir (clientMark : Z) (req : CmdMkdirStruct) : SP unit :=
  with_path clientMark (CmdMkdir_Path req) (fun apath =>
    err ← trigger (SysMkdir apath (syscallMode (CmdMkdir_Mode req)));
    reply clientMark err).

(** [if !IsUrlValid(a) || !IsUrlValid(b) { writeRspError(..); return }]. *)
Definition with_paths (clientMark : Z) (a b : gostring) (k : gostring -> gostring -> SP unit) : SP unit :=
  if negb (IsUrlValid a) || negb (IsUrlValid b)
  then writeRspError clientMark ErrorInvalid (str "bad path")
  else k (storage_Path s ++ a) (storage_Path s ++ b).

Definition cmdSymLink (clientMark : Z) (req : CmdSymLinkStruct) : SP unit :=
  with_paths clientMark (CmdSymLink_TargetPath req) (CmdSymLink_FilePath req) (fun aOldPath aNewPath =>
    err ← trigger (SysSymlink aOldPath aNewPath);
    reply clientMark err).

Definition cmdLink (clientMark : Z) (req : CmdLinkStruct) : SP unit :=
  with_paths clientMark (CmdLink_TargetPath req) (CmdLink_FilePath req) (fun aOldPath aNewPath =>
    if negb (EnableLink (featureOpts s)) then
      writeRspError clientMark ErrorNotSupport (str "syscall error")
    else
      err ← trigger (SysLink aOldPath aNewPath);
      reply clientMark err).

Definition cmdRemove (clientMark : Z) (req : CmdRemoveStruct) : SP unit :=
  with_path clientMark (CmdRemove_Path req) (fun apath =>
    err ← trigger (SysUnlink apath);
    reply clientMark err).

Definition cmdRmDir (clientMark : Z) (req : CmdRmDirStruct) : SP unit :=
  with_path clientMark (CmdRmDir_Path req) (fun apath =>
    err ← trigger (SysRmdir apath);
    reply clientMark err).

(** fsSize-linux.go. *)
Definition FsSize (fspath : gostring) : SP (result errno (Z * Z * Z)) :=
  r ← trigger (SysStatfs fspath);
  mret match (r : result errno (Z * Z * Z * Z)) with
       | Err e => Err e
       | Ok (Blocks, Bfree, Bavail, Frsize) =>
           Ok (u64 (Blocks * Frsize), u64 (Bfree * Frsize), u64 (Bavail * Frsize))
       end.

Definition cmdFsStat (clientMark : Z) (req : CmdFsStatStruct) : SP unit :=
  with_path clientMark (CmdFsStat_Path req) (fun apath =>
    r ← FsSize apath;
    reply_with clientMark r (fun '(total, free, avail) => fields_RspFsStat (mkRspFsStat total free avail))).

Definition O_DIRECTORY_sys : Z := unix_O_DIRECTORY.

(** renameat2-linux.go. *)
Definition Renameat2 (fd1 : Z) (path1 : gostring) (fd2 : Z) (path2 : gostring) (flag : Z)
  : SP (result errno unit) :=
  if negb (Z.land flag (Z.lxor AcceptedWSFSRenameFlags (2 ^ 32 - 1)) =? 0) then mret (Err ENOTSUP)
  else trigger (SysRenameat2 fd1 path1 fd2 path2 (rename_flags flag)).

Definition cmdRename (clientMark : Z) (req : CmdRenameStruct) : SP unit :=
  with_paths clientMark (CmdRename_OldPath req) (CmdRename_NewPath req) (fun aOldPath aNewPath =>
    err ← (if CmdRename_Flag req =? 0 then trigger (SysRename aOldPath aNewPath)
           else
             r1 ← trigger (SysOpen (Dir aOldPath) O_DIRECTORY_sys 0);
             match (r1 : result errno Z) with
             | Err e => mret (Err e)
             | Ok fd1 =>
                 r2 ← trigger (SysOpen (Dir aNewPath) O_DIRECTORY_sys 0);
                 match (r2 : result errno Z) with
                 | Err e => trigger (SysClose fd1) ;; mret (Err e)
                 | Ok fd2 =>
                     err ← Renameat2 fd1 aOldPath fd2 aNewPath (CmdRename_Flag req);
                     trigger (SysClose fd2) ;;
                     trigger (SysClose fd1) ;;
                     mret err
                 end
             end : SP (result errno unit));
    reply clientMark err).

(** ** Locks *)

Definition GetLock (fd : Z) (lk : FileLockInfo) : SP (result errno FileLockInfo) :=
  match lockToSys lk with
  | None => mret (Err EINVAL)
  | Some flock =>
      r ← trigger (SysFcntlFlock fd unix_F_OFD_GETLK flock);
      mret match (r : result errno Flock_t) with
           | Err e => Err e
           | Ok flock' => Ok (lockFromSys flock')
           end
  end.

Definition SetLock (fd : Z) (lk : FileLockInfo) (blocking : bool) : SP (result errno unit) :=
  let cmd := if blocking then unix_F_OFD_SETLKW else unix_F_OFD_SETLK in
  match lockToSys lk with
  | None => mret (Err EINVAL)
  | Some flock =>
      r ← trigger (SysFcntlFlock fd cmd flock);
      mret match (r : result errno Flock_t) with Err e => Err e | Ok _ => Ok tt end
  end.

Definition cmdGetFileLock (clientMark : Z) (req : CmdGetFileLockStruct) : SP unit :=
  with_fd clientMark (CmdGetFileLock_FD req) (fun sfd =>
    r ← GetLock sfd (CmdGetFileLock_FileLock req);
    reply_with clientMark r (fun outLock => fields_RspGetFileLock (mkRspGetFileLock outLock))).

Definition cmdSetFileLockCommon (clientMark fd : Z) (lk : FileLockInfo) (blocking : bool) : SP unit :=
  with_fd clientMark fd (fun sfd =>
    err ← SetLock sfd lk blocking;
    reply clientMark err).

Definition cmdSetFileLock (clientMark : Z) (req : CmdSetFileLockStruct) : SP unit :=
  cmdSetFileLockCommon clientMark (CmdSetFileLock_FD req) (CmdSetFileLock_FileLock req) false.
Definition cmdSetFileLockWait (clientMark : Z) (req : CmdSetFileLockWaitStruct) : SP unit :=
  cmdSetFileLockCommon clientMark (CmdSetFileLockWait_FD req) (CmdSetFileLockWait_FileLock req) true.
End Handlers.
