(* ===== verification/UnixThms.v ===== *)
(** * Paths, flags, locks and times

    Theorems on the conversions the handlers make before they call the system:
    request paths (Paths), the flags of open(2) and locks (UnixConv, ServerCmds)
    and file times. *)
From S2P Require Import Prelude GoIO Codec Structs StructGen Prog Paths UnixConv ServerEnv ServerCmds.

(** Paths stay in the storage. The directory a storage is configured with,
    absolute or not, becomes a root whose components are ordinary names, and a
    request path that IsUrlValid accepts, appended to it, has the components of the
    root followed by ordinary names: never "." or "..", so that it names the root
    or something below it. *)
Theorem request_path_confined (cwd configured p : gostring) :
  is_rooted cwd = true -> IsUrlValid p = true ->
  let root := NewStorage_Path cwd configured in
  is_rooted (root ++ p) = true /\
  Forall ordinary (components root) /\
  exists cs, Forall ordinary cs /\ components (root ++ p) = components root ++ cs.
Proof.
  intros Hc Hv root. pose proof (NewStorage_root_ok cwd configured Hc) as Hr. fold root in Hr.
  destruct (confined_valid root p Hr Hv) as [H1 H2]. split_and!; [done| |done].
  destruct Hr as (cs & Hcs & ->). by rewrite components_abs.
Qed.

Lemma request_path_confined_witness :
  let root := NewStorage_Path (str "/home/u") (str "../data//x/.") in
  exists cs, Forall ordinary cs /\ components (root ++ str "/a//b...") = components root ++ cs.
Proof.
  exact (proj2 (proj2 (request_path_confined (str "/home/u") (str "../data//x/.") (str "/a//b...") eq_refl eq_refl))).
Defined.

(** IsUrlValid decides what it is meant to: it accepts a path exactly when the
    path is absolute and none of its slash-separated parts is "." or "..", wherever
    they stand. *)
Theorem IsUrlValid_exact (p : gostring) :
  IsUrlValid p = true <->
  head p = Some slash /\ (dot ∉ Split p slash) /\ (dotdot ∉ Split p slash).
Proof. apply IsUrlValid_spec. Qed.

(** ** Times *)

(** TimevalParts rounds a time up to the next microsecond. Nanoseconds out of
    range are refused; otherwise the microseconds are in range and the result is
    the least time in microseconds that is not before the given one, except at the
    end of the range of seconds, where it is refused. *)
Theorem TimevalParts_rounds (ts : Timespec) :
  wf_fields (fields_Timespec ts) = true ->
  let ns := Timespec_Seconds ts * 1000000000 + Timespec_Nanoseconds ts in
  match TimevalParts ts with
  | Ok (sec, usec) =>
      0 <= usec < 1000000 /\ in_s 64 sec = true /\
      1000 * (sec * 1000000 + usec - 1) < ns <= 1000 * (sec * 1000000 + usec)
  | Err e =>
      e = EINVAL /\ ~ (0 <= Timespec_Nanoseconds ts < 1000000000) \/
      e = ERANGE /\ Timespec_Seconds ts = 2 ^ 63 - 1 /\ 999999000 < Timespec_Nanoseconds ts < 1000000000
  end.
Proof.
  intros Hwf ns. unfold fields_Timespec in Hwf. codec_wf Hwf. destruct ts as [sec nsec]. simpl in *.
  unfold TimevalParts, ValidNsec. cbn [Timespec_Seconds Timespec_Nanoseconds]. subst ns.
  rewrite in_s_spec in *.
  destruct (Z.geb_spec nsec 0), (Z.ltb_spec nsec 1000000000); cbn [andb negb]; try (left; split; [done|lia]).
  rewrite i64_id by lia. rewrite Z.quot_div_nonneg by lia.
  pose proof (Z.div_mod (nsec + 999) 1000 ltac:(lia)). pose proof (Z.mod_pos_bound (nsec + 999) 1000 ltac:(lia)).
  cbv zeta. destruct (Z.geb_spec ((nsec + 999) / 1000) 1000000).
  - destruct (Z.eqb_spec sec (2 ^ 63 - 1)) as [->|Hn]; [right; split_and!; [done|done|lia|lia]|].
    assert (i64 (sec + 1) = sec + 1) as -> by (apply wraps_id; [lia|rewrite in_s_spec; lia]).
    rewrite in_s_spec. lia.
  - rewrite in_s_spec. lia.
Qed.

Lemma TimevalParts_rounds_witness :
  TimevalParts (mkTimespec 7 999999001) = Ok (8, 0) /\ 1000 * (8 * 1000000 + 0 - 1) < 7999999001.
Proof.
  split; [reflexivity|].
  exact (proj1 (proj2 (proj2 (TimevalParts_rounds (mkTimespec 7 999999001) eq_refl)))).
Defined.

(** ** Flags of open(2) *)

(** Testing and keeping a single bit. *)
Lemma has_flag_bit x k : 0 <= k -> (if has_flag x (2 ^ k) then 2 ^ k else 0) = Z.land x (2 ^ k).
Proof.
  intros Hk. unfold has_flag.
  assert (Z.land x (2 ^ k) = if Z.testbit x k then 2 ^ k else 0) as ->.
  { apply Z.bits_inj'. intros n Hn. rewrite Z.land_spec, Z.pow2_bits_eqb by done.
    destruct (Z.eqb_spec k n) as [->|Hne].
    - rewrite andb_true_r. destruct (Z.testbit x n) eqn:E; [by rewrite Z.pow2_bits_true|by rewrite Z.bits_0].
    - rewrite andb_false_r. destruct (Z.testbit x k); [by rewrite Z.pow2_bits_false|by rewrite Z.bits_0]. }
  destruct (Z.testbit x k); [|done]. destruct (Z.eqb_spec (2 ^ k) 0); [|done].
  pose proof (Z.pow_pos_nonneg 2 k). lia.
Qed.

(** One step of the loop over the flags. *)
Lemma open_flag_loop_skip {abi : UnixABI} x f fs a :
  has_flag f O_ACCMODE = true -> open_flag_loop x (f :: fs) a = open_flag_loop x fs a.
Proof. intros H. simpl. by rewrite H. Qed.

Lemma open_flag_loop_step {abi : UnixABI} x f v fs a :
  has_flag f O_ACCMODE = false -> mlookup f OpenFlagToUnix = Some v ->
  open_flag_loop x (f :: fs) a = open_flag_loop x fs (Z.lor a (if has_flag x f then v else 0)).
Proof.
  intros H Hv. cbn [open_flag_loop]. rewrite H, Hv. destruct (has_flag x f); [done|by rewrite Z.lor_0_r].
Qed.

Lemma lor_swap p q r : Z.lor (Z.lor p q) r = Z.lor (Z.lor p r) q.
Proof. by rewrite <-!Z.lor_assoc, (Z.lor_comm q). Qed.

(** The flags with a bit of their own. *)
Definition plain_flags : Z := 0x756c0.

(** All flags but O_SYNC pass through; O_SYNC comes with any of its bits. *)
Lemma open_flag_loop_linux x a :
  open_flag_loop (abi := linux_amd64) x OpenFlags a =
    Some (Z.lor (Z.lor a (Z.land x plain_flags)) (if has_flag x O_SYNC then O_SYNC else 0)).
Proof.
  unfold OpenFlags. rewrite (open_flag_loop_step x O_RDONLY 0) by done.
  rewrite !open_flag_loop_skip by done.
  rewrite (open_flag_loop_step x O_TRUNC (2 ^ 9)), (open_flag_loop_step x O_EXCL (2 ^ 7)),
    (open_flag_loop_step x O_CREAT (2 ^ 6)), (open_flag_loop_step x O_DIRECTORY (2 ^ 16)),
    (open_flag_loop_step x O_APPEND (2 ^ 10)), (open_flag_loop_step x O_SYNC O_SYNC),
    (open_flag_loop_step x O_DSYNC (2 ^ 12)), (open_flag_loop_step x O_NOFOLLOW (2 ^ 17)),
    (open_flag_loop_step x O_NOATIME (2 ^ 18)), (open_flag_loop_step x O_DIRECT (2 ^ 14)) by done.
  cbn [open_flag_loop]. f_equal. rewrite !(lor_swap _ (if has_flag x O_SYNC then O_SYNC else 0)). f_equal.
  change O_TRUNC with (2 ^ 9). change O_EXCL with (2 ^ 7). change O_CREAT with (2 ^ 6).
  change O_DIRECTORY with (2 ^ 16). change O_APPEND with (2 ^ 10). change O_DSYNC with (2 ^ 12).
  change O_NOFOLLOW with (2 ^ 17). change O_NOATIME with (2 ^ 18). change O_DIRECT with (2 ^ 14).
  rewrite !has_flag_bit by lia.
  assert ((if has_flag x O_RDONLY then 0 else 0) = 0) as -> by (by destruct (has_flag x O_RDONLY)).
  rewrite Z.lor_0_r, <-!Z.lor_assoc, <-!Z.land_lor_distr_r. done.
Qed.

(** The flags a client asks for are the flags the file is opened with on Linux
    (amd64), bit by bit, with one exception: a request for O_DSYNC opens the file
    with O_SYNC, because the loop tests each flag for any of its bits and O_SYNC
    contains the bit of O_DSYNC. The access mode 3 is refused and bits that are no
    flags of the protocol are dropped. *)
Theorem open_flags_translated (x : Z) :
  match open_access (abi := linux_amd64) x with
  | None => Z.land x O_ACCMODE = 3
  | Some access =>
      open_flag_loop (abi := linux_amd64) x OpenFlags access =
        Some (Z.lor (Z.land x (Z.lor O_ACCMODE plain_flags))
                (if has_flag x O_DSYNC || has_flag x O_SYNC then O_SYNC else 0))
  end.
Proof.
  assert (has_flag x O_DSYNC || has_flag x O_SYNC = has_flag x O_SYNC) as ->.
  { destruct (has_flag x O_DSYNC) eqn:E; [|done]. simpl. unfold has_flag in *.
    destruct (Z.eqb_spec (Z.land x O_SYNC) 0) as [E2|]; [|done]. exfalso.
    assert (Z.land x O_DSYNC = Z.land (Z.land x O_SYNC) O_DSYNC) as E3 by (by rewrite <-Z.land_assoc).
    rewrite E2 in E3. rewrite E3 in E. done. }
  assert (0 <= Z.land x O_ACCMODE < 4) as Hacc.
  { change O_ACCMODE with (Z.ones 2). rewrite Z.land_ones by lia. apply Z.mod_pos_bound. lia. }
  rewrite Z.land_lor_distr_r. unfold open_access. change O_RDONLY with 0. change O_WRONLY with 1. change O_RDWR with 2.
  destruct (Z.eqb_spec (Z.land x O_ACCMODE) 0) as [E|]; [rewrite open_flag_loop_linux, E; done|].
  destruct (Z.eqb_spec (Z.land x O_ACCMODE) 1) as [E|]; [rewrite open_flag_loop_linux, E; done|].
  destruct (Z.eqb_spec (Z.land x O_ACCMODE) 2) as [E|]; [rewrite open_flag_loop_linux, E; done|].
  lia.
Qed.

(** ** Locks *)

(** The numbers of the platform tell the lock types and whence values apart and
    fit their fields. *)
Definition abi_distinct (abi : UnixABI) : Prop :=
  NoDup (LockTypeToUnix (abi := abi)).*2 /\ NoDup (WhenceToUnix (abi := abi)).*2 /\
  Forall (fun v => in_s 16 v = true) (WhenceToUnix (abi := abi)).*2.

(** A lock survives the way to the system and back: a lock of a known type,
    with a known whence and any 64-bit start and size, comes back as it was, except
    that an unlock request loses its range; an unknown type is refused. *)
Theorem lock_roundtrip (abi : UnixABI) (lk : FileLockInfo) :
  abi_distinct abi -> wf_fields (fields_FileLockInfo lk) = true ->
  mlookup (FileLockInfo_Whence lk) WhenceToUnix <> None ->
  match lockToSys lk with
  | None => FileLockInfo_Type lk <> FILELOCK_UNLOCK /\ FileLockInfo_Type lk <> FILELOCK_READLOCK /\
            FileLockInfo_Type lk <> FILELOCK_WRITELOCK
  | Some flock =>
      lockFromSys flock =
        if FileLockInfo_Type lk =? FILELOCK_UNLOCK then mkFileLockInfo FILELOCK_UNLOCK 0 0 0 else lk
  end.
Proof.
  intros (Ht & Hw & Hw16) Hwf Hwh. destruct lk as [ty wh st sz]. unfold fields_FileLockInfo in Hwf. codec_wf Hwf.
  cbn [FileLockInfo_Type FileLockInfo_Whence FileLockInfo_Start FileLockInfo_Size] in *.
  unfold lockToSys. cbn [FileLockInfo_Type FileLockInfo_Whence FileLockInfo_Start FileLockInfo_Size].
  destruct (mlookup ty LockTypeToUnix) as [t|] eqn:Et.
  2:{ unfold LockTypeToUnix in Et. simpl in Et. by repeat case_match; split_and!; intros ->. }
  assert (mget t LockTypeFromUnix = ty) as Hinv.
  { unfold mget, LockTypeFromUnix. erewrite (invert_spec _ ty t); [done|done| |done].
    by apply (bool_decide_unpack _). }
  destruct (Z.eqb_spec ty FILELOCK_UNLOCK) as [->|Hn]; unfold lockFromSys; cbn [Flock_Type]; rewrite Hinv; [done|].
  rewrite (proj2 (Z.eqb_neq ty FILELOCK_UNLOCK)) by done. cbn [Flock_Whence Flock_Start Flock_Len].
  destruct (mlookup wh WhenceToUnix) as [w|] eqn:Ew; [|done].
  assert (mget wh WhenceToUnix = w) as -> by (unfold mget; by rewrite Ew).
  assert (i16 w = w) as ->.
  { apply wraps_id; [lia|]. by apply (mlookup_Forall (fun v => in_s 16 v = true) wh WhenceToUnix). }
  assert (mget w WhenceFromUnix = wh) as ->.
  { unfold mget, WhenceFromUnix. erewrite (invert_spec _ wh w); [done|done| |done].
    by apply (bool_decide_unpack _). }
  f_equal; unfold u64, i64; rewrite wrapu_wraps by lia; by apply wrapu_id.
Qed.

Lemma lock_roundtrip_witness :
  abi_distinct linux_amd64 /\
  option_map (lockFromSys (abi := linux_amd64)) (lockToSys (abi := linux_amd64) (mkFileLockInfo 1 2 (2 ^ 64 - 5) 10))
    = Some (mkFileLockInfo 1 2 (2 ^ 64 - 5) 10).
Proof.
  assert (abi_distinct linux_amd64) as H.
  { split_and!; [by apply (bool_decide_unpack _)..|]. by repeat apply Forall_cons_2. }
  split; [exact H|].
  pose proof (lock_roundtrip linux_amd64 (mkFileLockInfo 1 2 (2 ^ 64 - 5) 10) H eq_refl ltac:(discriminate)) as E.
  destruct (lockToSys (abi := linux_amd64) (mkFileLockInfo 1 2 (2 ^ 64 - 5) 10)) as [f|];
    [exact (f_equal Some E)|destruct E as (_ & E & _); by destruct E].
Defined.

