(* ===== verification/ServerXattr.v ===== *)
(** * Extended attributes (commands.go, xattr/supported.go, xattr/linux.go)

    The four xattr commands with their path, key and prefix checks, the helpers
    of package xattr that grow the buffer of getxattr(2) and listxattr(2), the
    filter of the list of names and the split of long values into messages. *)
From S2P Require Import Prelude GoIO Codec Structs Prog Paths UnixConv ServerEnv ServerCmds.

Definition maxXAttrResponsePayload : Z := MaxResponseLength - 2.
Definition bufGrowTry : nat := 3.
Definition bufInitSize : Z := 256.

(** strings.HasPrefix with one of the allowed prefixes. *)
Fixpoint has_allowed_prefix (key : gostring) (prefixes : list gostring) : bool :=
  match prefixes with
  | [] => false
  | prefix :: prefixes' => if HasPrefix key prefix then true else has_allowed_prefix key prefixes'
  end.

Inductive xattr_list_error := errInvalidXAttrList.

(** The loop of filterXAttrList: every iteration consumes at least one byte, so
    the length of the data is fuel enough. *)
Fixpoint filterXAttrList_loop (fuel : nat) (prefixes : list gostring) (data filtered : bytes)
  : result xattr_list_error bytes :=
  match data with
  | [] => Ok filtered
  | _ =>
      match fuel with
      | O => Err errInvalidXAttrList
      | S fuel' =>
          match IndexByte data x00 with
          | None | Some O => Err errInvalidXAttrList
          | Some e =>
              let key := take e data in
              let filtered := if has_allowed_prefix key prefixes
                              then filtered ++ take (S e) data else filtered in
              filterXAttrList_loop fuel' prefixes (drop (S e) data) filtered
          end
      end
  end.

Definition filterXAttrList_ (prefixes : list gostring) (data : bytes) : result xattr_list_error bytes :=
  if len data =? 0 then Ok data
  else if negb (bool_decide (last data = Some x00)) then Err errInvalidXAttrList
  else filterXAttrList_loop (length data) prefixes data [].

(** handler.go: empty prefixes are dropped when the handler is made. *)
Definition normalizeXAttrPrefixes (prefixes : list gostring) : list gostring :=
  filter (fun prefix => prefix <> []) prefixes.

Section Xattr.
Context {abi : UnixABI} (s : session).

(** ** Package xattr *)

(** The buffer-growing loop of Get and List; [get n] is the system call with
    a buffer of [n] bytes. *)
Fixpoint xattr_grow (tries : nat) (get : Z -> SP (result errno (Z * bytes))) (buf : Z)
  : SP (result errno bytes) :=
  match tries with
  | O => mret (Err EIO)
  | S tries' =>
      r ← get buf;
      match r with
      | Ok (size, data) => mret (Ok (take (Z.to_nat size) data))
      | Err e =>
          if negb (e =? ERANGE) then mret (Err e)
          else
            r ← get 0;
            match r with
            | Err e => mret (Err e)
            | Ok (size, _) =>
                if size <? 0 then mret (Err EIO)
                else if size =? 0 then mret (Ok [])
                else xattr_grow tries' get size
            end
      end
  end.

Definition bad_mode (mode : Z) : bool :=
  negb (Z.land mode (Z.lxor XATTR_NOFOLLOW (2 ^ 32 - 1)) =? 0).
Definition nofollow (mode : Z) : bool := has_flag mode XATTR_NOFOLLOW.

Definition xattr_Get (path key : gostring) (mode : Z) : SP (result errno bytes) :=
  if bad_mode mode then mret (Err EINVAL)
  else xattr_grow bufGrowTry (fun n => trigger (SysGetxattr (nofollow mode) path key n)) bufInitSize.

Definition xattr_List (path : gostring) (mode : Z) : SP (result errno bytes) :=
  if bad_mode mode then mret (Err EINVAL)
  else xattr_grow bufGrowTry (fun n => trigger (SysListxattr (nofollow mode) path n)) bufInitSize.

Definition xattr_set (path key : gostring) (value : bytes) (flags : Z) (nofollow : bool)
  : SP (result errno unit) :=
  trigger (SysSetxattr nofollow path key value flags).

Definition xattr_Set (path key : gostring) (value : bytes) (mode : Z) : SP (result errno unit) :=
  let m := Z.land mode (Z.lxor XATTR_NOFOLLOW (2 ^ 32 - 1)) in
  if m =? SETXATTR_NORMAL then xattr_set path key value 0 (nofollow mode)
  else if m =? SETXATTR_APPEND then
    r ← xattr_Get path key (Z.land mode XATTR_NOFOLLOW);
    match r with
    | Err e => mret (Err e)
    | Ok oldValue => xattr_set path key (oldValue ++ value) 0 (nofollow mode)
    end
  else if m =? SETXATTR_CREATE then xattr_set path key value unix_XATTR_CREATE (nofollow mode)
  else if m =? SETXATTR_REPLACE then xattr_set path key value unix_XATTR_REPLACE (nofollow mode)
  else mret (Err EINVAL).

Definition xattr_Remove (path key : gostring) (mode : Z) : SP (result errno unit) :=
  if bad_mode mode then mret (Err EINVAL)
  else trigger (SysRemovexattr (nofollow mode) path key).

(** ** Handlers *)

Definition isXAttrKeyAllowed (key : gostring) : bool :=
  has_allowed_prefix key (AllowedXAttrPrefix (featureOpts s)).

Definition filterXAttrList (data : bytes) : result xattr_list_error bytes :=
  filterXAttrList_ (AllowedXAttrPrefix (featureOpts s)) data.

(** The loop [for len(data) > maxXAttrResponsePayload]; each iteration sends
    that many bytes. *)
Fixpoint writeXAttrData_loop (n : nat) (clientMark : Z) (data : bytes) (buf : Buffer)
  : SP (bytes * Buffer) :=
  match n with
  | O => mret (data, buf)
  | S n' =>
      if len data >? maxXAttrResponsePayload then
        let buf := (Buffer_Write (le_bytes 1 clientMark ++ le_bytes 1 ErrorPartialResponse) buf).2 in
        let buf := (Buffer_Write (take (Z.to_nat maxXAttrResponsePayload) data) buf).2 in
        let '(d, buf) := Buffer_Done buf in
        s_write d ;;
        writeXAttrData_loop n' clientMark (drop (Z.to_nat maxXAttrResponsePayload) data) buf
      else mret (data, buf)
  end.

Definition writeXAttrData (clientMark : Z) (data : bytes) : SP unit :=
  if len data =? 0 then writeRspOK clientMark
  else
    buf ← trigger BufGet;
    r ← writeXAttrData_loop (length data) clientMark data buf;
    let '(data, buf) := (r : bytes * Buffer) in
    let buf := (Buffer_Write (le_bytes 1 clientMark ++ le_bytes 1 ErrorOK) buf).2 in
    let buf := (Buffer_Write data buf).2 in
    s_write (Buffer_Done buf).1 ;;
    trigger BufPut.

(** [if req.Key == "" || strings.IndexByte(req.Key, 0) >= 0 { .. }] and the
    check of the prefix. *)
Definition with_key (clientMark : Z) (key : gostring) (k : SP unit) : SP unit :=
  if bool_decide (key = []) || bool_decide (IndexByte key x00 <> None) then
    writeRspError clientMark ErrorInvalid (str "bad xattr key")
  else if negb (isXAttrKeyAllowed key) then
    writeRspError clientMark ErrorStateBlocked (str "xattr key is not allowed")
  else k.

Definition xattr_error (clientMark : Z) (e : errno) : SP unit :=
  writeRspError clientMark (xattrErrorCode e) (str "xattr syscall error").

Definition cmdSetXAttr (clientMark : Z) (req : CmdSetXAttrStruct) : SP unit :=
  with_path s clientMark (CmdSetXAttr_Path req) (fun path =>
    with_key clientMark (CmdSetXAttr_Key req) (
      r ← xattr_Set path (CmdSetXAttr_Key req) (CmdSetXAttr_Value req) (CmdSetXAttr_Flag req);
      match (r : result errno unit) with
      | Err e => xattr_error clientMark e
      | Ok _ => writeRspOK clientMark
      end)).

Definition cmdGetXAttr (clientMark : Z) (req : CmdGetXAttrStruct) : SP unit :=
  with_path s clientMark (CmdGetXAttr_Path req) (fun path =>
    with_key clientMark (CmdGetXAttr_Key req) (
      r ← xattr_Get path (CmdGetXAttr_Key req) (CmdGetXAttr_Mode req);
      match (r : result errno bytes) with
      | Err e => xattr_error clientMark e
      | Ok data => writeXAttrData clientMark data
      end)).

Definition cmdListXAttr (clientMark : Z) (req : CmdListXAttrStruct) : SP unit :=
  with_path s clientMark (CmdListXAttr_Path req) (fun path =>
    r ← xattr_List path (CmdListXAttr_Mode req);
    match (r : result errno bytes) with
    | Err e => xattr_error clientMark e
    | Ok data =>
        match filterXAttrList data with
        | Err _ => writeRspError clientMark ErrorIO (str "bad xattr list")
        | Ok data => writeXAttrData clientMark data
        end
    end).

Definition cmdRemoveXAttr (clientMark : Z) (req : CmdRemoveXAttrStruct) : SP unit :=
  with_path s clientMark (CmdRemoveXAttr_Path req) (fun path =>
    with_key clientMark (CmdRemoveXAttr_Key req) (
      r ← xattr_Remove path (CmdRemoveXAttr_Key req) (CmdRemoveXAttr_Mode req);
      match (r : result errno unit) with
      | Err e => xattr_error clientMark e
      | Ok _ => writeRspOK clientMark
      end)).
End Xattr.
