(* ===== verification/ServerReadDir.v ===== *)
(** * Attributes and directories (commands.go)

    timeval.Stat, the lookup of directory entries with the restriction of
    symbolic links to the storage, cmdGetAttr, cmdReadDir and cmdReadDirPlus
    with its prefetch of child directories. [fuel] bounds the loops that read a
    directory to its end. *)
From S2P Require Import Prelude GoIO Codec Structs StructGen Prog Paths UnixConv ServerEnv ServerCmds.

(** ** Package timeval *)

Definition MTimeFromFileInfo (fi : fileinfo) : Timespec := fi_ModTime fi.

Definition StatFallback (path : gostring) (followSymlink : bool) : SP (result errno fileinfo) :=
  if followSymlink then trigger (OsStat path) else trigger (OsLstat path).

Definition timeval_Stat (path : gostring) (followSymlink : bool) : SP (result errno (fileinfo * Timespec)) :=
  r ← StatFallback path followSymlink;
  mret match r with
       | Err e => Err e
       | Ok fi => Ok (fi, MTimeFromFileInfo fi)
       end.

(** ** Entries *)

Definition makeWSFSFileInfo (fi : fileinfo) (mtime : Timespec) (owner : Z) : FileInfo :=
  mkFileInfo (u64 (fi_Size fi)) mtime (u32 (fi_Mode fi)) owner.

(** The entry sent when an entry cannot be examined. *)
Definition irregular_dirent (name : gostring) : Dirent :=
  mkDirent name 0 (mkTimespec 0 0) (u32 ModeIrregular) OWNER_NN.

Definition rsp_header (clientMark ec : Z) : bytes := le_bytes 1 clientMark ++ le_bytes 1 ec.

(** A write whose result is ignored. *)
Definition buf_write (d : bytes) (b : Buffer) : Buffer := (Buffer_Write d b).2.
Definition buf_write_dirent (d : Dirent) (b : Buffer) : Buffer := (WriteDirentToWriter d b).2.
(** [rsp.Bytes[1] = ec]. *)
Definition buf_set_code (ec : Z) (b : Buffer) : Buffer :=
  mkBuffer (splice 1 (le_bytes 1 ec) (Bytes b)) (written b).

Definition maxRootEntriesForPrefetch : Z := 500.
Definition maxPrefetchDirEntries : Z := 1000.
Definition maxPrefetchDirs : Z := 32.

Record prefetchDirState := mkPrefetch {
  pf_absPath : gostring; pf_file : Z; pf_pending : list direntry; pf_count : Z;
}.

Section ReadDir.
Context {abi : UnixABI} (fuel : nat) (s : session).

Definition restrictingSymlinkByFileInfo (base : gostring) (fi : fileinfo)
  : SP (result errno (fileinfo * Timespec)) :=
  r ← trigger (OsReadlink (base ++ fi_Name fi));
  match (r : result errno gostring) with
  | Err e => mret (Err e)
  | Ok [] => Panic (* target[0] *)
  | Ok ((c :: _) as target) =>
      let target := if bool_decide (c = slash) then target else Clean (base ++ target) in
      if HasPrefix target (storage_Path s) then mret (Ok (fi, MTimeFromFileInfo fi))
      else timeval_Stat (base ++ fi_Name fi) true
  end.

Definition lookupDirent (dirBase : gostring) (dirent : direntry) : SP (result errno Dirent) :=
  r ← timeval_Stat (dirBase ++ de_Name dirent) false;
  match r with
  | Err e => mret (Err e)
  | Ok (fi, mtime) =>
      r ← (if has_flag (fi_Mode fi) ModeSymlink
           then restrictingSymlinkByFileInfo dirBase fi
           else mret (Ok (fi, mtime)));
      mret match (r : result errno (fileinfo * Timespec)) with
           | Err e => Err e
           | Ok (fi, mtime) =>
               Ok (mkDirent (de_Name dirent) (u64 (fi_Size fi)) mtime (u32 (fi_Mode fi)) (convOwner s fi))
           end
  end.

Definition lookupDirentSafe (dirBase : gostring) (entry : direntry) : SP Dirent :=
  r ← lookupDirent dirBase entry;
  mret match (r : result errno Dirent) with
       | Err _ => irregular_dirent (de_Name entry)
       | Ok d => d
       end.

Definition getAttr (apath : gostring) : SP (result errno (fileinfo * Timespec)) :=
  r ← timeval_Stat apath false;
  match r with
  | Err e => mret (Err e)
  | Ok (fi, mtime) =>
      if negb (has_flag (fi_Mode fi) ModeSymlink) then mret (Ok (fi, mtime))
      else restrictingSymlinkByFileInfo (Dir apath ++ str "/") fi
  end.

Definition cmdGetAttr (clientMark : Z) (req : CmdGetAttrStruct) : SP unit :=
  with_path s clientMark (CmdGetAttr_Path req) (fun apath =>
    r ← getAttr apath;
    match r with
    | Err e => writeRspError clientMark (osErrCode e) (str "syscall error")
    | Ok (fi, mtime) =>
        writeRsp clientMark (fields_RspGetAttr (mkRspGetAttr (makeWSFSFileInfo fi mtime (convOwner s fi))))
    end).

(** ** cmdReadDir *)

(** [if rsp.Written()+requiredSize > MaxMsgSize { .. }]. *)
Definition make_room (rsp : Buffer) (clientMark requiredSize : Z) : SP Buffer :=
  if Buffer_Written rsp + requiredSize >? MaxMsgSize then
    let '(d, rsp) := Buffer_Done rsp in
    s_write d ;;
    mret (buf_write (rsp_header clientMark ErrorPartialResponse) rsp)
  else mret rsp.

(** [for _, dirent := range dirents { .. }]. *)
Fixpoint readdir_entries (clientMark : Z) (dirBase : gostring) (dirents : list direntry) (rsp : Buffer)
  : SP Buffer :=
  match dirents with
  | [] => mret rsp
  | dirent :: dirents' =>
      r ← lookupDirent dirBase dirent;
      let wdirent := match (r : result errno Dirent) with
                     | Err _ => irregular_dirent (de_Name dirent)
                     | Ok d => d
                     end in
      rsp ← make_room rsp clientMark (GetDirentRequiredSize wdirent);
      readdir_entries clientMark dirBase dirents' (buf_write_dirent wdirent rsp)
  end.

(** One iteration of the [for] loop of cmdReadDir. *)
Definition readdir_step (clientMark f : Z) (dirBase : gostring) (rsp : Buffer) : SP (Buffer + unit) :=
  r ← trigger (OsReadDir f 16);
  let '(dirents, readdirerr) := (r : readdir_result) in
  match readdirerr with
  | Some (DirErr e) =>
      writeRspError clientMark (osErrCode e) (str "read dir failed") ;; mret (inr tt)
  | _ =>
      rsp ← readdir_entries clientMark dirBase dirents rsp;
      if (len dirents =? 0) || (if readdirerr is Some _ then true else false) then
        s_write (Buffer_Done (buf_set_code ErrorOK rsp)).1 ;; mret (inr tt)
      else mret (inl rsp)
  end.

Definition cmdReadDir (clientMark : Z) (req : CmdReadDirStruct) : SP unit :=
  with_path s clientMark (CmdReadDir_Path req) (fun apath =>
    let dirBase := ensureDirBase apath in
    r ← trigger (OsOpen apath);
    match (r : result errno Z) with
    | Err e => writeRspError clientMark (osErrCode e) (str "open dir failed")
    | Ok f =>
        rsp ← trigger BufGet;
        let rsp := buf_write (rsp_header clientMark ErrorPartialResponse) rsp in
        loop fuel (readdir_step clientMark f dirBase) rsp ;;
        trigger BufPut ;;
        trigger (OsClose f) ;;
        mret tt
    end).

(** ** cmdReadDirPlus *)

Definition writeDirentChunk (rsp : Buffer) (clientMark : Z) (wdirent : Dirent) : SP Buffer :=
  rsp ← make_room rsp clientMark (1 + GetDirentRequiredSize wdirent);
  let rsp := buf_write (le_bytes 1 READDIRPLUS_INDICATOR_CONTINUE) rsp in
  mret (buf_write_dirent wdirent rsp).

Definition writePrefetchIndicator (rsp : Buffer) (clientMark indicator : Z) : SP Buffer :=
  rsp ← make_room rsp clientMark 1;
  mret (buf_write (le_bytes 1 indicator) rsp).

Fixpoint writeDirentChunks (rsp : Buffer) (clientMark : Z) (dirBase : gostring)
    (entries : list direntry) : SP Buffer :=
  match entries with
  | [] => mret rsp
  | entry :: entries' =>
      wdirent ← lookupDirentSafe dirBase entry;
      rsp ← writeDirentChunk rsp clientMark wdirent;
      writeDirentChunks rsp clientMark dirBase entries'
  end.

Definition preparePrefetchDir (dirBase : gostring) (entry : direntry)
  : SP (result errno prefetchDirState) :=
  let childAbsPath := dirBase ++ de_Name entry ++ str "/" in
  r ← trigger (OsOpen childAbsPath);
  match (r : result errno Z) with
  | Err e => mret (Err e)
  | Ok cf =>
      r ← trigger (OsReadDir cf 16);
      let '(entries, readErr) := (r : readdir_result) in
      match readErr with
      | Some (DirErr e) => trigger (OsClose cf) ;; mret (Err e)
      | _ => mret (Ok (mkPrefetch childAbsPath cf entries 0))
      end
  end.

(** The entries from [start] on are [rest]; [start] advances with it. *)
Fixpoint nextPrefetchDir (dirBase : gostring) (rest : list direntry) (used : Z)
  : SP (result errno (option prefetchDirState) * list direntry * Z) :=
  match rest with
  | [] => mret (Ok None, [], used)
  | entry :: rest' =>
      if used >=? maxPrefetchDirs then mret (Ok None, rest, used)
      else if negb (de_IsDir entry) then nextPrefetchDir dirBase rest' used
      else
        r ← preparePrefetchDir dirBase entry;
        mret (match (r : result errno prefetchDirState) with
              | Err e => Err e
              | Ok state => Ok (Some state)
              end, rest', used + 1)
  end.

(** [for _, entry := range state.pending]: [None] when the limit is passed. *)
Fixpoint stream_pending (rsp : Buffer) (clientMark : Z) (absPath : gostring)
    (pending : list direntry) (count : Z) : SP (Buffer * option Z) :=
  match pending with
  | [] => mret (rsp, Some count)
  | entry :: pending' =>
      let count := count + 1 in
      if count >? maxPrefetchDirEntries then mret (rsp, None)
      else
        wdirent ← lookupDirentSafe absPath entry;
        rsp ← writeDirentChunk rsp clientMark wdirent;
        stream_pending rsp clientMark absPath pending' count
  end.

(** The result is the buffer and [failed]. *)
Definition streamPrefetchDir (rsp : Buffer) (clientMark : Z) (state : prefetchDirState)
  : SP (Buffer * bool) :=
  res ← loop fuel (fun '(rsp, pending, count) =>
    r ← stream_pending rsp clientMark (pf_absPath state) pending count;
    match (r : Buffer * option Z) with
    | (rsp, None) => mret (inr (rsp, true))
    | (rsp, Some count) =>
        r ← trigger (OsReadDir (pf_file state) 16);
        let '(entries, err) := (r : readdir_result) in
        match err with
        | Some DirEOF => mret (inr (rsp, false))
        | Some (DirErr _) => mret (inr (rsp, true))
        | None => mret (inl (rsp, entries, count))
        end
    end) (rsp, pf_pending state, pf_count state);
  trigger (OsClose (pf_file state)) ;;
  mret res.

(** One section of the prefetch: the inner [for] loop of cmdReadDirPlus. The
    result is [None] when the handler returned, else the entries left and the
    number of directories used. *)
Definition prefetch_section (clientMark : Z) (dirBase : gostring) (rsp : Buffer)
    (state : prefetchDirState) (rest : list direntry) (used : Z)
  : SP (option (list direntry * Z)) :=
  loop fuel (fun '(rsp, state, rest, used) =>
    r ← streamPrefetchDir rsp clientMark state;
    let '(rsp, failed) := (r : Buffer * bool) in
    if negb failed then
      s_write (Buffer_Done rsp).1 ;;
      trigger BufPut ;;
      mret (inr (Some (rest, used)))
    else
      r ← nextPrefetchDir dirBase rest used;
      let '(next, rest, used) := (r : result errno (option prefetchDirState) * list direntry * Z) in
      match next with
      | Ok (Some nextState) =>
          rsp ← writePrefetchIndicator rsp clientMark READDIRPLUS_INDICATOR_PREFETCH_SKIP;
          mret (inl (rsp, nextState, rest, used))
      | _ =>
          trigger BufPut ;;
          writeRspError clientMark ErrorIO (str "read prefetch dir failed") ;;
          mret (inr None)
      end) (rsp, state, rest, used).

(** [for idx < len(first) && prefetchCount < maxPrefetchDirs]. *)
Definition prefetch_dirs (clientMark : Z) (dirBase : gostring) (first : list direntry) : SP unit :=
  loop fuel (fun '(rest, used) =>
    if negb (len rest =? 0) && (used <? maxPrefetchDirs) then
      r ← nextPrefetchDir dirBase rest used;
      let '(next, rest, used) := (r : result errno (option prefetchDirState) * list direntry * Z) in
      match next with
      | Err _ =>
          writeRspError clientMark ErrorIO (str "read prefetch dir failed") ;; mret (inr tt)
      | Ok None => mret (inl (rest, used))
      | Ok (Some state) =>
          rsp ← trigger BufGet;
          let rsp := buf_write (rsp_header clientMark ErrorPartialResponse) rsp in
          rsp ← writePrefetchIndicator rsp clientMark READDIRPLUS_INDICATOR_PREFETCH;
          r ← prefetch_section clientMark dirBase rsp state rest used;
          match (r : option (list direntry * Z)) with
          | None => mret (inr tt)
          | Some (rest, used) => mret (inl (rest, used))
          end
      end
    else writeRspOK clientMark ;; mret (inr tt)) (first, 0).

(** The remaining root entries: the buffer, or [None] after an error. *)
Definition readdirplus_more (clientMark f : Z) (dirBase : gostring) (rsp : Buffer) : SP (option Buffer) :=
  loop fuel (fun rsp =>
    r ← trigger (OsReadDir f 16);
    let '(more, err) := (r : readdir_result) in
    rsp ← writeDirentChunks rsp clientMark dirBase more;
    match err with
    | Some (DirErr e) =>
        trigger BufPut ;;
        writeRspError clientMark (osErrCode e) (str "read dir failed") ;;
        mret (inr None)
    | Some DirEOF => mret (inr (Some rsp))
    | None => if len more =? 0 then mret (inr (Some rsp)) else mret (inl rsp)
    end) rsp.

Definition cmdReadDirPlus (clientMark : Z) (req : CmdReadDirPlusStruct) : SP unit :=
  with_path s clientMark (CmdReadDirPlus_Path req) (fun apath =>
    let dirBase := ensureDirBase apath in
    r ← trigger (OsOpen apath);
    match (r : result errno Z) with
    | Err e => writeRspError clientMark (osErrCode e) (str "open dir failed")
    | Ok f =>
        r ← trigger (OsReadDir f (maxRootEntriesForPrefetch + 1));
        let '(first, err) := (r : readdir_result) in
        match err with
        | Some (DirErr e) => writeRspError clientMark (osErrCode e) (str "read dir failed")
        | _ =>
            let disablePrefetch := len first >? maxRootEntriesForPrefetch in
            rsp ← trigger BufGet;
            let rsp := buf_write (rsp_header clientMark ErrorPartialResponse) rsp in
            rsp ← writeDirentChunks rsp clientMark dirBase first;
            r ← readdirplus_more clientMark f dirBase rsp;
            match (r : option Buffer) with
            | None => mret tt
            | Some rsp =>
                if disablePrefetch then
                  s_write (Buffer_Done (buf_set_code ErrorOK rsp)).1 ;;
                  trigger BufPut
                else
                  s_write (Buffer_Done rsp).1 ;;
                  trigger BufPut ;;
                  prefetch_dirs clientMark dirBase first
            end
        end ;;
        trigger (OsClose f) ;;
        mret tt
    end).
End ReadDir.
