(* ===== verification/ServerStream.v ===== *)
(** * Write streams (session.go, commands.go, commands-unix.go)

    A write stream is a goroutine that receives chunks through a channel and
    writes them at consecutive offsets. [cmdWriteStreamOpen] and
    [cmdWriteStreamData] run on the goroutine that reads the connection;
    [writeStream_run] is the goroutine of the stream. *)
From S2P Require Import Prelude GoIO Codec Structs Prog Paths UnixConv ServerEnv ServerCmds.

(** The outcome of writing one chunk: bytes written, and the error code and
    description when it failed. *)
Abbreviation chunk_result := (Z * option (Z * gostring))%type.

Section Stream.
Context (fuel : nat).

(** The loop [for len(data) > 0] of writeStreamWriteChunk; every iteration
    that does not return writes at least one byte, so the length of the data
    bounds the iterations ([n]). *)
Fixpoint writeStreamWriteChunk_loop (n : nat) (fd offset totalWritten : Z) (data : bytes)
  : SP chunk_result :=
  match data with
  | [] => mret (totalWritten, None)
  | _ =>
      match n with
      | O => Diverge
      | S n' =>
          r ← ignoringEINTR fuel (trigger (SysPwrite fd data (i64 offset)));
          match (r : result errno Z) with
          | Err e => mret (totalWritten, Some (wsfsErrCode e, str "syscall error"))
          | Ok written =>
              if written =? 0 then mret (totalWritten, Some (ErrorIO, str "short write"))
              else if (written <? 0) || (len data <? written) then Panic (* data[written:] *)
              else writeStreamWriteChunk_loop n' fd (u64 (offset + u64 written))
                     (u64 (totalWritten + u64 written)) (drop (Z.to_nat written) data)
          end
      end
  end.

Definition writeStreamWriteChunk (fd offset : Z) (data : bytes) : SP chunk_result :=
  writeStreamWriteChunk_loop (length data) fd offset 0 data.

Definition writeRspWriteStreamClose (clientMark written : Z) : SP unit :=
  writeRsp clientMark (fields_RspWriteStreamClose (mkRspWriteStreamClose written)).

Definition releaseInput (msg : writeStreamInput) : SP unit :=
  if in_buf msg then trigger ReleaseFastBuffer else mret tt.

(** The variables of [run]. *)
Record stream_state := mkStreamState {
  st_offset : Z; st_writtenTotal : Z; st_writeErrSent : bool;
}.

(** One iteration of [for msg := range ws.input]; [inr tt] is the return. *)
Definition writeStream_step (stream : nat) (clientMark fd : Z) (st : stream_state)
  : SP (stream_state + unit) :=
  r ← trigger (WsReceive stream);
  match (r : option writeStreamInput) with
  | None => mret (inr tt)
  | Some msg =>
      st ← (if (len (in_data msg) >? 0) && negb (st_writeErrSent st) then
              r ← writeStreamWriteChunk fd (st_offset st) (in_data msg);
              let '(written, err) := (r : chunk_result) in
              let offset := u64 (st_offset st + written) in
              let total := u64 (st_writtenTotal st + written) in
              match err with
              | Some (errCode, errDesc) =>
                  writeRspError clientMark errCode errDesc ;;
                  mret (mkStreamState offset total true)
              | None => mret (mkStreamState offset total (st_writeErrSent st))
              end
            else mret st);
      releaseInput msg ;;
      if in_isEnd msg then
        writeRspWriteStreamClose clientMark (st_writtenTotal st) ;; mret (inr tt)
      else mret (inl st)
  end.

Definition writeStream_run (stream : nat) (clientMark fd offset : Z) : SP unit :=
  loop fuel (writeStream_step stream clientMark fd) (mkStreamState offset 0 false) ;;
  trigger (WsDelete clientMark) ;;
  mret tt.

(** [dataBuf] is never nil when the dispatcher calls the two handlers. *)
Definition cmdWriteStreamOpen (clientMark : Z) (req : CmdWriteStreamOpenStruct) : SP unit :=
  r ← trigger (FdsLoad (CmdWriteStreamOpen_FD req));
  match (r : option Z) with
  | None =>
      trigger ReleaseFastBuffer ;;
      writeRspError clientMark ErrorInvalidFD (str "bad fd")
  | Some sfd =>
      stream ← trigger WsNew;
      loaded ← trigger (WsLoadOrStore clientMark stream);
      if (loaded : bool) then
        trigger ReleaseFastBuffer ;;
        writeRspError clientMark ErrorInvalid (str "write stream already open")
      else
        trigger (WsSpawn stream clientMark sfd (CmdWriteStreamOpen_Offset req)) ;;
        trigger (WsEnqueue stream (mkInput (CmdWriteStreamOpen_Data req) true false))
  end.

Definition cmdWriteStreamData (clientMark : Z) (req : CmdWriteStreamDataStruct) : SP unit :=
  r ← trigger (WsLoad clientMark);
  match (r : option nat) with
  | None =>
      trigger ReleaseFastBuffer ;;
      writeRspError clientMark ErrorInvalid (str "write stream not open")
  | Some stream =>
      trigger (WsEnqueue stream
        (mkInput (CmdWriteStreamData_Data req) true (negb (CmdWriteStreamData_IsEnd req =? 0))))
  end.
End Stream.
