(* ===== verification/ServerDispatch.v ===== *)
(** * Dispatch of commands (commands.go, commandCalls.go)

    dispatchCommand reads the two header bytes of a message, doCommandCall
    decodes the payload of the command and starts its handler, either on a
    goroutine of its own ([Go]) or, for the two stream commands, on the goroutine
    that reads the connection ([Inline]). Decoding uses the portable struct
    helpers; StructAmd64 proves the others equal. *)
From S2P Require Import Prelude GoIO Codec Structs StructGen Prog Paths UnixConv ServerEnv.
From S2P Require Import ServerCmds ServerXattr ServerReadDir ServerStream.

(** The commands with their arguments. *)
Inductive request :=
| ReqOpen (req : CmdOpenStruct)
| ReqClose (req : CmdCloseStruct)
| ReqRead (req : CmdReadStruct)
| ReqReadDir (req : CmdReadDirStruct)
| ReqReadLink (req : CmdReadLinkStruct)
| ReqWrite (req : CmdWriteStruct)
| ReqSeek (req : CmdSeekStruct)
| ReqAllocate (req : CmdAllocateStruct)
| ReqGetAttr (req : CmdGetAttrStruct)
| ReqSetAttr (req : CmdSetAttrStruct)
| ReqSync (req : CmdSyncStruct)
| ReqMkdir (req : CmdMkdirStruct)
| ReqSymLink (req : CmdSymLinkStruct)
| ReqRemove (req : CmdRemoveStruct)
| ReqRmDir (req : CmdRmDirStruct)
| ReqFsStat (req : CmdFsStatStruct)
| ReqReadAt (req : CmdReadAtStruct)
| ReqWriteAt (req : CmdWriteAtStruct)
| ReqCopyFileRange (req : CmdCopyFileRangeStruct)
| ReqRename (req : CmdRenameStruct)
| ReqSetAttrByFD (req : CmdSetAttrByFDStruct)
| ReqReadDirPlus (req : CmdReadDirPlusStruct)
| ReqWriteStreamOpen (req : CmdWriteStreamOpenStruct)
| ReqWriteStreamData (req : CmdWriteStreamDataStruct)
| ReqCloneFileRange (req : CmdCloneFileRangeStruct)
| ReqGetFileLock (req : CmdGetFileLockStruct)
| ReqSetFileLock (req : CmdSetFileLockStruct)
| ReqSetFileLockWait (req : CmdSetFileLockWaitStruct)
| ReqLink (req : CmdLinkStruct)
| ReqSetXAttr (req : CmdSetXAttrStruct)
| ReqGetXAttr (req : CmdGetXAttrStruct)
| ReqListXAttr (req : CmdListXAttrStruct)
| ReqRemoveXAttr (req : CmdRemoveXAttrStruct).

Definition req_code (r : request) : Z :=
  match r with
  | ReqOpen _ => CmdOpen
  | ReqClose _ => CmdClose
  | ReqRead _ => CmdRead
  | ReqReadDir _ => CmdReadDir
  | ReqReadLink _ => CmdReadLink
  | ReqWrite _ => CmdWrite
  | ReqSeek _ => CmdSeek
  | ReqAllocate _ => CmdAllocate
  | ReqGetAttr _ => CmdGetAttr
  | ReqSetAttr _ => CmdSetAttr
  | ReqSync _ => CmdSync
  | ReqMkdir _ => CmdMkdir
  | ReqSymLink _ => CmdSymLink
  | ReqRemove _ => CmdRemove
  | ReqRmDir _ => CmdRmDir
  | ReqFsStat _ => CmdFsStat
  | ReqReadAt _ => CmdReadAt
  | ReqWriteAt _ => CmdWriteAt
  | ReqCopyFileRange _ => CmdCopyFileRange
  | ReqRename _ => CmdRename
  | ReqSetAttrByFD _ => CmdSetAttrByFD
  | ReqReadDirPlus _ => CmdReadDirPlus
  | ReqWriteStreamOpen _ => CmdWriteStreamOpen
  | ReqWriteStreamData _ => CmdWriteStreamData
  | ReqCloneFileRange _ => CmdCloneFileRange
  | ReqGetFileLock _ => CmdGetFileLock
  | ReqSetFileLock _ => CmdSetFileLock
  | ReqSetFileLockWait _ => CmdSetFileLockWait
  | ReqLink _ => CmdLink
  | ReqSetXAttr _ => CmdSetXAttr
  | ReqGetXAttr _ => CmdGetXAttr
  | ReqListXAttr _ => CmdListXAttr
  | ReqRemoveXAttr _ => CmdRemoveXAttr
  end.

Definition req_fields (r : request) : list fval :=
  match r with
  | ReqOpen req => fields_CmdOpenStruct req
  | ReqClose req => fields_CmdCloseStruct req
  | ReqRead req => fields_CmdReadStruct req
  | ReqReadDir req => fields_CmdReadDirStruct req
  | ReqReadLink req => fields_CmdReadLinkStruct req
  | ReqWrite req => fields_CmdWriteStruct req
  | ReqSeek req => fields_CmdSeekStruct req
  | ReqAllocate req => fields_CmdAllocateStruct req
  | ReqGetAttr req => fields_CmdGetAttrStruct req
  | ReqSetAttr req => fields_CmdSetAttrStruct req
  | ReqSync req => fields_CmdSyncStruct req
  | ReqMkdir req => fields_CmdMkdirStruct req
  | ReqSymLink req => fields_CmdSymLinkStruct req
  | ReqRemove req => fields_CmdRemoveStruct req
  | ReqRmDir req => fields_CmdRmDirStruct req
  | ReqFsStat req => fields_CmdFsStatStruct req
  | ReqReadAt req => fields_CmdReadAtStruct req
  | ReqWriteAt req => fields_CmdWriteAtStruct req
  | ReqCopyFileRange req => fields_CmdCopyFileRangeStruct req
  | ReqRename req => fields_CmdRenameStruct req
  | ReqSetAttrByFD req => fields_CmdSetAttrByFDStruct req
  | ReqReadDirPlus req => fields_CmdReadDirPlusStruct req
  | ReqWriteStreamOpen req => fields_CmdWriteStreamOpenStruct req
  | ReqWriteStreamData req => fields_CmdWriteStreamDataStruct req
  | ReqCloneFileRange req => fields_CmdCloneFileRangeStruct req
  | ReqGetFileLock req => fields_CmdGetFileLockStruct req
  | ReqSetFileLock req => fields_CmdSetFileLockStruct req
  | ReqSetFileLockWait req => fields_CmdSetFileLockWaitStruct req
  | ReqLink req => fields_CmdLinkStruct req
  | ReqSetXAttr req => fields_CmdSetXAttrStruct req
  | ReqGetXAttr req => fields_CmdGetXAttrStruct req
  | ReqListXAttr req => fields_CmdListXAttrStruct req
  | ReqRemoveXAttr req => fields_CmdRemoveXAttrStruct req
  end.

(** Whether the payload is read into a fast buffer, and the handler runs on the
    reading goroutine. *)
Definition req_fast (r : request) : bool :=
  match r with
  | ReqWrite _ | ReqWriteAt _ | ReqWriteStreamOpen _ | ReqWriteStreamData _ | ReqSetXAttr _ => true
  | _ => false
  end.
Definition req_inline (r : request) : bool :=
  match r with
  | ReqWriteStreamOpen _ | ReqWriteStreamData _ => true
  | _ => false
  end.

(** [m >>= mret . C], written out for readers. *)
Definition rmap {A B} (f : A -> B) (m : RM A) : RM B := a ← m; mret (f a).

(** The size of a fast buffer (newSession). *)
Definition fastBufferSize : nat := Z.to_nat MaxCommandLength.

(** The decoder of each command: the calls of doCommandCall. *)
Definition read_request (cmd : Z) : option (RM request) :=
  if cmd =? CmdOpen then Some (rmap ReqOpen ReadCmdOpenStructFromReader)
  else if cmd =? CmdClose then Some (rmap ReqClose ReadCmdCloseStructFromReader)
  else if cmd =? CmdRead then Some (rmap ReqRead ReadCmdReadStructFromReader)
  else if cmd =? CmdReadDir then Some (rmap ReqReadDir ReadCmdReadDirStructFromReader)
  else if cmd =? CmdReadLink then Some (rmap ReqReadLink ReadCmdReadLinkStructFromReader)
  else if cmd =? CmdWrite then Some (rmap ReqWrite (ReadCmdWriteStructFromReaderWithBuffer fastBufferSize))
  else if cmd =? CmdSeek then Some (rmap ReqSeek ReadCmdSeekStructFromReader)
  else if cmd =? CmdAllocate then Some (rmap ReqAllocate ReadCmdAllocateStructFromReader)
  else if cmd =? CmdGetAttr then Some (rmap ReqGetAttr ReadCmdGetAttrStructFromReader)
  else if cmd =? CmdSetAttr then Some (rmap ReqSetAttr ReadCmdSetAttrStructFromReader)
  else if cmd =? CmdSync then Some (rmap ReqSync ReadCmdSyncStructFromReader)
  else if cmd =? CmdMkdir then Some (rmap ReqMkdir ReadCmdMkdirStructFromReader)
  else if cmd =? CmdSymLink then Some (rmap ReqSymLink ReadCmdSymLinkStructFromReader)
  else if cmd =? CmdRemove then Some (rmap ReqRemove ReadCmdRemoveStructFromReader)
  else if cmd =? CmdRmDir then Some (rmap ReqRmDir ReadCmdRmDirStructFromReader)
  else if cmd =? CmdFsStat then Some (rmap ReqFsStat ReadCmdFsStatStructFromReader)
  else if cmd =? CmdReadAt then Some (rmap ReqReadAt ReadCmdReadAtStructFromReader)
  else if cmd =? CmdWriteAt then Some (rmap ReqWriteAt (ReadCmdWriteAtStructFromReaderWithBuffer fastBufferSize))
  else if cmd =? CmdCopyFileRange then Some (rmap ReqCopyFileRange ReadCmdCopyFileRangeStructFromReader)
  else if cmd =? CmdRename then Some (rmap ReqRename ReadCmdRenameStructFromReader)
  else if cmd =? CmdSetAttrByFD then Some (rmap ReqSetAttrByFD ReadCmdSetAttrByFDStructFromReader)
  else if cmd =? CmdReadDirPlus then Some (rmap ReqReadDirPlus ReadCmdReadDirPlusStructFromReader)
  else if cmd =? CmdWriteStreamOpen then Some (rmap ReqWriteStreamOpen (ReadCmdWriteStreamOpenStructFromReaderWithBuffer fastBufferSize))
  else if cmd =? CmdWriteStreamData then Some (rmap ReqWriteStreamData (ReadCmdWriteStreamDataStructFromReaderWithBuffer fastBufferSize))
  else if cmd =? CmdCloneFileRange then Some (rmap ReqCloneFileRange ReadCmdCloneFileRangeStructFromReader)
  else if cmd =? CmdGetFileLock then Some (rmap ReqGetFileLock ReadCmdGetFileLockStructFromReader)
  else if cmd =? CmdSetFileLock then Some (rmap ReqSetFileLock ReadCmdSetFileLockStructFromReader)
  else if cmd =? CmdSetFileLockWait then Some (rmap ReqSetFileLockWait ReadCmdSetFileLockWaitStructFromReader)
  else if cmd =? CmdLink then Some (rmap ReqLink ReadCmdLinkStructFromReader)
  else if cmd =? CmdSetXAttr then Some (rmap ReqSetXAttr (ReadCmdSetXAttrStructFromReaderWithBuffer fastBufferSize))
  else if cmd =? CmdGetXAttr then Some (rmap ReqGetXAttr ReadCmdGetXAttrStructFromReader)
  else if cmd =? CmdListXAttr then Some (rmap ReqListXAttr ReadCmdListXAttrStructFromReader)
  else if cmd =? CmdRemoveXAttr then Some (rmap ReqRemoveXAttr ReadCmdRemoveXAttrStructFromReader)
  else None.

Section Dispatch.
Context {abi : UnixABI} (fuel : nat) (s : session).

(** The handler of a request, with the deferred release of its buffer. *)
Definition exec_request (clientMark : Z) (r : request) : SP unit :=
  match r with
  | ReqOpen req => cmdOpen fuel s clientMark req
  | ReqClose req => cmdClose clientMark req
  | ReqRead req => cmdRead clientMark req
  | ReqReadDir req => cmdReadDir fuel s clientMark req
  | ReqReadLink req => cmdReadLink fuel s clientMark req
  | ReqWrite req => cmdWrite fuel clientMark req ;; trigger ReleaseFastBuffer
  | ReqSeek req => cmdSeek clientMark req
  | ReqAllocate req => cmdAllocate clientMark req
  | ReqGetAttr req => cmdGetAttr s clientMark req
  | ReqSetAttr req => cmdSetAttr s clientMark req
  | ReqSync req => cmdSync clientMark req
  | ReqMkdir req => cmdMkdir s clientMark req
  | ReqSymLink req => cmdSymLink s clientMark req
  | ReqRemove req => cmdRemove s clientMark req
  | ReqRmDir req => cmdRmDir s clientMark req
  | ReqFsStat req => cmdFsStat s clientMark req
  | ReqReadAt req => cmdReadAt clientMark req
  | ReqWriteAt req => cmdWriteAt fuel clientMark req ;; trigger ReleaseFastBuffer
  | ReqCopyFileRange req => cmdCopyFileRange clientMark req
  | ReqRename req => cmdRename s clientMark req
  | ReqSetAttrByFD req => cmdSetAttrByFD s clientMark req
  | ReqReadDirPlus req => cmdReadDirPlus fuel s clientMark req
  | ReqWriteStreamOpen req => cmdWriteStreamOpen clientMark req
  | ReqWriteStreamData req => cmdWriteStreamData clientMark req
  | ReqCloneFileRange req => cmdCloneFileRange clientMark req
  | ReqGetFileLock req => cmdGetFileLock clientMark req
  | ReqSetFileLock req => cmdSetFileLock clientMark req
  | ReqSetFileLockWait req => cmdSetFileLockWait clientMark req
  | ReqLink req => cmdLink s clientMark req
  | ReqSetXAttr req => cmdSetXAttr s clientMark req ;; trigger ReleaseFastBuffer
  | ReqGetXAttr req => cmdGetXAttr s clientMark req
  | ReqListXAttr req => cmdListXAttr s clientMark req
  | ReqRemoveXAttr req => cmdRemoveXAttr s clientMark req
  end.

Inductive action :=
| Go (p : SP unit)
| Inline (p : SP unit).

Definition action_prog (a : action) : SP unit :=
  match a with Go p => p | Inline p => p end.

(** doCommandCall: what is started, and the reader after decoding. *)
Definition doCommandCall (clientMark cmd : Z) (r : reader) : action * reader :=
  match read_request cmd with
  | None => (Inline (writeRspError clientMark ErrorInvalid (str "Unknown command")), r)
  | Some rd =>
      match rd r with
      | (Err _, r') => (Inline (writeRspError clientMark ErrorInvalid (str "Bad command format")), r')
      | (Ok req, r') =>
          (if req_inline req then Inline (exec_request clientMark req)
           else Go (exec_request clientMark req), r')
      end
  end.

(** dispatchCommand: what was started, and the error that ends the read loop.
    Draining a message fails exactly when the transport fails before its end. *)
Definition dispatchCommand (r : reader) : option action * option goerror :=
  match ReadFull 2 r with
  | (Err e, _) => (None, Some e)
  | (Ok header, r') =>
      let '(a, r'') := doCommandCall (Uint8 header 0) (Uint8 header 1) r' in
      (Some a, match rd_end r'' with EOF => None | e => Some e end)
  end.
End Dispatch.
