(* ===== verification/ServerNonUnix.v ===== *)
(** * The server on Windows and other systems that are not Unix

    src/src/internal/server/wsfs/commands-nonunix.go with oserr-windows.go and
    oserr-nonwindows.go, open-windows.go, timeval/common-nonunix.go,
    util/fsSize-windows.go and fsSize-other.go, util/url-windows.go and
    url-nonwindows.go, share/wsfsstdconv. The handlers are programs of the same
    requests as those for Unix (ServerEnv); a request [SysX] is the method of package
    os of that meaning, [SysOpen] openSFD. *)
From S2P Require Import Prelude GoIO Codec Structs Prog Paths UnixConv ServerEnv ServerCmds ServerDispatch.

(** Which files are built. *)
Inductive build := Windows | OtherSystem.

(** What differs between these systems in Go's standard library and in
    golang.org/x/sys/windows: the flags of os.OpenFile, paths, and how errors are
    told apart. *)
Class NonUnix := {
  filepath_Clean : gostring -> gostring; filepath_Join : gostring -> gostring -> gostring;
  std_O_RDONLY : Z; std_O_WRONLY : Z; std_O_RDWR : Z; std_O_TRUNC : Z; std_O_EXCL : Z; std_O_CREATE : Z;
  std_O_APPEND : Z; std_O_SYNC : Z;
  std_IsExist : errno -> bool; std_IsNotExist : errno -> bool; std_IsPermission : errno -> bool;
  ERROR_SHARING_VIOLATION : errno; ERROR_LOCK_VIOLATION : errno; std_ENOTSUP : errno;
}.

(** ** url-windows.go *)

Definition specialDosDeviceNames : list gostring :=
  map str ["AUX"; "CON"; "CONIN$"; "CONOUT$"; "CLOCK$"; "CONFIG$";
    "COM1"; "COM2"; "COM3"; "COM4"; "COM5"; "COM6"; "COM7"; "COM8"; "COM9"; "COM²"; "COM³"; "COM¹";
    "LPT1"; "LPT2"; "LPT3"; "LPT4"; "LPT5"; "LPT6"; "LPT7"; "LPT8"; "LPT9"; "LPT²"; "LPT³"; "LPT¹";
    "NUL"; "PRN"]%string.

(** The part before the first dot, without the space around it. *)
Definition dos_base (part : gostring) : gostring :=
  TrimSpace (match IndexByte part x2e with Some idx => take idx part | None => part end).

Definition isUrlValid_os (b : build) (v : gostring) : bool :=
  match b with
  | OtherSystem => true
  | Windows =>
      if match v with _ :: c :: _ => bool_decide (c = slash) | _ => false end then false
      else if Contains v (str ":") then false
      else forallb (fun part => forallb (fun nm => negb (EqualFold (dos_base part) nm)) specialDosDeviceNames) (Split v slash)
  end.

(** IsUrlValid of url.go; [IsUrlValid] is the part that all systems share. *)
Definition IsUrlValid_on (b : build) (v : gostring) : bool := IsUrlValid v && isUrlValid_os b v.

(** ** Conversions *)

Section Conversions.
Context (b : build) {os : NonUnix}.

Definition OpenFlagToStd : list (Z * Z) :=
  [(O_RDONLY, std_O_RDONLY); (O_WRONLY, std_O_WRONLY); (O_RDWR, std_O_RDWR); (O_TRUNC, std_O_TRUNC);
   (O_EXCL, std_O_EXCL); (O_CREAT, std_O_CREATE); (O_APPEND, std_O_APPEND); (O_SYNC, std_O_SYNC)].

(** io.SeekStart, io.SeekCurrent and io.SeekEnd. *)
Definition WhenceToStd : list (Z * Z) := [(WHENCE_SET, 0); (WHENCE_CUR, 1); (WHENCE_END, 2)].

Definition win_osErrCode_osOverride (err : errno) : option Z :=
  match b with
  | Windows => if (err =? ERROR_SHARING_VIOLATION) || (err =? ERROR_LOCK_VIOLATION) then Some ErrorBusy else None
  | OtherSystem => None
  end.

(** osErrCode of commands.go on these systems. *)
Definition nonunix_osErrCode (err : errno) : Z :=
  match win_osErrCode_osOverride err with
  | Some code => code
  | None =>
      if std_IsExist err then ErrorExists
      else if std_IsNotExist err then ErrorNotExists
      else if std_IsPermission err then ErrorAccessRestricted
      else ErrorUnknown
  end.

Definition nonunix_wsfsErrCode (err : errno) : Z :=
  if err =? std_ENOTSUP then ErrorNotSupport else nonunix_osErrCode err.

(** time.Unix: nanoseconds outside [0, 1e9) are carried over. *)
Definition time_Unix (sec nsec : Z) : Timespec :=
  if (nsec <? 0) || (nsec >=? 1000000000) then
    let n := Z.quot nsec 1000000000 in
    let sec := i64 (sec + n) in
    let nsec := nsec - n * 1000000000 in
    if nsec <? 0 then mkTimespec (i64 (sec - 1)) (nsec + 1000000000) else mkTimespec sec nsec
  else mkTimespec sec nsec.

Definition open_access (OFlag : Z) : option Z :=
  let a := Z.land OFlag O_ACCMODE in
  if a =? O_RDONLY then Some (Z.lor 0 (mget O_RDONLY OpenFlagToStd))
  else if a =? O_WRONLY then Some (Z.lor 0 (mget O_WRONLY OpenFlagToStd))
  else if a =? O_RDWR then Some (Z.lor 0 (mget O_RDWR OpenFlagToStd))
  else None.

Fixpoint open_flag_loop (OFlag : Z) (flags : list Z) (oflag : Z) : option Z :=
  match flags with
  | [] => Some oflag
  | proctocolFlag :: flags' =>
      if has_flag proctocolFlag O_ACCMODE then open_flag_loop OFlag flags' oflag
      else if has_flag OFlag proctocolFlag then
        match mlookup proctocolFlag OpenFlagToStd with
        | None => None
        | Some unixFlag => open_flag_loop OFlag flags' (Z.lor oflag unixFlag)
        end
      else open_flag_loop OFlag flags' oflag
  end.
End Conversions.

(** ** Handlers *)

Section Handlers.
Context (b : build) {os : NonUnix} (fuel : nat) (s : session).

Definition convOwner : Z := OWNER_UG.

Definition closeSFD (fd : Z) : SP unit := trigger (SysClose fd) ;; mret tt.

Definition with_path (clientMark : Z) (p : gostring) (k : gostring -> SP unit) : SP unit :=
  if negb (IsUrlValid_on b p) then writeRspError clientMark ErrorInvalid (str "bad path")
  else k (storage_Path s ++ p).

Definition with_paths (clientMark : Z) (p1 p2 : gostring) (k : gostring -> gostring -> SP unit) : SP unit :=
  if negb (IsUrlValid_on b p1) || negb (IsUrlValid_on b p2)
  then writeRspError clientMark ErrorInvalid (str "bad path")
  else k (storage_Path s ++ p1) (storage_Path s ++ p2).

Definition syscall_error (clientMark : Z) (e : errno) : SP unit :=
  writeRspError clientMark (nonunix_osErrCode b e) (str "syscall error").

Definition reply (clientMark : Z) (r : result errno unit) : SP unit :=
  match r with
  | Err e => syscall_error clientMark e
  | Ok _ => writeRspOK clientMark
  end.

Definition reply_with {A} (clientMark : Z) (r : result errno A) (fields : A -> list fval) : SP unit :=
  match r with
  | Err e => syscall_error clientMark e
  | Ok a => writeRsp clientMark (fields a)
  end.

Definition not_supported (clientMark : Z) : SP unit := writeRspError clientMark ErrorNotSupport (str "syscall error").

Definition cmdOpen (clientMark : Z) (req : CmdOpenStruct) : SP unit :=
  with_path clientMark (CmdOpen_Path req) (fun apath =>
    match open_access (CmdOpen_OFlag req) with
    | None => writeRspError clientMark ErrorInvalid (str "bad open access mode")
    | Some oflag =>
        match open_flag_loop (CmdOpen_OFlag req) OpenFlags oflag with
        | None => writeRspError clientMark ErrorNotSupport (str "not supported open flag")
        | Some oflag =>
            r ← trigger (SysOpen apath oflag (CmdOpen_FMode req));
            match r with
            | Err e => syscall_error clientMark e
            | Ok sfd =>
                wfd ← newFD fuel sfd;
                writeRsp clientMark (fields_RspOpen (mkRspOpen wfd))
            end
        end
    end).

Definition cmdClose (clientMark : Z) (req : CmdCloseStruct) : SP unit :=
  with_fd clientMark (CmdClose_FD req) (fun sfd =>
    trigger (FdsDelete (CmdClose_FD req)) ;;
    err ← trigger (SysClose sfd);
    reply clientMark err).

(** The part of readAndSend and readAtAndSend around the call; the end of the file
    (io.EOF) is a result with fewer bytes. *)
Definition read_and_send (clientMark size : Z) (partial : bool)
    (call : Z -> SP (result errno bytes)) : SP (Z * bool) :=
  buf ← trigger BufGet;
  let buf := (Buffer_Write (le_bytes 1 clientMark ++ le_bytes 1 ErrorOK) buf).2 in
  let n := i64 size in
  if (n <? 0) || (len (Bytes buf) - Buffer_Written buf <? n) then Panic
  else
    r ← call n;
    match r with
    | Err e =>
        syscall_error clientMark e ;;
        trigger BufPut ;;
        mret (0, false)
    | Ok data =>
        let buf := mkBuffer (splice (Z.to_nat (Buffer_Written buf)) data (Bytes buf)) (written buf) in
        let buf := Buffer_Grow (len data) buf in
        let buf := if partial && (len data =? size)
                   then mkBuffer (splice 1 (le_bytes 1 ErrorPartialResponse) (Bytes buf)) (written buf)
                   else buf in
        s_write (Buffer_Done buf).1 ;;
        trigger BufPut ;;
        mret (len data, true)
    end.

Definition readAndSend (clientMark fd size : Z) (partial : bool) : SP (Z * bool) :=
  read_and_send clientMark size partial (fun n => trigger (SysRead fd n)).

Definition readAtAndSend (clientMark fd off size : Z) (partial : bool) : SP (Z * bool) :=
  read_and_send clientMark size partial (fun n => trigger (SysPread fd n (i64 off))).

(** [for range n { .. }]: true when the handler returned inside. *)
Fixpoint cmdRead_loop (clientMark sfd : Z) (n : nat) : SP bool :=
  match n with
  | O => mret false
  | S n' =>
      r ← readAndSend clientMark sfd maxReadPayLoad true;
      let '(readed, ok) := (r : Z * bool) in
      if negb ok then mret true
      else if readed <? maxReadPayLoad then mret true
      else cmdRead_loop clientMark sfd n'
  end.

Definition cmdRead (clientMark : Z) (req : CmdReadStruct) : SP unit :=
  with_fd clientMark (CmdRead_FD req) (fun sfd =>
    let Size := CmdRead_Size req in
    if Size <? maxReadPayLoad then
      readAndSend clientMark sfd Size false ;; mret tt
    else
      returned ← cmdRead_loop clientMark sfd (Z.to_nat (Size / maxReadPayLoad));
      if (returned : bool) then mret tt
      else if Size mod maxReadPayLoad =? 0 then writeRspOK clientMark
      else readAndSend clientMark sfd (Size mod maxReadPayLoad) false ;; mret tt).

Fixpoint cmdReadAt_loop (clientMark sfd off : Z) (n : nat) : SP (bool * Z) :=
  match n with
  | O => mret (false, off)
  | S n' =>
      r ← readAtAndSend clientMark sfd off maxReadPayLoad true;
      let '(readed, ok) := (r : Z * bool) in
      if negb ok then mret (true, off)
      else if readed <? maxReadPayLoad then mret (true, off)
      else cmdReadAt_loop clientMark sfd (u64 (off + readed)) n'
  end.

Definition cmdReadAt (clientMark : Z) (req : CmdReadAtStruct) : SP unit :=
  with_fd clientMark (CmdReadAt_FD req) (fun sfd =>
    let off := CmdReadAt_Offset req in
    let Size := CmdReadAt_Size req in
    if Size <? maxReadPayLoad then
      readAtAndSend clientMark sfd off Size false ;; mret tt
    else
      r ← cmdReadAt_loop clientMark sfd off (Z.to_nat (Size / maxReadPayLoad));
      let '(returned, off) := (r : bool * Z) in
      if returned then mret tt
      else if Size mod maxReadPayLoad =? 0 then writeRspOK clientMark
      else readAtAndSend clientMark sfd off (Size mod maxReadPayLoad) false ;; mret tt).

(** What cmdReadLink does with the target. *)
Definition readlink_reply (clientMark : Z) (apath : gostring) (r : result errno gostring) : SP unit :=
  match r with
  | Err _ => writeRspError clientMark ErrorType (str "syscall error")
  | Ok [] => Panic (* target[0] *)
  | Ok ((c :: _) as target) =>
      let target := if negb (bool_decide (c = slash)) then filepath_Clean (filepath_Join apath target) else target in
      if negb (HasPrefix target (storage_Path s)) then writeRspError clientMark ErrorType (str "syscall error")
      else writeRsp clientMark (fields_RspReadLink (mkRspReadLink (TrimPrefix target (storage_Path s))))
  end.

Definition cmdReadLink (clientMark : Z) (req : CmdReadLinkStruct) : SP unit :=
  with_path clientMark (CmdReadLink_Path req) (fun apath =>
    r ← trigger (OsReadlink apath);
    readlink_reply clientMark apath r).

Definition cmdSeek (clientMark : Z) (req : CmdSeekStruct) : SP unit :=
  with_fd clientMark (CmdSeek_FD req) (fun sfd =>
    match mlookup (CmdSeek_Whence req) WhenceToStd with
    | None => writeRspError clientMark ErrorNotSupport (str "whence not supported")
    | Some whence =>
        r ← trigger (SysSeek sfd (CmdSeek_Offset req) whence);
        reply_with clientMark r (fun offset => fields_RspSeek (mkRspSeek (u64 offset)))
    end).

Definition cmdWrite (clientMark : Z) (req : CmdWriteStruct) : SP unit :=
  with_fd clientMark (CmdWrite_FD req) (fun sfd =>
    r ← trigger (SysWrite sfd (CmdWrite_Data req));
    reply_with clientMark r (fun count => fields_RspWrite (mkRspWrite (u64 count)))).

Definition cmdWriteAt (clientMark : Z) (req : CmdWriteAtStruct) : SP unit :=
  with_fd clientMark (CmdWriteAt_FD req) (fun sfd =>
    r ← trigger (SysPwrite sfd (CmdWriteAt_Data req) (i64 (CmdWriteAt_Offset req)));
    reply_with clientMark r (fun count => fields_RspWriteAt (mkRspWriteAt (u64 count)))).

(** The loop of writeStreamWriteChunk; the length of the data bounds it. *)
Fixpoint writeStreamWriteChunk_loop (n : nat) (fd offset totalWritten : Z) (data : bytes) : SP (Z * option (Z * gostring)) :=
  match data with
  | [] => mret (totalWritten, None)
  | _ =>
      match n with
      | O => Diverge
      | S n' =>
          r ← trigger (SysPwrite fd data (i64 offset));
          match (r : result errno Z) with
          | Err e => mret (totalWritten, Some (nonunix_osErrCode b e, str "syscall error"))
          | Ok written =>
              if written =? 0 then mret (totalWritten, Some (ErrorIO, str "short write"))
              else if (written <? 0) || (len data <? written) then Panic (* data[written:] *)
              else writeStreamWriteChunk_loop n' fd (u64 (offset + u64 written))
                     (u64 (totalWritten + u64 written)) (drop (Z.to_nat written) data)
          end
      end
  end.
Definition writeStreamWriteChunk (fd offset : Z) (data : bytes) : SP (Z * option (Z * gostring)) :=
  writeStreamWriteChunk_loop (length data) fd offset 0 data.

Definition cmdAllocate (clientMark : Z) (_ : CmdAllocateStruct) : SP unit := not_supported clientMark.
Definition cmdCopyFileRange (clientMark : Z) (_ : CmdCopyFileRangeStruct) : SP unit := not_supported clientMark.
Definition cmdCloneFileRange (clientMark : Z) (_ : CmdCloneFileRangeStruct) : SP unit := not_supported clientMark.
Definition cmdGetFileLock (clientMark : Z) (_ : CmdGetFileLockStruct) : SP unit := not_supported clientMark.
Definition cmdSetFileLock (clientMark : Z) (_ : CmdSetFileLockStruct) : SP unit := not_supported clientMark.
Definition cmdSetFileLockWait (clientMark : Z) (_ : CmdSetFileLockWaitStruct) : SP unit := not_supported clientMark.
Definition cmdLink (clientMark : Z) (_ : CmdLinkStruct) : SP unit := not_supported clientMark.

(** timeval/common-nonunix.go: os.Chtimes. *)
Definition SetPathMTime (path : gostring) (ts : Timespec) : SP (result errno unit) :=
  let t := time_Unix (Timespec_Seconds ts) (Timespec_Nanoseconds ts) in
  trigger (SysUtimesNano path t t).

(** [if flag != 0 { if err := call; err != nil { writeRspError; return } }; rest]. *)
Definition attr_step (clientMark : Z) (flag : bool) (call : SP (result errno unit)) (rest : SP unit) : SP unit :=
  if flag then
    err ← call;
    match (err : result errno unit) with
    | Err e => syscall_error clientMark e
    | Ok _ => rest
    end
  else rest.

Definition cmdSetAttr (clientMark : Z) (req : CmdSetAttrStruct) : SP unit :=
  with_path clientMark (CmdSetAttr_Path req) (fun apath =>
    attr_step clientMark (has_flag (CmdSetAttr_Flag req) SETATTR_SIZE)
      (trigger (SysTruncate apath (i64 (FileInfo_Size (CmdSetAttr_FI req)))))
    (attr_step clientMark (has_flag (CmdSetAttr_Flag req) SETATTR_MTIME)
      (SetPathMTime apath (FileInfo_MTime (CmdSetAttr_FI req)))
      (writeRspOK clientMark))).

Definition cmdSetAttrByFD (clientMark : Z) (req : CmdSetAttrByFDStruct) : SP unit :=
  with_fd clientMark (CmdSetAttrByFD_FD req) (fun sfd =>
    attr_step clientMark (has_flag (CmdSetAttrByFD_Flag req) SETATTR_SIZE)
      (trigger (SysFtruncate sfd (i64 (FileInfo_Size (CmdSetAttrByFD_FI req)))))
      (writeRspOK clientMark)).

Definition cmdSync (clientMark : Z) (req : CmdSyncStruct) : SP unit :=
  with_fd clientMark (CmdSync_FD req) (fun sfd =>
    err ← trigger (SysFsync sfd);
    reply clientMark err).

Definition cmdMkdir (clientMark : Z) (req : CmdMkdirStruct) : SP unit :=
  with_path clientMark (CmdMkdir_Path req) (fun apath =>
    err ← trigger (SysMkdir apath (CmdMkdir_Mode req));
    reply clientMark err).

Definition cmdSymLink (clientMark : Z) (req : CmdSymLinkStruct) : SP unit :=
  with_paths clientMark (CmdSymLink_TargetPath req) (CmdSymLink_FilePath req) (fun target path =>
    err ← trigger (SysSymlink target path);
    reply clientMark err).

(** os.Remove. *)
Definition cmdRemove (clientMark : Z) (req : CmdRemoveStruct) : SP unit :=
  with_path clientMark (CmdRemove_Path req) (fun resolvedPath =>
    err ← trigger (SysUnlink resolvedPath);
    reply clientMark err).

Definition cmdRmDir (clientMark : Z) (req : CmdRmDirStruct) : SP unit :=
  cmdRemove clientMark (mkCmdRemoveStruct (CmdRmDir_Path req)).

Definition cmdRename (clientMark : Z) (req : CmdRenameStruct) : SP unit :=
  with_paths clientMark (CmdRename_OldPath req) (CmdRename_NewPath req) (fun resolvedOldPath resolvedNewPath =>
    if negb (CmdRename_Flag req =? 0) then not_supported clientMark
    else
      err ← trigger (SysRename resolvedOldPath resolvedNewPath);
      reply clientMark err).

(** fsSize-windows.go (GetDiskFreeSpaceEx gives total, free and available bytes) and
    fsSize-other.go. *)
Definition FsSize (fspath : gostring) : SP (result errno (Z * Z * Z)) :=
  match b with
  | Windows =>
      r ← trigger (SysStatfs fspath);
      mret match (r : result errno (Z * Z * Z * Z)) with
           | Err e => Err e
           | Ok (total, free, avail, _) => Ok (total, free, avail)
           end
  | OtherSystem => mret (Ok (10995116277760, 5497558138880, 5497558138880))
  end.

Definition cmdFsStat (clientMark : Z) (req : CmdFsStatStruct) : SP unit :=
  with_path clientMark (CmdFsStat_Path req) (fun apath =>
    r ← FsSize apath;
    reply_with clientMark r (fun '(total, free, avail) => fields_RspFsStat (mkRspFsStat total free avail))).

(** The handlers of commands-nonunix.go as doCommandCall starts them, with the
    deferred release of the buffer of their data; [None] for those of commands.go. *)
Definition exec_nonunix (clientMark : Z) (r : request) : option (SP unit) :=
  match r with
  | ReqOpen req => Some (cmdOpen clientMark req)
  | ReqClose req => Some (cmdClose clientMark req)
  | ReqRead req => Some (cmdRead clientMark req)
  | ReqReadLink req => Some (cmdReadLink clientMark req)
  | ReqWrite req => Some (cmdWrite clientMark req ;; trigger ReleaseFastBuffer)
  | ReqSeek req => Some (cmdSeek clientMark req)
  | ReqAllocate req => Some (cmdAllocate clientMark req)
  | ReqSetAttr req => Some (cmdSetAttr clientMark req)
  | ReqSync req => Some (cmdSync clientMark req)
  | ReqMkdir req => Some (cmdMkdir clientMark req)
  | ReqSymLink req => Some (cmdSymLink clientMark req)
  | ReqRemove req => Some (cmdRemove clientMark req)
  | ReqRmDir req => Some (cmdRmDir clientMark req)
  | ReqFsStat req => Some (cmdFsStat clientMark req)
  | ReqReadAt req => Some (cmdReadAt clientMark req)
  | ReqWriteAt req => Some (cmdWriteAt clientMark req ;; trigger ReleaseFastBuffer)
  | ReqCopyFileRange req => Some (cmdCopyFileRange clientMark req)
  | ReqRename req => Some (cmdRename clientMark req)
  | ReqSetAttrByFD req => Some (cmdSetAttrByFD clientMark req)
  | ReqCloneFileRange req => Some (cmdCloneFileRange clientMark req)
  | ReqGetFileLock req => Some (cmdGetFileLock clientMark req)
  | ReqSetFileLock req => Some (cmdSetFileLock clientMark req)
  | ReqSetFileLockWait req => Some (cmdSetFileLockWait clientMark req)
  | ReqLink req => Some (cmdLink clientMark req)
  | _ => None
  end.
End Handlers.

(** ** open-windows.go *)

(** The constants of golang.org/x/sys/windows. *)
Class WinApi := {
  GENERIC_READ : Z; GENERIC_WRITE : Z; FILE_GENERIC_WRITE : Z; FILE_WRITE_DATA : Z;
  FILE_SHARE_READ : Z; FILE_SHARE_WRITE : Z; FILE_SHARE_DELETE : Z;
  FILE_ATTRIBUTE_NORMAL : Z; FILE_ATTRIBUTE_READONLY : Z; FILE_ATTRIBUTE_DIRECTORY : Z;
  FILE_FLAG_BACKUP_SEMANTICS : Z; FILE_FLAG_WRITE_THROUGH : Z; FILE_FLAG_OPEN_REPARSE_POINT : Z;
  CREATE_NEW : Z; OPEN_ALWAYS : Z; OPEN_EXISTING : Z;
  FILE_TYPE_PIPE : Z; FILE_TYPE_CHAR : Z;
  ERROR_ACCESS_DENIED : errno; ERROR_INVALID_PARAMETER : errno; ERROR_FILE_NOT_FOUND : errno; win_EISDIR : errno;
}.

(** The arguments of CreateFile. *)
Record create_args := mkCreate {
  ca_name : gostring;
  ca_access : Z;
  ca_share : Z;
  ca_mode : Z;
  ca_attrs : Z;
}.

Inductive oev : Type :=
| UTF16Ptr (name : gostring)
| CreateFile (a : create_args)
| GetFileAttributes (name : gostring)
| WinFtruncate (h size : Z)
| GetFileType (h : Z)
| CloseHandle (h : Z).

Definition oans (e : oev) : Type :=
  match e with
  | CreateFile _ | GetFileAttributes _ | GetFileType _ => result errno Z
  | _ => result errno unit
  end.

Section OpenSFD.
Context {os : NonUnix} {api : WinApi}.

Definition open_accessFlags (flag : Z) : Z := Z.land flag (Z.lor (Z.lor std_O_RDONLY std_O_WRONLY) std_O_RDWR).

Definition access_rights (flag : Z) : Z :=
  let a := open_accessFlags flag in
  let access :=
    if a =? std_O_RDONLY then GENERIC_READ
    else if a =? std_O_WRONLY then GENERIC_WRITE
    else if a =? std_O_RDWR then Z.lor GENERIC_READ GENERIC_WRITE
    else 0 in
  let access := if has_flag flag std_O_CREATE then Z.lor access GENERIC_WRITE else access in
  if has_flag flag std_O_APPEND then
    let access := if negb (has_flag flag std_O_TRUNC) then Z.ldiff access GENERIC_WRITE else access in
    Z.lor access (Z.ldiff FILE_GENERIC_WRITE FILE_WRITE_DATA)
  else access.

Definition create_args_of (name : gostring) (flag perm : Z) : create_args :=
  let attrs := if Z.land perm 0x80 (* 0200 *) =? 0 then FILE_ATTRIBUTE_READONLY else FILE_ATTRIBUTE_NORMAL in
  let attrs := if open_accessFlags flag =? std_O_RDONLY then Z.lor attrs FILE_FLAG_BACKUP_SEMANTICS else attrs in
  let attrs := if has_flag flag std_O_SYNC then Z.lor attrs FILE_FLAG_WRITE_THROUGH else attrs in
  let both := Z.lor std_O_CREATE std_O_EXCL in
  let '(createmode, attrs) :=
    if Z.land flag both =? both then (CREATE_NEW, Z.lor attrs FILE_FLAG_OPEN_REPARSE_POINT)
    else if has_flag flag std_O_CREATE then (OPEN_ALWAYS, attrs)
    else (OPEN_EXISTING, attrs) in
  mkCreate name (access_rights flag) (Z.lor (Z.lor FILE_SHARE_READ FILE_SHARE_WRITE) FILE_SHARE_DELETE) createmode attrs.

Definition win_openSFD (name : gostring) (flag perm : Z) : prog oans (result errno Z) :=
  match name with
  | [] => mret (Err ERROR_FILE_NOT_FOUND)
  | _ =>
      namep ← trigger (ans := oans) (UTF16Ptr name);
      match (namep : result errno unit) with
      | Err err => mret (Err err)
      | Ok _ =>
          let a := create_args_of name flag perm in
          h ← trigger (ans := oans) (CreateFile a);
          match (h : result errno Z) with
          | Err err =>
              if (err =? ERROR_ACCESS_DENIED) && negb (has_flag (ca_attrs a) FILE_FLAG_BACKUP_SEMANTICS) then
                fa ← trigger (ans := oans) (GetFileAttributes name);
                mret (Err (match (fa : result errno Z) with
                           | Ok fa => if has_flag fa FILE_ATTRIBUTE_DIRECTORY then win_EISDIR else err
                           | Err _ => err
                           end))
              else mret (Err err)
          | Ok h =>
              if has_flag flag std_O_TRUNC && ((ca_mode a =? OPEN_EXISTING) || (ca_mode a =? OPEN_ALWAYS)) then
                err ← trigger (ans := oans) (WinFtruncate h 0);
                err ← (match (err : result errno unit) with
                       | Err e =>
                           if e =? ERROR_INVALID_PARAMETER then
                             t ← trigger (ans := oans) (GetFileType h);
                             mret (match (t : result errno Z) with
                                   | Ok t => if (t =? FILE_TYPE_PIPE) || (t =? FILE_TYPE_CHAR) then Ok tt else Err e
                                   | Err _ => Err e
                                   end)
                           else mret (Err e)
                       | Ok _ => mret (Ok tt)
                       end);
                match (err : result errno unit) with
                | Err e => trigger (ans := oans) (CloseHandle h) ;; mret (Err e)
                | Ok _ => mret (Ok h)
                end
              else mret (Ok h)
          end
      end
  end.
End OpenSFD.
