(* ===== verification/ServerSpec.v ===== *)
(** * What every handler guarantees

    A specification of the environment ([srv_env]) that every handler of the
    server is proved against: each path handed to the operating system is
    confined to the storage, every response carries the mark of the request, all
    frames but the last are partial, exactly one frame is final and none is
    longer than a response may be; pooled buffers and files opened on the way are
    given back.

    The loops of the handlers repeat when a system call is interrupted, when a
    descriptor number is taken, or while a directory (or a stream) yields more.
    The state counts how many such answers the environment still gives: with
    [total] set, a handler whose [fuel] exceeds that budget must also terminate. *)
From S2P Require Import Prelude GoIO Codec Structs StructGen Prog Paths UnixConv ServerEnv.
From S2P Require Import ServerCmds.

(** The paths of a request to the operating system. *)
Definition ev_paths (e : sev) : list gostring :=
  match e with
  | SysOpen p _ _ | SysReadlink p _ | SysTruncate p _ | SysUtimesNano p _ _ | SysChmod p _
  | SysChown p _ _ | SysMkdir p _ | SysUnlink p | SysRmdir p | SysStatfs p
  | SysSetxattr _ p _ _ _ | SysGetxattr _ p _ _ | SysListxattr _ p _ | SysRemovexattr _ p _
  | OsOpen p | OsReadlink p | OsStat p | OsLstat p => [p]
  | SysSymlink a b | SysLink a b | SysRename a b | SysRenameat2 _ a _ b _ => [a; b]
  | _ => []
  end.

(** A frame of the response to [mark] with a code a handler may send as data. *)
Definition data_frame (mark : Z) (final : bool) (d : bytes) : Prop :=
  (exists payload, d = le_bytes 1 mark ++ le_bytes 1 (if final then ErrorOK else ErrorPartialResponse) ++ payload) /\
  len d <= MaxResponseLength.

(** What a handler has done so far. *)
Record ghost := mkGhost {
  g_done : bool; (* the final frame was sent *)
  g_bufs : nat; (* pooled buffers held *)
  g_files : list Z; (* files opened with os.Open and not closed *)
  g_fds : list Z; (* descriptors opened and neither closed nor in the table *)
}.

Definition fresh : ghost := mkGhost false 0 [] [].
Definition answered (g : ghost) : Prop := g = mkGhost true 0 [] [].

Definition set_done b g := mkGhost b (g_bufs g) (g_files g) (g_fds g).
Definition set_bufs n g := mkGhost (g_done g) n (g_files g) (g_fds g).
Definition set_files l g := mkGhost (g_done g) (g_bufs g) l (g_fds g).
Definition set_fds l g := mkGhost (g_done g) (g_bufs g) (g_files g) l.

Fixpoint remove_one (x : Z) (l : list Z) : list Z :=
  match l with
  | [] => []
  | y :: l' => if x =? y then l' else y :: remove_one x l'
  end.

Section Spec.
Context (root : gostring) (mark : Z).

(** What a handler must respect. *)
Definition srv_pre (g : ghost) (e : sev) : Prop :=
  Forall (confined root) (ev_paths e) /\
  match e with
  | Send d => g_done g = false /\ exists final, data_frame mark final d
  | SendRsp m ec p =>
      g_done g = false /\ m = mark /\ ec <> ErrorPartialResponse /\ in_u 8 ec = true /\
      p.2 = None /\ 2 + len p.1 <= MaxResponseLength
  | BufPut => (0 < g_bufs g)%nat
  | WsSpawn _ m _ offset => m = mark /\ in_u 64 offset = true
  | _ => True
  end.

(** How its ghost state moves on. *)
Definition srv_next (g : ghost) (e : sev) : sans e -> ghost -> Prop :=
  match e return sans e -> ghost -> Prop with
  | Send d => fun _ g' => exists final, data_frame mark final d /\ g' = set_done final g
  | SendRsp _ _ _ => fun _ g' => g' = set_done true g
  | BufGet => fun _ g' => g' = set_bufs (S (g_bufs g)) g
  | BufPut => fun _ g' => g' = set_bufs (pred (g_bufs g)) g
  | SysOpen _ _ _ => fun r g' => g' = if r is Ok fd then set_fds (fd :: g_fds g) g else g
  | SysClose fd => fun _ g' => g' = set_fds (remove_one fd (g_fds g)) g
  | FdsLoadOrStore _ sfd => fun loaded g' =>
      g' = if loaded then g else set_fds (remove_one sfd (g_fds g)) g
  | OsOpen _ => fun r g' => g' = if r is Ok f then set_files (f :: g_files g) g else g
  | OsClose f => fun _ g' => g' = set_files (remove_one f (g_files g)) g
  | _ => fun _ g' => g' = g
  end.

(** Answers that make a loop of a handler go round again. *)
Definition retry (e : sev) : sans e -> bool :=
  match e return sans e -> bool with
  | SysOpen _ _ _ | SysReadlink _ _ | SysWrite _ _ | SysPwrite _ _ _ => fun r =>
      match r with Err e => e =? EINTR | Ok _ => false end
  | FdsLoadOrStore _ _ => fun loaded => loaded
  | OsReadDir _ _ => fun r => negb (len r.1 =? 0)
  | WsReceive _ => fun r => if r is Some _ then true else false
  | _ => fun _ => false
  end.

(** The ghost state and the number of answers of that kind still to come. *)
Definition srv_env : env sans :=
  mkEnv (ghost * nat) (fun '(g, _) e => srv_pre g e)
    (fun '(g, b) e r '(g', b') =>
       sys_ok e r /\ srv_next g e r g' /\ if retry e r then b = S b' else b' = b).

Context (total : bool) (B : nat).

(** [Wb]: from a given budget; [W]: from any budget up to [B]. *)
Definition Wb {A} (p : SP A) (g : ghost) (b : nat) (Q : A -> ghost -> nat -> Prop) : Prop :=
  wp total srv_env p (g, b) (fun a '(g', b') => Q a g' b').
Definition W {A} (p : SP A) (g : ghost) (Q : A -> ghost -> Prop) : Prop :=
  forall b, (b <= B)%nat -> Wb p g b (fun a g' b' => (b' <= b)%nat /\ Q a g').

(** ** Rules *)

Lemma Wb_mono {A} (p : SP A) g b (Q Q' : A -> ghost -> nat -> Prop) :
  Wb p g b Q -> (forall a g' b', Q a g' b' -> Q' a g' b') -> Wb p g b Q'.
Proof. intros H HQ. eapply wp_mono; [exact H|]. intros a [g' b']. apply HQ. Qed.

Lemma Wb_bind {A C} (p : SP A) (k : A -> SP C) g b Q :
  Wb p g b (fun a g' b' => Wb (k a) g' b' Q) -> Wb (p ≫= k) g b Q.
Proof. intros H. apply wp_bind. eapply wp_mono; [exact H|]. by intros a [g' b']. Qed.

Lemma Wb_ret {A} (a : A) g b (Q : A -> ghost -> nat -> Prop) : Q a g b -> Wb (mret a) g b Q.
Proof. done. Qed.

Lemma Wb_trigger e g b (Q : sans e -> ghost -> nat -> Prop) :
  srv_pre g e ->
  (forall r g' b', sys_ok e r -> srv_next g e r g' ->
     (if retry e r then b = S b' else b' = b) -> Q r g' b') ->
  Wb (trigger e) g b Q.
Proof.
  intros Hp HQ. apply (wp_trigger total srv_env); [done|].
  intros r [g' b'] (? & ? & ?). auto.
Qed.

(** What holds for every budget holds in particular. *)
Lemma W_Wb {A} (p : SP A) g b (Q : A -> ghost -> Prop) (Q' : A -> ghost -> nat -> Prop) :
  W p g Q -> (b <= B)%nat -> (forall a g' b', (b' <= b)%nat -> Q a g' -> Q' a g' b') -> Wb p g b Q'.
Proof. intros H Hb HQ. eapply Wb_mono; [by apply H|]. intros a g' b' []. auto. Qed.

Lemma W_trigger e g (Q : sans e -> ghost -> Prop) :
  srv_pre g e -> (forall r g', sys_ok e r -> srv_next g e r g' -> Q r g') ->
  W (trigger e) g Q.
Proof.
  intros Hp HQ b Hb. apply Wb_trigger; [done|]. intros r g' b' Hok Hn Hr.
  split; [destruct (retry e r); lia|auto].
Qed.

Lemma W_bind {A C} (p : SP A) (k : A -> SP C) g Q :
  W p g (fun a g' => W (k a) g' Q) -> W (p ≫= k) g Q.
Proof.
  intros H b Hb. apply Wb_bind. eapply Wb_mono; [by apply H|]. intros a g' b' [Hb' Hk].
  eapply Wb_mono; [apply Hk; lia|]. intros c g2 b2 []. split; [lia|done].
Qed.

Lemma W_mono {A} (p : SP A) g (Q Q' : A -> ghost -> Prop) :
  W p g Q -> (forall a g', Q a g' -> Q' a g') -> W p g Q'.
Proof. intros H HQ b Hb. eapply Wb_mono; [by apply H|]. intros a g' b' []. auto. Qed.

Lemma W_ret {A} (a : A) g (Q : A -> ghost -> Prop) : Q a g -> W (mret a) g Q.
Proof. intros HQ b Hb. by apply Wb_ret. Qed.

(** A loop with an invariant and a measure that, together with the budget,
    decreases in every round. *)
Lemma W_loop_measure {S A} fuel (body : S -> SP (S + A)) (I : S -> ghost -> Prop) (m : S -> nat)
    (Q : A -> ghost -> Prop) s g :
  (forall s g b, I s g -> (b <= B)%nat ->
     Wb (body s) g b (fun r g' b' => (b' <= b)%nat /\
       match r with
       | inl s' => I s' g' /\ (total = true -> m s' + b' < m s + b)%nat
       | inr a => Q a g'
       end)) ->
  I s g -> (total = true -> m s + B < fuel)%nat -> W (loop fuel body s) g Q.
Proof.
  intros Hb HI Hf b Hb0. unfold Wb.
  apply (wp_loop total srv_env body (fun s '(g', b') => I s g' /\ (b' <= b)%nat)
           (fun s '(_, b') => m s + b')%nat); [|done|].
  - intros s' [g' b'] [HI' Hb']. eapply wp_mono; [apply (Hb s' g' b'); [done|lia]|].
    intros [s2|a] [g2 b2] [H1 H2]; [|split; [lia|done]].
    destruct H2 as [H2 H3]. split; [split; [done|lia]|]. intros Ht. apply H3 in Ht. lia.
  - intros Ht. apply Hf in Ht. lia.
Qed.

(** A loop that repeats only when its measure decreases. *)
Lemma W_loop {S A} fuel (body : S -> SP (S + A)) (I : S -> ghost -> Prop) (m : S -> nat)
    (Q : A -> ghost -> Prop) s g :
  (forall s g, I s g ->
     W (body s) g (fun r g' =>
       match r with inl s' => I s' g' /\ (total = true -> m s' < m s)%nat | inr a => Q a g' end)) ->
  I s g -> (total = true -> m s + B < fuel)%nat -> W (loop fuel body s) g Q.
Proof.
  intros Hb HI Hf. apply W_loop_measure with (I := I) (m := m); [|done|done].
  intros s' g' b HI' Hb'. eapply Wb_mono; [by apply Hb|]. intros [s2|a] g2 b2 [H1 H2]; [|done].
  destruct H2 as [H2 H3]. split_and!; [done|done|]. intros Ht. apply H3 in Ht. lia.
Qed.

Lemma W_rsp ec p g Q :
  g_done g = false -> ec <> ErrorPartialResponse -> in_u 8 ec = true ->
  p.2 = None -> 2 + len p.1 <= MaxResponseLength ->
  Q tt (set_done true g) -> W (trigger (SendRsp mark ec p)) g Q.
Proof.
  intros. apply W_trigger; [by repeat split|]. by intros [] g' _ ->.
Qed.

Lemma W_send final d g Q :
  g_done g = false -> data_frame mark final d -> Q tt (set_done final g) -> W (s_write d) g Q.
Proof.
  intros Hd Hf HQ. unfold s_write. apply W_trigger; [split; [constructor|eauto]|].
  intros [] g' _ (f & Hf' & ->). assert (f = final) as ->; [|done].
  destruct Hf as [[p1 H1] _], Hf' as [[p2 H2] _].
  destruct f, final; try done; rewrite H1 in H2; apply app_inj_1 in H2 as [_ H2]; by simplify_eq/=.
Qed.

Lemma W_bufget g (Q : Buffer -> ghost -> Prop) :
  (forall b, buf_ok b -> written b = 0 -> len (Bytes b) = MaxMsgSize ->
     Q b (set_bufs (S (g_bufs g)) g)) ->
  W (trigger BufGet) g Q.
Proof.
  intros HQ. apply W_trigger; [by repeat split|]. intros b g' (? & ? & ?) ->. by apply HQ.
Qed.

Lemma W_bufput g n Q :
  g_bufs g = S n -> Q tt (set_bufs n g) -> W (trigger BufPut) g Q.
Proof.
  intros Hn HQ. apply W_trigger; [split; [constructor|simpl; lia]|].
  intros r g' _ Hg'. simpl in *. rewrite Hn in Hg'. by destruct r; subst g'.
Qed.

(** ** Responses *)

Lemma wf_image fs : wf_fields fs = true -> (enc fs).2 = None /\ len (enc fs).1 = fsizes fs.
Proof.
  intros H. split; [by rewrite (wf_enc _ H)|]. by apply wire_length.
Qed.

Lemma W_writeRspOK g Q :
  g_done g = false -> Q tt (set_done true g) -> W (writeRspOK mark) g Q.
Proof. intros. by apply W_rsp. Qed.

Lemma truncate_desc_len desc : len (truncate_desc desc) <= MaxErrorDescLength.
Proof.
  unfold truncate_desc. destruct (Z.gtb_spec (len desc) MaxErrorDescLength); [|lia].
  unfold len at 1. rewrite length_take. unfold MaxErrorDescLength, MaxResponseLength, MaxMsgSize. lia.
Qed.

Lemma error_image desc :
  (enc (fields_RspError (mkRspError (truncate_desc desc)))).2 = None /\
  2 + len (enc (fields_RspError (mkRspError (truncate_desc desc)))).1 <= MaxResponseLength.
Proof.
  pose proof (truncate_desc_len desc) as Hl.
  assert (wf_fields (fields_RspError (mkRspError (truncate_desc desc))) = true) as Hwf.
  { unfold fields_RspError. rewrite wf_fields_cons. cbn [fval_wf RspError_Desc].
    unfold MaxErrorDescLength, MaxResponseLength, MaxMsgSize in Hl. rewrite andb_true_r. lia. }
  apply wf_image in Hwf as [H1 H2]. split; [done|]. rewrite H2.
  unfold MaxErrorDescLength in Hl. unfold fields_RspError. cbn [fsizes fsize RspError_Desc]. lia.
Qed.

Lemma W_writeRspError ec desc g Q :
  g_done g = false -> ec <> ErrorPartialResponse -> in_u 8 ec = true ->
  Q tt (set_done true g) -> W (writeRspError mark ec desc) g Q.
Proof. intros Hd He Hu HQ. destruct (error_image desc). by apply W_rsp. Qed.

Lemma W_writeRsp fs g Q :
  g_done g = false -> wf_fields fs = true -> 2 + fsizes fs <= MaxResponseLength ->
  Q tt (set_done true g) -> W (writeRsp mark fs) g Q.
Proof.
  intros Hd Hwf Hl HQ. apply wf_image in Hwf as [H1 H2]. apply W_rsp; try done. by rewrite H2.
Qed.

(** An error code of one byte. *)
Definition err_code (c : Z) : Prop := c <> ErrorPartialResponse /\ in_u 8 c = true /\ c <> ErrorOK.

Lemma wsfsErrCode_code e : err_code (wsfsErrCode e).
Proof.
  unfold wsfsErrCode. destruct (mlookup e errorCodeMap) eqn:E; [|done].
  eapply mlookup_Forall; [|done]. repeat constructor; done.
Qed.
Lemma osErrCode_code e : err_code (osErrCode e).
Proof. unfold osErrCode. simpl. by repeat case_match. Qed.
Lemma xattrErrorCode_code e : err_code (xattrErrorCode e).
Proof. unfold xattrErrorCode. case_match; [done|apply wsfsErrCode_code]. Qed.

Lemma W_err_code ec desc g Q :
  err_code ec -> g_done g = false -> Q tt (set_done true g) -> W (writeRspError mark ec desc) g Q.
Proof. intros (? & ? & ?) ? ?. by apply W_writeRspError. Qed.

Lemma W_syscall_error e g Q :
  g_done g = false -> Q tt (set_done true g) -> W (syscall_error mark e) g Q.
Proof. apply W_err_code, wsfsErrCode_code. Qed.

Lemma W_reply r g Q :
  g_done g = false -> Q tt (set_done true g) -> W (reply mark r) g Q.
Proof. destruct r; [apply W_writeRspOK|apply W_syscall_error]. Qed.

Lemma W_reply_with {A} r (fs : A -> list fval) g Q :
  g_done g = false ->
  (forall a, r = Ok a -> wf_fields (fs a) = true /\ 2 + fsizes (fs a) <= MaxResponseLength) ->
  Q tt (set_done true g) -> W (reply_with mark r fs) g Q.
Proof.
  intros Hd Hf HQ. destruct r as [a|e]; [|by apply W_syscall_error].
  destruct (Hf a eq_refl). by apply W_writeRsp.
Qed.

Definition err_of {A} (r : result errno A) : option errno :=
  match r with Err e => Some e | Ok _ => None end.

(** ** The prefixes of the handlers *)

Lemma W_with_path (s : session) p k g Q :
  storage_Path s = root -> root_ok root -> g_done g = false -> Q tt (set_done true g) ->
  (IsUrlValid p = true -> confined root (root ++ p) -> W (k (root ++ p)) g Q) ->
  W (with_path s mark p k) g Q.
Proof.
  intros Hs Hr Hd HQ Hk. unfold with_path. rewrite Hs. destruct (IsUrlValid p) eqn:Hv; cbn [negb].
  - apply Hk; [done|]. by apply confined_valid.
  - by apply W_writeRspError.
Qed.

Lemma W_with_paths (s : session) a b k g Q :
  storage_Path s = root -> root_ok root -> g_done g = false -> Q tt (set_done true g) ->
  (IsUrlValid a = true -> IsUrlValid b = true ->
   confined root (root ++ a) -> confined root (root ++ b) -> W (k (root ++ a) (root ++ b)) g Q) ->
  W (with_paths s mark a b k) g Q.
Proof.
  intros Hs Hr Hd HQ Hk. unfold with_paths. rewrite Hs.
  destruct (IsUrlValid a) eqn:Ha, (IsUrlValid b) eqn:Hb; cbn [negb orb];
    try by apply W_writeRspError.
  apply Hk; auto using confined_valid.
Qed.

Lemma W_with_fd fd k g Q :
  g_done g = false -> Q tt (set_done true g) ->
  (forall sfd, W (k sfd) g Q) -> W (with_fd mark fd k) g Q.
Proof.
  intros Hd HQ Hk. unfold with_fd. apply W_bind, W_trigger; [by repeat split|].
  intros [sfd|] g' _ ->; [done|]. by apply W_writeRspError.
Qed.

(** An interrupted call leaves no trace in the state and uses up budget. *)
Lemma W_ignoringEINTR {A} fuel (fn : SP (result errno A)) g (Q : result errno A -> ghost -> Prop) :
  (total = true -> B < fuel)%nat ->
  (forall b, (b <= B)%nat -> Wb fn g b (fun r g' b' => (b' <= b)%nat /\
     if bool_decide (err_of r = Some EINTR) then g' = g /\ (b' < b)%nat else Q r g')) ->
  W (ignoringEINTR fuel fn) g Q.
Proof.
  intros Hfuel Hfn. unfold ignoringEINTR.
  apply W_loop_measure with (I := fun _ g' => g' = g) (m := fun _ => 0%nat); [|done|done].
  intros _ g' b -> Hb. apply Wb_bind. eapply Wb_mono; [by apply Hfn|].
  intros [a|err] g' b' [Hb' HQ]; [by apply Wb_ret|]. simpl in HQ.
  destruct (Z.eqb_spec err EINTR) as [->|Hn]; apply Wb_ret.
  - rewrite bool_decide_true in HQ by done. destruct HQ. split_and!; [done..|lia].
  - rewrite bool_decide_false in HQ by congruence. done.
Qed.

Lemma remove_one_head x l : remove_one x (x :: l) = l.
Proof. simpl. by rewrite Z.eqb_refl. Qed.

Lemma W_newFD fuel sfd l g (Q : Z -> ghost -> Prop) :
  (total = true -> B < fuel)%nat -> g_fds g = sfd :: l ->
  (forall fd, in_u 32 fd = true -> Q fd (set_fds l g)) -> W (newFD fuel sfd) g Q.
Proof.
  intros Hfuel Hl HQ. unfold newFD.
  apply W_loop_measure with (I := fun _ g' => g' = g) (m := fun _ => 0%nat); [|done|done].
  intros _ g' b -> Hb. apply Wb_bind, Wb_trigger; [by repeat split|]. intros fd g' b' Hfd -> ->.
  apply Wb_bind, Wb_trigger; [by repeat split|]. intros [] g' b' _ -> Hr; apply Wb_ret; simpl in Hr.
  - split; [lia|]. split; [done|lia].
  - split; [lia|]. rewrite Hl, remove_one_head. by apply HQ.
Qed.
End Spec.

#[global] Arguments W _ _ _ _ {A} _ _ _ : simpl never.
#[global] Arguments Wb _ _ _ {A} _ _ _ _ : simpl never.

(** A handler that answers its request as the protocol asks, and terminates when
    [total] is set. *)
Definition answers (total : bool) (B : nat) (root : gostring) (mark : Z) (p : SP unit) : Prop :=
  W root mark total B p fresh (fun _ g => answered g).

(** The precondition of a request whose paths are known to be confined. *)
Ltac W_pre :=
  split;
  [ cbn [ev_paths];
    repeat (apply Forall_cons; split; [first [assumption | eauto with confine]|]);
    apply Forall_nil; exact I
  | try exact I ].

(** One request to the environment that does not touch the ghost state; the
    answer is named [r] and its law [Hok]. *)
Ltac W_call r Hok :=
  apply W_trigger; [W_pre|intros r ? Hok ->; cbn [sys_ok] in Hok].

Create HintDb confine.

(** A system call under ignoringEINTR: the cases of the answer remain, without
    the interrupted one. *)
Ltac W_eintr r g Hok :=
  apply W_ignoringEINTR; [assumption|];
  let b := fresh "b" in let Hb := fresh "Hb" in let Hr := fresh "Hr" in
  intros b Hb; apply Wb_trigger; [W_pre|];
  intros r g ? Hok ? Hr; cbn [sys_ok retry srv_next] in *;
  destruct r as [?|?e]; cbn [err_of];
  [ rewrite bool_decide_false by done; split; [lia|]; subst g
  | destruct (Z.eqb_spec e EINTR);
    [ rewrite bool_decide_true by congruence; subst g; split; [lia|]; split; [reflexivity|lia]
    | rewrite bool_decide_false by congruence; subst g; split; [lia|] ] ].
