(* ===== verification/ServerCmdsOk.v ===== *)
(** * The handlers of commands-unix.go answer as the protocol asks

    For every handler of ServerCmds: its requests stay within the storage and
    within the protocol of responses ([answers]). *)
From S2P Require Import Prelude GoIO Codec Structs StructGen Prog Paths UnixConv ServerEnv.
From S2P Require Import ServerCmds ServerSpec.

Section CmdsOk.
Context {abi : UnixABI} (fuel : nat) (s : session) (mark : Z) (total : bool) (B : nat).
Hypothesis Hroot : root_ok (storage_Path s).
Hypothesis Hfuel : (total = true -> B < fuel)%nat.

Abbreviation root := (storage_Path s).
Abbreviation W := (W root mark total B).
Abbreviation answers := (answers total B root mark).

(** A file command whose system call is answered with a plain reply. *)
Lemma answers_fd_reply fd (call : Z -> SP (result errno unit)) :
  (forall sfd, W (call sfd) fresh (fun _ g => g = fresh)) ->
  answers (with_fd mark fd (fun sfd => err ← call sfd; reply mark err)).
Proof.
  intros Hc. apply W_with_fd; [done..|]. intros sfd. apply W_bind.
  eapply W_mono; [apply Hc|]. intros r g ->. by apply W_reply.
Qed.

Lemma answers_path_reply p (call : gostring -> SP (result errno unit)) :
  (forall a, confined root a -> W (call a) fresh (fun _ g => g = fresh)) ->
  answers (with_path s mark p (fun apath => err ← call apath; reply mark err)).
Proof.
  intros Hc. apply W_with_path; [done..|]. intros _ Ha. apply W_bind.
  eapply W_mono; [by apply Hc|]. intros r g ->. by apply W_reply.
Qed.

Lemma answers_paths_reply a b (call : gostring -> gostring -> SP (result errno unit)) :
  (IsUrlValid a = true -> IsUrlValid b = true ->
   confined root (root ++ a) -> confined root (root ++ b) ->
   W (call (root ++ a) (root ++ b)) fresh (fun _ g => g = fresh)) ->
  answers (with_paths s mark a b (fun x y => err ← call x y; reply mark err)).
Proof.
  intros Hc. apply W_with_paths; [done..|]. intros ? ? Ha Hb. apply W_bind.
  eapply W_mono; [by apply Hc|]. intros r g ->. by apply W_reply.
Qed.

(** ** Open and close *)

Lemma cmdOpen_answers req : answers (cmdOpen fuel s mark req).
Proof.
  apply W_with_path; [done..|]. intros _ Ha.
  destruct (open_access _) as [oflag|]; [|by apply W_writeRspError].
  destruct (open_flag_loop _ _ _) as [oflag'|]; [|by apply W_writeRspError].
  apply W_bind. W_eintr r g Hok.
  - apply W_bind. eapply W_newFD; [done..|]. intros fd Hfd. apply W_writeRsp; try done.
    unfold fields_RspOpen. rewrite wf_fields_cons. cbn [fval_wf RspOpen_FD]. by rewrite Hfd.
  - by apply W_syscall_error.
Qed.

Lemma cmdClose_answers req : answers (cmdClose mark req).
Proof.
  apply W_with_fd; [done..|]. intros sfd. apply W_bind. W_call r Hok.
  apply W_bind, W_trigger; [W_pre|]. intros err g _ ->. by apply W_reply.
Qed.

(** ** Reading *)

(** The frame of a read, with the answer to an error left open: what the handlers
    for Unix and those for other systems have in common. *)
Definition read_frame (size : Z) (partial : bool) (call : Z -> SP (result errno bytes))
    (on_error : errno -> SP unit) : SP (Z * bool) :=
  buf ← trigger BufGet;
  let buf := (Buffer_Write (le_bytes 1 mark ++ le_bytes 1 ErrorOK) buf).2 in
  let n := i64 size in
  if (n <? 0) || (len (Bytes buf) - Buffer_Written buf <? n) then Panic
  else
    r ← call n;
    match r with
    | Err e => on_error e ;; trigger BufPut ;; mret (0, false)
    | Ok data =>
        let buf := mkBuffer (splice (Z.to_nat (Buffer_Written buf)) data (Bytes buf)) (written buf) in
        let buf := Buffer_Grow (len data) buf in
        let buf := if partial && (len data =? size)
                   then mkBuffer (splice 1 (le_bytes 1 ErrorPartialResponse) (Bytes buf)) (written buf)
                   else buf in
        s_write (Buffer_Done buf).1 ;; trigger BufPut ;; mret (len data, true)
    end.

(** When the system call keeps to its contract: one frame, which is partial only
    for a full chunk of a longer read. *)
Lemma W_read_frame size partial call on_error g (Q : Z * bool -> ghost -> Prop) :
  0 <= size <= maxReadPayLoad -> g_done g = false ->
  (forall e g (Q : unit -> ghost -> Prop), g_done g = false -> Q tt (set_done true g) -> W (on_error e) g Q) ->
  W (call size) (set_bufs (S (g_bufs g)) g)
    (fun r g' => g' = set_bufs (S (g_bufs g)) g /\ match r with Ok d => len d <= size | Err _ => True end) ->
  (forall n, 0 <= n <= size -> Q (n, true) (set_done (negb (partial && (n =? size))) g)) ->
  Q (0, false) (set_done true g) ->
  W (read_frame size partial call on_error) g Q.
Proof.
  intros Hsz Hd Herr Hcall HQ HQe. unfold maxReadPayLoad, MaxMsgSize in Hsz.
  unfold read_frame. apply W_bind, W_bufget. intros b Hb Hw Hl. unfold MaxMsgSize in Hl.
  destruct (Buffer_Write_contents (le_bytes 1 mark ++ le_bytes 1 ErrorOK) b Hb) as (H1 & H2 & H3 & H4).
  { unfold buf_room. rewrite Hw, Hl. done. }
  set (b1 := (Buffer_Write _ b).2) in *. rewrite Hl in H4.
  rewrite Hw in H3. change (len (le_bytes 1 mark ++ le_bytes 1 ErrorOK)) with 2 in H3.
  rewrite i64_id by lia. assert ((size <? 0) || (len (Bytes b1) - Buffer_Written b1 <? size) = false) as ->.
  { unfold Buffer_Written. rewrite H3, H4. lia. }
  apply W_bind. eapply W_mono; [exact Hcall|]. intros [data|e] g' [-> Hdata].
  - destruct (Buffer_fill_contents data b1) as [Hf1 Hf2]; [done| |].
    { unfold buf_room. rewrite H3, H4. lia. }
    set (b2 := Buffer_Grow (len data) _) in *.
    assert (buf_contents b = []) as Hc0 by (unfold buf_contents; by rewrite Hw).
    rewrite H2, Hc0 in Hf2. cbn [app le_bytes] in Hf2.
    assert (len (buf_contents b2) <= MaxResponseLength) as Hlen.
    { rewrite Hf2. rewrite !len_cons. unfold MaxResponseLength, MaxMsgSize. lia. }
    pose proof (len_nonneg data).
    destruct (partial && (len data =? size)) eqn:Ep.
    + destruct (Buffer_set_second (le_bytes 1 ErrorPartialResponse) b2 _ _ _ Hf1 eq_refl Hf2) as [Hs1 Hs2].
      apply W_bind. rewrite Buffer_Done_contents.
      eapply (W_send _ _ _ _ false); [done| |].
      { split; [by exists data|]. rewrite Hs2. rewrite Hf2 in Hlen.
        cbn [app le_bytes]. rewrite !len_cons in *. lia. }
      apply W_bind. eapply W_bufput; [done|]. apply W_ret.
      specialize (HQ (len data)). rewrite Ep in HQ. destruct g. apply HQ. lia.
    + apply W_bind. rewrite Buffer_Done_contents. eapply (W_send _ _ _ _ true); [done| |].
      { split; [by exists data|done]. }
      apply W_bind. eapply W_bufput; [done|]. apply W_ret.
      specialize (HQ (len data)). rewrite Ep in HQ. destruct g. apply HQ. lia.
  - apply W_bind, Herr; [done|]. apply W_bind. eapply W_bufput; [done|].
    apply W_ret. by destruct g.
Qed.

Lemma W_read_and_send size partial call g (Q : Z * bool -> ghost -> Prop) :
  0 <= size <= maxReadPayLoad -> g_done g = false ->
  W (call size) (set_bufs (S (g_bufs g)) g)
    (fun r g' => g' = set_bufs (S (g_bufs g)) g /\ match r with Ok d => len d <= size | Err _ => True end) ->
  (forall n, 0 <= n <= size -> Q (n, true) (set_done (negb (partial && (n =? size))) g)) ->
  Q (0, false) (set_done true g) ->
  W (read_and_send mark size partial call) g Q.
Proof.
  intros. apply (W_read_frame size partial call (syscall_error mark)); try done. apply W_syscall_error.
Qed.

Lemma W_readAndSend fd size partial g (Q : Z * bool -> ghost -> Prop) :
  0 <= size <= maxReadPayLoad -> g_done g = false ->
  (forall n, 0 <= n <= size -> Q (n, true) (set_done (negb (partial && (n =? size))) g)) ->
  Q (0, false) (set_done true g) ->
  W (readAndSend mark fd size partial) g Q.
Proof.
  intros Hs Hd H1 H2. apply W_read_and_send; try done. by W_call r Hok.
Qed.

Lemma W_readAtAndSend fd off size partial g (Q : Z * bool -> ghost -> Prop) :
  0 <= size <= maxReadPayLoad -> g_done g = false ->
  (forall n, 0 <= n <= size -> Q (n, true) (set_done (negb (partial && (n =? size))) g)) ->
  Q (0, false) (set_done true g) ->
  W (readAtAndSend mark fd off size partial) g Q.
Proof.
  intros Hs Hd H1 H2. apply W_read_and_send; try done. by W_call r Hok.
Qed.

Lemma maxReadPayLoad_val : maxReadPayLoad = 8190.
Proof. done. Qed.

Lemma W_cmdRead_loop sfd n g (Q : bool -> ghost -> Prop) :
  g_done g = false -> Q true (set_done true g) -> Q false g ->
  W (cmdRead_loop mark sfd n) g Q.
Proof.
  intros Hd HQt HQf. induction n as [|n IH]; cbn [cmdRead_loop]; [by apply W_ret|].
  apply W_bind, W_readAndSend; [rewrite maxReadPayLoad_val; lia|done| |by apply W_ret].
  intros k Hk. cbn [negb andb]. destruct (Z.ltb_spec k maxReadPayLoad).
  - apply W_ret. by rewrite (proj2 (Z.eqb_neq _ _)) by lia.
  - rewrite (proj2 (Z.eqb_eq _ _)) by lia. by destruct g; simpl in *; subst.
Qed.

Lemma W_cmdReadAt_loop sfd off n g (Q : bool * Z -> ghost -> Prop) :
  g_done g = false -> (forall off, Q (true, off) (set_done true g)) -> (forall off, Q (false, off) g) ->
  W (cmdReadAt_loop mark sfd off n) g Q.
Proof.
  intros Hd HQt HQf. revert off. induction n as [|n IH]; intros off; cbn [cmdReadAt_loop]; [by apply W_ret|].
  apply W_bind, W_readAtAndSend; [rewrite maxReadPayLoad_val; lia|done| |by apply W_ret].
  intros k Hk. cbn [negb andb]. destruct (Z.ltb_spec k maxReadPayLoad).
  - apply W_ret. by rewrite (proj2 (Z.eqb_neq _ _)) by lia.
  - rewrite (proj2 (Z.eqb_eq _ _)) by lia. destruct g; simpl in *; subst. apply IH.
Qed.

Lemma cmdRead_answers req :
  wf_fields (fields_CmdReadStruct req) = true -> answers (cmdRead mark req).
Proof.
  intros Hwf. unfold fields_CmdReadStruct in Hwf. codec_wf Hwf. apply W_with_fd; [done..|]. intros sfd. cbv zeta.
  assert (0 <= CmdRead_Size req < 2 ^ 64) by (by apply in_u_spec).
  pose proof (Z.mod_pos_bound (CmdRead_Size req) maxReadPayLoad) as Hm.
  rewrite maxReadPayLoad_val in Hm.
  destruct (Z.ltb_spec (CmdRead_Size req) maxReadPayLoad).
  - apply W_bind, W_readAndSend; [lia|done| |by apply W_ret]. intros n Hn. by apply W_ret.
  - apply W_bind, W_cmdRead_loop; [done|by apply W_ret|].
    case_match; [by apply W_writeRspOK|].
    apply W_bind, W_readAndSend; [rewrite maxReadPayLoad_val; lia|done| |by apply W_ret].
    intros n Hn. by apply W_ret.
Qed.

Lemma cmdReadAt_answers req :
  wf_fields (fields_CmdReadAtStruct req) = true -> answers (cmdReadAt mark req).
Proof.
  intros Hwf. unfold fields_CmdReadAtStruct in Hwf. codec_wf Hwf. apply W_with_fd; [done..|]. intros sfd. cbv zeta.
  assert (0 <= CmdReadAt_Size req < 2 ^ 64) by (by apply in_u_spec).
  pose proof (Z.mod_pos_bound (CmdReadAt_Size req) maxReadPayLoad) as Hm.
  rewrite maxReadPayLoad_val in Hm.
  destruct (Z.ltb_spec (CmdReadAt_Size req) maxReadPayLoad).
  - apply W_bind, W_readAtAndSend; [lia|done| |by apply W_ret]. intros n Hn. by apply W_ret.
  - apply W_bind, W_cmdReadAt_loop; [done|intros; by apply W_ret|]. intros off.
    case_match; [by apply W_writeRspOK|].
    apply W_bind, W_readAtAndSend; [rewrite maxReadPayLoad_val; lia|done| |by apply W_ret].
    intros n Hn. by apply W_ret.
Qed.

Lemma cmdReadLink_answers req : answers (cmdReadLink fuel s mark req).
Proof.
  apply W_with_path; [done..|]. intros _ Ha. apply W_bind.
  W_eintr r g Hok; [|by apply W_writeRspError].
  destruct Hok as [Ht Hp]. rename a into target. destruct target as [|c target]; [by unfold len in Ht; simpl in Ht; lia|].
  cbv zeta. set (t := if bool_decide (c = slash) then c :: target else Clean (Join _ _)).
  assert (len t <= 5000) as Hlen.
  { unfold t. case_bool_decide; [lia|]. destruct Ha as [Har _].
    destruct (Join_rooted_length _ (c :: target) Har) as [H1 H2].
    pose proof (Clean_length _ H2) as H3. unfold PATH_MAX, len in *. lia. }
  destruct (HasPrefix t root); [|by apply W_writeRspError].
  pose proof (TrimPrefix_length t root) as Htr.
  apply W_writeRsp; try done; unfold fields_RspReadLink;
    rewrite ?wf_fields_cons; cbn [fval_wf RspReadLink_TargetPath fsizes fsize].
  - rewrite andb_true_r. unfold len in *. lia.
  - unfold MaxResponseLength, MaxMsgSize, len in *. lia.
Qed.

Lemma wf_u64 v : in_u 64 (u64 v) = true.
Proof. by apply wrapu_range. Qed.

Lemma cmdSeek_answers req : answers (cmdSeek mark req).
Proof.
  apply W_with_fd; [done..|]. intros sfd.
  destruct (mlookup _ _) as [whence|]; [|by apply W_writeRspError].
  apply W_bind. W_call r Hok. apply W_reply_with; [done| |done]. intros off _.
  unfold fields_RspSeek. rewrite wf_fields_cons. cbn [fval_wf RspSeek_Offset]. by rewrite wf_u64.
Qed.

(** ** Writing *)

Lemma cmdWrite_answers req : answers (cmdWrite fuel mark req).
Proof.
  apply W_with_fd; [done..|]. intros sfd. apply W_bind.
  W_eintr r g Hok; (apply W_reply_with; [done| |done]); intros c _;
    unfold fields_RspWrite; rewrite wf_fields_cons; cbn [fval_wf RspWrite_Written]; by rewrite wf_u64.
Qed.

Lemma cmdWriteAt_answers req : answers (cmdWriteAt fuel mark req).
Proof.
  apply W_with_fd; [done..|]. intros sfd. apply W_bind.
  W_eintr r g Hok; (apply W_reply_with; [done| |done]); intros c _;
    unfold fields_RspWriteAt; rewrite wf_fields_cons; cbn [fval_wf RspWriteAt_Written]; by rewrite wf_u64.
Qed.

Lemma cmdAllocate_answers req : answers (cmdAllocate mark req).
Proof. apply answers_fd_reply. intros sfd. by W_call r Hok. Qed.

Lemma cmdSync_answers req : answers (cmdSync mark req).
Proof. apply answers_fd_reply. intros sfd. by W_call r Hok. Qed.

Lemma cmdCopyFileRange_answers req : answers (cmdCopyFileRange mark req).
Proof.
  unfold cmdCopyFileRange. case_match; [by apply W_writeRspError|].
  apply W_with_fd; [done..|]. intros sfd1. apply W_with_fd; [done..|]. intros sfd2.
  apply W_bind. W_call r Hok. apply W_reply_with; [done| |done]. intros c _.
  unfold fields_RspCopyFileRange. rewrite wf_fields_cons.
  cbn [fval_wf RspCopyFileRange_Copied]. by rewrite wf_u64.
Qed.

Lemma cmdCloneFileRange_answers req : answers (cmdCloneFileRange mark req).
Proof.
  apply W_with_fd; [done..|]. intros sfd1. apply answers_fd_reply. intros sfd2.
  unfold CloneFileRange. case_match; by W_call r Hok.
Qed.

(** ** Attributes *)

Lemma W_attr_step flag call rest :
  W call fresh (fun _ g => g = fresh) -> answers rest ->
  answers (attr_step mark flag call rest).
Proof.
  intros Hc Hr. unfold attr_step. destruct flag; [|done].
  apply W_bind. eapply W_mono; [exact Hc|]. intros [[]|e] g ->; [done|by apply W_syscall_error].
Qed.

Lemma W_SetPathMTime p ts :
  confined root p -> W (SetPathMTime p ts) fresh (fun _ g => g = fresh).
Proof.
  intros Hp. unfold SetPathMTime. destruct (unixTimespecs ts) as [[t1 t2]|e]; [|by apply W_ret].
  by W_call r Hok.
Qed.

Lemma W_SetFDMTime fd ts : W (SetFDMTime fd ts) fresh (fun _ g => g = fresh).
Proof.
  unfold SetFDMTime. destruct (unixTimespecs ts) as [[t1 t2]|e]; [|by apply W_ret].
  by W_call r Hok.
Qed.

Lemma cmdSetAttr_answers req : answers (cmdSetAttr s mark req).
Proof.
  apply W_with_path; [done..|]. intros _ Ha.
  apply W_attr_step; [by W_call r Hok|].
  apply W_attr_step; [by apply W_SetPathMTime|].
  apply W_attr_step; [by W_call r Hok|].
  apply W_attr_step; [by W_call r Hok|]. by apply W_writeRspOK.
Qed.

Lemma cmdSetAttrByFD_answers req : answers (cmdSetAttrByFD s mark req).
Proof.
  apply W_with_fd; [done..|]. intros sfd.
  apply W_attr_step; [by W_call r Hok|].
  apply W_attr_step; [by apply W_SetFDMTime|].
  apply W_attr_step; [by W_call r Hok|].
  apply W_attr_step; [by W_call r Hok|]. by apply W_writeRspOK.
Qed.

(** ** Directories and names *)

Lemma cmdMkdir_answers req : answers (cmdMkdir s mark req).
Proof. apply answers_path_reply. intros a Ha. by W_call r Hok. Qed.

Lemma cmdRemove_answers req : answers (cmdRemove s mark req).
Proof. apply answers_path_reply. intros a Ha. by W_call r Hok. Qed.

Lemma cmdRmDir_answers req : answers (cmdRmDir s mark req).
Proof. apply answers_path_reply. intros a Ha. by W_call r Hok. Qed.

Lemma cmdSymLink_answers req : answers (cmdSymLink s mark req).
Proof. apply answers_paths_reply. intros _ _ Ha Hb. by W_call r Hok. Qed.

Lemma cmdLink_answers req : answers (cmdLink s mark req).
Proof.
  apply W_with_paths; [done..|]. intros _ _ Ha Hb.
  destruct (EnableLink _); cbn [negb]; [|by apply W_writeRspError].
  apply W_bind. W_call r Hok. by apply W_reply.
Qed.

Lemma cmdFsStat_answers req : answers (cmdFsStat s mark req).
Proof.
  apply W_with_path; [done..|]. intros _ Ha. apply W_bind. unfold FsSize. apply W_bind.
  W_call r Hok. apply W_ret. apply W_reply_with; [done| |done].
  intros [[tot free] avail] E. destruct r as [[[[b1 b2] b3] b4]|e]; [|done]. simplify_eq.
  unfold fields_RspFsStat. rewrite !wf_fields_cons.
  cbn [fval_wf RspFsStat_Total RspFsStat_Free RspFsStat_Available]. by rewrite !wf_u64.
Qed.

Lemma W_Renameat2 fd1 a fd2 b flag g :
  confined root a -> confined root b -> W (Renameat2 fd1 a fd2 b flag) g (fun _ g' => g' = g).
Proof.
  intros Ha Hb. unfold Renameat2. case_match; [by apply W_ret|]. by W_call r Hok.
Qed.

(** The two directory descriptors of a rename with flags are closed again. *)
Lemma cmdRename_answers req : answers (cmdRename s mark req).
Proof.
  apply answers_paths_reply. intros Va Vb Ha Hb.
  pose proof (Dir_confined _ _ Hroot Va) as Da. pose proof (Dir_confined _ _ Hroot Vb) as Db.
  case_match; [by W_call r Hok|].
  apply W_bind, W_trigger; [W_pre|]. intros [fd1|e] g _ ->; [|by apply W_ret].
  apply W_bind, W_trigger; [W_pre|]. intros [fd2|e] g _ ->.
  - apply W_bind. eapply W_mono; [by apply W_Renameat2|]. intros r g ->.
    apply W_bind, W_trigger; [W_pre|]. intros r2 g _ ->.
    apply W_bind, W_trigger; [W_pre|]. intros r1 g _ ->. apply W_ret.
    simpl. rewrite Z.eqb_refl. simpl. by rewrite Z.eqb_refl.
  - apply W_bind, W_trigger; [W_pre|]. intros r1 g _ ->. apply W_ret. simpl. by rewrite Z.eqb_refl.
Qed.

(** ** Locks *)

Lemma mset_Forall (P : Z -> Prop) k v m : P v -> Forall P m.*2 -> Forall P (mset k v m).*2.
Proof.
  intros Hv Hm. induction m as [|[k' v'] m IH]; simpl; [by repeat constructor|].
  apply Forall_cons in Hm as [Hv' Hm]. case_match; simpl; constructor; auto.
Qed.

(** What an inverted table gives is a key of the table, or zero. *)
Lemma invert_u8 m k : Forall (fun v => in_u 8 v = true) m.*1 -> in_u 8 (mget k (invert m)) = true.
Proof.
  intros Hm. unfold mget. destruct (mlookup k (invert m)) as [v|] eqn:E; [|done]. simpl.
  apply (mlookup_Forall (fun v => in_u 8 v = true) k (invert m)); [|done]. unfold invert.
  assert (Forall (fun v => in_u 8 v = true) (@nil (Z * Z)).*2) as Hacc by constructor.
  revert Hacc. generalize (@nil (Z * Z)). clear E v. induction m as [|[k' v'] m IH]; intros acc Hacc; [done|].
  simpl in *. apply Forall_cons in Hm as [Hk' Hm]. apply IH; [done|]. by apply mset_Forall.
Qed.

Lemma LockTypeFromUnix_u8 t : in_u 8 (mget t LockTypeFromUnix) = true.
Proof. apply invert_u8. repeat constructor. Qed.
Lemma WhenceFromUnix_u8 t : in_u 8 (mget t WhenceFromUnix) = true.
Proof. apply invert_u8. repeat constructor. Qed.

Lemma lockFromSys_wf f : wf_fields (fields_FileLockInfo (lockFromSys f)) = true.
Proof.
  unfold lockFromSys, fields_FileLockInfo. case_match; rewrite !wf_fields_cons;
    cbn [fval_wf FileLockInfo_Type FileLockInfo_Whence FileLockInfo_Start FileLockInfo_Size];
    rewrite LockTypeFromUnix_u8, ?WhenceFromUnix_u8, ?wf_u64; done.
Qed.

Lemma cmdGetFileLock_answers req : answers (cmdGetFileLock mark req).
Proof.
  apply W_with_fd; [done..|]. intros sfd. apply W_bind. unfold GetLock.
  destruct (lockToSys _) as [flock|].
  - apply W_bind. W_call r Hok. apply W_ret. apply W_reply_with; [done| |done].
    intros lk E. destruct r; [|done]. simplify_eq. unfold fields_RspGetFileLock.
    cbn [RspGetFileLock_FileLock]. by rewrite lockFromSys_wf.
  - apply W_ret. by apply W_reply_with.
Qed.

Lemma cmdSetFileLockCommon_answers fd lk blocking :
  answers (cmdSetFileLockCommon mark fd lk blocking).
Proof.
  apply answers_fd_reply. intros sfd. unfold SetLock.
  destruct (lockToSys lk) as [flock|]; [|by apply W_ret].
  apply W_bind. W_call r Hok. by apply W_ret.
Qed.
End CmdsOk.
