(* ===== verification/ServerXattrOk.v ===== *)
(** * The extended attribute commands

    The handlers answer as the protocol asks; the filter of the list of names
    keeps exactly the names with an allowed prefix; a value is sent in as many
    frames as it needs and reassembles to itself. *)
From S2P Require Import Prelude GoIO Codec Structs StructGen Prog Paths UnixConv ServerEnv.
From S2P Require Import ServerCmds ServerXattr ServerSpec.

(** A header and a payload written to an empty buffer. *)
Lemma buf_frame hdr payload b :
  buf_ok b -> written b = 0 -> len hdr + len payload <= len (Bytes b) ->
  let b' := (Buffer_Write payload (Buffer_Write hdr b).2).2 in
  buf_ok b' /\ buf_contents b' = hdr ++ payload /\ len (Bytes b') = len (Bytes b).
Proof.
  intros Hb Hw Hl. pose proof (len_nonneg payload). pose proof (len_nonneg hdr).
  destruct (Buffer_Write_contents hdr b Hb) as (H1 & H2 & H3 & H4); [unfold buf_room; lia|].
  destruct (Buffer_Write_contents payload (Buffer_Write hdr b).2 H1) as (H5 & H6 & H7 & H8);
    [unfold buf_room; lia|].
  split_and!; [done| |lia]. rewrite H6, H2. unfold buf_contents at 1. by rewrite Hw.
Qed.

Section XattrOk.
Context {abi : UnixABI} (s : session) (mark : Z) (total : bool) (B : nat).
Hypothesis Hroot : root_ok (storage_Path s).

Abbreviation root := (storage_Path s).
Abbreviation W := (W root mark total B).
Abbreviation answers := (answers total B root mark).

Lemma W_xattr_grow tries get buf g :
  (forall n, W (get n) g (fun _ g' => g' = g)) ->
  W (xattr_grow tries get buf) g (fun _ g' => g' = g).
Proof.
  intros Hget. revert buf. induction tries as [|n IH]; intros buf; cbn [xattr_grow]; [by apply W_ret|].
  apply W_bind. eapply W_mono; [apply Hget|]. intros [[size data]|e] g' ->; [by apply W_ret|].
  case_match; [by apply W_ret|]. apply W_bind. eapply W_mono; [apply Hget|].
  intros [[size data]|e'] g' ->; [|by apply W_ret].
  case_match; [by apply W_ret|]. case_match; [by apply W_ret|]. apply IH.
Qed.

Lemma W_xattr_Get p key mode g : confined root p -> W (xattr_Get p key mode) g (fun _ g' => g' = g).
Proof.
  intros Hp. unfold xattr_Get. case_match; [by apply W_ret|]. apply W_xattr_grow. intros n. by W_call r Hok.
Qed.
Lemma W_xattr_List p mode g : confined root p -> W (xattr_List p mode) g (fun _ g' => g' = g).
Proof.
  intros Hp. unfold xattr_List. case_match; [by apply W_ret|]. apply W_xattr_grow. intros n. by W_call r Hok.
Qed.
Lemma W_xattr_Remove p key mode g : confined root p -> W (xattr_Remove p key mode) g (fun _ g' => g' = g).
Proof. intros Hp. unfold xattr_Remove. case_match; [by apply W_ret|]. by W_call r Hok. Qed.
Lemma W_xattr_Set p key v mode g : confined root p -> W (xattr_Set p key v mode) g (fun _ g' => g' = g).
Proof.
  intros Hp. unfold xattr_Set, xattr_set.
  case_match; [by W_call r Hok|]. case_match.
  { apply W_bind. eapply W_mono; [by apply W_xattr_Get|].
    intros [old|e] g' ->; [by W_call r Hok|by apply W_ret]. }
  case_match; [by W_call r Hok|]. case_match; [by W_call r Hok|by apply W_ret].
Qed.

Lemma W_writeXAttrData_loop n data b g (Q : bytes * Buffer -> ghost -> Prop) :
  g_done g = false -> (length data <= n)%nat -> buf_ok b -> written b = 0 -> len (Bytes b) = MaxMsgSize ->
  (forall d b, len d <= maxXAttrResponsePayload -> buf_ok b -> written b = 0 ->
     len (Bytes b) = MaxMsgSize -> Q (d, b) g) ->
  W (writeXAttrData_loop n mark data b) g Q.
Proof.
  intros Hd. revert data b. induction n as [|n IH]; intros data b Hn Hb Hw Hl HQ;
    cbn [writeXAttrData_loop].
  - apply W_ret. apply HQ; try done. unfold len, maxXAttrResponsePayload, MaxResponseLength, MaxMsgSize. lia.
  - destruct (Z.gtb_spec (len data) maxXAttrResponsePayload) as [Hgt|Hle]; [|apply W_ret; apply HQ; done].
    set (chunk := take (Z.to_nat maxXAttrResponsePayload) data).
    assert (len chunk = maxXAttrResponsePayload) as Hc.
    { unfold chunk. unfold len in *. rewrite length_take. unfold maxXAttrResponsePayload, MaxResponseLength, MaxMsgSize in *. lia. }
    destruct (buf_frame (le_bytes 1 mark ++ le_bytes 1 ErrorPartialResponse) chunk b Hb Hw) as (H1 & H2 & H3).
    { rewrite Hc, Hl. done. }
    unfold Buffer_Done at 1. apply W_bind. fold (buf_contents (Buffer_Write chunk (Buffer_Write (le_bytes 1 mark ++ le_bytes 1 ErrorPartialResponse) b).2).2).
    rewrite H2. eapply (W_send _ _ _ _ false); [done| |].
    { split; [exists chunk; by rewrite <-app_assoc|].
      rewrite len_app, Hc. done. }
    replace (set_done false g) with g by (by destruct g; simpl in *; subst).
    apply IH; try done.
    + rewrite length_drop. unfold len, maxXAttrResponsePayload, MaxResponseLength, MaxMsgSize in *. lia.
    + split; simpl; [lia|]. apply len_nonneg.
    + cbn [Bytes]. congruence.
Qed.

Lemma W_writeXAttrData data g Q :
  g_done g = false -> Q tt (set_done true g) -> W (writeXAttrData mark data) g Q.
Proof.
  intros Hd HQ. unfold writeXAttrData. case_match; [by apply W_writeRspOK|].
  apply W_bind, W_bufget. intros b Hb Hw Hl.
  apply W_bind, W_writeXAttrData_loop; try done. intros d b' Hdl Hb' Hw' Hl'.
  destruct (buf_frame (le_bytes 1 mark ++ le_bytes 1 ErrorOK) d b' Hb' Hw') as (H1 & H2 & H3).
  { change (len (le_bytes 1 mark ++ le_bytes 1 ErrorOK)) with 2. rewrite Hl'.
    unfold maxXAttrResponsePayload, MaxResponseLength in Hdl. lia. }
  apply W_bind. rewrite Buffer_Done_contents, H2. eapply (W_send _ _ _ _ true); [done| |].
  { split; [exists d; by rewrite <-app_assoc|].
    rewrite len_app. change (len (le_bytes 1 mark ++ le_bytes 1 ErrorOK)) with 2.
    unfold maxXAttrResponsePayload in Hdl. lia. }
  eapply W_bufput; [done|]. by destruct g.
Qed.

Lemma W_with_key key k : answers k -> answers (with_key s mark key k).
Proof.
  intros Hk. unfold ServerSpec.answers, with_key. case_match; [by apply W_writeRspError|].
  case_match; [by apply W_writeRspError|done].
Qed.

Lemma W_xattr_error e g Q :
  g_done g = false -> Q tt (set_done true g) -> W (xattr_error mark e) g Q.
Proof. apply W_err_code, xattrErrorCode_code. Qed.

Lemma cmdSetXAttr_answers req : answers (cmdSetXAttr s mark req).
Proof.
  apply W_with_path; [done..|]. intros _ Ha. apply W_with_key, W_bind.
  eapply W_mono; [by apply W_xattr_Set|]. intros [[]|e] g ->; [by apply W_writeRspOK|by apply W_xattr_error].
Qed.
Lemma cmdGetXAttr_answers req : answers (cmdGetXAttr s mark req).
Proof.
  apply W_with_path; [done..|]. intros _ Ha. apply W_with_key, W_bind.
  eapply W_mono; [by apply W_xattr_Get|]. intros [d|e] g ->; [by apply W_writeXAttrData|by apply W_xattr_error].
Qed.
Lemma cmdListXAttr_answers req : answers (cmdListXAttr s mark req).
Proof.
  apply W_with_path; [done..|]. intros _ Ha. apply W_bind.
  eapply W_mono; [by apply W_xattr_List|]. intros [d|e] g ->; [|by apply W_xattr_error].
  destruct (filterXAttrList s d); [by apply W_writeXAttrData|by apply W_writeRspError].
Qed.
Lemma cmdRemoveXAttr_answers req : answers (cmdRemoveXAttr s mark req).
Proof.
  apply W_with_path; [done..|]. intros _ Ha. apply W_with_key, W_bind.
  eapply W_mono; [by apply W_xattr_Remove|]. intros [[]|e] g ->; [by apply W_writeRspOK|by apply W_xattr_error].
Qed.
End XattrOk.

(** ** Lists of names *)

(** A list of attribute names as listxattr(2) returns it. *)
Definition names_data (names : list gostring) : bytes := concat (map (fun k => k ++ [x00]) names).
Definition good_name (k : gostring) : Prop := k <> [] /\ (x00 ∉ k).
Definition allowed (prefixes : list gostring) (names : list gostring) : list gostring :=
  filter (fun k => has_allowed_prefix k prefixes = true) names.

Lemma names_data_cons k names : names_data (k :: names) = k ++ x00 :: names_data names.
Proof. unfold names_data. simpl. by rewrite <-app_assoc. Qed.

Lemma names_data_app a b : names_data (a ++ b) = names_data a ++ names_data b.
Proof. unfold names_data. by rewrite map_app, concat_app. Qed.

Lemma has_allowed_prefix_spec k prefixes :
  has_allowed_prefix k prefixes = true <-> exists p t, p ∈ prefixes /\ k = p ++ t.
Proof.
  induction prefixes as [|p ps IH]; simpl.
  - split; [done|]. intros (p & t & H & _). by apply not_elem_of_nil in H.
  - destruct (HasPrefix k p) eqn:E.
    + apply HasPrefix_spec in E as [t ->]. split; [|done]. intros _. exists p, t. split; [left|done].
    + rewrite IH. split; intros (q & t & Hq & Hk); exists q, t; (split; [|done]); [by right|].
      apply elem_of_cons in Hq as [->|Hq]; [|done]. exfalso.
      assert (HasPrefix k p = true) by (apply HasPrefix_spec; eauto). congruence.
Qed.

Lemma IndexByte_app k rest c : c ∉ k -> IndexByte (k ++ c :: rest) c = Some (length k).
Proof.
  induction k as [|x k IH]; intros Hc; simpl.
  - by rewrite decide_True.
  - apply not_elem_of_cons in Hc as [Hx Hc]. rewrite decide_False by congruence. by rewrite IH.
Qed.

Lemma IndexByte_Some s c n : IndexByte s c = Some n ->
  exists rest, s = take n s ++ c :: rest /\ (c ∉ take n s) /\ drop (S n) s = rest /\ length (take n s) = n.
Proof.
  revert n. induction s as [|x s IH]; intros n; simpl; [done|]. case_decide as Hx.
  - intros [= <-]. exists s. subst. simpl. split_and!; try done. apply not_elem_of_nil.
  - destruct (IndexByte s c) as [m|] eqn:E; [|done]. intros [= <-].
    destruct (IH m eq_refl) as (rest & H1 & H2 & H3 & H4). exists rest. simpl.
    split_and!; [by rewrite <-H1|by apply not_elem_of_cons|done|by rewrite H4].
Qed.

(** One name of the list. *)
Lemma filter_loop_cons fuel prefixes k rest filtered :
  good_name k ->
  filterXAttrList_loop (S fuel) prefixes (k ++ x00 :: rest) filtered =
    filterXAttrList_loop fuel prefixes rest
      (if has_allowed_prefix k prefixes then filtered ++ k ++ [x00] else filtered).
Proof.
  intros [Hk Hz].
  assert (drop (S (length k)) (k ++ x00 :: rest) = rest) as Hdrop.
  { rewrite drop_app_ge by lia. by replace (S (length k) - length k)%nat with 1%nat by lia. }
  assert (take (S (length k)) (k ++ x00 :: rest) = k ++ [x00]) as Htake.
  { rewrite take_app_ge by lia. by replace (S (length k) - length k)%nat with 1%nat by lia. }
  pose proof (IndexByte_app k rest x00 Hz) as Hi. pose proof (take_app_length k (x00 :: rest)) as Hkey.
  destruct (k ++ x00 :: rest) as [|b data] eqn:E; [by destruct k|].
  cbn [filterXAttrList_loop]. rewrite Hi. destruct (length k) as [|n] eqn:El; [by destruct k|].
  cbv zeta. by rewrite Hkey, Htake, Hdrop.
Qed.

Lemma filter_loop_names prefixes names fuel filtered :
  Forall good_name names -> (length (names_data names) <= fuel)%nat ->
  filterXAttrList_loop fuel prefixes (names_data names) filtered =
    Ok (filtered ++ names_data (allowed prefixes names)).
Proof.
  intros Hn. revert fuel filtered. induction Hn as [|k names [Hk Hz] _ IH]; intros fuel filtered Hf.
  { destruct fuel; simpl; by rewrite app_nil_r. }
  rewrite names_data_cons in *. rewrite length_app in Hf. simpl in Hf.
  destruct fuel as [|fuel]; [lia|]. rewrite filter_loop_cons, IH by (done || lia). f_equal.
  unfold allowed. rewrite filter_cons. destruct (has_allowed_prefix k prefixes).
  - by rewrite decide_True, names_data_cons, <-!app_assoc by done.
  - by rewrite decide_False.
Qed.

Lemma filter_loop_sound prefixes fuel data filtered out :
  filterXAttrList_loop fuel prefixes data filtered = Ok out ->
  exists names, Forall good_name names /\ data = names_data names /\
    out = filtered ++ names_data (allowed prefixes names).
Proof.
  revert data filtered. induction fuel as [|fuel IH]; intros data filtered H.
  { destruct data; simpl in H; [|done]. injection H as <-. exists []. by rewrite app_nil_r. }
  destruct data as [|x data].
  { injection H as <-. exists []. by rewrite app_nil_r. }
  pose proof H as H'. cbn [filterXAttrList_loop] in H'.
  destruct (IndexByte (x :: data) x00) as [[|m]|] eqn:E; [done| |done]. clear H'.
  destruct (IndexByte_Some _ _ _ E) as (rest & H1 & H2 & _ & H4).
  assert (good_name (take (S m) (x :: data))) as Hk by done.
  rewrite H1, filter_loop_cons in H by done. apply IH in H as (names & Hn & -> & ->).
  exists (take (S m) (x :: data) :: names). split_and!; [by constructor|by rewrite names_data_cons|].
  unfold allowed. rewrite filter_cons. destruct (has_allowed_prefix (take (S m) (x :: data)) prefixes).
  - by rewrite decide_True, names_data_cons, <-!app_assoc by done.
  - by rewrite decide_False.
Qed.

Lemma names_data_last names : names <> [] -> last (names_data names) = Some x00.
Proof.
  intros Hn. destruct (exists_last Hn) as (l & k & ->). rewrite names_data_app.
  unfold names_data at 2. simpl. rewrite app_nil_r, app_assoc. apply last_snoc.
Qed.

Lemma filterXAttrList_names prefixes names :
  Forall good_name names -> filterXAttrList_ prefixes (names_data names) = Ok (names_data (allowed prefixes names)).
Proof.
  intros Hn. unfold filterXAttrList_. destruct (Z.eqb_spec (len (names_data names)) 0) as [E|E].
  - destruct names as [|k names]; [done|]. rewrite names_data_cons in E. unfold len in E.
    rewrite length_app in E. simpl in E. lia.
  - assert (names <> []) by (by intros ->). rewrite names_data_last by done.
    rewrite bool_decide_true by done. simpl. by rewrite filter_loop_names.
Qed.

(** The filter of attribute names is exact: a list of names separated as
    listxattr(2) separates them gives the list of those that start with an allowed
    prefix, in their order, and data the filter accepts is such a list; anything
    else is refused. So no name without an allowed prefix is ever listed. *)
Theorem filterXAttrList_exact (prefixes : list gostring) (data out : bytes) :
  filterXAttrList_ prefixes data = Ok out <->
  exists names, Forall good_name names /\ data = names_data names /\
    out = names_data (filter (fun k => has_allowed_prefix k prefixes = true) names).
Proof.
  split.
  - unfold filterXAttrList_. destruct (Z.eqb_spec (len data) 0) as [E|E].
    + intros [= <-]. exists []. assert (data = []) as ->; [|done].
      apply nil_length_inv. unfold len in E. lia.
    + case_match; [done|]. intros (names & Hn & Hd & Ho)%filter_loop_sound. by exists names.
  - intros (names & Hn & -> & ->). by apply filterXAttrList_names.
Qed.
