(* ===== verification/ServerReadDirOk.v ===== *)
(** * Attributes and directories answer as the protocol asks

    cmdGetAttr, cmdReadDir and cmdReadDirPlus: confinement of every path looked
    up while a directory is walked, frames within their size, all opened
    directories closed. *)
From S2P Require Import Prelude GoIO Codec Structs StructGen Prog Paths UnixConv ServerEnv.
From S2P Require Import ServerCmds ServerReadDir ServerSpec.

(** ** Directory entries on the wire *)

Definition dirent_ok (d : Dirent) : Prop :=
  wf_fields (fields_Dirent d) = true /\ len (Dirent_Name d) <= 255.

Lemma GetDirent_size d : dirent_ok d ->
  GetDirentRequiredSize d = len (wire (fields_Dirent d)) /\ GetDirentRequiredSize d <= 300.
Proof.
  intros [Hwf Hl]. pose proof (c_size_spec (c := codec_Dirent) d Hwf) as E.
  split; [done|]. unfold GetDirentRequiredSize, GetTimespecRequiredSize. lia.
Qed.

Lemma buf_write_dirent_eq d b :
  buf_ok b -> dirent_ok d -> buf_write_dirent d b = (Buffer_writer (wire (fields_Dirent d)) b).2.
Proof.
  intros Hb [Hwf _]. unfold buf_write_dirent.
  pose proof (c_write_spec (c := codec_Dirent) Buffer d b Hb) as E. cbn [c_write codec_Dirent] in E.
  rewrite E, (wf_enc _ Hwf). done.
Qed.

Lemma irregular_ok e : entry_ok e -> dirent_ok (irregular_dirent (de_Name e)).
Proof.
  intros [_ Hl]. split; [|done]. unfold irregular_dirent, fields_Dirent.
  codec_wf_goal ltac:(first [done | cbn [Dirent_Name]; lia]).
Qed.

(** ** Frames under construction *)

Section Frames.
Context (mark : Z).

(** The buffer holds a frame of this response, so far marked partial. *)
Definition open_frame (b : Buffer) : Prop :=
  buf_ok b /\ len (Bytes b) = MaxMsgSize /\
  exists payload, buf_contents b = rsp_header mark ErrorPartialResponse ++ payload.

Lemma open_frame_new b :
  buf_ok b -> written b = 0 -> len (Bytes b) = MaxMsgSize ->
  open_frame (buf_write (rsp_header mark ErrorPartialResponse) b) /\
  written (buf_write (rsp_header mark ErrorPartialResponse) b) = 2.
Proof.
  intros Hb Hw Hl. unfold buf_write.
  destruct (Buffer_Write_contents (rsp_header mark ErrorPartialResponse) b Hb) as (H1 & H2 & H3 & H4).
  { unfold buf_room. rewrite Hw, Hl. done. }
  rewrite Hw in H3. split; [|done]. split_and!; [done|by rewrite H4|].
  exists []. rewrite H2. unfold buf_contents at 1. by rewrite Hw.
Qed.

Lemma open_frame_write d b :
  open_frame b -> written b + len d <= MaxMsgSize ->
  open_frame (buf_write d b) /\ written (buf_write d b) = written b + len d.
Proof.
  intros (Hb & Hl & payload & Hc) Hd. unfold buf_write.
  destruct (Buffer_Write_contents d b Hb) as (H1 & H2 & H3 & H4); [unfold buf_room; lia|].
  split; [|done]. split_and!; [done|by rewrite H4|]. exists (payload ++ d). by rewrite H2, Hc, app_assoc.
Qed.

Lemma open_frame_dirent d b :
  open_frame b -> dirent_ok d -> written b + GetDirentRequiredSize d <= MaxMsgSize ->
  open_frame (buf_write_dirent d b).
Proof.
  intros Hf Hd Hl. pose proof Hf as (Hb & _). destruct (GetDirent_size d Hd) as [E _].
  rewrite buf_write_dirent_eq by done. rewrite E in Hl.
  destruct (open_frame_write (wire (fields_Dirent d)) b Hf Hl) as [H _].
  unfold buf_write in H. unfold Buffer_writer. by destruct (Buffer_Write _ b) as [[n e] b'].
Qed.

Lemma open_frame_partial b : open_frame b -> data_frame mark false (buf_contents b).
Proof.
  intros (Hb & Hl & payload & Hc). split.
  - exists payload. rewrite Hc. unfold rsp_header. by rewrite <-app_assoc.
  - rewrite buf_contents_length by done. destruct Hb. unfold MaxResponseLength. lia.
Qed.

Lemma open_frame_final b :
  open_frame b -> data_frame mark true (buf_contents (buf_set_code ErrorOK b)).
Proof.
  intros (Hb & Hl & payload & Hc). unfold rsp_header in Hc. cbn [le_bytes app] in Hc.
  destruct (Buffer_set_second (le_bytes 1 ErrorOK) b _ _ _ Hb eq_refl Hc) as [H1 H2].
  fold (buf_set_code ErrorOK b) in H1, H2. split; [exists payload; by rewrite H2|].
  rewrite buf_contents_length by done. destruct Hb. simpl. unfold MaxResponseLength. lia.
Qed.

Lemma open_frame_reset b :
  open_frame b -> open_frame (buf_write (rsp_header mark ErrorPartialResponse) (Buffer_Done b).2) /\
  written (buf_write (rsp_header mark ErrorPartialResponse) (Buffer_Done b).2) = 2.
Proof.
  intros (Hb & Hl & _). apply open_frame_new; [|done|done].
  rewrite Buffer_Done_reset. split; [done|]. apply len_nonneg.
Qed.
End Frames.

Section ReadDirOk.
Context {abi : UnixABI} (fuel : nat) (s : session) (mark : Z) (total : bool) (B : nat).
Hypothesis Hroot : root_ok (storage_Path s).
(** 502 is one more than the entries a prefetch goes through. *)
Hypothesis Hfuel : (total = true -> B + 502 < fuel)%nat.

Abbreviation root := (storage_Path s).
Abbreviation W := (W root mark total B).
Abbreviation answers := (answers total B root mark).
Abbreviation open_frame := (open_frame mark).

(** ** Lookups *)

Definition stat_ok (r : result errno (fileinfo * Timespec)) : Prop :=
  match r with
  | Ok (fi, mtime) => wf_fields (fields_Timespec mtime) = true /\ mtime = fi_ModTime fi
  | Err _ => True
  end.

Lemma W_timeval_Stat p follow g (Q : result errno (fileinfo * Timespec) -> ghost -> Prop) :
  confined root p ->
  (forall r, stat_ok r ->
     (forall fi mtime, r = Ok (fi, mtime) -> follow = false ->
        has_flag (fi_Mode fi) ModeSymlink = true -> ordinary (fi_Name fi)) -> Q r g) ->
  W (timeval_Stat p follow) g Q.
Proof.
  intros Hp HQ. unfold timeval_Stat, StatFallback. apply W_bind.
  destruct follow; W_call r Hok; apply W_ret; apply HQ.
  - destruct r; done.
  - done.
  - destruct r; [|done]. by destruct Hok.
  - intros fi mtime E _ Hl. destruct r as [fi'|]; [|done]. simplify_eq.
    destruct Hok as [_ Hok]. destruct (Hok Hl) as (d & _ & Ho). done.
Qed.

Lemma W_restricting base fi g (Q : result errno (fileinfo * Timespec) -> ghost -> Prop) :
  confined root (base ++ str "/") -> ordinary (fi_Name fi) ->
  wf_fields (fields_Timespec (fi_ModTime fi)) = true ->
  (forall r, stat_ok r -> Q r g) ->
  W (restrictingSymlinkByFileInfo s (base ++ str "/") fi) g Q.
Proof.
  intros Hb Hn Ht HQ. pose proof (confined_entry root base (fi_Name fi) Hb Hn) as Hp.
  unfold restrictingSymlinkByFileInfo. apply W_bind. W_call r Hok.
  destruct r as [[|c target]|e]; [done| |by apply W_ret, HQ].
  cbv zeta. case_match; [by apply W_ret, HQ|].
  apply W_timeval_Stat; [done|]. auto.
Qed.

Lemma convOwner_u8 fi : in_u 8 (convOwner s fi) = true.
Proof. unfold convOwner. by repeat case_match. Qed.

Lemma W_lookupDirent base e g (Q : result errno Dirent -> ghost -> Prop) :
  confined root (base ++ str "/") -> entry_ok e ->
  (forall r, match r with Ok d => dirent_ok d | Err _ => True end -> Q r g) ->
  W (lookupDirent s (base ++ str "/") e) g Q.
Proof.
  intros Hb [Hn Hl] HQ. unfold lookupDirent. apply W_bind, W_timeval_Stat.
  { by apply confined_entry. }
  intros r Hr Hlink. destruct r as [[fi mtime]|err]; [|by apply W_ret, HQ].
  assert (forall r, stat_ok r ->
    match match r with
          | Ok (fi, mtime) => Ok (mkDirent (de_Name e) (u64 (fi_Size fi)) mtime (u32 (fi_Mode fi)) (convOwner s fi))
          | Err e => Err e end : result errno Dirent with Ok d => dirent_ok d | Err _ => True end) as Hd.
  { intros [[fi' mt]|]; [|done]. intros [Hmt _]. split; [|done]. unfold fields_Dirent.
    codec_wf_goal ltac:(first [exact Hmt | cbn [Dirent_Name]; lia | apply convOwner_u8
                              | by apply wrapu_range | done]). }
  apply W_bind. destruct (has_flag (fi_Mode fi) ModeSymlink) eqn:Es.
  - destruct Hr as [Hr ->]. apply W_restricting; [done|by eapply Hlink|done|].
    intros r' Hr'. apply W_ret, HQ. by apply Hd.
  - apply W_ret, W_ret, HQ. by apply (Hd (Ok (fi, mtime))).
Qed.

Lemma W_lookupDirentSafe base e g (Q : Dirent -> ghost -> Prop) :
  confined root (base ++ str "/") -> entry_ok e ->
  (forall d, dirent_ok d -> Q d g) -> W (lookupDirentSafe s (base ++ str "/") e) g Q.
Proof.
  intros Hb He HQ. apply W_bind, W_lookupDirent; [done..|].
  intros [d|err] Hd; apply W_ret, HQ; [done|by apply irregular_ok].
Qed.

Lemma W_getAttr p g (Q : result errno (fileinfo * Timespec) -> ghost -> Prop) :
  IsUrlValid p = true -> (forall r, stat_ok r -> Q r g) -> W (getAttr s (root ++ p)) g Q.
Proof.
  intros Hv HQ. apply W_bind, W_timeval_Stat; [by apply confined_valid|].
  intros r Hr Hlink. destruct r as [[fi mtime]|e]; [|by apply W_ret, HQ].
  destruct (has_flag (fi_Mode fi) ModeSymlink) eqn:Es; cbn [negb]; [|by apply W_ret, HQ].
  destruct Hr as [Hr ->]. apply W_restricting; [|by eapply Hlink|done|done].
  by apply confined_trailing, Dir_confined.
Qed.

Lemma cmdGetAttr_answers req : answers (cmdGetAttr s mark req).
Proof.
  apply W_with_path; [done..|]. intros Hv _. apply W_bind, W_getAttr; [done|].
  intros [[fi mtime]|e] Hr; [|apply W_err_code; [apply osErrCode_code|done..]].
  destruct Hr as [Hr _]. apply W_writeRsp; [done| |done|done].
  unfold fields_RspGetAttr, fields_FileInfo, makeWSFSFileInfo.
  codec_wf_goal ltac:(first [exact Hr | apply convOwner_u8 | by apply wrapu_range | done]).
Qed.

(** Making room sends the frame when the next record does not fit. *)
Lemma W_make_room b n g (Q : Buffer -> ghost -> Prop) :
  open_frame b -> g_done g = false -> 0 <= n <= MaxMsgSize - 2 ->
  (forall b', open_frame b' -> written b' + n <= MaxMsgSize -> Q b' g) ->
  W (make_room b mark n) g Q.
Proof.
  intros Hf Hd Hn HQ. unfold make_room, Buffer_Written.
  destruct (Z.gtb_spec (written b + n) MaxMsgSize); [|by apply W_ret, HQ].
  destruct (open_frame_reset mark b Hf) as [H1 H2].
  change (Buffer_Done b) with (buf_contents b, (Buffer_Done b).2).
  apply W_bind, (W_send _ _ _ _ false); [done|by apply open_frame_partial|].
  replace (set_done false g) with g by (by destruct g; simpl in *; subst).
  apply W_ret, HQ; [done|]. rewrite H2. lia.
Qed.

(** ** cmdReadDir *)

Lemma W_readdir_entries base es b g (Q : Buffer -> ghost -> Prop) :
  confined root (base ++ str "/") -> Forall entry_ok es -> open_frame b -> g_done g = false ->
  (forall b', open_frame b' -> Q b' g) ->
  W (readdir_entries s mark (base ++ str "/") es b) g Q.
Proof.
  intros Hb Hes Hf Hd HQ. revert b Hf. induction es as [|e es IH]; intros b Hf;
    cbn [readdir_entries]; [by apply W_ret, HQ|].
  apply Forall_cons in Hes as [He Hes]. apply W_bind, W_lookupDirent; [done..|]. intros r Hr.
  set (d := match r with Ok d => d | Err _ => irregular_dirent (de_Name e) end).
  assert (dirent_ok d) as Hdo by (unfold d; destruct r; [done|by apply irregular_ok]).
  destruct (GetDirent_size d Hdo) as [E Hs]. pose proof (len_nonneg (wire (fields_Dirent d))).
  cbv zeta. apply W_bind, W_make_room; [done..|unfold MaxMsgSize; lia|].
  intros b' Hf' Hr'. apply IH; [done|]. by apply open_frame_dirent.
Qed.

Lemma ensureDirBase_form p :
  confined root p -> exists base, ensureDirBase p = base ++ str "/" /\ confined root (base ++ str "/").
Proof.
  intros Hp. destruct (ensureDirBase_ends p) as [d E]. exists d. split; [done|].
  change (str "/") with [slash]. rewrite <-E. by apply ensureDirBase_confined.
Qed.

Lemma Wb_readdir_step base f rsp g b :
  confined root (base ++ str "/") -> open_frame rsp -> g_done g = false -> (b <= B)%nat ->
  Wb root mark total (readdir_step s mark f (base ++ str "/") rsp) g b
    (fun r g' b' => (b' <= b)%nat /\
       match r with
       | inl rsp' => open_frame rsp' /\ g' = g /\ (b' < b)%nat
       | inr _ => g' = set_done true g
       end).
Proof.
  intros Hb Hf Hd Hle. apply Wb_bind, Wb_trigger; [W_pre|]. intros [es err] g' b' Hok -> Hr.
  destruct Hok as (Hes & _). cbn [fst snd retry] in *.
  assert (b' <= b)%nat by (destruct (negb (len es =? 0)); lia).
  assert (forall x : bool, W
    (rsp ← readdir_entries s mark (base ++ str "/") es rsp;
     if (len es =? 0) || x
     then s_write (Buffer_Done (buf_set_code ErrorOK rsp)).1 ;; mret (inr tt)
     else mret (inl rsp)) g
    (fun r g' => match r with
      | inl rsp' => open_frame rsp' /\ g' = g /\ (len es =? 0) = false
      | inr _ => g' = set_done true g end)) as Hrest.
  { intros x. apply W_bind, W_readdir_entries; [done..|]. intros b1 Hf1.
    destruct (len es =? 0) eqn:El, x; cbn [orb]; try (by apply W_ret);
      (apply W_bind, (W_send _ _ _ _ true); [done|by apply open_frame_final|by apply W_ret]). }
  assert (forall x : bool, Wb root mark total
    (rsp ← readdir_entries s mark (base ++ str "/") es rsp;
     if (len es =? 0) || x
     then s_write (Buffer_Done (buf_set_code ErrorOK rsp)).1 ;; mret (inr tt)
     else mret (inl rsp)) g b'
    (fun r g' b2 => (b2 <= b)%nat /\ match r with
      | inl rsp' => open_frame rsp' /\ g' = g /\ (b2 < b)%nat
      | inr _ => g' = set_done true g end)) as Hrest'.
  { intros x. eapply W_Wb; [apply (Hrest x)|lia|]. intros [rsp'|[]] g2 b2 Hb2 H2; split; try lia; [|done].
    destruct H2 as (? & ? & E). rewrite E in Hr. simpl in Hr. split_and!; [done..|lia]. }
  destruct err as [[|e]|]; [apply (Hrest' true)| |apply (Hrest' false)].
  eapply (W_Wb root mark total B); [|lia|].
  - apply W_bind, W_err_code; [apply osErrCode_code|done|].
    apply (W_ret _ _ _ _ (inr tt) _ (fun r g' => r = inr tt /\ g' = set_done true g)). done.
  - intros r g2 b2 Hb2 [-> ->]. split; [lia|done].
Qed.

Lemma cmdReadDir_answers req : answers (cmdReadDir fuel s mark req).
Proof.
  apply W_with_path; [done..|]. intros _ Ha.
  destruct (ensureDirBase_form _ Ha) as (base & Eb & Hb). cbv zeta. rewrite Eb.
  apply W_bind, W_trigger; [W_pre|]. intros [f|e] g _ ->;
    [|apply W_err_code; [apply osErrCode_code|done..]].
  apply W_bind, W_bufget. intros b Hb0 Hw Hl.
  destruct (open_frame_new mark b Hb0 Hw Hl) as [Hf _].
  apply W_bind, W_loop_measure with
    (I := fun rsp g => open_frame rsp /\ g = mkGhost false 1 [f] []) (m := fun _ => 0%nat);
    [|done|intros Ht; specialize (Hfuel Ht); lia].
  intros rsp g b' [Hrsp ->] Hb'. eapply Wb_mono; [by apply Wb_readdir_step|].
  intros [rsp'|[]] g' b2 [H1 H2]; split; try done.
  - destruct H2 as (? & ? & ?). split; [done|lia].
  - subst g'. apply W_bind. eapply W_bufput; [done|]. apply W_bind, W_trigger; [W_pre|].
    intros r g _ ->. apply W_ret. simpl. by rewrite Z.eqb_refl.
Qed.

(** ** cmdReadDirPlus *)

Lemma W_writeDirentChunk b d g (Q : Buffer -> ghost -> Prop) :
  open_frame b -> dirent_ok d -> g_done g = false -> (forall b', open_frame b' -> Q b' g) ->
  W (writeDirentChunk b mark d) g Q.
Proof.
  intros Hf Hd Hg HQ. destruct (GetDirent_size d Hd) as [E Hs].
  pose proof (len_nonneg (wire (fields_Dirent d))).
  apply W_bind, W_make_room; [done..|unfold MaxMsgSize; lia|]. intros b' Hf' Hl.
  destruct (open_frame_write mark (le_bytes 1 READDIRPLUS_INDICATOR_CONTINUE) b' Hf') as [H1 H2].
  { change (len (le_bytes 1 READDIRPLUS_INDICATOR_CONTINUE)) with 1. lia. }
  change (len (le_bytes 1 READDIRPLUS_INDICATOR_CONTINUE)) with 1 in H2.
  apply W_ret, HQ, open_frame_dirent; [done..|]. rewrite H2. lia.
Qed.

Lemma W_writePrefetchIndicator b i g (Q : Buffer -> ghost -> Prop) :
  open_frame b -> g_done g = false -> (forall b', open_frame b' -> Q b' g) ->
  W (writePrefetchIndicator b mark i) g Q.
Proof.
  intros Hf Hg HQ. apply W_bind, W_make_room; [done..|]. intros b' Hf' Hl.
  apply W_ret, HQ. apply open_frame_write; [done|]. by rewrite len_le_bytes.
Qed.

Lemma W_writeDirentChunks base es b g (Q : Buffer -> ghost -> Prop) :
  confined root (base ++ str "/") -> Forall entry_ok es -> open_frame b -> g_done g = false ->
  (forall b', open_frame b' -> Q b' g) ->
  W (writeDirentChunks s b mark (base ++ str "/") es) g Q.
Proof.
  intros Hb Hes Hf Hd HQ. revert b Hf. induction es as [|e es IH]; intros b Hf;
    cbn [writeDirentChunks]; [by apply W_ret, HQ|].
  apply Forall_cons in Hes as [He Hes]. apply W_bind, W_lookupDirentSafe; [done..|]. intros d Hdo.
  apply W_bind, W_writeDirentChunk; [done..|]. intros b' Hf'. by apply IH.
Qed.

(** A prefetch state whose directory is held open. *)
Definition state_ok (st : prefetchDirState) : Prop :=
  exists base, pf_absPath st = base ++ str "/" /\ confined root (base ++ str "/") /\
               Forall entry_ok (pf_pending st).

Lemma W_preparePrefetchDir base e g (Q : result errno prefetchDirState -> ghost -> Prop) :
  confined root (base ++ str "/") -> entry_ok e ->
  (forall st, state_ok st -> Q (Ok st) (set_files (pf_file st :: g_files g) g)) ->
  (forall err, Q (Err err) g) ->
  W (preparePrefetchDir (base ++ str "/") e) g Q.
Proof.
  intros Hb [Hn Hl] Hok Herr. unfold preparePrefetchDir. cbv zeta.
  assert (confined root (((base ++ str "/") ++ de_Name e) ++ str "/")) as Hc.
  { by apply confined_trailing, confined_entry. }
  rewrite app_assoc. apply W_bind, W_trigger; [W_pre|]. intros [cf|err] g' _ ->; [|by apply W_ret].
  apply W_bind. W_call r Hr. destruct r as [es rerr]. destruct Hr as (Hes & _). cbn [fst snd] in Hes.
  assert (Q (Ok (mkPrefetch (((base ++ str "/") ++ de_Name e) ++ str "/") cf es 0))
            (set_files (cf :: g_files g) g)) as HQ.
  { apply (Hok (mkPrefetch (((base ++ str "/") ++ de_Name e) ++ str "/") cf es 0)). by eexists. }
  destruct rerr as [[|err]|]; [by apply W_ret| |by apply W_ret].
  apply W_bind, W_trigger; [W_pre|]. intros r g' _ ->. apply W_ret. simpl.
  rewrite Z.eqb_refl. by destruct g.
Qed.

(** The rest shrinks when a directory is found; otherwise nothing is left to do. *)
Lemma W_nextPrefetchDir base rest used g
    (Q : result errno (option prefetchDirState) * list direntry * Z -> ghost -> Prop) :
  confined root (base ++ str "/") -> Forall entry_ok rest ->
  (forall st rest' used', state_ok st -> Forall entry_ok rest' -> (length rest' < length rest)%nat ->
     Q (Ok (Some st), rest', used') (set_files (pf_file st :: g_files g) g)) ->
  (forall rest' used', Forall entry_ok rest' -> (length rest' <= length rest)%nat ->
     negb (len rest' =? 0) && (used' <? maxPrefetchDirs) = false -> Q (Ok None, rest', used') g) ->
  (forall err rest' used', Q (Err err, rest', used') g) ->
  W (nextPrefetchDir (base ++ str "/") rest used) g Q.
Proof.
  intros Hb Hr H1 H2 H3.
  assert (length rest <= length rest)%nat as Hle by lia. revert Hle Hr used.
  generalize rest at 1 3 4 as l. induction l as [|e l IH]; intros Hle Hr used;
    cbn [nextPrefetchDir]; [apply W_ret, H2; [done|simpl; lia|done]|].
  destruct (Z.geb_spec used maxPrefetchDirs) as [Hu|Hu].
  { apply W_ret, H2; [done..|]. destruct (Z.ltb_spec used maxPrefetchDirs); [lia|by rewrite andb_false_r]. }
  apply Forall_cons in Hr as [He Hr]. simpl in Hle.
  case_match; [apply IH; [lia|done]|]. apply W_bind, W_preparePrefetchDir; [done..| |].
  - intros st Hst. apply W_ret, H1; [done..|lia].
  - intros err. by apply W_ret, H3.
Qed.

Lemma W_stream_pending base es count b g (Q : Buffer * option Z -> ghost -> Prop) :
  confined root (base ++ str "/") -> Forall entry_ok es -> open_frame b -> g_done g = false ->
  (forall b' c, open_frame b' -> Q (b', c) g) ->
  W (stream_pending s b mark (base ++ str "/") es count) g Q.
Proof.
  intros Hb Hes Hf Hd HQ. revert b count Hf. induction es as [|e es IH]; intros b count Hf;
    cbn [stream_pending]; [by apply W_ret, HQ|].
  apply Forall_cons in Hes as [He Hes]. cbv zeta. case_match; [by apply W_ret, HQ|].
  apply W_bind, W_lookupDirentSafe; [done..|]. intros d Hdo.
  apply W_bind, W_writeDirentChunk; [done..|]. intros b' Hf'. by apply IH.
Qed.

Lemma W_streamPrefetchDir b st l g (Q : Buffer * bool -> ghost -> Prop) :
  open_frame b -> state_ok st -> g_done g = false -> g_files g = pf_file st :: l ->
  (forall b' failed, open_frame b' -> Q (b', failed) (set_files l g)) ->
  W (streamPrefetchDir fuel s b mark st) g Q.
Proof.
  intros Hf (base & Ep & Hb & Hpe) Hd Hl HQ. unfold streamPrefetchDir. rewrite Ep.
  assert (forall b' failed, open_frame b' ->
    W (trigger (OsClose (pf_file st)) ;; mret (b', failed)) g Q) as Hend.
  { intros b' failed Hf'. apply W_bind, W_trigger; [W_pre|]. intros r g' _ ->.
    apply W_ret. rewrite Hl, remove_one_head. by apply HQ. }
  apply W_bind, W_loop_measure with
    (I := fun '(b, es, _) g' => open_frame b /\ Forall entry_ok es /\ g' = g) (m := fun _ => 0%nat);
    [|done|intros Ht; specialize (Hfuel Ht); lia].
  intros [[b1 es] count] g' bu (Hf1 & Hes & ->) Hbu. apply Wb_bind.
  eapply W_Wb; [apply (W_stream_pending base es count b1 g
    (fun r g' => open_frame r.1 /\ g' = g)); by auto|done|].
  intros [b2 c] g' bu' Hbu' [Hf2 ->]. cbn [fst] in Hf2.
  destruct c as [c|]; [|apply Wb_ret; split; [lia|by apply Hend]].
  apply Wb_bind, Wb_trigger; [W_pre|]. intros [es' err] g' bu2 Hok -> Hr.
  destruct Hok as (Hes' & [_ [Hne _]]%(fun H => H eq_refl)). cbn [fst snd retry] in *.
  assert (bu2 <= bu')%nat by (destruct (negb (len es' =? 0)); lia).
  destruct err as [[|e]|]; apply Wb_ret; (split; [lia|]); [by apply Hend|by apply Hend|].
  split; [done|]. intros _. destruct es'; [by destruct Hne|]. simpl in Hr. lia.
Qed.

Lemma W_prefetch_section base b st rest used f (Q : option (list direntry * Z) -> ghost -> Prop) :
  confined root (base ++ str "/") -> open_frame b -> state_ok st -> Forall entry_ok rest ->
  (length rest <= 501)%nat ->
  (forall rest' used', Forall entry_ok rest' -> (length rest' <= length rest)%nat ->
     Q (Some (rest', used')) (mkGhost false 0 [f] [])) ->
  Q None (mkGhost true 0 [f] []) ->
  W (prefetch_section fuel s mark (base ++ str "/") b st rest used) (mkGhost false 1 [pf_file st; f] []) Q.
Proof.
  intros Hb Hf Hst Hr Hn HQ1 HQ2. unfold prefetch_section.
  apply W_loop with (I := fun '(b, st, rest', _) g => open_frame b /\ state_ok st /\
    Forall entry_ok rest' /\ (length rest' <= length rest)%nat /\ g = mkGhost false 1 [pf_file st; f] [])
    (m := fun '(_, _, rest, _) => length rest); [|done|intros Ht; specialize (Hfuel Ht); lia].
  clear b st used Hf Hst Hr. intros [[[b st] rest0] used] g (Hf & Hst & Hr & Hle & ->).
  apply W_bind. eapply W_streamPrefetchDir; [done..|]. intros b' [] Hf'; cbn [negb].
  - apply W_bind, W_nextPrefetchDir; [done..| | |].
    + intros st' rest' used' Hst' Hr' Hlt. apply W_bind, W_writePrefetchIndicator; [done..|].
      intros b2 Hf2. apply W_ret. split; [|done]. split_and!; [done..|lia|done].
    + intros rest' used' Hr' _ _. apply W_bind. eapply W_bufput; [done|].
      apply W_bind, W_writeRspError; [done..|]. by apply W_ret.
    + intros err rest' used'. apply W_bind. eapply W_bufput; [done|].
      apply W_bind, W_writeRspError; [done..|]. by apply W_ret.
  - apply W_bind, (W_send _ _ _ _ false); [done|by apply open_frame_partial|].
    apply W_bind. eapply W_bufput; [done|]. by apply W_ret, HQ1.
Qed.

Lemma W_prefetch_dirs base first f (Q : unit -> ghost -> Prop) :
  confined root (base ++ str "/") -> Forall entry_ok first -> (length first <= 501)%nat ->
  Q tt (mkGhost true 0 [f] []) ->
  W (prefetch_dirs fuel s mark (base ++ str "/") first) (mkGhost false 0 [f] []) Q.
Proof.
  intros Hb Hfi Hn HQ. unfold prefetch_dirs.
  apply W_loop with
    (I := fun '(rest, _) g => Forall entry_ok rest /\ (length rest <= 501)%nat /\ g = mkGhost false 0 [f] [])
    (m := fun '(rest, used) => if negb (len rest =? 0) && (used <? maxPrefetchDirs)
                               then S (length rest) else 0%nat); [|done|].
  2:{ intros Ht. specialize (Hfuel Ht). case_match; lia. }
  intros [rest used] g (Hr & Hn' & ->). destruct (negb (len rest =? 0) && (used <? maxPrefetchDirs)) eqn:Ec.
  - apply W_bind, W_nextPrefetchDir; [done..| | |].
    + intros st rest' used' Hst Hr' Hlt. apply W_bind, W_bufget. intros b Hb0 Hw Hl.
      destruct (open_frame_new mark b Hb0 Hw Hl) as [Hf _].
      apply W_bind, W_writePrefetchIndicator; [done..|]. intros b' Hf'.
      apply W_bind. eapply W_prefetch_section; [done..|lia| |by apply W_ret].
      intros rest2 used2 Hr2 Hle2. apply W_ret. split; [split_and!; [done|lia|done]|].
      intros _. case_match; lia.
    + intros rest' used' Hr' Hle Hstop. apply W_ret. rewrite Hstop.
      split; [|lia]. split_and!; [done|lia|done].
    + intros err rest' used'. apply W_bind, W_writeRspError; [done..|]. by apply W_ret.
  - apply W_bind, W_writeRspOK; [done|]. by apply W_ret.
Qed.

Lemma W_readdirplus_more base f b (Q : option Buffer -> ghost -> Prop) :
  confined root (base ++ str "/") -> open_frame b ->
  (forall b', open_frame b' -> Q (Some b') (mkGhost false 1 [f] [])) ->
  Q None (mkGhost true 0 [f] []) ->
  W (readdirplus_more fuel s mark f (base ++ str "/") b) (mkGhost false 1 [f] []) Q.
Proof.
  intros Hb Hf HQ1 HQ2. unfold readdirplus_more.
  apply W_loop_measure with (I := fun b g => open_frame b /\ g = mkGhost false 1 [f] []) (m := fun _ => 0%nat);
    [|done|intros Ht; specialize (Hfuel Ht); lia].
  clear b Hf. intros b g bu [Hf ->] Hbu. apply Wb_bind, Wb_trigger; [W_pre|].
  intros [es err] g' bu' Hok -> Hr. destruct Hok as (Hes & _). cbn [fst snd retry] in *.
  assert (bu' <= bu)%nat by (destruct (negb (len es =? 0)); lia).
  apply Wb_bind. eapply W_Wb; [apply (W_writeDirentChunks base es b _ (fun b' g' => open_frame b' /\
    g' = mkGhost false 1 [f] [])); by auto|lia|]. intros b' g' bu2 Hbu2 [Hf' ->].
  destruct err as [[|e]|].
  - apply Wb_ret. split; [lia|by apply HQ1].
  - eapply (W_Wb root mark total B); [|lia|].
    + apply W_bind. eapply W_bufput; [done|].
      apply W_bind, W_err_code; [apply osErrCode_code|done|].
      apply (W_ret _ _ _ _ (inr None) _ (fun r g' => r = inr None /\ g' = mkGhost true 0 [f] [])). done.
    + intros r g2 b2 Hb2 [-> ->]. split; [lia|done].
  - destruct (len es =? 0) eqn:El; apply Wb_ret; (split; [lia|]); [by apply HQ1|].
    split; [done|]. simpl in Hr. lia.
Qed.

Lemma cmdReadDirPlus_answers req : answers (cmdReadDirPlus fuel s mark req).
Proof.
  apply W_with_path; [done..|]. intros _ Ha.
  destruct (ensureDirBase_form _ Ha) as (base & Eb & Hb). cbv zeta. rewrite Eb.
  apply W_bind, W_trigger; [W_pre|]. intros [f|e] g _ ->;
    [|apply W_err_code; [apply osErrCode_code|done..]].
  apply W_bind. W_call r Hok. destruct r as [first err]. destruct Hok as (Hfi & [Hcount _]%(fun H => H eq_refl)).
  cbn [fst snd] in Hfi, Hcount.
  assert (W (trigger (OsClose f) ;; mret tt) (mkGhost true 0 [f] []) (fun _ g => answered g)) as Hend.
  { apply W_bind, W_trigger; [W_pre|]. intros r g _ ->. apply W_ret. simpl. by rewrite Z.eqb_refl. }
  apply W_bind. destruct err as [[|e]|].
  2:{ apply W_err_code; [apply osErrCode_code|done|exact Hend]. }
  all: apply W_bind, W_bufget; intros b Hb0 Hw Hl;
    destruct (open_frame_new mark b Hb0 Hw Hl) as [Hf _];
    apply W_bind, W_writeDirentChunks; [done..|]; intros b1 Hf1;
    apply W_bind, W_readdirplus_more; [done..| |by apply W_ret];
    intros b2 Hf2; destruct (len first >? maxRootEntriesForPrefetch);
    [ apply W_bind, (W_send _ _ _ _ true); [done|by apply open_frame_final|];
      eapply W_bufput; [done|exact Hend]
    | apply W_bind, (W_send _ _ _ _ false); [done|by apply open_frame_partial|];
      apply W_bind; eapply W_bufput; [done|]; apply W_prefetch_dirs; [done..|unfold len, maxRootEntriesForPrefetch in *; lia|done] ].
Qed.
End ReadDirOk.
