(* ===== verification/ServerOk.v ===== *)
(** * The server answers every command (dispatch and handlers together) *)
From S2P Require Import Prelude GoIO Codec Structs StructGen Prog Paths UnixConv ServerEnv.
From S2P Require Import ServerCmds ServerXattr ServerReadDir ServerStream ServerDispatch.
From S2P Require Import ServerConn ServerSpec ServerCmdsOk ServerXattrOk ServerReadDirOk.

(** ** Decoding *)

(** A reader of a command gives well-formed arguments. *)
Lemma codec_read_wf {A} (fields : A -> list fval) (c : codec A) `{!CodecOk fields c} r d r' :
  c_read c r = (Ok d, r') -> wf_fields (fields d) = true.
Proof. intros H. by apply c_read_sound in H as [? _]. Qed.

Lemma with_buffer_Ok {A} (m : RM A) mb data L r d r' :
  with_buffer m mb data -> mb L r = (Ok d, r') -> exists r'', m r = (Ok d, r'').
Proof.
  intros H E. specialize (H L r). rewrite E in H. simpl in H.
  destruct (m r) as [[d'|e] r'']; [|done]. simpl in H. case_decide; [|done]. simplify_eq. eauto.
Qed.

Lemma with_buffer_wf {A} (fields : A -> list fval) (c : codec A) `{!CodecOk fields c} mb data L r d r' :
  with_buffer (c_read c) mb data -> mb L r = (Ok d, r') -> wf_fields (fields d) = true.
Proof. intros H E. destruct (with_buffer_Ok _ _ _ _ _ _ _ H E) as [r'' E']. by eapply codec_read_wf. Qed.

(** When the payload fits, the buffered reader accepts what the plain one does. *)
Lemma with_buffer_complete {A} (fields : A -> list fval) (c : codec A) `{!CodecOk fields c} mb data L r d :
  with_buffer (c_read c) mb data -> wf_fields (fields d) = true -> has_tail (fields d) = true ->
  rd_data r = wire (fields d) -> rd_end r = EOF -> (length (data d) <= L)%nat ->
  exists r', mb L r = (Ok d, r').
Proof.
  intros H Hwf Ht Hd He HL. specialize (H L r).
  rewrite (c_read_complete d r []) in H by (done || by rewrite app_nil_r). simpl in H.
  rewrite decide_True in H by done. destruct (mb L r) as [[d'|e] r']; [|done]. simpl in H. simplify_eq. eauto.
Qed.

Lemma rmap_Ok {A B} (f : A -> B) (m : RM A) r b r' :
  rmap f m r = (Ok b, r') -> exists a, m r = (Ok a, r') /\ b = f a.
Proof.
  unfold rmap, mbind, SE_bind, mret, SE_ret. destruct (m r) as [[a|e] r1]; [|done].
  intros [= <- <-]. eauto.
Qed.

Lemma rmap_complete {A B} (f : A -> B) (m : RM A) r a r' :
  m r = (Ok a, r') -> rmap f m r = (Ok (f a), r').
Proof. intros H. unfold rmap, mbind, SE_bind. by rewrite H. Qed.

(** The codecs of the commands, for proofs by cases over the commands. *)
Ltac with_codec k :=
  first [
    k codec_CmdOpenStruct | k codec_CmdCloseStruct | k codec_CmdReadStruct
    | k codec_CmdReadDirStruct | k codec_CmdReadLinkStruct | k codec_CmdSeekStruct
    | k codec_CmdAllocateStruct | k codec_CmdGetAttrStruct | k codec_CmdSetAttrStruct
    | k codec_CmdSyncStruct | k codec_CmdMkdirStruct | k codec_CmdSymLinkStruct
    | k codec_CmdRemoveStruct | k codec_CmdRmDirStruct | k codec_CmdFsStatStruct
    | k codec_CmdReadAtStruct | k codec_CmdCopyFileRangeStruct | k codec_CmdRenameStruct
    | k codec_CmdSetAttrByFDStruct | k codec_CmdReadDirPlusStruct
    | k codec_CmdCloneFileRangeStruct | k codec_CmdGetFileLockStruct
    | k codec_CmdSetFileLockStruct | k codec_CmdSetFileLockWaitStruct | k codec_CmdLinkStruct
    | k codec_CmdGetXAttrStruct | k codec_CmdListXAttrStruct | k codec_CmdRemoveXAttrStruct
  ].
Ltac with_buffered k :=
  first [
    k codec_CmdWriteStruct with_buffer_CmdWriteStruct
    | k codec_CmdWriteAtStruct with_buffer_CmdWriteAtStruct
    | k codec_CmdWriteStreamOpenStruct with_buffer_CmdWriteStreamOpenStruct
    | k codec_CmdWriteStreamDataStruct with_buffer_CmdWriteStreamDataStruct
    | k codec_CmdSetXAttrStruct with_buffer_CmdSetXAttrStruct
  ].

(** What is decoded carries the code it was decoded for, with arguments in the
    range of their types. *)
Lemma read_request_sound cmd rd r req r' :
  read_request cmd = Some rd -> rd r = (Ok req, r') ->
  req_code req = cmd /\ wf_fields (req_fields req) = true.
Proof.
  unfold read_request. intros Hrd Hr.
  repeat (match type of Hrd with (if ?c =? ?d then _ else _) = _ =>
            destruct (Z.eqb_spec c d) as [->|_]
          end;
    [injection Hrd as <-; apply rmap_Ok in Hr as (a & E & ->); split; [reflexivity|];
     first [ with_buffered ltac:(fun c wb => exact (with_buffer_wf _ c _ _ _ _ _ _ wb E))
           | with_codec ltac:(fun c => exact (codec_read_wf _ c _ _ _ E)) ]|]).
  done.
Qed.

(** The payload a command carries in a fast buffer. *)
Definition payload_of (r : request) : bytes :=
  match r with
  | ReqWrite req => CmdWrite_Data req
  | ReqWriteAt req => CmdWriteAt_Data req
  | ReqWriteStreamOpen req => CmdWriteStreamOpen_Data req
  | ReqWriteStreamData req => CmdWriteStreamData_Data req
  | ReqSetXAttr req => CmdSetXAttr_Value req
  | _ => []
  end.

(** The arguments a client writes are decoded to the same request. *)
Lemma read_plain {A} (f : A -> request) (fields : A -> list fval) (c : codec A) `{!CodecOk fields c} d sched :
  wf_fields (fields d) = true ->
  exists r', rmap f (c_read c) (mkReader (wire (fields d)) sched EOF) = (Ok (f d), r').
Proof.
  intros Hwf. eexists. apply rmap_complete, (c_read_complete d _ []); [done| |done].
  simpl. by rewrite app_nil_r.
Qed.

Lemma read_buffered {A} (f : A -> request) (fields : A -> list fval) (c : codec A) `{!CodecOk fields c}
    mb data d sched :
  with_buffer (c_read c) mb data -> wf_fields (fields d) = true -> has_tail (fields d) = true ->
  (length (data d) <= fastBufferSize)%nat ->
  exists r', rmap f (mb fastBufferSize) (mkReader (wire (fields d)) sched EOF) = (Ok (f d), r').
Proof.
  intros H Hwf Ht HL.
  destruct (with_buffer_complete fields c mb data fastBufferSize
              (mkReader (wire (fields d)) sched EOF) d H Hwf Ht eq_refl eq_refl HL) as [r' E].
  exists r'. by apply rmap_complete.
Qed.

Lemma read_request_complete req sched :
  wf_fields (req_fields req) = true -> (length (payload_of req) <= fastBufferSize)%nat ->
  exists rd, read_request (req_code req) = Some rd /\
    exists r', rd (mkReader (wire (req_fields req)) sched EOF) = (Ok req, r').
Proof.
  intros Hwf HL. destruct req; cbn [req_code req_fields payload_of] in *;
    (eexists; split; [reflexivity|]);
    first [ with_buffered ltac:(fun c wb =>
              exact (read_buffered _ _ c _ _ _ _ wb Hwf eq_refl HL))
          | with_codec ltac:(fun c => exact (read_plain _ _ c _ _ Hwf)) ].
Qed.

(** ** Handlers *)

Section Answers.
Context {abi : UnixABI} (fuel : nat) (s : session) (mark : Z) (total : bool) (B : nat).
Hypothesis Hroot : root_ok (storage_Path s).
Hypothesis Hfuel : (total = true -> B + 502 < fuel)%nat.

Abbreviation answers := (answers total B (storage_Path s) mark).

Lemma budget_fuel : (total = true -> B < fuel)%nat.
Proof. intros Ht. specialize (Hfuel Ht). lia. Qed.

Lemma answers_release p :
  answers p -> answers (p ;; trigger ReleaseFastBuffer).
Proof.
  intros Hp. apply W_bind. eapply W_mono; [exact Hp|]. intros [] g Hg. by W_call r Hok.
Qed.

(** Every command but the two of write streams is answered by its handler. *)
Lemma exec_request_answers req :
  wf_fields (req_fields req) = true -> req_inline req = false ->
  answers (exec_request fuel s mark req).
Proof.
  intros Hwf Hi. pose proof budget_fuel. destruct req; try discriminate Hi; cbn [exec_request req_fields] in *.
  - eapply cmdOpen_answers; eassumption.
  - eapply cmdClose_answers; eassumption.
  - eapply cmdRead_answers; eassumption.
  - eapply cmdReadDir_answers; eassumption.
  - eapply cmdReadLink_answers; eassumption.
  - apply answers_release. eapply cmdWrite_answers; eassumption.
  - eapply cmdSeek_answers; eassumption.
  - eapply cmdAllocate_answers; eassumption.
  - eapply cmdGetAttr_answers; eassumption.
  - eapply cmdSetAttr_answers; eassumption.
  - eapply cmdSync_answers; eassumption.
  - eapply cmdMkdir_answers; eassumption.
  - eapply cmdSymLink_answers; eassumption.
  - eapply cmdRemove_answers; eassumption.
  - eapply cmdRmDir_answers; eassumption.
  - eapply cmdFsStat_answers; eassumption.
  - eapply cmdReadAt_answers; eassumption.
  - apply answers_release. eapply cmdWriteAt_answers; eassumption.
  - eapply cmdCopyFileRange_answers; eassumption.
  - eapply cmdRename_answers; eassumption.
  - eapply cmdSetAttrByFD_answers; eassumption.
  - eapply cmdReadDirPlus_answers; eassumption.
  - eapply cmdCloneFileRange_answers; eassumption.
  - eapply cmdGetFileLock_answers; eassumption.
  - eapply cmdSetFileLockCommon_answers; eassumption.
  - eapply cmdSetFileLockCommon_answers; eassumption.
  - eapply cmdLink_answers; eassumption.
  - apply answers_release. eapply cmdSetXAttr_answers; eassumption.
  - eapply cmdGetXAttr_answers; eassumption.
  - eapply cmdListXAttr_answers; eassumption.
  - eapply cmdRemoveXAttr_answers; eassumption.
Qed.

(** A stream command answers with an error or leaves the answer to the stream. *)
Definition answers_or_streams (p : SP unit) : Prop :=
  W (storage_Path s) mark total B p fresh (fun _ g => answered g \/ g = fresh).

Lemma cmdWriteStreamOpen_ok req :
  wf_fields (fields_CmdWriteStreamOpenStruct req) = true -> answers_or_streams (cmdWriteStreamOpen mark req).
Proof.
  intros Hwf. apply W_bind. W_call r Hok. destruct r as [sfd|].
  - apply W_bind. W_call st Hst. apply W_bind. W_call loaded Hl. destruct loaded.
    + apply W_bind. W_call u Hu. apply W_writeRspError; [done..|]. by left.
    + assert (in_u 64 (CmdWriteStreamOpen_Offset req) = true) by (unfold fields_CmdWriteStreamOpenStruct in Hwf; codec_wf Hwf; done).
      apply W_bind, W_trigger; [by W_pre|]. intros u ? _ ->. W_call u2 Hu2. by right.
  - apply W_bind. W_call u Hu. apply W_writeRspError; [done..|]. by left.
Qed.

Lemma cmdWriteStreamData_ok req : answers_or_streams (cmdWriteStreamData mark req).
Proof.
  apply W_bind. W_call r Hok. destruct r as [st|].
  - W_call u Hu. by right.
  - apply W_bind. W_call u Hu. apply W_writeRspError; [done..|]. by left.
Qed.

Definition is_stream_cmd (cmd : Z) : bool := (cmd =? CmdWriteStreamOpen) || (cmd =? CmdWriteStreamData).

Lemma req_inline_code req : req_inline req = is_stream_cmd (req_code req).
Proof. by destruct req. Qed.

(** Whatever bytes a client sends: known or unknown command, well-formed
    payload or not, the started program answers as the protocol asks. *)
Lemma doCommandCall_answers cmd r :
  is_stream_cmd cmd = false ->
  answers (action_prog (doCommandCall fuel s mark cmd r).1).
Proof.
  intros Hc. unfold doCommandCall. destruct (read_request cmd) as [rd|] eqn:Erd.
  - destruct (rd r) as [[req|e] r'] eqn:Er; [|by apply W_writeRspError].
    destruct (read_request_sound _ _ _ _ _ Erd Er) as [Hcode Hwf].
    assert (req_inline req = false) as Hi by (by rewrite req_inline_code, Hcode).
    rewrite Hi. by apply exec_request_answers.
  - by apply W_writeRspError.
Qed.

Lemma doCommandCall_streams cmd r :
  answers_or_streams (action_prog (doCommandCall fuel s mark cmd r).1).
Proof.
  destruct (is_stream_cmd cmd) eqn:Hc.
  - unfold doCommandCall. destruct (read_request cmd) as [rd|] eqn:Erd.
    + destruct (rd r) as [[req|e] r'] eqn:Er; [|apply W_writeRspError; [done..|by left]].
      destruct (read_request_sound _ _ _ _ _ Erd Er) as [Hcode Hwf].
      assert (req_inline req = true) as Hi by (by rewrite req_inline_code, Hcode).
      rewrite Hi. destruct req; try discriminate Hi;
        [by apply cmdWriteStreamOpen_ok|apply cmdWriteStreamData_ok].
    + apply W_writeRspError; [done..|by left].
  - eapply W_mono; [by apply doCommandCall_answers|]. by left.
Qed.
End Answers.

(** A message with an encoded command starts its handler. *)
Lemma dispatch_exec {abi : UnixABI} (fuel : nat) (s : session) (mark : Z) (req : request) (sched : list nat) :
  in_u 8 mark = true -> wf_fields (req_fields req) = true ->
  (length (payload_of req) <= fastBufferSize)%nat ->
  exists err, dispatchCommand fuel s
     (mkReader (le_bytes 1 mark ++ le_bytes 1 (req_code req) ++ wire (req_fields req)) sched EOF)
  = (Some (if req_inline req then Inline (exec_request fuel s mark req)
           else Go (exec_request fuel s mark req)), err).
Proof.
  intros Hm Hwf HL. unfold dispatchCommand.
  rewrite (ReadFull_app (le_bytes 1 mark ++ le_bytes 1 (req_code req)) (wire (req_fields req)))
    by done.
  assert (Uint8 (le_bytes 1 mark ++ le_bytes 1 (req_code req)) 0 = mark) as ->.
  { unfold Uint8. cbn [le_bytes app take drop]. by apply le_value_1. }
  assert (Uint8 (le_bytes 1 mark ++ le_bytes 1 (req_code req)) 1 = req_code req) as ->.
  { unfold Uint8. cbn [le_bytes app take drop]. apply le_value_1. by destruct req. }
  destruct (read_request_complete req sched Hwf HL) as (rd & Erd & r' & Er).
  unfold doCommandCall, set_data. simpl. rewrite Erd, Er. by eexists.
Qed.
