(* ===== verification/ServerRun.v ===== *)
(** * Runs of the handlers

    From the specification of ServerSpec to what is seen from outside: the log
    of the requests a program made and of their answers. *)
From S2P Require Import Prelude GoIO Codec Structs StructGen Prog Paths UnixConv ServerEnv.
From S2P Require Import ServerCmds ServerDispatch ServerConn ServerSpec ServerOk.

(** ** Logs *)

(** A request with its answer. *)
Definition entry : Type := { e : sev & sans e }.
Definition logged_entry (e : sev) (r : sans e) : entry := existT e r.

(** The frames a log asks the connection to send. *)
Definition log_frames (log : list entry) : list bytes := omap (fun x => frame_of (projT1 x)) log.

(** Pooled buffers, open files and descriptors that are not in the table. *)
Abbreviation holding := (nat * list Z * list Z)%type.

Definition held_step (h : holding) (x : entry) : holding :=
  let '(bufs, files, fds) := h in
  let '(existT e r) := x in
  match e return sans e -> holding with
  | BufGet => fun _ => (S bufs, files, fds)
  | BufPut => fun _ => (pred bufs, files, fds)
  | SysOpen _ _ _ => fun r => (bufs, files, if r is Ok fd then fd :: fds else fds)
  | SysClose fd => fun _ => (bufs, files, remove_one fd fds)
  | FdsLoadOrStore _ sfd => fun loaded => (bufs, files, if loaded then fds else remove_one sfd fds)
  | OsOpen _ => fun r => (bufs, if r is Ok f then f :: files else files, fds)
  | OsClose f => fun _ => (bufs, remove_one f files, fds)
  | _ => fun _ => (bufs, files, fds)
  end r.

Definition held (log : list entry) : holding := foldl held_step (0%nat, [], []) log.

Definition partial_frame (mark : Z) (d : bytes) : Prop :=
  (exists payload, d = le_bytes 1 mark ++ le_bytes 1 ErrorPartialResponse ++ payload) /\
  len d <= MaxResponseLength.
Definition final_frame (mark : Z) (d : bytes) : Prop :=
  (exists ec payload, d = le_bytes 1 mark ++ le_bytes 1 ec ++ payload /\
     ec <> ErrorPartialResponse /\ in_u 8 ec = true) /\
  len d <= MaxResponseLength.

(** The frames of a response: any number of partial ones and a final one. *)
Definition response (mark : Z) (fs : list bytes) : Prop :=
  exists ps f, fs = ps ++ [f] /\ Forall (partial_frame mark) ps /\ final_frame mark f.

(** All paths handed to the operating system are confined. *)
Definition log_confined (root : gostring) (log : list entry) : Prop :=
  Forall (fun x => Forall (confined root) (ev_paths (projT1 x))) log.

(** The log is in step with the ghost state. *)
Definition log_ok (root : gostring) (mark : Z) (log : list entry) (g : ghost) : Prop :=
  log_confined root log /\ held log = (g_bufs g, g_files g, g_fds g) /\
  if g_done g then response mark (log_frames log) else Forall (partial_frame mark) (log_frames log).

Lemma log_ok_nil root mark : log_ok root mark [] fresh.
Proof. by repeat constructor. Qed.

Lemma log_frames_snoc log e r :
  log_frames (log ++ [logged_entry e r]) = log_frames log ++ option_list (frame_of e).
Proof. unfold log_frames. rewrite omap_app. simpl. by destruct (frame_of e). Qed.

Lemma srv_next_done mark g e r g' :
  frame_of e = None -> srv_next mark g e r g' -> g_done g' = g_done g.
Proof. destruct e; try discriminate; intros _; simpl; intros ->; try done; by destruct r. Qed.

Lemma held_snoc mark log g e r g' :
  held log = (g_bufs g, g_files g, g_fds g) -> srv_next mark g e r g' ->
  held (log ++ [logged_entry e r]) = (g_bufs g', g_files g', g_fds g').
Proof.
  intros Hh Hn. unfold held in *. rewrite foldl_app, Hh. simpl.
  destruct e; simpl in *; try (by subst g'); try (by destruct r; subst g').
  by destruct Hn as (final & _ & ->).
Qed.

Lemma log_ok_step root mark log g e r g' :
  log_ok root mark log g -> srv_pre root mark g e -> srv_next mark g e r g' ->
  log_ok root mark (log ++ [logged_entry e r]) g'.
Proof.
  intros (Hp & Hh & Hf) [Hpe Hpre] Hn. split_and!.
  { unfold log_confined. by rewrite Forall_app, Forall_singleton. }
  { by eapply held_snoc. }
  rewrite log_frames_snoc. destruct (decide (frame_of e = None)) as [He|He].
  { rewrite (srv_next_done _ _ _ _ _ He Hn), He. simpl. by rewrite app_nil_r. }
  destruct e; try (by destruct He).
  - destruct Hpre as [Hd _]. rewrite Hd in Hf. destruct Hn as (final & Hdf & ->). simpl.
    destruct final.
    + exists (log_frames log), d. split_and!; [done|done|].
      destruct Hdf as [[payload Hpl] Hlen]. split; [|done]. exists ErrorOK, payload. done.
    + by rewrite Forall_app, Forall_singleton.
  - destruct Hpre as (Hd & -> & Hec & Hu & Hb & Hl). rewrite Hd in Hf. simpl in Hn. subst g'. simpl.
    eexists (log_frames log), _. split_and!; [done|done|]. split.
    + by exists ec, body.1.
    + cbn [le_bytes app]. rewrite !len_cons. lia.
Qed.

(** Every answer moves the ghost state on. *)
Lemma srv_next_ex root mark g e r : srv_pre root mark g e -> exists g', srv_next mark g e r g'.
Proof.
  intros Hpre. destruct e; try (by eexists). destruct Hpre as (_ & _ & final & Hf). simpl. eauto.
Qed.

(** ** Whatever the answers *)

(** A program that keeps to the contract from [g] on, however long the
    environment makes its loops run. *)
Definition safe (root : gostring) (mark : Z) {A} (p : SP A) (g : ghost) (Q : ghost -> Prop) : Prop :=
  forall b, Wb root mark false p g b (fun _ g' _ => Q g').

Lemma safe_Vis root mark {A} e (k : sans e -> SP A) g Q :
  safe root mark (Vis e k) g Q ->
  srv_pre root mark g e /\
  forall r g', sys_ok e r -> srv_next mark g e r g' -> safe root mark (k r) g' Q.
Proof.
  intros H. split; [by destruct (H 0%nat)|]. intros r g' Hok Hn b.
  destruct (H (if retry e r then S b else b)) as [_ Hk]. apply Hk. split_and!; [done..|].
  by destruct (retry e r).
Qed.

Lemma W_safe root mark {A} (p : SP A) g (Q : ghost -> Prop) :
  (forall B, W root mark false B p g (fun _ g' => Q g')) -> safe root mark p g Q.
Proof. intros H b. eapply Wb_mono; [by apply (H b)|]. by intros a g' b' []. Qed.

(** ** Runs in a deterministic environment *)

Section Run.
Context {S : Type} (os : forall e : sev, S -> sans e * S).

(** The environment keeps to its documented behaviour. *)
Definition lawful : Prop := forall e st, sys_ok e (os e st).1.

(** It answers so that loops repeat at most [budget] times. *)
Definition within (budget : S -> nat) : Prop := forall e st,
  (budget (os e st).2 + (if retry e (os e st).1 then 1 else 0) <= budget st)%nat.

Definition logged (e : sev) (st : S * list entry) : sans e * (S * list entry) :=
  let '(r, s') := os e st.1 in (r, (s', st.2 ++ [logged_entry e r])).

(** Each request respected the specification. *)
Definition log_respects (root : gostring) (mark : Z) (log : list entry) : Prop :=
  Forall (fun x => exists g, srv_pre root mark g (projT1 x)) log.

(** With enough fuel an answering program ends, has answered and holds
    nothing. *)
Lemma answers_run_log budget root mark (p : SP unit) st (Q : ghost -> Prop) :
  lawful -> within budget ->
  W root mark true (budget st) p fresh (fun _ g => Q g) ->
  exists st' log g, run logged p (st, []) = (Done tt, (st', log)) /\ Q g /\ log_ok root mark log g /\
    log_respects root mark log.
Proof.
  intros Hos Hin Hw.
  assert (match run logged p (st, []) with
          | (Done a, s') => exists gb,
              (log_ok root mark s'.2 gb.1 /\ log_respects root mark s'.2 /\ (budget s'.1 <= gb.2)%nat) /\ Q gb.1
          | (Panicked, _) => False
          | (OutOfFuel, _) => true = false
          end) as H.
  { apply (wp_run true (srv_env root mark) logged
      (fun st gb => log_ok root mark st.2 gb.1 /\ log_respects root mark st.2 /\ (budget st.1 <= gb.2)%nat)
      p (st, []) (fresh, budget st) (fun _ gb => Q gb.1)).
    - intros e [s0 l] [g0 b0] (Hl & Hp & Hb) Hpre. unfold logged. simpl in *.
      pose proof (Hos e s0) as Hok. pose proof (Hin e s0) as Hbs.
      destruct (os e s0) as [r s1]. simpl in *.
      destruct (srv_next_ex root mark g0 e r Hpre) as [g' Hn].
      exists (g', if retry e r then pred b0 else b0). simpl. split_and!; [done|done| |by eapply log_ok_step| |].
      1,3: destruct (retry e r); lia.
      apply Forall_app. split; [done|]. constructor; [by exists g0|done].
    - simpl. split_and!; [apply log_ok_nil|constructor|done].
    - eapply wp_mono; [apply (Hw (budget st)); lia|]. by intros [] [g' b'] [_ HQ]. }
  destruct (run logged p (st, [])) as [[[]| |] [st' log]]; [|done..].
  destruct H as ([g b] & (Hl & Hp & _) & HQ). by exists st', log, g.
Qed.

Lemma answers_run budget root mark (p : SP unit) st (Q : ghost -> Prop) :
  lawful -> within budget ->
  W root mark true (budget st) p fresh (fun _ g => Q g) ->
  exists st' log g, run logged p (st, []) = (Done tt, (st', log)) /\ Q g /\ log_ok root mark log g.
Proof.
  intros Hos Hin Hw. destruct (answers_run_log budget root mark p st Q Hos Hin Hw) as (st' & log & g & H1 & H2 & H3 & _).
  by exists st', log, g.
Qed.
End Run.
