(* ===== verification/ServerStreamOk.v ===== *)
(** * Write streams write what they receive

    The goroutine of a write stream ([writeStream_run]) against a contract of its
    own: every chunk goes to the file of the stream right after what was written
    before, nothing is written after an error, and the closing response carries
    the number of bytes written. *)
From S2P Require Import Prelude GoIO Codec Structs StructGen Prog Paths UnixConv ServerEnv.
From S2P Require Import ServerCmds ServerStream ServerSpec ServerConn ServerRun.

(** ** The contract *)

Record sghost := mkSghost {
  sg_received : bytes; (* the data of all messages taken from the channel *)
  sg_written : bytes; (* the bytes the file took, in order *)
  sg_todo : bytes; (* what is left of the current chunk *)
  sg_failed : bool; (* an error was sent *)
  sg_closed : bool; (* the closing response was sent *)
}.

Definition stream_fresh : sghost := mkSghost [] [] [] false false.

(** What an answered request changes. *)
Definition sg_step (g : sghost) (x : entry) : sghost :=
  let '(existT e r) := x in
  match e return sans e -> sghost with
  | WsReceive _ => fun r =>
      match r with
      | Some msg => mkSghost (sg_received g ++ in_data msg) (sg_written g) (in_data msg) (sg_failed g) (sg_closed g)
      | None => g
      end
  | SysPwrite _ d _ => fun r =>
      match r with
      | Ok n => mkSghost (sg_received g) (sg_written g ++ take (Z.to_nat n) d) (drop (Z.to_nat n) d)
                  (sg_failed g) (sg_closed g)
      | Err _ => g
      end
  | SendRsp _ ec _ => fun _ =>
      if ec =? ErrorOK then mkSghost (sg_received g) (sg_written g) (sg_todo g) (sg_failed g) true
      else mkSghost (sg_received g) (sg_written g) (sg_todo g) true (sg_closed g)
  | _ => fun _ => g
  end r.

Definition sg_of (log : list entry) : sghost := foldl sg_step stream_fresh log.

(** Received data is written in order, all of it unless an error was sent. *)
Definition sg_ok (g : sghost) : Prop :=
  if sg_failed g then sg_written g `prefix_of` sg_received g
  else sg_received g = sg_written g ++ sg_todo g.

Section StreamSpec.
Context (stream : nat) (mark sfd offset : Z).

(** What the goroutine may ask for. *)
Definition stream_pre (g : sghost) (e : sev) : Prop :=
  match e with
  | WsReceive i => i = stream /\ sg_closed g = false /\ (sg_failed g = false -> sg_todo g = [])
  | SysPwrite fd d off =>
      fd = sfd /\ d = sg_todo g /\ off = i64 (u64 (offset + len (sg_written g))) /\
      sg_failed g = false /\ sg_closed g = false
  | SendRsp m ec p =>
      m = mark /\ sg_closed g = false /\ in_u 8 ec = true /\ ec <> ErrorPartialResponse /\
      p.2 = None /\ 2 + len p.1 <= MaxResponseLength /\
      if ec =? ErrorOK then
        p = enc (fields_RspWriteStreamClose (mkRspWriteStreamClose (u64 (len (sg_written g))))) /\
        (sg_failed g = false -> sg_todo g = [])
      else sg_failed g = false
  | ReleaseFastBuffer => True
  | WsDelete m => m = mark
  | _ => False
  end.

Definition stream_env : env sans :=
  mkEnv (sghost * nat) (fun '(g, _) e => stream_pre g e)
    (fun '(g, b) e r '(g', b') =>
       sys_ok e r /\ g' = sg_step g (logged_entry e r) /\ if retry e r then b = S b' else b' = b).

(** A step that keeps to the contract keeps the data in order. *)
Lemma sg_ok_step g e r :
  sg_ok g -> stream_pre g e -> sys_ok e r -> sg_ok (sg_step g (logged_entry e r)).
Proof.
  unfold sg_ok. destruct e; simpl; try done.
  - intros Hg (_ & _ & Ht) _. destruct r as [msg|]; [|done]. simpl. destruct (sg_failed g).
    + by apply prefix_app_r.
    + rewrite Ht in Hg by done. by rewrite Hg, !app_nil_r.
  - intros Hg (_ & _ & _ & _ & _ & _ & H). destruct (ec =? ErrorOK); simpl; [done|].
    rewrite H in Hg. rewrite Hg. intros _. by apply prefix_app_r.
  - intros Hg (_ & -> & _ & Hf & _) Hn. rewrite Hf in Hg. destruct r as [n|]; simpl; [|by rewrite Hf].
    rewrite Hf, <-app_assoc, take_drop. done.
Qed.

(** ** The goroutine keeps to it *)

Context (fuel : nat) (total : bool) (B : nat).
Hypothesis Hfuel : (total = true -> B < fuel)%nat.
Hypothesis Hoffset : in_u 64 offset = true.

Abbreviation SW := (wp total stream_env).

Definition same_flags (g g' : sghost) : Prop :=
  sg_failed g' = sg_failed g /\ sg_closed g' = sg_closed g.

Lemma u64_add x y : u64 (u64 x + u64 y) = u64 (x + y).
Proof. unfold u64, wrapu. by rewrite <-Z.add_mod by lia. Qed.

(** One pwrite, repeated while it is interrupted. *)
Lemma SW_pwrite g b off (Q : result errno Z -> sghost * nat -> Prop) :
  (b <= B)%nat -> sg_failed g = false -> sg_closed g = false ->
  off = i64 (u64 (offset + len (sg_written g))) ->
  (forall n b', 0 <= n <= len (sg_todo g) -> (b' <= b)%nat ->
     Q (Ok n) (mkSghost (sg_received g) (sg_written g ++ take (Z.to_nat n) (sg_todo g))
                 (drop (Z.to_nat n) (sg_todo g)) false false, b')) ->
  (forall e b', (b' <= b)%nat -> Q (Err e) (g, b')) ->
  SW (ignoringEINTR fuel (trigger (SysPwrite sfd (sg_todo g) off))) (g, b) Q.
Proof.
  intros Hb Hf Hc -> Hok Herr. unfold ignoringEINTR.
  apply (wp_loop total stream_env _ (fun _ gb => gb.1 = g /\ (gb.2 <= b)%nat) (fun _ gb => gb.2));
    [|done|intros Ht; specialize (Hfuel Ht); simpl; lia].
  intros _ [g' b'] [Hg' Hb']. simpl in Hg', Hb'. subst g'.
  apply wp_bind, (wp_trigger total stream_env); [done|].
  intros [n|e] [g' b2] (Hs & -> & Hr); simpl in Hs, Hr |- *.
  - subst b2. rewrite Hf, Hc. by apply Hok.
  - destruct (e =? EINTR); simpl; [subst b'; simpl; split; [split; [done|lia]|lia]|].
    subst b2. by apply Herr.
Qed.

(** Writing a chunk: what was written is counted, all of it or an error. *)
Lemma SW_chunk_loop n off tot w0 g b (Q : chunk_result -> sghost * nat -> Prop) :
  (length (sg_todo g) <= n)%nat -> (b <= B)%nat -> sg_failed g = false -> sg_closed g = false ->
  off = u64 (offset + len (sg_written g)) -> tot = u64 (len (sg_written g) - w0) ->
  (forall w todo err b', (b' <= b)%nat ->
     match err with None => todo = [] | Some (ec, _) => err_code ec end ->
     Q (u64 (len w - w0), err) (mkSghost (sg_received g) w todo false false, b')) ->
  SW (writeStreamWriteChunk_loop fuel n sfd off tot (sg_todo g)) (g, b) Q.
Proof.
  revert off tot g b. induction n as [|n IH]; intros off tot g b Hn Hb Hf Hc -> -> HQ;
    (assert (Hg : g = mkSghost (sg_received g) (sg_written g) (sg_todo g) false false)
       by (destruct g; simpl in *; by subst));
    cbn [writeStreamWriteChunk_loop]; destruct (sg_todo g) as [|c d] eqn:Ed;
    try (by rewrite Hg; apply HQ); [simpl in Hn; lia|].
  rewrite <-Ed in *. apply wp_bind, SW_pwrite; [done..| |].
  - intros w b' Hw Hb'. destruct (Z.eqb_spec w 0) as [->|Hw0].
    { simpl. rewrite app_nil_r, drop_0. by apply HQ. }
    replace ((w <? 0) || (len (sg_todo g) <? w)) with false by lia.
    assert (Hl : len (take (Z.to_nat w) (sg_todo g)) = w).
    { unfold len in *. rewrite length_take. lia. }
    eapply (IH _ _ (mkSghost (sg_received g) (sg_written g ++ take (Z.to_nat w) (sg_todo g))
             (drop (Z.to_nat w) (sg_todo g)) false false) b'); simpl; [|lia|done|done| | |].
    + rewrite length_drop. unfold len in *. lia.
    + rewrite len_app, Hl, u64_add. f_equal. lia.
    + rewrite len_app, Hl, u64_add. f_equal. lia.
    + intros w' todo err b2 Hb2 He. apply HQ; [lia|done].
  - intros e b' Hb'. assert ((g, b') = (mkSghost (sg_received g) (sg_written g) (sg_todo g) false false, b'))
      as -> by congruence. apply HQ; [done|apply wsfsErrCode_code].
Qed.

Lemma SW_send ec p g b (Q : unit -> sghost * nat -> Prop) :
  stream_pre g (SendRsp mark ec p) ->
  Q tt (sg_step g (logged_entry (SendRsp mark ec p) tt), b) -> SW (trigger (SendRsp mark ec p)) (g, b) Q.
Proof.
  intros Hp HQ. apply (wp_trigger total stream_env); [done|]. by intros [] [g' b'] (_ & -> & ->).
Qed.

Lemma close_frame n : in_u 64 n = true ->
  (enc (fields_RspWriteStreamClose (mkRspWriteStreamClose n))).2 = None /\
  2 + len (enc (fields_RspWriteStreamClose (mkRspWriteStreamClose n))).1 <= MaxResponseLength.
Proof.
  intros Hn. destruct (wf_image (fields_RspWriteStreamClose (mkRspWriteStreamClose n))) as [H1 H2].
  - unfold fields_RspWriteStreamClose. codec_wf_goal ltac:(first [exact Hn|done]).
  - by rewrite H2.
Qed.

Lemma SW_error ec desc g b (Q : unit -> sghost * nat -> Prop) :
  err_code ec -> sg_failed g = false -> sg_closed g = false ->
  Q tt (mkSghost (sg_received g) (sg_written g) (sg_todo g) true (sg_closed g), b) ->
  SW (writeRspError mark ec desc) (g, b) Q.
Proof.
  intros (He1 & He2 & He3) Hf Hc HQ. destruct (error_image desc) as [H1 H2]. apply SW_send.
  - unfold stream_pre. rewrite (proj2 (Z.eqb_neq ec ErrorOK)) by done. by split_and!.
  - simpl. rewrite (proj2 (Z.eqb_neq ec ErrorOK)) by done. done.
Qed.

Lemma SW_close g b (Q : unit -> sghost * nat -> Prop) :
  sg_closed g = false -> (sg_failed g = false -> sg_todo g = []) -> (forall gb, Q tt gb) ->
  SW (writeRspWriteStreamClose mark (u64 (len (sg_written g)))) (g, b) Q.
Proof.
  intros Hc Hd HQ. destruct (close_frame (u64 (len (sg_written g)))) as [H1 H2]; [by apply wrapu_range|].
  apply SW_send; [|apply HQ]. unfold stream_pre. by split_and!.
Qed.

Lemma SW_silent e g b (Q : sans e -> sghost * nat -> Prop) :
  stream_pre g e -> (forall r, sg_step g (logged_entry e r) = g) -> (forall r, retry e r = false) ->
  (forall r, Q r (g, b)) -> SW (trigger e) (g, b) Q.
Proof.
  intros Hp Hg Hr HQ. apply (wp_trigger total stream_env); [done|].
  intros r [g' b'] (_ & -> & Hb). rewrite Hg. rewrite Hr in Hb. subst b'. apply HQ.
Qed.

(** The variables of [run] mirror the ghost state. *)
Definition stream_inv (st : stream_state) (gb : sghost * nat) : Prop :=
  let g := gb.1 in
  (gb.2 <= B)%nat /\ sg_closed g = false /\ st_writeErrSent st = sg_failed g /\
  st_offset st = u64 (offset + len (sg_written g)) /\
  st_writtenTotal st = u64 (len (sg_written g)) /\ (sg_failed g = false -> sg_todo g = []).

(** The write of a received chunk, if any. *)
Lemma SW_write_part st msg g b (Q : stream_state -> sghost * nat -> Prop) :
  stream_inv st (g, b) ->
  let g1 := mkSghost (sg_received g ++ in_data msg) (sg_written g) (in_data msg) (sg_failed g) false in
  (forall st' g' b', stream_inv st' (g', b') -> (b' <= b)%nat -> Q st' (g', b')) ->
  SW (if (len (in_data msg) >? 0) && negb (st_writeErrSent st) then
        r ← writeStreamWriteChunk fuel sfd (st_offset st) (in_data msg);
        let '(written, err) := (r : chunk_result) in
        let offset := u64 (st_offset st + written) in
        let total := u64 (st_writtenTotal st + written) in
        match err with
        | Some (errCode, errDesc) =>
            writeRspError mark errCode errDesc ;; mret (mkStreamState offset total true)
        | None => mret (mkStreamState offset total (st_writeErrSent st))
        end
      else mret st) (g1, b) Q.
Proof.
  intros (Hb & Hc & Hw & Ho & Ht & Hd) g1 HQ. cbn [fst snd] in *.
  destruct (Z.gtb_spec (len (in_data msg)) 0) as [Hl|Hl]; cbn [andb].
  2:{ apply HQ; [|lia]. unfold stream_inv. simpl. split_and!; [done..|]. intros _.
      apply nil_length_inv. unfold len in Hl. lia. }
  rewrite Hw. destruct (sg_failed g) eqn:Ef; cbn [negb].
  { apply HQ; [|lia]. unfold stream_inv. by simpl. }
  apply wp_bind. unfold writeStreamWriteChunk.
  change (in_data msg) with (sg_todo g1) at 1 2.
  apply SW_chunk_loop with (w0 := len (sg_written g)); [done..|by rewrite Z.sub_diag|].
  intros w todo err b' Hb' Herr. rewrite Ho, Ht, !u64_add.
  replace (offset + len (sg_written g) + (len w - len (sg_written g))) with (offset + len w) by lia.
  replace (len (sg_written g) + (len w - len (sg_written g))) with (len w) by lia.
  destruct err as [[ec desc]|]; cbv beta iota zeta.
  - apply wp_bind, SW_error; [done..|]. apply HQ; [|done].
    unfold stream_inv. simpl. split_and!; [lia|done..].
  - apply HQ; [|done]. unfold stream_inv. simpl. split_and!; [lia|done..].
Qed.

Lemma SW_release msg g b (Q : unit -> sghost * nat -> Prop) :
  Q tt (g, b) -> SW (releaseInput msg) (g, b) Q.
Proof.
  intros HQ. unfold releaseInput. destruct (in_buf msg); [|done].
  apply SW_silent; [done..|]. by intros [].
Qed.

Lemma SW_step st gb :
  stream_inv st gb ->
  SW (writeStream_step fuel stream mark sfd st) gb (fun r gb' =>
    match r with
    | inl st' => stream_inv st' gb' /\ (total = true -> gb'.2 < gb.2)%nat
    | inr _ => True
    end).
Proof.
  destruct gb as [g b]. intros Hi. pose proof Hi as (Hb & Hc & Hw & Ho & Ht & Hd). cbn [fst snd] in *.
  apply wp_bind, (wp_trigger total stream_env); [done|].
  intros [msg|] [g' b'] (_ & -> & Hr); [|done]. simpl in Hr. subst b. apply wp_bind.
  change (sg_step g (logged_entry (WsReceive stream) (Some msg))) with
    (mkSghost (sg_received g ++ in_data msg) (sg_written g) (in_data msg) (sg_failed g) (sg_closed g)).
  rewrite Hc. apply SW_write_part; [by split_and!; [simpl; lia|..]|].
  intros st' g2 b2 Hi' Hb2. apply wp_bind, SW_release.
  destruct (in_isEnd msg); [|split; [done|simpl; lia]].
  destruct Hi' as (_ & Hc' & _ & _ & Ht' & Hd'). simpl in Ht'. rewrite Ht'.
  by apply wp_bind, SW_close.
Qed.

(** The whole goroutine: it respects the contract, and ends when no more
    messages or interruptions come than its fuel allows. *)
Lemma SW_run : SW (writeStream_run fuel stream mark sfd offset) (stream_fresh, B) (fun _ _ => True).
Proof.
  apply wp_bind. apply (wp_loop total stream_env _ stream_inv (fun _ gb => gb.2)).
  - intros st gb Hi. eapply wp_mono; [by apply SW_step|]. intros [st'|[]] gb'; [done|].
    intros _. destruct gb' as [g' b']. apply wp_bind, SW_silent; done.
  - unfold stream_inv. simpl. split_and!; [lia|done|done| |done|done].
    rewrite Z.add_0_r. symmetry. by apply wrapu_id.
  - done.
Qed.
End StreamSpec.

(** ** Histories *)

Section StreamLog.
Context (j : nat) (mark sfd offset : Z).

(** Each request keeps to the contract of the stream at that point of its
    history, and the data is in order there. *)
Definition stream_log (log : list entry) : Prop :=
  forall l1 x l2, log = l1 ++ x :: l2 ->
    sg_ok (sg_of l1) /\ stream_pre j mark sfd offset (sg_of l1) (projT1 x).

Lemma stream_log_nil : stream_log [].
Proof. intros l1 x l2 E. by destruct l1. Qed.

Lemma stream_log_snoc log x :
  stream_log log -> sg_ok (sg_of log) -> stream_pre j mark sfd offset (sg_of log) (projT1 x) ->
  stream_log (log ++ [x]).
Proof.
  intros Hl Hg Hx l1 y l2 E. destruct l2 as [|z l2 _] using rev_ind.
  - by apply app_inj_tail in E as [-> ->].
  - rewrite app_comm_cons, app_assoc in E. apply app_inj_tail in E as [E _]. by eapply Hl.
Qed.

Lemma sg_of_snoc log x : sg_of (log ++ [x]) = sg_step (sg_of log) x.
Proof. unfold sg_of. by rewrite foldl_app. Qed.

(** What a run of a program that keeps to the contract did. *)
Lemma stream_run {S} (os : forall e : sev, S -> sans e * S) budget (p : SP unit) st :
  lawful os -> within os budget ->
  wp true (stream_env j mark sfd offset) p (stream_fresh, budget st) (fun _ _ => True) ->
  exists st' log, run (logged os) p (st, []) = (Done tt, (st', log)) /\ stream_log log /\ sg_ok (sg_of log).
Proof.
  intros Hos Hin Hw.
  pose (R := fun (st : S * list entry) (gb : sghost * nat) =>
    gb.1 = sg_of st.2 /\ (budget st.1 <= gb.2)%nat /\ stream_log st.2 /\ sg_ok (sg_of st.2)).
  assert (match run (logged os) p (st, []) with
          | (Done a, s') => exists gb, R s' gb /\ True
          | (Panicked, _) => False
          | (OutOfFuel, _) => true = false
          end) as H.
  { apply (wp_run true (stream_env j mark sfd offset) (logged os) R p (st, []) (stream_fresh, budget st)
             (fun _ _ => True)); [|by split_and!; [..|apply stream_log_nil|]|done].
    intros e [s0 l] [g0 b0] (Hg & Hb & Hl & Hsg) Hpre. unfold logged. simpl in *. subst g0.
    pose proof (Hos e s0) as Hok. pose proof (Hin e s0) as Hbs.
    destruct (os e s0) as [r s1]. simpl in *.
    exists (sg_step (sg_of l) (logged_entry e r), if retry e r then pred b0 else b0).
    unfold R. simpl. rewrite sg_of_snoc. split_and!; [done|done| |done| |by apply stream_log_snoc|by eapply sg_ok_step].
    all: destruct (retry e r); lia. }
  destruct (run (logged os) p (st, [])) as [[[]| |] [st' log]]; [|done..].
  destruct H as ([g b] & (_ & _ & Hl & Hg) & _). by exists st', log.
Qed.
End StreamLog.
