(* ===== verification/ClientEnv.v ===== *)
(** * The environment of the client's request functions

    What a request of src/src/internal/client/session works with, as the requests
    of a [prog]: the lifecycle of the session and its marks, the connection
    (beginRequest .. writeDone around a struct) and the channel of responses of
    its mark. [newClientMark] and [releaseClientMark] of session.go and the
    common ways of making a request and reading its response. *)
From S2P Require Import Prelude GoIO Codec Structs StructGen Prog Paths ServerEnv.

(** ** What a directory listing is made of (commands.go) *)

(** DirItem. The fields Child and childReady are kept by the environment
    ([CSetChild], [CCloseReady]), since they change after the item was handed
    out; [di_ready] says that the item has a childReady channel. *)
Record DirItem := mkDirItem {
  di_Name : gostring;
  di_Size : Z;
  di_MTime : Timespec;
  di_Mode : Z;
  di_Owner : Z;
  di_ready : bool;
}.

Record readDirPlusResult := mkReadDirPlusResult { rdp_list : list DirItem; rdp_code : Z }.

(** ** Requests *)

(** The outcome of beginRequest, writing the struct and writeDone. *)
Inductive sent :=
| NotBegun (* beginRequest returned false *)
| WriteFailed (desc : gostring) (* writing the struct failed: err.Error() *)
| Sent.

Inductive cev : Type :=
(* newClientMark: the check of the state with [activeReqs += 1],
   [lastMark.Add(1)], [marks[v].TryLock()] *)
| CBegin
| CMarkAdd
| CTryLock (mark : Z)
(* releaseClientMark: [marks[m].Unlock()], then [activeReqs -= 1] *)
| CUnlock (mark : Z)
| CEnd
(* the connection *)
| CRequest (mark cmd : Z) (body : image)
| CReceive (mark : Z) (* <-s.responses[mark] *)
| CPut (* bufPool.Put *)
(* the prefetch of a directory: [go s.parseReadDirPlus], the channel rootCh of
   the request under a mark, and the items it has handed out *)
| CGoParse (mark : Z)
| CRootSend (mark : Z) (r : readDirPlusResult)
| CRootRecv (mark : Z)
| CSetChild (mark : Z) (idx : nat) (items : list DirItem)
| CCloseReady (mark : Z) (idx : nat).

Definition cans (e : cev) : Type :=
  match e with
  | CBegin => bool
  | CMarkAdd => Z
  | CTryLock _ => bool
  | CRequest _ _ _ => sent
  | CReceive _ => bytes
  | CRootRecv _ => readDirPlusResult
  | _ => unit
  end.

Abbreviation CP := (prog cans).

(** The read loop hands out frames with a mark and a code only. *)
Definition cli_ok (e : cev) : cans e -> Prop :=
  match e return cans e -> Prop with
  | CMarkAdd => fun v => in_u 32 v = true
  | CReceive _ => fun f => 2 <= len f
  | _ => fun _ => True
  end.

(** ** Frames *)

(** [rsp.Bytes[1]] and [rsp.Bytes[2:rsp.Written()]]. *)
Definition rsp_code (f : bytes) : Z := Uint8 f 1.
Definition rsp_data (f : bytes) : bytes := drop 2 f.

(** [ReadTFromReader(&rsp, bytes.NewReader(data))]. *)
Definition bytes_reader (data : bytes) : reader := mkReader data [] EOF.

Section Client.
Context (fuel : nat).

(** The search for a mark that is free. *)
Definition newClientMark : CP (option Z) :=
  ok ← trigger CBegin;
  if negb (ok : bool) then mret None
  else
    loop fuel (fun _ : unit =>
      last ← trigger CMarkAdd;
      let v := u8 last in
      locked ← trigger (CTryLock v);
      mret (if (locked : bool) then inr (Some v) else inl tt)) tt.

Definition releaseClientMark (clientMark : Z) : CP unit :=
  trigger (CUnlock clientMark) ;; trigger CEnd.

(** The beginning of a request function: a mark, the request, and the returns
    [refused] (the session is closing) and [failed] (nothing was sent). *)
Definition request {A} (cmd : Z) (fields : list fval) (refused failed : A) (k : Z -> CP A) : CP A :=
  m ← newClientMark;
  match (m : option Z) with
  | None => mret refused
  | Some clientMark =>
      r ← trigger (CRequest clientMark cmd (enc fields));
      match (r : sent) with
      | Sent => k clientMark
      | _ => releaseClientMark clientMark ;; mret failed
      end
  end.

(** The end of a request function whose response is only a code. *)
Definition code_only (clientMark : Z) : CP Z :=
  f ← trigger (CReceive clientMark);
  releaseClientMark clientMark ;;
  trigger CPut ;;
  mret (rsp_code f).

(** The end of a request function whose response is a struct: [zero] is the
    result with an error code, [get] what is returned of the struct. *)
Definition decoded {T A} (rd : RM T) (get : T -> A) (zero : A) (clientMark : Z) : CP (A * Z) :=
  f ← trigger (CReceive clientMark);
  releaseClientMark clientMark ;;
  let code := rsp_code f in
  if negb (code =? ErrorOK) then trigger CPut ;; mret (zero, code)
  else
    let '(r, _) := rd (bytes_reader (rsp_data f)) in
    trigger CPut ;;
    mret match r with
         | Err _ => (zero, ErrorIO)
         | Ok d => (get d, code)
         end.
End Client.
