(* ===== verification/ClientCmds.v ===== *)
(** * The client's request functions (commands.go, writeStream.go)

    One definition per function of src/src/internal/client/session/commands.go
    and writeStream.go. They live in module [Client], since they carry the names
    of the command codes. A result [(v, code)] is the pair the Go function
    returns; a function that fills [dest] returns its new contents too. *)
From S2P Require Import Prelude GoIO Codec Structs StructGen Prog Paths ServerEnv ServerXattr ClientEnv.

Definition maxFrameSize : Z := MaxMsgSize.
Definition maxWritePayload : Z := maxFrameSize - 6.
Definition maxWriteAtPayload : Z := maxFrameSize - 14.
Definition maxWriteStreamOpenPayload : Z := maxFrameSize - 14.
Definition maxWriteStreamDataPayload : Z := maxFrameSize - 3.

(** The fields of a session that do not change. *)
Record client := mkClient { cl_allowedXAttrPrefix : list gostring; cl_autoXAttrAppend : bool }.

(** [copy(dest[off:], data)], [None] when the slice is out of range. *)
Definition copy_at (off : Z) (data dest : bytes) : option bytes :=
  if (off <? 0) || (len dest <? off) then None
  else Some (splice (Z.to_nat off) (take (Z.to_nat (len dest - off)) data) dest).

Definition makeDirItemFromDirent (d : Dirent) : DirItem :=
  mkDirItem (Dirent_Name d) (Dirent_Size d) (Dirent_MTime d) (Dirent_Mode d) (Dirent_Owner d) false.

(** The dirents of a reader to its end; every dirent consumes bytes, so the
    length of the data bounds the iterations. *)
Fixpoint appendDirItems_loop (n : nat) (items : list DirItem) (r : reader) : list DirItem * option goerror :=
  match rd_data r with
  | [] => (items, None)
  | _ =>
      match n with
      | O => (items, Some EOF)
      | S n' =>
          match ReadDirentFromReader r with
          | (Err e, _) => (items, Some e)
          | (Ok ent, r') => appendDirItems_loop n' (items ++ [makeDirItemFromDirent ent]) r'
          end
      end
  end.

Definition appendDirItemsFromReader (items : list DirItem) (data : bytes) : list DirItem * option goerror :=
  appendDirItems_loop (length data) items (bytes_reader data).

Definition readRspErrorDesc (data : bytes) : gostring :=
  match ReadRspErrorFromReader (bytes_reader data) with
  | (Ok d, _) => RspError_Desc d
  | (Err _, _) => []
  end.

Definition setXAttrFits (path key : gostring) (value : bytes) (mode : Z) : bool :=
  2 + GetCmdSetXAttrStructRequiredSize (mkCmdSetXAttrStruct path mode key value) <=? MaxCommandLength.

(** The binary search of maxXAttrChunkSize; the interval shrinks in every round,
    so its length bounds the rounds. *)
Fixpoint maxXAttrChunkSize_loop (n : nat) (path key : gostring) (mode low high : Z) : Z :=
  match n with
  | O => low
  | S n' =>
      if negb (low <? high) then low
      else
        let mid := low + Z.quot (high - low + 1) 2 in
        if setXAttrFits path key (replicate (Z.to_nat mid) Byte.x00) mode
        then maxXAttrChunkSize_loop n' path key mode mid high
        else maxXAttrChunkSize_loop n' path key mode low (mid - 1)
  end.

Definition maxXAttrChunkSize (path key : gostring) (mode : Z) : Z :=
  if negb (setXAttrFits path key [] mode) then 0
  else maxXAttrChunkSize_loop (Z.to_nat MaxCommandLength) path key mode 0 MaxCommandLength.

(** [mode &^ XATTR_NOFOLLOW]. *)
Definition without_nofollow (mode : Z) : Z := Z.ldiff mode XATTR_NOFOLLOW.

Definition validateXAttr (c : client) (key : gostring) (mode : Z) (isSet : bool) : Z :=
  if (len key =? 0) || bool_decide (Byte.x00 ∈ key) then ErrorInvalid
  else if isSet && negb ((without_nofollow mode =? SETXATTR_NORMAL) || (without_nofollow mode =? SETXATTR_APPEND) ||
                         (without_nofollow mode =? SETXATTR_CREATE) || (without_nofollow mode =? SETXATTR_REPLACE))
  then ErrorInvalid
  else if negb isSet && negb (without_nofollow mode =? 0) then ErrorInvalid
  else if has_allowed_prefix key (cl_allowedXAttrPrefix c) then ErrorOK
  else ErrorStateBlocked.

(** The same loop as on the server. *)
Definition client_filterXAttrList (c : client) (data : bytes) : option bytes :=
  ok_of (filterXAttrList_loop (length data) (cl_allowedXAttrPrefix c) data []).

Module Client.
Section Commands.
Context (fuel : nat) (c : client).

Abbreviation request := (ClientEnv.request fuel).

(** [for { rsp := <-s.responses[clientMark] .. }] over the frames of a response. *)
Definition frames {S A} (clientMark : Z) (step : S -> bytes -> CP (S + A)) (s : S) : CP A :=
  loop fuel (fun s => rsp ← trigger (CReceive clientMark); step s rsp) s.

(** ** Files and names *)

Definition CmdOpen (path : gostring) (oflag fmode : Z) : CP (Z * Z) :=
  request Structs.CmdOpen (fields_CmdOpenStruct (mkCmdOpenStruct path oflag fmode)) (0, ErrorIO) (0, ErrorIO)
    (decoded ReadRspOpenFromReader RspOpen_FD 0).

Definition CmdClose (fd : Z) : CP Z :=
  request Structs.CmdClose (fields_CmdCloseStruct (mkCmdCloseStruct fd)) ErrorIO ErrorIO code_only.

(** The loop over the frames of CmdRead and CmdReadAt: [dest], the number of
    bytes and the code. *)
Definition read_frame (clientMark : Z) (s : bytes * Z) (rsp : bytes) : CP (bytes * Z + bytes * Z * Z) :=
  let '(dest, off) := s in
  let code := rsp_code rsp in
  let data := rsp_data rsp in
  match copy_at off data dest with
  | None => Panic (* dest[off:] *)
  | Some dest =>
      trigger CPut ;;
      if code =? ErrorPartialResponse then mret (inl (dest, off + len data))
      else
        releaseClientMark clientMark ;;
        mret (inr (dest, u64 (off + len data), code))
  end.

Definition read_frames (clientMark : Z) (dest : bytes) : CP (bytes * Z * Z) :=
  frames clientMark (read_frame clientMark) (dest, 0).

Definition CmdRead (fd : Z) (dest : bytes) : CP (bytes * Z * Z) :=
  request Structs.CmdRead (fields_CmdReadStruct (mkCmdReadStruct fd (len dest)))
    (dest, 0, ErrorIO) (dest, 0, ErrorIO) (fun clientMark => read_frames clientMark dest).

Definition CmdReadAt (fd offset : Z) (dest : bytes) : CP (bytes * Z * Z) :=
  request Structs.CmdReadAt (fields_CmdReadAtStruct (mkCmdReadAtStruct fd offset (len dest)))
    (dest, 0, ErrorIO) (dest, 0, ErrorIO) (fun clientMark => read_frames clientMark dest).

Definition readdir_frame (clientMark : Z) (items : list DirItem) (rsp : bytes)
  : CP (list DirItem + list DirItem * Z) :=
  let code := rsp_code rsp in
  if negb (code =? ErrorOK) && negb (code =? ErrorPartialResponse) then
    trigger CPut ;; releaseClientMark clientMark ;; mret (inr (items, code))
  else
    let '(items, readErr) := appendDirItemsFromReader items (rsp_data rsp) in
    trigger CPut ;;
    match readErr with
    | Some _ => releaseClientMark clientMark ;; mret (inr ([], ErrorIO))
    | None =>
        if code =? ErrorPartialResponse then mret (inl items)
        else releaseClientMark clientMark ;; mret (inr (items, code))
    end.

Definition readdir_frames (clientMark : Z) : CP (list DirItem * Z) :=
  frames clientMark (readdir_frame clientMark) [].

Definition CmdReadDir (path : gostring) : CP (list DirItem * Z) :=
  request Structs.CmdReadDir (fields_CmdReadDirStruct (mkCmdReadDirStruct path)) ([], ErrorIO) ([], ErrorIO)
    readdir_frames.

Definition CmdReadLink (lpath : gostring) : CP (gostring * Z) :=
  request Structs.CmdReadLink (fields_CmdReadLinkStruct (mkCmdReadLinkStruct lpath)) ([], ErrorIO) ([], ErrorIO)
    (decoded ReadRspReadLinkFromReader RspReadLink_TargetPath []).

(** CmdWrite with data that fits one frame: the branch the recursive calls of
    CmdWrite take for full chunks. *)
Definition write_one (fd : Z) (data : bytes) (clientMark : Z) : CP (Z * Z) :=
  r ← trigger (CRequest clientMark Structs.CmdWrite (enc (fields_CmdWriteStruct (mkCmdWriteStruct fd data))));
  match (r : sent) with
  | Sent => decoded ReadRspWriteFromReader RspWrite_Written 0 clientMark
  | _ => releaseClientMark clientMark ;; mret (0, ErrorIO)
  end.

(** [for i := 0; i < nChunks; i++], over [write] for the recursive call. *)
Fixpoint write_chunks (write : bytes -> CP (Z * Z)) (n : nat) (data : bytes) (off : Z) : CP (Z + Z * Z) :=
  match n with
  | O => mret (inl off)
  | S n' =>
      if (off <? 0) || (len data <? off + maxWritePayload) then Panic (* data[off:off+maxWritePayload] *)
      else
        r ← write (take (Z.to_nat maxWritePayload) (drop (Z.to_nat off) data));
        let '(n, code) := (r : Z * Z) in
        if negb (code =? ErrorOK) then mret (inr (u64 off, code))
        else write_chunks write n' data (off + i64 n)
  end.

(** [depth] bounds the recursion. *)
Fixpoint CmdWrite_rec (depth : nat) (fd : Z) (data : bytes) : CP (Z * Z) :=
  match depth with
  | O => Diverge
  | S depth' =>
      m ← newClientMark fuel;
      match (m : option Z) with
      | None => mret (0, ErrorIO)
      | Some clientMark =>
          if len data <=? maxWritePayload then write_one fd data clientMark
          else
            releaseClientMark clientMark ;;
            r ← write_chunks (CmdWrite_rec depth' fd) (Z.to_nat (len data / maxWritePayload)) data 0;
            match (r : Z + Z * Z) with
            | inr res => mret res
            | inl off =>
                if 0 <? len data mod maxWritePayload then
                  if (off <? 0) || (len data <? off) then Panic (* data[off:] *)
                  else
                    r ← CmdWrite_rec depth' fd (drop (Z.to_nat off) data);
                    let '(n, code) := (r : Z * Z) in
                    if negb (code =? ErrorOK) then mret (u64 off, code)
                    else mret (u64 (off + i64 n), ErrorOK)
                else mret (u64 off, ErrorOK)
            end
      end
  end.

Definition CmdWrite (fd : Z) (data : bytes) : CP (Z * Z) := CmdWrite_rec fuel fd data.

(** On a request that could not be sent the named results are still zero. *)
Definition CmdSeek (fd whence off : Z) : CP (Z * Z) :=
  request Structs.CmdSeek (fields_CmdSeekStruct (mkCmdSeekStruct fd whence off)) (0, ErrorIO) (0, 0)
    (decoded ReadRspSeekFromReader RspSeek_Offset 0).

Definition CmdAllocate (fd flag off size : Z) : CP Z :=
  request Structs.CmdAllocate (fields_CmdAllocateStruct (mkCmdAllocateStruct fd flag off size)) ErrorIO ErrorIO
    code_only.

Definition zero_Timespec : Timespec := mkTimespec 0 0.
Definition zero_FileInfo : FileInfo := mkFileInfo 0 zero_Timespec 0 0.

Definition CmdGetAttr (fpath : gostring) : CP (FileInfo * Z) :=
  request Structs.CmdGetAttr (fields_CmdGetAttrStruct (mkCmdGetAttrStruct fpath))
    (zero_FileInfo, ErrorIO) (zero_FileInfo, 0)
    (decoded ReadRspGetAttrFromReader RspGetAttr_FI zero_FileInfo).

Definition CmdSetAttr (fpath : gostring) (flag : Z) (fi : FileInfo) : CP Z :=
  request Structs.CmdSetAttr (fields_CmdSetAttrStruct (mkCmdSetAttrStruct fpath flag fi)) ErrorIO ErrorIO code_only.

Definition CmdSync (fd : Z) : CP Z :=
  request Structs.CmdSync (fields_CmdSyncStruct (mkCmdSyncStruct fd)) ErrorIO ErrorIO code_only.

Definition CmdMkdir (fpath : gostring) (mode : Z) : CP Z :=
  request Structs.CmdMkdir (fields_CmdMkdirStruct (mkCmdMkdirStruct fpath mode)) ErrorIO ErrorIO code_only.

Definition CmdSymLink (target fpath : gostring) : CP Z :=
  request Structs.CmdSymLink (fields_CmdSymLinkStruct (mkCmdSymLinkStruct target fpath)) ErrorIO ErrorIO code_only.

Definition CmdRemove (fpath : gostring) : CP Z :=
  request Structs.CmdRemove (fields_CmdRemoveStruct (mkCmdRemoveStruct fpath)) ErrorIO ErrorIO code_only.

Definition CmdRmDir (fpath : gostring) : CP Z :=
  request Structs.CmdRmDir (fields_CmdRmDirStruct (mkCmdRmDirStruct fpath)) ErrorIO ErrorIO code_only.

Definition zero_FsStat : RspFsStat := mkRspFsStat 0 0 0.

Definition CmdFsStat (fpath : gostring) : CP (RspFsStat * Z) :=
  request Structs.CmdFsStat (fields_CmdFsStatStruct (mkCmdFsStatStruct fpath)) (zero_FsStat, ErrorIO) (zero_FsStat, 0)
    (decoded ReadRspFsStatFromReader id zero_FsStat).

Definition CmdRename (old new : gostring) (mode : Z) : CP Z :=
  request Structs.CmdRename (fields_CmdRenameStruct (mkCmdRenameStruct old new mode)) ErrorIO ErrorIO code_only.

Definition cmdCopyFileRangeOnce (wfd1 wfd2 off1 off2 size : Z) : CP (Z * Z) :=
  request Structs.CmdCopyFileRange
    (fields_CmdCopyFileRangeStruct (mkCmdCopyFileRangeStruct wfd1 wfd2 off1 off2 size)) (0, ErrorIO) (0, 0)
    (decoded ReadRspCopyFileRangeFromReader RspCopyFileRange_Copied 0).

Definition CmdCopyFileRange (wfd1 wfd2 off1 off2 size : Z) : CP (Z * Z) :=
  loop fuel (fun '(off1, off2, size, total) =>
    if negb (0 <? size) then mret (inr (total, ErrorOK))
    else
      let chunk := Z.min size MaxCopyFileRangeChunk in
      r ← cmdCopyFileRangeOnce wfd1 wfd2 off1 off2 chunk;
      let '(n, code) := (r : Z * Z) in
      let total := u64 (total + n) in
      mret (if negb (code =? ErrorOK) then inr (total, code)
            else if (n =? 0) || (n <? chunk) then inr (total, ErrorOK)
            else inl (u64 (off1 + n), u64 (off2 + n), u64 (size - n), total))) (off1, off2, size, 0).

Definition CmdCloneFileRange (wfd1 wfd2 off1 off2 size : Z) : CP Z :=
  request Structs.CmdCloneFileRange
    (fields_CmdCloneFileRangeStruct (mkCmdCloneFileRangeStruct wfd1 wfd2 off1 off2 size)) ErrorIO ErrorIO code_only.

Definition zero_FileLock : FileLockInfo := mkFileLockInfo 0 0 0 0.

Definition CmdGetFileLock (fd : Z) (fileLock : FileLockInfo) : CP (FileLockInfo * Z) :=
  request Structs.CmdGetFileLock (fields_CmdGetFileLockStruct (mkCmdGetFileLockStruct fd fileLock))
    (zero_FileLock, ErrorIO) (zero_FileLock, ErrorIO)
    (decoded ReadRspGetFileLockFromReader RspGetFileLock_FileLock zero_FileLock).

Definition CmdSetFileLock (fd : Z) (fileLock : FileLockInfo) : CP Z :=
  request Structs.CmdSetFileLock (fields_CmdSetFileLockStruct (mkCmdSetFileLockStruct fd fileLock))
    ErrorIO ErrorIO code_only.

Definition CmdSetFileLockWait (fd : Z) (fileLock : FileLockInfo) : CP Z :=
  request Structs.CmdSetFileLockWait (fields_CmdSetFileLockWaitStruct (mkCmdSetFileLockWaitStruct fd fileLock))
    ErrorIO ErrorIO code_only.

Definition CmdSetAttrByFD (wfd flag : Z) (fi : FileInfo) : CP Z :=
  request Structs.CmdSetAttrByFD (fields_CmdSetAttrByFDStruct (mkCmdSetAttrByFDStruct wfd flag fi))
    ErrorIO ErrorIO code_only.

(** ** Extended attributes *)

(** [defer s.releaseClientMark(clientMark)] around the rest of a request. *)
Definition request_defer {A} (cmd : Z) (fields : list fval) (refused failed : A) (k : Z -> CP A) : CP A :=
  request cmd fields refused failed (fun clientMark =>
    a ← k clientMark;
    releaseClientMark clientMark ;;
    mret a).

Definition read_code (clientMark : Z) : CP Z :=
  rsp ← trigger (CReceive clientMark);
  trigger CPut ;;
  mret (rsp_code rsp).

Definition xattr_frame (data rsp : bytes) : CP (bytes + bytes * Z) :=
  let code := rsp_code rsp in
  if negb (code =? ErrorOK) && negb (code =? ErrorPartialResponse) then
    trigger CPut ;; mret (inr ([], code))
  else
    let data := data ++ rsp_data rsp in
    trigger CPut ;;
    mret (if code =? ErrorOK then inr (data, code) else inl data).

Definition readXAttrData (clientMark : Z) : CP (bytes * Z) := frames clientMark xattr_frame [].

Definition CmdGetXAttr (path key : gostring) (mode : Z) : CP (bytes * Z) :=
  let code := validateXAttr c key mode false in
  if negb (code =? ErrorOK) then mret ([], code)
  else
    request_defer Structs.CmdGetXAttr (fields_CmdGetXAttrStruct (mkCmdGetXAttrStruct path key mode))
      ([], ErrorIO) ([], ErrorIO) readXAttrData.

Definition CmdListXAttr (path : gostring) (mode : Z) : CP (bytes * Z) :=
  if negb (IsUrlValid path) || negb (without_nofollow mode =? 0) then mret ([], ErrorInvalid)
  else
    request_defer Structs.CmdListXAttr (fields_CmdListXAttrStruct (mkCmdListXAttrStruct path mode))
      ([], ErrorIO) ([], ErrorIO) (fun clientMark =>
        r ← readXAttrData clientMark;
        let '(data, code) := (r : bytes * Z) in
        if negb (code =? ErrorOK) then mret ([], code)
        else mret match client_filterXAttrList c data with
                  | None => ([], ErrorIO)
                  | Some data => (data, ErrorOK)
                  end).

Definition CmdRemoveXAttr (path key : gostring) (mode : Z) : CP Z :=
  let code := validateXAttr c key mode false in
  if negb (code =? ErrorOK) then mret code
  else
    request_defer Structs.CmdRemoveXAttr (fields_CmdRemoveXAttrStruct (mkCmdRemoveXAttrStruct path key mode))
      ErrorIO ErrorIO read_code.

Definition sendSetXAttr (path key : gostring) (value : bytes) (mode : Z) : CP Z :=
  request_defer Structs.CmdSetXAttr (fields_CmdSetXAttrStruct (mkCmdSetXAttrStruct path mode key value))
    ErrorIO ErrorIO read_code.

(** The pieces after the first one; each iteration that goes on sends at least
    one byte, so the length of the value bounds them. *)
Fixpoint sendSplitXAttr_loop (n : nat) (path key : gostring) (value : bytes) (appendMode : Z) : CP Z :=
  match value with
  | [] => mret ErrorOK
  | _ =>
      match n with
      | O => Diverge
      | S n' =>
          let chunkSize := maxXAttrChunkSize path key appendMode in
          if chunkSize =? 0 then mret ErrorRange
          else
            let chunk := take (Z.to_nat chunkSize) value in
            code ← sendSetXAttr path key chunk appendMode;
            if negb (code =? ErrorOK) then mret code
            else sendSplitXAttr_loop n' path key (drop (length chunk) value) appendMode
      end
  end.

Definition sendSplitXAttr (path key : gostring) (value : bytes) (mode : Z) : CP Z :=
  let chunkSize := maxXAttrChunkSize path key mode in
  if chunkSize =? 0 then mret ErrorRange
  else
    let chunk := take (Z.to_nat chunkSize) value in
    code ← sendSetXAttr path key chunk mode;
    if negb (code =? ErrorOK) then mret code
    else
      let appendMode := Z.lor SETXATTR_APPEND (Z.land mode XATTR_NOFOLLOW) in
      sendSplitXAttr_loop (length value) path key (drop (length chunk) value) appendMode.

Definition restoreXAttr (path key : gostring) (oldValue : bytes) (oldExists : bool) (mode : Z) : CP Z :=
  let nofollow := Z.land mode XATTR_NOFOLLOW in
  if negb oldExists then CmdRemoveXAttr path key nofollow
  else if setXAttrFits path key oldValue nofollow then sendSetXAttr path key oldValue nofollow
  else sendSplitXAttr path key oldValue nofollow.

Definition CmdSetXAttr (path key : gostring) (value : bytes) (mode : Z) : CP Z :=
  let code := validateXAttr c key mode true in
  if negb (code =? ErrorOK) then mret code
  else if setXAttrFits path key value mode then sendSetXAttr path key value mode
  else if negb (cl_autoXAttrAppend c) then mret ErrorRange
  else
    r ← CmdGetXAttr path key (Z.land mode XATTR_NOFOLLOW);
    let '(oldValue, code) := (r : bytes * Z) in
    let oldExists := code =? ErrorOK in
    if negb oldExists && negb (code =? ErrorNoXAttr) then mret code
    else
      code ← sendSplitXAttr path key value mode;
      if code =? ErrorOK then mret code
      else restoreXAttr path key oldValue oldExists mode ;; mret code.

(** ** Write streams (writeStream.go) *)

(** A stream: the field [session] is the context of the definitions. *)
Record WriteStream := mkWriteStream {
  ws_clientMark : Z;
  ws_writeErrCode : Z;
  ws_writeErrDesc : gostring;
  ws_closed : bool;
}.

Inductive stream_error := errWriteStreamIO | errWriteStreamClosed.
Definition stream_error_desc (e : stream_error) : gostring :=
  match e with
  | errWriteStreamIO => str "write stream I/O error"
  | errWriteStreamClosed => str "write stream closed"
  end.

Definition set_closed (ws : WriteStream) : WriteStream :=
  mkWriteStream (ws_clientMark ws) (ws_writeErrCode ws) (ws_writeErrDesc ws) true.

(** [for len(data) > 0]: each iteration that goes on sends at least one byte. *)
Fixpoint stream_write_loop (n : nat) (clientMark : Z) (data : bytes) : CP (option stream_error) :=
  match data with
  | [] => mret None
  | _ =>
      match n with
      | O => Diverge
      | S n' =>
          let chunk := take (Z.to_nat maxWriteStreamDataPayload) data in
          r ← trigger (CRequest clientMark CmdWriteStreamData
                         (enc (fields_CmdWriteStreamDataStruct (mkCmdWriteStreamDataStruct 0 chunk))));
          match (r : sent) with
          | Sent => stream_write_loop n' clientMark (drop (length chunk) data)
          | _ => mret (Some errWriteStreamIO)
          end
      end
  end.

Definition stream_Write (ws : WriteStream) (data : bytes) : CP (option stream_error) :=
  if ws_closed ws then mret (Some errWriteStreamClosed)
  else stream_write_loop (length data) (ws_clientMark ws) data.

Definition OpenWriteStream (fd offset : Z) (first : bytes) : CP (result stream_error WriteStream) :=
  m ← newClientMark fuel;
  match (m : option Z) with
  | None => mret (Err errWriteStreamIO)
  | Some clientMark =>
      let stream := mkWriteStream clientMark 0 [] false in
      let firstChunk := take (Z.to_nat maxWriteStreamOpenPayload) first in
      let rest := drop (Z.to_nat maxWriteStreamOpenPayload) first in
      r ← trigger (CRequest clientMark CmdWriteStreamOpen
                     (enc (fields_CmdWriteStreamOpenStruct (mkCmdWriteStreamOpenStruct fd offset firstChunk))));
      match (r : sent) with
      | Sent =>
          if 0 <? len rest then
            e ← stream_Write stream rest;
            match (e : option stream_error) with
            | Some e => releaseClientMark clientMark ;; mret (Err e)
            | None => mret (Ok stream)
            end
          else mret (Ok stream)
      | _ => releaseClientMark clientMark ;; mret (Err errWriteStreamIO)
      end
  end.

(** The loop of Close over the responses; the result is the stream and
    [(written, code, desc)]. *)
Definition close_frames (ws : WriteStream) : CP (WriteStream * (Z * Z * gostring)) :=
  loop fuel (fun ws =>
    rsp ← trigger (CReceive (ws_clientMark ws));
    let code := rsp_code rsp in
    let payload := rsp_data rsp in
    if code =? ErrorOK then
      let '(r, _) := ReadRspWriteStreamCloseFromReader (bytes_reader payload) in
      trigger CPut ;;
      mret match r with
           | Err _ => inr (ws, (0, ErrorUnknown, str "bad close response"))
           | Ok d => inr (ws, (RspWriteStreamClose_Written d, code, []))
           end
    else if code =? ErrorUnknown then
      let desc := readRspErrorDesc payload in
      trigger CPut ;;
      mret (inr (ws, (0, code, desc)))
    else
      let errDesc := readRspErrorDesc payload in
      if (code =? ErrorIO) && bool_decide (errDesc = str "Session error mode") then
        trigger CPut ;; mret (inr (ws, (0, ErrorUnknown, errDesc)))
      else
        let ws := if ws_writeErrCode ws =? 0
                  then mkWriteStream (ws_clientMark ws) code errDesc (ws_closed ws) else ws in
        trigger CPut ;; mret (inl ws)) ws.

Definition stream_Close (ws : WriteStream) (last : bytes) : CP (WriteStream * (Z * Z * gostring)) :=
  if ws_closed ws then mret (ws, (0, ErrorInvalid, str "write stream already closed"))
  else
    let clientMark := ws_clientMark ws in
    let n := (length last - Z.to_nat maxWriteStreamDataPayload)%nat in
    e ← (if maxWriteStreamDataPayload <? len last then stream_Write ws (take n last) else mret None);
    match (e : option stream_error) with
    | Some e =>
        releaseClientMark clientMark ;;
        mret (set_closed ws, (0, ErrorUnknown, stream_error_desc e))
    | None =>
        let ws := set_closed ws in
        r ← trigger (CRequest clientMark CmdWriteStreamData
                       (enc (fields_CmdWriteStreamDataStruct (mkCmdWriteStreamDataStruct 1 (drop n last)))));
        match (r : sent) with
        | NotBegun => releaseClientMark clientMark ;; mret (ws, (0, ErrorUnknown, str "session error mode"))
        | WriteFailed desc => releaseClientMark clientMark ;; mret (ws, (0, ErrorUnknown, desc))
        | Sent =>
            r ← close_frames ws;
            releaseClientMark clientMark ;;
            mret r
        end
    end.

Definition CmdWriteAt (fd offset : Z) (data : bytes) : CP (Z * Z) :=
  if len data <=? maxWriteAtPayload then
    request Structs.CmdWriteAt (fields_CmdWriteAtStruct (mkCmdWriteAtStruct fd offset data)) (0, ErrorIO) (0, ErrorIO)
      (decoded ReadRspWriteAtFromReader RspWriteAt_Written 0)
  else
    r ← OpenWriteStream fd offset data;
    match (r : result stream_error WriteStream) with
    | Err _ => mret (0, ErrorIO)
    | Ok stream =>
        r ← stream_Close stream [];
        let '(stream, (written, code, _)) := (r : WriteStream * (Z * Z * gostring)) in
        mret (if negb (code =? ErrorOK) then (written, code)
              else if negb (ws_writeErrCode stream =? 0) then (written, ws_writeErrCode stream)
              else (written, ErrorOK))
    end.
End Commands.
End Client.
