(* ===== verification/ClientReadDirPlus.v ===== *)
(** * The client's parser of directory listings with prefetch (commands.go)

    CmdReadDirPlus and parseReadDirPlus of src/src/internal/client/session: the
    goroutine that reads the frames of the response hands out the listing of the
    directory itself as soon as it is complete, and afterwards resolves every
    subdirectory of it once, with a prefetched listing or without. *)
From S2P Require Import Prelude GoIO Codec Structs StructGen Prog Paths ServerEnv ClientEnv ClientCmds.

Inductive section := sectionRoot | sectionPrefetch.

(** The variables of parseReadDirPlus; [ps_current] is currentPrefetchIdx with
    [None] for -1. *)
Record parse_state := mkParse {
  ps_section : section;
  ps_list : list DirItem;
  ps_items : list DirItem;
  ps_current : option nat;
  ps_rootSent : bool;
  ps_pendingDirs : list nat;
}.

Definition parse_init : parse_state := mkParse sectionRoot [] [] None false [].

Definition set_rootSent (st : parse_state) : parse_state :=
  mkParse (ps_section st) (ps_list st) (ps_items st) (ps_current st) true (ps_pendingDirs st).

Section Parser.
Context (fuel : nat) (clientMark : Z).

Definition closeChildReady (items : list DirItem) (idx : nat) : CP unit :=
  match items !! idx with
  | None => Panic (* list[idx] *)
  | Some item => if di_ready item then trigger (CCloseReady clientMark idx) else mret tt
  end.

Definition setChild (items : list DirItem) (idx : nat) (children : list DirItem) : CP unit :=
  match items !! idx with
  | None => Panic
  | Some _ => trigger (CSetChild clientMark idx children) ;; closeChildReady items idx
  end.

Fixpoint closeAllRemainingChildReady (items : list DirItem) (pendingDirs : list nat) : CP unit :=
  match pendingDirs with
  | [] => mret tt
  | idx :: pendingDirs' => closeChildReady items idx ;; closeAllRemainingChildReady items pendingDirs'
  end.

Definition flushPrefetch (commit : bool) (st : parse_state) : CP parse_state :=
  match ps_section st, ps_current st with
  | sectionPrefetch, Some idx =>
      (if commit then setChild (ps_list st) idx (ps_items st) else closeChildReady (ps_list st) idx) ;;
      mret (mkParse (ps_section st) (ps_list st) [] None (ps_rootSent st) (ps_pendingDirs st))
  | _, _ => mret st
  end.

(** [if !rootSent { rootCh <- .. }] *)
Definition send_root (st : parse_state) (r : readDirPlusResult) : CP unit :=
  if ps_rootSent st then mret tt else trigger (CRootSend clientMark r).

(** The listing is handed out when its section is left. *)
Definition leave_root (st : parse_state) : CP parse_state :=
  if ps_rootSent st then mret st
  else
    trigger (CRootSend clientMark (mkReadDirPlusResult (ps_list st) ErrorOK)) ;;
    mret (set_rootSent st).

(** The returns of the parser on an error found in a frame. *)
Definition bad_frame (st : parse_state) : CP unit :=
  st ← flushPrefetch false st;
  closeAllRemainingChildReady (ps_list st) (ps_pendingDirs st) ;;
  trigger CPut ;;
  send_root st (mkReadDirPlusResult [] ErrorIO).

(** readDirent failed: it closes the channels and sends, its caller returns. *)
Definition bad_dirent (st : parse_state) : CP unit :=
  match ps_current st with Some idx => closeChildReady (ps_list st) idx | None => mret tt end ;;
  closeAllRemainingChildReady (ps_list st) (ps_pendingDirs st) ;;
  send_root st (mkReadDirPlusResult [] ErrorIO) ;;
  trigger CPut.

(** An entry of the directory, or of the one being prefetched. *)
Definition add_dirent (d : Dirent) (st : parse_state) : parse_state :=
  let di := makeDirItemFromDirent d in
  match ps_section st with
  | sectionRoot =>
      let is_dir := has_flag (Dirent_Mode d) (u32 ModeDir) in
      let di := mkDirItem (di_Name di) (di_Size di) (di_MTime di) (di_Mode di) (di_Owner di) is_dir in
      mkParse (ps_section st) (ps_list st ++ [di]) (ps_items st) (ps_current st) (ps_rootSent st)
        (if is_dir then ps_pendingDirs st ++ [length (ps_list st)] else ps_pendingDirs st)
  | sectionPrefetch =>
      mkParse (ps_section st) (ps_list st) (ps_items st ++ [di]) (ps_current st) (ps_rootSent st) (ps_pendingDirs st)
  end.

(** A prefetch or skip indicator: the next pending directory becomes current;
    [None] when there is none and the parser returns. *)
Definition next_section (commit : bool) (st : parse_state) : CP (option parse_state) :=
  st ← leave_root st;
  st ← flushPrefetch commit st;
  match ps_pendingDirs st with
  | idx :: pendingDirs' =>
      mret (Some (mkParse sectionPrefetch (ps_list st) (ps_items st) (Some idx) (ps_rootSent st) pendingDirs'))
  | [] =>
      closeAllRemainingChildReady (ps_list st) [] ;;
      trigger CPut ;;
      send_root st (mkReadDirPlusResult [] ErrorIO) ;;
      mret None
  end.

(** [for r.Len() > 0]; each iteration consumes the indicator. *)
Fixpoint parse_frame (n : nat) (data : bytes) (st : parse_state) : CP (option parse_state) :=
  match data with
  | [] => mret (Some st)
  | indicator :: data' =>
      match n with
      | O => Diverge
      | S n' =>
          let ind := byte_val indicator in
          if ind =? READDIRPLUS_INDICATOR_CONTINUE then
            match ReadDirentFromReader (bytes_reader data') with
            | (Err _, _) => bad_dirent st ;; mret None
            | (Ok d, r) => parse_frame n' (rd_data r) (add_dirent d st)
            end
          else if (ind =? READDIRPLUS_INDICATOR_PREFETCH) || (ind =? READDIRPLUS_INDICATOR_PREFETCH_SKIP) then
            st ← next_section (ind =? READDIRPLUS_INDICATOR_PREFETCH) st;
            match (st : option parse_state) with
            | Some st => parse_frame n' data' st
            | None => mret None
            end
          else bad_frame st ;; mret None
      end
  end.

(** One iteration of the outer loop: [inr tt] is the return. *)
Definition parse_step (st : parse_state) : CP (parse_state + unit) :=
  rsp ← trigger (CReceive clientMark);
  let code := rsp_code rsp in
  if negb (code =? ErrorOK) && negb (code =? ErrorPartialResponse) then
    st ← flushPrefetch false st;
    closeAllRemainingChildReady (ps_list st) (ps_pendingDirs st) ;;
    trigger CPut ;;
    send_root st (mkReadDirPlusResult [] code) ;;
    mret (inr tt)
  else
    r ← parse_frame (length (rsp_data rsp)) (rsp_data rsp) st;
    match (r : option parse_state) with
    | None => mret (inr tt)
    | Some st =>
        trigger CPut ;;
        if code =? ErrorOK then
          st ← flushPrefetch true st;
          closeAllRemainingChildReady (ps_list st) (ps_pendingDirs st) ;;
          send_root st (mkReadDirPlusResult (ps_list st) ErrorOK) ;;
          mret (inr tt)
        else mret (inl st)
    end.

Definition parseReadDirPlus : CP unit :=
  loop fuel parse_step parse_init ;;
  releaseClientMark clientMark.
End Parser.

Definition client_CmdReadDirPlus (fuel : nat) (path : gostring) : CP (list DirItem * Z) :=
  request fuel Structs.CmdReadDirPlus (fields_CmdReadDirPlusStruct (mkCmdReadDirPlusStruct path))
    ([], ErrorIO) ([], ErrorIO) (fun clientMark =>
      trigger (CGoParse clientMark) ;;
      r ← trigger (CRootRecv clientMark);
      mret (rdp_list r, rdp_code r)).
