(* ===== verification/ClientSpec.v ===== *)
(** * What every request function of the client guarantees

    A specification of the session ([cli_env]) that the request functions are
    proved against: a request is counted before a mark is looked for and until
    its mark is released, a mark is released by the one who locked it, and only
    after the final frame of the response was received; frames are received only
    while a response is outstanding. The server is assumed to follow the
    protocol: partial frames and then a final one, with no more data than was
    asked for. *)
From S2P Require Import Prelude GoIO Codec Structs StructGen Prog Budget Paths ServerEnv ClientEnv ClientCmds.

(** ** The state of a request *)

Inductive cli_phase :=
| Idle
| Begun (* counted in activeReqs *)
| Locked (mark : Z) (* holds a mark, no response is outstanding *)
| Awaiting (mark cmd : Z) (body : image) (got : Z) (* [got] bytes have arrived *)
| Unlocked (* the mark is released *)
| Rooted (mark : Z). (* a parser owns the mark, the listing is to come *)

(** How many bytes a request allows the response to carry. *)
Definition asked (cmd : Z) (body : image) : Z :=
  if cmd =? CmdRead then Uint64 body.1 4
  else if cmd =? CmdReadAt then Uint64 body.1 12
  else 2 ^ 63 - 1.

(** A frame the server may send in answer to a request. *)
Definition frame_fits (cmd : Z) (body : image) (got : Z) (f : bytes) : Prop :=
  2 <= len f /\
  (multi_frame cmd = false -> rsp_code f <> ErrorPartialResponse) /\
  ((cmd = CmdRead \/ cmd = CmdReadAt) -> got + len (rsp_data f) <= asked cmd body) /\
  (cmd = CmdReadDir -> rsp_code f = ErrorPartialResponse -> (appendDirItemsFromReader [] (rsp_data f)).2 = None) /\
  (cmd = CmdWrite -> forall d r, ReadRspWriteFromReader (bytes_reader (rsp_data f)) = (Ok d, r) ->
     0 <= RspWrite_Written d <= len body.1 - 4 /\ (0 < len body.1 - 4 -> 0 < RspWrite_Written d)) /\
  (cmd = CmdCopyFileRange -> forall d r, ReadRspCopyFileRangeFromReader (bytes_reader (rsp_data f)) = (Ok d, r) ->
     0 <= RspCopyFileRange_Copied d <= Uint64 body.1 24).

Definition is_stream_request (cmd : Z) : Prop := cmd = CmdWriteStreamOpen \/ cmd = CmdWriteStreamData.

(** What a request function must respect. *)
Definition cli_pre (g : cli_phase) (e : cev) : Prop :=
  match e with
  | CBegin => g = Idle
  | CMarkAdd | CTryLock _ => g = Begun
  | CUnlock m => g = Locked m
  | CEnd => g = Unlocked
  | CRequest m cmd _ => g = Locked m /\ ~ is_stream_request cmd
  | CReceive m => exists cmd body got, g = Awaiting m cmd body got
  | CGoParse m => exists cmd body got, g = Awaiting m cmd body got
  | CRootRecv m => g = Rooted m
  | _ => True
  end.

(** How its state moves on. *)
Definition cli_next (g : cli_phase) (e : cev) : cans e -> cli_phase -> Prop :=
  match e return cans e -> cli_phase -> Prop with
  | CBegin => fun ok g' => g' = if (ok : bool) then Begun else Idle
  | CMarkAdd => fun v g' => in_u 32 v = true /\ g' = g
  | CTryLock m => fun locked g' => g' = if (locked : bool) then Locked m else g
  | CUnlock _ => fun _ g' => g' = Unlocked
  | CEnd => fun _ g' => g' = Idle
  | CRequest m cmd body => fun r g' => g' = if (r : sent) is Sent then Awaiting m cmd body 0 else g
  | CReceive m => fun f g' =>
      match g with
      | Awaiting _ cmd body got =>
          frame_fits cmd body got f /\
          g' = if rsp_code f =? ErrorPartialResponse then Awaiting m cmd body (got + len (rsp_data f)) else Locked m
      | _ => False
      end
  | CGoParse m => fun _ g' => g' = Rooted m
  | CRootRecv _ => fun _ g' => g' = Idle
  | _ => fun _ g' => g' = g
  end.

(** Answers that make a loop go round again: a mark that is taken, a response
    that goes on. *)
Definition cli_retry (_ : cli_phase) (e : cev) : cans e -> bool :=
  match e return cans e -> bool with
  | CTryLock _ => fun locked => negb locked
  | CReceive _ => fun f => rsp_code f =? ErrorPartialResponse
  | _ => fun _ => false
  end.

Definition cli_env : env cans := budget_env cli_pre cli_next cli_retry.

Section Rules.
Context (total : bool) (B fuel : nat).
Hypothesis Hfuel : (total = true -> B < fuel)%nat.

Abbreviation CW := (BW cli_pre cli_next cli_retry total B).

(** A program that gets from [Idle] to [Idle]. *)
Definition balanced {A} (p : CP A) : Prop := CW p Idle (fun _ g => g = Idle).

Lemma CW_newClientMark (Q : option Z -> cli_phase -> Prop) :
  Q None Idle -> (forall m, in_u 8 m = true -> Q (Some m) (Locked m)) -> CW (newClientMark fuel) Idle Q.
Proof.
  intros Hn Hs. unfold newClientMark. apply BW_bind; BW_request; [done|]. intros [] g ->; [|by apply BW_ret].
  apply BW_loop_measure with (I := fun _ g => g = Begun) (m := fun _ => 0%nat); [|done|exact Hfuel].
  intros _ g b -> Hb. apply BWb_bind; BW_request; [done|]. intros last g' b' [Hl ->] ->.
  apply BWb_bind; BW_request; [done|]. intros [] g' b' -> Hr; apply BWb_ret; simpl in Hr.
  - split; [lia|]. apply Hs. by apply wrapu_range.
  - split; [lia|]. split; [done|lia].
Qed.

Lemma CW_release m (Q : unit -> cli_phase -> Prop) : Q tt Idle -> CW (releaseClientMark m) (Locked m) Q.
Proof.
  intros HQ. apply BW_bind; BW_request; [done|]. intros [] g ->.
  BW_request; [done|]. by intros [] g ->.
Qed.

Lemma CW_put g (Q : unit -> cli_phase -> Prop) : Q tt g -> CW (trigger CPut) g Q.
Proof. intros HQ. BW_request; [done|]. by intros [] g' ->. Qed.

(** A frame arrives: the response goes on or is complete. *)
Lemma CW_receive m cmd body got (Q : bytes -> cli_phase -> Prop) :
  (forall f, frame_fits cmd body got f ->
     Q f (if rsp_code f =? ErrorPartialResponse then Awaiting m cmd body (got + len (rsp_data f)) else Locked m)) ->
  CW (trigger (CReceive m)) (Awaiting m cmd body got) Q.
Proof. intros HQ. BW_request; [by do 3 eexists|]. intros f g [Hf ->]. by apply HQ. Qed.

(** ** The ways of making a request *)

Lemma CW_request {A} cmd fields (refused failed : A) k (Q : A -> cli_phase -> Prop) :
  ~ is_stream_request cmd -> Q refused Idle -> Q failed Idle ->
  (forall m, in_u 8 m = true -> CW (k m) (Awaiting m cmd (enc fields) 0) Q) ->
  CW (request fuel cmd fields refused failed k) Idle Q.
Proof.
  intros Hs Hr Hf Hk. apply BW_bind, CW_newClientMark; [by apply BW_ret|]. intros m Hm.
  apply BW_bind. BW_request; [done|]. intros [] g ->; [..|by apply Hk];
    (apply BW_bind, CW_release; by apply BW_ret).
Qed.

(** Responses of one frame. *)
Lemma CW_receive_final m cmd body got (Q : bytes -> cli_phase -> Prop) :
  multi_frame cmd = false -> (forall f, frame_fits cmd body got f -> Q f (Locked m)) ->
  CW (trigger (CReceive m)) (Awaiting m cmd body got) Q.
Proof.
  intros Hm HQ. apply CW_receive. intros f Hf. destruct (Z.eqb_spec (rsp_code f) ErrorPartialResponse) as [E|_]; [|auto].
  destruct Hf as (_ & Hf & _). by destruct Hf.
Qed.

Lemma CW_code_only m cmd body got :
  multi_frame cmd = false -> CW (code_only m) (Awaiting m cmd body got) (fun _ g => g = Idle).
Proof.
  intros Hm. apply BW_bind, CW_receive_final; [done|]. intros f _. apply BW_bind, CW_release, BW_bind, CW_put.
  by apply BW_ret.
Qed.

Lemma CW_decoded {T A} (rd : RM T) (get : T -> A) zero m cmd body got :
  multi_frame cmd = false ->
  CW (decoded rd get zero m) (Awaiting m cmd body got) (fun r g => g = Idle /\
    (r.2 = ErrorOK -> exists f d rest, frame_fits cmd body got f /\
       rd (bytes_reader (rsp_data f)) = (Ok d, rest) /\ r.1 = get d)).
Proof.
  intros Hm. apply BW_bind, CW_receive_final; [done|]. intros f Hf. apply BW_bind, CW_release. cbv zeta.
  destruct (Z.eqb_spec (rsp_code f) ErrorOK) as [E|E]; cbn [negb].
  - destruct (rd (bytes_reader (rsp_data f))) as [[d|e] rest] eqn:Er; apply BW_bind, CW_put, BW_ret.
    + split; [done|]. intros _. by exists f, d, rest.
    + by split.
  - apply BW_bind, CW_put, BW_ret. by split.
Qed.

Lemma CW_decoded_idle {T A} (rd : RM T) (get : T -> A) zero m cmd body got :
  multi_frame cmd = false -> CW (decoded rd get zero m) (Awaiting m cmd body got) (fun _ g => g = Idle).
Proof. intros Hm. eapply BW_mono; [by apply CW_decoded|]. by intros r g []. Qed.

Lemma balanced_code cmd fields a b :
  ~ is_stream_request cmd -> multi_frame cmd = false -> balanced (request fuel cmd fields a b code_only).
Proof. intros Hs Hm. apply CW_request; [done..|]. intros m _. by apply CW_code_only. Qed.

Lemma balanced_decoded {T A} (rd : RM T) (get : T -> A) zero cmd fields a b :
  ~ is_stream_request cmd -> multi_frame cmd = false ->
  balanced (request fuel cmd fields a b (decoded rd get zero)).
Proof. intros Hs Hm. apply CW_request; [done..|]. intros m _. by apply CW_decoded_idle. Qed.
End Rules.
