(* ===== verification/ClientOk.v ===== *)
(** * The request functions respect the specification of the session

    Every function of commands.go that makes requests, proved against the
    environment of ClientSpec: it locks a mark per request, consumes the response
    to its last frame before it releases the mark, does not panic and ends. *)
From S2P Require Import Prelude GoIO Codec Structs StructGen Prog Budget Paths ServerEnv ClientEnv ClientCmds ClientReadDirPlus ClientSpec.

(** The calls of the file systems above the session, without the write streams. *)
Inductive call :=
| CallOpen (path : gostring) (oflag fmode : Z)
| CallClose (fd : Z)
| CallRead (fd : Z) (dest : bytes)
| CallReadAt (fd offset : Z) (dest : bytes)
| CallReadDir (path : gostring)
| CallReadDirPlus (path : gostring)
| CallReadLink (path : gostring)
| CallWrite (fd : Z) (data : bytes)
| CallWriteAt (fd offset : Z) (data : bytes)
| CallSeek (fd whence off : Z)
| CallAllocate (fd flag off size : Z)
| CallGetAttr (path : gostring)
| CallSetAttr (path : gostring) (flag : Z) (fi : FileInfo)
| CallSetAttrByFD (fd flag : Z) (fi : FileInfo)
| CallSync (fd : Z)
| CallMkdir (path : gostring) (mode : Z)
| CallSymLink (target path : gostring)
| CallRemove (path : gostring)
| CallRmDir (path : gostring)
| CallFsStat (path : gostring)
| CallRename (old new : gostring) (mode : Z)
| CallCopyFileRange (fd1 fd2 off1 off2 size : Z)
| CallCloneFileRange (fd1 fd2 off1 off2 size : Z)
| CallGetFileLock (fd : Z) (lock : FileLockInfo)
| CallSetFileLock (fd : Z) (lock : FileLockInfo)
| CallSetFileLockWait (fd : Z) (lock : FileLockInfo)
| CallGetXAttr (path key : gostring) (mode : Z)
| CallListXAttr (path : gostring) (mode : Z)
| CallSetXAttr (path key : gostring) (value : bytes) (mode : Z)
| CallRemoveXAttr (path key : gostring) (mode : Z).

Definition call_prog (fuel : nat) (c : client) (x : call) : CP unit :=
  match x with
  | CallOpen path oflag fmode => Client.CmdOpen fuel path oflag fmode ;; mret tt
  | CallClose fd => Client.CmdClose fuel fd ;; mret tt
  | CallRead fd dest => Client.CmdRead fuel fd dest ;; mret tt
  | CallReadAt fd offset dest => Client.CmdReadAt fuel fd offset dest ;; mret tt
  | CallReadDir path => Client.CmdReadDir fuel path ;; mret tt
  | CallReadDirPlus path => client_CmdReadDirPlus fuel path ;; mret tt
  | CallReadLink path => Client.CmdReadLink fuel path ;; mret tt
  | CallWrite fd data => Client.CmdWrite fuel fd data ;; mret tt
  | CallWriteAt fd offset data => Client.CmdWriteAt fuel fd offset data ;; mret tt
  | CallSeek fd whence off => Client.CmdSeek fuel fd whence off ;; mret tt
  | CallAllocate fd flag off size => Client.CmdAllocate fuel fd flag off size ;; mret tt
  | CallGetAttr path => Client.CmdGetAttr fuel path ;; mret tt
  | CallSetAttr path flag fi => Client.CmdSetAttr fuel path flag fi ;; mret tt
  | CallSetAttrByFD fd flag fi => Client.CmdSetAttrByFD fuel fd flag fi ;; mret tt
  | CallSync fd => Client.CmdSync fuel fd ;; mret tt
  | CallMkdir path mode => Client.CmdMkdir fuel path mode ;; mret tt
  | CallSymLink target path => Client.CmdSymLink fuel target path ;; mret tt
  | CallRemove path => Client.CmdRemove fuel path ;; mret tt
  | CallRmDir path => Client.CmdRmDir fuel path ;; mret tt
  | CallFsStat path => Client.CmdFsStat fuel path ;; mret tt
  | CallRename old new mode => Client.CmdRename fuel old new mode ;; mret tt
  | CallCopyFileRange fd1 fd2 off1 off2 size => Client.CmdCopyFileRange fuel fd1 fd2 off1 off2 size ;; mret tt
  | CallCloneFileRange fd1 fd2 off1 off2 size => Client.CmdCloneFileRange fuel fd1 fd2 off1 off2 size ;; mret tt
  | CallGetFileLock fd lock => Client.CmdGetFileLock fuel fd lock ;; mret tt
  | CallSetFileLock fd lock => Client.CmdSetFileLock fuel fd lock ;; mret tt
  | CallSetFileLockWait fd lock => Client.CmdSetFileLockWait fuel fd lock ;; mret tt
  | CallGetXAttr path key mode => Client.CmdGetXAttr fuel c path key mode ;; mret tt
  | CallListXAttr path mode => Client.CmdListXAttr fuel c path mode ;; mret tt
  | CallSetXAttr path key value mode => Client.CmdSetXAttr fuel c path key value mode ;; mret tt
  | CallRemoveXAttr path key mode => Client.CmdRemoveXAttr fuel c path key mode ;; mret tt
  end.

(** Slices are shorter than 2^63, sizes are 64-bit numbers; data for CmdWriteAt
    beyond one message goes through a write stream. *)
Definition call_wf (x : call) : Prop :=
  match x with
  | CallRead _ dest | CallReadAt _ _ dest => len dest < 2 ^ 63
  | CallWrite _ data => len data < 2 ^ 63
  | CallWriteAt _ _ data => len data <= maxWriteAtPayload
  | CallCopyFileRange _ _ _ _ size => 0 <= size < 2 ^ 64
  | _ => True
  end.

Definition copy_rounds (size : Z) : nat := Z.to_nat ((size + MaxCopyFileRangeChunk - 1) / MaxCopyFileRangeChunk).

(** How often the loops of a call go round by themselves. *)
Definition call_rounds (x : call) : nat :=
  match x with
  | CallWrite _ data => length data
  | CallCopyFileRange _ _ _ _ size => copy_rounds size
  | _ => 0
  end.

Section Ok.
Context (total : bool) (B fuel : nat) (c : client).
Hypothesis Hfuel : (total = true -> B < fuel)%nat.

Abbreviation CW := (BW cli_pre cli_next cli_retry total B).
Abbreviation CWb := (BWb cli_pre cli_next cli_retry total).
Abbreviation balanced := (balanced total B).

(** ** Responses of several frames *)

(** Whether a frame decodes does not depend on the frames before it. *)
Lemma appendDirItems_error items data :
  (appendDirItemsFromReader [] data).2 = (appendDirItemsFromReader items data).2.
Proof.
  unfold appendDirItemsFromReader. generalize (bytes_reader data). generalize (length data).
  intros n. generalize (@nil DirItem). revert items.
  induction n as [|n IH]; intros items items' r; cbn [appendDirItems_loop]; [by destruct (rd_data r)|].
  destruct (rd_data r); [done|]. destruct (ReadDirentFromReader r) as [[d|e] r']; [apply IH|done].
Qed.

(** A loop over the frames of a response: it goes on after partial frames only. *)
Lemma CW_frames {S A} m cmd body (K : S -> bytes -> CP (S + A))
    (I : S -> Z -> Prop) (Q : A -> cli_phase -> Prop) s got :
  (forall s got f, I s got -> frame_fits cmd body got f ->
     if rsp_code f =? ErrorPartialResponse
     then let got' := got + len (rsp_data f) in
       CW (K s f) (Awaiting m cmd body got') (fun r g =>
         match r with inl s' => I s' got' /\ g = Awaiting m cmd body got' | inr a => Q a g end)
     else CW (K s f) (Locked m) (fun r g => match r with inl _ => False | inr a => Q a g end)) ->
  I s got -> CW (Client.frames fuel m K s) (Awaiting m cmd body got) Q.
Proof.
  intros HK HI.
  apply BW_loop_measure with (m := fun _ => 0%nat)
    (I := fun s g => exists got, I s got /\ g = Awaiting m cmd body got); [|by exists got|exact Hfuel].
  intros s' g b (got' & HI' & ->) Hb. apply BWb_bind. BW_request; [by do 3 eexists|].
  intros f g b' [Hf ->] Hr. specialize (HK s' got' f HI' Hf). simpl in Hr. cbv zeta in HK.
  destruct (rsp_code f =? ErrorPartialResponse); subst b;
    (eapply BW_BWb; [exact HK|lia|]); intros [s2|a] g b2 Hb2; try done.
  - intros [H1 ->]. split; [lia|]. split; [eauto|lia].
  - intros HQ. by split; [lia|].
Qed.

Lemma read_frames_ok m cmd body dest :
  cmd = CmdRead \/ cmd = CmdReadAt -> asked cmd body = len dest ->
  CW (Client.read_frames fuel m dest) (Awaiting m cmd body 0) (fun _ g => g = Idle).
Proof.
  intros Hcmd Hask.
  apply (CW_frames m cmd body _ (fun s got => length s.1 = length dest /\ s.2 = got /\ 0 <= got <= len dest));
    [|split_and!; [done..|lia|apply len_nonneg]].
  intros [d off] got f (Hd & Hg & Hoff) Hf. cbn [fst snd] in *. subst got.
  pose proof (len_nonneg (rsp_data f)) as Hnn.
  assert (off + len (rsp_data f) <= len d) as Hfit.
  { destruct Hf as (_ & _ & Hr & _). specialize (Hr Hcmd). rewrite Hask in Hr. unfold len in *. by rewrite Hd. }
  assert (copy_at off (rsp_data f) d = Some (splice (Z.to_nat off) (rsp_data f) d)) as Hcopy.
  { unfold copy_at. destruct (Z.ltb_spec off 0); [lia|]. destruct (Z.ltb_spec (len d) off); [lia|].
    simpl. do 2 f_equal. apply take_ge. unfold len in *. lia. }
  assert (length (splice (Z.to_nat off) (rsp_data f) d) = length dest) as Hl.
  { rewrite length_splice; [done|]. unfold len in *. lia. }
  destruct (rsp_code f =? ErrorPartialResponse) eqn:Ep; unfold Client.read_frame; cbv zeta; rewrite Hcopy, ?Ep; apply BW_bind, CW_put.
  - apply BW_ret. split; [|done]. cbn [fst snd]. split_and!; [done|done|unfold len in *; lia|unfold len in *; lia].
  - apply BW_bind, CW_release. by apply BW_ret.
Qed.

Lemma readdir_frames_ok m body :
  CW (Client.readdir_frames fuel m) (Awaiting m CmdReadDir body 0) (fun _ g => g = Idle).
Proof.
  apply (CW_frames m CmdReadDir body _ (fun _ _ => True)); [|done].
  intros items got f _ Hf. unfold Client.readdir_frame. cbv zeta. destruct (Z.eqb_spec (rsp_code f) ErrorPartialResponse) as [E|E].
  - rewrite E. change (negb (ErrorPartialResponse =? ErrorOK) && negb (ErrorPartialResponse =? ErrorPartialResponse)) with false.
    cbv iota. destruct Hf as (_ & _ & _ & Hf & _). specialize (Hf eq_refl E).
    rewrite (appendDirItems_error items) in Hf.
    destruct (appendDirItemsFromReader items (rsp_data f)) as [items' e]; simpl in Hf; subst e.
    apply BW_bind, CW_put. by apply BW_ret.
  - destruct (_ && _); [apply BW_bind, CW_put, BW_bind, CW_release, BW_ret; done|].
    destruct (appendDirItemsFromReader items (rsp_data f)) as [items' [e|]]; apply BW_bind, CW_put.
    + apply BW_bind, CW_release. by apply BW_ret.
    + apply BW_bind, CW_release. by apply BW_ret.
Qed.

Lemma readXAttrData_ok m cmd body :
  CW (Client.readXAttrData fuel m) (Awaiting m cmd body 0) (fun _ g => g = Locked m).
Proof.
  apply (CW_frames m cmd body _ (fun _ _ => True)); [|done].
  intros data got f _ Hf. unfold Client.xattr_frame. cbv zeta.
  destruct (Z.eqb_spec (rsp_code f) ErrorPartialResponse) as [E|E].
  - rewrite E. change (negb (ErrorPartialResponse =? ErrorOK) && negb (ErrorPartialResponse =? ErrorPartialResponse)) with false.
    cbv iota. apply BW_bind, CW_put. by apply BW_ret.
  - destruct (Z.eqb_spec (rsp_code f) ErrorOK) as [E2|E2]; cbn [negb andb].
    + apply BW_bind, CW_put. by apply BW_ret.
    + destruct (Z.eqb_spec (rsp_code f) ErrorPartialResponse) as [?|_]; [done|]. apply BW_bind, CW_put. by apply BW_ret.
Qed.

Lemma CW_request_defer {A} cmd fields (refused failed : A) k :
  ~ is_stream_request cmd ->
  (forall m, CW (k m) (Awaiting m cmd (enc fields) 0) (fun _ g => g = Locked m)) ->
  balanced (Client.request_defer fuel cmd fields refused failed k).
Proof.
  intros Hs Hk. apply CW_request; [exact Hfuel|done..|]. intros m _. apply BW_bind.
  eapply BW_mono; [apply Hk|]. intros a g ->. apply BW_bind, CW_release. by apply BW_ret.
Qed.

Lemma read_code_ok m cmd body :
  multi_frame cmd = false -> CW (Client.read_code m) (Awaiting m cmd body 0) (fun _ g => g = Locked m).
Proof. intros Hm. apply BW_bind, CW_receive_final; [done|]. intros f _. apply BW_bind, CW_put. by apply BW_ret. Qed.

(** ** Requests in a row *)

Lemma write_one_ok fd data m :
  CW (Client.write_one fd data m) (Locked m) (fun r g => g = Idle /\
    (r.2 = ErrorOK -> 0 <= r.1 <= len data /\ (0 < len data -> 0 < r.1))).
Proof.
  unfold Client.write_one. apply BW_bind. BW_request; [by split; [|intros []]|].
  intros [] g ->; [apply BW_bind, CW_release, BW_ret; by split..|].
  eapply BW_mono; [by apply CW_decoded|]. intros [n code] g [-> H]. split; [done|]. intros Hc.
  destruct (H Hc) as (f & d & rest & (_ & _ & _ & _ & Hf & _) & Hd & E). cbn [fst] in *. subst n.
  specialize (Hf eq_refl _ _ Hd).
  assert (len (enc (fields_CmdWriteStruct (mkCmdWriteStruct fd data))).1 - 4 = len data) as E; [|by rewrite E in Hf].
  unfold fields_CmdWriteStruct. cbn [enc enc1 icat fst snd CmdWrite_FD CmdWrite_Data].
  rewrite !len_app, len_le_bytes, len_nil. lia.
Qed.

Lemma write_chunks_ok write n data off :
  (forall chunk, len chunk = maxWritePayload -> CW (write chunk) Idle (fun r g => g = Idle /\
     (r.2 = ErrorOK -> 0 <= r.1 <= len chunk /\ (0 < len chunk -> 0 < r.1)))) ->
  0 <= off -> off + Z.of_nat n * maxWritePayload <= len data -> len data < 2 ^ 63 ->
  CW (Client.write_chunks write n data off) Idle (fun r g => g = Idle /\
    match r with
    | inl off' => off + Z.of_nat n <= off' <= off + Z.of_nat n * maxWritePayload
    | inr res => res.2 <> ErrorOK
    end).
Proof.
  unfold maxWritePayload, maxFrameSize, MaxMsgSize. intros Hw. revert off.
  induction n as [|n IH]; intros off Ho Hfit Hlen; cbn [Client.write_chunks].
  - apply BW_ret. split; [done|lia].
  - unfold maxWritePayload, maxFrameSize, MaxMsgSize in *.
    destruct (Z.ltb_spec off 0); [lia|]. destruct (Z.ltb_spec (len data) (off + (8192 - 6))); [lia|]. cbn [orb].
    assert (len (take (Z.to_nat (8192 - 6)) (drop (Z.to_nat off) data)) = 8192 - 6) as Hc.
    { unfold len in *. rewrite length_take, length_drop. lia. }
    apply BW_bind. eapply BW_mono; [by apply Hw|]. intros [k code] g [-> Hk]. cbn [fst snd] in *.
    destruct (Z.eqb_spec code ErrorOK) as [E|E]; cbn [negb]; [|by apply BW_ret].
    destruct (Hk E) as [Hk1 Hk2]. rewrite Hc in Hk1, Hk2. rewrite i64_id by lia.
    eapply BW_mono; [apply IH; lia|]. intros [off'|res] g [-> Hr]; (split; [done|]); [lia|done].
Qed.

Lemma CmdWrite_rec_ok depth fd data :
  len data < 2 ^ 63 -> (total = true -> length data < depth)%nat ->
  CW (Client.CmdWrite_rec fuel depth fd data) Idle (fun r g => g = Idle /\
    (r.2 = ErrorOK -> 0 <= r.1 <= len data /\ (0 < len data -> 0 < r.1))).
Proof.
  revert data. induction depth as [|depth IH]; intros data Hlen Hd; cbn [Client.CmdWrite_rec].
  { apply BW_diverge. destruct total; [specialize (Hd eq_refl); lia|done]. }
  apply BW_bind, CW_newClientMark; [exact Hfuel|by apply BW_ret|]. intros m _.
  destruct (Z.leb_spec (len data) maxWritePayload) as [Hs|Hs]; [apply write_one_ok|].
  assert (maxWritePayload = 8186) as Hmax by done.
  pose proof (Z.div_mod (len data) maxWritePayload ltac:(lia)) as Hdm.
  pose proof (Z.mod_pos_bound (len data) maxWritePayload ltac:(lia)) as Hmod.
  assert (1 <= len data / maxWritePayload) as Hn by (apply Z.div_le_lower_bound; lia).
  apply BW_bind, CW_release, BW_bind.
  eapply BW_mono; [apply write_chunks_ok; [|lia|rewrite Z2Nat.id by lia; lia|done]|].
  { intros chunk Hc. apply IH; [lia|]. intros Ht. specialize (Hd Ht). unfold len in *. lia. }
  intros [off|res] g [-> Hr]; [|by apply BW_ret; split]. rewrite Z2Nat.id in Hr by lia.
  destruct (Z.ltb_spec 0 (len data mod maxWritePayload)) as [Hl|Hl].
  - destruct (Z.ltb_spec off 0); [lia|]. destruct (Z.ltb_spec (len data) off); [lia|]. cbn [orb].
    assert (len (drop (Z.to_nat off) data) = len data - off) as Hdrop by (unfold len in *; rewrite length_drop; lia).
    apply BW_bind. eapply BW_mono; [apply IH|].
    + lia.
    + intros Ht. specialize (Hd Ht). rewrite length_drop. unfold len in *. lia.
    + intros [k code] g [-> Hk]. cbn [fst snd] in *. destruct (Z.eqb_spec code ErrorOK) as [E|E]; cbn [negb]; apply BW_ret; [|by split].
      destruct (Hk E) as [Hk1 Hk2]. rewrite i64_id, u64_id by lia. split; [done|]. simpl. lia.
  - apply BW_ret. split; [done|]. simpl. rewrite u64_id by lia. lia.
Qed.

Lemma copy_rounds_dec size : 0 < size -> (copy_rounds (size - Z.min size MaxCopyFileRangeChunk) < copy_rounds size)%nat.
Proof.
  intros Hs. unfold copy_rounds. assert (0 < MaxCopyFileRangeChunk) as Hc by done.
  revert Hc. generalize MaxCopyFileRangeChunk. intros k Hc.
  apply Z2Nat.inj_lt; [apply Z.div_pos; lia|apply Z.div_pos; lia|].
  destruct (Z.min_spec size k) as [[H ->]|[H ->]].
  - replace (size - size + k - 1) with (k - 1) by lia. rewrite (Z.div_small (k - 1)) by lia.
    apply Z.div_str_pos. lia.
  - replace (size + k - 1) with (size - k + k - 1 + 1 * k) by lia. rewrite Z.div_add by lia. lia.
Qed.

Lemma CmdCopyFileRange_ok fd1 fd2 off1 off2 size :
  0 <= size < 2 ^ 64 -> (total = true -> copy_rounds size + B < fuel)%nat ->
  balanced (Client.CmdCopyFileRange fuel fd1 fd2 off1 off2 size).
Proof.
  intros Hsz Hf. unfold Client.CmdCopyFileRange.
  apply BW_loop_measure with (m := fun '(_, _, size, _) => copy_rounds size)
    (I := fun '(_, _, size, _) g => g = Idle /\ 0 <= size < 2 ^ 64); [|by split|exact Hf].
  intros [[[o1 o2] sz] tot] g b [-> Hs] Hb. destruct (Z.ltb_spec 0 sz) as [Hpos|Hz]; cbn [negb]; [|by apply BWb_ret].
  set (chunk := Z.min sz MaxCopyFileRangeChunk).
  assert (0 < MaxCopyFileRangeChunk < 2 ^ 63) as Hmax by done.
  assert (0 < chunk <= sz) as Hch by lia. cbv zeta. apply BWb_bind.
  eapply (BW_BWb _ _ _ _ _ _ _ _ (fun r g => g = Idle /\ (r.2 = ErrorOK -> 0 <= r.1 <= chunk))); [|done|].
  { unfold Client.cmdCopyFileRangeOnce. apply CW_request; [exact Hfuel|by intros []|by split|split; [done|simpl; lia]|].
    intros m _. eapply BW_mono; [by apply CW_decoded|]. intros [n code] g [-> H]. split; [done|]. intros Hc.
    destruct (H Hc) as (f & d & rest & (_ & _ & _ & _ & _ & Hfit) & Hd & E). cbn [fst] in *. subst n.
    specialize (Hfit eq_refl _ _ Hd). unfold fields_CmdCopyFileRangeStruct in Hfit.
    cbn [enc enc1 icat fst snd CmdCopyFileRange_SrcFD CmdCopyFileRange_DstFD CmdCopyFileRange_SrcOffset
         CmdCopyFileRange_DstOffset CmdCopyFileRange_Size] in Hfit.
    assert (in_u 64 chunk = true) as Hu by (apply in_u_spec; lia).
    unfold Uint64 in Hfit. cbn [le_bytes app take drop] in Hfit.
    change (le_value _) with (le_value (le_bytes 8 chunk)) in Hfit. by rewrite (le_value_8 chunk Hu) in Hfit. }
  intros [n code] g b' Hb' [-> Hn]. cbn [fst snd] in *.
  destruct (Z.eqb_spec code ErrorOK) as [E|E]; cbn [negb]; [|apply BWb_ret; split; [lia|done]].
  destruct (Hn E) as [Hn1 Hn2].
  destruct (Z.eqb_spec n 0) as [E0|E0]; cbn [orb]; [apply BWb_ret; split; [lia|done]|].
  destruct (Z.ltb_spec n chunk) as [Hlt|Hge]; [apply BWb_ret; split; [lia|done]|].
  apply BWb_ret. split; [lia|]. assert (n = chunk) as -> by lia. rewrite (u64_id (sz - chunk)) by lia.
  split; [split; [done|lia]|]. intros _. pose proof (copy_rounds_dec sz Hpos) as Hdec. fold chunk in Hdec. lia.
Qed.

(** ** Setting an extended attribute *)

Lemma maxXAttrChunkSize_loop_low n path key mode low high :
  low <= high -> low <= maxXAttrChunkSize_loop n path key mode low high <= high.
Proof.
  revert low high. induction n as [|n IH]; intros low high Hl; cbn [maxXAttrChunkSize_loop]; [lia|].
  destruct (Z.ltb_spec low high) as [H|H]; cbn [negb]; [|lia]. cbv zeta.
  rewrite Z.quot_div_nonneg by lia.
  assert (low < low + (high - low + 1) / 2 <= high) as Hmid.
  { pose proof (Z.div_mod (high - low + 1) 2 ltac:(lia)). pose proof (Z.mod_pos_bound (high - low + 1) 2 ltac:(lia)). lia. }
  destruct (setXAttrFits _ _ _ _); [specialize (IH (low + (high - low + 1) / 2) high ltac:(lia))
    |specialize (IH low (low + (high - low + 1) / 2 - 1) ltac:(lia))]; lia.
Qed.

Lemma maxXAttrChunkSize_nonneg path key mode : 0 <= maxXAttrChunkSize path key mode.
Proof.
  unfold maxXAttrChunkSize. destruct (negb _); [done|].
  pose proof (maxXAttrChunkSize_loop_low (Z.to_nat MaxCommandLength) path key mode 0 MaxCommandLength) as H.
  specialize (H ltac:(done)). lia.
Qed.

Lemma sendSetXAttr_ok path key value mode : balanced (Client.sendSetXAttr fuel path key value mode).
Proof. apply CW_request_defer; [by intros []|]. intros m. by apply read_code_ok. Qed.

Lemma sendSplitXAttr_loop_ok n path key value mode :
  (length value <= n)%nat -> balanced (Client.sendSplitXAttr_loop fuel n path key value mode).
Proof.
  revert value. induction n as [|n IH]; intros value Hn; destruct value as [|x value]; cbn [Client.sendSplitXAttr_loop];
    [by apply BW_ret|simpl in Hn; lia|by apply BW_ret|]. cbv zeta.
  pose proof (maxXAttrChunkSize_nonneg path key mode).
  destruct (Z.eqb_spec (maxXAttrChunkSize path key mode) 0) as [E|E]; [by apply BW_ret|].
  apply BW_bind. eapply BW_mono; [apply sendSetXAttr_ok|]. intros code g ->.
  destruct (negb _); [by apply BW_ret|]. apply IH. rewrite length_drop, length_take. simpl in *. lia.
Qed.

Lemma sendSplitXAttr_ok path key value mode : balanced (Client.sendSplitXAttr fuel path key value mode).
Proof.
  unfold Client.sendSplitXAttr. cbv zeta. destruct (_ =? 0); [by apply BW_ret|].
  apply BW_bind. eapply BW_mono; [apply sendSetXAttr_ok|]. intros code g ->.
  destruct (negb _); [by apply BW_ret|]. apply sendSplitXAttr_loop_ok. rewrite length_drop. lia.
Qed.

Lemma CmdGetXAttr_ok path key mode : balanced (Client.CmdGetXAttr fuel c path key mode).
Proof.
  unfold Client.CmdGetXAttr. cbv zeta. destruct (negb _); [by apply BW_ret|].
  apply CW_request_defer; [by intros []|]. intros m. apply readXAttrData_ok.
Qed.

Lemma CmdListXAttr_ok path mode : balanced (Client.CmdListXAttr fuel c path mode).
Proof.
  unfold Client.CmdListXAttr. destruct (_ || _); [by apply BW_ret|].
  apply CW_request_defer; [by intros []|]. intros m. apply BW_bind. eapply BW_mono; [apply readXAttrData_ok|].
  intros [data code] g ->. destruct (negb _); [by apply BW_ret|]. by destruct (client_filterXAttrList c data); apply BW_ret.
Qed.

Lemma CmdRemoveXAttr_ok path key mode : balanced (Client.CmdRemoveXAttr fuel c path key mode).
Proof.
  unfold Client.CmdRemoveXAttr. cbv zeta. destruct (negb _); [by apply BW_ret|].
  apply CW_request_defer; [by intros []|]. intros m. by apply read_code_ok.
Qed.

Lemma restoreXAttr_ok path key old exists_ mode : balanced (Client.restoreXAttr fuel c path key old exists_ mode).
Proof.
  unfold Client.restoreXAttr. cbv zeta. destruct (negb _); [apply CmdRemoveXAttr_ok|].
  destruct (setXAttrFits _ _ _ _); [apply sendSetXAttr_ok|apply sendSplitXAttr_ok].
Qed.

Lemma CmdSetXAttr_ok path key value mode : balanced (Client.CmdSetXAttr fuel c path key value mode).
Proof.
  unfold Client.CmdSetXAttr. cbv zeta. destruct (negb _); [by apply BW_ret|].
  destruct (setXAttrFits _ _ _ _); [apply sendSetXAttr_ok|]. destruct (negb _); [by apply BW_ret|].
  apply BW_bind. eapply BW_mono; [apply CmdGetXAttr_ok|]. intros [old code] g ->.
  destruct (_ && _); [by apply BW_ret|]. apply BW_bind.
  eapply BW_mono; [apply sendSplitXAttr_ok|]. intros code2 g ->. destruct (_ =? _); [by apply BW_ret|].
  apply BW_bind. eapply BW_mono; [apply restoreXAttr_ok|]. intros _ g ->. by apply BW_ret.
Qed.

Lemma CmdReadDirPlus_ok path : balanced (client_CmdReadDirPlus fuel path).
Proof.
  apply CW_request; [exact Hfuel|by intros []|done|done|]. intros m _. apply BW_bind. BW_request; [by do 3 eexists|].
  intros [] g ->. apply BW_bind. BW_request; [done|]. intros r g ->. by apply BW_ret.
Qed.

Lemma CmdRead_ok fd dest : len dest < 2 ^ 63 -> balanced (Client.CmdRead fuel fd dest).
Proof.
  intros Hl. apply CW_request; [exact Hfuel|by intros []|done|done|]. intros m _. apply read_frames_ok; [by left|].
  unfold asked. change (CmdRead =? CmdRead) with true. cbv iota. unfold fields_CmdReadStruct.
  cbn [enc enc1 icat fst snd CmdRead_FD CmdRead_Size]. unfold Uint64. cbn [le_bytes app take drop].
  change (le_value _) with (le_value (le_bytes 8 (len dest))). apply le_value_8, in_u_spec.
  pose proof (len_nonneg dest). lia.
Qed.

Lemma CmdReadAt_ok fd off dest : len dest < 2 ^ 63 -> balanced (Client.CmdReadAt fuel fd off dest).
Proof.
  intros Hl. apply CW_request; [exact Hfuel|by intros []|done|done|]. intros m _. apply read_frames_ok; [by right|].
  unfold asked. change (CmdReadAt =? CmdRead) with false. change (CmdReadAt =? CmdReadAt) with true. cbv iota.
  unfold fields_CmdReadAtStruct.
  cbn [enc enc1 icat fst snd CmdReadAt_FD CmdReadAt_Offset CmdReadAt_Size]. unfold Uint64. cbn [le_bytes app take drop].
  change (le_value _) with (le_value (le_bytes 8 (len dest))). apply le_value_8, in_u_spec.
  pose proof (len_nonneg dest). lia.
Qed.

Lemma balanced_tt {A} (p : CP A) : balanced p -> balanced (p ;; mret tt).
Proof. intros H. apply BW_bind. eapply BW_mono; [exact H|]. intros a g ->. by apply BW_ret. Qed.
End Ok.

(** Every call ends as it began, however marks are handed out and whatever the
    server answers. *)
Lemma call_balanced total B fuel c x :
  (total = true -> call_rounds x + B < fuel)%nat -> call_wf x -> balanced total B (call_prog fuel c x).
Proof.
  intros Hf Hwf. assert (total = true -> (B < fuel)%nat) as Hfuel by (intros Ht; specialize (Hf Ht); lia).
  destruct x; cbn [call_prog call_wf] in *; apply balanced_tt;
    try solve [apply balanced_code; [exact Hfuel|by intros []|done]
              |apply balanced_decoded; [exact Hfuel|by intros []|done]].
  - by apply CmdRead_ok.
  - by apply CmdReadAt_ok.
  - apply CW_request; [exact Hfuel|by intros []|done|done|]. intros m _. by apply readdir_frames_ok.
  - by apply CmdReadDirPlus_ok.
  - eapply BW_mono; [apply CmdWrite_rec_ok; [exact Hfuel|done|]|by intros r g []].
    intros Ht. specialize (Hf Ht). simpl in Hf. lia.
  - unfold Client.CmdWriteAt. destruct (Z.leb_spec (len data) maxWriteAtPayload); [|lia].
    apply balanced_decoded; [exact Hfuel|by intros []|done].
  - by apply CmdCopyFileRange_ok.
  - by apply CmdGetXAttr_ok.
  - by apply CmdListXAttr_ok.
  - by apply CmdSetXAttr_ok.
  - by apply CmdRemoveXAttr_ok.
Qed.
