(* ===== verification/ClientParseOk.v ===== *)
(** * The parser of directory listings keeps its promises

    parseReadDirPlus hands the listing out once, closes the channel of every
    subdirectory once and releases its mark, whatever frames arrive. *)
From S2P Require Import Prelude GoIO Codec Structs StructGen Prog Budget Paths ServerEnv ClientEnv ClientCmds ClientReadDirPlus.

(** What the parser has done: the result it handed out, the items whose Child it
    has set and whose channel it has closed, and what it holds. *)
Record parse_ghost := mkParseGhost {
  pg_root : option readDirPlusResult;
  pg_set : list nat;
  pg_closed : list nat;
  pg_buf : bool; (* a frame that was not put back *)
  pg_last : bool; (* the final frame has arrived *)
  pg_mark : bool; (* the mark is locked *)
}.

Definition parse_start : parse_ghost := mkParseGhost None [] [] false false true.

Definition parse_pre (m : Z) (g : parse_ghost) (e : cev) : Prop :=
  match e with
  | CReceive m' => m' = m /\ pg_buf g = false /\ pg_last g = false /\ pg_mark g = true
  | CPut => pg_buf g = true
  | CRootSend m' _ => m' = m /\ pg_root g = None
  | CSetChild m' idx _ => m' = m /\ idx ∉ pg_set g /\ idx ∉ pg_closed g /\ is_Some (pg_root g)
  | CCloseReady m' idx => m' = m /\ idx ∉ pg_closed g
  | CUnlock m' => m' = m /\ pg_mark g = true
  | CEnd => pg_mark g = false
  | _ => False
  end.

Definition parse_next (g : parse_ghost) (e : cev) : cans e -> parse_ghost -> Prop :=
  match e return cans e -> parse_ghost -> Prop with
  | CReceive _ => fun f g' => 2 <= len f /\
      g' = mkParseGhost (pg_root g) (pg_set g) (pg_closed g) true (negb (rsp_code f =? ErrorPartialResponse)) (pg_mark g)
  | CPut => fun _ g' => g' = mkParseGhost (pg_root g) (pg_set g) (pg_closed g) false (pg_last g) (pg_mark g)
  | CRootSend _ r => fun _ g' => g' = mkParseGhost (Some r) (pg_set g) (pg_closed g) (pg_buf g) (pg_last g) (pg_mark g)
  | CSetChild _ idx _ => fun _ g' =>
      g' = mkParseGhost (pg_root g) (idx :: pg_set g) (pg_closed g) (pg_buf g) (pg_last g) (pg_mark g)
  | CCloseReady _ idx => fun _ g' =>
      g' = mkParseGhost (pg_root g) (pg_set g) (idx :: pg_closed g) (pg_buf g) (pg_last g) (pg_mark g)
  | CUnlock _ => fun _ g' => g' = mkParseGhost (pg_root g) (pg_set g) (pg_closed g) (pg_buf g) (pg_last g) false
  | _ => fun _ g' => g' = g
  end.

Definition parse_retry (_ : parse_ghost) (e : cev) : cans e -> bool :=
  match e return cans e -> bool with
  | CReceive _ => fun f => rsp_code f =? ErrorPartialResponse
  | _ => fun _ => false
  end.

(** The listing was handed out, and every channel in it is closed. *)
Definition resolved (g : parse_ghost) : Prop :=
  exists r, pg_root g = Some r /\
    forall idx item, rdp_list r !! idx = Some item -> di_ready item = true -> idx ∈ pg_closed g.

Section Parse.
Context (total : bool) (B fuel : nat) (m : Z).

Abbreviation PW := (BW (parse_pre m) parse_next parse_retry total B).

(** The channels still open are those of the pending directories and of the one
    being prefetched. *)
Definition opens (st : parse_state) : list nat := option_list (ps_current st) ++ ps_pendingDirs st.

Record parse_inv (st : parse_state) (g : parse_ghost) : Prop := {
  pi_nodup : NoDup (opens st ++ pg_closed g);
  pi_ready i : i ∈ opens st ++ pg_closed g <-> exists item, ps_list st !! i = Some item /\ di_ready item = true;
  pi_set i : i ∈ pg_set g -> i ∈ pg_closed g;
  pi_root : pg_root g = if ps_rootSent st then Some (mkReadDirPlusResult (ps_list st) ErrorOK) else None;
  pi_section : ps_section st = if ps_rootSent st then sectionPrefetch else sectionRoot;
  pi_current : ps_rootSent st = false -> ps_current st = None;
  pi_mark : pg_mark g = true;
}.

(** ** Closing channels *)

Definition closed_more (idx : nat) (g : parse_ghost) : parse_ghost :=
  mkParseGhost (pg_root g) (pg_set g) (idx :: pg_closed g) (pg_buf g) (pg_last g) (pg_mark g).

Lemma PW_close items idx g item (Q : unit -> parse_ghost -> Prop) :
  items !! idx = Some item -> di_ready item = true -> idx ∉ pg_closed g ->
  Q tt (closed_more idx g) -> PW (closeChildReady m items idx) g Q.
Proof.
  intros Hi Hr Hc HQ. unfold closeChildReady. rewrite Hi, Hr. BW_request; [done|]. by intros [] g' ->.
Qed.

Definition closed_all (l : list nat) (g : parse_ghost) : parse_ghost := foldl (fun g idx => closed_more idx g) g l.

Lemma closed_all_fields l g :
  pg_root (closed_all l g) = pg_root g /\ pg_closed (closed_all l g) = reverse l ++ pg_closed g /\
  pg_buf (closed_all l g) = pg_buf g /\ pg_last (closed_all l g) = pg_last g /\ pg_mark (closed_all l g) = pg_mark g.
Proof.
  revert g. induction l as [|i l IH]; intros g; [done|]. simpl. destruct (IH (closed_more i g)) as (-> & -> & -> & -> & ->).
  rewrite reverse_cons, <-app_assoc. done.
Qed.

Lemma PW_closeAll items l g (Q : unit -> parse_ghost -> Prop) :
  (forall i, i ∈ l -> exists item, items !! i = Some item /\ di_ready item = true) ->
  NoDup (l ++ pg_closed g) -> Q tt (closed_all l g) -> PW (closeAllRemainingChildReady m items l) g Q.
Proof.
  revert g. induction l as [|i l IH]; intros g Hi Hn HQ; cbn [closeAllRemainingChildReady]; [by apply BW_ret|].
  destruct (Hi i ltac:(set_solver)) as (item & H1 & H2). simpl in Hn. apply NoDup_cons in Hn as [Hn1 Hn2].
  apply BW_bind. eapply PW_close; [done..|set_solver|]. apply IH; [set_solver| |done].
  cbn [pg_closed closed_more]. rewrite <-Permutation_middle. by constructor.
Qed.

(** ** The steps of the parser *)

Lemma inv_open st g i : parse_inv st g -> i ∈ opens st ->
  i ∉ pg_closed g /\ i ∉ pg_set g /\ exists item, ps_list st !! i = Some item /\ di_ready item = true.
Proof.
  intros Hi Hin. assert (i ∉ pg_closed g) as Hn.
  { destruct (proj1 (NoDup_app _ _) (pi_nodup _ _ Hi)) as (_ & Hd & _). by apply Hd. }
  split_and!; [done|by intros H; apply (pi_set _ _ Hi) in H|]. apply (pi_ready _ _ Hi). set_solver.
Qed.

(** The directory being prefetched is resolved. *)
Definition flushed (st : parse_state) : parse_state :=
  match ps_section st, ps_current st with
  | sectionPrefetch, Some _ => mkParse (ps_section st) (ps_list st) [] None (ps_rootSent st) (ps_pendingDirs st)
  | _, _ => st
  end.

Lemma inv_resolve st g idx l items cur pend :
  parse_inv st g -> opens st = idx :: l -> l = option_list cur ++ pend -> ps_rootSent st = true ->
  (forall g', g' = closed_more idx g \/
     g' = closed_more idx (mkParseGhost (pg_root g) (idx :: pg_set g) (pg_closed g) (pg_buf g) (pg_last g) (pg_mark g)) ->
   parse_inv (mkParse (ps_section st) (ps_list st) items cur (ps_rootSent st) pend) g').
Proof.
  intros [H1 H2 H3 H4 H5 H6 H7] Ho -> Hr g' Hg. rewrite Ho in H1, H2.
  assert (pg_closed g' = idx :: pg_closed g /\ pg_root g' = pg_root g /\ pg_mark g' = pg_mark g /\
          forall i, i ∈ pg_set g' -> i ∈ pg_closed g') as (Hc & Hro & Hm & Hs)
    by (destruct Hg as [-> | ->]; simpl; split_and!; try done; set_solver).
  split; unfold opens; cbn [ps_current ps_pendingDirs ps_list ps_rootSent ps_section]; rewrite ?Hc, ?Hro, ?Hm; try done.
  - rewrite <-Permutation_middle. exact H1.
  - intros i. rewrite <-H2. set_solver.
  - intros i Hi. rewrite <-Hc. by apply Hs.
  - congruence.
Qed.

Lemma PW_flush commit st g (Q : parse_state -> parse_ghost -> Prop) :
  parse_inv st g ->
  (forall g', parse_inv (flushed st) g' -> pg_buf g' = pg_buf g -> pg_last g' = pg_last g -> Q (flushed st) g') ->
  PW (flushPrefetch m commit st) g Q.
Proof.
  intros Hi HQ. unfold flushPrefetch, flushed in *. pose proof (pi_section _ _ Hi) as Hsec.
  destruct (ps_section st) eqn:Es; [by apply BW_ret, HQ|].
  destruct (ps_current st) as [idx|] eqn:Ec; [|by apply BW_ret, HQ].
  assert (ps_rootSent st = true) as Hr by (by destruct (ps_rootSent st)).
  assert (opens st = idx :: ps_pendingDirs st) as Ho by (unfold opens; by rewrite Ec).
  destruct (inv_open st g idx Hi ltac:(rewrite Ho; set_solver)) as (Hn1 & Hn2 & item & Hl & Hrdy).
  pose proof (inv_resolve st g idx _ [] None (ps_pendingDirs st) Hi Ho eq_refl Hr) as Hres. rewrite Es in Hres.
  apply BW_bind. destruct commit.
  - unfold setChild. rewrite Hl. apply BW_bind. BW_request.
    { split_and!; [done..|]. rewrite (pi_root _ _ Hi), Hr. by eexists. }
    intros [] g' ->. eapply PW_close; [done..|]. apply BW_ret, HQ; [|done..]. apply Hres. by right.
  - eapply PW_close; [done..|]. apply BW_ret, HQ; [|done..]. apply Hres. by left.
Qed.

(** The returns of the parser: every channel is closed, the listing is out. *)
Definition done_parsing (g : parse_ghost) : Prop := resolved g /\ pg_mark g = true.

(** Nothing is open any more; the listing may still be to be handed out. *)
Record settled (st : parse_state) (g : parse_ghost) : Prop := {
  se_closed idx item : ps_list st !! idx = Some item -> di_ready item = true -> idx ∈ pg_closed g;
  se_root : pg_root g = if ps_rootSent st then Some (mkReadDirPlusResult (ps_list st) ErrorOK) else None;
  se_mark : pg_mark g = true;
}.

Lemma PW_settle st g (Q : unit -> parse_ghost -> Prop) :
  parse_inv st g -> ps_current st = None ->
  (forall g', settled st g' -> pg_buf g' = pg_buf g -> Q tt g') ->
  PW (closeAllRemainingChildReady m (ps_list st) (ps_pendingDirs st)) g Q.
Proof.
  intros Hi Hc HQ. assert (opens st = ps_pendingDirs st) as Ho by (unfold opens; by rewrite Hc).
  pose proof (pi_nodup _ _ Hi) as Hn. rewrite Ho in Hn. apply PW_closeAll; [|done|].
  { intros i Hin. apply (inv_open st g i Hi). by rewrite Ho. }
  destruct (closed_all_fields (ps_pendingDirs st) g) as (E1 & E2 & E3 & E4 & E5).
  apply HQ; [|done]. split; [|by rewrite E1; apply (pi_root _ _ Hi)|by rewrite E5; apply (pi_mark _ _ Hi)].
  intros idx item H1 H2. rewrite E2, elem_of_app, elem_of_reverse, <-elem_of_app, <-Ho. apply (pi_ready _ _ Hi). eauto.
Qed.

Lemma PW_send_root st g r (Q : unit -> parse_ghost -> Prop) :
  settled st g -> (rdp_list r = [] \/ rdp_list r = ps_list st) ->
  (forall g', done_parsing g' -> pg_buf g' = pg_buf g -> Q tt g') -> PW (send_root m st r) g Q.
Proof.
  intros [H1 H2 H3] Hl HQ. unfold send_root. destruct (ps_rootSent st).
  - apply BW_ret, HQ; [|done]. split; [|done]. eexists. split; [done|]. exact H1.
  - BW_request; [done|]. intros [] g' ->. apply HQ; [|done]. split; [|done].
    exists r. split; [done|]. destruct Hl as [-> | ->]; [by intros idx item; rewrite lookup_nil|exact H1].
Qed.

Lemma PW_put g (Q : unit -> parse_ghost -> Prop) :
  pg_buf g = true ->
  Q tt (mkParseGhost (pg_root g) (pg_set g) (pg_closed g) false (pg_last g) (pg_mark g)) -> PW (trigger CPut) g Q.
Proof. intros Hb HQ. BW_request; [done|]. by intros [] g' ->. Qed.

(** Opens and closings do not depend on the other fields. *)
Lemma inv_fields st g g' :
  parse_inv st g -> pg_root g' = pg_root g -> pg_set g' = pg_set g -> pg_closed g' = pg_closed g -> pg_mark g' = pg_mark g ->
  parse_inv st g'.
Proof. intros [H1 H2 H3 H4 H5 H6 H7] E1 E2 E3 E4. split; rewrite ?E1, ?E2, ?E3, ?E4; done. Qed.

Lemma inv_add_dirent d st g : parse_inv st g -> parse_inv (add_dirent d st) g.
Proof.
  intros Hi. pose proof Hi as [H1 H2 H3 H4 H5 H6 H7]. unfold add_dirent. cbv zeta.
  destruct (ps_rootSent st) eqn:Hr; rewrite H5.
  { split; cbn [ps_current ps_pendingDirs ps_list ps_rootSent ps_section ps_items]; rewrite ?Hr; done. }
  assert (opens st = ps_pendingDirs st) as Ho by (unfold opens; by rewrite H6).
  assert (forall i, i ∈ ps_pendingDirs st ++ pg_closed g -> (i < length (ps_list st))%nat) as Hlt.
  { intros i Hin. rewrite <-Ho in Hin. apply H2 in Hin as (item & Hl & _). by eapply lookup_lt_Some. }
  rewrite Ho in H1, H2.
  split; unfold opens; cbn [ps_current ps_pendingDirs ps_list ps_rootSent ps_section di_ready];
    rewrite ?H6, ?Hr by done; try done.
  - destruct (has_flag _ _); [|exact H1].
    assert ((ps_pendingDirs st ++ [length (ps_list st)]) ++ pg_closed g ≡ₚ
            length (ps_list st) :: ps_pendingDirs st ++ pg_closed g) as Hp by solve_Permutation.
    cbn [option_list]. rewrite Hp. constructor; [|done]. intros Hin%Hlt. lia.
  - intros i. cbn [option_list]. rewrite app_nil_l. split.
    + intros Hin. destruct (decide (i = length (ps_list st))) as [->|Hne].
      * exists (mkDirItem (di_Name (makeDirItemFromDirent d)) (di_Size (makeDirItemFromDirent d))
          (di_MTime (makeDirItemFromDirent d)) (di_Mode (makeDirItemFromDirent d))
          (di_Owner (makeDirItemFromDirent d)) (has_flag (Dirent_Mode d) (u32 ModeDir))).
        split; [by rewrite lookup_app_r, Nat.sub_diag|]. simpl. destruct (has_flag _ _); [done|].
        apply Hlt in Hin. lia.
      * assert (i ∈ ps_pendingDirs st ++ pg_closed g) as Hin'.
        { destruct (has_flag _ _); [|done]. apply elem_of_app in Hin as [[Hin|Hin]%elem_of_app|Hin]; apply elem_of_app;
            [by left|by apply list_elem_of_singleton in Hin|by right]. }
        destruct (proj1 (H2 i) Hin') as (item & Hl & Hrd). exists item. split; [|done].
        rewrite lookup_app_l; [done|]. by eapply lookup_lt_Some.
    + intros (item & Hl & Hrd). destruct (decide (i < length (ps_list st))%nat) as [Hlt2|Hge].
      * rewrite lookup_app_l in Hl by done. assert (i ∈ ps_pendingDirs st ++ pg_closed g) as Hin by (apply H2; eauto).
        destruct (has_flag _ _); [|done]. apply elem_of_app in Hin as [?|?]; rewrite !elem_of_app; tauto.
      * rewrite lookup_app_r in Hl by lia. apply list_lookup_singleton_Some in Hl as [Hi2 <-]. simpl in Hrd.
        rewrite Hrd. assert (i = length (ps_list st)) as -> by lia. rewrite !elem_of_app, list_elem_of_singleton. tauto.
Qed.

(** Every channel is closed once nothing is open. *)
Lemma inv_resolved st g :
  parse_inv st g -> ps_rootSent st = true -> ps_current st = None -> ps_pendingDirs st = [] -> done_parsing g.
Proof.
  intros [H1 H2 H3 H4 H5 H6 H7] Hr Hc Hp. split; [|done]. rewrite Hr in H4. eexists. split; [done|].
  intros idx item Hl Hrd. assert (idx ∈ opens st ++ pg_closed g) as Hin by (apply H2; eauto).
  unfold opens in Hin. by rewrite Hc, Hp in Hin.
Qed.

(** The result of a step within a frame: the parser goes on in a good state, or
    it has put the frame back and is done. *)
Definition frame_post (last : bool) (r : option parse_state) (g : parse_ghost) : Prop :=
  match r with
  | Some st => parse_inv st g /\ pg_buf g = true /\ pg_last g = last
  | None => done_parsing g /\ pg_buf g = false
  end.

Lemma PW_pending_next st g last :
  parse_inv st g -> ps_rootSent st = true -> ps_current st = None -> pg_buf g = true -> pg_last g = last ->
  PW (match ps_pendingDirs st with
      | idx :: pendingDirs' =>
          mret (Some (mkParse sectionPrefetch (ps_list st) (ps_items st) (Some idx) (ps_rootSent st) pendingDirs'))
      | [] =>
          closeAllRemainingChildReady m (ps_list st) [] ;;
          trigger CPut ;;
          send_root m st (mkReadDirPlusResult [] ErrorIO) ;;
          mret None
      end) g (frame_post last).
Proof.
  intros Hi Hr Hc Hb Hl. destruct (ps_pendingDirs st) as [|idx p] eqn:Ep.
  - apply BW_bind, BW_ret, BW_bind, PW_put; [done|]. unfold send_root. rewrite Hr. apply BW_bind, BW_ret, BW_ret.
    split; [|done]. pose proof (inv_resolved st g Hi Hr Hc Ep) as [Hres Hm]. by split.
  - apply BW_ret. destruct Hi as [H1 H2 H3 H4 H5 H6 H7]. unfold opens in *. rewrite Hc, Ep in H1, H2. rewrite Hr in *.
    split; [split|done]; unfold opens; cbn [ps_current ps_pendingDirs ps_list ps_rootSent ps_section]; try done.
Qed.

Lemma PW_next_section commit st g last :
  parse_inv st g -> pg_buf g = true -> pg_last g = last -> PW (next_section m commit st) g (frame_post last).
Proof.
  intros Hi Hb Hl. unfold next_section, leave_root. destruct (ps_rootSent st) eqn:Hr.
  - apply BW_bind, BW_ret, BW_bind, PW_flush; [done|]. intros g' Hi' Hb' Hl'.
    pose proof (pi_section _ _ Hi) as Hs. rewrite Hr in Hs.
    assert (ps_rootSent (flushed st) = true /\ ps_current (flushed st) = None) as [Hr' Hc']
      by (unfold flushed; rewrite Hs; by destruct (ps_current st) eqn:Ec).
    apply PW_pending_next; congruence.
  - pose proof Hi as [H1 H2 H3 H4 H5 H6 H7]. rewrite Hr in H4, H5. apply BW_bind, BW_bind. BW_request; [done|].
    intros [] g' ->. apply BW_ret, BW_bind. unfold flushPrefetch at 1. cbn [ps_section set_rootSent]. rewrite H5.
    apply BW_ret. pose proof (H6 Hr) as Hc.
    set (st2 := mkParse sectionPrefetch (ps_list st) (ps_items st) (ps_current st) true (ps_pendingDirs st)).
    apply (PW_pending_next st2 _ last); [|done..].
    split; unfold opens, st2; cbn [ps_current ps_pendingDirs ps_list ps_rootSent ps_section pg_root pg_set pg_closed pg_mark]; try done.
Qed.

Lemma settled_put st g :
  settled st g ->
  settled st (mkParseGhost (pg_root g) (pg_set g) (pg_closed g) false (pg_last g) (pg_mark g)).
Proof. by intros [H1 H2 H3]. Qed.

Lemma flushed_current st g : parse_inv st g -> ps_current (flushed st) = None.
Proof.
  intros Hi. pose proof (pi_section _ _ Hi) as Hs. unfold flushed. destruct (ps_rootSent st) eqn:Hr; rewrite Hs.
  - by destruct (ps_current st) eqn:Ec.
  - by apply (pi_current _ _ Hi).
Qed.

Lemma PW_bad_frame st g last :
  parse_inv st g -> pg_buf g = true -> PW (bad_frame m st ;; mret None) g (frame_post last).
Proof.
  intros Hi Hb. unfold bad_frame. apply BW_bind, BW_bind, PW_flush; [done|]. intros g1 Hi1 Hb1 _.
  apply BW_bind, PW_settle; [done|by eapply flushed_current|]. intros g2 Hs2 Hb2.
  apply BW_bind, PW_put; [congruence|]. apply (PW_send_root (flushed st)); [by apply settled_put|by left|].
  intros g3 Hd Hb3. apply BW_ret. by split.
Qed.

Lemma PW_bad_dirent st g last :
  parse_inv st g -> pg_buf g = true -> PW (bad_dirent m st ;; mret None) g (frame_post last).
Proof.
  intros Hi Hb. unfold bad_dirent. apply BW_bind, BW_bind.
  assert (forall st' g', parse_inv st' g' -> ps_current st' = None -> pg_buf g' = true ->
    ps_list st' = ps_list st -> ps_pendingDirs st' = ps_pendingDirs st -> ps_rootSent st' = ps_rootSent st ->
    PW (closeAllRemainingChildReady m (ps_list st) (ps_pendingDirs st) ;;
        send_root m st (mkReadDirPlusResult [] ErrorIO) ;; trigger CPut) g'
      (fun _ g2 => PW (mret None) g2 (frame_post last))) as Hrest.
  { intros st' g' Hi' Hc' Hb' El Ep Er. rewrite <-El, <-Ep. apply BW_bind, PW_settle; [done..|]. intros g2 Hs2 Hb2.
    assert (send_root m st (mkReadDirPlusResult [] ErrorIO) = send_root m st' (mkReadDirPlusResult [] ErrorIO)) as ->
      by (unfold send_root; by rewrite Er).
    apply BW_bind, PW_send_root; [done|by left|]. intros g3 [Hd1 Hd2] Hb3. apply PW_put; [congruence|].
    apply BW_ret. by repeat split. }
  destruct (ps_current st) as [idx|] eqn:Ec; [|by apply BW_ret, (Hrest st g)].
  assert (ps_rootSent st = true) as Hr.
  { destruct (ps_rootSent st) eqn:Hr; [done|]. by rewrite (pi_current _ _ Hi Hr) in Ec. }
  assert (opens st = idx :: ps_pendingDirs st) as Ho by (unfold opens; by rewrite Ec).
  destruct (inv_open st g idx Hi ltac:(rewrite Ho; set_solver)) as (Hn1 & _ & item & Hl & Hrdy).
  eapply PW_close; [done..|].
  eapply Hrest; [eapply (inv_resolve st g idx _ [] None (ps_pendingDirs st) Hi Ho eq_refl Hr); by left|done..].
Qed.

Lemma parse_frame_ok n data st g last :
  (length data <= n)%nat -> parse_inv st g -> pg_buf g = true -> pg_last g = last ->
  PW (parse_frame m n data st) g (frame_post last).
Proof.
  revert data st g. induction n as [|n IH]; intros data st g Hn Hi Hb Hl;
    destruct data as [|x data]; cbn [parse_frame]; [by apply BW_ret|simpl in Hn; lia|by apply BW_ret|].
  simpl in Hn. cbv zeta. destruct (_ =? _).
  - destruct (ReadDirentFromReader (bytes_reader data)) as [[d|e] r] eqn:Er; [|by apply PW_bad_dirent].
    destruct (c_read_sound (c := codec_Dirent) _ _ _ Er) as (_ & Hd & _). simpl in Hd.
    apply IH; [|by apply inv_add_dirent|done..].
    apply (f_equal length) in Hd. rewrite length_app in Hd. lia.
  - destruct (_ || _); [|by apply PW_bad_frame].
    apply BW_bind. eapply BW_mono; [by apply PW_next_section|].
    intros [st'|] g'; [|by intros []; apply BW_ret]. intros (Hi' & Hb' & Hl'). apply IH; [lia|done..].
Qed.

(** One frame: the parser goes on after a partial frame only. *)
Definition step_post (partial : bool) (r : parse_state + unit) (g : parse_ghost) : Prop :=
  match r with
  | inl st => partial = true /\ parse_inv st g /\ pg_buf g = false /\ pg_last g = false
  | inr _ => done_parsing g /\ pg_buf g = false
  end.

Lemma parse_frame_rest f st g :
  parse_inv st g -> pg_buf g = true -> pg_last g = negb (rsp_code f =? ErrorPartialResponse) ->
  PW (if negb (rsp_code f =? ErrorOK) && negb (rsp_code f =? ErrorPartialResponse) then
        st ← flushPrefetch m false st;
        closeAllRemainingChildReady m (ps_list st) (ps_pendingDirs st) ;;
        trigger CPut ;;
        send_root m st (mkReadDirPlusResult [] (rsp_code f)) ;;
        mret (inr tt)
      else
        r ← parse_frame m (length (rsp_data f)) (rsp_data f) st;
        match (r : option parse_state) with
        | None => mret (inr tt)
        | Some st =>
            trigger CPut ;;
            if rsp_code f =? ErrorOK then
              st ← flushPrefetch m true st;
              closeAllRemainingChildReady m (ps_list st) (ps_pendingDirs st) ;;
              send_root m st (mkReadDirPlusResult (ps_list st) ErrorOK) ;;
              mret (inr tt)
            else mret (inl st)
        end) g (step_post (rsp_code f =? ErrorPartialResponse)).
Proof.
  intros Hi Hb Hl. destruct (negb (rsp_code f =? ErrorOK) && _) eqn:Ec.
  - apply BW_bind, PW_flush; [done|]. intros g1 Hi1 Hb1 _.
    apply BW_bind, PW_settle; [done|by eapply flushed_current|]. intros g2 Hs2 Hb2.
    apply BW_bind, PW_put; [congruence|]. apply BW_bind, (PW_send_root (flushed st)); [by apply settled_put|by left|].
    intros g3 Hd Hb3. apply BW_ret. by split.
  - apply BW_bind. eapply BW_mono; [by apply (parse_frame_ok _ _ _ _ _ (Nat.le_refl _) Hi Hb eq_refl)|].
    intros [st'|] g1; [|by intros []; apply BW_ret]. intros (Hi1 & Hb1 & Hl1). apply BW_bind, PW_put; [done|].
    assert (parse_inv st' (mkParseGhost (pg_root g1) (pg_set g1) (pg_closed g1) false (pg_last g1) (pg_mark g1))) as Hi2
      by (by eapply inv_fields).
    destruct (Z.eqb_spec (rsp_code f) ErrorOK) as [E|E].
    + apply BW_bind, PW_flush; [done|]. intros g3 Hi3 Hb3 _.
      apply BW_bind, PW_settle; [done|by eapply flushed_current|]. intros g4 Hs4 Hb4.
      apply BW_bind, (PW_send_root (flushed st')); [done|by right|]. intros g5 Hd5 Hb5. apply BW_ret. split; [done|].
      by rewrite Hb5, Hb4, Hb3.
    + cbn [negb andb] in Ec. apply negb_false_iff in Ec. apply BW_ret. split_and!; [done|done|done|].
      simpl. by rewrite Hl1, Hl, Ec.
Qed.

Lemma parseReadDirPlus_ok :
  (total = true -> B < fuel)%nat ->
  PW (parseReadDirPlus fuel m) parse_start (fun _ g => resolved g /\ pg_buf g = false /\ pg_mark g = false).
Proof.
  intros Hf. apply BW_bind.
  apply BW_loop_measure with (m := fun _ => 0%nat)
    (I := fun st g => parse_inv st g /\ pg_buf g = false /\ pg_last g = false); [| |exact Hf].
  - intros st g b (Hi & Hb & Hl) Hbud. unfold parse_step. apply BWb_bind. BW_request; [by repeat split; try apply Hi|].
    intros f g1 b1 [_ ->] Hr. simpl in Hr.
    eapply BW_BWb; [apply parse_frame_rest; [by eapply inv_fields|done|done]|destruct (_ =? _); lia|].
    intros [st'|[]] g2 b2 Hb2.
    + intros (Ep & Hi2 & Hb3 & Hl2). rewrite Ep in Hr. split_and!; [lia|done|done|done|lia].
    + intros [[Hd1 Hd2] Hd3]. split; [destruct (_ =? _); lia|]. apply BW_bind. BW_request; [done|].
      intros [] g3 ->. BW_request; [done|]. intros [] g4 ->. done.
  - split_and!; [|done|done]. split; unfold opens; simpl; try done; [constructor|].
    intros i. split; [by intros ?%elem_of_nil|]. by intros (item & H & _); rewrite lookup_nil in H.
Qed.
End Parse.
