(* ===== verification/ClientUnix.v ===== *)
(** * The Unix client: conversions

    The pure part of src/src/internal/client/unix for Linux: errors (errno.go,
    errno-linux.go), modes, attributes and open flags (node.go), locks and the
    clone requests of ioctl (node-linux.go), the entries of a directory (dir.go). *)
From S2P Require Import Prelude GoIO Codec Structs StructGen UnixConv ServerEnv ClientEnv.

(** ** errno.go *)

Definition client_errorCodeMap : list (Z * Z) :=
  [(ErrorOK, 0);
   (ErrorUnknown, EIO);
   (ErrorAccessRestricted, EACCES);
   (ErrorBusy, EBUSY);
   (ErrorExists, EEXIST);
   (ErrorTooLong, ENAMETOOLONG);
   (ErrorInvalid, EINVAL);
   (ErrorInvalidFD, EBADF);
   (ErrorNotExists, ENOENT);
   (ErrorLoop, ELOOP);
   (ErrorNoSpace, ENOSPC);
   (ErrorNotEmpty, ENOTEMPTY);
   (ErrorType, ENOTDIR);
   (ErrorIO, EIO);
   (ErrorNotSupport, ENOTSUP);
   (ErrorStateBlocked, EPERM);
   (ErrorSpecialFileBlocked, ETXTBSY);
   (ErrorCrossDevice, EXDEV);
   (ErrorRange, ERANGE);
   (* init of errno-linux.go *)
   (ErrorNoXAttr, ENODATA)].

(** fusefs.OK is 0. *)
Definition errnoFromCode (code : Z) : errno :=
  match mlookup code client_errorCodeMap with
  | Some e => e
  | None => EIO
  end.

(** ** Modes *)

Definition ENOTTY : errno := 25.
Definition S_IFDIR : Z := 0x4000.
Definition S_IFREG : Z := 0x8000.
Definition S_IFLNK : Z := 0xa000.
Definition ModeDevice : Z := 2 ^ 26.
Definition ModeNamedPipe : Z := 2 ^ 25.
Definition ModeSocket : Z := 2 ^ 24.

Definition wsfsFileModeToFuseMode (mode : Z) : Z :=
  let r := Z.land mode 0x1ff in
  let r := if has_flag mode ModeSetuid then Z.lor r S_ISUID else r in
  let r := if has_flag mode ModeSetgid then Z.lor r S_ISGID else r in
  let r := if has_flag mode ModeSticky then Z.lor r S_ISVTX else r in
  if has_flag mode ModeDir then Z.lor r S_IFDIR
  else if has_flag mode ModeSymlink then Z.lor r S_IFLNK
  else if has_flag mode (Z.lor (Z.lor ModeDevice ModeNamedPipe) ModeSocket) then Z.ldiff r 0x1ff
  else Z.lor r S_IFREG.

Definition wsfsFileModeFromFuseMode (mode : Z) : Z :=
  let r := Z.land mode 0x1ff in
  let r := if has_flag mode S_ISUID then Z.lor r ModeSetuid else r in
  let r := if has_flag mode S_ISGID then Z.lor r ModeSetgid else r in
  let r := if has_flag mode S_ISVTX then Z.lor r ModeSticky else r in
  if has_flag mode S_IFDIR then Z.lor r ModeDir
  else if has_flag mode S_IFLNK then Z.lor r ModeSymlink
  else r.

(** ** Attributes *)

Definition fsBlockSize : Z := 4096.
Definition fsFileNameLen : Z := 255.

(** fuse.Attr. *)
Record Attr := mkAttr {
  at_Ino : Z;
  at_Size : Z;
  at_Blocks : Z;
  at_time : Z; (* Atime, Mtime and Ctime, which are set alike *)
  at_timensec : Z;
  at_Mode : Z;
  at_Nlink : Z;
  at_Uid : Z;
  at_Gid : Z;
  at_Blksize : Z;
}.
#[global] Instance Attr_eq_dec : EqDecision Attr.
Proof. solve_decision. Defined.

(** [hash] is [maphash.String(inodeHashSeed, _)]. *)
Definition attrFromFileInfo (hash : gostring -> Z) (path : gostring) (fi : FileInfo) (fsIds : FsIds) : Attr :=
  let size := FileInfo_Size fi in
  let owner := FileInfo_Owner fi in
  mkAttr (hash path) size
    (size / 512 + (if negb (size mod 512 =? 0) then 1 else 0))
    (u64 (Timespec_Seconds (FileInfo_MTime fi))) (u32 (Timespec_Nanoseconds (FileInfo_MTime fi)))
    (wsfsFileModeToFuseMode (FileInfo_Mode fi)) 1
    (if (owner =? OWNER_NN) || (owner =? OWNER_NG) then OtherUid fsIds
     else if (owner =? OWNER_UN) || (owner =? OWNER_UG) then Uid fsIds else 0)
    (if (owner =? OWNER_NN) || (owner =? OWNER_UN) then OtherGid fsIds
     else if (owner =? OWNER_NG) || (owner =? OWNER_UG) then Gid fsIds else 0)
    fsBlockSize.

Definition item_FileInfo (di : DirItem) : FileInfo :=
  mkFileInfo (di_Size di) (di_MTime di) (di_Mode di) (di_Owner di).

Definition attrFromDirItem (hash : gostring -> Z) (path : gostring) (di : DirItem) (fsIds : FsIds) : Attr :=
  attrFromFileInfo hash path (item_FileInfo di) fsIds.

(** fusefs.StableAttr. *)
Record StableAttr := mkStableAttr { sa_Mode : Z; sa_Ino : Z; sa_Gen : Z }.
Definition idFromStat (attr : Attr) : StableAttr := mkStableAttr (at_Mode attr) (at_Ino attr) 1.

(** dirListStream.Next: fuse.DirEntry of an item (Ino is 0). *)
Record DirEntry := mkDirEntry { den_Name : gostring; den_Mode : Z }.
Definition stream_Next (di : DirItem) : DirEntry := mkDirEntry (di_Name di) (di_Mode di).

(** ** Flags *)

Section Flags.
Context {abi : UnixABI}.

(** [None]: not ok. *)
Definition OpenFlagFromSys (flags : Z) : option Z :=
  let flags := Z.ldiff flags IgnoredUnixOpenFlagBits in
  if negb (Z.ldiff flags AcceptdUnixOpenFlagBits =? 0) then None
  else
    let access := Z.land flags unix_O_ACCMODE in
    let out :=
      if access =? unix_O_RDONLY then Some (Z.lor 0 O_RDONLY)
      else if access =? unix_O_WRONLY then Some (Z.lor 0 O_WRONLY)
      else if access =? unix_O_RDWR then Some (Z.lor 0 O_RDWR)
      else None in
    match out with
    | None => None
    | Some out =>
        Some (foldl (fun out '(unixFlag, wsfsFlag) =>
                if has_flag unixFlag unix_O_ACCMODE then out
                else if has_flag flags unixFlag then Z.lor out wsfsFlag else out)
                out OpenFlagFromUnix)
    end.

(** The flags of Rename. *)
Definition rename_from_unix (flags : Z) : Z :=
  foldl (fun acc '(unixFlag, wsfsFlag) => if has_flag flags unixFlag then Z.lor acc wsfsFlag else acc)
    0 RenameFlagFromUnix.

(** The mode of Setxattr. *)
Definition setxattr_mode (flags : Z) : option Z :=
  if flags =? 0 then Some XATTR_NOFOLLOW
  else if flags =? unix_XATTR_CREATE then Some (Z.lor XATTR_NOFOLLOW SETXATTR_CREATE)
  else if flags =? unix_XATTR_REPLACE then Some (Z.lor XATTR_NOFOLLOW SETXATTR_REPLACE)
  else None.

(** ** node-linux.go *)

(** Source handle, offsets of the source and the destination, size; numbers in
    memory are little-endian (amd64). *)
Definition decodeCloneFileRequest (cmd : Z) (input : bytes) : result errno (Z * Z * Z * Z) :=
  if cmd =? unix_FICLONE then
    if len input <? 4 then Err EINVAL
    else
      let src := i32 (Uint32 input 0) in
      if src <? 0 then Err EBADF else Ok (u32 src, 0, 0, 0)
  else if cmd =? unix_FICLONERANGE then
    if len input <? 32 then Err EINVAL
    else
      let src := i64 (Uint64 input 0) in
      if src <? 0 then Err EBADF
      else Ok (u32 src, Uint64 input 8, Uint64 input 24, Uint64 input 16)
  else Err ENOTTY.

(** fuse.FileLock. *)
Record FileLock := mkFileLock { fl_Start : Z; fl_End : Z; fl_Typ : Z; fl_Pid : Z }.
#[global] Instance FileLock_eq_dec : EqDecision FileLock.
Proof. solve_decision. Defined.

Definition lock_end : Z := 2 ^ 63 - 1.

Definition fileLockToProtocol (lk : FileLock) : option FileLockInfo :=
  match mlookup (i16 (fl_Typ lk)) LockTypeFromUnix with
  | None => None
  | Some lockType =>
      let lockLength := if negb (fl_End lk =? lock_end) then u64 (fl_End lk - fl_Start lk + 1) else 0 in
      Some (mkFileLockInfo lockType 0 (fl_Start lk) lockLength)
  end.

Definition wholeFileLockToProtocol (lk : FileLock) : option FileLockInfo :=
  match mlookup (i16 (fl_Typ lk)) LockTypeFromUnix with
  | None => None
  | Some lockType => Some (mkFileLockInfo lockType WHENCE_SET 0 0)
  end.

Definition fileLockFromProtocol (fileLock : FileLockInfo) : option FileLock :=
  match mlookup (FileLockInfo_Type fileLock) LockTypeToUnix with
  | None => None
  | Some lockType =>
      let start := FileLockInfo_Start fileLock in
      let size := FileLockInfo_Size fileLock in
      Some (mkFileLock start (if size =? 0 then lock_end else u64 (start + size - 1)) (u32 lockType) 0)
  end.

Definition markNoLock : FileLock := mkFileLock 0 0 (u32 unix_F_UNLCK) 0.
End Flags.
