(* ===== verification/ClientFuse.v ===== *)
(** * The Unix client: FUSE handlers and caches

    src/src/internal/client/unix/node.go, node-linux.go, node-linux-darwin.go,
    cache.go and fs.go: what the client does for every FUSE request, as programs of
    requests to the caches of the nodes (atomic pointers shared by all requests),
    the clock, go-fuse and the functions of the session (ClientCmds,
    ClientReadDirPlus). *)
From S2P Require Import Prelude GoIO Codec Structs StructGen Prog Paths UnixConv ServerEnv ClientEnv ClientUnix.

(** ** Data *)

(** An element of a listing: a pointer to the item and the fields that do not
    change; Child and Data are read with [WaitPrefetch]. *)
Definition entry : Type := nat * DirItem.

(** Times are nanoseconds; [None] is a nil slice. *)
Record dirCache := mkDirCache { dc_items : option (list entry); dc_expireAt : Z }.
Record dataCache := mkDataCache { dac_data : option bytes; dac_expireAt : Z }.
Record attrCache := mkAttrCache { ac_attr : FileInfo; ac_expireAt : Z }.

Inductive FlockMode := FlockModeOFD | FlockModeUnsupported | FlockModeNoop.

Record fileSystem := mkFileSystem {
  fs_mountpoint : gostring;
  fs_fsIds : FsIds;
  fs_flockMode : FlockMode;
  fs_structTimeout : Z;
}.

Inductive fev : Type :=
(* the pointers of a node *)
| LoadDir (n : nat)
| StoreDir (n : nat) (c : option dirCache)
| LoadData (n : nat)
| StoreData (n : nat) (c : option dataCache)
| LoadAttr (n : nat)
| StoreAttr (n : nat) (c : option attrCache)
| TimeNow
| WaitPrefetch (p : nat) (* item.WaitPrefetch(), item.Child, item.Data *)
| Crash (* a run-time panic: the process ends *)
(* go-fuse *)
| NodePath (n : nat) (* n.Path(n.Root()) *)
| NewNode
| NewInode (parent node : nat) (id : StableAttr) (* != nil *)
(* the session *)
| SFsStat (p : gostring)
| SGetAttr (p : gostring)
| SMkdir (p : gostring) (mode : Z)
| SRmDir (p : gostring)
| SRemove (p : gostring)
| SRename (p1 p2 : gostring) (flags : Z)
| SOpen (p : gostring) (oflag mode : Z)
| SClose (fd : Z)
| SSymLink (target p : gostring)
| SReadLink (p : gostring)
| SReadDirPlus (p : gostring)
| SReadDir (p : gostring)
| SReadAt (fd off : Z) (dest : bytes)
| SWriteAt (fd off : Z) (data : bytes)
| SSync (fd : Z)
| SSeek (fd whence off : Z)
| SCopyFileRange (fdIn fdOut offIn offOut size : Z)
| SCloneFileRange (fdIn fdOut offIn offOut size : Z)
| SSetAttr (p : gostring) (flag : Z) (fi : FileInfo)
| SSetAttrByFD (fd flag : Z) (fi : FileInfo)
| SGetFileLock (fd : Z) (lk : FileLockInfo)
| SSetFileLock (fd : Z) (lk : FileLockInfo)
| SSetFileLockWait (fd : Z) (lk : FileLockInfo)
| SGetXAttr (p key : gostring) (mode : Z)
| SSetXAttr (p key : gostring) (value : bytes) (mode : Z)
| SRemoveXAttr (p key : gostring) (mode : Z)
| SListXAttr (p : gostring) (mode : Z).

Definition fans (e : fev) : Type :=
  match e with
  | LoadDir _ => option dirCache
  | LoadData _ => option dataCache
  | LoadAttr _ => option attrCache
  | StoreDir _ _ | StoreData _ _ | StoreAttr _ _ => unit
  | TimeNow => Z
  | WaitPrefetch _ => option (list entry) * option bytes
  | Crash => Empty_set
  | NodePath _ => gostring
  | NewNode => nat
  | NewInode _ _ _ => bool
  | SFsStat _ => RspFsStat * Z
  | SGetAttr _ => FileInfo * Z
  | SOpen _ _ _ => Z * Z
  | SReadLink _ => gostring * Z
  | SReadDirPlus _ | SReadDir _ => option (list entry) * Z
  | SReadAt _ _ _ => bytes * Z * Z
  | SWriteAt _ _ _ => Z * Z
  | SSeek _ _ _ => Z * Z
  | SCopyFileRange _ _ _ _ _ => Z * Z
  | SGetFileLock _ _ => FileLockInfo * Z
  | SGetXAttr _ _ _ | SListXAttr _ _ => bytes * Z
  | _ => Z
  end.

Abbreviation FP := (prog fans).
Abbreviation call e := (trigger (ans := fans) e).

Definition crash {A} : FP A := Vis (ans := fans) Crash (fun r : Empty_set => match r with end).

(** ** cache.go *)

Definition subDirCache (pointer : nat) (items : option (list entry)) (father : nat) : FP unit :=
  c ← call (LoadDir father);
  match c with
  | None => crash
  | Some c => call (StoreDir pointer (Some (mkDirCache items (dc_expireAt c))))
  end.

Definition subDataCache (pointer : nat) (data : option bytes) (father : nat) : FP unit :=
  c ← call (LoadDir father);
  match c with
  | None => crash
  | Some c => call (StoreData pointer (Some (mkDataCache data (dc_expireAt c))))
  end.

Definition subAttrCache (pointer : nat) (attr : FileInfo) (father : nat) : FP unit :=
  c ← call (LoadDir father);
  match c with
  | None => crash
  | Some c => call (StoreAttr pointer (Some (mkAttrCache attr (dc_expireAt c))))
  end.

Definition saveDirCache (pointer : nat) (items : option (list entry)) (expire : Z) : FP unit :=
  now ← call TimeNow;
  call (StoreDir pointer (Some (mkDirCache items (now + expire)))).

Definition saveAttrCache (pointer : nat) (attr : FileInfo) (expire : Z) : FP unit :=
  now ← call TimeNow;
  call (StoreAttr pointer (Some (mkAttrCache attr (now + expire)))).

Definition find_item (name : gostring) (items : list entry) : option entry :=
  List.find (fun e => bool_decide (di_Name e.2 = name)) items.

(** [None]: not ok. *)
Definition lookupDirCache (pointer : nat) (name : gostring) : FP (option (option entry * Z)) :=
  cache ← call (LoadDir pointer);
  match cache with
  | None | Some (mkDirCache None _) => mret None
  | Some (mkDirCache (Some items) expireAt) =>
      now ← call TimeNow;
      let delta := expireAt - now in
      if delta <? 0 then call (StoreDir pointer None) ;; mret None
      else mret (Some (find_item name items, delta))
  end.

Definition getDirCache (pointer : nat) : FP (option (list entry)) :=
  cache ← call (LoadDir pointer);
  match cache with
  | None | Some (mkDirCache None _) => mret None
  | Some (mkDirCache (Some items) expireAt) =>
      now ← call TimeNow;
      if expireAt <? now then call (StoreDir pointer None) ;; mret None
      else mret (Some items)
  end.

(** The data, also when it is expired. *)
Definition getDataCache (pointer : nat) : FP (option bytes * bool) :=
  cache ← call (LoadData pointer);
  match cache with
  | None | Some (mkDataCache None _) => mret (None, false)
  | Some (mkDataCache (Some data) expireAt) =>
      now ← call TimeNow;
      if expireAt <? now then mret (Some data, false)
      else mret (Some data, true)
  end.

Definition getAttrCache (pointer : nat) : FP (option FileInfo) :=
  cache ← call (LoadAttr pointer);
  match cache with
  | None => mret None
  | Some (mkAttrCache attr expireAt) =>
      now ← call TimeNow;
      if expireAt <? now then call (StoreAttr pointer None) ;; mret None
      else mret (Some attr)
  end.

Definition wipeDirCache (pointer : nat) : FP unit := call (StoreDir pointer None).

Definition wipeDataCache (pointer : nat) : FP unit :=
  p ← call (LoadData pointer);
  match p with
  | None => mret tt
  | Some p =>
      now ← call TimeNow;
      call (StoreData pointer (Some (mkDataCache (dac_data p) now)))
  end.

Definition wipeAttrCache (pointer : nat) : FP unit := call (StoreAttr pointer None).

(** ** node.go *)

(** fuse.SetAttrIn: what GetMode, GetUID, GetGID, GetMTime and GetSize return. *)
Record SetAttrIn := mkSetAttrIn {
  in_Mode : option Z;
  in_UID : option Z;
  in_GID : option Z;
  in_MTime : option Timespec;
  in_Size : option Z;
}.

(** fuse.EntryOut with the result of a lookup: the timeouts set in it ([None]: not
    set), the node and its attributes. *)
Record lookup_out := mkLookupOut { lo_timeout : option Z; lo_result : result errno (nat * Attr) }.

Definition failed_lookup (e : errno) : lookup_out := mkLookupOut None (Err e).

(** An errno, or a value with errno 0. *)
Definition with_code {A B} (code : Z) (a : A) (k : A -> FP (result errno B)) : FP (result errno B) :=
  if negb (code =? ErrorOK) then mret (Err (errnoFromCode code)) else k a.

Section Node.
Context {abi : UnixABI} (hash : gostring -> Z) (fsdata : fileSystem).

Definition node_path (n : nat) : FP gostring := p ← call (NodePath n); mret (slash :: p).

(** Total, free and available blocks. *)
Definition Statfs (n : nat) : FP (result errno (Z * Z * Z)) :=
  p ← node_path n;
  r ← call (SFsStat p);
  with_code r.2 r.1 (fun fsi =>
    mret (Ok (RspFsStat_Total fsi / fsBlockSize, RspFsStat_Free fsi / fsBlockSize, RspFsStat_Available fsi / fsBlockSize))).

(** The attributes of a lookup, and the item they come from with the timeout. *)
Definition lookup_attr (n : nat) (p name : gostring) : FP (option Z * result errno (Attr * option entry)) :=
  c ← lookupDirCache n name;
  match c with
  | Some (Some item, delta) =>
      mret (Some delta, Ok (attrFromDirItem hash p item.2 (fs_fsIds fsdata), Some item))
  | Some (None, delta) => mret (Some delta, Err ENOENT)
  | None =>
      r ← call (SGetAttr p);
      if negb (r.2 =? ErrorOK) then mret (None, Err (errnoFromCode r.2))
      else mret (None, Ok (attrFromFileInfo hash p r.1 (fs_fsIds fsdata), None))
  end.

(** The caches of a new node for a cached item. *)
Definition inherit_cache (n child : nat) (item : entry) : FP unit :=
  r ← call (WaitPrefetch item.1);
  match r with
  | (Some items, _) => subDirCache child (Some items) n
  | (None, Some data) => subDataCache child (Some data) n ;; subAttrCache child (item_FileInfo item.2) n
  | (None, None) => mret tt
  end.

Definition Lookup (n : nat) (name : gostring) : FP lookup_out :=
  np ← node_path n;
  let p := Join np name in
  r ← lookup_attr n p name;
  match r with
  | (timeout, Err e) => mret (mkLookupOut timeout (Err e))
  | (timeout, Ok (attr, item)) =>
      child ← call NewNode;
      match item with Some item => inherit_cache n child item | None => mret tt end ;;
      ch ← call (NewInode n child (idFromStat attr));
      mret (mkLookupOut timeout (if ch : bool then Ok (child, attr) else Err EIO))
  end.

Definition Mkdir (n : nat) (name : gostring) (mode : Z) : FP lookup_out :=
  wipeDirCache n ;;
  np ← node_path n;
  code ← call (SMkdir (Join np name) mode);
  if negb (code =? ErrorOK) then mret (failed_lookup (errnoFromCode code)) else Lookup n name.

Definition Rmdir (n : nat) (name : gostring) : FP errno :=
  wipeDirCache n ;;
  np ← node_path n;
  code ← call (SRmDir (Join np name));
  mret (errnoFromCode code).

Definition Unlink (n : nat) (name : gostring) : FP errno :=
  wipeDirCache n ;;
  np ← node_path n;
  code ← call (SRemove (Join np name));
  mret (errnoFromCode code).

Definition Rename (n : nat) (name : gostring) (newParent : nat) (newName : gostring) (flags : Z) : FP errno :=
  wipeDirCache n ;;
  np ← node_path n;
  let p1 := Join np name in
  np2 ← call (NodePath newParent);
  let p2 := Join (slash :: np2) newName in
  if negb (Z.ldiff flags AcceptedUnixRenameFlags =? 0) then mret ENOTSUP
  else
    code ← call (SRename p1 p2 (rename_from_unix flags));
    mret (errnoFromCode code).

(** The node and its handle. *)
Definition Create (n : nat) (name : gostring) (flags mode : Z) : FP (lookup_out * option Z) :=
  wipeDirCache n ;;
  np ← node_path n;
  let p := Join np name in
  match OpenFlagFromSys flags with
  | None => mret (failed_lookup ENOTSUP, None)
  | Some wsfsFlag =>
      r ← call (SOpen p (Z.lor wsfsFlag O_CREAT) mode);
      let '(fd, code) := r in
      if negb (code =? ErrorOK) then mret (failed_lookup (errnoFromCode code), None)
      else
        lo ← Lookup n name;
        match lo_result lo with
        | Err e => call (SClose fd) ;; mret (lo, None)
        | Ok _ => mret (lo, Some fd)
        end
  end.

Definition Symlink (n : nat) (target name : gostring) : FP lookup_out :=
  wipeDirCache n ;;
  if negb (HasPrefix target (fs_mountpoint fsdata)) then mret (failed_lookup EACCES)
  else
    let target := TrimPrefix target (fs_mountpoint fsdata) in
    np ← node_path n;
    let p := Join np name in
    code ← call (SSymLink target p);
    if negb (code =? ErrorOK) then mret (failed_lookup (errnoFromCode code)) else Lookup n name.

Definition Link : FP errno := mret ENOTSUP.
Definition Mknod : FP errno := mret ENOTSUP.

Definition Readlink (n : nat) : FP (result errno gostring) :=
  p ← node_path n;
  r ← call (SReadLink p);
  with_code r.2 r.1 (fun path => mret (Ok (Join (fs_mountpoint fsdata) (TrimPrefix path (str "/"))))).

(** The file handle ([None]: nil) and the errno. *)
Definition Open (n : nat) (flags : Z) : FP (option Z * errno) :=
  cached ← (if flags =? 0 (* os.O_RDONLY *) then d ← getDataCache n; mret d.2 else mret false);
  if cached : bool then mret (None, 0)
  else
    match OpenFlagFromSys flags with
    | None => mret (None, ENOTSUP)
    | Some wsfsFlag =>
        p ← node_path n;
        r ← call (SOpen p wsfsFlag 0x1a4 (* 0o644 *));
        mret (Some r.1, errnoFromCode r.2)
    end.

Definition Opendir : FP errno := mret 0.

(** The items of the stream; a nil slice has none. *)
Definition Readdir (n : nat) : FP (result errno (list entry)) :=
  c ← getDirCache n;
  match c with
  | Some items => mret (Ok items)
  | None =>
      p ← node_path n;
      let path := if bool_decide (last p = Some slash) then p else p ++ [slash] in
      r ← call (SReadDirPlus path);
      r ← (if negb (r.2 =? ErrorOK) then call (SReadDir path) else mret r);
      let '(items, code) := (r : option (list entry) * Z) in
      if negb (code =? ErrorOK) then mret (Err (errnoFromCode code))
      else
        saveDirCache n items (fs_structTimeout fsdata) ;;
        mret (Ok (default [] items))
  end.

Definition Getattr (n : nat) : FP (result errno Attr) :=
  p ← node_path n;
  c ← getAttrCache n;
  match c with
  | Some fi => mret (Ok (attrFromFileInfo hash p fi (fs_fsIds fsdata)))
  | None =>
      r ← call (SGetAttr p);
      let '(fi, code) := r in
      if negb (code =? ErrorOK) then mret (Err (errnoFromCode code))
      else
        saveAttrCache n fi (fs_structTimeout fsdata) ;;
        mret (Ok (attrFromFileInfo hash p fi (fs_fsIds fsdata)))
  end.

(** [f] is the handle, [None] for nil; the data of the result. *)
Definition Read (n : nat) (f : option Z) (dest : bytes) (off : Z) : FP (result errno bytes) :=
  match f with
  | None =>
      d ← getDataCache n;
      let data := default [] d.1 in
      if (0 <=? off) && (off <=? len data) then mret (Ok (drop (Z.to_nat off) data)) else crash
  | Some fd =>
      r ← call (SReadAt fd (u64 off) dest);
      let '(dest, readed, code) := r in
      if negb (code =? ErrorOK) then mret (Err (errnoFromCode code))
      else if readed <=? len dest then mret (Ok (take (Z.to_nat readed) dest)) else crash
  end.

Definition Write (n : nat) (f : option Z) (data : bytes) (off : Z) : FP (result errno Z) :=
  match f with
  | None => mret (Err EINVAL)
  | Some fd =>
      wipeDataCache n ;;
      wipeAttrCache n ;;
      r ← call (SWriteAt fd (u64 off) data);
      let '(count, code) := r in
      if negb (code =? ErrorOK) then mret (Err (errnoFromCode code)) else mret (Ok (u32 count))
  end.

Definition Flush (n : nat) : FP errno :=
  wipeDataCache n ;;
  wipeAttrCache n ;;
  mret 0.

Definition Release (f : option Z) : FP errno :=
  match f with
  | None => mret 0
  | Some fd => call (SClose fd) ;; mret 0
  end.

Definition Fsync (n : nat) (f : option Z) : FP errno :=
  match f with
  | None => mret 0
  | Some fd =>
      wipeDataCache n ;;
      wipeAttrCache n ;;
      code ← call (SSync fd);
      mret (errnoFromCode code)
  end.

Definition Lseek (f : option Z) (Off whence : Z) : FP (Z * errno) :=
  match f with
  | None => mret (0, 0)
  | Some fd =>
      match mlookup whence WhenceFromUnix with
      | None => mret (0, ENOTSUP)
      | Some wsfsWhence =>
          r ← call (SSeek fd wsfsWhence (i64 Off));
          mret (r.1, errnoFromCode r.2)
      end
  end.

Definition CopyFileRange (n : nat) (fhIn : option Z) (offIn : Z) (fhOut : option Z) (offOut size flags : Z) : FP (Z * errno) :=
  match fhIn, fhOut with
  | Some fdIn, Some fdOut =>
      if negb (flags =? 0) then mret (0, ENOTSUP)
      else
        wipeDataCache n ;;
        wipeAttrCache n ;;
        r ← call (SCopyFileRange fdIn fdOut offIn offOut size);
        mret (u32 r.1, errnoFromCode r.2)
  | _, _ => mret (0, ENOTSUP)
  end.

(** The flags and the attributes Setattr sends. *)
Definition setattr_owner (sin : SetAttrIn) (orig : Attr) : Z :=
  let ids := fs_fsIds fsdata in
  (if default (at_Uid orig) (in_UID sin) =? Uid ids then 1 else 0) +
  (if default (at_Gid orig) (in_GID sin) =? Gid ids then 2 else 0).

Definition setattr_request (sin : SetAttrIn) (orig : Attr) : Z * FileInfo :=
  let flag (o : bool) (f : Z) := if o then f else 0 in
  (Z.lor (Z.lor (Z.lor (flag (if in_Mode sin is Some _ then true else false) SETATTR_MODE) SETATTR_OWNER)
            (flag (if in_MTime sin is Some _ then true else false) SETATTR_MTIME))
     (flag (if in_Size sin is Some _ then true else false) SETATTR_SIZE),
   mkFileInfo (default 0 (in_Size sin)) (default (mkTimespec 0 0) (in_MTime sin))
     (default 0 (wsfsFileModeFromFuseMode <$> in_Mode sin)) (setattr_owner sin orig)).

(** The reply's attributes ([out]) are left as they are. *)
Definition Setattr (n : nat) (f : option Z) (sin : SetAttrIn) : FP errno :=
  orig ← Getattr n;
  match orig with
  | Err e => mret e
  | Ok orig =>
      let '(flag, fi) := setattr_request sin orig in
      code ← match f with
             | Some fd => call (SSetAttrByFD fd flag fi)
             | None => p ← node_path n; call (SSetAttr p flag fi)
             end;
      (if (code : Z) =? ErrorOK then wipeDataCache n ;; wipeAttrCache n else mret tt) ;;
      mret (errnoFromCode code)
  end.

(** ** node-linux-darwin.go *)

(** The size, the errno, and what is copied to dest, which has [size] bytes. *)
Definition xattr_reply (size : Z) (data : bytes) : Z * errno * bytes :=
  if size <? len data then (u32 (len data), ERANGE, []) else (u32 (len data), 0, data).

Definition Getxattr (n : nat) (key : gostring) (size : Z) : FP (Z * errno * bytes) :=
  p ← node_path n;
  r ← call (SGetXAttr p key XATTR_NOFOLLOW);
  mret (if negb (r.2 =? ErrorOK) then (0, errnoFromCode r.2, []) else xattr_reply size r.1).

Definition Setxattr (n : nat) (key : gostring) (data : bytes) (flags : Z) : FP errno :=
  match setxattr_mode flags with
  | None => mret EINVAL
  | Some mode =>
      p ← node_path n;
      code ← call (SSetXAttr p key data mode);
      mret (errnoFromCode code)
  end.

Definition Removexattr (n : nat) (key : gostring) : FP errno :=
  p ← node_path n;
  code ← call (SRemoveXAttr p key XATTR_NOFOLLOW);
  mret (errnoFromCode code).

Definition Listxattr (n : nat) (size : Z) : FP (Z * errno * bytes) :=
  p ← node_path n;
  r ← call (SListXAttr p XATTR_NOFOLLOW);
  mret (if negb (r.2 =? ErrorOK) then (0, errnoFromCode r.2, []) else xattr_reply size r.1).

(** ** node-linux.go *)

Definition Ioctl (f : option Z) (cmd : Z) (input : bytes) : FP errno :=
  match f with
  | None => mret EBADF
  | Some fd =>
      match decodeCloneFileRequest cmd input with
      | Err e => mret e
      | Ok (srcFD, srcOffset, dstOffset, size) =>
          code ← call (SCloneFileRange srcFD fd srcOffset dstOffset size);
          mret (errnoFromCode code)
      end
  end.

(** CmdGetFileLock and the conversion of its answer. *)
Definition get_lock (fd : Z) (wsfsLock : option FileLockInfo) : FP (result errno FileLock) :=
  match wsfsLock with
  | None => mret (Err EINVAL)
  | Some wsfsLock =>
      r ← call (SGetFileLock fd wsfsLock);
      with_code r.2 r.1 (fun outLk =>
        mret (match fileLockFromProtocol outLk with Some out => Ok out | None => Err EINVAL end))
  end.

(** [flock] is [flags&fuse.FUSE_LK_FLOCK != 0]. *)
Definition Getlk (f : option Z) (lk : FileLock) (flock : bool) : FP (result errno FileLock) :=
  match f with
  | None => mret (Err EBADF)
  | Some fd =>
      if flock then
        match fs_flockMode fsdata with
        | FlockModeNoop => mret (Ok markNoLock)
        | FlockModeOFD => get_lock fd (wholeFileLockToProtocol lk)
        | FlockModeUnsupported => mret (Err ENOTSUP)
        end
      else get_lock fd (fileLockToProtocol lk)
  end.

(** Setlk and Setlkw, which differ in the command they send. *)
Definition set_lock (set : FileLockInfo -> fev) (answer : forall lk, fans (set lk) -> Z) (wsfsLock : option FileLockInfo) : FP errno :=
  match wsfsLock with
  | None => mret EINVAL
  | Some wsfsLock => code ← call (set wsfsLock); mret (errnoFromCode (answer wsfsLock code))
  end.

Definition Setlk (f : option Z) (lk : FileLock) (flock : bool) : FP errno :=
  match f with
  | None => mret EBADF
  | Some fd =>
      let set := set_lock (SSetFileLock fd) (fun _ code => code) in
      if flock then
        match fs_flockMode fsdata with
        | FlockModeNoop => mret 0
        | FlockModeOFD => set (wholeFileLockToProtocol lk)
        | FlockModeUnsupported => mret ENOTSUP
        end
      else set (fileLockToProtocol lk)
  end.

Definition Setlkw (f : option Z) (lk : FileLock) (flock : bool) : FP errno :=
  match f with
  | None => mret EBADF
  | Some fd =>
      let set := set_lock (SSetFileLockWait fd) (fun _ code => code) in
      if flock then
        match fs_flockMode fsdata with
        | FlockModeNoop => mret 0
        | FlockModeOFD => set (wholeFileLockToProtocol lk)
        | FlockModeUnsupported => mret ENOTSUP
        end
      else set (fileLockToProtocol lk)
  end.
End Node.

(** ** Requests *)

Inductive fuse_op :=
| OpStatfs | OpLookup (name : gostring) | OpMkdir (name : gostring) (mode : Z) | OpRmdir (name : gostring)
| OpUnlink (name : gostring) | OpRename (name : gostring) (newParent : nat) (newName : gostring) (flags : Z)
| OpCreate (name : gostring) (flags mode : Z) | OpSymlink (target name : gostring) | OpLink | OpMknod | OpReadlink
| OpOpen (flags : Z) | OpOpendir | OpReaddir | OpGetattr | OpRead (f : option Z) (dest : bytes) (off : Z)
| OpWrite (f : option Z) (data : bytes) (off : Z) | OpFlush | OpRelease (f : option Z) | OpFsync (f : option Z)
| OpLseek (f : option Z) (off whence : Z) | OpCopyFileRange (fhIn : option Z) (offIn : Z) (fhOut : option Z) (offOut size flags : Z)
| OpSetattr (f : option Z) (sin : SetAttrIn) | OpGetxattr (key : gostring) (size : Z) | OpSetxattr (key : gostring) (data : bytes) (flags : Z)
| OpRemovexattr (key : gostring) | OpListxattr (size : Z) | OpIoctl (f : option Z) (cmd : Z) (input : bytes)
| OpGetlk (f : option Z) (lk : FileLock) (flock : bool) | OpSetlk (f : option Z) (lk : FileLock) (flock : bool)
| OpSetlkw (f : option Z) (lk : FileLock) (flock : bool).

Inductive fuse_reply :=
| ReErrno (e : errno)
| ReLookup (lo : lookup_out)
| ReCreate (lo : lookup_out) (f : option Z)
| ReOpen (f : option Z) (e : errno)
| ReDir (r : result errno (list entry))
| ReAttr (r : result errno Attr)
| ReRead (r : result errno bytes)
| ReStatfs (r : result errno (Z * Z * Z))
| ReLink (r : result errno gostring)
| ReWrite (r : result errno Z)
| ReCount (n : Z) (e : errno)
| ReXattr (n : Z) (e : errno) (data : bytes)
| ReLock (r : result errno FileLock).

Section Handle.
Context {abi : UnixABI} (hash : gostring -> Z) (fsdata : fileSystem).

Definition into {A} (c : A -> fuse_reply) (p : FP A) : FP fuse_reply := r ← p; mret (c r).

(** The handler of a request to node [n]. *)
Definition handle (n : nat) (op : fuse_op) : FP fuse_reply :=
  match op with
  | OpStatfs => into ReStatfs (Statfs n)
  | OpLookup name => into ReLookup (Lookup hash fsdata n name)
  | OpMkdir name mode => into ReLookup (Mkdir hash fsdata n name mode)
  | OpRmdir name => into ReErrno (Rmdir n name)
  | OpUnlink name => into ReErrno (Unlink n name)
  | OpRename name newParent newName flags => into ReErrno (Rename n name newParent newName flags)
  | OpCreate name flags mode => into (fun r => ReCreate r.1 r.2) (Create hash fsdata n name flags mode)
  | OpSymlink target name => into ReLookup (Symlink hash fsdata n target name)
  | OpLink => into ReErrno (Link)
  | OpMknod => into ReErrno (Mknod)
  | OpReadlink => into ReLink (Readlink fsdata n)
  | OpOpen flags => into (fun r => ReOpen r.1 r.2) (Open n flags)
  | OpOpendir => into ReErrno (Opendir)
  | OpReaddir => into ReDir (Readdir fsdata n)
  | OpGetattr => into ReAttr (Getattr hash fsdata n)
  | OpRead f dest off => into ReRead (Read n f dest off)
  | OpWrite f data off => into ReWrite (Write n f data off)
  | OpFlush => into ReErrno (Flush n)
  | OpRelease f => into ReErrno (Release f)
  | OpFsync f => into ReErrno (Fsync n f)
  | OpLseek f off whence => into (fun r => ReCount r.1 r.2) (Lseek f off whence)
  | OpCopyFileRange fhIn offIn fhOut offOut size flags =>
      into (fun r => ReCount r.1 r.2) (CopyFileRange n fhIn offIn fhOut offOut size flags)
  | OpSetattr f sin => into ReErrno (Setattr hash fsdata n f sin)
  | OpGetxattr key size => into (fun r => ReXattr r.1.1 r.1.2 r.2) (Getxattr n key size)
  | OpSetxattr key data flags => into ReErrno (Setxattr n key data flags)
  | OpRemovexattr key => into ReErrno (Removexattr n key)
  | OpListxattr size => into (fun r => ReXattr r.1.1 r.1.2 r.2) (Listxattr n size)
  | OpIoctl f cmd input => into ReErrno (Ioctl f cmd input)
  | OpGetlk f lk flock => into ReLock (Getlk fsdata f lk flock)
  | OpSetlk f lk flock => into ReErrno (Setlk fsdata f lk flock)
  | OpSetlkw f lk flock => into ReErrno (Setlkw fsdata f lk flock)
  end.
End Handle.
