(* ===== verification/ClientFuseOk.v ===== *)
(** * The handlers of the Unix client keep their word

    A specification of what a handler talks to ([fuse_env]) with a ghost state: the
    facts the session has answered, the clock, the caches, the handles the handler
    holds. Other requests may run in between ([alone = false]): they change the
    caches, but only to contents that are true to the facts and last no longer than
    the timeout. Every handler keeps to this discipline itself. *)
From S2P Require Import Prelude GoIO Codec Structs StructGen Prog Paths UnixConv ServerEnv ClientEnv ClientUnix ClientFuse.

(** What the session answered: attributes of a path, the items of a listing. *)
Inductive fact :=
| FAttr (p : gostring) (fi : FileInfo)
| FList (items : list entry).

Record fuse_ghost := mkFg {
  fg_log : list fact;
  fg_now : Z;
  fg_dir : gmap nat dirCache;
  fg_attr : gmap nat attrCache;
  fg_open : gset Z;
}.
Definition fg_add (f : fact) (g : fuse_ghost) : fuse_ghost :=
  mkFg (f :: fg_log g) (fg_now g) (fg_dir g) (fg_attr g) (fg_open g).
Definition fg_set_dir (n : nat) (c : option dirCache) (g : fuse_ghost) : fuse_ghost :=
  mkFg (fg_log g) (fg_now g) (partial_alter (fun _ => c) n (fg_dir g)) (fg_attr g) (fg_open g).
Definition fg_set_attr (n : nat) (c : option attrCache) (g : fuse_ghost) : fuse_ghost :=
  mkFg (fg_log g) (fg_now g) (fg_dir g) (partial_alter (fun _ => c) n (fg_attr g)) (fg_open g).
Definition fg_set_open (o : gset Z) (g : fuse_ghost) : fuse_ghost :=
  mkFg (fg_log g) (fg_now g) (fg_dir g) (fg_attr g) o.

Section Spec.
Context (timeout : Z) (alone crashes : bool).

(** True to what was answered, and no longer than [timeout] from now. *)
Definition dir_ok (g : fuse_ghost) (c : dirCache) : Prop :=
  (forall items, dc_items c = Some items -> FList items ∈ fg_log g) /\ dc_expireAt c <= fg_now g + timeout.
Definition attr_ok (g : fuse_ghost) (c : attrCache) : Prop :=
  (exists p, FAttr p (ac_attr c) ∈ fg_log g) /\ ac_expireAt c <= fg_now g + timeout.
Definition caches_ok (g : fuse_ghost) : Prop :=
  map_Forall (fun _ => dir_ok g) (fg_dir g) /\ map_Forall (fun _ => attr_ok g) (fg_attr g).

(** What may happen between two requests of a handler. *)
Definition others (g g' : fuse_ghost) : Prop :=
  fg_log g ⊆ fg_log g' /\ fg_now g <= fg_now g' /\ fg_open g' = fg_open g /\
  (caches_ok g -> caches_ok g') /\ (alone = true -> fg_dir g' = fg_dir g /\ fg_attr g' = fg_attr g).

(** Paths go-fuse gives: names joined by slashes, none for the root. *)
Definition tree_path (p : gostring) : Prop := exists cs, Forall ordinary cs /\ p = join_sep slash cs.

Definition fuse_pre (g : fuse_ghost) (e : fev) : Prop :=
  match e with
  | StoreDir _ (Some c) => dir_ok g c
  | StoreAttr _ (Some c) => attr_ok g c
  | StoreData _ _ => False
  | Crash => crashes = true
  | SFsStat p | SGetAttr p | SMkdir p _ | SRmDir p | SRemove p | SOpen p _ _ | SSymLink _ p | SReadLink p
  | SReadDirPlus p | SReadDir p | SSetAttr p _ _ | SGetXAttr p _ _ | SSetXAttr p _ _ _ | SRemoveXAttr p _ _ | SListXAttr p _ =>
      IsUrlValid p = true
  | SRename p1 p2 _ => IsUrlValid p1 = true /\ IsUrlValid p2 = true
  | SClose fd => fd ∈ fg_open g
  | _ => True
  end.

(** The effect of a request itself. *)
Definition fuse_effect (g : fuse_ghost) (e : fev) : fans e -> fuse_ghost -> Prop :=
  match e return fans e -> fuse_ghost -> Prop with
  | LoadDir n => fun r g' => g' = g /\ r = fg_dir g !! n
  | StoreDir n c => fun _ g' => g' = fg_set_dir n c g
  | LoadData _ => fun r g' => g' = g /\ r = None
  | LoadAttr n => fun r g' => g' = g /\ r = fg_attr g !! n
  | StoreAttr n c => fun _ g' => g' = fg_set_attr n c g
  | TimeNow => fun r g' => g' = g /\ r = fg_now g
  | WaitPrefetch _ => fun r g' =>
      r.2 = None /\ g' = match r.1 with Some items => fg_add (FList items) g | None => g end
  | NodePath _ => fun r g' => g' = g /\ tree_path r
  | SGetAttr p => fun r g' => g' = if r.2 =? ErrorOK then fg_add (FAttr p r.1) g else g
  | SOpen _ _ _ => fun r g' =>
      g' = if r.2 =? ErrorOK then fg_set_open ({[r.1]} ∪ fg_open g) g else g
  | SClose fd => fun _ g' => g' = fg_set_open (fg_open g ∖ {[fd]}) g
  | SReadDirPlus _ => fun r g' => g' = if r.2 =? ErrorOK then fg_add (FList (default [] r.1)) g else g
  | SReadDir _ => fun r g' => g' = if r.2 =? ErrorOK then fg_add (FList (default [] r.1)) g else g
  | SReadAt _ _ dest => fun r g' => g' = g /\ len r.1.1 = len dest /\ 0 <= r.1.2 <= len dest
  | _ => fun _ g' => g' = g
  end.

Definition fuse_post (g : fuse_ghost) (e : fev) (r : fans e) (g' : fuse_ghost) : Prop :=
  exists g0, others g g0 /\ fuse_effect g0 e r g'.

Definition fuse_env : env fans := {| env_st := fuse_ghost; env_pre := fuse_pre; env_post := fuse_post |}.
Abbreviation fwp p g Q := (wp (ans := fans) true fuse_env p g Q).

(** ** What lasts *)

(** Facts and time do not go back. *)
Definition grows (g g' : fuse_ghost) : Prop := fg_log g ⊆ fg_log g' /\ fg_now g <= fg_now g'.

#[export] Instance grows_preorder : PreOrder grows.
Proof. split; [by intros g|]. intros a b c [H1 H2] [H3 H4]. split; [set_solver|lia]. Qed.

Lemma others_grows g g' : others g g' -> grows g g'.
Proof. intros (? & ? & _). by split. Qed.

Lemma dir_ok_grows g g' c : grows g g' -> dir_ok g c -> dir_ok g' c.
Proof. intros [Hl Hn] [H1 H2]. split; [|lia]. intros items Hi. by apply Hl, H1. Qed.

Lemma attr_ok_grows g g' c : grows g g' -> attr_ok g c -> attr_ok g' c.
Proof. intros [Hl Hn] [[p Hp] H2]. split; [|lia]. exists p. by apply Hl. Qed.

(** Caches change only by the stores. *)
Lemma caches_ok_grows g g' :
  grows g g' -> fg_dir g' = fg_dir g -> fg_attr g' = fg_attr g -> caches_ok g -> caches_ok g'.
Proof.
  intros Hg Hd Ha [H1 H2]. split; [rewrite Hd|rewrite Ha]; eapply map_Forall_impl; try done; intros ??;
    [by apply dir_ok_grows|by apply attr_ok_grows].
Qed.

Lemma caches_ok_set_dir g n c :
  match c with Some c => dir_ok g c | None => True end -> caches_ok g -> caches_ok (fg_set_dir n c g).
Proof.
  intros Hc [H1 H2]. split; [|done]. intros m d. cbn. destruct (decide (m = n)) as [->|Hne].
  - rewrite lookup_partial_alter_eq. intros ->. done.
  - rewrite lookup_partial_alter_ne by done. apply H1.
Qed.

Lemma caches_ok_set_attr g n c :
  match c with Some c => attr_ok g c | None => True end -> caches_ok g -> caches_ok (fg_set_attr n c g).
Proof.
  intros Hc [H1 H2]. split; [done|]. intros m d. cbn. destruct (decide (m = n)) as [->|Hne].
  - rewrite lookup_partial_alter_eq. intros ->. done.
  - rewrite lookup_partial_alter_ne by done. apply H2.
Qed.

(** The effect of a request that respects the specification. *)
Lemma effect_ok g e r g' :
  caches_ok g -> fuse_pre g e -> fuse_effect g e r g' -> grows g g' /\ caches_ok g'.
Proof.
  intros Hok Hpre He.
  assert (forall f, grows g (fg_add f g) /\ caches_ok (fg_add f g)) as Hadd.
  { intros f. assert (grows g (fg_add f g)) by (split; [cbn; set_solver|cbn; lia]). split; [done|].
    by apply (caches_ok_grows g). }
  assert (forall o, grows g (fg_set_open o g) /\ caches_ok (fg_set_open o g)) as Hopen
    by (intros o; split; [split; cbn; [set_solver|lia]|done]).
  assert (grows g g) as Hrefl by done.
  destruct e; cbn in He, Hpre; try lazymatch type of He with g' = _ /\ _ => destruct He as [-> _] | _ /\ g' = _ => destruct He as [_ ->] end;
    subst; try (repeat case_match; subst; first [by split|by apply Hadd|by apply Hopen]).
  - split; [split; cbn; [set_solver|lia]|]. by apply caches_ok_set_dir.
  - split; [split; cbn; [set_solver|lia]|]. by apply caches_ok_set_attr.
Qed.

(** What others do does not disturb a handler. *)
Lemma pre_stable g g' e : others g g' -> fuse_pre g e -> fuse_pre g' e.
Proof.
  intros Ho. pose proof (others_grows _ _ Ho) as Hg. destruct Ho as (_ & _ & Ho & _).
  destruct e; try done; cbn.
  - destruct c; [by apply dir_ok_grows|done].
  - destruct c; [by apply attr_ok_grows|done].
  - by rewrite Ho.
Qed.

(** One request. *)
Lemma fw_call e g (Q : fans e -> fuse_ghost -> Prop) :
  caches_ok g -> fuse_pre g e ->
  (forall r g0 g', others g g0 -> fuse_effect g0 e r g' -> caches_ok g' -> grows g g' -> Q r g') ->
  fwp (call e) g Q.
Proof.
  intros Hok Hpre HQ. apply wp_trigger; [exact Hpre|]. intros r g' (g0 & Ho & He).
  assert (caches_ok g0) as Hok0 by (by apply Ho).
  destruct (effect_ok g0 e r g') as [Hg Hok']; [done|by eapply pre_stable|done|].
  apply (HQ r g0 g'); try done. etrans; [by apply others_grows|done].
Qed.

(** ** Caches *)

(** What every step of a handler leaves behind. *)
Definition kept (g g' : fuse_ghost) : Prop := caches_ok g' /\ grows g g' /\ fg_open g' = fg_open g.

Lemma kept_refl g : caches_ok g -> kept g g.
Proof. by intros H. Qed.

Lemma kept_trans g g1 g2 : kept g g1 -> kept g1 g2 -> kept g g2.
Proof. intros (_ & G1 & O1) (H & G2 & O2). split_and!; [done|by etrans|congruence]. Qed.

(** A request that opens and closes nothing. *)
Definition neutral (e : fev) : Prop := match e with SOpen _ _ _ | SClose _ => False | _ => True end.

Lemma fw_neutral e g (Q : fans e -> fuse_ghost -> Prop) :
  neutral e -> caches_ok g -> fuse_pre g e ->
  (forall r g0 g', others g g0 -> fuse_effect g0 e r g' -> kept g g' -> Q r g') ->
  fwp (call e) g Q.
Proof.
  intros Hn Hok Hpre HQ. apply fw_call; [done|done|]. intros r g0 g' Ho He Hok' Hg. apply (HQ r g0); [done|done|].
  split_and!; [done|done|]. destruct Ho as (_ & _ & <- & _). clear -Hn He.
  destruct e; cbn in He; try done; try (destruct He as [-> _]; done); try (destruct He as [_ ->]; by repeat case_match);
    subst; by repeat case_match.
Qed.
End Spec.

(** The next request of a handler. *)
Ltac fstep r g0 g Ho He Hk :=
  lazymatch goal with
  | |- wp _ _ (mbind _ _) _ _ => apply wp_bind
  | _ => idtac
  end;
  eapply fw_neutral; [exact I|first [assumption|apply_hyp_kept]|try exact I|intros r g0 g Ho He Hk]
with apply_hyp_kept := match goal with H : kept _ _ ?g |- caches_ok _ ?g => apply H end.

(** ** Paths *)

Lemma tree_path_plain p : tree_path p -> plain (slash :: p).
Proof.
  intros (cs & Hcs & ->). destruct cs as [|c cs]; [by split|].
  rewrite join_abs by done. split; [done|]. by rewrite components_abs.
Qed.

Section Handlers.
Context {abi : UnixABI} (hash : gostring -> Z) (fsdata : fileSystem) (alone crashes : bool).
Abbreviation timeout := (fs_structTimeout fsdata).
Abbreviation ids := (fs_fsIds fsdata).
Abbreviation fwp p g Q := (wp (ans := fans) true (fuse_env timeout alone crashes) p g Q).
Abbreviation kept := (kept timeout).
Abbreviation caches_ok := (caches_ok timeout).

Lemma fw_node_path n g : caches_ok g ->
  fwp (node_path n) g (fun p g' => kept g g' /\ plain p /\ (alone = true -> fg_dir g' = fg_dir g)).
Proof.
  intros Hok. unfold node_path. fstep p g0 g1 Ho He Hk. destruct He as [-> Hp].
  split_and!; [done|by apply tree_path_plain|]. intros Ha. by apply Ho.
Qed.

Lemma fw_wipe_dir n g : caches_ok g -> fwp (wipeDirCache n) g (fun _ g' => kept g g').
Proof. intros Hok. unfold wipeDirCache. by fstep r g0 g1 Ho He Hk. Qed.

Lemma fw_wipe_attr n g : caches_ok g -> fwp (wipeAttrCache n) g (fun _ g' => kept g g').
Proof. intros Hok. unfold wipeAttrCache. by fstep r g0 g1 Ho He Hk. Qed.

(** There is never data in the caches: no item of a listing has any. *)
Lemma fw_wipe_data n g : caches_ok g -> fwp (wipeDataCache n) g (fun _ g' => kept g g').
Proof. intros Hok. unfold wipeDataCache. fstep r g0 g1 Ho He Hk. by destruct He as [-> ->]. Qed.

Lemma fw_getData n g : caches_ok g -> fwp (getDataCache n) g (fun r g' => kept g g' /\ r = (None, false)).
Proof. intros Hok. unfold getDataCache. fstep r g0 g1 Ho He Hk. by destruct He as [-> ->]. Qed.

Lemma fw_lookup_cache n name g : caches_ok g ->
  fwp (lookupDirCache n name) g (fun r g' => kept g g' /\
    match r with
    | None => True
    | Some (item, delta) =>
        0 <= delta <= timeout /\ (exists items, FList items ∈ fg_log g' /\ find_item name items = item) /\
        (alone = true -> is_Some (fg_dir g' !! n))
    end).
Proof.
  intros Hok. unfold lookupDirCache. fstep c g0 g1 Ho He Hk. destruct He as [-> ->].
  destruct (fg_dir g0 !! n) as [[[items|] expireAt]|] eqn:Ec; [|by split..].
  assert (dir_ok timeout g0 (mkDirCache (Some items) expireAt)) as [Hi Hx]
    by (destruct Hk as [[Hd _] _]; by apply (Hd n)). cbn in Hx.
  fstep now g2 g3 Ho2 He2 Hk2. destruct He2 as [-> ->].
  assert (kept g g2) as Hk' by (by eapply kept_trans).
  destruct (Z.ltb_spec (expireAt - fg_now g2) 0).
  - fstep u g4 g5 Ho4 He4 Hk4. split; [by eapply kept_trans|done].
  - split; [done|]. destruct Ho2 as (Hl & Hn & _ & _ & Ha). split_and!; [lia|lia| |].
    + exists items. split; [|done]. apply Hl, Hi. done.
    + intros Hal. destruct (Ha Hal) as [-> _]. rewrite Ec. eauto.
Qed.

Lemma fw_getDir n g : caches_ok g ->
  fwp (getDirCache n) g (fun r g' => kept g g' /\ match r with None => True | Some items => FList items ∈ fg_log g' end).
Proof.
  intros Hok. unfold getDirCache. fstep c g0 g1 Ho He Hk. destruct He as [-> ->].
  destruct (fg_dir g0 !! n) as [[[items|] expireAt]|] eqn:Ec; [|by split..].
  assert (dir_ok timeout g0 (mkDirCache (Some items) expireAt)) as [Hi Hx]
    by (destruct Hk as [[Hd _] _]; by apply (Hd n)). cbn in Hx.
  fstep now g2 g3 Ho2 He2 Hk2. destruct He2 as [-> ->].
  assert (kept g g2) as Hk' by (by eapply kept_trans).
  destruct (expireAt <? fg_now g2).
  - fstep u g4 g5 Ho4 He4 Hk4. split; [by eapply kept_trans|done].
  - split; [done|]. destruct Ho2 as (Hl & _). by apply Hl, Hi.
Qed.

Lemma fw_getAttr n g : caches_ok g ->
  fwp (getAttrCache n) g (fun r g' => kept g g' /\ match r with None => True | Some fi => exists p, FAttr p fi ∈ fg_log g' end).
Proof.
  intros Hok. unfold getAttrCache. fstep c g0 g1 Ho He Hk. destruct He as [-> ->].
  destruct (fg_attr g0 !! n) as [[fi expireAt]|] eqn:Ec; [|done].
  assert (attr_ok timeout g0 (mkAttrCache fi expireAt)) as [[p Hp] Hx]
    by (destruct Hk as [[_ Hd] _]; by apply (Hd n)). cbn in Hp.
  fstep now g2 g3 Ho2 He2 Hk2. destruct He2 as [-> ->].
  assert (kept g g2) as Hk' by (by eapply kept_trans).
  destruct (expireAt <? fg_now g2).
  - fstep u g4 g5 Ho4 He4 Hk4. split; [by eapply kept_trans|done].
  - split; [done|]. destruct Ho2 as (Hl & _). exists p. by apply Hl.
Qed.

Lemma fw_saveDir n items g : caches_ok g -> FList (default [] items) ∈ fg_log g ->
  fwp (saveDirCache n items timeout) g (fun _ g' => kept g g').
Proof.
  intros Hok Hi. unfold saveDirCache. fstep now g0 g1 Ho He Hk. destruct He as [-> ->].
  fstep u g2 g3 Ho2 He2 Hk2; [split; [|cbn; lia]; cbn; intros ? ->; by apply Ho|by eapply kept_trans].
Qed.

Lemma fw_saveAttr n p fi g : caches_ok g -> FAttr p fi ∈ fg_log g ->
  fwp (saveAttrCache n fi timeout) g (fun _ g' => kept g g').
Proof.
  intros Hok Hi. unfold saveAttrCache. fstep now g0 g1 Ho He Hk. destruct He as [-> ->].
  fstep u g2 g3 Ho2 He2 Hk2; [split; [|cbn; lia]; cbn; exists p; by apply Ho|by eapply kept_trans].
Qed.

(** ** Lookup *)

(** Where the attributes of a lookup come from: the answer to CmdGetAttr, or an
    item of that name of a listing, with a timeout that ends within [timeout]. *)
Definition attr_source (g : fuse_ghost) (name : gostring) (tm : option Z) (attr : Attr) : Prop :=
  exists p fi, attr = attrFromFileInfo hash p fi ids /\
    match tm with
    | None => FAttr p fi ∈ fg_log g
    | Some delta => 0 <= delta <= timeout /\
        exists items e, FList items ∈ fg_log g /\ e ∈ items /\ di_Name e.2 = name /\ fi = item_FileInfo e.2
    end.

(** A name that does not exist: the session said so, or a listing without it. *)
Definition absent_source (g : fuse_ghost) (name : gostring) (tm : option Z) : Prop :=
  match tm with
  | None => True
  | Some delta => 0 <= delta <= timeout /\
      exists items, FList items ∈ fg_log g /\ Forall (fun e => di_Name e.2 <> name) items
  end.

Definition honest_lookup (g : fuse_ghost) (name : gostring) (lo : lookup_out) : Prop :=
  match lo_result lo with
  | Ok (_, attr) => attr_source g name (lo_timeout lo) attr
  | Err e => e = ENOENT -> absent_source g name (lo_timeout lo)
  end.

Lemma find_item_Some name items e : find_item name items = Some e -> e ∈ items /\ di_Name e.2 = name.
Proof. intros [Hi Hn]%List.find_some. split; [by apply list_elem_of_In|by apply bool_decide_eq_true_1 in Hn]. Qed.

Lemma find_item_None name items : find_item name items = None -> Forall (fun e => di_Name e.2 <> name) items.
Proof.
  intros Hn. apply Forall_forall. intros e He. apply list_elem_of_In in He.
  pose proof (List.find_none _ _ Hn e He) as H. by apply bool_decide_eq_false_1 in H.
Qed.

Lemma attr_source_grows g g' name tm attr : grows g g' -> attr_source g name tm attr -> attr_source g' name tm attr.
Proof.
  intros [Hl _] (p & fi & -> & H). exists p, fi. split; [done|]. destruct tm; [|by apply Hl].
  destruct H as (Hd & items & e & Hi & He). split; [done|]. exists items, e. split; [by apply Hl|done].
Qed.

Lemma absent_source_grows g g' name tm : grows g g' -> absent_source g name tm -> absent_source g' name tm.
Proof.
  intros [Hl _] H. destruct tm; [|done]. destruct H as (Hd & items & Hi & He). split; [done|]. exists items. split; [by apply Hl|done].
Qed.

Lemma honest_lookup_grows g g' name lo : grows g g' -> honest_lookup g name lo -> honest_lookup g' name lo.
Proof.
  intros Hg. unfold honest_lookup. destruct (lo_result lo) as [[ch attr]|e]; [by apply attr_source_grows|].
  intros H He. eapply absent_source_grows; eauto.
Qed.

Lemma fw_lookup_attr n p name g : caches_ok g -> IsUrlValid p = true ->
  fwp (lookup_attr hash fsdata n p name) g (fun r g' => kept g g' /\
    match r with
    | (tm, Ok (attr, item)) => attr_source g' name tm attr /\ (alone = true -> is_Some item -> is_Some (fg_dir g' !! n))
    | (tm, Err e) => e = ENOENT -> absent_source g' name tm
    end).
Proof.
  intros Hok Hp. unfold lookup_attr. eapply wp_bind_mono; [by apply fw_lookup_cache|].
  intros [[[item|] delta]|] g1 [Hk H].
  - destruct H as (Hd & (items & Hi & [He Hn]%find_item_Some) & Ha). split; [done|]. split; [|by intros Hal _; apply Ha].
    exists p, (item_FileInfo item.2). split; [done|]. split; [done|]. by exists items, item.
  - destruct H as (Hd & (items & Hi & Hn%find_item_None) & Ha). split; [done|]. intros _. split; [done|]. by exists items.
  - fstep r g2 g3 Ho He Hk3; [exact Hp|]. destruct r as [fi code]. cbn in He |- *.
    destruct (code =? ErrorOK) eqn:Ec; cbn; (split; [by eapply kept_trans|]); [|done]. split; [|by intros _ [? ?]].
    exists p, fi. split; [done|]. subst. cbn. set_solver.
Qed.

Lemma fw_inherit n child item g : caches_ok g -> (alone = true -> is_Some (fg_dir g !! n)) -> alone = true \/ crashes = true ->
  fwp (inherit_cache n child item) g (fun _ g' => kept g g').
Proof.
  intros Hok Ha Hc. unfold inherit_cache. fstep r g0 g1 Ho He Hk. destruct r as [[items|] data]; cbn in He; destruct He as [-> ->]; [|done].
  unfold subDirCache. fstep c g2 g3 Ho2 He2 Hk2. destruct He2 as [-> ->].
  destruct (fg_dir g2 !! n) as [c|] eqn:Ec.
  - assert (dir_ok timeout g2 c) as [_ Hx] by (destruct Hk2 as [[Hd _] _]; by apply (Hd n)).
    fstep u g4 g5 Ho4 He4 Hk4; [|eapply kept_trans; [done|by eapply kept_trans]].
    split; [|done]. cbn. intros ? [= <-]. apply Ho2. cbn. by left.
  - split; [|by intros []]. cbn. destruct Hc as [Hal|Hc]; [|done]. exfalso.
    destruct (Ha Hal) as [c Hc]. destruct Ho as (_ & _ & _ & _ & Ho). destruct (Ho Hal) as [Ed _].
    destruct Ho2 as (_ & _ & _ & _ & Ho2). destruct (Ho2 Hal) as [Ed2 _]. cbn in Ed2. congruence.
Qed.

Lemma fw_Lookup n name g : caches_ok g -> ordinary name -> alone = true \/ crashes = true ->
  fwp (Lookup hash fsdata n name) g (fun lo g' => kept g g' /\ honest_lookup g' name lo).
Proof.
  intros Hok Hn Hc. unfold Lookup. eapply wp_bind_mono; [by apply fw_node_path|]. intros np g1 (Hk & Hnp & _).
  assert (IsUrlValid (Join np name) = true) as Hp by (by apply valid_plain, Join_name).
  eapply wp_bind_mono; [by apply fw_lookup_attr; [apply Hk|]|]. intros [tm [[attr item]|e]] g2 [Hk2 H];
    assert (kept g g2) as Hk' by (by eapply kept_trans); [|by split].
  destruct H as [Hs Ha]. fstep child g3 g4 Ho He Hk3. cbn in He. subst g4.
  assert (kept g g3) as Hk4 by (by eapply kept_trans).
  eapply wp_bind_mono with (P := fun _ g' => kept g g' /\ grows g3 g').
  { destruct item as [item|]; [|by split]. eapply wp_mono; [apply fw_inherit; [apply Hk4| |done]|].
    - intros Hal. destruct Ho as (_ & _ & _ & _ & Ho). destruct (Ho Hal) as [-> _]. by apply Ha.
    - intros u g5 Hk5. split; [by eapply kept_trans|apply Hk5]. }
  intros u g5 [Hk5 Hg5]. fstep ch g6 g7 Ho6 He6 Hk6. cbn in He6. subst g7. split; [by eapply kept_trans|].
  assert (grows g2 g6) as Hg by (etrans; [apply Hk3|]; etrans; [exact Hg5|apply Hk6]).
  destruct ch; cbn; [|done]. by eapply attr_source_grows.
Qed.

(** ** The other handlers *)

#[local] Ltac keep :=
  lazymatch goal with |- wp _ _ (mret _) _ _ => unfold mret, prog_ret; cbn [wp] | _ => idtac end;
  cbn beta in *; first [done|eauto 7 using kept_trans].

Lemma fw_code_k {A B} code (a : A) (k : A -> FP (result errno B)) g Q :
  fwp (k a) g Q -> (forall e, Q (Err e) g) -> fwp (with_code code a k) g Q.
Proof. intros Hk He. unfold with_code. destruct (negb (code =? ErrorOK)); [apply He|exact Hk]. Qed.

(** A handler that changes no handle. *)
Definition plainly {A} (p : FP A) (g : fuse_ghost) : Prop := fwp p g (fun _ g' => kept g g').

Lemma fw_node_path_k {A} n (k : gostring -> FP A) g Q :
  caches_ok g -> (forall p g', kept g g' -> plain p -> fwp (k p) g' Q) -> fwp (p ← node_path n; k p) g Q.
Proof. intros Hok Hk. eapply wp_bind_mono; [by apply fw_node_path|]. intros p g' (H & Hp & _). by apply Hk. Qed.

Lemma plainly_wipe_k {A} n (k : FP A) g Q :
  caches_ok g -> (forall g', kept g g' -> fwp k g' Q) -> fwp (wipeDataCache n ;; wipeAttrCache n ;; k) g Q.
Proof.
  intros Hok Hk. eapply wp_bind_mono; [by apply fw_wipe_data|]. intros u g1 Hk1.
  eapply wp_bind_mono; [by apply fw_wipe_attr, Hk1|]. intros u2 g2 Hk2. apply Hk. keep.
Qed.

Lemma fw_wipe_dir_k {A} n (k : FP A) g Q :
  caches_ok g -> (forall g', kept g g' -> fwp k g' Q) -> fwp (wipeDirCache n ;; k) g Q.
Proof. intros Hok Hk. eapply wp_bind_mono; [by apply fw_wipe_dir|]. intros u g1 Hk1. by apply Hk. Qed.

Lemma plain_join np name : plain np -> ordinary name -> IsUrlValid (Join np name) = true.
Proof. intros Hnp Hn. by apply valid_plain, Join_name. Qed.

Lemma plain_slash p : plain p -> IsUrlValid (p ++ [slash]) = true.
Proof.
  intros [Hr Hc]. apply valid_plain. split; [by destruct p|]. by rewrite components_app, components_nil, app_nil_r.
Qed.

Lemma fw_Getattr n g : caches_ok g ->
  fwp (Getattr hash fsdata n) g (fun r g' => kept g g' /\
    match r with Ok attr => exists p p' fi, FAttr p' fi ∈ fg_log g' /\ attr = attrFromFileInfo hash p fi ids | Err _ => True end).
Proof.
  intros Hok. unfold Getattr. apply fw_node_path_k; [done|]. intros p g1 Hk1 Hp.
  eapply wp_bind_mono; [by apply fw_getAttr, Hk1|]. intros [fi|] g2 [Hk2 H].
  { split; [keep|]. destruct H as [p' H]. by exists p, p', fi. }
  fstep r g3 g4 Ho He Hk3; [by apply valid_plain|]. destruct r as [fi code]. cbn in He.
  assert (kept g g4) as Hk4 by keep.
  destruct (code =? ErrorOK) eqn:Ec; cbn [negb]; [|done]. subst g4.
  eapply wp_bind_mono; [eapply fw_saveAttr; [apply Hk4|by left]|]. intros u g5 Hk5.
  split; [keep|]. exists p, p, fi. split; [|done]. apply Hk5. by left.
Qed.

Lemma fw_Readdir n g : caches_ok g ->
  fwp (Readdir fsdata n) g (fun r g' => kept g g' /\ match r with Ok items => FList items ∈ fg_log g' | Err _ => True end).
Proof.
  intros Hok. unfold Readdir. eapply wp_bind_mono; [by apply fw_getDir|]. intros [items|] g1 [Hk1 H]; [by split|].
  apply fw_node_path_k; [apply Hk1|]. intros p g2 Hk2 Hp. cbv zeta.
  set (path := if bool_decide (last p = Some slash) then p else p ++ [slash]).
  assert (IsUrlValid path = true) as Hpath by (unfold path; case_bool_decide; [by apply valid_plain|by apply plain_slash]).
  fstep r g3 g4 Ho He Hk3; [exact Hpath|]. cbn in He. assert (kept g g4) as Hk4 by keep.
  eapply wp_bind_mono with (P := fun (r : option (list entry) * Z) g' => kept g g' /\
      (r.2 =? ErrorOK = true -> FList (default [] r.1) ∈ fg_log g')).
  { destruct (r.2 =? ErrorOK) eqn:Ec; cbn [negb].
    - split; [done|]. intros _. subst g4. by left.
    - fstep r2 g5 g6 Ho5 He5 Hk5; [exact Hpath|]. cbn in He5. split; [keep|]. intros Ec2. rewrite Ec2 in He5. subst g6. by left. }
  intros [items code] g5 [Hk5 H5]. cbn in H5. destruct (code =? ErrorOK); cbn [negb]; [|by split].
  eapply wp_bind_mono; [apply fw_saveDir; [apply Hk5|by apply H5]|]. intros u g6 Hk6.
  split; [keep|]. apply Hk6. by apply H5.
Qed.

Lemma fw_Setattr n f sin g : caches_ok g -> plainly (Setattr hash fsdata n f sin) g.
Proof.
  intros Hok. unfold plainly, Setattr. eapply wp_bind_mono; [by apply fw_Getattr|]. intros [attr|e] g1 [Hk1 _]; [|done].
  destruct (setattr_request fsdata sin attr) as [flag fi].
  eapply wp_bind_mono with (P := fun _ g' => kept g g').
  { destruct f as [fd|].
    - fstep r g2 g3 Ho He Hk2. keep.
    - apply fw_node_path_k; [apply Hk1|]. intros p g2 Hk2 Hp. fstep r g3 g4 Ho He Hk3; [by apply valid_plain|].
      keep. }
  intros code g2 Hk2. eapply wp_bind_mono with (P := fun _ g' => kept g g'); [|by intros u g3 Hk3].
  destruct (code =? ErrorOK); [|done]. eapply wp_bind_mono; [by apply fw_wipe_data, Hk2|]. intros u g3 Hk3.
  eapply wp_mono; [by apply fw_wipe_attr, Hk3|]. intros u2 g4 Hk4. keep.
Qed.
(** ** Handles of files *)

Lemma errnoFromCode_0 code : errnoFromCode code =? 0 = (code =? ErrorOK).
Proof.
  unfold errnoFromCode, client_errorCodeMap. cbn [mlookup]. destruct (code =? ErrorOK); [done|].
  by repeat (match goal with |- context [if ?b then _ else _] => destruct b end; [done|]).
Qed.

Lemma fw_open p oflag mode g (Q : Z * Z -> fuse_ghost -> Prop) :
  caches_ok g -> IsUrlValid p = true ->
  (forall fd code g', caches_ok g' -> grows g g' ->
     fg_open g' = (if code =? ErrorOK then {[fd]} ∪ fg_open g else fg_open g) -> Q (fd, code) g') ->
  fwp (call (SOpen p oflag mode)) g Q.
Proof.
  intros Hok Hp HQ. apply fw_call; [done|done|]. intros [fd code] g0 g' Ho He Hok' Hg. apply HQ; [done|done|].
  destruct Ho as (_ & _ & Ho & _). cbn in He. subst g'. destruct (code =? ErrorOK); cbn; by rewrite Ho.
Qed.

Lemma fw_close fd g : caches_ok g -> fd ∈ fg_open g ->
  fwp (call (SClose fd)) g (fun _ g' => caches_ok g' /\ grows g g' /\ fg_open g' = fg_open g ∖ {[fd]}).
Proof.
  intros Hok Hfd. apply fw_call; [done|done|]. intros r g0 g' Ho He Hok' Hg. split_and!; [done|done|].
  destruct Ho as (_ & _ & <- & _). cbn in He. by subst.
Qed.

(** What a handler leaves behind when it starts with no handle. *)
Definition ends (g : fuse_ghost) (open : gset Z) (g' : fuse_ghost) : Prop :=
  caches_ok g' /\ grows g g' /\ fg_open g' = open.

Lemma kept_ends g g' : kept g g' -> fg_open g = ∅ -> ends g ∅ g'.
Proof. intros (H & Hg & Ho) E. split_and!; [done|done|congruence]. Qed.

Lemma fw_Create n name flags mode g :
  caches_ok g -> ordinary name -> alone = true \/ crashes = true -> fg_open g = ∅ ->
  fwp (Create hash fsdata n name flags mode) g (fun r g' =>
    honest_lookup g' name r.1 /\
    match r.2 with
    | Some fd => is_ok (lo_result r.1) /\ ends g {[fd]} g'
    | None => is_ok (lo_result r.1) = false /\ ends g ∅ g'
    end).
Proof.
  intros Hok Hn Hc H0. unfold Create. eapply wp_bind_mono; [by apply fw_wipe_dir|]. intros u g1 Hk1.
  apply fw_node_path_k; [apply Hk1|]. intros np g2 Hk2 Hnp. assert (kept g g2) as Hk by keep. cbv zeta.
  destruct (OpenFlagFromSys flags) as [oflag|]; [|by split; [|split; [|apply kept_ends]]].
  apply wp_bind, fw_open; [apply Hk2|by apply plain_join|]. intros fd code g3 Hok3 Hg3 Ho3.
  assert (fg_open g2 = ∅) as E2 by (destruct Hk as (_ & _ & ->); done). rewrite E2 in Ho3.
  assert (grows g g3) as Hg by (etrans; [apply Hk|done]).
  destruct (code =? ErrorOK) eqn:Ec; cbn [negb].
  2:{ by split; [|split; [|split_and!]]. }
  eapply wp_bind_mono; [by apply fw_Lookup|]. intros lo g4 [Hk4 Hlo].
  assert (grows g g4) as Hg4 by (etrans; [done|apply Hk4]). assert (fg_open g4 = {[fd]}) as E4 by (destruct Hk4 as (_ & _ & ->); set_solver).
  destruct (lo_result lo) as [[child attr]|e] eqn:El.
  - split; [done|]. cbn. rewrite El. split; [done|]. split_and!; [apply Hk4|done|done].
  - eapply wp_bind_mono; [apply fw_close; [apply Hk4|set_solver]|]. intros r g5 (Hok5 & Hg5 & Ho5).
    split; [by eapply honest_lookup_grows|]. cbn. rewrite El. split; [done|]. split_and!; [done|by etrans|set_solver].
Qed.

Lemma fw_Open n flags g : caches_ok g -> fg_open g = ∅ ->
  fwp (Open n flags) g (fun r g' =>
    match r with
    | (Some fd, e) => ends g (if e =? 0 then {[fd]} else ∅) g'
    | (None, e) => e <> 0 /\ ends g ∅ g'
    end).
Proof.
  intros Hok H0. unfold Open. eapply wp_bind_mono with (P := fun (b : bool) g' => b = false /\ kept g g').
  { destruct (flags =? 0); [|by split]. eapply wp_bind_mono; [by apply fw_getData|]. by intros r g1 [Hk ->]. }
  intros b g1 [-> Hk1]. destruct (OpenFlagFromSys flags) as [oflag|]; [|split; [done|by apply kept_ends]].
  apply fw_node_path_k; [apply Hk1|]. intros p g2 Hk2 Hp. assert (kept g g2) as Hk by keep.
  apply wp_bind, fw_open; [apply Hk2|by apply valid_plain|]. intros fd code g3 Hok3 Hg3 Ho3. cbn.
  rewrite errnoFromCode_0. split_and!; [done|etrans; [apply Hk|done]|]. rewrite Ho3.
  assert (fg_open g2 = ∅) as -> by (destruct Hk as (_ & _ & ->); done). destruct (code =? ErrorOK); [set_solver|done].
Qed.

Lemma fw_Release f g : caches_ok g -> fg_open g = match f with Some fd => {[fd]} | None => ∅ end ->
  fwp (Release f) g (fun _ g' => ends g ∅ g').
Proof.
  intros Hok H0. unfold Release. destruct f as [fd|]; [|done].
  eapply wp_bind_mono; [apply fw_close; [done|set_solver]|]. intros r g1 (Hok1 & Hg1 & Ho1). split_and!; [done|done|set_solver].
Qed.
(** ** All requests *)

(** The names of a request are names of entries, and its handle is one that was
    handed out: never nil (see [honest]). *)
Definition op_ok (op : fuse_op) : Prop :=
  match op with
  | OpLookup name | OpMkdir name _ | OpRmdir name | OpUnlink name | OpCreate name _ _ | OpSymlink _ name => ordinary name
  | OpRename name _ newName _ => ordinary name /\ ordinary newName
  | OpRead f _ _ => f <> None
  | _ => True
  end.

Definition looks_up (op : fuse_op) : bool :=
  match op with OpLookup _ | OpMkdir _ _ | OpCreate _ _ _ | OpSymlink _ _ => true | _ => false end.

(** Handles a request gives back to the server, and those its reply hands out. *)
Definition given (op : fuse_op) : gset Z := match op with OpRelease (Some fd) => {[fd]} | _ => ∅ end.
Definition held (r : fuse_reply) : gset Z :=
  match r with
  | ReCreate _ (Some fd) => {[fd]}
  | ReOpen (Some fd) e => if e =? 0 then {[fd]} else ∅
  | _ => ∅
  end.

(** What a reply says was answered by the session. *)
Definition honest (g : fuse_ghost) (op : fuse_op) (r : fuse_reply) : Prop :=
  match op, r with
  | OpLookup name, ReLookup lo | OpMkdir name _, ReLookup lo | OpSymlink _ name, ReLookup lo => honest_lookup g name lo
  | OpCreate name _ _, ReCreate lo f => honest_lookup g name lo /\ is_ok (lo_result lo) = bool_decide (f <> None)
  | OpReaddir, ReDir (Ok items) => FList items ∈ fg_log g
  | OpGetattr, ReAttr (Ok attr) => exists p p' fi, FAttr p' fi ∈ fg_log g /\ attr = attrFromFileInfo hash p fi ids
  | OpOpen _, ReOpen None e => e <> 0
  | _, _ => True
  end.

Lemma fw_into {A} (c : A -> fuse_reply) (p : FP A) g Q : fwp p g (fun a g' => Q (c a) g') -> fwp (into c p) g Q.
Proof. intros H. unfold into. by apply wp_bind. Qed.

(** The handlers that ask the session and answer what it says. *)
#[local] Ltac walk :=
  repeat first
    [ apply fw_node_path_k; [solve [assumption|apply_hyp_kept]|intros ? ? ? ?]
    | apply fw_code_k; [|intros ?]
    | apply plainly_wipe_k; [solve [assumption|apply_hyp_kept]|intros ? ?]
    | apply fw_wipe_dir_k; [solve [assumption|apply_hyp_kept]|intros ? ?]
    | try apply wp_bind; eapply fw_neutral;
        [exact I|solve [assumption|apply_hyp_kept]
        |solve [exact I|by apply valid_plain|by apply plain_join|split; by apply plain_join]|intros ? ? ? ? ? ?] ].

Lemma plainly_simple n op g :
  caches_ok g -> op_ok op ->
  match op with
  | OpStatfs | OpRmdir _ | OpUnlink _ | OpLink | OpMknod | OpReadlink | OpOpendir | OpGetxattr _ _
  | OpRemovexattr _ | OpListxattr _ => True
  | _ => False
  end -> fwp (handle hash fsdata n op) g (fun r g' => kept g g' /\ held r = ∅).
Proof.
  intros Hok Hn Hop. destruct op; try done; cbn [handle]; apply fw_into;
    unfold Statfs, Rmdir, Unlink, Link, Mknod, Readlink, Opendir, Getxattr, Removexattr, Listxattr; walk; (split; [keep|done]).
Qed.

Lemma plainly_rename n name newParent newName flags g :
  caches_ok g -> ordinary name -> ordinary newName -> plainly (Rename n name newParent newName flags) g.
Proof.
  intros Hok Hn1 Hn2. unfold plainly, Rename. walk.
  match goal with H : fuse_effect _ (NodePath _) _ _ |- _ => destruct H as [-> ?%tree_path_plain] end.
  destruct (negb _); [keep|]. walk. keep.
Qed.

Lemma plainly_file n op g :
  caches_ok g ->
  match op with
  | OpWrite _ _ _ | OpFlush | OpFsync _ | OpLseek _ _ _ | OpCopyFileRange _ _ _ _ _ _ | OpSetxattr _ _ _ | OpIoctl _ _ _
  | OpGetlk _ _ _ | OpSetlk _ _ _ | OpSetlkw _ _ _ => True
  | _ => False
  end -> fwp (handle hash fsdata n op) g (fun r g' => kept g g' /\ held r = ∅).
Proof.
  intros Hok Hop. destruct op; try done; cbn [handle]; apply fw_into;
    unfold Write, Flush, Fsync, Lseek, CopyFileRange, Setxattr, Ioctl, Getlk, Setlk, Setlkw, get_lock, set_lock;
    repeat case_match; walk; repeat case_match; (split; [keep|done]).
Qed.
Lemma fw_Read n fd dest off g : caches_ok g -> plainly (Read n (Some fd) dest off) g.
Proof.
  intros Hok. unfold plainly, Read. fstep r g0 g1 Ho He Hk. destruct He as (-> & Hl & Hr).
  destruct r as [[dest' readed] code]. cbn in Hl, Hr. destruct (negb _); [keep|].
  destruct (Z.leb_spec readed (len dest')); [keep|lia].
Qed.

(** A handler that looks a name up after a change. *)
Lemma fw_then_Lookup n name (code : Z) g g' :
  kept g g' -> ordinary name -> alone = true \/ crashes = true ->
  fwp (if negb (code =? ErrorOK) then mret (failed_lookup (errnoFromCode code)) else Lookup hash fsdata n name) g'
    (fun lo g2 => kept g g2 /\ honest_lookup g2 name lo).
Proof.
  intros Hk Hn Hc. destruct (negb _); [by split|]. eapply wp_mono; [apply fw_Lookup; [apply Hk|done|done]|].
  intros lo g2 [Hk2 H]. split; [keep|done].
Qed.

Lemma fw_Mkdir n name mode g : caches_ok g -> ordinary name -> alone = true \/ crashes = true ->
  fwp (Mkdir hash fsdata n name mode) g (fun lo g' => kept g g' /\ honest_lookup g' name lo).
Proof. intros Hok Hn Hc. unfold Mkdir. walk. apply fw_then_Lookup; [keep|done|done]. Qed.

Lemma fw_Symlink n target name g : caches_ok g -> ordinary name -> alone = true \/ crashes = true ->
  fwp (Symlink hash fsdata n target name) g (fun lo g' => kept g g' /\ honest_lookup g' name lo).
Proof.
  intros Hok Hn Hc. unfold Symlink. apply fw_wipe_dir_k; [done|]. intros g1 Hk1.
  destruct (negb (HasPrefix target _)); [by split|]. cbv zeta. walk. apply fw_then_Lookup; [keep|done|done].
Qed.

Theorem fw_handle n op g :
  caches_ok g -> op_ok op -> (looks_up op = true -> alone = true \/ crashes = true) -> fg_open g = given op ->
  fwp (handle hash fsdata n op) g (fun r g' => ends g (held r) g' /\ honest g' op r).
Proof.
  intros Hok Hop Hc H0.
  assert (given op = ∅ -> (forall r g', honest g' op r) ->
    fwp (handle hash fsdata n op) g (fun r g' => kept g g' /\ held r = ∅) ->
    fwp (handle hash fsdata n op) g (fun r g' => ends g (held r) g' /\ honest g' op r)) as Hplain.
  { intros Hg Hho Hp. eapply wp_mono; [exact Hp|]. intros r g' [Hk ->]. split; [|apply Hho]. apply kept_ends; congruence. }
  assert (forall r g', given op = ∅ -> held r = ∅ -> kept g g' -> honest g' op r -> ends g (held r) g' /\ honest g' op r) as Hkept.
  { intros r g' Hg -> Hk Hho. split; [|done]. apply kept_ends; congruence. }
  destruct op; try (apply Hplain; [done|done|first [by apply plainly_simple|by apply plainly_file]]); cbn [handle]; apply fw_into.
  - eapply wp_mono; [apply fw_Lookup; [done|exact Hop|by apply Hc]|]. intros lo g' [Hk H]. by apply Hkept.
  - eapply wp_mono; [apply fw_Mkdir; [done|exact Hop|by apply Hc]|]. intros lo g' [Hk H]. by apply Hkept.
  - eapply wp_mono; [apply plainly_rename; by try apply Hop|]. intros r g' Hk. by apply Hkept.
  - eapply wp_mono; [apply fw_Create; [done|exact Hop|by apply Hc|done]|]. intros [lo f] g' [H Hf]. cbn in *.
    destruct f as [fd|]; destruct Hf as [Hf Hends]; (split; [done|]); (split; [done|]); by destruct (is_ok (lo_result lo)).
  - eapply wp_mono; [apply fw_Symlink; [done|exact Hop|by apply Hc]|]. intros lo g' [Hk H]. by apply Hkept.
  - eapply wp_mono; [by apply fw_Open|]. intros [[fd|] e] g' H; [by split|]. destruct H. by split.
  - eapply wp_mono; [by apply fw_Readdir|]. intros r g' [Hk H]. apply Hkept; try done; by destruct r.
  - eapply wp_mono; [by apply fw_Getattr|]. intros r g' [Hk H]. apply Hkept; try done; by destruct r.
  - destruct f as [fd|]; [|done]. eapply wp_mono; [by apply fw_Read|]. intros r g' Hk. by apply Hkept.
  - eapply wp_mono; [by apply fw_Release; [|destruct f]|]. intros r g' Hk. by split.
  - eapply wp_mono; [by apply fw_Setattr|]. intros r g' Hk. by apply Hkept.
Qed.
End Handlers.
