(* ===== verification/ClientWindows.v ===== *)
(** * The Windows client: WinFsp callbacks and the cache

    src/src/internal/client/windows: errno.go, cache.go and fs.go. What the client
    does for every callback of WinFsp, and the two goroutines it starts (the cleaner
    of the cache and the one that caches prefetched listings), as programs of
    requests to the two maps all of them share, the clock, channels and the
    functions of the session, which are those of the Unix client (ClientFuse). *)
From S2P Require Import Prelude GoIO Codec Structs StructGen Prog Paths UnixConv ServerEnv ClientEnv ClientUnix ClientFuse.

(** The constants of package cgofuse, which is not part of the repository. *)
Class CgoFuse := {
  fuse_S_ISUID : Z; fuse_S_ISGID : Z; fuse_S_ISVTX : Z;
  fuse_S_IFDIR : Z; fuse_S_IFLNK : Z; fuse_S_IFREG : Z;
  fuse_O_WRONLY : Z; fuse_O_RDWR : Z; fuse_O_TRUNC : Z; fuse_O_EXCL : Z; fuse_O_CREAT : Z; fuse_O_APPEND : Z;
  fuse_DELETE_OK : Z;
  fuse_EIO : Z; fuse_EACCES : Z; fuse_EBUSY : Z; fuse_EEXIST : Z; fuse_ENAMETOOLONG : Z; fuse_EINVAL : Z; fuse_EBADF : Z;
  fuse_ENOENT : Z; fuse_ELOOP : Z; fuse_ENOSPC : Z; fuse_ENOTEMPTY : Z; fuse_ENOTDIR : Z; fuse_ENOTSUP : Z; fuse_EPERM : Z;
  fuse_EXDEV : Z;
}.

(** ** Conversions *)

Definition fuseOK : Z := 0.
Definition fsBlockSize : Z := 4096.
Definition fsFileNameLen : Z := 255.
Definition defaultFileMode : Z := 0x1a4. (* 0o644 *)
Definition defaultDirMode : Z := 0x1ed. (* 0o755 *)

(** fuse.Stat_t: the fields the client sets; Atim and Ctim are set like Mtim. *)
Record Stat_t := mkStat_t {
  wst_Size : Z;
  wst_Tim : Timespec;
  wst_Mode : Z;
  wst_Nlink : Z;
  wst_Blksize : Z;
  wst_Blocks : Z;
}.

(** fuse.Statfs_t, likewise. *)
Record Statfs_t := mkStatfs_t {
  wsf_Frsize : Z;
  wsf_Bsize : Z;
  wsf_Blocks : Z;
  wsf_Bfree : Z;
  wsf_Bavail : Z;
  wsf_Namemax : Z;
  wsf_Files : Z;
  wsf_Ffree : Z;
}.

Section Conversions.
Context {cgo : CgoFuse}.

Definition win_errorCodeMap : list (Z * Z) :=
  [(ErrorOK, 0);
   (ErrorUnknown, - fuse_EIO);
   (ErrorAccessRestricted, - fuse_EACCES);
   (ErrorBusy, - fuse_EBUSY);
   (ErrorExists, - fuse_EEXIST);
   (ErrorTooLong, - fuse_ENAMETOOLONG);
   (ErrorInvalid, - fuse_EINVAL);
   (ErrorInvalidFD, - fuse_EBADF);
   (ErrorNotExists, - fuse_ENOENT);
   (ErrorLoop, - fuse_ELOOP);
   (ErrorNoSpace, - fuse_ENOSPC);
   (ErrorNotEmpty, - fuse_ENOTEMPTY);
   (ErrorType, - fuse_ENOTDIR);
   (ErrorIO, - fuse_EIO);
   (ErrorNotSupport, - fuse_ENOTSUP);
   (ErrorStateBlocked, - fuse_EPERM);
   (ErrorSpecialFileBlocked, - fuse_EBUSY);
   (ErrorCrossDevice, - fuse_EXDEV)].

Definition errnoFromCode (code : Z) : Z :=
  match mlookup code win_errorCodeMap with
  | Some errno => errno
  | None => - fuse_EIO
  end.

Definition fileMode (mode : Z) : Z :=
  let r := 0x1ff (* 0o777 *) in
  let r := if has_flag mode ModeSetuid then Z.lor r fuse_S_ISUID else r in
  let r := if has_flag mode ModeSetgid then Z.lor r fuse_S_ISGID else r in
  let r := if has_flag mode ModeSticky then Z.lor r fuse_S_ISVTX else r in
  if has_flag mode ModeDir then Z.lor r fuse_S_IFDIR
  else if has_flag mode ModeSymlink then Z.lor r fuse_S_IFLNK
  else if has_flag mode (Z.lor (Z.lor ModeDevice ModeNamedPipe) ModeSocket) then fuse_S_IFREG
  else Z.lor r fuse_S_IFREG.

Definition statFromFileInfo (fi : FileInfo) : Stat_t :=
  let size := FileInfo_Size fi in
  mkStat_t (i64 size) (FileInfo_MTime fi) (fileMode (FileInfo_Mode fi)) 1 fsBlockSize
    (let blocks := i64 (size / 512) in if negb (size mod 512 =? 0) then i64 (blocks + 1) else blocks).

Definition fileInfoFromDirItem (di : DirItem) : FileInfo :=
  mkFileInfo (di_Size di) (di_MTime di) (di_Mode di) (di_Owner di).

Definition statFromDirItem (di : DirItem) : Stat_t :=
  statFromFileInfo (mkFileInfo (di_Size di) (di_MTime di) (di_Mode di) (di_Owner di)).

(** The cases of the switch are tried in their order. *)
Definition wsfsOpenFlagFromWinOpenFlag (winflag : Z) : Z :=
  let access := Z.land winflag (Z.lor fuse_O_WRONLY fuse_O_RDWR) in
  let flag :=
    if access =? Z.lor fuse_O_WRONLY fuse_O_RDWR then Z.lor 0 O_RDONLY
    else if access =? fuse_O_WRONLY then Z.lor 0 O_WRONLY
    else if access =? fuse_O_RDWR then Z.lor 0 O_RDWR
    else Z.lor 0 O_RDONLY in
  let flag := if has_flag winflag fuse_O_TRUNC then Z.lor flag O_TRUNC else flag in
  let flag := if has_flag winflag fuse_O_EXCL then Z.lor flag O_EXCL else flag in
  let flag := if has_flag winflag fuse_O_CREAT then Z.lor flag O_CREAT else flag in
  if has_flag winflag fuse_O_APPEND then Z.lor flag O_APPEND else flag.
End Conversions.

(** ** Keys of the cache *)

Definition backslash : byte := x5c.

Definition normalizeCachePath (path : gostring) : gostring :=
  let path := map (fun c => if decide (c = backslash) then slash else c) path in
  match path with
  | [] => [slash]
  | _ =>
      let path := if negb (HasPrefix path [slash]) then slash :: path else path in
      match TrimRight_slash path with [] => [slash] | path => path end
  end.

Definition pathCacheKey (path : gostring) : gostring := normalizeCachePath path.

Definition dirCacheKey (path : gostring) : gostring :=
  let path := normalizeCachePath path in
  if bool_decide (path = [slash]) then [slash] else path ++ [slash].

(** ** Requests *)

(** [cd_items] is [None] for a nil slice; the items of a listing are those of the
    Unix client. *)
Record cachedData := mkCachedData { cd_items : option (list entry); cd_attr : FileInfo }.
Record cacheRecord := mkCacheRecord { cr_expireAt : Z; cr_data : cachedData }.

Inductive wev : Type :=
(* the map of the cache *)
| CLoad (key : gostring)
| CStore (key : gostring) (r : cacheRecord)
| CDelete (key : gostring)
| CKeys (* the keys a call of Range visits *)
(* the map of pending listings; channels are named after the items they belong to *)
| PLoad (key : gostring)
| PStore (key : gostring) (ready : nat)
| PDelete (key : gostring)
| WNow
| WSleep (d : Z)
| Receive (ready : nat) (* <-pendingCh *)
| GoPrefetched (parentPath : gostring) (items : list entry) (* the go statement of cachePrefetchedDirChildren *)
| OnDestroy
| WCrash (* a run-time panic: the process ends *)
| WSess (e : fev). (* the session; also WaitPrefetch and the field Child of an item *)

Definition wans (e : wev) : Type :=
  match e with
  | CLoad _ => option cacheRecord
  | CKeys => list gostring
  | PLoad _ => option nat
  | WNow => Z
  | WCrash => Empty_set
  | WSess e => fans e
  | _ => unit
  end.

Abbreviation WP := (prog wans).
Abbreviation wcall e := (trigger (ans := wans) e).
Abbreviation sess e := (trigger (ans := wans) (WSess e)).

(** ** cache.go *)

Section Cache.
Context (timeout : Z).

Definition cache_Set (key : gostring) (val : cachedData) : WP unit :=
  now ← wcall WNow;
  wcall (CStore key (mkCacheRecord (now + timeout) val)).

Definition cache_Del (key : gostring) : WP unit := wcall (CDelete key).

Definition cache_Get (key : gostring) : WP (option cachedData) :=
  r ← wcall (CLoad key);
  match r with
  | None => mret None
  | Some record =>
      now ← wcall WNow;
      if cr_expireAt record - now <? 0 then wcall (CDelete key) ;; mret None
      else mret (Some (cr_data record))
  end.

(** The function given to Range, for the keys it visits. *)
Fixpoint sweep (keys : list gostring) : WP unit :=
  match keys with
  | [] => mret tt
  | key :: keys' =>
      r ← wcall (CLoad key);
      match r with
      | None => mret tt (* gone in the meantime: not visited *)
      | Some record =>
          now ← wcall WNow;
          if cr_expireAt record - now <? 0 then wcall (CDelete key) else mret tt
      end ;;
      sweep keys'
  end.

(** [for {}]: [fuel] rounds. *)
Definition cache_Run (fuel : nat) : WP unit :=
  loop fuel (fun _ : unit =>
    wcall (WSleep timeout) ;;
    keys ← wcall CKeys;
    sweep keys ;;
    mret (inl tt)) tt.
End Cache.

(** ** fs.go *)

Definition deleteDirState (key : gostring) : WP unit :=
  cache_Del key ;;
  wcall (PDelete key).

Definition delParentCache (path : gostring) : WP unit :=
  let ppath := Dir path in
  if bool_decide (ppath <> path) then deleteDirState (dirCacheKey ppath) else mret tt.

Definition deletePathState (path : gostring) : WP unit :=
  cache_Del (pathCacheKey path) ;;
  deleteDirState (dirCacheKey path).

Definition loadPendingDir (key : gostring) : WP (option nat) := wcall (PLoad key).
Definition storePendingDir (key : gostring) (ready : nat) : WP unit := wcall (PStore key ready).

Definition deletePendingIfMatch (key : gostring) (ready : nat) : WP unit :=
  v ← wcall (PLoad key);
  if bool_decide (v = Some ready) then wcall (PDelete key) else mret tt.

(** [None]: no channel. The channel of an item has the item's name. *)
Definition PrefetchReady (it : entry) : option nat := if di_ready it.2 then Some it.1 else None.

Definition child_path (parentPath : gostring) (it : entry) : gostring := parentPath ++ di_Name it.2 ++ [slash].

Section Windows.
Context {cgo : CgoFuse}.
(** filepath.Join of Windows, which is not the one of the systems modelled in Paths. *)
Context (winJoin : gostring -> gostring -> gostring).
Context (timeout : Z) (mountpoint : gostring).

(** The goroutine of cachePrefetchedDirChildren. *)
Fixpoint cachePrefetchedDirChildren (parentPath : gostring) (items : list entry) : WP unit :=
  match items with
  | [] => mret tt
  | item :: items' =>
      match PrefetchReady item with
      | None => mret tt
      | Some pendingCh =>
          let childPath := child_path parentPath item in
          let pendingKey := dirCacheKey childPath in
          child ← sess (WaitPrefetch item.1);
          match child.1 with
          | None => deletePendingIfMatch pendingKey pendingCh
          | Some kids =>
              cache_Set timeout (dirCacheKey childPath) (mkCachedData (Some kids) (fileInfoFromDirItem item.2)) ;;
              deletePendingIfMatch pendingKey pendingCh
          end
      end ;;
      cachePrefetchedDirChildren parentPath items'
  end.

(** [None]: not ok; otherwise the errno, or the attributes with fuseOK. *)
Definition lookupChildFromDirCache (dirKey name : gostring) : WP (option (result Z Stat_t)) :=
  cache ← cache_Get dirKey;
  match cache with
  | Some (mkCachedData (Some items) _) =>
      mret (Some (match find_item name items with
                  | Some item => Ok (statFromDirItem item.2)
                  | None => Err (- fuse_ENOENT)
                  end))
  | _ => mret None
  end.

Definition Statfs (path : gostring) : WP (result Z Statfs_t) :=
  r ← sess (SFsStat path);
  let '(fsi, code) := r in
  mret (if negb (code =? ErrorOK) then Err (errnoFromCode code)
        else Ok (mkStatfs_t fsBlockSize fsBlockSize (RspFsStat_Total fsi / fsBlockSize) (RspFsStat_Free fsi / fsBlockSize)
                   (RspFsStat_Available fsi / fsBlockSize) fsFileNameLen 0 0)).

(** The errno and the file handle. *)
Definition Open (path : gostring) (winflag : Z) : WP (Z * Z) :=
  (if has_flag winflag fuse_O_WRONLY || has_flag winflag fuse_O_RDWR then
     delParentCache path ;;
     deletePathState path
   else mret tt) ;;
  r ← sess (SOpen path (wsfsOpenFlagFromWinOpenFlag winflag) defaultFileMode);
  mret (errnoFromCode r.2, r.1).

(** The first part of Getattr: what the listing of the parent says. *)
Definition getattr_parent (path : gostring) : WP (option (result Z Stat_t)) :=
  let ppath := Dir path in
  if bool_decide (ppath <> path) then
    let dirKey := dirCacheKey ppath in
    let name := Base path in
    r ← lookupChildFromDirCache dirKey name;
    match r with
    | Some r => mret (Some r)
    | None =>
        pendingCh ← loadPendingDir dirKey;
        match pendingCh with
        | None => mret None
        | Some pendingCh =>
            wcall (Receive pendingCh) ;;
            r ← lookupChildFromDirCache dirKey name;
            match r with
            | Some r => mret (Some r)
            | None => wcall (PDelete dirKey) ;; mret None
            end
        end
    end
  else mret None.

Definition Getattr (path : gostring) : WP (result Z Stat_t) :=
  r ← getattr_parent path;
  match r with
  | Some r => mret r
  | None =>
      cache ← cache_Get (pathCacheKey path);
      match cache with
      | Some cache => mret (Ok (statFromFileInfo (cd_attr cache)))
      | None =>
          r ← sess (SGetAttr path);
          let '(fi, code) := r in
          if negb (code =? ErrorOK) then mret (Err (errnoFromCode code))
          else
            cache_Set timeout (pathCacheKey path) (mkCachedData None fi) ;;
            mret (Ok (statFromFileInfo fi))
      end
  end.

Definition Mkdir (path : gostring) : WP Z :=
  delParentCache path ;;
  code ← sess (SMkdir path defaultDirMode);
  mret (errnoFromCode code).

Definition Unlink (path : gostring) : WP Z :=
  delParentCache path ;;
  deletePathState path ;;
  code ← sess (SRemove path);
  mret (errnoFromCode code).

Definition Rmdir (path : gostring) : WP Z :=
  delParentCache path ;;
  deletePathState path ;;
  code ← sess (SRmDir path);
  mret (errnoFromCode code).

Definition Symlink (target newpath : gostring) : WP Z :=
  if negb (HasPrefix target mountpoint) then mret (- fuse_EACCES)
  else
    let target := TrimPrefix target mountpoint in
    delParentCache target ;;
    deletePathState target ;;
    delParentCache newpath ;;
    deletePathState newpath ;;
    code ← sess (SSymLink target newpath);
    mret (errnoFromCode code).

Definition Readlink (path : gostring) : WP (Z * gostring) :=
  r ← sess (SReadLink path);
  let '(path, code) := r in
  if negb (code =? ErrorOK) then mret (errnoFromCode code, [])
  else mret (fuseOK, winJoin mountpoint path).

Definition rename (oldpath newpath : gostring) (flags : Z) : WP Z :=
  delParentCache oldpath ;;
  deletePathState oldpath ;;
  delParentCache newpath ;;
  deletePathState newpath ;;
  code ← sess (SRename oldpath newpath flags);
  mret (errnoFromCode code).

Definition Rename (oldpath newpath : gostring) : WP Z := rename oldpath newpath 0.
Definition Rename3 (oldpath newpath : gostring) (flags : Z) : WP Z := rename oldpath newpath flags.

(** The attributes Access looks at. *)
Definition access_attr (path : gostring) : WP (result Z FileInfo) :=
  cache ← cache_Get (pathCacheKey path);
  match cache with
  | Some cache => mret (Ok (cd_attr cache))
  | None =>
      r ← sess (SGetAttr path);
      let '(fi, code) := r in
      if negb (code =? ErrorOK) then mret (Err (errnoFromCode code))
      else
        cache_Set timeout (pathCacheKey path) (mkCachedData None fi) ;;
        mret (Ok fi)
  end.

Definition Access (path : gostring) (mask : Z) : WP Z :=
  if negb (has_flag mask fuse_DELETE_OK) then mret fuseOK
  else
    fi ← access_attr path;
    match fi with
    | Err e => mret e
    | Ok fi =>
        if negb (has_flag (FileInfo_Mode fi) ModeDir) then mret fuseOK
        else
          r ← sess (SReadDir path);
          let '(items, code) := (r : option (list entry) * Z) in
          if negb (code =? ErrorOK) then mret (errnoFromCode code)
          else if negb (len (default [] items) =? 0) then mret (- fuse_EPERM)
          else mret fuseOK
    end.

Definition Create (path : gostring) (flags : Z) : WP (Z * Z) :=
  delParentCache path ;;
  deletePathState path ;;
  r ← sess (SOpen path (wsfsOpenFlagFromWinOpenFlag flags) defaultFileMode);
  mret (errnoFromCode r.2, r.1).

Definition Truncate (path : gostring) (size fh : Z) : WP Z :=
  delParentCache path ;;
  deletePathState path ;;
  let fi := mkFileInfo (u64 size) (mkTimespec 0 0) 0 0 in
  code ← (if fh =? u64 (-1) then sess (SSetAttr path SETATTR_SIZE fi) else sess (SSetAttrByFD (u32 fh) SETATTR_SIZE fi));
  mret (errnoFromCode code).

(** The result and the buffer. *)
Definition Read (buff : bytes) (ofst fh : Z) : WP (Z * bytes) :=
  r ← sess (SReadAt (u32 fh) (u64 ofst) buff);
  let '(buff, readed, code) := r in
  mret (if negb (code =? ErrorOK) then errnoFromCode code else i64 readed, buff).

Definition Write (buff : bytes) (ofst fh : Z) : WP Z :=
  r ← sess (SWriteAt (u32 fh) (u64 ofst) buff);
  let '(count, code) := r in
  mret (if negb (code =? ErrorOK) then errnoFromCode code else i64 count).

Definition Flush : WP Z := mret fuseOK.

Definition Release (path : gostring) (fh : Z) : WP Z :=
  delParentCache path ;;
  deletePathState path ;;
  code ← sess (SClose (u32 fh));
  mret (errnoFromCode code).

Definition Fsync (fh : Z) : WP Z :=
  code ← sess (SSync (u32 fh));
  mret (errnoFromCode code).

(** The listing found in the cache, also after waiting for a pending one. *)
Definition readdir_cached (cacheKey : gostring) : WP (option (FileInfo * list entry)) :=
  cache ← cache_Get cacheKey;
  match cache with
  | Some (mkCachedData (Some items) attr) => mret (Some (attr, items))
  | _ =>
      pendingCh ← loadPendingDir cacheKey;
      match pendingCh with
      | None => mret None
      | Some pendingCh =>
          wcall (Receive pendingCh) ;;
          cache ← cache_Get cacheKey;
          match cache with
          | Some (mkCachedData (Some items) attr) => mret (Some (attr, items))
          | _ => wcall (PDelete cacheKey) ;; mret None
          end
      end
  end.

(** The loop that stores the channels of the prefetched directories. *)
Fixpoint store_pending (path : gostring) (items : list entry) : WP unit :=
  match items with
  | [] => mret tt
  | item :: items' =>
      match PrefetchReady item with
      | Some pendingCh => storePendingDir (dirCacheKey (child_path path item)) pendingCh
      | None => mret tt
      end ;;
      store_pending path items'
  end.

(** The listing from the session; [path] ends in a slash. *)
Definition readdir_fetch (path cacheKey : gostring) : WP (result Z (FileInfo * option (list entry))) :=
  r ← sess (SGetAttr path);
  let '(varfi, code) := r in
  if negb (code =? ErrorOK) then mret (Err (errnoFromCode code))
  else
    r ← sess (SReadDirPlus path);
    r ← (if negb (r.2 =? ErrorOK) then sess (SReadDir path) else mret r);
    let '(items, code) := (r : option (list entry) * Z) in
    if negb (code =? ErrorOK) then mret (Err (errnoFromCode code))
    else
      store_pending path (default [] items) ;;
      wcall (GoPrefetched path (default [] items)) ;;
      cache_Set timeout cacheKey (mkCachedData items varfi) ;;
      mret (Ok (varfi, items)).

(** The calls of [fill], whose results are not looked at. *)
Definition fills (varfi : FileInfo) (items : list entry) : list (gostring * option Stat_t) :=
  (dot, Some (statFromFileInfo varfi)) :: (dotdot, None) ::
  map (fun item : entry => (di_Name item.2, Some (statFromDirItem item.2))) items.

(** The errno, or the entries given to [fill] and fuseOK. *)
Definition Readdir (path : gostring) : WP (result Z (list (gostring * option Stat_t))) :=
  let cacheKey := dirCacheKey path in
  match last path with
  | None => Vis (ans := wans) WCrash (fun r : Empty_set => match r with end) (* path[len(path)-1] *)
  | Some c =>
      let path := if negb (bool_decide (c = slash)) then path ++ [slash] else path in
      cached ← readdir_cached cacheKey;
      match cached with
      | Some (varfi, items) => mret (Ok (fills varfi items))
      | None =>
          r ← readdir_fetch path cacheKey;
          mret (match r with Err e => Err e | Ok (varfi, items) => Ok (fills varfi (default [] items)) end)
      end
  end.

Definition Destroy : WP unit := wcall OnDestroy.
End Windows.

(** ** Callbacks *)

Inductive win_op :=
| WinStatfs (path : gostring) | WinOpen (path : gostring) (winflag : Z) | WinGetattr (path : gostring)
| WinMkdir (path : gostring) | WinUnlink (path : gostring) | WinRmdir (path : gostring)
| WinSymlink (target newpath : gostring) | WinReadlink (path : gostring)
| WinRename (oldpath newpath : gostring) | WinRename3 (oldpath newpath : gostring) (flags : Z)
| WinAccess (path : gostring) (mask : Z) | WinCreate (path : gostring) (flags : Z)
| WinTruncate (path : gostring) (size fh : Z) | WinRead (path : gostring) (buff : bytes) (ofst fh : Z)
| WinWrite (path : gostring) (buff : bytes) (ofst fh : Z) | WinFlush | WinRelease (path : gostring) (fh : Z)
| WinFsync (fh : Z) | WinReaddir (path : gostring) | WinDestroy.

(** What a callback returns and leaves behind its pointers. *)
Inductive win_reply :=
| WrErrno (e : Z)
| WrHandle (e fh : Z)
| WrStat (r : result Z Stat_t)
| WrStatfs (r : result Z Statfs_t)
| WrLink (e : Z) (target : gostring)
| WrRead (e : Z) (buff : bytes)
| WrDir (r : result Z (list (gostring * option Stat_t)))
| WrNone.

Definition win_into {A} (c : A -> win_reply) (p : WP A) : WP win_reply := r ← p; mret (c r).

Section Handle.
Context {cgo : CgoFuse} (winJoin : gostring -> gostring -> gostring) (timeout : Z) (mountpoint : gostring).

Definition win_handle (op : win_op) : WP win_reply :=
  match op with
  | WinStatfs path => win_into WrStatfs (Statfs path)
  | WinOpen path winflag => win_into (fun r => WrHandle r.1 r.2) (Open path winflag)
  | WinGetattr path => win_into WrStat (Getattr timeout path)
  | WinMkdir path => win_into WrErrno (Mkdir path)
  | WinUnlink path => win_into WrErrno (Unlink path)
  | WinRmdir path => win_into WrErrno (Rmdir path)
  | WinSymlink target newpath => win_into WrErrno (Symlink mountpoint target newpath)
  | WinReadlink path => win_into (fun r => WrLink r.1 r.2) (Readlink winJoin mountpoint path)
  | WinRename oldpath newpath => win_into WrErrno (Rename oldpath newpath)
  | WinRename3 oldpath newpath flags => win_into WrErrno (Rename3 oldpath newpath flags)
  | WinAccess path mask => win_into WrErrno (Access timeout path mask)
  | WinCreate path flags => win_into (fun r => WrHandle r.1 r.2) (Create path flags)
  | WinTruncate path size fh => win_into WrErrno (Truncate path size fh)
  | WinRead _ buff ofst fh => win_into (fun r => WrRead r.1 r.2) (Read buff ofst fh)
  | WinWrite _ buff ofst fh => win_into WrErrno (Write buff ofst fh)
  | WinFlush => win_into WrErrno Flush
  | WinRelease path fh => win_into WrErrno (Release path fh)
  | WinFsync fh => win_into WrErrno (Fsync fh)
  | WinReaddir path => win_into WrDir (Readdir timeout path)
  | WinDestroy => win_into (fun _ => WrNone) Destroy
  end.
End Handle.
