(* ===== verification/ClientWindowsOk.v ===== *)
(** * The callbacks of the Windows client keep their word

    A specification of what a callback talks to ([win_env]) with a ghost state: what
    the session has answered so far, the clock, the two maps, and what this callback
    asked the session. Other callbacks may run in between ([alone = false]): they
    change the maps, but only to records that are true to the answers and last no
    longer than the timeout. Every callback, and both goroutines, keep to this
    discipline themselves. *)
From S2P Require Import Prelude GoIO Codec Structs StructGen Prog Paths UnixConv ServerEnv ClientEnv ClientUnix ClientFuse ClientWindows.

(** ** Keys *)

Definition to_slash (c : byte) : byte := if decide (c = backslash) then slash else c.

(** Keys without the case of the empty path, which it covers. *)
Definition rooted_of (q : gostring) : gostring := if HasPrefix q [slash] then q else slash :: q.
Definition key_of (q : gostring) : gostring :=
  match TrimRight_slash (rooted_of q) with [] => [slash] | t => t end.

Lemma normalize_key p : normalizeCachePath p = key_of (map to_slash p).
Proof.
  unfold normalizeCachePath, key_of, rooted_of. fold to_slash.
  change (map (fun c => if decide (c = backslash) then slash else c) p) with (map to_slash p).
  destruct (map to_slash p) as [|c q]; [done|]. by destruct (HasPrefix (c :: q) [slash]).
Qed.

Fixpoint drop_slashes (r : gostring) : gostring :=
  match r with c :: r' => if decide (c = slash) then drop_slashes r' else r | [] => [] end.
Lemma TrimRight_drop p : TrimRight_slash p = rev (drop_slashes (rev p)).
Proof. done. Qed.

Lemma TrimRight_snoc p : TrimRight_slash (p ++ [slash]) = TrimRight_slash p.
Proof. by rewrite !TrimRight_drop, rev_app_distr. Qed.

Lemma TrimRight_id p : last p <> Some slash -> TrimRight_slash p = p.
Proof.
  intros H. rewrite TrimRight_drop. destruct p as [|c p _] using rev_ind; [done|].
  rewrite rev_app_distr. simpl. rewrite last_snoc in H. case_decide; [congruence|].
  simpl. by rewrite rev_involutive.
Qed.

Lemma TrimRight_last p : last (TrimRight_slash p) <> Some slash.
Proof.
  induction p as [|c p IH] using rev_ind; [done|]. destruct (decide (c = slash)) as [->|Hc].
  - by rewrite TrimRight_snoc.
  - rewrite TrimRight_id; rewrite last_snoc; congruence.
Qed.

Lemma TrimRight_prefix p : exists n, p = TrimRight_slash p ++ replicate n slash.
Proof.
  induction p as [|c p [n IH]] using rev_ind; [by exists O|]. destruct (decide (c = slash)) as [->|Hc].
  - exists (S n). rewrite TrimRight_snoc, replicate_S_end, app_assoc. by rewrite <-IH.
  - exists O. rewrite app_nil_r, TrimRight_id; [done|]. rewrite last_snoc. congruence.
Qed.

Lemma HasPrefix_slash q : HasPrefix q [slash] = true <-> exists t, q = slash :: t.
Proof. rewrite HasPrefix_spec. done. Qed.

Lemma key_of_snoc q : key_of (q ++ [slash]) = key_of q.
Proof.
  unfold key_of, rooted_of. destruct q as [|c q]; [done|]. cbn [app HasPrefix].
  destruct (bool_decide (slash = c) && HasPrefix q []) eqn:E; destruct (bool_decide (slash = c) && HasPrefix (q ++ [slash]) []) eqn:E2;
    try (destruct (bool_decide (slash = c)); [|done]; by destruct q).
  - change (c :: q ++ [slash]) with ((c :: q) ++ [slash]). by rewrite TrimRight_snoc.
  - change (slash :: c :: q ++ [slash]) with ((slash :: c :: q) ++ [slash]). by rewrite TrimRight_snoc.
Qed.

Lemma key_of_id q : HasPrefix q [slash] = true -> last q <> Some slash -> key_of q = q.
Proof.
  intros H1 H2. unfold key_of, rooted_of. rewrite H1, TrimRight_id by done. by destruct q.
Qed.

Lemma key_of_form q : key_of q = [slash] \/ HasPrefix (key_of q) [slash] = true /\ last (key_of q) <> Some slash.
Proof.
  unfold key_of. set (p := rooted_of q).
  assert (exists t, p = slash :: t) as [t Ht].
  { unfold p, rooted_of. destruct (HasPrefix q [slash]) eqn:E; [by apply HasPrefix_slash|eauto]. }
  pose proof (TrimRight_last p) as Hl. destruct (TrimRight_prefix p) as [n Hn].
  destruct (TrimRight_slash p) as [|c w]; [by left|]. right. split; [|done].
  rewrite Ht in Hn. injection Hn as <- _. by apply HasPrefix_slash; eauto.
Qed.

Lemma to_slash_id p : (backslash ∉ p) -> map to_slash p = p.
Proof.
  induction p as [|c p IH]; [done|]. intros [Hc Hp]%not_elem_of_cons. cbn. rewrite IH by done.
  unfold to_slash. by rewrite decide_False by congruence.
Qed.

Lemma map_to_slash p : backslash ∉ map to_slash p.
Proof.
  intros (c & E & _)%list_elem_of_fmap. unfold to_slash in E. case_decide; by subst.
Qed.

Lemma key_of_no_backslash q : (backslash ∉ q) -> backslash ∉ key_of q.
Proof.
  intros H. unfold key_of. assert (backslash ∉ rooted_of q) as H1.
  { unfold rooted_of. destruct (HasPrefix q [slash]); [done|]. by apply not_elem_of_cons. }
  destruct (TrimRight_prefix (rooted_of q)) as [n Hn]. rewrite Hn, not_elem_of_app in H1. destruct H1 as [H1 _].
  destruct (TrimRight_slash (rooted_of q)); [|done]. by apply not_elem_of_cons; split; [|apply not_elem_of_nil].
Qed.

(** The key of a key is the key. *)
Lemma normalize_idem p : normalizeCachePath (normalizeCachePath p) = normalizeCachePath p.
Proof.
  rewrite !normalize_key, to_slash_id by apply key_of_no_backslash, map_to_slash.
  destruct (key_of_form (map to_slash p)) as [->|[H1 H2]]; [done|]. by apply key_of_id.
Qed.

Lemma normalize_snoc p : normalizeCachePath (p ++ [slash]) = normalizeCachePath p.
Proof. rewrite !normalize_key, map_app. apply key_of_snoc. Qed.

Lemma path_of_dir_key p : pathCacheKey (dirCacheKey p) = pathCacheKey p.
Proof.
  unfold pathCacheKey, dirCacheKey. case_bool_decide as E; [by rewrite E|]. rewrite normalize_snoc. apply normalize_idem.
Qed.

Lemma dir_of_dir_key p : dirCacheKey (dirCacheKey p) = dirCacheKey p.
Proof. pose proof (path_of_dir_key p) as E. unfold dirCacheKey at 1. unfold pathCacheKey in E. by rewrite E. Qed.

Lemma dir_key_snoc p : dirCacheKey (p ++ [slash]) = dirCacheKey p.
Proof. unfold dirCacheKey. by rewrite normalize_snoc. Qed.

(** ** Paths of callbacks: "/" or names joined by slashes, without backslashes *)

Definition win_name (c : gostring) : Prop := ordinary c /\ (backslash ∉ c).
Definition win_path (p : gostring) : Prop := p = [slash] \/ exists cs, cs <> [] /\ Forall win_name cs /\ p = abs_path cs.

Lemma abs_path_snoc cs c : abs_path (cs ++ [c]) = abs_path cs ++ slash :: c.
Proof. unfold abs_path. rewrite map_app, concat_app. cbn. by rewrite app_nil_r. Qed.

Lemma abs_path_last cs : cs <> [] -> Forall win_name cs -> last (abs_path cs) <> Some slash.
Proof.
  destruct cs as [|c cs _] using rev_ind; [done|]. intros _ [_ [[(Hn & Hs & _) _] _]%Forall_cons]%Forall_app.
  rewrite abs_path_snoc. destruct c as [|b c _] using rev_ind; [done|].
  change (slash :: c ++ [b]) with ((slash :: c) ++ [b]). rewrite app_assoc, last_snoc. intros [= ->]. apply Hs.
  apply elem_of_app. right. left.
Qed.

Lemma abs_path_no_backslash cs : Forall win_name cs -> backslash ∉ abs_path cs.
Proof.
  induction 1 as [|c cs [_ Hc] _ IH]; [apply not_elem_of_nil|]. rewrite abs_path_cons. cbn.
  by rewrite not_elem_of_cons, not_elem_of_app.
Qed.

Lemma abs_key cs : cs <> [] -> Forall win_name cs -> normalizeCachePath (abs_path cs) = abs_path cs.
Proof.
  intros Hne H. rewrite normalize_key, to_slash_id by by apply abs_path_no_backslash.
  apply key_of_id; [|by apply abs_path_last]. destruct cs; [done|]. rewrite abs_path_cons. apply HasPrefix_slash. eauto.
Qed.

Lemma win_path_key p : win_path p -> pathCacheKey p = p.
Proof. intros [->|(cs & Hne & H & ->)]; [done|]. by apply abs_key. Qed.

(** The path of a directory with its slash. *)
Lemma win_path_dir p : win_path p ->
  dirCacheKey p = if bool_decide (last p = Some slash) then p else p ++ [slash].
Proof.
  intros [->|(cs & Hne & H & ->)]; [done|]. unfold dirCacheKey. rewrite abs_key by done.
  rewrite (bool_decide_false (last _ = _)) by by apply abs_path_last.
  rewrite bool_decide_false; [done|]. intros E. apply (abs_path_last cs); [done..|]. by rewrite E.
Qed.

Lemma win_path_not_nil p : win_path p -> last p <> None.
Proof. intros [->|(cs & Hne & H & ->)]; [done|]. destruct cs; [done|]. rewrite abs_path_cons. by rewrite last_None. Qed.

Lemma base_name_app d c : (slash ∉ c) -> base_name (d ++ slash :: c) = c.
Proof. intros Hc. unfold base_name. by rewrite Split_app, (Split_no_sep c), List.last_last. Qed.

Lemma upto_slash_app d c : (slash ∉ c) -> upto_slash (d ++ slash :: c) = d ++ [slash].
Proof.
  intros Hc. destruct (upto_slash_spec (d ++ slash :: c)) as (d' & c' & E & Hc' & ->); [apply elem_of_app; right; left|].
  assert (components_of : c' = c /\ d' = d); [|by destruct components_of as [_ ->]].
  revert d' E. induction d as [|x d IH]; intros [|x' d'] E; simplify_eq/=; try done.
  - destruct Hc. apply elem_of_app. right. left.
  - destruct Hc'. apply elem_of_app. right. left.
  - by destruct (IH d') as [-> ->].
Qed.

(** The directory and the name of a path that is not the root. *)
Lemma Dir_abs cs c : Forall win_name (cs ++ [c]) ->
  Dir (abs_path (cs ++ [c])) = if decide (cs = []) then [slash] else abs_path cs.
Proof.
  intros [Hcs [Hc _]%Forall_cons]%Forall_app. destruct Hc as [Hc _].
  assert (Forall ordinary cs) as Ho by (eapply Forall_impl; [exact Hcs|]; by intros ? []).
  rewrite abs_path_snoc. unfold Dir. rewrite upto_slash_app by apply Hc.
  set (q := abs_path cs ++ [slash]).
  assert (is_rooted q = true) as Hr by (unfold q; destruct cs; [done|by rewrite abs_path_cons]).
  assert (components q = cs) as Hq.
  { unfold q. change [slash] with (slash :: []). by rewrite components_app, components_nil, app_nil_r, components_abs. }
  destruct (Clean_components q) as [Hcc _]; [done|by rewrite Hq|].
  destruct (Clean_rooted q Hr) as (cs' & Hcs' & E). rewrite E, Hq in Hcc. rewrite E. clear -Ho Hcs' Hcc.
  destruct (decide (cs' = [])) as [->|Hne].
  - change (components [slash]) with (@nil gostring) in Hcc. by subst.
  - rewrite components_abs in Hcc by done. subst. by rewrite decide_False.
Qed.

Lemma Base_abs cs c : Forall win_name (cs ++ [c]) -> Base (abs_path (cs ++ [c])) = c.
Proof.
  intros H. pose proof H as [_ [[(Hn & Hs & _) _] _]%Forall_cons]%Forall_app.
  unfold Base. rewrite TrimRight_id by (apply abs_path_last; [by destruct cs|done]). rewrite abs_path_snoc, base_name_app by done.
  destruct (abs_path cs ++ slash :: c) eqn:E; [by destruct (abs_path cs)|]. by destruct c.
Qed.

(** A path is its name appended to the key of its directory. *)
Lemma win_path_split p : win_path p -> Dir p <> p ->
  win_path (Dir p) /\ dirCacheKey (Dir p) ++ Base p = p /\ ordinary (Base p).
Proof.
  intros [->|(cs & Hne & H & ->)] Hd; [done|]. destruct cs as [|c cs _] using rev_ind; [done|].
  pose proof H as [Hcs [[Ho _] _]%Forall_cons]%Forall_app.
  rewrite Base_abs, Dir_abs by done. destruct (decide (cs = [])) as [->|Hc].
  - split_and!; [by left|by rewrite abs_path_snoc|done].
  - split_and!; [right; eauto| |done]. rewrite win_path_dir by (right; eauto).
    rewrite bool_decide_false by by apply abs_path_last. by rewrite abs_path_snoc, <-app_assoc.
Qed.

(** ** What the session has said *)

Inductive wfact :=
| WAttr (p : gostring) (fi : FileInfo)
| WNoAttr (p : gostring) (code : Z)
| WList (p : gostring) (items : list entry)
| WNoList (p : gostring) (code : Z)
| WChild (it : nat) (items : list entry). (* the prefetched listing of an item *)

(** [items] is the listing of the directory with key [K]: it was asked for, or it
    came with the listing of its parent. *)
Inductive told_list (log : list wfact) : gostring -> list entry -> Prop :=
| told_asked p items : WList p items ∈ log -> told_list log (dirCacheKey p) items
| told_prefetched K items it kids : told_list log K items -> it ∈ items -> WChild it.1 kids ∈ log ->
    told_list log (dirCacheKey (child_path K it)) kids.

(** [fi] are the attributes of the path with key [k], asked for or out of a listing. *)
Inductive told_attr (log : list wfact) : gostring -> FileInfo -> Prop :=
| told_getattr p fi : WAttr p fi ∈ log -> told_attr log (pathCacheKey p) fi
| told_item K items it : told_list log K items -> it ∈ items ->
    told_attr log (pathCacheKey (child_path K it)) (fileInfoFromDirItem it.2).

Lemma told_list_grows log log' K items : log ⊆ log' -> told_list log K items -> told_list log' K items.
Proof. intros Hl. induction 1; [apply told_asked; by apply Hl|]. eapply told_prefetched; try done. by apply Hl. Qed.

Lemma told_attr_grows log log' k fi : log ⊆ log' -> told_attr log k fi -> told_attr log' k fi.
Proof.
  intros Hl [p f Hf|K items it Ht Hi]; [apply told_getattr; by apply Hl|]. eapply told_item; [|done]. by eapply told_list_grows.
Qed.

(** ** The same without keys

    What was said of a path itself: of [path] in a call for it (a call for a directory
    may end in a slash), or in the listing of the directory it is in. *)

(** The path of the file [name] in the directory [path]. *)
Definition under (path name : gostring) : gostring := (if bool_decide (path = [slash]) then [] else path) ++ slash :: name.

(** The paths callbacks ask for. *)
Definition asked_path (path q : gostring) : Prop := win_path path /\ (q = path \/ q = path ++ [slash]).

Inductive said_list (log : list wfact) : gostring -> list entry -> Prop :=
| said_listed path q items : asked_path path q -> WList q items ∈ log -> said_list log path items
| said_prefetched path items it kids : said_list log path items -> it ∈ items -> WChild it.1 kids ∈ log ->
    said_list log (under path (di_Name it.2)) kids.

Inductive said_attr (log : list wfact) : gostring -> FileInfo -> Prop :=
| said_getattr path q fi : asked_path path q -> WAttr q fi ∈ log -> said_attr log path fi
| said_item path items it : said_list log path items -> it ∈ items ->
    said_attr log (under path (di_Name it.2)) (fileInfoFromDirItem it.2).

(** No listing has a name with a slash or a backslash, or one that is no name. *)
Definition names_plain (log : list wfact) : Prop :=
  Forall (fun f => match f with WList _ items | WChild _ items => Forall (fun it : entry => win_name (di_Name it.2)) items | _ => True end) log.

Definition fact_asked (f : wfact) : Prop :=
  match f with WAttr q _ | WList q _ => exists path, asked_path path q | _ => True end.

Lemma under_path path name : win_path path -> win_name name -> win_path (under path name).
Proof.
  intros Hp Hn. right. unfold under. case_bool_decide as E.
  - exists [name]. split_and!; [done|by constructor|]. by rewrite abs_path_cons, app_nil_r.
  - destruct Hp as [->|(cs & Hne & H & ->)]; [done|]. exists (cs ++ [name]). split_and!; [by destruct cs| |by rewrite abs_path_snoc].
    apply Forall_app. by split; [|constructor].
Qed.

Lemma under_key path name : win_path path -> dirCacheKey path ++ name = under path name.
Proof.
  intros Hp. unfold dirCacheKey, under. fold (pathCacheKey path). rewrite win_path_key by done.
  case_bool_decide; [by subst|]. by rewrite <-app_assoc.
Qed.

Lemma asked_key path q : asked_path path q -> pathCacheKey q = path /\ dirCacheKey q = dirCacheKey path.
Proof.
  intros [Hp [->| ->]].
  - split; [by apply win_path_key|done].
  - split; [|apply dir_key_snoc]. unfold pathCacheKey. rewrite normalize_snoc. by apply win_path_key.
Qed.

Lemma dir_key_inj path path' : win_path path -> win_path path' -> dirCacheKey path = dirCacheKey path' -> path = path'.
Proof.
  intros H1 H2 E. apply (f_equal pathCacheKey) in E. rewrite !path_of_dir_key in E. by rewrite !win_path_key in E.
Qed.

Section Said.
Context (log : list wfact) (Hplain : names_plain log) (Hasked : Forall fact_asked log).

Lemma said_list_path path items : said_list log path items -> win_path path /\ Forall (fun it : entry => win_name (di_Name it.2)) items.
Proof.
  unfold names_plain in Hplain. rewrite Forall_forall in Hplain.
  induction 1 as [path q items [Hp _] Hq|path items it kids _ [Hp Hn] Hit Hk]; [by split; [|apply (Hplain _ Hq)]|].
  split; [|apply (Hplain _ Hk)]. apply under_path; [done|]. rewrite Forall_forall in Hn. by apply Hn.
Qed.

Lemma told_said_list K items : told_list log K items -> exists path, K = dirCacheKey path /\ said_list log path items.
Proof.
  rewrite Forall_forall in Hasked. induction 1 as [q items Hq|K items it kids _ (path & -> & Hs) Hit Hk].
  - destruct (Hasked _ Hq) as [path Hp]. exists path. split; [by apply asked_key|by eapply said_listed].
  - exists (under path (di_Name it.2)). split; [|by eapply said_prefetched]. destruct (said_list_path _ _ Hs) as [Hp _].
    unfold child_path. by rewrite app_assoc, dir_key_snoc, under_key.
Qed.

(** Without backslashes in names, a key stands for one path. *)
Lemma told_list_said path items : win_path path -> told_list log (dirCacheKey path) items -> said_list log path items.
Proof.
  intros Hp (path' & E & Hs)%told_said_list. rewrite (dir_key_inj path path'); [done|done| |done]. by apply (said_list_path _ _ Hs).
Qed.

Lemma told_attr_said k fi : told_attr log k fi -> win_path k /\ said_attr log k fi.
Proof.
  intros [q f Hf|K items it Ht Hi].
  - rewrite Forall_forall in Hasked. destruct (Hasked _ Hf) as [path Hp]. rewrite (proj1 (asked_key _ _ Hp)).
    split; [apply Hp|by eapply said_getattr].
  - destruct (told_said_list _ _ Ht) as (path & -> & Hs). destruct (said_list_path _ _ Hs) as [Hp Hn].
    rewrite Forall_forall in Hn. assert (win_path (under path (di_Name it.2))) as Hu by (apply under_path; [done|by apply Hn]).
    unfold child_path, pathCacheKey. rewrite app_assoc, normalize_snoc, under_key by done. fold (pathCacheKey (under path (di_Name it.2))).
    rewrite win_path_key by done. split; [done|by eapply said_item].
Qed.
End Said.

(** A call of this callback to the session, with the answer. *)
Definition said : Type := {e : fev & fans e}.
Definition said_of (e : fev) (r : fans e) : said := existT e r.

Record win_ghost := mkWg {
  wg_log : list wfact;
  wg_now : Z;
  wg_cache : gmap gostring cacheRecord;
  wg_pending : gmap gostring nat;
  wg_asked : list said;
}.
Definition wg_set_cache (m : gmap gostring cacheRecord) (g : win_ghost) : win_ghost :=
  mkWg (wg_log g) (wg_now g) m (wg_pending g) (wg_asked g).
Definition wg_set_pending (m : gmap gostring nat) (g : win_ghost) : win_ghost :=
  mkWg (wg_log g) (wg_now g) (wg_cache g) m (wg_asked g).
Definition wg_answer (e : fev) (r : fans e) (fs : list wfact) (g : win_ghost) : win_ghost :=
  mkWg (fs ++ wg_log g) (wg_now g) (wg_cache g) (wg_pending g) (wg_asked g ++ [said_of e r]).

(** What an answer of the session tells. *)
Definition facts_of (e : fev) : fans e -> list wfact :=
  match e return fans e -> list wfact with
  | SGetAttr p => fun r => [if r.2 =? ErrorOK then WAttr p r.1 else WNoAttr p r.2]
  | SReadDirPlus p => fun r => [if r.2 =? ErrorOK then WList p (default [] r.1) else WNoList p r.2]
  | SReadDir p => fun r => [if r.2 =? ErrorOK then WList p (default [] r.1) else WNoList p r.2]
  | WaitPrefetch it => fun r => match r.1 with Some kids => [WChild it kids] | None => [] end
  | _ => fun _ => []
  end.

Section Spec.
Context (total : bool) (timeout : Z) (alone : bool).

(** True to what the session said, and no longer than [timeout] from now. *)
Definition record_ok (g : win_ghost) (K : gostring) (r : cacheRecord) : Prop :=
  told_attr (wg_log g) (pathCacheKey K) (cd_attr (cr_data r)) /\
  (forall items, cd_items (cr_data r) = Some items -> told_list (wg_log g) K items) /\
  cr_expireAt r <= wg_now g + timeout.
Definition cache_ok (g : win_ghost) : Prop := map_Forall (record_ok g) (wg_cache g).

(** What may happen between two requests of a callback. *)
Definition w_others (g g' : win_ghost) : Prop :=
  wg_log g ⊆ wg_log g' /\ wg_now g <= wg_now g' /\ wg_asked g' = wg_asked g /\ (cache_ok g -> cache_ok g') /\
  (alone = true -> wg_cache g' = wg_cache g /\ wg_pending g' = wg_pending g).

Definition win_pre (g : win_ghost) (e : wev) : Prop :=
  match e with
  | CStore key r => record_ok g key r
  | GoPrefetched parentPath items => told_list (wg_log g) parentPath items
  | WCrash => False
  | _ => True
  end.

(** The effect of a request itself. *)
Definition win_effect (g : win_ghost) (e : wev) : wans e -> win_ghost -> Prop :=
  match e return wans e -> win_ghost -> Prop with
  | CLoad key => fun r g' => g' = g /\ r = wg_cache g !! key
  | CStore key c => fun _ g' => g' = wg_set_cache (<[key := c]> (wg_cache g)) g
  | CDelete key => fun _ g' => g' = wg_set_cache (delete key (wg_cache g)) g
  | PLoad key => fun r g' => g' = g /\ r = wg_pending g !! key
  | PStore key ch => fun _ g' => g' = wg_set_pending (<[key := ch]> (wg_pending g)) g
  | PDelete key => fun _ g' => g' = wg_set_pending (delete key (wg_pending g)) g
  | WNow => fun r g' => g' = g /\ r = wg_now g
  | WSess e => fun r g' => g' = wg_answer e r (facts_of e r) g
  | _ => fun _ g' => g' = g
  end.

Definition win_post (g : win_ghost) (e : wev) (r : wans e) (g' : win_ghost) : Prop :=
  exists g0, w_others g g0 /\ win_effect g0 e r g'.

Definition win_env : env wans := {| env_st := win_ghost; env_pre := win_pre; env_post := win_post |}.
Abbreviation wwp p g Q := (wp (ans := wans) total win_env p g Q).

(** ** What lasts *)

Definition w_grows (g g' : win_ghost) : Prop := wg_log g ⊆ wg_log g' /\ wg_now g <= wg_now g'.

#[export] Instance w_grows_preorder : PreOrder w_grows.
Proof. split; [by intros g|]. intros a b c [H1 H2] [H3 H4]. split; [set_solver|lia]. Qed.

Lemma record_ok_grows g g' K r : w_grows g g' -> record_ok g K r -> record_ok g' K r.
Proof.
  intros [Hl Hn] (H1 & H2 & H3). split_and!; [by eapply told_attr_grows| |lia].
  intros items Hi. eapply told_list_grows; [done|by apply H2].
Qed.

Lemma cache_ok_keeps g g' : w_grows g g' -> wg_cache g' = wg_cache g -> cache_ok g -> cache_ok g'.
Proof. intros Hg Hc H. unfold cache_ok. rewrite Hc. eapply map_Forall_impl; [exact H|]. intros K r. by apply record_ok_grows. Qed.

(** A request that respects the specification. *)
Lemma w_effect_ok g e r g' : cache_ok g -> win_pre g e -> win_effect g e r g' -> w_grows g g' /\ cache_ok g'.
Proof.
  intros Hok Hp He. assert (w_grows g g) as Hrefl by done.
  destruct e; cbn in He, Hp; try (destruct He as [-> _]; by split); try (subst g'; by split).
  - subst g'. split; [done|]. by apply map_Forall_insert_2.
  - subst g'. split; [done|]. by apply map_Forall_delete.
  - subst g'. assert (w_grows g (wg_answer e r (facts_of e r) g)) as Hg by (split; cbn; [set_solver|lia]).
    split; [done|]. by apply (cache_ok_keeps g).
Qed.

Lemma win_pre_stable g g' e : w_others g g' -> win_pre g e -> win_pre g' e.
Proof.
  intros (Hl & Hn & _). destruct e; try done; cbn; intros H.
  - eapply record_ok_grows; [by split|done].
  - by eapply told_list_grows.
Qed.

(** What every step leaves behind; [kept] also that the session was not asked. *)
Definition w_ok (g g' : win_ghost) : Prop := cache_ok g' /\ w_grows g g'.
Definition w_kept (g g' : win_ghost) : Prop := w_ok g g' /\ wg_asked g' = wg_asked g.

Lemma w_ok_trans g g1 g2 : w_ok g g1 -> w_ok g1 g2 -> w_ok g g2.
Proof. intros [_ G1] [H G2]. split; [done|by etrans]. Qed.
Lemma w_kept_trans g g1 g2 : w_kept g g1 -> w_kept g1 g2 -> w_kept g g2.
Proof. intros [H1 E1] [H2 E2]. split; [by eapply w_ok_trans|congruence]. Qed.

Lemma ww_call e g (Q : wans e -> win_ghost -> Prop) :
  cache_ok g -> win_pre g e ->
  (forall r g0 g', w_others g g0 -> win_effect g0 e r g' -> w_ok g g' -> Q r g') -> wwp (wcall e) g Q.
Proof.
  intros Hok Hp HQ. apply wp_trigger; [exact Hp|]. intros r g' (g0 & Ho & He).
  destruct (w_effect_ok g0 e r g') as [Hg Hok']; [by apply Ho|by eapply win_pre_stable|done|].
  apply (HQ r g0 g'); try done. split; [done|]. destruct Ho as (Hl & Hn & _). by transitivity g0.
Qed.

(** A request that does not go to the session. *)
Definition local (e : wev) : Prop := match e with WSess _ => False | _ => True end.

Lemma ww_local e g (Q : wans e -> win_ghost -> Prop) :
  local e -> cache_ok g -> win_pre g e ->
  (forall r g0 g', w_others g g0 -> win_effect g0 e r g' -> w_kept g g' -> Q r g') -> wwp (wcall e) g Q.
Proof.
  intros Hn Hok Hp HQ. apply ww_call; [done|done|]. intros r g0 g' Ho He Hk. apply (HQ r g0 g'); try done.
  split; [done|]. destruct Ho as (_ & _ & <- & _). destruct e; cbn in He; try done; try (by subst); by destruct He as [-> _].
Qed.
End Spec.

(** The next request of a callback, when it is not to the session. *)
Ltac wstep r g0 g Ho He Hk :=
  cbv beta iota;
  lazymatch goal with
  | |- wp _ _ (mbind _ _) _ _ => apply wp_bind
  | _ => idtac
  end;
  lazymatch goal with |- wp ?total _ _ _ _ => eapply (ww_local total) end; [exact I|first [assumption|apply_hyp_ok]|try exact I|intros r g0 g Ho He Hk]
with apply_hyp_ok :=
  match goal with
  | H : w_kept _ _ ?g |- cache_ok _ ?g => apply H
  | H : w_ok _ _ ?g |- cache_ok _ ?g => apply H
  end.

(** Left alone by the others. *)
Definition delete_all {A : Type} (ks : list gostring) (m : gmap (list byte) A) : gmap (list byte) A :=
  foldl (fun (m : gmap (list byte) A) (k : gostring) => delete k m) m ks.

Lemma delete_all_lookup {A : Type} (ks : list gostring) (k : gostring) (m : gmap (list byte) A) :
  delete_all ks m !! k = if decide (k ∈ ks) then None else m !! k.
Proof.
  revert m. induction ks as [|k0 ks IH]; intros m; [done|].
  change (delete_all (k0 :: ks) m) with (delete_all ks (delete k0 m)). rewrite IH.
  destruct (decide (k ∈ ks)); [by rewrite decide_True by by right|].
  destruct (decide (k0 = k)) as [->|Hne].
  - rewrite decide_True by left. apply lookup_delete_eq.
  - rewrite lookup_delete_ne by done. rewrite decide_False; [done|]. rewrite elem_of_cons. naive_solver.
Qed.

(** ** What a callback does with the session: one call, or an immediate reply *)

Record exchange := mkExchange { ex_call : fev; ex_reply : fans ex_call -> win_reply }.

Section Does.
Context {cgo : CgoFuse} (winJoin : gostring -> gostring -> gostring) (mountpoint : gostring).

Definition err_reply (code : Z) : win_reply := WrErrno (errnoFromCode code).
Definition ok_or (code value : Z) : Z := if code =? ErrorOK then value else errnoFromCode code.

(** [None]: the callbacks that look into the cache. *)
Definition win_does (op : win_op) : option (win_reply + exchange) :=
  match op with
  | WinStatfs path => Some (inr (mkExchange (SFsStat path) (fun r => WrStatfs (
      if r.2 =? ErrorOK then
        Ok (mkStatfs_t 4096 4096 (RspFsStat_Total r.1 / 4096) (RspFsStat_Free r.1 / 4096) (RspFsStat_Available r.1 / 4096) 255 0 0)
      else Err (errnoFromCode r.2)))))
  | WinOpen path flags | WinCreate path flags =>
      Some (inr (mkExchange (SOpen path (wsfsOpenFlagFromWinOpenFlag flags) 0x1a4) (fun r => WrHandle (errnoFromCode r.2) r.1)))
  | WinMkdir path => Some (inr (mkExchange (SMkdir path 0x1ed) err_reply))
  | WinUnlink path => Some (inr (mkExchange (SRemove path) err_reply))
  | WinRmdir path => Some (inr (mkExchange (SRmDir path) err_reply))
  | WinSymlink target newpath =>
      Some (if HasPrefix target mountpoint then inr (mkExchange (SSymLink (TrimPrefix target mountpoint) newpath) err_reply)
            else inl (WrErrno (- fuse_EACCES)))
  | WinReadlink path => Some (inr (mkExchange (SReadLink path) (fun r =>
      if r.2 =? ErrorOK then WrLink 0 (winJoin mountpoint r.1) else WrLink (errnoFromCode r.2) [])))
  | WinRename oldpath newpath => Some (inr (mkExchange (SRename oldpath newpath 0) err_reply))
  | WinRename3 oldpath newpath flags => Some (inr (mkExchange (SRename oldpath newpath flags) err_reply))
  | WinTruncate path size fh =>
      let fi := mkFileInfo (u64 size) (mkTimespec 0 0) 0 0 in
      Some (inr (if fh =? u64 (-1) then mkExchange (SSetAttr path SETATTR_SIZE fi) err_reply
                 else mkExchange (SSetAttrByFD (u32 fh) SETATTR_SIZE fi) err_reply))
  | WinRead _ buff ofst fh => Some (inr (mkExchange (SReadAt (u32 fh) (u64 ofst) buff) (fun r => WrRead (ok_or r.2 (i64 r.1.2)) r.1.1)))
  | WinWrite _ buff ofst fh => Some (inr (mkExchange (SWriteAt (u32 fh) (u64 ofst) buff) (fun r => WrErrno (ok_or r.2 (i64 r.1)))))
  | WinFlush => Some (inl (WrErrno 0))
  | WinRelease _ fh => Some (inr (mkExchange (SClose (u32 fh)) err_reply))
  | WinFsync fh => Some (inr (mkExchange (SSync (u32 fh)) err_reply))
  | WinDestroy => Some (inl WrNone)
  | WinGetattr _ | WinAccess _ _ | WinReaddir _ => None
  end.

(** The keys whose records it forgets: of the listing of the parent, of the path and
    of its own listing. *)
Definition parent_keys (path : gostring) : list gostring :=
  if bool_decide (Dir path <> path) then [dirCacheKey (Dir path)] else [].
Definition forgets (path : gostring) : list gostring := parent_keys path ++ [pathCacheKey path; dirCacheKey path].
Definition forgets_pending (path : gostring) : list gostring := parent_keys path ++ [dirCacheKey path].

(** The paths an operation forgets. *)
Definition forgotten (op : win_op) : list gostring :=
  match op with
  | WinOpen path flags => if has_flag flags fuse_O_WRONLY || has_flag flags fuse_O_RDWR then [path] else []
  | WinUnlink path | WinRmdir path | WinCreate path _ | WinTruncate path _ _ | WinRelease path _ => [path]
  | WinSymlink target newpath => if HasPrefix target mountpoint then [TrimPrefix target mountpoint; newpath] else []
  | WinRename oldpath newpath | WinRename3 oldpath newpath _ => [oldpath; newpath]
  | _ => []
  end.

Definition forgotten_keys (op : win_op) : list gostring :=
  match op with WinMkdir path => parent_keys path | _ => concat (map forgets (forgotten op)) end.
Definition forgotten_pending (op : win_op) : list gostring :=
  match op with WinMkdir path => parent_keys path | _ => concat (map forgets_pending (forgotten op)) end.
End Does.

Section Handlers.
Context {cgo : CgoFuse} (winJoin : gostring -> gostring -> gostring) (timeout : Z) (mountpoint : gostring) (total alone : bool).
Abbreviation wwp p g Q := (wp (ans := wans) total (win_env timeout alone) p g Q).
Abbreviation cache_ok := (cache_ok timeout).
Abbreviation w_kept := (w_kept timeout).
Abbreviation w_ok := (w_ok timeout).

(** ** Deleting *)

Definition wiped (cks pks : list gostring) (g g' : win_ghost) : Prop :=
  w_kept g g' /\
  (alone = true -> wg_cache g' = delete_all cks (wg_cache g) /\ wg_pending g' = delete_all pks (wg_pending g)).

Lemma wiped_refl g : cache_ok g -> wiped [] [] g g.
Proof. done. Qed.

Lemma wiped_trans a b c d g g1 g2 : wiped a b g g1 -> wiped c d g1 g2 -> wiped (a ++ c) (b ++ d) g g2.
Proof.
  intros [H1 E1] [H2 E2]. split; [by eapply w_kept_trans|]. intros Ha. destruct (E1 Ha) as [Ec Ep], (E2 Ha) as [Ec2 Ep2].
  unfold delete_all in *. by rewrite !foldl_app, <-Ec, <-Ep.
Qed.

(** A program that only forgets. *)
Definition wipes (p : WP unit) (cks pks : list gostring) : Prop :=
  forall g, cache_ok g -> wwp p g (fun _ g' => wiped cks pks g g').

Lemma wipes_ret : wipes (mret tt) [] [].
Proof. by intros g Hok. Qed.

Lemma wipes_seq p q a b c d : wipes p a b -> wipes q c d -> wipes (p ;; q) (a ++ c) (b ++ d).
Proof.
  intros Hp Hq g Hok. apply wp_bind. eapply wp_mono; [by apply Hp|]. intros [] g1 H1.
  eapply wp_mono; [apply Hq, H1|]. intros [] g2 H2. by eapply wiped_trans.
Qed.

Lemma wipes_cache key : wipes (cache_Del key) [key] [].
Proof.
  intros g Hok. unfold cache_Del. wstep r g0 g1 Ho He Hk. split; [done|].
  cbn in He. subst g1. intros Ha. by destruct Ho as (_ & _ & _ & _ & [<- <-]%(fun H => H Ha)).
Qed.

Lemma wipes_pending key : wipes (wcall (PDelete key)) [] [key].
Proof.
  intros g Hok. wstep r g0 g1 Ho He Hk. split; [done|].
  cbn in He. subst g1. intros Ha. by destruct Ho as (_ & _ & _ & _ & [<- <-]%(fun H => H Ha)).
Qed.

Lemma wipes_dir key : wipes (deleteDirState key) [key] [key].
Proof. apply (wipes_seq _ _ [key] [] [] [key]); [apply wipes_cache|apply wipes_pending]. Qed.

Lemma wipes_path path : wipes (deletePathState path) [pathCacheKey path; dirCacheKey path] [dirCacheKey path].
Proof. apply (wipes_seq _ _ [_] [] [_] [_]); [apply wipes_cache|apply wipes_dir]. Qed.

Lemma wipes_parent path : wipes (delParentCache path) (parent_keys path) (parent_keys path).
Proof. unfold delParentCache, parent_keys. case_bool_decide; [apply wipes_dir|apply wipes_ret]. Qed.

(** delParentCache(path); deletePathState(path). *)
Lemma wipes_forgets path : wipes (delParentCache path ;; deletePathState path) (forgets path) (forgets_pending path).
Proof. apply wipes_seq; [apply wipes_parent|apply wipes_path]. Qed.

(** ** One call *)

(** What a callback that does not look into the cache does. *)
Definition done_with (act : win_reply + exchange) (cks pks : list gostring) (g : win_ghost) (r : win_reply) (g' : win_ghost) : Prop :=
  w_ok g g' /\
  match act with
  | inl reply => r = reply /\ wg_asked g' = wg_asked g
  | inr (mkExchange e reply) => exists a, wg_asked g' = wg_asked g ++ [said_of e a] /\ r = reply a
  end /\
  (alone = true -> wg_cache g' = delete_all cks (wg_cache g) /\ wg_pending g' = delete_all pks (wg_pending g)).

Lemma ww_exchange e (reply : fans e -> win_reply) (k : fans e -> WP win_reply) g :
  cache_ok g -> (forall r, k r = mret (reply r)) ->
  wwp (sess e ≫= k) g (done_with (inr (mkExchange e reply)) [] [] g).
Proof.
  intros Hok Hk. apply wp_bind. apply ww_call; [done|done|]. intros r g0 g' Ho He Hw. rewrite Hk. cbn [wp]. unfold mret, prog_ret; cbn [wp].
  cbn in He. subst g'. split_and!; [done| |].
  - exists r. destruct Ho as (_ & _ & <- & _). done.
  - intros Ha. by destruct Ho as (_ & _ & _ & _ & [<- <-]%(fun H => H Ha)).
Qed.

Lemma done_after act a b c d g g1 r g2 : wiped a b g g1 -> done_with act c d g1 r g2 -> done_with act (a ++ c) (b ++ d) g r g2.
Proof.
  intros [[H1 E1] E2] (H2 & E3 & E4). split_and!; [by eapply w_ok_trans|by rewrite <-E1|]. intros Ha.
  destruct (E2 Ha) as [Ec Ep], (E4 Ha) as [Ec2 Ep2]. unfold delete_all in *. by rewrite !foldl_app, <-Ec, <-Ep.
Qed.

(** A callback forgets, and then does the rest. *)
Lemma ww_wipe_then p (k : WP win_reply) act a b c d g :
  wipes p a b -> cache_ok g -> (forall g', cache_ok g' -> wwp k g' (done_with act c d g')) ->
  wwp (p ;; k) g (done_with act (a ++ c) (b ++ d) g).
Proof.
  intros Hp Hok Hk. apply wp_bind. eapply wp_mono; [by apply Hp|]. intros [] g1 H1.
  eapply wp_mono; [apply Hk, H1|]. intros r g2 H2. by eapply done_after.
Qed.

Lemma bind_assoc {A B C} (p : WP A) (f : A -> WP B) (h : B -> WP C) g Q :
  wwp (p ≫= (fun a => f a ≫= h)) g Q -> wwp ((p ≫= f) ≫= h) g Q.
Proof.
  revert g. induction p as [a|e k IH| |]; intros g; [done| |done|done].
  intros [Hp Hk]. split; [done|]. intros r g' Hr. by apply IH, Hk.
Qed.

Lemma ww_forgets {A} (c : A -> win_reply) path (k : WP A) act a b g :
  cache_ok g -> (forall g', cache_ok g' -> wwp (win_into c k) g' (done_with act a b g')) ->
  wwp (win_into c (delParentCache path ;; deletePathState path ;; k)) g
    (done_with act (forgets path ++ a) (forgets_pending path ++ b) g).
Proof.
  intros Hok Hk. unfold forgets, forgets_pending. rewrite <-!app_assoc.
  apply bind_assoc, ww_wipe_then; [apply wipes_parent|done|]. intros g1 H1.
  apply bind_assoc, ww_wipe_then; [apply wipes_path|done|done].
Qed.

Lemma ww_done act g r : cache_ok g -> act = inl r -> wwp (mret r) g (done_with act [] [] g).
Proof. by intros Hok ->. Qed.

(** The call to the session at the head of a program. *)
#[local] Ltac asks :=
  lazymatch goal with
  | |- wp _ _ ?p _ _ => let p' := eval hnf in p in
      lazymatch p' with Vis (WSess ?e) ?k => change p with (sess e ≫= k) end
  end;
  apply ww_exchange; [done|]; intros r; cbn in r; repeat match goal with x : _ * _ |- _ => destruct x end; cbn; unfold ok_or; cbn;
  try match goal with |- context [negb ?b] => destruct b end; done.

(** Every callback that does not look into the cache makes the one call it stands
    for, after it has forgotten what the call may change. *)
Lemma ww_does op act g :
  cache_ok g -> win_does winJoin mountpoint op = Some act ->
  wwp (win_handle winJoin timeout mountpoint op) g
    (done_with act (forgotten_keys mountpoint op) (forgotten_pending mountpoint op) g).
Proof.
  intros Hok Hd. destruct op; cbn in Hd; try done; injection Hd as <-; unfold win_handle, forgotten_keys, forgotten_pending; cbn [forgotten map concat].
  all: try (by asks).
  all: try (by repeat (apply ww_forgets; [done|intros]); asks).
  - unfold Open. destruct (_ || _); cbn [map concat]; [|asks]. apply bind_assoc, ww_wipe_then; [|done|intros; asks].
    apply wipes_forgets.
  - rewrite <-(app_nil_r (parent_keys path)). apply bind_assoc, ww_wipe_then; [apply wipes_parent|done|intros; asks].
  - unfold Symlink. destruct (HasPrefix target mountpoint); cbn [negb map concat]; [|by apply ww_done].
    apply ww_forgets; [done|]. intros. apply ww_forgets; [done|]. intros. asks.
  - unfold Truncate. apply ww_forgets; [done|]. intros. destruct (fh =? _); asks.
  - by apply ww_done.
  - unfold win_into, Destroy. wstep r g0 g1 Ho He Hk. cbn in He. subst g1. split_and!; [apply Hk|done|by apply Hk|].
    intros Ha. by destruct Ho as (_ & _ & _ & _ & [<- <-]%(fun H => H Ha)).
Qed.

(** ** The cache *)

Lemma ww_Set key val g :
  cache_ok g -> told_attr (wg_log g) (pathCacheKey key) (cd_attr val) ->
  (forall items, cd_items val = Some items -> told_list (wg_log g) key items) ->
  wwp (cache_Set timeout key val) g (fun _ g' => w_kept g g').
Proof.
  intros Hok Ha Hi. unfold cache_Set. wstep now g0 g1 Ho He Hk. destruct He as [-> ->].
  assert (w_grows g g0) as [Hl Hn] by apply Hk.
  wstep u g2 g3 Ho2 He2 Hk2; [|by eapply w_kept_trans].
  split_and!; [by eapply told_attr_grows| |done]. intros items Ei. eapply told_list_grows; [done|by apply Hi].
Qed.

(** What a cached record says. *)
Definition true_data (log : list wfact) (key : gostring) (val : cachedData) : Prop :=
  told_attr log (pathCacheKey key) (cd_attr val) /\ forall items, cd_items val = Some items -> told_list log key items.

(** Nothing is cached under [key], and nobody else is at work. *)
Definition missing (key : gostring) (g : win_ghost) : Prop := alone = true /\ wg_cache g !! key = None.
Definition missing_dir (key : gostring) (g : win_ghost) : Prop := missing key g /\ wg_pending g !! key = None.

Definition unchanged (g g' : win_ghost) : Prop := w_kept g g' /\ wg_cache g' = wg_cache g /\ wg_pending g' = wg_pending g.

Lemma ww_Get key g :
  cache_ok g ->
  wwp (cache_Get key) g (fun r g' => w_kept g g' /\ (missing key g -> r = None /\ unchanged g g') /\
    match r with None => True | Some val => true_data (wg_log g') key val end).
Proof.
  intros Hok. unfold cache_Get. wstep c g0 g1 Ho He Hk. destruct He as [-> ->].
  destruct (wg_cache g0 !! key) as [[expireAt val]|] eqn:Ec.
  - assert (missing key g -> False) as Hm.
    { intros [Ha Hc]. destruct Ho as (_ & _ & _ & _ & Ho). destruct (Ho Ha) as [Eg _]. congruence. }
    assert (record_ok timeout g0 key (mkCacheRecord expireAt val)) as (Ha & Hi & Hx) by by apply Hk.
    wstep now g2 g3 Ho2 He2 Hk2. destruct He2 as [-> ->]. assert (w_kept g g2) as Hk3 by by eapply w_kept_trans.
    destruct (_ <? 0).
    + wstep u g4 g5 Ho4 He4 Hk4. split_and!; [by eapply w_kept_trans|by intros ?%Hm|done].
    + split_and!; [done|by intros ?%Hm|]. destruct Ho2 as (Hl & _). split; [by eapply told_attr_grows|].
      intros items Ei. eapply told_list_grows; [done|by apply Hi].
  - split_and!; [done| |done]. intros [Ha _]. split; [done|]. split; [done|]. by apply Ho.
Qed.

(** ** Getattr *)

Definition honest_child (log : list wfact) (dirKey name : gostring) (r : result Z Stat_t) : Prop :=
  exists items, told_list log dirKey items /\
    match r with
    | Ok stat => exists it, it ∈ items /\ di_Name it.2 = name /\ stat = statFromFileInfo (fileInfoFromDirItem it.2)
    | Err e => e = - fuse_ENOENT /\ Forall (fun it : entry => di_Name it.2 <> name) items
    end.

Lemma ww_lookup dirKey name g :
  cache_ok g ->
  wwp (lookupChildFromDirCache dirKey name) g (fun r g' => w_kept g g' /\ (missing dirKey g -> r = None /\ unchanged g g') /\
    match r with None => True | Some r => honest_child (wg_log g') dirKey name r end).
Proof.
  intros Hok. unfold lookupChildFromDirCache. apply wp_bind. eapply wp_mono; [by apply ww_Get|].
  intros [[[items|] attr]|] g1 (Hk & Hm & Ht); [|split_and!; [done| |done]; intros [? ?]%Hm; done..].
  split_and!; [done|by intros [? _]%Hm|]. destruct Ht as [_ Ht]. exists items. split; [by apply Ht|].
  destruct (find_item name items) as [it|] eqn:Ef.
  - apply List.find_some in Ef as [Hi Hn%bool_decide_eq_true]. exists it. split_and!; [by apply list_elem_of_In|done|done].
  - split; [done|]. apply Forall_forall. intros it Hi Hn. apply list_elem_of_In in Hi.
    apply (List.find_none _ _ Ef) in Hi. by rewrite bool_decide_eq_false in Hi.
Qed.

Lemma missing_kept key g g' : unchanged g g' -> missing key g -> missing key g'.
Proof. intros (_ & Hc & Hp) [Ha H]. unfold missing. by rewrite Hc. Qed.

Lemma unchanged_trans g g1 g2 : unchanged g g1 -> unchanged g1 g2 -> unchanged g g2.
Proof. intros (H1 & C1 & P1) (H2 & C2 & P2). split_and!; [by eapply w_kept_trans|congruence..]. Qed.

Lemma ww_parent path g :
  cache_ok g ->
  wwp (getattr_parent path) g (fun r g' => w_kept g g' /\
    ((Dir path <> path -> missing_dir (dirCacheKey (Dir path)) g) -> alone = true -> r = None /\ unchanged g g') /\
    match r with None => True | Some r => Dir path <> path /\ honest_child (wg_log g') (dirCacheKey (Dir path)) (Base path) r end).
Proof.
  intros Hok. unfold getattr_parent. case_bool_decide as Hd; [|by split_and!]. cbv zeta. set (K := dirCacheKey (Dir path)).
  apply wp_bind. eapply wp_mono; [by apply ww_lookup|]. intros [r|] g1 (Hk & Hm & Hr).
  { split_and!; [done|by intros [[? _]%Hm _]%(fun H => H Hd)|done|done]. }
  unfold loadPendingDir. wstep ch g2 g3 Ho He Hk2. destruct He as [-> ->].
  assert (w_kept g g2) as Hk3 by by eapply w_kept_trans.
  destruct (wg_pending g2 !! K) as [ch|] eqn:Ep.
  - assert (missing_dir K g -> False) as Hm2.
    { intros [Hg Hp]. destruct (Hm Hg) as (_ & _ & _ & Hu). pose proof (proj1 Hg) as Ha.
      destruct Ho as (_ & _ & _ & _ & Ho). destruct (Ho Ha). congruence. }
    wstep u g4 g5 Ho4 He4 Hk4. cbn in He4. subst g5. apply wp_bind. eapply wp_mono; [apply ww_lookup, Hk4|].
    intros [r|] g6 (Hk6 & _ & Hr6).
    + split_and!; [by do 2 (eapply w_kept_trans; [done|])|by intros ?%(fun H => Hm2 (H Hd))|done|done].
    + wstep v g7 g8 Ho7 He7 Hk7. split_and!; [by do 3 (eapply w_kept_trans; [done|])|by intros ?%(fun H => Hm2 (H Hd))|done].
  - split_and!; [done| |done]. intros Hg Ha. split; [done|]. destruct (Hm (proj1 (Hg Hd))) as [_ Hu].
    eapply unchanged_trans; [done|]. split; [done|]. by apply Ho.
Qed.

(** The reply of a call for attributes. *)
Definition attr_reply (a : FileInfo * Z) : result Z FileInfo := if a.2 =? ErrorOK then Ok a.1 else Err (errnoFromCode a.2).
Definition stat_of (r : result Z FileInfo) : result Z Stat_t :=
  match r with Ok fi => Ok (statFromFileInfo fi) | Err e => Err e end.

(** Attributes the session told, or an error it gave. *)
Definition honest_attr (log : list wfact) (path : gostring) (r : result Z FileInfo) : Prop :=
  match r with
  | Ok fi => told_attr log (pathCacheKey path) fi
  | Err e => exists code, code <> ErrorOK /\ WNoAttr path code ∈ log /\ e = errnoFromCode code
  end.

(** CmdGetAttr, and the record of its answer in the cache. *)
Definition fetch_attr (path : gostring) : WP (result Z FileInfo) :=
  r ← sess (SGetAttr path);
  let '(fi, code) := r in
  if negb (code =? ErrorOK) then mret (Err (errnoFromCode code))
  else
    cache_Set timeout (pathCacheKey path) (mkCachedData None fi) ;;
    mret (Ok fi).

Lemma ww_fetch path g :
  cache_ok g ->
  wwp (fetch_attr path) g (fun r g' => w_ok g g' /\ honest_attr (wg_log g') path r /\
    exists a, wg_asked g' = wg_asked g ++ [said_of (SGetAttr path) a] /\ r = attr_reply a).
Proof.
  intros Hok. unfold fetch_attr. apply wp_bind. apply ww_call; [done|done|]. intros a g0 g1 Ho He Hk. cbn in He.
  assert (wg_asked g1 = wg_asked g ++ [said_of (SGetAttr path) a]) as Hask by (subst g1; cbn; by destruct Ho as (_ & _ & -> & _)).
  destruct a as [fi code]. unfold attr_reply.
  assert ((if code =? ErrorOK then WAttr path fi else WNoAttr path code) ∈ wg_log g1) as Hl by (subst g1; by left).
  destruct (code =? ErrorOK) eqn:Ec; cbn [negb].
  - assert (told_attr (wg_log g1) (pathCacheKey path) fi) as Ht by by apply told_getattr.
    apply wp_bind. eapply wp_mono; [apply ww_Set; [apply Hk| |done]|].
    + unfold pathCacheKey at 1. by rewrite normalize_idem.
    + intros u g2 Hk2. split_and!.
      * eapply w_ok_trans; [done|apply Hk2].
      * eapply told_attr_grows; [apply Hk2|done].
      * eexists. split; [rewrite (proj2 Hk2); exact Hask|]. cbn [fst snd]. by rewrite Ec.
  - split_and!; [done| |eexists; split; [exact Hask|]; cbn [fst snd]; by rewrite Ec].
    exists code. split_and!; [by apply Z.eqb_neq|done|done].
Qed.

(** The attributes a reply to Getattr may show. *)
Definition honest_getattr (log : list wfact) (path : gostring) (r : result Z Stat_t) : Prop :=
  (exists r', honest_attr log path r' /\ r = stat_of r') \/
  Dir path <> path /\ honest_child log (dirCacheKey (Dir path)) (Base path) r.

Lemma honest_getattr_told log path r :
  win_path path -> honest_getattr log path r ->
  match r with
  | Ok stat => exists fi, told_attr log path fi /\ stat = statFromFileInfo fi
  | Err e =>
      (exists code, code <> ErrorOK /\ WNoAttr path code ∈ log /\ e = errnoFromCode code) \/
      e = - fuse_ENOENT /\ exists items, told_list log (dirCacheKey (Dir path)) items /\
        Forall (fun it : entry => di_Name it.2 <> Base path) items
  end.
Proof.
  clear winJoin. intros Hp [([fi|e] & Hr & ->)|[Hd (items & Hl & Hr)]].
  - exists fi. split; [|done]. rewrite <-(win_path_key path) by done. exact Hr.
  - left. exact Hr.
  - destruct r as [stat|e]; [|right; naive_solver]. destruct Hr as (it & Hi & Hn & ->). eexists. split; [|done].
    destruct (win_path_split path) as (_ & E & _); [done..|]. rewrite <-(win_path_key path) by done. rewrite <-E at 1.
    rewrite <-Hn. replace (pathCacheKey (dirCacheKey (Dir path) ++ di_Name it.2)) with (pathCacheKey (child_path (dirCacheKey (Dir path)) it)).
    + by eapply told_item.
    + unfold child_path, pathCacheKey. by rewrite app_assoc, normalize_snoc.
Qed.

Lemma ww_fetch_stat path g (Q : result Z Stat_t -> win_ghost -> Prop) :
  wwp (fetch_attr path) g (fun r g' => Q (stat_of r) g') ->
  wwp (r ← sess (SGetAttr path);
       let '(fi, code) := r in
       if negb (code =? ErrorOK) then mret (Err (errnoFromCode code))
       else cache_Set timeout (pathCacheKey path) (mkCachedData None fi) ;; mret (Ok (statFromFileInfo fi))) g Q.
Proof.
  intros [Hp Hk]. split; [done|]. intros [fi code] g' Hr. specialize (Hk (fi, code) g' Hr). cbn in Hk |- *.
  destruct (negb _); [done|]. exact Hk.
Qed.

Lemma ww_Getattr path g :
  cache_ok g ->
  wwp (Getattr timeout path) g (fun r g' => w_ok g g' /\ honest_getattr (wg_log g') path r /\
    ((Dir path <> path -> missing_dir (dirCacheKey (Dir path)) g) -> missing (pathCacheKey path) g ->
     exists a, wg_asked g' = wg_asked g ++ [said_of (SGetAttr path) a] /\ r = stat_of (attr_reply a))).
Proof.
  intros Hok. unfold Getattr. apply wp_bind. eapply wp_mono; [by apply ww_parent|]. intros [r|] g1 (Hk & Hm & Hr).
  { split_and!; [apply Hk|by right|]. intros Hd [Ha _]. by destruct (Hm Hd Ha). }
  apply wp_bind. eapply wp_mono; [apply ww_Get, Hk|]. intros [val|] g2 (Hk2 & Hm2 & Ht).
  - split_and!; [apply (w_kept_trans _ _ _ _ Hk Hk2)|left; exists (Ok (cd_attr val))|].
    + split; [|done]. destruct Ht as [Ht _]. unfold pathCacheKey in Ht at 1. by rewrite normalize_idem in Ht.
    + intros Hd Hg. destruct (Hm Hd (proj1 Hg)) as [_ Hu]. by destruct (Hm2 (missing_kept _ _ _ Hu Hg)).
  - apply ww_fetch_stat. eapply wp_mono; [apply ww_fetch, Hk2|]. intros r g3 (Hk3 & Hh & a & Hask & ->).
    split_and!; [|left; by eexists|].
    + eapply w_ok_trans; [|exact Hk3]. apply (w_kept_trans _ _ _ _ Hk Hk2).
    + intros _ _. exists a. split; [|done]. by rewrite Hask, (proj2 Hk2), (proj2 Hk).
Qed.

(** ** Access *)

Definition honest_access (log : list wfact) (path : gostring) (mask e : Z) : Prop :=
  e = fuseOK /\ (has_flag mask fuse_DELETE_OK = false \/
    (exists fi, told_attr log (pathCacheKey path) fi /\ has_flag (FileInfo_Mode fi) ModeDir = false) \/ WList path [] ∈ log) \/
  e = - fuse_EPERM /\ (exists items, WList path items ∈ log /\ items <> []) \/
  exists code, code <> ErrorOK /\ e = errnoFromCode code /\ (WNoAttr path code ∈ log \/ WNoList path code ∈ log).

Lemma ww_access_attr path g :
  cache_ok g -> wwp (access_attr timeout path) g (fun r g' => w_ok g g' /\ honest_attr (wg_log g') path r).
Proof.
  intros Hok. unfold access_attr. apply wp_bind. eapply wp_mono; [by apply ww_Get|]. intros [val|] g1 (Hk & _ & Ht).
  - split; [apply Hk|]. destruct Ht as [Ht _]. unfold pathCacheKey in Ht at 1. by rewrite normalize_idem in Ht.
  - eapply wp_mono; [apply ww_fetch, Hk|]. intros r g2 (Hk2 & Hh & _). split; [|done]. by eapply w_ok_trans; [apply Hk|].
Qed.

Lemma ww_Access path mask g :
  cache_ok g -> wwp (Access timeout path mask) g (fun e g' => w_ok g g' /\ honest_access (wg_log g') path mask e).
Proof.
  intros Hok. unfold Access. destruct (has_flag mask _) eqn:Em; cbn [negb]; [|split; [done|by left; split; [|left]]].
  apply wp_bind. eapply wp_mono; [by apply ww_access_attr|]. intros [fi|e] g1 (Hk & Hh).
  2:{ split; [done|]. destruct Hh as (code & Hc & Hl & ->). right. right. exists code. eauto. }
  destruct (has_flag (FileInfo_Mode fi) ModeDir) eqn:Ed; cbn [negb]; [|split; [done|left; split; [done|right; left; eauto]]].
  apply wp_bind, ww_call; [apply Hk|done|]. intros [items code] g2 g3 Ho He Hk3. assert (w_ok g g3) as Hk4 by by eapply w_ok_trans.
  assert ((if code =? ErrorOK then WList path (default [] items) else WNoList path code) ∈ wg_log g3) as Hl by (cbn in He; subst g3; by left).
  destruct (code =? ErrorOK) eqn:Ec; cbn [negb].
  - destruct (default [] items) as [|it l] eqn:Ei.
    + split; [done|]. left. split; [done|]. by right; right.
    + split; [done|]. right. left. split; [done|]. by exists (it :: l).
  - apply Z.eqb_neq in Ec. split; [done|]. right. right. exists code. eauto.
Qed.

(** ** Readdir *)

Definition honest_dir (log : list wfact) (path : gostring) (r : result Z (list (gostring * option Stat_t))) : Prop :=
  match r with
  | Ok l => exists varfi items, told_attr log path varfi /\ told_list log (dirCacheKey path) items /\ l = fills varfi items
  | Err e => exists code, code <> ErrorOK /\ e = errnoFromCode code /\
      (WNoAttr (dirCacheKey path) code ∈ log \/ WNoList (dirCacheKey path) code ∈ log)
  end.

Lemma ww_readdir_cached key g :
  cache_ok g ->
  wwp (readdir_cached key) g (fun r g' => w_ok g g' /\
    match r with None => True | Some (fi, items) => told_attr (wg_log g') (pathCacheKey key) fi /\ told_list (wg_log g') key items end).
Proof.
  intros Hok. unfold readdir_cached. apply wp_bind. eapply wp_mono; [by apply ww_Get|]. intros c g1 (Hk & _ & Ht).
  assert (wwp (pendingCh ← loadPendingDir key;
      match pendingCh with
      | None => mret None
      | Some pendingCh =>
          wcall (Receive pendingCh) ;;
          cache ← cache_Get key;
          match cache with
          | Some (mkCachedData (Some items) attr) => mret (Some (attr, items))
          | _ => wcall (PDelete key) ;; mret None
          end
      end) g1 (fun r g' => w_ok g g' /\
    match r with None => True | Some (fi, items) => told_attr (wg_log g') (pathCacheKey key) fi /\ told_list (wg_log g') key items end)) as Hwait.
  { unfold loadPendingDir. wstep ch g2 g3 Ho He Hk2. assert (w_ok g g3) as Hk3 by (apply (w_kept_trans _ _ _ _ Hk Hk2)).
    destruct ch as [ch|]; [|by split]. wstep u g4 g5 Ho4 He4 Hk4. apply wp_bind. eapply wp_mono; [apply ww_Get, Hk4|].
    intros c6 g6 (Hk6 & _ & Ht6). assert (w_ok g g6) as Hk7 by (eapply w_ok_trans; [exact Hk3|]; apply (w_kept_trans _ _ _ _ Hk4 Hk6)).
    assert (wwp (wcall (PDelete key) ;; mret None) g6 (fun r g' => w_ok g g' /\
      match r with None => True | Some (fi, items) => told_attr (wg_log g') (pathCacheKey key) fi /\ told_list (wg_log g') key items end)) as Hdel.
    { wstep v g7 g8 Ho7 He7 Hk8. split; [|done]. eapply w_ok_trans; [exact Hk7|apply Hk8]. }
    destruct c6 as [[[items|] attr]|]; [|exact Hdel..]. split; [done|]. destruct Ht6 as [Ha Hi]. split; [done|by apply Hi]. }
  destruct c as [[[items|] attr]|]; [|exact Hwait..]. split; [apply Hk|]. destruct Ht as [Ha Hi]. split; [done|by apply Hi].
Qed.

Lemma ww_store_pending path items g : cache_ok g -> wwp (store_pending path items) g (fun _ g' => w_ok g g').
Proof.
  revert g. induction items as [|it items IH]; intros g Hok; [done|]. cbn [store_pending]. apply wp_bind.
  destruct (PrefetchReady it); [|by apply IH]. unfold storePendingDir. wstep u g0 g1 Ho He Hk.
  eapply wp_mono; [apply IH, Hk|]. intros v g2 Hk2. eapply w_ok_trans; [apply Hk|done].
Qed.

Lemma ww_readdir_fetch path key g :
  cache_ok g -> dirCacheKey path = path -> key = path ->
  wwp (readdir_fetch timeout path key) g (fun r g' => w_ok g g' /\
    match r with
    | Ok (fi, items) => told_attr (wg_log g') (pathCacheKey path) fi /\ told_list (wg_log g') path (default [] items)
    | Err e => exists code, code <> ErrorOK /\ e = errnoFromCode code /\ (WNoAttr path code ∈ wg_log g' \/ WNoList path code ∈ wg_log g')
    end).
Proof.
  intros Hok Hpath ->. unfold readdir_fetch. apply wp_bind, ww_call; [done|done|]. intros [fi code] g0 g1 Ho He Hk.
  assert ((if code =? ErrorOK then WAttr path fi else WNoAttr path code) ∈ wg_log g1) as Hl by (cbn in He; subst g1; by left).
  destruct (code =? ErrorOK) eqn:Ec; cbn [negb].
  2:{ apply Z.eqb_neq in Ec. split; [done|]. exists code. eauto. }
  assert (forall p g2 (r : option (list entry) * Z), w_ok g1 g2 ->
    (if r.2 =? ErrorOK then WList p (default [] r.1) else WNoList p r.2) ∈ wg_log g2 -> p = path ->
    wwp (let '(items, code) := r in
      if negb (code =? ErrorOK) then mret (Err (errnoFromCode code))
      else
        store_pending path (default [] items) ;;
        wcall (GoPrefetched path (default [] items)) ;;
        cache_Set timeout path (mkCachedData items fi) ;;
        mret (Ok (fi, items))) g2 (fun r g' => w_ok g g' /\
    match r with
    | Ok (fi, items) => told_attr (wg_log g') (pathCacheKey path) fi /\ told_list (wg_log g') path (default [] items)
    | Err e => exists code, code <> ErrorOK /\ e = errnoFromCode code /\ (WNoAttr path code ∈ wg_log g' \/ WNoList path code ∈ wg_log g')
    end)) as Hrest.
  { intros p g2 [items c] Hk2 Hl2 ->. cbn [fst snd] in *. assert (w_ok g g2) as Hk3 by by eapply w_ok_trans.
    destruct (c =? ErrorOK) eqn:Ec2; cbn [negb].
    2:{ apply Z.eqb_neq in Ec2. split; [done|]. exists c. eauto. }
    apply wp_bind. eapply wp_mono; [apply ww_store_pending, Hk3|]. intros u0 g4 Hk4. change (w_ok g2 g4) in Hk4.
    assert (told_list (wg_log g4) path (default [] items)) as Ht.
    { rewrite <-Hpath at 1. apply told_asked. destruct Hk4 as (_ & Hl4 & _). by apply Hl4. }
    wstep u g5 g6 Ho5 He5 Hk6; [exact Ht|]. apply wp_bind.
    assert (w_grows g1 g6) as [Hg16 _] by (etrans; [apply Hk2|]; etrans; [apply Hk4|apply Hk6]).
    assert (told_attr (wg_log g6) (pathCacheKey path) fi) as Ha by by apply told_getattr, Hg16.
    assert (told_list (wg_log g6) path (default [] items)) as Ht6 by (eapply told_list_grows; [apply Hk6|done]).
    eapply wp_mono; [apply ww_Set; [apply Hk6|done|]|]; [by intros l [= ->]|]. intros v g7 Hk7. split.
    - eapply w_ok_trans; [exact Hk3|]. eapply w_ok_trans; [exact Hk4|]. apply (w_kept_trans _ _ _ _ Hk6 Hk7).
    - split; [by eapply told_attr_grows; [apply Hk7|]|by eapply told_list_grows; [apply Hk7|]]. }
  apply wp_bind, ww_call; [apply Hk|done|]. intros [items c] g2 g3 Ho2 He2 Hk3. apply wp_bind. cbn [snd].
  destruct (c =? ErrorOK) eqn:Ec2; cbn [negb].
  - apply (Hrest path g3 (items, c)); [done| |done]. cbn in He2. subst g3. by left.
  - apply ww_call; [apply Hk3|done|]. intros [items2 c2] g4 g5 Ho4 He4 Hk5. apply (Hrest path g5 (items2, c2)); [by eapply w_ok_trans| |done].
    cbn in He4. subst g5. by left.
Qed.

Lemma ww_Readdir path g :
  cache_ok g -> win_path path ->
  wwp (Readdir timeout path) g (fun r g' => w_ok g g' /\ honest_dir (wg_log g') path r).
Proof.
  intros Hok Hp. unfold Readdir. destruct (last path) as [c|] eqn:El; [|by apply win_path_not_nil in Hp].
  set (path' := if negb (bool_decide (c = slash)) then path ++ [slash] else path).
  assert (path' = dirCacheKey path) as Ep.
  { rewrite win_path_dir by done. unfold path'. rewrite El. destruct (decide (c = slash)) as [->|Hc].
    - by rewrite !bool_decide_true.
    - rewrite !bool_decide_false by congruence. done. }
  assert (dirCacheKey path' = path') as Ek by (rewrite Ep; apply dir_of_dir_key).
  assert (pathCacheKey path' = path) as Ea by (rewrite Ep, path_of_dir_key; by apply win_path_key).
  apply wp_bind. eapply wp_mono; [by apply ww_readdir_cached|]. intros [[fi items]|] g1 (Hk & Ht).
  - split; [done|]. destruct Ht as [Ha Hi]. exists fi, items. rewrite path_of_dir_key, win_path_key in Ha by done. done.
  - apply wp_bind. eapply wp_mono; [by apply (ww_readdir_fetch path'); [apply Hk|done|]|]. intros [[fi items]|e] g2 (Hk2 & Ht2).
    + split; [by eapply w_ok_trans|]. destruct Ht2 as [Ha Hi]. rewrite Ea in Ha. exists fi, (default [] items). by rewrite <-Ep.
    + split; [by eapply w_ok_trans|]. cbn. by rewrite <-Ep.
Qed.

(** ** The goroutines *)

Lemma ww_prefetched parentPath items items0 g :
  cache_ok g -> told_list (wg_log g) parentPath items0 -> items ⊆ items0 ->
  wwp (cachePrefetchedDirChildren timeout parentPath items) g (fun _ g' => w_ok g g').
Proof.
  clear winJoin. revert g. induction items as [|it items IH]; intros g Hok Ht Hsub; [done|]. cbn [cachePrefetchedDirChildren].
  assert (forall g', w_ok g g' -> wwp (cachePrefetchedDirChildren timeout parentPath items) g' (fun _ g2 => w_ok g g2)) as Hrest.
  { intros g' Hk. eapply wp_mono; [apply IH; [apply Hk|by eapply told_list_grows; [apply Hk|]|set_solver]|].
    intros u g2 Hk2. by eapply w_ok_trans. }
  apply wp_bind. destruct (PrefetchReady it) as [ch|]; [|by apply Hrest]. cbv zeta.
  assert (forall key g', w_ok g g' -> wwp (deletePendingIfMatch key ch) g' (fun _ g2 =>
    wwp (cachePrefetchedDirChildren timeout parentPath items) g2 (fun _ g3 => w_ok g g3))) as Hdel.
  { intros key g' Hk. unfold deletePendingIfMatch. wstep v g0 g1 Ho He Hk1. case_bool_decide.
    - wstep u g2 g3 Ho2 He2 Hk3. apply Hrest. eapply w_ok_trans; [exact Hk|]. apply (w_kept_trans _ _ _ _ Hk1 Hk3).
    - apply Hrest. eapply w_ok_trans; [exact Hk|apply Hk1]. }
  apply wp_bind, ww_call; [done|done|]. intros [kids data] g0 g1 Ho He Hk. cbn [fst].
  destruct kids as [kids|]; [|by apply Hdel].
  assert (told_list (wg_log g1) parentPath items0) as Ht1 by (eapply told_list_grows; [apply Hk|done]).
  assert (it ∈ items0) as Hi by set_solver.
  assert (told_attr (wg_log g1) (pathCacheKey (child_path parentPath it)) (fileInfoFromDirItem it.2)) as Ha by by eapply told_item.
  assert (told_list (wg_log g1) (dirCacheKey (child_path parentPath it)) kids) as Hl.
  { eapply told_prefetched; [done|done|]. cbn in He. subst g1. by left. }
  apply wp_bind. eapply wp_mono; [apply ww_Set; [apply Hk|by rewrite path_of_dir_key|by intros ? [= <-]]|].
  intros u g2 Hk2. apply Hdel. eapply w_ok_trans; [exact Hk|apply Hk2].
Qed.

Lemma ww_sweep keys g : cache_ok g -> wwp (sweep keys) g (fun _ g' => w_ok g g').
Proof.
  revert g. induction keys as [|key keys IH]; intros g Hok; [done|]. cbn [sweep]. apply wp_bind.
  assert (forall g', w_ok g g' -> wwp (sweep keys) g' (fun _ g2 => w_ok g g2)) as Hrest.
  { intros g' Hk. eapply wp_mono; [apply IH, Hk|]. intros u g2 Hk2. by eapply w_ok_trans. }
  wstep r g0 g1 Ho He Hk. destruct r as [record|]; [|apply Hrest; exact (proj1 Hk)].
  apply wp_bind. wstep now g2 g3 Ho2 He2 Hk2. assert (w_ok g g3) as Hk3 by (apply (w_kept_trans _ _ _ _ Hk Hk2)).
  destruct (_ <? 0); [|by apply Hrest]. wstep u g4 g5 Ho4 He4 Hk4. apply Hrest. eapply w_ok_trans; [exact Hk3|apply Hk4].
Qed.

Lemma ww_Run fuel g : cache_ok g -> total = false -> wwp (cache_Run timeout fuel) g (fun _ g' => cache_ok g').
Proof.
  intros Hok Ht. unfold cache_Run. apply (wp_loop total (win_env timeout alone) _ (fun (_ : unit) (g : win_ghost) => cache_ok g) (fun _ _ => O)); [|done|by intros ?; congruence].
  intros [] g1 Hok1. wstep u g2 g3 Ho He Hk. wstep keys g4 g5 Ho4 He4 Hk4. apply wp_bind.
  eapply wp_mono; [apply ww_sweep, Hk4|]. intros u2 g6 Hk6. split; [apply Hk6|congruence].
Qed.

(** ** Every callback *)

(** Paths as WinFsp gives them. *)
Definition win_op_ok (op : win_op) : Prop :=
  match op with WinGetattr path | WinReaddir path | WinAccess path _ => win_path path | _ => True end.

(** A reply is true to what the session said. *)
Definition win_honest (log : list wfact) (op : win_op) (r : win_reply) : Prop :=
  match op, r with
  | WinGetattr path, WrStat r => honest_getattr log path r
  | WinReaddir path, WrDir r => honest_dir log path r
  | WinAccess path mask, WrErrno e => honest_access log path mask e
  | WinGetattr _, _ | WinReaddir _, _ | WinAccess _ _, _ => False
  | _, _ => True
  end.

Lemma ww_into {A} (c : A -> win_reply) (p : WP A) g Q :
  wwp p g (fun r g' => Q (c r) g') -> wwp (win_into c p) g Q.
Proof. intros H. apply wp_bind. eapply wp_mono; [exact H|]. done. Qed.

Lemma ww_handle op g :
  cache_ok g -> win_op_ok op ->
  wwp (win_handle winJoin timeout mountpoint op) g (fun r g' => w_ok g g' /\ win_honest (wg_log g') op r).
Proof.
  intros Hok Hop. destruct (win_does winJoin mountpoint op) as [act|] eqn:Ed.
  - eapply wp_mono; [by apply ww_does|]. intros r g' (Hk & _). split; [done|]. by destruct op.
  - destruct op; try done; cbn [win_handle]; apply ww_into.
    + eapply wp_mono; [by apply ww_Getattr|]. intros r g' (? & ? & _). done.
    + by apply ww_Access.
    + by apply ww_Readdir.
Qed.
End Handlers.
