(* ===== verification/ClientMount.v ===== *)
(** * Connecting, reconnecting and mounting

    client/mount.go, client/wsdial.go and client/fuseConnection-linux.go, as programs
    of requests to the websocket library, the clock, the session and fuseMount (file
    ClientWait); encoding/base64 and the server's reading of the Authorization header
    (net/http). url.Parse and URL.String of net/url and SHA-256 are parameters. Of the
    log only what Mount says of a failed dial is a request. *)
From S2P Require Import Prelude GoIO Prog Paths Utf8 ServerEnv.

(** ** encoding/base64 *)

Definition b64_alphabet : gostring := str "ABCDEFGHIJKLMNOPQRSTUVWXYZabcdefghijklmnopqrstuvwxyz0123456789+/".
Definition b64_char (n : Z) : byte := nth (Z.to_nat n) b64_alphabet x3d.
Definition b64_val (c : byte) : option Z := Z.of_nat <$> IndexByte b64_alphabet c.

(** StdEncoding.EncodeToString. *)
Fixpoint EncodeToString (s : bytes) : gostring :=
  match s with
  | a :: b :: c :: r =>
      let '(va, vb, vc) := (byte_val a, byte_val b, byte_val c) in
      b64_char (va / 4) :: b64_char (va mod 4 * 16 + vb / 16) ::
      b64_char (vb mod 16 * 4 + vc / 64) :: b64_char (vc mod 64) :: EncodeToString r
  | [a; b] =>
      let '(va, vb) := (byte_val a, byte_val b) in
      [b64_char (va / 4); b64_char (va mod 4 * 16 + vb / 16); b64_char (vb mod 16 * 4); x3d]
  | [a] => [b64_char (byte_val a / 4); b64_char (byte_val a mod 4 * 16); x3d; x3d]
  | [] => []
  end.

(** StdEncoding.DecodeString of a string without line ends. *)
Fixpoint DecodeString (s : gostring) : option bytes :=
  match s with
  | [] => Some []
  | c1 :: c2 :: c3 :: c4 :: r =>
      v1 ← b64_val c1; v2 ← b64_val c2;
      if bool_decide (c3 = x3d) then
        if bool_decide (c4 = x3d) && bool_decide (r = []) then Some [byte_of_Z (v1 * 4 + v2 / 16)] else None
      else
        v3 ← b64_val c3;
        if bool_decide (c4 = x3d) then
          if bool_decide (r = []) then Some [byte_of_Z (v1 * 4 + v2 / 16); byte_of_Z (v2 mod 16 * 16 + v3 / 4)] else None
        else
          v4 ← b64_val c4;
          rest ← DecodeString r;
          Some (byte_of_Z (v1 * 4 + v2 / 16) :: byte_of_Z (v2 mod 16 * 16 + v3 / 4) ::
                byte_of_Z (v3 mod 4 * 64 + v4) :: rest)
  | _ => None
  end.

(** strings.Cut for a separator of one byte. *)
Definition Cut_byte (s : gostring) (sep : byte) : option (gostring * gostring) :=
  match IndexByte s sep with Some i => Some (take i s, drop (S i) s) | None => None end.

(** parseBasicAuth of net/http. *)
Definition parseBasicAuth (auth : gostring) : option (gostring * gostring) :=
  if (length auth <? 6)%nat || negb (EqualFold (take 6 auth) (str "Basic ")) then None
  else c ← DecodeString (drop 6 auth); Cut_byte c x3a.

(** ** wsdial.go *)

(** url.URL. *)
Record URL := mkURL {
  u_Scheme : gostring; u_User : option (gostring * option gostring); u_Host : gostring;
  u_Path : gostring; u_RawPath : gostring; u_RawQuery : gostring; u_Fragment : gostring; u_RawFragment : gostring;
}.

Class NetUrl := {
  url_Parse : gostring -> option URL;
  url_String : URL -> gostring;
  Sum256_hex : bytes -> gostring; (* hex.EncodeToString(sha256.Sum256(..)) *)
}.

(** strings.Cut. *)
Fixpoint Cut (s sep : gostring) : option (gostring * gostring) :=
  if HasPrefix s sep then Some ([], drop (length sep) s)
  else match s with
       | [] => None
       | c :: s' => match Cut s' sep with Some (a, b) => Some (c :: a, b) | None => None end
       end.

Inductive dial_err := ErrParse | ErrUnixSocketUrl | ErrDial | ErrSubprotocol.

Section Wsdial.
Context {nu : NetUrl}.

Definition x509CertHash (cert : bytes) : gostring := str "SHA256:" ++ Sum256_hex cert.

Definition set_scheme (s : gostring) (u : URL) : URL :=
  mkURL s (u_User u) (u_Host u) (u_Path u) (u_RawPath u) (u_RawQuery u) (u_Fragment u) (u_RawFragment u).
Definition set_hostpath (h p : gostring) (u : URL) : URL :=
  mkURL (u_Scheme u) (u_User u) h p (u_RawPath u) (u_RawQuery u) (u_Fragment u) (u_RawFragment u).

(** isSocket, socketPath and httpUrl. *)
Definition unixSocketUrl (urlStr : gostring) : result dial_err (bool * gostring * gostring) :=
  match url_Parse urlStr with
  | None => Err ErrParse
  | Some parsedUrl =>
      let scheme :=
        if bool_decide (u_Scheme parsedUrl = str "wsfs+unix") then Some (str "ws")
        else if bool_decide (u_Scheme parsedUrl = str "wsfss+unix") then Some (str "wss")
        else None in
      match scheme with
      | None => Ok (false, [], urlStr)
      | Some scheme =>
          let parsedUrl := set_scheme scheme parsedUrl in
          match Cut (u_Path parsedUrl) (str "/./") with
          | None => Err ErrUnixSocketUrl
          | Some (socketPath, hostpath) =>
              let hostpath := if bool_decide (hostpath = []) then str "/" else hostpath in
              match url_Parse (str "http://" ++ hostpath) with
              | None => Err ErrParse
              | Some hostpathUrl =>
                  let parsedUrl := set_hostpath (u_Host hostpathUrl) (u_Path hostpathUrl) parsedUrl in
                  Ok (true, socketPath, url_String parsedUrl)
              end
          end
      end
  end.

(** tls.Config: whether the chain is not verified, and VerifyConnection on the peer's
    certificates ([None]: no function). *)
Record tls_Config := mkTls {
  InsecureSkipVerify : bool;
  VerifyConnection : option (list bytes -> bool);
}.

Definition tlsConfig (expectedCertHash : gostring) : tls_Config :=
  if bool_decide (expectedCertHash = []) then mkTls false None
  else mkTls true (Some (fun PeerCertificates =>
    match PeerCertificates with
    | cert :: _ => bool_decide (x509CertHash cert = expectedCertHash)
    | [] => false
    end)).

(** The hash logServerCertHash logs, from the certificates of the response, of a
    failed verification, and of a hash that did not match. *)
Definition logServerCertHash (rsp : option (list bytes)) (unverified : list bytes) (mismatch : option gostring) : option gostring :=
  match rsp with
  | Some (cert :: _) => Some (x509CertHash cert)
  | _ => match unverified with cert :: _ => Some (x509CertHash cert) | [] => mismatch end
  end.
End Wsdial.

(** ** Requests to the outside *)

(** http.Response. *)
Record http_response := mkRsp { StatusCode : Z; rsp_Header : gostring -> gostring; rsp_Body : result errno bytes }.

(** The arguments of websocket.Dial: the dialer's socket, the URL, the header, the TLS
    configuration's certificate and the subprotocols. *)
Record dial_args := mkDial {
  da_socket : option gostring;
  da_url : gostring;
  da_header : list (gostring * gostring);
  da_certHash : gostring;
  da_Subprotocols : list gostring;
}.

(** A connection or an error, with the response if there was one. *)
Inductive dialed :=
| Connected (conn : nat) (subprotocol : gostring) (rsp : http_response)
| NotConnected (rsp : option http_response).

Inductive log_line := LogAuthorize | LogHandshake (msg : gostring) | LogUnable | LogNoResume.

Inductive mev : Type :=
| WsDial (a : dial_args)
| Sleep (seconds : Z)
| Log (l : log_line)
| SessionStart (conn : nat) (resumeId : gostring)
| FuseMount (mountpoint : gostring).

Definition mans (e : mev) : Type :=
  match e with
  | WsDial _ => dialed
  | FuseMount _ => result errno unit
  | _ => unit
  end.

Abbreviation MP := (prog mans).
Definition mask (e : mev) : MP (mans e) := trigger e.

(** ** mount.go *)

Definition sessionRecoveryRetryMaxCount : nat := 30.
Definition sessionRecoveryRetrySeconds : Z := 5.
Definition WSSubprotocol : gostring := str "WSFS/draft.6".

(** [err == nil], the connection and the response; with an error the connection
    can be there all the same. *)
Abbreviation dial_result := (option nat * option http_response * option dial_err)%type.

Section Mount.
Context {nu : NetUrl}.

Definition wsdial (urlStr : gostring) (requestHeader : list (gostring * gostring)) (expectedCertHash : gostring)
  : MP (option (nat * gostring) * option http_response * option dial_err) :=
  match unixSocketUrl urlStr with
  | Err e => mret (None, None, Some e)
  | Ok (isSocket, socketPath, httpUrl) =>
      r ← mask (WsDial (mkDial (if isSocket then Some socketPath else None) httpUrl requestHeader expectedCertHash [WSSubprotocol]));
      mret match r with
           | Connected conn sub rsp => (Some (conn, sub), Some rsp, None)
           | NotConnected rsp => (None, rsp, Some ErrDial)
           end
  end.

Definition dial_header (username password resumeId : gostring) : list (gostring * gostring) :=
  (if negb (bool_decide (username = []))
   then [(str "Authorization", str "Basic " ++ EncodeToString (username ++ str ":" ++ password))] else []) ++
  (if negb (bool_decide (resumeId = [])) then [(str "X-Wsfs-Resume", resumeId)] else []).

Definition dial (url username password resumeId expectedCertHash : gostring) : MP dial_result :=
  r ← wsdial url (dial_header username password resumeId) expectedCertHash;
  mret match r with
       | (Some (conn, sub), rsp, None) =>
           if negb (bool_decide (sub = WSSubprotocol)) then (Some conn, rsp, Some ErrSubprotocol) else (Some conn, rsp, None)
       | (conn, rsp, err) => (fst <$> conn, rsp, err)
       end.

Inductive redial_err := ErrNoResume | ErrUnauthorized | ErrNotResumable | ErrTooManyRetries.

(** [for range sessionRecoveryRetryMaxCount]. *)
Fixpoint redial_loop (n : nat) (url username password resumeId expectedCertHash : gostring) : MP (result redial_err (option nat)) :=
  match n with
  | O => mret (Err ErrTooManyRetries)
  | S n' =>
      r ← dial url username password resumeId expectedCertHash;
      let '(conn, rsp, err) := r in
      match err with
      | None => mret (Ok conn)
      | Some _ =>
          let status := match rsp with Some rsp => StatusCode rsp | None => 0 end in
          if status =? 401 then mret (Err ErrUnauthorized)
          else if status =? 400 then mret (Err ErrNotResumable)
          else mask (Sleep sessionRecoveryRetrySeconds) ;; redial_loop n' url username password resumeId expectedCertHash
      end
  end.

Definition reDialFunc (url username password resumeId expectedCertHash : gostring) : MP (result redial_err (option nat)) :=
  if bool_decide (resumeId = []) then mret (Err ErrNoResume)
  else redial_loop sessionRecoveryRetryMaxCount url username password resumeId expectedCertHash.

(** The line that is logged. *)
Definition dial_message (rsp : option http_response) : log_line :=
  match rsp with
  | None => LogUnable
  | Some rsp =>
      if StatusCode rsp =? 401 then LogAuthorize
      else if HasPrefix (rsp_Header rsp (str "Content-Type")) (str "text/plain") then
        match rsp_Body rsp with
        | Ok body =>
            LogHandshake (TrimSpace (TrimPrefix (TrimSpace (take 64 body)) (str "Bad WSFS handshake: ")))
        | Err _ => LogUnable
        end
      else LogUnable
  end.
Definition logDialError (rsp : option http_response) : MP unit := mask (Log (dial_message rsp)).

Inductive mount_err := MountDial (e : dial_err) | MountFuse (e : errno).

(** session.NewSession gives no error; the session's reDial is reDialFunc of the
    resume id. *)
Definition Mount (mountpoint url expectedCertHash username password : gostring) : MP (option mount_err) :=
  r ← dial url username password [] expectedCertHash;
  let '(conn, rsp, err) := r in
  match err with
  | Some e => logDialError rsp ;; mret (Some (MountDial e))
  | None =>
      match conn, rsp with
      | Some conn, Some rsp =>
          let resumeId := rsp_Header rsp (str "X-Wsfs-Resume") in
          (if bool_decide (resumeId = []) then mask (Log LogNoResume) else mret tt) ;;
          mask (SessionStart conn resumeId) ;;
          err ← mask (FuseMount mountpoint);
          mret match (err : result errno unit) with Err e => Some (MountFuse e) | Ok _ => None end
      | _, _ => Panic (* rsp.Header of a nil response *)
      end
  end.
End Mount.

(** ** fuseConnection-linux.go *)

(** strings.SplitN(s, sep, 2). *)
Definition SplitN2 (s sep : gostring) : list gostring :=
  match Cut s sep with Some (a, b) => [a; b] | None => [s] end.

(** strconv.ParseUint(s, base, bits) for bases up to 10. *)
Fixpoint ParseUint_loop (base : Z) (acc : Z) (s : gostring) : option Z :=
  match s with
  | [] => Some acc
  | c :: s' =>
      let d := byte_val c - 0x30 in
      if (0 <=? d) && (d <? base) then ParseUint_loop base (acc * base + d) s' else None
  end.
Definition ParseUint (s : gostring) (base bits : Z) : option Z :=
  match s with
  | [] => None
  | _ => v ← ParseUint_loop base 0 s; if v <? 2 ^ bits then Some v else None
  end.

Definition isFuseFilesystem (filesystemType : gostring) : bool :=
  bool_decide (filesystemType = str "fuse") || bool_decide (filesystemType = str "fuseblk") ||
  HasPrefix filesystemType (str "fuse.").

Definition backslash : byte := x5c.

Fixpoint unescapeMountInfoPath (value : gostring) : option gostring :=
  match value with
  | [] => Some []
  | c :: rest =>
      if negb (bool_decide (c = backslash)) then cons c <$> unescapeMountInfoPath rest
      else
        match rest with
        | d1 :: d2 :: d3 :: rest' =>
            escaped ← ParseUint [d1; d2; d3] 8 8;
            cons (byte_of_Z escaped) <$> unescapeMountInfoPath rest'
        | _ => None
        end
  end.

(** What the loop does with a line: an id, or the next line. *)
Definition mountinfo_line (line mountpoint : gostring) : option Z :=
  match SplitN2 line (str " - ") with
  | [part0; part1] =>
      let left := Fields part0 in
      let right := Fields part1 in
      if (length left <? 5)%nat || (length right <? 1)%nat || negb (isFuseFilesystem (nth 0 right [])) then None
      else
        match unescapeMountInfoPath (nth 4 left []) with
        | None => None
        | Some target =>
            if negb (bool_decide (target = mountpoint)) then None
            else
              match SplitN2 (nth 2 left []) (str ":") with
              | [major; minor] =>
                  if negb (bool_decide (major = str "0")) then None
                  else
                    match ParseUint minor 10 32 with
                    | Some connectionID => if connectionID =? 0 then None else Some connectionID
                    | None => None
                    end
              | _ => None
              end
        end
  | _ => None
  end.

Fixpoint mountinfo_loop (lines : list gostring) (mountpoint : gostring) : option Z :=
  match lines with
  | [] => None
  | line :: lines' =>
      match mountinfo_line line mountpoint with
      | Some connectionID => Some connectionID
      | None => mountinfo_loop lines' mountpoint
      end
  end.

Definition fuseConnectionIDFromMountInfo (mountInfo mountpoint : gostring) : option Z :=
  mountinfo_loop (Split mountInfo x0a) mountpoint.

(** [cwd] is the working directory, [mountinfo] the contents of /proc/self/mountinfo. *)
Definition fuseConnectionID (cwd : gostring) (mountinfo : result errno gostring) (mountpoint : gostring) : option Z :=
  match mountinfo with
  | Err _ => None
  | Ok data => fuseConnectionIDFromMountInfo data (Clean (Abs cwd mountpoint))
  end.
