(* ===== verification/ClientPing.v ===== *)
(** * How the client's session notices that its connection failed

    client/session/session.go: pingLoop, the errors that readLoop, the write path,
    Close and pings record under connErrLock, the cancelling of connCtx, stopConn,
    errorMode and takeConn over any number of connections, as a function from actions
    to states. A goroutine takes its next step, or something the outside decides
    happens: a read, a ping or a write fails. Calls and their responses are
    ClientSession's. Connections are numbered; the context of connection [g] is [g]. *)
From S2P Require Import Prelude.

(** An error: the connection it comes from and its close status, if it has one. *)
Record conn_error := mkConnError { er_conn : nat; er_status : option Z }.

(** readLoop and the stopConn and errorMode it ends in. *)
Inductive read_phase :=
| RReading
| RLock (e : conn_error) (* connErrLock.TryLock *)
| RStop (* stopConn: the lock of the life cycle *)
| RCancel (graceful : bool)
| RConn (graceful : bool) (* s.conn = nil *)
| RUnlock (graceful : bool)
| RExit (* the error of a graceful close *)
| RRedial
| RExited (err : option conn_error).

(** pingLoop: the select, conn.Ping, TryLock, s.connCtxCancel. *)
Inductive ping_phase := PSelect | PPing | PLock | PCancel | PDone.

(** Close: not called, conn.Close, TryLock, s.connCtxCancel, Wait. *)
Inductive close_phase := CNone | CConn | CLock (e : conn_error) | CCancel | CWait.

Inductive session_state := Running | Recovering | Closing.

Record psess := mkPsess {
  pn_gen : nat; (* the connection of s.connCtx and s.connCtxCancel *)
  pn_conn : bool; (* s.conn is not nil *)
  pn_cancelled : gset nat; (* contexts that are cancelled *)
  pn_errLock : bool;
  pn_connErr : option conn_error;
  pn_state : session_state;
  pn_reader : read_phase;
  pn_pings : list ping_phase; (* of each connection; [PDone] without pings *)
  pn_close : close_phase;
  pn_crashed : bool; (* an unlock of an unlocked mutex *)
}.

Definition StatusNormalClosure : Z := 1000.
Definition StatusGoingAway : Z := 1001.

Section Ping.
(** pingInterval > 0. *)
Context (pinging : bool).

Definition new_ping : ping_phase := if pinging then PSelect else PDone.

(** Start with a connection. *)
Definition started : psess := mkPsess 0 true ∅ false None Running RReading [new_ping] CNone false.

Definition set_reader (p : read_phase) (s : psess) : psess :=
  mkPsess (pn_gen s) (pn_conn s) (pn_cancelled s) (pn_errLock s) (pn_connErr s) (pn_state s) p (pn_pings s) (pn_close s) (pn_crashed s).
Definition set_ping (g : nat) (p : ping_phase) (s : psess) : psess :=
  mkPsess (pn_gen s) (pn_conn s) (pn_cancelled s) (pn_errLock s) (pn_connErr s) (pn_state s) (pn_reader s) (<[g := p]> (pn_pings s)) (pn_close s) (pn_crashed s).
Definition set_close (p : close_phase) (s : psess) : psess :=
  mkPsess (pn_gen s) (pn_conn s) (pn_cancelled s) (pn_errLock s) (pn_connErr s) (pn_state s) (pn_reader s) (pn_pings s) p (pn_crashed s).
Definition set_state (st : session_state) (s : psess) : psess :=
  mkPsess (pn_gen s) (pn_conn s) (pn_cancelled s) (pn_errLock s) (pn_connErr s) st (pn_reader s) (pn_pings s) (pn_close s) (pn_crashed s).
Definition drop_conn (s : psess) : psess :=
  mkPsess (pn_gen s) false (pn_cancelled s) (pn_errLock s) (pn_connErr s) (pn_state s) (pn_reader s) (pn_pings s) (pn_close s) (pn_crashed s).

(** [if s.connErrLock.TryLock() { s.connErr = err }] *)
Definition record (e : conn_error) (s : psess) : psess :=
  if pn_errLock s then s
  else mkPsess (pn_gen s) (pn_conn s) (pn_cancelled s) true (Some e) (pn_state s) (pn_reader s) (pn_pings s) (pn_close s) (pn_crashed s).

(** s.connCtxCancel(), whatever connection it belongs to now. *)
Definition connCtxCancel (s : psess) : psess :=
  mkPsess (pn_gen s) (pn_conn s) ({[pn_gen s]} ∪ pn_cancelled s) (pn_errLock s) (pn_connErr s) (pn_state s) (pn_reader s) (pn_pings s) (pn_close s) (pn_crashed s).

Definition connErrLock_Unlock (s : psess) : psess :=
  mkPsess (pn_gen s) (pn_conn s) (pn_cancelled s) false (pn_connErr s) (pn_state s) (pn_reader s) (pn_pings s) (pn_close s)
    (pn_crashed s || negb (pn_errLock s)).

(** takeConn: a new connection with its context, its read loop and its ping loop. *)
Definition takeConn (s : psess) : psess :=
  mkPsess (S (pn_gen s)) true (pn_cancelled s) (pn_errLock s) (pn_connErr s) (pn_state s) RReading (pn_pings s ++ [new_ping])
    (pn_close s) (pn_crashed s).

Inductive paction :=
| ReadFails (status : option Z)
| ReaderStep (redial : bool) (* whether reDial succeeds, at that step *)
| Tick (g : nat)
| PingReturns (g : nat) (ok : bool)
| PingStep (g : nat)
| WriteFails (status : option Z) (* requireWrite or writeDone with an error *)
| CallClose
| CloseReturns (err : option (option Z)) (* conn.Close, with the status of its error *)
| CloseStep.

Definition closed_well (e : option conn_error) : bool :=
  match e with
  | Some e => bool_decide (er_status e = Some StatusNormalClosure) || bool_decide (er_status e = Some StatusGoingAway)
  | None => false
  end.

Definition reader_step (redial : bool) (s : psess) : option psess :=
  match pn_reader s with
  | RReading | RExited _ => None
  | RLock e => Some (set_reader RStop (record e s))
  | RStop =>
      Some (match pn_state s with
            | Closing => set_reader (RCancel true) s
            | _ => set_reader (RCancel false) (set_state Recovering s)
            end)
  | RCancel graceful => Some (set_reader (RConn graceful) (connCtxCancel s))
  | RConn graceful => Some (set_reader (RUnlock graceful) (drop_conn s))
  | RUnlock graceful => Some (set_reader (if graceful then RExit else RRedial) (connErrLock_Unlock s))
  | RExit => Some (set_reader (RExited (if closed_well (pn_connErr s) then None else pn_connErr s)) s)
  | RRedial =>
      Some (if redial then
              let s := takeConn s in
              match pn_state s with Recovering => set_state Running s | _ => s end
            else set_reader (RExited (Some (mkConnError (pn_gen s) None))) s)
  end.

Definition ping_step (g : nat) (s : psess) : option psess :=
  match pn_pings s !! g with
  | Some PSelect => if decide (g ∈ pn_cancelled s) then Some (set_ping g PDone s) else None
  | Some PLock => Some (set_ping g PCancel (record (mkConnError g None) s))
  | Some PCancel => Some (set_ping g PDone (connCtxCancel s))
  | _ => None
  end.

Definition ping_act (a : paction) (s : psess) : option psess :=
  if pn_crashed s then None
  else
    match a with
    | ReadFails status =>
        match pn_reader s with RReading => Some (set_reader (RLock (mkConnError (pn_gen s) status)) s) | _ => None end
    | ReaderStep redial => reader_step redial s
    | Tick g => match pn_pings s !! g with Some PSelect => Some (set_ping g PPing s) | _ => None end
    | PingReturns g ok => match pn_pings s !! g with Some PPing => Some (set_ping g (if ok then PSelect else PLock) s) | _ => None end
    | PingStep g => ping_step g s
    | WriteFails status =>
        if pn_conn s then Some (connCtxCancel (drop_conn (record (mkConnError (pn_gen s) status) s))) else None
    | CallClose =>
        match pn_state s, pn_close s with Running, CNone => Some (set_close CConn (set_state Closing s)) | _, _ => None end
    | CloseReturns err =>
        match pn_close s with
        | CConn => Some (set_close (match err with Some status => CLock (mkConnError (pn_gen s) status) | None => CWait end) s)
        | _ => None
        end
    | CloseStep =>
        match pn_close s with
        | CLock e => Some (set_close CCancel (record e s))
        | CCancel => Some (set_close CWait (connCtxCancel s))
        | _ => None
        end
    end.

Inductive ping_reachable : psess -> Prop :=
| ping_start : ping_reachable started
| ping_next s a s' : ping_reachable s -> ping_act a s = Some s' -> ping_reachable s'.

Fixpoint ping_run (acts : list paction) (s : psess) : option psess :=
  match acts with
  | [] => Some s
  | a :: acts' => s' ← ping_act a s; ping_run acts' s'
  end.
End Ping.

(** ** What the recording of connection errors promises

    connErrLock is unlocked only by stopConn and only when it is locked, over any
    number of connections, whoever notices a failure first. Without pings the error
    recorded is one of the connection that failed and only its context is cancelled;
    with pings neither holds. *)

(** stopConn holds the lock, which somebody took, until it unlocks it. *)
Definition in_stop (p : read_phase) : bool :=
  match p with RStop | RCancel _ | RConn _ | RUnlock _ => true | _ => false end.

Record ping_inv (s : psess) : Prop := {
  pi_crash : pn_crashed s = false;
  pi_lock : in_stop (pn_reader s) = true -> pn_errLock s = true;
  pi_err : pn_errLock s = true -> is_Some (pn_connErr s);
  pi_pings : length (pn_pings s) = S (pn_gen s);
  pi_conn : match pn_reader s with RUnlock _ | RExit | RRedial | RExited _ => pn_conn s = false | _ => True end;
  pi_closing : match pn_reader s with
               | RCancel g | RConn g | RUnlock g => pn_state s = if g then Closing else Recovering
               | RExit => pn_state s = Closing
               | RRedial => pn_state s = Recovering
               | RReading | RLock _ | RStop => pn_state s <> Recovering
               | RExited _ => True
               end;
}.

Lemma ping_inv_start pinging : ping_inv (started pinging).
Proof. by split. Qed.

(** Unfold a step and look at its cases. *)
Ltac ping_cases H :=
  unfold ping_act, reader_step, ping_step, record, connCtxCancel, connErrLock_Unlock, takeConn, set_reader, set_ping, set_close,
    set_state, drop_conn in H; cbn in H;
  repeat match type of H with context [match ?x with _ => _ end] => destruct x eqn:? end;
  match type of H with
  | Some _ = Some _ => injection H as <-
  | None = Some _ => discriminate H
  end.
Ltac ping_solve :=
  repeat match goal with H : exists _, _ |- _ => destruct H end;
  intuition (subst; first [done | congruence | by eauto | by eexists | by (rewrite ?length_insert, ?length_app; simpl; lia)]).

Lemma ping_inv_act pinging s a s' : ping_inv s -> ping_act pinging a s = Some s' -> ping_inv s'.
Proof.
  intros [H1 H2 H3 H4 H5 H6] Ha. destruct s as [gen conn canc lock err st rd pings cl crash].
  cbn in H1. subst crash. destruct a; ping_cases Ha; cbn in *; subst; split; cbn in *;
    solve [assumption | reflexivity | discriminate | ping_solve | destruct rd; repeat case_match; ping_solve].
Qed.

Lemma ping_reachable_inv pinging s : ping_reachable pinging s -> ping_inv s.
Proof. induction 1; [apply ping_inv_start|by eapply ping_inv_act]. Qed.

(** ** Without pings *)

(** What is known of an error, a reader and Close when the session sends no pings. *)
Definition own_error (s : psess) : Prop := exists e, pn_connErr s = Some e /\ er_conn e = pn_gen s.

Record quiet_inv (s : psess) : Prop := {
  qi_pings : Forall (fun p => p = PDone) (pn_pings s);
  qi_lock : pn_errLock s = true -> own_error s;
  qi_reader : match pn_reader s with
              | RLock e => er_conn e = pn_gen s
              | RRedial => pn_errLock s = false /\ pn_close s = CNone
              | RExit => own_error s
              | RExited r => forall e, r = Some e -> er_conn e = pn_gen s
              | _ => True
              end;
  qi_close : match pn_close s with CNone => True | CLock e => er_conn e = pn_gen s /\ pn_state s = Closing
             | CCancel => own_error s /\ pn_state s = Closing | _ => pn_state s = Closing end;
  qi_cancelled : forall g, g ∈ pn_cancelled s -> (g < pn_gen s)%nat \/ g = pn_gen s /\ own_error s;
}.

Lemma quiet_inv_start : quiet_inv (started false).
Proof. split; cbn; try done; first [by repeat constructor|set_solver]. Qed.

Lemma no_pings pings g p : Forall (fun p => p = PDone) pings -> pings !! g = Some p -> p = PDone.
Proof. intros H Hg. exact (Forall_lookup_1 _ _ _ _ H Hg). Qed.

Ltac quiet_solve :=
  match goal with
  | H : forall g, g ∈ ?c -> _ |- forall g, g ∈ _ -> _ =>
      let g := fresh in let Hg := fresh in
      intros g Hg; rewrite ?elem_of_union, ?elem_of_singleton in Hg; pose proof (H g); clear H
  | _ => idtac
  end;
  repeat match goal with H : exists _, _ |- _ => destruct H end;
  intuition (subst; simplify_eq/=; first [done | congruence | lia | by eauto | by (right; eauto) | by (left; lia)]).

Lemma quiet_inv_act s a s' : ping_inv s -> quiet_inv s -> ping_act false a s = Some s' -> quiet_inv s'.
Proof.
  intros [P1 P2 P3 P4 P5 P6] [H1 H2 H3 H4 H5] Ha. destruct s as [gen conn canc lock err st rd pings cl crash].
  unfold own_error in *. cbn in *. subst crash.
  destruct a; ping_cases Ha; try (match goal with H : pings !! _ = Some _ |- _ => apply (no_pings _ _ _ H1) in H; discriminate H end);
    cbn in *; subst; split; cbn in *; unfold own_error in *; cbn in *;
    try (solve [assumption | reflexivity | discriminate | quiet_solve | destruct rd; repeat case_match; quiet_solve
      | destruct cl; quiet_solve | apply Forall_app; by repeat constructor]).
Qed.

Lemma quiet_reachable_inv s : ping_reachable false s -> ping_inv s /\ quiet_inv s.
Proof.
  induction 1 as [|s a s' Hr [IH1 IH2] Ha]; [split; [apply ping_inv_start|apply quiet_inv_start]|].
  split; [by eapply ping_inv_act|by eapply quiet_inv_act].
Qed.

(** However the failures of reads, writes and pings, Close and the steps of the read
    loop are ordered, over any number of connections: connErrLock is never unlocked
    when nobody locked it, which would end the process; when stopConn reports and
    releases the error there is one; there is one ping loop for each connection. A
    session that sends no pings reports, and ends with, only errors of the connection
    at hand, and the context of this connection is cancelled only after it failed. *)
Theorem connection_errors (pinging : bool) (s : psess) :
  ping_reachable pinging s ->
  pn_crashed s = false /\
  (in_stop (pn_reader s) = true -> pn_errLock s = true /\ is_Some (pn_connErr s)) /\
  length (pn_pings s) = S (pn_gen s) /\
  (pinging = false ->
     (pn_errLock s = true -> own_error s) /\
     (pn_gen s ∈ pn_cancelled s -> own_error s) /\
     (forall e, pn_reader s = RExited (Some e) -> er_conn e = pn_gen s)).
Proof.
  intros Hr. destruct (ping_reachable_inv _ _ Hr) as [P1 P2 P3 P4 _ _].
  split_and!; [done|by intros H%P2; split; [|apply P3]|done|]. intros ->.
  destruct (quiet_reachable_inv _ Hr) as [_ [_ Q2 Q3 _ Q5]]. split_and!; [exact Q2| |].
  - intros [H|[_ H]]%Q5; [lia|exact H].
  - intros e He. rewrite He in Q3. by apply Q3.
Qed.

(** ** With pings *)

Lemma ping_run_reachable pinging acts s s' : ping_reachable pinging s -> ping_run pinging acts s = Some s' -> ping_reachable pinging s'.
Proof.
  revert s. induction acts as [|a acts IH]; intros s Hs H; cbn [ping_run] in H; [by injection H as <-|].
  destruct (ping_act pinging a s) as [s1|] eqn:E; [|done]. cbn in H. eapply IH; [|exact H]. exact (ping_next _ _ _ _ Hs E).
Qed.

(** A connection fails during a ping and is replaced. *)
Definition replaced : list paction := Tick 0 :: ReadFails None :: repeat (ReaderStep true) 6.

(** The ping then returns: its loop cancels the context of the new connection, which is
    fine, and leaves connErrLock locked with an error of the old one. *)
Example stale_ping_cancels :
  exists s, ping_run true (replaced ++ [PingReturns 0 false; PingStep 0; PingStep 0]) (started true) = Some s /\
    pn_gen s = 1%nat /\ pn_reader s = RReading /\ pn_gen s ∈ pn_cancelled s /\
    pn_errLock s = true /\ pn_connErr s = Some (mkConnError 0 None).
Proof. eexists. split; [vm_compute; reflexivity|]. split_and!; first [reflexivity|apply (bool_decide_unpack _); vm_compute; exact I]. Qed.

(** Or the session is closed before the loop gets to cancel: the connection is closed as
    it should be, with status 1000, and Close returns the error of the old one. *)
Example stale_ping_fails_close :
  exists s, ping_run true (replaced ++ [PingReturns 0 false; PingStep 0; CallClose; CloseReturns None; ReadFails (Some StatusNormalClosure)] ++
      repeat (ReaderStep true) 6) (started true) = Some s /\
    pn_reader s = RExited (Some (mkConnError 0 None)).
Proof. eexists. split; [vm_compute; reflexivity|reflexivity]. Qed.

(** ** Witness *)

Definition demo_failed : list paction := ReadFails (Some 1006) :: repeat (ReaderStep true) 3.
Lemma connection_errors_witness :
  exists s, ping_run false demo_failed (started false) = Some s /\ ping_reachable false s /\
    pn_crashed s = false /\ own_error s.
Proof.
  destruct (ping_run false demo_failed (started false)) as [s|] eqn:E; [|vm_compute in E; discriminate E].
  exists s. split; [reflexivity|]. pose proof (ping_run_reachable _ _ _ _ (ping_start false) E) as Hr.
  split; [exact Hr|]. destruct (connection_errors false s Hr) as (H1 & _ & _ & H2). split; [exact H1|].
  destruct (H2 eq_refl) as [H3 _]. apply H3. vm_compute in E. injection E as <-. reflexivity.
Defined.
