(* ===== verification/ClientSession.v ===== *)
(** * The client's session (session.go)

    The state of a [Session] of src/src/internal/client/session with any number of
    calls running side by side, as a function from actions to states: a call takes
    its next step, the server emits a frame, the read loop takes or delivers one,
    the connection fails, stopConn and errorMode take their steps. An action is
    what the scheduler, the network and the server decide; [act] is what the code
    then does ([None] when it cannot happen in that state). *)
From S2P Require Import Prelude GoIO Codec Structs StructGen Prog Budget Paths ServerEnv ClientEnv ClientCmds ClientReadDirPlus ClientSpec ClientOk.

(** ** State *)

Inductive sessionState := Running | Recovering | Closing | Closed.

(** Where the read loop of the connection is: waiting for a message, sending a
    frame to the channel of its mark, and in stopConn: before its first lock, in
    notifyAllMarks at mark [i], there with [marks[i].TryLock()] having failed,
    calling reDial in errorMode. *)
Inductive read_phase :=
| RReading
| RHolding (id : option nat) (f : bytes)
| RStopping
| RNotify (graceful : bool) (i : Z)
| RSend (graceful : bool) (i : Z)
| RRedial
| REnded.

(** A request the server has to answer: which one it is, and how much of its
    response was sent. *)
Record outstanding := mkOutstanding { ou_id : nat; ou_cmd : Z; ou_body : image; ou_got : Z }.

(** The fields of Session; a frame under way carries the number of the request it
    answers ([None] for one made up by notifyAllMarks), [cs_owner] the call that
    made each request. [cs_resuming] counts the errorMode calls that have taken a
    connection and not set the state yet. *)
Record csess := mkCsess {
  cs_state : sessionState;
  cs_active : Z;
  cs_conn : bool;
  cs_lastMark : Z;
  cs_marks : gset Z;
  cs_chan : gmap Z (option nat * bytes); (* responses, of capacity 1 *)
  cs_reader : read_phase;
  cs_resuming : nat;
  cs_wire : list (nat * bytes); (* frames the server has sent *)
  cs_out : gmap Z outstanding;
  cs_owner : list nat;
  cs_calls : list (CP unit);
}.

Definition csess_init : csess := mkCsess Running 0 true 0 ∅ ∅ RReading 0 [] ∅ [] [].

Definition set_state (s : sessionState) (st : csess) : csess :=
  mkCsess s (cs_active st) (cs_conn st) (cs_lastMark st) (cs_marks st) (cs_chan st) (cs_reader st) (cs_resuming st)
    (cs_wire st) (cs_out st) (cs_owner st) (cs_calls st).
Definition set_active (n : Z) (st : csess) : csess :=
  mkCsess (cs_state st) n (cs_conn st) (cs_lastMark st) (cs_marks st) (cs_chan st) (cs_reader st) (cs_resuming st)
    (cs_wire st) (cs_out st) (cs_owner st) (cs_calls st).
Definition set_conn (c : bool) (st : csess) : csess :=
  mkCsess (cs_state st) (cs_active st) c (cs_lastMark st) (cs_marks st) (cs_chan st) (cs_reader st) (cs_resuming st)
    (cs_wire st) (cs_out st) (cs_owner st) (cs_calls st).
Definition set_lastMark (v : Z) (st : csess) : csess :=
  mkCsess (cs_state st) (cs_active st) (cs_conn st) v (cs_marks st) (cs_chan st) (cs_reader st) (cs_resuming st)
    (cs_wire st) (cs_out st) (cs_owner st) (cs_calls st).
Definition set_marks (ms : gset Z) (st : csess) : csess :=
  mkCsess (cs_state st) (cs_active st) (cs_conn st) (cs_lastMark st) ms (cs_chan st) (cs_reader st) (cs_resuming st)
    (cs_wire st) (cs_out st) (cs_owner st) (cs_calls st).
Definition set_chan (ch : gmap Z (option nat * bytes)) (st : csess) : csess :=
  mkCsess (cs_state st) (cs_active st) (cs_conn st) (cs_lastMark st) (cs_marks st) ch (cs_reader st) (cs_resuming st)
    (cs_wire st) (cs_out st) (cs_owner st) (cs_calls st).
Definition set_reader (r : read_phase) (st : csess) : csess :=
  mkCsess (cs_state st) (cs_active st) (cs_conn st) (cs_lastMark st) (cs_marks st) (cs_chan st) r (cs_resuming st)
    (cs_wire st) (cs_out st) (cs_owner st) (cs_calls st).
Definition set_resuming (n : nat) (st : csess) : csess :=
  mkCsess (cs_state st) (cs_active st) (cs_conn st) (cs_lastMark st) (cs_marks st) (cs_chan st) (cs_reader st) n
    (cs_wire st) (cs_out st) (cs_owner st) (cs_calls st).
(** What is on the connection. *)
Definition set_net (w : list (nat * bytes)) (o : gmap Z outstanding) (st : csess) : csess :=
  mkCsess (cs_state st) (cs_active st) (cs_conn st) (cs_lastMark st) (cs_marks st) (cs_chan st) (cs_reader st)
    (cs_resuming st) w o (cs_owner st) (cs_calls st).
Definition set_owner (l : list nat) (st : csess) : csess :=
  mkCsess (cs_state st) (cs_active st) (cs_conn st) (cs_lastMark st) (cs_marks st) (cs_chan st) (cs_reader st)
    (cs_resuming st) (cs_wire st) (cs_out st) l (cs_calls st).
Definition set_calls (l : list (CP unit)) (st : csess) : csess :=
  mkCsess (cs_state st) (cs_active st) (cs_conn st) (cs_lastMark st) (cs_marks st) (cs_chan st) (cs_reader st)
    (cs_resuming st) (cs_wire st) (cs_out st) (cs_owner st) l.

(** ** What a call asks of the session *)

(** beginRequest (with requireWrite), the struct and writeDone: without a
    connection nothing is written; a failing one is dropped. *)
Definition send_request (call : nat) (o : sent) (m cmd : Z) (body : image) (st : csess) : sent * csess :=
  if negb (cs_conn st) then (NotBegun, st)
  else
    match o, body.2 with
    | Sent, None =>
        (Sent, set_owner (cs_owner st ++ [call])
                 (set_net (cs_wire st) (<[m := mkOutstanding (length (cs_owner st)) cmd body 0]> (cs_out st)) st))
    | NotBegun, _ => (NotBegun, set_conn false st)
    | WriteFailed d, _ => (WriteFailed d, set_conn false st)
    | Sent, Some e => (WriteFailed [], set_conn false st)
    end.

(** The answer to the next request of call [call]; [o] is what becomes of a
    message. A receive waits for a frame. The goroutine that parses a prefetched
    listing (CGoParse) is not run here, but in ClientReadDirPlus and ClientParseOk: a
    call that starts one has no further step, and the frames of its mark are not
    taken. Write streams (writeStream.go) are not among the calls. *)
Definition answer (call : nat) (o : sent) (e : cev) : csess -> option (cans e * csess) :=
  match e return csess -> option (cans e * csess) with
  | CBegin => fun st =>
      Some (match cs_state st with
            | Closing | Closed => (false, st)
            | _ => (true, set_active (cs_active st + 1) st)
            end)
  | CMarkAdd => fun st => let v := u32 (cs_lastMark st + 1) in Some (v, set_lastMark v st)
  | CTryLock m => fun st =>
      Some (if decide (m ∈ cs_marks st) then (false, st) else (true, set_marks ({[m]} ∪ cs_marks st) st))
  | CUnlock m => fun st => Some (tt, set_marks (cs_marks st ∖ {[m]}) st)
  | CEnd => fun st => Some (tt, set_active (cs_active st - 1) st)
  | CRequest m cmd body => fun st => Some (send_request call o m cmd body st)
  | CReceive m => fun st =>
      match cs_chan st !! m with
      | Some (_, f) => Some (f, set_chan (delete m (cs_chan st)) st)
      | None => None
      end
  | CPut => fun st => Some (tt, st)
  | _ => fun _ => None
  end.

(** ** The read loop *)

(** The response that notifyAllMarksWithDesc makes up. *)
Definition synthetic (m : Z) (desc : gostring) : bytes :=
  le_bytes 1 m ++ le_bytes 1 ErrorIO ++ (enc (fields_RspError (mkRspError (truncate_desc desc)))).1.

Definition notify_desc (graceful : bool) : gostring :=
  if graceful then str "Session closed" else str "Session error mode".

(** stopConn up to notifyAllMarks. *)
Definition stopConn (st : csess) : csess :=
  let graceful := match cs_state st with Closing => true | _ => false end in
  let s := match cs_state st with Closing => Closing | Closed => Closed | _ => Recovering end in
  set_reader (RNotify graceful 0) (set_net [] ∅ (set_conn false (set_state s st))).

Definition session_exit (st : csess) : csess := set_reader REnded (set_state Closed st).

(** One step of the read loop and what follows it; [redial] is what reDial
    returns. *)
Definition reader_step (redial : bool) (st : csess) : option csess :=
  match cs_reader st with
  | RReading =>
      match cs_wire st with
      | (id, f) :: w =>
          let st := set_net w (cs_out st) st in
          Some (if len f <? 2 then st else set_reader (RHolding (Some id) f) st)
      | [] => None
      end
  | RHolding id f =>
      match cs_chan st !! Uint8 f 0 with
      | None => Some (set_reader RReading (set_chan (<[Uint8 f 0 := (id, f)]> (cs_chan st)) st))
      | Some _ => None (* the channel is full *)
      end
  | RStopping => Some (stopConn st)
  | RNotify graceful i =>
      Some (if 256 <=? i then if graceful then session_exit st else set_reader RRedial st
            else if decide (i ∈ cs_marks st) then set_reader (RSend graceful i) st
            else set_reader (RNotify graceful (i + 1)) st)
  | RSend graceful i =>
      match cs_chan st !! i with
      | None =>
          Some (set_reader (RNotify graceful (i + 1))
                  (set_chan (<[i := (None, synthetic i (notify_desc graceful))]> (cs_chan st)) st))
      | Some _ => None
      end
  | RRedial =>
      Some (if redial then set_resuming (S (cs_resuming st)) (set_reader RReading (set_conn true st))
            else session_exit st)
  | REnded => None
  end.

(** ** Actions *)

Inductive action :=
| Call (x : call) (* a file system calls a request function *)
| Step (i : nat) (o : sent) (* a call goes on *)
| Emit (m : Z) (f : bytes) (* the server sends a frame *)
| Read (redial : bool) (* the read loop goes on *)
| Break (* the read loop meets an error of the connection *)
| Resume (* errorMode sets the state *)
| Close. (* Close, after it has waited *)

Section Act.
Context (fuel : nat) (c : client).

Definition act (a : action) (st : csess) : option csess :=
  match a with
  | Call x => Some (set_calls (cs_calls st ++ [call_prog fuel c x]) st)
  | Step i o =>
      match cs_calls st !! i with
      | Some (Vis e k) =>
          match answer i o e st with
          | Some (r, st') => Some (set_calls (<[i := k r]> (cs_calls st')) st')
          | None => None
          end
      | _ => None
      end
  | Emit m f =>
      match cs_out st !! m with
      | Some (mkOutstanding id cmd body got) =>
          Some (set_net (cs_wire st ++ [(id, f)])
                  (if rsp_code f =? ErrorPartialResponse
                   then <[m := mkOutstanding id cmd body (got + len (rsp_data f))]> (cs_out st)
                   else delete m (cs_out st)) st)
      | None => None
      end
  | Read redial => reader_step redial st
  | Break => match cs_reader st with RReading => Some (set_reader RStopping st) | _ => None end
  | Resume =>
      match cs_resuming st with
      | S n => Some (set_resuming n (match cs_state st with Recovering => set_state Running st | _ => st end))
      | O => None
      end
  | Close =>
      match cs_state st with
      | Running =>
          if cs_active st =? 0 then
            let st := set_state Closing st in Some (if cs_conn st then st else set_state Closed st)
          else None
      | _ => None
      end
  end.

(** What callers and the server do: calls are well-formed, frames fit the request
    they answer and carry its mark. *)
Definition lawful_action (st : csess) (a : action) : Prop :=
  match a with
  | Call x => call_wf x
  | Emit m f =>
      Uint8 f 0 = m /\
      forall id cmd body got, cs_out st !! m = Some (mkOutstanding id cmd body got) -> frame_fits cmd body got f
  | _ => True
  end.

(** The connection does not fail before Close closes it, and no request is given
    up because its strings cannot be encoded (which drops the connection). *)
Definition calm (st : csess) (a : action) : Prop :=
  match a with
  | Break => cs_state st = Closing
  | Step i o => o = Sent /\
      forall m cmd body k, cs_calls st !! i = Some (Vis (CRequest m cmd body) k) -> body.2 = None
  | _ => True
  end.

(** The states a session can reach with actions that satisfy [ok]. *)
Inductive reachable (ok : csess -> action -> Prop) : csess -> Prop :=
| reachable_init : reachable ok csess_init
| reachable_act st a st' :
    reachable ok st -> lawful_action st a -> ok st a -> act a st = Some st' -> reachable ok st'.
End Act.
