(* ===== verification/ClientSessionOk.v ===== *)
(** * Responses find their requests

    The invariant of a session whose connection does not fail: every call is at
    some phase of ClientSpec, marks are held by one call at a time, and the frames
    under way for a mark, from the channel of the mark back to the server, are the
    rest of the response its holder waits for. *)
From S2P Require Import Prelude GoIO Codec Structs StructGen Prog Budget Paths ServerEnv ClientEnv ClientCmds ClientReadDirPlus ClientSpec ClientOk ClientSession.

(** ** Calls *)

(** The rest of a call respects the specification, with any budget. *)
Definition safe (p : CP unit) (g : cli_phase) : Prop :=
  forall b, wp false cli_env p (g, b) (fun _ s => s.1 = Idle).

Lemma call_safe fuel c x : call_wf x -> safe (call_prog fuel c x) Idle.
Proof.
  intros Hx b. eapply wp_mono.
  - apply (BW_wp cli_pre cli_next cli_retry false b); [apply (call_balanced false b fuel c x); [done|exact Hx]|done].
  - by intros [] [g' b'] [_ ->].
Qed.

Lemma client_safe_Vis e k g :
  safe (Vis e k) g -> cli_pre g e /\ forall r g', cli_next g e r g' -> safe (k r) g'.
Proof.
  intros H. split; [by destruct (H 0%nat)|]. intros r g' Hn b.
  destruct (H (if cli_retry g e r then S b else b)) as [_ Hk]. apply Hk. split; [done|].
  by destruct (cli_retry g e r).
Qed.

Definition mark_of (g : cli_phase) : option Z :=
  match g with Locked m | Awaiting m _ _ _ | Rooted m => Some m | _ => None end.

Definition counted (g : cli_phase) : nat := match g with Idle => 0 | _ => 1 end.

(** ** Frames under way *)

Definition with_mark (m : Z) (l : list (nat * bytes)) : list (nat * bytes) :=
  filter (fun x => Uint8 x.2 0 = m) l.

(** From the channel of the mark to the server, with their tags. *)
Definition underway (st : csess) (m : Z) : list (option nat * bytes) :=
  option_list (cs_chan st !! m) ++
  match cs_reader st with RHolding id f => if decide (Uint8 f 0 = m) then [(id, f)] else [] | _ => [] end ++
  map (fun x => (Some x.1, x.2)) (with_mark m (cs_wire st)).

(** The frames [l] are what is left of the response to request [id], of which
    [got] bytes have been received; [o] is what the server has still to send. *)
Fixpoint chain (id : nat) (cmd : Z) (body : image) (got : Z) (l : list (option nat * bytes)) (o : option outstanding) : Prop :=
  match l with
  | [] => o = Some (mkOutstanding id cmd body got)
  | (id', f) :: l' =>
      id' = Some id /\ frame_fits cmd body got f /\
      if rsp_code f =? ErrorPartialResponse then chain id cmd body (got + len (rsp_data f)) l' o
      else l' = [] /\ o = None
  end.

Lemma chain_emit id cmd body got l id' cmd' body' got' f :
  chain id cmd body got l (Some (mkOutstanding id' cmd' body' got')) -> frame_fits cmd' body' got' f ->
  chain id cmd body got (l ++ [(Some id', f)])
    (if rsp_code f =? ErrorPartialResponse then Some (mkOutstanding id' cmd' body' (got' + len (rsp_data f))) else None).
Proof.
  revert got. induction l as [|[i x] l IH]; intros got; cbn [chain app].
  - intros [= -> -> -> ->] Hf. split_and!; [done..|]. by destruct (rsp_code f =? _).
  - intros (-> & Hx & Hl) Hf. split_and!; [done..|]. destruct (rsp_code x =? _); [by apply IH|by destruct Hl].
Qed.

(** ** The invariant *)

(** The latest request of call [i]. *)
Definition latest (owner : list nat) (i id : nat) : Prop :=
  owner !! id = Some i /\ forall id', owner !! id' = Some i -> (id' <= id)%nat.

(** What call [i] at phase [g] makes of its mark. *)
Definition holds_mark (st : csess) (i : nat) (g : cli_phase) : Prop :=
  match g with
  | Locked m => m ∈ cs_marks st /\ underway st m = [] /\ cs_out st !! m = None
  | Awaiting m cmd body got =>
      m ∈ cs_marks st /\ exists id, latest (cs_owner st) i id /\ chain id cmd body got (underway st m) (cs_out st !! m)
  | Rooted _ => False
  | _ => True
  end.

Record routed (st : csess) (gs : list cli_phase) : Prop := {
  ro_safe : Forall2 safe (cs_calls st) gs;
  ro_reader : match cs_reader st with RReading | RHolding _ _ => True | _ => False end;
  ro_conn : cs_conn st = true /\ (cs_state st = Running \/ cs_state st = Closing /\ cs_active st = 0);
  ro_active : cs_active st = Z.of_nat (sum_list_with counted gs);
  ro_holds i g : gs !! i = Some g -> holds_mark st i g;
  ro_unique i j g g' m : gs !! i = Some g -> gs !! j = Some g' -> mark_of g = Some m -> mark_of g' = Some m -> i = j;
  ro_free m : m ∉ cs_marks st -> underway st m = [] /\ cs_out st !! m = None;
  ro_locked m : m ∈ cs_marks st -> exists i g, gs !! i = Some g /\ mark_of g = Some m;
}.

Lemma routed_init : routed csess_init [].
Proof. split; try done; auto. Qed.

Lemma holds_mark_mono st st' i g :
  (forall m, mark_of g = Some m -> (m ∈ cs_marks st -> m ∈ cs_marks st') /\ underway st' m = underway st m /\
     cs_out st' !! m = cs_out st !! m) ->
  (forall id, latest (cs_owner st) i id -> latest (cs_owner st') i id) ->
  holds_mark st i g -> holds_mark st' i g.
Proof.
  intros Hm Hl. destruct g as [| |m|m cmd body got| |m]; try done; cbn [holds_mark];
    destruct (Hm m eq_refl) as (H1 & -> & ->).
  - intros (Hin & Hu & Ho). by split; [apply H1|].
  - intros (Hin & id & Hid & Hc). split; [by apply H1|]. exists id. split; [by apply Hl|done].
Qed.

(** Steps that leave the marks and their frames alone. *)
Definition same_marks (st st' : csess) : Prop :=
  cs_marks st' = cs_marks st /\ cs_owner st' = cs_owner st /\
  forall m, underway st' m = underway st m /\ cs_out st' !! m = cs_out st !! m.

Lemma routed_same st st' gs :
  routed st gs -> same_marks st st' -> cs_calls st' = cs_calls st -> cs_active st' = cs_active st ->
  match cs_reader st' with RReading | RHolding _ _ => True | _ => False end ->
  cs_conn st' = true /\ (cs_state st' = Running \/ cs_state st' = Closing /\ cs_active st' = 0) -> routed st' gs.
Proof.
  intros [H1 H2 H3 H4 H5 H6 H7 H8] (Em & Eo & Eu) Ec Ea Hr Hc. split; rewrite ?Ec, ?Em; try done; [by rewrite Ea|..].
  - intros i g Hg. eapply holds_mark_mono; [| |by apply H5]; [|by rewrite Eo].
    intros m _. destruct (Eu m) as [-> ->]. by rewrite Em.
  - intros m Hm. destruct (Eu m) as [-> ->]. by apply H7.
Qed.

(** Every frame under way is part of a response. *)
Lemma chain_fits id cmd body got l o x : chain id cmd body got l o -> x ∈ l -> 2 <= len x.2.
Proof.
  revert got. induction l as [|[i f] l IH]; intros got; [by intros _ ?%elem_of_nil|].
  cbn [chain]. intros (_ & Hf & Hl) [-> | Hin]%elem_of_cons; [apply Hf|].
  destruct (rsp_code f =? _); [by eapply IH|destruct Hl as [-> _]; by apply elem_of_nil in Hin].
Qed.

Lemma underway_fits st gs m x : routed st gs -> x ∈ underway st m -> 2 <= len x.2.
Proof.
  intros Hro Hx. destruct (decide (m ∈ cs_marks st)) as [Hm|Hm].
  - destruct (ro_locked _ _ Hro m Hm) as (i & g & Hg & Hmg). pose proof (ro_holds _ _ Hro i g Hg) as Hh.
    destruct g; simplify_eq/=.
    + destruct Hh as (_ & Hu & _). rewrite Hu in Hx. by apply elem_of_nil in Hx.
    + destruct Hh as (_ & id & _ & Hc). by eapply chain_fits.
    + done.
  - destruct (ro_free _ _ Hro m Hm) as [Hu _]. rewrite Hu in Hx. by apply elem_of_nil in Hx.
Qed.

(** ** The read loop and the server *)

Lemma with_mark_cons m x l :
  with_mark m (x :: l) = (if decide (Uint8 x.2 0 = m) then [x] else []) ++ with_mark m l.
Proof. unfold with_mark. rewrite filter_cons. by destruct (decide _). Qed.

Lemma routed_read redial st st' gs : routed st gs -> reader_step redial st = Some st' -> routed st' gs.
Proof.
  intros Hro Hs. pose proof (ro_reader _ _ Hro) as Hr. pose proof (ro_conn _ _ Hro) as Hc. unfold reader_step in Hs.
  destruct (cs_reader st) as [|id f| | | | |] eqn:Er; try done.
  - destruct (cs_wire st) as [|[id f] w] eqn:Ew; [done|].
    assert (2 <= len f) as Hlen.
    { apply (underway_fits st gs (Uint8 f 0) (Some id, f) Hro). unfold underway. rewrite Er, Ew, with_mark_cons.
      cbn [snd]. rewrite decide_True by done. set_solver. }
    destruct (Z.ltb_spec (len f) 2); [lia|]. injection Hs as <-.
    eapply routed_same; [done| |done..]. split_and!; [done|done|]. intros m. split; [|done]. unfold underway.
    cbn [cs_chan cs_reader cs_wire set_reader set_net]. rewrite Er, Ew, with_mark_cons. cbn [snd fst].
    f_equal. by destruct (decide (Uint8 f 0 = m)).
  - destruct (cs_chan st !! Uint8 f 0) eqn:Ech; [done|]. injection Hs as <-.
    eapply routed_same; [done| |done..]. split_and!; [done|done|]. intros m. split; [|done]. unfold underway.
    cbn [cs_chan cs_reader cs_wire set_reader set_chan]. rewrite Er. destruct (decide (Uint8 f 0 = m)) as [<-|Hne].
    + by rewrite lookup_insert_eq, Ech.
    + by rewrite lookup_insert_ne.
Qed.

Lemma routed_emit m f st gs id cmd body got :
  routed st gs -> cs_out st !! m = Some (mkOutstanding id cmd body got) -> Uint8 f 0 = m -> frame_fits cmd body got f ->
  routed (set_net (cs_wire st ++ [(id, f)])
    (if rsp_code f =? ErrorPartialResponse
     then <[m := mkOutstanding id cmd body (got + len (rsp_data f))]> (cs_out st)
     else delete m (cs_out st)) st) gs.
Proof.
  intros Hro Ho Hm Hf. set (st' := set_net _ _ _).
  assert (forall m', underway st' m' = underway st m' ++ if decide (m' = m) then [(Some id, f)] else []) as Hu.
  { intros m'. unfold underway, st'. cbn [cs_chan cs_reader cs_wire set_net]. unfold with_mark.
    rewrite filter_app, map_app, <-!app_assoc. do 3 f_equal. rewrite filter_cons, filter_nil. cbn [snd]. rewrite Hm.
    destruct (decide (m = m')), (decide (m' = m)); first [done|congruence]. }
  assert (forall m', m' <> m -> cs_out st' !! m' = cs_out st !! m') as Hne.
  { intros m' Hne. unfold st'. cbn [cs_out set_net]. by case_match; rewrite ?lookup_insert_ne, ?lookup_delete_ne. }
  assert (cs_out st' !! m = if rsp_code f =? ErrorPartialResponse
    then Some (mkOutstanding id cmd body (got + len (rsp_data f))) else None) as He.
  { unfold st'. cbn [cs_out set_net]. by case_match; rewrite ?lookup_insert_eq, ?lookup_delete_eq. }
  pose proof Hro as [H1 H2 H3 H4 H5 H6 H7 H8]. split; try done.
  - intros i g Hg. destruct (decide (mark_of g = Some m)) as [Eg|Eg].
    + specialize (H5 i g Hg). destruct g; simplify_eq/=; [by destruct H5 as (_ & _ & ?); congruence| |done].
      destruct H5 as (Hin & id' & Hl & Hc). split; [done|]. exists id'. split; [done|].
      rewrite Hu, decide_True by done. rewrite He. eapply chain_emit; [|done]. by rewrite <-Ho.
    + eapply holds_mark_mono; [| |by apply H5]; [|done]. intros m' Hm'. assert (m' <> m) by congruence.
      rewrite Hu, decide_False, app_nil_r by done. split_and!; [done|done|by apply Hne].
  - intros m' Hm'. change (cs_marks st') with (cs_marks st) in Hm'. destruct (H7 m' Hm') as [Hu' Ho'].
    assert (m' <> m) by congruence. rewrite Hu, decide_False, Hu', Hne by done. done.
Qed.

(** ** A step of a call *)

Lemma routed_update st st1 gs i g g' p :
  routed st gs -> gs !! i = Some g -> safe p g' ->
  match cs_reader st1 with RReading | RHolding _ _ => True | _ => False end ->
  cs_conn st1 = true /\ (cs_state st1 = Running \/ cs_state st1 = Closing /\ cs_active st1 = 0) ->
  cs_calls st1 = cs_calls st ->
  cs_active st1 + Z.of_nat (counted g) = cs_active st + Z.of_nat (counted g') ->
  holds_mark st1 i g' ->
  (forall j m, j <> i -> mark_of g <> Some m -> (mark_of g' = Some m -> m ∉ cs_marks st) ->
     (m ∈ cs_marks st -> m ∈ cs_marks st1) /\ underway st1 m = underway st m /\ cs_out st1 !! m = cs_out st !! m) ->
  (forall j id, j <> i -> latest (cs_owner st) j id -> latest (cs_owner st1) j id) ->
  (mark_of g' = mark_of g \/ mark_of g' = None \/ mark_of g = None /\ forall m, mark_of g' = Some m -> m ∉ cs_marks st) ->
  (forall m, m ∉ cs_marks st1 -> underway st1 m = [] /\ cs_out st1 !! m = None) ->
  (forall m, m ∈ cs_marks st1 <-> mark_of g' = Some m \/ m ∈ cs_marks st /\ mark_of g <> Some m) ->
  routed (set_calls (<[i := p]> (cs_calls st1)) st1) (<[i := g']> gs).
Proof.
  intros Hro Hg Hp Hr Hc Ec Ha Hi Hj Hl Hmk Hfree Hin.
  pose proof Hro as [H1 H2 H3 H4 H5 H6 H7 H8]. pose proof (lookup_lt_Some _ _ _ Hg) as Hlt.
  assert (forall j gj m, j <> i -> gs !! j = Some gj -> mark_of gj = Some m ->
            mark_of g <> Some m /\ m ∈ cs_marks st) as Hother.
  { intros j gj m Hne Hgj Hm. split; [intros Hm'; by destruct (Hne (H6 j i gj g m Hgj Hg Hm Hm'))|].
    specialize (H5 j gj Hgj). destruct gj; cbn [mark_of holds_mark] in *; try done; injection Hm as ->; apply H5. }
  split; cbn [cs_calls cs_reader cs_conn cs_state cs_active cs_marks cs_out set_calls]; try done.
  - rewrite Ec. by apply Forall2_insert.
  - pose proof (sum_insert counted gs i g' g Hg). lia.
  - intros j gj. destruct (decide (j = i)) as [->|Hne].
    + rewrite list_lookup_insert_eq by done. by intros [= <-].
    + rewrite list_lookup_insert_ne by done. intros Hgj.
      assert (holds_mark st1 j gj) as Hh; [|by destruct gj].
      eapply holds_mark_mono; [|intros id; by apply Hl|by apply H5]. intros m Hm.
      destruct (Hother j gj m Hne Hgj Hm) as [Ho1 Ho2]. apply (Hj j); [done|done|].
      intros Hm'. destruct Hmk as [E|[E|[E Hn]]]; [congruence|congruence|by apply Hn].
  - intros j1 j2 g1 g2 m. destruct (decide (j1 = i)) as [->|Hn1], (decide (j2 = i)) as [->|Hn2]; [done|..].
    + rewrite list_lookup_insert_eq, list_lookup_insert_ne by done. intros [= <-] Hg2 Hm1 Hm2.
      destruct (Hother j2 g2 m Hn2 Hg2 Hm2) as [Ho1 Ho2].
      destruct Hmk as [E|[E|[E Hn]]]; [congruence|congruence|by destruct (Hn m Hm1)].
    + rewrite list_lookup_insert_ne, list_lookup_insert_eq by done. intros Hg1 [= <-] Hm1 Hm2.
      destruct (Hother j1 g1 m Hn1 Hg1 Hm1) as [Ho1 Ho2].
      destruct Hmk as [E|[E|[E Hn]]]; [congruence|congruence|by destruct (Hn m Hm2)].
    + rewrite !list_lookup_insert_ne by done. by apply H6.
  - intros m [Hm|[Hm1 Hm2]]%Hin.
    + exists i, g'. by rewrite list_lookup_insert_eq.
    + destruct (H8 m Hm1) as (j & gj & Hgj & Hmj). assert (j <> i) by (intros ->; congruence).
      exists j, gj. by rewrite list_lookup_insert_ne.
Qed.

Lemma latest_snoc_other owner i j id : j <> i -> latest owner j id -> latest (owner ++ [i]) j id.
Proof.
  intros Hne [H1 H2]. split; [by apply lookup_app_l_Some|]. intros id' [H|[_ H]]%lookup_app_Some; [by apply H2|].
  apply list_lookup_singleton_Some in H as [_ <-]. done.
Qed.

Lemma latest_snoc owner i : latest (owner ++ [i]) i (length owner).
Proof.
  split; [by rewrite lookup_app_r, Nat.sub_diag|]. intros id' H. apply lookup_lt_Some in H.
  rewrite length_app in H. simpl in H. lia.
Qed.

(** Taking the frame of a mark off its channel. *)
Lemma underway_receive st m id f m' :
  cs_chan st !! m = Some (id, f) ->
  underway st m = (id, f) :: underway (set_chan (delete m (cs_chan st)) st) m /\
  (m' <> m -> underway (set_chan (delete m (cs_chan st)) st) m' = underway st m').
Proof.
  intros Hf. unfold underway. cbn [cs_chan cs_reader cs_wire set_chan]. rewrite Hf, lookup_delete_eq. split; [done|].
  intros Hne. by rewrite lookup_delete_ne.
Qed.

(** A step that touches no mark. *)
Lemma routed_quiet st st1 gs i g g' p :
  routed st gs -> gs !! i = Some g -> safe p g' -> same_marks st st1 ->
  cs_reader st1 = cs_reader st -> cs_conn st1 = cs_conn st -> cs_state st1 = cs_state st ->
  cs_calls st1 = cs_calls st ->
  cs_active st1 + Z.of_nat (counted g) = cs_active st + Z.of_nat (counted g') ->
  (cs_state st = Closing -> (counted g' <= counted g)%nat) ->
  mark_of g = None /\ mark_of g' = None \/ g' = g ->
  routed (set_calls (<[i := p]> (cs_calls st1)) st1) (<[i := g']> gs).
Proof.
  intros Hro Hg Hp (Em & Eo & Eu) Er En Es Ec Ha Hcl Hgg. pose proof Hro as [H1 H2 H3 H4 H5 H6 H7 H8].
  assert (mark_of g' = mark_of g) as Emg by (destruct Hgg as [[-> ->] | ->]; done).
  eapply (routed_update st st1 gs i g); try done.
  - by rewrite Er.
  - rewrite En, Es. destruct H3 as [H3 [H3'|[H3' Hz]]]; split; [done|auto|done|right]. split; [done|].
    specialize (Hcl H3'). pose proof (sum_insert counted gs i g' g Hg). lia.
  - destruct Hgg as [[_ E] | ->]; [by destruct g'|]. eapply holds_mark_mono; [| |by apply H5]; [|by rewrite Eo].
    intros m _. rewrite Em. by destruct (Eu m).
  - intros j m _ _ _. rewrite Em. by destruct (Eu m).
  - by rewrite Eo.
  - by left.
  - intros m. rewrite Em. destruct (Eu m) as [-> ->]. by apply H7.
  - intros m. rewrite Em, Emg. split; [intros Hm; destruct (decide (mark_of g = Some m)); auto|].
    intros [Hm|[Hm _]]; [|done]. specialize (H5 i g Hg). destruct g; simplify_eq/=; by destruct H5.
Qed.

Lemma routed_lock st gs i m p :
  routed st gs -> gs !! i = Some Begun -> m ∉ cs_marks st -> safe p (Locked m) ->
  let st1 := set_marks ({[m]} ∪ cs_marks st) st in
  routed (set_calls (<[i := p]> (cs_calls st1)) st1) (<[i := Locked m]> gs).
Proof.
  intros Hro Hg Hm Hp st1. pose proof Hro as [H1 H2 H3 H4 H5 H6 H7 H8].
  destruct (H7 m Hm) as [Hu Ho]. eapply (routed_update st st1 gs i Begun); try done.
  - split_and!; [simpl; set_solver|exact Hu|exact Ho].
  - intros j m' _ _ _. split; [simpl; set_solver|done].
  - right. right. split; [done|]. by intros m' [= <-].
  - intros m' Hm'. apply H7. simpl in Hm'. set_solver.
  - intros m'. cbn [mark_of cs_marks set_marks st1]. rewrite elem_of_union, elem_of_singleton. naive_solver.
Qed.

Lemma routed_unlock st gs i m p :
  routed st gs -> gs !! i = Some (Locked m) -> safe p Unlocked ->
  let st1 := set_marks (cs_marks st ∖ {[m]}) st in
  routed (set_calls (<[i := p]> (cs_calls st1)) st1) (<[i := Unlocked]> gs).
Proof.
  intros Hro Hg Hp st1. pose proof Hro as [H1 H2 H3 H4 H5 H6 H7 H8]. destruct (H5 i _ Hg) as (Hin & Hu & Ho).
  eapply (routed_update st st1 gs i (Locked m)); try done.
  - intros j m' _ Hm' _. simpl in Hm'. assert (m' <> m) by congruence. split; [simpl; set_solver|done].
  - by right; left.
  - intros m' Hm'. destruct (decide (m' = m)) as [->|Hne]; [done|]. apply H7. simpl in Hm'. set_solver.
  - intros m'. cbn [mark_of cs_marks set_marks st1]. rewrite elem_of_difference, elem_of_singleton. naive_solver.
Qed.

Lemma routed_request st gs i m cmd body p :
  routed st gs -> gs !! i = Some (Locked m) -> safe p (Awaiting m cmd body 0) ->
  let st1 := set_owner (cs_owner st ++ [i])
               (set_net (cs_wire st) (<[m := mkOutstanding (length (cs_owner st)) cmd body 0]> (cs_out st)) st) in
  routed (set_calls (<[i := p]> (cs_calls st1)) st1) (<[i := Awaiting m cmd body 0]> gs).
Proof.
  intros Hro Hg Hp st1. pose proof Hro as [H1 H2 H3 H4 H5 H6 H7 H8]. destruct (H5 i _ Hg) as (Hin & Hu & Ho).
  eapply (routed_update st st1 gs i (Locked m)); try done.
  - split; [done|]. exists (length (cs_owner st)). split; [apply latest_snoc|].
    change (underway st1 m) with (underway st m). rewrite Hu. unfold st1. cbn [cs_out set_net set_owner].
    by rewrite lookup_insert_eq.
  - intros j m' _ Hm' _. split_and!; [done|done|]. unfold st1. cbn [cs_out set_net set_owner].
    rewrite lookup_insert_ne; [done|]. simpl in Hm'. congruence.
  - intros j id Hne. by apply latest_snoc_other.
  - by left.
  - intros m' Hm'. assert (m' <> m) by (intros ->; done). unfold st1. cbn [cs_out set_net set_owner].
    rewrite lookup_insert_ne by done. by apply H7.
  - intros m'. change (cs_marks st1) with (cs_marks st). cbn [mark_of].
    split; [intros Hm; destruct (decide (Some m = Some m')); auto|]. by intros [[= <-]|[]].
Qed.

Lemma routed_receive st gs i m id f cmd body got p :
  routed st gs -> gs !! i = Some (Awaiting m cmd body got) -> cs_chan st !! m = Some (id, f) ->
  let g' := if rsp_code f =? ErrorPartialResponse then Awaiting m cmd body (got + len (rsp_data f)) else Locked m in
  safe p g' ->
  let st1 := set_chan (delete m (cs_chan st)) st in
  routed (set_calls (<[i := p]> (cs_calls st1)) st1) (<[i := g']> gs).
Proof.
  intros Hro Hg Hf g' Hp st1. pose proof Hro as [H1 H2 H3 H4 H5 H6 H7 H8].
  destruct (H5 i _ Hg) as (Hin & id' & Hl & Hch).
  pose proof (fun m' => underway_receive st m id f m' Hf) as Hu. rewrite (proj1 (Hu m)) in Hch.
  destruct Hch as (-> & Hfit & Hch). assert (mark_of g' = Some m) as Emg by (unfold g'; by destruct (_ =? _)).
  eapply (routed_update st st1 gs i (Awaiting m cmd body got)); try done.
  - unfold g'. by destruct (_ =? _).
  - unfold g'. destruct (rsp_code f =? ErrorPartialResponse); cbn [holds_mark].
    + split; [done|]. by exists id'.
    + by split_and!; [|destruct Hch..].
  - intros j m' _ Hm' _. split_and!; [done| |done]. apply Hu. simpl in Hm'. congruence.
  - by left.
  - intros m' Hm'. assert (m' <> m) by (intros ->; done). destruct (H7 m' Hm') as [Hum ?].
    split; [unfold st1|done]. by rewrite (proj2 (Hu m')).
  - intros m'. change (cs_marks st1) with (cs_marks st). rewrite Emg. cbn [mark_of].
    split; [intros Hm; destruct (decide (Some m = Some m')); auto|]. by intros [[= <-]|[]].
Qed.

Lemma routed_event i e k st st1 r gs :
  routed st gs -> cs_calls st !! i = Some (Vis e k) -> answer i Sent e st = Some (r, st1) ->
  (forall m cmd body, e = CRequest m cmd body -> body.2 = None) ->
  exists g', routed (set_calls (<[i := k r]> (cs_calls st1)) st1) (<[i := g']> gs).
Proof.
  intros Hro Hp Ha Hbody. pose proof (ro_conn _ _ Hro) as [Hc Hst].
  destruct (Forall2_lookup_l _ _ _ _ _ (ro_safe _ _ Hro) Hp) as (g & Hg & Hs). apply client_safe_Vis in Hs as [Hpre Hk].
  destruct e; try discriminate Ha; cbn [answer cli_pre] in *.
  - subst g. assert ((r, st1) = (true, set_active (cs_active st + 1) st) /\ cs_state st <> Closing \/ (r, st1) = (false, st))
      as [[Hr Hnc]|Hr]; [destruct (cs_state st); injection Ha as <- <-; auto|..]; injection Hr as -> ->.
    + exists Begun. eapply (routed_quiet st _ gs i Idle); try done; [by apply Hk|simpl; lia|..]; simpl; auto.
    + exists Idle. eapply (routed_quiet st _ gs i Idle); try done; [by apply Hk|auto..].
  - subst g. injection Ha as <- <-. exists Begun.
    eapply (routed_quiet st _ gs i Begun); try done; [|auto..]. apply Hk. split; [by apply wrapu_range|done].
  - subst g. destruct (decide (mark ∈ cs_marks st)) as [Hin|Hin]; injection Ha as <- <-.
    + exists Begun. eapply (routed_quiet st _ gs i Begun); try done; [by apply Hk|auto..].
    + exists (Locked mark). apply routed_lock; [done..|]. by apply Hk.
  - subst g. injection Ha as <- <-. exists Unlocked. apply routed_unlock; [done..|]. by apply Hk.
  - subst g. injection Ha as <- <-. exists Idle.
    eapply (routed_quiet st _ gs i Unlocked); try done; [by apply Hk|simpl; lia|..]; simpl; auto.
  - destruct Hpre as [-> Hstr]. specialize (Hbody _ _ _ eq_refl).
    unfold send_request in Ha. rewrite Hc, Hbody in Ha. injection Ha as <- <-.
    eexists. apply routed_request; [done..|]. by apply Hk.
  - destruct Hpre as (cmd & body & got & ->). destruct (cs_chan st !! mark) as [[id f]|] eqn:Ech; [|done].
    injection Ha as <- <-. destruct (ro_holds _ _ Hro i _ Hg) as (Hin & id' & Hl & Hch).
    rewrite (proj1 (underway_receive st mark id f 0 Ech)) in Hch. destruct Hch as (_ & Hfit & _).
    eexists. eapply routed_receive; [done..|]. by apply Hk.
  - injection Ha as <- <-. exists g. eapply (routed_quiet st _ gs i g); try done; [by apply Hk|auto..].
Qed.

(** ** Every action *)

Lemma routed_call st gs p :
  routed st gs -> safe p Idle -> routed (set_calls (cs_calls st ++ [p]) st) (gs ++ [Idle]).
Proof.
  intros [H1 H2 H3 H4 H5 H6 H7 H8] Hp.
  assert (forall i g, (gs ++ [Idle]) !! i = Some g -> gs !! i = Some g \/ g = Idle) as Hin.
  { intros i g [H|[_ H]]%lookup_app_Some; [by left|]. apply list_lookup_singleton_Some in H as [_ <-]. by right. }
  split; cbn [cs_calls cs_reader cs_conn cs_state cs_active cs_marks cs_out set_calls]; try done.
  - apply Forall2_app; [done|]. by repeat constructor.
  - rewrite sum_list_with_app. simpl. lia.
  - intros i g [Hg| ->]%Hin; [|done]. specialize (H5 i g Hg). by destruct g.
  - intros i j g g' m Hg Hg' Hm Hm'. apply Hin in Hg as [Hg| ->]; [|done]. apply Hin in Hg' as [Hg'| ->]; [|done].
    by eapply H6.
  - intros m Hm. destruct (H8 m Hm) as (i & g & Hg & Hmg). exists i, g. split; [|done]. by apply lookup_app_l_Some.
Qed.

(** ** After Close *)

(** Nothing is in progress and nothing is on its way, ever again. *)
Record closed_down (st : csess) : Prop := {
  cd_safe : Forall (fun p => safe p Idle) (cs_calls st);
  cd_state : cs_state st = Closing \/ cs_state st = Closed;
  cd_reader : match cs_reader st with RReading | RStopping | RNotify true _ => cs_state st = Closing | REnded => True | _ => False end;
  cd_active : cs_active st = 0;
  cd_marks : cs_marks st = ∅;
  cd_chan : cs_chan st = ∅;
  cd_net : cs_wire st = [] /\ cs_out st = ∅;
}.

Lemma ro_no_marks st gs m : routed st gs -> cs_active st = 0 -> m ∉ cs_marks st.
Proof.
  intros Hro Ha Hm. destruct (ro_locked _ _ Hro m Hm) as (i & g & Hg & Hmg).
  pose proof (sum_insert counted gs i Idle g Hg). pose proof (ro_active _ _ Hro).
  assert (counted g = 1)%nat by (by destruct g). simpl in *. lia.
Qed.

Lemma sum_zero gs : sum_list_with counted gs = 0%nat -> Forall (fun g => g = Idle) gs.
Proof. induction gs as [|[] gs IH]; simpl; intros H; constructor; auto; lia. Qed.

Lemma routed_closing st gs : routed st gs -> cs_state st = Closing -> closed_down st.
Proof.
  intros Hro Hs. destruct (ro_conn _ _ Hro) as [_ [?|[_ Ha]]]; [congruence|].
  assert (forall m, m ∉ cs_marks st) as Hno by (intros m; by apply (ro_no_marks st gs)).
  assert (forall m, cs_chan st !! m = None /\ with_mark m (cs_wire st) = [] /\
    match cs_reader st with RHolding _ f => Uint8 f 0 <> m | _ => True end /\ cs_out st !! m = None) as Hem.
  { intros m. destruct (ro_free _ _ Hro m (Hno m)) as [Hu Ho]. unfold underway in Hu.
    apply app_eq_nil in Hu as [Hc [Hr Hw]%app_eq_nil]. apply fmap_nil_inv in Hw. split_and!; [|done| |done].
    - by destruct (cs_chan st !! m).
    - destruct (cs_reader st); try done. by destruct (decide _). }
  split; [|by left| |done|..].
  - pose proof (ro_active _ _ Hro). pose proof (sum_zero gs ltac:(lia)) as Hz. pose proof (ro_safe _ _ Hro) as H2. clear -H2 Hz.
    induction H2; [constructor|]. inversion Hz; subst. constructor; auto.
  - pose proof (ro_reader _ _ Hro). destruct (cs_reader st) as [|id f| | | | |]; try done.
    by destruct (Hem (Uint8 f 0)) as (_ & _ & ? & _).
  - apply set_eq. intros m. split; [by intros ?%Hno|by intros ?%elem_of_empty].
  - apply map_eq. intros m. rewrite lookup_empty. apply Hem.
  - split; [|apply map_eq; intros m; rewrite lookup_empty; apply Hem].
    destruct (cs_wire st) as [|x w]; [done|]. destruct (Hem (Uint8 x.2 0)) as (_ & Hw & _).
    rewrite with_mark_cons, decide_True in Hw by done. done.
Qed.

Lemma closed_down_calls st l : closed_down st -> Forall (fun p => safe p Idle) l -> closed_down (set_calls l st).
Proof. by intros [H1 H2 H3 H4 H5 H6 H7] Hl. Qed.

Lemma closed_down_event i o e k st st1 r :
  closed_down st -> cs_calls st !! i = Some (Vis e k) -> answer i o e st = Some (r, st1) ->
  closed_down (set_calls (<[i := k r]> (cs_calls st1)) st1).
Proof.
  intros Hcd Hp Ha. pose proof (Forall_lookup_1 _ _ _ _ (cd_safe _ Hcd) Hp) as [Hpre Hk]%client_safe_Vis.
  destruct e; try discriminate Ha; cbn [answer cli_pre] in *; try (by naive_solver).
  - assert (r = false /\ st1 = st) as [-> ->]
      by (destruct (cd_state _ Hcd) as [E|E]; rewrite E in Ha; by injection Ha as <- <-).
    apply closed_down_calls; [done|]. apply Forall_insert; [by apply cd_safe|]. by apply Hk.
  - injection Ha as <- <-. apply closed_down_calls; [done|]. apply Forall_insert; [by apply cd_safe|]. by apply Hk.
Qed.

Lemma closed_down_read redial st st' : closed_down st -> reader_step redial st = Some st' -> closed_down st'.
Proof.
  intros [H1 H2 H3 H4 H5 H6 [H7 H7']] Hs. unfold reader_step in Hs.
  destruct (cs_reader st) as [|id f| |[] i|[] i| |]; try done.
  - by rewrite H7 in Hs.
  - injection Hs as <-. unfold stopConn. rewrite H3. split; try done. by left.
  - injection Hs as <-. destruct (256 <=? i).
    + split; try done. by right.
    + rewrite H5. rewrite decide_False by apply not_elem_of_empty. by split.
Qed.

Lemma closed_down_act fuel c a st st' :
  closed_down st -> lawful_action st a -> act fuel c a st = Some st' -> closed_down st'.
Proof.
  intros Hcd Hl Ha. destruct a; cbn [act lawful_action] in *.
  - injection Ha as <-. apply closed_down_calls; [done|]. apply Forall_app; split; [by apply cd_safe|].
    constructor; [by apply call_safe|done].
  - destruct (cs_calls st !! i) as [[|e k| |]|] eqn:Ei; try done.
    destruct (answer i o e st) as [[r st1]|] eqn:Er; [|done]. injection Ha as <-. by eapply closed_down_event.
  - destruct (cd_net _ Hcd) as [_ E]. by rewrite E, lookup_empty in Ha.
  - by eapply closed_down_read.
  - pose proof Hcd as [H1 H2 H3 H4 H5 H6 H7]. destruct (cs_reader st) eqn:Er; try done. injection Ha as <-. by split.
  - pose proof Hcd as [H1 H2 H3 H4 H5 H6 H7]. destruct (cs_resuming st) as [|n]; [done|]. injection Ha as <-.
    destruct H2 as [E|E]; rewrite E; split; try done; cbn; auto.
  - destruct (cd_state _ Hcd) as [E|E]; by rewrite E in Ha.
Qed.

Lemma routed_act fuel c a st st' gs :
  routed st gs -> lawful_action st a -> calm st a -> act fuel c a st = Some st' ->
  (exists gs', routed st' gs') \/ closed_down st'.
Proof.
  intros Hro Hl Hc Ha. assert (a = Break \/ a <> Break) as [->|Hnb] by (destruct a; auto; by right).
  { right. eapply closed_down_act; [by eapply routed_closing|done..]. }
  left. destruct a; cbn [act lawful_action calm] in *.
  - injection Ha as <-. eexists. apply routed_call; [done|]. by apply call_safe.
  - destruct Hc as [-> Hb]. destruct (cs_calls st !! i) as [[|e k| |]|] eqn:Ei; try done.
    destruct (answer i Sent e st) as [[r st1]|] eqn:Er; [|done]. injection Ha as <-.
    destruct (routed_event i e k st st1 r gs) as [g' Hg']; [done..| |by eexists].
    intros m cmd body ->. by apply (Hb m cmd body k).
  - destruct (cs_out st !! m) as [[id cmd body got]|] eqn:Eo; [|done]. injection Ha as <-.
    destruct Hl as [Hm Hf]. exists gs. eapply routed_emit; [done..|]. by eapply Hf.
  - exists gs. by eapply routed_read.
  - done.
  - destruct (cs_resuming st) as [|n]; [done|]. injection Ha as <-. exists gs.
    destruct (ro_conn _ _ Hro) as [H1 H2]. pose proof (ro_reader _ _ Hro).
    destruct H2 as [E|[E H2]]; rewrite E; (eapply routed_same; [done|done|done|done|done|]); by cbn; rewrite ?E; auto.
  - destruct (ro_conn _ _ Hro) as [H1 H2]. pose proof (ro_reader _ _ Hro).
    destruct (cs_state st), (Z.eqb_spec (cs_active st) 0); try done. cbn in Ha. rewrite H1 in Ha. injection Ha as <-. exists gs.
    eapply routed_same; [done|done|done|done|done|]; cbn; auto.
Qed.

Lemma reachable_routed fuel c st : reachable fuel c calm st -> (exists gs, routed st gs) \/ closed_down st.
Proof.
  induction 1 as [|st a st' _ [[gs IH]|IH] Hl Hc Ha]; [left; exists []; apply routed_init| |].
  - by eapply routed_act.
  - right. by eapply closed_down_act.
Qed.

(** Every call has a phase, and asks only for what its phase allows. *)
Lemma routed_phase st gs i p : routed st gs -> cs_calls st !! i = Some p -> exists g, gs !! i = Some g /\ safe p g.
Proof. intros Hro Hp. destruct (Forall2_lookup_l _ _ _ _ _ (ro_safe _ _ Hro) Hp) as (g & ? & ?). by exists g. Qed.

Lemma routed_receiver st gs i m k :
  routed st gs -> cs_calls st !! i = Some (Vis (CReceive m) k) ->
  exists cmd body got id, gs !! i = Some (Awaiting m cmd body got) /\ latest (cs_owner st) i id /\
    chain id cmd body got (underway st m) (cs_out st !! m).
Proof.
  intros Hro Hp. destruct (routed_phase _ _ _ _ Hro Hp) as (g & Hg & Hs). apply client_safe_Vis in Hs as [Hpre _].
  destruct Hpre as (cmd & body & got & ->). destruct (ro_holds _ _ Hro i _ Hg) as (_ & id & Hl & Hc).
  by exists cmd, body, got, id.
Qed.
