(* ===== verification/ServerOwn.v ===== *)
(** * What a goroutine owns: fast buffers and streams

    A second specification of the handlers, on the side that ServerSpec leaves
    out: fast buffers of the pool, streams that were made, registered under a
    mark, started and fed. Handlers of ordinary commands touch none of it
    ([quiet]); the two stream commands and the goroutine of a stream follow a
    discipline ([obeys]) from which ServerLife derives that a session never
    sends on a closed channel, loses no buffer and can always be torn down. *)
From S2P Require Import Prelude GoIO Codec Structs StructGen Prog Paths UnixConv ServerEnv.
From S2P Require Import ServerCmds ServerXattr ServerReadDir ServerStream ServerDispatch.
From S2P Require Import ServerConn ServerSpec ServerOk ServerRun.

(** ** Programs that leave streams and fast buffers alone *)

Definition quiet_ev (e : sev) : bool :=
  match e with
  | WsNew | WsLoad _ | WsLoadOrStore _ _ | WsDelete _ | WsSpawn _ _ _ _ | WsEnqueue _ _
  | WsReceive _ | ReleaseFastBuffer => false
  | _ => true
  end.

(** Every request a program can make satisfies [ok]. *)
Fixpoint only (ok : sev -> bool) {A} (p : SP A) : Prop :=
  match p with
  | Vis e k => ok e = true /\ forall r, only ok (k r)
  | _ => True
  end.

Abbreviation quiet := (only quiet_ev).

Section Only.
Context (ok : sev -> bool).

Lemma quiet_bind {A B} (p : SP A) (k : A -> SP B) :
  only ok p -> (forall a, only ok (k a)) -> only ok (p ≫= k).
Proof. induction p as [a|e c IH| |]; simpl; [by auto| |done|done]. intros [He Hc] Hk.
  split; [done|]. intros r. by apply IH.
Qed.

Lemma quiet_trigger e : ok e = true -> only ok (trigger e).
Proof. done. Qed.

Lemma quiet_ret {A} (a : A) : only ok (mret a).
Proof. exact I. Qed.

Lemma quiet_loop {S A} fuel (body : S -> SP (S + A)) s :
  (forall s, only ok (body s)) -> only ok (loop fuel body s).
Proof.
  intros Hb. revert s. induction fuel as [|n IH]; intros s; [exact I|]. simpl.
  apply quiet_bind; [apply Hb|]. intros [s'|a]; [apply IH|exact I].
Qed.
End Only.

Create HintDb quiet.
#[export] Hint Resolve quiet_ret : quiet.

Ltac quiet_head p := match p with ?f _ => quiet_head f | _ => p end.

(** Down the structure of a program; a call is unfolded unless a lemma of the
    database proves it. *)
Ltac quiet :=
  repeat
    match goal with
    | |- forall _, _ => intro
    | |- True => exact I
    | |- only _ (_ ≫= _) => apply quiet_bind
    | |- only _ (trigger _) => apply quiet_trigger; reflexivity
    | |- only _ (loop _ _ _) => apply quiet_loop
    | |- only _ (match ?x with _ => _ end) => destruct x
    | H : context [only _ _] |- only _ _ => apply H
    | |- only _ Panic => exact I
    | |- only _ Diverge => exact I
    | |- only _ _ => solve [eauto 2 with quiet]
    | |- only _ ?p => let h := quiet_head p in progress (unfold h)
    | |- only _ ?p => progress (cbv zeta)
    end.

Section QuietLoops.
Context {abi : UnixABI} (s : session) (mark : Z).

Lemma cmdRead_loop_quiet sfd n : quiet (cmdRead_loop mark sfd n).
Proof. induction n as [|n IH]; cbn [cmdRead_loop]; quiet. Qed.

Lemma cmdReadAt_loop_quiet sfd off n : quiet (cmdReadAt_loop mark sfd off n).
Proof. revert off. induction n as [|n IH]; intros off; cbn [cmdReadAt_loop]; quiet. Qed.

Lemma xattr_grow_only ok tries get buf : (forall n, only ok (get n)) -> only ok (xattr_grow tries get buf).
Proof. intros Hg. revert buf. induction tries as [|n IH]; intros buf; cbn [xattr_grow]; quiet. Qed.

Lemma writeXAttrData_loop_quiet n data buf : quiet (writeXAttrData_loop n mark data buf).
Proof. revert data buf. induction n as [|n IH]; intros data buf; cbn [writeXAttrData_loop]; quiet. Qed.

Lemma readdir_entries_quiet base l rsp : quiet (readdir_entries s mark base l rsp).
Proof. revert rsp. induction l as [|d l IH]; intros rsp; cbn [readdir_entries]; quiet. Qed.

Lemma writeDirentChunks_quiet rsp base l : quiet (writeDirentChunks s rsp mark base l).
Proof. revert rsp. induction l as [|d l IH]; intros rsp; cbn [writeDirentChunks]; quiet. Qed.

Lemma nextPrefetchDir_quiet base l used : quiet (nextPrefetchDir base l used).
Proof. revert used. induction l as [|d l IH]; intros used; cbn [nextPrefetchDir]; quiet. Qed.

Lemma stream_pending_quiet rsp path l count : quiet (stream_pending s rsp mark path l count).
Proof. revert rsp count. induction l as [|d l IH]; intros rsp count; cbn [stream_pending]; quiet. Qed.
End QuietLoops.
#[export] Hint Resolve cmdRead_loop_quiet cmdReadAt_loop_quiet writeXAttrData_loop_quiet
  readdir_entries_quiet writeDirentChunks_quiet nextPrefetchDir_quiet stream_pending_quiet : quiet.

#[export] Hint Extern 1 (only _ (xattr_grow _ _ _)) =>
  apply xattr_grow_only; intros; apply quiet_trigger; reflexivity : quiet.

(** The handler of a request apart from the streams, without the release of its
    fast buffer. *)
Definition handler {abi : UnixABI} (fuel : nat) (s : session) (mark : Z) (r : request) : SP unit :=
  match r with
  | ReqWrite req => cmdWrite fuel mark req
  | ReqWriteAt req => cmdWriteAt fuel mark req
  | ReqSetXAttr req => cmdSetXAttr s mark req
  | _ => exec_request fuel s mark r
  end.

Lemma handler_quiet {abi : UnixABI} fuel s mark r :
  req_inline r = false -> quiet (handler fuel s mark r).
Proof.
  destruct r; try discriminate; intros _; cbn [handler exec_request]; quiet.
Qed.

(** ** Responses of one frame *)

(** The commands outside [multi_frame] never hand a frame of their own making to the connection. *)
Definition one_shot_ev (e : sev) : bool := match e with Send _ => false | _ => true end.

Lemma exec_request_one_shot {abi : UnixABI} fuel s mark r :
  req_inline r = false -> multi_frame (req_code r) = false -> only one_shot_ev (exec_request fuel s mark r).
Proof.
  destruct r; try discriminate; intros _ Hm; try discriminate Hm; cbn [exec_request]; quiet.
Qed.

Lemma doCommandCall_one_shot {abi : UnixABI} fuel s mark cmd rd :
  is_stream_cmd cmd = false -> multi_frame cmd = false ->
  only one_shot_ev (action_prog (doCommandCall fuel s mark cmd rd).1).
Proof.
  intros Hc Hm. unfold doCommandCall. destruct (read_request cmd) as [f|] eqn:Ef; [|cbn [action_prog fst]; quiet].
  destruct (f rd) as [[req|e] r'] eqn:Er; [|cbn [action_prog fst]; quiet].
  destruct (read_request_sound _ _ _ _ _ Ef Er) as [<- _].
  assert (req_inline req = false) as Hi by (by rewrite req_inline_code).
  rewrite Hi. by apply exec_request_one_shot.
Qed.

Lemma only_run ok {S A} (os : forall e : sev, S -> sans e * S) (p : SP A) st log o st' log' :
  only ok p -> run (logged os) p (st, log) = (o, (st', log')) ->
  Forall (fun x => ok (projT1 x) = true) log -> Forall (fun x => ok (projT1 x) = true) log'.
Proof.
  revert st log. induction p as [a|e k IH| |]; intros st log Hp Hrun Hl; simpl in *; try by simplify_eq.
  destruct Hp as [He Hk]. unfold logged in Hrun at 1. simpl in Hrun. destruct (os e st) as [r s1].
  eapply IH; [apply Hk|exact Hrun|]. apply Forall_app. split; [done|]. by constructor.
Qed.

(** A response of such a command is one frame. *)
Lemma one_shot_response root mark log :
  Forall (fun x => one_shot_ev (projT1 x) = true) log -> log_respects root mark log ->
  response mark (log_frames log) -> length (log_frames log) = 1%nat.
Proof.
  intros Ho Hp (ps & f & E & Hps & _).
  assert (Forall (fun d => ~ partial_frame mark d) (log_frames log)) as Hn.
  { clear E. induction log as [|[e r] log IH]; [constructor|].
    apply Forall_cons in Ho as [He Ho], Hp as [[g [_ Hpre]] Hp]. specialize (IH Ho Hp).
    change (log_frames (existT e r :: log)) with
      (match frame_of e with Some d => d :: log_frames log | None => log_frames log end).
    destruct e; simpl in *; try done. constructor; [|done]. destruct Hpre as (_ & -> & Hec & Hu & _).
    intros [[pl Hd] _]. apply Hec. cbn [le_bytes app] in Hd. injection Hd as Hd _.
    rewrite <-(le_value_1 ec Hu), <-(le_value_1 ErrorPartialResponse) by done. cbn [le_bytes]. by rewrite Hd. }
  rewrite E in *. apply Forall_app in Hn as [Hn _]. destruct ps as [|p ps]; [done|].
  apply Forall_inv in Hn. by apply Forall_inv in Hps.
Qed.

(** ** The discipline *)

(** What a goroutine is: a command started with [go], a command the read loop
    runs itself, the goroutine of a stream. *)
Inductive role := RGo | RInline | RStream (j : nat) (mark : Z).

(** What it owns: fast buffers; a stream it has made and not registered yet; a
    stream it has registered and not started yet; the streams it may send to;
    and for the goroutine of a stream, its entry in the table. *)
Record own := mkOwn {
  o_fast : nat;
  o_new : option nat;
  o_reg : option (Z * nat);
  o_ids : list nat;
  o_live : bool;
}.

Definition own_start (fast : nat) (live : bool) : own := mkOwn fast None None [] live.
Definition own_end (o : own) : Prop := o_fast o = 0%nat /\ o_reg o = None /\ o_live o = false.

Definition own_pre (k : role) (o : own) (e : sev) : Prop :=
  match e with
  | ReleaseFastBuffer => (0 < o_fast o)%nat
  | WsNew | WsLoad _ => k = RInline
  | WsLoadOrStore m i => k = RInline /\ o_new o = Some i
  | WsSpawn i m _ _ => k = RInline /\ o_reg o = Some (m, i) /\ o_new o = None
  | WsEnqueue i msg => k = RInline /\ i ∈ o_ids o /\ (in_buf msg = true -> 0 < o_fast o)%nat
  | WsReceive i => exists m, k = RStream i m /\ o_live o = true
  | WsDelete m => exists i, k = RStream i m /\ o_live o = true
  | _ => True
  end.

Definition own_step (o : own) (e : sev) : sans e -> own :=
  match e return sans e -> own with
  | ReleaseFastBuffer => fun _ => mkOwn (pred (o_fast o)) (o_new o) (o_reg o) (o_ids o) (o_live o)
  | WsNew => fun i => mkOwn (o_fast o) (Some i) (o_reg o) (o_ids o) (o_live o)
  | WsLoad _ => fun r =>
      match r with
      | Some i => mkOwn (o_fast o) (o_new o) (o_reg o) (i :: o_ids o) (o_live o)
      | None => o
      end
  | WsLoadOrStore m i => fun loaded =>
      if loaded then o else mkOwn (o_fast o) None (Some (m, i)) (i :: o_ids o) (o_live o)
  | WsSpawn _ _ _ _ => fun _ => mkOwn (o_fast o) (o_new o) None (o_ids o) (o_live o)
  | WsEnqueue _ msg => fun _ =>
      mkOwn (if in_buf msg then pred (o_fast o) else o_fast o) (o_new o) (o_reg o) (o_ids o) (o_live o)
  | WsReceive _ => fun r =>
      match r with
      | Some msg => mkOwn (if in_buf msg then S (o_fast o) else o_fast o) (o_new o) (o_reg o) (o_ids o) (o_live o)
      | None => o
      end
  | WsDelete _ => fun _ => mkOwn (o_fast o) (o_new o) (o_reg o) (o_ids o) false
  | _ => fun _ => o
  end.

Fixpoint obeys (k : role) {A} (p : SP A) (o : own) (Q : A -> own -> Prop) : Prop :=
  match p with
  | Ret a => Q a o
  | Vis e c => own_pre k o e /\ forall r, obeys k (c r) (own_step o e r) Q
  | _ => True
  end.

Lemma obeys_bind k {A B} (p : SP A) (f : A -> SP B) o (Q : B -> own -> Prop) :
  obeys k p o (fun a o' => obeys k (f a) o' Q) -> obeys k (p ≫= f) o Q.
Proof.
  revert o. induction p as [a|e c IH| |]; intros o; [done| |done|done]. intros [He Hc].
  split; [done|]. intros r. apply IH, Hc.
Qed.

Lemma obeys_mono k {A} (p : SP A) o (Q Q' : A -> own -> Prop) :
  obeys k p o Q -> (forall a o', Q a o' -> Q' a o') -> obeys k p o Q'.
Proof.
  revert o. induction p as [a|e c IH| |]; simpl; intros o H HQ; [auto| |done|done].
  destruct H as [He Hc]. split; [done|]. intros r. by apply IH.
Qed.

Lemma own_step_quiet k o e r : quiet_ev e = true -> own_pre k o e /\ own_step o e r = o.
Proof. by destruct e. Qed.

Lemma obeys_quiet k {A} (p : SP A) o (Q : A -> own -> Prop) :
  quiet p -> (forall a, Q a o) -> obeys k p o Q.
Proof.
  intros Hp HQ. induction p as [a|e c IH| |]; [apply HQ| |done|done]. destruct Hp as [He Hc].
  split.
  - by destruct e.
  - intros r. destruct (own_step_quiet k o e r He) as [_ ->]. auto.
Qed.

Lemma obeys_quiet_bind k {A B} (p : SP A) (f : A -> SP B) o (Q : B -> own -> Prop) :
  quiet p -> (forall a, obeys k (f a) o Q) -> obeys k (p ≫= f) o Q.
Proof. intros Hp Hf. apply obeys_bind, obeys_quiet; auto. Qed.

Lemma obeys_trigger_bind k {A} e (f : sans e -> SP A) o (Q : A -> own -> Prop) :
  own_pre k o e -> (forall r, obeys k (f r) (own_step o e r) Q) -> obeys k (trigger e ≫= f) o Q.
Proof. done. Qed.

Lemma obeys_loop k {S A} fuel (body : S -> SP (S + A)) o s (Q : A -> own -> Prop) :
  (forall s, obeys k (body s) o (fun r o' => match r with inl _ => o' = o | inr a => Q a o' end)) ->
  obeys k (loop fuel body s) o Q.
Proof.
  intros Hb. revert s. induction fuel as [|n IH]; intros s; [exact I|]. cbn [loop].
  apply obeys_bind. eapply obeys_mono; [apply Hb|]. intros [s'|a] o'; [by intros ->|done].
Qed.

(** ** Every goroutine keeps to it *)

Section Obeys.
Context {abi : UnixABI} (fuel : nat) (s : session) (mark : Z).

Lemma obeys_release k o :
  o_fast o = 1%nat -> o_reg o = None -> o_live o = false ->
  obeys k (trigger ReleaseFastBuffer) o (fun _ => own_end).
Proof. intros Hf Hr Hl. split; [simpl; lia|]. intros []. unfold own_end. simpl. by rewrite Hf. Qed.

Lemma obeys_refuse k ec desc o :
  o_fast o = 1%nat -> o_reg o = None -> o_live o = false ->
  obeys k (trigger ReleaseFastBuffer ;; writeRspError mark ec desc) o (fun _ => own_end).
Proof.
  intros. apply obeys_bind. eapply obeys_mono; [by apply obeys_release|]. intros ? ? ?.
  apply obeys_quiet; [quiet|done].
Qed.

Lemma cmdWriteStreamOpen_obeys req :
  obeys RInline (cmdWriteStreamOpen mark req) (own_start 1 false) (fun _ => own_end).
Proof.
  apply obeys_quiet_bind; [quiet|]. intros [sfd|]; [|by apply obeys_refuse].
  split; [done|]. intros i. split; [done|]. intros []; [by apply obeys_refuse|].
  split; [done|]. intros []. split; [split_and!; [done|simpl; set_solver|simpl; lia]|]. intros []. done.
Qed.

Lemma cmdWriteStreamData_obeys req :
  obeys RInline (cmdWriteStreamData mark req) (own_start 1 false) (fun _ => own_end).
Proof.
  split; [done|]. intros [i|]; [|by apply obeys_refuse].
  split; [split_and!; [done|simpl; set_solver|simpl; lia]|]. intros []. done.
Qed.

Lemma exec_request_obeys r :
  obeys (if req_inline r then RInline else RGo) (exec_request fuel s mark r)
    (own_start (if req_fast r then 1 else 0) false) (fun _ => own_end).
Proof.
  destruct (req_inline r) eqn:Hi.
  - destruct r; try discriminate Hi; cbn [exec_request req_fast].
    + apply cmdWriteStreamOpen_obeys.
    + apply cmdWriteStreamData_obeys.
  - pose proof (handler_quiet fuel s mark r Hi) as Hq.
    destruct r; try discriminate Hi; cbn [exec_request handler req_fast] in *;
      try (by apply obeys_quiet); apply obeys_quiet_bind; try done;
      (intros _; by apply obeys_release).
Qed.

Lemma writeChunk_quiet n sfd offset tot data : quiet (writeStreamWriteChunk_loop fuel n sfd offset tot data).
Proof.
  revert offset tot data. induction n as [|n IH]; intros offset tot data;
    cbn [writeStreamWriteChunk_loop]; quiet.
Qed.

(** A round of the goroutine keeps no buffer. *)
Lemma writeStream_step_obeys j sfd st :
  obeys (RStream j mark) (writeStream_step fuel j mark sfd st) (own_start 0 true)
    (fun _ o => o = own_start 0 true).
Proof.
  apply obeys_trigger_bind; [by exists mark|]. intros [msg|]; [cbv beta iota|done].
  apply obeys_quiet_bind.
  { destruct (_ && _); [|exact I]. apply quiet_bind; [apply writeChunk_quiet|quiet]. }
  intros st'. apply obeys_bind.
  apply (obeys_mono _ _ _ (fun _ o => o = own_start 0 true)); [|].
  - unfold releaseInput. simpl. destruct (in_buf msg); [|done]. split; [simpl; lia|]. intros []. done.
  - intros _ o ->. destruct (in_isEnd msg); [|done]. apply obeys_quiet; [quiet|done].
Qed.

Lemma writeStream_run_obeys j sfd offset :
  obeys (RStream j mark) (writeStream_run fuel j mark sfd offset) (own_start 0 true) (fun _ => own_end).
Proof.
  apply obeys_bind, obeys_loop. intros st.
  eapply obeys_mono; [apply writeStream_step_obeys|]. intros [st'|[]] o ->; [done|].
  split; [by exists j|]. intros []. done.
Qed.
End Obeys.
