(* ===== verification/ServerNonUnixOk.v ===== *)
(** * The handlers for systems that are not Unix answer as the protocol asks

    Every handler of commands-nonunix.go keeps to the contract of ServerSpec. The
    targets of links have no bound there, so cmdReadLink does only for an answer
    that fits a response. *)
From S2P Require Import Prelude GoIO Codec Structs StructGen Prog Paths UnixConv ServerEnv.
From S2P Require Import ServerCmds ServerDispatch ServerConn ServerSpec ServerCmdsOk ServerRun ServerOwn ServerNonUnix.

Section NonUnixOk.
Context (b : build) {os : NonUnix} (fuel : nat) (s : session) (mark : Z) (total : bool) (B : nat).
Hypothesis Hroot : root_ok (storage_Path s).
Hypothesis Hfuel : (total = true -> B < fuel)%nat.

Abbreviation root := (storage_Path s).
Abbreviation W := (W root mark total B).
Abbreviation answers := (answers total B root mark).

Lemma nonunix_code e : err_code (nonunix_osErrCode b e).
Proof. unfold nonunix_osErrCode, win_osErrCode_osOverride. by repeat case_match; simplify_eq. Qed.

Lemma W_error e g Q : g_done g = false -> Q tt (set_done true g) -> W (syscall_error b mark e) g Q.
Proof. apply W_err_code, nonunix_code. Qed.

Lemma W_replies r g Q : g_done g = false -> Q tt (set_done true g) -> W (reply b mark r) g Q.
Proof. destruct r; [apply W_writeRspOK|apply W_error]. Qed.

Lemma W_replies_with {A} r (fs : A -> list fval) g Q :
  g_done g = false ->
  (forall a, r = Ok a -> wf_fields (fs a) = true /\ 2 + fsizes (fs a) <= MaxResponseLength) ->
  Q tt (set_done true g) -> W (reply_with b mark r fs) g Q.
Proof.
  intros Hd Hf HQ. destruct r as [a|e]; [|by apply W_error].
  destruct (Hf a eq_refl). by apply W_writeRsp.
Qed.

Lemma valid_on p : IsUrlValid_on b p = true -> IsUrlValid p = true.
Proof. by intros [? _]%andb_true_iff. Qed.

Lemma W_path p k g Q :
  g_done g = false -> Q tt (set_done true g) ->
  (confined root (root ++ p) -> W (k (root ++ p)) g Q) -> W (with_path b s mark p k) g Q.
Proof.
  intros Hd HQ Hk. unfold with_path. destruct (IsUrlValid_on b p) eqn:Hv; cbn [negb].
  - apply Hk. by apply confined_valid, valid_on.
  - by apply W_writeRspError.
Qed.

Lemma W_paths p q k g Q :
  g_done g = false -> Q tt (set_done true g) ->
  (confined root (root ++ p) -> confined root (root ++ q) -> W (k (root ++ p) (root ++ q)) g Q) ->
  W (with_paths b s mark p q k) g Q.
Proof.
  intros Hd HQ Hk. unfold with_paths.
  destruct (IsUrlValid_on b p) eqn:Ha, (IsUrlValid_on b q) eqn:Hb; cbn [negb orb]; try by apply W_writeRspError.
  apply Hk; by apply confined_valid, valid_on.
Qed.

Lemma path_reply p (call : gostring -> SP (result errno unit)) :
  (forall a, confined root a -> W (call a) fresh (fun _ g => g = fresh)) ->
  answers (with_path b s mark p (fun apath => err ← call apath; reply b mark err)).
Proof.
  intros Hc. apply W_path; [done..|]. intros Ha. apply W_bind. eapply W_mono; [by apply Hc|].
  intros r g ->. by apply W_replies.
Qed.

Lemma fd_reply fd (call : Z -> SP (result errno unit)) :
  (forall sfd, W (call sfd) fresh (fun _ g => g = fresh)) ->
  answers (with_fd mark fd (fun sfd => err ← call sfd; reply b mark err)).
Proof.
  intros Hc. apply W_with_fd; [done..|]. intros sfd. apply W_bind. eapply W_mono; [apply Hc|].
  intros r g ->. by apply W_replies.
Qed.

Lemma ok_not_supported : answers (not_supported mark).
Proof. by apply W_writeRspError. Qed.

Lemma ok_cmdOpen req : answers (cmdOpen b fuel s mark req).
Proof.
  apply W_path; [done..|]. intros Ha.
  destruct (open_access _) as [oflag|]; [|by apply W_writeRspError].
  destruct (open_flag_loop _ _ _) as [oflag'|]; [|by apply W_writeRspError].
  apply W_bind, W_trigger; [W_pre|]. intros [sfd|e] g _ ->; [|by apply W_error].
  apply W_bind. eapply W_newFD; [done..|]. intros fd Hfd. apply W_writeRsp; try done.
  unfold fields_RspOpen. rewrite wf_fields_cons. cbn [fval_wf RspOpen_FD]. by rewrite Hfd.
Qed.

Lemma ok_cmdClose req : answers (cmdClose b mark req).
Proof.
  apply W_with_fd; [done..|]. intros sfd. apply W_bind. W_call r Hok.
  apply W_bind, W_trigger; [W_pre|]. intros err g _ ->. by apply W_replies.
Qed.

(** ** Reading *)

Lemma W_nonunix_read size partial call g (Q : Z * bool -> ghost -> Prop) :
  0 <= size <= maxReadPayLoad -> g_done g = false ->
  W (call size) (set_bufs (S (g_bufs g)) g)
    (fun r g' => g' = set_bufs (S (g_bufs g)) g /\ match r with Ok d => len d <= size | Err _ => True end) ->
  (forall n, 0 <= n <= size -> Q (n, true) (set_done (negb (partial && (n =? size))) g)) ->
  Q (0, false) (set_done true g) ->
  W (read_and_send b mark size partial call) g Q.
Proof.
  intros. apply (W_read_frame fuel s mark total B Hfuel size partial call (syscall_error b mark)); try done. apply W_error.
Qed.

Lemma W_readAndSend_on fd size partial g (Q : Z * bool -> ghost -> Prop) :
  0 <= size <= maxReadPayLoad -> g_done g = false ->
  (forall n, 0 <= n <= size -> Q (n, true) (set_done (negb (partial && (n =? size))) g)) ->
  Q (0, false) (set_done true g) ->
  W (readAndSend b mark fd size partial) g Q.
Proof. intros Hs Hd H1 H2. apply W_nonunix_read; try done. by W_call r Hok. Qed.

Lemma W_readAtAndSend_on fd off size partial g (Q : Z * bool -> ghost -> Prop) :
  0 <= size <= maxReadPayLoad -> g_done g = false ->
  (forall n, 0 <= n <= size -> Q (n, true) (set_done (negb (partial && (n =? size))) g)) ->
  Q (0, false) (set_done true g) ->
  W (readAtAndSend b mark fd off size partial) g Q.
Proof. intros Hs Hd H1 H2. apply W_nonunix_read; try done. by W_call r Hok. Qed.

(** After a full chunk the response is still open, after a shorter one it ended. *)
Lemma chunk_open (n : Z) (g : ghost) :
  g_done g = false -> maxReadPayLoad <= n <= maxReadPayLoad ->
  set_done (negb (true && (n =? maxReadPayLoad))) g = g.
Proof. intros Hd Hn. rewrite (proj2 (Z.eqb_eq _ _)) by lia. by destruct g; simpl in *; subst. Qed.
Lemma chunk_last (n : Z) (g : ghost) :
  n < maxReadPayLoad -> set_done (negb (true && (n =? maxReadPayLoad))) g = set_done true g.
Proof. intros Hn. by rewrite (proj2 (Z.eqb_neq _ _)) by lia. Qed.

Lemma W_read_loop_on sfd n g (Q : bool -> ghost -> Prop) :
  g_done g = false -> Q true (set_done true g) -> Q false g -> W (cmdRead_loop b mark sfd n) g Q.
Proof.
  intros Hd HQt HQf. induction n as [|n IH]; cbn [cmdRead_loop]; [by apply W_ret|].
  apply W_bind, W_readAndSend_on; [rewrite maxReadPayLoad_val; lia|done| |by apply W_ret].
  intros k Hk. cbn [negb]. destruct (Z.ltb_spec k maxReadPayLoad).
  - apply W_ret. by rewrite chunk_last.
  - by rewrite chunk_open by (done || lia).
Qed.

Lemma W_readAt_loop_on sfd off n g (Q : bool * Z -> ghost -> Prop) :
  g_done g = false -> (forall off, Q (true, off) (set_done true g)) -> (forall off, Q (false, off) g) ->
  W (cmdReadAt_loop b mark sfd off n) g Q.
Proof.
  intros Hd HQt HQf. revert off. induction n as [|n IH]; intros off; cbn [cmdReadAt_loop]; [by apply W_ret|].
  apply W_bind, W_readAtAndSend_on; [rewrite maxReadPayLoad_val; lia|done| |by apply W_ret].
  intros k Hk. cbn [negb]. destruct (Z.ltb_spec k maxReadPayLoad).
  - apply W_ret. by rewrite chunk_last.
  - rewrite chunk_open by (done || lia). apply IH.
Qed.

Lemma last_chunk size : 0 <= size < 2 ^ 64 -> 0 <= size mod maxReadPayLoad <= maxReadPayLoad.
Proof. intros _. pose proof (Z.mod_pos_bound size maxReadPayLoad). rewrite maxReadPayLoad_val in *. lia. Qed.

Lemma ok_cmdRead req :
  wf_fields (fields_CmdReadStruct req) = true -> answers (cmdRead b mark req).
Proof.
  intros Hwf. unfold fields_CmdReadStruct in Hwf. codec_wf Hwf. apply W_with_fd; [done..|]. intros sfd. cbv zeta.
  assert (0 <= CmdRead_Size req < 2 ^ 64) by (by apply in_u_spec).
  destruct (Z.ltb_spec (CmdRead_Size req) maxReadPayLoad).
  - apply W_bind, W_readAndSend_on; [lia|done| |by apply W_ret]. intros n Hn. by apply W_ret.
  - apply W_bind, W_read_loop_on; [done|by apply W_ret|]. case_match; [by apply W_writeRspOK|].
    apply W_bind, W_readAndSend_on; [by apply last_chunk|done| |by apply W_ret]. intros n Hn. by apply W_ret.
Qed.

Lemma ok_cmdReadAt req :
  wf_fields (fields_CmdReadAtStruct req) = true -> answers (cmdReadAt b mark req).
Proof.
  intros Hwf. unfold fields_CmdReadAtStruct in Hwf. codec_wf Hwf. apply W_with_fd; [done..|]. intros sfd. cbv zeta.
  assert (0 <= CmdReadAt_Size req < 2 ^ 64) by (by apply in_u_spec).
  destruct (Z.ltb_spec (CmdReadAt_Size req) maxReadPayLoad).
  - apply W_bind, W_readAtAndSend_on; [lia|done| |by apply W_ret]. intros n Hn. by apply W_ret.
  - apply W_bind, W_readAt_loop_on; [done|intros; by apply W_ret|]. intros off. case_match; [by apply W_writeRspOK|].
    apply W_bind, W_readAtAndSend_on; [by apply last_chunk|done| |by apply W_ret]. intros n Hn. by apply W_ret.
Qed.

(** *** Targets of links *)

(** What is answered for a target, and that it is short enough for a response. *)
Definition resolved (apath target : gostring) : gostring :=
  match target with
  | c :: _ => if negb (bool_decide (c = slash)) then filepath_Clean (filepath_Join apath target) else target
  | [] => []
  end.
Definition link_fits (apath : gostring) (r : result errno gostring) : bool :=
  match r with Ok t => len (resolved apath t) <=? 8000 | Err _ => true end.

(** cmdReadLink, that refuses what does not fit; the path asked for may differ
    from the path [full] that the target is joined to. *)
Definition readlink_short (full : gostring -> gostring) (storage : session) (clientMark : Z) (req : CmdReadLinkStruct) : SP unit :=
  with_path b s clientMark (CmdReadLink_Path req) (fun apath =>
    r ← trigger (OsReadlink apath);
    if link_fits (full apath) r then readlink_reply storage clientMark (full apath) r
    else writeRspError clientMark ErrorType (str "syscall error")).

Lemma ok_readlink_short full storage req : answers (readlink_short full storage mark req).
Proof.
  apply W_path; [done..|]. intros Ha. apply W_bind. W_call r Hok.
  destruct (link_fits _ r) eqn:Hfit; [|by apply W_writeRspError].
  destruct r as [[|c target]|e]; [done| |by apply W_writeRspError]. cbn [readlink_reply link_fits resolved] in *.
  cbv zeta. set (t := if negb (bool_decide (c = slash)) then _ else _) in *.
  destruct (HasPrefix t (storage_Path storage)); cbn [negb]; [|by apply W_writeRspError].
  pose proof (TrimPrefix_length t (storage_Path storage)) as Htr.
  apply W_writeRsp; try done; unfold fields_RspReadLink;
    rewrite ?wf_fields_cons; cbn [fval_wf RspReadLink_TargetPath fsizes fsize].
  - rewrite andb_true_r. unfold len in *. lia.
  - unfold MaxResponseLength, MaxMsgSize, len in *. lia.
Qed.

(** ** The other handlers *)

(** A response with one count. *)
Lemma W_count (r : result errno Z) (fs : Z -> list fval) g Q :
  g_done g = false -> (forall c, fs c = [FU64 (u64 c)]) -> Q tt (set_done true g) -> W (reply_with b mark r fs) g Q.
Proof.
  intros Hd Hf HQ. apply W_replies_with; [done| |done]. intros c _. rewrite Hf, wf_fields_cons.
  cbn [fval_wf fsizes fsize]. by rewrite wf_u64.
Qed.

Lemma ok_cmdSeek req : answers (cmdSeek b mark req).
Proof.
  apply W_with_fd; [done..|]. intros sfd. destruct (mlookup _ _) as [whence|]; [|by apply W_writeRspError].
  apply W_bind. W_call r Hok. by apply W_count.
Qed.

Lemma ok_cmdWrite req : answers (cmdWrite b mark req).
Proof.
  apply W_with_fd; [done..|]. intros sfd. apply W_bind, W_trigger; [W_pre|].
  intros r g _ ->. by apply W_count.
Qed.

Lemma ok_cmdWriteAt req : answers (cmdWriteAt b mark req).
Proof.
  apply W_with_fd; [done..|]. intros sfd. apply W_bind, W_trigger; [W_pre|].
  intros r g _ ->. by apply W_count.
Qed.

Lemma W_step flag call rest :
  W call fresh (fun _ g => g = fresh) -> answers rest -> answers (attr_step b mark flag call rest).
Proof.
  intros Hc Hr. unfold attr_step. destruct flag; [|done].
  apply W_bind. eapply W_mono; [exact Hc|]. intros [[]|e] g ->; [done|by apply W_error].
Qed.

Lemma ok_cmdSetAttr req : answers (cmdSetAttr b s mark req).
Proof.
  apply W_path; [done..|]. intros Ha. apply W_step; [by W_call r Hok|].
  apply W_step; [unfold SetPathMTime; by W_call r Hok|]. by apply W_writeRspOK.
Qed.

Lemma ok_cmdSetAttrByFD req : answers (cmdSetAttrByFD b mark req).
Proof.
  apply W_with_fd; [done..|]. intros sfd. apply W_step; [by W_call r Hok|]. by apply W_writeRspOK.
Qed.

Lemma ok_cmdSync req : answers (cmdSync b mark req).
Proof. apply fd_reply. intros sfd. by W_call r Hok. Qed.

Lemma ok_cmdMkdir req : answers (cmdMkdir b s mark req).
Proof. apply path_reply. intros a Ha. by W_call r Hok. Qed.

Lemma ok_cmdRemove req : answers (cmdRemove b s mark req).
Proof. apply path_reply. intros a Ha. by W_call r Hok. Qed.

Lemma ok_cmdSymLink req : answers (cmdSymLink b s mark req).
Proof.
  apply W_paths; [done..|]. intros Ha Hb. apply W_bind. W_call r Hok. by apply W_replies.
Qed.

Lemma ok_cmdRename req : answers (cmdRename b s mark req).
Proof.
  apply W_paths; [done..|]. intros Ha Hb. case_match; [by apply ok_not_supported|].
  apply W_bind. W_call r Hok. by apply W_replies.
Qed.

Lemma W_FsSize p :
  confined root p ->
  W (FsSize b p) fresh (fun r g => g = fresh /\
    forall total free avail, r = Ok (total, free, avail) -> in_u 64 total && in_u 64 free && in_u 64 avail = true).
Proof.
  intros Hp. unfold FsSize. destruct b; [|apply W_ret; split; [done|by intros ??? [= <- <- <-]]].
  apply W_bind. W_call r Hok. apply W_ret. split; [done|]. intros t f a E.
  destruct r as [[[[b1 b2] b3] b4]|e]; simplify_eq. by apply andb_true_iff in Hok as [? _].
Qed.

Lemma ok_cmdFsStat req : answers (cmdFsStat b s mark req).
Proof.
  apply W_path; [done..|]. intros Ha. apply W_bind. eapply W_mono; [by apply W_FsSize|].
  intros r g [-> Hr]. apply W_replies_with; [done| |done]. intros [[t f] a] E. specialize (Hr t f a E).
  apply andb_true_iff in Hr as [[H1 H2]%andb_true_iff H3].
  unfold fields_RspFsStat. rewrite !wf_fields_cons.
  cbn [fval_wf RspFsStat_Total RspFsStat_Free RspFsStat_Available]. by rewrite H1, H2, H3.
Qed.

(** Releasing the buffer of the data changes nothing. *)
Lemma W_release p : answers p -> answers (p ;; trigger ReleaseFastBuffer).
Proof. intros Hp. apply W_bind. eapply W_mono; [exact Hp|]. intros [] g ->. by W_call r Hok. Qed.

(** [exec_nonunix] with that cmdReadLink. *)
Definition exec_short (full : gostring -> gostring) (storage : session) (r : request) : option (SP unit) :=
  match r with
  | ReqReadLink req => Some (readlink_short full storage mark req)
  | _ => exec_nonunix b fuel s mark r
  end.

Lemma exec_short_answers full storage r p :
  wf_fields (req_fields r) = true -> exec_short full storage r = Some p -> answers p.
Proof.
  intros Hwf E. destruct r; cbn [exec_short exec_nonunix] in E; simplify_eq;
    try apply W_release;
    first [ by apply ok_cmdOpen | by apply ok_cmdClose | by apply ok_cmdRead | by apply ok_readlink_short
          | by apply ok_cmdWrite | by apply ok_cmdSeek | by apply ok_not_supported | by apply ok_cmdSetAttr
          | by apply ok_cmdSync | by apply ok_cmdMkdir | by apply ok_cmdSymLink | by apply ok_cmdRemove
          | by apply ok_cmdFsStat | by apply ok_cmdReadAt | by apply ok_cmdWriteAt | by apply ok_cmdRename
          | by apply ok_cmdSetAttrByFD ].
Qed.
End NonUnixOk.

(** ** Storages that are not below a slash

    On Windows the path of a storage starts with a drive ([C:\srv]), and the
    handlers put it in front of the paths of requests. A handler for the storage
    [R] makes the requests of the handler for the storage with the empty path, with
    [R] in front of each path: what is proved of the latter holds of the former. *)

Section Root.
Context (R : gostring).

(** The request with [R] in front of its paths. *)
Definition at_root (e : sev) : sev :=
  match e with
  | SysOpen p f m => SysOpen (R ++ p) f m
  | SysTruncate p n => SysTruncate (R ++ p) n
  | SysUtimesNano p a m => SysUtimesNano (R ++ p) a m
  | SysMkdir p m => SysMkdir (R ++ p) m
  | SysUnlink p => SysUnlink (R ++ p)
  | SysStatfs p => SysStatfs (R ++ p)
  | SysSymlink p q => SysSymlink (R ++ p) (R ++ q)
  | SysRename p q => SysRename (R ++ p) (R ++ q)
  | OsReadlink p => OsReadlink (R ++ p)
  | e => e
  end.

Definition as_ans (e : sev) : sans (at_root e) -> sans e :=
  match e return sans (at_root e) -> sans e with
  | SysOpen _ _ _ | SysTruncate _ _ | SysUtimesNano _ _ _ | SysMkdir _ _ | SysUnlink _ | SysStatfs _
  | SysSymlink _ _ | SysRename _ _ | OsReadlink _ => fun r => r
  | _ => fun r => r
  end.

(** The same program but for [R] in front of paths. *)
Inductive rr {A} : SP A -> SP A -> Prop :=
| rr_ret a : rr (Ret a) (Ret a)
| rr_panic : rr Panic Panic
| rr_diverge : rr Diverge Diverge
| rr_vis e k k' : (forall r, rr (k r) (k' (as_ans e r))) -> rr (Vis (at_root e) k) (Vis e k').

Lemma rr_bind {A B} (p q : SP A) (k l : A -> SP B) :
  rr p q -> (forall a, rr (k a) (l a)) -> rr (p ≫= k) (q ≫= l).
Proof.
  intros Hp Hk. induction Hp as [a| | |e c c' _ IH]; [apply Hk|constructor..|].
  exact (rr_vis e _ _ IH).
Qed.

(** A program that asks for no path. *)
Definition pathless (e : sev) : bool := match ev_paths e with [] => true | _ => false end.

Lemma rr_pathless {A} (p : SP A) : only pathless p -> rr p p.
Proof.
  induction p as [a|e k IH| |]; intros Hp; try constructor. destruct Hp as [He Hk].
  assert (forall r, rr (k r) (k r)) as IH' by auto. clear IH Hk.
  destruct e; try discriminate He;
    match type of k with sans ?e -> _ => exact (rr_vis e k k IH') end.
Qed.

(** ** Runs *)

Section Runs.
Context {S : Type} (os : forall e : sev, S -> sans e * S).

(** The environment that the program for the empty path sees. *)
Definition os_at (e : sev) (st : S) : sans e * S := (as_ans e (os (at_root e) st).1, (os (at_root e) st).2).

Lemma os_at_lawful : lawful os -> lawful os_at.
Proof. intros Hos e st. specialize (Hos (at_root e) st). unfold os_at. by destruct e. Qed.

Lemma os_at_within budget : within os budget -> within os_at budget.
Proof. intros Hin e st. specialize (Hin (at_root e) st). unfold os_at. by destruct e. Qed.

Definition same_entry (x y : entry) : Prop :=
  exists e r, x = logged_entry (at_root e) r /\ y = logged_entry e (as_ans e r).

Lemma same_frame x y : same_entry x y -> frame_of (projT1 x) = frame_of (projT1 y).
Proof. intros (e & r & -> & ->). by destruct e. Qed.

Lemma same_held h x y : same_entry x y -> held_step h x = held_step h y.
Proof. intros (e & r & -> & ->). by destruct e, h as [[]]. Qed.

Lemma log_frames_cons x l : log_frames (x :: l) = option_list (frame_of (projT1 x)) ++ log_frames l.
Proof. unfold log_frames. cbn [omap list_omap]. by destruct (frame_of (projT1 x)). Qed.

Lemma same_log_frames l l' : Forall2 same_entry l l' -> log_frames l = log_frames l'.
Proof. induction 1 as [|x y l l' H _ IH]; [done|]. by rewrite !log_frames_cons, (same_frame _ _ H), IH. Qed.

Lemma same_log_held l l' : Forall2 same_entry l l' -> held l = held l'.
Proof.
  unfold held. generalize (0%nat, @nil Z, @nil Z). intros h H. revert h.
  induction H as [|x y l l' H _ IH]; intros h; [done|]. simpl. by rewrite (same_held h x y H).
Qed.

Lemma rr_run {A} (p q : SP A) st l l' :
  rr p q -> Forall2 same_entry l l' ->
  exists o st' m m', run (logged os) p (st, l) = (o, (st', m)) /\
    run (logged os_at) q (st, l') = (o, (st', m')) /\ Forall2 same_entry m m'.
Proof.
  intros H. revert st l l'. induction H as [a| | |e k k' _ IH]; intros st l l' Hl; try by eexists _, _, _, _.
  simpl. unfold logged at 1 3. unfold os_at at 1. simpl. destruct (os (at_root e) st) as [r s1] eqn:E.
  simpl. apply IH. apply Forall2_app; [done|]. constructor; [by exists e, r|done].
Qed.
End Runs.
End Root.

(** ** The handlers *)

Section Handlers.
Context (b : build) {os : NonUnix} (fuel : nat) (s : session) (mark : Z).

Abbreviation root := (storage_Path s).

(** The session with the empty path. *)
Definition unrooted : session := mkSession [] (fsIds s) (featureOpts s).

Lemma read_loop_pathless sfd n : only pathless (cmdRead_loop b mark sfd n).
Proof. induction n as [|n IH]; cbn [cmdRead_loop]; quiet. Qed.
Lemma readAt_loop_pathless sfd off n : only pathless (cmdReadAt_loop b mark sfd off n).
Proof. revert off. induction n as [|n IH]; intros off; cbn [cmdReadAt_loop]; quiet. Qed.
#[local] Hint Resolve read_loop_pathless readAt_loop_pathless : quiet.

Ltac rr :=
  repeat match goal with
  | |- forall _, _ => intro
  | |- rr _ ?p ?p => solve [apply rr_pathless; quiet]
  | |- rr _ (_ ≫= _) (_ ≫= _) => apply rr_bind
  | |- rr ?R (trigger _) (trigger ?e) => apply (rr_vis R e); intros; apply rr_ret
  | |- rr _ (match ?x with _ => _ end) (match ?x with _ => _ end) => destruct x
  end.

Lemma rr_with_path p k k' :
  (forall a, rr root (k (root ++ a)) (k' a)) -> rr root (with_path b s mark p k) (with_path b unrooted mark p k').
Proof. intros Hk. unfold with_path. rr. apply Hk. Qed.

Lemma rr_with_paths p q k k' :
  (forall a c, rr root (k (root ++ a) (root ++ c)) (k' a c)) ->
  rr root (with_paths b s mark p q k) (with_paths b unrooted mark p q k').
Proof. intros Hk. unfold with_paths. rr. apply Hk. Qed.

Lemma rr_attr_step flag c c' p p' :
  rr root c c' -> rr root p p' -> rr root (attr_step b mark flag c p) (attr_step b mark flag c' p').
Proof. intros. unfold attr_step. rr; done. Qed.

(** The handlers for the storage and for the empty path. *)
Lemma rr_exec r p :
  exec_short b fuel s mark (fun a => a) s r = Some p ->
  exists q, exec_short b fuel unrooted mark (app root) s r = Some q /\ rr root p q.
Proof.
  intros E. destruct r; cbn [exec_short exec_nonunix] in *; simplify_eq;
    (eexists; split; [reflexivity|]);
    try solve [apply rr_pathless; quiet].
  - apply rr_with_path. rr.
  - apply rr_with_path. rr.
  - apply rr_with_path. intros a. apply rr_attr_step; [rr|].
    apply rr_attr_step; [unfold SetPathMTime; rr|rr].
  - apply rr_with_path. rr.
  - apply rr_with_paths. rr.
  - apply rr_with_path. rr.
  - apply rr_with_path. rr.
  - apply rr_with_path. intros a. apply rr_bind; [unfold FsSize; rr|rr].
  - apply rr_with_paths. rr.
Qed.

(** ** The paths that are asked for *)

(** [a] is the storage's path followed by a path that IsUrlValid accepts. *)
Definition within_storage (a : gostring) : bool :=
  HasPrefix a root && IsUrlValid_on b (drop (length root) a).
Definition paths_within (e : sev) : bool := forallb within_storage (ev_paths e).

Lemma within_valid v : IsUrlValid_on b v = true -> within_storage (root ++ v) = true.
Proof.
  intros Hv. unfold within_storage. rewrite drop_app_length, Hv, andb_true_r.
  apply HasPrefix_spec. by exists v.
Qed.

Lemma only_path p k :
  (forall a, within_storage a = true -> only paths_within (k a)) -> only paths_within (with_path b s mark p k).
Proof.
  intros Hk. unfold with_path. destruct (IsUrlValid_on b p) eqn:E; cbn [negb]; [by apply Hk, within_valid|quiet].
Qed.

Lemma only_paths p q k :
  (forall a c, within_storage a = true -> within_storage c = true -> only paths_within (k a c)) ->
  only paths_within (with_paths b s mark p q k).
Proof.
  intros Hk. unfold with_paths.
  destruct (IsUrlValid_on b p) eqn:Ep, (IsUrlValid_on b q) eqn:Eq; cbn [negb orb]; [|quiet..].
  apply Hk; by apply within_valid.
Qed.

(** A request with paths that are known to be within the storage. *)
Lemma only_asks (e : sev) : Forall (fun a => within_storage a = true) (ev_paths e) -> only paths_within (trigger e).
Proof.
  intros H. apply quiet_trigger. apply forallb_forall. intros a Ha.
  rewrite Forall_forall in H. apply H. by apply list_elem_of_In.
Qed.

Lemma read_loop_within sfd n : only paths_within (cmdRead_loop b mark sfd n).
Proof. induction n as [|n IH]; cbn [cmdRead_loop]; quiet. Qed.
Lemma readAt_loop_within sfd off n : only paths_within (cmdReadAt_loop b mark sfd off n).
Proof. revert off. induction n as [|n IH]; intros off; cbn [cmdReadAt_loop]; quiet. Qed.
#[local] Hint Resolve read_loop_within readAt_loop_within : quiet.

Ltac asks := apply quiet_bind; [apply only_asks; cbn [ev_paths]; by repeat constructor|quiet].

Lemma only_step flag c p : only paths_within c -> only paths_within p -> only paths_within (attr_step b mark flag c p).
Proof. intros Hc Hp. unfold attr_step. destruct flag; [|done]. apply quiet_bind; [done|quiet]. Qed.

Lemma exec_paths r p : exec_nonunix b fuel s mark r = Some p -> only paths_within p.
Proof.
  intros E. destruct r; cbn [exec_nonunix] in *; simplify_eq;
    try solve [quiet];
    try (apply only_path; intros a Ha); try (apply only_paths; intros a c Ha Hc).
  - destruct (open_access _); [|quiet]. destruct (open_flag_loop _ _ _); [|quiet]. asks.
  - asks.
  - apply only_step; [|apply only_step; [|quiet]]; [|unfold SetPathMTime; cbv zeta]; apply only_asks; by repeat constructor.
  - asks.
  - asks.
  - asks.
  - asks.
  - apply quiet_bind; [|quiet]. unfold FsSize. case_match; [asks|quiet].
  - case_match; [quiet|]. asks.
Qed.
End Handlers.
