(* ===== verification/ServerSession.v ===== *)
(** * A session: commands and streams running side by side (session.go)

    The state of a session shared by its goroutines (the tables of open files
    and of write streams, the channels, the fast buffers), and the steps a
    session makes over its whole life: takeConn starts the read loop, the read
    loop takes a message and starts a handler, a goroutine makes its next
    request, the connection ends and stopConn closes the streams and waits for
    the goroutines, the session sleeps until another connection resumes it.
    Every interleaving is a sequence of such steps. *)
From S2P Require Import Prelude GoIO Codec Structs StructGen Prog Paths UnixConv ServerEnv.
From S2P Require Import ServerCmds ServerStream ServerDispatch ServerConn ServerSpec ServerOk ServerRun ServerStreamOk.

(** ** Shared state *)

Definition writeStreamInputBuffer : nat := 4.
Definition sessionFastBuffer : nat := 32.

(** A channel: what it holds, and whether it was closed. *)
Record channel := mkChannel { ch_queue : list writeStreamInput; ch_closed : bool }.

Record tables := mkTables {
  fds : gmap Z Z;
  fdLast : Z;
  writeStreams : gmap Z nat;
  streams : list channel; (* the channels of the streams made so far *)
  fastBuffers : nat; (* buffers in the pool *)
}.

Definition newSession_tables : tables := mkTables ∅ 0 ∅ [] sessionFastBuffer.

(** What the requests on shared state answer, and how they change it. A request
    without a successor state blocks (a full or an empty channel). *)
Definition tab_step (t : tables) (e : sev) : sans e -> tables -> Prop :=
  match e return sans e -> tables -> Prop with
  | FdsLoad fd => fun r t' => r = fds t !! fd /\ t' = t
  | FdsLoadOrStore fd sfd => fun loaded t' =>
      match fds t !! fd with
      | Some _ => loaded = true /\ t' = t
      | None => loaded = false /\
          t' = mkTables (<[fd := sfd]> (fds t)) (fdLast t) (writeStreams t) (streams t) (fastBuffers t)
      end
  | FdsDelete fd => fun _ t' =>
      t' = mkTables (delete fd (fds t)) (fdLast t) (writeStreams t) (streams t) (fastBuffers t)
  | FdLastAdd => fun r t' =>
      r = u32 (fdLast t + 1) /\ t' = mkTables (fds t) r (writeStreams t) (streams t) (fastBuffers t)
  | WsNew => fun i t' =>
      i = length (streams t) /\
      t' = mkTables (fds t) (fdLast t) (writeStreams t) (streams t ++ [mkChannel [] false]) (fastBuffers t)
  | WsLoad mark => fun r t' => r = writeStreams t !! mark /\ t' = t
  | WsLoadOrStore mark i => fun loaded t' =>
      match writeStreams t !! mark with
      | Some _ => loaded = true /\ t' = t
      | None => loaded = false /\
          t' = mkTables (fds t) (fdLast t) (<[mark := i]> (writeStreams t)) (streams t) (fastBuffers t)
      end
  | WsDelete mark => fun _ t' =>
      t' = mkTables (fds t) (fdLast t) (delete mark (writeStreams t)) (streams t) (fastBuffers t)
  | WsEnqueue i msg => fun _ t' =>
      exists q, streams t !! i = Some (mkChannel q false) /\ (length q < writeStreamInputBuffer)%nat /\
        t' = mkTables (fds t) (fdLast t) (writeStreams t)
               (<[i := mkChannel (q ++ [msg]) false]> (streams t)) (fastBuffers t)
  | WsReceive i => fun r t' =>
      exists q closed, streams t !! i = Some (mkChannel q closed) /\
        match q with
        | msg :: q' => r = Some msg /\
            t' = mkTables (fds t) (fdLast t) (writeStreams t)
                   (<[i := mkChannel q' closed]> (streams t)) (fastBuffers t)
        | [] => closed = true /\ r = None /\ t' = t
        end
  | ReleaseFastBuffer => fun _ t' =>
      (fastBuffers t < sessionFastBuffer)%nat /\
      t' = mkTables (fds t) (fdLast t) (writeStreams t) (streams t) (S (fastBuffers t))
  | _ => fun _ t' => t' = t
  end.

(** acquireFastBuffer takes a buffer from the pool, or blocks. *)
Definition acquireFastBuffer (t : tables) : option tables :=
  match fastBuffers t with
  | O => None
  | S n => Some (mkTables (fds t) (fdLast t) (writeStreams t) (streams t) n)
  end.

(** ** Steps *)

Inductive kind :=
| KCommand (mark cmd : Z)
| KStream (stream : nat) (mark sfd offset : Z).

(** [th_group]: started with cmdGroup.Go; else run by the read loop itself. *)
Record thread := mkThread { th_kind : kind; th_group : bool; th_prog : SP unit }.

Definition finished (th : thread) : bool := if th_prog th is Ret _ then true else false.

(** cmdGroup.SetLimit. *)
Definition cmdGroup_limit : nat := 64.
Definition cmdGroup_active (ths : list thread) : nat :=
  length (filter (fun th => th_group th && negb (finished th)) ths).

(** Where the goroutine of the connection stands: in conn.Reader, holding a
    message it has not started a handler for (no fast buffer or no place in
    cmdGroup), in clearWriteStreams, in cmdGroup.Wait; or there is none. *)
Inductive phase :=
| Reading
| Waiting (msg : reader)
| Ending
| Draining
| Asleep.

(** [ss_inline] is the goroutine the read loop waits for: it runs the two stream
    commands itself. [ss_trace] is the history: which goroutine asked what. *)
Record sess := mkSess {
  ss_tables : tables;
  ss_threads : list thread;
  ss_inline : option nat;
  ss_phase : phase;
  ss_trace : list (nat * entry);
}.

Definition sess_init : sess := mkSess newSession_tables [] None Reading [].

Definition inline_done (st : sess) : Prop :=
  forall i, ss_inline st = Some i -> exists k, ss_threads st !! i = Some (mkThread k false (Ret tt)).

Definition set_phase (ph : phase) (st : sess) : sess :=
  mkSess (ss_tables st) (ss_threads st) (ss_inline st) ph (ss_trace st).
Definition set_tables (t : tables) (st : sess) : sess :=
  mkSess t (ss_threads st) (ss_inline st) (ss_phase st) (ss_trace st).

(** closeInput: closing a channel again does nothing ([closeOnce]). *)
Definition closeInput (i : nat) (t : tables) : tables :=
  mkTables (fds t) (fdLast t) (writeStreams t)
    (alter (fun ch => mkChannel (ch_queue ch) true) i (streams t)) (fastBuffers t).
Definition forget_stream (mark : Z) (t : tables) : tables :=
  mkTables (fds t) (fdLast t) (delete mark (writeStreams t)) (streams t) (fastBuffers t).

Definition trace_of (i : nat) (tr : list (nat * entry)) : list entry :=
  omap (fun '(j, x) => if decide (i = j) then Some x else None) tr.

Section Session.
Context {abi : UnixABI} (fuel : nat) (s : session).

(** The goroutine a request starts. *)
Definition spawned (e : sev) : list thread :=
  match e with
  | WsSpawn i mark sfd offset => [mkThread (KStream i mark sfd offset) true (writeStream_run fuel i mark sfd offset)]
  | _ => []
  end.

(** A fast buffer is taken for the commands that carry data, and given back at
    once when the command cannot be decoded. *)
Definition takes_buffer (cmd : Z) : bool :=
  (cmd =? CmdWrite) || (cmd =? CmdWriteAt) || (cmd =? CmdWriteStreamOpen) ||
  (cmd =? CmdWriteStreamData) || (cmd =? CmdSetXAttr).

Definition decodes (cmd : Z) (r : reader) : bool :=
  match read_request cmd with
  | Some rd => if (rd r).1 is Ok _ then true else false
  | None => false
  end.

(** The read loop after an error is in stopConn, whose first step that concerns
    the goroutines is clearWriteStreams: it visits the streams in any order, each
    time closing the channel and deleting the entry, while goroutines of streams
    delete their entries themselves. *)
Inductive session_step : sess -> sess -> Prop :=
| step_receive st msg : (* conn.Reader returns a message *)
    ss_phase st = Reading -> inline_done st ->
    session_step st (set_phase (Waiting msg) st)
| step_broken st : (* conn.Reader fails *)
    ss_phase st = Reading -> inline_done st ->
    session_step st (set_phase Ending st)
| step_message st msg header msg' a err t' :
    ss_phase st = Waiting msg ->
    ReadFull 2 msg = (Ok header, msg') ->
    dispatchCommand fuel s msg = (Some a, err) ->
    (if takes_buffer (Uint8 header 1) then
       exists t, acquireFastBuffer (ss_tables st) = Some t /\
         t' = if decodes (Uint8 header 1) msg' then t else ss_tables st
     else t' = ss_tables st) ->
    (if a is Go _ then (cmdGroup_active (ss_threads st) < cmdGroup_limit)%nat else True) ->
    session_step st
      (mkSess t'
         (ss_threads st ++ [mkThread (KCommand (Uint8 header 0) (Uint8 header 1))
                           (if a is Go _ then true else false) (action_prog a)])
         (if a is Inline _ then Some (length (ss_threads st)) else None)
         (if err is None then Reading else Ending) (ss_trace st))
| step_end st msg err : (* a message without a header *)
    ss_phase st = Waiting msg ->
    dispatchCommand fuel s msg = (None, Some err) ->
    session_step st (set_phase Ending st)
| step_close_stream st mark i :
    ss_phase st = Ending -> inline_done st -> writeStreams (ss_tables st) !! mark = Some i ->
    session_step st (set_tables (closeInput i (ss_tables st)) st)
| step_forget_stream st mark i q :
    ss_phase st = Ending -> inline_done st -> writeStreams (ss_tables st) !! mark = Some i ->
    streams (ss_tables st) !! i = Some (mkChannel q true) ->
    session_step st (set_tables (forget_stream mark (ss_tables st)) st)
| step_cleared st :
    ss_phase st = Ending -> inline_done st -> writeStreams (ss_tables st) = ∅ ->
    session_step st (set_phase Draining st)
| step_hibernate st : (* cmdGroup.Wait returns *)
    ss_phase st = Draining -> Forall (fun th => finished th = true) (ss_threads st) ->
    session_step st (set_phase Asleep st)
| step_resume st : (* takeConn *)
    ss_phase st = Asleep ->
    session_step st (set_phase Reading st)
| step_request st i k grp e c r t' :
    ss_threads st !! i = Some (mkThread k grp (Vis e c)) ->
    sys_ok e r -> tab_step (ss_tables st) e r t' ->
    (cmdGroup_active (ss_threads st) + length (spawned e) <= cmdGroup_limit)%nat ->
    session_step st
      (mkSess t' (<[i := mkThread k grp (c r)]> (ss_threads st) ++ spawned e)
         (ss_inline st) (ss_phase st) (ss_trace st ++ [(i, logged_entry e r)])).

Inductive reachable : sess -> Prop :=
| reach_init : reachable sess_init
| reach_step st st' : reachable st -> session_step st st' -> reachable st'.

(** ** What every goroutine of a session does *)

Hypothesis Hroot : root_ok (storage_Path s).
Abbreviation root := (storage_Path s).

Definition stream_safe (j : nat) (mark sfd offset : Z) (p : SP unit) (g : sghost) : Prop :=
  forall b, wp false (stream_env j mark sfd offset) p (g, b) (fun _ _ => True).

Lemma stream_safe_Vis j mark sfd offset e (c : sans e -> SP unit) g :
  stream_safe j mark sfd offset (Vis e c) g ->
  stream_pre j mark sfd offset g e /\
  forall r, sys_ok e r -> stream_safe j mark sfd offset (c r) (sg_step g (logged_entry e r)).
Proof.
  intros H. split; [by destruct (H 0%nat)|]. intros r Hok b.
  destruct (H (if retry e r then S b else b)) as [_ Hk]. apply Hk. split_and!; [done..|].
  by destruct (retry e r).
Qed.

Definition thread_ok (k : kind) (p : SP unit) (log : list entry) : Prop :=
  match k with
  | KCommand mark cmd => exists g, log_ok root mark log g /\
      safe root mark p g (fun g' => answered g' \/ is_stream_cmd cmd = true /\ g' = fresh)
  | KStream j mark sfd offset =>
      stream_log j mark sfd offset log /\ sg_ok (sg_of log) /\
      stream_safe j mark sfd offset p (sg_of log)
  end.

(** One request of a goroutine. *)
Lemma thread_ok_step k e (c : sans e -> SP unit) log r :
  thread_ok k (Vis e c) log -> sys_ok e r -> thread_ok k (c r) (log ++ [logged_entry e r]).
Proof.
  destruct k as [mark cmd|j mark sfd offset]; simpl.
  - intros (g & Hl & Hs) Hok. apply safe_Vis in Hs as [Hpre Hk].
    destruct (srv_next_ex root mark g e r Hpre) as [g' Hn]. exists g'. split; [|by apply Hk].
    by eapply log_ok_step.
  - intros (Hl & Hg & Hs) Hok. apply stream_safe_Vis in Hs as [Hpre Hk].
    unfold sg_of in *. rewrite foldl_app. split_and!.
    + by apply (stream_log_snoc _ _ _ _ log (logged_entry e r)).
    + by eapply sg_ok_step.
    + by apply Hk.
Qed.

Lemma thread_ok_command mark cmd r :
  thread_ok (KCommand mark cmd) (action_prog (doCommandCall fuel s mark cmd r).1) [].
Proof.
  exists fresh. split; [apply log_ok_nil|]. apply W_safe. intros B.
  destruct (is_stream_cmd cmd) eqn:Hc.
  - eapply W_mono; [by apply doCommandCall_streams|]. intros _ g [?|?]; auto.
  - eapply W_mono; [by apply doCommandCall_answers|]. auto.
Qed.

Lemma thread_ok_stream j mark sfd offset :
  in_u 64 offset = true ->
  thread_ok (KStream j mark sfd offset) (writeStream_run fuel j mark sfd offset) [].
Proof.
  intros Ho. split_and!; [|done|].
  - intros l1 x l2 E. by destruct l1.
  - intros b. by apply SW_run.
Qed.

(** A stream is started with an offset of 64 bits. *)
Lemma spawned_ok k e (c : sans e -> SP unit) log th :
  thread_ok k (Vis e c) log -> th ∈ spawned e -> thread_ok (th_kind th) (th_prog th) [].
Proof.
  destruct e; simpl; intros Hok Hin; try (by apply not_elem_of_nil in Hin).
  apply list_elem_of_singleton in Hin as ->. apply thread_ok_stream.
  destruct k as [m cmd|j m fd off]; simpl in Hok.
  - destruct Hok as (g & _ & Hs). apply safe_Vis in Hs as [[_ [_ Ho]] _]. done.
  - destruct Hok as (_ & _ & Hs). by apply stream_safe_Vis in Hs as [[] _].
Qed.

Definition sess_ok (st : sess) : Prop :=
  (forall i, (length (ss_threads st) <= i)%nat -> trace_of i (ss_trace st) = []) /\
  forall i th, ss_threads st !! i = Some th -> thread_ok (th_kind th) (th_prog th) (trace_of i (ss_trace st)).

Lemma trace_of_snoc i j x tr :
  trace_of i (tr ++ [(j, x)]) = trace_of i tr ++ if decide (i = j) then [x] else [].
Proof. unfold trace_of. rewrite omap_app. simpl. by case_decide. Qed.

Lemma dispatch_action msg header msg' a err :
  ReadFull 2 msg = (Ok header, msg') -> dispatchCommand fuel s msg = (Some a, err) ->
  a = (doCommandCall fuel s (Uint8 header 0) (Uint8 header 1) msg').1.
Proof.
  unfold dispatchCommand. intros ->. destruct (doCommandCall _ _ _ _ _) as [a' r']. by intros [= <- _].
Qed.

Lemma sess_ok_step st st' : sess_ok st -> session_step st st' -> sess_ok st'.
Proof.
  intros [Hn Hok] Hstep.
  destruct Hstep as [| |st msg header msg' a err t' Hph Hread Hdisp Hbuf Hgrp| | | | | | |
                     st i k grp e c r t' Hi Hans Ht Hgrp]; try done; split; simpl.
  - intros i. rewrite length_app. simpl. intros. apply Hn. lia.
  - intros i th Hi. apply lookup_app_Some in Hi as [Hi|[Hle Hi]]; [by apply Hok|].
    apply list_lookup_singleton_Some in Hi as [Hi <-]. rewrite Hn by lia. simpl.
    erewrite (dispatch_action msg header msg' a err) by done. apply thread_ok_command.
  - intros j. rewrite length_app, length_insert, trace_of_snoc. intros Hj.
    rewrite Hn, decide_False; [done| |lia]. apply lookup_lt_Some in Hi. simpl in *. lia.
  - assert (Hlen := lookup_lt_Some _ _ _ Hi).
    intros j th Hj. rewrite trace_of_snoc.
    apply lookup_app_Some in Hj as [Hj|[Hle Hj]].
    + apply list_lookup_insert_Some in Hj as [(<- & <- & _)|[Hne Hj]].
      * rewrite decide_True by done. apply thread_ok_step; [|done]. apply (Hok _ _ Hi).
      * rewrite decide_False, app_nil_r by done. by apply Hok.
    + rewrite length_insert in Hle, Hj. rewrite Hn, decide_False by lia.
      eapply spawned_ok; [apply (Hok _ _ Hi)|]. by eapply list_elem_of_lookup_2.
Qed.

Lemma reachable_ok st : reachable st -> sess_ok st.
Proof.
  induction 1 as [|st st' _ IH Hs]; [|by eapply sess_ok_step]. split; [done|]. intros i th Hi.
  by destruct i.
Qed.

(** ** Channels *)

(** The messages put into the channel of a stream and those taken from it. *)
Definition enqueued_by (j : nat) (x : nat * entry) : option writeStreamInput :=
  match projT1 x.2 with
  | WsEnqueue i msg => if decide (i = j) then Some msg else None
  | _ => None
  end.
Definition received_by (j : nat) (x : nat * entry) : option writeStreamInput :=
  let '(existT e r) := x.2 in
  match e return sans e -> option writeStreamInput with
  | WsReceive i => fun r => if decide (i = j) then r else None
  | _ => fun _ => None
  end r.

Definition enqueued (j : nat) (tr : list (nat * entry)) : list writeStreamInput := omap (enqueued_by j) tr.
Definition received (j : nat) (tr : list (nat * entry)) : list writeStreamInput := omap (received_by j) tr.

Definition queue (t : tables) (j : nat) : list writeStreamInput :=
  match streams t !! j with Some ch => ch_queue ch | None => [] end.

Definition fifo (st : sess) : Prop :=
  forall j, enqueued j (ss_trace st) = received j (ss_trace st) ++ queue (ss_tables st) j /\
            (length (queue (ss_tables st) j) <= writeStreamInputBuffer)%nat.

Lemma tab_step_streams t e r t' :
  tab_step t e r t' ->
  match e with WsNew | WsEnqueue _ _ | WsReceive _ => True | _ => streams t' = streams t end.
Proof. destruct e; simpl; intros Ht; try exact I; repeat case_match; destruct_and?; by subst. Qed.

Lemma tab_step_fds t e r t' :
  tab_step t e r t' ->
  match e with FdsLoadOrStore _ _ | FdsDelete _ => True | _ => fds t' = fds t end.
Proof.
  destruct e; cbn [tab_step]; intros Ht; try exact I; try (by subst t'); try (by destruct Ht as [_ ->]).
  - destruct (writeStreams t !! mark); by destruct Ht as [_ ->].
  - by destruct Ht as (q & _ & _ & ->).
  - destruct Ht as (q & closed & _ & Ht). destruct q; [by destruct Ht as (_ & _ & ->)|by destruct Ht as [_ ->]].
Qed.

Lemma tab_step_queue t e r t' i j :
  tab_step t e r t' -> (length (queue t j) <= writeStreamInputBuffer)%nat ->
  queue t j ++ option_list (enqueued_by j (i, logged_entry e r)) =
    option_list (received_by j (i, logged_entry e r)) ++ queue t' j /\
  (length (queue t' j) <= writeStreamInputBuffer)%nat.
Proof.
  unfold enqueued_by, received_by, queue. intros Ht Hl. pose proof (tab_step_streams _ _ _ _ Ht) as E.
  destruct e; simpl in *; try (rewrite E, app_nil_r; done); clear E.
  - destruct Ht as [_ ->]. simpl. rewrite app_nil_r. destruct (decide (j < length (streams t))%nat).
    + by rewrite lookup_app_l.
    + rewrite (lookup_ge_None_2 (streams t) j) by lia. rewrite lookup_app_r by lia.
      destruct (j - length (streams t))%nat; simpl; (split; [done|lia]).
  - destruct Ht as (q & Hq & Hlen & ->). simpl. destruct (decide (stream = j)) as [->|Hn].
    + rewrite Hq, list_lookup_insert_eq by (by eapply lookup_lt_Some). simpl.
      rewrite length_app. simpl. split; [done|lia].
    + rewrite list_lookup_insert_ne by done. simpl. by rewrite app_nil_r.
  - destruct Ht as (q & closed & Hq & Ht). rewrite app_nil_r. destruct q as [|msg q].
    + destruct Ht as (_ & -> & ->). by destruct (decide (stream = j)).
    + destruct Ht as (-> & ->). simpl. destruct (decide (stream = j)) as [->|Hn].
      * rewrite Hq, list_lookup_insert_eq in * by (by eapply lookup_lt_Some). simpl in *. split; [done|lia].
      * by rewrite list_lookup_insert_ne.
Qed.

Lemma omap_one {A C} (f : A -> option C) (x : A) : omap f [x] = option_list (f x).
Proof. simpl. by destruct (f x). Qed.

Lemma message_streams st cmd msg' t' :
  (if takes_buffer cmd then
     exists t, acquireFastBuffer (ss_tables st) = Some t /\
       t' = if decodes cmd msg' then t else ss_tables st
   else t' = ss_tables st) ->
  fds t' = fds (ss_tables st) /\ streams t' = streams (ss_tables st) /\
  writeStreams t' = writeStreams (ss_tables st).
Proof.
  destruct (takes_buffer _); [|by intros ->]. intros (t & Ht & ->). destruct (decodes _ _); [|done].
  unfold acquireFastBuffer in Ht. destruct (fastBuffers _); [done|]. by injection Ht as <-.
Qed.

Lemma closeInput_queue i t j : queue (closeInput i t) j = queue t j.
Proof.
  unfold queue, closeInput. simpl. destruct (decide (i = j)) as [->|Hn].
  - rewrite list_lookup_alter_eq. by destruct (streams t !! j) as [[]|].
  - by rewrite list_lookup_alter_ne.
Qed.

Lemma fifo_step st st' : fifo st -> session_step st st' -> fifo st'.
Proof.
  intros Hf Hstep j. destruct (Hf j) as [He Hl].
  destruct Hstep as [| |st msg header msg' a err t' Hph Hread Hdisp Hbuf Hgrp| | | | | | |
                     st i k grp e c r t' Hi Hans Ht Hgrp]; try done; simpl in *.
  - apply message_streams in Hbuf as (_ & E & _). unfold queue in *. by rewrite E.
  - by rewrite closeInput_queue.
  - destruct (tab_step_queue _ _ _ _ i j Ht Hl) as [Hq Hl']. split; [|done].
    unfold enqueued, received in *. by rewrite !omap_app, He, !omap_one, <-!app_assoc, <-Hq.
Qed.

(** ** Running a session

    [advance] lets a goroutine make its next request against the tables of the
    session and an operating system [os]; [deliver] gives the read loop a
    message. Both are steps of the session. *)

Definition tab_fn (t : tables) (e : sev) : option (sans e * tables) :=
  match e return option (sans e * tables) with
  | FdsLoad fd => Some (fds t !! fd, t)
  | FdsLoadOrStore fd sfd =>
      match fds t !! fd with
      | Some _ => Some (true, t)
      | None => Some (false, mkTables (<[fd := sfd]> (fds t)) (fdLast t) (writeStreams t) (streams t) (fastBuffers t))
      end
  | FdsDelete fd =>
      Some (tt, mkTables (delete fd (fds t)) (fdLast t) (writeStreams t) (streams t) (fastBuffers t))
  | FdLastAdd =>
      Some (u32 (fdLast t + 1),
            mkTables (fds t) (u32 (fdLast t + 1)) (writeStreams t) (streams t) (fastBuffers t))
  | WsNew =>
      Some (length (streams t),
            mkTables (fds t) (fdLast t) (writeStreams t) (streams t ++ [mkChannel [] false]) (fastBuffers t))
  | WsLoad mark => Some (writeStreams t !! mark, t)
  | WsLoadOrStore mark i =>
      match writeStreams t !! mark with
      | Some _ => Some (true, t)
      | None => Some (false, mkTables (fds t) (fdLast t) (<[mark := i]> (writeStreams t)) (streams t) (fastBuffers t))
      end
  | WsDelete mark =>
      Some (tt, mkTables (fds t) (fdLast t) (delete mark (writeStreams t)) (streams t) (fastBuffers t))
  | WsEnqueue i msg =>
      match streams t !! i with
      | Some (mkChannel q false) =>
          if decide (length q < writeStreamInputBuffer)%nat
          then Some (tt, mkTables (fds t) (fdLast t) (writeStreams t)
                           (<[i := mkChannel (q ++ [msg]) false]> (streams t)) (fastBuffers t))
          else None
      | _ => None
      end
  | WsReceive i =>
      match streams t !! i with
      | Some (mkChannel (msg :: q) closed) =>
          Some (Some msg, mkTables (fds t) (fdLast t) (writeStreams t)
                            (<[i := mkChannel q closed]> (streams t)) (fastBuffers t))
      | Some (mkChannel [] true) => Some (None, t)
      | _ => None
      end
  | ReleaseFastBuffer =>
      if decide (fastBuffers t < sessionFastBuffer)%nat
      then Some (tt, mkTables (fds t) (fdLast t) (writeStreams t) (streams t) (S (fastBuffers t)))
      else None
  | _ => None
  end.

Lemma tab_fn_sound t e r t' : tab_fn t e = Some (r, t') -> tab_step t e r t'.
Proof.
  destruct e; cbn [tab_fn tab_step]; intros E; try discriminate E; try (by injection E as <- <-).
  - destruct (fds t !! fd); by injection E as <- <-.
  - destruct (writeStreams t !! mark); by injection E as <- <-.
  - destruct (streams t !! stream) as [[q []]|] eqn:Eq; try discriminate E. case_decide; [|discriminate E].
    injection E as <- <-. by exists q.
  - destruct (streams t !! stream) as [[[|m q] []]|] eqn:Eq; try discriminate E; injection E as <- <-;
      (eexists _, _; split; [reflexivity|done]).
  - case_decide; [|discriminate E]. by injection E as <- <-.
Qed.

Definition is_table (e : sev) : bool :=
  match e with
  | FdsLoad _ | FdsLoadOrStore _ _ | FdsDelete _ | FdLastAdd | WsNew | WsLoad _ | WsLoadOrStore _ _
  | WsDelete _ | WsEnqueue _ _ | WsReceive _ | ReleaseFastBuffer => true
  | _ => false
  end.

Definition answer (os : forall e : sev, nat -> sans e * nat) (n : nat) (t : tables) (e : sev) : option (sans e * tables) :=
  if is_table e then tab_fn t e else Some ((os e n).1, t).

Lemma answer_sound os n t e r t' :
  lawful os -> answer os n t e = Some (r, t') -> sys_ok e r /\ tab_step t e r t'.
Proof.
  unfold answer. intros Hos. destruct (is_table e) eqn:Et.
  - intros E. split; [|by apply tab_fn_sound]. destruct e; try exact I; try discriminate Et.
    cbn [tab_fn] in E. injection E as <- _. by apply wrapu_range.
  - intros [= <- <-]. split; [apply Hos|]. by destruct e.
Qed.

Definition advance (os : forall e : sev, nat -> sans e * nat) (n i : nat) (st : sess) : option sess :=
  match ss_threads st !! i with
  | Some (mkThread k grp (Vis e c)) =>
      match answer os n (ss_tables st) e with
      | Some (r, t') =>
          if decide (cmdGroup_active (ss_threads st) + length (spawned e) <= cmdGroup_limit)%nat
          then Some (mkSess t' (<[i := mkThread k grp (c r)]> (ss_threads st) ++ spawned e)
                       (ss_inline st) (ss_phase st) (ss_trace st ++ [(i, logged_entry e r)]))
          else None
      | None => None
      end
  | _ => None
  end.

Lemma advance_sound os n i st st' :
  lawful os -> advance os n i st = Some st' -> session_step st st'.
Proof.
  intros Hos. unfold advance. destruct (ss_threads st !! i) as [[k grp [|e c| |]]|] eqn:Ei; try done.
  destruct (answer os n (ss_tables st) e) as [[r t']|] eqn:Ea; [|done].
  case_decide; [|done]. intros [= <-]. destruct (answer_sound _ _ _ _ _ _ Hos Ea).
  by eapply step_request.
Qed.

Definition reader_freeb (st : sess) : bool :=
  (if ss_phase st is Reading then true else false) &&
  match ss_inline st with
  | None => true
  | Some i => if ss_threads st !! i is Some (mkThread _ false (Ret _)) then true else false
  end.

Lemma reader_freeb_sound st : reader_freeb st = true -> ss_phase st = Reading /\ inline_done st.
Proof.
  unfold reader_freeb. intros [H1 H2]%andb_prop. split; [by destruct (ss_phase st)|]. intros i E. rewrite E in H2.
  repeat case_match; try done. destruct a. eauto.
Qed.

Definition deliver (msg : reader) (st : sess) : option sess :=
  if negb (reader_freeb st) then None
  else
    match ReadFull 2 msg, dispatchCommand fuel s msg with
    | (Ok header, msg'), (Some a, err) =>
        match (if takes_buffer (Uint8 header 1) then acquireFastBuffer (ss_tables st) else Some (ss_tables st)) with
        | None => None
        | Some t =>
            if (if a is Go _ then bool_decide (cmdGroup_active (ss_threads st) < cmdGroup_limit)%nat else true) then
              Some (mkSess (if takes_buffer (Uint8 header 1) && negb (decodes (Uint8 header 1) msg')
                            then ss_tables st else t)
                      (ss_threads st ++ [mkThread (KCommand (Uint8 header 0) (Uint8 header 1))
                                           (if a is Go _ then true else false) (action_prog a)])
                      (if a is Inline _ then Some (length (ss_threads st)) else None)
                      (if err is None then Reading else Ending) (ss_trace st))
            else None
        end
    | _, (None, Some _) => Some (set_phase Ending (set_phase (Waiting msg) st))
    | _, _ => None
    end.

Lemma deliver_sound msg st st' :
  deliver msg st = Some st' ->
  session_step st (set_phase (Waiting msg) st) /\ session_step (set_phase (Waiting msg) st) st'.
Proof.
  unfold deliver. destruct (reader_freeb st) eqn:Ef; [|done]. apply reader_freeb_sound in Ef as [Hp Hi].
  intros E. split; [by apply step_receive|]. revert E. simpl.
  destruct (ReadFull 2 msg) as [h msg'] eqn:Eh, (dispatchCommand fuel s msg) as [[a|] err] eqn:Ed.
  - destruct h as [header|]; [|by destruct err].
    destruct (if takes_buffer _ then _ else _) as [t|] eqn:Et; [|done].
    destruct (if a is Go _ then _ else true) eqn:Eg; [|done]. intros [= <-].
    eapply (step_message (set_phase (Waiting msg) st)); [done..| |].
    + simpl. destruct (takes_buffer (Uint8 header 1)); [|simpl; congruence]. exists t. split; [done|].
      by destruct (decodes (Uint8 header 1) msg').
    + destruct a; [|done]. by apply bool_decide_eq_true in Eg.
  - destruct err as [e|]; [|by destruct h]. destruct h; intros [= <-]; by eapply step_end.
Qed.

(** A schedule: deliver a message, or let goroutine [i] advance. *)
Definition schedule_step (os : forall e : sev, nat -> sans e * nat) (st : option sess) (x : reader + nat) : option sess :=
  st ← st; match x with inl msg => deliver msg st | inr i => advance os 0 i st end.

Definition play (os : forall e : sev, nat -> sans e * nat) (xs : list (reader + nat)) : option sess :=
  foldl (schedule_step os) (Some sess_init) xs.

Lemma play_reachable os xs st : lawful os -> play os xs = Some st -> reachable st.
Proof.
  intros Hos. unfold play. revert st. induction xs as [|x xs IH] using rev_ind; intros st.
  - intros [= <-]. apply reach_init.
  - rewrite foldl_app. simpl. destruct (foldl _ _ xs) as [st1|]; [|done]. simpl. intros E.
    specialize (IH st1 eq_refl).
    destruct x; [|eapply reach_step; [done|by eapply advance_sound]].
    apply deliver_sound in E as [E1 E2]. eauto using reach_step.
Qed.

Lemma played_reachable os xs : lawful os -> reachable (default sess_init (play os xs)).
Proof.
  intros Hos. destruct (play os xs) as [st|] eqn:E; [by eapply play_reachable|apply reach_init].
Qed.
End Session.
