(* ===== verification/ServerLife.v ===== *)
(** * The life of a session (session.go)

    From the discipline of ServerOwn, over all interleavings and any number of
    connections: channels are closed only when nobody sends to them any more,
    fast buffers are neither lost nor duplicated, and once a connection has ended
    no goroutine keeps stopConn waiting. *)
From S2P Require Import Prelude GoIO Codec Structs StructGen Prog Paths UnixConv ServerEnv.
From S2P Require Import ServerCmds ServerStream ServerDispatch ServerOk ServerRun ServerOwn ServerSession.

(** ** Lists of goroutines *)

Lemma lookup_insert_app {A} (l ys : list A) i x n y :
  (<[i := x]> l ++ ys) !! n = Some y ->
  (n = i /\ y = x) \/ (n <> i /\ l !! n = Some y) \/ ((length l <= n)%nat /\ y ∈ ys).
Proof.
  intros [H|[Hle H]]%lookup_app_Some.
  - apply list_lookup_insert_Some in H as [(-> & -> & _)|[? ?]]; [by left|auto].
  - rewrite length_insert in Hle. right; right. split; [done|]. by eapply list_elem_of_lookup_2.
Qed.

(** ** The invariant *)

Definition role_of (th : thread) : role :=
  match th_kind th with
  | KStream j m _ _ => RStream j m
  | KCommand _ _ => if th_group th then RGo else RInline
  end.

Definition is_open (t : tables) (i : nat) : Prop := exists q, streams t !! i = Some (mkChannel q false).
Definition is_closed (t : tables) (i : nat) : Prop := exists q, streams t !! i = Some (mkChannel q true).

(** The buffers that lie in channels. *)
Definition queued (t : tables) : nat :=
  sum_list_with (fun ch => length (filter (fun m => in_buf m = true) (ch_queue ch))) (streams t).

(** The connection has ended and its streams are being closed. *)
Definition closing (st : sess) : Prop :=
  (ss_phase st = Ending /\ inline_done st) \/ ss_phase st = Draining.

(** No goroutine of stream [i] has been started. *)
Definition unspawned (l : list (thread * own)) (i : nat) : Prop :=
  forall n th o m, l !! n = Some (th, o) -> role_of th <> RStream i m.

Record life (st : sess) (l : list (thread * own)) : Prop := {
  l_threads : ss_threads st = l.*1;
  l_obeys : forall n th o, l !! n = Some (th, o) ->
    obeys (role_of th) (th_prog th) o (fun _ => own_end);
  l_pool : (fastBuffers (ss_tables st) + queued (ss_tables st) + sum_list_with (fun x => o_fast x.2) l
            = sessionFastBuffer)%nat;
  l_inline : forall n th o, l !! n = Some (th, o) -> role_of th = RInline -> finished th = false ->
    ss_inline st = Some n /\ (ss_phase st = Reading \/ ss_phase st = Ending);
  l_reader : forall n, ss_inline st = Some n -> exists th o, l !! n = Some (th, o) /\ role_of th = RInline;
  l_table : forall m i, writeStreams (ss_tables st) !! m = Some i ->
    is_open (ss_tables st) i \/ (is_closed (ss_tables st) i /\ ss_phase st = Ending /\ inline_done st);
  l_stream : forall n th o j m, l !! n = Some (th, o) -> role_of th = RStream j m -> o_live o = true ->
    writeStreams (ss_tables st) !! m = Some j \/ (is_closed (ss_tables st) j /\ closing st);
  l_marks : forall n1 th1 o1 j1 n2 th2 o2 j2 m,
    l !! n1 = Some (th1, o1) -> role_of th1 = RStream j1 m -> o_live o1 = true ->
    l !! n2 = Some (th2, o2) -> role_of th2 = RStream j2 m -> o_live o2 = true -> n1 = n2;
  l_cur : forall n th o, l !! n = Some (th, o) -> role_of th = RInline -> finished th = false ->
    (forall i, i ∈ o_ids o -> is_open (ss_tables st) i) /\
    (forall i, o_new o = Some i -> is_open (ss_tables st) i /\ unspawned l i) /\
    (forall m i, o_reg o = Some (m, i) -> writeStreams (ss_tables st) !! m = Some i /\ unspawned l i);
  l_bound : forall n th o j m, l !! n = Some (th, o) -> role_of th = RStream j m ->
    (j < length (streams (ss_tables st)))%nat;
  l_empty : ss_phase st = Draining \/ ss_phase st = Asleep -> writeStreams (ss_tables st) = ∅;
  l_asleep : ss_phase st = Asleep -> Forall (fun th => finished th = true) (ss_threads st);
}.

Section Life.
Context {abi : UnixABI} (fuel : nat) (s : session).

Lemma threads_lookup st l n th : life st l -> ss_threads st !! n = Some th -> exists o, l !! n = Some (th, o).
Proof.
  intros HL Hn. rewrite (l_threads _ _ HL), list_lookup_fmap in Hn.
  destruct (l !! n) as [[th' o]|]; [|done]. injection Hn as <-. by exists o.
Qed.

Lemma lookup_threads st l n th o : life st l -> l !! n = Some (th, o) -> ss_threads st !! n = Some th.
Proof. intros HL Hn. by rewrite (l_threads _ _ HL), list_lookup_fmap, Hn. Qed.

(** When the read loop waits for nothing, no command it runs itself is left. *)
Lemma no_inline st l n th o :
  life st l -> inline_done st -> l !! n = Some (th, o) -> role_of th = RInline -> finished th = false -> False.
Proof.
  intros HL Hd Hn Hr Hf. destruct (l_inline _ _ HL n th o Hn Hr Hf) as [Hi _].
  destruct (Hd n Hi) as [k Hk]. rewrite (lookup_threads st l n th o HL Hn) in Hk. by injection Hk as ->.
Qed.

Lemma inline_done_of st l :
  life st l -> ss_phase st <> Reading -> ss_phase st <> Ending -> inline_done st.
Proof.
  intros HL H1 H2 n Hn. destruct (l_reader _ _ HL n Hn) as (th & o & Hl & Hr).
  rewrite (lookup_threads st l n th o HL Hl). destruct th as [[m c|] [] p]; try discriminate Hr.
  destruct (finished (mkThread (KCommand m c) false p)) eqn:Hf.
  - unfold finished in Hf. simpl in Hf. destruct p as [[]| | |]; try discriminate Hf. eauto.
  - destruct (l_inline _ _ HL n _ o Hl Hr Hf) as [_ [?|?]]; congruence.
Qed.

Lemma life_init : life sess_init [].
Proof. split; try done; intros; by try apply lookup_nil_Some in H. Qed.

(** The reader turns to another business while no command of its own runs. *)
Lemma life_phase st l ph :
  life st l -> inline_done st -> ss_phase st = Reading \/ (exists m, ss_phase st = Waiting m) ->
  ph = Ending \/ (exists m, ph = Waiting m) -> life (set_phase ph st) l.
Proof.
  intros HL Hd Hp Hph.
  assert (forall j, is_closed (ss_tables st) j -> closing st -> False) as Hc.
  { intros j _ [[E _]|E]; destruct Hp as [?|[m ?]]; congruence. }
  assert (ss_phase st <> Ending) as Hne by (intros E; destruct Hp as [?|[m ?]]; congruence).
  destruct HL; split; simpl; try done.
  - intros n th o Hn Hr Hf. exfalso. eapply (no_inline st l); [by split|done..].
  - intros m i Hi. destruct (l_table0 m i Hi) as [?|(_ & ? & _)]; [by left|done].
  - intros n th o j m Hn Hr Ho. destruct (l_stream0 n th o j m Hn Hr Ho) as [?|[? ?]]; [by left|].
    exfalso; eauto.
  - intros [->| ->]; destruct Hph as [?|[? ?]]; done.
  - intros ->. destruct Hph as [?|[? ?]]; done.
Qed.

Lemma message_own cmd r mark a r' :
  doCommandCall fuel s mark cmd r = (a, r') ->
  obeys (if a is Go _ then RGo else RInline) (action_prog a)
    (own_start (if takes_buffer cmd && decodes cmd r then 1 else 0) false) (fun _ => own_end).
Proof.
  unfold doCommandCall, decodes. destruct (read_request cmd) as [rd|] eqn:Erd.
  - destruct (rd r) as [[req|e] r2] eqn:Er; simpl.
    + destruct (read_request_sound _ _ _ _ _ Erd Er) as [Hcode _].
      assert (takes_buffer cmd && true = req_fast req) as -> by (rewrite <-Hcode; by destruct req).
      pose proof (exec_request_obeys fuel s mark req) as H.
      destruct (req_inline req); intros [= <- <-]; exact H.
    + intros [= <- <-]. rewrite andb_false_r. apply obeys_quiet; [quiet|done].
  - intros [= <- <-]. rewrite andb_false_r. apply obeys_quiet; [quiet|done].
Qed.

Lemma life_message st l msg header msg' a err t' :
  life st l -> ss_phase st = Waiting msg -> ReadFull 2 msg = (Ok header, msg') ->
  dispatchCommand fuel s msg = (Some a, err) ->
  (if takes_buffer (Uint8 header 1) then
     exists t, acquireFastBuffer (ss_tables st) = Some t /\
       t' = if decodes (Uint8 header 1) msg' then t else ss_tables st
   else t' = ss_tables st) ->
  let th := mkThread (KCommand (Uint8 header 0) (Uint8 header 1)) (if a is Go _ then true else false) (action_prog a) in
  life (mkSess t' (ss_threads st ++ [th]) (if a is Inline _ then Some (length (ss_threads st)) else None)
         (if err is None then Reading else Ending) (ss_trace st))
    (l ++ [(th, own_start (if takes_buffer (Uint8 header 1) && decodes (Uint8 header 1) msg' then 1 else 0) false)]).
Proof.
  intros HL Hp Hread Hdisp Hbuf th.
  assert (inline_done st) as Hd by (apply (inline_done_of st l HL); congruence).
  destruct (message_streams st _ _ _ Hbuf) as (_ & Es & Ew).
  assert (forall ph, (ph = if err is None then Reading else Ending) -> ph <> Draining /\ ph <> Asleep) as Hph
    by (intros ph ->; by destruct err).
  assert (forall i, is_open t' i <-> is_open (ss_tables st) i) as Hopen by (intros i; unfold is_open; by rewrite Es).
  assert (role_of th = (if a is Go _ then RGo else RInline)) as Hrole by (by destruct a).
  assert (length (ss_threads st) = length l) as Hlen by (by rewrite (l_threads _ _ HL), length_fmap).
  assert (forall m i, writeStreams (ss_tables st) !! m = Some i -> is_open t' i) as Hw.
  { intros m i Hi. rewrite Hopen. destruct (l_table _ _ HL m i Hi) as [?|(_ & ? & _)]; [done|congruence]. }
  assert (forall n th' o j m, (l ++ [(th, own_start (if takes_buffer (Uint8 header 1) && decodes (Uint8 header 1) msg'
            then 1 else 0) false)]) !! n = Some (th', o) -> role_of th' = RStream j m -> l !! n = Some (th', o)) as Hold.
  { intros n th' o j m [[_ H]|[_ [= <- <-]]]%lookup_snoc_Some Hr; [done|]. rewrite Hrole in Hr. by destruct a. }
  split; cbn [ss_threads ss_tables ss_phase ss_inline].
  - by rewrite fmap_app, <-(l_threads _ _ HL).
  - intros n th' o [[_ H]|[_ [= <- <-]]]%lookup_snoc_Some; [by apply (l_obeys _ _ HL n)|].
    rewrite Hrole. unfold dispatchCommand in Hdisp. rewrite Hread in Hdisp.
    destruct (doCommandCall fuel s (Uint8 header 0) (Uint8 header 1) msg') as [a' r'] eqn:Ed.
    injection Hdisp as -> _. by eapply message_own.
  - rewrite sum_list_with_app. simpl. rewrite <-(l_pool _ _ HL). unfold queued. rewrite Es.
    destruct (takes_buffer _); [|simpl; subst t'; lia]. destruct Hbuf as (t & Ht & ->).
    destruct (decodes _ _); simpl; [|lia]. unfold acquireFastBuffer in Ht.
    destruct (fastBuffers (ss_tables st)) eqn:Ef; [done|]. injection Ht as <-. simpl. lia.
  - intros n th' o [[_ H]|[-> [= <- <-]]]%lookup_snoc_Some Hr Hf.
    + exfalso. by eapply (no_inline st l).
    + rewrite Hrole in Hr. destruct a; [done|]. split; [by rewrite Hlen|]. destruct err; auto.
  - intros n Hn. destruct a; [done|]. injection Hn as <-. eexists th, _. rewrite Hlen.
    split; [by rewrite list_lookup_middle|done].
  - intros m i Hi. rewrite Ew in Hi. left. eauto.
  - intros n th' o j m Hn Hr Ho. eapply Hold in Hn; [|done].
    destruct (l_stream _ _ HL n th' o j m Hn Hr Ho) as [?|[_ [[? _]|?]]]; [left; by rewrite Ew|congruence..].
  - intros n1 th1 o1 j1 n2 th2 o2 j2 m H1 Hr1 Ho1 H2 Hr2 Ho2. eapply (l_marks _ _ HL); eauto.
  - intros n th' o [[_ H]|[-> [= <- <-]]]%lookup_snoc_Some Hr Hf.
    + exfalso. by eapply (no_inline st l).
    + simpl. split_and!; [by intros i ?%not_elem_of_nil|done..].
  - intros n th' o j m Hn Hr. rewrite Es. eapply (l_bound _ _ HL); eauto.
  - intros [E|E]; symmetry in E; by apply Hph in E as [].
  - intros E. symmetry in E. by apply Hph in E as [].
Qed.

Lemma closeInput_open t i j q : streams (closeInput i t) !! j = Some (mkChannel q false) ->
  i <> j /\ streams t !! j = Some (mkChannel q false).
Proof.
  unfold closeInput. simpl. destruct (decide (i = j)) as [->|Hn].
  - rewrite list_lookup_alter_eq. by destruct (streams t !! j).
  - by rewrite list_lookup_alter_ne.
Qed.

Lemma closeInput_closed t i j : (j < length (streams t))%nat -> i = j \/ is_closed t j -> is_closed (closeInput i t) j.
Proof.
  intros Hj H. unfold is_closed, closeInput. simpl. destruct (decide (i = j)) as [->|Hn].
  - rewrite list_lookup_alter_eq. destruct (lookup_lt_is_Some_2 _ _ Hj) as [[q b] ->]. by exists q.
  - rewrite list_lookup_alter_ne by done. by destruct H.
Qed.

Lemma closeInput_queued t i : queued (closeInput i t) = queued t.
Proof.
  unfold queued, closeInput. simpl. generalize (streams t). intros l. revert i.
  induction l as [|ch l IH]; intros [|i]; [done..|]. simpl. f_equal. apply IH.
Qed.

Lemma known_length t i : is_open t i \/ is_closed t i -> (i < length (streams t))%nat.
Proof. intros [[q H]|[q H]]; by eapply lookup_lt_Some. Qed.

(** clearWriteStreams closes a stream. *)
Lemma life_close st l mark i :
  life st l -> ss_phase st = Ending -> inline_done st -> writeStreams (ss_tables st) !! mark = Some i ->
  life (set_tables (closeInput i (ss_tables st)) st) l.
Proof.
  intros HL Hp Hd Hi.
  assert (forall j, is_open (ss_tables st) j \/ is_closed (ss_tables st) j ->
            is_open (closeInput i (ss_tables st)) j \/ is_closed (closeInput i (ss_tables st)) j) as Hk.
  { intros j Hj. pose proof (known_length _ _ Hj) as Hlen.
    destruct (decide (i = j)) as [->|Hn]; [right; apply closeInput_closed; auto|].
    destruct Hj as [[q Hq]|Hj]; [|right; apply closeInput_closed; auto].
    left. exists q. unfold closeInput. simpl. by rewrite list_lookup_alter_ne. }
  assert (forall j, is_closed (ss_tables st) j -> is_closed (closeInput i (ss_tables st)) j) as Hc.
  { intros j Hj. apply closeInput_closed; [|by right]. apply known_length. by right. }
  pose proof (no_inline st l) as Hno. destruct HL; split; simpl; try done.
  - by rewrite closeInput_queued.
  - intros m j Hj. destruct (Hk j) as [?|?]; [|by left|by right].
    destruct (l_table0 m j Hj) as [?|[? _]]; auto.
  - intros n th o j m Hn Hr Ho. destruct (l_stream0 n th o j m Hn Hr Ho) as [?|[? ?]]; [by left|right; auto].
  - intros n th o Hn Hr Hf. exfalso. eapply Hno; [by split|done..].
  - intros n th o j m Hn Hr. rewrite length_alter. eauto.
Qed.

(** clearWriteStreams forgets a stream it has closed. *)
Lemma life_forget st l mark i q :
  life st l -> ss_phase st = Ending -> inline_done st -> writeStreams (ss_tables st) !! mark = Some i ->
  streams (ss_tables st) !! i = Some (mkChannel q true) ->
  life (set_tables (forget_stream mark (ss_tables st)) st) l.
Proof.
  intros HL Hp Hd Hi Hq. pose proof (no_inline st l) as Hno. destruct HL; split; simpl; try done.
  - intros m j [_ Hj]%lookup_delete_Some. eauto.
  - intros n th o j m Hn Hr Ho. destruct (l_stream0 n th o j m Hn Hr Ho) as [Hm|?]; [|by right].
    destruct (decide (m = mark)) as [->|Hne]; [|left; by rewrite lookup_delete_ne].
    right. split; [|by left]. exists q. by simplify_eq.
  - intros n th o Hn Hr Hf. exfalso. eapply Hno; [by split|done..].
  - intros E. apply l_empty0 in E. by rewrite E, delete_empty.
Qed.

Lemma finished_end st l n th o : life st l -> l !! n = Some (th, o) -> finished th = true -> own_end o.
Proof.
  intros HL Hn Hf. pose proof (l_obeys _ _ HL n th o Hn) as Ho. unfold finished in Hf.
  by destruct (th_prog th).
Qed.

Lemma life_cleared st l :
  life st l -> ss_phase st = Ending -> inline_done st -> writeStreams (ss_tables st) = ∅ ->
  life (set_phase Draining st) l.
Proof.
  intros HL Hp Hd Hw. pose proof (no_inline st l) as Hno. destruct HL; split; simpl; try done.
  - intros n th o Hn Hr Hf. exfalso. eapply Hno; [by split|done..].
  - intros m i Hi. by rewrite Hw in Hi.
  - intros n th o j m Hn Hr Ho. destruct (l_stream0 n th o j m Hn Hr Ho) as [Hm|[? _]]; [by rewrite Hw in Hm|].
    right. split; [done|by right].
Qed.

Lemma life_hibernate st l ph :
  life st l -> writeStreams (ss_tables st) = ∅ -> ph = Asleep \/ ph = Reading ->
  Forall (fun th => finished th = true) (ss_threads st) -> life (set_phase ph st) l.
Proof.
  intros HL Hw Hph Hall.
  assert (forall n th o, l !! n = Some (th, o) -> finished th = true) as Hf.
  { intros n th o Hn. apply (lookup_threads _ _ _ _ _ HL) in Hn. by eapply Forall_lookup_1 in Hall. }
  pose proof (finished_end st l) as Hend.
  assert (forall n th o, l !! n = Some (th, o) -> o_live o = false) as Hl.
  { intros n th o Hn. destruct (Hend n th o HL Hn) as (_ & _ & ?); eauto. }
  destruct HL; split; simpl; try done.
  - intros n th o Hn _ Hu. rewrite (Hf n th o Hn) in Hu. done.
  - intros m i Hi. by rewrite Hw in Hi.
  - intros n th o j m Hn Hr Ho. by rewrite (Hl n th o Hn) in Ho.
Qed.

(** ** Requests *)

Lemma insert_channel t i q1 q2 b :
  streams t !! i = Some (mkChannel q1 b) ->
  let t' := mkTables (fds t) (fdLast t) (writeStreams t) (<[i := mkChannel q2 b]> (streams t)) (fastBuffers t) in
  (forall j, is_open t j -> is_open t' j) /\ (forall j, is_closed t j -> is_closed t' j) /\
  (length (streams t) <= length (streams t'))%nat.
Proof.
  intros Hi t'. pose proof (lookup_lt_Some _ _ _ Hi) as Hlt. unfold is_open, is_closed. simpl. split_and!.
  - intros j [q Hq]. destruct (decide (i = j)) as [->|Hn]; [|exists q; by rewrite list_lookup_insert_ne].
    exists q2. rewrite list_lookup_insert_eq by done. congruence.
  - intros j [q Hq]. destruct (decide (i = j)) as [->|Hn]; [|exists q; by rewrite list_lookup_insert_ne].
    exists q2. rewrite list_lookup_insert_eq by done. congruence.
  - by rewrite length_insert.
Qed.

Lemma tab_mono t e r t' :
  tab_step t e r t' ->
  (forall i, is_open t i -> is_open t' i) /\ (forall i, is_closed t i -> is_closed t' i) /\
  (length (streams t) <= length (streams t'))%nat.
Proof.
  intros Ht. pose proof (tab_step_streams _ _ _ _ Ht) as E. unfold is_open, is_closed.
  destruct e; try (rewrite E; by auto); simpl in Ht.
  - destruct Ht as [_ ->]. simpl. rewrite length_app. split_and!; [| |simpl; lia].
    all: intros i [q Hq]; exists q; by apply lookup_app_l_Some.
  - destruct Ht as (q & Hq & _ & ->). by eapply insert_channel.
  - destruct Ht as (q & b & Hq & Ht). destruct q; [destruct Ht as (_ & _ & ->); auto|].
    destruct Ht as [_ ->]. by eapply insert_channel.
Qed.

(** How a request changes the table of streams. *)
Definition ws_change (w : gmap Z nat) (e : sev) : sans e -> gmap Z nat -> Prop :=
  match e return sans e -> gmap Z nat -> Prop with
  | WsLoadOrStore m i => fun loaded w' => if loaded then w' = w else w !! m = None /\ w' = <[m := i]> w
  | WsDelete m => fun _ w' => w' = delete m w
  | _ => fun _ w' => w' = w
  end.

Lemma tab_ws t e r t' : tab_step t e r t' -> ws_change (writeStreams t) e r (writeStreams t').
Proof.
  destruct e; simpl; intros Ht; try (by subst t'); try (by destruct Ht as [_ ->]).
  - destruct (fds t !! fd); by destruct Ht as [_ ->].
  - destruct (writeStreams t !! mark); by destruct Ht as [-> ->].
  - by destruct Ht as (q & _ & _ & ->).
  - destruct Ht as (q & b & _ & Ht). destruct q; [by destruct Ht as (_ & _ & ->)|by destruct Ht as [_ ->]].
Qed.

Lemma queued_insert t i ch ch' :
  streams t !! i = Some ch ->
  (queued (mkTables (fds t) (fdLast t) (writeStreams t) (<[i := ch']> (streams t)) (fastBuffers t)) +
   length (filter (fun m => in_buf m = true) (ch_queue ch)) =
   queued t + length (filter (fun m => in_buf m = true) (ch_queue ch')))%nat.
Proof. intros Hi. apply (sum_insert (fun ch => length (filter _ (ch_queue ch))) _ _ _ _ Hi). Qed.

(** A request moves fast buffers, it does not make or lose any. *)
Lemma tab_pool t e r t' k o :
  tab_step t e r t' -> own_pre k o e ->
  (fastBuffers t' + queued t' + o_fast (own_step o e r) = fastBuffers t + queued t + o_fast o)%nat.
Proof.
  destruct e; simpl; intros Ht Hp; try (by subst t'); try (by destruct Ht as [_ ->]).
  - destruct (fds t !! fd); by destruct Ht as [_ ->].
  - destruct Ht as [_ ->]. simpl. unfold queued. simpl. rewrite sum_list_with_app. simpl. lia.
  - destruct Ht as [_ ->]. by destruct r.
  - destruct (writeStreams t !! mark); destruct Ht as [-> ->]; done.
  - destruct Ht as (q & Hq & _ & ->). destruct Hp as (_ & _ & Hf).
    pose proof (queued_insert t stream _ (mkChannel (q ++ [msg]) false) Hq) as Hs. simpl in Hs |- *.
    rewrite filter_app, length_app in Hs. revert Hs. rewrite filter_cons, filter_nil.
    destruct (in_buf msg); simpl; [specialize (Hf eq_refl)|]; lia.
  - destruct Ht as (q & b & Hq & Ht). destruct q as [|msg q]; [by destruct Ht as (_ & -> & ->)|].
    destruct Ht as [-> ->].
    pose proof (queued_insert t stream _ (mkChannel q b) Hq) as Hs. simpl in Hs |- *.
    revert Hs. rewrite filter_cons. destruct (in_buf msg); simpl; lia.
  - destruct Ht as [_ ->]. unfold queued. simpl. lia.
Qed.

(** Where what a goroutine knows comes from. *)
Lemma own_step_ids t e r t' o i :
  tab_step t e r t' -> i ∈ o_ids (own_step o e r) ->
  i ∈ o_ids o \/ exists m, writeStreams t' !! m = Some i.
Proof.
  destruct e; simpl; intros Ht Hi; try (by left).
  - destruct Ht as [Er ->]. destruct r as [j|]; [|by left]. simpl in Hi.
    apply elem_of_cons in Hi as [->|?]; [right; by exists mark|by left].
  - destruct r; [by left|]. destruct (writeStreams t !! mark) eqn:E; destruct Ht as [? ->]; [done|]. simpl in *.
    apply elem_of_cons in Hi as [->|?]; [right; exists mark; by rewrite lookup_insert_eq|by left].
  - by destruct r; left.
Qed.

Lemma own_step_new t e r t' o i :
  tab_step t e r t' -> o_new (own_step o e r) = Some i ->
  o_new o = Some i \/ i = length (streams t) /\ is_open t' i.
Proof.
  destruct e; simpl; intros Ht Hi; try (by left).
  - destruct Ht as [-> ->]. injection Hi as <-. right. split; [done|]. exists []. simpl.
    by rewrite list_lookup_middle.
  - by destruct r; left.
  - destruct r; [by left|done].
  - by destruct r; left.
Qed.

Lemma own_step_reg t e r t' k o m i :
  tab_step t e r t' -> own_pre k o e -> o_reg (own_step o e r) = Some (m, i) ->
  (forall j m sfd off, e <> WsSpawn j m sfd off) /\
  (o_reg o = Some (m, i) \/ o_new o = Some i /\ writeStreams t' !! m = Some i).
Proof.
  destruct e; simpl; intros Ht Hp Hi; try done; (split; [done|]); try (by left).
  - by destruct r; left.
  - destruct r; [by left|]. destruct (writeStreams t !! mark) eqn:E; destruct Ht as [? ->]; [done|].
    injection Hi as -> ->. right. split; [apply Hp|]. by apply lookup_insert_eq.
  - by destruct r; left.
Qed.

Lemma own_step_live o e r : o_live (own_step o e r) = true -> o_live o = true /\ (forall m, e <> WsDelete m).
Proof. destruct e; simpl; try done; by destruct r. Qed.

Lemma spawned_own e th : th ∈ spawned fuel e ->
  exists i m sfd off, e = WsSpawn i m sfd off /\
    th = mkThread (KStream i m sfd off) true (writeStream_run fuel i m sfd off).
Proof.
  destruct e; intros H; try (by apply not_elem_of_nil in H).
  apply list_elem_of_singleton in H as ->. eauto 6.
Qed.

(** A goroutine makes a request. *)
Section Request.
Context (st : sess) (l : list (thread * own)) (n : nat) (k : kind) (grp : bool) (e : sev)
  (c : sans e -> SP unit) (r : sans e) (t' : tables) (o : own).
Hypothesis (HL : life st l) (Hn : l !! n = Some (mkThread k grp (Vis e c), o)).
Hypothesis (Ht : tab_step (ss_tables st) e r t').

Abbreviation th := (mkThread k grp (Vis e c)).
Abbreviation th' := (mkThread k grp (c r)).
Abbreviation o' := (own_step o e r).
Abbreviation l' := (<[n := (th', o')]> l ++ map (fun th => (th, own_start 0 true)) (spawned fuel e)).
Abbreviation st' := (mkSess t' (<[n := th']> (ss_threads st) ++ spawned fuel e)
                       (ss_inline st) (ss_phase st) (ss_trace st ++ [(n, logged_entry e r)])).

Lemma req_obeys : own_pre (role_of th) o e /\ obeys (role_of th) (c r) o' (fun _ => own_end).
Proof. destruct (l_obeys _ _ HL n _ o Hn) as [Hp Hc]. split; [exact Hp|apply Hc]. Qed.

(** A goroutine afterwards: this one, another one, or one that was started. *)
Lemma req_lookup p th1 o1 :
  l' !! p = Some (th1, o1) ->
  (p = n /\ th1 = th' /\ o1 = o') \/ (p <> n /\ l !! p = Some (th1, o1)) \/
  (length l <= p)%nat /\
  exists i m sfd off, e = WsSpawn i m sfd off /\ o1 = own_start 0 true /\
    th1 = mkThread (KStream i m sfd off) true (writeStream_run fuel i m sfd off).
Proof.
  intros [[-> E]|[?|[Hl Hs]]]%lookup_insert_app; [injection E as -> ->; by left|by right; left|].
  right; right. split; [done|]. apply list_elem_of_fmap in Hs as (x & E & Hs). injection E as -> ->.
  destruct (spawned_own _ _ Hs) as (i & m & sfd & off & -> & ->). by exists i, m, sfd, off.
Qed.

Lemma req_inline_done : inline_done st -> inline_done st'.
Proof.
  intros Hd p Hp. destruct (Hd p Hp) as [k' Hk]. exists k'. simpl.
  pose proof (lookup_threads _ _ _ _ _ HL Hn) as Hn'.
  assert (p <> n) by (intros ->; congruence).
  apply lookup_app_l_Some. by rewrite list_lookup_insert_ne.
Qed.

Lemma req_closing : closing st -> closing st'.
Proof. intros [[? ?]|?]; [left; split; [done|by apply req_inline_done]|by right]. Qed.

(** While a command of the read loop runs, nothing is being closed. *)
Lemma not_closing p th1 o1 :
  l !! p = Some (th1, o1) -> role_of th1 = RInline -> finished th1 = false -> closing st -> False.
Proof.
  intros Hp Hr Hf [[_ Hd]|E].
  - by eapply (no_inline st l).
  - destruct (l_inline _ _ HL p th1 o1 Hp Hr Hf) as [_ [?|?]]; congruence.
Qed.

(** The command the read loop runs is the only one. *)
Lemma inline_unique p th1 o1 :
  l !! p = Some (th1, o1) -> role_of th1 = RInline -> finished th1 = false -> role_of th = RInline -> p = n.
Proof.
  intros Hp Hr Hf Hr2. destruct (l_inline _ _ HL p th1 o1 Hp Hr Hf) as [E1 _].
  destruct (l_inline _ _ HL n _ o Hn Hr2 eq_refl) as [E2 _]. congruence.
Qed.

(** The entry of a live stream, or of one about to be started, stays. *)
Lemma req_entry m i :
  writeStreams (ss_tables st) !! m = Some i ->
  (forall j, role_of th = RStream j m -> o_live o = true -> e = WsDelete m -> False) ->
  writeStreams t' !! m = Some i.
Proof.
  intros Hi Hno. pose proof (tab_ws _ _ _ _ Ht) as Hw. destruct req_obeys as [Hp _].
  destruct e; simpl in Hw, Hp; try (by rewrite Hw).
  - destruct r; [by rewrite Hw|]. destruct Hw as [Hw ->]. rewrite lookup_insert_ne; [done|congruence].
  - rewrite Hw. destruct Hp as (j & Hr & Ho). destruct (decide (mark = m)) as [->|Hne].
    + exfalso. by eapply Hno.
    + by rewrite lookup_delete_ne.
Qed.

(** A stream that is about to be started is registered, and no other stream
    under its mark is left. *)
Lemma req_start i m sfd off :
  e = WsSpawn i m sfd off ->
  writeStreams (ss_tables st) !! m = Some i /\ unspawned l i /\ role_of th = RInline /\
  (i < length (streams (ss_tables st)))%nat /\
  forall p th1 o1 j, l !! p = Some (th1, o1) -> role_of th1 = RStream j m -> o_live o1 = true -> False.
Proof.
  intros E. destruct req_obeys as [Hp _]. rewrite E in Hp. destruct Hp as (Hr & Hreg & _).
  destruct (l_cur _ _ HL n _ o Hn Hr eq_refl) as (_ & _ & H3). destruct (H3 m i Hreg) as [Hw Hu].
  split_and!; [done..| |].
  - apply known_length. destruct (l_table _ _ HL m i Hw) as [?|[? _]]; auto.
  - intros p th1 o1 j Hl Hr1 Ho1. destruct (l_stream _ _ HL p th1 o1 j m Hl Hr1 Ho1) as [Hj|[_ Hc]].
    + apply (Hu p th1 o1 m Hl). congruence.
    + by eapply (not_closing n _ o Hn Hr).
Qed.

(** Entries of the table afterwards were there, or have just been made. *)
Lemma req_entry_old m i :
  writeStreams t' !! m = Some i -> writeStreams (ss_tables st) !! m = Some i \/ is_open (ss_tables st) i.
Proof.
  intros Hi. pose proof (tab_ws _ _ _ _ Ht) as Hw. destruct req_obeys as [Hp _].
  destruct e; simpl in Hw, Hp; try (rewrite Hw in Hi; by left).
  - destruct r; [rewrite Hw in Hi; by left|]. destruct Hw as [_ Hw]. rewrite Hw in Hi.
    apply lookup_insert_Some in Hi as [[<- <-]|[_ ?]]; [right|by left].
    destruct Hp as [Hr Hnew]. by destruct (l_cur _ _ HL n _ o Hn Hr eq_refl) as (_ & H2 & _); apply H2.
  - rewrite Hw in Hi. apply lookup_delete_Some in Hi as [_ ?]. by left.
Qed.

Lemma req_table m i :
  writeStreams t' !! m = Some i -> is_open t' i \/ (is_closed t' i /\ ss_phase st' = Ending /\ inline_done st').
Proof.
  intros [Ho|Ho]%req_entry_old; destruct (tab_mono _ _ _ _ Ht) as (Hop & Hcl & _).
  - destruct (l_table _ _ HL m i Ho) as [?|(? & ? & ?)]; [left; auto|right].
    split_and!; [auto|done|by apply req_inline_done].
  - left. auto.
Qed.

Lemma req_entry_open m i : role_of th = RInline -> writeStreams t' !! m = Some i -> is_open t' i.
Proof.
  intros Hr [Ho|Ho]%req_entry_old; destruct (tab_mono _ _ _ _ Ht) as (Hop & _); [|auto].
  destruct (l_table _ _ HL m i Ho) as [?|(_ & _ & Hd)]; [auto|].
  exfalso. by eapply (no_inline st l n).
Qed.

Lemma req_marks n1 th1 o1 j1 n2 th2 o2 j2 m :
  l' !! n1 = Some (th1, o1) -> role_of th1 = RStream j1 m -> o_live o1 = true ->
  l' !! n2 = Some (th2, o2) -> role_of th2 = RStream j2 m -> o_live o2 = true -> n1 = n2.
Proof.
  assert (forall p th1 o1 j, l' !! p = Some (th1, o1) -> role_of th1 = RStream j m -> o_live o1 = true ->
            (exists th0 o0, l !! p = Some (th0, o0) /\ role_of th0 = RStream j m /\ o_live o0 = true) \/
            (p = length l /\ exists i sfd off, e = WsSpawn i m sfd off)) as Hold.
  { intros p th0 o0 j Hp Hr Ho.
    destruct (req_lookup _ _ _ Hp) as [(-> & -> & ->)|[[_ ?]|(Hl & i & m' & sfd & off & E & -> & ->)]].
    - left. apply own_step_live in Ho as [Ho _]. by exists th, o.
    - left. by exists th0, o0.
    - right. injection Hr as -> ->. split; [|eauto].
      apply lookup_lt_Some in Hp. rewrite length_app, length_insert, E in Hp. simpl in Hp. lia. }
  intros H1 Hr1 Ho1 H2 Hr2 Ho2.
  destruct (Hold _ _ _ _ H1 Hr1 Ho1) as [(ta & oa & Ha & Hra & Hoa)|[-> (i & sfd & off & E)]],
    (Hold _ _ _ _ H2 Hr2 Ho2) as [(tb & ob & Hb & Hrb & Hob)|[-> (i2 & sfd2 & off2 & E2)]]; [|exfalso..|done].
  - by eapply (l_marks _ _ HL).
  - destruct (req_start _ _ _ _ E2) as (_ & _ & _ & _ & Hno). by eapply Hno.
  - destruct (req_start _ _ _ _ E) as (_ & _ & _ & _ & Hno). by eapply Hno.
Qed.

(** What the running command of the read loop knows stays true. *)
Lemma req_cur_other p th1 o1 :
  p <> n -> l !! p = Some (th1, o1) -> role_of th1 = RInline -> finished th1 = false ->
  (forall i, i ∈ o_ids o1 -> is_open t' i) /\
  (forall i, o_new o1 = Some i -> is_open t' i /\ unspawned l' i) /\
  (forall m i, o_reg o1 = Some (m, i) -> writeStreams t' !! m = Some i /\ unspawned l' i).
Proof.
  intros Hne Hp Hr Hf. destruct (tab_mono _ _ _ _ Ht) as (Hop & _ & _).
  assert (role_of th <> RInline) as Hni by (intros Hri; by apply Hne, (inline_unique p th1 o1)).
  assert (forall i, unspawned l i -> unspawned l' i) as Hun.
  { intros i Hu q th2 o2 m Hq.
    destruct (req_lookup _ _ _ Hq) as [(-> & -> & ->)|[[_ ?]|(_ & i' & m' & sfd & off & E & _)]].
    - apply (Hu n th o m Hn).
    - by eapply Hu.
    - by destruct (req_start _ _ _ _ E) as (_ & _ & ? & _). }
  destruct (l_cur _ _ HL p th1 o1 Hp Hr Hf) as (H1 & H2 & H3). split_and!.
  - auto.
  - intros i Hi. destruct (H2 i Hi). auto.
  - intros m i Hi. destruct (H3 m i Hi) as [Hw Hu]. split; [|auto]. apply req_entry; [done|].
    intros j Hrj Hlive _. destruct (l_stream _ _ HL n th o j m Hn Hrj Hlive) as [Hj|[_ Hc]].
    + apply (Hu n th o m Hn). congruence.
    + by eapply (not_closing p th1 o1).
Qed.

Lemma unspawned_request i :
  unspawned l i -> (forall j m sfd off, e = WsSpawn j m sfd off -> j <> i) -> unspawned l' i.
Proof.
  intros Hu Hs q th2 o2 m Hq Hr.
  destruct (req_lookup _ _ _ Hq) as [(-> & -> & ->)|[[_ ?]|(_ & j & m' & sfd & off & E & -> & ->)]].
  - by apply (Hu n th o m Hn).
  - by eapply Hu.
  - injection Hr as -> ->. by eapply Hs.
Qed.

Lemma req_cur_self :
  role_of th = RInline ->
  (forall i, i ∈ o_ids o' -> is_open t' i) /\
  (forall i, o_new o' = Some i -> is_open t' i /\ unspawned l' i) /\
  (forall m i, o_reg o' = Some (m, i) -> writeStreams t' !! m = Some i /\ unspawned l' i).
Proof.
  intros Hr. destruct (tab_mono _ _ _ _ Ht) as (Hop & _ & _).
  destruct (l_cur _ _ HL n _ o Hn Hr eq_refl) as (H1 & H2 & H3). destruct req_obeys as [Hp _].
  split_and!.
  - intros i Hi. destruct (own_step_ids _ _ _ _ _ _ Ht Hi) as [?|[m Hm]]; [auto|by eapply req_entry_open].
  - intros i Hi. destruct (own_step_new _ _ _ _ _ _ Ht Hi) as [Ho|[-> Ho]].
    + destruct (H2 i Ho). split; [auto|]. apply unspawned_request; [done|].
      intros j m sfd off E. rewrite E in Hp. destruct Hp as (_ & _ & Hnone). congruence.
    + split; [done|]. apply unspawned_request.
      * intros q th2 o2 m Hq Hr2. pose proof (l_bound _ _ HL q th2 o2 _ m Hq Hr2). lia.
      * intros j m sfd off E. destruct (req_start _ _ _ _ E) as (_ & _ & _ & Hlt & _). lia.
  - intros m i Hi. destruct (own_step_reg _ _ _ _ _ _ _ _ Ht Hp Hi) as [Hns [Ho|[Ho Hw]]].
    + destruct (H3 m i Ho). split; [apply req_entry; [done|congruence]|].
      apply unspawned_request; [done|]. intros j m' sfd off E. by apply Hns in E.
    + destruct (H2 i Ho). split; [done|]. apply unspawned_request; [done|].
      intros j m' sfd off E. by apply Hns in E.
Qed.

Lemma req_stream p th1 o1 j m :
  l' !! p = Some (th1, o1) -> role_of th1 = RStream j m -> o_live o1 = true ->
  writeStreams t' !! m = Some j \/ (is_closed t' j /\ closing st').
Proof.
  intros Hp Hr Ho. destruct (tab_mono _ _ _ _ Ht) as (_ & Hcl & _).
  destruct (req_lookup _ _ _ Hp) as [(-> & -> & ->)|[[Hne Hl]|(Hl & i & m' & sfd & off & E & -> & ->)]].
  - apply own_step_live in Ho as [Ho Hnd].
    destruct (l_stream _ _ HL n th o j m Hn Hr Ho) as [Hj|[? ?]]; [|right; split; [auto|by apply req_closing]].
    left. apply req_entry; [done|]. intros j' _ _ E. by apply Hnd in E.
  - destruct (l_stream _ _ HL p th1 o1 j m Hl Hr Ho) as [Hj|[? ?]]; [|right; split; [auto|by apply req_closing]].
    left. apply req_entry; [done|]. intros j' Hr' Ho' _. apply Hne. by eapply (l_marks _ _ HL).
  - injection Hr as -> ->. destruct (req_start _ _ _ _ E) as (Hw & _ & Hri & _). left.
    apply req_entry; [done|]. congruence.
Qed.

Lemma life_request : life st' l'.
Proof.
  destruct req_obeys as [Hp Hc]. destruct (tab_mono _ _ _ _ Ht) as (_ & _ & Hlen).
  split; cbn [ss_threads ss_tables ss_phase ss_inline].
  - rewrite fmap_app, list_fmap_insert, <-(l_threads _ _ HL). f_equal.
    symmetry. rewrite <-list_fmap_compose. apply list_fmap_id.
  - intros p th1 o1 H. destruct (req_lookup _ _ _ H) as [(-> & -> & ->)|[[_ ?]|(_ & i & m & sfd & off & _ & -> & ->)]].
    + exact Hc.
    + by eapply (l_obeys _ _ HL).
    + apply writeStream_run_obeys.
  - rewrite sum_list_with_app. pose proof (sum_insert (fun x => o_fast x.2) l n (th', o') _ Hn) as Hs.
    pose proof (tab_pool _ _ _ _ _ _ Ht Hp) as Hpool. pose proof (l_pool _ _ HL) as Ho.
    assert (sum_list_with (fun x : thread * own => o_fast x.2)
              (map (fun th => (th, own_start 0 true)) (spawned fuel e)) = 0%nat) as ->.
    { by destruct e. }
    simpl in Hs. lia.
  - intros p th1 o1 H Hr Hf.
    destruct (req_lookup _ _ _ H) as [(-> & -> & ->)|[[_ ?]|(_ & i & m & sfd & off & _ & -> & ->)]].
    + by apply (l_inline _ _ HL n th o).
    + by eapply (l_inline _ _ HL).
    + discriminate Hr.
  - intros p Hi. destruct (l_reader _ _ HL p Hi) as (th1 & o1 & H & Hr).
    destruct (decide (p = n)) as [->|Hne].
    + exists th', o'. split; [|by simplify_eq]. apply lookup_app_l_Some, list_lookup_insert_eq.
      by eapply lookup_lt_Some.
    + exists th1, o1. split; [|done]. apply lookup_app_l_Some. by rewrite list_lookup_insert_ne.
  - apply req_table.
  - apply req_stream.
  - apply req_marks.
  - intros p th1 o1 H Hr Hf.
    destruct (req_lookup _ _ _ H) as [(-> & -> & ->)|[[? ?]|(_ & i & m & sfd & off & _ & -> & ->)]].
    + by apply req_cur_self.
    + by eapply req_cur_other.
    + discriminate Hr.
  - intros p th1 o1 j m H Hr.
    destruct (req_lookup _ _ _ H) as [(-> & -> & ->)|[[_ ?]|(_ & i & m' & sfd & off & E & -> & ->)]].
    + pose proof (l_bound _ _ HL n th o j m Hn Hr). lia.
    + pose proof (l_bound _ _ HL p th1 o1 j m ltac:(done) Hr). lia.
    + injection Hr as -> ->. destruct (req_start _ _ _ _ E) as (_ & _ & _ & ? & _). lia.
  - intros Hph. apply map_empty. intros m. destruct (writeStreams t' !! m) as [i|] eqn:E; [|done].
    exfalso. pose proof (tab_ws _ _ _ _ Ht) as Hw. pose proof (l_empty _ _ HL Hph) as Hemp.
    destruct e; simpl in Hw, Hp; try (by rewrite Hw, Hemp in E).
    destruct r; [by rewrite Hw, Hemp in E|]. destruct Hp as [Hr _].
    destruct (l_inline _ _ HL n _ o Hn Hr eq_refl) as [_ Hx]. destruct Hph, Hx; congruence.
  - intros Hph. pose proof (l_asleep _ _ HL Hph) as Hall. exfalso.
    pose proof (Forall_lookup_1 _ _ _ _ Hall (lookup_threads _ _ _ _ _ HL Hn)) as Hfin. discriminate Hfin.
Qed.
End Request.

Lemma life_step st l st' : life st l -> session_step fuel s st st' -> exists l', life st' l'.
Proof.
  intros HL Hstep.
  destruct Hstep as [| |st msg header msg' a err t' Hph Hread Hdisp Hbuf Hgrp| | | | | | |
                     st i k grp e c r t' Hi Hans Ht Hgrp].
  - exists l. apply life_phase; eauto.
  - exists l. apply life_phase; eauto.
  - eexists. by eapply life_message.
  - exists l. apply life_phase; [done|apply (inline_done_of _ _ HL); congruence|eauto..].
  - exists l. by eapply life_close.
  - exists l. by eapply life_forget.
  - exists l. by apply life_cleared.
  - exists l. apply life_hibernate; auto. apply (l_empty _ _ HL). auto.
  - exists l. apply life_hibernate; auto; [apply (l_empty _ _ HL); auto|by apply (l_asleep _ _ HL)].
  - destruct (threads_lookup _ _ _ _ HL Hi) as [o Ho]. eexists. by eapply life_request.
Qed.

Lemma reachable_life st : reachable fuel s st -> exists l, life st l.
Proof. induction 1 as [|st st' _ [l IH] Hs]; [exists []; apply life_init|by eapply life_step]. Qed.

(** cmdGroup never runs more goroutines than its limit. *)
Lemma active_insert ths i k grp p q :
  ths !! i = Some (mkThread k grp p) -> finished (mkThread k grp p) = false ->
  (cmdGroup_active (<[i := mkThread k grp q]> ths) <= cmdGroup_active ths)%nat.
Proof.
  unfold cmdGroup_active. revert i. induction ths as [|th ths IH]; intros [|i] Hi Hf; try done; simpl in *.
  - injection Hi as ->. rewrite !filter_cons, Hf. destruct grp; repeat case_decide; simpl in *; try done; lia.
  - specialize (IH i Hi Hf). rewrite !filter_cons. case_decide; simpl; lia.
Qed.

Lemma active_app a b : cmdGroup_active (a ++ b) = (cmdGroup_active a + cmdGroup_active b)%nat.
Proof. unfold cmdGroup_active. by rewrite filter_app, length_app. Qed.

Lemma active_le ths : (cmdGroup_active ths <= length ths)%nat.
Proof. apply length_filter. Qed.

Lemma reachable_active st : reachable fuel s st -> (cmdGroup_active (ss_threads st) <= cmdGroup_limit)%nat.
Proof.
  induction 1 as [|st st' _ IH Hs]; [apply Nat.le_0_l|].
  destruct Hs; try done; simpl in *.
  - rewrite active_app. destruct a as [p|p]; [|by rewrite Nat.add_0_r].
    match goal with |- context [cmdGroup_active [?x]] => pose proof (active_le [x]) as Hx end.
    cbn [length] in Hx. lia.
  - rewrite active_app. pose proof (active_insert _ _ _ _ _ (c r) H eq_refl).
    pose proof (active_le (spawned fuel e)). lia.
Qed.

(** ** Teardown *)

(** Answers the operating system may give: some answer is always lawful. *)
Lemma sys_ok_inhabited e : exists r : sans e, sys_ok e r.
Proof.
  destruct e; simpl; try (by exists tt); try (by exists (Err ENOENT)); try (by exists true); try (by exists None).
  - by exists 0.
  - by exists 0%nat.
  - exists (NewBuffer MaxMsgSize). unfold buf_ok, NewBuffer, len. cbn [Bytes written].
    rewrite length_replicate. unfold MaxMsgSize. lia.
  - exists ([], Some DirEOF). split; [by constructor|]. intros ?. unfold len. simpl. split_and!; [lia|done|done].
Qed.

(** A request that does not wait for another goroutine is answered. *)
Lemma tab_answers t e :
  match e with WsEnqueue _ _ | WsReceive _ | ReleaseFastBuffer => False | _ => True end ->
  exists r t', sys_ok e r /\ tab_step t e r t'.
Proof.
  destruct (sys_ok_inhabited e) as [r Hr].
  destruct e; intros Hw; try done; cbn [tab_step sys_ok] in *;
    try (by exists r, t); try (by eexists tt, _); try (by eexists _, _).
  - by destruct (fds t !! fd) as [v|]; eexists _, _.
  - eexists _, _. split; [|done]. by apply wrapu_range.
  - by destruct (writeStreams t !! mark) as [v|]; eexists _, _.
Qed.

(** While a session waits in cmdGroup.Wait every goroutine left can go on. *)
Lemma draining_answers st l n th o e c :
  life st l -> ss_phase st = Draining -> l !! n = Some (th, o) -> th_prog th = Vis e c ->
  spawned fuel e = [] /\ exists r t', sys_ok e r /\ tab_step (ss_tables st) e r t'.
Proof.
  intros HL Hp Hn He. pose proof (l_obeys _ _ HL n th o Hn) as Ho. rewrite He in Ho. destruct Ho as [Ho _].
  assert (role_of th <> RInline) as Hni.
  { intros Hr. destruct (l_inline _ _ HL n th o Hn Hr) as [_ [?|?]]; try congruence.
    unfold finished. by rewrite He. }
  destruct e; try (split; [done|by apply tab_answers]); simpl in Ho.
  - by destruct Ho.
  - by destruct Ho.
  - split; [done|]. destruct Ho as (m & Hr & Hl).
    destruct (l_stream _ _ HL n th o stream m Hn Hr Hl) as [Hm|[[q Hq] _]].
    { rewrite (l_empty _ _ HL) in Hm by auto. done. }
    destruct q as [|msg q]; [exists None, (ss_tables st)|eexists (Some msg), _];
      (split; [done|]); eexists _, true; by split.
  - split; [done|]. exists tt. eexists. split; [done|]. split; [|done].
    pose proof (l_pool _ _ HL) as Hpool. apply list_elem_of_lookup_2, list_elem_of_split in Hn as (l1 & l2 & ->).
    rewrite sum_list_with_app in Hpool. simpl in Hpool. lia.
Qed.
End Life.
