(* ===== verification/ServerData.v ===== *)
(** * What the responses carry

    The payload of a response, taken over all of its frames, for the commands
    whose answer may need several: reading a file, an extended attribute, the
    list of attributes, a directory. *)
From S2P Require Import Prelude GoIO Codec Structs StructGen Prog Paths UnixConv ServerEnv.
From S2P Require Import ServerCmds ServerXattr ServerReadDir ServerConn ServerSpec ServerCmdsOk ServerXattrOk ServerReadDirOk ServerRun.

(** What the client puts together: the frames without their two header bytes. *)
Definition log_payload (log : list entry) : bytes := concat (map (drop 2) (log_frames log)).

Lemma log_payload_snoc log e r :
  log_payload (log ++ [logged_entry e r]) =
    log_payload log ++ match frame_of e with Some f => drop 2 f | None => [] end.
Proof.
  unfold log_payload. rewrite log_frames_snoc, map_app, concat_app. f_equal.
  destruct (frame_of e); simpl; by rewrite ?app_nil_r.
Qed.

(** The frames carry data: they are partial or final ones without an error. *)
Definition fine_frame (f : bytes) : Prop := Uint8 f 1 = ErrorOK \/ Uint8 f 1 = ErrorPartialResponse.
Definition log_fine (log : list entry) : Prop := Forall fine_frame (log_frames log).

(** From [log] to [log'] the payload [d] was sent, in frames of data. *)
Definition sends (d : bytes) (log log' : list entry) : Prop :=
  log_payload log' = log_payload log ++ d /\ (log_fine log -> log_fine log').

Lemma sends_nil log : sends [] log log.
Proof. split; [by rewrite app_nil_r|done]. Qed.

Lemma sends_trans d d' log log' log'' :
  sends d log log' -> sends d' log' log'' -> sends (d ++ d') log log''.
Proof. intros [H1 H2] [H3 H4]. split; [by rewrite H3, H1, app_assoc|auto]. Qed.

Lemma sends_quiet d log log' log'' : sends d log log' -> sends [] log' log'' -> sends d log log''.
Proof. intros H1 H2. rewrite <-(app_nil_r d). by eapply sends_trans. Qed.

Lemma quiet_sends d log log' log'' : sends [] log log' -> sends d log' log'' -> sends d log log''.
Proof. intros H1 H2. change d with ([] ++ d). by eapply sends_trans. Qed.

Lemma sends_from_nil d log : sends d [] log -> log_fine log /\ log_payload log = d.
Proof. intros [H1 H2]. split; [|done]. by apply H2, Forall_nil. Qed.

Create HintDb sends.
#[export] Hint Resolve sends_nil sends_quiet quiet_sends : sends.

Lemma sends_frame e r log :
  match frame_of e with
  | Some f => fine_frame f -> sends (drop 2 f) log (log ++ [logged_entry e r])
  | None => sends [] log (log ++ [logged_entry e r])
  end.
Proof.
  destruct (frame_of e) as [f|] eqn:E; unfold sends, log_fine; rewrite log_payload_snoc, log_frames_snoc, E.
  - intros Hf. split; [done|]. intros Hl. apply Forall_app. split; [done|]. by constructor.
  - unfold option_list. by rewrite !app_nil_r.
Qed.

(** ** Programs and their logs

    An environment whose answers obey [V]; its state is the log. *)
Definition log_env (V : forall e : sev, sans e -> Prop) : env sans :=
  mkEnv (list entry) (fun _ _ => True)
    (fun log e r log' => V e r /\ log' = log ++ [logged_entry e r]).

Section Logs.
Context (total : bool) (V : forall e : sev, sans e -> Prop).

Definition LW {A} (p : SP A) (log : list entry) (Q : A -> list entry -> Prop) : Prop :=
  wp total (log_env V) p log Q.

Lemma LW_bind {A C} (p : SP A) (k : A -> SP C) log Q :
  LW p log (fun a log' => LW (k a) log' Q) -> LW (p ≫= k) log Q.
Proof. apply wp_bind. Qed.
Lemma LW_mono {A} (p : SP A) log (Q Q' : A -> list entry -> Prop) :
  LW p log Q -> (forall a log', Q a log' -> Q' a log') -> LW p log Q'.
Proof. apply wp_mono. Qed.
Lemma LW_trigger e log (Q : sans e -> list entry -> Prop) :
  (forall r, V e r -> Q r (log ++ [logged_entry e r])) -> LW (trigger e) log Q.
Proof. intros HQ. apply (wp_trigger total (log_env V)); [done|]. intros r log' [? ->]. auto. Qed.
Lemma LW_ret {A} (a : A) log (Q : A -> list entry -> Prop) : Q a log -> LW (mret a) log Q.
Proof. done. Qed.

(** What was shown of the log holds of runs. *)
Lemma LW_run {S A} (os : forall e : sev, S -> sans e * S) (p : SP A) st (Q : A -> list entry -> Prop) :
  (forall e st, V e (os e st).1) -> LW p [] Q ->
  match run (logged os) p (st, []) with
  | (Done a, (_, log)) => Q a log
  | (Panicked, _) => False
  | (OutOfFuel, _) => total = false
  end.
Proof.
  intros Hos Hp.
  assert (match run (logged os) p (st, []) with
          | (Done a, s') => exists log, log = s'.2 /\ Q a log
          | (Panicked, _) => False
          | (OutOfFuel, _) => total = false
          end) as H.
  { apply (wp_run total (log_env V) (logged os) (fun st log => log = st.2) p (st, []) [] Q); [|done..].
    intros e [s0 l] log0 -> _. unfold logged. simpl.
    pose proof (Hos e s0). destruct (os e s0) as [r s1]. by eexists. }
  destruct (run (logged os) p (st, [])) as [[a| |] [st' log]]; [|done..]. by destruct H as (? & -> & ?).
Qed.

(** A total program ends. *)
Lemma LW_run_total {S A} (os : forall e : sev, S -> sans e * S) (p : SP A) st (Q : A -> list entry -> Prop) :
  total = true -> (forall e st, V e (os e st).1) -> LW p [] Q ->
  exists a st' log, run (logged os) p (st, []) = (Done a, (st', log)) /\ Q a log.
Proof.
  intros Ht Hos Hp. pose proof (LW_run os p st Q Hos Hp) as H.
  destruct (run (logged os) p (st, [])) as [[a| |] [st' log]]; [eauto|done|congruence].
Qed.

Definition quiet (e : sev) : Prop := frame_of e = None.

(** A request that sends nothing leaves the payload as it is. *)
Lemma LW_quiet e log (Q : sans e -> list entry -> Prop) :
  quiet e ->
  (forall r log', V e r -> sends [] log log' -> Q r log') -> LW (trigger e) log Q.
Proof.
  intros He HQ. apply LW_trigger. intros r Hr. apply HQ; [done|].
  pose proof (sends_frame e r log) as H. by rewrite He in H.
Qed.

Lemma LW_send h1 h2 d log (Q : unit -> list entry -> Prop) :
  fine_frame (h1 :: h2 :: d) ->
  (forall log', sends d log log' -> Q tt log') -> LW (s_write (h1 :: h2 :: d)) log Q.
Proof. intros Hd HQ. apply LW_trigger. intros [] _. apply HQ. by apply (sends_frame (Send (h1 :: h2 :: d))). Qed.

Lemma LW_rsp_empty mark log (Q : unit -> list entry -> Prop) :
  (forall log', sends [] log log' -> Q tt log') ->
  LW (trigger (SendRsp mark ErrorOK ([], None))) log Q.
Proof.
  intros HQ. apply LW_trigger. intros [] _. apply HQ.
  apply (sends_frame (SendRsp mark ErrorOK ([], None))). by left.
Qed.
End Logs.

(** ** Reading a file *)

Section ReadAt.
Context {abi : UnixABI} (mark fd sfd : Z) (file : bytes).

(** The table maps [fd] to [sfd], a file with contents [file]: a read returns
    all of what is asked for up to the end of the file. *)
Definition serves_file (e : sev) : sans e -> Prop :=
  match e return sans e -> Prop with
  | FdsLoad fd' => fun r => fd' = fd -> r = Some sfd
  | SysPread sfd' n off => fun r =>
      sfd' = sfd -> 0 <= n -> 0 <= off -> r = Ok (take (Z.to_nat n) (drop (Z.to_nat off) file))
  | _ => fun _ => True
  end.

Definition file_ok (e : sev) (r : sans e) : Prop := sys_ok e r /\ serves_file e r.

Definition part (off n : Z) : bytes := take (Z.to_nat n) (drop (Z.to_nat off) file).

Lemma LW_readAt off size partial log (Q : Z * bool -> list entry -> Prop) :
  0 <= size <= maxReadPayLoad -> 0 <= off < 2 ^ 63 ->
  (forall log', sends (part off size) log log' ->
     Q (len (part off size), true) log') ->
  LW true file_ok (readAtAndSend mark sfd off size partial) log Q.
Proof.
  intros Hsz Ho HQ. unfold maxReadPayLoad, MaxMsgSize in Hsz. unfold readAtAndSend, read_and_send.
  apply LW_bind, LW_quiet; [done|]. intros b log1 [(Hb & Hw & Hl) _] Hp1. unfold MaxMsgSize in Hl.
  destruct (Buffer_Write_contents (le_bytes 1 mark ++ le_bytes 1 ErrorOK) b Hb) as (H1 & H2 & H3 & H4).
  { unfold buf_room. rewrite Hw, Hl. done. }
  set (b1 := (Buffer_Write _ b).2) in *. rewrite Hl in H4.
  rewrite Hw in H3. change (len (le_bytes 1 mark ++ le_bytes 1 ErrorOK)) with 2 in H3.
  rewrite !i64_id by lia. assert ((size <? 0) || (len (Bytes b1) - Buffer_Written b1 <? size) = false) as ->.
  { unfold Buffer_Written. rewrite H3, H4. lia. }
  apply LW_bind, LW_quiet; [done|]. intros r log2 [_ Hr] Hp2. simpl in Hr.
  rewrite (Hr eq_refl) by lia. fold (part off size).
  assert (len (part off size) <= size) as Hpl by (unfold part, len; rewrite length_take; lia).
  destruct (Buffer_fill_contents (part off size) b1) as [Hf1 Hf2]; [done| |].
  { unfold buf_room. rewrite H3, H4. lia. }
  set (b2 := Buffer_Grow (len (part off size)) _) in *.
  assert (buf_contents b = []) as Hc0 by (unfold buf_contents; by rewrite Hw).
  rewrite H2, Hc0 in Hf2. cbn [app le_bytes] in Hf2.
  assert (forall b3 h1 h2, buf_contents b3 = h1 :: h2 :: part off size ->
    fine_frame (h1 :: h2 :: part off size) ->
    LW true file_ok (s_write (Buffer_Done b3).1 ;; trigger BufPut ;; mret (len (part off size), true)) log2 Q) as Hend.
  { intros b3 h1 h2 Hb3 Hd. rewrite Buffer_Done_contents, Hb3. apply LW_bind, LW_send; [done|]. intros log3 Hp3.
    apply LW_bind, LW_quiet; [done|]. intros [] log4 _ Hp4. apply LW_ret, HQ. eauto with sends. }
  destruct (partial && (len (part off size) =? size)).
  - destruct (Buffer_set_second (le_bytes 1 ErrorPartialResponse) b2 _ _ _ Hf1 eq_refl Hf2) as [_ Hs2].
    eapply Hend; [exact Hs2|by right].
  - eapply Hend; [exact Hf2|by left].
Qed.

Lemma part_app off n m : 0 <= off -> 0 <= n -> 0 <= m -> part off (n + m) = part off n ++ part (off + n) m.
Proof.
  intros. unfold part. rewrite !Z2Nat.inj_add by lia. rewrite <-(drop_drop), <-take_take_drop. done.
Qed.
Lemma part_short off n m : 0 <= off -> 0 <= n -> 0 <= m -> len (part off n) < n -> part off (n + m) = part off n.
Proof.
  unfold part, len. rewrite length_take, length_drop. intros. rewrite !take_ge; [done|..];
    rewrite length_drop; lia.
Qed.

Lemma LW_readAt_loop off n log (Q : bool * Z -> list entry -> Prop) :
  0 <= off -> off + Z.of_nat n * maxReadPayLoad < 2 ^ 63 ->
  (forall (returned : bool) off' k log', 0 <= k ->
     sends (part off k) log log' ->
     (if returned then forall m, Z.of_nat n * maxReadPayLoad <= m -> part off m = part off k
      else k = Z.of_nat n * maxReadPayLoad /\ off' = off + k) ->
     Q (returned, off') log') ->
  LW true file_ok (cmdReadAt_loop mark sfd off n) log Q.
Proof.
  unfold maxReadPayLoad, MaxMsgSize.
  revert off log Q. induction n as [|n IH]; intros off log Q Ho Hm HQ; cbn [cmdReadAt_loop].
  - apply LW_ret. apply (HQ false off 0); [lia|apply sends_nil|lia].
  - apply LW_bind, LW_readAt; [unfold maxReadPayLoad, MaxMsgSize; lia|lia|]. intros log' Hp. cbn [negb].
    assert (len (part off maxReadPayLoad) <= maxReadPayLoad) as Hl.
    { unfold part, len. rewrite length_take. unfold maxReadPayLoad, MaxMsgSize. lia. }
    destruct (Z.ltb_spec (len (part off maxReadPayLoad)) maxReadPayLoad) as [Hs|Hs];
      unfold maxReadPayLoad, MaxMsgSize in *.
    + apply LW_ret, (HQ true off (8192 - 2)); [lia|done|]. intros m Hm2.
      replace m with ((8192 - 2) + (m - (8192 - 2))) by lia. apply part_short; lia.
    + replace (len (part off (8192 - 2))) with 8190 by lia. rewrite u64_id by lia.
      apply IH; [lia|lia|]. intros returned off' k log2 Hk Hp2 Hr.
      apply (HQ returned off' (8190 + k)); [lia| |].
      * rewrite part_app by lia. by eapply sends_trans.
      * destruct returned; [|lia]. intros m Hm2. replace m with (8190 + (m - 8190)) by lia.
        rewrite !part_app by lia. f_equal. apply Hr. lia.
Qed.

Lemma LW_cmdReadAt req log (Q : unit -> list entry -> Prop) :
  CmdReadAt_FD req = fd -> 0 <= CmdReadAt_Offset req -> 0 <= CmdReadAt_Size req ->
  CmdReadAt_Offset req + CmdReadAt_Size req < 2 ^ 63 ->
  (forall log', sends (part (CmdReadAt_Offset req) (CmdReadAt_Size req)) log log' ->
     Q tt log') ->
  LW true file_ok (cmdReadAt mark req) log Q.
Proof.
  intros Hfd Ho Hs Hm HQ. unfold cmdReadAt, with_fd. apply LW_bind, LW_quiet; [done|].
  intros r log1 [_ Hr] Hp1. simpl in Hr. rewrite (Hr Hfd). cbv zeta.
  set (off := CmdReadAt_Offset req) in *. set (size := CmdReadAt_Size req) in *.
  pose proof maxReadPayLoad_val as Hmax.
  destruct (Z.ltb_spec size maxReadPayLoad).
  - apply LW_bind, LW_readAt; [lia|lia|]. intros log2 Hp2. apply LW_ret, HQ. eauto with sends.
  - pose proof (Z.div_mod size maxReadPayLoad ltac:(lia)) as Hdm.
    pose proof (Z.mod_pos_bound size maxReadPayLoad ltac:(lia)) as Hmod.
    assert (Hn : Z.of_nat (Z.to_nat (size / maxReadPayLoad)) = size / maxReadPayLoad).
    { apply Z2Nat.id, Z.div_pos; lia. }
    apply LW_bind, LW_readAt_loop; [done|lia|]. rewrite Hn.
    intros returned off' k log2 Hk Hp2 Hr2. cbv beta iota.
    destruct returned.
    + apply LW_ret, HQ. rewrite (Hr2 size) by lia. eauto with sends.
    + destruct Hr2 as [-> ->]. destruct (Z.eqb_spec (size mod maxReadPayLoad) 0) as [E|E].
      * apply LW_rsp_empty. intros log3 Hp3. apply HQ.
        replace size with (size / maxReadPayLoad * maxReadPayLoad) by lia. eauto with sends.
      * apply LW_bind, LW_readAt; [lia|lia|]. intros log3 Hp3. apply LW_ret, HQ.
        replace size with (size / maxReadPayLoad * maxReadPayLoad + size mod maxReadPayLoad) at 1 by lia.
        rewrite part_app by lia. eapply sends_trans; eauto with sends.
Qed.
End ReadAt.

(** ** Extended attributes *)

Section XAttr.
Context {abi : UnixABI} (s : session) (mark : Z) (V : forall e : sev, sans e -> Prop).
Hypothesis HV : forall e r, V e r -> sys_ok e r.

Lemma LW_writeXAttrData_loop n data b log (Q : bytes * Buffer -> list entry -> Prop) :
  (length data <= n)%nat -> buf_ok b -> written b = 0 -> len (Bytes b) = MaxMsgSize ->
  (forall sent d b log', data = sent ++ d -> len d <= maxXAttrResponsePayload ->
     buf_ok b -> written b = 0 -> len (Bytes b) = MaxMsgSize ->
     sends sent log log' -> Q (d, b) log') ->
  LW true V (writeXAttrData_loop n mark data b) log Q.
Proof.
  revert data b log Q. induction n as [|n IH]; intros data b log Q Hn Hb Hw Hl HQ; cbn [writeXAttrData_loop].
  { destruct data; [|simpl in Hn; lia]. apply LW_ret. by eapply (HQ []); eauto using sends_nil. }
  destruct (Z.gtb_spec (len data) maxXAttrResponsePayload) as [Hgt|Hle].
  2:{ apply LW_ret. by eapply (HQ []); eauto using sends_nil. }
  set (chunk := take (Z.to_nat maxXAttrResponsePayload) data).
  assert (len chunk = maxXAttrResponsePayload) as Hc.
  { unfold chunk, len in *. rewrite length_take. unfold maxXAttrResponsePayload, MaxResponseLength, MaxMsgSize in *. lia. }
  destruct (buf_frame (le_bytes 1 mark ++ le_bytes 1 ErrorPartialResponse) chunk b Hb Hw) as (H1 & H2 & H3).
  { rewrite Hc, Hl. done. }
  set (b2 := (Buffer_Write chunk _).2) in *. unfold Buffer_Done at 1. apply LW_bind.
  fold (buf_contents b2). rewrite H2. apply LW_send; [by right|]. intros log1 Hp1. apply IH.
  - rewrite length_drop. unfold len, maxXAttrResponsePayload, MaxResponseLength, MaxMsgSize in *. lia.
  - split; simpl; [lia|]. apply len_nonneg.
  - done.
  - cbn [Bytes]. congruence.
  - intros sent d b' log2 Hd. intros. eapply (HQ (chunk ++ sent)); try done.
    + rewrite <-app_assoc, <-Hd. symmetry. apply take_drop.
    + by eapply sends_trans.
Qed.

Lemma LW_writeXAttrData data log (Q : unit -> list entry -> Prop) :
  (forall log', sends data log log' -> Q tt log') ->
  LW true V (writeXAttrData mark data) log Q.
Proof.
  intros HQ. unfold writeXAttrData. destruct (Z.eqb_spec (len data) 0) as [E|E].
  { apply LW_rsp_empty. intros log1 Hp. apply HQ. assert (data = []) as ->; [|done].
    apply nil_length_inv. unfold len in E. lia. }
  apply LW_bind, LW_quiet; [done|]. intros b log1 Hb Hp1. apply HV in Hb as (Hb & Hw & Hl).
  apply LW_bind, LW_writeXAttrData_loop; [done..|].
  intros sent d b' log2 Hd Hdl Hb' Hw' Hl' Hp2.
  destruct (buf_frame (le_bytes 1 mark ++ le_bytes 1 ErrorOK) d b' Hb' Hw') as (H1 & H2 & H3).
  { change (len (le_bytes 1 mark ++ le_bytes 1 ErrorOK)) with 2. rewrite Hl'.
    unfold maxXAttrResponsePayload, MaxResponseLength in Hdl. lia. }
  apply LW_bind. rewrite Buffer_Done_contents, H2. apply LW_send; [by left|]. intros log3 Hp3.
  apply LW_quiet; [done|]. intros [] log4 _ Hp4. apply HQ. rewrite Hd.
  eapply sends_trans; eauto with sends.
Qed.

(** getxattr(2) and listxattr(2) on an attribute (a list of names) [data] with
    a buffer of [n] bytes. *)
Definition xattr_answer (data : bytes) (n : Z) : result errno (Z * bytes) :=
  if n =? 0 then Ok (len data, [])
  else if n <? len data then Err ERANGE
  else Ok (len data, data).

(** The buffer grows until the data fits. *)
Lemma LW_xattr_grow data get log (Q : result errno bytes -> list entry -> Prop) :
  (forall n log (Q : result errno (Z * bytes) -> list entry -> Prop),
     (forall log', sends [] log log' -> Q (xattr_answer data n) log') ->
     LW true V (get n) log Q) ->
  (forall log', sends [] log log' -> Q (Ok data) log') ->
  LW true V (xattr_grow bufGrowTry get bufInitSize) log Q.
Proof.
  intros Hget HQ. pose proof (len_nonneg data). unfold bufGrowTry. cbn [xattr_grow].
  assert (forall n, n <> 0 -> len data <= n -> xattr_answer data n = Ok (len data, data)) as Hfit.
  { intros n Hn Hl. unfold xattr_answer. destruct (Z.eqb_spec n 0); [done|].
    destruct (Z.ltb_spec n (len data)); [lia|done]. }
  assert (take (Z.to_nat (len data)) data = data) as Htake.
  { unfold len. rewrite Nat2Z.id. by rewrite take_ge. }
  apply LW_bind, Hget. intros log1 Hp1. destruct (Z.ltb_spec bufInitSize (len data)) as [Hbig|Hfits].
  - assert (xattr_answer data bufInitSize = Err ERANGE) as ->.
    { unfold xattr_answer. destruct (Z.ltb_spec bufInitSize (len data)); [done|lia]. }
    cbn [negb]. change (ERANGE =? ERANGE) with true. cbn [negb].
    apply LW_bind, Hget. intros log2 Hp2. change (xattr_answer data 0) with (Ok (A := Z * bytes) (E := errno) (len data, [])).
    unfold bufInitSize in Hbig. cbv beta iota.
    destruct (Z.ltb_spec (len data) 0); [lia|]. destruct (Z.eqb_spec (len data) 0); [lia|].
    apply LW_bind, Hget. intros log3 Hp3. rewrite Hfit, Htake by lia. apply LW_ret, HQ. eauto with sends.
  - rewrite Hfit, Htake by (done || unfold bufInitSize in *; lia). by apply LW_ret, HQ.
Qed.
End XAttr.

Section XAttrHandlers.
Context {abi : UnixABI} (s : session) (mark : Z) (path key : gostring) (value : bytes) (names : list gostring).

(** The file at [path] has the attribute [key] with [value], and the attributes
    [names]. *)
Definition serves_xattr (e : sev) : sans e -> Prop :=
  match e return sans e -> Prop with
  | SysGetxattr _ p k n => fun r => p = path -> k = key -> r = xattr_answer value n
  | SysListxattr _ p n => fun r => p = path -> r = xattr_answer (names_data names) n
  | _ => fun _ => True
  end.

Definition xattr_ok (e : sev) (r : sans e) : Prop := sys_ok e r /\ serves_xattr e r.

Lemma LW_cmdGetXAttr req log (Q : unit -> list entry -> Prop) :
  IsUrlValid (CmdGetXAttr_Path req) = true -> path = storage_Path s ++ CmdGetXAttr_Path req ->
  key = CmdGetXAttr_Key req -> good_name key -> isXAttrKeyAllowed s key = true ->
  bad_mode (CmdGetXAttr_Mode req) = false ->
  (forall log', sends value log log' -> Q tt log') ->
  LW true xattr_ok (cmdGetXAttr s mark req) log Q.
Proof.
  intros Hv Hp Hk [Hk0 Hk1] Ha Hm HQ. unfold cmdGetXAttr, with_path. rewrite Hv. cbn [negb].
  unfold with_key. rewrite <-Hk, <-Hp, bool_decide_false, Ha by done.
  assert (IndexByte key x00 = None) as ->.
  { destruct (IndexByte key x00) as [n|] eqn:E; [|done]. destruct Hk1.
    destruct (IndexByte_Some _ _ _ E) as (rest & -> & _). set_solver. }
  cbn [negb orb]. rewrite bool_decide_false by naive_solver. unfold xattr_Get. rewrite Hm.
  apply LW_bind, (LW_xattr_grow _ value).
  - intros n log1 Q1 HQ1. apply LW_quiet; [done|]. intros r log2 [_ Hr] Hp2. simpl in Hr.
    rewrite (Hr eq_refl eq_refl). by apply HQ1.
  - intros log1 Hp1. apply LW_writeXAttrData; [by intros e r []|]. intros log2 Hp2. apply HQ. eauto with sends.
Qed.

Lemma LW_cmdListXAttr req log (Q : unit -> list entry -> Prop) :
  IsUrlValid (CmdListXAttr_Path req) = true -> path = storage_Path s ++ CmdListXAttr_Path req ->
  Forall good_name names -> bad_mode (CmdListXAttr_Mode req) = false ->
  (forall log', sends (names_data (allowed (AllowedXAttrPrefix (featureOpts s)) names)) log log' -> Q tt log') ->
  LW true xattr_ok (cmdListXAttr s mark req) log Q.
Proof.
  intros Hv Hp Hn Hm HQ. unfold cmdListXAttr, with_path. rewrite Hv. cbn [negb].
  rewrite <-Hp. unfold xattr_List. rewrite Hm. apply LW_bind, (LW_xattr_grow _ (names_data names)).
  - intros n log1 Q1 HQ1. apply LW_quiet; [done|]. intros r log2 [_ Hr] Hp2. simpl in Hr.
    rewrite (Hr eq_refl). by apply HQ1.
  - intros log1 Hp1. unfold filterXAttrList. rewrite filterXAttrList_names by done.
    apply LW_writeXAttrData; [by intros e r []|]. intros log2 Hp2. apply HQ. eauto with sends.
Qed.
End XAttrHandlers.

(** ** Directories *)

(** The entries the operating system returned. *)
Definition entries_of (x : entry) : list direntry :=
  let '(existT e r) := x in
  match e return sans e -> list direntry with
  | OsReadDir _ _ => fun r => r.1
  | _ => fun _ => []
  end r.
Definition log_entries (log : list entry) : list direntry := concat (map entries_of log).

Definition dirents_wire (ds : list Dirent) : bytes := concat (map (fun d => wire (fields_Dirent d)) ds).

Section ReadDirData.
Context {abi : UnixABI} (fuel : nat) (s : session) (mark : Z).

(** Directories can be read without errors. *)
Definition reads_dirs (e : sev) : sans e -> Prop :=
  match e return sans e -> Prop with
  | OsOpen _ => fun r => exists f, r = Ok f
  | OsReadDir _ _ => fun r => forall err, r.2 <> Some (DirErr err)
  | _ => fun _ => True
  end.
Definition dir_ok (e : sev) (r : sans e) : Prop := sys_ok e r /\ reads_dirs e r.

Abbreviation LW := (LW false dir_ok).
Abbreviation view log := (log_frames log, log_entries log).

Lemma log_entries_snoc log e r : log_entries (log ++ [logged_entry e r]) = log_entries log ++ entries_of (logged_entry e r).
Proof. unfold log_entries. rewrite map_app, concat_app. simpl. by rewrite app_nil_r. Qed.

Lemma LW_look e log (Q : sans e -> list entry -> Prop) :
  frame_of e = None -> (forall r, entries_of (logged_entry e r) = []) ->
  (forall r log', dir_ok e r -> view log' = view log -> Q r log') -> LW (trigger e) log Q.
Proof.
  intros He Hn HQ. apply LW_trigger. intros r Hr. apply HQ; [done|].
  rewrite log_frames_snoc, log_entries_snoc, He, Hn. by rewrite !app_nil_r.
Qed.

Lemma LW_frame d log (Q : unit -> list entry -> Prop) :
  (forall log', log_frames log' = log_frames log ++ [d] -> log_entries log' = log_entries log -> Q tt log') ->
  LW (s_write d) log Q.
Proof.
  intros HQ. apply LW_trigger. intros [] _. apply HQ; [by rewrite log_frames_snoc|].
  rewrite log_entries_snoc. by rewrite app_nil_r.
Qed.

Lemma LW_timeval_Stat p follow log (Q : result errno (fileinfo * Timespec) -> list entry -> Prop) :
  (forall r log', stat_ok r -> view log' = view log -> Q r log') -> LW (timeval_Stat p follow) log Q.
Proof.
  intros HQ. unfold timeval_Stat, StatFallback. apply LW_bind.
  destruct follow; (apply LW_look; [done..|]); intros r log1 [Hok _] Hv; apply LW_ret, HQ; try done;
    destruct r; try done; by destruct Hok.
Qed.

Lemma LW_restricting base fi log (Q : result errno (fileinfo * Timespec) -> list entry -> Prop) :
  stat_ok (Ok (fi, fi_ModTime fi)) -> (forall r log', stat_ok r -> view log' = view log -> Q r log') ->
  LW (restrictingSymlinkByFileInfo s base fi) log Q.
Proof.
  intros Hfi HQ. unfold restrictingSymlinkByFileInfo. apply LW_bind, LW_look; [done..|].
  intros r log1 [Hok _] Hv1. destruct r as [[|c target]|e]; [done| |by apply LW_ret, HQ].
  cbv zeta. case_match; [by apply LW_ret, HQ|].
  apply LW_timeval_Stat. intros r log2 Hr Hv2. apply HQ; [done|congruence].
Qed.

Lemma LW_lookupDirent base e log (Q : result errno Dirent -> list entry -> Prop) :
  entry_ok e ->
  (forall r log', match r with Ok d => dirent_ok d /\ Dirent_Name d = de_Name e | Err _ => True end ->
     view log' = view log -> Q r log') ->
  LW (lookupDirent s base e) log Q.
Proof.
  intros [Hn Hl] HQ. unfold lookupDirent. apply LW_bind, LW_timeval_Stat. intros r log1 Hr Hv1.
  destruct r as [[fi mtime]|err]; [|by apply LW_ret, HQ].
  assert (forall r log', stat_ok r -> view log' = view log ->
    LW (mret match r with
             | Err e => Err e
             | Ok (fi, mtime) =>
                 Ok (mkDirent (de_Name e) (u64 (fi_Size fi)) mtime (u32 (fi_Mode fi)) (convOwner s fi))
             end) log' Q) as Hend.
  { intros r log' Hr' Hv. apply LW_ret, HQ; [|done]. destruct r as [[fi' mt]|]; [|done].
    destruct Hr' as [Hmt _]. split; [|done]. split; [|done]. unfold fields_Dirent.
    codec_wf_goal ltac:(first [exact Hmt | cbn [Dirent_Name]; lia | apply convOwner_u8
                              | by apply wrapu_range | done]). }
  apply LW_bind. destruct (has_flag (fi_Mode fi) ModeSymlink).
  - destruct Hr as [Hr ->]. apply LW_restricting; [done|]. intros r' log2 Hr' Hv2. apply Hend; [done|congruence].
  - by apply LW_ret, (Hend (Ok (fi, mtime))).
Qed.

(** The frames sent hold [gs], the buffer [g], and together they name the
    entries read except [rest], which are still to be sent. *)
Definition dir_inv (log : list entry) (b : Buffer) (rest : list direntry) : Prop :=
  open_frame mark b /\ log_fine log /\
  exists gs g, map (drop 2) (log_frames log) = map dirents_wire gs /\
    drop 2 (buf_contents b) = dirents_wire g /\ Forall dirent_ok (concat gs ++ g) /\
    map Dirent_Name (concat gs ++ g) ++ map de_Name rest = map de_Name (log_entries log).

Lemma dir_inv_view log log' b rest : view log' = view log -> dir_inv log b rest -> dir_inv log' b rest.
Proof. unfold dir_inv, log_fine. intros [= -> ->]. done. Qed.

Lemma open_frame_payload b : open_frame mark b -> buf_contents b = rsp_header mark ErrorPartialResponse ++ drop 2 (buf_contents b).
Proof. intros (_ & _ & payload & ->). done. Qed.

Lemma open_frame_data b : open_frame mark b -> fine_frame (buf_contents b).
Proof. intros Hf. rewrite (open_frame_payload b Hf). by right. Qed.

Lemma log_fine_frame log log' f :
  log_frames log' = log_frames log ++ [f] -> log_fine log -> fine_frame f -> log_fine log'.
Proof. unfold log_fine. intros -> Hl Hf. apply Forall_app. split; [done|]. by constructor. Qed.

Lemma LW_make_room b n log rest (Q : Buffer -> list entry -> Prop) :
  dir_inv log b rest -> 0 <= n <= MaxMsgSize - 2 ->
  (forall b' log', dir_inv log' b' rest -> written b' + n <= MaxMsgSize -> Q b' log') ->
  LW (make_room b mark n) log Q.
Proof.
  intros Hi Hn HQ. unfold make_room, Buffer_Written.
  destruct (Z.gtb_spec (written b + n) MaxMsgSize); [|by apply LW_ret, HQ].
  destruct Hi as (Hf & Hfine & gs & g & Hgs & Hg & Hds & Hnames).
  destruct (open_frame_reset mark b Hf) as [H1 H2].
  change (Buffer_Done b) with (buf_contents b, (Buffer_Done b).2).
  apply LW_bind, LW_frame. intros log1 Hl1 Hl2. apply LW_ret, HQ; [|lia].
  split; [done|]. split; [by eapply log_fine_frame; [..|apply open_frame_data]|].
  exists (gs ++ [g]), []. rewrite Hl1, Hl2, !map_app, Hgs. cbn [map]. rewrite Hg.
  split_and!; [done| |by rewrite app_nil_r, concat_app; simpl; rewrite app_nil_r|].
  - destruct H1 as (Hb & _ & payload & Hc). pose proof (buf_contents_length _ Hb) as Hlen.
    rewrite H2, Hc, len_app in Hlen. change (len (rsp_header mark ErrorPartialResponse)) with 2 in Hlen.
    rewrite Hc. assert (payload = []) as -> by (apply nil_length_inv; unfold len in Hlen; lia). done.
  - by rewrite app_nil_r, concat_app, map_app in *; simpl; rewrite app_nil_r.
Qed.

Lemma buf_write_dirent_contents d b :
  open_frame mark b -> dirent_ok d -> written b + GetDirentRequiredSize d <= MaxMsgSize ->
  buf_contents (buf_write_dirent d b) = buf_contents b ++ wire (fields_Dirent d).
Proof.
  intros (Hb & Hl & _) Hd Hsz. rewrite buf_write_dirent_eq by done.
  destruct (GetDirent_size d Hd) as [E _].
  destruct (Buffer_Write_contents (wire (fields_Dirent d)) b Hb) as (_ & Hc & _); [unfold buf_room; lia|].
  unfold Buffer_writer. by destruct (Buffer_Write _ b) as [[n e] b'].
Qed.

Lemma dir_inv_dirent log b d e rest :
  dir_inv log b (e :: rest) -> dirent_ok d -> Dirent_Name d = de_Name e ->
  written b + GetDirentRequiredSize d <= MaxMsgSize -> dir_inv log (buf_write_dirent d b) rest.
Proof.
  intros (Hf & Hfine & gs & g & Hgs & Hg & Hds & Hnames) Hd Hn Hsz.
  split; [by apply open_frame_dirent|]. split; [done|].
  exists gs, (g ++ [d]). rewrite buf_write_dirent_contents by done. split_and!; [done| | |].
  - assert (2 <= length (buf_contents b))%nat by (rewrite (open_frame_payload _ Hf); simpl; lia).
    rewrite drop_app_le, Hg by done. unfold dirents_wire. rewrite map_app, concat_app. simpl. by rewrite app_nil_r.
  - rewrite app_assoc. apply Forall_app. split; [done|]. by constructor.
  - rewrite <-Hnames. rewrite !map_app. simpl. rewrite Hn, <-!app_assoc. done.
Qed.

Lemma LW_readdir_entries base es log b (Q : Buffer -> list entry -> Prop) :
  Forall entry_ok es -> dir_inv log b es -> (forall b' log', dir_inv log' b' [] -> Q b' log') ->
  LW (readdir_entries s mark base es b) log Q.
Proof.
  intros Hes. revert b log. induction Hes as [|e es He _ IH]; intros b log Hi HQ; cbn [readdir_entries];
    [by apply LW_ret, HQ|].
  apply LW_bind, LW_lookupDirent; [done|]. intros r log1 Hr Hv1.
  set (d := match r with Ok d => d | Err _ => irregular_dirent (de_Name e) end).
  assert (dirent_ok d /\ Dirent_Name d = de_Name e) as [Hdo Hdn]
    by (unfold d; destruct r; [done|split; [by apply irregular_ok|done]]).
  destruct (GetDirent_size d Hdo) as [E Hs]. pose proof (len_nonneg (wire (fields_Dirent d))).
  apply LW_bind, (LW_make_room _ _ _ (e :: es)); [by eapply dir_inv_view|unfold MaxMsgSize; lia|].
  intros b' log2 Hi' Hr'. apply IH; [by eapply dir_inv_dirent|done].
Qed.

(** What is sent, and the entries read so far. *)
Definition listing (log : list entry) : Prop :=
  log_fine log /\
  exists gs, map (drop 2) (log_frames log) = map dirents_wire gs /\
    Forall dirent_ok (concat gs) /\ map Dirent_Name (concat gs) = map de_Name (log_entries log).

Lemma LW_finish b log (Q : unit -> list entry -> Prop) :
  dir_inv log b [] -> (forall log', listing log' -> Q tt log') ->
  LW (s_write (Buffer_Done (buf_set_code ErrorOK b)).1) log Q.
Proof.
  intros (Hf & Hfine & gs & g & Hgs & Hg & Hds & Hnames) HQ. apply LW_frame. intros log1 Hl1 Hl2. apply HQ.
  rewrite Buffer_Done_contents in Hl1.
  pose proof (open_frame_payload _ Hf) as Hc. destruct Hf as (Hb & _).
  unfold rsp_header in Hc. cbn [le_bytes app] in Hc.
  destruct (Buffer_set_second (le_bytes 1 ErrorOK) b _ _ _ Hb eq_refl Hc) as [_ Hc2].
  fold (buf_set_code ErrorOK b) in Hc2. rewrite Hc2 in Hl1.
  split; [by eapply log_fine_frame; [done..|left]|].
  exists (gs ++ [g]). rewrite Hl1, Hl2, !map_app, Hgs. cbn [map]. simpl. rewrite Hg.
  split; [done|]. simpl in Hnames. rewrite app_nil_r in Hnames. rewrite concat_app. simpl. by rewrite app_nil_r.
Qed.

Lemma LW_readdir_step base f b log :
  dir_inv log b [] ->
  LW (readdir_step s mark f base b) log (fun r log' =>
    match r with inl b' => dir_inv log' b' [] | inr _ => listing log' end).
Proof.
  intros Hi. apply LW_bind, LW_trigger. intros [es err] [[Hes _] Hd]. cbn [fst snd] in *.
  set (log1 := log ++ _).
  assert (dir_inv log1 b es) as Hi1.
  { destruct Hi as (Hf & Hfine & gs & g & Hgs & Hg & Hds & Hnames). split; [done|].
    unfold log_fine, log1 in *. split; [by rewrite log_frames_snoc, app_nil_r|]. exists gs, g.
    rewrite log_frames_snoc, log_entries_snoc. simpl. rewrite app_nil_r, (map_app de_Name), <-Hnames. simpl.
    by rewrite app_nil_r. }
  assert (forall x : bool, LW
    (rsp ← readdir_entries s mark base es b;
     if (len es =? 0) || x
     then s_write (Buffer_Done (buf_set_code ErrorOK rsp)).1 ;; mret (inr tt)
     else mret (inl rsp)) log1
    (fun r log' => match r with inl b' => dir_inv log' b' [] | inr _ => listing log' end)) as Hrest.
  { intros x. apply LW_bind, LW_readdir_entries; [done..|]. intros b' log2 Hi2. case_match; [|by apply LW_ret].
    apply LW_bind, LW_finish; [done|]. intros log3 Hl3. by apply LW_ret. }
  destruct err as [[|e]|]; [apply (Hrest true)|by destruct (Hd e)|apply (Hrest false)].
Qed.

Lemma LW_cmdReadDir req : IsUrlValid (CmdReadDir_Path req) = true ->
  LW (cmdReadDir fuel s mark req) [] (fun _ log => listing log).
Proof.
  intros Hv. unfold cmdReadDir, with_path. rewrite Hv. cbn [negb]. cbv zeta.
  apply LW_bind, LW_look; [done..|]. intros r log1 [_ [f Hf]] Hv1. rewrite Hf.
  apply LW_bind, LW_look; [done..|]. intros b log2 [(Hb & Hw & Hl) _] Hv2.
  destruct (open_frame_new mark b Hb Hw Hl) as [Hof Hw2].
  apply LW_bind. apply (wp_loop false (log_env dir_ok) _ (fun b log => dir_inv log b []) (fun _ _ => 0%nat)); [| |done].
  - intros b' log' Hi. eapply wp_mono; [by apply LW_readdir_step|]. intros [b2|[]] log3 H3; [done|].
    apply LW_bind, LW_look; [done..|]. intros [] log4 _ Hv4.
    apply LW_bind, LW_look; [done..|]. intros r5 log5 _ Hv5. apply LW_ret.
    unfold listing, log_fine in *. assert (view log5 = view log3) as [= E1 E2] by congruence. by rewrite E1, E2.
  - split; [done|]. unfold log_fine. assert (view log2 = ([], [])) as [= -> ->] by (by rewrite Hv2, Hv1).
    split; [done|]. exists [], []. split_and!; [done| |done..]. pose proof (open_frame_payload _ Hof) as Hc.
    destruct Hof as (Hob & _). pose proof (buf_contents_length _ Hob) as Hlen. rewrite Hw2, Hc, len_app in Hlen.
    change (len (rsp_header mark ErrorPartialResponse)) with 2 in Hlen.
    apply nil_length_inv. unfold len in Hlen. lia.
Qed.
End ReadDirData.
