(* ===== verification/ServerRegistry.v ===== *)
(** * The registry of sessions (registry.go, handler.go, sessionId.go)

    Creation, resumption, hibernation and collection of sessions: requests of
    clients, connections and the collector are goroutines that share the registry
    and the locks of the sessions. Each is a program of requests to that shared
    state ([rgev]); [reg_act] is the effect of one request, with what the outside
    decides (the id generated, whether the upgrade succeeds, how a connection
    ends) given by the action. *)
From S2P Require Import Prelude GoIO Prog.

(** ** Requests to the registry and its sessions *)

(** [User] of storage/user.go: what the registry uses of it. *)
Record User := mkUser { user_Name : gostring; user_ReadOnly : bool }.

Inductive rgev : Type :=
(* sessions.LoadOrStore(id, nil), Store(id, newSession(..)), Load, Delete, the
   keys Range visits *)
| MapLoadOrStoreNil (id : gostring)
| MapStoreNew (id username : gostring)
| MapLoad (id : gostring)
| MapDelete (id : gostring)
| MapRange
(* a session: Username, Lock, inactiveCount, fds *)
| Username (s : nat)
| LockTryLock (s : nat)
| LockUnlock (s : nat)
| InactiveAdd (s : nat)
| InactiveReset (s : nat)
| RangeFds (s : nat)
| DeleteFd (s : nat) (fd : Z)
| CloseSFD (sfd : Z)
(* the outside *)
| IdSourceNew
| Accept (resumeId : gostring) (* h.upgrade *)
| WriteHeader (status : Z)
| TakeConn (s : nat) (* starts the read loop of the connection *)
| ConnEnds (s : nat) (* the connection has ended, its commands too *)
| SleepScan (* time.Sleep, then r.ctx.Err() != nil at the end of the scan *).

Definition rans (e : rgev) : Type :=
  match e with
  | MapLoadOrStoreNil _ => bool
  | MapLoad _ => option (option nat)
  | MapRange => list gostring
  | Username _ => gostring
  | LockTryLock _ => bool
  | InactiveAdd _ => Z
  | RangeFds _ => list (Z * Z)
  | IdSourceNew => option gostring
  | Accept _ => bool
  | ConnEnds _ => bool
  | SleepScan => bool
  | _ => unit
  end.

Abbreviation RP := (prog rans).
Abbreviation ask e := (trigger (ans := rans) e).

(** ** The registry *)

Definition sessionInactiveMaxCount : Z := 5.

Section Registry.
Context (fuel : nat).

Definition getSession (id : gostring) : RP (option nat) :=
  v ← ask (MapLoad id);
  mret (match v with Some (Some s) => Some s | _ => None end).

Definition newSession (username : gostring) : RP (option gostring) :=
  loop fuel (fun _ : unit =>
    r ← ask IdSourceNew;
    match r with
    | None => mret (inr None)
    | Some id =>
        loaded ← ask (MapLoadOrStoreNil id);
        if loaded : bool then mret (inl tt)
        else ask (MapStoreNew id username) ;; mret (inr (Some id))
    end) tt.

Fixpoint clearFDs_range (s : nat) (l : list (Z * Z)) : RP unit :=
  match l with
  | [] => mret tt
  | (fd, sfd) :: l' => ask (DeleteFd s fd) ;; ask (CloseSFD sfd) ;; clearFDs_range s l'
  end.

Definition clearFDs (s : nat) : RP unit :=
  l ← ask (RangeFds s);
  clearFDs_range s l.

Definition delSession (id : gostring) : RP unit :=
  session ← getSession id;
  match session with Some s => clearFDs s | None => mret tt end ;;
  ask (MapDelete id).

(** What a scan does with the entry under a key ([None]: gone meanwhile). *)
Definition scan_entry (id : gostring) (v : option (option nat)) : RP unit :=
  match v with
  | Some (Some s) =>
      locked ← ask (LockTryLock s);
      if locked : bool then
        inactiveCount ← ask (InactiveAdd s);
        if sessionInactiveMaxCount <=? inactiveCount then delSession id
        else ask (LockUnlock s)
      else mret tt
  | _ => mret tt
  end.

Fixpoint scan (existsSession : bool) (keys : list gostring) : RP bool :=
  match keys with
  | [] => mret existsSession
  | id :: keys' =>
      v ← ask (MapLoad id);
      scan_entry id v ;;
      scan (existsSession || (if v is Some _ then true else false)) keys'
  end.

Definition CollectInactiveSessions : RP unit :=
  loop fuel (fun _ : unit =>
    stopped ← ask SleepScan;
    keys ← ask MapRange;
    existsSession ← scan false keys;
    mret (if stopped && negb existsSession then inr tt else inl tt)) tt.

(** Handler.ServeHTTP; [resume] is the header X-Wsfs-Resume. *)
Definition ServeHTTP_session (user : User) (id : gostring) : RP unit :=
  session ← getSession id;
  match session with
  | None => ask (WriteHeader 400)
  | Some s =>
      username ← ask (Username s);
      if bool_decide (username = user_Name user) then
        locked ← ask (LockTryLock s);
        if locked : bool then
          accepted ← ask (Accept id);
          if accepted : bool then ask (TakeConn s)
          else ask (LockUnlock s) (* the deferred function *)
        else ask (WriteHeader 412)
      else ask (WriteHeader 400)
  end.

Definition Handler_ServeHTTP (user : User) (resume : gostring) : RP unit :=
  if bool_decide (resume = []) then
    r ← newSession (user_Name user);
    match r with
    | None => ask (WriteHeader 500)
    | Some id => ServeHTTP_session user id
    end
  else ServeHTTP_session user resume.

(** The goroutine of a connection as far as the registry is concerned: the end of
    stopConn, after the commands have ended. *)
Definition connection (s : nat) (id : gostring) : RP unit :=
  gracefulClose ← ask (ConnEnds s);
  if gracefulClose : bool then delSession id ;; ask (LockUnlock s)
  else ask (InactiveReset s) ;; ask (LockUnlock s).
End Registry.

(** ** Shared state *)

Record sessobj := mkSessobj {
  so_Id : gostring;
  so_Username : gostring;
  so_locked : bool;
  so_inactiveCount : Z;
  so_fds : gmap Z Z;
}.

(** A goroutine and the user it works for ([None]: the collector). *)
Record goroutine := mkGoroutine { gr_user : option gostring; gr_prog : RP unit }.

(** [rg_open] are the descriptors the sessions have open. *)
Record registry := mkRegistry {
  rg_sessions : gmap gostring (option nat);
  rg_objs : list sessobj;
  rg_open : gset Z;
  rg_threads : list goroutine;
}.

Definition set_objs (l : list sessobj) (r : registry) : registry :=
  mkRegistry (rg_sessions r) l (rg_open r) (rg_threads r).
Definition set_sessions (m : gmap gostring (option nat)) (r : registry) : registry :=
  mkRegistry m (rg_objs r) (rg_open r) (rg_threads r).
Definition set_open (o : gset Z) (r : registry) : registry :=
  mkRegistry (rg_sessions r) (rg_objs r) o (rg_threads r).
Definition set_threads (l : list goroutine) (r : registry) : registry :=
  mkRegistry (rg_sessions r) (rg_objs r) (rg_open r) l.

Definition so_set_locked (b : bool) (o : sessobj) : sessobj :=
  mkSessobj (so_Id o) (so_Username o) b (so_inactiveCount o) (so_fds o).
Definition so_set_inactive (n : Z) (o : sessobj) : sessobj :=
  mkSessobj (so_Id o) (so_Username o) (so_locked o) n (so_fds o).
Definition so_set_fds (m : gmap Z Z) (o : sessobj) : sessobj :=
  mkSessobj (so_Id o) (so_Username o) (so_locked o) (so_inactiveCount o) m.

(** What the outside decides about a request. *)
Record outside := mkOutside {
  out_id : option gostring; (* idSource.New *)
  out_yes : bool; (* the upgrade succeeds; the connection ends gracefully; the registry is stopped *)
  out_keys : list gostring; (* the order in which Range visits the keys *)
}.

(** The effect of a request: its answer, the new state, and the goroutine it
    starts. [None]: it cannot happen (the answer of the outside is none). *)
Definition reg_answer (o : outside) (e : rgev) (r : registry) : option (rans e * registry * list (RP unit)) :=
  match e return option (rans e * registry * list (RP unit)) with
  | MapLoadOrStoreNil id =>
      Some (match rg_sessions r !! id with
            | Some _ => (true, r, [])
            | None => (false, set_sessions (<[id := None]> (rg_sessions r)) r, [])
            end)
  | MapStoreNew id username =>
      let s := length (rg_objs r) in
      Some (tt, set_sessions (<[id := Some s]> (rg_sessions r))
                  (set_objs (rg_objs r ++ [mkSessobj id username false 0 ∅]) r), [])
  | MapLoad id => Some (rg_sessions r !! id, r, [])
  | MapDelete id => Some (tt, set_sessions (delete id (rg_sessions r)) r, [])
  | MapRange =>
      if bool_decide (out_keys o ≡ₚ elements (dom (rg_sessions r))) then Some (out_keys o, r, []) else None
  | Username s => Some (default [] (so_Username <$> rg_objs r !! s), r, [])
  | LockTryLock s =>
      Some (match rg_objs r !! s with
            | Some ob => if so_locked ob then (false, r, [])
                         else (true, set_objs (alter (so_set_locked true) s (rg_objs r)) r, [])
            | None => (false, r, [])
            end)
  | LockUnlock s => Some (tt, set_objs (alter (so_set_locked false) s (rg_objs r)) r, [])
  | InactiveAdd s =>
      let n := u32 (default 0 (so_inactiveCount <$> rg_objs r !! s) + 1) in
      Some (n, set_objs (alter (so_set_inactive n) s (rg_objs r)) r, [])
  | InactiveReset s => Some (tt, set_objs (alter (so_set_inactive 0) s (rg_objs r)) r, [])
  | RangeFds s => Some (default [] (map_to_list ∘ so_fds <$> rg_objs r !! s), r, [])
  | DeleteFd s fd =>
      Some (tt, set_objs (alter (fun ob => so_set_fds (delete fd (so_fds ob)) ob) s (rg_objs r)) r, [])
  | CloseSFD sfd => Some (tt, set_open (rg_open r ∖ {[sfd]}) r, [])
  | IdSourceNew => Some (out_id o, r, [])
  | Accept _ => Some (out_yes o, r, [])
  | WriteHeader _ => Some (tt, r, [])
  | TakeConn s => Some (tt, r, [connection s (default [] (so_Id <$> rg_objs r !! s))])
  | ConnEnds _ => Some (out_yes o, r, [])
  | SleepScan => Some (out_yes o, r, [])
  end.

(** ** Actions *)

(** Commands of a running connection open and close files of its session: a new
    descriptor enters the table under a free handle, a handle leaves the table and
    its descriptor is closed. *)
Inductive raction :=
| Arrive (user : User) (resume : gostring) (* a request reaches the handler *)
| Go (i : nat) (o : outside) (* a goroutine goes on *)
| OpenFile (i s : nat) (fd sfd : Z)
| CloseFile (i s : nat) (fd : Z).

Definition serves (r : registry) (i : nat) : option nat :=
  match gr_prog <$> rg_threads r !! i with Some (Vis (ConnEnds s) _) => Some s | _ => None end.

Section Act.
Context (fuel : nat).

Definition registry_init : registry :=
  mkRegistry ∅ [] ∅ [mkGoroutine None (CollectInactiveSessions fuel)].

Definition reg_act (a : raction) (r : registry) : option registry :=
  match a with
  | Arrive user resume =>
      Some (set_threads (rg_threads r ++ [mkGoroutine (Some (user_Name user)) (Handler_ServeHTTP fuel user resume)]) r)
  | Go i o =>
      match rg_threads r !! i with
      | Some (mkGoroutine u (Vis e k)) =>
          match reg_answer o e r with
          | Some (x, r', new) =>
              Some (set_threads (<[i := mkGoroutine u (k x)]> (rg_threads r') ++ map (mkGoroutine u) new) r')
          | None => None
          end
      | _ => None
      end
  | OpenFile i s fd sfd =>
      match rg_objs r !! s with
      | Some ob =>
          if bool_decide (serves r i = Some s /\ so_fds ob !! fd = None /\ sfd ∉ rg_open r) then
            Some (set_open ({[sfd]} ∪ rg_open r)
                    (set_objs (alter (so_set_fds (<[fd := sfd]> (so_fds ob))) s (rg_objs r)) r))
          else None
      | None => None
      end
  | CloseFile i s fd =>
      match rg_objs r !! s with
      | Some ob =>
          if bool_decide (serves r i = Some s) then
            match so_fds ob !! fd with
            | Some sfd =>
                Some (set_open (rg_open r ∖ {[sfd]})
                        (set_objs (alter (so_set_fds (delete fd (so_fds ob))) s (rg_objs r)) r))
            | None => None
            end
          else None
      | None => None
      end
  end.

(** Ids of sessions that were removed do not come back: sessionIdByteLength random
    bytes are not drawn twice. *)
Definition ids_fresh (r : registry) (a : raction) : Prop :=
  match a with
  | Go i _ =>
      forall u id k, rg_threads r !! i = Some (mkGoroutine u (Vis (MapLoadOrStoreNil id) k)) ->
      forall ob, ob ∈ rg_objs r -> so_Id ob = id -> is_Some (rg_sessions r !! id)
  | _ => True
  end.

Inductive registry_reachable : registry -> Prop :=
| rr_init : registry_reachable registry_init
| rr_act r a r' : registry_reachable r -> ids_fresh r a -> reg_act a r = Some r' -> registry_reachable r'.
End Act.
