(* ===== verification/ServerRegistryOk.v ===== *)
(** * The registry: who holds what

    A specification of the registry's goroutines (which locks each holds, which
    ids it knows and has claimed, whose session it has checked, which descriptors
    it is about to close), that every goroutine keeps to it, and the invariants of
    the registry they share. *)
From S2P Require Import Prelude GoIO Prog ServerRegistry.

(** ** What a goroutine holds *)

(** The locks it holds, the ids of sessions it knows, the id it has put a
    placeholder under, the session whose user it has compared with its own, the
    entries of a table it still has to clear, a descriptor taken out of a table
    and not closed yet. *)
Record holding := mkHolding {
  ho_locks : gset nat;
  ho_ids : gset (nat * gostring);
  ho_claim : option gostring;
  ho_checked : option nat;
  ho_clearing : option (nat * list (Z * Z));
  ho_pending : option Z;
}.

Definition ho_nothing : holding := mkHolding ∅ ∅ None None None None.
(** A connection runs with the lock of its session. *)
Definition ho_connection (s : nat) (id : gostring) : holding := mkHolding {[s]} {[(s, id)]} None (Some s) None None.

Definition set_ho_locks (l : gset nat) (g : holding) : holding :=
  mkHolding l (ho_ids g) (ho_claim g) (ho_checked g) (ho_clearing g) (ho_pending g).
Definition set_ho_ids (k : gset (nat * gostring)) (g : holding) : holding :=
  mkHolding (ho_locks g) k (ho_claim g) (ho_checked g) (ho_clearing g) (ho_pending g).
Definition set_ho_claim (c : option gostring) (g : holding) : holding :=
  mkHolding (ho_locks g) (ho_ids g) c (ho_checked g) (ho_clearing g) (ho_pending g).
Definition set_ho_checked (s : option nat) (g : holding) : holding :=
  mkHolding (ho_locks g) (ho_ids g) (ho_claim g) s (ho_clearing g) (ho_pending g).
Definition set_ho_clearing (c : option (nat * list (Z * Z))) (p : option Z) (g : holding) : holding :=
  mkHolding (ho_locks g) (ho_ids g) (ho_claim g) (ho_checked g) c p.

Definition clearing_of (s : nat) (l : list (Z * Z)) : option (nat * list (Z * Z)) :=
  match l with [] => None | _ => Some (s, l) end.

Definition closes_nothing (g : holding) : Prop := ho_clearing g = None /\ ho_pending g = None.

Section Spec.
Context (user : option gostring).

Definition reg_allowed (g : holding) (e : rgev) : Prop :=
  match e with
  | MapLoadOrStoreNil _ => ho_claim g = None
  | MapStoreNew id username => ho_claim g = Some id /\ user = Some username
  | MapDelete id => ho_clearing g = None /\ exists s, s ∈ ho_locks g /\ (s, id) ∈ ho_ids g
  | Username s => exists id, (s, id) ∈ ho_ids g
  | LockUnlock s => s ∈ ho_locks g /\ ho_clearing g = None
  | InactiveAdd s | InactiveReset s => s ∈ ho_locks g
  | RangeFds s => s ∈ ho_locks g /\ ho_clearing g = None
  | DeleteFd s fd => exists sfd l, ho_clearing g = Some (s, (fd, sfd) :: l)
  | TakeConn s | ConnEnds s => s ∈ ho_locks g /\ ho_clearing g = None /\ ho_checked g = Some s
  | CloseSFD _ => False
  | _ => True
  end.

(** A descriptor taken out of a table is closed next. *)
Definition reg_pre (g : holding) (e : rgev) : Prop :=
  match ho_pending g with
  | Some sfd => e = CloseSFD sfd
  | None => reg_allowed g e
  end.

Lemma reg_pre_cases g e :
  reg_pre g e -> (exists sfd, e = CloseSFD sfd /\ ho_pending g = Some sfd) \/ ho_pending g = None /\ reg_allowed g e.
Proof. unfold reg_pre. destruct (ho_pending g) as [sfd|]; [left; by exists sfd|by right]. Qed.

Definition reg_next (g : holding) (e : rgev) : rans e -> holding -> Prop :=
  match e return rans e -> holding -> Prop with
  | MapLoadOrStoreNil id => fun loaded g' => g' = if (loaded : bool) then g else set_ho_claim (Some id) g
  | MapStoreNew _ _ => fun _ g' => g' = set_ho_claim None g
  | MapLoad id => fun v g' =>
      match v with
      | Some (Some s) => (forall s', (s', id) ∈ ho_ids g -> s' = s) /\ g' = set_ho_ids ({[(s, id)]} ∪ ho_ids g) g
      | _ => g' = g
      end
  | Username s => fun u g' => g' = if bool_decide (user = Some u) then set_ho_checked (Some s) g else g
  | LockTryLock s => fun locked g' => g' = if (locked : bool) then set_ho_locks ({[s]} ∪ ho_locks g) g else g
  | LockUnlock s => fun _ g' => g' = set_ho_locks (ho_locks g ∖ {[s]}) g
  | TakeConn s => fun _ g' => g' = set_ho_locks (ho_locks g ∖ {[s]}) g
  | RangeFds s => fun l g' => g' = set_ho_clearing (clearing_of s l) None g
  | DeleteFd s _ => fun _ g' =>
      match ho_clearing g with
      | Some (_, (_, sfd) :: l) => g' = set_ho_clearing (clearing_of s l) (Some sfd) g
      | _ => False
      end
  | CloseSFD _ => fun _ g' => g' = set_ho_clearing (ho_clearing g) None g
  | _ => fun _ g' => g' = g
  end.

Definition reg_env : env rans := mkEnv holding reg_pre reg_next.

Abbreviation rwp p g Q := (wp false reg_env p g Q).

Lemma rwp_bind {A B} (p : RP A) (k : A -> RP B) g (Q : B -> holding -> Prop) :
  rwp p g (fun a g' => rwp (k a) g' Q) -> rwp (p ≫= k) g Q.
Proof. apply (wp_bind false reg_env). Qed.

Lemma rwp_loop {S A} (body : S -> RP (S + A)) (I : S -> holding -> Prop) fuel s g (Q : A -> holding -> Prop) :
  (forall s g, I s g -> rwp (body s) g (fun r g' => match r with inl s' => I s' g' | inr a => Q a g' end)) ->
  I s g -> rwp (loop fuel body s) g Q.
Proof.
  intros Hb HI. apply (wp_loop false reg_env body I (fun _ _ => 0%nat)); [|done|done].
  intros s' g' H. eapply wp_mono; [by apply Hb|]. intros [s2|a] g2; [|done]. intros H2. by split.
Qed.

(** One request, in the middle and at the end. *)
Lemma rwp_ask {A} e (k : rans e -> RP A) g (Q : A -> holding -> Prop) :
  ho_pending g = None -> reg_allowed g e -> (forall r g', reg_next g e r g' -> rwp (k r) g' Q) -> rwp (ask e ≫= k) g Q.
Proof. intros Hp Ha Hk. apply rwp_bind. split; [cbn; unfold reg_pre; by rewrite Hp|exact Hk]. Qed.

Lemma rwp_last e g (Q : rans e -> holding -> Prop) :
  ho_pending g = None -> reg_allowed g e -> (forall r g', reg_next g e r g' -> Q r g') -> rwp (ask e) g Q.
Proof. intros Hp Ha Hk. split; [cbn; unfold reg_pre; by rewrite Hp|exact Hk]. Qed.

(** [clearFDs] takes every entry out of the table and closes its descriptor. *)
Lemma rwp_clearFDs s g (Q : unit -> holding -> Prop) :
  s ∈ ho_locks g -> closes_nothing g -> Q tt g -> rwp (clearFDs s) g Q.
Proof.
  intros Hs [Hc Hp] HQ. apply rwp_ask; [done|done|]. intros l g' ->.
  assert (set_ho_clearing None None g = g) as Eg by (destruct g; cbn in *; by subst).
  rewrite <-Eg in HQ. clear Eg Hc Hp Hs. induction l as [|[fd sfd] l IH]; [exact HQ|].
  cbn [clearFDs_range]. apply rwp_ask; [done|by exists sfd, l|]. intros [] g' Hg. simpl in Hg. subst g'.
  apply rwp_bind. split; [done|]. intros [] g' ->. exact IH.
Qed.

Lemma rwp_delSession id s g (Q : unit -> holding -> Prop) :
  s ∈ ho_locks g -> (s, id) ∈ ho_ids g -> closes_nothing g ->
  (forall k, (s, id) ∈ k -> Q tt (set_ho_ids k g)) -> rwp (delSession id) g Q.
Proof.
  intros Hs Hid [Hc Hp] HQ. apply rwp_bind. apply rwp_ask; [done|done|].
  assert (g = set_ho_ids (ho_ids g) g) as Eg by (by destruct g).
  intros [[s'|]|] g' Hg'; cbn in Hg'.
  - destruct Hg' as [Hu ->]. rewrite <-(Hu s) by done. apply rwp_bind. apply rwp_clearFDs; [done|done|].
    apply rwp_last; [done|split; [done|exists s; cbn; set_solver]|]. intros [] g' ->. apply HQ. set_solver.
  - subst g'. apply rwp_last; [done|split; [done|by exists s]|]. intros [] g' ->. rewrite Eg. by apply HQ.
  - subst g'. apply rwp_last; [done|split; [done|by exists s]|]. intros [] g' ->. rewrite Eg. by apply HQ.
Qed.

(** ** The goroutines *)

Definition idle (g : holding) : Prop := closes_nothing g /\ ho_claim g = None.

Lemma rwp_scan_entry id v g :
  idle g -> (forall s, v = Some (Some s) -> (s, id) ∈ ho_ids g) -> rwp (scan_entry id v) g (fun _ => idle).
Proof.
  intros [[Hc Hp] Hcl] Hv. destruct v as [[s|]|]; [|done..]. apply rwp_ask; [done|done|]. intros [] g' ->; [|done].
  apply rwp_ask; [done|cbn; set_solver|]. intros n g' ->. case_match.
  - apply rwp_delSession with (s := s); [cbn; set_solver|by apply Hv|done|done].
  - apply rwp_last; [done|split; [cbn; set_solver|done]|]. by intros [] g' ->.
Qed.

Lemma rwp_scan keys ex g : idle g -> rwp (scan ex keys) g (fun _ => idle).
Proof.
  revert ex g. induction keys as [|id keys IH]; intros ex g Hg; [done|].
  apply rwp_ask; [apply Hg|done|]. intros v g' Hg'. apply rwp_bind.
  eapply wp_mono; [apply rwp_scan_entry|intros [] g2 H2; by apply IH].
  - destruct v as [[s|]|]; cbn in Hg'; [by destruct Hg' as [_ ->]|by subst..].
  - intros s ->. destruct Hg' as [_ ->]. cbn. set_solver.
Qed.

Lemma rwp_collector fuel g : idle g -> rwp (CollectInactiveSessions fuel) g (fun _ => idle).
Proof.
  intros Hg. apply rwp_loop with (I := fun _ => idle); [|done]. intros _ g1 H1.
  apply rwp_ask; [apply H1|done|]. intros stopped g2 ->. apply rwp_ask; [apply H1|done|]. intros keys g2 ->.
  apply rwp_bind. eapply wp_mono; [by apply rwp_scan|]. intros ex g2 H2. by destruct (_ && _).
Qed.

(** Handlers and connections end with nothing in their hands. *)
Definition empty_handed (g : holding) : Prop := idle g /\ ho_locks g = ∅.

Lemma rwp_newSession fuel name g :
  user = Some name -> idle g -> rwp (newSession fuel name) g (fun _ g' => idle g' /\ ho_locks g' = ho_locks g).
Proof.
  intros Hu Hg. apply rwp_loop with (I := fun _ g' => idle g' /\ ho_locks g' = ho_locks g); [|done].
  intros _ g1 [[[H1 H1'] H2] H3]. apply rwp_ask; [done|done|]. intros [id|] g' ->; [|done].
  apply rwp_ask; [done|done|]. intros [] g' ->; [done|]. apply rwp_ask; [done|done|]. by intros [] g' ->.
Qed.

Lemma rwp_ServeHTTP_session u id g :
  user = Some (user_Name u) -> empty_handed g -> rwp (ServeHTTP_session u id) g (fun _ => empty_handed).
Proof.
  intros Hu [[[Hc Hp] Hcl] Hl]. apply rwp_bind. apply rwp_ask; [done|done|]. intros v g' Hg'.
  destruct v as [[s|]|]; cbn in Hg'; [destruct Hg' as [_ ->]|by subst; apply rwp_last; [done|done|intros [] g' ->]..].
  apply rwp_ask; [done|exists id; cbn; set_solver|]. intros name g' ->. rewrite Hu.
  destruct (decide (name = user_Name u)) as [->|Hne].
  - rewrite !bool_decide_true by done. apply rwp_ask; [done|done|]. intros [] g' ->.
    + apply rwp_ask; [done|done|]. intros [] g' ->.
      * apply rwp_last; [done|split_and!; [cbn; set_solver|done|done]|]. intros [] g' ->. split; [done|]. cbn. rewrite Hl. set_solver.
      * apply rwp_last; [done|split; [cbn; set_solver|done]|]. intros [] g' ->. split; [done|]. cbn. rewrite Hl. set_solver.
    + apply rwp_last; [done|done|]. by intros [] g' ->.
  - rewrite !bool_decide_false by congruence. apply rwp_last; [done|done|]. by intros [] g' ->.
Qed.

Lemma rwp_handler fuel u resume g :
  user = Some (user_Name u) -> empty_handed g -> rwp (Handler_ServeHTTP fuel u resume) g (fun _ => empty_handed).
Proof.
  intros Hu Hg. unfold Handler_ServeHTTP. case_bool_decide; [|by apply rwp_ServeHTTP_session].
  destruct Hg as [Hg Hl]. apply rwp_bind. eapply wp_mono; [by apply rwp_newSession|].
  intros [id|] g' [H1 H2]; [apply rwp_ServeHTTP_session; [done|split; [done|congruence]]|].
  apply rwp_last; [apply H1|done|]. intros [] g2 ->. split; [done|congruence].
Qed.

Lemma rwp_connection s id : rwp (connection s id) (ho_connection s id) (fun _ => empty_handed).
Proof.
  apply rwp_ask; [done|split_and!; [cbn; set_solver|done..]|]. intros [] g ->.
  - apply rwp_bind. apply rwp_delSession with (s := s); [cbn; set_solver..|done|]. intros k Hk.
    apply rwp_last; [done|split; [cbn; set_solver|done]|]. intros [] g ->. split; [done|]. cbn. set_solver.
  - apply rwp_ask; [done|cbn; set_solver|]. intros [] g ->.
    apply rwp_last; [done|split; [cbn; set_solver|done]|]. intros [] g ->. split; [done|]. cbn. set_solver.
Qed.
End Spec.

(** ** Locks *)

(** [L]: which sessions are locked; [G]: the locks each goroutine holds. *)
Record locks_inv (L : list bool) (G : list (gset nat)) : Prop := {
  li_held s : L !! s = Some true <-> exists i g, G !! i = Some g /\ s ∈ g;
  li_excl i j g g' s : G !! i = Some g -> G !! j = Some g' -> s ∈ g -> s ∈ g' -> i = j;
}.

Lemma locks_take L G i g s :
  locks_inv L G -> L !! s = Some false -> G !! i = Some g -> locks_inv (<[s := true]> L) (<[i := {[s]} ∪ g]> G).
Proof.
  intros [H1 H2] Hs Hg. pose proof (lookup_lt_Some _ _ _ Hg). pose proof (lookup_lt_Some _ _ _ Hs).
  assert (forall j g', G !! j = Some g' -> s ∉ g') as Hno.
  { intros j g' Hj Hin. assert (L !! s = Some true) by (apply H1; eauto). congruence. }
  split.
  - intros s'. destruct (decide (s' = s)) as [->|Hne].
    + rewrite list_lookup_insert_eq by done. split; [|done]. intros _. exists i, ({[s]} ∪ g).
      rewrite list_lookup_insert_eq by done. set_solver.
    + rewrite list_lookup_insert_ne by done. rewrite H1. split; intros (j & g' & Hj & Hin).
      * destruct (decide (j = i)) as [->|Hji]; [exists i, ({[s]} ∪ g)|exists j, g'].
        -- rewrite list_lookup_insert_eq by done. set_solver.
        -- by rewrite list_lookup_insert_ne.
      * destruct (decide (j = i)) as [->|Hji]; [|rewrite list_lookup_insert_ne in Hj by done; eauto].
        rewrite list_lookup_insert_eq in Hj by done. injection Hj as <-. exists i, g. set_solver.
  - intros j1 j2 g1 g2 s' Hj1 Hj2 Hs1 Hs2.
    assert (forall j g', <[i := {[s]} ∪ g]> G !! j = Some g' -> s' ∈ g' ->
      s' = s /\ j = i \/ s' <> s /\ exists g0, G !! j = Some g0 /\ s' ∈ g0) as Hcase.
    { intros j g' Hj Hin. destruct (decide (j = i)) as [->|Hji].
      - rewrite list_lookup_insert_eq in Hj by done. injection Hj as <-.
        destruct (decide (s' = s)); [by left|right; split; [done|exists g; set_solver]].
      - rewrite list_lookup_insert_ne in Hj by done. right. split; [by intros ->; eapply Hno|eauto]. }
    destruct (Hcase _ _ Hj1 Hs1) as [[-> ->]|[Hn (g1' & ? & ?)]], (Hcase _ _ Hj2 Hs2) as [[? ->]|[? (g2' & ? & ?)]];
      [done|done|done|by eapply H2].
Qed.

(** The goroutine gives the lock back or hands it over to a new one. *)
Lemma locks_drop L G i g s :
  locks_inv L G -> G !! i = Some g -> s ∈ g -> locks_inv (<[s := false]> L) (<[i := g ∖ {[s]}]> G).
Proof.
  intros [H1 H2] Hg Hs. pose proof (lookup_lt_Some _ _ _ Hg).
  assert (L !! s = Some true) as Hl by (apply H1; eauto). pose proof (lookup_lt_Some _ _ _ Hl).
  assert (forall j g' s', <[i := g ∖ {[s]}]> G !! j = Some g' /\ s' ∈ g' <->
    s' <> s /\ exists g0, G !! j = Some g0 /\ s' ∈ g0 /\ (j = i -> g' = g0 ∖ {[s]}) /\ (j <> i -> g' = g0)) as Hcase.
  { intros j g' s'. destruct (decide (j = i)) as [->|Hji].
    - rewrite list_lookup_insert_eq by done. split.
      + intros [[= <-] Hin]. split; [set_solver|]. exists g. set_solver.
      + intros [Hn (g0 & Hg0 & Hin & Hi & _)]. rewrite Hg in Hg0. injection Hg0 as <-. rewrite Hi by done. set_solver.
    - rewrite list_lookup_insert_ne by done. split.
      + intros [Hj Hin]. split; [intros ->; by destruct (Hji (H2 _ _ _ _ _ Hj Hg Hin Hs))|]. by exists g'.
      + intros [Hn (g0 & Hg0 & Hin & _ & Hi)]. by rewrite Hi. }
  split.
  - intros s'. split.
    + intros Hs'. destruct (decide (s' = s)) as [->|Hne]; [by rewrite list_lookup_insert_eq in Hs'|].
      rewrite list_lookup_insert_ne in Hs' by done. apply H1 in Hs' as (j & g0 & Hj & Hin).
      exists j, (if decide (j = i) then g0 ∖ {[s]} else g0). apply Hcase. split; [done|].
      exists g0. split_and!; [done|done|intros E; by rewrite decide_True|intros E; by rewrite decide_False].
    + intros (j & g' & Hj). apply Hcase in Hj as [Hne (g0 & Hj & Hin & _)].
      rewrite list_lookup_insert_ne by done. apply H1. eauto.
  - intros j1 j2 g1 g2 s' Hj1 Hj2 Hs1 Hs2.
    destruct (proj1 (Hcase j1 g1 s') (conj Hj1 Hs1)) as [_ (? & ? & ? & _)].
    destruct (proj1 (Hcase j2 g2 s') (conj Hj2 Hs2)) as [_ (? & ? & ? & _)]. by eapply H2.
Qed.

Lemma locks_idle L G : locks_inv L G -> locks_inv L (G ++ [∅]).
Proof.
  intros [H1 H2].
  assert (forall i g (s : nat), (G ++ [∅]) !! i = Some g -> s ∈ g -> G !! i = Some g) as Hin.
  { intros i g s [H|[_ H]]%lookup_app_Some Hs; [done|]. apply list_lookup_singleton_Some in H as [_ <-]. set_solver. }
  split.
  - intros s. rewrite H1. split; intros (i & g & Hi & Hs); exists i, g; split; try done; [by apply lookup_app_l_Some|].
    by eapply Hin.
  - intros i j g g' s Hi Hj Hs Hs'. eapply H2; [by eapply Hin|by eapply Hin|done..].
Qed.

Lemma locks_session L G : locks_inv L G -> locks_inv (L ++ [false]) G.
Proof.
  intros [H1 H2]. split; [|done]. intros s. rewrite <-H1, lookup_app_Some. split; [|by left].
  intros [H|[_ H]]; [done|]. by apply list_lookup_singleton_Some in H as [_ ?].
Qed.

Lemma locks_hand_over L G i g s :
  locks_inv L G -> G !! i = Some g -> s ∈ g -> locks_inv L (<[i := g ∖ {[s]}]> G ++ [{[s]}]).
Proof.
  intros HL Hg Hs. assert (L !! s = Some true) as Hl by (apply (li_held _ _ HL); eauto).
  pose proof (lookup_lt_Some _ _ _ Hl). pose proof (locks_idle _ _ (locks_drop _ _ _ _ _ HL Hg Hs)) as HL'.
  apply (locks_take _ _ (length G) ∅ s) in HL'.
  - rewrite list_insert_insert_eq, (list_insert_id L s true) in HL' by done. replace ({[s]} ∪ ∅) with ({[s]} : gset nat) in HL' by set_solver.
    replace (length G) with (length (<[i := g ∖ {[s]}]> G) + 0)%nat in HL' by (rewrite length_insert; lia).
    by rewrite insert_app_r in HL'.
  - by rewrite list_lookup_insert_eq.
  - rewrite lookup_app_r, length_insert, Nat.sub_diag; [done|]. rewrite length_insert. lia.
Qed.

(** ** Ids *)

(** [M]: the registry's map; [I]: the id of each session; [K], [C]: the ids each
    goroutine knows and has claimed. *)
Record ids_inv (M : gmap gostring (option nat)) (I : list gostring) (K : list (gset (nat * gostring)))
    (C : list (option gostring)) : Prop := {
  ii_known i k s id : K !! i = Some k -> (s, id) ∈ k -> I !! s = Some id;
  ii_map id s : M !! id = Some (Some s) -> I !! s = Some id;
  ii_inj s s' id : I !! s = Some id -> I !! s' = Some id -> s = s';
  ii_claim i id : C !! i = Some (Some id) -> M !! id = Some None /\ id ∉ I;
  ii_claims i j id : C !! i = Some (Some id) -> C !! j = Some (Some id) -> i = j;
}.

Lemma ids_learn M I K C i k k' :
  ids_inv M I K C -> K !! i = Some k -> (forall s id, (s, id) ∈ k' -> (s, id) ∈ k \/ I !! s = Some id) ->
  ids_inv M I (<[i := k']> K) C.
Proof.
  intros [H1 H2 H3 H4 H5] Hk Hk'. pose proof (lookup_lt_Some _ _ _ Hk). split; try done.
  intros j kj s id Hj Hin. destruct (decide (j = i)) as [->|Hne].
  - rewrite list_lookup_insert_eq in Hj by done. injection Hj as <-. destruct (Hk' _ _ Hin); [by eapply H1|done].
  - rewrite list_lookup_insert_ne in Hj by done. by eapply H1.
Qed.

Lemma ids_claim M I K C i id :
  ids_inv M I K C -> M !! id = None -> id ∉ I -> C !! i = Some None ->
  ids_inv (<[id := None]> M) I K (<[i := Some id]> C).
Proof.
  intros [H1 H2 H3 H4 H5] Hm Hid Hi. pose proof (lookup_lt_Some _ _ _ Hi).
  assert (forall j id', <[i := Some id]> C !! j = Some (Some id') ->
            j = i /\ id' = id \/ id' <> id /\ C !! j = Some (Some id')) as Hcase.
  { intros j id' Hj. destruct (decide (j = i)) as [->|Hne].
    - rewrite list_lookup_insert_eq in Hj by done. left. by injection Hj as <-.
    - rewrite list_lookup_insert_ne in Hj by done. right. split; [|done]. intros ->. apply H4 in Hj as [? _]. congruence. }
  split; try done.
  - intros id' s. destruct (decide (id' = id)) as [->|Hne]; [by rewrite lookup_insert_eq|].
    rewrite lookup_insert_ne by done. apply H2.
  - intros j id' [[-> ->]|[Hne Hj]]%Hcase; [by rewrite lookup_insert_eq|]. rewrite lookup_insert_ne by done. by eapply H4.
  - intros j1 j2 id' [[-> ->]|[Hne1 Hj1]]%Hcase [[-> ?]|[Hne2 Hj2]]%Hcase; [done|done|done|by eapply H5].
Qed.

Lemma ids_store M I K C i id :
  ids_inv M I K C -> C !! i = Some (Some id) ->
  ids_inv (<[id := Some (length I)]> M) (I ++ [id]) K (<[i := None]> C).
Proof.
  intros [H1 H2 H3 H4 H5] Hi. pose proof (lookup_lt_Some _ _ _ Hi). destruct (H4 i id Hi) as [Hm Hid].
  assert (forall j id', <[i := None]> C !! j = Some (Some id') -> id' <> id /\ C !! j = Some (Some id')) as Hcase.
  { intros j id' Hj. destruct (decide (j = i)) as [->|Hne]; [by rewrite list_lookup_insert_eq in Hj|].
    rewrite list_lookup_insert_ne in Hj by done. split; [|done]. intros ->. by destruct Hne; eapply H5. }
  assert (forall s id', (I ++ [id]) !! s = Some id' -> I !! s = Some id' \/ s = length I /\ id' = id) as Happ.
  { intros s id' [Hs|[Hs1 Hs2]]%lookup_app_Some; [by left|]. apply list_lookup_singleton_Some in Hs2 as [Hs2 <-].
    right. split; [lia|done]. }
  split.
  - intros j k s id' Hj Hin. apply lookup_app_l_Some. by eapply H1.
  - intros id' s. destruct (decide (id' = id)) as [->|Hne].
    + rewrite lookup_insert_eq. intros [= <-]. by rewrite lookup_app_r, Nat.sub_diag.
    + rewrite lookup_insert_ne by done. intros Hs. apply lookup_app_l_Some. by apply H2.
  - intros s s' id' [Hs|[-> ->]]%Happ [Hs'|[-> E]]%Happ; [by eapply H3| | |done]; destruct Hid;
      [subst; by eapply list_elem_of_lookup_2|by eapply list_elem_of_lookup_2].
  - intros j id' [Hne Hj]%Hcase. rewrite lookup_insert_ne by done. destruct (H4 j id' Hj) as [? ?]. split; [done|].
    rewrite elem_of_app, list_elem_of_singleton. by intros [?| ?].
  - intros j1 j2 id' [Hne1 Hj1]%Hcase [Hne2 Hj2]%Hcase. by eapply H5.
Qed.

Lemma ids_delete M I K C i k s id :
  ids_inv M I K C -> K !! i = Some k -> (s, id) ∈ k -> ids_inv (delete id M) I K C.
Proof.
  intros [H1 H2 H3 H4 H5] Hk Hin. pose proof (H1 _ _ _ _ Hk Hin) as Hs. split; try done.
  - intros id' s'. rewrite lookup_delete_Some. intros [_ H]. by apply H2.
  - intros j id' Hj. destruct (H4 j id' Hj) as [Hm Hid]. split; [|done]. rewrite lookup_delete_ne; [done|].
    intros ->. apply Hid. by eapply list_elem_of_lookup_2.
Qed.

Lemma ids_idle M I K C k :
  ids_inv M I K C -> (forall s id, (s, id) ∈ k -> I !! s = Some id) -> ids_inv M I (K ++ [k]) (C ++ [None]).
Proof.
  intros [H1 H2 H3 H4 H5] Hk.
  assert (forall j id, (C ++ [None]) !! j = Some (Some id) -> C !! j = Some (Some id)) as Hc.
  { intros j id [H|[_ H]]%lookup_app_Some; [done|]. by apply list_lookup_singleton_Some in H as [_ ?]. }
  split; try done.
  - intros j kj s id [H|[_ H]]%lookup_app_Some Hin; [by eapply H1|].
    apply list_lookup_singleton_Some in H as [_ <-]. by apply Hk.
  - intros j id ?%Hc. by eapply H4.
  - intros i j id ?%Hc ?%Hc. by eapply H5.
Qed.
