(* ===== verification/ServerRegistryInv.v ===== *)
(** * The registry: the invariant of every interleaving

    Descriptors (each is in one table or about to be closed, by one goroutine),
    and the conjunction of the invariants with its preservation by every action. *)
From S2P Require Import Prelude GoIO Prog ServerRegistry ServerRegistryOk.

(** ** Descriptors *)

(** [F]: the table of each session; [O]: the open descriptors; [G], [CL], [P]: the
    locks, the entries to clear and the descriptor to close of each goroutine. *)
Record files_inv (F : list (gmap Z Z)) (O : gset Z) (G : list (gset nat))
    (CL : list (option (nat * list (Z * Z)))) (P : list (option Z)) : Prop := {
  fi_open s m fd sfd : F !! s = Some m -> m !! fd = Some sfd -> sfd ∈ O /\ forall i, P !! i <> Some (Some sfd);
  fi_once s s' m m' fd fd' sfd : F !! s = Some m -> F !! s' = Some m' -> m !! fd = Some sfd -> m' !! fd' = Some sfd ->
    s = s' /\ fd = fd';
  fi_pending i sfd : P !! i = Some (Some sfd) -> sfd ∈ O;
  fi_pendings i j sfd : P !! i = Some (Some sfd) -> P !! j = Some (Some sfd) -> i = j;
  fi_all sfd : sfd ∈ O -> (exists s m fd, F !! s = Some m /\ m !! fd = Some sfd) \/ exists i, P !! i = Some (Some sfd);
  fi_clearing i s l : CL !! i = Some (Some (s, l)) ->
    (exists g, G !! i = Some g /\ s ∈ g) /\ exists m, F !! s = Some m /\ map_to_list m ≡ₚ l;
}.

(** A change of locks leaves the goroutines their tables. *)
Lemma files_locks F O G CL P i g g' :
  files_inv F O G CL P -> G !! i = Some g -> g ⊆ g' \/ CL !! i = Some None -> files_inv F O (<[i := g']> G) CL P.
Proof.
  intros [H1 H2 H3 H4 H5 H6] Hg Hsub. pose proof (lookup_lt_Some _ _ _ Hg). split; try done.
  intros j s l Hj. destruct (H6 j s l Hj) as [(gj & Hgj & Hin) Hm]. split; [|done].
  destruct (decide (j = i)) as [->|Hne]; [|exists gj; by rewrite list_lookup_insert_ne].
  exists g'. rewrite list_lookup_insert_eq by done. split; [done|]. rewrite Hg in Hgj. injection Hgj as <-.
  destruct Hsub as [Hsub|Hn]; [by apply Hsub|congruence].
Qed.

Lemma files_idle F O G CL P g : length CL = length G ->
  files_inv F O G CL P -> files_inv F O (G ++ [g]) (CL ++ [None]) (P ++ [None]).
Proof.
  intros Hlen [H1 H2 H3 H4 H5 H6].
  assert (forall i sfd, (P ++ [None]) !! i = Some (Some sfd) -> P !! i = Some (Some sfd)) as HP.
  { intros i sfd [H|[_ H]]%lookup_app_Some; [done|]. by apply list_lookup_singleton_Some in H as [_ ?]. }
  split; try done.
  - intros s m fd sfd Hs Hm. destruct (H1 _ _ _ _ Hs Hm) as [Ho Hp]. split; [done|]. intros i ?%HP. by eapply Hp.
  - intros i sfd ?%HP. by eapply H3.
  - intros i j sfd ?%HP ?%HP. by eapply H4.
  - intros sfd [?|[i ?]]%H5; [by left|]. right. exists i. by apply lookup_app_l_Some.
  - intros i s l [H|[_ H]]%lookup_app_Some; [|by apply list_lookup_singleton_Some in H as [_ ?]].
    destruct (H6 i s l H) as [(gi & Hgi & ?) ?]. split; [|done]. exists gi. split; [by apply lookup_app_l_Some|done].
Qed.

Lemma files_session F O G CL P : files_inv F O G CL P -> files_inv (F ++ [∅]) O G CL P.
Proof.
  intros [H1 H2 H3 H4 H5 H6].
  assert (forall s m fd sfd, (F ++ [∅]) !! s = Some m -> m !! fd = Some sfd -> F !! s = Some m) as HF.
  { intros s m fd sfd [H|[_ H]]%lookup_app_Some Hm; [done|]. apply list_lookup_singleton_Some in H as [_ <-].
    by rewrite lookup_empty in Hm. }
  split; try done.
  - intros s m fd sfd Hs Hm. eapply H1; [by eapply HF|done].
  - intros s s' m m' fd fd' sfd Hs Hs' Hm Hm'. eapply H2; [by eapply HF|by eapply HF|done..].
  - intros sfd [(s & m & fd & Hs & Hm)|?]%H5; [left|by right]. exists s, m, fd. split; [by apply lookup_app_l_Some|done].
  - intros i s l Hi. destruct (H6 i s l Hi) as [? (m & ? & ?)]. split; [done|]. exists m.
    split; [by apply lookup_app_l_Some|done].
Qed.

Lemma files_range F O G CL P i g s m l :
  files_inv F O G CL P -> G !! i = Some g -> s ∈ g -> F !! s = Some m -> l ≡ₚ map_to_list m -> CL !! i = Some None ->
  files_inv F O G (<[i := clearing_of s l]> CL) P.
Proof.
  intros [H1 H2 H3 H4 H5 H6] Hg Hs Hm Hl Hi. pose proof (lookup_lt_Some _ _ _ Hi). split; try done.
  intros j s' l' Hj. destruct (decide (j = i)) as [->|Hne]; [|rewrite list_lookup_insert_ne in Hj by done; by eapply H6].
  rewrite list_lookup_insert_eq in Hj by done. destruct l; [done|]. injection Hj as <- <-. split; [by exists g|by exists m].
Qed.

(** An entry leaves the table; its descriptor waits to be closed. *)
Lemma files_delete F O G CL P i s m fd sfd l :
  (forall i j g g' s, G !! i = Some g -> G !! j = Some g' -> s ∈ g -> s ∈ g' -> i = j) ->
  files_inv F O G CL P -> CL !! i = Some (Some (s, (fd, sfd) :: l)) -> P !! i = Some None -> F !! s = Some m ->
  files_inv (<[s := delete fd m]> F) O G (<[i := clearing_of s l]> CL) (<[i := Some sfd]> P).
Proof.
  intros Hex [H1 H2 H3 H4 H5 H6] Hi Hp Hm. pose proof (lookup_lt_Some _ _ _ Hi). pose proof (lookup_lt_Some _ _ _ Hp).
  pose proof (lookup_lt_Some _ _ _ Hm). destruct (H6 _ _ _ Hi) as [(g & Hg & Hs) (m' & Hm' & Hl)].
  rewrite Hm in Hm'. injection Hm' as <-.
  assert (m !! fd = Some sfd) as Hfd by (apply elem_of_map_to_list; rewrite Hl; set_solver).
  assert (forall s' m' fd' sfd', <[s := delete fd m]> F !! s' = Some m' -> m' !! fd' = Some sfd' ->
    exists m0, F !! s' = Some m0 /\ m0 !! fd' = Some sfd' /\ ~ (s' = s /\ fd' = fd)) as HF.
  { intros s' m' fd' sfd' Hs' Hm'. destruct (decide (s' = s)) as [->|Hne].
    - rewrite list_lookup_insert_eq in Hs' by done. injection Hs' as <-. apply lookup_delete_Some in Hm' as [? ?].
      exists m. split_and!; [done|done|naive_solver].
    - rewrite list_lookup_insert_ne in Hs' by done. exists m'. split_and!; [done|done|naive_solver]. }
  assert (forall j x, <[i := Some sfd]> P !! j = Some (Some x) -> j = i /\ x = sfd \/ j <> i /\ P !! j = Some (Some x)) as HP.
  { intros j x Hj. destruct (decide (j = i)) as [->|Hne].
    - rewrite list_lookup_insert_eq in Hj by done. left. by injection Hj as <-.
    - rewrite list_lookup_insert_ne in Hj by done. by right. }
  split.
  - intros s' m' fd' sfd' Hs' Hm'. destruct (HF _ _ _ _ Hs' Hm') as (m0 & Hs0 & Hm0 & Hne). destruct (H1 _ _ _ _ Hs0 Hm0).
    split; [done|]. intros j [[-> ->]|[_ Hj]]%HP; [|naive_solver]. apply Hne. by eapply H2.
  - intros s1 s2 m1 m2 fd1 fd2 x Hs1 Hs2 Hm1 Hm2. destruct (HF _ _ _ _ Hs1 Hm1) as (? & ? & ? & _).
    destruct (HF _ _ _ _ Hs2 Hm2) as (? & ? & ? & _). by eapply H2.
  - intros j x [[-> ->]|[_ Hj]]%HP; [by eapply H1|by eapply H3].
  - intros j1 j2 x [[-> ->]|[Hn1 Hj1]]%HP [[-> E]|[Hn2 Hj2]]%HP; [done| | |by eapply H4]; subst;
      by edestruct (H1 _ _ _ _ Hm Hfd) as [_ []].
  - intros x [(s' & m' & fd' & Hs' & Hm')|[j Hj]]%H5.
    + destruct (decide (s' = s /\ fd' = fd)) as [[-> ->]|Hne].
      * right. exists i. rewrite list_lookup_insert_eq by done. congruence.
      * left. destruct (decide (s' = s)) as [->|Hss].
        -- exists s, (delete fd m), fd'. rewrite list_lookup_insert_eq by done. split; [done|].
           rewrite lookup_delete_ne by naive_solver. congruence.
        -- exists s', m', fd'. by rewrite list_lookup_insert_ne.
    + right. exists j. rewrite list_lookup_insert_ne; [done|]. intros ->. congruence.
  - intros j s' l' Hj. destruct (decide (j = i)) as [->|Hne].
    + rewrite list_lookup_insert_eq in Hj by done. destruct l as [|x l0] eqn:El; [done|]. injection Hj as <- <-.
      split; [by exists g|]. exists (delete fd m). rewrite list_lookup_insert_eq by done. split; [done|].
      apply (Permutation_cons_inv (a := (fd, sfd))). rewrite <-Hl. by apply map_to_list_delete.
    + rewrite list_lookup_insert_ne in Hj by done. destruct (H6 _ _ _ Hj) as [(gj & Hgj & Hsj) (mj & Hmj & Hlj)].
      split; [by exists gj|]. exists mj. rewrite list_lookup_insert_ne; [done|]. intros <-. by destruct Hne; eapply Hex.
Qed.

Lemma files_close F O G CL P i sfd :
  files_inv F O G CL P -> P !! i = Some (Some sfd) -> files_inv F (O ∖ {[sfd]}) G CL (<[i := None]> P).
Proof.
  intros [H1 H2 H3 H4 H5 H6] Hi. pose proof (lookup_lt_Some _ _ _ Hi).
  assert (forall j x, <[i := None]> P !! j = Some (Some x) -> x <> sfd /\ P !! j = Some (Some x)) as HP.
  { intros j x Hj. destruct (decide (j = i)) as [->|Hne]; [by rewrite list_lookup_insert_eq in Hj|].
    rewrite list_lookup_insert_ne in Hj by done. split; [|done]. intros ->. by destruct Hne; eapply H4. }
  split; try done.
  - intros s m fd x Hs Hm. destruct (H1 _ _ _ _ Hs Hm) as [Ho Hp]. split; [|by intros j [_ ?]%HP; eapply Hp].
    assert (x <> sfd) by (intros ->; by eapply Hp). set_solver.
  - intros j x [Hne ?%H3]%HP. set_solver.
  - intros j1 j2 x [_ ?]%HP [_ ?]%HP. by eapply H4.
  - intros x [Hx Hne]%elem_of_difference. assert (x <> sfd) by set_solver. destruct (H5 x Hx) as [?|[j Hj]]; [by left|].
    right. exists j. rewrite list_lookup_insert_ne; [done|]. intros ->. congruence.
Qed.

(** A command of the connection that holds the lock opens or closes a file. *)
Lemma files_insert F O G CL P i g s m fd sfd :
  (forall i j g g' s, G !! i = Some g -> G !! j = Some g' -> s ∈ g -> s ∈ g' -> i = j) ->
  files_inv F O G CL P -> G !! i = Some g -> s ∈ g -> CL !! i = Some None -> F !! s = Some m -> m !! fd = None -> sfd ∉ O ->
  files_inv (<[s := <[fd := sfd]> m]> F) ({[sfd]} ∪ O) G CL P.
Proof.
  intros Hex [H1 H2 H3 H4 H5 H6] Hg Hs Hi Hm Hfd Ho. pose proof (lookup_lt_Some _ _ _ Hm).
  assert (forall s' m' fd' x, <[s := <[fd := sfd]> m]> F !! s' = Some m' -> m' !! fd' = Some x ->
    (s' = s /\ fd' = fd /\ x = sfd) \/ x <> sfd /\ exists m0, F !! s' = Some m0 /\ m0 !! fd' = Some x) as HF.
  { intros s' m' fd' x Hs' Hm'. destruct (decide (s' = s)) as [->|Hne].
    - rewrite list_lookup_insert_eq in Hs' by done. injection Hs' as <-.
      apply lookup_insert_Some in Hm' as [[<- <-]|[Hn Hx]]; [by left|]. right. split; [|by exists m].
      intros ->. destruct (H1 _ _ _ _ Hm Hx). done.
    - rewrite list_lookup_insert_ne in Hs' by done. right. split; [|by exists m'].
      intros ->. destruct (H1 _ _ _ _ Hs' Hm'). done. }
  split.
  - intros s' m' fd' x Hs' Hm'. destruct (HF _ _ _ _ Hs' Hm') as [(-> & -> & ->)|(Hne & m0 & Hs0 & Hm0)].
    + split; [set_solver|]. by intros j ?%H3.
    + destruct (H1 _ _ _ _ Hs0 Hm0). split; [set_solver|done].
  - intros s1 s2 m1 m2 fd1 fd2 x Hs1 Hs2 Hm1 Hm2.
    destruct (HF _ _ _ _ Hs1 Hm1) as [(-> & -> & ->)|(Hn1 & ? & ? & ?)], (HF _ _ _ _ Hs2 Hm2) as [(-> & -> & ?)|(Hn2 & ? & ? & ?)];
      [done|done|done|by eapply H2].
  - intros j x ?%H3. set_solver.
  - done.
  - intros x [Hx|Hx]%elem_of_union.
    + apply elem_of_singleton in Hx as ->. left. exists s, (<[fd := sfd]> m), fd. by rewrite list_lookup_insert_eq, lookup_insert_eq.
    + destruct (H5 x Hx) as [(s' & m' & fd' & Hs' & Hm')|?]; [left|by right].
      destruct (decide (s' = s)) as [->|Hne].
      * exists s, (<[fd := sfd]> m), fd'. rewrite list_lookup_insert_eq by done. split; [done|].
        rewrite lookup_insert_ne by (intros ->; congruence). congruence.
      * exists s', m', fd'. by rewrite list_lookup_insert_ne.
  - intros j s' l Hj. destruct (H6 _ _ _ Hj) as [(gj & Hgj & Hsj) (mj & Hmj & Hlj)]. split; [by exists gj|]. exists mj.
    rewrite list_lookup_insert_ne; [done|]. intros <-. assert (j = i) as -> by (by eapply Hex). congruence.
Qed.

(** Closing a file is taking it out of the table and closing the descriptor. *)
Lemma files_remove F O G CL P i g s m fd sfd :
  (forall i j g g' s, G !! i = Some g -> G !! j = Some g' -> s ∈ g -> s ∈ g' -> i = j) ->
  files_inv F O G CL P -> G !! i = Some g -> s ∈ g -> CL !! i = Some None -> P !! i = Some None ->
  F !! s = Some m -> m !! fd = Some sfd ->
  files_inv (<[s := delete fd m]> F) (O ∖ {[sfd]}) G CL P.
Proof.
  intros Hex Hf Hg Hs Hi Hp Hm Hfd. pose proof (lookup_lt_Some _ _ _ Hi). pose proof (lookup_lt_Some _ _ _ Hp).
  pose proof (files_range _ _ _ _ _ i g s m ((fd, sfd) :: map_to_list (delete fd m)) Hf Hg Hs Hm) as H1.
  specialize (H1 (map_to_list_delete _ _ _ Hfd) Hi). cbn [clearing_of] in H1.
  eapply (files_delete _ _ _ _ _ i s m fd sfd) in H1; [|done|by rewrite list_lookup_insert_eq|done|done].
  eapply (files_close _ _ _ _ _ i sfd) in H1; [|by rewrite list_lookup_insert_eq].
  rewrite !list_insert_insert_eq, (list_insert_id P i None) in H1 by done.
  destruct H1 as [K1 K2 K3 K4 K5 K6]. split; try done.
  intros j s' l Hj. apply (K6 j s' l). rewrite list_lookup_insert_ne; [done|]. intros ->. congruence.
Qed.

(** ** The invariant *)

(** What a goroutine has left in its hands when it ends. *)
Definition ends_with (u : option gostring) (h : holding) : Prop :=
  match u with Some _ => empty_handed h | None => idle h end.

Definition goroutine_safe (th : goroutine) (h : holding) : Prop :=
  wp false (reg_env (gr_user th)) (gr_prog th) h (fun _ => ends_with (gr_user th)).

Record reg_inv (r : registry) (hs : list holding) : Prop := {
  rv_safe : Forall2 goroutine_safe (rg_threads r) hs;
  rv_locks : locks_inv (so_locked <$> rg_objs r) (ho_locks <$> hs);
  rv_ids : ids_inv (rg_sessions r) (so_Id <$> rg_objs r) (ho_ids <$> hs) (ho_claim <$> hs);
  rv_files : files_inv (so_fds <$> rg_objs r) (rg_open r) (ho_locks <$> hs) (ho_clearing <$> hs) (ho_pending <$> hs);
  rv_users i th h s : rg_threads r !! i = Some th -> hs !! i = Some h -> ho_checked h = Some s ->
    exists ob, rg_objs r !! s = Some ob /\ gr_user th = Some (so_Username ob);
}.

Lemma proj_alter_same {A} (p : sessobj -> A) f (s : nat) (l : list sessobj) :
  (forall o, p (f o) = p o) -> p <$> alter f s l = p <$> l.
Proof. intros Hf. revert s. induction l as [|o l IH]; intros [|s]; try done; cbn; [by rewrite Hf|by rewrite (IH s)]. Qed.

Lemma proj_alter_set {A} (p : sessobj -> A) f (s : nat) (l : list sessobj) v :
  (forall o, p (f o) = v) -> p <$> alter f s l = <[s := v]> (p <$> l).
Proof.
  intros Hf. revert s. induction l as [|o l IH]; intros [|s]; try done; cbn; [by rewrite Hf|].
  f_equal. apply (IH s).
Qed.

Lemma proj_alter_at {A} (p : sessobj -> A) f (s : nat) (l : list sessobj) ob :
  l !! s = Some ob -> p <$> alter f s l = <[s := p (f ob)]> (p <$> l).
Proof.
  revert s. induction l as [|o l IH]; intros [|s]; try done; cbn; [by intros [= ->]|].
  intros Hs. f_equal. by apply IH.
Qed.

Lemma reg_inv_locked r hs i h s :
  reg_inv r hs -> hs !! i = Some h -> s ∈ ho_locks h -> exists ob, rg_objs r !! s = Some ob /\ so_locked ob = true.
Proof.
  intros Hv Hh Hs. assert ((so_locked <$> rg_objs r) !! s = Some true) as E.
  { apply (li_held _ _ (rv_locks _ _ Hv)). exists i, (ho_locks h). by rewrite list_lookup_fmap, Hh. }
  rewrite list_lookup_fmap in E. destruct (rg_objs r !! s) as [ob|]; [|done]. exists ob. split; [done|].
  by injection E.
Qed.

Lemma reg_inv_excl r hs i j h h' s :
  reg_inv r hs -> hs !! i = Some h -> hs !! j = Some h' -> s ∈ ho_locks h -> s ∈ ho_locks h' -> i = j.
Proof.
  intros Hv Hh Hh' Hs Hs'. eapply (li_excl _ _ (rv_locks _ _ Hv)); [| |exact Hs|exact Hs'];
    by rewrite list_lookup_fmap, ?Hh, ?Hh'.
Qed.

(** Usernames do not change. *)
Definition users_kept (r r' : registry) : Prop :=
  forall s ob, rg_objs r !! s = Some ob -> exists ob', rg_objs r' !! s = Some ob' /\ so_Username ob' = so_Username ob.

Lemma users_kept_alter r f s :
  (forall o, so_Username (f o) = so_Username o) -> users_kept r (set_objs (alter f s (rg_objs r)) r).
Proof.
  intros Hf s' ob Hob. cbn [rg_objs set_objs]. rewrite list_lookup_alter, Hob. case_decide.
  - subst s'. rewrite Hob. exists (f ob). by split; [|apply Hf].
  - by exists ob.
Qed.

(** A goroutine has made a request. *)
Lemma reg_inv_step r hs i u e k h x h' r1 :
  reg_inv r hs -> rg_threads r !! i = Some (mkGoroutine u (Vis e k)) -> hs !! i = Some h ->
  reg_next u h e x h' -> rg_threads r1 = rg_threads r ->
  locks_inv (so_locked <$> rg_objs r1) (<[i := ho_locks h']> (ho_locks <$> hs)) ->
  ids_inv (rg_sessions r1) (so_Id <$> rg_objs r1) (<[i := ho_ids h']> (ho_ids <$> hs)) (<[i := ho_claim h']> (ho_claim <$> hs)) ->
  files_inv (so_fds <$> rg_objs r1) (rg_open r1) (<[i := ho_locks h']> (ho_locks <$> hs))
    (<[i := ho_clearing h']> (ho_clearing <$> hs)) (<[i := ho_pending h']> (ho_pending <$> hs)) ->
  users_kept r r1 ->
  (forall s, ho_checked h' = Some s -> ho_checked h = Some s \/ exists ob, rg_objs r !! s = Some ob /\ u = Some (so_Username ob)) ->
  reg_inv (set_threads (<[i := mkGoroutine u (k x)]> (rg_threads r1)) r1) (<[i := h']> hs).
Proof.
  intros Hv Hth Hh Hn Et HL HI HF Hk Hc. pose proof (lookup_lt_Some _ _ _ Hth). pose proof (lookup_lt_Some _ _ _ Hh).
  destruct (Forall2_lookup_lr _ _ _ _ _ _ (rv_safe _ _ Hv) Hth Hh) as [_ Hw].
  split; cbn [rg_threads rg_objs rg_sessions rg_open set_threads]; rewrite ?list_fmap_insert; try done.
  - rewrite Et. apply Forall2_insert; [apply Hv|]. by apply Hw.
  - intros j th hj s Hj Hhj Hcj. rewrite Et in Hj.
    assert (exists ob, rg_objs r !! s = Some ob /\ gr_user th = Some (so_Username ob)) as (ob & Hob & Hu).
    { destruct (decide (j = i)) as [->|Hne].
      - rewrite list_lookup_insert_eq in Hj by done. rewrite list_lookup_insert_eq in Hhj by done. injection Hj as <-. injection Hhj as <-.
        destruct (Hc s Hcj) as [Hcs|?]; [|done]. by apply (rv_users _ _ Hv i _ h s Hth Hh).
      - rewrite list_lookup_insert_ne in Hj by done. rewrite list_lookup_insert_ne in Hhj by done. by apply (rv_users _ _ Hv j th hj s). }
    destruct (Hk s ob Hob) as (ob' & Hob' & Eu). exists ob'. by rewrite Eu.
Qed.

(** The goroutine's part of an invariant that a request leaves alone. *)
Ltac kept := cbn [set_ho_locks set_ho_ids set_ho_claim set_ho_checked set_ho_clearing ho_locks ho_ids ho_claim ho_checked
    ho_clearing ho_pending];
  repeat match goal with
  | H : (?f <$> ?hs) !! ?i = Some ?v |- context [<[?i := ?v]> (?f <$> ?hs)] => rewrite (list_insert_id (f <$> hs) i v H)
  end; try done.

(** Requests that change nothing but what the goroutine knows. *)
Lemma reg_inv_same r hs i u e k h x h' :
  reg_inv r hs -> rg_threads r !! i = Some (mkGoroutine u (Vis e k)) -> hs !! i = Some h ->
  reg_next u h e x h' -> ho_locks h' = ho_locks h -> ho_claim h' = ho_claim h ->
  (forall s id, (s, id) ∈ ho_ids h' -> (s, id) ∈ ho_ids h \/ (so_Id <$> rg_objs r) !! s = Some id) ->
  files_inv (so_fds <$> rg_objs r) (rg_open r) (ho_locks <$> hs)
    (<[i := ho_clearing h']> (ho_clearing <$> hs)) (<[i := ho_pending h']> (ho_pending <$> hs)) ->
  (forall s, ho_checked h' = Some s -> ho_checked h = Some s \/ exists ob, rg_objs r !! s = Some ob /\ u = Some (so_Username ob)) ->
  reg_inv (set_threads (<[i := mkGoroutine u (k x)]> (rg_threads r)) r) (<[i := h']> hs).
Proof.
  intros Hv Hth Hh Hn El Ec Hids Hf Hc.
  assert ((ho_locks <$> hs) !! i = Some (ho_locks h)) by (by rewrite list_lookup_fmap, Hh).
  assert ((ho_claim <$> hs) !! i = Some (ho_claim h)) by (by rewrite list_lookup_fmap, Hh).
  eapply reg_inv_step; [done|done|done|done|done|..]; rewrite ?El, ?Ec; kept.
  - apply Hv.
  - eapply ids_learn; [apply Hv|by rewrite list_lookup_fmap, Hh|done].
  - intros s ob Hob. by exists ob.
Qed.

Lemma users_kept_same r r' : rg_objs r' = rg_objs r -> users_kept r r'.
Proof. intros E s ob Hob. exists ob. by rewrite E. Qed.

Lemma users_kept_new r m ob : users_kept r (set_sessions m (set_objs (rg_objs r ++ [ob]) r)).
Proof. intros s o Ho. exists o. split; [|done]. by apply lookup_app_l_Some. Qed.

(** Requests that change one field of a session that [p] is not. *)
Lemma lookup_proj {A} (p : sessobj -> A) r s ob : rg_objs r !! s = Some ob -> (p <$> rg_objs r) !! s = Some (p ob).
Proof. intros H. by rewrite list_lookup_fmap, H. Qed.

Lemma reg_inv_event o e r r' x new hs i u k h :
  reg_inv r hs -> rg_threads r !! i = Some (mkGoroutine u (Vis e k)) -> hs !! i = Some h ->
  (forall id, e = MapLoadOrStoreNil id -> forall ob, ob ∈ rg_objs r -> so_Id ob = id -> is_Some (rg_sessions r !! id)) ->
  (forall s, e <> TakeConn s) -> reg_answer o e r = Some (x, r', new) ->
  new = [] /\ exists h', reg_inv (set_threads (<[i := mkGoroutine u (k x)]> (rg_threads r')) r') (<[i := h']> hs).
Proof.
  intros Hv Hth Hh Hfresh Hnt Ha. destruct (Forall2_lookup_lr _ _ _ _ _ _ (rv_safe _ _ Hv) Hth Hh) as [Hpre _].
  assert ((ho_locks <$> hs) !! i = Some (ho_locks h)) as El by (by rewrite list_lookup_fmap, Hh).
  assert ((ho_ids <$> hs) !! i = Some (ho_ids h)) as Ei by (by rewrite list_lookup_fmap, Hh).
  assert ((ho_claim <$> hs) !! i = Some (ho_claim h)) as Ec by (by rewrite list_lookup_fmap, Hh).
  assert ((ho_clearing <$> hs) !! i = Some (ho_clearing h)) as Ecl by (by rewrite list_lookup_fmap, Hh).
  assert ((ho_pending <$> hs) !! i = Some (ho_pending h)) as Ep by (by rewrite list_lookup_fmap, Hh).
  pose proof (rv_files _ _ Hv) as HF. pose proof (rv_ids _ _ Hv) as HI. pose proof (rv_locks _ _ Hv) as HL.
  destruct (reg_pre_cases _ _ _ Hpre) as [(sfd & -> & Hp)|[Hp Hal]]; clear Hpre.
  { injection Ha as <- <- <-. split; [done|]. exists (set_ho_clearing (ho_clearing h) None h).
    eapply reg_inv_step; try done; kept; cbn; [|by apply users_kept_same|by auto].
    eapply files_close; [done|]. by rewrite Ep, Hp. }
  destruct e; cbn [reg_answer] in Ha; cbn [reg_allowed gr_user] in Hal; try done; try (by destruct (Hnt s)).
  - (* MapLoadOrStoreNil *)
    destruct (rg_sessions r !! id) eqn:Em; injection Ha as <- <- <-; (split; [done|]).
    + exists h. eapply reg_inv_same; try done; kept; auto.
    + exists (set_ho_claim (Some id) h). eapply reg_inv_step; try done; kept; [|by apply users_kept_same|by auto].
      apply ids_claim; [done|done| |by rewrite Ec, Hal].
      intros (ob & Hid & Hin)%list_elem_of_fmap. destruct (Hfresh id eq_refl ob Hin (eq_sym Hid)). congruence.
  - (* MapStoreNew *)
    injection Ha as <- <- <-. destruct Hal as [Hcl Hu]. split; [done|].
    exists (set_ho_claim None h). eapply reg_inv_step; try done; kept; cbn; rewrite ?fmap_app; [..|by apply users_kept_new|by auto].
    + by apply locks_session.
    + replace (length (rg_objs r)) with (length (so_Id <$> rg_objs r)) by apply length_fmap.
      apply ids_store; [done|]. by rewrite Ec, Hcl.
    + by apply files_session.
  - (* MapLoad *)
    injection Ha as <- <- <-. split; [done|]. destruct (rg_sessions r !! id) as [[s|]|] eqn:Em.
    + exists (set_ho_ids ({[(s, id)]} ∪ ho_ids h) h). eapply reg_inv_same; try done; kept; [|..|by auto].
      * split; [|done]. intros s' Hs'. eapply ii_inj; [exact HI|by eapply ii_known|by eapply ii_map].
      * intros s' id' Hin. apply elem_of_union in Hin as [[= -> ->]%elem_of_singleton|?]; [right|by left].
        by eapply ii_map.
    + exists h. eapply reg_inv_same; try done; kept; auto.
    + exists h. eapply reg_inv_same; try done; kept; auto.
  - (* MapDelete *)
    injection Ha as <- <- <-. destruct Hal as [_ (s & Hs & Hid)]. split; [done|].
    exists h. eapply reg_inv_step; try done; kept; [|by apply users_kept_same|by auto].
    cbn. by eapply ids_delete.
  - (* MapRange *)
    case_bool_decide; [|done]. injection Ha as <- <- <-. split; [done|].
    exists h. eapply reg_inv_same; try done; kept; auto.
  - (* Username *)
    injection Ha as <- <- <-. split; [done|]. destruct Hal as [id Hid].
    pose proof (ii_known _ _ _ _ HI _ _ _ _ Ei Hid) as Hs. rewrite list_lookup_fmap in Hs.
    destruct (rg_objs r !! s) as [ob|] eqn:Eo; [|done]. cbn.
    exists (if bool_decide (u = Some (so_Username ob)) then set_ho_checked (Some s) h else h).
    eapply reg_inv_same; try done; case_bool_decide; kept; auto.
    intros s' [= <-]. right. by exists ob.
  - (* LockTryLock *)
    destruct (rg_objs r !! s) as [ob|] eqn:Eo; [destruct (so_locked ob) eqn:Elk|]; injection Ha as <- <- <-; (split; [done|]).
    + exists h. eapply reg_inv_same; try done; kept; auto.
    + exists (set_ho_locks ({[s]} ∪ ho_locks h) h). eapply reg_inv_step; try done; kept; cbn; [| | |by apply users_kept_alter|by auto].
      * rewrite (proj_alter_set so_locked _ _ _ true) by done. apply locks_take; [done| |done].
        by rewrite (lookup_proj so_locked r s ob Eo), Elk.
      * by rewrite (proj_alter_same so_Id).
      * rewrite (proj_alter_same so_fds) by done. eapply files_locks; [done|done|left; set_solver].
    + exists h. eapply reg_inv_same; try done; kept; auto.
  - (* LockUnlock *)
    injection Ha as <- <- <-. destruct Hal as [Hs Hc]. split; [done|].
    exists (set_ho_locks (ho_locks h ∖ {[s]}) h). eapply reg_inv_step; try done; kept; cbn; [| | |by apply users_kept_alter|by auto].
    + rewrite (proj_alter_set so_locked _ _ _ false) by done. by apply locks_drop.
    + by rewrite (proj_alter_same so_Id).
    + rewrite (proj_alter_same so_fds) by done. eapply files_locks; [done|done|right; by rewrite Ecl, Hc].
  - (* InactiveAdd *)
    injection Ha as <- <- <-. split; [done|]. exists h. eapply reg_inv_step; try done; kept; cbn; [| | |by apply users_kept_alter|by auto].
    + by rewrite (proj_alter_same so_locked).
    + by rewrite (proj_alter_same so_Id).
    + by rewrite (proj_alter_same so_fds).
  - (* InactiveReset *)
    injection Ha as <- <- <-. split; [done|]. exists h. eapply reg_inv_step; try done; kept; cbn; [| | |by apply users_kept_alter|by auto].
    + by rewrite (proj_alter_same so_locked).
    + by rewrite (proj_alter_same so_Id).
    + by rewrite (proj_alter_same so_fds).
  - (* RangeFds *)
    injection Ha as <- <- <-. destruct Hal as [Hs Hc]. split; [done|].
    destruct (reg_inv_locked _ _ _ _ _ Hv Hh Hs) as (ob & Eo & _). rewrite Eo. cbn.
    exists (set_ho_clearing (clearing_of s (map_to_list (so_fds ob))) None h).
    eapply reg_inv_same; try done; kept; [by auto| |by auto].
    rewrite <-Hp. kept. eapply files_range; [done|done|done|by apply (lookup_proj so_fds)|done|by rewrite Ecl, Hc].
  - (* DeleteFd *)
    injection Ha as <- <- <-. destruct Hal as (sfd & l & Hc). split; [done|].
    destruct (fi_clearing _ _ _ _ _ HF i s ((fd, sfd) :: l)) as [_ (m & Hm & _)]; [by rewrite Ecl, Hc|].
    pose proof Hm as Hm'. rewrite list_lookup_fmap in Hm'. destruct (rg_objs r !! s) as [ob|] eqn:Eo; [|done].
    injection Hm' as <-. exists (set_ho_clearing (clearing_of s l) (Some sfd) h).
    eapply reg_inv_step; try done; kept; cbn; [by rewrite Hc| | | |by apply users_kept_alter|by auto].
    + by rewrite (proj_alter_same so_locked).
    + by rewrite (proj_alter_same so_Id).
    + rewrite (proj_alter_at so_fds _ _ _ ob) by done. cbn. eapply files_delete; [|done|by rewrite Ecl, Hc|by rewrite Ep, Hp|done].
      intros i1 i2 g1 g2 s'. apply (li_excl _ _ HL).
  - (* IdSourceNew *) injection Ha as <- <- <-. split; [done|]. exists h. eapply reg_inv_same; try done; kept; auto.
  - (* Accept *) injection Ha as <- <- <-. split; [done|]. exists h. eapply reg_inv_same; try done; kept; auto.
  - (* WriteHeader *) injection Ha as <- <- <-. split; [done|]. exists h. eapply reg_inv_same; try done; kept; auto.
  - (* ConnEnds *) injection Ha as <- <- <-. split; [done|]. exists h. eapply reg_inv_same; try done; kept; auto.
  - (* SleepScan *) injection Ha as <- <- <-. split; [done|]. exists h. eapply reg_inv_same; try done; kept; auto.
Qed.

(** ** Every action *)

Lemma reg_inv_spawn r hs th h :
  reg_inv r hs -> goroutine_safe th h -> ho_claim h = None -> ho_clearing h = None -> ho_pending h = None ->
  locks_inv (so_locked <$> rg_objs r) (ho_locks <$> hs ++ [h]) ->
  (forall s id, (s, id) ∈ ho_ids h -> (so_Id <$> rg_objs r) !! s = Some id) ->
  (forall s, ho_checked h = Some s -> exists ob, rg_objs r !! s = Some ob /\ gr_user th = Some (so_Username ob)) ->
  reg_inv (set_threads (rg_threads r ++ [th]) r) (hs ++ [h]).
Proof.
  intros [H1 H2 H3 H4 H5] Hs Hc Hcl Hp HL Hids Hu.
  split; cbn [rg_threads rg_objs rg_sessions rg_open set_threads]; try done.
  - apply Forall2_app; [done|]. by constructor.
  - rewrite !fmap_app. cbn. rewrite Hc. by apply ids_idle.
  - rewrite !fmap_app. cbn. rewrite Hcl, Hp. apply files_idle; [by rewrite !length_fmap|done].
  - intros j tj hj s Hj Hhj. pose proof (Forall2_length _ _ _ H1) as Hlen.
    apply lookup_app_Some in Hj as [Hj|[Hj1 Hj]]; apply lookup_app_Some in Hhj as [Hhj|[Hj2 Hhj]].
    + by eapply H5.
    + apply lookup_lt_Some in Hj. lia.
    + apply lookup_lt_Some in Hhj. lia.
    + apply list_lookup_singleton_Some in Hj as [_ <-]. apply list_lookup_singleton_Some in Hhj as [_ <-]. apply Hu.
Qed.

Lemma reg_inv_init fuel : reg_inv (registry_init fuel) [ho_nothing].
Proof.
  split; cbn [rg_threads rg_objs rg_sessions rg_open registry_init fmap list_fmap].
  - constructor; [|constructor]. by apply rwp_collector.
  - split; [|by intros [] []; naive_solver]. intros s. split; [done|]. intros ([|i] & g & Hg & Hs); [|done].
    injection Hg as <-. by apply elem_of_empty in Hs.
  - split; try done; intros [|i]; try done. intros k s id [= <-] Hin. by apply elem_of_empty in Hin.
  - split; try done; intros [|i]; try done; set_solver.
  - by intros [|i] th h s Hth [= <-] Hc.
Qed.

(** takeConn: the lock goes to the goroutine of the connection. *)
Lemma reg_inv_take r hs i u s k h :
  reg_inv r hs -> rg_threads r !! i = Some (mkGoroutine u (Vis (TakeConn s) k)) -> hs !! i = Some h ->
  let id := default [] (so_Id <$> rg_objs r !! s) in
  reg_inv (set_threads (<[i := mkGoroutine u (k tt)]> (rg_threads r) ++ [mkGoroutine u (connection s id)]) r)
    (<[i := set_ho_locks (ho_locks h ∖ {[s]}) h]> hs ++ [ho_connection s id]).
Proof.
  intros Hv Hth Hh id. destruct (Forall2_lookup_lr _ _ _ _ _ _ (rv_safe _ _ Hv) Hth Hh) as [Hpre Hw].
  destruct (reg_pre_cases _ _ _ Hpre) as [(? & ? & _)|[Hp (Hs & Hcl & Hck)]]; [done|]. clear Hpre.
  pose proof (Forall2_length _ _ _ (rv_safe _ _ Hv)) as Hlen.
  pose proof (lookup_lt_Some _ _ _ Hth). pose proof (lookup_lt_Some _ _ _ Hh).
  assert ((ho_locks <$> hs) !! i = Some (ho_locks h)) as El by (by rewrite list_lookup_fmap, Hh).
  assert ((ho_ids <$> hs) !! i = Some (ho_ids h)) as Ei by (by rewrite list_lookup_fmap, Hh).
  assert ((ho_claim <$> hs) !! i = Some (ho_claim h)) as Ec by (by rewrite list_lookup_fmap, Hh).
  assert ((ho_clearing <$> hs) !! i = Some (ho_clearing h)) as Ecl by (by rewrite list_lookup_fmap, Hh).
  assert ((ho_pending <$> hs) !! i = Some (ho_pending h)) as Ep by (by rewrite list_lookup_fmap, Hh).
  destruct (rv_users _ _ Hv i _ h s Hth Hh Hck) as (ob & Hob & Hu).
  assert (id = so_Id ob) as Eid by (unfold id; by rewrite Hob).
  split; cbn [rg_threads rg_objs rg_sessions rg_open set_threads]; rewrite ?fmap_app, ?list_fmap_insert; kept.
  - apply Forall2_app; [apply Forall2_insert; [apply Hv|by apply Hw]|]. constructor; [|done]. simpl in Hu. subst u.
    eapply wp_mono; [apply rwp_connection|done].
  - apply locks_hand_over; [apply Hv|done|done].
  - apply ids_idle; [apply Hv|]. intros s' id' Hin. cbn in Hin. apply elem_of_singleton in Hin as [= -> ->]. by rewrite list_lookup_fmap, Hob, Eid.
  - apply files_idle; [by rewrite length_insert, !length_fmap|].
    eapply files_locks; [apply Hv|done|right; by rewrite Ecl, Hcl].
  - intros j th hj s' Hj Hhj Hcj. apply lookup_app_Some in Hj as [Hj|[Hj1 Hj]]; apply lookup_app_Some in Hhj as [Hhj|[Hj2 Hhj]].
    + destruct (decide (j = i)) as [->|Hne].
      * rewrite list_lookup_insert_eq in Hj by done. rewrite list_lookup_insert_eq in Hhj by done.
        injection Hj as <-. injection Hhj as <-. exact (rv_users _ _ Hv i _ h s' Hth Hh Hcj).
      * rewrite list_lookup_insert_ne in Hj by done. rewrite list_lookup_insert_ne in Hhj by done. by eapply (rv_users _ _ Hv).
    + apply lookup_lt_Some in Hj. rewrite !length_insert in *. lia.
    + apply lookup_lt_Some in Hhj. rewrite !length_insert in *. lia.
    + apply list_lookup_singleton_Some in Hj as [_ <-]. apply list_lookup_singleton_Some in Hhj as [_ <-].
      injection Hcj as <-. by exists ob.
Qed.

Lemma serves_spec r i s : serves r i = Some s -> exists u k, rg_threads r !! i = Some (mkGoroutine u (Vis (ConnEnds s) k)).
Proof.
  unfold serves. destruct (rg_threads r !! i) as [[u [|[] k| |]]|]; try done. intros [= ->]. by exists u, k.
Qed.

(** A goroutine that serves a connection holds the lock of its session. *)
Lemma reg_inv_serves r hs i s :
  reg_inv r hs -> serves r i = Some s ->
  exists u k h, rg_threads r !! i = Some (mkGoroutine u (Vis (ConnEnds s) k)) /\ hs !! i = Some h /\
    s ∈ ho_locks h /\ closes_nothing h /\ ho_checked h = Some s.
Proof.
  intros Hv (u & k & Hth)%serves_spec. destruct (Forall2_lookup_l _ _ _ _ _ (rv_safe _ _ Hv) Hth) as (h & Hh & [Hpre _]).
  destruct (reg_pre_cases _ _ _ Hpre) as [(? & ? & _)|[Hp (Hs & Hcl & Hck)]]; [done|]. by exists u, k, h.
Qed.

(** A command changes the table of the session whose lock the goroutine holds. *)
Lemma reg_inv_table r hs s ob m o :
  reg_inv r hs -> rg_objs r !! s = Some ob ->
  files_inv (<[s := m]> (so_fds <$> rg_objs r)) o (ho_locks <$> hs) (ho_clearing <$> hs) (ho_pending <$> hs) ->
  reg_inv (set_open o (set_objs (alter (so_set_fds m) s (rg_objs r)) r)) hs.
Proof.
  intros [H1 H2 H3 H4 H5] Hob Hf. split; cbn [rg_threads rg_objs rg_sessions rg_open set_open set_objs]; try done.
  - by rewrite (proj_alter_same so_locked).
  - by rewrite (proj_alter_same so_Id).
  - by rewrite (proj_alter_set so_fds _ _ _ m).
  - intros i th h s' Hth Hh Hc. destruct (H5 i th h s' Hth Hh Hc) as (ob' & Hob' & Hu).
    destruct (users_kept_alter r (so_set_fds m) s (fun o => eq_refl) s' ob' Hob') as (ob2 & ? & ?). exists ob2. split; [done|]. congruence.
Qed.

Lemma reg_inv_act fuel a r r' hs :
  reg_inv r hs -> ids_fresh r a -> reg_act fuel a r = Some r' -> exists hs', reg_inv r' hs'.
Proof.
  intros Hv Hfresh Ha. destruct a as [user resume|i o|i s fd sfd|i s fd]; cbn [reg_act] in Ha.
  - injection Ha as <-. exists (hs ++ [ho_nothing]). apply reg_inv_spawn; try done.
    + eapply wp_mono; [by apply rwp_handler|done].
    + rewrite fmap_app. apply locks_idle, Hv.
  - destruct (rg_threads r !! i) as [[u [|e k| |]]|] eqn:Hth; try done.
    destruct (reg_answer o e r) as [[[x r1] new]|] eqn:Hans; [|done]. injection Ha as <-.
    destruct (Forall2_lookup_l _ _ _ _ _ (rv_safe _ _ Hv) Hth) as (h & Hh & _).
    assert ((exists s, e = TakeConn s) \/ forall s, e <> TakeConn s) as [[s ->]|Hnt]
      by (destruct e; first [by right|left; by eexists]).
    + injection Hans as <- <- <-. eexists. by apply reg_inv_take.
    + destruct (reg_inv_event o e r r1 x new hs i u k h) as [-> [h' Hv']]; try done.
      * intros id -> ob. by eapply Hfresh.
      * exists (<[i := h']> hs). cbn [map]. by rewrite app_nil_r.
  - destruct (rg_objs r !! s) as [ob|] eqn:Hob; [|done]. case_bool_decide as Hc; [|done]. destruct Hc as (Hs & Hfd & Ho).
    injection Ha as <-. exists hs. destruct (reg_inv_serves _ _ _ _ Hv Hs) as (u & k & h & _ & Hh & Hin & [Hcl _] & _).
    eapply reg_inv_table; [done|done|]. eapply (files_insert _ _ _ _ _ i (ho_locks h)); [|apply Hv|..]; try done.
    + intros i1 i2 g1 g2 s'. apply (li_excl _ _ (rv_locks _ _ Hv)).
    + by rewrite list_lookup_fmap, Hh.
    + rewrite list_lookup_fmap, Hh. cbn. by rewrite Hcl.
    + by apply (lookup_proj so_fds).
  - destruct (rg_objs r !! s) as [ob|] eqn:Hob; [|done]. case_bool_decide as Hs; [|done].
    destruct (so_fds ob !! fd) as [sfd|] eqn:Hfd; [|done]. injection Ha as <-. exists hs.
    destruct (reg_inv_serves _ _ _ _ Hv Hs) as (u & k & h & _ & Hh & Hin & [Hcl Hp] & _).
    eapply reg_inv_table; [done|done|]. eapply (files_remove _ _ _ _ _ i (ho_locks h)); [|apply Hv|..]; try done.
    + intros i1 i2 g1 g2 s'. apply (li_excl _ _ (rv_locks _ _ Hv)).
    + by rewrite list_lookup_fmap, Hh.
    + rewrite list_lookup_fmap, Hh. cbn. by rewrite Hcl.
    + rewrite list_lookup_fmap, Hh. cbn. by rewrite Hp.
    + by apply (lookup_proj so_fds).
Qed.

Lemma registry_reachable_inv fuel r : registry_reachable fuel r -> exists hs, reg_inv r hs.
Proof.
  induction 1 as [|r a r' _ [hs IH] Hf Ha]; [eexists; apply reg_inv_init|]. by eapply reg_inv_act.
Qed.
