(* ===== verification/ServerHttp.v ===== *)
(** * Users and routing of HTTP requests

    server/storage/users.go, server/user.go, Server.ServeHTTP of server/server.go
    and TryServerHTTP of server/wsfs/handler.go: who a request comes from and which
    handler gets it. The credentials req.BasicAuth finds and the query are given
    with the request; bcrypt is a parameter. *)
From S2P Require Import Prelude GoIO Paths ServerRegistry.

(** ** storage/users.go *)

Record config_Storage := mkConfigStorage { cs_Id : gostring; cs_Path : gostring; cs_ReadOnly : bool }.
Record config_User := mkConfigUser { cu_Name : gostring; cu_SecretHash : gostring; cu_ReadOnly : bool; cu_Storage : gostring }.
Record config_Anonymous := mkConfigAnonymous { ca_Enable : bool; ca_ReadOnly : bool; ca_Storage : gostring }.

(** storage.User: [su_Path] is the path of its storage. *)
Record storage_User := mkStorageUser { su_Name : gostring; su_Password : gostring; su_ReadOnly : bool; su_Path : gostring }.

Inductive users_error :=
| StorageRepeated (id : gostring)
| UserRepeated (name : gostring)
| UsernameEmpty
| StorageMissing (name : gostring)
| AnonymousStorageMissing.

(** The path and the read-only flag of each storage. *)
Fixpoint collect_storages (cwd : gostring) (l : list config_Storage) (m : gmap gostring (gostring * bool))
  : result users_error (gmap gostring (gostring * bool)) :=
  match l with
  | [] => Ok m
  | st :: l' =>
      match m !! cs_Id st with
      | Some _ => Err (StorageRepeated (cs_Id st))
      | None => collect_storages cwd l' (<[cs_Id st := (NewStorage_Path cwd (cs_Path st), cs_ReadOnly st)]> m)
      end
  end.

Fixpoint collect_users (storages : gmap gostring (gostring * bool)) (l : list config_User) (users : gmap gostring storage_User)
  : result users_error (gmap gostring storage_User) :=
  match l with
  | [] => Ok users
  | us :: l' =>
      match users !! cu_Name us with
      | Some _ => Err (UserRepeated (cu_Name us))
      | None =>
          if bool_decide (cu_Name us = []) then Err UsernameEmpty
          else
            match storages !! cu_Storage us with
            | None => Err (StorageMissing (cu_Name us))
            | Some (path, ro) =>
                collect_users storages l'
                  (<[cu_Name us := mkStorageUser (cu_Name us) (cu_SecretHash us) (ro || cu_ReadOnly us) path]> users)
            end
      end
  end.

(** The users and the anonymous user. *)
Definition NewUsers (cwd : gostring) (st : list config_Storage) (us : list config_User) (an : config_Anonymous)
  : result users_error (gmap gostring storage_User * option storage_User) :=
  match collect_storages cwd st ∅ with
  | Err e => Err e
  | Ok storages =>
      match collect_users storages us ∅ with
      | Err e => Err e
      | Ok users =>
          if ca_Enable an then
            match storages !! ca_Storage an with
            | None => Err AnonymousStorageMissing
            | Some (path, ro) => Ok (users, Some (mkStorageUser (str "<anonymous>") [] (ro || ca_ReadOnly an) path))
            end
          else Ok (users, None)
      end
  end.

(** ** user.go *)

Definition anonymousUsername : gostring := str "anonymous".

Inductive auth_error := ErrBadHttpAuthHeader | ErrUserNotExists | ErrHashMismatch | ErrAuthHeaderNotExists | ErrAnonymous | ErrBcrypt.

(** What bcrypt.CompareHashAndPassword returns: nil, ErrMismatchedHashAndPassword
    or something else. *)
Inductive comparison := Matches | Mismatched | Failed.

(** A request: Header.Values, the query's Has, req.BasicAuth. *)
Record http_request := mkHttpRequest {
  hr_Method : gostring;
  hr_Path : gostring;
  hr_Values : gostring -> list gostring;
  hr_query : gostring -> bool;
  hr_BasicAuth : option (gostring * gostring);
}.
Definition hr_Get (req : http_request) (key : gostring) : gostring := default [] (head (hr_Values req key)).

(** Server: which handlers it has. *)
Record server := mkServer {
  sv_webui : bool;
  sv_webdav : bool;
  sv_wsfs : bool;
  sv_users : gmap gostring storage_User;
  sv_anonymous : option storage_User;
}.

(** What becomes of a request. *)
Inductive response :=
| ServeErrorPage (status : Z)
| ServeError
| ServeErrorMessage (status : Z)
| AuthRsp (* 401 *)
| MethodNotAllow
| ServeAssets
| WsfsHandler (user : storage_User) (resume : gostring)
| ServeList (user : storage_User)
| WebdavHandler (user : storage_User).

Section Server.
Context (compare : gostring -> gostring -> comparison).

Definition checkPassword (user : storage_User) (password : gostring) : option auth_error :=
  match compare (su_Password user) password with
  | Matches => None
  | Mismatched => Some ErrHashMismatch
  | Failed => Some ErrBcrypt
  end.

Definition authUser (users : gmap gostring storage_User) (username password : gostring)
  : option storage_User * option auth_error :=
  match users !! username with
  | None => (None, Some (if bool_decide (username = anonymousUsername) then ErrAnonymous else ErrUserNotExists))
  | Some user => (Some user, checkPassword user password)
  end.

Definition httpBasicAuth (users : gmap gostring storage_User) (req : http_request)
  : option storage_User * option auth_error :=
  if bool_decide (hr_Get req (str "Authorization") = []) then (None, Some ErrAuthHeaderNotExists)
  else
    match hr_BasicAuth req with
    | None => (None, Some ErrBadHttpAuthHeader)
    | Some (username, password) => authUser users username password
    end.

(** The user, or the response that was written. *)
Definition tryAuth (s : server) (req : http_request) : response + storage_User :=
  match httpBasicAuth (sv_users s) req with
  | (Some user, None) => inr user
  | (None, None) => inl AuthRsp (* never: without an error there is a user *)
  | (_, Some (ErrAuthHeaderNotExists | ErrAnonymous)) =>
      match sv_anonymous s with
      | Some anonymous => if negb (hr_query req (str "must-login")) then inr anonymous else inl AuthRsp
      | None => inl AuthRsp
      end
  | (_, Some (ErrBadHttpAuthHeader | ErrUserNotExists | ErrHashMismatch)) => inl AuthRsp
  | (_, Some ErrBcrypt) => inl ServeError
  end.

(** ** wsfs/handler.go *)

Definition headerContainsToken (req : http_request) (key want : gostring) : bool :=
  existsb (fun value => existsb (fun token => EqualFold (TrimSpace token) want) (Split value (byte_of_Z 44))) (hr_Values req key).

Definition isWebSocketUpgrade (req : http_request) : bool :=
  headerContainsToken req (str "Connection") (str "Upgrade") && headerContainsToken req (str "Upgrade") (str "websocket").

(** [None]: not handled. *)
Definition TryServerHTTP (req : http_request) (user : storage_User) (forced : bool) : option response :=
  if negb (isWebSocketUpgrade req) then if forced then Some (ServeErrorMessage 400) else None
  else if su_ReadOnly user then Some (ServeErrorMessage 403)
  else Some (WsfsHandler user (hr_Get req (str "X-Wsfs-Resume"))).

(** ** server.go *)

Definition is_get (req : http_request) : bool :=
  bool_decide (hr_Method req = str "GET") || bool_decide (hr_Method req = str "HEAD").

(** The handlers of files, after the WSFS handler. *)
Definition serve_files (s : server) (req : http_request) (user : storage_User) : response :=
  if sv_webui s && HasSuffix (hr_Path req) (str "/") && is_get req then ServeList user
  else if sv_webdav s then WebdavHandler user
  else MethodNotAllow.

Definition Server_ServeHTTP (s : server) (req : http_request) : response :=
  if negb (IsUrlValid (hr_Path req)) then ServeErrorPage 400
  else if hr_query req (str "webui-assets") && sv_webui s then
    if negb (is_get req) then MethodNotAllow else ServeAssets
  else
    match tryAuth s req with
    | inl rsp => rsp
    | inr user =>
        if sv_wsfs s then
          match TryServerHTTP req user (hr_query req (str "wsfs")) with
          | Some rsp => rsp
          | None => serve_files s req user
          end
        else if hr_query req (str "wsfs") then MethodNotAllow
        else serve_files s req user
    end.
End Server.
