(* ===== verification/ServerWebdav.v ===== *)
(** * WebDAV (server/webdav)

    handler.go, files.go, range.go, depth.go and dest.go: the methods of the HTTP
    face of a storage, as programs of requests to the operating system (package
    os), the request's body and the response. Templates, logging and the functions
    of net/http that write a response are requests; url.Parse and the query are
    given with the request. *)
From S2P Require Import Prelude GoIO Prog Paths ServerRegistry.

(** ** The outside *)

(** Errors as os.IsNotExist and os.IsPermission see them. *)
Inductive oserr := ErrNotExist | ErrPermission | ErrOther.

Definition IsNotExist (e : oserr) : bool := match e with ErrNotExist => true | _ => false end.
Definition IsPermission (e : oserr) : bool := match e with ErrPermission => true | _ => false end.

(** The os.FileInfo the package uses, bits of os.FileMode. *)
Definition ModeDir : Z := 2 ^ 31.
Definition ModeSymlink : Z := 2 ^ 27.
Definition ModePerm : Z := 511.
Record osinfo := mkOsinfo { oi_Name : gostring; oi_Mode : Z; oi_Size : Z }.
Definition oi_IsDir (fi : osinfo) : bool := negb (Z.land (oi_Mode fi) ModeDir =? 0).

(** How os.OpenFile is called. *)
Inductive omode := ReadOnly | WriteOnly | Truncate (perm : Z).

Inductive whence := SeekStart | SeekEnd.

Inductive dev : Type :=
| DStat (p : gostring)
| DOpen (p : gostring) (m : omode)
| DFstat (f : nat)
| DReaddir (f : nat) (n : Z)
| DClose (f : nat)
| DRemoveAll (p : gostring)
| DRename (a b : gostring)
| DMkdir (p : gostring) (perm : Z)
| DCopyBody (f : nat) (* io.Copy(f, req.Body) *)
| DCopyFile (dst src : nat)
| DSeek (f : nat) (off : Z) (w : whence)
| DFsSize (p : gostring)
(* the response *)
| DHeader (key value : gostring)
| DWriteHeader (status : Z)
| DWrite (what : gostring)
| DServeContent (p : gostring) (f : nat)
| DServeError (e : oserr)
| DPropfindBegin
| DPropOK (path : gostring) (fi : osinfo) (total avail : Z)
| DPropBad (path : gostring) (status : Z)
| DPropfindEnd.

(** Readdir returns entries and an error, [None] for none and [Some None] for
    io.EOF. *)
Definition dans (e : dev) : Type :=
  match e with
  | DStat _ | DFstat _ => result oserr osinfo
  | DOpen _ _ => result oserr nat
  | DReaddir _ _ => list osinfo * option (option oserr)
  | DClose _ | DRemoveAll _ | DRename _ _ | DMkdir _ _ | DCopyBody _ | DCopyFile _ _ => option oserr
  | DFsSize _ => result oserr (Z * Z)
  | _ => unit
  end.

Abbreviation DP := (prog dans).
Abbreviation os e := (trigger (ans := dans) e).

(** An error a handler returns; it is only logged or compared with nil. *)
Inductive werr :=
| OsErr (e : oserr)
| ErrExist
| errNoDestinationHeader
| errDestinationHostDifferent
| errDestinationEqualsSource
| errInvalidDepth
| errInvalidDestination
| errRecursionTooDeep
| errParse.

(** [(status int, err error)]. *)
Abbreviation status := (Z * option werr)%type.

(** ** The request *)

(** Headers by their canonical keys; the Destination header as url.Parse reads it
    ([None]: it fails); the value of the query parameter download. *)
Record request := mkRequest {
  rq_Method : gostring;
  rq_Path : gostring;
  rq_Host : gostring;
  rq_Header : gostring -> gostring; (* Header.Get *)
  rq_ContentLength : Z;
  rq_download : option gostring;
  rq_destination : option (gostring * gostring); (* host and path *)
}.

(** ** depth.go, range.go, dest.go *)

Definition infiniteDepth : Z := -1.
Definition invalidDepth : Z := -2.

Definition parseDepth (s : gostring) : Z :=
  if bool_decide (s = str "0") then 0
  else if bool_decide (s = str "1") then 1
  else if bool_decide (s = str "infinity") then infiniteDepth
  else invalidDepth.

Definition is_digit (b : byte) : bool := (48 <=? byte_val b) && (byte_val b <=? 57).

(** The longest prefix of digits and the rest. *)
Fixpoint digits (s : gostring) : gostring * gostring :=
  match s with
  | b :: s' => if is_digit b then let '(d, r) := digits s' in (b :: d, r) else ([], s)
  | [] => ([], [])
  end.

Definition minus : byte := x2d.

(** [(-\d+)?]: its text and the rest. *)
Definition match_end (s : gostring) : gostring * gostring :=
  match s with
  | b :: s' =>
      if bool_decide (b = minus) then
        match digits s' with
        | ([], _) => ([], s)
        | (d, r) => (minus :: d, r)
        end
      else ([], s)
  | [] => ([], [])
  end.

(** [bytes=(-?\d+)(-\d+)?] at the beginning of [s]: the groups and the rest. *)
Definition match_range (s : gostring) : option (gostring * gostring * gostring) :=
  if HasPrefix s (str "bytes=") then
    let s := drop 6 s in
    let '(sign, s) := match s with
      | b :: s' => if bool_decide (b = minus) then ([minus], s') else ([], s)
      | [] => ([], [])
      end in
    match digits s with
    | ([], _) => None
    | (d, r) => let '(e, r') := match_end r in Some (sign ++ d, e, r')
    end
  else None.

(** rangeExp.FindAllStringSubmatch(s, -1): the matches from left to right; [n] is
    at least the length of [s]. *)
Fixpoint FindAll (n : nat) (s : gostring) : list (gostring * gostring) :=
  match n with
  | O => []
  | S n' =>
      match match_range s with
      | Some (a, e, r) => (a, e) :: FindAll n' r
      | None => match s with [] => [] | _ :: s' => FindAll n' s' end
      end
  end.

(** strconv.ParseInt(s, 10, 64) of an optional minus and digits: the value and
    whether it fits; what does not fit is cut off. *)
Definition dec_value (d : gostring) : Z := foldl (fun n b => 10 * n + (byte_val b - 48)) 0 d.
Definition ParseInt (s : gostring) : Z * bool :=
  let v := match s with b :: d => if bool_decide (b = minus) then - dec_value d else dec_value s | [] => 0 end in
  if 2 ^ 63 <=? v then (2 ^ 63 - 1, false)
  else if v <? - 2 ^ 63 then (- 2 ^ 63, false)
  else (v, true).

Definition parseRange (s : gostring) : option (Z * Z) :=
  if bool_decide (s = str "append") then Some (0, -1)
  else
    match FindAll (S (length s)) s with
    | [(a, e)] =>
        match e with
        | _ :: e' =>
            let '(start, ok1) := ParseInt a in
            let '(end_, ok2) := ParseInt e' in
            if negb ok1 || negb ok2 || (end_ <? start) || (start <? 0) then None else Some (start, end_)
        | [] => Some ((ParseInt a).1, 0)
        end
    | _ => None
    end.

(** The path, the destination and the error. *)
Definition getPathAndDest (root : gostring) (req : request) : gostring * gostring * option werr :=
  let path := root ++ rq_Path req in
  if bool_decide (rq_Header req (str "Destination") = []) then (path, [], Some errNoDestinationHeader)
  else
    match rq_destination req with
    | None => (path, [], Some errParse)
    | Some (host, dpath) =>
        if negb (bool_decide (host = [])) && negb (bool_decide (rq_Host req = [])) && negb (bool_decide (host = rq_Host req))
        then (path, [], Some errDestinationHostDifferent)
        else if negb (IsUrlValid dpath) then (path, [], Some errInvalidDestination)
        else
          let dest := root ++ dpath in
          (path, dest, if bool_decide (path = dest) then Some errDestinationEqualsSource else None)
    end.

(** ** files.go *)

(** [src[len(src)-1] != '/' && dst[len(dst)-1] == '/'] and the removal of the
    slash; the index panics on an empty string. *)
Definition trim_dst (src dst : gostring) : DP gostring :=
  match last src with
  | None => Panic
  | Some s =>
      if bool_decide (s = slash) then mret dst
      else match last dst with
           | None => Panic
           | Some d => mret (if bool_decide (d = slash) then take (length dst - 1) dst else dst)
           end
  end.

Definition moveFiles (src dst : gostring) (overwrite : bool) : DP status :=
  st ← os (DStat dst);
  (* Some: go on, with the file created *)
  r ← match st with
      | Err e => mret (if negb (IsNotExist e) then inl (403, Some (OsErr e)) else inr (dst, true))
      | Ok _ =>
          if overwrite then
            err ← os (DRemoveAll dst);
            match err with
            | Some e => mret (inl (403, Some (OsErr e)))
            | None => dst ← trim_dst src dst; mret (inr (dst, false))
            end
          else mret (inl (412, Some ErrExist))
      end;
  match r with
  | inl ret => mret ret
  | inr (dst, created) =>
      err ← os (DRename src dst);
      match err with
      | Some e => mret (403, Some (OsErr e))
      | None => mret (if created : bool then 201 else 204, None)
      end
  end.

Definition recursionMax : nat := 256.

(** The part of copyFiles that prepares the destination: the status to return, or
    whether the destination is new. *)
Definition copy_prepare (dst : gostring) (overwrite : bool) : DP (status + bool) :=
  st ← os (DStat dst);
  match st with
  | Err e => mret (if IsNotExist e then inr true else inl (403, Some (OsErr e)))
  | Ok _ =>
      if negb overwrite then mret (inl (412, Some ErrExist))
      else
        err ← os (DRemoveAll dst);
        mret (match err with
              | Some e => if negb (IsNotExist e) then inl (403, Some (OsErr e)) else inr false
              | None => inr false
              end)
  end.

(** The contents of a file. *)
Definition copy_contents (srcFile : nat) (dst : gostring) (srcPerm : Z) : DP (option status) :=
  r ← os (DOpen dst (Truncate srcPerm));
  match r with
  | Err e => mret (Some (if IsNotExist e then 409 else 403, Some (OsErr e)))
  | Ok dstFile =>
      copyErr ← os (DCopyFile dstFile srcFile);
      closeErr ← os (DClose dstFile);
      mret (match copyErr, closeErr with
            | Some e, _ => Some (500, Some (OsErr e))
            | None, Some e => Some (500, Some (OsErr e))
            | None, None => None
            end)
  end.

(** [for _, c := range children]: a failed child ends the copy. *)
Fixpoint copy_children (copy : gostring -> gostring -> DP status) (src dst : gostring) (children : list osinfo)
  : DP (option status) :=
  match children with
  | [] => mret None
  | c :: children' =>
      r ← copy (Join src (oi_Name c)) (Join dst (oi_Name c));
      match r.2 with
      | Some _ => mret (Some r)
      | None => copy_children copy src dst children'
      end
  end.

(** [n] is recursionMax - recursion. *)
Fixpoint copyFiles (n : nat) (src dst : gostring) (overwrite : bool) (depth : Z) : DP status :=
  match n with
  | O => mret (500, Some errRecursionTooDeep)
  | S n' =>
      r ← os (DOpen src ReadOnly);
      match r with
      | Err e => mret (if IsNotExist e then 404 else 500, Some (OsErr e))
      | Ok srcFile =>
          st ← os (DFstat srcFile);
          ret ← match st with
                | Err e => mret (if IsNotExist e then 404 else 500, Some (OsErr e))
                | Ok srcStat =>
                    let srcPerm := Z.land (oi_Mode srcStat) ModePerm in
                    r ← copy_prepare dst overwrite;
                    match r with
                    | inl ret => mret ret
                    | inr created =>
                        dst ← trim_dst src dst;
                        failed ←
                          (if oi_IsDir srcStat then
                             err ← os (DMkdir dst srcPerm);
                             match err with
                             | Some e => mret (Some (403, Some (OsErr e)))
                             | None =>
                                 if depth =? infiniteDepth then
                                   children ← os (DReaddir srcFile (-1));
                                   match children.2 with
                                   | Some e => mret (Some (403, Some (OsErr (default ErrOther e))))
                                   | None =>
                                       copy_children (fun s d => copyFiles n' s d overwrite depth) src dst children.1
                                   end
                                 else mret None
                             end
                           else copy_contents srcFile dst srcPerm);
                        mret (match failed with
                              | Some ret => ret
                              | None => (if created : bool then 201 else 204, None)
                              end)
                    end
                end;
          os (DClose srcFile) ;;
          mret ret
      end
  end.

(** The entries of one Readdir; directories are walked with [walk]. *)
Fixpoint walk_entries (walk : gostring -> osinfo -> DP (option werr))
    (walkFn : gostring -> osinfo -> option oserr -> DP (option werr)) (fullpath path_ : gostring)
    (infos : list osinfo) : DP unit :=
  match infos with
  | [] => mret tt
  | fi :: infos' =>
      passfi ← (if negb (Z.land (oi_Mode fi) ModeSymlink =? 0) then
                  r ← os (DStat (Join fullpath (oi_Name fi)));
                  mret (match r with Ok realfi => realfi | Err _ => fi end)
                else mret fi);
      (if oi_IsDir fi then walk (Join path_ (oi_Name fi)) passfi
       else walkFn (Join path_ (oi_Name fi)) passfi None) ;;
      walk_entries walk walkFn fullpath path_ infos'
  end.

Definition walkFsBuffer : Z := 16.

(** [n] bounds how deep directories are nested, [fuel] how many times one is
    read. *)
Fixpoint walkFS (n fuel : nat) (depth : Z) (base path_ : gostring) (info : osinfo)
    (walkFn : gostring -> osinfo -> option oserr -> DP (option werr)) : DP (option werr) :=
  match n with
  | O => Diverge
  | S n' =>
      err ← walkFn path_ info None;
      match err with
      | Some e => mret (Some e)
      | None =>
          if depth =? 0 then mret None
          else
            let fullpath := Join base path_ in
            r ← os (DOpen fullpath ReadOnly);
            match r with
            | Err e => walkFn path_ info (Some e) ;; mret (Some (OsErr e))
            | Ok f =>
                ret ← loop fuel (fun _ : unit =>
                  r ← os (DReaddir f walkFsBuffer);
                  match r.2 with
                  | Some (Some e) => walkFn path_ info (Some e) ;; mret (inr (Some (OsErr e)))
                  | eof =>
                      walk_entries (fun p fi => walkFS n' fuel (depth - 1) base p fi walkFn) walkFn fullpath path_ r.1 ;;
                      mret (match eof with Some None => inr None | _ => inl tt end)
                  end) tt;
                os (DClose f) ;;
                mret ret
            end
      end
  end.

(** ** handler.go *)

Record handler := mkHandler { enableWebui : bool; allowPropfindInfDepth : bool; enableContentTypeProbe : bool }.

Section Handler.
Context (h : handler) (root : gostring) (n fuel : nat).

Definition handleOptions (req : request) (readOnly : bool) : DP status :=
  st ← os (DStat (root ++ rq_Path req));
  let allowed := match st with
    | Ok fi =>
        inr (if oi_IsDir fi then
               str "OPTIONS, PROPFIND" ++ (if negb readOnly then str ", DELETE, PROPPATCH, COPY, MOVE" else []) ++
               (if enableWebui h then str ", GET" else [])
             else
               str "OPTIONS, GET, HEAD, PROPFIND" ++
               (if negb readOnly then str ", DELETE, PROPPATCH, COPY, MOVE, PUT, PATCH" else []))
    | Err e =>
        if IsNotExist e then inr (str "OPTIONS" ++ (if negb readOnly then str ", PUT, MKCOL" else []))
        else if IsPermission e then inl (403, None)
        else inl (500, Some (OsErr e))
    end in
  match allowed with
  | inl ret => mret ret
  | inr allow =>
      os (DHeader (str "Allow") allow) ;;
      os (DHeader (str "DAV") (str "1, sabredav-partialupdate")) ;;
      os (DHeader (str "MS-Author-Via") (str "DAV")) ;;
      mret (200, None)
  end.

Definition handleGetHead (req : request) : DP status :=
  let path := root ++ rq_Path req in
  r ← os (DOpen path ReadOnly);
  match r with
  | Err e => os (DServeError e) ;; mret (0, None)
  | Ok f =>
      st ← os (DFstat f);
      ret ← match st with
            | Err e => mret (500, Some (OsErr e))
            | Ok fi =>
                if oi_IsDir fi then mret (405, None)
                else
                  match rq_download req with
                  | Some dqtext =>
                      if bool_decide (dqtext = str "false") || bool_decide (dqtext = str "0")
                      then os (DHeader (str "Content-Disposition") (str "inline"))
                      else os (DHeader (str "Content-Disposition") (str "attachment"))
                  | None => mret tt
                  end ;;
                  (if negb (enableContentTypeProbe h)
                   then os (DHeader (str "Content-Type") (str "application/octet-stream")) else mret tt) ;;
                  os (DServeContent path f) ;;
                  mret (0, None)
            end;
      os (DClose f) ;;
      mret ret
  end.

Definition handleDelete (req : request) : DP status :=
  let path := root ++ rq_Path req in
  st ← os (DStat path);
  match st with
  | Err e => mret (if IsNotExist e then (404, None) else if IsPermission e then (403, None) else (500, Some (OsErr e)))
  | Ok _ =>
      err ← os (DRemoveAll path);
      mret (match err with
            | Some e => if IsPermission e then (403, None) else (500, Some (OsErr e))
            | None => (204, None)
            end)
  end.

(** io.Copy from the body and Close, of handlePut and handlePatch. *)
Definition write_body (f : nat) (ok : Z) : DP status :=
  copyErr ← os (DCopyBody f);
  closeErr ← os (DClose f);
  mret (match copyErr, closeErr with
        | Some e, _ => (500, Some (OsErr e))
        | None, Some e => (500, Some (OsErr e))
        | None, None => (ok, None)
        end).

Definition handlePut (req : request) : DP status :=
  r ← os (DOpen (root ++ rq_Path req) (Truncate 438));
  match r with
  | Err e => mret (if IsPermission e then 403 else 405, None)
  | Ok f => write_body f 201
  end.

Definition handlePatch (req : request) : DP status :=
  if negb (bool_decide (rq_Header req (str "Content-Type") = str "application/x-sabredav-partialupdate"))
  then mret (415, None)
  else
    match parseRange (rq_Header req (str "X-Update-Range")) with
    | None => mret (416, None)
    | Some (start, end_) =>
        r ← os (DOpen (root ++ rq_Path req) WriteOnly);
        match r with
        | Err e => mret (if IsPermission e then 403 else 405, None)
        | Ok f =>
            (if end_ <? 0 then os (DSeek f 0 SeekEnd)
             else if start <? 0 then os (DSeek f start SeekEnd)
             else os (DSeek f start SeekStart)) ;;
            write_body f 200
        end
    end.

Definition handleMkcol (req : request) : DP status :=
  if 0 <? rq_ContentLength req then mret (415, None)
  else
    err ← os (DMkdir (root ++ rq_Path req) 511);
    mret (match err with
          | Some e => if IsPermission e then (403, None)
                      else if IsNotExist e then (409, Some (OsErr e))
                      else (405, Some (OsErr e))
          | None => (201, None)
          end).

Definition handleCopyMove (req : request) : DP status :=
  let '(src, dst, err) := getPathAndDest root req in
  match err with
  | Some (errNoDestinationHeader | errInvalidDestination | errDestinationEqualsSource) => mret (400, None)
  | Some errDestinationHostDifferent => mret (502, None)
  | Some e => mret (500, Some e)
  | None =>
      if bool_decide (dst = src) then mret (403, None)
      else
        let hdr := rq_Header req (str "Depth") in
        if bool_decide (rq_Method req = str "COPY") then
          let depth := if negb (bool_decide (hdr = [])) then parseDepth hdr else infiniteDepth in
          if negb (bool_decide (hdr = [])) && negb (depth =? 0) && negb (depth =? infiniteDepth)
          then mret (400, Some errInvalidDepth)
          else copyFiles recursionMax src dst (negb (bool_decide (rq_Header req (str "Overwrite") = str "F"))) depth
        else if negb (bool_decide (hdr = [])) && negb (parseDepth hdr =? infiniteDepth)
        then mret (400, Some errInvalidDepth)
        else moveFiles src dst (bool_decide (rq_Header req (str "Overwrite") = str "T"))
  end.

(** The function handlePropfind gives to walkFS. *)
Definition propfind_item (targetIsRoot : bool) (reqPath : gostring) (info : osinfo) (err : option oserr) : DP (option werr) :=
  match err with
  | Some e => os (DPropBad reqPath (if IsNotExist e then 404 else if IsPermission e then 403 else 500)) ;; mret None
  | None =>
      space ← (if targetIsRoot && (bool_decide (reqPath = str "/") || bool_decide (reqPath = [])) then
                 r ← os (DFsSize (Join root reqPath));
                 mret (match r with Ok (total, avail) => (Z.max total avail, avail) | Err _ => (0, 0) end)
               else mret (0, 0));
      os (DPropOK reqPath info space.1 space.2) ;;
      mret None
  end.

Definition handlePropfind (req : request) : DP status :=
  let path := root ++ rq_Path req in
  let targetIsRoot := bool_decide (rq_Path req = []) || bool_decide (rq_Path req = str "/") in
  st ← os (DStat path);
  match st with
  | Err e => mret (if IsNotExist e then 404 else 405, Some (OsErr e))
  | Ok fi =>
      let hdr := rq_Header req (str "Depth") in
      let depth := if negb (bool_decide (hdr = [])) then parseDepth hdr else infiniteDepth in
      if depth =? invalidDepth then mret (400, Some errInvalidDepth)
      else if (depth =? infiniteDepth) && negb (allowPropfindInfDepth h) then
        (* preconditionErrorResponse *)
        os (DHeader (str "Content-Type") (str "application/xml; charset=utf-8")) ;;
        os (DWriteHeader 403) ;;
        os (DWrite (rq_Path req)) ;;
        mret (0, None)
      else
        os (DWriteHeader 207) ;;
        os DPropfindBegin ;;
        walkErr ← walkFS n fuel depth root (rq_Path req) fi (propfind_item targetIsRoot);
        os DPropfindEnd ;;
        mret (0, walkErr)
  end.

(** A method and the handler it selects. *)
Definition webdav_dispatch (req : request) (readOnly : bool) : DP status :=
  let m := rq_Method req in
  if bool_decide (m = str "OPTIONS") then handleOptions req readOnly
  else if bool_decide (m = str "GET") || bool_decide (m = str "HEAD") then handleGetHead req
  else if bool_decide (m = str "PROPFIND") then handlePropfind req
  else if readOnly then
    if bool_decide (m = str "PROPPATCH") || bool_decide (m = str "COPY") || bool_decide (m = str "MOVE") || bool_decide (m = str "MKCOL") || bool_decide (m = str "PATCH") ||
       bool_decide (m = str "PUT") || bool_decide (m = str "DELETE")
    then mret (403, None) else mret (501, None)
  else if bool_decide (m = str "DELETE") then handleDelete req
  else if bool_decide (m = str "PUT") then handlePut req
  else if bool_decide (m = str "PATCH") then handlePatch req
  else if bool_decide (m = str "MKCOL") then handleMkcol req
  else if bool_decide (m = str "COPY") || bool_decide (m = str "MOVE") then handleCopyMove req
  else if bool_decide (m = str "PROPPATCH") then handlePropfind req
  else mret (501, None).

Definition webdav_ServeHTTP (req : request) (readOnly : bool) : DP unit :=
  r ← webdav_dispatch req readOnly;
  if negb (r.1 =? 0) then os (DWriteHeader r.1) else mret tt.
End Handler.
