(* ===== verification/ServerTemplates.v ===== *)
(** * The pages of WebDAV and of the web interface

    server/webdav/templates (util.go and the generated propfind.qtpl.go) and
    server/webui/templates (the generated list.qtpl.go and error.qtpl.go). A
    template is the bytes it appends to its writer. quicktemplate, go-humanize and
    what net/http, mime and time print are parameters (class [Printers]). *)
From S2P Require Import Prelude Utf8 Paths ServerWebdav.

(** A string with backquotes for double quotes. *)
Definition qt (s : string) : gostring := map (fun c => if bool_decide (c = x60) then x22 else c) (str s).

(** What prints the variable parts. *)
Class Printers := {
  E_S : gostring -> gostring; (* qw.E().S: escaped for HTML *)
  N_D : Z -> gostring; (* qw.N().D, DL and DUL: a number *)
  TypeByExtension : gostring -> gostring; (* mime.TypeByExtension *)
  Format_http : Z -> gostring; (* t.UTC().Format(http.TimeFormat), for a time in seconds *)
  Format_local : Z -> gostring; (* t.Format("2006-01-02 15:04:05") *)
  IBytes : Z -> gostring; (* humanize.IBytes *)
}.

(** ** net/url *)

Definition upperhex (n : Z) : byte := if n <? 10 then byte_of_Z (0x30 + n) else byte_of_Z (0x41 + (n - 10)).

(** shouldEscape of net/url for a path. *)
Definition shouldEscape (c : byte) : bool :=
  let v := byte_val c in
  if ((0x61 <=? v) && (v <=? 0x7a)) || ((0x41 <=? v) && (v <=? 0x5a)) || ((0x30 <=? v) && (v <=? 0x39)) then false
  else negb (bool_decide (c ∈ str "-_.~$&+,/:;=@")).

Definition url_escape (s : gostring) : gostring :=
  concat (map (fun c => if shouldEscape c
                        then [x25; upperhex (byte_val c / 16); upperhex (byte_val c mod 16)] else [c]) s).

(** [(&url.URL{Path: p}).EscapedPath()]. *)
Definition EscapedPath (p : gostring) : gostring := if bool_decide (p = str "*") then str "*" else url_escape p.

(** ** webdav/templates/util.go *)

(** filepath.Ext. *)
Fixpoint Ext_rev (acc : gostring) (r : gostring) : gostring :=
  match r with
  | [] => []
  | c :: r' => if bool_decide (c = slash) then [] else if bool_decide (c = x2e) then c :: acc else Ext_rev (c :: acc) r'
  end.
Definition Ext (p : gostring) : gostring := Ext_rev [] (rev p).

Section Util.
Context {pr : Printers}.
Definition fileDisplayName (name : gostring) : gostring := Base name.

Definition fileContentType (name : gostring) : gostring :=
  let ctype := TypeByExtension (Ext name) in
  if negb (bool_decide (ctype = [])) then ctype else str "application/octet-stream".
End Util.

Definition escQuot : gostring := str "&#34;".
Definition escApos : gostring := str "&#39;".
Definition escAmp : gostring := str "&amp;".
Definition escLT : gostring := str "&lt;".
Definition escGT : gostring := str "&gt;".
Definition escTab : gostring := str "&#x9;".
Definition escNL : gostring := str "&#xA;".
Definition escCR : gostring := str "&#xD;".
Definition escFFFD : gostring := [xef; xbf; xbd].

Definition isInCharacterRange (r : Z) : bool :=
  (r =? 0x09) || (r =? 0x0a) || (r =? 0x0d) ||
  ((0x20 <=? r) && (r <=? 0xd7ff)) || ((0xe000 <=? r) && (r <=? 0xfffd)) || ((0x10000 <=? r) && (r <=? 0x10ffff)).

(** The switch of escapeWebdavHref: [None] for [continue]. *)
Definition href_escape (r : Z) (width : nat) : option gostring :=
  if r =? 0x22 then Some escQuot
  else if r =? 0x27 then Some escApos
  else if r =? 0x26 then Some escAmp
  else if r =? 0x3c then Some escLT
  else if r =? 0x3e then Some escGT
  else if r =? 0x09 then Some escTab
  else if r =? 0x0a then Some escNL
  else if r =? 0x0d then Some escCR
  else if negb (isInCharacterRange r) || ((r =? 0xfffd) && (width =? 1)%nat) then Some escFFFD
  else None.

(** Its loop; the length of the input bounds the rounds. [s[a:b]] is
    [take (b - a) (drop a s)]. *)
Fixpoint href_loop (n : nat) (s : bytes) (i last : nat) (output : gostring) : gostring * nat :=
  match n with
  | O => (output, last)
  | S n' =>
      if (length s <=? i)%nat then (output, last)
      else
        let '(r, width) := DecodeRune (drop i s) in
        let i := (i + width)%nat in
        match href_escape r width with
        | None => href_loop n' s i last output
        | Some esc =>
            let output := output ++ take (i - width - last) (drop last s) in
            let output := output ++ esc in
            href_loop n' s i i output
        end
  end.

Definition escapeWebdavHref (input : gostring) : gostring :=
  let '(output, last) := href_loop (length input) input 0 0 [] in
  EscapedPath (output ++ drop last input).

(** ** webdav/templates/propfind.qtpl.go *)

Section Propfind.
Context {pr : Printers}.

Definition StreamPropfindBegin : gostring :=
  qt "<?xml version=`1.0` encoding=`UTF-8`?><D:multistatus xmlns:D=`DAV:`>".
Definition StreamPropfindEnd : gostring := qt "</D:multistatus>".

(** [mtime] is fi.ModTime() in seconds. *)
Definition StreamPropfindItemOKResponse (name : gostring) (fi : osinfo) (mtime : Z)
    (enableContentTypeProbe : bool) (total avail : Z) : gostring :=
  qt "<D:response><D:href>" ++ escapeWebdavHref name ++ qt "</D:href>" ++
  qt "<D:propstat><D:prop><D:resourcetype>" ++
  (if oi_IsDir fi then qt "<D:collection />" else []) ++
  qt "</D:resourcetype>" ++
  (if negb (oi_IsDir fi) then
     qt "<D:getcontenttype>" ++
     (if enableContentTypeProbe then E_S (fileContentType name) else qt "application/octet-stream") ++
     qt "</D:getcontenttype><D:getcontentlength>" ++ N_D (oi_Size fi) ++ qt "</D:getcontentlength>"
   else []) ++
  (if negb (total =? 0) then
     qt "<D:quota-available-bytes>" ++ N_D avail ++
     qt "</D:quota-available-bytes><D:quota-used-bytes>" ++ N_D (u64 (total - avail)) ++ qt "</D:quota-used-bytes>"
   else []) ++
  qt "<D:displayname>" ++ E_S (fileDisplayName name) ++
  qt "</D:displayname><D:getlastmodified>" ++ Format_http mtime ++
  qt "</D:getlastmodified></D:prop><D:status>HTTP/1.1 200 OK</D:status></D:propstat></D:response>".

Definition StreamPropfindItemBadResponse (name s : gostring) : gostring :=
  qt "<D:response><D:href>" ++ escapeWebdavHref name ++ qt "</D:href><D:propstat><D:status>" ++
  E_S s ++ qt "</D:status></D:propstat></D:response>".

(** The generated wrappers append to a writer and return a string. *)
Definition WritePropfindBegin (w : gostring) : gostring := w ++ StreamPropfindBegin.
Definition PropfindBegin : gostring := WritePropfindBegin [].
Definition WritePropfindEnd (w : gostring) : gostring := w ++ StreamPropfindEnd.
Definition PropfindEnd : gostring := WritePropfindEnd [].
Definition WritePropfindItemOKResponse (w name : gostring) (fi : osinfo) (mtime : Z)
    (enableContentTypeProbe : bool) (total avail : Z) : gostring :=
  w ++ StreamPropfindItemOKResponse name fi mtime enableContentTypeProbe total avail.
Definition PropfindItemOKResponse (name : gostring) (fi : osinfo) (mtime : Z) (enableContentTypeProbe : bool)
    (total avail : Z) : gostring := WritePropfindItemOKResponse [] name fi mtime enableContentTypeProbe total avail.
Definition WritePropfindItemBadResponse (w name s : gostring) : gostring := w ++ StreamPropfindItemBadResponse name s.
Definition PropfindItemBadResponse (name s : gostring) : gostring := WritePropfindItemBadResponse [] name s.
End Propfind.

(** ** webui/templates *)

Record FileInfo := mkFileInfo { FileInfo_Name : gostring; FileInfo_IsDir : bool; FileInfo_Size : Z; FileInfo_MTime : Z }.

Section Pages.
Context {pr : Printers}.

(** strings.Repeat("../", n). *)
Definition Repeat_up (n : nat) : gostring := concat (replicate n (str "../")).

(** One round of [for i, path := range paths]. *)
Definition list_path (count : nat) (i : nat) (path : gostring) : gostring :=
  qt "<a href=`" ++ Repeat_up (count - i - 1) ++ qt "`>" ++ E_S path ++ qt "</a>".

(** One round of [for _, file := range files]. *)
Definition list_file (showDirSize : bool) (file : FileInfo) : gostring :=
  let sized := negb (FileInfo_IsDir file) || showDirSize in
  qt "
" ++ qt "            " ++ qt "<tr" ++
  (if FileInfo_IsDir file then qt " " ++ qt "class=`dirItem`" else []) ++
  qt "><td><div><a href=`" ++ EscapedPath (FileInfo_Name file) ++
  (if FileInfo_IsDir file then qt "/" else []) ++
  qt "`>" ++ E_S (FileInfo_Name file) ++ qt "</a></div></td>" ++ qt "<td" ++
  (if sized then qt " " ++ qt "title=`" ++ N_D (FileInfo_Size file) ++ qt " " ++ qt "Byte(s)`" else []) ++
  qt ">" ++ (if sized then IBytes (u64 (FileInfo_Size file)) else []) ++
  qt "</td><td title=`" ++ Format_http (FileInfo_MTime file) ++ qt "`>" ++
  Format_local (FileInfo_MTime file) ++ qt "</td></tr>".

(** [paths] is not empty: paths[len(paths)-1] is its last element. *)
Definition StreamList (cacheId : gostring) (paths : list gostring) (files : list FileInfo)
    (showDirSize customCSS customJS ReadOnly : bool) : gostring :=
  qt "<!DOCTYPE html>
<html lang=`en`>

<head>
    <meta http-equiv=`content-type` content=`text/html; charset=UTF-8`>
    <meta name=`viewport` content=`width=device-width`>
    <title>" ++
  (if negb (length paths =? 1)%nat then E_S (List.last paths []) ++ qt " - " else []) ++
  qt "WSFS WebUI</title>
    <script type=`text/javascript`>const GCacheId=`" ++ cacheId ++ qt "`;const GReadOnly=" ++
  (if ReadOnly then qt "true" else qt "false") ++
  qt "</script>
    <link rel=`shortcut icon` href=`/img/favicon.ico?webui-assets=" ++ cacheId ++
  qt "`>
    <script src=`/js/list.js?webui-assets=" ++ cacheId ++ qt "`></script>
    " ++
  (if customJS then qt "<script src=`/custom/custom.js?webui-assets=" ++ cacheId ++ qt "`></script>" else []) ++
  qt "
    <link rel=`stylesheet` type=`text/css` href=`/css/main.css?webui-assets=" ++ cacheId ++
  qt "`>
    <link rel=`stylesheet` type=`text/css` href=`/css/list.css?webui-assets=" ++ cacheId ++ qt "`>
    " ++
  (if customCSS
   then qt "<link rel=`stylesheet` type=`text/css` href=`/custom/custom.css?webui-assets=" ++ cacheId ++ qt "`>" else []) ++
  qt "
</head>

<body data-cacheid=`" ++ cacheId ++ qt "`>
    <main class=`page column`>
        <div class=`path`>" ++
  concat (imap (list_path (length paths)) paths) ++
  qt "
        </div>
        <table id=`files`>
            <thead>
            <th id=`nameHeader` data-t>Name</th>
            <th id=`sizeHeader` data-t>Size</th>
            <th id=`timeHeader` data-t>Modification Time</th>" ++
  qt "</thead><tbody>" ++
  concat (map (list_file showDirSize) files) ++
  qt "
            </tbody>
        </table>
    </main>
</body>
<script src=`/js/i18n.js?webui-assets=" ++ cacheId ++ qt "`></script>

</html>
".

Definition WriteList (w cacheId : gostring) (paths : list gostring) (files : list FileInfo)
    (showDirSize customCSS customJS ReadOnly : bool) : gostring :=
  w ++ StreamList cacheId paths files showDirSize customCSS customJS ReadOnly.
Definition List_page (cacheId : gostring) (paths : list gostring) (files : list FileInfo)
    (showDirSize customCSS customJS ReadOnly : bool) : gostring :=
  WriteList [] cacheId paths files showDirSize customCSS customJS ReadOnly.

Definition StreamError (cacheId : gostring) (status : Z) (msg : gostring) (customCSS customJS : bool) : gostring :=
  qt "<!DOCTYPE html>
<html lang=`en`>
<head>
    <meta http-equiv=`content-type` content=`text/html; charset=UTF-8`>
    <meta name=`viewport` content=`width=device-width`>
    <title>" ++ N_D status ++ qt " - WSFS WebUI</title>
    <script type=`text/javascript`>const GCacheId=`" ++ cacheId ++ qt "`;</script>
    " ++
  (if customJS then qt "<script src=`/custom/custom.js?webui-assets=" ++ cacheId ++ qt "`></script>" else []) ++
  qt "
    <link rel=`shortcut icon` href=`/img/favicon.ico?webui-assets=" ++ cacheId ++ qt "`>
    <link rel=`stylesheet` type=`text/css` href=`/css/main.css?webui-assets=" ++ cacheId ++ qt "`>
    " ++
  (if customCSS
   then qt "<link rel=`stylesheet` type=`text/css` href=`/custom/custom.css?webui-assets=" ++ cacheId ++ qt "`>" else []) ++
  qt "
</head>
<body>
<main class=`dialog column`>
	<h1><span class=`icon errorIcon`></span>" ++ N_D status ++ qt "</h1>
    <p data-t>" ++ E_S msg ++ qt "</p>
    <div class=`rrow`>
        <button type=`button` onclick=`location.href='/'`><span class=`icon backIcon`></span><div data-t>Return to root</div></button>
    </div>
</main>
</body>
<script src=`/js/i18n.js?webui-assets=" ++ cacheId ++ qt "`></script>
</html>".

Definition WriteError (w cacheId : gostring) (status : Z) (msg : gostring) (customCSS customJS : bool) : gostring :=
  w ++ StreamError cacheId status msg customCSS customJS.
Definition Error_page (cacheId : gostring) (status : Z) (msg : gostring) (customCSS customJS : bool) : gostring :=
  WriteError [] cacheId status msg customCSS customJS.
End Pages.
