(* ===== verification/ServerWebdavOk.v ===== *)
(** * WebDAV: what every request guarantees

    A specification of the outside of a WebDAV handler: which paths it may touch,
    that a reader changes nothing, that files are closed and the response is sent
    once; and that the handlers keep to it. *)
From S2P Require Import Prelude GoIO Prog Paths ServerRegistry ServerWebdav.

Section Spec.
Context (total : bool) (root : gostring) (readOnly : bool).

(** The files that are open; whether the status has been sent. *)
Record dghost := mkDghost { dg_open : gset nat; dg_replied : bool }.

Definition touches (p : gostring) : Prop := confined root p \/ p = [].
Definition changes (p : gostring) : Prop := touches p /\ readOnly = false.

Definition dav_pre (g : dghost) (e : dev) : Prop :=
  match e with
  | DStat p | DFsSize p | DOpen p ReadOnly => touches p
  | DOpen p _ | DRemoveAll p | DMkdir p _ => changes p
  | DRename a b => changes a /\ changes b
  | DFstat f | DReaddir f _ | DSeek f _ _ | DClose f => f ∈ dg_open g
  | DCopyBody f => f ∈ dg_open g /\ readOnly = false
  | DCopyFile d s => d ∈ dg_open g /\ s ∈ dg_open g /\ readOnly = false
  | DHeader _ _ | DWriteHeader _ | DServeError _ => dg_replied g = false
  | DServeContent p f => f ∈ dg_open g /\ touches p /\ dg_replied g = false
  | DWrite _ | DPropfindBegin | DPropOK _ _ _ _ | DPropBad _ _ | DPropfindEnd => dg_replied g = true
  end.

(** A new file has a descriptor of its own; directories hold ordinary names; there
    is nothing at the empty path. *)
Definition dav_next (g : dghost) (e : dev) : dans e -> dghost -> Prop :=
  match e return dans e -> dghost -> Prop with
  | DOpen p _ => fun r g' =>
      match r with
      | Ok f => p <> [] /\ f ∉ dg_open g /\ g' = mkDghost ({[f]} ∪ dg_open g) (dg_replied g)
      | Err _ => g' = g
      end
  | DMkdir p _ => fun r g' => (r = None -> p <> []) /\ g' = g
  | DReaddir _ _ => fun r g' => Forall (fun fi => ordinary (oi_Name fi)) r.1 /\ g' = g
  | DClose f => fun _ g' => g' = mkDghost (dg_open g ∖ {[f]}) (dg_replied g)
  | DWriteHeader _ | DServeError _ | DServeContent _ _ => fun _ g' => g' = mkDghost (dg_open g) true
  | _ => fun _ g' => g' = g
  end.

Definition dav_env : env dans := mkEnv dghost dav_pre dav_next.

Abbreviation dwp p g Q := (wp total dav_env p g Q).

Lemma dwp_bind {A B} (p : DP A) (k : A -> DP B) g (Q : B -> dghost -> Prop) :
  dwp p g (fun a g' => dwp (k a) g' Q) -> dwp (p ≫= k) g Q.
Proof. apply (wp_bind total dav_env). Qed.

Lemma dwp_ask {A} e (k : dans e -> DP A) g (Q : A -> dghost -> Prop) :
  dav_pre g e -> (forall r g', dav_next g e r g' -> dwp (k r) g' Q) -> dwp (os e ≫= k) g Q.
Proof. intros Hp Hk. apply dwp_bind. by split. Qed.

Lemma dwp_last e g (Q : dans e -> dghost -> Prop) :
  dav_pre g e -> (forall r g', dav_next g e r g' -> Q r g') -> dwp (os e) g Q.
Proof. intros Hp Hk. by split. Qed.

Lemma dwp_mono {A} (p : DP A) g (Q Q' : A -> dghost -> Prop) :
  dwp p g Q -> (forall a g', Q a g' -> Q' a g') -> dwp p g Q'.
Proof. apply (wp_mono total dav_env). Qed.

Lemma dwp_ret {A} (a : A) g (Q : A -> dghost -> Prop) : Q a g -> dwp (mret a) g Q.
Proof. done. Qed.

Lemma dwp_if {A} (b : bool) (p q : DP A) g Q : dwp p g Q -> dwp q g Q -> dwp (if b then p else q) g Q.
Proof. by destruct b. Qed.

(** A file that is opened and closed again leaves no trace. *)
Lemma close_opened f o (b : bool) : f ∉ o -> mkDghost (({[f]} ∪ o) ∖ {[f]}) b = mkDghost o b.
Proof. intros Hf. f_equal. set_solver. Qed.

(** ** Moving and copying *)

Hypothesis Hroot : root_ok root.

(** A status to be sent, and nothing left behind. *)
Definition settled (g : dghost) (r : status) (g' : dghost) : Prop := r.1 <> 0 /\ g' = g.

Lemma confined_not_nil p : confined root p -> p <> [].
Proof. by intros [Hr _] ->. Qed.

Lemma dwp_trim src dst g (Q : gostring -> dghost -> Prop) :
  confined root src -> confined root dst -> (forall d, touches d -> Q d g) -> dwp (trim_dst src dst) g Q.
Proof.
  intros Hs Hd HQ. unfold trim_dst. pose proof (confined_not_nil _ Hs) as Hsn. pose proof (confined_not_nil _ Hd) as Hdn.
  destruct (last src) as [a|] eqn:Es; [|by apply last_None in Es].
  destruct (bool_decide (a = slash)); [apply dwp_ret, HQ; by left|].
  destruct (last dst) as [d|] eqn:Ed; [|by apply last_None in Ed]. apply dwp_ret.
  case_bool_decide as E; [|apply HQ; by left]. subst d. apply HQ. apply last_Some in Ed as [l ->].
  rewrite length_app. simpl. replace (length l + 1 - 1)%nat with (length l) by lia. rewrite take_app_length.
  destruct l; [by right|]. left. by apply confined_without_slash in Hd.
Qed.

Lemma dwp_moveFiles src dst overwrite g :
  readOnly = false -> confined root src -> confined root dst -> dwp (moveFiles src dst overwrite) g (settled g).
Proof.
  intros Hro Hs Hd. apply dwp_ask; [by left|]. intros st g' ->. apply dwp_bind.
  assert (forall d created, touches d -> dwp (err ← os (DRename src d);
      match err with Some e => mret (403, Some (OsErr e)) | None => mret (if created : bool then 201 else 204, None) end) g (settled g))
    as Hren.
  { intros d created Hd'. apply dwp_ask; [by split; split; [left|..]|]. intros [e|] g' ->; apply dwp_ret; [done|by destruct created]. }
  destruct st as [fi|e].
  - destruct overwrite; [|by apply dwp_ret, dwp_ret]. apply dwp_ask; [by split; [left|]|]. intros [e|] g' ->.
    + by apply dwp_ret, dwp_ret.
    + apply dwp_bind, dwp_trim; [done|done|]. intros d Hd'. by apply dwp_ret, (Hren d false).
  - apply dwp_ret. destruct (negb (IsNotExist e)); [by apply dwp_ret|]. by apply (Hren dst true); left.
Qed.

(** What copyFiles does when the destination is ready. *)
Lemma dwp_copy_prepare dst overwrite g :
  readOnly = false -> confined root dst ->
  dwp (copy_prepare dst overwrite) g (fun r g' => g' = g /\ match r with inl ret => ret.1 <> 0 | inr _ => True end).
Proof.
  intros Hro Hd. apply dwp_ask; [by left|]. intros [fi|e] g' ->; [|apply dwp_ret; by destruct (IsNotExist e)].
  destruct overwrite; [|by apply dwp_ret]. apply dwp_ask; [by split; [left|]|].
  intros [e|] g' ->; apply dwp_ret; [by destruct (IsNotExist e)|done].
Qed.

Lemma dwp_copy_contents srcFile dst perm g :
  readOnly = false -> touches dst -> srcFile ∈ dg_open g ->
  dwp (copy_contents srcFile dst perm) g (fun r g' => g' = g /\ forall ret, r = Some ret -> ret.1 <> 0).
Proof.
  intros Hro Hd Hs. apply dwp_ask; [by split|]. intros [f|e] g' Hg'; cbn in Hg'.
  - destruct Hg' as (_ & Hf & ->). apply dwp_ask; [split_and!; [set_solver|set_solver|done]|]. intros e1 g' ->.
    apply dwp_ask; [cbn; set_solver|]. intros e2 g' ->. apply dwp_ret. cbn [dg_open dg_replied]. rewrite close_opened by done.
    split; [by destruct g|]. intros ret. destruct e1, e2; by intros [= <-].
  - subst g'. apply dwp_ret. split; [done|]. intros ret [= <-]. by destruct (IsNotExist e).
Qed.

Lemma dwp_copy_children copy src dst children g :
  (forall s d, confined root s -> confined root d -> dwp (copy s d) g (settled g)) ->
  confined root src -> confined root dst -> Forall (fun fi => ordinary (oi_Name fi)) children ->
  dwp (copy_children copy src dst children) g (fun r g' => g' = g /\ forall ret, r = Some ret -> ret.1 <> 0).
Proof.
  intros Hc Hs Hd. induction children as [|c children IH]; intros Hn; [done|]. inversion Hn; subst.
  cbn [copy_children]. apply dwp_bind. eapply dwp_mono; [apply Hc; by apply confined_Join_name|].
  intros [st [e|]] g' [Hst ->]; [|by apply IH]. apply dwp_ret. split; [done|]. by intros ret [= <-].
Qed.

Lemma dwp_copyFiles n src dst overwrite depth g :
  readOnly = false -> confined root src -> confined root dst -> dwp (copyFiles n src dst overwrite depth) g (settled g).
Proof.
  intros Hro. revert src dst g. induction n as [|n IH]; intros src dst g Hs Hd; [by apply dwp_ret|].
  cbn [copyFiles]. apply dwp_ask; [by left|]. intros [f|e] g' Hg'; cbn in Hg'.
  2: { subst g'. apply dwp_ret. split; [by destruct (IsNotExist e)|done]. }
  destruct Hg' as (_ & Hf & ->). set (g1 := mkDghost _ _). assert (f ∈ dg_open g1) as Hfg by (cbn; set_solver).
  apply dwp_ask; [done|]. intros st g' ->. apply dwp_bind.
  apply (dwp_mono _ _ (settled g1)); [|intros ret g' [Hret ->]; apply dwp_ask; [done|]; intros ? g' ->; apply dwp_ret;
    cbn [g1 dg_open dg_replied]; rewrite close_opened by done; split; [done|by destruct g]].
  destruct st as [srcStat|e]; [|apply dwp_ret; split; [by destruct (IsNotExist e)|done]].
  apply dwp_bind. eapply dwp_mono; [by apply dwp_copy_prepare|]. intros [ret|created] g' [-> Hr]; [by apply dwp_ret|].
  apply dwp_bind, dwp_trim; [done|done|]. intros d Hd'. apply dwp_bind.
  apply (dwp_mono _ _ (fun r g' => g' = g1 /\ forall ret, r = Some ret -> ret.1 <> 0)).
  2: { intros [ret|] g' [-> Hret]; apply dwp_ret; (split; [|done]); [by apply Hret|by destruct created]. }
  destruct (oi_IsDir srcStat); [|by apply dwp_copy_contents].
  apply dwp_ask; [by split|]. intros err g' [Hne ->]. destruct err as [e|]; [apply dwp_ret; split; [done|by intros ret [= <-]]|].
  destruct (depth =? infiniteDepth); [|by apply dwp_ret].
  apply dwp_ask; [done|]. intros [infos [e|]] g' [Hn ->]; [apply dwp_ret; split; [done|by intros ret [= <-]]|].
  apply dwp_copy_children; [|done| |done].
  - intros s d' Hs' Hd2. by apply IH.
  - destruct Hd' as [?|E]; [done|]. by destruct (Hne eq_refl).
Qed.

(** ** Walking *)

Definition visits (walkFn : gostring -> osinfo -> option oserr -> DP (option werr)) : Prop :=
  forall p fi err g, plain p -> dg_replied g = true -> dwp (walkFn p fi err) g (fun _ g' => g' = g).

Lemma dwp_walk_entries walk walkFn path_ infos g :
  visits walkFn -> dg_replied g = true -> plain path_ -> Forall (fun fi => ordinary (oi_Name fi)) infos ->
  (forall p fi, plain p -> dwp (walk p fi) g (fun _ g' => g' = g)) ->
  dwp (walk_entries walk walkFn (Join root path_) path_ infos) g (fun _ g' => g' = g).
Proof.
  intros Hv Hg Hp Hn Hw. induction infos as [|fi infos IH]; [done|]. inversion Hn; subst. cbn [walk_entries].
  destruct (Join_name path_ (oi_Name fi)) as [Hp' _]; [done|done|].
  apply dwp_bind, (dwp_mono _ _ (fun _ g' => g' = g)).
  - apply dwp_if; [|by apply dwp_ret]. apply dwp_ask; [|intros r g' ->; by apply dwp_ret].
    left. apply confined_Join_name; [done|by apply confined_Join_root|done].
  - intros passfi g' ->. apply dwp_bind, (dwp_mono _ _ (fun _ g' => g' = g)).
    + apply dwp_if; [by apply Hw|by apply Hv].
    + intros _ g' ->. by apply IH.
Qed.

Lemma dwp_walkFS n fuel depth path_ fi walkFn g :
  total = false -> visits walkFn -> dg_replied g = true -> plain path_ ->
  dwp (walkFS n fuel depth root path_ fi walkFn) g (fun _ g' => g' = g).
Proof.
  intros Ht Hv. revert depth path_ fi g. induction n as [|n IH]; intros depth path_ fi g Hg Hp; [done|].
  cbn [walkFS]. apply dwp_bind. eapply dwp_mono; [by apply Hv|]. intros [e|] g' ->; [by apply dwp_ret|].
  apply dwp_if; [by apply dwp_ret|]. apply dwp_ask; [left; by apply confined_Join_root|]. intros [f|e] g' Hg'; cbn in Hg'.
  2: { subst g'. apply dwp_bind. eapply dwp_mono; [by apply Hv|]. intros ? g' ->. by apply dwp_ret. }
  destruct Hg' as (_ & Hf & ->). set (g1 := mkDghost _ _). assert (f ∈ dg_open g1) as Hfg by (cbn; set_solver).
  apply dwp_bind, (dwp_mono _ _ (fun _ g' => g' = g1)).
  - apply (wp_loop total dav_env _ (fun _ g' => g' = g1) (fun _ _ => 0%nat)); [|done|by rewrite Ht].
    intros _ g' ->. apply dwp_ask; [done|]. intros [infos [[e|]|]] g' [Hn ->]; cbn [fst snd].
    + apply dwp_bind. eapply dwp_mono; [by apply Hv|]. intros ? g' ->. by apply dwp_ret.
    + apply dwp_bind. eapply dwp_mono; [apply dwp_walk_entries; try done; intros p fi' Hp'; by apply IH|].
      intros ? g' ->. by apply dwp_ret.
    + apply dwp_bind. eapply dwp_mono; [apply dwp_walk_entries; try done; intros p fi' Hp'; by apply IH|].
      intros ? g' ->. apply dwp_ret. split; [done|]. by rewrite Ht.
  - intros ret g' ->. apply dwp_ask; [done|]. intros ? g' ->. apply dwp_ret.
    cbn [g1 dg_open dg_replied]. rewrite close_opened by done. by destruct g.
Qed.

(** ** The handlers *)

Context (h : handler) (n fuel : nat).

(** The status is left to be sent, or has been. *)
Definition replies (r : status) (g' : dghost) : Prop := g' = mkDghost ∅ (r.1 =? 0).
Definition start : dghost := mkDghost ∅ false.

Lemma settled_replies r g' : settled start r g' -> replies r g'.
Proof. intros [Hr ->]. unfold replies, start. f_equal. symmetry. by apply Z.eqb_neq. Qed.

Lemma dwp_status st (err : option werr) : st <> 0 -> dwp (mret (st, err)) start replies.
Proof. intros Hs. apply dwp_ret, settled_replies. by split. Qed.

Ltac answer := apply dwp_status; repeat case_match; done.

Lemma dwp_handleOptions req (ro : bool) : IsUrlValid (rq_Path req) = true -> dwp (handleOptions h root req ro) start replies.
Proof.
  intros Hp. apply dwp_ask; [left; by apply confined_valid|]. intros st g' ->. cbv zeta.
  destruct (match st with Ok _ => _ | Err _ => _ end) as [ret|allow] eqn:E.
  - apply dwp_ret, settled_replies. split; [|done]. destruct st as [|[]]; cbn in E; try done; by injection E as <-.
  - do 3 (apply dwp_ask; [done|]; intros [] g' ->). answer.
Qed.

Lemma dwp_handleGetHead req : IsUrlValid (rq_Path req) = true -> dwp (handleGetHead h root req) start replies.
Proof.
  intros Hp. assert (confined root (root ++ rq_Path req)) as Hc by (by apply confined_valid).
  apply dwp_ask; [by left|]. intros [f|e] g' Hg'; cbn in Hg'.
  2: { subst g'. apply dwp_ask; [done|]. intros [] g' ->. by apply dwp_ret. }
  destruct Hg' as (_ & Hf & ->). cbn [start dg_open dg_replied]. rewrite union_empty_r_L.
  apply dwp_ask; [cbn; set_solver|]. intros st g' ->. apply dwp_bind.
  apply (dwp_mono _ _ (fun (r : status) g' => g' = mkDghost {[f]} (r.1 =? 0))).
  2: { intros r g' ->. apply dwp_ask; [cbn; set_solver|]. intros ? g' ->. apply dwp_ret.
       unfold replies. cbn. f_equal. set_solver. }
  destruct st as [fi|e]; [|by apply dwp_ret]. apply dwp_if; [by apply dwp_ret|]. apply dwp_bind.
  apply (dwp_mono _ _ (fun _ g' => g' = mkDghost {[f]} false)).
  { destruct (rq_download req); [|by apply dwp_ret]. apply dwp_if; (apply dwp_last; [done|]); by intros [] g' ->. }
  intros [] g' ->. apply dwp_bind, (dwp_mono _ _ (fun _ g' => g' = mkDghost {[f]} false)).
  { apply dwp_if; [|by apply dwp_ret]. apply dwp_last; [done|]. by intros [] g' ->. }
  intros [] g' ->. apply dwp_ask; [split_and!; [cbn; set_solver|by left|done]|]. intros [] g' ->. by apply dwp_ret.
Qed.

Lemma dwp_handlePropfind req :
  total = false -> IsUrlValid (rq_Path req) = true -> dwp (handlePropfind h root n fuel req) start replies.
Proof.
  intros Ht Hp. apply dwp_ask; [left; by apply confined_valid|]. intros st g' ->.
  destruct st as [fi|e]; [|answer]. cbv zeta. apply dwp_if; [answer|]. apply dwp_if.
  - do 3 (apply dwp_ask; [done|]; intros [] g' ->). by apply dwp_ret.
  - do 2 (apply dwp_ask; [done|]; intros [] g' ->). apply dwp_bind.
    eapply dwp_mono; [apply dwp_walkFS; [done| |done|by apply plain_valid]|].
    + intros p fi' err g Hpp Hg. unfold propfind_item. destruct err as [e|].
      * apply dwp_ask; [done|]. intros [] g' ->. by apply dwp_ret.
      * apply dwp_bind, (dwp_mono _ _ (fun _ g' => g' = g)).
        -- apply dwp_if; [|by apply dwp_ret]. apply dwp_ask; [left; by apply confined_Join_root|].
           intros [[? ?]|] g' ->; by apply dwp_ret.
        -- intros space g' ->. apply dwp_ask; [done|]. intros [] g' ->. by apply dwp_ret.
    + intros walkErr g' ->. apply dwp_ask; [done|]. intros [] g' ->. by apply dwp_ret.
Qed.

Section Writer.
Hypothesis Hro : readOnly = false.

Lemma dwp_handleDelete req : IsUrlValid (rq_Path req) = true -> dwp (handleDelete root req) start replies.
Proof.
  intros Hp. assert (touches (root ++ rq_Path req)) as Hc by (left; by apply confined_valid).
  apply dwp_ask; [done|]. intros [fi|e] g' ->; [|apply dwp_ret, settled_replies; by destruct e].
  apply dwp_ask; [done|]. intros [e|] g' ->; apply dwp_ret, settled_replies; [by destruct e|done].
Qed.

Lemma dwp_write_body f st : st <> 0 -> dwp (write_body f st) (mkDghost {[f]} false) replies.
Proof.
  intros Hst. apply dwp_ask; [split; [cbn; set_solver|done]|]. intros e1 g' ->.
  apply dwp_ask; [cbn; set_solver|]. intros e2 g' ->. apply dwp_ret.
  unfold replies. cbn. f_equal; [set_solver|]. destruct e1, e2; cbn; try done. symmetry. by apply Z.eqb_neq.
Qed.

Lemma dwp_handlePut req : IsUrlValid (rq_Path req) = true -> dwp (handlePut root req) start replies.
Proof.
  intros Hp. apply dwp_ask; [split; [left; by apply confined_valid|done]|]. intros [f|e] g' Hg'; cbn in Hg'.
  - destruct Hg' as (_ & _ & ->). cbn [start dg_open dg_replied]. rewrite union_empty_r_L. by apply dwp_write_body.
  - subst g'. answer.
Qed.

Lemma dwp_handlePatch req : IsUrlValid (rq_Path req) = true -> dwp (handlePatch root req) start replies.
Proof.
  intros Hp. unfold handlePatch. apply dwp_if; [answer|]. destruct (parseRange _) as [[a e]|]; [|answer].
  apply dwp_ask; [split; [left; by apply confined_valid|done]|]. intros [f|err] g' Hg'; cbn in Hg'; [|subst g'; answer].
  destruct Hg' as (_ & _ & ->). cbn [start dg_open dg_replied]. rewrite union_empty_r_L. apply dwp_bind.
  apply (dwp_mono _ _ (fun _ g' => g' = mkDghost {[f]} false)); [|intros [] g' ->; by apply dwp_write_body].
  repeat apply dwp_if; (apply dwp_last; [cbn; set_solver|]); by intros [] g' ->.
Qed.

Lemma dwp_handleMkcol req : IsUrlValid (rq_Path req) = true -> dwp (handleMkcol root req) start replies.
Proof.
  intros Hp. unfold handleMkcol. apply dwp_if; [answer|].
  apply dwp_ask; [split; [left; by apply confined_valid|done]|]. intros err g' [_ ->].
  apply dwp_ret, settled_replies. destruct err as [[]|]; done.
Qed.

Lemma dwp_handleCopyMove req : IsUrlValid (rq_Path req) = true -> dwp (handleCopyMove root req) start replies.
Proof.
  intros Hp. unfold handleCopyMove, getPathAndDest. case_bool_decide; [answer|].
  destruct (rq_destination req) as [[host dpath]|]; [|answer].
  destruct (negb (bool_decide (host = [])) && _ && _); [answer|].
  destruct (IsUrlValid dpath) eqn:Ed; cbn [negb]; [|answer]. case_bool_decide; [answer|].
  case_bool_decide; [answer|]. cbv zeta.
  assert (confined root (root ++ rq_Path req)) as Hs by (by apply confined_valid).
  assert (confined root (root ++ dpath)) as Hd by (by apply confined_valid).
  repeat apply dwp_if; try answer; (eapply dwp_mono; [|intros r g'; apply settled_replies]).
  - by apply dwp_copyFiles.
  - by apply dwp_moveFiles.
Qed.
End Writer.

Lemma dwp_dispatch req :
  IsUrlValid (rq_Path req) = true ->
  (total = true -> rq_Method req <> str "PROPFIND" /\ rq_Method req <> str "PROPPATCH") ->
  dwp (webdav_dispatch h root n fuel req readOnly) start replies.
Proof.
  intros Hp Ht. unfold webdav_dispatch. cbv zeta.
  assert (forall m, m = str "PROPFIND" \/ m = str "PROPPATCH" -> rq_Method req = m -> total = false) as Hnt.
  { intros m Hm E. destruct total; [|done]. destruct (Ht eq_refl). destruct Hm; congruence. }
  apply dwp_if; [by apply dwp_handleOptions|]. apply dwp_if; [by apply dwp_handleGetHead|].
  case_bool_decide as E; [apply dwp_handlePropfind; [by eapply Hnt; [by left|]|done]|]. clear E.
  destruct readOnly eqn:Hro; [apply dwp_if; answer|].
  apply dwp_if; [by apply dwp_handleDelete|]. apply dwp_if; [by apply dwp_handlePut|].
  apply dwp_if; [by apply dwp_handlePatch|]. apply dwp_if; [by apply dwp_handleMkcol|].
  apply dwp_if; [by apply dwp_handleCopyMove|].
  case_bool_decide as E; [apply dwp_handlePropfind; [by eapply Hnt; [by right|]|done]|answer].
Qed.

Lemma dwp_ServeHTTP req :
  IsUrlValid (rq_Path req) = true ->
  (total = true -> rq_Method req <> str "PROPFIND" /\ rq_Method req <> str "PROPPATCH") ->
  dwp (webdav_ServeHTTP h root n fuel req readOnly) start (fun _ g' => g' = mkDghost ∅ true).
Proof.
  intros Hp Ht. apply dwp_bind. eapply dwp_mono; [by apply dwp_dispatch|]. intros [st err] g' ->. cbn [fst].
  destruct (st =? 0); cbn [negb]; [by apply dwp_ret|]. apply dwp_last; [done|]. by intros [] g' ->.
Qed.
End Spec.
