(* ===== verification/ServerWebui.v ===== *)
(** * The web interface (server/webui)

    handler.go and list.go: the listing of a directory and the files of the
    interface itself, as programs of requests to the operating system (those of
    [ServerWebdav]) and to the functions of net/http and of the templates that
    write the response. *)
From S2P Require Import Prelude GoIO Prog Paths ServerRegistry ServerHttp ServerWebdav.

(** ** The outside *)

(** templates.FileInfo; the time of the entry is passed on and not modelled. *)
Record ui_file := mkUiFile { uf_Name : gostring; uf_IsDir : bool; uf_Size : Z }.

(** config.Webui and [Handler]. *)
Record config_Webui := mkConfigWebui { cw_Enable : bool; cw_ShowDirSize : bool; cw_CustomResources : gostring }.
Record webui_Handler := mkWebuiHandler {
  wh_customResources : gostring;
  wh_showDirSize : bool;
  wh_customCSS : bool;
  wh_customJS : bool;
}.

Inductive uev : Type :=
| UOs (e : dev)
| UHeader (key value : gostring)
| UWriteHeader (status : Z)
| UServeFileFS (name : gostring) (* from the resources in the binary *)
| UServeFile (name : gostring) (* from the file system *)
| UWriteList (paths : list gostring) (files : list ui_file) (showDirSize customCSS customJS readOnly : bool)
| UWriteError (status : Z) (customCSS customJS : bool).

Definition uans (e : uev) : Type := match e with UOs e => dans e | _ => unit end.

Abbreviation UP := (prog uans).
Abbreviation ui e := (trigger (ans := uans) e).

(** ** handler.go *)

Definition webui_NewHandler (c : config_Webui) : UP webui_Handler :=
  let cr := cw_CustomResources c in
  if bool_decide (cr = []) then mret (mkWebuiHandler cr (cw_ShowDirSize c) false false)
  else
    css ← ui (UOs (DStat (Join cr (str "custom.css"))));
    js ← ui (UOs (DStat (Join cr (str "custom.js"))));
    mret (mkWebuiHandler cr (cw_ShowDirSize c) (is_ok css) (is_ok js)).

(** The errors ServeError tells apart. *)
Inductive ui_error := UiNotFound | UiForbidden | UiOther.

Section Handler.
Context (w : webui_Handler).

Definition webui_ServeErrorPage (status : Z) : UP unit :=
  ui (UWriteHeader status) ;;
  ui (UWriteError status (wh_customCSS w) (wh_customJS w)).

Definition webui_ServeError (e : ui_error) : UP unit :=
  match e with
  | UiNotFound => webui_ServeErrorPage 404
  | UiForbidden => webui_ServeErrorPage 403
  | UiOther => webui_ServeErrorPage 500
  end.

(** The part of a path behind "/custom". *)
Definition webui_ServeAssets (path : gostring) : UP unit :=
  if HasPrefix path (str "/js/") || HasPrefix path (str "/css/") || HasPrefix path (str "/img/") then
    ui (UServeFileFS (str "resources" ++ path))
  else if HasPrefix path (str "/custom/") then
    ui (UServeFile (Join (wh_customResources w) (drop 7 path)))
  else webui_ServeError UiNotFound.

(** ** list.go *)

(** file.Mode().Type() == os.ModeSymlink: of the bits of the type, this one alone. *)
Definition ModeType : Z := ModeDir + ModeSymlink + 2 ^ 25 + 2 ^ 24 + 2 ^ 26 + 2 ^ 21 + 2 ^ 19.
Definition oi_is_symlink (fi : osinfo) : bool := Z.land (oi_Mode fi) ModeType =? ModeSymlink.

Definition list_entry (apath : gostring) (file : osinfo) : UP ui_file :=
  realfile ←
    (if oi_is_symlink file then
       st ← ui (UOs (DStat (apath ++ oi_Name file)));
       mret (match st with Ok fi => fi | Err _ => file end)
     else mret file);
  mret (mkUiFile (oi_Name file) (oi_IsDir realfile) (oi_Size realfile)).

Fixpoint list_entries (apath : gostring) (files : list osinfo) : UP (list ui_file) :=
  match files with
  | [] => mret []
  | file :: files' =>
      f ← list_entry apath file;
      l ← list_entries apath files';
      mret (f :: l)
  end.

Definition ui_list (root rpath : gostring) : UP (result oserr (list gostring * list ui_file)) :=
  let apath := root ++ rpath in
  if bool_decide (rpath = []) then Panic
  else
    let paths := Split (take (length rpath - 1) rpath) slash in
    f ← ui (UOs (DOpen apath ReadOnly));
    match f with
    | Err e => mret (Err e)
    | Ok f =>
        files ← ui (UOs (DReaddir f (-1)));
        match files.2 with
        | Some e => ui (UOs (DClose f)) ;; mret (Err (default ErrOther e))
        | None =>
            l ← list_entries apath files.1;
            ui (UOs (DClose f)) ;;
            mret (Ok (paths, l))
        end
    end.

Definition webui_ServeList (path : gostring) (user : storage_User) : UP unit :=
  ui (UHeader (str "Content-Type") (str "text/html")) ;;
  ui (UHeader (str "Accept-Ranges") (str "none")) ;;
  arg ← ui_list (su_Path user) path;
  match arg with
  | Err e =>
      webui_ServeError (if IsNotExist e then UiNotFound else if IsPermission e then UiForbidden else UiOther)
  | Ok (paths, files) =>
      ui (UWriteHeader 200) ;;
      ui (UWriteList paths files (wh_showDirSize w) (wh_customCSS w) (wh_customJS w) (su_ReadOnly user))
  end.
End Handler.

(** ** What a request may do

    The state: the directories that are open, and whether the status was sent; the
    file system as in [ServerWebdavOk], nothing of it changed. *)

Record ughost := mkUghost { ug_open : gset nat; ug_replied : bool }.

Section Spec.
Context (roots : gostring -> Prop).

(** A path below one of the allowed roots. *)
Definition below (p : gostring) : Prop := exists root, roots root /\ confined root p.

Definition ui_pre (g : ughost) (e : uev) : Prop :=
  match e with
  | UOs (DStat p) | UOs (DOpen p ReadOnly) => below p
  | UOs (DReaddir f _) | UOs (DClose f) => f ∈ ug_open g
  | UOs _ => False
  | UHeader _ _ | UWriteHeader _ => ug_replied g = false
  | UServeFileFS name => ug_replied g = false /\ HasPrefix name (str "resources/") = true
  | UServeFile name => ug_replied g = false /\ below name
  | UWriteList _ _ _ _ _ _ | UWriteError _ _ _ => ug_replied g = true
  end.

Definition ui_next (g : ughost) (e : uev) : uans e -> ughost -> Prop :=
  match e return uans e -> ughost -> Prop with
  | UOs (DOpen _ _) => fun r g' =>
      match r with Ok f => f ∉ ug_open g /\ g' = mkUghost ({[f]} ∪ ug_open g) (ug_replied g) | Err _ => g' = g end
  | UOs (DReaddir _ _) => fun r g' => Forall (fun fi => ordinary (oi_Name fi)) r.1 /\ g' = g
  | UOs (DClose f) => fun _ g' => g' = mkUghost (ug_open g ∖ {[f]}) (ug_replied g)
  | UWriteHeader _ | UServeFileFS _ | UServeFile _ => fun _ g' => g' = mkUghost (ug_open g) true
  | _ => fun _ g' => g' = g
  end.

Definition ui_env : env uans := mkEnv ughost ui_pre ui_next.

Abbreviation uwp p g Q := (wp true ui_env p g Q).

Lemma uwp_bind {A B} (p : UP A) (k : A -> UP B) g (Q : B -> ughost -> Prop) :
  uwp p g (fun a g' => uwp (k a) g' Q) -> uwp (p ≫= k) g Q.
Proof. apply (wp_bind true ui_env). Qed.

Lemma uwp_mono {A} (p : UP A) g (Q Q' : A -> ughost -> Prop) :
  uwp p g Q -> (forall a g', Q a g' -> Q' a g') -> uwp p g Q'.
Proof. apply (wp_mono true ui_env). Qed.

Lemma uwp_ask {A} e (k : uans e -> UP A) g (Q : A -> ughost -> Prop) :
  ui_pre g e -> (forall r g', ui_next g e r g' -> uwp (k r) g' Q) -> uwp (ui e ≫= k) g Q.
Proof. intros Hp Hk. apply uwp_bind. by split. Qed.

(** The response is sent and every directory closed. *)
Definition answered (g : ughost) : Prop := ug_replied g = true /\ ug_open g = ∅.

Lemma uwp_ServeErrorPage w status : uwp (webui_ServeErrorPage w status) (mkUghost ∅ false) (fun _ => answered).
Proof. apply uwp_ask; [done|]. intros [] g' ->. split; [done|]. intros [] g'' ->. done. Qed.

Lemma uwp_ServeError w e : uwp (webui_ServeError w e) (mkUghost ∅ false) (fun _ => answered).
Proof. destruct e; apply uwp_ServeErrorPage. Qed.

(** Entries keep their names and order. *)
Lemma uwp_list_entries apath files g :
  (exists root d, roots root /\ apath = d ++ [slash] /\ confined root apath) ->
  Forall (fun fi => ordinary (oi_Name fi)) files ->
  uwp (list_entries apath files) g (fun l g' => g' = g /\ map uf_Name l = map oi_Name files).
Proof.
  intros (root & d & Hroot & -> & Hap). induction files as [|file files IH]; intros Hn; [done|].
  inversion Hn as [|?? Hf Hfs]; subst. specialize (IH Hfs). cbn [list_entries]. unfold list_entry.
  assert (forall fi, uwp (l ← list_entries (d ++ [slash]) files; mret (mkUiFile (oi_Name file) (oi_IsDir fi) (oi_Size fi) :: l)) g
            (fun l g' => g' = g /\ map uf_Name l = map oi_Name (file :: files))) as Hrest.
  { intros fi. apply uwp_bind. eapply uwp_mono; [exact IH|]. intros l g' [-> E]. split; [done|]. cbn. by rewrite E. }
  apply uwp_bind, uwp_bind. destruct (oi_is_symlink file); [|apply (Hrest file)].
  apply uwp_ask; [exists root; split; [done|by apply confined_entry]|]. intros [fi|e] g' ->; [apply (Hrest fi)|apply (Hrest file)].
Qed.

Lemma uwp_ServeList w path user :
  roots (su_Path user) -> root_ok (su_Path user) -> IsUrlValid path = true -> HasSuffix path (str "/") = true ->
  uwp (webui_ServeList w path user) (mkUghost ∅ false) (fun _ => answered).
Proof.
  intros Hr Hro Hv (d & Ed)%HasSuffix_spec. unfold webui_ServeList.
  apply uwp_ask; [done|]. intros [] g' ->. apply uwp_ask; [done|]. intros [] g' ->.
  pose proof (confined_valid _ _ Hro Hv) as Hc. apply uwp_bind. unfold ui_list.
  rewrite bool_decide_false by (intros ->; by destruct d).
  apply uwp_ask; [by exists (su_Path user)|]. intros [f|e] g' Hg'; cbn in Hg'.
  2: { subst g'. apply uwp_ServeError. }
  destruct Hg' as [_ ->]. apply uwp_ask; [cbn; set_solver|]. intros [files err] g' [Hn ->].
  cbn [fst snd] in *. assert (({[f]} ∪ ∅) ∖ {[f]} = (∅ : gset nat)) as E by set_solver.
  destruct err as [e|].
  - apply uwp_ask; [cbn; set_solver|]. intros [] g' ->; cbn [ug_open ug_replied]; rewrite E; apply uwp_ServeError.
  - apply uwp_bind. eapply uwp_mono; [apply uwp_list_entries; [|done]|].
    { exists (su_Path user), (su_Path user ++ d). split_and!; [done|rewrite Ed; by rewrite app_assoc|done]. }
    intros l g' [-> _]. apply uwp_ask; [cbn; set_solver|]. intros r g' ->. cbn [ug_open ug_replied]. rewrite E.
    apply uwp_ask; [done|]. intros [] g' ->. split; [done|]. intros [] g' ->. done.
Qed.

Lemma uwp_ServeAssets w path :
  roots (wh_customResources w) -> (HasPrefix path (str "/custom/") = true -> plain (wh_customResources w)) -> IsUrlValid path = true ->
  uwp (webui_ServeAssets w path) (mkUghost ∅ false) (fun _ => answered).
Proof.
  intros Hr Hp Hv. unfold webui_ServeAssets. destruct (_ || _ || _) eqn:Epre.
  - split; [|intros [] g' ->; done]. split; [done|]. apply IsUrlValid_components in Hv as (v & -> & _).
    change (str "resources" ++ slash :: v) with (str "resources/" ++ v). apply HasPrefix_spec. by eexists.
  - destruct (HasPrefix path (str "/custom/")) eqn:Ec; [|apply uwp_ServeError].
    specialize (Hp eq_refl). apply HasPrefix_spec in Ec as [t ->]. change (drop 7 (str "/custom/" ++ t)) with (slash :: t).
    apply IsUrlValid_components in Hv as (v & Ev & Hcs).
    assert (plain (slash :: t)) as Ht.
    { split; [done|]. change (str "/custom/" ++ t) with (str "/custom" ++ slash :: t) in Hcs.
      rewrite components_app in Hcs. apply Forall_app in Hcs as [_ Hcs]. by rewrite components_slash. }
    destruct (Join_plain _ _ Hp Ht) as [[Hjr _] Hjc]. split; [|intros [] g' ->; done].
    split; [done|]. exists (wh_customResources w). split; [done|]. split; [done|].
    exists (components (slash :: t)). split; [apply Ht|done].
Qed.
End Spec.
