(* ===== verification/ServerHub.v ===== *)
(** * The hub: listeners and reloading (hub.go, listen.go, NewServer)

    The server process: Run listens and serves until a server of net/http ends;
    signals reload the configuration or shut the server down. The goroutines are
    programs of requests ([hev]) to the fields of the hub and to the outside: the
    operating system, net/http, the registry of sessions. [hub_answer] is the effect
    of one request, with what the outside decides in [hub_outside]. *)
From S2P Require Import Prelude GoIO Prog Paths ServerXattr ServerRegistry ServerHttp ServerWebdav ServerWebui.

(** ** config.go *)

Record config_TLS := mkConfigTLS { tls_Enable : bool; tls_CertFile : gostring; tls_KeyFile : gostring }.
Record config_Listener := mkConfigListener { cl_Address : gostring; cl_Network : gostring; cl_TLS : config_TLS }.
Record config_WSFS := mkConfigWSFS {
  cf_Enable : bool;
  cf_InsecureSessionIdMathRand : bool;
  cf_EnableLink : bool;
  cf_AllowedXAttrPrefix : list gostring;
}.
Record config_Webdav := mkConfigWebdav {
  cd_Enable : bool;
  cd_AllowPropfindInfDepth : bool;
  cd_EnableContentTypeProbe : bool;
  cd_Webui : config_Webui;
}.
Record OptionalFsIds := mkOptionalFsIds { of_Uid : option Z; of_Gid : option Z; of_OtherUid : option Z; of_OtherGid : option Z }.
Record FsIds := mkFsIds { fi_Uid : Z; fi_Gid : Z; fi_OtherUid : Z; fi_OtherGid : Z }.
Record config_Server := mkConfigServer {
  sc_Listener : config_Listener;
  sc_Webdav : config_Webdav;
  sc_WSFS : config_WSFS;
  sc_Storages : list config_Storage;
  sc_Anonymous : config_Anonymous;
  sc_Users : list config_User;
  sc_RealIpHeader : gostring;
  sc_ServerHeader : gostring;
  sc_FsIds : OptionalFsIds;
}.

Definition listenerEquals (a b : config_Listener) : bool :=
  bool_decide (cl_Network a = cl_Network b) && bool_decide (cl_Address a = cl_Address b) &&
  eqb (tls_Enable (cl_TLS a)) (tls_Enable (cl_TLS b)) &&
  bool_decide (tls_CertFile (cl_TLS a) = tls_CertFile (cl_TLS b)) &&
  bool_decide (tls_KeyFile (cl_TLS a) = tls_KeyFile (cl_TLS b)).

(** ** The server *)

(** wsfs.Handler: [wf_registry] is its registry, nil when the hub has none for it. *)
Record wsfs_Handler := mkWsfsHandler {
  wf_registry : option nat;
  wf_fsIds : FsIds;
  wf_EnableLink : bool;
  wf_AllowedXAttrPrefix : list gostring;
}.

(** Server; its cacheId is random text for the web interface. *)
Record Server := mkServerObj {
  so_webuiHandler : option webui_Handler;
  so_webdavHandler : option config_Webdav;
  so_wsfsHandler : option wsfs_Handler;
  so_users : gmap gostring storage_User;
  so_anonymous : option storage_User;
  so_realIpHeader : gostring;
  so_serverHeader : gostring;
}.

(** What [ServerHttp] sees of it. *)
Definition http_view (s : Server) : server :=
  mkServer (if so_webuiHandler s is Some _ then true else false) (if so_webdavHandler s is Some _ then true else false)
    (if so_wsfsHandler s is Some _ then true else false) (so_users s) (so_anonymous s).

Inductive hub_error :=
| ErrServerClosed (* of net/http *)
| ServeFailed
| ConfigFailed
| UsersFailed (e : users_error)
| WebuiWithoutWebdav
| IdsFailed
| SockRemoveFailed
| SockNotSocket
| KeyPairFailed
| ListenFailed.

(** What GetConfig does. *)
Inductive config_result := GotConfig (c : config_Server) | ConfigError | ConfigPanics.

(** ** Requests *)

Inductive hev : Type :=
(* the system *)
| HUi (e : uev)
| HRemove (p : gostring)
| UserCurrent
| UserLookup (name : gostring)
| LoadX509KeyPair (certFile keyFile : gostring)
| NetListen (network address : gostring)
| GetConfig
| ProcessExit (status : Z)
(* fields of the hub *)
| InstLoad
| InstStore (s : Server)
| ListenerStore (l : nat)
| ListenerConfigLoad
| ListenerConfigStore (c : config_Listener)
| HttpServerLoad
| HttpServerStore (hs : nat)
| ExitSend (e : hub_error)
| ExitReceive
| HubTryLock
| HubUnlock
| ReentrantStore (b : bool)
| ReentrantCAS (* of true by false *)
| RegistryLoad
| RegistryCAS (r : nat) (* of nil *)
(* net/http *)
| NewHTTPServer (tls : option Z)
| ServeStart (hs l : nat) (tls : bool) (* false: the server is shut down *)
| ServeReturns (hs l : nat)
| ShutdownStart (hs : nat)
| ShutdownWait (hs : nat)
(* registries *)
| NewSessionRegistry (c : config_WSFS)
| Reconfigure (r : nat) (c : config_WSFS)
| RegistryStop (r : nat)
(* go statements *)
| GoServe (hs l : nat) (tls : bool)
| GoReload
| GoCollect (r : nat).

(** A certificate and a TLS configuration made of it are a number. *)
Definition hans (e : hev) : Type :=
  match e with
  | HUi e => uans e
  | HRemove _ => option oserr
  | UserCurrent | UserLookup _ => option (gostring * gostring)
  | LoadX509KeyPair _ _ => option Z
  | NetListen _ _ => option nat
  | GetConfig => config_result
  | InstLoad => option Server
  | ListenerConfigLoad => config_Listener
  | HttpServerLoad => option nat
  | ExitReceive => hub_error
  | HubTryLock | ReentrantCAS | RegistryCAS _ => bool
  | RegistryLoad => option nat
  | NewHTTPServer _ | NewSessionRegistry _ => nat
  | ServeStart _ _ _ => bool
  | ServeReturns _ _ | ShutdownWait _ => option hub_error
  | _ => unit
  end.

Abbreviation HP := (prog hans).
Abbreviation hub_do e := (trigger (ans := hans) e).

Fixpoint of_ui {A} (p : UP A) : HP A :=
  match p with
  | Ret a => Ret a
  | Vis e k => Vis (HUi e) (fun r => of_ui (k r))
  | Panic => Panic
  | Diverge => Diverge
  end.

(** A function with a deferred one that recovers its panics. *)
Fixpoint with_recover {A} (p : HP A) (deferred : HP unit) : HP unit :=
  match p with
  | Ret _ | Panic => deferred
  | Vis e k => Vis e (fun r => with_recover (k r) deferred)
  | Diverge => Diverge
  end.

(** ** defaultIds.go *)

(** strconv.ParseUint(s, 10, 32). *)
Definition ParseUint32 (s : gostring) : option Z :=
  if negb (bool_decide (s = [])) && forallb is_digit s && (dec_value s <? 2 ^ 32) then Some (dec_value s) else None.

Definition GetDefaultFsIds : HP (option FsIds) :=
  currentuser ← hub_do UserCurrent;
  match currentuser with
  | None => mret None
  | Some (u, g) =>
      match ParseUint32 u, ParseUint32 g with
      | Some uid, Some gid =>
          nobody ← hub_do (UserLookup (str "nobody"));
          match nobody with
          | None => mret None
          | Some (nu, ng) =>
              match ParseUint32 nu, ParseUint32 ng with
              | Some nuid, Some ngid => mret (Some (mkFsIds uid gid nuid ngid))
              | _, _ => mret None
              end
          end
      | _, _ => mret None
      end
  end.

Definition Resolve (ids : OptionalFsIds) : HP (option FsIds) :=
  resolved ←
    (match of_Uid ids, of_Gid ids, of_OtherUid ids, of_OtherGid ids with
     | Some _, Some _, Some _, Some _ => mret (Some (mkFsIds 0 0 0 0))
     | _, _, _, _ => GetDefaultFsIds
     end);
  mret (match resolved with
    | None => None
    | Some d =>
        Some (mkFsIds (default (fi_Uid d) (of_Uid ids)) (default (fi_Gid d) (of_Gid ids))
                (default (fi_OtherUid d) (of_OtherUid ids)) (default (fi_OtherGid d) (of_OtherGid ids)))
    end).

(** ** server.go *)

Section Hub.
Context (cwd : gostring).

Definition new_wsfsHandler (c : config_Server) (wsfsRegistry : option nat) : HP (result hub_error (option wsfs_Handler)) :=
  if cf_Enable (sc_WSFS c) then
    fsIds ← Resolve (sc_FsIds c);
    mret (match fsIds with
      | None => Err IdsFailed
      | Some ids =>
          Ok (Some (mkWsfsHandler wsfsRegistry ids (cf_EnableLink (sc_WSFS c))
                      (normalizeXAttrPrefixes (cf_AllowedXAttrPrefix (sc_WSFS c)))))
      end)
  else mret (Ok None).

Definition NewServer (c : config_Server) (wsfsRegistry : option nat) : HP (result hub_error Server) :=
  match NewUsers cwd (sc_Storages c) (sc_Users c) (sc_Anonymous c) with
  | Err e => mret (Err (UsersFailed e))
  | Ok (users, anonymous) =>
      let webdav := sc_Webdav c in
      if cw_Enable (cd_Webui webdav) && negb (cd_Enable webdav) then mret (Err WebuiWithoutWebdav)
      else
        webui ← (if cw_Enable (cd_Webui webdav) then w ← of_ui (webui_NewHandler (cd_Webui webdav)); mret (Some w)
                 else mret None);
        wsfs ← new_wsfsHandler c wsfsRegistry;
        mret (match wsfs with
          | Err e => Err e
          | Ok wsfs =>
              Ok (mkServerObj webui (if cd_Enable webdav then Some webdav else None) wsfs users anonymous
                    (sc_RealIpHeader c) (sc_ServerHeader c))
          end)
  end.

(** ** listen.go *)

Definition unix_network : gostring := str "unix".
Definition ModeSocket : Z := 2 ^ 24.

(** What listen does with a socket that is in the way: an error, or none. *)
Definition remove_old_sock (c : config_Listener) : HP (option hub_error) :=
  if bool_decide (cl_Network c = unix_network) then
    fi ← hub_do (HUi (UOs (DStat (cl_Address c))));
    match fi with
    | Ok fi =>
        if negb (Z.land (oi_Mode fi) ModeSocket =? 0) then
          err ← hub_do (HRemove (cl_Address c));
          mret (match err with Some _ => Some SockRemoveFailed | None => None end)
        else mret (Some SockNotSocket)
    | Err _ => mret None (* any other error is only logged *)
    end
  else mret None.

Definition listen (c : config_Listener) : HP (result hub_error (nat * option Z)) :=
  err ← remove_old_sock c;
  match err with
  | Some e => mret (Err e)
  | None =>
      tlsConfig ←
        (if tls_Enable (cl_TLS c) then
           cert ← hub_do (LoadX509KeyPair (tls_CertFile (cl_TLS c)) (tls_KeyFile (cl_TLS c)));
           mret (match cert with Some cert => Ok (Some cert) | None => Err KeyPairFailed end)
         else mret (Ok None));
      match tlsConfig with
      | Err e => mret (Err e)
      | Ok tlsConfig =>
          listener ← hub_do (NetListen (cl_Network c) (cl_Address c));
          mret (match listener with Some l => Ok (l, tlsConfig) | None => Err ListenFailed end)
      end
  end.

Definition cleanListen (c : config_Listener) : HP unit :=
  if bool_decide (cl_Network c = unix_network) then hub_do (HRemove (cl_Address c)) ;; mret tt else mret tt.

(** ** hub.go *)

(** The handler: [None] stands for status 503. *)
Definition Hub_ServeHTTP : HP (option Server) := hub_do InstLoad.

Definition ensureWSFSRegistry (c : config_WSFS) : HP (option nat) :=
  if negb (cf_Enable c) then mret None
  else
    registry ← hub_do RegistryLoad;
    match registry with
    | Some r => hub_do (Reconfigure r c) ;; mret (Some r)
    | None =>
        r ← hub_do (NewSessionRegistry c);
        swapped ← hub_do (RegistryCAS r);
        if swapped : bool then hub_do (GoCollect r) ;; mret (Some r)
        else
          registry ← hub_do RegistryLoad;
          match registry with
          | Some r => hub_do (Reconfigure r c) ;; mret (Some r)
          | None => Panic (* Reconfigure of nil *)
          end
    end.

(** The goroutine that serves a listener. *)
Definition serve_goroutine (hs l : nat) (tls : bool) : HP unit :=
  started ← hub_do (ServeStart hs l tls);
  serveErr ← (if started : bool then hub_do (ServeReturns hs l) else mret (Some ErrServerClosed));
  match serveErr with
  | Some e => hub_do (ExitSend e)
  | None => mret tt
  end.

Definition stop_registry : HP unit :=
  registry ← hub_do RegistryLoad;
  match registry with Some r => hub_do (RegistryStop r) | None => mret tt end.

Definition Run (c : config_Server) : HP hub_error :=
  registry ← ensureWSFSRegistry (sc_WSFS c);
  server ← NewServer c registry;
  match server with
  | Err e => mret e
  | Ok server =>
      hub_do (InstStore server) ;;
      listener ← listen (sc_Listener c);
      match listener with
      | Err e => mret e
      | Ok (listener, tlsConfig) =>
          let tls := tls_Enable (cl_TLS (sc_Listener c)) in
          hub_do (ListenerStore listener) ;;
          hub_do (ListenerConfigStore (sc_Listener c)) ;;
          httpServer ← hub_do (NewHTTPServer (if tls then tlsConfig else None));
          hub_do (HttpServerStore httpServer) ;;
          hub_do (GoServe httpServer listener tls) ;;
          err ← hub_do ExitReceive;
          cleanListen (sc_Listener c) ;;
          stop_registry ;;
          mret err
      end
  end.

Definition IssueReload : HP unit :=
  locked ← hub_do HubTryLock;
  if locked : bool then hub_do GoReload else hub_do (ReentrantStore true).

(** doReload from the new listener on: the new server takes over, the old one is
    shut down. *)
Definition replace_listener (c : config_Listener) (server : Server) (listener : nat) (tlsConfig : option Z) : HP unit :=
  oldHTTPServer ← hub_do HttpServerLoad;
  oldListenerConfig ← hub_do ListenerConfigLoad;
  let tls := tls_Enable (cl_TLS c) in
  newHTTPServer ← hub_do (NewHTTPServer (if tls then tlsConfig else None));
  hub_do (InstStore server) ;;
  hub_do (ListenerStore listener) ;;
  hub_do (ListenerConfigStore c) ;;
  hub_do (HttpServerStore newHTTPServer) ;;
  hub_do (GoServe newHTTPServer listener tls) ;;
  match oldHTTPServer with
  | None => Panic (* Shutdown of nil *)
  | Some old =>
      hub_do (ShutdownStart old) ;;
      hub_do (ShutdownWait old) ;;
      cleanListen oldListenerConfig
  end.

Definition doReload_body : HP unit :=
  conf ← hub_do GetConfig;
  match conf with
  | ConfigPanics => Panic
  | ConfigError => mret tt
  | GotConfig conf =>
      registry ← ensureWSFSRegistry (sc_WSFS conf);
      server ← NewServer conf registry;
      match server with
      | Err _ => mret tt
      | Ok server =>
          listenerConfig ← hub_do ListenerConfigLoad;
          if listenerEquals listenerConfig (sc_Listener conf) then hub_do (InstStore server)
          else
            listener ← listen (sc_Listener conf);
            match listener with
            | Err _ => mret tt
            | Ok (listener, tlsConfig) => replace_listener (sc_Listener conf) server listener tlsConfig
            end
      end
  end.

Definition doReload_deferred : HP unit :=
  hub_do HubUnlock ;;
  again ← hub_do ReentrantCAS;
  if again : bool then IssueReload else mret tt.

Definition doReload : HP unit := with_recover doReload_body doReload_deferred.

Definition IssueShutdown : HP unit :=
  httpServer ← hub_do HttpServerLoad;
  match httpServer with
  | Some hs => hub_do (ShutdownStart hs) ;; hub_do (ShutdownWait hs) ;; mret tt
  | None => mret tt
  end ;;
  stop_registry.

(** cmd/serve/serve.go: the end of RunE. *)
Definition serve_main (c : config_Server) : HP unit :=
  err ← Run c;
  hub_do (ProcessExit (match err with ErrServerClosed => 0 | _ => 1 end)).
End Hub.

(** ** Shared state *)

(** The fields of Hub; exitErrorChan has room for one error. *)
Record hub := mkHub {
  hb_inst : option Server;
  hb_listenerConfig : config_Listener;
  hb_listener : option nat;
  hb_httpServer : option nat;
  hb_exitErrorChan : list hub_error;
  hb_lock : bool;
  hb_reloadReentrant : bool;
  hb_wsfsRegistry : option nat;
}.

(** An http.Server: whether Shutdown was called, the listeners it serves. *)
Record http_server := mkHttpServer { hs_tls : option Z; hs_shutdown : bool; hs_listeners : list nat }.
(** A net.Listener. *)
Record net_listener := mkNetListener { nl_network : gostring; nl_address : gostring; nl_open : bool }.
(** A registry: how its ids are made, whether it was stopped, how many collectors
    it has. *)
Record hub_registry := mkHubRegistry { hr_insecure : bool; hr_stopped : bool; hr_collectors : nat }.
(** A file: the socket of a listener, or another with its mode. *)
Inductive hub_file := SocketOf (l : nat) | OtherFile (mode : Z).

(** [wd_configs]: the configurations Run was given and GetConfig has returned. *)
Record world := mkWorld {
  wd_servers : list http_server;
  wd_listeners : list net_listener;
  wd_registries : list hub_registry;
  wd_files : gmap gostring hub_file;
  wd_configs : list config_Server;
  wd_exited : option Z;
}.

Definition set_servers (l : list http_server) (w : world) : world :=
  mkWorld l (wd_listeners w) (wd_registries w) (wd_files w) (wd_configs w) (wd_exited w).
Definition set_listeners (l : list net_listener) (w : world) : world :=
  mkWorld (wd_servers w) l (wd_registries w) (wd_files w) (wd_configs w) (wd_exited w).
Definition set_registries (l : list hub_registry) (w : world) : world :=
  mkWorld (wd_servers w) (wd_listeners w) l (wd_files w) (wd_configs w) (wd_exited w).
Definition set_files (m : gmap gostring hub_file) (w : world) : world :=
  mkWorld (wd_servers w) (wd_listeners w) (wd_registries w) m (wd_configs w) (wd_exited w).
Definition set_configs (l : list config_Server) (w : world) : world :=
  mkWorld (wd_servers w) (wd_listeners w) (wd_registries w) (wd_files w) l (wd_exited w).
Definition set_exited (e : option Z) (w : world) : world :=
  mkWorld (wd_servers w) (wd_listeners w) (wd_registries w) (wd_files w) (wd_configs w) e.

Definition hb_set_inst (s : Server) (h : hub) : hub :=
  mkHub (Some s) (hb_listenerConfig h) (hb_listener h) (hb_httpServer h) (hb_exitErrorChan h) (hb_lock h) (hb_reloadReentrant h) (hb_wsfsRegistry h).
Definition hb_set_listenerConfig (c : config_Listener) (h : hub) : hub :=
  mkHub (hb_inst h) c (hb_listener h) (hb_httpServer h) (hb_exitErrorChan h) (hb_lock h) (hb_reloadReentrant h) (hb_wsfsRegistry h).
Definition hb_set_listener (l : nat) (h : hub) : hub :=
  mkHub (hb_inst h) (hb_listenerConfig h) (Some l) (hb_httpServer h) (hb_exitErrorChan h) (hb_lock h) (hb_reloadReentrant h) (hb_wsfsRegistry h).
Definition hb_set_httpServer (hs : nat) (h : hub) : hub :=
  mkHub (hb_inst h) (hb_listenerConfig h) (hb_listener h) (Some hs) (hb_exitErrorChan h) (hb_lock h) (hb_reloadReentrant h) (hb_wsfsRegistry h).
Definition hb_set_exitErrorChan (l : list hub_error) (h : hub) : hub :=
  mkHub (hb_inst h) (hb_listenerConfig h) (hb_listener h) (hb_httpServer h) l (hb_lock h) (hb_reloadReentrant h) (hb_wsfsRegistry h).
Definition hb_set_lock (b : bool) (h : hub) : hub :=
  mkHub (hb_inst h) (hb_listenerConfig h) (hb_listener h) (hb_httpServer h) (hb_exitErrorChan h) b (hb_reloadReentrant h) (hb_wsfsRegistry h).
Definition hb_set_reloadReentrant (b : bool) (h : hub) : hub :=
  mkHub (hb_inst h) (hb_listenerConfig h) (hb_listener h) (hb_httpServer h) (hb_exitErrorChan h) (hb_lock h) b (hb_wsfsRegistry h).
Definition hb_set_wsfsRegistry (r : nat) (h : hub) : hub :=
  mkHub (hb_inst h) (hb_listenerConfig h) (hb_listener h) (hb_httpServer h) (hb_exitErrorChan h) (hb_lock h) (hb_reloadReentrant h) (Some r).

Definition hs_set_shutdown (s : http_server) : http_server := mkHttpServer (hs_tls s) true (hs_listeners s).
Definition hs_add_listener (l : nat) (s : http_server) : http_server := mkHttpServer (hs_tls s) (hs_shutdown s) (l :: hs_listeners s).
Definition nl_close (nl : net_listener) : net_listener := mkNetListener (nl_network nl) (nl_address nl) false.
Definition hr_reconfigure (c : config_WSFS) (r : hub_registry) : hub_registry :=
  mkHubRegistry (cf_InsecureSessionIdMathRand c) (hr_stopped r) (hr_collectors r).
Definition hr_stop (r : hub_registry) : hub_registry := mkHubRegistry (hr_insecure r) true (hr_collectors r).
Definition hr_collect (r : hub_registry) : hub_registry := mkHubRegistry (hr_insecure r) (hr_stopped r) (S (hr_collectors r)).

(** Closing a listener, once; one of a unix socket removes the file of its path. *)
Definition close_listener (l : nat) (w : world) : world :=
  match wd_listeners w !! l with
  | Some nl =>
      if nl_open nl then
        let w := set_listeners (<[l := nl_close nl]> (wd_listeners w)) w in
        if bool_decide (nl_network nl = unix_network) then set_files (delete (nl_address nl) (wd_files w)) w else w
      else w
  | None => w
  end.

(** net.Listen: an address in use is refused. *)
Definition address_in_use (network address : gostring) (w : world) : bool :=
  if bool_decide (network = unix_network) then bool_decide (is_Some (wd_files w !! address))
  else existsb (fun nl => nl_open nl && bool_decide (nl_network nl = network) && bool_decide (nl_address nl = address)) (wd_listeners w).

Definition open_listener (network address : gostring) (w : world) : world :=
  let l := length (wd_listeners w) in
  let w := set_listeners (wd_listeners w ++ [mkNetListener network address true]) w in
  if bool_decide (network = unix_network) then set_files (<[address := SocketOf l]> (wd_files w)) w else w.

Definition file_info (name : gostring) (f : hub_file) : osinfo :=
  match f with SocketOf _ => mkOsinfo name ModeSocket 0 | OtherFile mode => mkOsinfo name mode 0 end.

(** What the outside decides about a request. *)
Record hub_outside := mkHubOutside {
  ou_err : option oserr; (* os.Stat and os.Remove fail with it *)
  ou_yes : bool; (* net.Listen and the key pair succeed; Accept fails; all connections are idle *)
  ou_ids : option (gostring * gostring); (* user.Current, user.Lookup *)
  ou_config : config_result;
}.

Abbreviation hub_result A := (option (A * (hub * world) * list (HP unit)))%type.

Section Step.
Context (cwd : gostring).

Definition hub_answer (o : hub_outside) (e : hev) (h : hub) (w : world) : hub_result (hans e) :=
  match e return hub_result (hans e) with
  | HUi (UOs (DStat p)) =>
      Some (match ou_err o with
            | Some e => Err e
            | None => match wd_files w !! p with Some f => Ok (file_info p f) | None => Err ErrNotExist end
            end, (h, w), [])
  | HUi _ => None
  | HRemove p =>
      Some (match ou_err o with
            | Some e => (Some e, (h, w))
            | None => match wd_files w !! p with
                      | Some _ => (None, (h, set_files (delete p (wd_files w)) w))
                      | None => (Some ErrNotExist, (h, w))
                      end
            end, [])
  | UserCurrent | UserLookup _ => Some (ou_ids o, (h, w), [])
  | LoadX509KeyPair _ _ => Some (if ou_yes o then Some 0 else None, (h, w), [])
  | NetListen network address =>
      Some (if ou_yes o && negb (address_in_use network address w)
            then (Some (length (wd_listeners w)), (h, open_listener network address w))
            else (None, (h, w)), [])
  | GetConfig =>
      Some (ou_config o,
            (h, match ou_config o with GotConfig c => set_configs (c :: wd_configs w) w | _ => w end), [])
  | ProcessExit status => Some (tt, (h, set_exited (Some status) w), [])
  | InstLoad => Some (hb_inst h, (h, w), [])
  | InstStore s => Some (tt, (hb_set_inst s h, w), [])
  | ListenerStore l => Some (tt, (hb_set_listener l h, w), [])
  | ListenerConfigLoad => Some (hb_listenerConfig h, (h, w), [])
  | ListenerConfigStore c => Some (tt, (hb_set_listenerConfig c h, w), [])
  | HttpServerLoad => Some (hb_httpServer h, (h, w), [])
  | HttpServerStore hs => Some (tt, (hb_set_httpServer hs h, w), [])
  | ExitSend e =>
      match hb_exitErrorChan h with [] => Some (tt, (hb_set_exitErrorChan [e] h, w), []) | _ => None end
  | ExitReceive =>
      match hb_exitErrorChan h with e :: l => Some (e, (hb_set_exitErrorChan l h, w), []) | [] => None end
  | HubTryLock => Some (if hb_lock h then (false, (h, w)) else (true, (hb_set_lock true h, w)), [])
  | HubUnlock => Some (tt, (hb_set_lock false h, w), [])
  | ReentrantStore b => Some (tt, (hb_set_reloadReentrant b h, w), [])
  | ReentrantCAS => Some (hb_reloadReentrant h, (hb_set_reloadReentrant false h, w), [])
  | RegistryLoad => Some (hb_wsfsRegistry h, (h, w), [])
  | RegistryCAS r =>
      Some (match hb_wsfsRegistry h with Some _ => (false, (h, w)) | None => (true, (hb_set_wsfsRegistry r h, w)) end, [])
  | NewHTTPServer tls => Some (length (wd_servers w), (h, set_servers (wd_servers w ++ [mkHttpServer tls false []]) w), [])
  | ServeStart hs l _ =>
      match wd_servers w !! hs with
      | None => None
      | Some s =>
          Some (if hs_shutdown s then (false, (h, close_listener l w))
                else (true, (h, set_servers (<[hs := hs_add_listener l s]> (wd_servers w)) w)), [])
      end
  | ServeReturns hs l =>
      match wd_servers w !! hs with
      | None => None
      | Some s =>
          if hs_shutdown s then Some (Some ErrServerClosed, (h, close_listener l w), [])
          else if ou_yes o then Some (Some ServeFailed, (h, close_listener l w), []) else None
      end
  | ShutdownStart hs =>
      match wd_servers w !! hs with
      | None => None
      | Some s =>
          Some (tt, (h, foldr close_listener (set_servers (<[hs := hs_set_shutdown s]> (wd_servers w)) w) (hs_listeners s)), [])
      end
  | ShutdownWait _ => if ou_yes o then Some (None, (h, w), []) else None
  | NewSessionRegistry c =>
      Some (length (wd_registries w),
            (h, set_registries (wd_registries w ++ [mkHubRegistry (cf_InsecureSessionIdMathRand c) false 0]) w), [])
  | Reconfigure r c => Some (tt, (h, set_registries (alter (hr_reconfigure c) r (wd_registries w)) w), [])
  | RegistryStop r => Some (tt, (h, set_registries (alter hr_stop r (wd_registries w)) w), [])
  | GoServe hs l tls => Some (tt, (h, w), [serve_goroutine hs l tls])
  | GoReload => Some (tt, (h, w), [doReload cwd])
  | GoCollect r => Some (tt, (h, set_registries (alter hr_collect r (wd_registries w)) w), [])
  end.

(** ** Runs *)

Record hub_state := mkHubState { hu_hub : hub; hu_world : world; hu_threads : list (HP unit) }.

Definition zero_Listener : config_Listener := mkConfigListener [] [] (mkConfigTLS false [] []).
Definition NewHub : hub := mkHub None zero_Listener None None [] false false None.

(** The process starts with files that are no sockets of its own. *)
Definition hub_init (files : gmap gostring Z) (c : config_Server) : hub_state :=
  mkHubState NewHub (mkWorld [] [] [] (OtherFile <$> files) [c] None) [serve_main cwd c].

Inductive hub_action :=
| Sighup
| Sigterm
| HubGo (i : nat) (o : hub_outside).

(** Nothing happens after the process has exited. *)
Definition hub_act (a : hub_action) (s : hub_state) : option hub_state :=
  match wd_exited (hu_world s) with
  | Some _ => None
  | None =>
      match a with
      | Sighup => Some (mkHubState (hu_hub s) (hu_world s) (hu_threads s ++ [IssueReload]))
      | Sigterm => Some (mkHubState (hu_hub s) (hu_world s) (hu_threads s ++ [IssueShutdown]))
      | HubGo i o =>
          match hu_threads s !! i with
          | Some (Vis e k) =>
              match hub_answer o e (hu_hub s) (hu_world s) with
              | Some (r, (h, w), new) => Some (mkHubState h w (<[i := k r]> (hu_threads s) ++ new))
              | None => None
              end
          | _ => None
          end
      end
  end.

Fixpoint hub_play (acts : list hub_action) (s : hub_state) : option hub_state :=
  match acts with
  | [] => Some s
  | a :: acts' => match hub_act a s with Some s' => hub_play acts' s' | None => None end
  end.

Definition hub_reachable (files : gmap gostring Z) (c : config_Server) (s : hub_state) : Prop :=
  exists acts, hub_play acts (hub_init files c) = Some s.
End Step.
