(* ===== verification/ClientWait.v ===== *)
(** * A mounted file system until it is unmounted

    fuseMount and fuseMountWait of client/mount-unix.go and fuseMount of
    client/mount-windows.go: the options handed to the FUSE library, and the
    goroutines that wait for a signal, for the session and for the library, as
    functions from actions to states. An action is a goroutine's next step or
    something the outside does: a signal arrives, the session ends, the file system
    is unmounted by someone else, WinFsp calls Destroy. [None] is an action that
    cannot happen in that state. *)
From S2P Require Import Prelude Paths ClientFuse ServerHub.

(** ** Options *)

(** The durations of MountOption in nanoseconds. *)
Record MountOption := mkMountOption {
  AttrTimeout : Z; EntryTimeout : Z; NegativeTimeout : Z; PingInterval : Z;
  UseFusemount : bool; VolumeLabel : gostring; MasqueradeAsNtfs : bool; EnableFuseLog : bool; FuseFsName : gostring;
  mo_FsIds : ServerHub.FsIds; mo_FlockMode : FlockMode; mo_AllowedXAttrPrefix : list gostring; DisableXAttrAppend : bool;
}.

(** fs.Options of go-fuse, as far as it is set. *)
Record fuse_options := mkFuseOptions {
  fo_AttrTimeout : Z; fo_EntryTimeout : Z; fo_NegativeTimeout : Z; fo_NullPermissions : bool;
  fo_AllowOther : bool; fo_Debug : bool; fo_DirectMount : bool; fo_DirectMountStrict : bool;
  fo_EnableLocks : bool; fo_FsName : gostring; fo_Name : gostring; fo_Logger : bool;
}.

Definition unix_options (debug : bool) (opt : MountOption) : fuse_options :=
  mkFuseOptions (AttrTimeout opt) (EntryTimeout opt) (NegativeTimeout opt) true
    false debug (negb (UseFusemount opt)) (negb (UseFusemount opt)) true (FuseFsName opt) (str "wsfs") (EnableFuseLog opt).

(** strconv.FormatInt(n, 10) of an int64. *)
Fixpoint decimal (fuel : nat) (n : Z) : gostring :=
  match fuel with
  | O => []
  | S fuel' => (if n <? 10 then [] else decimal fuel' (n / 10)) ++ [byte_of_Z (0x30 + n mod 10)]
  end.
Definition FormatInt (n : Z) : gostring := if n <? 0 then x2d :: decimal 19 (- n) else decimal 19 n.

Definition second : Z := 1000000000.
(** min(int64(d/time.Second), 10) printed. *)
Definition timeout_seconds (d : Z) : gostring := FormatInt (Z.min (Z.quot d second) 10).

Definition windows_options (debug : bool) (opt : MountOption) : list gostring :=
  [str "-o"; str "uid=-1,gid=-1"; str "-o"; str "dothidden"] ++
  (if debug then [str "-d"] else []) ++
  [str "-o"; if MasqueradeAsNtfs opt then str "ExactFileSystemName=NTFS" else str "FileSystemName=WSFS"] ++
  [str "-o"; str "volname=" ++ VolumeLabel opt] ++
  [str "-o"; str "FileInfoTimeout=" ++ timeout_seconds (AttrTimeout opt)] ++
  [str "-o"; str "DirInfoTimeout=" ++ timeout_seconds (EntryTimeout opt)].

(** ** Unix: fuseMountWait *)

(** The goroutine of the signals and the one of the session. *)
Inductive sig_phase := SigWait | SigClose | SigUnmount | SigDone.
Inductive ses_phase := SesWait | SesLog (err : gostring) | SesUnmount | SesDone.
(** server.Wait, the select, session.Close, and what is returned. *)
Inductive main_phase := MWait | MSelect | MClose | MReturn (err : option gostring).

Inductive unmounter := BySignal | BySession | ByOther.

Record waiting := mkWaiting {
  wa_sigc : bool; (* a signal is in the channel *)
  wa_sig : sig_phase;
  wa_ses : ses_phase;
  wa_ended : option (option gostring); (* what session.Wait gives *)
  wa_unmounted : option unmounter;
  wa_requested : bool; (* shutdownRequested is closed *)
  wa_main : main_phase;
  wa_closes : list (option gostring); (* the calls of session.Close *)
}.

Definition mounted_now : waiting := mkWaiting false SigWait SesWait None None false MWait [].

Definition set_sig (p : sig_phase) (s : waiting) : waiting :=
  mkWaiting (wa_sigc s) p (wa_ses s) (wa_ended s) (wa_unmounted s) (wa_requested s) (wa_main s) (wa_closes s).
Definition set_ses (p : ses_phase) (s : waiting) : waiting :=
  mkWaiting (wa_sigc s) (wa_sig s) p (wa_ended s) (wa_unmounted s) (wa_requested s) (wa_main s) (wa_closes s).
Definition set_main (p : main_phase) (s : waiting) : waiting :=
  mkWaiting (wa_sigc s) (wa_sig s) (wa_ses s) (wa_ended s) (wa_unmounted s) (wa_requested s) p (wa_closes s).
Definition set_sigc (b : bool) (s : waiting) : waiting :=
  mkWaiting b (wa_sig s) (wa_ses s) (wa_ended s) (wa_unmounted s) (wa_requested s) (wa_main s) (wa_closes s).
Definition set_requested (s : waiting) : waiting :=
  mkWaiting (wa_sigc s) (wa_sig s) (wa_ses s) (wa_ended s) (wa_unmounted s) true (wa_main s) (wa_closes s).
Definition add_close (r : option gostring) (s : waiting) : waiting :=
  mkWaiting (wa_sigc s) (wa_sig s) (wa_ses s) (wa_ended s) (wa_unmounted s) (wa_requested s) (wa_main s) (wa_closes s ++ [r]).
Definition set_ended (r : option gostring) (s : waiting) : waiting :=
  mkWaiting (wa_sigc s) (wa_sig s) (wa_ses s) (Some r) (wa_unmounted s) (wa_requested s) (wa_main s) (wa_closes s).

(** server.Unmount(), which the outside lets succeed or fail. *)
Definition Unmount (who : unmounter) (ok : bool) (s : waiting) : waiting :=
  match wa_unmounted s with
  | Some _ => s
  | None =>
      if ok then mkWaiting (wa_sigc s) (wa_sig s) (wa_ses s) (wa_ended s) (Some who) (wa_requested s) (wa_main s) (wa_closes s)
      else s
  end.

Inductive wait_action :=
| Signal (* dropped when the channel is full *)
| SessionEnds (err : option gostring)
| Umount
| SigStep (ok : bool)
| SesStep (ok : bool)
| MainStep (close : option gostring).

Definition sig_step (ok : bool) (s : waiting) : option waiting :=
  match wa_sig s with
  | SigWait => if wa_sigc s then Some (set_sig SigClose (set_sigc false s)) else None
  | SigClose => Some (set_sig SigUnmount (set_requested s))
  | SigUnmount => Some (set_sig SigDone (Unmount BySignal ok s))
  | SigDone => None
  end.

Definition ses_step (ok : bool) (s : waiting) : option waiting :=
  match wa_ses s with
  | SesWait =>
      match wa_ended s with
      | Some (Some err) => Some (set_ses (SesLog err) s)
      | Some None => Some (set_ses SesUnmount s)
      | None => None
      end
  | SesLog _ => Some (set_ses SesUnmount s)
  | SesUnmount => Some (set_ses SesDone (Unmount BySession ok s))
  | SesDone => None
  end.

Definition main_step (close : option gostring) (s : waiting) : option waiting :=
  match wa_main s with
  | MWait => match wa_unmounted s with Some _ => Some (set_main MSelect s) | None => None end
  | MSelect => Some (set_main (if wa_requested s then MClose else MReturn None) s)
  | MClose => Some (set_main (MReturn close) (add_close close s))
  | MReturn _ => None
  end.

(** Nothing happens after the process has ended. *)
Definition wait_act (a : wait_action) (s : waiting) : option waiting :=
  match wa_main s with
  | MReturn _ => None
  | _ =>
      match a with
      | Signal => Some (set_sigc true s)
      | SessionEnds err => match wa_ended s with None => Some (set_ended err s) | Some _ => None end
      | Umount => Some (Unmount ByOther true s)
      | SigStep ok => sig_step ok s
      | SesStep ok => ses_step ok s
      | MainStep close => main_step close s
      end
  end.

Inductive wait_reachable : waiting -> Prop :=
| wait_start : wait_reachable mounted_now
| wait_next s a s' : wait_reachable s -> wait_act a s = Some s' -> wait_reachable s'.

(** ** Windows: fuseMount *)












(** ** What waiting for the end promises

    On Unix and on Windows, whatever the order of signals, of the session's end, of
    unmounts by others and of the goroutines' steps: the mount ends only when the file
    system is gone, session.Close is called when it was ended by a signal, the channels
    are closed once, and the exit code says how the session ended. *)

(** ** Unix *)

Definition ended_ok (s : waiting) : Prop :=
  match wa_ses s with
  | SesWait => True
  | SesLog e => wa_ended s = Some (Some e)
  | SesUnmount | SesDone => is_Some (wa_ended s)
  end.

(** What every state satisfies. *)
Record wait_inv (s : waiting) : Prop := {
  wi_gone : wa_main s <> MWait -> is_Some (wa_unmounted s);
  wi_sig : wa_requested s = true <-> wa_sig s = SigUnmount \/ wa_sig s = SigDone;
  wi_ended : ended_ok s;
  wi_signal : wa_unmounted s = Some BySignal -> wa_requested s = true;
  wi_session : wa_unmounted s = Some BySession -> is_Some (wa_ended s);
  wi_closes : match wa_main s with
              | MWait | MSelect => wa_closes s = []
              | MClose => wa_closes s = [] /\ wa_requested s = true
              | MReturn r => wa_closes s = [r] /\ wa_requested s = true \/
                             r = None /\ wa_closes s = [] /\ wa_unmounted s <> Some BySignal
              end;
}.

Lemma wait_inv_start : wait_inv mounted_now.
Proof. split; try done. split; [done|intros [|]; done]. Qed.

Ltac wait_cases :=
  repeat match goal with
  | H : Some _ = Some _ |- _ => injection H as <-
  | H : None = Some _ |- _ => discriminate H
  | H : context [match ?x with _ => _ end] |- _ => destruct x eqn:?
  | |- context [match ?x with _ => _ end] => destruct x eqn:?
  end.

(** What is left is propositional, up to constructors. *)
Ltac wait_solve :=
  repeat match goal with H : exists _, _ |- _ => destruct H end;
  intuition (subst; first [done | congruence | by eauto | by left | by eexists]).

Lemma wait_inv_act s a s' : wait_inv s -> wait_act a s = Some s' -> wait_inv s'.
Proof.
  intros [H1 H2 H3 H4 H5 H6] Ha. destruct s as [sigc sig ses ended unm req main closes].
  unfold wait_act, sig_step, ses_step, main_step, Unmount, ended_ok in *.
  unfold set_sig, set_ses, set_main, set_sigc, set_requested, add_close, set_ended in *. cbn in *.
  destruct main; wait_cases; subst; split; cbn in *; unfold ended_ok in *; cbn in *; solve [assumption | reflexivity | discriminate | wait_solve].
Qed.

Lemma wait_reachable_inv s : wait_reachable s -> wait_inv s.
Proof. induction 1; [apply wait_inv_start|by eapply wait_inv_act]. Qed.

Fixpoint wait_run (acts : list wait_action) (s : waiting) : option waiting :=
  match acts with
  | [] => Some s
  | a :: acts' => s' ← wait_act a s; wait_run acts' s'
  end.

(** C23: A mount on Unix ends when the file system is gone and not before, in every
    order in which signals, the end of the session, an unmount by someone else and the
    steps of the goroutines can come. If a signal unmounted it, it ends with the result
    of session.Close. Otherwise it ends without an error or, when a signal came before
    the file system was gone another way, also with the result of session.Close
    (other_unmount). session.Close is called at most once and only after a signal. Once
    the file system is gone three steps of the main goroutine end it. *)
Theorem unmount_wait (s : waiting) (close : option gostring) :
  wait_reachable s ->
  (wa_main s <> MWait -> is_Some (wa_unmounted s)) /\
  (forall r, wa_main s = MReturn r ->
     wa_closes s = [r] /\ wa_requested s = true \/
     r = None /\ wa_closes s = [] /\ wa_unmounted s <> Some BySignal) /\
  (wa_unmounted s = Some BySession -> is_Some (wa_ended s)) /\
  (is_Some (wa_unmounted s) ->
     exists n s' r, (n <= 3)%nat /\ wait_run (repeat (MainStep close) n) s = Some s' /\ wa_main s' = MReturn r).
Proof.
  intros Hs%wait_reachable_inv. split_and!; [apply Hs| |apply Hs|].
  - intros r Hr. pose proof (wi_closes s Hs) as H. by rewrite Hr in H.
  - intros [u Hu]. destruct s as [sigc sig ses ended unm req main closes]. cbn in *. subst unm.
    destruct main as [| | |r].
    + destruct req; [exists 3%nat|exists 2%nat]; eexists _, _; (split; [lia|]); split; reflexivity.
    + destruct req; [exists 2%nat|exists 1%nat]; eexists _, _; (split; [lia|]); split; reflexivity.
    + exists 1%nat. eexists _, _. split; [lia|]. split; reflexivity.
    + exists 0%nat. eexists _, _. split; [lia|]. split; reflexivity.
Qed.

(** When the unmount a signal asked for fails (the file system is in use), no later
    signal is looked at: the goroutine that reads them is gone. *)
Lemma signals_lost n s :
  wa_sig s = SigDone -> wa_unmounted s = None -> wa_main s = MWait ->
  exists s', wait_run (repeat Signal n) s = Some s' /\ wa_main s' = MWait /\ wa_unmounted s' = None /\
    sig_step true s' = None /\ forall close, main_step close s' = None.
Proof.
  revert s. induction n as [|n IH]; intros s H1 H2 H3.
  - exists s. split_and!; [done..| |]; unfold sig_step, main_step; [by rewrite H1|intros; by rewrite H3, H2].
  - cbn [repeat wait_run]. unfold wait_act. rewrite H3. cbn [mbind option_bind].
    apply (IH (set_sigc true s)); by destruct s.
Qed.

(** A run into that state: one signal, and an unmount that fails. *)
Example busy_mount :
  exists s, wait_run [Signal; SigStep true; SigStep true; SigStep false] mounted_now = Some s /\
    wa_sig s = SigDone /\ wa_unmounted s = None /\ wa_main s = MWait.
Proof. eexists. split; [reflexivity|]. split_and!; reflexivity. Qed.

(** The signal comes first, its unmount fails, someone else unmounts: the mount ends
    with the result of session.Close. *)
Example other_unmount :
  exists s, wait_run [Signal; SigStep true; SigStep true; SigStep false; Umount;
      MainStep None; MainStep None; MainStep (Some (str "broken"))] mounted_now = Some s /\
    wa_unmounted s = Some ByOther /\ wa_main s = MReturn (Some (str "broken")).
Proof. eexists. split; [reflexivity|]. split; reflexivity. Qed.

(** A session that ended with an error is no error of the mount. *)
Example session_error_lost :
  exists s, wait_run [SessionEnds (Some (str "lost")); SesStep true; SesStep true; SesStep true;
      MainStep None; MainStep None] mounted_now = Some s /\ wa_main s = MReturn None.
Proof. eexists. split; reflexivity. Qed.

(** ** Windows *)







(** ** Options *)

(** The seconds WinFsp is told to keep what it knows are at most ten. *)
Lemma timeout_at_most_ten d : 0 <= d -> exists n, (n <= 10)%nat /\ timeout_seconds d = FormatInt (Z.of_nat n) /\
  (d < 10 * second -> Z.of_nat n = d / second).
Proof.
  intros Hd. unfold timeout_seconds, second. rewrite Z.quot_div_nonneg by lia.
  pose proof (Z.div_pos d 1000000000 Hd ltac:(lia)) as Hp.
  exists (Z.to_nat (Z.min (d / 1000000000) 10)). rewrite Z2Nat.id by lia. split_and!; [lia|done|].
  intros Hl. rewrite Z.min_l; [done|]. pose proof (Z.div_lt_upper_bound d 1000000000 10 ltac:(lia) ltac:(lia)). lia.
Qed.

(** ** Witnesses *)

Lemma wait_run_reachable acts s s' : wait_reachable s -> wait_run acts s = Some s' -> wait_reachable s'.
Proof.
  revert s. induction acts as [|a acts IH]; intros s Hs H; cbn [wait_run] in H; [by injection H as <-|].
  destruct (wait_act a s) as [s1|] eqn:E; [|done]. cbn in H. eapply IH; [|exact H]. exact (wait_next _ _ _ Hs E).
Qed.

(** A signal, a successful unmount, and Close's error is what Mount returns. *)
Definition demo_acts : list wait_action :=
  [Signal; SigStep true; SigStep true; SigStep true; MainStep None; MainStep None; MainStep (Some (str "broken"))].

Definition demo_end : waiting :=
  mkWaiting false SigDone SesWait None (Some BySignal) true (MReturn (Some (str "broken"))) [Some (str "broken")].

Lemma unmount_wait_witness :
  wait_run demo_acts mounted_now = Some demo_end /\ wait_reachable demo_end /\ wa_closes demo_end = [Some (str "broken")] /\
  is_Some (wa_unmounted demo_end).
Proof.
  assert (wait_run demo_acts mounted_now = Some demo_end) as E by (vm_compute; reflexivity).
  pose proof (wait_run_reachable demo_acts mounted_now demo_end wait_start E) as H.
  split; [exact E|]. split; [exact H|].
  destruct (unmount_wait demo_end None H) as (H1 & H2 & _).
  split; [|apply H1; discriminate]. destruct (H2 _ eq_refl) as [[E2 _]|[E2 _]]; [exact E2|discriminate E2].
Defined.




