(* ===== verification/ServerSessionId.v ===== *)
(** * Session ids and the upgrade of a connection

    server/wsfs/sessionId.go and upgrade.go: where the ids of sessions come from, with
    encoding/base64 (raw, for URLs) and PCG of math/rand/v2, and what the upgrade does
    with an id. ServerRegistry leaves both to the outside; this file says what that is.
    The ids are 16 random bytes: different bytes are different ids, and an id is the
    same after it went through a header. *)
From S2P Require Import Prelude GoIO Paths ClientMount.

Definition sessionIdByteLength : nat := 16.

(** ** base64.RawURLEncoding *)

Definition url_alphabet : gostring := str "ABCDEFGHIJKLMNOPQRSTUVWXYZabcdefghijklmnopqrstuvwxyz0123456789-_".
Definition url_char (n : Z) : byte := nth (Z.to_nat n) url_alphabet x00.

Fixpoint sextets (s : bytes) : list Z :=
  match s with
  | a :: b :: c :: r =>
      let '(va, vb, vc) := (byte_val a, byte_val b, byte_val c) in
      va / 4 :: va mod 4 * 16 + vb / 16 :: vb mod 16 * 4 + vc / 64 :: vc mod 64 :: sextets r
  | [a; b] => let '(va, vb) := (byte_val a, byte_val b) in [va / 4; va mod 4 * 16 + vb / 16; vb mod 16 * 4]
  | [a] => [byte_val a / 4; byte_val a mod 4 * 16]
  | [] => []
  end.
Definition RawURL_EncodeToString (s : bytes) : gostring := map url_char (sextets s).

(** ** PCG of math/rand/v2 *)

Record PCG := mkPCG { pcg_hi : Z; pcg_lo : Z }.

Definition pcg_mul : Z := 2549297995355413924 * 2 ^ 64 + 4865540595714422341.
Definition pcg_inc : Z := 6364136223846793005 * 2 ^ 64 + 1442695040888963407.

(** The state is multiplied and moved on modulo 2^128. *)
Definition pcg_next (p : PCG) : PCG :=
  let state := ((pcg_hi p * 2 ^ 64 + pcg_lo p) * pcg_mul + pcg_inc) mod 2 ^ 128 in
  mkPCG (state / 2 ^ 64) (state mod 2 ^ 64).

Definition pcg_Uint64 (p : PCG) : Z * PCG :=
  let p := pcg_next p in
  let hi := pcg_hi p in
  let hi := Z.lxor hi (Z.shiftr hi 32) in
  let hi := u64 (hi * 0xda942042e4dd58b5) in
  let hi := Z.lxor hi (Z.shiftr hi 48) in
  let hi := u64 (hi * Z.lor (pcg_lo p) 1) in
  (hi, p).

Definition rand_Uint32 (p : PCG) : Z * PCG := let '(v, p) := pcg_Uint64 p in (Z.shiftr v 32, p).

(** ** sessionId.go *)

Inductive sessionIdSource := cryptoSessionIdSource | mathSessionIdSource (rng : PCG).

(** [now] is time.Now().UnixNano(). *)
Definition newMathSessionIdSource (now : Z) : sessionIdSource :=
  let seed := u64 now in mathSessionIdSource (mkPCG seed (Z.lxor seed 0x9e3779b97f4a7c15)).

Fixpoint fill (n : nat) (rng : PCG) : bytes * PCG :=
  match n with
  | O => ([], rng)
  | S n' => let '(v, rng) := rand_Uint32 rng in let '(buf, rng) := fill n' rng in (byte_of_Z v :: buf, rng)
  end.

Definition randomSessionId (r : reader) : result goerror gostring * reader :=
  let '(buf, r) := ReadFull sessionIdByteLength r in
  (match buf with Ok buf => Ok (RawURL_EncodeToString buf) | Err e => Err e end, r).

(** New of a source, with crypto/rand's reader. *)
Definition source_New (s : sessionIdSource) (r : reader) : result goerror gostring * sessionIdSource * reader :=
  match s with
  | cryptoSessionIdSource => let '(id, r) := randomSessionId r in (id, s, r)
  | mathSessionIdSource rng =>
      let '(buf, rng) := fill sessionIdByteLength rng in (Ok (RawURL_EncodeToString buf), mathSessionIdSource rng, r)
  end.

Definition setupSessionIdSource (InsecureSessionIdMathRand : bool) (now : Z) : sessionIdSource :=
  if InsecureSessionIdMathRand then newMathSessionIdSource now else cryptoSessionIdSource.

(** Reconfigure of registry.go: the source is made anew. *)
Definition Reconfigure_source (InsecureSessionIdMathRand : bool) (now : Z) (_ : sessionIdSource) : sessionIdSource :=
  setupSessionIdSource InsecureSessionIdMathRand now.

(** ** upgrade.go *)

Inductive upgrade_err := AcceptFailed | ErrBadSubprotocol.

(** The header that is set and the connection, from what websocket.Accept answers: a
    connection with its subprotocol, or [None]. *)
Definition upgrade (resumeId : gostring) (accept : option (nat * gostring)) : option (gostring * gostring) * result upgrade_err nat :=
  (if (length resumeId =? 0)%nat then None else Some (str "X-Wsfs-Resume", resumeId),
   match accept with
   | None => Err AcceptFailed
   | Some (conn, sub) => if negb (bool_decide (sub = WSSubprotocol)) then Err ErrBadSubprotocol else Ok conn
   end).

(** ** Ids *)

Lemma group_inj a b c a' b' c' :
  0 <= a < 256 -> 0 <= b < 256 -> 0 <= c < 256 -> 0 <= a' < 256 -> 0 <= b' < 256 -> 0 <= c' < 256 ->
  a / 4 = a' / 4 -> a mod 4 * 16 + b / 16 = a' mod 4 * 16 + b' / 16 ->
  b mod 16 * 4 + c / 64 = b' mod 16 * 4 + c' / 64 -> c mod 64 = c' mod 64 -> a = a' /\ b = b' /\ c = c'.
Proof. intros. Z.to_euclidean_division_equations. lia. Qed.

Lemma byte_val_eq a b : byte_val a = byte_val b -> a = b.
Proof. intros H. by rewrite <-(byte_of_Z_val a), H, byte_of_Z_val. Qed.

Lemma sextets_inj s t : length s = length t -> sextets s = sextets t -> s = t.
Proof.
  assert (forall n s t, (length s <= n)%nat -> length s = length t -> sextets s = sextets t -> s = t) as H; [|by eapply H].
  clear s t. intros n. induction n as [|n IH]; intros s t Hn Hl H.
  { destruct s; [by destruct t|simpl in Hn; lia]. }
  destruct s as [|a [|b [|c s]]], t as [|a' [|b' [|c' t]]]; try done; cbn [sextets] in H;
    pose proof (byte_val_range a) as Ra; pose proof (byte_val_range a') as Ra'.
  - injection H as H1 H2. destruct (group_inj (byte_val a) 0 0 (byte_val a') 0 0) as [E _]; try lia; [].
    by rewrite (byte_val_eq _ _ E).
  - pose proof (byte_val_range b) as Rb; pose proof (byte_val_range b') as Rb'. injection H as H1 H2 H3.
    destruct (group_inj (byte_val a) (byte_val b) 0 (byte_val a') (byte_val b') 0) as (E1 & E2 & _); try lia; [].
    by rewrite (byte_val_eq _ _ E1), (byte_val_eq _ _ E2).
  - pose proof (byte_val_range b) as Rb; pose proof (byte_val_range b') as Rb'. pose proof (byte_val_range c) as Rc; pose proof (byte_val_range c') as Rc'.
    injection H as H1 H2 H3 H4 H5.
    destruct (group_inj (byte_val a) (byte_val b) (byte_val c) (byte_val a') (byte_val b') (byte_val c')) as (E1 & E2 & E3); try lia; [].
    rewrite (byte_val_eq _ _ E1), (byte_val_eq _ _ E2), (byte_val_eq _ _ E3). do 3 f_equal.
    simpl in Hn, Hl. apply IH; [lia|lia|done].
Qed.

Lemma sextets_range s : Forall (fun n => 0 <= n < 64) (sextets s).
Proof.
  assert (forall n s, (length s <= n)%nat -> Forall (fun n => 0 <= n < 64) (sextets s)) as H; [|by eapply H].
  clear s. intros n. induction n as [|n IH]; intros s Hn; [by destruct s; [constructor|simpl in Hn; lia]|].
  destruct s as [|a [|b [|c s]]]; cbn [sextets]; [constructor|..]; pose proof (byte_val_range a) as Ra.
  - repeat constructor; Z.to_euclidean_division_equations; lia.
  - pose proof (byte_val_range b) as Rb. repeat constructor; Z.to_euclidean_division_equations; lia.
  - pose proof (byte_val_range b) as Rb. pose proof (byte_val_range c) as Rc.
    repeat apply Forall_cons_2; [Z.to_euclidean_division_equations; lia..|]. apply IH. simpl in Hn. lia.
Qed.

Lemma url_char_inj m n : 0 <= m < 64 -> 0 <= n < 64 -> url_char m = url_char n -> m = n.
Proof.
  intros Hm Hn E.
  assert (forallb (fun k => bool_decide (IndexByte url_alphabet (url_char (Z.of_nat k)) = Some k)) (seq 0 64) = true) as H
    by (vm_compute; reflexivity).
  rewrite forallb_forall in H.
  pose proof (H (Z.to_nat m) ltac:(apply in_seq; lia)) as H1. pose proof (H (Z.to_nat n) ltac:(apply in_seq; lia)) as H2.
  apply bool_decide_eq_true in H1, H2. rewrite Z2Nat.id in H1, H2 by lia. rewrite E, H2 in H1. injection H1. lia.
Qed.

(** Different bytes are different ids. *)
Lemma ids_distinct s t : length s = length t -> RawURL_EncodeToString s = RawURL_EncodeToString t -> s = t.
Proof.
  intros Hl E. apply sextets_inj; [done|]. unfold RawURL_EncodeToString in E.
  pose proof (sextets_range s) as Hs. pose proof (sextets_range t) as Ht. revert Hs Ht E.
  generalize (sextets s) (sextets t). clear. intros l. induction l as [|m l IH]; intros [|n l'] Hs Ht E; try done.
  inversion Hs; inversion Ht; subst. injection E as E1 E2. f_equal; [by apply url_char_inj|by apply IH].
Qed.

(** Two ids of the secure source are equal only if the same 16 bytes were drawn. *)
Lemma session_ids_equal r r' id s1 s2 :
  randomSessionId r = (Ok id, s1) -> randomSessionId r' = (Ok id, s2) ->
  take sessionIdByteLength (rd_data r) = take sessionIdByteLength (rd_data r').
Proof.
  unfold randomSessionId. destruct (ReadFull _ r) as [[b|] q] eqn:E; [|done]. destruct (ReadFull _ r') as [[b'|] q'] eqn:E'; [|done].
  intros [= <- _] [= H _]. destruct (ReadFull_Ok _ _ _ _ E) as (L & D & _). destruct (ReadFull_Ok _ _ _ _ E') as (L' & D' & _).
  apply ids_distinct in H as ->; [|lia]. by rewrite D, D', <-L, !take_app_length.
Qed.

(** The ids of the other source are those of the nanosecond it was made in: who knows
    when the server started knows them all. *)
Fixpoint math_ids (n : nat) (rng : PCG) : list gostring :=
  match n with
  | O => []
  | S n' => let '(buf, rng) := fill sessionIdByteLength rng in RawURL_EncodeToString buf :: math_ids n' rng
  end.
Fixpoint draw (n : nat) (s : sessionIdSource) (r : reader) : list (result goerror gostring) :=
  match n with
  | O => []
  | S n' => let '(id, s, r) := source_New s r in id :: draw n' s r
  end.
Lemma math_ids_known n now r :
  draw n (setupSessionIdSource true now) r = map Ok (math_ids n (mkPCG (u64 now) (Z.lxor (u64 now) 0x9e3779b97f4a7c15))).
Proof.
  unfold setupSessionIdSource, newMathSessionIdSource. generalize (mkPCG (u64 now) (Z.lxor (u64 now) 0x9e3779b97f4a7c15)).
  revert r. induction n as [|n IH]; intros r rng; [done|]. cbn [draw source_New math_ids].
  destruct (fill sessionIdByteLength rng) as [buf rng']. cbn [map]. by rewrite IH.
Qed.

(** An id is sent to the client as it is. *)
Lemma upgrade_header id conn :
  id <> [] -> upgrade id (Some (conn, WSSubprotocol)) = (Some (str "X-Wsfs-Resume", id), Ok conn).
Proof. intros Hid. unfold upgrade. rewrite bool_decide_true by done. by destruct id. Qed.
