(* ===== verification/CommandLine.v ===== *)
(** * The commands

    cmd/mount, cmd/quick-serve, cmd/serve, cmd/hash, cmd/reload-server with
    cmd/password, cmd/exit, server/config/default.go and decode.go: what each command
    does after cobra parsed its flags, as programs of requests to the terminal, the
    environment, the file system, bcrypt, the TOML decoder, client.Mount and the hub. A
    flag that was not given is [None]. Warnings and the set-up of the log are left out. *)
From S2P Require Import Prelude GoIO Prog Paths ServerEnv ServerHttp ServerWebdav ServerWebui ServerHub ClientFuse ClientMount ClientWait.

(** ** Errors (cmd/exit) *)

Inductive cl_err :=
| ErrMissingUsername | ErrConflict | ErrStdin | ErrEnvEmpty | ErrEnvUnset | ErrFileEmpty | ErrReadFile | ErrSource
| ErrWorkingDir | ErrHomeDir | ErrUrl | ErrNetwork | ErrScheme | ErrHash | ErrPing | ErrIds | ErrDecode | ErrReDecodeDefault
| ErrHub | ErrRun | ErrMountFailed | ErrProcess | ErrNoServer
| ExitError (Code : Z) (e : cl_err).

(** New of an error that is there. *)
Definition exit_New (code : Z) (err : option cl_err) : option cl_err := ExitError code <$> err.

(** The code the process exits with; errors.As looks at the error itself first. *)
Definition exit_Code (err : cl_err) : Z := match err with ExitError c _ => if 0 <? c then c else 1 | _ => 1 end.

(** ** Requests *)

Inductive run_result := RunNil | RunServerClosed | RunError.

Inductive cev : Type :=
| StdinIsTerminal
| TermReadPassword
| StdinRead (* io.ReadFull of one byte *)
| LookupEnv (name : gostring)
| ReadFile (path : gostring)
| Getwd
| UserHomeDir
| StatFile (path : gostring)
| AbsPath (path : gostring)
| DecodeFile (path : gostring) (c : config_Server) (* toml.DecodeFile into [c] *)
| RandomString (n : Z)
| GenerateFromPassword (password : gostring) (cost : Z)
| PrintPassword (username password : gostring)
| PrintHash (line : gostring)
| Hub (e : hev)
| MountCall (mountpoint url certHash username password : gostring) (opt : MountOption)
| NewHubCall
| SetGetConfig
| SetupSignals (sighup_reloads : bool)
| HubRun (c : config_Server)
| Executable
| Processes
| Getpid
| SendSighup (pid : Z).

(** [false]: an error. *)
Definition cans (e : cev) : Type :=
  match e with
  | StdinIsTerminal | StatFile _ | MountCall _ _ _ _ _ _ | NewHubCall | SendSighup _ => bool
  | TermReadPassword | LookupEnv _ | ReadFile _ | Getwd | UserHomeDir | AbsPath _ | GenerateFromPassword _ _ | Executable => option gostring
  | StdinRead => option byte
  | DecodeFile _ _ => option config_Server
  | RandomString _ => gostring
  | Hub e => hans e
  | HubRun _ => run_result
  | Processes => option (list (Z * option gostring))
  | Getpid => Z
  | PrintPassword _ _ | PrintHash _ | SetGetConfig | SetupSignals _ => unit
  end.
Abbreviation CLP := (prog cans).
Definition cask (e : cev) : CLP (cans e) := trigger e.

Fixpoint of_hub {A} (p : HP A) : CLP A :=
  match p with
  | Ret a => Ret a
  | Vis e k => Vis (Hub e) (fun r => of_hub (k r))
  | Panic => Panic
  | Diverge => Diverge
  end.

(** ** cmd/password *)

(** strings.TrimRight with a cutset of ASCII. *)
Fixpoint trim_set (cutset : list byte) (s : gostring) : gostring :=
  match s with
  | [] => []
  | c :: s' => if bool_decide (c ∈ cutset) then trim_set cutset s' else s
  end.
Definition TrimRight (s : gostring) (cutset : list byte) : gostring := rev (trim_set cutset (rev s)).
Definition line_end : list byte := [x0d; x0a].

Fixpoint stdin_loop (fuel : nat) (pwd : gostring) : CLP (result cl_err gostring) :=
  match fuel with
  | O => Diverge
  | S fuel' =>
      b ← cask StdinRead;
      match b with
      | None => mret (Err ErrStdin)
      | Some b =>
          if bool_decide (b = x0d) || bool_decide (b = x0a) then
            (if bool_decide (b = x0d) then cask StdinRead ;; mret tt else mret tt) ;;
            mret (Ok pwd)
          else stdin_loop fuel' (pwd ++ [b])
      end
  end.

Definition readStdin (fuel : nat) : CLP (result cl_err gostring) :=
  isTerminal ← cask StdinIsTerminal;
  pwd ← (if isTerminal : bool then
           data ← cask TermReadPassword;
           mret match data with Some data => Ok data | None => Err ErrStdin end
         else stdin_loop fuel []);
  mret match pwd with Ok pwd => Ok (TrimRight pwd line_end) | Err e => Err e end.

Definition readEnv (name : gostring) : CLP (result cl_err gostring) :=
  if bool_decide (name = []) then mret (Err ErrEnvEmpty)
  else
    value ← cask (LookupEnv name);
    mret match value with Some value => Ok value | None => Err ErrEnvUnset end.

Definition readFile (path : gostring) : CLP (result cl_err gostring) :=
  if bool_decide (path = []) then mret (Err ErrFileEmpty)
  else
    data ← cask (ReadFile path);
    mret match data with Some data => Ok (TrimRight data line_end) | None => Err ErrReadFile end.

Definition readSource (fuel : nat) (source : gostring) : CLP (result cl_err gostring) :=
  if bool_decide (source = str "stdin") then readStdin fuel
  else
    match SplitN2 source (str ":") with
    | [kind; arg] =>
        if bool_decide (kind = str "env") then readEnv arg
        else if bool_decide (kind = str "file") then readFile arg
        else mret (Err ErrSource)
    | _ => mret (Err ErrSource)
    end.

(** [urlPassword] is [None] without a password in the URL, [flag] the value of
    --password. *)
Definition password_Resolve (fuel : nat) (urlPassword : option gostring) (hasUsername : bool) (flag : option gostring)
  : CLP (result cl_err gostring) :=
  match flag with
  | Some flagValue =>
      if negb hasUsername then mret (Err ErrMissingUsername)
      else match urlPassword with
           | Some _ => mret (Err ErrConflict)
           | None => readSource fuel flagValue
           end
  | None => mret (Ok (default [] urlPassword))
  end.

(** ** net/url *)

Definition Username (u : URL) : gostring := match u_User u with Some (name, _) => name | None => [] end.
Definition Password (u : URL) : option gostring := match u_User u with Some (_, p) => p | None => None end.

Definition validOptionalPort (port : gostring) : bool :=
  match port with
  | [] => true
  | c :: rest => bool_decide (c = x3a) && forallb is_digit rest
  end.

(** The index of the last colon. *)
Fixpoint LastIndexByte (s : gostring) (c : byte) : option nat :=
  match s with
  | [] => None
  | b :: s' =>
      match LastIndexByte s' c with
      | Some i => Some (S i)
      | None => if bool_decide (b = c) then Some O else None
      end
  end.

Definition splitHostPort (hostPort : gostring) : gostring * gostring :=
  let '(host, port) :=
    match LastIndexByte hostPort x3a with
    | Some colon =>
        if validOptionalPort (drop colon hostPort) then (take colon hostPort, drop (S colon) hostPort) else (hostPort, [])
    | None => (hostPort, [])
    end in
  (if HasPrefix host (str "[") && HasSuffix host (str "]") then take (length host - 2) (drop 1 host) else host, port).
Definition Hostname (u : URL) : gostring := fst (splitHostPort (u_Host u)).
Definition Port (u : URL) : gostring := snd (splitHostPort (u_Host u)).

(** ** cmd/mount *)

Section Commands.
Context {nu : NetUrl}.

(** Without "//" the argument is a host. *)
Definition with_slashes (arg : gostring) : gostring := if Contains arg (str "//") then arg else str "//" ++ arg.

Record fsid_flags := mkFsidFlags { ff_uid : option Z; ff_gid : option Z; ff_otherUid : option Z; ff_otherGid : option Z }.
Definition fsid_options (f : fsid_flags) : OptionalFsIds :=
  mkOptionalFsIds (ff_uid f) (ff_gid f) (ff_otherUid f) (ff_otherGid f).
Definition resolveFsIds (f : fsid_flags) : CLP (option ServerHub.FsIds) := of_hub (ServerHub.Resolve (fsid_options f)).

Record mount_flags := mkMountFlags {
  mf_volumeLabel : gostring; mf_masqueradeAsNtfs : bool; mf_structTimeout : Z; mf_pingInterval : Z; mf_directMount : bool;
  mf_fsids : fsid_flags; mf_trace : bool; (* the level of the log is trace *)
  mf_certHash : gostring; mf_password : option gostring; mf_flockMode : FlockMode;
  mf_xattrPrefixes : list gostring; mf_disableXAttrAppend : bool;
}.

(** The scheme of the connection, [None] for one that is not known. *)
Definition mount_scheme (scheme : gostring) : option gostring :=
  let s := map lower scheme in
  if bool_decide (s ∈ [str "wsfs"; str "http"; []]) then Some (str "ws")
  else if bool_decide (s ∈ [str "wsfss"; str "https"]) then Some (str "wss")
  else if bool_decide (s = str "unix") then Some (str "wsfs+unix")
  else if bool_decide (s ∈ [str "ws"; str "wss"; str "wsfs+unix"; str "wsfss+unix"]) then Some scheme
  else None.

(** Without the user. *)
Definition mount_endpoint (u : URL) (scheme : gostring) : URL :=
  mkURL scheme None (u_Host u) (u_Path u) (u_RawPath u) (u_RawQuery u) (u_RawFragment u) (u_RawFragment u).

Definition mount_options (f : mount_flags) (host : gostring) (ids : ServerHub.FsIds) : MountOption :=
  mkMountOption (mf_structTimeout f * second) (mf_structTimeout f * second) (mf_structTimeout f * second)
    (mf_pingInterval f * second) (negb (mf_directMount f)) (mf_volumeLabel f) (mf_masqueradeAsNtfs f) (mf_trace f) host
    ids (mf_flockMode f) (mf_xattrPrefixes f) (mf_disableXAttrAppend f).

Definition MountCmd (fuel : nat) (f : mount_flags) (endpointArg mountpoint : gostring) : CLP (option cl_err) :=
  if negb (mf_pingInterval f =? 0) && (mf_pingInterval f <? 10) then mret (exit_New 2 (Some ErrPing))
  else
    fsIds ← resolveFsIds (mf_fsids f);
    match fsIds with
    | None => mret (exit_New 1 (Some ErrIds))
    | Some fsIds =>
        match url_Parse (with_slashes endpointArg) with
        | None => mret (exit_New 1 (Some ErrUrl))
        | Some inputedEndpoint =>
            let username := Username inputedEndpoint in
            passwd ← password_Resolve fuel (Password inputedEndpoint) (negb (bool_decide (username = []))) (mf_password f);
            match passwd with
            | Err e => mret (exit_New 1 (Some e))
            | Ok passwd =>
                match mount_scheme (u_Scheme inputedEndpoint) with
                | None => mret (exit_New 1 (Some ErrScheme))
                | Some scheme =>
                    ok ← cask (MountCall mountpoint (url_String (mount_endpoint inputedEndpoint scheme)) (mf_certHash f)
                                 username passwd (mount_options f (u_Host inputedEndpoint) fsIds));
                    mret (if ok : bool then None else exit_New 2 (Some ErrMountFailed))
                end
            end
        end
    end.

(** ** server/config *)

Definition Default : config_Server :=
  mkConfigServer
    (mkConfigListener (str ":20001") (str "tcp") (mkConfigTLS false (str "/srv/ssl/cert") (str "/srv/ssl/key")))
    (mkConfigWebdav true false false (mkConfigWebui true false []))
    (mkConfigWSFS true false false []) [] (mkConfigAnonymous false true []) [] [] [] (mkOptionalFsIds None None None None).

(** A configuration with its filePath. *)
Record config_file := mkConfigFile { cfg_filePath : gostring; cfg_Server : config_Server }.

Definition Decode (config : config_Server) (path : gostring) : CLP (result cl_err config_file) :=
  c ← cask (DecodeFile path config);
  match c with
  | None => mret (Err ErrDecode)
  | Some c =>
      p ← cask (AbsPath path);
      mret match p with Some p => Ok (mkConfigFile p c) | None => Err ErrDecode end
  end.

Definition ReDecode (old : config_file) : CLP (result cl_err config_file) :=
  if bool_decide (cfg_filePath old = []) then mret (Err ErrReDecodeDefault)
  else Decode (cfg_Server old) (cfg_filePath old).

(** ** cmd/quick-serve *)

Definition storageId : gostring := str "main".

Record quick_flags := mkQuickFlags { qf_storage : option gostring; qf_fsids : fsid_flags; qf_password : option gostring }.

Definition set_listener (l : config_Listener) (c : config_Server) : config_Server :=
  mkConfigServer l (sc_Webdav c) (sc_WSFS c) (sc_Storages c) (sc_Anonymous c) (sc_Users c) (sc_RealIpHeader c) (sc_ServerHeader c) (sc_FsIds c).
Definition set_address (a : gostring) (c : config_Server) : config_Server :=
  set_listener (mkConfigListener a (cl_Network (sc_Listener c)) (cl_TLS (sc_Listener c))) c.
Definition set_network (n : gostring) (c : config_Server) : config_Server :=
  set_listener (mkConfigListener (cl_Address (sc_Listener c)) n (cl_TLS (sc_Listener c))) c.
Definition add_user (u : config_User) (c : config_Server) : config_Server :=
  mkConfigServer (sc_Listener c) (sc_Webdav c) (sc_WSFS c) (sc_Storages c) (sc_Anonymous c) (sc_Users c ++ [u]) (sc_RealIpHeader c) (sc_ServerHeader c) (sc_FsIds c).
Definition set_anonymous (a : config_Anonymous) (c : config_Server) : config_Server :=
  mkConfigServer (sc_Listener c) (sc_Webdav c) (sc_WSFS c) (sc_Storages c) a (sc_Users c) (sc_RealIpHeader c) (sc_ServerHeader c) (sc_FsIds c).
Definition add_storage (s : config_Storage) (c : config_Server) : config_Server :=
  mkConfigServer (sc_Listener c) (sc_Webdav c) (sc_WSFS c) (sc_Storages c ++ [s]) (sc_Anonymous c) (sc_Users c) (sc_RealIpHeader c) (sc_ServerHeader c) (sc_FsIds c).
Definition set_fsids (ids : OptionalFsIds) (c : config_Server) : config_Server :=
  mkConfigServer (sc_Listener c) (sc_Webdav c) (sc_WSFS c) (sc_Storages c) (sc_Anonymous c) (sc_Users c) (sc_RealIpHeader c) (sc_ServerHeader c) ids.

Definition configStorage (config : config_Server) (storage : option gostring) : CLP (result cl_err config_Server) :=
  storage ← (match storage with Some s => mret (Some s) | None => cask Getwd end);
  mret match storage with
       | None => Err ErrWorkingDir
       | Some storage =>
           let config := add_storage (mkConfigStorage storageId storage false) config in
           Ok (set_anonymous (mkConfigAnonymous (ca_Enable (sc_Anonymous config)) (ca_ReadOnly (sc_Anonymous config)) storageId) config)
       end.

Definition configIDs (config : config_Server) (f : fsid_flags) : config_Server := set_fsids (fsid_options f) config.

(** bcrypt.DefaultCost. *)
Definition DefaultCost : Z := 10.

(** The user the URL names. *)
Definition quick_user (fuel : nat) (username : gostring) (urlPassword flag : option gostring) (config : config_Server)
  : CLP (result cl_err config_Server) :=
  password ← password_Resolve fuel urlPassword true flag;
  match password with
  | Err e => mret (Err e)
  | Ok password =>
      password ← (if bool_decide (password = []) then
                    p ← cask (RandomString 10); cask (PrintPassword username p) ;; mret p
                  else mret password);
      hash ← cask (GenerateFromPassword password DefaultCost);
      mret match hash with
           | None => Err ErrHash
           | Some hash => Ok (add_user (mkConfigUser username hash false storageId) config)
           end
  end.

Definition quick_address (u : URL) : gostring :=
  if bool_decide (u_Scheme u = str "unix") then u_Path u
  else
    let hostname := Hostname u in
    let hostname := if Contains hostname (str ":") then str "[" ++ hostname ++ str "]" else hostname in
    hostname ++ (if negb (bool_decide (Port u = [])) then str ":" ++ Port u else str ":20001").

Definition parseArg (fuel : nat) (config : config_Server) (flag : option gostring) (args : gostring)
  : CLP (result cl_err config_Server) :=
  let arg := TrimSpace args in
  match ParseUint arg 10 16 with
  | Some _ =>
      match flag with
      | Some _ => mret (Err ErrMissingUsername)
      | None => mret (Ok (set_address (str ":" ++ arg) config))
      end
  | None =>
      match url_Parse (with_slashes arg) with
      | None => mret (Err ErrUrl)
      | Some parsedUrl =>
          let s := map lower (u_Scheme parsedUrl) in
          let network :=
            if bool_decide (s ∈ [str "http"; str "wsfs"; str "tcp"; []]) then Some (str "tcp")
            else if bool_decide (s = str "unix") then Some (str "unix") else None in
          match network with
          | None => mret (Err ErrNetwork)
          | Some network =>
              let config := set_network network config in
              let username := Username parsedUrl in
              r ← (if bool_decide (username = []) then
                     mret match flag with Some _ => Err ErrMissingUsername | None => Ok config end
                   else quick_user fuel username (Password parsedUrl) flag config);
              mret match r with
                   | Err e => Err e
                   | Ok config => Ok (set_address (quick_address parsedUrl) config)
                   end
          end
      end
  end.

(** Run until the hub returns. *)
Definition hub_run (config : config_Server) (sighup_reloads : bool) : CLP (option cl_err) :=
  hub ← cask NewHubCall;
  if negb hub then mret (exit_New 2 (Some ErrHub))
  else
    (if sighup_reloads then cask SetGetConfig else mret tt) ;;
    cask (SetupSignals sighup_reloads) ;;
    err ← cask (HubRun config);
    mret match err with RunError => exit_New 1 (Some ErrRun) | RunNil | RunServerClosed => None end.

Definition QuickServeCmd (fuel : nat) (f : quick_flags) (args : list gostring) : CLP (option cl_err) :=
  config ← configStorage Default (qf_storage f);
  match config with
  | Err e => mret (exit_New 1 (Some e))
  | Ok config =>
      let config := configIDs config (qf_fsids f) in
      r ← (match args with
           | arg :: _ => parseArg fuel config (qf_password f) arg
           | [] => mret match qf_password f with Some _ => Err ErrMissingUsername | None => Ok config end
           end);
      match r with
      | Err e => mret (exit_New 2 (Some e))
      | Ok config =>
          let config :=
            if (length (sc_Users config) =? 0)%nat
            then set_anonymous (mkConfigAnonymous true false (ca_Storage (sc_Anonymous config))) config else config in
          hub_run config false
      end
  end.

(** ** cmd/serve *)

Definition defaultConfigPaths : list gostring :=
  [str "server.toml"; str "wsfs.toml"; str "config.toml"; str "~/.config/wsfs/server.toml"; str "/etc/wsfs/server.toml"].
Definition internalDefaultConfigPath : gostring := str "<DEFAULT>".

Fixpoint findConfigFile (paths : list gostring) : CLP (result cl_err gostring) :=
  match paths with
  | [] => mret (Ok internalDefaultConfigPath)
  | path_ :: paths' =>
      p ← (if HasPrefix path_ (str "~/") then
             homeDir ← cask UserHomeDir;
             mret match homeDir with Some homeDir => Some (Join homeDir (drop 2 path_)) | None => None end
           else mret (Some path_));
      match p with
      | None => mret (Err ErrHomeDir)
      | Some p =>
          found ← cask (StatFile p);
          if found : bool then mret (Ok p) else findConfigFile paths'
      end
  end.

Definition findAndDecodeConfig (configPath : gostring) : CLP (result cl_err config_file) :=
  configPath ← (if bool_decide (configPath = internalDefaultConfigPath) then findConfigFile defaultConfigPaths
                else mret (Ok configPath));
  match configPath with
  | Err e => mret (Err e)
  | Ok configPath =>
      if negb (bool_decide (configPath = internalDefaultConfigPath)) then Decode Default configPath
      else mret (Ok (mkConfigFile [] Default))
  end.

Definition set_insecure (b : bool) (c : config_Server) : config_Server :=
  mkConfigServer (sc_Listener c) (sc_Webdav c)
    (mkConfigWSFS (cf_Enable (sc_WSFS c)) b (cf_EnableLink (sc_WSFS c)) (cf_AllowedXAttrPrefix (sc_WSFS c)))
    (sc_Storages c) (sc_Anonymous c) (sc_Users c) (sc_RealIpHeader c) (sc_ServerHeader c) (sc_FsIds c).
Definition with_insecure (flag : option bool) (c : config_file) : config_file :=
  match flag with Some b => mkConfigFile (cfg_filePath c) (set_insecure b (cfg_Server c)) | None => c end.

Definition ServeCmd (insecure : option bool) (configPath : gostring) : CLP (option cl_err) :=
  config ← findAndDecodeConfig configPath;
  match config with
  | Err e => mret (exit_New 2 (Some e))
  | Ok config => hub_run (cfg_Server (with_insecure insecure config)) true
  end.

(** The GetConfig of the hub: [config] is the one the server was started with. *)
Definition serve_GetConfig (insecure : option bool) (config : config_file) : CLP (result cl_err config_file) :=
  newConfig ← ReDecode config;
  mret match newConfig with Err e => Err e | Ok newConfig => Ok (with_insecure insecure newConfig) end.

(** ** cmd/hash *)

(** Whether a hash failed. *)
Fixpoint hash_args (cost : Z) (args : list gostring) : CLP bool :=
  match args with
  | [] => mret false
  | pw :: args' =>
      hash ← cask (GenerateFromPassword pw cost);
      match hash with
      | None => hash_args cost args' ;; mret true
      | Some hash => cask (PrintHash (pw ++ str ": " ++ hash)) ;; hash_args cost args'
      end
  end.

Definition HashCmd (cost : Z) (args : list gostring) : CLP (option cl_err) :=
  match args with
  | [] =>
      password ← cask TermReadPassword;
      match password with
      | None => mret (exit_New 1 (Some ErrStdin))
      | Some password =>
          hash ← cask (GenerateFromPassword password cost);
          match hash with
          | None => mret (exit_New 1 (Some ErrHash))
          | Some hash => cask (PrintHash hash) ;; mret None
          end
      end
  | _ => failed ← hash_args cost args; mret (exit_New 1 (if failed : bool then Some ErrHash else None))
  end.

(** ** cmd/reload-server *)

Fixpoint find_loop (selfPath : gostring) (selfPid : Z) (ps : list (Z * option gostring)) : Z :=
  match ps with
  | [] => -1
  | (pid, path) :: ps' =>
      match path with
      | Some path => if bool_decide (path = selfPath) && negb (pid =? selfPid) then pid else find_loop selfPath selfPid ps'
      | None => find_loop selfPath selfPid ps'
      end
  end.

Definition findProcess : CLP (option Z) :=
  ps ← cask Processes;
  match ps with
  | None => mret None
  | Some ps =>
      selfPath ← cask Executable;
      match selfPath with
      | None => mret None
      | Some selfPath => selfPid ← cask Getpid; mret (Some (find_loop selfPath selfPid ps))
      end
  end.

(** process.NewProcess and SendSignal are one request. *)
Definition ReloadConfigCmd (pid : option Z) : CLP (option cl_err) :=
  r ← (match pid with
       | Some pid => mret (inr pid)
       | None =>
           serverPid ← findProcess;
           mret match serverPid with
                | None => inl (exit_New 2 (Some ErrProcess))
                | Some serverPid => if serverPid <=? 0 then inl (exit_New 1 (Some ErrNoServer)) else inr serverPid
                end
       end);
  match r with
  | inl e => mret e
  | inr serverPid =>
      ok ← cask (SendSighup serverPid);
      mret (if ok : bool then None else exit_New 2 (Some ErrProcess))
  end.
End Commands.
