(* ===== verification/ServerHubOk.v ===== *)
(** * The hub: what its goroutines keep to

    A specification of the goroutines of the hub: who holds the lock of reloading,
    which configurations a goroutine has read, which registry it knows to be the
    published one and whether it still has to start its collector; that every
    goroutine keeps to it; and the invariant of the state they share. *)
From S2P Require Import Prelude GoIO Prog Paths ServerXattr ServerRegistry ServerHttp ServerWebdav ServerWebui ServerHub.

(** ** A server built from a configuration *)

Definition ids_of (c : OptionalFsIds) (i : FsIds) : Prop :=
  (forall v, of_Uid c = Some v -> fi_Uid i = v) /\ (forall v, of_Gid c = Some v -> fi_Gid i = v) /\
  (forall v, of_OtherUid c = Some v -> fi_OtherUid i = v) /\ (forall v, of_OtherGid c = Some v -> fi_OtherGid i = v).

Record built (cwd : gostring) (c : config_Server) (s : Server) : Prop := {
  bt_users : NewUsers cwd (sc_Storages c) (sc_Users c) (sc_Anonymous c) = Ok (so_users s, so_anonymous s);
  bt_webdav : so_webdavHandler s = if cd_Enable (sc_Webdav c) then Some (sc_Webdav c) else None;
  bt_webui : match so_webuiHandler s with
    | Some w => cw_Enable (cd_Webui (sc_Webdav c)) = true /\ cd_Enable (sc_Webdav c) = true /\
        wh_customResources w = cw_CustomResources (cd_Webui (sc_Webdav c))
    | None => cw_Enable (cd_Webui (sc_Webdav c)) = false
    end;
  bt_wsfs : match so_wsfsHandler s with
    | Some f => cf_Enable (sc_WSFS c) = true /\ ids_of (sc_FsIds c) (wf_fsIds f) /\
        wf_EnableLink f = cf_EnableLink (sc_WSFS c) /\
        wf_AllowedXAttrPrefix f = normalizeXAttrPrefixes (cf_AllowedXAttrPrefix (sc_WSFS c))
    | None => cf_Enable (sc_WSFS c) = false
    end;
  bt_headers : so_realIpHeader s = sc_RealIpHeader c /\ so_serverHeader s = sc_ServerHeader c;
}.

(** ** Functions that only read the system

    In any specification in which reading the system is allowed and changes
    nothing of the state [g]. *)

Definition reads_system (e : hev) : bool :=
  match e with HUi (UOs (DStat _)) | UserCurrent | UserLookup _ => true | _ => false end.

Section Reading.
Context (E : env hans) (g : env_st E).
Hypothesis Hread : forall e, reads_system e = true -> env_pre E g e /\ forall r g', env_post E g e r g' -> g' = g.

Lemma rd_ask {A} e (k : hans e -> HP A) (Q : A -> env_st E -> Prop) :
  reads_system e = true -> (forall r, wp true E (k r) g Q) -> wp true E (hub_do e ≫= k) g Q.
Proof. intros He Hk. apply wp_bind. destruct (Hread e He) as [Hp Hq]. split; [done|]. intros r g' Hr. rewrite (Hq r g' Hr). apply Hk. Qed.

Lemma rd_Resolve ids (Q : option FsIds -> env_st E -> Prop) :
  (forall r, (forall i, r = Some i -> ids_of ids i) -> Q r g) -> wp true E (Resolve ids) g Q.
Proof.
  intros HQ. unfold Resolve. apply wp_bind.
  apply (wp_mono _ _ _ _ (fun _ g' => g' = g)).
  - assert (wp true E GetDefaultFsIds g (fun _ g' => g' = g)) as Hd.
    { unfold GetDefaultFsIds. apply rd_ask; [done|]. intros [[u gr]|]; [|done].
      destruct (ParseUint32 u), (ParseUint32 gr); try done. apply rd_ask; [done|].
      intros [[u2 g2]|]; [|done]. by destruct (ParseUint32 u2), (ParseUint32 g2). }
    by destruct (of_Uid ids), (of_Gid ids), (of_OtherUid ids), (of_OtherGid ids).
  - intros [d|] g' ->; apply HQ; [|done]. intros i [= <-]. repeat split; cbn; intros v ->; done.
Qed.

Lemma rd_NewHandler c (Q : webui_Handler -> env_st E -> Prop) :
  (forall w, wh_customResources w = cw_CustomResources c -> Q w g) -> wp true E (of_ui (webui_NewHandler c)) g Q.
Proof.
  intros HQ. unfold webui_NewHandler. case_bool_decide; [by apply HQ|]. cbn.
  destruct (Hread (HUi (UOs (DStat (Join (cw_CustomResources c) (str "custom.css"))))) eq_refl) as [Hp Hq].
  split; [done|]. intros css g' Hg'. rewrite (Hq css g' Hg').
  destruct (Hread (HUi (UOs (DStat (Join (cw_CustomResources c) (str "custom.js"))))) eq_refl) as [Hp2 Hq2].
  split; [done|]. intros js g2 Hg2. rewrite (Hq2 js g2 Hg2). by apply HQ.
Qed.

Lemma rd_NewServer cwd c reg (Q : result hub_error Server -> env_st E -> Prop) :
  (forall r, (forall s, r = Ok s -> built cwd c s /\ forall f, so_wsfsHandler s = Some f -> wf_registry f = reg) -> Q r g) ->
  wp true E (NewServer cwd c reg) g Q.
Proof.
  intros HQ. unfold NewServer. destruct (NewUsers _ _ _ _) as [[users anonymous]|e] eqn:Eu; [|by apply HQ].
  destruct (cw_Enable (cd_Webui (sc_Webdav c))) eqn:Ew, (cd_Enable (sc_Webdav c)) eqn:Ed; cbn [negb andb]; try by apply HQ.
  all: unfold new_wsfsHandler; apply wp_bind.
  1: apply wp_bind, rd_NewHandler; intros w Hw.
  all: apply wp_bind; destruct (cf_Enable (sc_WSFS c)) eqn:Ef; [apply wp_bind, rd_Resolve; intros [ids|] Hids|]; cbn; try by apply HQ.
  all: try specialize (Hids ids eq_refl).
  all: apply HQ; intros s [= <-]; (split; [|by intros f [= <-]]); split; cbn; try done; by rewrite Ed.
Qed.
End Reading.

(** A body whose panics are recovered: its parts one after the other. *)
Lemma wp_recover_bind (E : env hans) {A B} (p : HP A) (k : A -> HP B) d g (Q : unit -> env_st E -> Prop) :
  wp true E p g (fun a g' => wp true E (with_recover (k a) d) g' Q) -> wp true E (with_recover (p ≫= k) d) g Q.
Proof.
  revert g. induction p as [a|e c IH| |]; intros g; cbn; try done.
  intros [Hp Hk]. split; [done|]. intros r g' Hr. apply IH. by apply Hk.
Qed.

(** ** What a goroutine holds *)

Record hghost := mkHghost {
  hg_lock : bool; (* the lock of reloading *)
  hg_configs : list config_Server; (* configurations it was given *)
  hg_stored : bool; (* there is a server *)
  hg_registry : gset nat; (* what it knows of the published registry *)
  hg_published : bool; (* there is a published registry *)
  hg_fresh : option nat; (* a registry it has made *)
  hg_owes : option nat; (* a registry whose collector it has to start next *)
  hg_main : bool; (* it is the goroutine of Run *)
  hg_serving : option (nat * bool); (* the http.Server it serves; whether Serve has returned *)
  hg_ending : bool; (* Run has received an error *)
}.

Definition hg_start (locked stored : bool) (configs : list config_Server) : hghost :=
  mkHghost locked configs stored ∅ false None None false None false.

(** The goroutine of Run begins with its configuration. *)
Definition hg_run (c : config_Server) : hghost := mkHghost false [c] false ∅ false None None true None false.

Definition hg_set_lock (b : bool) (g : hghost) : hghost :=
  mkHghost b (hg_configs g) (hg_stored g) (hg_registry g) (hg_published g) (hg_fresh g) (hg_owes g) (hg_main g) (hg_serving g) (hg_ending g).
Definition hg_add_config (c : config_Server) (g : hghost) : hghost :=
  mkHghost (hg_lock g) (c :: hg_configs g) (hg_stored g) (hg_registry g) (hg_published g) (hg_fresh g) (hg_owes g) (hg_main g) (hg_serving g) (hg_ending g).
Definition hg_set_stored (g : hghost) : hghost :=
  mkHghost (hg_lock g) (hg_configs g) true (hg_registry g) (hg_published g) (hg_fresh g) (hg_owes g) (hg_main g) (hg_serving g) (hg_ending g).
Definition hg_know (r : nat) (g : hghost) : hghost :=
  mkHghost (hg_lock g) (hg_configs g) (hg_stored g) ({[r]} ∪ hg_registry g) true (hg_fresh g) (hg_owes g) (hg_main g) (hg_serving g) (hg_ending g).
Definition hg_set_published (g : hghost) : hghost :=
  mkHghost (hg_lock g) (hg_configs g) (hg_stored g) (hg_registry g) true (hg_fresh g) (hg_owes g) (hg_main g) (hg_serving g) (hg_ending g).
Definition hg_set_fresh (r : nat) (g : hghost) : hghost :=
  mkHghost (hg_lock g) (hg_configs g) (hg_stored g) (hg_registry g) (hg_published g) (Some r) (hg_owes g) (hg_main g) (hg_serving g) (hg_ending g).
Definition hg_set_owes (r : option nat) (g : hghost) : hghost :=
  mkHghost (hg_lock g) (hg_configs g) (hg_stored g) (hg_registry g) (hg_published g) (hg_fresh g) r (hg_main g) (hg_serving g) (hg_ending g).

Definition hg_set_serving (v : option (nat * bool)) (g : hghost) : hghost :=
  mkHghost (hg_lock g) (hg_configs g) (hg_stored g) (hg_registry g) (hg_published g) (hg_fresh g) (hg_owes g) (hg_main g) v (hg_ending g).
Definition hg_set_ending (b : bool) (g : hghost) : hghost :=
  mkHghost (hg_lock g) (hg_configs g) (hg_stored g) (hg_registry g) (hg_published g) (hg_fresh g) (hg_owes g) (hg_main g) (hg_serving g) b.

(** Nothing in particular must come next. *)
Definition free (g : hghost) : Prop := hg_owes g = None /\ hg_serving g = None /\ hg_ending g = false.

Section Spec.
Context (cwd : gostring).

Definition good_server (g : hghost) (s : Server) : Prop :=
  (exists c, c ∈ hg_configs g /\ built cwd c s) /\
  forall f, so_wsfsHandler s = Some f -> exists r, wf_registry f = Some r /\ r ∈ hg_registry g.

Definition hub_allowed (g : hghost) (e : hev) : Prop :=
  match e with
  | InstStore s => good_server g s
  | HubUnlock | GoReload => hg_lock g = true
  | HubTryLock => hg_lock g = false
  | GoServe _ _ _ | ServeStart _ _ _ => hg_stored g = true
  | ListenerStore _ | ListenerConfigStore _ | HttpServerStore _ => hg_lock g = true \/ hg_main g = true
  | RegistryCAS r => hg_fresh g = Some r
  | Reconfigure r _ | RegistryStop r => r ∈ hg_registry g
  | ExitReceive => hg_main g = true
  | GoCollect _ | ServeReturns _ _ | ExitSend _ => False
  | _ => True
  end.

(** Requests of a Run that is ending: none of them waits. *)
Definition ending_allowed (g : hghost) (e : hev) : Prop :=
  match e with
  | HRemove _ | RegistryLoad | ProcessExit _ => True
  | RegistryStop r => r ∈ hg_registry g
  | _ => False
  end.

Definition hub_pre (g : hghost) (e : hev) : Prop :=
  match hg_serving g, hg_owes g with
  | Some (hs, false), _ => exists l, e = ServeReturns hs l
  | Some (_, true), _ => exists x, e = ExitSend x
  | None, Some r => e = GoCollect r
  | None, None => if hg_ending g then ending_allowed g e else hub_allowed g e
  end.

Definition hub_next (g : hghost) (e : hev) : hans e -> hghost -> Prop :=
  match e return hans e -> hghost -> Prop with
  | GetConfig => fun c g' => g' = match c with GotConfig c => hg_add_config c g | _ => g end
  | HubTryLock => fun b g' => g' = hg_set_lock b g
  | HubUnlock | GoReload => fun _ g' => g' = hg_set_lock false g
  | InstStore _ => fun _ g' => g' = hg_set_stored g
  | RegistryLoad => fun r g' =>
      (hg_published g = true -> r <> None) /\ g' = match r with Some r => hg_know r g | None => g end
  | RegistryCAS r => fun b g' => g' = if (b : bool) then hg_set_owes (Some r) (hg_know r g) else hg_set_published g
  | NewSessionRegistry _ => fun r g' => g' = hg_set_fresh r g
  | GoCollect _ => fun _ g' => g' = hg_set_owes None g
  | ServeStart hs _ _ => fun b g' => g' = hg_set_serving (Some (hs, negb b)) g
  | ServeReturns hs _ => fun r g' => r <> None /\ g' = hg_set_serving (Some (hs, true)) g
  | ExitSend _ => fun _ g' => g' = hg_set_serving None g
  | ExitReceive => fun _ g' => g' = hg_set_ending true g
  | ProcessExit _ => fun _ g' => g' = hg_set_ending false g
  | _ => fun _ g' => g' = g
  end.

Definition hub_env : env hans := mkEnv hghost hub_pre hub_next.

Abbreviation hwp p g Q := (wp true hub_env p g Q).

Lemma hwp_bind {A B} (p : HP A) (k : A -> HP B) g (Q : B -> hghost -> Prop) :
  hwp p g (fun a g' => hwp (k a) g' Q) -> hwp (p ≫= k) g Q.
Proof. apply (wp_bind true hub_env). Qed.

Lemma hwp_mono {A} (p : HP A) g (Q Q' : A -> hghost -> Prop) :
  hwp p g Q -> (forall a g', Q a g' -> Q' a g') -> hwp p g Q'.
Proof. apply (wp_mono true hub_env). Qed.

Lemma pre_free g e : free g -> hub_allowed g e -> hub_pre g e.
Proof. intros (Ho & Hs & He). unfold hub_pre. by rewrite Ho, Hs, He. Qed.

Lemma hwp_ask {A} e (k : hans e -> HP A) g (Q : A -> hghost -> Prop) :
  free g -> hub_allowed g e -> (forall r g', hub_next g e r g' -> hwp (k r) g' Q) -> hwp (hub_do e ≫= k) g Q.
Proof. intros Ho Hp Hk. apply hwp_bind. split; [by apply pre_free|exact Hk]. Qed.

Lemma hwp_last e g (Q : hans e -> hghost -> Prop) :
  free g -> hub_allowed g e -> (forall r g', hub_next g e r g' -> Q r g') -> hwp (hub_do e) g Q.
Proof. intros Ho Hp Hk. split; [by apply pre_free|exact Hk]. Qed.

Lemma hwp_recover_ask {B} e (k : hans e -> HP B) d g (Q : unit -> hghost -> Prop) :
  free g -> hub_allowed g e -> (forall r g', hub_next g e r g' -> hwp (with_recover (k r) d) g' Q) ->
  hwp (with_recover (hub_do e ≫= k) d) g Q.
Proof. intros Ho Hp Hk. apply (wp_recover_bind hub_env). split; [by apply pre_free|exact Hk]. Qed.

(** ** The functions *)

Lemma hwp_NewServer c reg g :
  free g ->
  hwp (NewServer cwd c reg) g (fun r g' => g' = g /\ forall s, r = Ok s ->
    built cwd c s /\ forall f, so_wsfsHandler s = Some f -> wf_registry f = reg).
Proof.
  intros Hf. apply rd_NewServer; [|by split]. intros e He.
  split; [apply pre_free; [done|]; by destruct e|]. by destruct e; try done; intros r g' ->.
Qed.

(** What a goroutine keeps while it calls a function. *)
Definition keeps (g g' : hghost) : Prop :=
  hg_lock g' = hg_lock g /\ hg_configs g' = hg_configs g /\ hg_stored g' = hg_stored g /\ hg_main g' = hg_main g /\ free g'.

Lemma hwp_ensure c g (Q : option nat -> hghost -> Prop) :
  free g ->
  (forall r g', keeps g g' -> (cf_Enable c = true -> exists r0, r = Some r0 /\ r0 ∈ hg_registry g') -> Q r g') ->
  hwp (ensureWSFSRegistry c) g Q.
Proof.
  intros Ho HQ. unfold ensureWSFSRegistry. destruct (cf_Enable c); cbn [negb]; [|by apply HQ].
  assert (forall r g0, keeps g g0 -> r ∈ hg_registry g0 -> hwp (hub_do (Reconfigure r c) ;; mret (Some r)) g0 Q) as Hre.
  { intros r g0 Hk Hr. apply hwp_ask; [apply Hk|done|]. intros [] g' ->. apply HQ; [done|]. by exists r. }
  apply hwp_ask; [done|done|]. intros [r|] g' [_ ->]; [apply Hre; [done|cbn; set_solver]|].
  apply hwp_ask; [done|done|]. intros r g' ->. apply hwp_ask; [done|done|]. intros [] g' ->.
  - destruct Ho as (Ho1 & Ho2 & Ho3). split; [cbn; unfold hub_pre; cbn; by rewrite Ho2|]. intros [] g' ->. apply HQ; [by repeat split|]. intros _. exists r. split; [done|]. cbn. set_solver.
  - apply hwp_ask; [done|done|]. intros [r'|] g' [Hn ->]; [apply Hre; [done|cbn; set_solver]|by destruct Hn].
Qed.

Lemma hwp_listen c g : free g -> hwp (listen c) g (fun _ g' => g' = g).
Proof.
  intros Ho. unfold listen. apply hwp_bind.
  assert (hwp (remove_old_sock c) g (fun _ g' => g' = g)) as Hs.
  { unfold remove_old_sock. case_bool_decide; [|done]. apply hwp_ask; [done|done|]. intros [fi|e] g' ->; [|done].
    destruct (negb _); [|done]. apply hwp_ask; [done|done|]. by intros r g' ->. }
  eapply hwp_mono; [exact Hs|]. intros [e|] g' ->; [done|]. apply hwp_bind.
  assert (forall t, hwp (match t with
     | Err e => mret (Err e)
     | Ok tlsConfig => listener ← hub_do (NetListen (cl_Network c) (cl_Address c));
         mret (match listener with Some l => Ok (l, tlsConfig) | None => Err ListenFailed end)
     end : HP (result hub_error (nat * option Z))) g (fun _ g' => g' = g)) as Ht.
  { intros [t|e]; [|done]. apply hwp_ask; [done|done|]. by intros r g' ->. }
  destruct (tls_Enable (cl_TLS c)); [|apply (Ht (Ok None))].
  apply hwp_ask; [done|done|]. intros cert g' ->. apply Ht.
Qed.

Lemma hwp_cleanListen c g : free g -> hwp (cleanListen c) g (fun _ g' => g' = g).
Proof.
  intros Ho. unfold cleanListen. case_bool_decide; [|done]. apply hwp_ask; [done|done|]. by intros r g' ->.
Qed.

Lemma hwp_stop g : free g -> hwp stop_registry g (fun _ g' => keeps g g').
Proof.
  intros Ho. unfold stop_registry. apply hwp_ask; [done|done|]. intros [r|] g' [_ ->]; [|done].
  apply hwp_last; [done|cbn; set_solver|]. by intros [] g' ->.
Qed.

(** ** The goroutines *)

(** At its end a goroutine holds nothing. *)
Definition finished (g : hghost) : Prop := hg_lock g = false /\ free g.

(** The end of a goroutine that has served: it reports its error. *)
Lemma hwp_report e g hs :
  hg_lock g = false -> hg_owes g = None -> hg_ending g = false ->
  hwp (hub_do (ExitSend e)) (hg_set_serving (Some (hs, true)) g) (fun _ => finished).
Proof.
  intros Hl Ho He. split; [by exists e|]. intros [] g' ->. by repeat split.
Qed.

Lemma hwp_serve hs l tls g : finished g -> hg_stored g = true -> hwp (serve_goroutine hs l tls) g (fun _ => finished).
Proof.
  intros [Hl Hf] Hs. pose proof Hf as (Ho & _ & He). unfold serve_goroutine. apply hwp_ask; [done|done|].
  intros started g' ->. apply hwp_bind. destruct started; [|by apply hwp_report].
  split; [by exists l|]. intros [e|] g' [Hn ->]; [|done]. by apply hwp_report.
Qed.

Lemma hwp_IssueReload g : finished g -> hwp IssueReload g (fun _ => finished).
Proof.
  intros [Hl Ho]. unfold IssueReload. apply hwp_ask; [done|done|]. intros [] g' ->.
  - apply hwp_last; [done|done|]. by intros [] g' ->.
  - apply hwp_last; [done|done|]. by intros [] g' ->.
Qed.

Lemma hwp_IssueShutdown g : finished g -> hwp IssueShutdown g (fun _ => finished).
Proof.
  intros [Hl Ho]. unfold IssueShutdown. apply hwp_ask; [done|done|]. intros r g' ->. apply hwp_bind.
  assert (hwp stop_registry g (fun _ => finished)) as Hs.
  { eapply hwp_mono; [by apply hwp_stop|]. intros _ g' (E & _ & _ & _ & Eo). unfold finished. by rewrite E. }
  destruct r as [hs|]; [|apply Hs]. apply hwp_ask; [done|done|]. intros [] g' ->. apply hwp_ask; [done|done|]. intros r g' ->. apply Hs.
Qed.

Lemma hwp_deferred g : hg_lock g = true -> free g -> hwp doReload_deferred g (fun _ => finished).
Proof.
  intros Hl Ho. unfold doReload_deferred. apply hwp_ask; [done|done|]. intros [] g' ->.
  apply hwp_ask; [done|done|]. intros [] g' ->; [by apply hwp_IssueReload|done].
Qed.

(** Running a part of doReload with the lock. *)
Definition with_lock (g : hghost) : Prop := hg_lock g = true /\ free g.

Lemma hwp_recover_call {A B} (p : HP A) (k : A -> HP B) g (R : A -> hghost -> Prop) :
  hwp p g R -> (forall a g', R a g' -> hwp (with_recover (k a) doReload_deferred) g' (fun _ => finished)) ->
  hwp (with_recover (p ≫= k) doReload_deferred) g (fun _ => finished).
Proof. intros Hp Hk. apply (wp_recover_bind hub_env). eapply hwp_mono; [exact Hp|exact Hk]. Qed.

Lemma hwp_replace c server l t g :
  with_lock g -> good_server g server ->
  hwp (with_recover (replace_listener c server l t) doReload_deferred) g (fun _ => finished).
Proof.
  intros [Hl Ho] Hs. unfold replace_listener.
  apply hwp_recover_ask; [done|done|]. intros old g' ->. apply hwp_recover_ask; [done|done|]. intros lc g' ->.
  apply hwp_recover_ask; [done|done|]. intros hs g' ->. apply hwp_recover_ask; [done|done|]. intros [] g' ->.
  do 3 (apply hwp_recover_ask; [done|by left|]; intros [] g' ->).
  apply hwp_recover_ask; [done|done|]. intros [] g' ->.
  destruct old as [old|]; [|by apply hwp_deferred].
  apply hwp_recover_ask; [done|done|]. intros [] g' ->. apply hwp_recover_ask; [done|done|]. intros r g' ->.
  unfold cleanListen. case_bool_decide; [|by apply hwp_deferred].
  apply hwp_recover_ask; [done|done|]. intros e g' ->. by apply hwp_deferred.
Qed.

Lemma hwp_doReload g : with_lock g -> hwp (doReload cwd) g (fun _ => finished).
Proof.
  intros [Hl Ho]. unfold doReload, doReload_body. apply hwp_recover_ask; [done|done|]. intros [c| |] g' ->; try by apply hwp_deferred.
  apply (wp_recover_bind hub_env), hwp_ensure; [done|]. intros reg g1 (Hl1 & Hc1 & _ & Hm1 & Ho1) Hreg.
  eapply hwp_recover_call; [by apply hwp_NewServer|]. intros r g' [-> Hr]. destruct r as [server|e]; [|by apply hwp_deferred; rewrite ?Hl1].
  destruct (Hr server eq_refl) as [Hb Hw]. clear Hr.
  assert (with_lock g1) as Hwl by (split; [by rewrite Hl1|done]).
  assert (good_server g1 server) as Hgs.
  { split; [exists c; split; [rewrite Hc1; left|done]|]. intros f Hf. rewrite (Hw f Hf). apply Hreg.
    destruct Hb as [_ _ _ Hb _]. rewrite Hf in Hb. apply Hb. }
  apply hwp_recover_ask; [done|done|]. intros lc g' ->. destruct (listenerEquals _ _).
  - apply hwp_last; [done|done|]. intros [] g' ->. apply hwp_deferred; [cbn; by rewrite Hl1|done].
  - eapply hwp_recover_call; [by apply hwp_listen|]. intros [[l t]|e] g' ->; [by apply hwp_replace|].
    destruct Hwl. by apply hwp_deferred.
Qed.

(** A Run that is ending. *)
Definition ends (g : hghost) : Prop :=
  hg_owes g = None /\ hg_serving g = None /\ hg_ending g = true.

Lemma pre_ends g e : ends g -> ending_allowed g e -> hub_pre g e.
Proof. intros (Ho & Hs & He). unfold hub_pre. by rewrite Ho, Hs, He. Qed.

Lemma hwp_ask_end {A} e (k : hans e -> HP A) g (Q : A -> hghost -> Prop) :
  ends g -> ending_allowed g e -> (forall r g', hub_next g e r g' -> hwp (k r) g' Q) -> hwp (hub_do e ≫= k) g Q.
Proof. intros He Hp Hk. apply hwp_bind. split; [by apply pre_ends|exact Hk]. Qed.

Lemma hwp_end c (e : hub_error) g (Q : hub_error -> hghost -> Prop) :
  ends g -> (forall g', ends g' -> hg_lock g' = hg_lock g -> Q e g') -> hwp (cleanListen c ;; stop_registry ;; mret e) g Q.
Proof.
  intros He HQ. apply hwp_bind. apply (hwp_mono _ _ (fun _ g' => ends g' /\ hg_lock g' = hg_lock g)).
  { unfold cleanListen. case_bool_decide; [|done]. apply hwp_ask_end; [done|done|]. by intros r g' ->. }
  intros [] g1 [He1 Hl1]. apply hwp_bind. apply (hwp_mono _ _ (fun _ g' => ends g' /\ hg_lock g' = hg_lock g)); [|intros [] g' []; by apply HQ].
  unfold stop_registry. apply hwp_ask_end; [done|done|]. intros [r|] g' [_ ->]; [|done].
  split; [apply pre_ends; [done|cbn; set_solver]|]. by intros [] g' ->.
Qed.

Lemma hwp_serve_main c g :
  hg_lock g = false -> hg_main g = true -> free g -> c ∈ hg_configs g -> hwp (serve_main cwd c) g (fun _ => finished).
Proof.
  intros Hl Hm Ho Hc. unfold serve_main. apply hwp_bind.
  assert (forall e g', finished g' -> hwp (hub_do (ProcessExit (match e with ErrServerClosed => 0 | _ => 1 end))) g' (fun _ => finished)) as Hexit.
  { intros e g' [Hl' Hf']. pose proof Hf' as (Ho' & Hs' & He'). apply hwp_last; [done|done|]. intros [] g'' ->. by repeat split. }
  unfold Run. apply hwp_bind, hwp_ensure; [done|]. intros reg g1 (Hl1 & Hc1 & _ & Hm1 & Ho1) Hreg.
  rewrite Hl in Hl1. apply hwp_bind. eapply hwp_mono; [by apply hwp_NewServer|]. intros [server|e] g' [-> Hr]; [|by apply Hexit].
  destruct (Hr server eq_refl) as [Hb Hw]. apply hwp_ask; [done| |].
  { split; [exists c; split; [by rewrite Hc1|done]|]. intros f Hf. rewrite (Hw f Hf). apply Hreg.
    destruct Hb as [_ _ _ Hb _]. rewrite Hf in Hb. apply Hb. }
  intros [] g' ->. apply hwp_bind. eapply hwp_mono; [by apply hwp_listen|]. intros [[l t]|e] g' ->; [|by apply Hexit].
  do 2 (apply hwp_ask; [done|right; cbn; congruence|]; intros [] g' ->).
  apply hwp_ask; [done|done|]; intros hs g' ->. apply hwp_ask; [done|right; cbn; congruence|]; intros [] g' ->.
  apply hwp_ask; [done|done|]; intros [] g' ->. apply hwp_ask; [done|cbn; congruence|]; intros e g' ->.
  apply hwp_end; [destruct Ho1 as (Ho2 & Hs2 & _); by repeat split|]. intros g' He Hl'.
  split; [by apply pre_ends|]. intros [] g'' ->. destruct He as (? & ? & _). repeat split; try done. by rewrite <-Hl1.
Qed.
End Spec.
