(* ===== verification/ServerHubInv.v ===== *)
(** * The hub: the invariant of the state its goroutines share *)
From S2P Require Import Prelude GoIO Prog Paths ServerXattr ServerRegistry ServerHttp ServerWebdav ServerWebui ServerHub ServerHubOk.

Section Inv.
Context (cwd : gostring).

Abbreviation hwp p g Q := (wp true (hub_env cwd) p g Q).

(** ** What a goroutine knows is true *)

Record knows (h : hub) (w : world) (g : hghost) : Prop := {
  kn_configs : forall c, c ∈ hg_configs g -> c ∈ wd_configs w;
  kn_stored : hg_stored g = true -> hb_inst h <> None;
  kn_registry : forall r, r ∈ hg_registry g -> hb_wsfsRegistry h = Some r;
  kn_published : hg_published g = true -> hb_wsfsRegistry h <> None;
  kn_fresh : forall r, hg_fresh g = Some r -> (r < length (wd_registries w))%nat;
  kn_owes : forall r, hg_owes g = Some r -> hb_wsfsRegistry h = Some r;
}.

(** It stays true: configurations are not forgotten, the server and the registry
    never become nil and the registry is never replaced. *)
Record hub_grows (h : hub) (w : world) (h' : hub) (w' : world) : Prop := {
  gr_configs : forall c, c ∈ wd_configs w -> c ∈ wd_configs w';
  gr_inst : hb_inst h <> None -> hb_inst h' <> None;
  gr_registry : forall r, hb_wsfsRegistry h = Some r -> hb_wsfsRegistry h' = Some r;
  gr_length : (length (wd_registries w) <= length (wd_registries w'))%nat;
}.

Lemma grows_refl h w : hub_grows h w h w.
Proof. by split. Qed.

Lemma knows_grows h w h' w' g : hub_grows h w h' w' -> knows h w g -> knows h' w' g.
Proof.
  intros [Hc Hi Hr Hl] [Kc Ks Kr Kp Kf Ko]. split.
  - intros c Hcg. by apply Hc, Kc.
  - intros Hs. by apply Hi, Ks.
  - intros r Hrg. by apply Hr, Kr.
  - intros Hp. specialize (Kp Hp). destruct (hb_wsfsRegistry h) as [r|] eqn:E; [|done]. by rewrite (Hr r eq_refl).
  - intros r Hf. specialize (Kf r Hf). lia.
  - intros r Hor. by apply Hr, Ko.
Qed.

(** Closing listeners leaves the rest of the world as it was. *)
Definition same_but_files (w w' : world) : Prop :=
  wd_servers w' = wd_servers w /\ wd_registries w' = wd_registries w /\ wd_configs w' = wd_configs w /\ wd_exited w' = wd_exited w.

Lemma close_listener_same l w : same_but_files w (close_listener l w).
Proof. unfold close_listener. repeat case_match; done. Qed.

Lemma close_listeners_same ls w : same_but_files w (foldr close_listener w ls).
Proof.
  induction ls as [|l ls IH]; [done|]. cbn. destruct (close_listener_same l (foldr close_listener w ls)) as (E1 & E2 & E3 & E4).
  destruct IH as (F1 & F2 & F3 & F4). split_and!; congruence.
Qed.

Lemma same_grows h w w' :
  wd_configs w' = wd_configs w -> length (wd_registries w') = length (wd_registries w) -> hub_grows h w h w'.
Proof. intros E1 E2. split; [intros c; by rewrite E1|done|done|by rewrite E2]. Qed.

Lemma answer_grows o e h w r h' w' new : hub_answer cwd o e h w = Some (r, (h', w'), new) -> hub_grows h w h' w'.
Proof.
  destruct e; cbn [hub_answer]; intros H; repeat case_match; simplify_eq; try apply grows_refl.
  all: try by (apply same_grows; cbn; rewrite ?length_alter).
  all: try by (apply same_grows; (apply close_listener_same || (f_equal; apply close_listener_same))).
  all: try by (apply same_grows;
    match goal with |- context [foldr _ ?w0 ?ls] => destruct (close_listeners_same ls w0) as (E1 & E2 & E3 & E4) end;
    rewrite ?E3, ?E2).
  all: try by split.
  - by apply same_grows; unfold open_listener; case_match.
  - split; cbn; [by right|done..].
  - split; cbn; try done. intros r'. congruence.
  - split; cbn; rewrite ?length_app; try done. lia.
Qed.

(** ** What the goroutines share *)

Definition owes (r : nat) (g : hghost) : nat := Nat.b2n (bool_decide (hg_owes g = Some r)).
Definition holds (g : hghost) : nat := Nat.b2n (hg_lock g).

Record shared (h : hub) (w : world) (gs : list hghost) : Prop := {
  sh_lock : sum_list_with holds gs = Nat.b2n (hb_lock h);
  sh_inst : forall s, hb_inst h = Some s ->
    (exists c, c ∈ wd_configs w /\ built cwd c s) /\
    forall f, so_wsfsHandler s = Some f -> exists r, wf_registry f = Some r /\ hb_wsfsRegistry h = Some r;
  sh_registry : forall r, hb_wsfsRegistry h = Some r -> (r < length (wd_registries w))%nat;
  sh_collectors : forall r x, wd_registries w !! r = Some x ->
    (hr_collectors x + sum_list_with (owes r) gs)%nat = Nat.b2n (bool_decide (hb_wsfsRegistry h = Some r));
  sh_serving : forall hs s, wd_servers w !! hs = Some s -> hs_listeners s <> [] -> hb_inst h <> None;
}.

(** The goroutines that are started, with what they hold. *)
Definition new_ghosts (e : hev) : list hghost :=
  match e with
  | GoServe _ _ _ => [hg_start false true []]
  | GoReload => [hg_start true false []]
  | _ => []
  end.

Lemma sum_step (f : hghost -> nat) gs i g g' new :
  gs !! i = Some g ->
  (sum_list_with f (<[i := g']> gs ++ new) + f g = sum_list_with f gs + f g' + sum_list_with f new)%nat.
Proof. intros Hi. rewrite sum_list_with_app. pose proof (sum_insert f gs i g' g Hi). lia. Qed.

(** Servers that gain no first listener. *)
Definition serves_as_before (w w' : world) : Prop :=
  forall hs s', wd_servers w' !! hs = Some s' -> hs_listeners s' <> [] -> exists s, wd_servers w !! hs = Some s /\ hs_listeners s <> [].

(** A request that touches neither the lock nor the server nor the registry. *)
Lemma shared_frame h w h' w' gs i g g' :
  gs !! i = Some g -> hg_lock g' = hg_lock g -> hg_owes g' = hg_owes g ->
  hb_lock h' = hb_lock h -> hb_inst h' = hb_inst h -> hb_wsfsRegistry h' = hb_wsfsRegistry h ->
  (forall c, c ∈ wd_configs w -> c ∈ wd_configs w') ->
  map hr_collectors (wd_registries w') = map hr_collectors (wd_registries w) -> serves_as_before w w' ->
  shared h w gs -> shared h' w' (<[i := g']> gs ++ []).
Proof.
  intros Hi El Eo Elk Ei Er Hc Ecol Hsv [S1 S2 S3 S4 S5].
  assert (length (wd_registries w') = length (wd_registries w)) as Elen by (by rewrite <-(length_map hr_collectors), Ecol, length_map).
  split.
  - pose proof (sum_step holds gs i g g' [] Hi) as E. unfold holds in E at 2 4. rewrite El in E. cbn [sum_list_with] in E. rewrite Elk. lia.
  - intros s. rewrite Ei, Er. intros Hs. destruct (S2 s Hs) as [(c & Hcw & Hb) Hf]. split; [|done]. exists c. auto.
  - intros r. rewrite Er, Elen. apply S3.
  - intros r x Hx. pose proof (sum_step (owes r) gs i g g' [] Hi) as E. unfold owes in E at 2 4. rewrite Eo in E. cbn [sum_list_with] in E.
    assert (map hr_collectors (wd_registries w') !! r = Some (hr_collectors x)) as Hm by (rewrite list_lookup_fmap; by rewrite Hx).
    rewrite Ecol, list_lookup_fmap in Hm. destruct (wd_registries w !! r) as [y|] eqn:Ey; [|done]. injection Hm as Exy.
    specialize (S4 r y Ey). rewrite Er, <-Exy. lia.
  - intros hs s' Hs Hne. rewrite Ei. destruct (Hsv hs s' Hs Hne) as (s & Hs0 & Hn0). by eapply S5.
Qed.

Lemma serves_same w w' : wd_servers w' = wd_servers w -> serves_as_before w w'.
Proof. intros E hs s. rewrite E. eauto. Qed.

Lemma map_alter_collectors f r l : (forall x, hr_collectors (f x) = hr_collectors x) -> map hr_collectors (alter f r l) = map hr_collectors l.
Proof.
  intros Hf. apply list_eq. intros j. rewrite !list_lookup_fmap. destruct (decide (r = j)) as [->|Hj].
  - rewrite list_lookup_alter_eq. destruct (l !! j); [|done]. cbn. by rewrite Hf.
  - by rewrite list_lookup_alter_ne by done.
Qed.

Lemma sum_none (f : hghost -> nat) gs : Forall (fun g => f g = 0%nat) gs -> sum_list_with f gs = 0%nat.
Proof. induction 1 as [|g gs E _ IH]; [done|]. cbn. by rewrite E, IH. Qed.

(** What a request does to the shared state. *)
Definition step_ok (e : hev) (r : hans e) (new : list (HP unit)) (h' : hub) (w' : world) (gs : list hghost) (i : nat) (g : hghost) : Prop :=
  exists g', hub_next g e r g' /\ knows h' w' g' /\ Forall (knows h' w') (new_ghosts e) /\
    shared h' w' (<[i := g']> gs ++ new_ghosts e) /\ Forall2 (fun p g => hwp p g (fun _ => finished)) new (new_ghosts e).

(** What a goroutine may request: its debts first. *)
Lemma hub_pre_cases g e :
  hub_pre cwd g e ->
  (hg_owes g = None /\ hg_serving g = None /\ hub_allowed cwd g e) \/
  (exists r, hg_owes g = Some r /\ e = GoCollect r) \/
  (exists hs b, hg_serving g = Some (hs, b) /\ if b then exists x, e = ExitSend x else exists l, e = ServeReturns hs l).
Proof.
  unfold hub_pre. destruct (hg_serving g) as [[hs []]|].
  - right; right. by exists hs, true.
  - right; right. by exists hs, false.
  - destruct (hg_owes g) as [r|]; [right; left; by exists r|].
    intros H. left. split_and!; [done|done|]. destruct (hg_ending g); [|done]. by destruct e.
Qed.

(** Ghost states that say the same of the shared state. *)
Record alike (g g' : hghost) : Prop := {
  al_lock : hg_lock g' = hg_lock g;
  al_configs : hg_configs g' = hg_configs g;
  al_stored : hg_stored g' = hg_stored g;
  al_registry : hg_registry g' = hg_registry g;
  al_published : hg_published g' = hg_published g;
  al_fresh : hg_fresh g' = hg_fresh g;
  al_owes : hg_owes g' = hg_owes g;
}.

Lemma knows_alike h w g g' : alike g g' -> knows h w g -> knows h w g'.
Proof. intros [E1 E2 E3 E4 E5 E6 E7] []. by split; rewrite ?E2, ?E3, ?E4, ?E5, ?E6, ?E7. Qed.

Section Step.
Context (h : hub) (w : world) (gs : list hghost) (i : nat) (g : hghost).
Hypothesis Hi : gs !! i = Some g.
Hypothesis Hall : Forall (knows h w) gs.
Hypothesis Hsh : shared h w gs.

Lemma Hk : knows h w g.
Proof. by eapply Forall_lookup_1. Qed.

Lemma step_frame e r h' w' g' :
  new_ghosts e = [] -> hub_next g e r g' -> hg_lock g' = hg_lock g -> hg_owes g' = hg_owes g -> knows h' w' g' ->
  hb_lock h' = hb_lock h -> hb_inst h' = hb_inst h -> hb_wsfsRegistry h' = hb_wsfsRegistry h ->
  (forall c, c ∈ wd_configs w -> c ∈ wd_configs w') ->
  map hr_collectors (wd_registries w') = map hr_collectors (wd_registries w) -> serves_as_before w w' ->
  step_ok e r [] h' w' gs i g.
Proof.
  intros En Hn El Eo Hk' Elk Ei Er Hc Ecol Hsv. exists g'. rewrite En. split_and!; try done. by apply (shared_frame h w h' w' gs i g g').
Qed.

(** Requests after which a goroutine knows what it knew. *)
Lemma step_alike e r h' w' g' :
  new_ghosts e = [] -> hub_next g e r g' -> alike g g' ->
  hb_lock h' = hb_lock h -> hb_inst h' = hb_inst h -> hb_wsfsRegistry h' = hb_wsfsRegistry h ->
  wd_configs w' = wd_configs w -> map hr_collectors (wd_registries w') = map hr_collectors (wd_registries w) ->
  serves_as_before w w' -> step_ok e r [] h' w' gs i g.
Proof.
  intros En Hn Hal Elk Ei Er Ec Ecol Hsv. apply (step_frame e r h' w' g'); try done; [apply Hal|apply Hal| |by rewrite Ec].
  eapply knows_alike; [exact Hal|]. eapply knows_grows; [|exact Hk]. split; rewrite ?Ec, ?Ei, ?Er; try done.
  by rewrite <-(length_map hr_collectors), <-Ecol, length_map.
Qed.

Lemma step_same e r h' w' :
  new_ghosts e = [] -> hub_next g e r g ->
  hb_lock h' = hb_lock h -> hb_inst h' = hb_inst h -> hb_wsfsRegistry h' = hb_wsfsRegistry h ->
  wd_configs w' = wd_configs w -> map hr_collectors (wd_registries w') = map hr_collectors (wd_registries w) ->
  serves_as_before w w' -> step_ok e r [] h' w' gs i g.
Proof. intros. by apply (step_alike e r h' w' g). Qed.

(** A goroutine whose ghost state becomes [g'] while [new] ones start, nothing of
    the world changing but the lock, the server and the registry. *)
Lemma shared_hub h' g' new :
  (Nat.b2n (hb_lock h') + holds g = Nat.b2n (hb_lock h) + holds g' + sum_list_with holds new)%nat ->
  (forall s, hb_inst h' = Some s ->
    (exists c, c ∈ wd_configs w /\ built cwd c s) /\
    forall f, so_wsfsHandler s = Some f -> exists r, wf_registry f = Some r /\ hb_wsfsRegistry h' = Some r) ->
  (forall r, hb_wsfsRegistry h' = Some r -> (r < length (wd_registries w))%nat) ->
  (forall r, (owes r g' + sum_list_with (owes r) new + Nat.b2n (bool_decide (hb_wsfsRegistry h = Some r)) =
    owes r g + Nat.b2n (bool_decide (hb_wsfsRegistry h' = Some r)))%nat) ->
  (hb_inst h <> None -> hb_inst h' <> None) ->
  shared h' w (<[i := g']> gs ++ new).
Proof.
  intros Hl Hin Hr Ho Hne. destruct Hsh as [S1 S2 S3 S4 S5]. split; try done.
  - pose proof (sum_step holds gs i g g' new Hi). lia.
  - intros r x Hx. specialize (S4 r x Hx). pose proof (sum_step (owes r) gs i g g' new Hi). specialize (Ho r). lia.
  - intros hs s Hs Hl'. by eapply Hne, S5.
Qed.

Lemma step_InstStore s : good_server cwd g s -> step_ok (InstStore s) tt [] (hb_set_inst s h) w gs i g.
Proof.
  intros [(c & Hc & Hb) Hf]. exists (hg_set_stored g). pose proof Hk as Hkg; destruct Hkg as [K1 K2 K3 K4 K5 K6].
  split_and!; try done. apply shared_hub; try done; cbn; try apply Hsh.
  - intros s' [= <-]. split; [exists c; auto|]. intros f E. destruct (Hf f E) as (r & Er & Hr). exists r. auto.
  - intros r. unfold owes. cbn. lia.
Qed.

Lemma hub_same_shared_inst :
  forall s, hb_inst h = Some s ->
    (exists c, c ∈ wd_configs w /\ built cwd c s) /\
    forall f, so_wsfsHandler s = Some f -> exists r, wf_registry f = Some r /\ hb_wsfsRegistry h = Some r.
Proof. apply Hsh. Qed.

Lemma step_TryLock :
  hg_lock g = false ->
  step_ok HubTryLock (negb (hb_lock h)) [] (if hb_lock h then h else hb_set_lock true h) w gs i g.
Proof.
  intros Hl. exists (hg_set_lock (negb (hb_lock h)) g). pose proof Hk as Hkg; destruct Hkg as [K1 K2 K3 K4 K5 K6].
  destruct (hb_lock h) eqn:El; split_and!; try done; apply shared_hub; try done; cbn; try apply Hsh.
  all: try (unfold holds; rewrite El, Hl; done). all: intros r; unfold owes; cbn; lia.
Qed.

Lemma step_Unlock : hg_lock g = true -> step_ok HubUnlock tt [] (hb_set_lock false h) w gs i g.
Proof.
  intros Hl. exists (hg_set_lock false g). pose proof Hk as Hkg; destruct Hkg as [K1 K2 K3 K4 K5 K6].
  split_and!; try done; apply shared_hub; try done; cbn; try apply Hsh.
  - assert (hb_lock h = true) as ->; [|unfold holds; by rewrite Hl].
    pose proof (sh_lock _ _ _ Hsh) as S1. pose proof (sum_step holds gs i g g [] Hi) as E.
    assert (1 <= sum_list_with holds gs)%nat as Hge; [|rewrite S1 in Hge; destruct (hb_lock h); [done|cbn in Hge; lia]].
    clear -Hi Hl. revert i Hi. induction gs as [|g0 gs0 IH]; intros [|i] Hi; simplify_eq/=.
    + unfold holds. rewrite Hl. cbn. lia.
    + specialize (IH i Hi). lia.
  - intros r. unfold owes. cbn. lia.
Qed.

Lemma owes_start r l b c : owes r (hg_start l b c) = 0%nat.
Proof. unfold owes. by rewrite bool_decide_false. Qed.

Lemma step_GoReload p :
  hg_lock g = true -> hwp p (hg_start true false []) (fun _ => finished) -> step_ok GoReload tt [p] h w gs i g.
Proof.
  intros Hl Hp. exists (hg_set_lock false g). pose proof Hk as Hkg; destruct Hkg as [K1 K2 K3 K4 K5 K6].
  split_and!; try done; [by repeat constructor; try apply not_elem_of_nil; set_solver| |by repeat constructor].
  apply shared_hub; try done; cbn; try apply Hsh.
  - unfold holds. rewrite Hl. cbn. lia.
  - intros r. rewrite owes_start. unfold owes. cbn. lia.
Qed.

Lemma step_GoServe hs l tls p :
  hg_stored g = true -> hwp p (hg_start false true []) (fun _ => finished) -> step_ok (GoServe hs l tls) tt [p] h w gs i g.
Proof.
  intros Hs Hp. exists g. pose proof Hk as Hkg; destruct Hkg as [K1 K2 K3 K4 K5 K6].
  split_and!; try done; [constructor; [|done]; split; cbn; try done; set_solver| |by repeat constructor].
  apply shared_hub; try done; cbn; try apply Hsh. intros r. rewrite owes_start. unfold owes. cbn. lia.
Qed.

Lemma step_CAS r :
  hg_fresh g = Some r -> hg_owes g = None ->
  step_ok (RegistryCAS r) (if hb_wsfsRegistry h is Some _ then false else true) []
    (if hb_wsfsRegistry h is Some _ then h else hb_set_wsfsRegistry r h) w gs i g.
Proof.
  intros Hf Ho. pose proof Hk as Hkg; destruct Hkg as [K1 K2 K3 K4 K5 K6]. destruct (hb_wsfsRegistry h) as [r0|] eqn:Er.
  - exists (hg_set_published g). split_and!; try done.
    + by split; cbn; rewrite ?Er.
    + apply shared_hub; try done; cbn; try apply Hsh. intros r'. unfold owes. cbn. lia.
  - assert (hg_registry g = ∅) as Hreg.
    { apply leibniz_equiv, elem_of_equiv_empty. intros x Hx. specialize (K3 x Hx). congruence. }
    exists (hg_set_owes (Some r) (hg_know r g)). split_and!; try done.
    + split; cbn; try done. intros r'. rewrite Hreg. rewrite elem_of_union, elem_of_singleton. by intros [->|?%elem_of_empty].
    + apply shared_hub; try done; cbn; try apply Hsh.
      * intros s Hs. destruct (sh_inst _ _ _ Hsh s Hs) as [Hc Hw]. split; [done|]. intros f E. destruct (Hw f E) as (r' & _ & ?). congruence.
      * intros r' [= <-]. by apply K5.
      * intros r'. unfold owes. rewrite Ho, Er. cbn. lia.
Qed.

Lemma step_NewRegistry c x :
  hr_collectors x = 0%nat ->
  step_ok (NewSessionRegistry c) (length (wd_registries w)) [] h (set_registries (wd_registries w ++ [x]) w) gs i g.
Proof.
  intros Hx. exists (hg_set_fresh (length (wd_registries w)) g).
  assert (hub_grows h w h (set_registries (wd_registries w ++ [x]) w)) as Hg by (split; cbn; rewrite ?length_app; try done; lia).
  destruct (knows_grows _ _ _ _ _ Hg Hk) as [K1 K2 K3 K4 K5 K6]. destruct Hsh as [S1 S2 S3 S4 S5].
  split_and!; try done; split; cbn; try done.
  - intros r [= <-]. rewrite length_app. cbn. lia.
  - pose proof (sum_step holds gs i g (hg_set_fresh (length (wd_registries w)) g) [] Hi) as E. unfold holds in E at 2 4. cbn in E. lia.
  - intros r Hr. rewrite length_app. specialize (S3 r Hr). lia.
  - intros r y Hy. pose proof (sum_step (owes r) gs i g (hg_set_fresh (length (wd_registries w)) g) [] Hi) as E.
    unfold owes in E at 2 4. cbn in E. apply lookup_app_Some in Hy as [Hy|[Hlen Hy]].
    { specialize (S4 r y Hy). lia. }
    apply list_lookup_singleton_Some in Hy as [Hr <-]. rewrite Hx. assert (sum_list_with (owes r) gs = 0%nat) as Hz.
    { apply sum_none, (Forall_impl _ _ _ Hall). intros g0 Hg0. unfold owes. destruct (decide (hg_owes g0 = Some r)) as [E'|E'];
        [|by rewrite bool_decide_false]. apply Hg0, S3 in E'. lia. }
    rewrite bool_decide_false by (intros E'; specialize (S3 r E'); lia). cbn. lia.
Qed.

Lemma step_GoCollect r :
  hg_owes g = Some r -> step_ok (GoCollect r) tt [] h (set_registries (alter hr_collect r (wd_registries w)) w) gs i g.
Proof.
  intros Ho. pose proof (sh_collectors _ _ _ Hsh) as S4. exists (hg_set_owes None g).
  assert (hub_grows h w h (set_registries (alter hr_collect r (wd_registries w)) w)) as Hg
    by (split; cbn; rewrite ?length_alter; done || lia).
  destruct (knows_grows _ _ _ _ _ Hg Hk) as [K1 K2 K3 K4 K5 K6]. destruct Hsh as [S1 S2 S3 _ S5].
  split_and!; try done; split; cbn; try done.
  - pose proof (sum_step holds gs i g (hg_set_owes None g) [] Hi) as E. unfold holds in E at 2 4. cbn in E. lia.
  - intros r'. rewrite length_alter. apply S3.
  - intros r' x Hx. pose proof (sum_step (owes r') gs i g (hg_set_owes None g) [] Hi) as E.
    unfold owes in E at 2 4. cbn [hg_owes hg_set_owes sum_list_with] in E. rewrite Ho in E.
    rewrite (bool_decide_false (None = Some r')) in E by done. cbn in E.
    destruct (decide (r = r')) as [->|Hne].
    + rewrite list_lookup_alter_eq in Hx. destruct (wd_registries w !! r') as [y|] eqn:Ey; [|done]. injection Hx as <-.
      specialize (S4 r' y Ey). rewrite bool_decide_true in E by done. cbn in *. lia.
    + rewrite list_lookup_alter_ne in Hx by done. specialize (S4 r' x Hx). rewrite bool_decide_false in E by congruence. cbn in E. lia.
Qed.

Lemma step_ServeStart hs l tls s :
  hg_stored g = true -> wd_servers w !! hs = Some s ->
  step_ok (ServeStart hs l tls) (negb (hs_shutdown s)) []
    h (if hs_shutdown s then close_listener l w else set_servers (<[hs := hs_add_listener l s]> (wd_servers w)) w) gs i g.
Proof.
  intros Hst Hs. set (g' := hg_set_serving (Some (hs, hs_shutdown s)) g). assert (alike g g') as Hal by done.
  destruct (hs_shutdown s) eqn:Esd.
  - destruct (close_listener_same l w) as (E1 & E2 & E3 & _). apply (step_alike _ _ _ _ g'); rewrite ?E2; try done. by apply serves_same.
  - exists g'. pose proof Hk as [K1 K2 K3 K4 K5 K6]. split_and!; try done.
    assert (shared h w (<[i := g']> gs ++ [])) as [S1 S2 S3 S4 _].
    { apply shared_hub; try done; try apply Hsh. intros r. cbn. unfold owes. cbn. lia. }
    split; try done. intros hs' s'. cbn. intros _ _. by apply K2.
Qed.

(** Every request leaves the invariant in place. *)
Lemma answer_keeps o e r h' w' new :
  hub_pre cwd g e -> hub_answer cwd o e h w = Some (r, (h', w'), new) -> step_ok e r new h' w' gs i g.
Proof.
  intros [(Ho & Hsv & Hp)|[(r0 & Ho & ->)|(hs & b & Hsv & He)]]%hub_pre_cases.
  2: { cbn [hub_answer]. intros [= <- <- <- <-]. by apply step_GoCollect. }
  2: { destruct b, He as [x ->]; cbn [hub_answer]; intros H; repeat case_match; try discriminate H; injection H as <- <- <- <-.
    all: try (destruct (close_listener_same x w) as (E1 & E2 & E3 & _)).
    - apply (step_alike _ _ _ _ (hg_set_serving None g)); try done. by apply serves_same.
    - apply (step_alike _ _ _ _ (hg_set_serving (Some (hs, true)) g)); rewrite ?E2; try done. by apply serves_same.
    - apply (step_alike _ _ _ _ (hg_set_serving (Some (hs, true)) g)); rewrite ?E2; try done. by apply serves_same. }
  destruct e; cbn [hub_answer]; intros H; repeat case_match; try discriminate H; injection H as <- <- <- <-.
  all: try (apply step_same; by (done || apply serves_same)).
  all: try by destruct Hp.
  all: try (apply (step_alike _ _ _ _ (hg_set_ending false g)); by (done || apply serves_same)).
  all: try (apply (step_alike _ _ _ _ (hg_set_ending true g)); by (done || apply serves_same)).
  - apply step_same; try done; unfold open_listener; case_match; try done; by apply serves_same.
  - pose proof Hk as [K1 K2 K3 K4 K5 K6]. apply (step_frame _ _ _ _ (hg_add_config c g)); try done.
    + split; cbn; try done. intros c' [->|Hc]%elem_of_cons; [left|right; by apply K1].
    + intros c' Hc'. by right.
    + by apply serves_same.
  - by apply step_InstStore.
  - pose proof (step_TryLock Hp) as Ht. match goal with E : hb_lock h = true |- _ => by rewrite E in Ht end.
  - pose proof (step_TryLock Hp) as Ht. match goal with E : hb_lock h = false |- _ => by rewrite E in Ht end.
  - by apply step_Unlock.
  - pose proof Hk as [K1 K2 K3 K4 K5 K6]. destruct (hb_wsfsRegistry h) as [r0|] eqn:Er.
    + apply (step_frame _ _ _ _ (hg_know r0 g)); try done; [|by apply serves_same].
      split; cbn; rewrite ?Er; try done. intros r'. rewrite elem_of_union, elem_of_singleton. intros [->|H]; [done|by apply K3].
    + apply step_same; try done. by apply serves_same.
  - pose proof (step_CAS r0 Hp Ho) as Hc. match goal with E : hb_wsfsRegistry h = Some _ |- _ => by rewrite E in Hc end.
  - pose proof (step_CAS r0 Hp Ho) as Hc. match goal with E : hb_wsfsRegistry h = None |- _ => by rewrite E in Hc end.
  - apply step_same; try done. intros hs s'. cbn. intros [Hs|[_ Hs]]%lookup_app_Some; [by exists s'|].
    apply list_lookup_singleton_Some in Hs as [_ <-]. done.
  - match goal with Es : wd_servers w !! hs = Some ?s0, E : hs_shutdown ?s0 = true |- _ =>
      pose proof (step_ServeStart hs l tls s0 Hp Es) as Hst; by rewrite E in Hst end.
  - match goal with Es : wd_servers w !! hs = Some ?s0, E : hs_shutdown ?s0 = false |- _ =>
      pose proof (step_ServeStart hs l tls s0 Hp Es) as Hst; by rewrite E in Hst end.
  - match goal with Es : wd_servers w !! hs = Some ?s0 |- context [foldr _ ?w0 ?ls] =>
      destruct (close_listeners_same ls w0) as (E1 & E2 & E3 & _); apply step_same; rewrite ?E2; try done;
      intros hs' s'; rewrite E1; cbn; intros [(<- & <- & _)|[_ ?]]%list_lookup_insert_Some Hne; [by exists s0|by exists s'] end.
  - by apply step_NewRegistry.
  - apply step_same; try done; [by apply map_alter_collectors|by apply serves_same].
  - apply step_same; try done; [by apply map_alter_collectors|by apply serves_same].
  - apply step_GoServe; [done|]. by apply hwp_serve.
  - apply step_GoReload; [done|]. by apply hwp_doReload.
Qed.
End Step.

(** ** A server that served reports its end *)

(** Its goroutine still has to, or the report is on its way, or Run has it. *)
Definition pending (h : hub) (w : world) (gs : list hghost) : Prop :=
  forall hs s, wd_servers w !! hs = Some s -> hs_listeners s <> [] ->
    (exists j g b, gs !! j = Some g /\ hg_serving g = Some (hs, b)) \/
    hb_exitErrorChan h <> [] \/ (exists g, gs !! 0%nat = Some g /\ hg_ending g = true) \/ wd_exited w <> None.

Lemma answer_serves o e h w r h' w' new hs s' :
  hub_answer cwd o e h w = Some (r, (h', w'), new) -> wd_servers w' !! hs = Some s' -> hs_listeners s' <> [] ->
  (exists l tls, e = ServeStart hs l tls) \/ exists s, wd_servers w !! hs = Some s /\ hs_listeners s <> [].
Proof.
  intros Ha Hs Hne.
  assert (wd_servers w' = wd_servers w -> exists s, wd_servers w !! hs = Some s /\ hs_listeners s <> []) as Hsame
    by (intros E; rewrite E in Hs; by exists s').
  destruct e; cbn [hub_answer] in Ha; repeat case_match; try discriminate Ha; injection Ha as <- <- <- <-; try (right; by apply Hsame).
  - right. apply Hsame. unfold open_listener. by case_match.
  - cbn in Hs. apply lookup_app_Some in Hs as [Hs|[_ Hs]]; [right; by exists s'|].
    by apply list_lookup_singleton_Some in Hs as [_ <-].
  - right. apply Hsame, close_listener_same.
  - cbn in Hs. apply list_lookup_insert_Some in Hs as [(<- & _ & _)|[_ Hs]]; [left; by exists l, tls|right; by exists s'].
  - right. apply Hsame, close_listener_same.
  - right. apply Hsame, close_listener_same.
  - match type of Hs with context [foldr _ ?w0 ?ls] => destruct (close_listeners_same ls w0) as (E1 & _) end.
    rewrite E1 in Hs. cbn in Hs. right.
    apply list_lookup_insert_Some in Hs as [(<- & <- & _)|[_ Hs]]; [eexists; by split|by exists s'].
Qed.

Lemma answer_chan o e h w r h' w' new :
  hub_answer cwd o e h w = Some (r, (h', w'), new) -> hb_exitErrorChan h <> [] -> hb_exitErrorChan h' <> [] \/ e = ExitReceive.
Proof. destruct e; cbn [hub_answer]; intros H Hc; repeat case_match; simplify_eq; auto. Qed.

Lemma answer_exited o e h w r h' w' new :
  hub_answer cwd o e h w = Some (r, (h', w'), new) -> wd_exited w <> None -> wd_exited w' <> None.
Proof.
  destruct e; cbn [hub_answer]; intros H Hc; repeat case_match; try discriminate H; injection H as <- <- <- <-; try done.
  all: try (destruct (close_listener_same l w) as (_ & _ & _ & E); by rewrite E).
  - unfold open_listener. by case_match.
  - match goal with |- context [foldr _ ?w0 ?ls] => destruct (close_listeners_same ls w0) as (_ & _ & _ & E) end. by rewrite E.
Qed.

Lemma next_serving g e r g' hs b :
  hub_pre cwd g e -> hub_next g e r g' -> hg_serving g = Some (hs, b) -> hg_serving g' = Some (hs, true) \/ (exists x, e = ExitSend x).
Proof.
  intros Hp Hn Hs. unfold hub_pre in Hp. rewrite Hs in Hp. destruct b, Hp as [x ->]; [by right; exists x|].
  destruct Hn as [_ ->]. by left.
Qed.

Lemma next_ending g e r g' :
  hub_pre cwd g e -> hub_next g e r g' -> hg_ending g = true -> hg_ending g' = true \/ exists st, e = ProcessExit st.
Proof.
  intros Hp Hn He. destruct (hub_pre_cases _ _ Hp) as [_|[(r0 & _ & ->)|(hs & b & _ & Hx)]].
  - destruct e; cbn in Hn; repeat case_match; simplify_eq; eauto; destruct Hn as [_ ->]; eauto.
  - left. cbn in Hn. by subst g'.
  - destruct b, Hx as [x ->]; left; cbn in Hn; [by subst g'|by destruct Hn as [_ ->]].
Qed.

Lemma lookup_step gs i (g g' : hghost) new j g0 :
  gs !! i = Some g -> gs !! j = Some g0 -> (<[i := g']> gs ++ new) !! j = Some (if decide (j = i) then g' else g0).
Proof.
  intros Hi Hj. rewrite lookup_app_l by (rewrite length_insert; by eapply lookup_lt_Some). case_decide as E.
  - subst j. rewrite list_lookup_insert_eq; [done|by eapply lookup_lt_Some].
  - by rewrite list_lookup_insert_ne.
Qed.

Lemma pending_step gs i g e o r h w h' w' new g' :
  gs !! i = Some g -> (hg_main g = true -> i = 0%nat) -> hub_pre cwd g e -> hub_next g e r g' ->
  hub_answer cwd o e h w = Some (r, (h', w'), new) -> pending h w gs -> pending h' w' (<[i := g']> gs ++ new_ghosts e).
Proof.
  intros Hi Hmain Hp Hn Ha Hpend hs s' Hs' Hne'.
  assert (forall j g0, gs !! j = Some g0 -> (<[i := g']> gs ++ new_ghosts e) !! j = Some (if decide (j = i) then g' else g0)) as Hl.
  { intros j g0 Hj. by apply (lookup_step gs i g). }
  destruct (answer_serves _ _ _ _ _ _ _ _ _ _ Ha Hs' Hne') as [(l & tls & ->)|(s & Hs & Hne)].
  { left. cbn in Hn. exists i, g'. eexists. split; [specialize (Hl i g Hi); by rewrite decide_True in Hl|by subst g']. }
  destruct (Hpend hs s Hs Hne) as [(j & g0 & b & Hj & Hsv)|[Hc|[(g0 & H0 & Hend)|Hex]]].
  - specialize (Hl j g0 Hj). case_decide as E; [|left; by exists j, g0, b]. subst j.
    assert (g0 = g) as -> by congruence. destruct (next_serving _ _ _ _ _ _ Hp Hn Hsv) as [Hsv'|[x ->]].
    + left. by exists i, g', true.
    + right; left. cbn in Ha. destruct (hb_exitErrorChan h); [by injection Ha as <- <- <-|done].
  - destruct (answer_chan _ _ _ _ _ _ _ _ Ha Hc) as [Hc'| ->]; [by right; left|]. right; right; left.
    exists g'. assert (i = 0%nat) as ->.
    { apply Hmain. unfold hub_pre in Hp. destruct (hg_serving g) as [[? []]|]; [by destruct Hp..|].
      destruct (hg_owes g); [done|]. by destruct (hg_ending g). }
    split; [|cbn in Hn; by subst g']. specialize (Hl _ _ Hi). by rewrite decide_True in Hl.
  - specialize (Hl _ _ H0). case_decide as E; [|right; right; left; by exists g0]. subst i.
    assert (g0 = g) as -> by congruence. destruct (next_ending _ _ _ _ Hp Hn Hend) as [He|[st ->]].
    + right; right; left. by exists g'.
    + right; right; right. cbn in Ha. by injection Ha as <- <- <-.
  - right; right; right. by eapply answer_exited.
Qed.

(** ** Reachable states *)

(** The invariant, with what the goroutines hold. *)
Record hub_ok (s : hub_state) (gs : list hghost) : Prop := {
  ok_threads : Forall2 (fun p g => hwp p g (fun _ => finished)) (hu_threads s) gs;
  ok_knows : Forall (knows (hu_hub s) (hu_world s)) gs;
  ok_shared : shared (hu_hub s) (hu_world s) gs;
  ok_main : forall i g, gs !! i = Some g -> hg_main g = true -> i = 0%nat;
  ok_pending : pending (hu_hub s) (hu_world s) gs;
}.

Definition hub_inv (s : hub_state) : Prop := exists gs, hub_ok s gs.

Lemma next_main g e r g' : hub_next g e r g' -> hg_main g' = hg_main g.
Proof. destruct e; cbn; repeat case_match; naive_solver. Qed.

Lemma new_not_main e g i : new_ghosts e !! i = Some g -> hg_main g = false.
Proof. destruct e; try done; intros Hi%list_elem_of_lookup_2; cbn in Hi; by apply list_elem_of_singleton in Hi as ->. Qed.

Lemma hub_inv_init files c : hub_inv (hub_init cwd files c).
Proof.
  exists [hg_run c]. split.
  - repeat constructor. by apply hwp_serve_main; [..|left].
  - constructor; [|done]. split; cbn; try done; set_solver.
  - split; cbn; done.
  - by intros [|i] g.
  - intros hs s. done.
Qed.

(** A goroutine that a signal starts. *)
Lemma hub_inv_spawn s p :
  hwp p (hg_start false false []) (fun _ => finished) ->
  hub_inv s -> hub_inv (mkHubState (hu_hub s) (hu_world s) (hu_threads s ++ [p])).
Proof.
  intros Hp (gs & [Hw Hk [S1 S2 S3 S4 S5] Hm Hpe]). exists (gs ++ [hg_start false false []]). split; cbn.
  - apply Forall2_app; [done|]. by repeat constructor.
  - apply Forall_app; split; [done|]. constructor; [|done]. split; cbn; try done; set_solver.
  - split; try done.
    + rewrite sum_list_with_app, S1. cbn. lia.
    + intros r x Hx. rewrite sum_list_with_app, <-(S4 r x Hx). cbn. rewrite owes_start. lia.
  - intros i g [Hi|[_ Hi]]%lookup_app_Some; [by eapply Hm|]. by apply list_lookup_singleton_Some in Hi as [_ <-].
  - intros hs s0 Hs Hne. destruct (Hpe hs s0 Hs Hne) as [(j & g0 & b & Hj & Hsv)|[Hc|[(g0 & H0 & Hend)|Hex]]]; [|by right; left| |by right; right; right].
    + left. exists j, g0, b. split; [|done]. by apply lookup_app_l_Some.
    + right; right; left. exists g0. split; [|done]. by apply lookup_app_l_Some.
Qed.

(** One request of one goroutine. *)
Lemma hub_ok_go s gs i g e k o r h' w' new :
  hub_ok s gs -> hu_threads s !! i = Some (Vis e k) -> gs !! i = Some g ->
  hub_answer cwd o e (hu_hub s) (hu_world s) = Some (r, (h', w'), new) ->
  exists g', hub_next g e r g' /\ hub_ok (mkHubState h' w' (<[i := k r]> (hu_threads s) ++ new)) (<[i := g']> gs ++ new_ghosts e).
Proof.
  intros [Hw Hk Hsh Hm Hpe] Et Hg Ea.
  destruct (Forall2_lookup_l _ _ _ _ _ Hw Et) as (g0 & Hg0 & [Hpre Hpost]). assert (g0 = g) as -> by (by injection (eq_trans (eq_sym Hg0) Hg)).
  destruct (answer_keeps _ _ gs i g Hg Hk Hsh o e r h' w' new Hpre Ea) as (g' & Hn & Hkn & Hkns & Hsh' & Hnew).
  exists g'. split; [done|]. split; cbn; [..|by eapply pending_step; eauto].
  - apply Forall2_app; [|done]. apply Forall2_insert; [done|]. by apply Hpost.
  - apply Forall_app; split; [|done]. apply Forall_insert; [|done].
    eapply Forall_impl; [exact Hk|]. intros g0. by apply knows_grows, (answer_grows o e _ _ r _ _ new).
  - done.
  - intros j g0 [Hj|[_ Hj]]%lookup_app_Some; [|by rewrite (new_not_main _ _ _ Hj)].
    apply list_lookup_insert_Some in Hj as [(<- & <- & _)|[_ Hj]]; [|by eapply Hm].
    rewrite (next_main _ _ _ _ Hn). by apply Hm.
Qed.

Lemma hub_inv_act a s s' : hub_inv s -> hub_act cwd a s = Some s' -> hub_inv s'.
Proof.
  intros Hinv. unfold hub_act. destruct (wd_exited (hu_world s)); [done|]. destruct a as [| |i o].
  - intros [= <-]. apply hub_inv_spawn; [|done]. by apply hwp_IssueReload.
  - intros [= <-]. apply hub_inv_spawn; [|done]. by apply hwp_IssueShutdown.
  - destruct (hu_threads s !! i) as [[| e k | |]|] eqn:Et; try done.
    destruct (hub_answer cwd o e (hu_hub s) (hu_world s)) as [[[r [h' w']] new]|] eqn:Ea; [|done]. intros [= <-].
    destruct Hinv as (gs & Hok). destruct (Forall2_lookup_l _ _ _ _ _ (ok_threads _ _ Hok) Et) as (g & Hg & _).
    destruct (hub_ok_go s gs i g e k o r h' w' new Hok Et Hg Ea) as (g' & _ & Hok'). by exists (<[i := g']> gs ++ new_ghosts e).
Qed.

Lemma hub_reachable_inv files c s : hub_reachable cwd files c s -> hub_inv s.
Proof.
  intros [acts H]. pose proof (hub_inv_init files c) as Hinv. revert H Hinv. generalize (hub_init cwd files c).
  induction acts as [|a acts IH]; intros s0; cbn; [by intros [= ->]|].
  destruct (hub_act cwd a s0) as [s1|] eqn:E; [|done]. intros H Hinv. eapply IH; [exact H|]. by eapply hub_inv_act.
Qed.
End Inv.
