(* ===== verification/Duplex.v ===== *)
(** * The client against the server

    A client whose requests are carried out by the server's handlers, one at a
    time: an environment for the client's request functions in which a request
    message runs what [dispatchCommand] starts for it, against an operating
    system, and the frames it sends are the responses the client receives. *)
From S2P Require Import Prelude GoIO Codec Structs StructGen Prog Paths UnixConv ServerEnv.
From S2P Require Import ServerCmds ServerXattr ServerXattrOk ServerReadDirOk ServerDispatch ServerConn ServerSpec ServerOk ServerRun ServerData.
From S2P Require Import ClientEnv ClientCmds.

(** ** The environment *)

Section Duplex.
Context {abi : UnixABI} {St : Type} (os : forall e : sev, St -> sans e * St) (sfuel : nat) (srv : session).

(** What the server does for a message, and what becomes of the operating
    system. *)
Definition serve (mark cmd : Z) (payload : bytes) (st : St) : list entry * St :=
  match (dispatchCommand sfuel srv (mkReader (le_bytes 1 mark ++ le_bytes 1 cmd ++ payload) [] EOF)).1 with
  | Some a => let '(_, (st', log)) := run (logged os) (action_prog a) (st, []) in (log, st')
  | None => ([], st)
  end.

(** The operating system and what was asked of it, the client's counter of marks
    and the marks locked, the frames under way, and whether the client waited for
    a frame that was not to come. *)
Record duplex := mkDuplex {
  dx_os : St;
  dx_log : list entry;
  dx_lastMark : Z;
  dx_marks : gset Z;
  dx_queue : list bytes;
  dx_starved : bool;
}.

Definition set_marks (ms : gset Z) (d : duplex) : duplex :=
  mkDuplex (dx_os d) (dx_log d) (dx_lastMark d) ms (dx_queue d) (dx_starved d).
Definition set_queue (q : list bytes) (d : duplex) : duplex :=
  mkDuplex (dx_os d) (dx_log d) (dx_lastMark d) (dx_marks d) q (dx_starved d).
Definition starve (d : duplex) : duplex :=
  mkDuplex (dx_os d) (dx_log d) (dx_lastMark d) (dx_marks d) (dx_queue d) true.

Definition duplex_step (e : cev) : duplex -> cans e * duplex :=
  match e return duplex -> cans e * duplex with
  | CBegin => fun d => (true, d)
  | CMarkAdd => fun d =>
      let v := u32 (dx_lastMark d + 1) in
      (v, mkDuplex (dx_os d) (dx_log d) v (dx_marks d) (dx_queue d) (dx_starved d))
  | CTryLock m => fun d =>
      if decide (m ∈ dx_marks d) then (false, d) else (true, set_marks ({[m]} ∪ dx_marks d) d)
  | CUnlock m => fun d => (tt, set_marks (dx_marks d ∖ {[m]}) d)
  | CRequest m cmd body => fun d =>
      match body with
      | (payload, None) =>
          let '(log, st) := serve m cmd payload (dx_os d) in
          (Sent, mkDuplex st (dx_log d ++ log) (dx_lastMark d) (dx_marks d) (dx_queue d ++ log_frames log)
                   (dx_starved d))
      | (_, Some _) => (WriteFailed [], d)
      end
  | CReceive _ => fun d =>
      match dx_queue d with
      | f :: q => (f, set_queue q d)
      | [] => ([], starve d)
      end
  | CRootRecv _ => fun d => (mkReadDirPlusResult [] ErrorIO, starve d)
  | _ => fun d => (tt, d)
  end.

(** ** Marks *)

Lemma u8_add_u32 a b : u8 (u32 a + b) = u8 (a + b).
Proof.
  unfold u8, u32, wrapu. rewrite <-(Zplus_mod_idemp_l (a mod _)), <-(Zplus_mod_idemp_l a (b)).
  f_equal. f_equal. symmetry. by rewrite <-Znumtheory.Zmod_div_mod; [|lia..|exists (2 ^ 24)].
Qed.

(** The search ends at the first mark that is free, at most 256 rounds on. *)
Lemma newClientMark_search (k fuel : nat) d :
  u8 (dx_lastMark d + 1 + Z.of_nat k) ∉ dx_marks d -> (k < fuel)%nat ->
  exists m last, in_u 8 m = true /\ m ∉ dx_marks d /\
    run duplex_step (loop fuel (fun _ : unit =>
      last ← trigger CMarkAdd;
      locked ← trigger (CTryLock (u8 last));
      mret (if (locked : bool) then inr (Some (u8 last)) else inl tt)) tt) d =
    (Done (Some m), mkDuplex (dx_os d) (dx_log d) last ({[m]} ∪ dx_marks d) (dx_queue d) (dx_starved d)).
Proof.
  revert fuel d. induction k as [|k IH]; intros fuel d Hk Hf; (destruct fuel as [|fuel]; [lia|]).
  all: cbn [loop]; rewrite run_bind; cbn [run trigger duplex_step mbind prog_bind dx_marks].
  all: set (v := u8 (u32 (dx_lastMark d + 1))).
  all: assert (v = u8 (dx_lastMark d + 1)) as Hv
         by (unfold v; rewrite <-(Z.add_0_r (u32 _)), u8_add_u32; f_equal; lia).
  - rewrite Z.add_0_r in Hk. rewrite decide_False by (by rewrite Hv). exists v, (u32 (dx_lastMark d + 1)).
    split_and!; [by apply wrapu_range|by rewrite Hv|done].
  - destruct (decide (v ∈ dx_marks d)) as [Hin|Hin].
    + cbn [run]. destruct (IH fuel (mkDuplex (dx_os d) (dx_log d) (u32 (dx_lastMark d + 1)) (dx_marks d) (dx_queue d) (dx_starved d)))
        as (m & last & H1 & H2 & H3); [|lia|by exists m, last].
      cbn [dx_lastMark dx_marks]. rewrite <-Z.add_assoc, u8_add_u32. by replace (_ + 1 + (1 + Z.of_nat k)) with (dx_lastMark d + 1 + Z.of_nat (S k)) by lia.
    + exists v, (u32 (dx_lastMark d + 1)). split_and!; [by apply wrapu_range|done|done].
Qed.

Lemma run_newClientMark (fuel : nat) f d :
  in_u 8 f = true -> f ∉ dx_marks d -> (256 <= fuel)%nat ->
  exists m last, in_u 8 m = true /\ m ∉ dx_marks d /\
    run duplex_step (newClientMark fuel) d =
    (Done (Some m), mkDuplex (dx_os d) (dx_log d) last ({[m]} ∪ dx_marks d) (dx_queue d) (dx_starved d)).
Proof.
  intros Hf%in_u_spec Hfree Hfuel.
  apply (newClientMark_search (Z.to_nat ((f - (dx_lastMark d + 1)) mod 256))).
  - replace (u8 _) with f; [done|].
    pose proof (Z.mod_pos_bound (f - (dx_lastMark d + 1)) 256 ltac:(lia)).
    unfold u8, wrapu. rewrite Z2Nat.id by lia. change (2 ^ 8) with 256 in *.
    rewrite Zplus_mod_idemp_r. replace (_ + _ + _) with f by lia. by rewrite Z.mod_small.
  - pose proof (Z.mod_pos_bound (f - (dx_lastMark d + 1)) 256 ltac:(lia)). lia.
Qed.

(** ** Requests *)

(** A request message of the client runs the handler of the request. *)
Lemma serve_request mark req st :
  in_u 8 mark = true -> wf_fields (req_fields req) = true ->
  (length (payload_of req) <= fastBufferSize)%nat ->
  serve mark (req_code req) (wire (req_fields req)) st =
    let '(_, (st', log)) := run (logged os) (exec_request sfuel srv mark req) (st, []) in (log, st').
Proof.
  intros Hm Hwf HL. unfold serve.
  destruct (dispatch_exec sfuel srv mark req [] Hm Hwf HL) as [err ->].
  by destruct (req_inline req).
Qed.

(** A request function that finds a free mark sends its message, and goes on
    with the frames of the answer before it. *)
Lemma run_request {A} (fuel : nat) req (refused failed : A) k f d st' log r :
  in_u 8 f = true -> f ∉ dx_marks d -> (256 <= fuel)%nat ->
  wf_fields (req_fields req) = true -> (length (payload_of req) <= fastBufferSize)%nat ->
  (forall m, in_u 8 m = true ->
     run (logged os) (exec_request sfuel srv m req) (dx_os d, []) = (r m, (st' m, log m))) ->
  exists m last, in_u 8 m = true /\ m ∉ dx_marks d /\
    run duplex_step (ClientEnv.request fuel (req_code req) (req_fields req) refused failed k) d =
    run duplex_step (k m)
      (mkDuplex (st' m) (dx_log d ++ log m) last ({[m]} ∪ dx_marks d) (dx_queue d ++ log_frames (log m))
         (dx_starved d)).
Proof.
  intros Hf Hfree Hfuel Hwf HL Hrun.
  destruct (run_newClientMark fuel f d Hf Hfree Hfuel) as (m & last & Hm & Hmf & Hr).
  exists m, last. split_and!; [done..|]. unfold ClientEnv.request. rewrite run_bind, Hr.
  cbn [run trigger mbind prog_bind duplex_step]. rewrite (wf_enc _ Hwf). cbn [dx_os].
  rewrite (serve_request m req _ Hm Hwf HL), (Hrun m Hm). done.
Qed.

(** ** Responses *)

(** Frames of a response without an error, of [data] in all. *)
Definition data_response (fs : list bytes) (data : bytes) : Prop :=
  exists ps f, fs = ps ++ [f] /\ Forall (fun p => rsp_code p = ErrorPartialResponse) ps /\
    rsp_code f = ErrorOK /\ concat (map rsp_data fs) = data.

Lemma data_response_of mark data log :
  response mark (log_frames log) -> log_fine log -> log_payload log = data ->
  data_response (log_frames log) data.
Proof.
  intros (ps & f & E & Hps & ((ec & pl & -> & Hec & Hec8) & _)) Hfine Hp. exists ps. rewrite E.
  eexists. split_and!; [done| | |by rewrite <-Hp; unfold log_payload; rewrite E].
  - eapply Forall_impl; [exact Hps|]. by intros x [[pl' ->] _].
  - unfold log_fine in Hfine. rewrite E in Hfine. apply Forall_app in Hfine as [_ Hf%Forall_inv].
    destruct Hf as [Hf|Hf]; [done|]. exfalso. apply Hec. rewrite <-Hf. unfold Uint8.
    cbn [le_bytes app take drop]. symmetry. by apply le_value_1.
Qed.

(** What releasing a mark leaves, once its response was read. *)
Definition released (m : Z) (d : duplex) : duplex := set_marks (dx_marks d ∖ {[m]}) (set_queue [] d).

Lemma set_queue_queue q q' d : set_queue q (set_queue q' d) = set_queue q d.
Proof. done. Qed.

(** A round of the loop over the frames. *)
Lemma run_frames {S A} fuel m (K : S -> bytes -> CP (S + A)) s f q d :
  dx_queue d = f :: q ->
  run duplex_step (Client.frames (Datatypes.S fuel) m K s) d =
    match run duplex_step (K s f) (set_queue q d) with
    | (Done (inl s'), d') => run duplex_step (Client.frames fuel m K s') d'
    | (Done (inr a), d') => (Done a, d')
    | (Panicked, d') => (Panicked, d')
    | (OutOfFuel, d') => (OutOfFuel, d')
    end.
Proof.
  intros Hq. unfold Client.frames. cbn [loop]. rewrite run_bind. run_step. cbn [duplex_step]. rewrite Hq.
  by destruct (run duplex_step (K s f) (set_queue q d)) as [[[s'|a]| |] d'].
Qed.

(** The loop of CmdRead and CmdReadAt puts the data at the beginning of the
    buffer. *)
Lemma run_read_frames fuel m ps f dest off d :
  dx_queue d = ps ++ [f] -> Forall (fun p => rsp_code p = ErrorPartialResponse) ps -> rsp_code f = ErrorOK ->
  let data := concat (map rsp_data (ps ++ [f])) in
  0 <= off -> off + len data <= len dest -> len dest < 2 ^ 63 -> (length ps < fuel)%nat ->
  run duplex_step (Client.frames fuel m (Client.read_frame m) (dest, off)) d =
  (Done (splice (Z.to_nat off) data dest, off + len data, ErrorOK), released m d).
Proof.
  intros Hq Hps Hf data Ho Hfit Hlen Hfuel. subst data.
  revert ps dest off d Hq Hps Ho Hfit Hlen Hfuel.
  induction fuel as [|fuel IH]; intros ps dest off d Hq Hps Ho Hfit Hlen Hfuel; [lia|].
  assert (forall x, off + len x <= len dest ->
    copy_at off x dest = Some (splice (Z.to_nat off) x dest)) as Hcopy.
  { intros x Hx. pose proof (len_nonneg x). unfold copy_at. destruct (Z.ltb_spec off 0); [lia|].
    destruct (Z.ltb_spec (len dest) off); [lia|]. simpl. do 2 f_equal. apply take_ge. unfold len in *. lia. }
  pose proof (len_nonneg (rsp_data f)). destruct ps as [|p ps].
  - cbn [map concat app] in *. rewrite app_nil_r in *. rewrite (run_frames _ _ _ _ _ _ _ Hq).
    unfold Client.read_frame. cbv zeta. rewrite Hcopy, Hf, u64_id by lia. done.
  - cbn [map concat app] in *. rewrite len_app in *.
    pose proof (len_nonneg (concat (map rsp_data (ps ++ [f])))). pose proof (len_nonneg (rsp_data p)).
    apply Forall_cons in Hps as [Hp Hps].
    rewrite (run_frames _ _ _ _ _ _ _ Hq). unfold Client.read_frame at 1. cbv zeta. rewrite Hcopy, Hp by lia.
    run_step. change (ErrorPartialResponse =? ErrorPartialResponse) with true. cbn [duplex_step run mret prog_ret].
    rewrite (IH ps); [|done|done|lia| |..|simpl in Hfuel; lia].
    + unfold released. do 3 f_equal; [f_equal; [|lia]|done..].
      rewrite <-splice_splice. f_equal. unfold len. lia. unfold len in *. lia.
    + unfold len. rewrite length_splice; unfold len in *; lia.
    + unfold len. rewrite length_splice; unfold len in *; lia.
Qed.
Lemma dirent_wire_nonempty d : dirent_ok d -> (0 < length (wire (fields_Dirent d)))%nat.
Proof.
  intros Hd. destruct (GetDirent_size d Hd) as [E _]. unfold GetDirentRequiredSize, GetTimespecRequiredSize in E.
  pose proof (len_nonneg (Dirent_Name d)). unfold len in *. lia.
Qed.

Lemma appendDirItems_step n items bs :
  bs <> [] ->
  appendDirItems_loop (S n) items (bytes_reader bs) =
    match ReadDirentFromReader (bytes_reader bs) with
    | (Err e, _) => (items, Some e)
    | (Ok ent, r') => appendDirItems_loop n (items ++ [makeDirItemFromDirent ent]) r'
    end.
Proof. by destruct bs. Qed.

(** The dirents of a frame become items of the listing. *)
Lemma appendDirItems_wire ds items :
  Forall dirent_ok ds ->
  appendDirItemsFromReader items (dirents_wire ds) = (items ++ map makeDirItemFromDirent ds, None).
Proof.
  intros Hds. unfold appendDirItemsFromReader.
  assert (length ds <= length (dirents_wire ds))%nat as Hn.
  { clear items. induction Hds as [|d ds Hd _ IH]; [done|]. pose proof (dirent_wire_nonempty d Hd).
    change (dirents_wire (d :: ds)) with (wire (fields_Dirent d) ++ dirents_wire ds).
    rewrite length_app. simpl. lia. }
  revert Hn. generalize (length (dirents_wire ds)). intros n. revert n items.
  induction Hds as [|d ds Hd _ IH]; intros n items Hn.
  - destruct n; simpl; by rewrite app_nil_r.
  - destruct n as [|n]; [simpl in Hn; lia|].
    change (dirents_wire (d :: ds)) with (wire (fields_Dirent d) ++ dirents_wire ds).
    rewrite appendDirItems_step.
    2:{ pose proof (dirent_wire_nonempty d Hd). destruct (wire (fields_Dirent d)); [simpl in *; lia|done]. }
    change ReadDirentFromReader with (c_read codec_Dirent).
    rewrite (c_read_complete (c := codec_Dirent) d _ (dirents_wire ds)); [|apply Hd|done|done].
    change (set_data (dirents_wire ds) (bytes_reader (wire (fields_Dirent d) ++ dirents_wire ds))) with (bytes_reader (dirents_wire ds)).
    rewrite IH by (simpl in Hn; lia). by rewrite <-app_assoc.
Qed.

Lemma run_readdir_frames fuel m ps f gs items d :
  dx_queue d = ps ++ [f] -> Forall (fun p => rsp_code p = ErrorPartialResponse) ps -> rsp_code f = ErrorOK ->
  map rsp_data (ps ++ [f]) = map dirents_wire gs -> Forall dirent_ok (concat gs) -> (length ps < fuel)%nat ->
  run duplex_step (Client.frames fuel m (Client.readdir_frame m) items) d =
  (Done (items ++ map makeDirItemFromDirent (concat gs), ErrorOK), released m d).
Proof.
  intros Hq Hps Hf Hgs Hok Hfuel. revert ps gs items d Hq Hps Hgs Hok Hfuel.
  induction fuel as [|fuel IH]; intros ps gs items d Hq Hps Hgs Hok Hfuel; [lia|].
  destruct gs as [|g gs]; [by destruct ps|]. cbn [concat] in *. apply Forall_app in Hok as [Hg Hok].
  destruct ps as [|p ps]; cbn [map app] in *; rewrite (run_frames _ _ _ _ _ _ _ Hq); unfold Client.readdir_frame at 1; cbv zeta.
  - injection Hgs as Hgd Hgs. symmetry in Hgs. apply map_eq_nil in Hgs as ->.
    rewrite Hgd, appendDirItems_wire, Hf by done.
    cbn [concat]. by rewrite app_nil_r.
  - injection Hgs as Hgd Hgs. apply Forall_cons in Hps as [Hp Hps].
    rewrite Hgd, appendDirItems_wire, Hp by done.
    change (negb (ErrorPartialResponse =? ErrorOK) && negb (ErrorPartialResponse =? ErrorPartialResponse)) with false.
    cbv iota. run_step. cbn [duplex_step].
    change (ErrorPartialResponse =? ErrorPartialResponse) with true. cbn [run mret prog_ret].
    rewrite (IH ps gs); [|done|done|done|done|simpl in Hfuel; lia].
    by rewrite map_app, app_assoc.
Qed.

Lemma run_readXAttrData fuel m ps f data d :
  dx_queue d = ps ++ [f] -> Forall (fun p => rsp_code p = ErrorPartialResponse) ps -> rsp_code f = ErrorOK ->
  (length ps < fuel)%nat ->
  run duplex_step (Client.frames fuel m Client.xattr_frame data) d =
  (Done (data ++ concat (map rsp_data (ps ++ [f])), ErrorOK), set_queue [] d).
Proof.
  intros Hq Hps Hf Hfuel. revert ps data d Hq Hps Hfuel.
  induction fuel as [|fuel IH]; intros ps data d Hq Hps Hfuel; [lia|].
  destruct ps as [|p ps]; cbn [map app concat] in *; rewrite (run_frames _ _ _ _ _ _ _ Hq); unfold Client.xattr_frame at 1; cbv zeta.
  - by rewrite Hf, app_nil_r.
  - apply Forall_cons in Hps as [Hp Hps]. rewrite Hp.
    change (negb (ErrorPartialResponse =? ErrorOK) && negb (ErrorPartialResponse =? ErrorPartialResponse)) with false.
    cbv iota. run_step. cbn [duplex_step].
    change (ErrorPartialResponse =? ErrorOK) with false. cbn [run mret prog_ret].
    rewrite (IH ps); [by rewrite app_assoc|done|done|simpl in Hfuel; lia].
Qed.

(** ** Requests whose responses carry data *)

Lemma marks_bounded (g : Z -> nat) : exists n, (256 <= n)%nat /\ forall m, in_u 8 m = true -> (g m <= n)%nat.
Proof.
  exists (256 + sum_list (map g (seqZ 0 256)))%nat. split; [lia|]. intros m Hm%in_u_spec.
  assert (m ∈ seqZ 0 256) as Hin by (apply elem_of_seqZ; lia).
  induction (seqZ 0 256) as [|x l IH]; [by apply elem_of_nil in Hin|]. simpl.
  apply elem_of_cons in Hin as [->|Hin]; [lia|]. specialize (IH Hin). lia.
Qed.

Lemma data_request budget req (P : list entry -> Prop) f d :
  root_ok (storage_Path srv) -> lawful os -> within os budget -> (budget (dx_os d) + 502 < sfuel)%nat ->
  wf_fields (req_fields req) = true -> req_inline req = false -> (length (payload_of req) <= fastBufferSize)%nat ->
  in_u 8 f = true -> f ∉ dx_marks d -> dx_queue d = [] ->
  (forall m, in_u 8 m = true -> exists st' log,
     run (logged os) (exec_request sfuel srv m req) (dx_os d, []) = (Done tt, (st', log)) /\ log_fine log /\ P log) ->
  exists n, forall fuel, (n <= fuel)%nat -> forall A refused failed (k : Z -> CP A),
    exists m last st' log, m ∉ dx_marks d /\ data_response (log_frames log) (log_payload log) /\
      (length (log_frames log) <= fuel)%nat /\ P log /\
      run duplex_step (ClientEnv.request fuel (req_code req) (req_fields req) refused failed k) d =
      run duplex_step (k m)
        (mkDuplex st' (dx_log d ++ log) last ({[m]} ∪ dx_marks d) (log_frames log) (dx_starved d)).
Proof.
  intros Hr Hos Hin Hb Hwf Hi HL Hf Hfree Hq HP.
  destruct (marks_bounded (fun m => length (log_frames
    (run (logged os) (exec_request sfuel srv m req) (dx_os d, [])).2.2))) as (n & Hn & Hbd).
  exists n. intros fuel Hfuel A refused failed k.
  destruct (run_request fuel req refused failed k f d
    (fun m => (run (logged os) (exec_request sfuel srv m req) (dx_os d, [])).2.1)
    (fun m => (run (logged os) (exec_request sfuel srv m req) (dx_os d, [])).2.2)
    (fun m => (run (logged os) (exec_request sfuel srv m req) (dx_os d, [])).1))
    as (m & last & Hm & Hmf & Hrun); [done..|lia|done|done| |].
  { intros m _. by destruct (run _ _ _) as [? [? ?]]. }
  rewrite Hrun, Hq. specialize (Hbd m Hm). destruct (HP m Hm) as (st' & log & Hex & Hfine & HPl).
  pose proof (exec_request_answers sfuel srv m true (budget (dx_os d)) Hr (fun _ => Hb) req Hwf Hi) as Ha.
  destruct (answers_run os budget _ m _ (dx_os d) answered Hos Hin Ha) as (st2 & log2 & g & Hrun2 & Hg & Hl).
  cbv beta in Hbd. rewrite Hex in Hrun2, Hbd. rewrite Hex. cbn [fst snd] in *. injection Hrun2 as <- <-. unfold answered in Hg. subst g.
  destruct Hl as (_ & _ & Hl). exists m, last, st', log. split_and!; [done| |lia|done|done].
  eapply data_response_of; [exact Hl|done|done].
Qed.
End Duplex.

(** ** Checks both sides make *)

(** What the client accepts as the key and mode of a request to read an
    attribute is well-formed for the server. *)
Lemma validateXAttr_ok c key mode :
  validateXAttr c key mode false = ErrorOK -> good_name key /\ bad_mode mode = false.
Proof.
  unfold validateXAttr, good_name.
  destruct (Z.eqb_spec (len key) 0) as [E|E]; [done|]. case_bool_decide as Hz; [done|]. cbn [orb andb negb].
  destruct (Z.eqb_spec (without_nofollow mode) 0) as [Hm|Hm]; [|done]. intros _.
  split; [split; [|done]|].
  - intros ->. done.
  - unfold bad_mode. rewrite negb_false_iff. apply Z.eqb_eq, Z.bits_inj'. intros i Hi.
    pose proof (f_equal (fun x => Z.testbit x i) Hm) as Hb. unfold without_nofollow in Hb.
    rewrite Z.ldiff_spec, Z.bits_0 in Hb. rewrite Z.land_spec, Z.lxor_spec, Z.bits_0.
    destruct (Z.testbit mode i); [|done]. simpl in *. apply negb_false_iff in Hb. rewrite Hb.
    change XATTR_NOFOLLOW with (2 ^ 31) in Hb. rewrite Z.pow2_bits_eqb in Hb by done. apply Z.eqb_eq in Hb as <-. done.
Qed.
