(* ===== verification/ServerThms.v ===== *)
(** * What the server promises

    The main theorems on the server of the file system: dispatch, responses,
    confinement, streams and the connection. *)
From S2P Require Import Prelude GoIO Codec Structs StructGen Prog Paths UnixConv ServerEnv.
From S2P Require Import ServerCmds ServerStream ServerDispatch ServerConn ServerSpec ServerOk ServerRun.
From S2P Require Import ServerStreamOk ServerOwn ServerSession ServerXattr ServerXattrOk ServerReadDir ServerReadDirOk ServerData.

(** ** An operating system to run handlers in

    Files open, every directory has as many entries as the state says (a file
    [x] of five bytes), and everything else fails with ENOENT. *)
Definition demo_buffer : Buffer := NewBuffer MaxMsgSize.
Definition demo_entry : direntry := mkdirentry (str "x") false.
Definition demo_info : fileinfo := mkfileinfo (str "x") 5 0x1a4 (mkTimespec 1 2) 0 0.

Definition demo_file : bytes := str "hello".
Definition demo_value : bytes := str "value".
Definition demo_names : list gostring := [str "user.a"; str "trusted.b"; str "user.c"].

Definition demo_os (e : sev) : nat -> sans e * nat :=
  match e return nat -> sans e * nat with
  | FdsLoad _ => fun n => (Some 7, n)
  | FdsLoadOrStore _ _ => fun n => (false, n)
  | FdLastAdd => fun n => (1, n)
  | WsNew => fun n => (0%nat, n)
  | WsLoad _ => fun n => (None, n)
  | WsLoadOrStore _ _ => fun n => (false, n)
  | WsReceive _ => fun n => (None, n)
  | FdsDelete _ | WsDelete _ | WsSpawn _ _ _ _ | WsEnqueue _ _ | ReleaseFastBuffer
  | Send _ | SendRsp _ _ _ | BufPut => fun n => (tt, n)
  | BufGet => fun n => (demo_buffer, n)
  | OsOpen _ => fun n => (Ok 3, n)
  | OsReadDir _ _ => fun n => match n with O => (([], Some DirEOF), O) | S n' => (([demo_entry], None), n') end
  | OsLstat _ | OsStat _ => fun n => (Ok demo_info, n)
  | SysOpen _ _ _ => fun n => (Ok 9, n)
  | OsClose _ | SysClose _ => fun n => (Ok tt, n)
  | SysRead _ k => fun n => (if 0 <=? k then Ok (take (Z.to_nat k) demo_file) else Err EINVAL, n)
  | SysPread _ k off => fun n =>
      (if 0 <=? k then Ok (take (Z.to_nat k) (drop (Z.to_nat off) demo_file)) else Err EINVAL, n)
  | SysGetxattr _ _ _ k => fun n => (xattr_answer demo_value k, n)
  | SysListxattr _ _ k => fun n => (xattr_answer (names_data demo_names) k, n)
  | SysPwrite _ d _ => fun n => (Ok (Z.min 2 (len d)), n)
  | _ => fun n => (Err ENOENT, n)
  end.

Lemma demo_buffer_ok : buf_ok demo_buffer /\ written demo_buffer = 0 /\ len (Bytes demo_buffer) = MaxMsgSize.
Proof.
  unfold buf_ok, demo_buffer, NewBuffer, len. cbn [Bytes written]. rewrite length_replicate.
  unfold MaxMsgSize. lia.
Qed.

Lemma xattr_answer_ok data n :
  match xattr_answer data n with Ok (c, d) => 0 <= c /\ (0 < n -> c = len d /\ len d <= n) | Err _ => True end.
Proof.
  unfold xattr_answer. pose proof (len_nonneg data). destruct (Z.eqb_spec n 0); [split; lia|].
  destruct (Z.ltb_spec n (len data)); [done|]. split; [done|]. split; [done|lia].
Qed.

Lemma demo_lawful : lawful demo_os.
Proof.
  intros e n. destruct e; try exact I; cbn [demo_os sys_ok fst].
  - done.
  - apply demo_buffer_ok.
  - apply xattr_answer_ok.
  - apply xattr_answer_ok.
  - destruct (Z.leb_spec 0 n0); [|done]. unfold len. rewrite length_take. lia.
  - destruct (Z.leb_spec 0 n0); [|done]. unfold len. rewrite length_take. lia.
  - pose proof (len_nonneg data). lia.
  - destruct n as [|n]; (split; [|intros; split_and!; [unfold len; simpl; lia|done|done]]); [by constructor|].
    apply Forall_singleton. split; [by apply (bool_decide_unpack _)|unfold len; simpl; lia].
  - done.
  - by split.
Qed.


Lemma demo_within : within demo_os (fun n => n).
Proof. intros e n. destruct e; simpl; try lia. destruct n; simpl; lia. Qed.

(** ** Dispatch *)

Section ServerClaims.
Context {abi : UnixABI}.

(** C2: Every message a client sends whose header carries a command other than the
    two of write streams (data of a stream is not answered, see stream_in_order and
    reader_deadlock for these), well formed or not, known command or not, is answered:
    the program it starts ends without a panic whatever the operating system answers,
    and what it sends is one response to the mark of the message: any number of
    partial frames and one final frame, none longer than MaxResponseLength; only
    the commands that read data, listings or attributes use more than one. Every
    path it hands to the operating system lies within the storage, and it gives
    back each pooled buffer, each directory and each descriptor it took. Fuel
    beyond the number of times the environment makes a loop go round suffices. *)
Theorem dispatch_answers {S} (os : forall e : sev, S -> sans e * S) (budget : S -> nat)
    (fuel : nat) (s : session) (msg rest : reader) (header : bytes) (st : S) :
  root_ok (storage_Path s) -> lawful os -> within os budget -> (budget st + 502 < fuel)%nat ->
  ReadFull 2 msg = (Ok header, rest) -> is_stream_cmd (Uint8 header 1) = false ->
  exists a err st' log,
    dispatchCommand fuel s msg = (Some a, err) /\
    run (logged os) (action_prog a) (st, []) = (Done tt, (st', log)) /\
    response (Uint8 header 0) (log_frames log) /\
    (multi_frame (Uint8 header 1) = false -> length (log_frames log) = 1%nat) /\
    log_confined (storage_Path s) log /\ held log = (0%nat, [], []).
Proof.
  intros Hr Hos Hin Hf Hh Hc. unfold dispatchCommand. rewrite Hh.
  pose proof (doCommandCall_answers fuel s (Uint8 header 0) true (budget st) Hr (fun _ => Hf)
                (Uint8 header 1) rest Hc) as Ha.
  pose proof (doCommandCall_one_shot fuel s (Uint8 header 0) (Uint8 header 1) rest Hc) as Ho.
  destruct (doCommandCall fuel s (Uint8 header 0) (Uint8 header 1) rest) as [a r'].
  destruct (answers_run_log os budget (storage_Path s) (Uint8 header 0) (action_prog a) st answered Hos Hin Ha)
    as (st' & log & g & Hrun & Hg & Hl & Hp). unfold answered in Hg. subst g.
  destruct Hl as (Hl1 & Hl2 & Hl3). eexists a, _, st', log. split_and!; [done..| |done|done].
  intros Hm. eapply one_shot_response; [|done..]. by eapply only_run; [apply Ho| |constructor].
Qed.

(** C3: A command a client encodes is the command the server runs: for all 33
    commands, every mark and however the transport splits the message, the
    arguments the handler is started with are those that were encoded, as long
    as they are in the range of their types and data fits a fast buffer. The two
    stream commands run on the goroutine that reads the connection, so in the
    order of the messages; all others on goroutines of their own. *)
Theorem dispatch_roundtrip (fuel : nat) (s : session) (mark : Z) (req : request) (sched : list nat) :
  in_u 8 mark = true -> wf_fields (req_fields req) = true ->
  (length (payload_of req) <= fastBufferSize)%nat ->
  (dispatchCommand fuel s
     (mkReader (le_bytes 1 mark ++ le_bytes 1 (req_code req) ++ wire (req_fields req)) sched EOF)).1
  = Some (if is_stream_cmd (req_code req) then Inline (exec_request fuel s mark req)
          else Go (exec_request fuel s mark req)).
Proof.
  intros Hm Hwf HL. destruct (dispatch_exec fuel s mark req sched Hm Hwf HL) as [err ->].
  by rewrite <-req_inline_code; destruct (req_inline req).
Qed.

(** C1: Any number of commands and streams of a session run side by side without
    disturbing one another. In every state a session can reach, whatever the
    messages, their interleaving and the answers of the operating system:
    no goroutine has panicked; what a command has sent so far is a prefix of one
    response to its mark, and a whole response once its goroutine has ended (for
    the two stream commands: an error, or the answer is left to the stream); every path it asked for is
    confined to the storage; an ended command holds no buffer, directory or
    descriptor. *)
Theorem session_protocol (fuel : nat) (s : session) (st : sess) (i : nat) (th : thread) :
  root_ok (storage_Path s) -> reachable fuel s st -> ss_threads st !! i = Some th ->
  th_prog th <> Panic /\
  forall mark cmd, th_kind th = KCommand mark cmd ->
    let log := trace_of i (ss_trace st) in
    log_confined (storage_Path s) log /\
    (Forall (partial_frame mark) (log_frames log) \/ response mark (log_frames log)) /\
    (th_prog th = Ret tt ->
       held log = (0%nat, [], []) /\
       (response mark (log_frames log) \/ is_stream_cmd cmd = true /\ Forall (partial_frame mark) (log_frames log))).
Proof.
  intros Hr Hst Hi. destruct (reachable_ok fuel s Hr st Hst) as [_ Hok].
  specialize (Hok i th Hi). destruct th as [k grp p]. simpl in *.
  split.
  - intros ->. destruct k; [destruct Hok as (g & _ & Hs)|destruct Hok as (_ & _ & Hs)];
      exact (Hs 0%nat).
  - intros mark cmd ->. destruct Hok as (g & (Hl1 & Hl2 & Hl3) & Hs). split_and!; [done| |].
    + destruct (g_done g); auto.
    + intros ->. destruct (Hs 0%nat) as [Hg|[Hc Hg]]; unfold answered in *; simpl in *; subst g; auto.
Qed.

(** C5: A write stream writes what it receives, in order. In every reachable state
    of a session the bytes a stream's goroutine has put into its file are a prefix
    of the bytes it has received, each write goes to the descriptor of the stream
    right behind the bytes written before it (short and interrupted writes
    included), and when the closing response is sent without an error before,
    everything received was written; the response carries the number of bytes
    written. After an error nothing more is written and no second error is sent. *)
Theorem stream_in_order (fuel : nat) (s : session) (st : sess) (i j : nat) (mark sfd offset : Z)
    (grp : bool) (p : SP unit) :
  root_ok (storage_Path s) -> reachable fuel s st ->
  ss_threads st !! i = Some (mkThread (KStream j mark sfd offset) grp p) ->
  let log := trace_of i (ss_trace st) in
  sg_written (sg_of log) `prefix_of` sg_received (sg_of log) /\
  forall before e r after, log = before ++ logged_entry e r :: after ->
    let g := sg_of before in
    match e with
    | SysPwrite fd d off =>
        fd = sfd /\ off = i64 (u64 (offset + len (sg_written g))) /\
        sg_received g = sg_written g ++ d /\ sg_failed g = false
    | SendRsp m ec body =>
        m = mark /\ sg_closed g = false /\
        if ec =? ErrorOK then
          body = enc (fields_RspWriteStreamClose (mkRspWriteStreamClose (u64 (len (sg_written g))))) /\
          (sg_failed g = false -> sg_written g = sg_received g)
        else sg_failed g = false
    | _ => True
    end.
Proof.
  intros Hr Hst Hi log. destruct (reachable_ok fuel s Hr st Hst) as [_ Hok].
  specialize (Hok i _ Hi) as (Hl & Hg & _). fold log in Hl, Hg. split.
  - unfold sg_ok in Hg. destruct (sg_failed _); [done|]. rewrite Hg. by apply prefix_app_r.
  - intros before e r after E g. pose proof (Hl _ _ _ E) as [Hb Hpre]. simpl in Hpre.
    fold g in Hb, Hpre. unfold sg_ok in Hb.
    destruct e; try exact I; simpl in Hpre.
    + destruct Hpre as (-> & Hc & _ & _ & _ & _ & He). split_and!; [done..|].
      destruct (ec =? ErrorOK); [|done]. destruct He as [-> Hd]. split; [done|].
      intros Hf. rewrite Hf in Hb. rewrite (Hd Hf), app_nil_r in Hb. done.
    + destruct Hpre as (-> & -> & -> & Hf & _). rewrite Hf in Hb. done.
Qed.

(** A stream's goroutine ends: with fuel beyond the messages and interruptions
    the environment gives it, it comes to its end without a panic, having sent at
    most one closing response. *)
Theorem stream_ends {S} (os : forall e : sev, S -> sans e * S) (budget : S -> nat)
    (fuel : nat) (j : nat) (mark sfd offset : Z) (st : S) :
  lawful os -> within os budget -> (budget st < fuel)%nat -> in_u 64 offset = true ->
  exists st' log, run (logged os) (writeStream_run fuel j mark sfd offset) (st, []) = (Done tt, (st', log)) /\
    stream_log j mark sfd offset log /\ sg_ok (sg_of log).
Proof.
  intros Hos Hin Hf Ho.
  pose proof (SW_run j mark sfd offset fuel true (budget st) (fun _ => Hf) Ho) as Hw.
  destruct (stream_run j mark sfd offset os budget _ st Hos Hin Hw) as (st' & log & H1 & H2 & H3).
  by exists st', log.
Qed.

(** The channel of a write stream delivers the chunks in the order of the
    messages: in every reachable state the inputs queued so far are those taken by
    the stream followed by those still in the channel, of which there are never
    more than the channel holds. *)
Theorem stream_channel_fifo (fuel : nat) (s : session) (st : sess) (j : nat) :
  reachable fuel s st ->
  enqueued j (ss_trace st) = received j (ss_trace st) ++ queue (ss_tables st) j /\
  (length (queue (ss_tables st) j) <= writeStreamInputBuffer)%nat.
Proof.
  intros Hst. revert j. change (fifo st). induction Hst as [|st st' _ IH Hs]; [|by eapply fifo_step].
  intros j. assert (queue (ss_tables sess_init) j = []) as -> by (by destruct j). split; [done|simpl; lia].
Qed.
End ServerClaims.

(** C28: Responses on a failing connection. Whatever the handlers ask to send and
    whenever the websocket library fails, the client receives a prefix of the frames
    in their order, each of them whole; while the session holds the connection it
    has received all of them; and no lock or half-written message is left behind. *)
Theorem connection_prefix {C} `{!WsConn C} (es : list sev) (c : sconn (C := C)) :
  idle c ->
  let c' := foldl (flip conn_event) c es in
  idle c' /\
  exists k, ws_sent (ws c') = ws_sent (ws c) ++ take k (omap frame_of es) /\
            (conn c' = true -> (length (omap frame_of es) <= k)%nat).
Proof.
  intros Hi. split; [by apply conn_events_idle|]. by apply sends_prefix.
Qed.

(** ** Contents of responses *)

Section Contents.
Context {abi : UnixABI}.

(** Reading at an offset answers with exactly that part of the file, cut at
    its end, however many frames it takes: the frames without their headers, put
    together, are the bytes from the offset on, as many as asked for, and none
    of them carries an error. *)
Theorem read_at_contents {S} (os : forall e : sev, S -> sans e * S) (sfd : Z) (file : bytes)
    (mark : Z) (req : CmdReadAtStruct) (st : S) :
  (forall e st, file_ok (CmdReadAt_FD req) sfd file e (os e st).1) ->
  0 <= CmdReadAt_Offset req -> 0 <= CmdReadAt_Size req ->
  CmdReadAt_Offset req + CmdReadAt_Size req < 2 ^ 63 ->
  exists st' log, run (logged os) (cmdReadAt mark req) (st, []) = (Done tt, (st', log)) /\
    log_fine log /\
    log_payload log =
      take (Z.to_nat (CmdReadAt_Size req)) (drop (Z.to_nat (CmdReadAt_Offset req)) file).
Proof.
  intros Hos Ho Hs Hm.
  destruct (LW_run_total true (file_ok (CmdReadAt_FD req) sfd file) os (cmdReadAt mark req) st
    (fun _ log => sends (part file (CmdReadAt_Offset req) (CmdReadAt_Size req)) [] log))
    as ([] & st' & log & Hr & Hl); [done|done|by apply LW_cmdReadAt|].
  exists st', log. split; [done|]. by apply sends_from_nil.
Qed.

(** Getting an extended attribute answers with its value, whatever its length:
    the buffer grows to it, the frames together carry it, without an error. *)
Theorem get_xattr_value {S} (os : forall e : sev, S -> sans e * S) (s : session) (mark : Z)
    (req : CmdGetXAttrStruct) (value : bytes) (names : list gostring) (st : S) :
  (forall e st, xattr_ok (storage_Path s ++ CmdGetXAttr_Path req) (CmdGetXAttr_Key req) value names e (os e st).1) ->
  IsUrlValid (CmdGetXAttr_Path req) = true -> good_name (CmdGetXAttr_Key req) ->
  isXAttrKeyAllowed s (CmdGetXAttr_Key req) = true -> bad_mode (CmdGetXAttr_Mode req) = false ->
  exists st' log, run (logged os) (cmdGetXAttr s mark req) (st, []) = (Done tt, (st', log)) /\
    log_fine log /\ log_payload log = value.
Proof.
  intros Hos Hv Hk Ha Hm.
  destruct (LW_run_total true _ os (cmdGetXAttr s mark req) st
    (fun _ log => sends value [] log) eq_refl Hos) as ([] & st' & log & Hr & Hl); [by apply LW_cmdGetXAttr|].
  exists st', log. split; [done|]. by apply sends_from_nil.
Qed.

(** Listing the extended attributes answers with the names that start with an
    allowed prefix, in the order of the file system, with no others and without
    an error. *)
Theorem list_xattr_names {S} (os : forall e : sev, S -> sans e * S) (s : session) (mark : Z)
    (req : CmdListXAttrStruct) (key : gostring) (value : bytes) (names : list gostring) (st : S) :
  (forall e st, xattr_ok (storage_Path s ++ CmdListXAttr_Path req) key value names e (os e st).1) ->
  IsUrlValid (CmdListXAttr_Path req) = true -> Forall good_name names ->
  bad_mode (CmdListXAttr_Mode req) = false ->
  exists st' log, run (logged os) (cmdListXAttr s mark req) (st, []) = (Done tt, (st', log)) /\
    log_fine log /\
    log_payload log =
      names_data (filter (fun k => has_allowed_prefix k (AllowedXAttrPrefix (featureOpts s)) = true) names).
Proof.
  intros Hos Hv Hn Hm.
  destruct (LW_run_total true _ os (cmdListXAttr s mark req) st
    (fun _ log => sends (names_data (allowed (AllowedXAttrPrefix (featureOpts s)) names)) [] log) eq_refl Hos)
    as ([] & st' & log & Hr & Hl); [by eapply LW_cmdListXAttr|].
  exists st', log. split; [done|]. by apply sends_from_nil.
Qed.

(** Reading a directory lists it: every entry the operating system returned is
    sent once, in order and under its name, none is split between two frames, and
    nothing else is sent; no frame carries an error. *)
Theorem readdir_lists {S} (os : forall e : sev, S -> sans e * S) (budget : S -> nat)
    (fuel : nat) (s : session) (mark : Z) (req : CmdReadDirStruct) (st : S) :
  root_ok (storage_Path s) -> (forall e st, dir_ok e (os e st).1) -> within os budget ->
  (budget st + 502 < fuel)%nat -> IsUrlValid (CmdReadDir_Path req) = true ->
  exists st' log, run (logged os) (cmdReadDir fuel s mark req) (st, []) = (Done tt, (st', log)) /\
    log_fine log /\
    exists gs : list (list Dirent),
      map (drop 2) (log_frames log) = map (fun g => concat (map (fun d => wire (fields_Dirent d)) g)) gs /\
      map Dirent_Name (concat gs) = map de_Name (log_entries log).
Proof.
  intros Hr Hos Hin Hf Hv.
  assert (lawful os) as Hlaw by (intros e st0; by destruct (Hos e st0)).
  pose proof (cmdReadDir_answers fuel s mark true (budget st) Hr (fun _ => Hf) req) as Ha.
  destruct (answers_run os budget _ mark _ st answered Hlaw Hin Ha) as (st' & log & g & Hrun & _).
  exists st', log. split; [done|].
  pose proof (LW_run false dir_ok os (cmdReadDir fuel s mark req) st _ Hos (LW_cmdReadDir fuel s mark req Hv)) as H.
  rewrite Hrun in H. destruct H as (Hfine & gs & H1 & _ & H2). split; [done|by exists gs].
Qed.
End Contents.

(** ** The table of open files *)

(** A handle keeps its meaning. A step of a session leaves every open handle
    with its descriptor unless it is the deletion of that handle, and a handle comes
    into the table only by a store that found it free: concurrent opens never share
    a handle or overwrite one another. *)
Theorem handle_stable {abi : UnixABI} (fuel : nat) (s : session) (st st' : sess) (fd sfd : Z) :
  session_step fuel s st st' ->
  (fds (ss_tables st) !! fd = Some sfd ->
     fds (ss_tables st') !! fd = Some sfd \/
     exists i r, ss_trace st' = ss_trace st ++ [(i, logged_entry (FdsDelete fd) r)]) /\
  (fds (ss_tables st) !! fd = None -> fds (ss_tables st') !! fd = Some sfd ->
     exists i, ss_trace st' = ss_trace st ++ [(i, logged_entry (FdsLoadOrStore fd sfd) false)]).
Proof.
  intros Hstep.
  destruct Hstep as [| |st msg header msg' a err t' Hph Hread Hdisp Hbuf Hgrp| | | | | | |
                     st i k grp e c r t' Hi Hok Ht Hgrp]; simpl; try (split; [by left|congruence]).
  - apply message_streams in Hbuf as (-> & _). split; [by left|congruence].
  - pose proof (tab_step_fds _ _ _ _ Ht) as Hf.
    destruct e; try (rewrite Hf; split; [by left|congruence]); simpl in Ht.
    + destruct (fds (ss_tables st) !! fd0) eqn:E; destruct Ht as [-> ->]; [split; [by left|congruence]|]. simpl.
      destruct (decide (fd0 = fd)) as [->|Hn].
      * rewrite lookup_insert_eq. split; [congruence|]. intros _ [= ->]. by exists i.
      * rewrite lookup_insert_ne by done. split; [by left|congruence].
    + subst t'. simpl. destruct (decide (fd0 = fd)) as [->|Hn].
      * split; [intros _; right; by exists i, r|]. by rewrite lookup_delete_eq.
      * rewrite lookup_delete_ne by done. split; [by left|congruence].
Qed.

(** The tables as an environment of a single goroutine. *)
Definition tables_os (e : sev) (t : tables) : sans e * tables :=
  match tab_fn t e with
  | Some p => p
  | None => ((demo_os e 0).1, t)
  end.

Lemma u32_seq_NoDup l n : (Z.of_nat n <= 2 ^ 32) -> NoDup (map (fun i => u32 (l + Z.of_nat i)) (seq 1 n)).
Proof.
  intros Hn. apply NoDup_fmap_2_strong; [|apply NoDup_seq].
  intros i j Hi%elem_of_seq Hj%elem_of_seq E. unfold u32, wrapu in E.
  pose proof (Z.mod_pos_bound (l + Z.of_nat i) (2 ^ 32) ltac:(lia)).
  pose proof (Z.div_mod (l + Z.of_nat i) (2 ^ 32) ltac:(lia)).
  pose proof (Z.div_mod (l + Z.of_nat j) (2 ^ 32) ltac:(lia)). nia.
Qed.

(** Distinct keys of a table are no more than its entries. *)
Lemma taken_keys_size (m : gmap Z Z) ks :
  NoDup ks -> Forall (fun k => is_Some (m !! k)) ks -> (length ks <= size m)%nat.
Proof.
  intros Hnd Hks. rewrite <-length_map_to_list, <-(length_fmap fst). apply submseteq_length, NoDup_submseteq; [done|].
  intros k Hk. rewrite Forall_forall in Hks. destruct (Hks k Hk) as [v Hv].
  apply list_elem_of_fmap. exists (k, v). split; [done|]. by apply elem_of_map_to_list.
Qed.

(** One round of newFD. *)
Lemma newFD_round fuel sfd t :
  let k := u32 (fdLast t + 1) in
  run tables_os (newFD (S fuel) sfd) t =
    match fds t !! k with
    | Some _ => run tables_os (newFD fuel sfd) (mkTables (fds t) k (writeStreams t) (streams t) (fastBuffers t))
    | None => (Done k, mkTables (<[k := sfd]> (fds t)) k (writeStreams t) (streams t) (fastBuffers t))
    end.
Proof.
  cbv zeta. unfold newFD at 1. cbn [loop]. rewrite run_bind.
  destruct (fds t !! u32 (fdLast t + 1)) eqn:E; simpl; unfold tables_os at 1; simpl; by rewrite E.
Qed.

(** The search for a free key, [n] keys after [l] having been found taken. *)
Lemma newFD_search fuel sfd l n t :
  (size (fds t) < n + fuel)%nat -> Z.of_nat (size (fds t)) < 2 ^ 32 ->
  fdLast t = u32 (l + Z.of_nat n) ->
  Forall (fun k => is_Some (fds t !! k)) (map (fun i => u32 (l + Z.of_nat i)) (seq 1 n)) ->
  exists fd t', run tables_os (newFD fuel sfd) t = (Done fd, t') /\
    in_u 32 fd = true /\ fds t !! fd = None /\ fds t' = <[fd := sfd]> (fds t).
Proof.
  revert n t. induction fuel as [|fuel IH]; intros n t Hf Hs Hl Hk.
  - exfalso. pose (m := (n `min` Z.to_nat (2 ^ 32))%nat).
    assert (length (map (fun i => u32 (l + Z.of_nat i)) (seq 1 m)) <= size (fds t))%nat as Hm.
    { apply taken_keys_size; [apply u32_seq_NoDup; lia|]. rewrite Forall_map in Hk |- *.
      rewrite Forall_forall in Hk |- *. intros i Hi. apply Hk. rewrite elem_of_seq in Hi |- *. lia. }
    rewrite length_map, length_seq in Hm. lia.
  - rewrite newFD_round. destruct (fds t !! u32 (fdLast t + 1)) as [v|] eqn:E.
    + apply (IH (S n) (mkTables (fds t) (u32 (fdLast t + 1)) (writeStreams t) (streams t) (fastBuffers t)));
        simpl fds; [lia|done| |].
      * simpl. rewrite Hl. unfold u32, wrapu. rewrite Zplus_mod_idemp_l. f_equal. lia.
      * rewrite seq_S, map_app, Forall_app. split; [done|]. apply Forall_singleton.
        rewrite Hl in E. replace (u32 (l + Z.of_nat (1 + n))) with (u32 (u32 (l + Z.of_nat n) + 1)); [by rewrite E|].
        unfold u32, wrapu. rewrite Zplus_mod_idemp_l. f_equal. lia.
    + eexists _, _. split; [reflexivity|]. simpl. split_and!; [by apply wrapu_range|done|done].
Qed.

(** A new file always finds a handle: newFD ends with a handle that was free
    and is now bound to the descriptor, wherever the counter stands and although it
    wraps around, while fewer than 2^32 files are open; it takes no more rounds than
    there are open files, and one. *)
Theorem newFD_finds_free (fuel : nat) (sfd : Z) (t : tables) :
  Z.of_nat (size (fds t)) < 2 ^ 32 -> (size (fds t) < fuel)%nat -> in_u 32 (fdLast t) = true ->
  exists fd t', run tables_os (newFD fuel sfd) t = (Done fd, t') /\
    in_u 32 fd = true /\ fds t !! fd = None /\ fds t' = <[fd := sfd]> (fds t).
Proof.
  intros Hs Hf Hl. apply (newFD_search fuel sfd (fdLast t) 0); [done|done| |by apply Forall_nil].
  rewrite Z.add_0_r. symmetry. by apply wrapu_id.
Qed.

(** ** Witnesses *)

Definition demo_session : session := mkSession (str "/srv") (mkFsIds 0 0 0 0) (mkFeatureOptions true []).

Definition message (mark : Z) (req : request) : reader :=
  mkReader (le_bytes 1 mark ++ le_bytes 1 (req_code req) ++ wire (req_fields req)) [0%nat; 2%nat] EOF.

(** A file is opened, then a stream on it that writes a chunk in short writes. *)
Definition demo_schedule : list (reader + nat) :=
  inl (message 1 (ReqOpen (mkCmdOpenStruct (str "/f") 2 0)))
  :: replicate 4 (inr 0%nat) ++
  inl (message 2 (ReqWriteStreamOpen (mkCmdWriteStreamOpenStruct 1 10 (str "abc"))))
  :: replicate 5 (inr 1%nat) ++
  inl (message 2 (ReqWriteStreamData (mkCmdWriteStreamDataStruct 1 (str "de"))))
  :: replicate 2 (inr 3%nat) ++ replicate 8 (inr 2%nat).

Definition demo_state : sess :=
  default sess_init (play (abi := linux_amd64) 10 demo_session demo_os demo_schedule).

Lemma demo_root : root_ok (storage_Path demo_session).
Proof. exists [str "srv"]. split; [|done]. apply Forall_singleton. by apply (bool_decide_unpack _). Qed.

Lemma demo_reachable : reachable (abi := linux_amd64) 10 demo_session demo_state.
Proof. apply played_reachable, demo_lawful. Qed.

(** Reading a directory of two entries. *)
Lemma dispatch_answers_witness :
  exists a err st' log,
    dispatchCommand (abi := linux_amd64) 600 demo_session (message 5 (ReqReadDir (mkCmdReadDirStruct (str "/")))) = (Some a, err) /\
    run (logged demo_os) (action_prog a) (2%nat, []) = (Done tt, (st', log)) /\
    response 5 (log_frames log) /\ (multi_frame CmdReadDir = false -> length (log_frames log) = 1%nat) /\
    log_confined (str "/srv") log /\ held log = (0%nat, [], []).
Proof.
  apply (dispatch_answers (abi := linux_amd64) demo_os (fun n => n) 600 demo_session _
    (mkReader (wire (fields_CmdReadDirStruct (mkCmdReadDirStruct (str "/")))) [0%nat; 2%nat] EOF)
    (le_bytes 1 5 ++ le_bytes 1 CmdReadDir) 2%nat);
    [apply demo_root|apply demo_lawful|apply demo_within|lia|reflexivity|reflexivity].
Defined.

Lemma dispatch_roundtrip_witness :
  (dispatchCommand (abi := linux_amd64) 10 demo_session
     (message 7 (ReqWrite (mkCmdWriteStruct 1 (str "data"))))).1
  = Some (Go (exec_request (abi := linux_amd64) 10 demo_session 7 (ReqWrite (mkCmdWriteStruct 1 (str "data"))))).
Proof.
  apply (dispatch_roundtrip (abi := linux_amd64) 10 demo_session 7 (ReqWrite (mkCmdWriteStruct 1 (str "data"))));
    [reflexivity|reflexivity|]. apply Nat2Z.inj_le. unfold fastBufferSize. rewrite Z2Nat.id; [discriminate|discriminate].
Defined.

Lemma session_protocol_witness :
  exists p, ss_threads demo_state !! 0%nat = Some (mkThread (KCommand 1 CmdOpen) true p) /\
    p <> Panic /\ response 1 (log_frames (trace_of 0 (ss_trace demo_state))).
Proof.
  exists (Ret tt). split; [vm_compute; reflexivity|].
  destruct (session_protocol (abi := linux_amd64) 10 demo_session demo_state 0
    (mkThread (KCommand 1 CmdOpen) true (Ret tt)) demo_root demo_reachable) as [H1 H2];
    [vm_compute; reflexivity|].
  split; [exact H1|]. destruct (H2 1 CmdOpen eq_refl) as (_ & _ & H3).
  destruct (H3 eq_refl) as [_ [Hr|[Hc _]]]; [exact Hr|discriminate Hc].
Defined.

Lemma stream_in_order_witness :
  sg_written (sg_of (trace_of 2 (ss_trace demo_state))) `prefix_of` str "abcde".
Proof.
  destruct (ss_threads demo_state !! 2%nat) as [[k grp p]|] eqn:E; [|vm_compute in E; discriminate E].
  assert (k = KStream 0 2 9 10) as -> by (vm_compute in E; congruence).
  exact (proj1 (stream_in_order (abi := linux_amd64) 10 demo_session demo_state 2 0 2 9 10 grp p
    demo_root demo_reachable E)).
Defined.

Lemma stream_ends_witness :
  exists st' log, run (logged demo_os) (writeStream_run 3 0 2 9 10) (2%nat, []) = (Done tt, (st', log)) /\
    stream_log 0 2 9 10 log /\ sg_ok (sg_of log).
Proof.
  apply (stream_ends demo_os (fun n => n) 3 0 2 9 10 2%nat);
    [apply demo_lawful|apply demo_within|lia|reflexivity].
Defined.

Lemma stream_channel_fifo_witness :
  enqueued 0 (ss_trace demo_state) = received 0 (ss_trace demo_state) ++ queue (ss_tables demo_state) 0 /\
  (length (queue (ss_tables demo_state) 0) <= writeStreamInputBuffer)%nat.
Proof. apply (stream_channel_fifo (abi := linux_amd64) 10 demo_session demo_state 0 demo_reachable). Defined.

(** A connection that breaks in the second of two frames. *)
Definition demo_conn : sconn (C := bconn) :=
  mkSconn (mkBconn [] None (Some 5%nat) false) true false false None false false.
Definition demo_events : list sev := [Send (str "abcd"); Send (str "efgh"); Send (str "i")].

Lemma connection_prefix_witness :
  idle demo_conn /\ idle (foldl (flip conn_event) demo_conn demo_events) /\
  bc_sent (ws (foldl (flip conn_event) demo_conn demo_events)) = [str "abcd"].
Proof.
  assert (idle demo_conn) as Hi by (by split_and!).
  split; [exact Hi|]. destruct (connection_prefix demo_events demo_conn Hi) as [H _].
  split; [exact H|reflexivity].
Defined.

Lemma demo_file_ok : forall e n, file_ok 1 7 demo_file e (demo_os e n).1.
Proof.
  intros e n. split; [apply demo_lawful|]. destruct e; try exact I; cbn [serves_file demo_os fst]; [done|].
  intros -> Hn Ho. by destruct (Z.leb_spec 0 n0); [|lia].
Qed.

Lemma read_at_contents_witness :
  exists st' log, run (logged demo_os) (cmdReadAt 5 (mkCmdReadAtStruct 1 1 100)) (0%nat, []) = (Done tt, (st', log)) /\
    log_fine log /\ log_payload log = str "ello".
Proof.
  apply (read_at_contents demo_os 7 demo_file 5 (mkCmdReadAtStruct 1 1 100) 0%nat demo_file_ok);
    [discriminate|discriminate|reflexivity].
Defined.

Definition xattr_session : session := mkSession (str "/srv") (mkFsIds 0 0 0 0) (mkFeatureOptions true [str "user."]).

Lemma demo_xattr_ok path key : forall e n, xattr_ok path key demo_value demo_names e (demo_os e n).1.
Proof. intros e n. split; [apply demo_lawful|]. by destruct e. Qed.

Lemma get_xattr_value_witness :
  exists st' log,
    run (logged demo_os) (cmdGetXAttr xattr_session 5 (mkCmdGetXAttrStruct (str "/f") (str "user.a") 0)) (0%nat, [])
      = (Done tt, (st', log)) /\ log_fine log /\ log_payload log = demo_value.
Proof.
  apply (get_xattr_value demo_os xattr_session 5 (mkCmdGetXAttrStruct (str "/f") (str "user.a") 0) demo_value demo_names 0%nat
    (demo_xattr_ok _ _)); [reflexivity|split; [discriminate|]|reflexivity|reflexivity].
  by apply (bool_decide_unpack _).
Defined.

Lemma list_xattr_names_witness :
  exists st' log,
    run (logged demo_os) (cmdListXAttr xattr_session 5 (mkCmdListXAttrStruct (str "/f") 0)) (0%nat, [])
      = (Done tt, (st', log)) /\ log_fine log /\ log_payload log = names_data [str "user.a"; str "user.c"].
Proof.
  apply (list_xattr_names demo_os xattr_session 5 (mkCmdListXAttrStruct (str "/f") 0) (str "user.a") demo_value demo_names 0%nat
    (demo_xattr_ok _ _)); [reflexivity| |reflexivity].
  repeat apply Forall_cons_2; try apply Forall_nil_2; (split; [discriminate|]); by apply (bool_decide_unpack _).
Defined.

Lemma demo_dir_ok : forall e n, dir_ok e (demo_os e n).1.
Proof.
  intros e n. split; [apply demo_lawful|]. destruct e; try exact I; simpl; [by exists 3|]. by destruct n.
Qed.

Lemma readdir_lists_witness :
  exists st' log,
    run (logged demo_os) (cmdReadDir 600 demo_session 5 (mkCmdReadDirStruct (str "/"))) (2%nat, [])
      = (Done tt, (st', log)) /\
    log_fine log /\
    exists gs : list (list Dirent),
      map (drop 2) (log_frames log) = map (fun g => concat (map (fun d => wire (fields_Dirent d)) g)) gs /\
      map Dirent_Name (concat gs) = map de_Name (log_entries log).
Proof.
  apply (readdir_lists demo_os (fun n => n) 600 demo_session 5 (mkCmdReadDirStruct (str "/")) 2%nat);
    [apply demo_root|apply demo_dir_ok|apply demo_within|lia|reflexivity].
Defined.

(** The counter wraps around onto handle 0, which is taken, and so is 1. *)
Definition wrapped_tables : tables := mkTables {[0 := 5; 1 := 6]} (2 ^ 32 - 1) ∅ [] 32.

Lemma newFD_finds_free_witness :
  exists fd t', run tables_os (newFD 4 9) wrapped_tables = (Done fd, t') /\
    in_u 32 fd = true /\ fds wrapped_tables !! fd = None /\ fds t' = <[fd := 9]> (fds wrapped_tables).
Proof. apply (newFD_finds_free 4 9 wrapped_tables); [reflexivity|vm_compute; lia|reflexivity]. Defined.

Definition opened_state (n : nat) : sess :=
  default sess_init (play (abi := linux_amd64) 10 demo_session demo_os (take n demo_schedule)).

(** A message to close it has arrived. *)
Definition closing_msg : reader := message 3 (ReqClose (mkCmdCloseStruct 1)).
Definition closing_state : sess := set_phase (Waiting closing_msg) (opened_state 5).

Lemma handle_stable_witness :
  exists st', session_step (abi := linux_amd64) 10 demo_session closing_state st' /\
    (fds (ss_tables st') !! 1 = Some 9 \/
     exists i r, ss_trace st' = ss_trace closing_state ++ [(i, logged_entry (FdsDelete 1) r)]).
Proof.
  destruct (deliver (abi := linux_amd64) 10 demo_session closing_msg (opened_state 5))
    as [st'|] eqn:E; [|vm_compute in E; discriminate E].
  apply deliver_sound in E as [_ E]. exists st'. split; [exact E|].
  apply (proj1 (handle_stable (abi := linux_amd64) 10 demo_session closing_state st' 1 9 E)).
  vm_compute. reflexivity.
Defined.

(** Two requests to close the same handle that run side by side can close the
    descriptor twice: the handlers look the handle up before either deletes it, and
    by the second close the number may belong to another file. *)
Theorem close_race :
  exists st, reachable (abi := linux_amd64) 20 demo_session st /\
    omap (fun x => match projT1 x.2 with
                   | SysOpen _ _ _ => Some 0 | SysClose fd => Some fd | _ => None end) (ss_trace st)
      = [0; 9; 9] /\
    fds (ss_tables st) !! 1 = None.
Proof.
  pose (xs := inl (message 1 (ReqOpen (mkCmdOpenStruct (str "/f") 2 0))) :: replicate 4 (inr 0%nat) ++
    [inl (message 2 (ReqClose (mkCmdCloseStruct 1))); inl (message 3 (ReqClose (mkCmdCloseStruct 1)));
     inr 1%nat; inr 2%nat; inr 1%nat; inr 1%nat; inr 2%nat; inr 2%nat]).
  exists (default sess_init (play (abi := linux_amd64) 20 demo_session demo_os xs)).
  split; [apply played_reachable, demo_lawful|]. split; vm_compute; reflexivity.
Qed.
