(* ===== verification/ClientThms.v ===== *)
(** * Theorems: the client

    What a client gets when its requests meet the server's handlers, and what its
    request functions do with the session. *)
From S2P Require Import Prelude GoIO Codec Structs StructGen Prog Paths UnixConv ServerEnv.
From S2P Require Import ServerCmds ServerXattr ServerXattrOk ServerReadDir ServerReadDirOk ServerDispatch ServerConn ServerSpec ServerOk ServerRun ServerData.
From S2P Require Import Budget ServerThms ClientEnv ClientCmds ClientReadDirPlus ClientSpec ClientOk ClientParseOk Duplex.

(** ** From the client's call to the server's files *)

Section EndToEnd.
Context {abi : UnixABI} {St : Type} (os : forall e : sev, St -> sans e * St) (budget : St -> nat).
Context (sfuel : nat) (srv : session) (c : client).

(** The client may start a request: a mark is free and nothing is under way. *)
Definition ready (d : duplex (St := St)) : Prop :=
  (exists f, in_u 8 f = true /\ f ∉ dx_marks d) /\ dx_queue d = [] /\ (budget (dx_os d) + 502 < sfuel)%nat.

(** It has finished one: the mark is free again, every frame was consumed, and it
    never waited for a frame that did not come. *)
Definition finished (d d' : duplex (St := St)) : Prop :=
  dx_marks d' = dx_marks d /\ dx_queue d' = [] /\ dx_starved d' = dx_starved d.

Lemma finished_released m st log last q d :
  m ∉ dx_marks d ->
  finished d (released m (mkDuplex st log last ({[m]} ∪ dx_marks d) q (dx_starved d))).
Proof. intros Hm. unfold finished. split_and!; [|done..]. simpl. set_solver. Qed.

(** C18: A client that reads a file gets what is in it: CmdReadAt, carried out by
    the server on a file, fills the beginning of the buffer with the bytes at the
    offset, as many as the buffer has room for or the file holds, leaves the rest
    of the buffer alone and returns their number and no error; however many frames
    the answer takes, all are consumed and the mark is free again. *)
Theorem client_reads_file (fd sfd offset : Z) (file dest : bytes) (d : duplex) :
  root_ok (storage_Path srv) -> (forall e st, file_ok fd sfd file e (os e st).1) -> within os budget ->
  ready d -> in_u 32 fd = true -> 0 <= offset -> offset + len dest < 2 ^ 63 ->
  let data := take (length dest) (drop (Z.to_nat offset) file) in
  exists n, forall fuel, (n <= fuel)%nat -> exists d',
    run (duplex_step os sfuel srv) (Client.CmdReadAt fuel fd offset dest) d =
      (Done (data ++ drop (length data) dest, len data, ErrorOK), d') /\ finished d d'.
Proof.
  intros Hr Hos Hin ((f & Hf & Hfree) & Hq & Hb) Hfd Ho Hmax data.
  assert (lawful os) as Hlaw by (intros e st0; by destruct (Hos e st0)).
  pose proof (len_nonneg dest) as Hd0.
  set (req := mkCmdReadAtStruct fd offset (len dest)).
  assert (wf_fields (req_fields (ReqReadAt req)) = true) as Hwf.
  { cbn [req_fields]. unfold fields_CmdReadAtStruct, req. cbn [CmdReadAt_FD CmdReadAt_Offset CmdReadAt_Size].
    codec_wf_goal ltac:(first [exact Hfd | apply in_u_spec; lia | done]). }
  destruct (data_request os sfuel srv budget (ReqReadAt req) (fun log => log_payload log = data) f d)
    as (n & Hn); try done.
  - simpl. unfold fastBufferSize. lia.
  - intros m Hm. 
    destruct (LW_run_total true (file_ok fd sfd file) os (cmdReadAt m req) (dx_os d)
      (fun _ log => sends (part file offset (len dest)) [] log)) as ([] & st' & log & Hrun & Hl);
      [done|done|by apply LW_cmdReadAt|].
    exists st', log. split; [done|]. apply sends_from_nil in Hl as [? ->]. split; [done|].
    unfold part, data, len. by rewrite Nat2Z.id.
  - exists n. intros fuel Hfuel.
    destruct (Hn fuel Hfuel _ (dest, 0, ErrorIO) (dest, 0, ErrorIO) (fun m => Client.read_frames fuel m dest))
      as (m & last & st' & log & Hmf & (ps & g & E & Hps & Hg & Hd) & Hlen & HP & Hrun).
    eexists. split; [etransitivity; [exact Hrun|]|by apply finished_released].
    unfold Client.read_frames. rewrite E, HP in *. rewrite (run_read_frames os sfuel srv fuel m ps g); cbn [dx_queue]; rewrite ?Hd.
    + done.
    + done.
    + done.
    + done.
    + lia.
    + unfold data, len. rewrite length_take. lia.
    + lia.
    + rewrite length_app in Hlen. simpl in Hlen. lia.
Qed.

(** C25: A client that lists a directory gets its entries: CmdReadDir, carried out
    by the server on a directory that can be read, returns one item per entry the
    operating system returned, in its order and with its name, and no error; every
    frame is consumed and the mark is free again. *)
Theorem client_lists_dir (path : gostring) (d : duplex) :
  root_ok (storage_Path srv) -> (forall e st, dir_ok e (os e st).1) -> within os budget ->
  ready d -> IsUrlValid path = true -> len path <= 65535 ->
  exists n, forall fuel, (n <= fuel)%nat -> exists items log d',
    run (duplex_step os sfuel srv) (Client.CmdReadDir fuel path) d = (Done (items, ErrorOK), d') /\
    finished d d' /\ dx_log d' = dx_log d ++ log /\ map di_Name items = map de_Name (log_entries log).
Proof.
  intros Hr Hos Hin ((f & Hf & Hfree) & Hq & Hb) Hv Hlen.
  assert (lawful os) as Hlaw by (intros e st0; by destruct (Hos e st0)).
  set (req := mkCmdReadDirStruct path).
  assert (wf_fields (req_fields (ReqReadDir req)) = true) as Hwf.
  { cbn [req_fields]. unfold fields_CmdReadDirStruct. codec_wf_goal ltac:(first [done | by apply Z.leb_le]). }
  destruct (data_request os sfuel srv budget (ReqReadDir req) listing f d) as (n & Hn); try done.
  - simpl. unfold fastBufferSize. lia.
  - intros m Hm.
    pose proof (cmdReadDir_answers sfuel srv m true (budget (dx_os d)) Hr (fun _ => Hb) req) as Ha.
    destruct (answers_run os budget _ m _ (dx_os d) answered Hlaw Hin Ha) as (st' & log & g & Hrun & _).
    exists st', log. split; [done|].
    pose proof (LW_run false dir_ok os (cmdReadDir sfuel srv m req) (dx_os d) _ Hos (LW_cmdReadDir sfuel srv m req Hv)) as H.
    rewrite Hrun in H. split; [apply H|exact H].
  - exists n. intros fuel Hfuel.
    destruct (Hn fuel Hfuel _ ([], ErrorIO) ([], ErrorIO) (Client.readdir_frames fuel))
      as (m & last & st' & log & Hmf & (ps & g & E & Hps & Hg & _) & Hl & (_ & gs & Hgs & Hok & Hnames) & Hrun).
    eexists _, log, _. split; [etransitivity; [exact Hrun|]|split_and!; [by apply finished_released|done|]].
    + unfold Client.readdir_frames. rewrite E, length_app in *. simpl in Hl.
      by rewrite (run_readdir_frames os sfuel srv fuel m ps g gs); [|done..|lia].
    + simpl. by rewrite map_map, <-Hnames.
Qed.

(** A client that asks for an extended attribute gets its value, however long:
    CmdGetXAttr, for a key both sides allow, returns the value the file system
    holds and no error; every frame is consumed and the mark is free again. *)
Theorem client_gets_xattr (path key : gostring) (mode : Z) (value : bytes) (names : list gostring) (d : duplex) :
  root_ok (storage_Path srv) ->
  (forall e st, xattr_ok (storage_Path srv ++ path) key value names e (os e st).1) -> within os budget ->
  ready d -> IsUrlValid path = true -> len path <= 65535 -> len key <= 65535 -> in_u 32 mode = true ->
  validateXAttr c key mode false = ErrorOK -> isXAttrKeyAllowed srv key = true ->
  exists n, forall fuel, (n <= fuel)%nat -> exists d',
    run (duplex_step os sfuel srv) (Client.CmdGetXAttr fuel c path key mode) d = (Done (value, ErrorOK), d') /\
    finished d d'.
Proof.
  intros Hr Hos Hin ((f & Hf & Hfree) & Hq & Hb) Hv Hlp Hlk Hmode Hval Hall.
  assert (lawful os) as Hlaw by (intros e st0; by destruct (Hos e st0)).
  set (req := mkCmdGetXAttrStruct path key mode).
  destruct (validateXAttr_ok c key mode Hval) as [Hname Hbad].
  assert (wf_fields (req_fields (ReqGetXAttr req)) = true) as Hwf.
  { cbn [req_fields]. unfold fields_CmdGetXAttrStruct.
    codec_wf_goal ltac:(first [done | exact Hmode | by apply Z.leb_le]). }
  destruct (data_request os sfuel srv budget (ReqGetXAttr req) (fun log => log_payload log = value) f d)
    as (n & Hn); try done.
  - simpl. unfold fastBufferSize. lia.
  - intros m Hm.
    destruct (LW_run_total true _ os (cmdGetXAttr srv m req) (dx_os d)
      (fun _ log => sends value [] log) eq_refl Hos) as ([] & st' & log & Hrun & Hl); [by apply LW_cmdGetXAttr|].
    exists st', log. split; [done|]. by apply sends_from_nil.
  - exists n. intros fuel Hfuel.
    destruct (Hn fuel Hfuel _ ([], ErrorIO) ([], ErrorIO) (fun m =>
        a ← Client.readXAttrData fuel m; releaseClientMark m ;; mret a))
      as (m & last & st' & log & Hmf & (ps & g & E & Hps & Hg & Hd) & Hl & HP & Hrun).
    eexists. split; [|by apply (finished_released m st' (dx_log d ++ log) last [])].
    unfold Client.CmdGetXAttr. rewrite Hval. change (negb (ErrorOK =? ErrorOK)) with false. cbv iota.
    etransitivity; [exact Hrun|]. unfold Client.readXAttrData. rewrite E, length_app in *. simpl in Hl.
    rewrite run_bind, (run_readXAttrData os sfuel srv fuel m ps g); [|done..|lia].
    by rewrite Hd, HP.
Qed.
End EndToEnd.

(** ** What a request does with the session *)


(** C30: The parser of a listing with prefetch resolves what it hands out. Whatever
    frames arrive, well formed or not, parseReadDirPlus does not panic and ends; it
    hands out one listing, sets the children of an item at most once and only
    afterwards closes its channel, never closes a channel twice, and has closed the
    channel of every subdirectory in the listing when it ends, so that no reader
    waits for ever; every buffer is put back and the mark released. *)
Theorem parser_resolves (B fuel b : nat) (m : Z) :
  (B < fuel)%nat -> (b <= B)%nat ->
  wp true (budget_env (parse_pre m) parse_next parse_retry) (parseReadDirPlus fuel m) (parse_start, b)
    (fun _ '(g, b') => (b' <= b)%nat /\ resolved g /\ pg_buf g = false /\ pg_mark g = false).
Proof. intros Hf Hb. apply (BW_wp _ _ _ true B); [by apply parseReadDirPlus_ok|done]. Qed.

(** ** A listing with a link that leaves the storage *)

(** A directory with a link [l] to a directory outside of the storage and a
    subdirectory [a] that holds a file [x]; the state lists the directories whose
    entries were read. *)
Definition link_stat (p : gostring) (mode : Z) : result errno fileinfo :=
  Ok (mkfileinfo p 0 mode (mkTimespec 1 2) 0 0).

Definition link_entries : list direntry := [mkdirentry (str "l") false; mkdirentry (str "a") true].

Definition link_os (e : sev) : list Z -> sans e * list Z :=
  match e return list Z -> sans e * list Z with
  | OsOpen p => fun l => (Ok (if bool_decide (p = str "/srv/") then 1 else 2), l)
  | OsReadDir f n => fun l =>
      if decide (f ∈ l) then (([], Some DirEOF), l)
      else ((take (Z.to_nat n) (if f =? 1 then link_entries else [mkdirentry (str "x") false]), None), f :: l)
  | OsLstat p => fun l =>
      (if bool_decide (p = str "/srv/l") then link_stat (str "l") ModeSymlink
       else if bool_decide (p = str "/srv/a") then link_stat (str "a") ModeDir
       else link_stat (str "x") 0, l)
  | OsReadlink _ => fun l => (Ok (str "/etc"), l)
  | OsStat _ => fun l => (link_stat (str "l") ModeDir, l)
  | e => fun l => let '(r, _) := demo_os e 0%nat in (r, l)
  end.

Lemma link_lawful : lawful link_os.
Proof.
  intros e l. destruct e; try exact (demo_lawful _ 0%nat); try exact I; cbn [link_os sys_ok fst].
  - destruct (decide (f ∈ l)) as [Hin|Hin]; cbn [fst snd]; [split; [constructor|]; intros Hn; split_and!; [|done..]|].
    { unfold len. simpl. lia. }
    assert (Forall entry_ok (if f =? 1 then link_entries else [mkdirentry (str "x") false])) as Hok.
    { destruct (f =? 1); repeat apply Forall_cons_2; try apply Forall_nil_2;
        (split; [by apply (bool_decide_unpack _)|unfold len; simpl; lia]). }
    split; [by apply Forall_take|]. intros Hn. unfold len. rewrite length_take. split_and!; [lia| |done].
    intros E. apply (f_equal length) in E. rewrite length_take in E. destruct (f =? 1); simpl in E; lia.
  - done.
  - by split.
  - case_bool_decide as E; [|by case_bool_decide; split].
    split; [done|]. intros _. exists (str "/srv"). split; [exact E|]. by apply (bool_decide_unpack _).
Qed.

(** The parser on given frames; the state is the frames to come and what it did
    with the listing. *)
Inductive parsed :=
| Listing (names : list gostring)
| Children (idx : nat) (names : list gostring)
| Resolved (idx : nat).

Definition parse_os (e : cev) : list bytes * list parsed -> cans e * (list bytes * list parsed) :=
  match e return list bytes * list parsed -> cans e * (list bytes * list parsed) with
  | CReceive _ => fun '(q, l) => (default [] (head q), (tail q, l))
  | CRootSend _ r => fun '(q, l) => (tt, (q, l ++ [Listing (map di_Name (rdp_list r))]))
  | CSetChild _ idx items => fun '(q, l) => (tt, (q, l ++ [Children idx (map di_Name items)]))
  | CCloseReady _ idx => fun '(q, l) => (tt, (q, l ++ [Resolved idx]))
  | CBegin => fun s => (true, s)
  | CMarkAdd => fun s => (0, s)
  | CTryLock _ => fun s => (true, s)
  | CRequest _ _ _ => fun s => (Sent, s)
  | CRootRecv _ => fun s => (mkReadDirPlusResult [] 0, s)
  | _ => fun s => (tt, s)
  end.

(** A link that leads out of the storage to a directory gets the children of
    another directory. The server prefetches the entries its directory marks as
    directories, which a link is not; the client takes every item whose mode says
    directory for the next prefetched one, and a link out of the storage carries
    the mode of its target. Here the server reads the storage's directory and its
    subdirectory [a], and the client attaches the contents of [a] to the link. *)
Theorem prefetch_misplaced :
  lawful link_os /\
  let '(served, (_, log)) :=
    run (logged link_os) (cmdReadDirPlus 600 demo_session 5 (mkCmdReadDirPlusStruct (str "/"))) ([], []) in
  let '(parsed, (_, done)) := run parse_os (parseReadDirPlus 10 5) (log_frames log, []) in
  served = Done tt /\ parsed = Done tt /\
  omap (fun x => match projT1 x with OsOpen p => Some p | _ => None end) log = [str "/srv/"; str "/srv/a/"] /\
  done = [Listing [str "l"; str "a"]; Children 0 [str "x"]; Resolved 0; Resolved 1].
Proof. split; [exact link_lawful|]. vm_compute. repeat split. Qed.

(** ** Witnesses *)

Definition demo_duplex : duplex (St := nat) := mkDuplex 0%nat [] 254 {[255; 0]} [] false.

Lemma demo_ready : ready (fun n => n) 600 demo_duplex.
Proof. split_and!; [by exists 7|done|simpl; lia]. Qed.

(** The counter of marks is about to wrap around onto two marks that are taken. *)
Lemma client_reads_file_witness :
  exists n, forall fuel, (n <= fuel)%nat -> exists d',
    run (duplex_step (abi := linux_amd64) demo_os 600 demo_session) (Client.CmdReadAt fuel 1 1 (str "......")) demo_duplex =
      (Done (str "ello..", 4, ErrorOK), d') /\ finished demo_duplex d'.
Proof.
  apply (client_reads_file (abi := linux_amd64) demo_os (fun n => n) 600 demo_session 1 7 1 demo_file (str "......") demo_duplex
    demo_root demo_file_ok demo_within demo_ready); [reflexivity|discriminate|reflexivity].
Defined.

Lemma client_lists_dir_witness :
  exists n, forall fuel, (n <= fuel)%nat -> exists items log d',
    run (duplex_step (abi := linux_amd64) demo_os 600 demo_session) (Client.CmdReadDir fuel (str "/")) demo_duplex =
      (Done (items, ErrorOK), d') /\
    finished demo_duplex d' /\ dx_log d' = log /\ map di_Name items = map de_Name (log_entries log).
Proof.
  apply (client_lists_dir (abi := linux_amd64) demo_os (fun n => n) 600 demo_session (str "/") demo_duplex
    demo_root demo_dir_ok demo_within demo_ready); [reflexivity|discriminate].
Defined.

Lemma client_gets_xattr_witness :
  exists n, forall fuel, (n <= fuel)%nat -> exists d',
    run (duplex_step (abi := linux_amd64) demo_os 600 xattr_session)
      (Client.CmdGetXAttr fuel (mkClient [str "user."] true) (str "/f") (str "user.a") 0) demo_duplex
      = (Done (demo_value, ErrorOK), d') /\ finished demo_duplex d'.
Proof.
  apply (client_gets_xattr (abi := linux_amd64) demo_os (fun n => n) 600 xattr_session (mkClient [str "user."] true)
    (str "/f") (str "user.a") 0 demo_value demo_names demo_duplex demo_root (demo_xattr_ok _ _) demo_within demo_ready);
    [reflexivity|discriminate|discriminate|reflexivity|reflexivity|reflexivity].
Defined.


Lemma parser_resolves_witness :
  wp true (budget_env (parse_pre 5) parse_next parse_retry) (parseReadDirPlus 10 5) (parse_start, 9%nat)
    (fun _ '(g, b') => (b' <= 9)%nat /\ resolved g /\ pg_buf g = false /\ pg_mark g = false).
Proof. apply (parser_resolves 9 10 9 5); lia. Defined.
