(* ===== verification/ClientSessionThms.v ===== *)
(** * Theorems: the client's session

    Responses and the calls they are given to, while the connection holds, when
    the session is closed and when the connection is lost. *)
From S2P Require Import Prelude GoIO Codec Structs StructGen Prog Budget Paths ServerEnv ClientEnv ClientCmds ClientReadDirPlus ClientSpec ClientOk ClientSession ClientSessionOk.

(** C9: As long as the connection is unbroken (until Close closes it) and no request is
    given up for a string that can not be encoded, a session gives every call of a
    request function the frames of its own request. Whatever such calls run side by
    side and however their steps, the read loop's and the server's are ordered: no
    call panics; a frame in the channel a call waits at answers the latest request of
    that call; the frames a waiting call still needs are on their way, in order,
    or the server has still to send them; the channel of a mark that nobody holds
    is empty; and a mark is held by one call at most. After a reconnection this fails
    (stale_response). Calls that hand their mark to the parser of a prefetched listing
    stay where they do so, and write streams are not among the calls; both are treated
    apart (parser_resolves, stream_in_order). *)
Theorem responses_routed (fuel : nat) (c : client) (st : csess) :
  reachable fuel c calm st ->
  (forall i p, cs_calls st !! i = Some p -> p <> Panic) /\
  (forall i m k, cs_calls st !! i = Some (Vis (CReceive m) k) ->
     exists id cmd body got, latest (cs_owner st) i id /\ chain id cmd body got (underway st m) (cs_out st !! m) /\
       (forall id' f, cs_chan st !! m = Some (id', f) -> id' = Some id /\ frame_fits cmd body got f)) /\
  (forall m, m ∉ cs_marks st -> cs_chan st !! m = None /\ cs_out st !! m = None) /\
  (forall i j m k k', cs_calls st !! i = Some (Vis (CReceive m) k) -> cs_calls st !! j = Some (Vis (CReceive m) k') -> i = j).
Proof.
  intros [[gs Hro]|Hcd]%reachable_routed.
  - split_and!.
    + intros i p Hp ->. by destruct (routed_phase _ _ _ _ Hro Hp) as (g & _ & []%(fun H => H 0%nat)).
    + intros i m k Hp. destruct (routed_receiver _ _ _ _ _ Hro Hp) as (cmd & body & got & id & _ & Hl & Hc).
      exists id, cmd, body, got. split_and!; [done..|]. intros id' f Hf.
      rewrite (proj1 (underway_receive st m id' f 0 Hf)) in Hc. by destruct Hc as (-> & ? & _).
    + intros m Hm. destruct (ro_free _ _ Hro m Hm) as [Hu Ho]. split; [|done].
      unfold underway in Hu. by destruct (cs_chan st !! m).
    + intros i j m k k' Hi Hj. destruct (routed_receiver _ _ _ _ _ Hro Hi) as (? & ? & ? & ? & Hi' & _).
      destruct (routed_receiver _ _ _ _ _ Hro Hj) as (? & ? & ? & ? & Hj' & _).
      by eapply (ro_unique _ _ Hro i j).
  - assert (forall i p, cs_calls st !! i = Some p -> safe p Idle) as Hs
      by (intros i p Hp; exact (Forall_lookup_1 _ _ _ _ (cd_safe _ Hcd) Hp)).
    assert (forall i m k, cs_calls st !! i <> Some (Vis (CReceive m) k)) as Hno
      by (intros i m k (? & ? & ? & ?)%Hs%client_safe_Vis%proj1; discriminate).
    split_and!.
    + by intros i p Hp ->; destruct (Hs _ _ Hp 0%nat).
    + by intros i m k Hp; destruct (Hno i m k).
    + intros m _. destruct (cd_net _ Hcd) as [_ ->]. by rewrite cd_chan.
    + by intros i j m k k' Hp; destruct (Hno i m k).
Qed.

(** C36: Close is graceful: when the session of an unbroken connection is closing or
    closed, no call is in progress, no mark is held, no frame is in a channel, on
    its way or owed by the server, so none is lost; and a call started from then
    on is refused before it takes a mark. *)
Theorem close_graceful (fuel : nat) (c : client) (st : csess) :
  reachable fuel c calm st -> cs_state st = Closing \/ cs_state st = Closed ->
  cs_active st = 0 /\ cs_marks st = ∅ /\ cs_chan st = ∅ /\ cs_wire st = [] /\ cs_out st = ∅ /\
  forall i o e k r st', cs_calls st !! i = Some (Vis e k) -> answer i o e st = Some (r, st') ->
    st' = st /\ (forall m cmd body, e <> CRequest m cmd body) /\ (forall m, e <> CTryLock m).
Proof.
  intros Hre Hst. assert (closed_down st) as Hcd.
  { destruct (reachable_routed _ _ _ Hre) as [[gs Hro]|Hcd]; [|done]. eapply routed_closing; [done|].
    destruct Hst as [E|E]; [done|]. destruct (ro_conn _ _ Hro) as [_ [?|[? _]]]; congruence. }
  destruct (cd_net _ Hcd) as [Hw Ho]. split_and!; [apply Hcd|apply Hcd|apply Hcd|done|done|].
  intros i o e k r st' Hp Ha. pose proof (Forall_lookup_1 _ _ _ _ (cd_safe _ Hcd) Hp) as [Hpre _]%client_safe_Vis.
  destruct e; try discriminate Ha; cbn [answer cli_pre] in *; try (by naive_solver).
  split_and!; [|done..]. by destruct Hst as [E|E]; rewrite E in Ha; injection Ha.
Qed.

(** ** Schedules *)

Section Schedules.
Context (fuel : nat) (c : client) (ok : csess -> action -> Prop).

(** Reads, steps and moves of the read loop. *)
Definition simple (st : csess) (a : action) : bool :=
  match a with
  | Call (CallReadAt _ _ dest) => len dest <? 2 ^ 63
  | Step i Sent =>
      match cs_calls st !! i with
      | Some (Vis (CRequest _ _ (_, Some _)) _) => false
      | _ => true
      end
  | Read _ | Resume | Close => true
  | _ => false
  end.

Lemma simple_ok st a : simple st a = true -> lawful_action st a /\ calm st a.
Proof.
  destruct a as [[]|i []| | | | |]; try done; cbn [simple lawful_action calm call_wf].
  - by intros H%Z.ltb_lt.
  - intros H. split_and!; [done..|]. intros m cmd [b [e|]] k E; [|done]. by rewrite E in H.
Qed.

(** A schedule; what cannot happen is left out. *)
Definition next (a : action) (st : csess) : csess := default st (act fuel c a st).

Fixpoint after (l : list action) (st : csess) : csess :=
  match l with [] => st | a :: l' => after l' (next a st) end.

Fixpoint all_simple (l : list action) (st : csess) : bool :=
  match l with [] => true | a :: l' => simple st a && all_simple l' (next a st) end.

Lemma next_reachable a st :
  reachable fuel c ok st -> lawful_action st a -> ok st a -> reachable fuel c ok (next a st).
Proof. intros Hst Hl Hok. unfold next. destruct (act fuel c a st) eqn:E; [by eapply reachable_act|done]. Qed.

Lemma after_reachable l st :
  (forall st a, calm st a -> ok st a) -> reachable fuel c ok st -> all_simple l st = true ->
  reachable fuel c ok (after l st).
Proof.
  intros Hok. revert st. induction l as [|a l IH]; intros st Hst; [done|].
  cbn [all_simple after]. intros [[Hl Hc]%simple_ok Ha]%andb_prop. apply IH; [|done].
  by apply next_reachable; [..|apply Hok].
Qed.
End Schedules.

(** The mark a call waits at. *)
Definition waits_at (st : csess) (i : nat) : option Z :=
  match cs_calls st !! i with Some (Vis (CReceive m) _) => Some m | _ => None end.

Lemma waits_at_Some st i m : waits_at st i = Some m -> exists k, cs_calls st !! i = Some (Vis (CReceive m) k).
Proof. unfold waits_at. intros H. destruct (cs_calls st !! i) as [[|[] k| |]|]; try done. injection H as ->. by exists k. Qed.

Definition finished_call (st : csess) (i : nat) : bool :=
  match cs_calls st !! i with Some (Ret _) => true | _ => false end.

(** Two reads of different files, and a frame with data. *)
Definition a_client : client := mkClient [] true.
Definition first_read : call := CallReadAt 1 0 (str "......").
Definition second_read : call := CallReadAt 2 0 (str "......").
Definition data_frame (m : Z) (data : bytes) : bytes := le_bytes 1 m ++ le_bytes 1 ErrorOK ++ data.
Definition steps (i n : nat) : list action := repeat (Step i Sent) n.

Lemma data_frame_fits m body data :
  len data <= Uint64 body.1 12 -> frame_fits CmdReadAt body 0 (data_frame m data).
Proof.
  intros Hd. assert (rsp_data (data_frame m data) = data) as E by done.
  unfold frame_fits. rewrite E. split_and!; try done.
  unfold data_frame, len. rewrite !length_app, !length_le_bytes. lia.
Qed.

(** Two reads side by side; the answers come in the other order. *)
Definition two_reads : csess :=
  let f1 := data_frame 1 (str "hello") in
  let f2 := data_frame 2 (str "world") in
  let asked := after 10 a_client ([Call first_read; Call second_read] ++ steps 0 4 ++ steps 1 4) csess_init in
  after 10 a_client [Read true; Read true; Read true; Read true]
    (next 10 a_client (Emit 1 f1) (next 10 a_client (Emit 2 f2) asked)).

Lemma emit_data_lawful st m id body data :
  Uint8 (data_frame m data) 0 = m -> cs_out st !! m = Some (mkOutstanding id CmdReadAt body 0) ->
  len data <= Uint64 body.1 12 -> lawful_action st (Emit m (data_frame m data)).
Proof.
  intros Hm Ho Hd. split; [done|]. intros id' cmd body' got. rewrite Ho. intros [= <- <- <- <-].
  by apply data_frame_fits.
Qed.

Lemma two_reads_reachable : reachable 10 a_client calm two_reads.
Proof.
  unfold two_reads. apply after_reachable; [done| |reflexivity].
  apply next_reachable; [|eapply emit_data_lawful; vm_compute; [done|reflexivity|discriminate]|done].
  apply next_reachable; [|eapply emit_data_lawful; vm_compute; [done|reflexivity|discriminate]|done].
  apply after_reachable; [done|apply reachable_init|reflexivity].
Qed.

(** The reads finish, Close closes the connection, the read loop ends. *)
Definition closed_session : csess :=
  after 10 a_client (repeat (Read true) 258)
    (next 10 a_client Break (after 10 a_client (steps 0 5 ++ steps 1 5 ++ [Close; Call first_read]) two_reads)).

Lemma closed_session_reachable : reachable 10 a_client calm closed_session.
Proof.
  unfold closed_session. apply after_reachable; [done| |reflexivity].
  apply next_reachable; [|done|reflexivity].
  apply after_reachable; [done|apply two_reads_reachable|reflexivity].
Qed.

(** ** A response that finds another request *)

(** A read takes mark 1; the connection fails, the read loop puts the error
    response made up for mark 1 in its channel and dials again. Meanwhile reads
    come and fail. *)
Definition redialling : csess :=
  after 10 a_client (repeat (Read true) 259 ++ concat (map (fun i => Call second_read :: steps i 6) (seq 1 255)))
    (next 10 a_client Break (after 10 a_client (Call first_read :: steps 0 3) csess_init)).

(** On the new connection the first read sends its request, takes the response
    made up for its mark and ends. *)
Definition reconnected : csess := after 10 a_client ([Read true; Resume] ++ steps 0 5) redialling.

(** The server's response arrives; another read, of another file, gets the mark. *)
Definition misrouted : csess :=
  after 10 a_client ([Read true; Read true; Call second_read] ++ steps 256 4)
    (next 10 a_client (Emit 1 (data_frame 1 (str "secret"))) reconnected).

Lemma redialling_reachable : reachable 10 a_client (fun _ _ => True) redialling.
Proof.
  unfold redialling. apply after_reachable; [done| |by vm_compute].
  apply next_reachable; [|done|done].
  apply after_reachable; [done|apply reachable_init|by vm_compute].
Qed.

Lemma reconnected_reachable : reachable 10 a_client (fun _ _ => True) reconnected.
Proof. unfold reconnected. apply after_reachable; [done|exact redialling_reachable|by vm_compute]. Qed.

Lemma misrouted_reachable : reachable 10 a_client (fun _ _ => True) misrouted.
Proof.
  unfold misrouted. apply after_reachable; [done| |by vm_compute].
  apply next_reachable; [exact reconnected_reachable| |done].
  eapply emit_data_lawful; vm_compute; [done|reflexivity|discriminate].
Qed.

(** When the connection is lost the responses made up for the marks in use can
    outlive their requests, and then a call gets the response of another one: in a
    state the session can reach with a server that follows the protocol, a read of
    one file is about to receive, as the first frame of its response, the data of
    a read of another file that ended long before. A request that holds its mark
    but is sent only after the reconnection takes the response that notifyAllMarks
    put in its channel, and leaves the server's in the channel of a mark that is
    free. *)
Theorem stale_response :
  reachable 10 a_client (fun _ _ => True) misrouted /\ cs_state misrouted = Running /\
  (exists k, cs_calls misrouted !! 256%nat = Some (Vis (CReceive 1) k)) /\
  latest (cs_owner misrouted) 256 1 /\
  cs_chan misrouted !! 1 = Some (Some 0%nat, data_frame 1 (str "secret")) /\
  cs_owner misrouted !! 0%nat = Some 0%nat /\ finished_call misrouted 0 = true.
Proof.
  split_and!; [exact misrouted_reachable|by vm_compute|apply waits_at_Some; by vm_compute| |by vm_compute..].
  split; [by vm_compute|]. intros id' H.
  assert (cs_owner misrouted = [0; 256]%nat) as E by (by vm_compute). rewrite E in H. clear E.
  destruct id' as [|[|id']]; [lia|lia|discriminate H].
Qed.

(** ** Witnesses *)

Lemma responses_routed_witness :
  reachable 10 a_client calm two_reads /\
  exists k id cmd body got, cs_calls two_reads !! 1%nat = Some (Vis (CReceive 2) k) /\
    latest (cs_owner two_reads) 1 id /\ cs_chan two_reads !! 2 = Some (Some id, data_frame 2 (str "world")) /\
    frame_fits cmd body got (data_frame 2 (str "world")).
Proof.
  split; [exact two_reads_reachable|].
  destruct (waits_at_Some two_reads 1 2) as [k Hk]; [by vm_compute|].
  destruct (responses_routed 10 a_client two_reads two_reads_reachable) as (_ & H & _).
  destruct (H 1%nat 2 k Hk) as (id & cmd & body & got & Hl & _ & Hf).
  destruct (Hf (Some 1%nat) (data_frame 2 (str "world"))) as [[= <-] Hfit]; [by vm_compute|].
  exists k, 1%nat, cmd, body, got. split_and!; [done|done|by vm_compute|done].
Defined.

Lemma close_graceful_witness :
  reachable 10 a_client calm closed_session /\ cs_state closed_session = Closed /\
  finished_call closed_session 0 = true /\ cs_active closed_session = 0 /\ cs_marks closed_session = ∅.
Proof.
  split_and!; [exact closed_session_reachable|by vm_compute|by vm_compute|..];
    apply (close_graceful 10 a_client closed_session closed_session_reachable); right; by vm_compute.
Defined.
