(* ===== verification/ClientMountThms.v ===== *)
(** * What connecting promises

    The credentials a client dials with are those the server checks; a lost
    connection is dialled again a bounded number of times and given up early only for
    an answer that says so; a pinned certificate is the only one accepted; the
    kernel's list of mounts is read as it was written. *)
From S2P Require Import Prelude GoIO Prog Paths Utf8 ServerEnv ServerXattrOk ServerHttp ClientMount ClientWait.

(** ** Credentials *)

Lemma b64_val_char n : 0 <= n < 64 -> b64_val (b64_char n) = Some n.
Proof.
  intros Hn. assert (forallb (fun k => bool_decide (b64_val (b64_char (Z.of_nat k)) = Some (Z.of_nat k))) (seq 0 64) = true) as H
    by (vm_compute; reflexivity).
  rewrite forallb_forall in H. specialize (H (Z.to_nat n)). rewrite Z2Nat.id in H by lia.
  apply bool_decide_eq_true in H; [done|]. apply in_seq. lia.
Qed.

Lemma b64_char_not_pad n : 0 <= n < 64 -> b64_char n <> x3d.
Proof. intros Hn E. pose proof (b64_val_char n Hn) as H. rewrite E in H. by vm_compute in H. Qed.

Lemma byte_of_Z_eq c v : v = byte_val c -> byte_of_Z v = c.
Proof. intros ->. apply byte_of_Z_val. Qed.

(** The six-bit groups of bytes, and the bytes of the groups. *)
Lemma group_range a b c :
  0 <= a < 256 -> 0 <= b < 256 -> 0 <= c < 256 ->
  (0 <= a / 4 < 64) /\ (0 <= a mod 4 * 16 + b / 16 < 64) /\ (0 <= b mod 16 * 4 + c / 64 < 64) /\ (0 <= c mod 64 < 64).
Proof. intros. Z.to_euclidean_division_equations. lia. Qed.

Lemma group_bytes a b c :
  0 <= a < 256 -> 0 <= b < 256 -> 0 <= c < 256 ->
  a / 4 * 4 + (a mod 4 * 16 + b / 16) / 16 = a /\
  (a mod 4 * 16 + b / 16) mod 16 * 16 + (b mod 16 * 4 + c / 64) / 4 = b /\
  (b mod 16 * 4 + c / 64) mod 4 * 64 + c mod 64 = c.
Proof. intros. Z.to_euclidean_division_equations. lia. Qed.

Lemma base64_triple a b c s :
  DecodeString (EncodeToString s) = Some s -> DecodeString (EncodeToString (a :: b :: c :: s)) = Some (a :: b :: c :: s).
Proof.
  intros H. cbn [EncodeToString DecodeString].
  pose proof (byte_val_range a) as Ha. pose proof (byte_val_range b) as Hb. pose proof (byte_val_range c) as Hc.
  destruct (group_range _ _ _ Ha Hb Hc) as (R1 & R2 & R3 & R4). destruct (group_bytes _ _ _ Ha Hb Hc) as (B1 & B2 & B3).
  rewrite !b64_val_char by done. cbn [mbind option_bind].
  rewrite !bool_decide_false by (by apply b64_char_not_pad). rewrite H. cbn [mbind option_bind].
  do 2 f_equal; [by apply byte_of_Z_eq|f_equal; [by apply byte_of_Z_eq|f_equal; by apply byte_of_Z_eq]].
Qed.

Lemma base64_pair a b : DecodeString (EncodeToString [a; b]) = Some [a; b].
Proof.
  cbn [EncodeToString DecodeString].
  pose proof (byte_val_range a) as Ha. pose proof (byte_val_range b) as Hb.
  destruct (group_range _ _ 0 Ha Hb ltac:(lia)) as (R1 & R2 & R3 & _). destruct (group_bytes _ _ 0 Ha Hb ltac:(lia)) as (B1 & B2 & _).
  change (0 / 64) with 0 in *. rewrite Z.add_0_r in *.
  rewrite !b64_val_char by done. cbn [mbind option_bind].
  rewrite bool_decide_false by (by apply b64_char_not_pad). rewrite !bool_decide_true by done.
  do 2 f_equal; [by apply byte_of_Z_eq|f_equal; by apply byte_of_Z_eq].
Qed.

Lemma base64_single a : DecodeString (EncodeToString [a]) = Some [a].
Proof.
  cbn [EncodeToString DecodeString]. pose proof (byte_val_range a) as Ha.
  destruct (group_range _ 0 0 Ha ltac:(lia) ltac:(lia)) as (R1 & R2 & _). destruct (group_bytes _ 0 0 Ha ltac:(lia) ltac:(lia)) as (B1 & _).
  change (0 / 16) with 0 in *. rewrite Z.add_0_r in *.
  rewrite !b64_val_char by done. cbn [mbind option_bind]. rewrite !bool_decide_true by done.
  do 2 f_equal. by apply byte_of_Z_eq.
Qed.

Lemma base64_roundtrip s : DecodeString (EncodeToString s) = Some s.
Proof.
  assert (forall n s, (length s <= n)%nat -> DecodeString (EncodeToString s) = Some s) as H; [|by eapply H].
  clear s. intros n. induction n as [|n IH]; intros s Hs; [by destruct s; [|simpl in Hs; lia]|].
  destruct s as [|a [|b [|c s]]]; [done|apply base64_single|apply base64_pair|].
  apply base64_triple, IH. simpl in Hs. lia.
Qed.

Lemma parse_dialed username password :
  (x3a ∉ username) ->
  parseBasicAuth (str "Basic " ++ EncodeToString (username ++ str ":" ++ password)) = Some (username, password).
Proof.
  intros Hu. unfold parseBasicAuth. rewrite take_app_length' by done. rewrite drop_app_length' by done.
  rewrite (proj2 (Nat.ltb_ge _ _)) by (rewrite length_app; simpl; lia).
  rewrite base64_roundtrip. cbn [orb mbind option_bind negb]. unfold Cut_byte.
  change (str ":" ++ password) with (x3a :: password). rewrite IndexByte_app by done.
  rewrite take_app_length. change (S (length username)) with (1 + length username)%nat.
  rewrite Nat.add_comm, <-drop_drop, drop_app_length. done.
Qed.

(** What the server of the other side sees of the header of a dial. *)
Definition header_values (h : list (gostring * gostring)) (key : gostring) : list gostring :=
  omap (fun '(k, v) => if bool_decide (k = key) then Some v else None) h.
Definition received (method path : gostring) (query : gostring -> bool) (h : list (gostring * gostring)) : http_request :=
  mkHttpRequest method path (header_values h) query
    (match header_values h (str "Authorization") with v :: _ => parseBasicAuth v | [] => None end).

(** C21: The credentials the client is mounted with are those the server checks. What
    dial puts into the header is read back by the server as the same user and the
    same password, whatever bytes these are made of, as long as the name has no
    colon, and the server's answer is that of authUser for them; without a user name
    no credentials are sent. The id of the session to resume arrives as it is. *)
Theorem credentials_arrive (compare : gostring -> gostring -> comparison) (users : gmap gostring storage_User)
    (method path : gostring) (query : gostring -> bool) (username password resumeId : gostring) :
  (x3a ∉ username) ->
  let req := received method path query (dial_header username password resumeId) in
  httpBasicAuth compare users req =
    (if bool_decide (username = []) then (None, Some ErrAuthHeaderNotExists)
     else authUser compare users username password) /\
  hr_Get req (str "X-Wsfs-Resume") = resumeId.
Proof.
  intros Hu. cbv zeta. unfold received, httpBasicAuth, hr_Get, dial_header. cbn [hr_Values hr_BasicAuth].
  assert (bool_decide (str "X-Wsfs-Resume" = str "Authorization") = false) as E1 by reflexivity.
  assert (bool_decide (str "Authorization" = str "X-Wsfs-Resume") = false) as E2 by reflexivity.
  assert (bool_decide (str "Authorization" = str "Authorization") = true) as E3 by reflexivity.
  assert (bool_decide (str "X-Wsfs-Resume" = str "X-Wsfs-Resume") = true) as E4 by reflexivity.
  destruct (bool_decide_reflect (username = [])) as [->|Hn], (bool_decide_reflect (resumeId = [])) as [->|Hr];
    unfold header_values; cbn [negb app omap list_omap]; rewrite ?E1, ?E2, ?E3, ?E4; cbn [head default from_option id];
    (split; [|done]); try (by rewrite bool_decide_true by done);
    rewrite bool_decide_false by done; by rewrite parse_dialed.
Qed.

(** ** Dialling again *)

Section Redial.
Context {nu : NetUrl} {S : Type} (sys : forall e : mev, S -> mans e * S).

Abbreviation mlog := (list (@log_entry mev mans)).

(** The connections asked for, with the answers, and the seconds slept. *)
Definition dials (log : mlog) : list (dial_args * dialed) :=
  omap (fun '(existT e r) => match e return mans e -> option (dial_args * dialed) with
                             | WsDial a => fun r => Some (a, r) | _ => fun _ => None end r) log.
Definition sleep_of (e : mev) : Z := match e with Sleep k => k | _ => 0 end.
Definition slept (log : mlog) : Z := foldr (fun x n => sleep_of (projT1 x) + n) 0 log.

Definition status_of (d : dialed) : Z :=
  match d with Connected _ _ rsp => StatusCode rsp | NotConnected (Some rsp) => StatusCode rsp | NotConnected None => 0 end.
Definition connects (d : dialed) : option nat :=
  match d with Connected conn sub _ => if bool_decide (sub = WSSubprotocol) then Some conn else None | NotConnected _ => None end.
(** The server can still be waited for. *)
Definition retryable (d : dialed) : Prop := connects d = None /\ status_of d <> 401 /\ status_of d <> 400.

Lemma dials_app a b : dials (a ++ b) = dials a ++ dials b.
Proof. apply omap_app. Qed.
Lemma slept_app a b : slept (a ++ b) = slept a + slept b.
Proof. unfold slept. induction a as [|x a IH]; [done|]. cbn [foldr app]. rewrite IH. lia. Qed.

(** One dial: what it asks for and how it is judged. *)
Definition redial_args (url username password resumeId hash : gostring) (sock : bool * gostring * gostring) : dial_args :=
  mkDial (if sock.1.1 then Some sock.1.2 else None) sock.2 (dial_header username password resumeId) hash [WSSubprotocol].

Lemma run_dial {A} url username password resumeId hash sock (k : dial_result -> MP A) st l :
  unixSocketUrl url = Ok sock ->
  let a := redial_args url username password resumeId hash sock in
  let d := (sys (WsDial a) st).1 in
  exists r : dial_result,
    run (with_log sys) (dial url username password resumeId hash ≫= k) (st, l) =
    run (with_log sys) (k r) ((sys (WsDial a) st).2, l ++ [existT (WsDial a) d]) /\
    match connects d with
    | Some conn => r.1.1 = Some conn /\ r.2 = None
    | None => is_Some r.2 /\ status_of d = match r.1.2 with Some rsp => StatusCode rsp | None => 0 end
    end.
Proof.
  intros Hu. cbv zeta. unfold dial, wsdial. rewrite Hu. destruct sock as [[isSocket socketPath] httpUrl].
  unfold mask, trigger. cbn [mbind prog_bind mret prog_ret]. rewrite run_ask. unfold redial_args. cbn [fst snd].
  destruct (sys (WsDial _) st) as [d st'] eqn:E. cbn [fst snd].
  destruct d as [conn sub rsp|rsp]; cbn [connects status_of].
  - destruct (bool_decide_reflect (sub = WSSubprotocol)); eexists; (split; [reflexivity|]); cbn; eauto.
  - eexists. split; [reflexivity|]. cbn. split; [eauto|]. by destruct rsp.
Qed.

(** How reDial ends, from what it was answered. *)
Definition redial_outcome (answers : list dialed) (r : result redial_err (option nat)) : Prop :=
  match r with
  | Ok conn => exists before d, answers = before ++ [d] /\ Forall retryable before /\ connects d = conn /\ is_Some conn
  | Err ErrUnauthorized => exists before d, answers = before ++ [d] /\ Forall retryable before /\ connects d = None /\ status_of d = 401
  | Err ErrNotResumable => exists before d, answers = before ++ [d] /\ Forall retryable before /\ connects d = None /\ status_of d = 400
  | Err ErrTooManyRetries => Forall retryable answers
  | Err ErrNoResume => False
  end.

Lemma redial_outcome_cons d answers r : retryable d -> redial_outcome answers r -> redial_outcome (d :: answers) r.
Proof.
  intros Hd. destruct r as [conn|[]]; simpl; [|done| | |by constructor];
    intros (before & e & -> & Hb & H); exists (d :: before), e; (split; [done|]); (split; [by constructor|done]).
Qed.

Lemma redial_loop_run n url username password resumeId hash sock st l :
  unixSocketUrl url = Ok sock ->
  exists r st' log,
    run (with_log sys) (redial_loop n url username password resumeId hash) (st, l) = (Done r, (st', l ++ log)) /\
    redial_outcome (map snd (dials log)) r /\
    Forall (fun x => x.1 = redial_args url username password resumeId hash sock) (dials log) /\
    (length (dials log) <= n)%nat /\ slept log = 5 * (Z.of_nat (length (dials log)) - if r is Err ErrTooManyRetries then 0 else 1) /\
    (r = Err ErrTooManyRetries -> length (dials log) = n).
Proof.
  intros Hu. revert st l. induction n as [|n IH]; intros st l.
  { exists (Err ErrTooManyRetries), st, []. rewrite app_nil_r. cbn. split_and!; [done|by constructor|by constructor|lia|done|done]. }
  cbn [redial_loop].
  match goal with
  | |- context [dial _ _ _ _ _ ≫= ?k] =>
      destruct (run_dial url username password resumeId hash sock k st l Hu) as (r & Hrun & Hr)
  end.
  rewrite Hrun. clear Hrun. set (a := redial_args _ _ _ _ _ _) in *.
  destruct (sys (WsDial a) st) as [d st1]. cbn [fst snd] in *. destruct r as [[conn rsp] err]. cbn [fst snd] in Hr.
  destruct (connects d) as [c|] eqn:Hc.
  { destruct Hr as [-> ->]. exists (Ok (Some c)), st1, [existT (WsDial a) d]. cbn. split_and!; try done; [|by repeat constructor|lia].
    exists [], d. split_and!; [done|constructor|done|by eexists]. }
  destruct Hr as [[e ->] Hs]. rewrite <-Hs.
  destruct (Z.eqb_spec (status_of d) 401) as [H401|H401].
  { exists (Err ErrUnauthorized), st1, [existT (WsDial a) d]. cbn. split_and!; try done; [|by repeat constructor|lia].
    exists [], d. split_and!; [done|constructor|done|done]. }
  destruct (Z.eqb_spec (status_of d) 400) as [H400|H400].
  { exists (Err ErrNotResumable), st1, [existT (WsDial a) d]. cbn. split_and!; try done; [|by repeat constructor|lia].
    exists [], d. split_and!; [done|constructor|done|done]. }
  unfold mask, trigger. change sessionRecoveryRetrySeconds with 5. cbn [mbind prog_bind]. rewrite run_ask.
  destruct (IH (sys (Sleep 5) st1).2 ((l ++ [existT (WsDial a) d]) ++ [existT (Sleep 5) (sys (Sleep 5) st1).1]))
    as (r & st' & log & Hrun & Ho & Ha & Hn & Hsl & Hr).
  exists r, st', (existT (WsDial a) d :: existT (Sleep 5) (sys (Sleep 5) st1).1 :: log).
  split; [refine (eq_trans Hrun _); by rewrite <-!app_assoc|]. cbn [dials omap list_omap map snd slept foldr sleep_of projT1].
  fold (dials log). fold (slept log).
  split_and!; [by apply redial_outcome_cons|by constructor|simpl; lia|rewrite Hsl; simpl length; lia|].
  intros E. simpl. by rewrite Hr.
Qed.

(** C20: When the connection is lost the client dials again at most 30 times, five
    seconds apart, and always ends: 150 seconds of waiting. Every attempt carries the
    id of the session and the credentials. The session goes on with the first
    connection that speaks the protocol; before that every attempt failed in a way
    that can pass (no server, 412 while the server still holds the old connection, any
    answer but 400 and 401). It gives up early only when the server refuses the credentials (401) or no longer
    knows the session (400), and at once when there is nothing to resume. *)
Theorem redial_bounded (url username password resumeId hash : gostring) (sock : bool * gostring * gostring) (st : S) :
  unixSocketUrl url = Ok sock ->
  exists r st' log,
    run (with_log sys) (reDialFunc url username password resumeId hash) (st, []) = (Done r, (st', log)) /\
    Forall (fun x => x.1 = redial_args url username password resumeId hash sock) (dials log) /\
    (length (dials log) <= 30)%nat /\ 5 * (Z.of_nat (length (dials log)) - 1) <= slept log <= 150 /\
    if bool_decide (resumeId = []) then r = Err ErrNoResume /\ log = []
    else redial_outcome (map snd (dials log)) r /\ (r = Err ErrTooManyRetries -> length (dials log) = 30%nat).
Proof.
  intros Hu. unfold reDialFunc. case_bool_decide as Hr.
  { exists (Err ErrNoResume), st, []. cbn. split_and!; [done|constructor|lia|lia|lia|done|done]. }
  destruct (redial_loop_run sessionRecoveryRetryMaxCount url username password resumeId hash sock st [] Hu)
    as (r & st' & log & Hrun & Ho & Ha & Hn & Hs & Ht).
  exists r, st', log. unfold sessionRecoveryRetryMaxCount in *. split_and!; try done.
  - rewrite Hs. destruct r as [conn|[]]; simpl in Ho; try lia; destruct Ho as (b & d & E & _);
      apply (f_equal length) in E; rewrite length_map, length_app in E; simpl in E; lia.
  - rewrite Hs. destruct r as [conn|[]]; lia.
Qed.
End Redial.

(** ** The certificate *)

(** With an expected hash a server is accepted exactly if its first certificate has
    that hash; without one the chain is verified and nothing else. *)
Lemma tlsConfig_pins {nu : NetUrl} expected cert certs :
  expected <> [] ->
  tlsConfig expected = mkTls true (VerifyConnection (tlsConfig expected)) /\
  (forall verify, VerifyConnection (tlsConfig expected) = Some verify ->
     (verify (cert :: certs) = true <-> x509CertHash cert = expected) /\ verify [] = false).
Proof.
  intros He. unfold tlsConfig. rewrite bool_decide_false by done. cbn [VerifyConnection].
  split; [done|]. intros verify [= <-]. split; [|done]. apply bool_decide_eq_true.
Qed.

(** What a refused client logs of the server's certificate is what the user would
    have to expect for it to be accepted. *)
Lemma logged_hash_accepted {nu : NetUrl} rsp unverified cert certs h verify :
  (rsp = Some (cert :: certs) \/ rsp = None /\ (unverified = cert :: certs \/ unverified = [])) ->
  logServerCertHash rsp unverified (Some (x509CertHash cert)) = Some h ->
  VerifyConnection (tlsConfig h) = Some verify -> verify (cert :: certs) = true.
Proof.
  intros Hc Hl Hv.
  assert (x509CertHash cert = h) as <-.
  { unfold logServerCertHash in Hl. destruct Hc as [->|[-> [->| ->]]]; by simplify_eq. }
  eapply (tlsConfig_pins _ cert certs); [|done|done]. done.
Qed.

(** ** The kernel's list of mounts *)

Lemma ParseUint_loop_app base acc s t :
  ParseUint_loop base acc (s ++ t) = v ← ParseUint_loop base acc s; ParseUint_loop base v t.
Proof. revert acc. induction s as [|c s IH]; intros acc; [done|]. cbn [app ParseUint_loop]. case_match; [apply IH|done]. Qed.

Lemma ParseUint_digit base acc d :
  0 <= d < base -> base <= 10 -> ParseUint_loop base acc [byte_of_Z (0x30 + d)] = Some (acc * base + d).
Proof.
  intros Hd Hb. cbn [ParseUint_loop]. rewrite byte_val_of_Z, Z.mod_small by lia. replace (48 + d - 48) with d by lia.
  rewrite (proj2 (Z.leb_le _ _)), (proj2 (Z.ltb_lt _ _)) by lia. done.
Qed.

Lemma parse_decimal fuel n : 0 <= n < 10 ^ Z.of_nat fuel -> ParseUint_loop 10 0 (decimal fuel n) = Some n.
Proof.
  revert n. induction fuel as [|fuel IH]; intros n Hn; [simpl in *; by replace n with 0 by lia|].
  rewrite Nat2Z.inj_succ, Z.pow_succ_r in Hn by lia. cbn [decimal]. rewrite ParseUint_loop_app.
  pose proof (Z.mod_pos_bound n 10 ltac:(lia)) as Hm. pose proof (Z.div_mod n 10 ltac:(lia)) as Hd.
  destruct (Z.ltb_spec n 10) as [Hl|Hl].
  - change (ParseUint_loop 10 0 []) with (Some 0). cbn [mbind option_bind]. rewrite ParseUint_digit by lia.
    f_equal. rewrite Z.mod_small by lia. lia.
  - rewrite IH by (split; [apply Z.div_pos; lia|apply Z.div_lt_upper_bound; lia]).
    cbn [mbind option_bind]. rewrite ParseUint_digit by lia. f_equal. lia.
Qed.

Lemma parse_printed n : 0 <= n < 2 ^ 32 -> ParseUint (decimal 10 n) 10 32 = Some n.
Proof.
  intros Hn. unfold ParseUint. rewrite parse_decimal by (simpl; lia). cbn [mbind option_bind].
  rewrite (proj2 (Z.ltb_lt _ _)) by lia. destruct (decimal 10 n) eqn:E; [|done].
  exfalso. cbn [decimal] in E. by destruct (app_eq_nil _ _ E) as [_ ?].
Qed.

Lemma decimal_zero n : 0 <= n < 2 ^ 32 -> decimal 10 n = str "0" <-> n = 0.
Proof.
  intros Hn. split; [|by intros ->]. intros E. pose proof (parse_printed n Hn) as H. rewrite E in H.
  vm_compute in H. by injection H.
Qed.

(** The kernel writes blanks and backslashes of a path as three octal digits. *)
Definition kernel_escape_byte (c : byte) : gostring :=
  if bool_decide (c ∈ [x20; x09; x0a; x5c])
  then [x5c; byte_of_Z (0x30 + byte_val c / 64); byte_of_Z (0x30 + byte_val c / 8 mod 8); byte_of_Z (0x30 + byte_val c mod 8)]
  else [c].
Definition kernel_escape (p : gostring) : gostring := concat (map kernel_escape_byte p).

Lemma unescape_escape p : unescapeMountInfoPath (kernel_escape p) = Some p.
Proof.
  induction p as [|c p IH]; [done|]. unfold kernel_escape in *. cbn [map concat]. unfold kernel_escape_byte at 1.
  case_bool_decide as Hc.
  - rewrite !elem_of_cons in Hc. destruct Hc as [->|[->|[->|[->|Hc]]]]; [..|by apply not_elem_of_nil in Hc];
      cbn [app unescapeMountInfoPath]; (rewrite bool_decide_true by done); cbn [negb]; rewrite IH; reflexivity.
  - cbn [app unescapeMountInfoPath]. rewrite bool_decide_false by set_solver. cbn [negb]. by rewrite IH.
Qed.

(** A line of the list: mount id, parent id, device, root, path and options; the type,
    the source and the options of the file system. *)
Record mount_entry := mkMountEntry {
  me_ids : gostring * gostring; me_major : Z; me_minor : Z; me_root : gostring;
  me_path : gostring; me_options : list gostring; me_type : gostring; me_rest : list gostring;
}.

Definition me_left (e : mount_entry) : list gostring :=
  [(me_ids e).1; (me_ids e).2; decimal 10 (me_major e) ++ str ":" ++ decimal 10 (me_minor e);
   me_root e; kernel_escape (me_path e)] ++ me_options e.
Definition me_right (e : mount_entry) : list gostring := me_type e :: me_rest e.
Definition me_line (e : mount_entry) : gostring :=
  join_sep x20 (me_left e) ++ str " - " ++ join_sep x20 (me_right e).
(** Each line with its end. *)
Definition mountinfo (es : list mount_entry) : gostring := concat (map (fun e => me_line e ++ [x0a]) es).

(** A word: not empty, one field for strings.Fields, not the separator. *)
Definition word_ok (w : gostring) : bool :=
  bool_decide (Fields w = [w]) && bool_decide (x20 ∉ w) && bool_decide (x0a ∉ w) && negb (bool_decide (w = str "-")).
Definition entry_ok (e : mount_entry) : bool :=
  forallb word_ok (me_left e ++ me_right e) &&
  (0 <=? me_major e) && (me_major e <? 2 ^ 32) && (0 <=? me_minor e) && (me_minor e <? 2 ^ 32).

(** The mount meant: a FUSE file system at the path. *)
Definition is_mount (mountpoint : gostring) (e : mount_entry) : bool :=
  isFuseFilesystem (me_type e) && bool_decide (me_path e = mountpoint) && (me_major e =? 0) && negb (me_minor e =? 0).

Lemma word_ok_spec w :
  word_ok w = true -> Fields w = [w] /\ x20 ∉ w /\ x0a ∉ w /\ w <> str "-" /\ w <> [].
Proof.
  unfold word_ok. rewrite !andb_true_iff, negb_true_iff, !bool_decide_eq_true, bool_decide_eq_false.
  intros [[[H1 H2] H3] H4]. split_and!; try done. by intros ->.
Qed.

Lemma Fields_join ws : forallb word_ok ws = true -> Fields (join_sep x20 ws) = ws.
Proof.
  induction ws as [|w ws IH]; [done|]. cbn [forallb]. rewrite andb_true_iff. intros [(Hw & _)%word_ok_spec Hws].
  destruct ws as [|w2 ws]; [done|]. change (join_sep x20 (w :: w2 :: ws)) with (w ++ x20 :: join_sep x20 (w2 :: ws)).
  by rewrite Fields_space, Hw, IH.
Qed.

Lemma join_no_line_end ws : forallb word_ok ws = true -> x0a ∉ join_sep x20 ws.
Proof.
  induction ws as [|w ws IH]; [intros _; apply not_elem_of_nil|]. cbn [forallb]. rewrite andb_true_iff.
  intros [(_ & _ & Hn & _)%word_ok_spec Hws]. destruct ws as [|w2 ws]; [done|].
  change (join_sep x20 (w :: w2 :: ws)) with (w ++ x20 :: join_sep x20 (w2 :: ws)).
  specialize (IH Hws). set_solver.
Qed.

Lemma Cut_skip w s sep :
  x20 ∉ w -> Cut (w ++ s) (x20 :: sep) = '(a, b) ← Cut s (x20 :: sep); Some (w ++ a, b).
Proof.
  induction w as [|c w IH]; intros Hw; [cbn [app]; by destruct (Cut s _) as [[]|]|].
  cbn [app Cut HasPrefix]. rewrite bool_decide_false by set_solver. cbn [andb].
  rewrite IH by set_solver. by destruct (Cut s _) as [[]|].
Qed.

Lemma Cut_here s sep : sep <> [] -> Cut (sep ++ s) sep = Some ([], s).
Proof.
  intros Hs. destruct sep as [|c sep]; [done|]. cbn [app Cut].
  assert (HasPrefix (c :: sep ++ s) (c :: sep) = true) as -> by (apply HasPrefix_spec; by exists s).
  change (c :: sep ++ s) with ((c :: sep) ++ s). by rewrite drop_app_length.
Qed.

(** A word is not a dash: no separator begins before it. *)
Lemma no_dash w s : word_ok w = true -> HasPrefix (x20 :: w ++ x20 :: s) (str " - ") = false.
Proof.
  intros (_ & Hsp & _ & Hd & Hn)%word_ok_spec. destruct w as [|c [|c2 w]]; [done|..]; cbn [app HasPrefix].
  - change (str " - ") with [x20; x2d; x20]. cbn [HasPrefix]. rewrite (bool_decide_false (x2d = c)) by (intros <-; by apply Hd).
    by rewrite andb_false_r.
  - change (str " - ") with [x20; x2d; x20]. cbn [HasPrefix]. rewrite (bool_decide_false (x20 = c2)) by set_solver.
    cbn [andb]. by rewrite !andb_false_r.
Qed.

Lemma join_head w ws s : exists t, join_sep x20 (w :: ws) ++ str " - " ++ s = w ++ x20 :: t.
Proof. destruct ws as [|w2 ws]; [by exists (x2d :: x20 :: s)|]. eexists. cbn [join_sep]. by rewrite <-app_assoc. Qed.

Lemma Cut_words w ws s :
  forallb word_ok (w :: ws) = true ->
  Cut (join_sep x20 (w :: ws) ++ str " - " ++ s) (str " - ") = Some (join_sep x20 (w :: ws), s).
Proof.
  revert w. induction ws as [|w2 ws IH]; intros w; cbn [forallb]; rewrite andb_true_iff; intros [Hw Hws];
    pose proof (word_ok_spec w Hw) as (_ & Hsp & _); change (str " - ") with ([x20; x2d; x20]) at 2.
  - rewrite Cut_skip by done. rewrite Cut_here by done. cbn. by rewrite app_nil_r.
  - change (join_sep x20 (w :: w2 :: ws)) with (w ++ x20 :: join_sep x20 (w2 :: ws)).
    rewrite <-app_assoc. rewrite Cut_skip by done. cbn [app Cut].
    assert (word_ok w2 = true) as Hw2 by (cbn [forallb] in Hws; by apply andb_true_iff in Hws as [? _]).
    specialize (IH w2 Hws). destruct (join_head w2 ws s) as [t Ht]. rewrite Ht in *.
    change ([x20; x2d; x20]) with (str " - ") in *. rewrite no_dash by done. rewrite IH. reflexivity.
Qed.

Lemma printed_no_colon n : x3a ∉ decimal 10 n.
Proof.
  generalize 10%nat. intros fuel. revert n. induction fuel as [|fuel IH]; intros n; cbn [decimal]; [apply not_elem_of_nil|].
  rewrite not_elem_of_app, list_elem_of_singleton. split; [case_match; [apply not_elem_of_nil|apply IH]|].
  intros E. apply (f_equal byte_val) in E. pose proof (Z.mod_pos_bound n 10 ltac:(lia)).
  rewrite byte_val_of_Z, Z.mod_small in E by lia. change (byte_val x3a) with 58 in E. lia.
Qed.

Lemma split_device major minor : SplitN2 (decimal 10 major ++ str ":" ++ decimal 10 minor) (str ":") = [decimal 10 major; decimal 10 minor].
Proof.
  unfold SplitN2. assert (forall w s, x3a ∉ w -> Cut (w ++ x3a :: s) [x3a] = Some (w, s)) as H.
  { induction w as [|c w IH]; intros s Hw; [apply (Cut_here s [x3a]); done|]. cbn [app Cut HasPrefix].
    rewrite bool_decide_false by set_solver. cbn [andb]. by rewrite IH by set_solver. }
  change (str ":" ++ decimal 10 minor) with (x3a :: decimal 10 minor). change (str ":") with [x3a].
  by rewrite H by apply printed_no_colon.
Qed.

Lemma mountinfo_line_entry e mountpoint :
  entry_ok e = true -> mountinfo_line (me_line e) mountpoint = if is_mount mountpoint e then Some (me_minor e) else None.
Proof.
  unfold entry_ok. rewrite !andb_true_iff, !Z.leb_le, !Z.ltb_lt. intros [[[[Hw H1] H2] H3] H4].
  rewrite forallb_app, andb_true_iff in Hw. destruct Hw as [Hl Hr].
  pose proof (Cut_words (me_ids e).1 (tl (me_left e)) (join_sep x20 (me_right e)) Hl) as HC.
  change ((me_ids e).1 :: tl (me_left e)) with (me_left e) in HC.
  assert (SplitN2 (me_line e) (str " - ") = [join_sep x20 (me_left e); join_sep x20 (me_right e)]) as E
    by (unfold SplitN2, me_line; by rewrite HC).
  clear HC.
  unfold mountinfo_line. rewrite E, !Fields_join by done. unfold is_mount. clear E Hl Hr.
  unfold me_left, me_right. cbn [app length Nat.ltb Nat.leb orb nth].
  destruct (isFuseFilesystem (me_type e)); [|done]. cbn [negb andb]. rewrite unescape_escape.
  destruct (bool_decide_reflect (me_path e = mountpoint)); [|done]. cbn [negb andb]. rewrite split_device.
  destruct (Z.eqb_spec (me_major e) 0) as [Hz|Hz].
  - rewrite bool_decide_true by (by apply decimal_zero). cbn [negb andb]. rewrite parse_printed by lia.
    by destruct (me_minor e =? 0).
  - rewrite bool_decide_false by (rewrite decimal_zero by lia; done). done.
Qed.

(** Reading the kernel's list of mounts is the lookup it stands for: of a list
    written as the kernel writes it (blanks and backslashes of a path as octal
    digits, any number of options), with any number of mounts, the id found is the
    device number of the first FUSE file system mounted at that path, and nothing is
    found exactly if there is none; no line makes it fail. *)
Theorem mountinfo_lookup (es : list mount_entry) (mountpoint : gostring) :
  forallb entry_ok es = true ->
  fuseConnectionIDFromMountInfo (mountinfo es) mountpoint = me_minor <$> List.find (is_mount mountpoint) es.
Proof.
  unfold fuseConnectionIDFromMountInfo. induction es as [|e es IH]; [done|]. cbn [forallb]. rewrite andb_true_iff.
  intros [He Hes]. unfold mountinfo in *. cbn [map concat List.find]. rewrite <-app_assoc. cbn [app].
  rewrite Split_app, Split_no_sep.
  - cbn [app mountinfo_loop]. rewrite mountinfo_line_entry by done. destruct (is_mount mountpoint e); [done|]. by apply IH.
  - unfold entry_ok in He. rewrite !andb_true_iff, forallb_app, andb_true_iff in He.
    destruct He as [[[[[Hl Hr] _] _] _] _]. unfold me_line. apply join_no_line_end in Hl, Hr.
    rewrite !not_elem_of_app. split_and!; [done|apply (bool_decide_unpack _); by vm_compute|done].
Qed.

(** ** Witnesses *)

Definition demo_compare (a b : gostring) : comparison := if bool_decide (a = b) then Matches else Mismatched.
Definition demo_url : URL := mkURL (str "wss") None (str "h") [] [] [] [] [].
#[export] Instance demo_net : NetUrl := {|
  url_Parse := fun _ => Some demo_url; url_String := fun _ => str "wss://h"; Sum256_hex := fun _ => str "00";
|}.
(** A server that still holds the old connection for two attempts. *)
Definition demo_rsp (status : Z) : http_response := mkRsp status (fun _ => []) (Ok []).
Definition demo_answer (e : mev) (n : nat) : mans e * nat :=
  match e return mans e * nat with
  | WsDial _ => (if (n <? 2)%nat then NotConnected (Some (demo_rsp 412)) else Connected 7 WSSubprotocol (demo_rsp 101), Datatypes.S n)
  | FuseMount _ => (Ok tt, n)
  | Sleep _ | Log _ | SessionStart _ _ => (tt, n)
  end.

Lemma credentials_arrive_witness :
  x3a ∉ str "ann" /\
  httpBasicAuth demo_compare (<[str "ann" := mkStorageUser (str "ann") (str "p:w") false (str "/srv")]> ∅)
    (received (str "GET") (str "/") (fun _ => false) (dial_header (str "ann") (str "p:w") (str "id"))) =
  authUser demo_compare (<[str "ann" := mkStorageUser (str "ann") (str "p:w") false (str "/srv")]> ∅) (str "ann") (str "p:w").
Proof.
  assert (x3a ∉ str "ann") as H by (apply (bool_decide_unpack _); vm_compute; exact I).
  split; [exact H|].
  destruct (credentials_arrive demo_compare (<[str "ann" := mkStorageUser (str "ann") (str "p:w") false (str "/srv")]> ∅)
    (str "GET") (str "/") (fun _ => false) (str "ann") (str "p:w") (str "id") H) as [E _].
  exact E.
Defined.

Lemma redial_bounded_witness :
  unixSocketUrl (str "wss://h") = Ok (false, [], str "wss://h") /\
  run demo_answer (reDialFunc (str "wss://h") [] [] (str "id") []) 0%nat = (Done (Ok (Some 7%nat)), 3%nat) /\
  exists r st' log,
    run (with_log demo_answer) (reDialFunc (str "wss://h") [] [] (str "id") []) (0%nat, []) = (Done r, (st', log)) /\
    (length (dials log) <= 30)%nat.
Proof.
  assert (unixSocketUrl (str "wss://h") = Ok (false, [], str "wss://h")) as H by (vm_compute; reflexivity).
  split; [exact H|]. split; [vm_compute; reflexivity|].
  destruct (redial_bounded demo_answer (str "wss://h") [] [] (str "id") [] (false, [], str "wss://h") 0%nat H)
    as (r & st' & log & Hr & _ & Hl & _).
  exists r, st', log. split; [exact Hr|exact Hl].
Defined.

Definition demo_entry (path : gostring) (minor : Z) (type : gostring) : mount_entry :=
  mkMountEntry (str "42", str "1") 0 minor (str "/") path [str "rw,nosuid"; str "shared:1"] type [str "wsfs"; str "rw"].
Definition demo_mounts : list mount_entry :=
  [demo_entry (str "/mnt/wsfs test") 76 (str "ext4"); demo_entry (str "/mnt/wsfs test/child") 78 (str "fuse.wsfs");
   demo_entry (str "/mnt/wsfs test") 77 (str "fuse.wsfs")].

Lemma mountinfo_lookup_witness :
  forallb entry_ok demo_mounts = true /\
  fuseConnectionIDFromMountInfo (mountinfo demo_mounts) (str "/mnt/wsfs test") = Some 77.
Proof.
  assert (forallb entry_ok demo_mounts = true) as H by (vm_compute; reflexivity).
  split; [exact H|]. refine (eq_trans (mountinfo_lookup demo_mounts (str "/mnt/wsfs test") H) _). vm_compute. reflexivity.
Defined.

(** Of two file systems mounted over each other the lower one is found, which is not
    the one that was mounted last. *)
Example lower_mount_found :
  fuseConnectionIDFromMountInfo (mountinfo [demo_entry (str "/m") 77 (str "fuse.wsfs"); demo_entry (str "/m") 78 (str "fuse.wsfs")])
    (str "/m") = Some 77.
Proof. vm_compute. reflexivity. Qed.

(** The kernel does not escape the spaces of other scripts: such a path is not found. *)
Example wide_space_lost :
  fuseConnectionIDFromMountInfo (mountinfo [demo_entry (str "/m" ++ [xe3; x80; x80] ++ str "x") 77 (str "fuse.wsfs")])
    (str "/m" ++ [xe3; x80; x80] ++ str "x") = None.
Proof. vm_compute. reflexivity. Qed.
