(* ===== verification/CommandLineThms.v ===== *)
(** * What the commands promise

    Whatever the terminal, the environment and the file system answer: quick-serve
    serves either one user with the password that was given or, without a user name,
    everybody, and nobody else; mount mounts the server of the URL with its user and
    password; a password is read to the end of its line. *)
From S2P Require Import Prelude GoIO Prog Paths ServerEnv ServerHttp ServerWebdav ServerWebui ServerHub ClientFuse ClientMount ClientWait CommandLine.

(** ** Runs and their logs *)

Abbreviation clog := (list (@log_entry cev cans)).

(** Each request of the log satisfies [Pre] of the log before it. *)
Definition log_ok (Pre : clog -> cev -> Prop) (log : clog) : Prop :=
  forall before x after, log = before ++ x :: after -> Pre before (projT1 x).

Lemma log_ok_snoc Pre log x : log_ok Pre log -> Pre log (projT1 x) -> log_ok Pre (log ++ [x]).
Proof.
  intros Hl Hx before y after. destruct after as [|z after _] using rev_ind; intros E.
  - apply app_inj_tail in E as [-> ->]. done.
  - rewrite app_comm_cons, app_assoc in E. apply app_inj_tail in E as [E ->]. by eapply Hl.
Qed.

(** The environment that answers anything and keeps the log. *)
Definition log_env (Pre : clog -> cev -> Prop) : @env cev cans :=
  mkEnv clog Pre (fun log e r log' => log' = log ++ [existT e r]).

Lemma run_log {A S} (sys : forall e, S -> cans e * S) (Pre : clog -> cev -> Prop) (p : CLP A) Q st log :
  wp false (log_env Pre) p log Q -> log_ok Pre log ->
  match run (with_log sys) p (st, log) with
  | (Done a, (_, log')) => log_ok Pre log' /\ Q a log'
  | (Panicked, _) => False
  | (OutOfFuel, (_, log')) => log_ok Pre log'
  end.
Proof.
  revert st log. induction p as [a|e k IH| |]; intros st log Hw Hl; [done| |done|done].
  destruct Hw as [Hp Hk]. cbn [run with_log]. apply IH; [by apply Hk|by apply log_ok_snoc].
Qed.

(** ** Passwords *)

(** All that was read from the standard input. *)
Definition stdin_bytes (log : clog) : gostring :=
  omap (fun x : @log_entry cev cans =>
          match x with existT e r => match e return cans e -> option byte with StdinRead => fun r => r | _ => fun _ => None end r end) log.
Definition in_log (log : clog) (e : cev) (r : cans e) : Prop := existT e r ∈ log.

(** A carriage return or a line feed. *)
Definition is_eol (b : byte) : Prop := b = x0d \/ b = x0a.

(** [data] without the line ends at its end. *)
Definition trimmed (data p : gostring) : Prop :=
  exists eols, data = p ++ eols /\ Forall is_eol eols /\ (forall q b, p = q ++ [b] -> ~ is_eol b).

(** What --password gave, by the log of the requests of the whole command: the bytes of
    the standard input from its first one to the first line end, all of them. *)
Inductive source_gave (log : clog) : gostring -> gostring -> Prop :=
| gave_env name p : name <> [] -> in_log log (LookupEnv name) (Some p) -> source_gave log (str "env:" ++ name) p
| gave_file path data p : path <> [] -> in_log log (ReadFile path) (Some data) -> trimmed data p ->
    source_gave log (str "file:" ++ path) p
| gave_terminal data p : in_log log TermReadPassword (Some data) -> trimmed data p -> source_gave log (str "stdin") p
| gave_line line c rest :
    stdin_bytes log = line ++ c :: rest -> is_eol c -> Forall (fun b => ~ is_eol b) line -> source_gave log (str "stdin") line.

Lemma line_end_spec b : b ∈ line_end <-> is_eol b.
Proof. unfold line_end, is_eol. set_solver. Qed.

Lemma trim_set_spec cutset s :
  exists cut, s = cut ++ trim_set cutset s /\ Forall (fun b => b ∈ cutset) cut /\
    (forall b q, trim_set cutset s = b :: q -> b ∉ cutset).
Proof.
  induction s as [|c s (cut & H1 & H2 & H3)]; [by exists []|]. cbn [trim_set]. case_bool_decide as Hc.
  - exists (c :: cut). cbn [app]. rewrite <-H1. split_and!; [done|by constructor|done].
  - exists []. split_and!; [done|constructor|]. by intros b q [= <- <-].
Qed.

Lemma TrimRight_trimmed data : trimmed data (TrimRight data line_end).
Proof.
  destruct (trim_set_spec line_end (rev data)) as (cut & H1 & H2 & H3). exists (rev cut). unfold TrimRight. split_and!.
  - by rewrite <-rev_app_distr, <-H1, rev_involutive.
  - apply Forall_rev. eapply Forall_impl; [exact H2|]. intros b. apply line_end_spec.
  - intros q b E Hb. apply (f_equal (@rev byte)) in E. rewrite rev_involutive, rev_app_distr in E.
    apply (H3 _ _ E). by apply line_end_spec.
Qed.

Lemma trim_set_none cutset s : Forall (fun b => b ∉ cutset) s -> trim_set cutset s = s.
Proof. destruct 1; [done|]. cbn [trim_set]. by rewrite bool_decide_false. Qed.
Lemma TrimRight_none cutset s : Forall (fun b => b ∉ cutset) s -> TrimRight s cutset = s.
Proof. intros H. unfold TrimRight. rewrite trim_set_none by (by apply Forall_rev). apply rev_involutive. Qed.

Lemma stdin_bytes_app a b : stdin_bytes (a ++ b) = stdin_bytes a ++ stdin_bytes b.
Proof. apply omap_app. Qed.

(** More requests after the log, and before it some that do not read the standard input,
    change nothing of what was given. *)
Lemma source_gave_frame before log new v p :
  stdin_bytes before = [] -> source_gave log v p -> source_gave (before ++ log ++ new) v p.
Proof.
  intros Hb H. assert (forall e r, in_log log e r -> in_log (before ++ log ++ new) e r) as Hin by (unfold in_log; set_solver).
  destruct H as [name p' H1 H2|path data p' H1 H2 H3|data p' H1 H2|line c rest Hl Hc Hn].
  - constructor; [done|by apply Hin].
  - eapply gave_file; [done|by apply Hin|done].
  - eapply gave_terminal; [by apply Hin|done].
  - eapply (gave_line _ _ c (rest ++ stdin_bytes new)); [|done|done].
    rewrite !stdin_bytes_app, Hb, Hl, <-app_assoc. done.
Qed.

(** The password of a command: that of the URL, or of --password. *)
Definition secret (log : clog) (urlPassword flag : option gostring) (p : gostring) : Prop :=
  match flag with Some v => urlPassword = None /\ source_gave log v p | None => p = default [] urlPassword end.
Lemma secret_frame before log new u f p :
  stdin_bytes before = [] -> secret log u f p -> secret (before ++ log ++ new) u f p.
Proof. unfold secret. destruct f; [|done]. intros Hb [? ?]. split; [done|by apply source_gave_frame]. Qed.

(** The password quick-serve hashes: the one given, or one that is made up and printed. *)
Definition hashed (log : clog) (username p q : gostring) : Prop :=
  if bool_decide (p = []) then in_log log (RandomString 10) q /\ in_log log (PrintPassword username q) tt else q = p.

Definition has_user (log : clog) (username : gostring) (urlPassword flag : option gostring) (u : config_User) : Prop :=
  exists p q hash, secret log urlPassword flag p /\ hashed log username p q /\
    in_log log (GenerateFromPassword q 10) (Some hash) /\ u = mkConfigUser username hash false storageId.

Lemma has_user_frame before log new username up flag u :
  stdin_bytes before = [] -> has_user log username up flag u -> has_user (before ++ log ++ new) username up flag u.
Proof.
  intros Hb (p & q & hash & H1 & H2 & H3 & ->). exists p, q, hash. unfold hashed, in_log in *.
  split_and!; [by apply secret_frame| |set_solver|done]. case_bool_decide; set_solver.
Qed.

Section Spec.
(** [Pre] restricts what the commands do in the end, not what they ask before. *)
Context (Pre : clog -> cev -> Prop).
Definition plain_request (e : cev) : Prop :=
  match e with HubRun _ | MountCall _ _ _ _ _ _ => False | _ => True end.
Context (Hfree : forall log e, plain_request e -> Pre log e).

Abbreviation cwp p log Q := (wp false (log_env Pre) p log Q).
(** What a part of a command promises of its result and of the log, which it extends
    by plain requests. *)
Definition extends {A} (log : clog) (Q : A -> clog -> Prop) (a : A) (log' : clog) : Prop :=
  exists new, log' = log ++ new /\ Forall (fun x => plain_request (projT1 x)) new /\ Q a new.

Lemma cwp_ask {A} e (k : cans e -> CLP A) log (Q : A -> clog -> Prop) :
  plain_request e ->
  (forall r, cwp (k r) (log ++ [existT e r]) (extends (log ++ [existT e r]) (fun a new => Q a (existT e r :: new)))) ->
  cwp (cask e ≫= k) log (extends log Q).
Proof.
  intros He Hk. split; [by apply Hfree|]. intros r ? ->. eapply wp_mono; [apply Hk|].
  intros a log' (new & -> & Hn & H). exists (existT e r :: new). rewrite <-app_assoc. split; [done|]. split; [by constructor|done].
Qed.

Lemma cwp_bind {A B} (p : CLP A) (k : A -> CLP B) log (P : A -> clog -> Prop) (Q : B -> clog -> Prop) :
  cwp p log (extends log P) ->
  (forall a new, P a new -> cwp (k a) (log ++ new) (extends (log ++ new) (fun b new' => Q b (new ++ new')))) ->
  cwp (p ≫= k) log (extends log Q).
Proof.
  intros Hp Hk. eapply wp_bind_mono; [exact Hp|]. intros a ? (new & -> & Hn & HP). eapply wp_mono; [by apply Hk|].
  intros b ? (new' & -> & Hn' & HQ). exists (new ++ new'). rewrite app_assoc. split; [done|]. split; [by apply Forall_app|done].
Qed.

Lemma cwp_ret {A} (a : A) log (Q : A -> clog -> Prop) : Q a [] -> cwp (mret a) log (extends log Q).
Proof. intros H. exists []. rewrite app_nil_r. split; [done|]. by split; [constructor|]. Qed.

(** What one read of a password gives. *)
Definition gives (v : gostring) (r : result cl_err gostring) (new : clog) : Prop :=
  match r with Ok p => source_gave new v p | Err _ => True end.

Lemma stdin_loop_spec fuel pwd log :
  cwp (stdin_loop fuel pwd) log (extends log (fun r new =>
    match r with
    | Ok p => exists line c rest, stdin_bytes new = line ++ c :: rest /\ p = pwd ++ line /\ is_eol c /\ Forall (fun b => ~ is_eol b) line
    | Err _ => True
    end)).
Proof.
  revert pwd log. induction fuel as [|fuel IH]; intros pwd log; [done|]. cbn [stdin_loop].
  apply cwp_ask; [done|]. intros [b|]; [|by apply cwp_ret].
  destruct (bool_decide (b = x0d) || bool_decide (b = x0a)) eqn:E.
  - assert (is_eol b) as Hb.
    { apply orb_true_iff in E as [E%bool_decide_eq_true|E%bool_decide_eq_true]; [by left|by right]. }
    eapply (cwp_bind _ _ _ (fun _ _ => True)).
    + destruct (bool_decide (b = x0d)); [|by apply cwp_ret]. apply cwp_ask; [done|]. intros r. by apply cwp_ret.
    + intros _ new _. apply cwp_ret. exists [], b, (stdin_bytes new). rewrite !app_nil_r. split_and!; [reflexivity|done|done|constructor].
  - assert (~ is_eol b) as Hb.
    { apply orb_false_iff in E as [E1%bool_decide_eq_false E2%bool_decide_eq_false]. by intros [?|?]. }
    eapply wp_mono; [apply IH|]. intros r ? (new & -> & Hp & H). exists new. split; [done|]. split; [done|]. destruct r as [p|]; [|done].
    destruct H as (line & c & rest & Hs & -> & Hc & Hl). exists (b :: line), c, rest.
    split_and!; [|by rewrite <-app_assoc|done|by constructor].
    change (stdin_bytes (existT StdinRead (Some b) :: new)) with (b :: stdin_bytes new). by rewrite Hs.
Qed.

Lemma readStdin_spec fuel log : cwp (readStdin fuel) log (extends log (gives (str "stdin"))).
Proof.
  unfold readStdin. apply cwp_ask; [done|]. intros [|].
  - eapply (cwp_bind _ _ _ (fun r new => match r with Ok d => in_log new TermReadPassword (Some d) | Err _ => True end)).
    + apply cwp_ask; [done|]. intros [d|]; apply cwp_ret; [by left|done].
    + intros [d|e] new H; apply cwp_ret; [|done]. cbn. rewrite app_nil_r.
      apply (gave_terminal _ d); [by right|apply TrimRight_trimmed].
  - eapply cwp_bind; [apply stdin_loop_spec|]. intros [p|e] new H; apply cwp_ret; [|done].
    destruct H as (line & c & rest & Hs & -> & Hc & Hl). cbn [gives app].
    rewrite TrimRight_none by (eapply Forall_impl; [exact Hl|]; intros b' Hb' Hin; by apply Hb', line_end_spec).
    eapply gave_line; [|done|done]. cbn. rewrite app_nil_r. exact Hs.
Qed.

Lemma SplitN2_colon s a b : SplitN2 s (str ":") = [a; b] -> s = a ++ str ":" ++ b.
Proof.
  unfold SplitN2. destruct (Cut s (str ":")) as [[x y]|] eqn:E; [|done]. intros [= <- <-].
  revert x E. induction s as [|c s IH]; intros x E; [done|]. cbn [Cut] in E.
  change (str ":") with [x3a] in *. cbn [HasPrefix] in E.
  assert (HasPrefix s [] = true) as Hn by (by destruct s). rewrite Hn, andb_true_r in E.
  destruct (bool_decide_reflect (x3a = c)) as [<-|Hc]; [by injection E as <- <-|].
  destruct (Cut s [x3a]) as [[x' y']|] eqn:E'; [|done]. injection E as <- <-. cbn [app]. f_equal. by apply IH.
Qed.

Lemma readSource_spec fuel v log : cwp (readSource fuel v) log (extends log (gives v)).
Proof.
  unfold readSource. case_bool_decide as Hv; [subst; apply readStdin_spec|].
  destruct (SplitN2 v (str ":")) as [|k [|a [|]]] eqn:E; try by apply cwp_ret.
  apply SplitN2_colon in E as ->.
  case_bool_decide as Hk; [subst k|case_bool_decide as Hk2; [subst k|by apply cwp_ret]].
  - unfold readEnv. case_bool_decide as Ha; [by apply cwp_ret|]. apply cwp_ask; [done|].
    intros [p|]; apply cwp_ret; [|done]. apply (gave_env _ a); [done|by left].
  - unfold readFile. case_bool_decide as Ha; [by apply cwp_ret|]. apply cwp_ask; [done|].
    intros [d|]; apply cwp_ret; [|done]. apply (gave_file _ a d); [done|by left|apply TrimRight_trimmed].
Qed.

Lemma password_spec fuel u has flag log :
  cwp (password_Resolve fuel u has flag) log (extends log (fun r new =>
    match r with Ok p => secret new u flag p /\ (is_Some flag -> has = true) | Err _ => True end)).
Proof.
  unfold password_Resolve. destruct flag as [v|]; [|apply cwp_ret; cbn; split; [done|by intros []]].
  destruct has; cbn [negb]; [|by apply cwp_ret]. destruct u as [p|]; [by apply cwp_ret|].
  eapply wp_mono; [apply readSource_spec|]. intros [p|e] ? (new & -> & Hp & H); exists new; (split; [done|]); (split; [done|]); [|done].
  cbn. done.
Qed.

Lemma quick_user_spec fuel username up flag config log :
  cwp (quick_user fuel username up flag config) log (extends log (fun r new =>
    match r with Ok c => exists u, has_user new username up flag u /\ c = add_user u config | Err _ => True end)).
Proof.
  unfold quick_user. eapply cwp_bind; [apply password_spec|]. intros [p|e] new H; [|by apply cwp_ret].
  destruct H as [Hs _].
  eapply (cwp_bind _ _ _ (fun q new => hashed new username p q)).
  { unfold hashed. case_bool_decide; [|by apply cwp_ret]. apply cwp_ask; [done|]. intros q.
    apply cwp_ask; [done|]. intros []. apply cwp_ret. split; [by left|right; by left]. }
  intros q new' Hq. apply cwp_ask; [done|]. intros [hash|]; apply cwp_ret; [|done].
  eexists. split; [|done]. exists p, q, hash. split_and!; [by apply (secret_frame [])| | |done].
  - unfold hashed, in_log in *. case_bool_decide; set_solver.
  - unfold in_log. set_solver.
Qed.

End Spec.

Section Quick.
Context {nu : NetUrl}.

(** The argument as a URL: one without two slashes is a host. *)
Definition arg_url (arg : gostring) (u : URL) : Prop :=
  ((exists a b, arg = a ++ str "//" ++ b) /\ url_Parse arg = Some u) \/
  (~ (exists a b, arg = a ++ str "//" ++ b) /\ url_Parse (str "//" ++ arg) = Some u).

Lemma with_slashes_url arg u : url_Parse (with_slashes arg) = Some u <-> arg_url arg u.
Proof.
  unfold with_slashes, arg_url. rewrite <-Contains_spec. destruct (Contains arg (str "//")); split; [by left| |by right|];
    intros [[? H]|[? H]]; done.
Qed.

(** The URL of an argument with a user name. *)
Definition named (args : list gostring) : option URL :=
  match args with
  | [] => None
  | arg :: _ =>
      match ParseUint (TrimSpace arg) 10 16 with
      | Some _ => None
      | None => u ← url_Parse (with_slashes (TrimSpace arg)); if bool_decide (Username u = []) then None else Some u
      end
  end.

(** It is the argument read as a URL, when it is no port and has a user name. *)
Definition names_user (args : list gostring) (u : URL) : Prop :=
  exists arg rest name password, args = arg :: rest /\ ParseUint (TrimSpace arg) 10 16 = None /\
    arg_url (TrimSpace arg) u /\ u_User u = Some (name, password) /\ name <> [].

Lemma named_spec args u : named args = Some u <-> names_user args u.
Proof.
  unfold named, names_user. destruct args as [|arg rest]; [split; [done|by intros (? & ? & ? & ? & ? & _)]|]. split.
  - destruct (ParseUint _ _ _) eqn:Ep; [done|]. destruct (url_Parse _) as [v|] eqn:Ev; [|done]. cbn [mbind option_bind].
    case_bool_decide as Hn; [done|]. intros [= <-]. unfold Username in Hn. destruct (u_User v) as [[name pw]|] eqn:Eu; [|done].
    exists arg, rest, name, pw. split_and!; try done. by apply with_slashes_url.
  - intros (arg' & rest' & name & pw & [= <- <-] & -> & ->%with_slashes_url & Eu & Hn). cbn [mbind option_bind].
    unfold Username. rewrite Eu. by rewrite bool_decide_false.
Qed.

(** Whom the configuration lets in: the user of the argument, or everybody. *)
Definition lets_in (log : clog) (flag : option gostring) (user : option URL) (c : config_Server) : Prop :=
  match user with
  | Some u => exists cu, has_user log (Username u) (Password u) flag cu /\ Username u <> [] /\ sc_Users c = [cu]
  | None => sc_Users c = [] /\ flag = None
  end.

(** What quick-serve does not change of its configuration. *)
Definition same_rest (c c' : config_Server) : Prop :=
  sc_Storages c' = sc_Storages c /\ sc_Anonymous c' = sc_Anonymous c /\ sc_FsIds c' = sc_FsIds c.

Section Parse.
Context (Pre : clog -> cev -> Prop) (Hfree : forall log e, plain_request e -> Pre log e).

Lemma parseArg_spec fuel config flag arg log :
  sc_Users config = [] ->
  wp false (log_env Pre) (parseArg fuel config flag arg) log (extends log (fun r new =>
    match r with Ok c => lets_in new flag (named [arg]) c /\ same_rest config c | Err _ => True end)).
Proof.
  intros Hu. unfold parseArg, named, lets_in, same_rest.
  destruct (ParseUint (TrimSpace arg) 10 16); [destruct flag; apply cwp_ret; done|].
  destruct (url_Parse (with_slashes (TrimSpace arg))) as [u|]; [|by apply cwp_ret]. cbn [mbind option_bind].
  destruct (if bool_decide (map lower _ ∈ _) then _ else _) as [network|]; [|by apply cwp_ret].
  destruct (bool_decide_reflect (Username u = [])) as [He|He].
  - destruct flag; apply cwp_ret; done.
  - eapply cwp_bind; [apply quick_user_spec; exact Hfree|]. intros [c|e] new H; apply cwp_ret; [|done].
    destruct H as (cu & H & ->). split; [|done]. exists cu. cbn. rewrite app_nil_r, Hu. done.
Qed.
End Parse.

(** A configuration quick-serve may run the hub with, after [log]. *)
Definition quick_ok (f : quick_flags) (args : list gostring) (log : clog) (c : config_Server) : Prop :=
  (exists path, sc_Storages c = [mkConfigStorage storageId path false] /\
     match qf_storage f with Some p => path = p | None => in_log log Getwd (Some path) end) /\
  sc_FsIds c = mkOptionalFsIds (ff_uid (qf_fsids f)) (ff_gid (qf_fsids f)) (ff_otherUid (qf_fsids f)) (ff_otherGid (qf_fsids f)) /\
  lets_in log (qf_password f) (named args) c /\
  sc_Anonymous c = (if named args is Some _ then mkConfigAnonymous false true storageId else mkConfigAnonymous true false storageId).

Definition quick_pre (f : quick_flags) (args : list gostring) (log : clog) (e : cev) : Prop :=
  match e with HubRun c => quick_ok f args log c | MountCall _ _ _ _ _ _ => False | _ => True end.

Lemma quick_free f args log e : plain_request e -> quick_pre f args log e.
Proof. by destruct e. Qed.

Lemma lets_in_frame before log new flag user c :
  stdin_bytes before = [] -> lets_in log flag user c -> lets_in (before ++ log ++ new) flag user c.
Proof. unfold lets_in. destruct user; [|done]. intros Hb (cu & H & Hn). exists cu. split; [by apply has_user_frame|done]. Qed.

Lemma hub_run_spec (Pre : clog -> cev -> Prop) c reloads log :
  (forall log e, plain_request e -> Pre log e) -> (forall new, Pre (log ++ new) (HubRun c)) ->
  wp false (log_env Pre) (hub_run c reloads) log (fun _ _ => True).
Proof.
  intros Hfree Hc. unfold hub_run. split; [by apply Hfree|]. intros [|] ? ->; cbn [negb]; [|done].
  assert (forall new, wp false (log_env Pre) (cask (SetupSignals reloads) ;; err ← cask (HubRun c);
     mret match err with RunError => exit_New 1 (Some ErrRun) | RunNil | RunServerClosed => None end)
     (log ++ new) (fun _ _ => True)) as H.
  { intros new. split; [by apply Hfree|]. intros [] ? ->. split; [rewrite <-app_assoc; apply Hc|]. by intros []. }
  destruct reloads; [|apply H]. split; [by apply Hfree|]. intros [] ? ->. rewrite <-app_assoc. apply H.
Qed.

Lemma quick_spec fuel f args :
  wp false (log_env (quick_pre f args)) (QuickServeCmd fuel f args) [] (fun _ _ => True).
Proof.
  pose proof (quick_free f args) as Hfree. unfold QuickServeCmd.
  set (P := fun (r : result cl_err config_Server) new => stdin_bytes new = [] /\ match r with
    | Ok c => exists path, c = set_anonymous (mkConfigAnonymous false true storageId) (add_storage (mkConfigStorage storageId path false) Default) /\
        match qf_storage f with Some p => path = p | None => in_log new Getwd (Some path) end
    | Err _ => True end).
  eapply (wp_bind_mono false (log_env (quick_pre f args)) _ _ _ (extends [] P)).
  { unfold configStorage. destruct (qf_storage f) as [s|] eqn:E.
    - apply cwp_ret. unfold P. rewrite ?E. split; [done|]. by exists s.
    - apply (cwp_ask _ Hfree); [done|]. intros [s|]; apply cwp_ret; unfold P; [|done]. rewrite ?E. split; [done|]. exists s. split; [done|by left]. }
  intros [c|e] ? (new & -> & _ & Hin & H); [|done]. destruct H as (path & -> & Hp). cbn [app].
  set (c0 := configIDs _ _).
  set (R := fun (r : result cl_err config_Server) new => match r with
    | Ok c => lets_in new (qf_password f) (named args) c /\ same_rest c0 c | Err _ => True end).
  eapply (wp_bind_mono false (log_env (quick_pre f args)) _ _ _ (extends new R)).
  { destruct args as [|arg args].
    - destruct (qf_password f) eqn:E; apply cwp_ret; unfold R; [done|]. by rewrite ?E.
    - eapply wp_mono; [by apply parseArg_spec|]. done. }
  intros [c|e] ? (new' & -> & _ & H); [|done]. destruct H as [Hl (Hs & Ha & Hi)].
  apply hub_run_spec; [exact Hfree|]. intros new''. unfold quick_pre, quick_ok.
  assert (forall c', sc_Storages c' = sc_Storages c -> sc_FsIds c' = sc_FsIds c ->
    (exists path, sc_Storages c' = [mkConfigStorage storageId path false] /\
     match qf_storage f with Some p => path = p | None => in_log ((new ++ new') ++ new'') Getwd (Some path) end) /\
    sc_FsIds c' = fsid_options (qf_fsids f)) as Hrest.
  { intros c' E1 E2. rewrite E1, E2, Hs, Hi. split; [|done]. exists path. split; [done|].
    destruct (qf_storage f); [done|]. unfold in_log in *. set_solver. }
  pose proof (lets_in_frame new new' new'' _ _ _ Hin Hl) as Hl'. rewrite app_assoc in Hl'.
  destruct (named args) as [u|] eqn:E.
  - destruct Hl as (cu & _ & _ & Hus). rewrite Hus. cbn [length Nat.eqb].
    destruct (Hrest c eq_refl eq_refl) as [? ?]. by rewrite Ha.
  - destruct Hl as [Hus _]. rewrite Hus. cbn [length Nat.eqb].
    destruct (Hrest (set_anonymous (mkConfigAnonymous true false (ca_Storage (sc_Anonymous c))) c) eq_refl eq_refl) as [? ?].
    split_and!; [done|done|done|]. cbn. by rewrite Ha.
Qed.

(** C19: Whom quick-serve lets in, whatever the terminal, the environment, the file
    system and bcrypt answer. If the argument, read as a URL, names a user, the hub runs with that user
    alone, whose hash was made of the password of the URL or of --password (never of
    both), or of one that was made up and printed if that is empty; anonymous access
    stays off. The password of --password is the whole value of the variable, the file
    without the line ends at its end, what the terminal gave without them, or all bytes
    of the standard input before the first line end. Without a user name everybody may
    read and write, and --password is refused. The only storage of the configuration is
    the chosen directory, with the ids that were asked for, and the server accepts the
    configuration as it is. The command does not panic. (What the web interface of this
    configuration serves besides the storage is custom_resources_leak.) *)
Theorem quick_serve_access {S} (sys : forall e, S -> cans e * S) (fuel : nat) (f : quick_flags) (args : list gostring)
    (st : S) (cwd : gostring) :
  let '(o, (_, log)) := run (with_log sys) (QuickServeCmd fuel f args) (st, []) in
  o <> Panicked /\
  (forall u, named args = Some u <-> names_user args u) /\
  forall before c r after, log = before ++ existT (HubRun c) r :: after ->
    quick_ok f args before c /\
    exists path,
      NewUsers cwd (sc_Storages c) (sc_Users c) (sc_Anonymous c) =
      Ok (match named args with
          | Some u => ({[Username u := mkStorageUser (Username u)
                           (match sc_Users c with cu :: _ => cu_SecretHash cu | [] => [] end) false (NewStorage_Path cwd path)]}, None)
          | None => (∅, Some (mkStorageUser (str "<anonymous>") [] false (NewStorage_Path cwd path)))
          end).
Proof.
  pose proof (run_log sys (quick_pre f args) (QuickServeCmd fuel f args) _ st [] (quick_spec fuel f args)) as H.
  destruct (run _ _ _) as [o [st' log]].
  assert (o <> Panicked /\ log_ok (quick_pre f args) log) as [Ho Hlog].
  { assert (log_ok (quick_pre f args) []) as H0 by (intros before x after E; by destruct before).
    specialize (H H0). destruct o; [|done|]; (split; [done|apply H]). }
  split; [done|]. split; [intros u; apply named_spec|]. intros before c r after E. pose proof (Hlog _ _ _ E) as Hc. cbn in Hc. split; [done|].
  destruct Hc as ((path & Hs & _) & _ & Hl & Ha). exists path. rewrite Hs, Ha. unfold NewUsers. cbn [collect_storages cs_Id].
  rewrite lookup_empty. destruct (named args) as [u|].
  - destruct Hl as (cu & (p & q & hash & _ & _ & _ & ->) & Hn & ->). cbn [collect_users cu_Name cu_SecretHash cu_ReadOnly cu_Storage].
    rewrite lookup_empty, bool_decide_false by done. rewrite lookup_insert_eq. reflexivity.
  - destruct Hl as [-> _]. cbn [collect_users ca_Enable ca_Storage ca_ReadOnly]. rewrite lookup_insert_eq. reflexivity.
Qed.
End Quick.

(** ** Mounting *)

(** What a program of the hub returns. *)
Fixpoint hub_post {A} (p : HP A) (Q : A -> Prop) : Prop :=
  match p with Ret a => Q a | Vis e k => forall r, hub_post (k r) Q | Panic => False | Diverge => True end.
Lemma hub_post_bind {A B} (p : HP A) (k : A -> HP B) Q : hub_post p (fun a => hub_post (k a) Q) -> hub_post (p ≫= k) Q.
Proof. induction p as [a|e c IH| |]; intros H; [exact H|intros r; by apply IH|done|done]. Qed.
Lemma hub_post_mono {A} (p : HP A) (Q Q' : A -> Prop) : (forall a, Q a -> Q' a) -> hub_post p Q -> hub_post p Q'.
Proof. intros HQ. induction p as [a|e c IH| |]; intros H; [by apply HQ|intros r; by apply IH|done|done]. Qed.

Lemma of_hub_spec {A} Pre (Hfree : forall log e, plain_request e -> Pre log e) (p : HP A) (Q : A -> Prop) log :
  hub_post p Q -> wp false (log_env Pre) (of_hub p) log (extends log (fun a new => Q a /\ stdin_bytes new = [])).
Proof.
  revert log. induction p as [a|e k IH| |]; intros log H; [by apply cwp_ret| |done|done].
  split; [by apply Hfree|]. intros r ? ->. eapply wp_mono; [by apply IH|]. intros a ? (new & -> & Hn & HQ & Hs).
  exists (existT (Hub e) r :: new). rewrite <-app_assoc. split; [done|]. split; [by constructor|done].
Qed.

(** The ids are those of the flags, where they were given. *)
Definition ids_ok (f : fsid_flags) (ids : ServerHub.FsIds) : Prop :=
  (forall v, ff_uid f = Some v -> fi_Uid ids = v) /\ (forall v, ff_gid f = Some v -> fi_Gid ids = v) /\
  (forall v, ff_otherUid f = Some v -> fi_OtherUid ids = v) /\ (forall v, ff_otherGid f = Some v -> fi_OtherGid ids = v).

Lemma GetDefaultFsIds_returns : hub_post GetDefaultFsIds (fun _ => True).
Proof. repeat first [exact I | intros ? | progress cbn | case_match]. Qed.

Lemma Resolve_ids f : hub_post (ServerHub.Resolve (fsid_options f)) (fun ids => match ids with Some ids => ids_ok f ids | None => True end).
Proof.
  unfold ServerHub.Resolve. apply hub_post_bind. eapply (hub_post_mono _ (fun _ => True)).
  - intros [d|] _; [|done]. unfold ids_ok, fsid_options. cbn. split_and!; by intros v ->.
  - pose proof GetDefaultFsIds_returns. by repeat case_match.
Qed.

Section MountCommand.
Context {nu : NetUrl}.

(** Which scheme is dialled for the one that was asked for. *)
Inductive dials_scheme (asked : gostring) : gostring -> Prop :=
| dials_ws : map lower asked = [] \/ map lower asked = str "http" \/ map lower asked = str "wsfs" -> dials_scheme asked (str "ws")
| dials_wss : map lower asked = str "https" \/ map lower asked = str "wsfss" -> dials_scheme asked (str "wss")
| dials_unix : map lower asked = str "unix" -> dials_scheme asked (str "wsfs+unix")
| dials_same :
    map lower asked = str "ws" \/ map lower asked = str "wss" \/
    map lower asked = str "wsfs+unix" \/ map lower asked = str "wsfss+unix" -> dials_scheme asked asked.

Lemma mount_scheme_dials s scheme : mount_scheme s = Some scheme -> dials_scheme s scheme.
Proof.
  unfold mount_scheme. repeat case_bool_decide; intros [= <-].
  - apply dials_ws. set_solver.
  - apply dials_wss. set_solver.
  - by apply dials_unix.
  - apply dials_same. set_solver.
Qed.

(** The URL that is dialled for [u]: the host, the path and the query of [u], and
    no user. *)
Definition dials (u e : URL) : Prop :=
  dials_scheme (u_Scheme u) (u_Scheme e) /\ u_User e = None /\ u_Host e = u_Host u /\
  u_Path e = u_Path u /\ u_RawPath e = u_RawPath u /\ u_RawQuery e = u_RawQuery u /\
  u_Fragment e = u_RawFragment u /\ u_RawFragment e = u_RawFragment u.

(** The name and the password of the user of [u]. *)
Definition user_of (u : URL) (name : gostring) (password : option gostring) : Prop :=
  (u_User u = Some (name, password)) \/ (u_User u = None /\ name = [] /\ password = None).

Lemma user_of_spec u : user_of u (Username u) (Password u).
Proof. unfold user_of, Username, Password. destruct (u_User u) as [[name p]|]; [by left|by right]. Qed.

(** The options of the mount, from the flags: timeouts in nanoseconds. *)
Definition options_ok (f : mount_flags) (u : URL) (opt : MountOption) : Prop :=
  AttrTimeout opt = mf_structTimeout f * 10 ^ 9 /\ EntryTimeout opt = mf_structTimeout f * 10 ^ 9 /\
  NegativeTimeout opt = mf_structTimeout f * 10 ^ 9 /\ PingInterval opt = mf_pingInterval f * 10 ^ 9 /\
  (PingInterval opt = 0 \/ 10 * 10 ^ 9 <= PingInterval opt) /\
  UseFusemount opt = negb (mf_directMount f) /\ VolumeLabel opt = mf_volumeLabel f /\
  MasqueradeAsNtfs opt = mf_masqueradeAsNtfs f /\ EnableFuseLog opt = mf_trace f /\ FuseFsName opt = u_Host u /\
  mo_FlockMode opt = mf_flockMode f /\ mo_AllowedXAttrPrefix opt = mf_xattrPrefixes f /\
  DisableXAttrAppend opt = mf_disableXAttrAppend f /\ ids_ok (mf_fsids f) (mo_FsIds opt).

Lemma mount_options_ok f u ids :
  negb (mf_pingInterval f =? 0) && (mf_pingInterval f <? 10) = false -> ids_ok (mf_fsids f) ids ->
  options_ok f u (mount_options f (u_Host u) ids).
Proof.
  intros Hping Hids. unfold options_ok. cbn [mount_options AttrTimeout EntryTimeout NegativeTimeout PingInterval]. unfold second.
  assert (mf_pingInterval f = 0 \/ 10 <= mf_pingInterval f).
  { apply andb_false_iff in Hping as [Hz|Hz]; [apply negb_false_iff, Z.eqb_eq in Hz; by left|apply Z.ltb_ge in Hz; by right]. }
  split_and!; try done; lia.
Qed.

(** A mount the command may ask for, after [log]. *)
Definition mount_ok (f : mount_flags) (arg mountpoint : gostring) (log : clog)
    (mp url hash username password : gostring) (opt : MountOption) : Prop :=
  exists u e urlPassword,
    arg_url arg u /\ dials u e /\ url = url_String e /\ mp = mountpoint /\ hash = mf_certHash f /\
    user_of u username urlPassword /\ secret log urlPassword (mf_password f) password /\
    (is_Some (mf_password f) -> username <> []) /\ options_ok f u opt.

Definition mount_pre (f : mount_flags) (arg mountpoint : gostring) (log : clog) (e : cev) : Prop :=
  match e with
  | MountCall mp url hash username password opt => mount_ok f arg mountpoint log mp url hash username password opt
  | HubRun _ => False
  | _ => True
  end.

(** How the command ends: without an error exactly after a mount without one. *)
Definition mount_end (log : clog) (r : option cl_err) : Prop :=
  (r = None <-> exists mp url hash username password opt, in_log log (MountCall mp url hash username password opt) true) /\
  (forall e, r = Some e -> exit_Code e = 1 \/ exit_Code e = 2).

Lemma mount_end_error log c e :
  c = 1 \/ c = 2 -> Forall (fun x => plain_request (projT1 x)) log -> mount_end log (exit_New c (Some e)).
Proof.
  intros Hc Hl. split.
  - split; [done|]. intros (mp & url & hash & un & pw & opt & H). rewrite Forall_forall in Hl. by destruct (Hl _ H).
  - intros ? [= <-]. cbn. destruct Hc as [-> | ->]; cbn; auto.
Qed.

(** The answer to a mount. *)
Definition mounted (x : @log_entry cev cans) : option bool :=
  match x with existT e r => match e return cans e -> option bool with MountCall _ _ _ _ _ _ => fun r => Some r | _ => fun _ => None end r end.

Lemma mount_spec fuel f arg mountpoint :
  wp false (log_env (mount_pre f arg mountpoint)) (MountCmd fuel f arg mountpoint) [] (fun r log => mount_end log r).
Proof.
  assert (forall log e, plain_request e -> mount_pre f arg mountpoint log e) as Hfree by (intros log []; done).
  unfold MountCmd. destruct (negb (mf_pingInterval f =? 0) && (mf_pingInterval f <? 10)) eqn:Hping.
  { apply mount_end_error; [by right|constructor]. }
  eapply wp_bind_mono; [apply (of_hub_spec _ Hfree), Resolve_ids|].
  intros [ids|] ? (new & -> & Hn & Hids & Hin); [|apply mount_end_error; [by left|done]].
  destruct (url_Parse (with_slashes arg)) as [u|] eqn:Hu; [|apply mount_end_error; [by left|done]].
  eapply wp_bind_mono; [apply (password_spec _ Hfree)|].
  intros [p|e] ? (new' & -> & Hn' & Hp); [|apply mount_end_error; [by left|by apply Forall_app]].
  destruct Hp as [Hp Hun].
  destruct (mount_scheme (u_Scheme u)) as [scheme|] eqn:Hs; [|apply mount_end_error; [by left|by apply Forall_app]].
  split.
  - exists u, (mount_endpoint u scheme), (Password u). split_and!; try done.
    + by apply with_slashes_url.
    + split_and!; try done. by apply mount_scheme_dials.
    + apply user_of_spec.
    + rewrite <-(app_nil_r new'). by apply secret_frame.
    + intros H E. specialize (Hun H). by rewrite bool_decide_true in Hun.
    + by apply mount_options_ok.
  - intros [|] ? ->; (split; [|intros e He; cbn in He; try discriminate He; injection He as <-; by right]).
    + split; [intros _|done]. repeat eexists. unfold in_log. apply elem_of_app. right. by left.
    + split; [done|]. intros (mp & url & hash & un & pw & opt & H). exfalso. unfold in_log in H.
      apply elem_of_app in H as [H|H].
      * assert (Forall (fun x => plain_request (projT1 x)) (new ++ new')) as Hall by (by apply Forall_app).
        rewrite Forall_forall in Hall. by destruct (Hall _ H).
      * apply list_elem_of_singleton in H. by apply (f_equal mounted) in H.
Qed.

(** C40: What the command mount does, whatever is answered to what it asks: it asks for a
    mount only of the server its argument names. The URL that is dialled has the host,
    the path and the query of the argument (a host alone where there are no slashes), the
    scheme ws, wss or that of a Unix socket that the scheme of the argument stands for,
    and no user; the user name is that of the argument and the password that of the
    argument or of --password, never of both; every option is that of its flag, with
    the timeouts in nanoseconds, the ids of the flags and no pings or pings at least ten
    seconds apart. It succeeds exactly if that mount was asked for and succeeded, fails
    with exit code 1 or 2 otherwise, and does not panic. *)
Theorem mount_command {S} (sys : forall e, S -> cans e * S) (fuel : nat) (f : mount_flags) (arg mountpoint : gostring) (st : S) :
  let '(o, (_, log)) := run (with_log sys) (MountCmd fuel f arg mountpoint) (st, []) in
  o <> Panicked /\ (forall r, o = Done r -> mount_end log r) /\
  forall before mp url hash username password opt r after,
    log = before ++ existT (MountCall mp url hash username password opt) r :: after ->
    mount_ok f arg mountpoint before mp url hash username password opt.
Proof.
  pose proof (run_log sys _ _ _ st [] (mount_spec fuel f arg mountpoint)) as H.
  destruct (run _ _ _) as [o [st' log]].
  assert (log_ok (mount_pre f arg mountpoint) []) as H0 by (intros before x after E; by destruct before).
  specialize (H H0).
  assert (o <> Panicked /\ log_ok (mount_pre f arg mountpoint) log) as [Ho Hlog] by (destruct o; [|done|]; (split; [done|apply H])).
  split; [done|]. split; [intros r ->; apply H|]. intros before mp url hash username password opt r after E.
  exact (Hlog _ _ _ E).
Qed.
End MountCommand.

(** ** What is answered, and what goes wrong *)

Definition any_dans (e : dev) : dans e :=
  match e return dans e with
  | DStat _ | DFstat _ | DOpen _ _ | DFsSize _ => Err ErrNotExist
  | DReaddir _ _ => ([], None)
  | DClose _ | DRemoveAll _ | DRename _ _ | DMkdir _ _ | DCopyBody _ | DCopyFile _ _ => None
  | _ => tt
  end.
Definition any_hans (e : hev) : hans e :=
  match e return hans e with
  | HUi e => match e return uans e with UOs e => any_dans e | _ => tt end
  | HRemove _ | LoadX509KeyPair _ _ | NetListen _ _ | InstLoad | HttpServerLoad | RegistryLoad
  | ServeReturns _ _ | ShutdownWait _ => None
  | UserCurrent => Some (str "1000", str "1000")
  | UserLookup _ => Some (str "65534", str "65534")
  | GetConfig => ConfigError
  | ListenerConfigLoad => sc_Listener Default
  | ExitReceive => ErrServerClosed
  | HubTryLock | ReentrantCAS | RegistryCAS _ | ServeStart _ _ _ => true
  | NewHTTPServer _ | NewSessionRegistry _ => 0%nat
  | _ => tt
  end.

(** A world with the bytes of the standard input, which is no terminal, and nothing in
    its file system. *)
Definition demo_cans (e : cev) (input : bytes) : cans e * bytes :=
  match e return cans e * bytes with
  | StdinIsTerminal | StatFile _ | SendSighup _ => (false, input)
  | NewHubCall | MountCall _ _ _ _ _ _ => (true, input)
  | StdinRead => match input with b :: input' => (Some b, input') | [] => (None, []) end
  | TermReadPassword | ReadFile _ | Getwd | UserHomeDir | Executable => (None, input)
  | LookupEnv name => (Some (str "secret"), input)
  | AbsPath path => (Some path, input)
  | DecodeFile _ c => (Some c, input)
  | RandomString _ => (str "random", input)
  | GenerateFromPassword password _ => (Some (str "hash of " ++ password), input)
  | Hub e => (any_hans e, input)
  | HubRun _ => (RunNil, input)
  | Processes => (None, input)
  | Getpid => (1, input)
  | PrintPassword _ _ | PrintHash _ | SetGetConfig | SetupSignals _ => (tt, input)
  end.

(** A password from a pipe needs a line end: at the end of the input there is an error. *)
Example stdin_without_line_end :
  run demo_cans (readStdin 10) (str "secret") = (Done (Err ErrStdin), []) /\
  run demo_cans (readStdin 10) (str "secret" ++ [x0a]) = (Done (Ok (str "secret")), []).
Proof. split; vm_compute; reflexivity. Qed.

(** Without a home directory the configuration of the system is not looked for. *)
Example no_home_no_config : run demo_cans (findConfigFile defaultConfigPaths) [] = (Done (Err ErrHomeDir), []).
Proof. vm_compute. reflexivity. Qed.

(** A reload decodes into the configuration the server was started with: what a file no
    longer says stays as it was, and is not the default. *)
Lemma reload_keeps insecure config :
  cfg_filePath config <> [] ->
  run demo_cans (serve_GetConfig insecure config) [] = (Done (Ok (with_insecure insecure config)), []).
Proof. intros Hp. unfold serve_GetConfig, ReDecode. rewrite bool_decide_false by done. by destruct config. Qed.

(** ** Witnesses *)

Definition cl_url (s : gostring) : option URL :=
  if bool_decide (s = str "//ann@h:21") then Some (mkURL [] (Some (str "ann", None)) (str "h:21") [] [] [] [] []) else None.
Definition cl_net : NetUrl := {| url_Parse := cl_url; url_String := fun u => u_Scheme u ++ str "://" ++ u_Host u; Sum256_hex := fun _ => [] |}.
Definition cl_ids : fsid_flags := mkFsidFlags None None None None.
Definition cl_quick : quick_flags := mkQuickFlags (Some (str "/srv")) cl_ids (Some (str "env:PW")).
Definition cl_mount : mount_flags :=
  mkMountFlags (str "v") false 60 60 false cl_ids false [] (Some (str "env:PW")) FlockModeOFD [] false.

(** quick-serve runs the hub with the one user of its argument. *)
Lemma quick_serve_access_witness :
  exists before c after,
    (run (with_log demo_cans) (QuickServeCmd (nu := cl_net) 5 cl_quick [str "ann@h:21"]) ([], [])).2.2 =
      before ++ existT (HubRun c) RunNil :: after /\
    sc_Users c = [mkConfigUser (str "ann") (str "hash of secret") false (str "main")] /\
    exists path, NewUsers [] (sc_Storages c) (sc_Users c) (sc_Anonymous c) =
      Ok ({[str "ann" := mkStorageUser (str "ann") (str "hash of secret") false (NewStorage_Path [] path)]}, None).
Proof.
  pose proof (quick_serve_access (nu := cl_net) demo_cans 5 cl_quick [str "ann@h:21"] [] []) as H.
  destruct (run _ _ _) as [o [st' log]] eqn:E. destruct H as (_ & _ & H).
  vm_compute in E. injection E as <- <- <-.
  eexists (_ :: _ :: _ :: _ :: []), _, []. split; [reflexivity|]. split; [reflexivity|].
  destruct (H [_; _; _; _] _ _ [] eq_refl) as [_ [path Hp]]. exists path. exact Hp.
Defined.

Lemma mount_command_witness :
  exists before opt after,
    (run (with_log demo_cans) (MountCmd (nu := cl_net) 5 cl_mount (str "ann@h:21") (str "/mnt")) ([], [])).2.2 =
      before ++ existT (MountCall (str "/mnt") (str "ws://h:21") [] (str "ann") (str "secret") opt) true :: after /\
    mount_ok (nu := cl_net) cl_mount (str "ann@h:21") (str "/mnt") before (str "/mnt") (str "ws://h:21") [] (str "ann") (str "secret") opt.
Proof.
  pose proof (mount_command (nu := cl_net) demo_cans 5 cl_mount (str "ann@h:21") (str "/mnt") []) as H.
  destruct (run _ _ _) as [o [st' log]] eqn:E. destruct H as (_ & _ & H).
  vm_compute in E. injection E as <- <- <-.
  eexists [_; _; _], _, []. split; [reflexivity|]. exact (H [_; _; _] _ _ _ _ _ _ _ [] eq_refl).
Defined.
