(* ===== verification/ServerLifeThms.v ===== *)
(** * What a session promises over its whole life

    Theorems on the goroutines of a session taken together: channels, fast
    buffers, the end of a connection, and one state from which a session cannot
    go on. *)
From S2P Require Import Prelude GoIO Codec Structs StructGen Prog Paths UnixConv ServerEnv.
From S2P Require Import ServerCmds ServerStream ServerDispatch ServerConn ServerSpec ServerOk ServerRun.
From S2P Require Import ServerStreamOk ServerOwn ServerSession ServerLife ServerThms.

Section LifeClaims.
Context {abi : UnixABI}.

(** C12: A session never sends on a closed channel. In every state a session can
    reach over any number of connections, a goroutine about to queue data for a
    write stream finds its channel open, although stopConn closes the channels and
    the goroutines of the streams remove themselves from the table at any time;
    and a goroutine about to receive is the one of that stream. *)
Theorem channel_discipline (fuel : nat) (s : session) (st : sess) (n : nat) (th : thread) (i : nat) :
  reachable fuel s st -> ss_threads st !! n = Some th ->
  (forall msg c, th_prog th = Vis (WsEnqueue i msg) c -> is_open (ss_tables st) i) /\
  (forall c, th_prog th = Vis (WsReceive i) c -> exists m sfd off, th_kind th = KStream i m sfd off).
Proof.
  intros Hst Hn. destruct (reachable_life fuel s st Hst) as [l HL].
  destruct (threads_lookup _ _ _ _ HL Hn) as [o Ho]. pose proof (l_obeys _ _ HL n th o Ho) as Hob.
  split.
  - intros msg c E. rewrite E in Hob. destruct Hob as [(Hr & Hi & _) _].
    destruct (l_cur _ _ HL n th o Ho Hr) as (H1 & _); [unfold finished; by rewrite E|]. by apply H1.
  - intros c E. rewrite E in Hob. destruct Hob as [(m & Hr & _) _]. unfold role_of in Hr.
    destruct (th_kind th) as [|j m' sfd off]; [by destruct (th_group th)|]. injection Hr as -> ->. eauto.
Qed.

(** C34: Fast buffers are neither lost nor duplicated. In every reachable state the
    buffers in the pool, those that travel in channels and those the goroutines
    hold add up to the buffers the session was made with; a goroutine that has
    ended holds none, and giving one back never finds the pool full. *)
Theorem buffers_conserved (fuel : nat) (s : session) (st : sess) :
  reachable fuel s st ->
  exists holds : list nat, length holds = length (ss_threads st) /\
    (fastBuffers (ss_tables st) + queued (ss_tables st) + sum_list holds = sessionFastBuffer)%nat /\
    forall n th, ss_threads st !! n = Some th ->
      (finished th = true -> holds !! n = Some 0%nat) /\
      (forall c, th_prog th = Vis ReleaseFastBuffer c -> (fastBuffers (ss_tables st) < sessionFastBuffer)%nat).
Proof.
  intros Hst. destruct (reachable_life fuel s st Hst) as [l HL].
  exists (map (fun x => o_fast x.2) l). split_and!.
  - rewrite (l_threads _ _ HL). by rewrite !length_map.
  - rewrite <-(l_pool _ _ HL). f_equal. clear. induction l as [|x l IH]; [done|]. simpl. lia.
  - intros n th Hn. destruct (threads_lookup _ _ _ _ HL Hn) as [o Ho]. split.
    + intros Hf. rewrite list_lookup_fmap, Ho. simpl. by destruct (finished_end _ _ _ _ _ HL Ho Hf) as [-> _].
    + intros c E. pose proof (l_obeys _ _ HL n th o Ho) as Hob. rewrite E in Hob. destruct Hob as [Hp _].
      simpl in Hp. pose proof (l_pool _ _ HL) as Hpool.
      apply list_elem_of_lookup_2, list_elem_of_split in Ho as (l1 & l2 & ->).
      rewrite sum_list_with_app in Hpool. simpl in Hpool. lia.
Qed.

(** The work clearWriteStreams has left: entries of the table, open channels. *)
Definition clear_left (t : tables) : nat :=
  size (writeStreams t) + sum_list_with (fun ch => if ch_closed ch then 0 else 1)%nat (streams t).

Lemma clear_left_close t i q :
  streams t !! i = Some (mkChannel q false) -> (clear_left (closeInput i t) < clear_left t)%nat.
Proof.
  intros Hi. unfold clear_left, closeInput. simpl.
  pose proof (sum_insert (fun ch => if ch_closed ch then 0 else 1)%nat _ i (mkChannel q true) _ Hi) as Hs.
  simpl in Hs. replace (alter _ i (streams t)) with (<[i := mkChannel q true]> (streams t)); [lia|].
  apply list_eq. intros j. destruct (decide (i = j)) as [->|Hn].
  - rewrite list_lookup_alter_eq, Hi, list_lookup_insert_eq; [done|by eapply lookup_lt_Some].
  - by rewrite list_lookup_alter_ne, list_lookup_insert_ne.
Qed.

Lemma clear_left_forget t m i :
  writeStreams t !! m = Some i -> (clear_left (forget_stream m t) < clear_left t)%nat.
Proof.
  intros Hm. unfold clear_left, forget_stream. simpl. rewrite map_size_delete_Some by eauto.
  assert (size (writeStreams t) <> 0%nat); [|lia].
  intros E. apply map_size_empty_inv in E. by rewrite E in Hm.
Qed.

(** C35: A connection that has ended is torn down. Once the read loop is over,
    clearWriteStreams always has a next step until no stream is left in the table;
    and from then on cmdGroup.Wait waits for nobody who waits in turn: every
    goroutine that has not ended can make its next request, whatever the others do,
    and when all have ended the session is hibernated. *)
Theorem teardown_progress (fuel : nat) (s : session) (st : sess) :
  reachable fuel s st -> closing st ->
  (ss_phase st = Ending ->
     exists st', session_step fuel s st st' /\ ss_trace st' = ss_trace st /\
       (ss_phase st' = Draining \/
        ss_phase st' = Ending /\ (clear_left (ss_tables st') < clear_left (ss_tables st))%nat)) /\
  (ss_phase st = Draining ->
     (forall n th e c, ss_threads st !! n = Some th -> th_prog th = Vis e c ->
        exists r st', session_step fuel s st st' /\ ss_trace st' = ss_trace st ++ [(n, logged_entry e r)]) /\
     (Forall (fun th => finished th = true) (ss_threads st) ->
        exists st', session_step fuel s st st' /\ ss_phase st' = Asleep)).
Proof.
  intros Hst Hc. destruct (reachable_life fuel s st Hst) as [l HL]. split.
  - intros Hp. assert (inline_done st) as Hd by (destruct Hc as [[_ ?]|?]; [done|congruence]).
    destruct (decide (writeStreams (ss_tables st) = ∅)) as [He|He].
    + eexists. split; [by apply step_cleared|]. split; [done|]. by left.
    + apply map_choose in He as (m & i & Hm). destruct (l_table _ _ HL m i Hm) as [[q Hq]|[[q Hq] _]].
      * eexists. split; [by eapply step_close_stream|]. split; [done|]. right. split; [done|].
        by eapply clear_left_close.
      * eexists. split; [by eapply step_forget_stream|]. split; [done|]. right. split; [done|].
        by eapply clear_left_forget.
  - intros Hp. split.
    + intros n th e c Hn He. destruct (threads_lookup _ _ _ _ HL Hn) as [o Ho].
      destruct (draining_answers fuel st l n th o e c HL Hp Ho He) as (Hs & r & t' & Hok & Ht).
      destruct th as [k grp p]. simpl in He. subst p. exists r. eexists. split; [|].
      * eapply step_request; [done..|]. rewrite Hs. pose proof (reachable_active fuel s st Hst). simpl. lia.
      * done.
    + intros Hall. eexists. split; [by apply step_hibernate|]. done.
Qed.
End LifeClaims.

(** ** A session that is stuck *)

(** The read loop holds a message whose handler needs a place in cmdGroup, all
    places are taken, and every goroutine has ended or waits for data of its
    stream. *)
Definition waits (t : tables) (th : thread) : bool :=
  match th_prog th with
  | Ret _ => true
  | Vis (WsReceive i) _ => if streams t !! i is Some (mkChannel [] false) then true else false
  | _ => false
  end.

Definition stuck {abi : UnixABI} (fuel : nat) (s : session) (st : sess) : bool :=
  match ss_phase st with
  | Waiting msg =>
      match dispatchCommand fuel s msg with
      | (Some (Go _), _) =>
          bool_decide (cmdGroup_limit <= cmdGroup_active (ss_threads st))%nat &&
          forallb (waits (ss_tables st)) (ss_threads st)
      | _ => false
      end
  | _ => false
  end.

Lemma stuck_sound {abi : UnixABI} fuel s st st' : stuck fuel s st = true -> session_step fuel s st st' -> False.
Proof.
  unfold stuck. intros Hs Hstep. destruct (ss_phase st) as [|msg0| | |] eqn:Ep; try discriminate Hs.
  destruct (dispatchCommand fuel s msg0) as [[[p|p]|] err0] eqn:Ed; try discriminate Hs.
  apply andb_prop in Hs as [Ha Hw]. apply bool_decide_eq_true in Ha.
  destruct Hstep as [| |st msg header msg' a err t' Hph Hread Hdisp Hbuf Hgrp|st msg err Hph Hd| | | | | |
                     st i k grp e c r t' Hi Hans Ht Hgrp]; try congruence.
  - assert (msg = msg0) as -> by congruence. rewrite Ed in Hdisp. injection Hdisp as <- <-. lia.
  - apply Is_true_true, forallb_True in Hw. pose proof (Forall_lookup_1 _ _ _ _ Hw Hi) as Hth.
    clear Hw. apply Is_true_true in Hth as Hw. unfold waits in Hw. simpl in Hw. destruct e; try done. destruct Ht as (q & b & Hq & Ht).
    rewrite Hq in Hw. destruct q; [|done]. destruct b; [done|]. by destruct Ht.
Qed.

(** A file is opened, then 64 streams on it under the marks from 2 on; each takes
    its first, empty chunk and waits for the next. Then a close request arrives. *)
Definition many_streams : list (reader + nat) :=
  inl (message 1 (ReqOpen (mkCmdOpenStruct (str "/f") 2 0))) :: replicate 4 (inr 0%nat) ++
  concat (map (fun k =>
    inl (message (2 + Z.of_nat k) (ReqWriteStreamOpen (mkCmdWriteStreamOpenStruct 1 0 [])))
    :: replicate 5 (inr (1 + 2 * k)%nat) ++ replicate 2 (inr (2 + 2 * k)%nat)) (seq 0 64)).

Definition full_session : option sess := play (abi := linux_amd64) 10 demo_session demo_os many_streams.

(** Write streams can block their session for good. A client that opens 64
    write streams and then sends any other command reaches a state without a next
    step: the streams occupy every place of cmdGroup, so the read loop waits for a
    place and never reads the data the streams wait for, nor sees the connection
    end. *)
Theorem reader_deadlock :
  exists st, reachable (abi := linux_amd64) 10 demo_session st /\
    (forall st', ~ session_step (abi := linux_amd64) 10 demo_session st st') /\
    cmdGroup_active (ss_threads st) = 64%nat /\ ss_phase st = Waiting closing_msg.
Proof.
  exists (set_phase (Waiting closing_msg) (default sess_init full_session)).
  assert (reader_freeb (default sess_init full_session) = true) as Hf by (vm_compute; reflexivity).
  apply reader_freeb_sound in Hf as [Hp Hd]. split_and!.
  - eapply reach_step; [by apply played_reachable, demo_lawful|]. by apply step_receive.
  - intros st' Hstep. eapply stuck_sound; [|exact Hstep]. vm_compute. reflexivity.
  - vm_compute. reflexivity.
  - reflexivity.
Qed.

(** ** Witnesses *)

(** After the stream of [demo_state] was opened its first chunk is about to be
    queued; later the stream waits for data. *)
Lemma channel_discipline_witness :
  is_open (ss_tables (opened_state 10)) 0.
Proof.
  assert (exists k g c, ss_threads (opened_state 10) !! 1%nat =
            Some (mkThread k g (Vis (WsEnqueue 0 (mkInput (str "abc") true false)) c))) as (k & g & c & E).
  { vm_compute. eexists _, _, _. reflexivity. }
  exact (proj1 (channel_discipline (abi := linux_amd64) 10 demo_session (opened_state 10) 1 _ 0
    (played_reachable 10 demo_session demo_os _ demo_lawful) E) _ c eq_refl).
Defined.

Lemma buffers_conserved_witness :
  exists holds : list nat, length holds = length (ss_threads demo_state) /\
    (fastBuffers (ss_tables demo_state) + queued (ss_tables demo_state) + sum_list holds = 32)%nat.
Proof.
  destruct (buffers_conserved (abi := linux_amd64) 10 demo_session demo_state demo_reachable) as (h & H1 & H2 & _).
  exists h. split; [exact H1|exact H2].
Defined.

(** The connection of [demo_state] breaks with a stream still open. *)
Definition broken_state : sess := set_phase Ending demo_state.

Lemma teardown_progress_witness :
  exists st', session_step (abi := linux_amd64) 10 demo_session broken_state st' /\
    (ss_phase st' = Draining \/
     ss_phase st' = Ending /\ (clear_left (ss_tables st') < clear_left (ss_tables broken_state))%nat).
Proof.
  assert (reader_freeb demo_state = true) as Hf by (vm_compute; reflexivity).
  apply reader_freeb_sound in Hf as [Hp Hd].
  assert (reachable (abi := linux_amd64) 10 demo_session broken_state) as Hr
    by (eapply reach_step; [exact demo_reachable|by apply step_broken]).
  destruct (proj1 (teardown_progress (abi := linux_amd64) 10 demo_session broken_state Hr
    (or_introl (conj eq_refl Hd))) eq_refl) as (st' & H1 & _ & H2).
  exists st'. split; [exact H1|exact H2].
Defined.
