(* ===== verification/ServerCollector.v ===== *)
(** * The collector of abandoned sessions

    What a round of CollectInactiveSessions does to the registry when nothing else
    runs meanwhile, session by session. *)
From S2P Require Import Prelude GoIO Prog ServerRegistry.

(** ** Running the collector alone *)

Definition rans_any (e : rgev) : rans e :=
  match e return rans e with
  | MapLoadOrStoreNil _ | LockTryLock _ | Accept _ | ConnEnds _ | SleepScan => false
  | MapLoad _ => None
  | MapRange => []
  | Username _ => []
  | InactiveAdd _ => 0
  | RangeFds _ => []
  | IdSourceNew => None
  | _ => tt
  end.

(** [stopped]: whether Stop has been called. *)
Definition alone_step (stopped : bool) (e : rgev) (r : registry) : rans e * registry :=
  match reg_answer (mkOutside None stopped (elements (dom (rg_sessions r)))) e r with
  | Some (x, r', _) => (x, r')
  | None => (rans_any e, r)
  end.

(** What the registry has under an id: the session and its state. *)
Definition view (r : registry) (id : gostring) : option (option (nat * sessobj)) :=
  match rg_sessions r !! id with
  | Some (Some s) => match rg_objs r !! s with Some ob => Some (Some (s, ob)) | None => None end
  | Some None => Some None
  | None => None
  end.

(** What a round makes of it. *)
Definition next_view (v : option (option (nat * sessobj))) : option (option (nat * sessobj)) :=
  match v with
  | Some (Some (s, ob)) =>
      if so_locked ob then v
      else if sessionInactiveMaxCount <=? u32 (so_inactiveCount ob + 1) then None
      else Some (Some (s, so_set_inactive (u32 (so_inactiveCount ob + 1)) ob))
  | _ => v
  end.

(** The sessions of the registry exist and carry the ids they are found under. *)
Definition reg_wf (r : registry) : Prop :=
  forall id s, rg_sessions r !! id = Some (Some s) -> exists ob, rg_objs r !! s = Some ob /\ so_Id ob = id.

(** What was closed by the time the registry is [r']. *)
Definition closed_if_removed (r r' : registry) (id : gostring) : Prop :=
  forall s ob fd sfd, view r id = Some (Some (s, ob)) -> view r' id = None -> so_fds ob !! fd = Some sfd -> sfd ∉ rg_open r'.

Section Run.
Context (stopped : bool).
Abbreviation go p r := (run (alone_step stopped) p r).

Lemma set_objs_eq r : set_objs (rg_objs r) r = r.
Proof. by destruct r. Qed.

Lemma run_clearFDs_range s l r ob :
  rg_objs r !! s = Some ob -> map_to_list (so_fds ob) ≡ₚ l ->
  go (clearFDs_range s l) r =
    (Done tt, set_open (rg_open r ∖ list_to_set l.*2) (set_objs (<[s := so_set_fds ∅ ob]> (rg_objs r)) r)).
Proof.
  revert r ob. induction l as [|[fd sfd] l IH]; intros r ob Hob Hl.
  - apply Permutation_nil_r, map_to_list_empty_iff in Hl. cbn. rewrite difference_empty_L.
    rewrite list_insert_id; [by destruct r|]. rewrite Hob. by destruct ob; cbn in *; subst.
  - assert (so_fds ob !! fd = Some sfd) as Hfd by (apply elem_of_map_to_list; rewrite Hl; set_solver).
    cbn [clearFDs_range]. run_step. cbn [alone_step reg_answer]. run_step. cbn [alone_step reg_answer].
    set (ob1 := so_set_fds (delete fd (so_fds ob)) ob).
    rewrite (IH _ ob1).
    + f_equal. unfold set_open, set_objs. cbn. f_equal; [|set_solver].
      apply list_eq. intros j. destruct (decide (j = s)) as [->|Hne].
      * rewrite !list_lookup_insert_eq; [done|by eapply lookup_lt_Some|rewrite length_alter; by eapply lookup_lt_Some].
      * by rewrite !list_lookup_insert_ne, list_lookup_alter_ne by done.
    + cbn. by rewrite list_lookup_alter_eq, Hob.
    + cbn. apply (Permutation_cons_inv (a := (fd, sfd))). rewrite <-Hl. by apply map_to_list_delete.
Qed.

Lemma run_delSession id s ob r :
  rg_sessions r !! id = Some (Some s) -> rg_objs r !! s = Some ob ->
  exists r', go (delSession id) r = (Done tt, r') /\ rg_sessions r' = delete id (rg_sessions r) /\
    rg_objs r' = <[s := so_set_fds ∅ ob]> (rg_objs r) /\ rg_open r' ⊆ rg_open r /\
    forall fd sfd, so_fds ob !! fd = Some sfd -> sfd ∉ rg_open r'.
Proof.
  intros Hid Hob. unfold delSession, getSession. eexists. split; [|cbn].
  - rewrite run_bind. run_step. cbn [alone_step reg_answer]. rewrite Hid. cbn [run mret prog_ret].
    rewrite run_bind. unfold clearFDs. run_step. cbn [alone_step reg_answer]. rewrite Hob. cbn [default fmap option_fmap option_map compose].
    rewrite (run_clearFDs_range s _ r ob) by done. reflexivity.
  - split_and!; [done|done|set_solver|]. intros fd sfd Hfd. apply not_elem_of_difference. right.
    apply elem_of_list_to_set, list_elem_of_fmap. exists (fd, sfd). split; [done|]. by apply elem_of_map_to_list.
Qed.

(** One entry: its session moves on, the others stay. *)
Record entry_done (r r' : registry) (id : gostring) : Prop := {
  ed_wf : reg_wf r';
  ed_view : view r' id = next_view (view r id);
  ed_others id' : id' <> id -> view r' id' = view r id';
  ed_open : rg_open r' ⊆ rg_open r;
  ed_closed : closed_if_removed r r' id;
}.

Lemma wf_distinct r id id' s : reg_wf r -> rg_sessions r !! id = Some (Some s) -> rg_sessions r !! id' = Some (Some s) -> id = id'.
Proof. intros Hwf H H'. destruct (Hwf _ _ H) as (ob & Ho & <-), (Hwf _ _ H') as (ob' & Ho' & <-). congruence. Qed.

(** The entry was not touched. *)
Lemma entry_same r id : reg_wf r -> view r id = next_view (view r id) -> entry_done r r id.
Proof. intros Hwf Hv. split; try done. intros s ob fd sfd H1 H2. congruence. Qed.

(** Its session changed, or it is gone. *)
Lemma entry_changed r r' id s ob ob' :
  reg_wf r -> rg_sessions r !! id = Some (Some s) -> rg_objs r !! s = Some ob -> so_Id ob' = id ->
  rg_objs r' = <[s := ob']> (rg_objs r) -> rg_sessions r' = rg_sessions r \/ rg_sessions r' = delete id (rg_sessions r) ->
  view r' id = next_view (view r id) -> rg_open r' ⊆ rg_open r -> closed_if_removed r r' id -> entry_done r r' id.
Proof.
  intros Hwf Hid Hob Hi Ho Hs Hv Hop Hc. pose proof (lookup_lt_Some _ _ _ Hob).
  assert (forall id' v, id' <> id -> rg_sessions r' !! id' = v <-> rg_sessions r !! id' = v) as Hm.
  { intros id' v Hne. destruct Hs as [->| ->]; [done|]. by rewrite lookup_delete_ne. }
  split; try done.
  - intros id' s' Hs'. destruct (decide (id' = id)) as [->|Hne].
    + assert (s' = s) as -> by (destruct Hs as [E|E]; rewrite E in Hs'; [congruence|by rewrite lookup_delete_eq in Hs']).
      exists ob'. by rewrite Ho, list_lookup_insert_eq.
    + apply Hm in Hs'; [|done]. destruct (Hwf _ _ Hs') as (ob2 & Hob2 & E). exists ob2. split; [|done].
      rewrite Ho, list_lookup_insert_ne; [done|]. intros <-. destruct Hne. by eapply wf_distinct.
  - intros id' Hne. unfold view. rewrite (proj2 (Hm id' _ Hne) eq_refl). destruct (rg_sessions r !! id') as [[s'|]|] eqn:E; [|done..].
    rewrite Ho, list_lookup_insert_ne; [done|]. intros <-. destruct Hne. by eapply wf_distinct.
Qed.

Lemma view_session r id s ob :
  rg_sessions r !! id = Some (Some s) -> rg_objs r !! s = Some ob -> view r id = Some (Some (s, ob)).
Proof. unfold view. by intros -> ->. Qed.

Lemma alter_at {A} (f : A -> A) (l : list A) (s : nat) x : l !! s = Some x -> alter f s l = <[s := f x]> l.
Proof. revert s. induction l as [|y l IH]; intros [|s]; try done; cbn; [by intros [= ->]|]. intros H. f_equal. by apply IH. Qed.

Lemma run_scan_entry id r :
  reg_wf r -> exists r', go (scan_entry id (rg_sessions r !! id)) r = (Done tt, r') /\ entry_done r r' id.
Proof.
  intros Hwf. destruct (rg_sessions r !! id) as [[s|]|] eqn:Hid.
  2, 3: exists r; split; [done|]; apply entry_same; [done|]; unfold view; by rewrite Hid.
  destruct (Hwf _ _ Hid) as (ob & Hob & Hi). pose proof (lookup_lt_Some _ _ _ Hob) as Hlt.
  pose proof (view_session _ _ _ _ Hid Hob) as Hview.
  unfold scan_entry. run_step. cbn [alone_step reg_answer]. rewrite Hob. destruct (so_locked ob) eqn:El.
  - exists r. split; [done|]. apply entry_same; [done|]. rewrite Hview. cbn. by rewrite El.
  - set (n := u32 (so_inactiveCount ob + 1)). run_step. cbn [alone_step reg_answer rg_objs set_objs].
    rewrite (alter_at _ _ _ _ Hob), list_lookup_insert_eq by done. cbn [fmap option_fmap option_map from_option Datatypes.id so_inactiveCount so_set_locked].
    fold n. set (r1 := set_objs _ _). set (ob1 := so_set_inactive n (so_set_locked true ob)).
    assert (rg_objs r1 = <[s := ob1]> (rg_objs r)) as E1.
    { unfold r1. cbn. rewrite (alter_at _ _ _ (so_set_locked true ob)) by (by rewrite list_lookup_insert_eq).
      by rewrite list_insert_insert_eq. }
    destruct (sessionInactiveMaxCount <=? n) eqn:En.
    + destruct (run_delSession id s ob1 r1) as (r' & Hrun & Hs & Ho & Hop & Hcl);
        [done|by rewrite E1, list_lookup_insert_eq|].
      exists r'. split; [exact Hrun|]. rewrite E1, list_insert_insert_eq in Ho.
      eapply entry_changed; [done|done|done| |exact Ho|by right| |done|]; [done| |].
      * rewrite Hview. cbn. rewrite El. fold n. rewrite En. unfold view. rewrite Hs. by rewrite lookup_delete_eq.
      * intros s' ob' fd sfd Hv' _ Hfd. rewrite Hview in Hv'. injection Hv' as <- <-. by eapply Hcl.
    + exists (set_objs (<[s := so_set_locked false ob1]> (rg_objs r)) r). split.
      * transitivity (@Done unit tt, set_objs (alter (so_set_locked false) s (rg_objs r1)) r1); [reflexivity|].
        rewrite E1, (alter_at _ _ _ ob1) by (by rewrite list_lookup_insert_eq). by rewrite list_insert_insert_eq.
      * eapply entry_changed; [done|done|done| |reflexivity|by left| |done|]; [done| |].
        -- rewrite Hview. cbn. rewrite El. fold n. rewrite En. unfold view. cbn. rewrite Hid, list_lookup_insert_eq by done.
           do 3 f_equal. destruct ob; cbn in *; by subst.
        -- intros s' ob' fd sfd _. unfold view. cbn. by rewrite Hid, list_lookup_insert_eq.
Qed.

(** ** Rounds *)

Record round_done (r r' : registry) : Prop := {
  rd_wf : reg_wf r';
  rd_view id : view r' id = next_view (view r id);
  rd_open : rg_open r' ⊆ rg_open r;
  rd_closed id : closed_if_removed r r' id;
}.

Lemma view_known r id : reg_wf r -> is_Some (rg_sessions r !! id) <-> view r id <> None.
Proof.
  intros Hwf. unfold view. destruct (rg_sessions r !! id) as [[s|]|] eqn:E.
  - destruct (Hwf _ _ E) as (ob & -> & _). by split.
  - by split.
  - by split; [intros []|].
Qed.

Lemma run_scan keys r ex :
  reg_wf r -> NoDup keys ->
  exists r', go (scan ex keys) r = (Done (ex || existsb (fun id => if view r id then true else false) keys), r') /\
    reg_wf r' /\ rg_open r' ⊆ rg_open r /\
    (forall id, id ∈ keys -> view r' id = next_view (view r id) /\ closed_if_removed r r' id) /\
    (forall id, id ∉ keys -> view r' id = view r id).
Proof.
  intros Hwf. revert r ex Hwf. induction keys as [|id keys IH]; intros r ex Hwf Hnd.
  - exists r. cbn. rewrite orb_false_r. split_and!; try done. by intros id ?%elem_of_nil.
  - apply NoDup_cons in Hnd as [Hni Hnd].
    cbn [scan]. run_step. cbn [alone_step reg_answer]. rewrite run_bind.
    destruct (run_scan_entry id r Hwf) as (r1 & -> & He).
    destruct (IH r1 (ex || (if rg_sessions r !! id is Some _ then true else false)) (ed_wf _ _ _ He) Hnd)
      as (r' & Hrun & Hwf' & Hop & Hin & Hout).
    exists r'. split_and!; [|done|etrans; [done|apply He]|..].
    + etrans; [exact Hrun|]. f_equal. f_equal. cbn [existsb]. rewrite orb_assoc. f_equal; [f_equal|].
      * pose proof (view_known r id Hwf) as Hk. destruct (rg_sessions r !! id), (view r id); try done.
        -- by destruct (proj1 Hk (mk_is_Some _ _ eq_refl)).
        -- by destruct (proj2 Hk ltac:(done)).
      * clear -He Hni. induction keys as [|id' keys IHk]; [done|]. cbn [existsb].
        rewrite IHk by set_solver. rewrite (ed_others _ _ _ He id') by set_solver. done.
    + intros id' [->|Hin']%elem_of_cons.
      * rewrite (Hout id) by done. split; [apply He|]. intros s ob fd sfd Hv Hv' Hfd Ho.
        eapply (ed_closed _ _ _ He); [done|by rewrite <-Hout|done|by apply Hop].
      * assert (id' <> id) as Hne by (by intros ->). destruct (Hin id' Hin') as [Hv Hc].
        rewrite (ed_others _ _ _ He id' Hne) in Hv. split; [done|].
        intros s ob fd sfd Hv1 Hv2. eapply Hc; [|done]. by rewrite (ed_others _ _ _ He).
    + intros id' [Hne Hno]%not_elem_of_cons. rewrite Hout by done. by apply (ed_others _ _ _ He).
Qed.

Lemma run_round r :
  reg_wf r -> exists r', round_done r r' /\
    forall {A} (k : bool -> RP A),
      go (keys ← ask MapRange; ex ← scan false keys; k ex) r = go (k (negb (bool_decide (rg_sessions r = ∅)))) r'.
Proof.
  intros Hwf. set (keys := elements (dom (rg_sessions r))).
  destruct (run_scan keys r false Hwf (NoDup_elements _)) as (r' & Hrun & Hwf' & Hop & Hin & Hout).
  assert (forall id, id ∈ keys <-> view r id <> None) as Hkeys
    by (intros id; unfold keys; rewrite elem_of_elements, elem_of_dom; by apply view_known).
  assert (forall id, id ∉ keys -> view r id = None) as Hnone.
  { intros id Hni. destruct (view r id) eqn:E; [|done]. destruct Hni. apply Hkeys. congruence. }
  exists r'. split; [split|].
  - done.
  - intros id. destruct (decide (id ∈ keys)) as [Hi|Hi]; [by apply Hin|]. by rewrite Hout, (Hnone id Hi).
  - done.
  - intros id. destruct (decide (id ∈ keys)) as [Hi|Hi]; [by apply Hin|]. intros s ob fd sfd Hv. by rewrite (Hnone id Hi) in Hv.
  - intros A k. run_step. unfold alone_step at 1. cbn [reg_answer out_keys]. rewrite bool_decide_true by done.
    rewrite run_bind. change (elements (dom (rg_sessions r))) with keys. rewrite Hrun. f_equal. f_equal. cbn [orb].
    case_bool_decide as He.
    + assert (keys = []) as -> by (unfold keys; by rewrite He, dom_empty_L, elements_empty). done.
    + apply existsb_exists. apply map_choose in He as (id & v & Hid). exists id.
      assert (id ∈ keys) as Hi by (unfold keys; rewrite elem_of_elements, elem_of_dom; by eexists).
      split; [by apply list_elem_of_In|]. apply Hkeys in Hi. by destruct (view r id).
Qed.

(** [n] rounds, nothing else running. *)
Fixpoint next_views (n : nat) (v : option (option (nat * sessobj))) : option (option (nat * sessobj)) :=
  match n with O => v | S n => next_views n (next_view v) end.

Lemma next_views_None n : next_views n None = None.
Proof. by induction n. Qed.

Record rounds_done (n : nat) (r r' : registry) : Prop := {
  rs_wf : reg_wf r';
  rs_view id : view r' id = next_views n (view r id);
  rs_open : rg_open r' ⊆ rg_open r;
  rs_closed id : closed_if_removed r r' id;
}.

Lemma next_view_fds v s ob : next_view v = Some (Some (s, ob)) -> exists ob0, v = Some (Some (s, ob0)) /\ so_fds ob0 = so_fds ob.
Proof.
  destruct v as [[[s0 ob0]|]|]; [|done..]. cbn. destruct (so_locked ob0); [intros [= -> ->]; by eexists|].
  destruct (_ <=? _); [done|]. intros [= -> <-]. by exists ob0.
Qed.

Lemma rounds_next n r r1 r' : round_done r r1 -> rounds_done n r1 r' -> rounds_done (S n) r r'.
Proof.
  intros H1 H2. split; [apply H2| |etrans; [apply H2|apply H1]|].
  - intros id. rewrite (rs_view _ _ _ H2), (rd_view _ _ H1). done.
  - intros id s ob fd sfd Hv Hv' Hfd. destruct (view r1 id) as [[[s1 ob1]|]|] eqn:E1.
    + destruct (next_view_fds (view r id) s1 ob1) as (ob0 & E0 & Ef); [by rewrite <-(rd_view _ _ H1)|].
      rewrite Hv in E0. injection E0 as -> ->. eapply (rs_closed _ _ _ H2); [done|done|by rewrite <-Ef].
    + rewrite (rd_view _ _ H1), Hv in E1. cbn in E1. by repeat case_match.
    + intros Ho. apply (rs_open _ _ _ H2) in Ho. by eapply (rd_closed _ _ H1).
Qed.
End Run.

Lemma view_Some r id s ob : view r id = Some (Some (s, ob)) -> rg_sessions r !! id = Some (Some s) /\ rg_objs r !! s = Some ob.
Proof.
  unfold view. destruct (rg_sessions r !! id) as [[s'|]|]; [|done..].
  destruct (rg_objs r !! s') eqn:E; [|done]. by intros [= -> ->].
Qed.

Lemma view_None r id : reg_wf r -> view r id = None -> rg_sessions r !! id = None.
Proof.
  intros Hwf Hv. destruct (rg_sessions r !! id) eqn:E; [|done]. by destruct (proj1 (view_known r id Hwf) (mk_is_Some _ _ E)).
Qed.

Lemma next_views_locked n s ob : so_locked ob = true -> next_views n (Some (Some (s, ob))) = Some (Some (s, ob)).
Proof. intros Hl. induction n as [|n IH]; [done|]. cbn. by rewrite Hl. Qed.

Lemma next_views_idle n s ob :
  so_locked ob = false -> 0 <= so_inactiveCount ob < 5 ->
  next_views n (Some (Some (s, ob))) =
    if so_inactiveCount ob + Z.of_nat n <? 5 then Some (Some (s, so_set_inactive (so_inactiveCount ob + Z.of_nat n) ob)) else None.
Proof.
  revert ob. induction n as [|n IH]; intros ob Hl Hc.
  - cbn. rewrite Z.add_0_r. destruct (Z.ltb_spec (so_inactiveCount ob) 5); [|lia]. do 3 f_equal. by destruct ob.
  - cbn [next_views next_view]. rewrite Hl, u32_id by lia. unfold sessionInactiveMaxCount.
    destruct (Z.leb_spec 5 (so_inactiveCount ob + 1)).
    + rewrite next_views_None. destruct (Z.ltb_spec (so_inactiveCount ob + Z.of_nat (S n)) 5); [lia|done].
    + rewrite IH by (cbn; lia || done). cbn [so_inactiveCount so_set_inactive].
      replace (so_inactiveCount ob + 1 + Z.of_nat n) with (so_inactiveCount ob + Z.of_nat (S n)) by lia. done.
Qed.

Lemma rounds_none r : reg_wf r -> rounds_done 0 r r.
Proof. intros Hwf. split; try done. intros id s ob fd sfd H1 H2. congruence. Qed.

(** The loop, with the outcome it has when its rounds are used up. *)
Lemma run_collector stopped n r :
  reg_wf r ->
  exists m r', rounds_done m r r' /\
    (run (alone_step stopped) (CollectInactiveSessions n) r = (OutOfFuel, r') /\ m = n /\
       (stopped = true -> forall j, n = S j -> exists r1, rounds_done j r r1 /\ rg_sessions r1 <> ∅) \/
     stopped = true /\ run (alone_step stopped) (CollectInactiveSessions n) r = (Done tt, r') /\ (m <= n)%nat /\ rg_sessions r' = ∅).
Proof.
  revert r. induction n as [|n IH]; intros r Hwf.
  - exists 0%nat, r. split; [|by left]. apply rounds_none, Hwf.
  - destruct (run_round stopped r Hwf) as (r1 & Hr1 & Hrun).
    assert (run (alone_step stopped) (CollectInactiveSessions (S n)) r =
      if stopped && bool_decide (rg_sessions r = ∅) then (Done tt, r1)
      else run (alone_step stopped) (CollectInactiveSessions n) r1) as E.
    { unfold CollectInactiveSessions at 1. cbn [loop]. rewrite run_bind. run_step. cbn [alone_step reg_answer out_yes].
      rewrite Hrun. destruct stopped, (bool_decide _); done. }
    destruct (stopped && bool_decide (rg_sessions r = ∅)) eqn:Es.
    + apply andb_prop in Es as [-> He%bool_decide_eq_true]. exists 1%nat, r1. split.
      * eapply rounds_next; [done|]. apply rounds_none, Hr1.
      * right. split_and!; [done|done|lia|]. apply map_eq. intros id. rewrite lookup_empty. apply view_None; [apply Hr1|].
        rewrite (rd_view _ _ Hr1). unfold view. by rewrite He, lookup_empty.
    + destruct (IH r1 (rd_wf _ _ Hr1)) as (m & r' & Hr' & Hor). exists (S m), r'. split; [by eapply rounds_next|].
      rewrite E. destruct Hor as [(-> & -> & Hj)|(-> & -> & Hm & Hs)]; [left|right; split_and!; [done|done|lia|done]].
      split_and!; [done|done|]. intros -> j [= ->]. destruct j as [|j].
      * exists r. split; [by apply rounds_none|]. by case_bool_decide.
      * destruct (Hj eq_refl j eq_refl) as (r2 & Hr2 & Hne). exists r2. split; [by eapply rounds_next|done].
Qed.
