(* ===== verification/ServerRegistryThms.v ===== *)
(** * Theorems: the registry of sessions

    Exclusive use of sessions, the descriptors they hold, the collector of
    abandoned sessions, and a session that outlives its entry. *)
From S2P Require Import Prelude GoIO Prog ServerRegistry ServerRegistryOk ServerRegistryInv ServerCollector.

(** C6: A session is used by one connection at a time and by its user only. In
    every state of the registry that requests, connections and the collector can
    reach in any order (ids of removed sessions not drawn again): a connection
    holds the lock of its session and works for the user who created it, no two
    connections have the same session, an id leads to the session that carries it,
    and a mutex that is not locked is never unlocked. *)
Theorem sessions_exclusive (fuel : nat) (r : registry) :
  registry_reachable fuel r ->
  (forall i s, serves r i = Some s ->
     (exists th ob, rg_threads r !! i = Some th /\ rg_objs r !! s = Some ob /\ so_locked ob = true /\
        gr_user th = Some (so_Username ob)) /\
     forall j, serves r j = Some s -> i = j) /\
  (forall i s u k, rg_threads r !! i = Some (mkGoroutine u (Vis (LockUnlock s) k)) ->
     (exists ob, rg_objs r !! s = Some ob /\ so_locked ob = true) /\ forall j, j <> i -> serves r j <> Some s) /\
  (forall id s, rg_sessions r !! id = Some (Some s) -> exists ob, rg_objs r !! s = Some ob /\ so_Id ob = id) /\
  (forall i u, rg_threads r !! i <> Some (mkGoroutine u Panic)).
Proof.
  intros [hs Hv]%registry_reachable_inv. split_and!.
  - intros i s Hs. destruct (reg_inv_serves _ _ _ _ Hv Hs) as (u & k & h & Hth & Hh & Hin & _ & Hck). split.
    + destruct (reg_inv_locked _ _ _ _ _ Hv Hh Hin) as (ob & Hob & Hl).
      destruct (rv_users _ _ Hv _ _ _ _ Hth Hh Hck) as (ob' & Hob' & Hu). rewrite Hob in Hob'. injection Hob' as <-.
      by exists (mkGoroutine u (Vis (ConnEnds s) k)), ob.
    + intros j Hj. destruct (reg_inv_serves _ _ _ _ Hv Hj) as (u' & k' & h' & _ & Hh' & Hin' & _).
      by eapply reg_inv_excl.
  - intros i s u k Hth. destruct (Forall2_lookup_l _ _ _ _ _ (rv_safe _ _ Hv) Hth) as (h & Hh & [Hpre _]).
    destruct (reg_pre_cases _ _ _ Hpre) as [(? & ? & _)|[_ [Hin _]]]; [done|]. split.
    + by eapply reg_inv_locked.
    + intros j Hne Hj. destruct (reg_inv_serves _ _ _ _ Hv Hj) as (u' & k' & h' & _ & Hh' & Hin' & _).
      by destruct Hne; eapply reg_inv_excl.
  - intros id s Hs. pose proof (ii_map _ _ _ _ (rv_ids _ _ Hv) _ _ Hs) as E. rewrite list_lookup_fmap in E.
    destruct (rg_objs r !! s) as [ob|]; [|done]. exists ob. split; [done|]. by injection E.
  - intros i u Hth. by destruct (Forall2_lookup_l _ _ _ _ _ (rv_safe _ _ Hv) Hth) as (h & _ & []).
Qed.

(** No descriptor is closed twice or lost. In every reachable state a
    descriptor in a table of a session is open and in no other place, one about to
    be closed is open, in no table any more and about to be closed by one goroutine
    only, and every descriptor that is open is in a table or the next request of a
    goroutine closes it (unless the fuel cuts a goroutine off). *)
Theorem descriptors_kept (fuel : nat) (r : registry) :
  registry_reachable fuel r ->
  (forall s ob fd sfd, rg_objs r !! s = Some ob -> so_fds ob !! fd = Some sfd ->
     sfd ∈ rg_open r /\
     forall s' ob' fd', rg_objs r !! s' = Some ob' -> so_fds ob' !! fd' = Some sfd -> s' = s /\ fd' = fd) /\
  (forall i u sfd k, rg_threads r !! i = Some (mkGoroutine u (Vis (CloseSFD sfd) k)) ->
     sfd ∈ rg_open r /\
     (forall s ob fd, rg_objs r !! s = Some ob -> so_fds ob !! fd <> Some sfd) /\
     forall j u' k', rg_threads r !! j = Some (mkGoroutine u' (Vis (CloseSFD sfd) k')) -> i = j) /\
  ((forall i u, rg_threads r !! i <> Some (mkGoroutine u Diverge)) -> forall sfd, sfd ∈ rg_open r ->
     (exists s ob fd, rg_objs r !! s = Some ob /\ so_fds ob !! fd = Some sfd) \/
     exists i u k, rg_threads r !! i = Some (mkGoroutine u (Vis (CloseSFD sfd) k))).
Proof.
  intros [hs Hv]%registry_reachable_inv. pose proof (rv_files _ _ Hv) as HF.
  assert (forall i u sfd k, rg_threads r !! i = Some (mkGoroutine u (Vis (CloseSFD sfd) k)) ->
    (ho_pending <$> hs) !! i = Some (Some sfd)) as Hp.
  { intros i u sfd k Hth. destruct (Forall2_lookup_l _ _ _ _ _ (rv_safe _ _ Hv) Hth) as (h & Hh & [Hpre _]).
    rewrite list_lookup_fmap, Hh. cbn. f_equal. by destruct (reg_pre_cases _ _ _ Hpre) as [(? & [= ->] & ?)|[_ []]]. }
  split_and!.
  - intros s ob fd sfd Hob Hfd. pose proof (lookup_proj so_fds r s ob Hob) as Hs. split; [by eapply (fi_open _ _ _ _ _ HF)|].
    intros s' ob' fd' Hob' Hfd'. by eapply (fi_once _ _ _ _ _ HF); [apply (lookup_proj so_fds r s' ob' Hob')|exact Hs|..].
  - intros i u sfd k Hth. pose proof (Hp _ _ _ _ Hth) as Hi. split_and!.
    + by eapply (fi_pending _ _ _ _ _ HF).
    + intros s ob fd Hob Hfd. destruct (fi_open _ _ _ _ _ HF s (so_fds ob) fd sfd (lookup_proj so_fds r s ob Hob) Hfd) as [_ Hno]. by eapply Hno.
    + intros j u' k' Hj. eapply (fi_pendings _ _ _ _ _ HF); [done|by eapply Hp].
  - intros Hnd sfd [(s & m & fd & Hs & Hm)|[i Hi]]%(fi_all _ _ _ _ _ HF).
    + left. rewrite list_lookup_fmap in Hs. destruct (rg_objs r !! s) as [ob|] eqn:Hob; [|done]. injection Hs as <-.
      by exists s, ob, fd.
    + right. rewrite list_lookup_fmap in Hi. destruct (hs !! i) as [h|] eqn:Hh; [|done].
      destruct (Forall2_lookup_r _ _ _ _ _ (rv_safe _ _ Hv) Hh) as ([u p] & Hth & Hs). injection Hi as Hi.
      exists i, u. unfold goroutine_safe in Hs. cbn in Hs. destruct p as [a|e k| |]; [|destruct Hs as [Hpre _]|done|by destruct (Hnd i u)].
      * destruct u; [destruct Hs as [[[_ ?] _] _]|destruct Hs as [[_ ?] _]]; congruence.
      * destruct (reg_pre_cases _ _ _ Hpre) as [(x & -> & Hx)|[Hx _]]; [|congruence].
        rewrite Hx in Hi. injection Hi as ->. by exists k.
Qed.

(** C31: The collector destroys a session at its fifth scan without a connection and
    no sooner: after [n] rounds of CollectInactiveSessions a session somebody holds
    is as it was, and one that was free is still in the registry, with [n] scans
    counted, or, when the count has reached five, is gone from it and the
    descriptors it had open are closed. Once the registry is stopped and every
    session is free, the collector ends within six rounds, with no session left. *)
Theorem collector_collects (n : nat) (r : registry) :
  reg_wf r ->
  (exists r', run (alone_step false) (CollectInactiveSessions n) r = (OutOfFuel, r') /\
     forall id s ob, rg_sessions r !! id = Some (Some s) -> rg_objs r !! s = Some ob ->
       (so_locked ob = true -> rg_sessions r' !! id = Some (Some s) /\ rg_objs r' !! s = Some ob) /\
       (so_locked ob = false -> 0 <= so_inactiveCount ob < 5 ->
          if so_inactiveCount ob + Z.of_nat n <? 5
          then rg_sessions r' !! id = Some (Some s) /\
               rg_objs r' !! s = Some (so_set_inactive (so_inactiveCount ob + Z.of_nat n) ob)
          else rg_sessions r' !! id = None /\ forall fd sfd, so_fds ob !! fd = Some sfd -> sfd ∉ rg_open r')) /\
  ((forall id v, rg_sessions r !! id = Some v ->
      exists s ob, v = Some s /\ rg_objs r !! s = Some ob /\ so_locked ob = false /\ 0 <= so_inactiveCount ob < 5) ->
   (6 <= n)%nat ->
   exists r', run (alone_step true) (CollectInactiveSessions n) r = (Done tt, r') /\ rg_sessions r' = ∅).
Proof.
  intros Hwf. split.
  - destruct (run_collector false n r Hwf) as (m & r' & Hr & [(Hrun & -> & _)|[? _]]); [|done].
    exists r'. split; [done|]. intros id s ob Hs Ho. pose proof (view_session _ _ _ _ Hs Ho) as Hv.
    pose proof (rs_view _ _ _ Hr id) as Hv'. rewrite Hv in Hv'. split.
    + intros Hl. rewrite next_views_locked in Hv' by done. by apply view_Some.
    + intros Hl Hc. rewrite next_views_idle in Hv' by done. destruct (_ <? 5); [by apply view_Some in Hv'|].
      split; [apply view_None; [apply Hr|done]|]. intros fd sfd Hfd. by eapply (rs_closed _ _ _ Hr).
  - intros Hall Hn. destruct (run_collector true n r Hwf) as (m & r' & Hr & [(Hrun & -> & Hj)|(_ & Hrun & _ & Hs)]); [|by exists r'].
    exfalso. destruct n as [|n]; [lia|]. destruct (Hj eq_refl n eq_refl) as (r1 & Hr1 & Hne). apply Hne, map_eq.
    intros id. rewrite lookup_empty. apply view_None; [apply Hr1|]. rewrite (rs_view _ _ _ Hr1).
    destruct (rg_sessions r !! id) as [v|] eqn:Hv; [|unfold view; by rewrite Hv, next_views_None].
    destruct (Hall id v Hv) as (s & ob & -> & Hob & Hl & Hc). rewrite (view_session _ _ _ _ Hv Hob), next_views_idle by done.
    by destruct (Z.ltb_spec (so_inactiveCount ob + Z.of_nat n) 5); [lia|].
Qed.

(** ** Schedules *)

Section Schedules.
Context (fuel : nat).

Definition fresh (r : registry) (a : raction) : bool :=
  match a with
  | Go i _ =>
      match rg_threads r !! i with
      | Some (mkGoroutine _ (Vis (MapLoadOrStoreNil id) _)) =>
          forallb (fun ob => negb (bool_decide (so_Id ob = id)) || (if rg_sessions r !! id then true else false)) (rg_objs r)
      | _ => true
      end
  | _ => true
  end.

Lemma fresh_ok r a : fresh r a = true -> ids_fresh r a.
Proof.
  destruct a as [|i o| |]; try done. cbn. intros Hf u id k Hth ob Hob Hid. rewrite Hth in Hf.
  rewrite forallb_forall in Hf. specialize (Hf ob (proj1 (list_elem_of_In _ _) Hob)). rewrite bool_decide_true in Hf by done.
  destruct (rg_sessions r !! id); [by eexists|done].
Qed.

(** A schedule; what cannot happen is left out. *)
Fixpoint reg_after (l : list raction) (r : registry) : registry :=
  match l with [] => r | a :: l' => reg_after l' (default r (reg_act fuel a r)) end.

Fixpoint all_fresh (l : list raction) (r : registry) : bool :=
  match l with [] => true | a :: l' => fresh r a && all_fresh l' (default r (reg_act fuel a r)) end.

Lemma reg_after_reachable l r :
  registry_reachable fuel r -> all_fresh l r = true -> registry_reachable fuel (reg_after l r).
Proof.
  revert r. induction l as [|a l IH]; intros r Hr; [done|]. cbn. intros [Hf Hl]%andb_prop. apply IH; [|done].
  destruct (reg_act fuel a r) eqn:E; [|done]. eapply rr_act; [done|by apply fresh_ok|done].
Qed.
End Schedules.

Definition alice : User := mkUser (str "alice") false.
Definition an_id : gostring := str "AAAAAAAAAAAAAAAAAAAAAA".
Definition yes : outside := mkOutside (Some an_id) true [].
Definition no : outside := mkOutside (Some an_id) false [].
Definition goes (i n : nat) : list raction := repeat (Go i yes) n.

(** A user connects and opens a file; meanwhile the client asks to resume the
    session and is stopped before it takes the lock. *)
Definition two_clients : registry :=
  reg_after 10 ([Arrive alice []] ++ goes 1 8 ++ [OpenFile 2 0 1 7; Arrive alice an_id] ++ goes 3 2) (registry_init 10).

Lemma two_clients_reachable : registry_reachable 10 two_clients.
Proof. apply reg_after_reachable; [apply rr_init|by vm_compute]. Qed.

(** The first connection ends gracefully; the other client gets the session. *)
Definition orphaned : registry :=
  reg_after 10 (goes 2 7 ++ goes 3 3 ++ [OpenFile 4 0 1 8; Go 4 no; Go 4 no; Go 4 no]) two_clients.

Definition ended (th : goroutine) : bool := match gr_prog th with Ret _ => true | _ => false end.

(** A session can be destroyed and live on: when a connection ends gracefully
    while a client that resumes the session has looked it up and not locked it yet,
    that client gets the destroyed session. In the state shown everybody but the
    collector has ended, no id leads to a session, so none can be resumed or
    collected, and the session's file is open still. *)
Theorem orphaned_session :
  registry_reachable 10 orphaned /\
  forallb ended (drop 1 (rg_threads orphaned)) = true /\
  rg_sessions orphaned = ∅ /\
  (exists ob, rg_objs orphaned !! 0%nat = Some ob /\ so_locked ob = false /\ so_fds ob = {[1 := 8]}) /\
  rg_open orphaned = {[8]}.
Proof.
  split_and!.
  - apply reg_after_reachable; [exact two_clients_reachable|by vm_compute].
  - by vm_compute.
  - by vm_compute.
  - eexists. split; [by vm_compute|]. by split.
  - by vm_compute.
Qed.

(** ** Witnesses *)

Lemma sessions_exclusive_witness :
  registry_reachable 10 two_clients /\ serves two_clients 2 = Some 0%nat /\ forall j, serves two_clients j = Some 0%nat -> 2%nat = j.
Proof.
  assert (serves two_clients 2 = Some 0%nat) as H by (by vm_compute).
  split_and!; [exact two_clients_reachable|exact H|].
  exact (proj2 (proj1 (sessions_exclusive 10 two_clients two_clients_reachable) 2%nat 0%nat H)).
Defined.

Lemma descriptors_kept_witness :
  registry_reachable 10 two_clients /\ exists ob, rg_objs two_clients !! 0%nat = Some ob /\ so_fds ob !! 1 = Some 7 /\ 7 ∈ rg_open two_clients.
Proof.
  set (ob := mkSessobj an_id (str "alice") true 0 {[1 := 7]}).
  assert (rg_objs two_clients !! 0%nat = Some ob) as H by (by vm_compute).
  split; [exact two_clients_reachable|]. exists ob. split_and!; [exact H|by vm_compute|].
  exact (proj1 (proj1 (descriptors_kept 10 two_clients two_clients_reachable) 0%nat ob 1 7 H eq_refl)).
Defined.

(** A session that three scans found without a connection. *)
Definition hibernating : registry :=
  mkRegistry {[an_id := Some 0%nat]} [mkSessobj an_id (str "alice") false 3 {[1 := 7]}] {[7; 9]} [].

Lemma hibernating_wf : reg_wf hibernating.
Proof. intros id s Hs. cbn in Hs. apply lookup_singleton_Some in Hs as [<- [= <-]]. by eexists. Qed.

Lemma collector_collects_witness :
  reg_wf hibernating /\
  exists r', run (alone_step false) (CollectInactiveSessions 2) hibernating = (OutOfFuel, r') /\
    rg_sessions r' !! an_id = None /\ 7 ∉ rg_open r'.
Proof.
  split; [exact hibernating_wf|].
  destruct (proj1 (collector_collects 2 hibernating hibernating_wf)) as (r' & Hrun & H).
  exists r'. destruct (H an_id 0%nat (mkSessobj an_id (str "alice") false 3 {[1 := 7]})) as [_ Hc]; [by vm_compute|done|].
  destruct (Hc eq_refl ltac:(cbn; lia)) as [Hs Hf]. split_and!; [done|done|]. by apply (Hf 1).
Defined.
