(* ===== verification/ServerWebdavThms.v ===== *)
(** * Theorems: WebDAV

    What every request does to the storage, the header of partial updates, and a
    move that loses what it moves. *)
From S2P Require Import Prelude GoIO Prog Paths ServerRegistry ServerWebdav ServerWebdavOk.

(** C13: Every WebDAV request is carried out within the storage and answered once.
    Whatever the operating system answers, a request with a valid path, for any
    method and headers, hands the system no path outside the storage (the one a
    Destination names included), changes nothing when the user is a reader, uses
    only files it has open and closes them all, and ends with its status sent,
    once, and no header set after that; no index is out of range. Only PROPFIND,
    which walks directories as deep as they are, is not known to end. *)
Theorem webdav_request (total readOnly : bool) (root : gostring) (h : handler) (n fuel : nat) (req : request) :
  root_ok root -> IsUrlValid (rq_Path req) = true ->
  (total = true -> rq_Method req <> str "PROPFIND" /\ rq_Method req <> str "PROPPATCH") ->
  wp total (dav_env root readOnly) (webdav_ServeHTTP h root n fuel req readOnly) start
    (fun _ g => dg_open g = ∅ /\ dg_replied g = true).
Proof.
  intros Hr Hp Ht. eapply wp_mono; [by apply dwp_ServeHTTP|]. by intros [] g ->.
Qed.

(** ** X-Update-Range *)

Lemma digits_app d r :
  forallb is_digit d = true -> match r with b :: _ => is_digit b = false | [] => True end -> digits (d ++ r) = (d, r).
Proof.
  intros Hd Hr. induction d as [|b d IH]; cbn [app digits].
  - destruct r as [|b r]; [done|]. cbn. by rewrite Hr.
  - cbn in Hd. apply andb_prop in Hd as [Hb Hd]. by rewrite Hb, IH.
Qed.

Lemma digits_all d : forallb is_digit d = true -> digits d = (d, []).
Proof. intros Hd. rewrite <-(app_nil_r d) at 1. by apply digits_app. Qed.

Lemma digit_not_minus b d : forallb is_digit (b :: d) = true -> b <> minus.
Proof. by intros H ->. Qed.

Lemma dec_value_nonneg d : forallb is_digit d = true -> 0 <= dec_value d.
Proof.
  unfold dec_value. assert (forall n, 0 <= n -> forallb is_digit d = true -> 0 <= foldl (fun n b => 10 * n + (byte_val b - 48)) n d) as H.
  { induction d as [|b d IH]; intros n Hn; [done|]. cbn. intros [Hb Hd]%andb_prop. apply IH; [|done].
    unfold is_digit in Hb. apply andb_prop in Hb as [Hb _]. apply Z.leb_le in Hb. lia. }
  by apply H.
Qed.

Lemma ParseInt_digits d : forallb is_digit d = true -> d <> [] -> dec_value d < 2 ^ 63 -> ParseInt d = (dec_value d, true).
Proof.
  intros Hd Hne Hv. pose proof (dec_value_nonneg d Hd). destruct d as [|b d]; [done|]. unfold ParseInt.
  rewrite bool_decide_false by (by eapply digit_not_minus).
  destruct (Z.leb_spec (2 ^ 63) (dec_value (b :: d))); [lia|].
  destruct (Z.ltb_spec (dec_value (b :: d)) (- 2 ^ 63)); [lia|done].
Qed.

Lemma match_range_sign sign d r :
  sign = [] \/ sign = [minus] -> forallb is_digit d = true -> d <> [] ->
  match r with b :: _ => is_digit b = false | [] => True end ->
  match_range (str "bytes=" ++ sign ++ d ++ r) = let '(e, r') := match_end r in Some (sign ++ d, e, r').
Proof.
  intros Hs Hd Hne Hr. unfold match_range.
  rewrite (proj2 (HasPrefix_spec _ _)) by (by eexists).
  change (drop 6 (str "bytes=" ++ sign ++ d ++ r)) with (sign ++ d ++ r). destruct d as [|b d]; [done|].
  destruct Hs as [->| ->]; cbn [app].
  - rewrite bool_decide_false by (by eapply digit_not_minus). change (b :: d ++ r) with ((b :: d) ++ r).
    by rewrite digits_app.
  - rewrite bool_decide_true by done. change (b :: d ++ r) with ((b :: d) ++ r). by rewrite digits_app.
Qed.

Lemma parseRange_one s a e :
  match_range s = Some (a, e, []) ->
  parseRange s =
    match e with
    | _ :: e' =>
        let '(start, ok1) := ParseInt a in
        let '(end_, ok2) := ParseInt e' in
        if negb ok1 || negb ok2 || (end_ <? start) || (start <? 0) then None else Some (start, end_)
    | [] => Some ((ParseInt a).1, 0)
    end.
Proof.
  intros Hm. unfold parseRange. rewrite bool_decide_false by (by intros ->).
  cbn [FindAll]. rewrite Hm. by destruct s.
Qed.

Lemma ParseInt_bounds s : - 2 ^ 63 <= (ParseInt s).1 < 2 ^ 63.
Proof.
  unfold ParseInt. set (v := match s with [] => 0 | _ :: _ => _ end).
  destruct (Z.leb_spec (2 ^ 63) v); [cbn; lia|]. destruct (Z.ltb_spec v (- 2 ^ 63)); cbn [fst]; lia.
Qed.

Lemma ParseInt_minus d :
  forallb is_digit d = true -> d <> [] -> dec_value d < 2 ^ 63 -> (ParseInt (minus :: d)).1 = - dec_value d.
Proof.
  intros Hd Hne Hv. pose proof (dec_value_nonneg d Hd). unfold ParseInt. rewrite bool_decide_true by done.
  destruct (Z.leb_spec (2 ^ 63) (- dec_value d)); [lia|].
  by destruct (Z.ltb_spec (- dec_value d) (- 2 ^ 63)); [lia|].
Qed.

Lemma parseRange_bounds s a b :
  parseRange s = Some (a, b) -> - 2 ^ 63 <= a < 2 ^ 63 /\ - 2 ^ 63 <= b < 2 ^ 63 /\ (b < 0 -> s = str "append").
Proof.
  unfold parseRange. case_bool_decide as Es; [intros [= <- <-]; split_and!; [lia..|done]|].
  destruct (FindAll _ s) as [|[x e] [|]]; [done| |done]. pose proof (ParseInt_bounds x) as Hx.
  destruct e as [|c e]; [intros [= <- <-]; split_and!; [lia..|lia]|]. pose proof (ParseInt_bounds e) as He.
  destruct (ParseInt x) as [v1 ok1], (ParseInt e) as [v2 ok2]. cbn [fst] in *.
  destruct (negb ok1 || negb ok2); cbn [orb]; [done|].
  destruct (Z.ltb_spec v2 v1), (Z.ltb_spec v1 0); cbn [orb]; try done. intros [= <- <-]. split_and!; lia.
Qed.

(** parseRange understands the three forms of X-Update-Range for all numbers
    that fit 64 bits: "bytes=A-B" with A at most B is that range and is refused
    when A is above B, "bytes=A" starts at A, "bytes=-A" counts from the end, and
    "append" is the end of the file. Whatever the header says, the numbers it
    returns are 64-bit, and a negative end means to append. *)
Theorem parseRange_spec :
  (forall d e, forallb is_digit d = true -> forallb is_digit e = true -> d <> [] -> e <> [] ->
     dec_value d < 2 ^ 63 -> dec_value e < 2 ^ 63 ->
     parseRange (str "bytes=" ++ d ++ minus :: e) =
       if dec_value e <? dec_value d then None else Some (dec_value d, dec_value e)) /\
  (forall d, forallb is_digit d = true -> d <> [] -> dec_value d < 2 ^ 63 ->
     parseRange (str "bytes=" ++ d) = Some (dec_value d, 0) /\
     parseRange (str "bytes=" ++ minus :: d) = Some (- dec_value d, 0)) /\
  parseRange (str "append") = Some (0, -1) /\
  (forall s a b, parseRange s = Some (a, b) ->
     - 2 ^ 63 <= a < 2 ^ 63 /\ - 2 ^ 63 <= b < 2 ^ 63 /\ (b < 0 -> s = str "append")).
Proof.
  split_and!.
  - intros d e Hd He Hdn Hen Hdv Hev. pose proof (dec_value_nonneg d Hd).
    rewrite (parseRange_one _ d (minus :: e)).
    + rewrite !ParseInt_digits by done. cbn [negb orb].
      destruct (Z.ltb_spec (dec_value e) (dec_value d)); [done|]. by destruct (Z.ltb_spec (dec_value d) 0); [lia|].
    + change (str "bytes=" ++ d ++ minus :: e) with (str "bytes=" ++ [] ++ d ++ minus :: e).
      rewrite match_range_sign by auto. unfold match_end. rewrite bool_decide_true, digits_all by done.
      by destruct e.
  - intros d Hd Hdn Hdv. split.
    + rewrite (parseRange_one _ d []); [by rewrite ParseInt_digits|].
      change (str "bytes=" ++ d) with (str "bytes=" ++ [] ++ d). rewrite <-(app_nil_r d) at 1.
      by rewrite match_range_sign by auto.
    + rewrite (parseRange_one _ (minus :: d) []); [by rewrite ParseInt_minus|].
      change (str "bytes=" ++ minus :: d) with (str "bytes=" ++ [minus] ++ d). rewrite <-(app_nil_r d) at 1.
      by rewrite match_range_sign by auto.
  - done.
  - apply parseRange_bounds.
Qed.

(** ** A move that loses what it moves *)

(** The paths that exist, and the status sent. *)
Abbreviation tree := (gset gostring * option Z)%type.

Definition below (p q : gostring) : bool := bool_decide (q = p) || HasPrefix q (p ++ [slash]).

(** A small file system: enough for MOVE. *)
Definition tree_step (e : dev) : tree -> dans e * tree :=
  match e return tree -> dans e * tree with
  | DStat p => fun t => (if decide (p ∈ t.1) then Ok (mkOsinfo [] ModeDir 0) else Err ErrNotExist, t)
  | DOpen _ _ => fun t => (Err ErrOther, t)
  | DFstat _ => fun t => (Err ErrOther, t)
  | DReaddir _ _ => fun t => (([], Some None), t)
  | DRemoveAll p => fun t => (None, (filter (fun q => below p q = false) t.1, t.2))
  | DRename a b => fun t => if decide (a ∈ t.1) then (None, ({[b]} ∪ t.1 ∖ {[a]}, t.2)) else (Some ErrNotExist, t)
  | DFsSize _ => fun t => (Err ErrOther, t)
  | DWriteHeader st => fun t => (tt, (t.1, Some st))
  | DClose _ | DMkdir _ _ | DCopyBody _ | DCopyFile _ _ => fun t => (None, t)
  | _ => fun t => (tt, t)
  end.

Definition move_up : request :=
  mkRequest (str "MOVE") (str "/a/b") [] (fun k => if bool_decide (k = str "Overwrite") then str "T"
      else if bool_decide (k = str "Destination") then str "/a" else []) 0 None (Some ([], str "/a")).

(** Moving or copying something onto a directory it is in loses it: with
    Overwrite the destination is removed first, and the source with it. Here
    /a/b is moved to /a: everything in /a is gone and the answer is 403. *)
Theorem move_loses_source :
  let before : gset gostring := {[str "/srv"; str "/srv/a"; str "/srv/a/b"; str "/srv/a/c"]} in
  let '(outcome, (after, sent)) :=
    run tree_step (webdav_ServeHTTP (mkHandler false false false) (str "/srv") 0 0 move_up false) (before, None) in
  IsUrlValid (rq_Path move_up) = true /\ outcome = Done tt /\ sent = Some 403 /\ elements after = [str "/srv"].
Proof. vm_compute. repeat split. Qed.

(** ** Witnesses *)

Lemma webdav_request_witness :
  root_ok (str "/srv") /\
  wp true (dav_env (str "/srv") false) (webdav_ServeHTTP (mkHandler false false false) (str "/srv") 0 0 move_up false) start
    (fun _ g => dg_open g = ∅ /\ dg_replied g = true).
Proof.
  assert (root_ok (str "/srv")) as Hr.
  { exists [str "srv"]. split; [|reflexivity]. constructor; [|constructor]. by apply (bool_decide_eq_true_1 (ordinary (str "srv"))). }
  split; [exact Hr|].
  apply (webdav_request true false (str "/srv") (mkHandler false false false) 0 0 move_up Hr); [reflexivity|]. by split.
Defined.
