(* ===== verification/ServerHttpThms.v ===== *)
(** * Theorems: who reaches the handlers

    What NewUsers makes of the configuration, and what must hold of a request
    before a handler of files sees it. *)
From S2P Require Import Prelude GoIO Paths ServerRegistry ServerHttp.

Section Users.
Context (cwd : gostring) (st : list config_Storage) (us : list config_User) (an : config_Anonymous).

(** A storage of the configuration with its path and flag. *)
Definition has_storage (id path : gostring) (ro : bool) : Prop :=
  exists c, c ∈ st /\ cs_Id c = id /\ path = NewStorage_Path cwd (cs_Path c) /\ ro = cs_ReadOnly c.

(** The user a configured user becomes. *)
Definition configured (u : storage_User) : Prop :=
  exists c path ro, c ∈ us /\ has_storage (cu_Storage c) path ro /\ cu_Name c <> [] /\
    u = mkStorageUser (cu_Name c) (cu_SecretHash c) (ro || cu_ReadOnly c) path.

Definition configured_anonymous (u : storage_User) : Prop :=
  exists path ro, ca_Enable an = true /\ has_storage (ca_Storage an) path ro /\
    u = mkStorageUser (str "<anonymous>") [] (ro || ca_ReadOnly an) path.

Lemma collect_storages_spec l m m' :
  (forall id path ro, m !! id = Some (path, ro) -> has_storage id path ro) -> (forall c, c ∈ l -> c ∈ st) ->
  collect_storages cwd l m = Ok m' -> forall id path ro, m' !! id = Some (path, ro) -> has_storage id path ro.
Proof.
  revert m. induction l as [|c l IH]; intros m Hm Hl; cbn [collect_storages]; [by intros [= ->]|].
  destruct (m !! cs_Id c); [done|]. apply IH; [|intros c' Hc'; apply Hl; by right].
  intros id path ro [[<- [= <- <-]]|[_ H]]%lookup_insert_Some; [|by apply Hm]. exists c. split_and!; try done. apply Hl. by left.
Qed.

Lemma collect_users_spec storages l users users' :
  (forall id path ro, storages !! id = Some (path, ro) -> has_storage id path ro) -> (forall c, c ∈ l -> c ∈ us) ->
  (forall name u, users !! name = Some u -> su_Name u = name /\ configured u) ->
  collect_users storages l users = Ok users' -> forall name u, users' !! name = Some u -> su_Name u = name /\ configured u.
Proof.
  intros Hs. revert users. induction l as [|c l IH]; intros users Hl Hu; cbn [collect_users]; [by intros [= ->]|].
  destruct (users !! cu_Name c); [done|]. case_bool_decide as Hne; [done|].
  destruct (storages !! cu_Storage c) as [[path ro]|] eqn:E; [|done].
  apply IH; [intros c' Hc'; apply Hl; by right|].
  intros name u [[<- <-]|[_ H]]%lookup_insert_Some; [|by apply Hu]. split; [done|].
  exists c, path, ro. split_and!; [apply Hl; by left|by apply Hs|done|done].
Qed.

Lemma NewUsers_spec users anonymous :
  NewUsers cwd st us an = Ok (users, anonymous) ->
  (forall name u, users !! name = Some u -> su_Name u = name /\ configured u) /\
  (forall u, anonymous = Some u -> configured_anonymous u).
Proof.
  unfold NewUsers. destruct (collect_storages cwd st ∅) as [storages|] eqn:Es; [|done].
  pose proof (collect_storages_spec st ∅ storages ltac:(by intros ???; rewrite lookup_empty) ltac:(done) Es) as Hs.
  destruct (collect_users storages us ∅) as [users0|] eqn:Eu; [|done].
  pose proof (collect_users_spec storages us ∅ users0 Hs ltac:(done) ltac:(by intros ??; rewrite lookup_empty) Eu) as Hu.
  destruct (ca_Enable an) eqn:Ea; [|intros [= <- <-]; by split].
  destruct (storages !! ca_Storage an) as [[path ro]|] eqn:E; [|done]. intros [= <- <-]. split; [done|].
  intros u [= <-]. exists path, ro. split_and!; [done|by apply Hs|done].
Qed.
End Users.

(** The user a response is made for. *)
Definition serves_user (rsp : response) : option storage_User :=
  match rsp with WsfsHandler u _ | ServeList u | WebdavHandler u => Some u | _ => None end.

Lemma serve_files_user s req u u' : serves_user (serve_files s req u) = Some u' -> u' = u.
Proof. unfold serve_files. repeat case_match; intros [= <-] || intros [=]; done. Qed.

(** C7: Nobody reaches the files without being entitled to: when a handler (WSFS,
    WebDAV or the listing) gets a request, its path is valid and its user is one
    of the configuration: either the one whose name and password the request
    carries, or the anonymous user, enabled, who was not asked to log in and either
    sent no credentials or calls himself "anonymous", a name no user has. That user
    works in the storage the configuration gives him, below its root, is a reader
    when he or the storage is read-only, and a reader never gets to WSFS. *)
Theorem http_access (compare : gostring -> gostring -> comparison) (cwd : gostring) (st : list config_Storage)
    (us : list config_User) (an : config_Anonymous) (s : server) (req : http_request) (user : storage_User) :
  is_rooted cwd = true -> NewUsers cwd st us an = Ok (sv_users s, sv_anonymous s) ->
  serves_user (Server_ServeHTTP compare s req) = Some user ->
  IsUrlValid (hr_Path req) = true /\ root_ok (su_Path user) /\
  ((exists password, hr_BasicAuth req = Some (su_Name user, password) /\ compare (su_Password user) password = Matches /\
      configured cwd st us user) \/
   configured_anonymous cwd st an user /\ hr_query req (str "must-login") = false /\
     (hr_Get req (str "Authorization") = [] \/
      sv_users s !! anonymousUsername = None /\ exists password, hr_BasicAuth req = Some (anonymousUsername, password))) /\
  (forall resume, Server_ServeHTTP compare s req = WsfsHandler user resume -> su_ReadOnly user = false).
Proof.
  intros Hcwd Hnew Hserve. destruct (NewUsers_spec _ _ _ _ _ _ Hnew) as [Hus Han].
  unfold Server_ServeHTTP in *. destruct (IsUrlValid (hr_Path req)); cbn [negb] in *; [|done].
  destruct (hr_query req (str "webui-assets") && sv_webui s); [by destruct (negb (is_get req))|].
  destruct (tryAuth compare s req) as [rsp|u] eqn:Eauth.
  { exfalso. unfold tryAuth in Eauth. by repeat case_match; simplify_eq. }
  assert (user = u) as ->.
  { destruct (sv_wsfs s); [|destruct (hr_query req _); [done|by eapply serve_files_user]].
    unfold TryServerHTTP in Hserve. repeat case_match; simplify_eq/=; try done; by eapply serve_files_user. }
  assert (forall id path ro, has_storage cwd st id path ro -> root_ok path) as Hroot
    by (intros id path ro (c & _ & _ & -> & _); by apply NewStorage_root_ok).
  split; [done|].
  assert ((exists password, hr_BasicAuth req = Some (su_Name u, password) /\ compare (su_Password u) password = Matches /\
      configured cwd st us u) \/
    configured_anonymous cwd st an u /\ hr_query req (str "must-login") = false /\
     (hr_Get req (str "Authorization") = [] \/
      sv_users s !! anonymousUsername = None /\ exists password, hr_BasicAuth req = Some (anonymousUsername, password))) as Hwho.
  { unfold tryAuth, httpBasicAuth in Eauth. case_bool_decide as Ea.
    - right. destruct (sv_anonymous s); [|done]. destruct (hr_query req (str "must-login")); [done|]. injection Eauth as ->. auto.
    - destruct (hr_BasicAuth req) as [[name password]|] eqn:Eb; [|done]. unfold authUser in Eauth.
      destruct (sv_users s !! name) as [u0|] eqn:Eu.
      + left. unfold checkPassword in Eauth. destruct (compare (su_Password u0) password) eqn:Ec; try done. injection Eauth as ->.
        destruct (Hus name u Eu) as [<- Hc]. by exists password.
      + case_bool_decide as En; [|done]. right. subst name. destruct (sv_anonymous s); [|done].
        destruct (hr_query req (str "must-login")); [done|]. injection Eauth as ->. split_and!; [by apply Han|done|right; eauto]. }
  split_and!; [|done|].
  - destruct Hwho as [(pw & _ & _ & (c & path & ro & _ & Hst & _ & ->))|[(path & ro & _ & Hst & ->) _]]; by eapply Hroot.
  - intros resume Hw. destruct (sv_wsfs s); [|destruct (hr_query req _); [done|]].
    + unfold TryServerHTTP in Hw. destruct (negb (isWebSocketUpgrade req)).
      * destruct (hr_query req _); [done|]. unfold serve_files in Hw. by repeat case_match.
      * by destruct (su_ReadOnly u).
    + unfold serve_files in Hw. by repeat case_match.
Qed.

(** ** Witness *)

(** Tokens are found among others, in any case and with the Kelvin sign. *)
Definition an_upgrade : http_request :=
  mkHttpRequest (str "GET") (str "/")
    (fun k => if bool_decide (k = str "Connection") then [str "keep-alive,  uPGRADE "]
      else if bool_decide (k = str "Upgrade") then [str "webSoc" ++ bytes_of [226; 132; 170] ++ str "et"]
      else if bool_decide (k = str "Authorization") then [str "Basic YWxpY2U6c2VjcmV0"] else [])
    (fun q => bool_decide (q = str "wsfs")) (Some (str "alice", str "secret")).

Definition plain_compare (hash password : gostring) : comparison := if bool_decide (hash = password) then Matches else Mismatched.
Definition a_storage : config_Storage := mkConfigStorage [] (str "/srv/files/") false.
Definition config_alice : config_User := mkConfigUser (str "alice") (str "secret") false [].
Definition no_anonymous : config_Anonymous := mkConfigAnonymous false false [].
Definition user_alice : storage_User := mkStorageUser (str "alice") (str "secret") false (str "/srv/files").
Definition a_server : server := mkServer false true true {[str "alice" := user_alice]} None.

Lemma a_server_users :
  NewUsers (str "/") [a_storage] [config_alice] no_anonymous = Ok (sv_users a_server, sv_anonymous a_server).
Proof.
  unfold NewUsers. cbn [collect_storages collect_users]. rewrite !lookup_empty.
  rewrite bool_decide_false by done.
  change (cu_Storage config_alice) with (cs_Id a_storage). rewrite lookup_insert_eq.
  assert (NewStorage_Path (str "/") (cs_Path a_storage) = str "/srv/files") as -> by (by vm_compute). done.
Qed.

Lemma http_access_witness :
  Server_ServeHTTP plain_compare a_server an_upgrade = WsfsHandler user_alice [] /\ root_ok (su_Path user_alice).
Proof.
  assert (Server_ServeHTTP plain_compare a_server an_upgrade = WsfsHandler user_alice []) as E by (by vm_compute).
  split; [exact E|].
  apply (http_access plain_compare (str "/") [a_storage] [config_alice] no_anonymous a_server an_upgrade user_alice);
    [reflexivity|exact a_server_users|by rewrite E].
Defined.
