(* ===== verification/ClientUnixThms.v ===== *)
(** * Theorems: conversions from end to end

    What a request of the kernel becomes on its way through the client
    (ClientUnix), the protocol and the handlers of the server (ServerCmds): flags of
    open(2), modes, owners, locks and errors. *)
From S2P Require Import Prelude GoIO Codec Structs StructGen Prog Paths UnixConv ServerEnv ServerCmds UnixThms ClientEnv ClientUnix ClientFuse.

(** ** Open flags *)

(** The flags of Linux by their own numbers. *)
Definition linux_flags : list Z :=
  [0; 1; 2; 2 ^ 9; 2 ^ 7; 2 ^ 6; 2 ^ 16; 2 ^ 10; 2 ^ 12; O_SYNC; 2 ^ 17; 2 ^ 14; 2 ^ 18].

Definition from_sys_step (x out : Z) (kv : Z * Z) : Z :=
  let '(unixFlag, wsfsFlag) := kv in
  if has_flag unixFlag (unix_O_ACCMODE (UnixABI := linux_amd64)) then out
  else if has_flag x unixFlag then Z.lor out wsfsFlag else out.

Lemma from_sys_list x a l :
  foldl (from_sys_step x) a (map (fun f => (f, f)) l) =
  foldl Z.lor a (map (fun f => if has_flag f 3 then 0 else if has_flag x f then f else 0) l).
Proof.
  revert a. induction l as [|f l IH]; intros a; [done|]. cbn [map foldl]. rewrite IH. f_equal.
  unfold from_sys_step. change (unix_O_ACCMODE (UnixABI := linux_amd64)) with 3.
  destruct (has_flag f 3); [by rewrite Z.lor_0_r|]. destruct (has_flag x f); [done|by rewrite Z.lor_0_r].
Qed.

(** The loop of OpenFlagFromSys on Linux: every bit is its own flag but O_SYNC. *)
Lemma from_sys_loop x a :
  foldl (from_sys_step x) a (OpenFlagFromUnix (abi := linux_amd64)) =
  Z.lor (Z.lor a (Z.land x plain_flags)) (if has_flag x O_SYNC then O_SYNC else 0).
Proof.
  change (OpenFlagFromUnix (abi := linux_amd64)) with (map (fun f => (f, f)) linux_flags).
  rewrite from_sys_list. unfold linux_flags.
  assert (forall k, 2 <= k -> (if has_flag (2 ^ k) 3 then 0 else if has_flag x (2 ^ k) then 2 ^ k else 0) = Z.land x (2 ^ k)) as Hb.
  { intros k Hk. rewrite <-has_flag_bit by lia. unfold has_flag at 1.
    assert (Z.land (2 ^ k) 3 = 0) as ->; [|done].
    change 3 with (Z.ones 2). rewrite Z.land_ones by lia. replace k with (2 + (k - 2)) by lia.
    rewrite Z.pow_add_r by lia. rewrite Z.mul_comm. apply Z.mod_mul. lia. }
  cbn [map]. rewrite !Hb by lia. unfold has_flag at 1 2 3 4 5 6 7. cbn [foldl].
  change (O_SYNC) with 0x101000. change (negb (Z.land 0x101000 3 =? 0)) with false. cbv iota.
  set (sync := if has_flag x 0x101000 then 0x101000 else 0).
  rewrite !(lor_swap _ sync). f_equal. rewrite Z.land_0_r. cbn [negb Z.eqb Z.land]. rewrite !Z.lor_0_r, <-!Z.lor_assoc, <-!Z.land_lor_distr_r.
  done.
Qed.

Lemma flag_sync x : has_flag x O_DSYNC || has_flag x O_SYNC = has_flag x O_SYNC.
Proof.
  destruct (has_flag x O_DSYNC) eqn:E; [|done]. simpl. unfold has_flag in *.
  destruct (Z.eqb_spec (Z.land x O_SYNC) 0) as [E2|]; [|done]. exfalso.
  assert (Z.land x O_DSYNC = Z.land (Z.land x O_SYNC) O_DSYNC) as E3 by (by rewrite <-Z.land_assoc).
  rewrite E2 in E3. by rewrite E3 in E.
Qed.

(** What the server opens a file with, given the flags of the protocol. *)
Definition server_open_flags (x : Z) : option Z :=
  match open_access (abi := linux_amd64) x with
  | Some access => open_flag_loop (abi := linux_amd64) x OpenFlags access
  | None => None
  end.

Lemma access_mode x : 0 <= Z.land x 3 < 4.
Proof. change 3 with (Z.ones 2). rewrite Z.land_ones by lia. apply Z.mod_pos_bound. lia. Qed.

Lemma server_open_flags_spec x :
  Z.land x 3 <> 3 ->
  server_open_flags x = Some (Z.lor (Z.lor (Z.land x 3) (Z.land x plain_flags)) (if has_flag x O_SYNC then O_SYNC else 0)).
Proof.
  intros H. pose proof (access_mode x) as Hacc. unfold server_open_flags, open_access.
  change O_ACCMODE with 3. change O_RDONLY with 0. change O_WRONLY with 1. change O_RDWR with 2.
  destruct (Z.eqb_spec (Z.land x 3) 0) as [E|]; [by rewrite open_flag_loop_linux, E|].
  destruct (Z.eqb_spec (Z.land x 3) 1) as [E|]; [by rewrite open_flag_loop_linux, E|].
  destruct (Z.eqb_spec (Z.land x 3) 2) as [E|]; [by rewrite open_flag_loop_linux, E|]. lia.
Qed.

Lemma OpenFlagFromSys_spec flags :
  let x := Z.ldiff flags (IgnoredUnixOpenFlagBits (abi := linux_amd64)) in
  OpenFlagFromSys (abi := linux_amd64) flags =
    if (Z.ldiff x (AcceptdUnixOpenFlagBits (abi := linux_amd64)) =? 0) && negb (Z.land x 3 =? 3)
    then Some (Z.lor (Z.lor (Z.land x 3) (Z.land x plain_flags)) (if has_flag x O_SYNC then O_SYNC else 0))
    else None.
Proof.
  cbv zeta. unfold OpenFlagFromSys. set (x := Z.ldiff flags _). pose proof (access_mode x) as Hacc.
  destruct (Z.ldiff x _ =? 0); cbn [negb andb]; [|done]. fold (from_sys_step x).
  change (unix_O_ACCMODE (UnixABI := linux_amd64)) with 3. change (unix_O_RDONLY (UnixABI := linux_amd64)) with 0.
  change (unix_O_WRONLY (UnixABI := linux_amd64)) with 1. change (unix_O_RDWR (UnixABI := linux_amd64)) with 2.
  change (Z.lor 0 O_RDONLY) with 0. change (Z.lor 0 O_WRONLY) with 1. change (Z.lor 0 O_RDWR) with 2.
  change (fun (out : Z) '(unixFlag, wsfsFlag) => if has_flag unixFlag 3 then out else if has_flag x unixFlag then Z.lor out wsfsFlag else out)
    with (from_sys_step x).
  destruct (Z.eqb_spec (Z.land x 3) 0) as [E|]; [by rewrite from_sys_loop, E|].
  destruct (Z.eqb_spec (Z.land x 3) 1) as [E|]; [by rewrite from_sys_loop, E|].
  destruct (Z.eqb_spec (Z.land x 3) 2) as [E|]; [by rewrite from_sys_loop, E|].
  assert (Z.land x 3 = 3) as -> by lia. done.
Qed.

(** All flags a client may pass on. *)
Definition all_flags : Z := 0x1756c3.

Definition with_sync (x : Z) : Z := Z.lor x (if has_flag x O_SYNC then O_SYNC else 0).

Lemma sync_bits x : Z.ldiff x all_flags = 0 ->
  Z.lor (Z.lor (Z.land x 3) (Z.land x plain_flags)) (if has_flag x O_SYNC then O_SYNC else 0) = with_sync x.
Proof.
  intros H. assert (Z.lor (Z.land x (Z.lor 3 plain_flags)) (Z.land x O_SYNC) = x) as Hx.
  { rewrite <-Z.land_lor_distr_r. change (Z.lor (Z.lor 3 plain_flags) O_SYNC) with all_flags.
    rewrite <-(Z.lor_ldiff_and x all_flags) at 2. by rewrite H. }
  rewrite <-Z.land_lor_distr_r. unfold with_sync, has_flag. destruct (Z.eqb_spec (Z.land x O_SYNC) 0) as [E|]; cbn [negb].
  - rewrite E, Z.lor_0_r in Hx. by rewrite Hx.
  - rewrite <-Hx at 2. rewrite <-Z.lor_assoc. f_equal. apply Z.bits_inj'. intros k Hk.
    rewrite Z.lor_spec, Z.land_spec. by destruct (Z.testbit x k), (Z.testbit O_SYNC k).
Qed.

Lemma with_sync_sub x : Z.ldiff x all_flags = 0 ->
  Z.ldiff (with_sync x) all_flags = 0 /\ Z.land (with_sync x) 3 = Z.land x 3 /\ with_sync (with_sync x) = with_sync x.
Proof.
  intros H. unfold with_sync at 1 2 4. destruct (has_flag x O_SYNC) eqn:E.
  - split_and!.
    + apply Z.bits_inj'. intros k Hk. rewrite Z.ldiff_spec, Z.lor_spec, Z.bits_0.
      pose proof (f_equal (fun z => Z.testbit z k) H) as Hb. cbv beta in Hb. rewrite Z.ldiff_spec, Z.bits_0 in Hb.
      assert (Z.testbit (Z.ldiff O_SYNC all_flags) k = false) as Hc by (apply Z.bits_0). rewrite Z.ldiff_spec in Hc.
      by destruct (Z.testbit x k), (Z.testbit O_SYNC k), (Z.testbit all_flags k).
    + rewrite Z.land_lor_distr_l. change (Z.land O_SYNC 3) with 0. apply Z.lor_0_r.
    + unfold with_sync. rewrite E. assert (has_flag (Z.lor x O_SYNC) O_SYNC = true) as ->.
      { unfold has_flag. rewrite Z.land_lor_distr_l, Z.land_diag. destruct (Z.eqb_spec (Z.lor (Z.land x O_SYNC) O_SYNC) 0) as [H0|]; [|done].
        by apply Z.lor_eq_0_iff in H0 as [_ H0]. }
      by rewrite <-Z.lor_assoc, Z.lor_diag.
  - rewrite !Z.lor_0_r. split_and!; [done|done|]. unfold with_sync. by rewrite E.
Qed.

(** C37: Flags of open(2) survive the way through the client and the server: on Linux
    (amd64) the file is opened with exactly the flags the kernel gave the client,
    without those that are meant to be ignored (O_CLOEXEC, O_NOCTTY, O_NONBLOCK and
    the kernel's O_LARGEFILE), except that O_DSYNC becomes O_SYNC. The client refuses
    exactly unknown flags and the access mode 3, and what it sends the server never
    refuses. *)
Theorem open_flags_end_to_end (flags : Z) :
  let x := Z.ldiff flags (IgnoredUnixOpenFlagBits (abi := linux_amd64)) in
  match OpenFlagFromSys (abi := linux_amd64) flags with
  | None => Z.ldiff x all_flags <> 0 \/ Z.land x 3 = 3
  | Some oflag => server_open_flags oflag = Some (Z.lor x (if has_flag x O_DSYNC || has_flag x O_SYNC then O_SYNC else 0))
  end.
Proof.
  cbv zeta. rewrite OpenFlagFromSys_spec. cbv zeta. set (x := Z.ldiff flags _).
  change (AcceptdUnixOpenFlagBits (abi := linux_amd64)) with all_flags.
  destruct (Z.eqb_spec (Z.ldiff x all_flags) 0) as [Hx|Hx]; cbn [andb]; [|by left].
  destruct (Z.eqb_spec (Z.land x 3) 3) as [H3|H3]; cbn [negb]; [by right|].
  rewrite sync_bits by done. destruct (with_sync_sub x Hx) as (Hs & Hl & Hw).
  rewrite server_open_flags_spec by congruence. rewrite sync_bits, Hw, flag_sync by done. done.
Qed.

(** ** Modes *)

(** What holds of each number below [n], by trying them all. *)
Lemma below_all (P : Z -> bool) (n : nat) :
  forallb (fun k => P (Z.of_nat k)) (seq 0 n) = true -> forall m, 0 <= m < Z.of_nat n -> P m = true.
Proof.
  intros H m Hm. rewrite forallb_forall in H. rewrite <-(Z2Nat.id m) by lia. apply H, in_seq. lia.
Qed.

(** The type bits of FUSE and of Go. *)
Definition mode_kinds : list (Z * Z) := [(S_IFDIR, ModeDir); (S_IFLNK, ModeSymlink); (S_IFREG, 0)].

(** Permissions survive the way to the server and back. A mode of the twelve
    permission bits that chmod sends is the one the server hands to the system; the
    mode the server reports for a directory, a link or a regular file with these
    bits is shown by the client with the same bits and the right type. The way back
    is exact but for regular files, whose type is taken for that of a link (a test
    for any bit of S_IFLNK). The modes of Mkdir and Create are sent without
    conversion, and of them only the nine lowest bits arrive. *)
Theorem modes_end_to_end (m : Z) :
  0 <= m < 4096 ->
  let g := wsfsFileModeFromFuseMode m in
  syscallMode g = m /\
  Forall (fun '(fuse, go) => wsfsFileModeToFuseMode (Z.lor g go) = Z.lor m fuse /\
    wsfsFileModeFromFuseMode (Z.lor m fuse) = Z.lor g (if fuse =? S_IFREG then ModeSymlink else go)) mode_kinds /\
  syscallMode (Z.lor m S_IFREG) = Z.land m 0x1ff /\ syscallMode m = Z.land m 0x1ff.
Proof.
  intros Hm g. subst g.
  set (ok := fun m => let g := wsfsFileModeFromFuseMode m in
    (syscallMode g =? m) && forallb (fun '(fuse, go) => (wsfsFileModeToFuseMode (Z.lor g go) =? Z.lor m fuse) &&
      (wsfsFileModeFromFuseMode (Z.lor m fuse) =? Z.lor g (if fuse =? S_IFREG then ModeSymlink else go))) mode_kinds &&
    (syscallMode (Z.lor m S_IFREG) =? Z.land m 0x1ff) && (syscallMode m =? Z.land m 0x1ff)).
  assert (ok m = true) as H by (apply (below_all ok 4096); [by vm_compute|done]). unfold ok in H. cbv zeta in H.
  rewrite !andb_true_iff, !Z.eqb_eq in H. destruct H as [[[H1 H2] H3] H4]. split_and!; [done| |done|done].
  unfold mode_kinds in *. cbn [forallb] in H2. rewrite !andb_true_iff, !Z.eqb_eq in H2.
  destruct H2 as ([? ?] & [? ?] & [? ?] & _). by repeat constructor.
Qed.

Lemma modes_end_to_end_witness :
  syscallMode (wsfsFileModeFromFuseMode 0xded) = 0xded /\ syscallMode 0xded = 0x1ed.
Proof.
  pose proof (modes_end_to_end 0xded ltac:(lia)) as (H1 & _ & _ & H2). split; [exact H1|exact H2].
Defined.

(** ** Owners *)

(** The owner the client sees, and what it says when asked to keep it. *)
Lemma keeps_owner (hash : gostring -> Z) (fsd : fileSystem) (p : gostring) (size mode : Z) (mtime : Timespec) (sin : SetAttrIn) (u g : bool) :
  OtherUid (fs_fsIds fsd) <> Uid (fs_fsIds fsd) -> OtherGid (fs_fsIds fsd) <> Gid (fs_fsIds fsd) ->
  in_UID sin = None -> in_GID sin = None ->
  let owner := (if u then 1 else 0) + (if g then 2 else 0) in
  setattr_owner fsd sin (attrFromFileInfo hash p (mkFileInfo size mtime mode owner) (fs_fsIds fsd)) = owner.
Proof.
  intros Hu Hg Eu Eg owner. unfold setattr_owner. rewrite Eu, Eg.
  assert (forall fi, at_Uid (attrFromFileInfo hash p (mkFileInfo size mtime mode owner) fi) = if u then Uid fi else OtherUid fi) as Hu'
    by (intros; by destruct u, g).
  assert (forall fi, at_Gid (attrFromFileInfo hash p (mkFileInfo size mtime mode owner) fi) = if g then Gid fi else OtherGid fi) as Hg'
    by (intros; by destruct u, g).
  cbn [default]. rewrite Hu', Hg'. subst owner.
  by destruct u, g; rewrite ?Z.eqb_refl, ?(proj2 (Z.eqb_neq _ _) Hu), ?(proj2 (Z.eqb_neq _ _) Hg).
Qed.

(** What the server makes of it. *)
Lemma given_ids ss (u g : bool) :
  owner_ids ss ((if u then 1 else 0) + (if g then 2 else 0)) =
    (if u then Uid (fsIds ss) else OtherUid (fsIds ss), if g then Gid (fsIds ss) else OtherGid (fsIds ss)).
Proof. by destruct u, g. Qed.

(** Every change of attributes also changes the owner. Setattr sends
    SETATTR_OWNER whatever it was asked for; when no owner was asked for it sends
    the one the client sees, and the server then gives the file to its own user or
    group or else to the configured other ones. So chmod, truncate and touch keep
    the owner of exactly those files that belong to one of these two users and
    groups, and give away all others. *)
Theorem setattr_changes_owner {abi : UnixABI} (hash : gostring -> Z) (fsd : fileSystem) (ss : session)
    (fi : fileinfo) (size mode : Z) (mtime : Timespec) (p : gostring) (sin : SetAttrIn) :
  OtherUid (fs_fsIds fsd) <> Uid (fs_fsIds fsd) -> OtherGid (fs_fsIds fsd) <> Gid (fs_fsIds fsd) ->
  in_UID sin = None -> in_GID sin = None ->
  let orig := attrFromFileInfo hash p (mkFileInfo size mtime mode (convOwner ss fi)) (fs_fsIds fsd) in
  let '(flag, sent) := setattr_request fsd sin orig in
  has_flag flag SETATTR_OWNER = true /\
  owner_ids ss (FileInfo_Owner sent) =
    (if fi_Uid fi =? Uid (fsIds ss) then fi_Uid fi else OtherUid (fsIds ss),
     if fi_Gid fi =? Gid (fsIds ss) then fi_Gid fi else OtherGid (fsIds ss)) /\
  (owner_ids ss (FileInfo_Owner sent) = (fi_Uid fi, fi_Gid fi) <->
     (fi_Uid fi = Uid (fsIds ss) \/ fi_Uid fi = OtherUid (fsIds ss)) /\
     (fi_Gid fi = Gid (fsIds ss) \/ fi_Gid fi = OtherGid (fsIds ss))).
Proof.
  intros Hu Hg Eu Eg orig. unfold setattr_request. set (flag := Z.lor _ _). split.
  { subst flag. by destruct (in_Mode sin), (in_MTime sin), (in_Size sin). }
  cbn [FileInfo_Owner]. subst orig.
  assert (convOwner ss fi = (if fi_Uid fi =? Uid (fsIds ss) then 1 else 0) + (if fi_Gid fi =? Gid (fsIds ss) then 2 else 0)) as -> by done.
  rewrite keeps_owner by done. pose proof (given_ids ss (fi_Uid fi =? Uid (fsIds ss)) (fi_Gid fi =? Gid (fsIds ss))) as E.
  rewrite E. destruct (Z.eqb_spec (fi_Uid fi) (Uid (fsIds ss))), (Z.eqb_spec (fi_Gid fi) (Gid (fsIds ss)));
    (split; [congruence|]); rewrite pair_equal_spec; intuition congruence.
Qed.

Definition a_stranger : fileinfo := mkfileinfo (str "f") 1 0x1ed (mkTimespec 0 0) 1005 1000.
Definition server_ids : session := mkSession (str "/srv") (mkFsIds 1000 1000 65534 65534) (mkFeatureOptions false []).
Definition client_fs : fileSystem := mkFileSystem (str "/mnt") (mkFsIds 501 20 99 99) FlockModeOFD 1000.

(** chmod on a file of user 1005 gives it to user 65534. *)
Lemma setattr_changes_owner_witness :
  let orig := attrFromFileInfo (fun _ => 0) [] (mkFileInfo 1 (mkTimespec 0 0) 0x1ed (convOwner server_ids a_stranger)) (fs_fsIds client_fs) in
  let '(flag, sent) := setattr_request client_fs (mkSetAttrIn (Some 0x1a4) None None None None) orig in
  has_flag flag SETATTR_OWNER = true /\ owner_ids server_ids (FileInfo_Owner sent) = (65534, 1000).
Proof.
  pose proof (setattr_changes_owner (abi := linux_amd64) (fun _ => 0) client_fs server_ids a_stranger 1 0x1ed (mkTimespec 0 0) []
    (mkSetAttrIn (Some 0x1a4) None None None None) ltac:(discriminate) ltac:(discriminate) eq_refl eq_refl) as H.
  cbv beta iota zeta delta [setattr_request] in H |- *. destruct H as (H1 & H2 & _). split; [exact H1|exact H2].
Defined.

(** ** Locks *)

Definition lock_types : list Z := [0; 1; 2]. (* F_RDLCK, F_WRLCK, F_UNLCK *)

(** C38: Locks survive the way to the server's system and back. A lock of the kernel
    on a range of a file is refused by the client exactly when its type is unknown;
    otherwise the server asks its own system for the same range, type and an
    absolute start, "to the end" as length 0, and what it reports of such a lock
    is shown by the client as it was. An unlock covers the whole file instead of
    the range that was asked for. *)
Theorem locks_end_to_end (lk : FileLock) :
  0 <= fl_Start lk <= fl_End lk -> fl_End lk <= lock_end -> 0 <= fl_Typ lk < 2 ^ 15 ->
  match fileLockToProtocol (abi := linux_amd64) lk with
  | None => fl_Typ lk ∉ lock_types
  | Some plk =>
      exists flock, lockToSys (abi := linux_amd64) plk = Some flock /\
        flock = (if fl_Typ lk =? 2 then mkFlock 2 0 0 0
                 else mkFlock (fl_Typ lk) 0 (fl_Start lk) (if fl_End lk =? lock_end then 0 else fl_End lk - fl_Start lk + 1)) /\
        fileLockFromProtocol (abi := linux_amd64) (lockFromSys (abi := linux_amd64) flock) =
          Some (if fl_Typ lk =? 2 then mkFileLock 0 lock_end 2 0 else mkFileLock (fl_Start lk) (fl_End lk) (fl_Typ lk) 0)
  end.
Proof.
  destruct lk as [start end_ typ pid]. cbn [fl_Start fl_End fl_Typ]. intros Hs He Ht.
  unfold fileLockToProtocol. cbn [fl_Start fl_End fl_Typ].
  assert (i16 typ = typ) as -> by (apply wraps_id; [lia|]; rewrite in_s_spec; lia).
  change (LockTypeFromUnix (abi := linux_amd64)) with [(0, FILELOCK_READLOCK); (2, FILELOCK_UNLOCK); (1, FILELOCK_WRITELOCK)].
  assert ((if negb (end_ =? lock_end) then u64 (end_ - start + 1) else 0) = if end_ =? lock_end then 0 else end_ - start + 1) as ->.
  { destruct (Z.eqb_spec end_ lock_end); cbn [negb]; [done|]. apply wrapu_id. rewrite in_u_spec. unfold lock_end in *. lia. }
  set (size := if end_ =? lock_end then 0 else end_ - start + 1).
  assert (0 <= size < 2 ^ 63) as Hsize by (unfold size, lock_end in *; destruct (Z.eqb_spec end_ (2 ^ 63 - 1)); lia).
  assert (i64 start = start /\ i64 size = size /\ u64 start = start /\ u64 size = size) as (E1 & E2 & E3 & E4).
  { unfold lock_end in *. split_and!; first [apply wraps_id; [lia|]; rewrite in_s_spec; lia|apply wrapu_id; rewrite in_u_spec; lia]. }
  assert ((if size =? 0 then lock_end else u64 (start + size - 1)) = end_) as E5.
  { unfold size in *. destruct (Z.eqb_spec end_ lock_end); [done|]. destruct (Z.eqb_spec (end_ - start + 1) 0); [lia|].
    replace (start + (end_ - start + 1) - 1) with end_ by lia. apply wrapu_id. rewrite in_u_spec. unfold lock_end in *. lia. }
  cbn [mlookup].
  destruct (Z.eqb_spec typ 0) as [->|]; [|destruct (Z.eqb_spec typ 2) as [->|]; [|destruct (Z.eqb_spec typ 1) as [->|]]].
  - eexists. split; [reflexivity|]. cbn. rewrite E1, E2. split; [done|]. unfold fileLockFromProtocol, lockFromSys. cbn.
    by rewrite E3, E4, E5.
  - eexists. split; [reflexivity|]. by split.
  - eexists. split; [reflexivity|]. cbn. rewrite E1, E2. split; [done|]. unfold fileLockFromProtocol, lockFromSys. cbn.
    by rewrite E3, E4, E5.
  - unfold lock_types. set_solver.
Qed.

Lemma locks_end_to_end_witness :
  fileLockToProtocol (abi := linux_amd64) (mkFileLock 100 (2 ^ 63 - 1) 1 0) = Some (mkFileLockInfo FILELOCK_WRITELOCK 0 100 0) /\
  exists flock, lockToSys (abi := linux_amd64) (mkFileLockInfo FILELOCK_WRITELOCK 0 100 0) = Some flock /\ flock = mkFlock 1 0 100 0.
Proof.
  split; [reflexivity|].
  pose proof (locks_end_to_end (mkFileLock 100 (2 ^ 63 - 1) 1 0)) as H. cbn [fl_Start fl_End fl_Typ] in H.
  unfold lock_end in H. destruct (H ltac:(lia) ltac:(lia) ltac:(lia)) as (flock & H1 & H2 & _). exists flock. split; [exact H1|exact H2].
Defined.

(** ** Errors *)

(** The errors that arrive as they are. *)
Definition kept_errors : list Z :=
  [EACCES; EPERM; EBUSY; EEXIST; EXDEV; ENAMETOOLONG; EINVAL; EBADF; ENOENT; ELOOP; ENOSPC; ENOTEMPTY; ENOTDIR; EIO;
   ENOTSUP; ETXTBSY; ERANGE].

(** C39: An error of the server's system is never reported as success. Eighteen
    errors reach the caller unchanged (ENODATA only for extended attributes), a
    read-only file system shows as EACCES, an exceeded quota as ENOSPC and any other
    error as EIO; where the server uses the os package (attributes and directories)
    only "exists", "does not exist" and "permission" are told apart. *)
Theorem errors_end_to_end (e : Z) :
  errnoFromCode (wsfsErrCode e) =
    (if bool_decide (e ∈ kept_errors) then e else if e =? EROFS then EACCES else if e =? EDQUOT then ENOSPC else EIO) /\
  errnoFromCode (xattrErrorCode e) = (if e =? ENODATA then ENODATA else errnoFromCode (wsfsErrCode e)) /\
  errnoFromCode (osErrCode e) =
    (if (e =? EEXIST) || (e =? ENOTEMPTY) then EEXIST else if e =? ENOENT then ENOENT
     else if (e =? EACCES) || (e =? EPERM) then EACCES else EIO) /\
  errnoFromCode (wsfsErrCode e) <> 0 /\ errnoFromCode (xattrErrorCode e) <> 0 /\ errnoFromCode (osErrCode e) <> 0.
Proof.
  assert (errnoFromCode (wsfsErrCode e) =
    (if bool_decide (e ∈ kept_errors) then e else if e =? EROFS then EACCES else if e =? EDQUOT then ENOSPC else EIO)) as E1.
  { unfold wsfsErrCode, errorCodeMap. cbn [mlookup].
    repeat (match goal with |- context [if ?x =? ?c then Some _ else _] => destruct (Z.eqb_spec x c) as [->|] end; [done|]).
    rewrite bool_decide_false by (unfold kept_errors; set_solver).
    done. }
  assert (errnoFromCode (osErrCode e) = (if (e =? EEXIST) || (e =? ENOTEMPTY) then EEXIST else if e =? ENOENT then ENOENT
     else if (e =? EACCES) || (e =? EPERM) then EACCES else EIO)) as E3.
  { unfold osErrCode, os_IsExist, os_IsNotExist, os_IsPermission. cbn [osErrCode_osOverride].
    destruct ((e =? EEXIST) || (e =? ENOTEMPTY)); [done|]. destruct (e =? ENOENT); [done|].
    by destruct ((e =? EACCES) || (e =? EPERM)). }
  assert (errnoFromCode (xattrErrorCode e) = (if e =? ENODATA then ENODATA else errnoFromCode (wsfsErrCode e))) as E2
    by (unfold xattrErrorCode, IsNoXAttr; by destruct (e =? ENODATA)).
  assert (errnoFromCode (wsfsErrCode e) <> 0) as N1.
  { rewrite E1. case_bool_decide as H; [intros ->; unfold kept_errors in H; set_solver|]. by repeat case_match. }
  split_and!; [done|done|done|done| |].
  - rewrite E2. by destruct (e =? ENODATA).
  - rewrite E3. by repeat case_match.
Qed.
