(* ===== verification/ClientFuseThms.v ===== *)
(** * The Unix client with many requests at once

    The requests of the kernel are goroutines that share the caches of the nodes.
    A step lets one of them carry out its next request, or time pass; the session,
    go-fuse and the clock answer as they like. What the handlers promise one by one
    (ClientFuseOk) holds for all of them together. *)
From S2P Require Import Prelude GoIO Codec Structs StructGen Prog Paths UnixConv ServerEnv ClientEnv ClientUnix ClientFuse ClientFuseOk.

(** [fu_log] is what the session has answered so far. *)
Record fuse_state := mkFuse {
  fu_dir : gmap nat dirCache;
  fu_data : gmap nat dataCache;
  fu_attr : gmap nat attrCache;
  fu_now : Z;
  fu_log : list fact;
  fu_threads : list (fuse_op * FP fuse_reply);
}.

Definition fuse_init : fuse_state := mkFuse ∅ ∅ ∅ 0 [] [].

Definition fu_set_threads (l : list (fuse_op * FP fuse_reply)) (s : fuse_state) : fuse_state :=
  mkFuse (fu_dir s) (fu_data s) (fu_attr s) (fu_now s) (fu_log s) l.
Definition fu_add (f : fact) (s : fuse_state) : fuse_state :=
  mkFuse (fu_dir s) (fu_data s) (fu_attr s) (fu_now s) (f :: fu_log s) (fu_threads s).
Definition fu_tick (d : Z) (s : fuse_state) : fuse_state :=
  mkFuse (fu_dir s) (fu_data s) (fu_attr s) (fu_now s + d) (fu_log s) (fu_threads s).

(** [Pointer.Store(c)]. *)
Definition store {C} (n : nat) (c : option C) (m : gmap nat C) : gmap nat C := partial_alter (fun _ => c) n m.

(** How a request may be answered. The data of an item is never set by the session
    (makeDirItemFromDirent), reading fills at most the buffer, and go-fuse gives
    paths of names. *)
Definition fuse_legal (s : fuse_state) (e : fev) : fans e -> Prop :=
  match e return fans e -> Prop with
  | LoadDir n => fun r => r = fu_dir s !! n
  | LoadData n => fun r => r = fu_data s !! n
  | LoadAttr n => fun r => r = fu_attr s !! n
  | TimeNow => fun r => r = fu_now s
  | WaitPrefetch _ => fun r => r.2 = None
  | NodePath _ => fun r => tree_path r
  | SReadAt _ _ dest => fun r => len r.1.1 = len dest /\ 0 <= r.1.2 <= len dest
  | _ => fun _ => True
  end.

(** The state after it. *)
Definition fuse_next (s : fuse_state) (e : fev) : fans e -> fuse_state :=
  match e return fans e -> fuse_state with
  | StoreDir n c => fun _ => mkFuse (store n c (fu_dir s)) (fu_data s) (fu_attr s) (fu_now s) (fu_log s) (fu_threads s)
  | StoreData n c => fun _ => mkFuse (fu_dir s) (store n c (fu_data s)) (fu_attr s) (fu_now s) (fu_log s) (fu_threads s)
  | StoreAttr n c => fun _ => mkFuse (fu_dir s) (fu_data s) (store n c (fu_attr s)) (fu_now s) (fu_log s) (fu_threads s)
  | WaitPrefetch _ => fun r => match r.1 with Some items => fu_add (FList items) s | None => s end
  | SGetAttr p => fun r => if r.2 =? ErrorOK then fu_add (FAttr p r.1) s else s
  | SReadDirPlus _ => fun r => if r.2 =? ErrorOK then fu_add (FList (default [] r.1)) s else s
  | SReadDir _ => fun r => if r.2 =? ErrorOK then fu_add (FList (default [] r.1)) s else s
  | _ => fun _ => s
  end.

Section Run.
Context {abi : UnixABI} (hash : gostring -> Z) (fsdata : fileSystem).

Inductive fuse_step (s : fuse_state) : fuse_state -> Prop :=
| step_request n op : op_ok op ->
    fuse_step s (fu_set_threads (fu_threads s ++ [(op, handle hash fsdata n op)]) s)
| step_go i op e k r :
    fu_threads s !! i = Some (op, Vis e k) -> fuse_legal s e r ->
    fuse_step s (fu_set_threads (<[i := (op, k r)]> (fu_threads s)) (fuse_next s e r))
| step_tick d : 0 <= d -> fuse_step s (fu_tick d s).

Inductive fuse_reachable : fuse_state -> Prop :=
| reach_init : fuse_reachable fuse_init
| reach_step s s' : fuse_reachable s -> fuse_step s s' -> fuse_reachable s'.

(** ** The view of a handler *)

Abbreviation timeout := (fs_structTimeout fsdata).
Definition view (s : fuse_state) (open : gset Z) : fuse_ghost := mkFg (fu_log s) (fu_now s) (fu_dir s) (fu_attr s) open.

(** A handler that crashes only when it looks something up. *)
Definition thread_ok (s : fuse_state) (th : fuse_op * FP fuse_reply) : Prop :=
  exists open, wp true (fuse_env timeout false (looks_up th.1)) th.2 (view s open)
    (fun r g => honest hash fsdata g th.1 r).

Definition fuse_inv (s : fuse_state) : Prop :=
  caches_ok timeout (view s ∅) /\ fu_data s = ∅ /\ Forall (thread_ok s) (fu_threads s).

Lemma others_trans alone g g1 g2 : others timeout alone g g1 -> others timeout alone g1 g2 -> others timeout alone g g2.
Proof.
  intros (L1 & N1 & O1 & C1 & A1) (L2 & N2 & O2 & C2 & A2). split_and!; [set_solver|lia|congruence|tauto|].
  intros Ha. destruct (A1 Ha), (A2 Ha). split; congruence.
Qed.

Lemma honest_grows g g' op r : grows g g' -> honest hash fsdata g op r -> honest hash fsdata g' op r.
Proof.
  intros Hg. unfold honest. destruct op; try done; destruct r; try done; try by apply honest_lookup_grows.
  - intros [H ?]. split; [by eapply honest_lookup_grows|done].
  - destruct r; [|done]. by apply Hg.
  - destruct r; [|done]. intros (p & p' & fi & H & ->). exists p, p', fi. split; [by apply Hg|done].
Qed.

Lemma wp_others alone crashes op (p : FP fuse_reply) g g' :
  others timeout alone g g' ->
  wp true (fuse_env timeout alone crashes) p g (fun r g => honest hash fsdata g op r) ->
  wp true (fuse_env timeout alone crashes) p g' (fun r g => honest hash fsdata g op r).
Proof.
  destruct p as [r|e k| |]; cbn; [|..|done|done].
  - intros Ho. apply honest_grows. by eapply others_grows.
  - intros Ho [Hp Hk]. split; [by eapply pre_stable|]. intros r g2 (g0 & Ho0 & He). apply Hk.
    exists g0. split; [by eapply others_trans|done].
Qed.
(** The answers are those the specification of a handler expects. *)
Lemma answer_effect crashes s open e r :
  fu_data s = ∅ -> fuse_pre timeout crashes (view s open) e -> fuse_legal s e r ->
  fu_data (fuse_next s e r) = ∅ /\ exists open', fuse_effect (view s open) e r (view (fuse_next s e r) open').
Proof.
  intros Hd Hp Ha.
  assert (fu_data (fuse_next s e r) = ∅) as Hd' by (destruct e; try done; cbn; by repeat case_match).
  split; [exact Hd'|].
  destruct e; cbn in Ha; try done; try (exists open; cbn; first [done|split; [done|exact Ha]|repeat case_match; done]).
  - exists open. cbn. split; [done|]. by rewrite Ha, Hd, lookup_empty.
  - destruct r as [fd code]. exists (if code =? ErrorOK then {[fd]} ∪ open else open). cbn. by destruct (code =? ErrorOK).
  - by exists (open ∖ {[fd]}).
Qed.

(** A step of one handler, seen by the others. *)
Lemma effect_others crashes s open e r s' open' open2 :
  caches_ok timeout (view s ∅) -> fuse_pre timeout crashes (view s open) e ->
  fuse_effect (view s open) e r (view s' open') -> others timeout false (view s open2) (view s' open2).
Proof.
  intros Hok Hp He. destruct (effect_ok timeout crashes (view s open) e r (view s' open')) as [[Hl Hn] Hok']; [done..|].
  by split_and!.
Qed.

Lemma thread_ok_others s s' th :
  (forall open, others timeout false (view s open) (view s' open)) -> thread_ok s th -> thread_ok s' th.
Proof. intros Ho [open Hw]. exists open. by eapply wp_others. Qed.

Lemma fuse_step_inv s s' : fuse_inv s -> fuse_step s s' -> fuse_inv s'.
Proof.
  intros (Hok & Hd & Hth) Hs. destruct Hs as [n op Hop|i op e k r Hi Ha|d Hd0].
  - split_and!; [done|done|]. cbn. apply Forall_app. split; [done|]. constructor; [|done].
    exists (given op). eapply wp_mono; [apply fw_handle; [done|done|by right|done]|]. by intros a g [_ H].
  - assert (thread_ok s (op, Vis e k)) as (open & Hp & Hk) by (by eapply Forall_lookup_1). cbn [fst] in *.
    destruct (answer_effect _ s open e r Hd Hp Ha) as (Hd' & open' & He). set (s' := fuse_next s e r) in *.
    assert (forall open2, others timeout false (view s open2) (view s' open2)) as Ho by (intros; by apply (effect_others (looks_up op) s open e r s' open')).
    split_and!; [|done|].
    + by apply (Ho ∅).
    + cbn. apply Forall_insert; [eapply Forall_impl; [exact Hth|]; intros th; by apply thread_ok_others|].
      exists open'. apply Hk. exists (view s open). split; [|done]. by split_and!.
  - assert (forall open, others timeout false (view s open) (view (fu_tick d s) open)) as Ho.
    { intros open. split_and!; try done; [cbn; lia|]. intros H. eapply (caches_ok_grows timeout (view s open)); try done.
      split; [done|]. cbn. lia. }
    split_and!; [by apply (Ho ∅)|done|]. eapply Forall_impl; [exact Hth|]. intros th. by apply thread_ok_others.
Qed.

Lemma fuse_reachable_inv s : fuse_reachable s -> fuse_inv s.
Proof.
  induction 1 as [|s s' _ IH Hs]; [|by eapply fuse_step_inv]. split_and!; [|done|constructor].
  split; apply map_Forall_empty.
Qed.
(** ** Executable runs *)

Inductive fuse_act := Request (n : nat) (op : fuse_op) | Go (i : nat) | Tick (d : Z).

(** The answers of the outside; the caches and the clock answer themselves. *)
Definition fuse_oracle : Type := forall e, option (fans e).
Definition answered (o : fuse_oracle) (s : fuse_state) (e : fev) : option (fans e) :=
  match e return option (fans e) -> option (fans e) with
  | LoadDir n => fun _ => Some (fu_dir s !! n)
  | LoadData n => fun _ => Some (fu_data s !! n)
  | LoadAttr n => fun _ => Some (fu_attr s !! n)
  | StoreDir _ _ | StoreData _ _ | StoreAttr _ _ => fun _ => Some tt
  | TimeNow => fun _ => Some (fu_now s)
  | _ => fun r => r
  end (o e).
Definition oracle_ok (o : fuse_oracle) : Prop := forall s e r, answered o s e = Some r -> fuse_legal s e r.

Definition fuse_play1 (o : fuse_oracle) (a : fuse_act) (s : fuse_state) : option fuse_state :=
  match a with
  | Request n op => Some (fu_set_threads (fu_threads s ++ [(op, handle hash fsdata n op)]) s)
  | Tick d => if 0 <=? d then Some (fu_tick d s) else None
  | Go i =>
      match fu_threads s !! i with
      | Some (op, Vis e k) =>
          match answered o s e with
          | Some r => Some (fu_set_threads (<[i := (op, k r)]> (fu_threads s)) (fuse_next s e r))
          | None => None
          end
      | _ => None
      end
  end.

Fixpoint fuse_play (o : fuse_oracle) (l : list fuse_act) (s : fuse_state) : option fuse_state :=
  match l with
  | [] => Some s
  | a :: l' => match fuse_play1 o a s with Some s' => fuse_play o l' s' | None => None end
  end.

Definition act_ok (a : fuse_act) : Prop := match a with Request _ op => op_ok op | _ => True end.

Lemma fuse_play_reachable o l s s' :
  oracle_ok o -> Forall act_ok l -> fuse_reachable s -> fuse_play o l s = Some s' -> fuse_reachable s'.
Proof.
  intros Ho Hl. revert s. induction Hl as [|a l Ha Hl IH]; intros s Hs; cbn [fuse_play]; [by intros [= <-]|].
  destruct (fuse_play1 o a s) as [s1|] eqn:E; [|done]. apply IH. eapply reach_step; [exact Hs|].
  destruct a as [n op|i|d]; cbn in E.
  - injection E as <-. by apply step_request.
  - destruct (fu_threads s !! i) as [[op [|e k| |]]|] eqn:Ei; try done.
    destruct (answered o s e) as [r|] eqn:Er; [|done]. injection E as <-. eapply step_go; [exact Ei|by apply (Ho s e r)].
  - destruct (Z.leb_spec 0 d); [|done]. injection E as <-. by apply step_tick.
Qed.
End Run.

(** ** Theorems: the Unix client

    What its caches hold and answer with any number of requests at once, a request
    that ends the process, and changes that the caches do not see. *)

(** The paths that name the objects of a request to the session. The target a
    Symlink sends is not among them: it is what the kernel gave, with the mount point
    cut off, and may be one the server refuses. *)
Definition request_paths (e : fev) : list gostring :=
  match e with
  | SFsStat p | SGetAttr p | SMkdir p _ | SRmDir p | SRemove p | SOpen p _ _ | SSymLink _ p | SReadLink p
  | SReadDirPlus p | SReadDir p | SSetAttr p _ _ | SGetXAttr p _ _ | SSetXAttr p _ _ _ | SRemoveXAttr p _ _ | SListXAttr p _ => [p]
  | SRename p1 p2 _ => [p1; p2]
  | _ => []
  end.

Lemma pre_paths timeout crashes g e : fuse_pre timeout crashes g e -> Forall (fun p => IsUrlValid p = true) (request_paths e).
Proof. intros H. destruct e; try (by constructor); cbn in *; repeat constructor; by try apply H. Qed.

(** C10: The caches of the Unix client never make anything up. With any number of
    requests of the kernel running at once, whatever the session, go-fuse and the
    clock do: every cached listing and attribute was answered by the session and
    expires within the timeout, and no file data is ever cached; every reply of
    Lookup (also at the end of Mkdir, Create and Symlink), Getattr and Readdir is
    made of what the session answered, an absent name included, and lets the kernel
    keep it no longer than the timeout; a nil file handle is never handed out; every
    path that names the object of a request to the server is one the server accepts
    (the target that a Symlink sends along is not checked and may be refused); and
    only a request that looks a name up can end the process. *)
Theorem cached_answers_honest {abi : UnixABI} (hash : gostring -> Z) (fsd : fileSystem) (s : fuse_state) :
  fuse_reachable hash fsd s ->
  map_Forall (fun _ c => (forall items, dc_items c = Some items -> FList items ∈ fu_log s) /\
    dc_expireAt c <= fu_now s + fs_structTimeout fsd) (fu_dir s) /\
  map_Forall (fun _ c => (exists p, FAttr p (ac_attr c) ∈ fu_log s) /\
    ac_expireAt c <= fu_now s + fs_structTimeout fsd) (fu_attr s) /\
  fu_data s = ∅ /\
  (forall i op r, fu_threads s !! i = Some (op, Ret r) -> honest hash fsd (view s ∅) op r) /\
  (forall i op e k, fu_threads s !! i = Some (op, Vis e k) ->
     Forall (fun p => IsUrlValid p = true) (request_paths e) /\ (e = Crash -> looks_up op = true)) /\
  (forall i op, fu_threads s !! i <> Some (op, Panic) /\ fu_threads s !! i <> Some (op, Diverge)).
Proof.
  intros (Hok & Hd & Hth)%fuse_reachable_inv. destruct Hok as [H1 H2]. rewrite Forall_lookup in Hth. split_and!.
  - exact H1.
  - exact H2.
  - done.
  - intros i op r Hi. destruct (Hth i _ Hi) as [open Hw]. eapply honest_grows; [|exact Hw]. done.
  - intros i op e k Hi. destruct (Hth i _ Hi) as [open [Hp _]]. split; [eapply pre_paths; exact Hp|]. intros ->. exact Hp.
  - intros i op. split; intros Hi; by destruct (Hth i _ Hi) as [open Hw].
Qed.

(** C26: Every request of the kernel is carried out to its end and leaks nothing. A
    handler of the Unix client that runs alone, or that looks no name up, ends
    without a run-time panic, whatever the session answers and whatever other
    requests do to the caches meanwhile, and holds exactly the file handle its reply
    hands out: Open and Create one when they succeed and none when they fail (also
    when the lookup after a successful open fails), Release none. *)
Theorem handles_balanced {abi : UnixABI} (hash : gostring -> Z) (fsd : fileSystem) (alone : bool) (n : nat) (op : fuse_op) (g : fuse_ghost) :
  caches_ok (fs_structTimeout fsd) g -> op_ok op -> alone = true \/ looks_up op = false -> fg_open g = given op ->
  wp (ans := fans) true (fuse_env (fs_structTimeout fsd) alone false) (handle hash fsd n op) g
    (fun r g' => fg_open g' = held r /\ honest hash fsd g' op r).
Proof.
  intros Hok Hop Ha Hg. eapply wp_mono; [apply fw_handle; [done|done| |done]|by intros r g' [(_ & _ & E) H]].
  intros Hl. left. destruct Ha; congruence.
Qed.

(** ** A run *)

Definition a_fs : fileSystem := mkFileSystem (str "/mnt") (mkFsIds 501 20 99 99) FlockModeOFD 1000.
Definition a_hash (p : gostring) : Z := len p.
Definition item_d : DirItem := mkDirItem (str "d") 4096 (mkTimespec 1700000000 5) (2 ^ 31 + 0x1ed) 3 true.

(** A server with one directory /d, which is empty. *)
Definition one_dir : fuse_oracle := fun e =>
  match e return option (fans e) with
  | NodePath _ => Some []
  | NewNode => Some 1%nat
  | NewInode _ _ _ => Some true
  | WaitPrefetch _ => Some (Some [], None)
  | SReadDirPlus _ => Some (Some [(0%nat, item_d)], ErrorOK)
  | SRemove _ => Some ErrorNotExists
  | _ => None
  end.

Lemma one_dir_ok : oracle_ok one_dir.
Proof.
  intros s e r. destruct e; cbn; try done; try (by intros [= <-]); intros [= <-]; try done. by exists [].
Qed.

(** The root is listed, and "d" is looked up half a timeout later. *)
Definition cached_lookup : list fuse_act :=
  Request 0 OpReaddir :: repeat (Go 0) 5 ++ [Tick 500; Request 0 (OpLookup (str "d"))] ++ repeat (Go 1) 8.
Definition the_lookup : lookup_out :=
  mkLookupOut (Some 500) (Ok (1%nat, mkAttr 2 4096 8 1700000000 5 0x41ed 1 501 20 4096)).

Lemma ordinary_b name : bool_decide (ordinary name) = true -> ordinary name.
Proof. apply bool_decide_eq_true_1. Qed.

Lemma cached_answers_honest_witness :
  exists s, fuse_play a_hash a_fs (abi := linux_amd64) one_dir cached_lookup fuse_init = Some s /\
    fu_threads s !! 1%nat = Some (OpLookup (str "d"), Ret (ReLookup the_lookup)) /\
    honest a_hash a_fs (view s ∅) (OpLookup (str "d")) (ReLookup the_lookup).
Proof.
  destruct (fuse_play a_hash a_fs (abi := linux_amd64) one_dir cached_lookup fuse_init) as [s|] eqn:E; [|by vm_compute in E].
  exists s. split; [done|].
  assert (fu_threads s !! 1%nat = Some (OpLookup (str "d"), Ret (ReLookup the_lookup))) as Ht.
  { assert ((s ← fuse_play a_hash a_fs (abi := linux_amd64) one_dir cached_lookup fuse_init; fu_threads s !! 1%nat) =
      Some (OpLookup (str "d"), Ret (ReLookup the_lookup))) as E1 by (by vm_compute). by rewrite E in E1. }
  split; [exact Ht|].
  assert (fuse_reachable a_hash a_fs (abi := linux_amd64) s) as Hs.
  { eapply fuse_play_reachable; [exact one_dir_ok| |apply reach_init|exact E].
    repeat (constructor; [first [exact I|by apply ordinary_b]|]). constructor. }
  destruct (cached_answers_honest a_hash a_fs s Hs) as (_ & _ & _ & H & _). exact (H _ _ _ Ht).
Defined.

(** ** A request that ends the process *)

(** The listing of the root is dropped while "d" is being looked up. *)
Definition wiped_lookup : list fuse_act :=
  Request 0 OpReaddir :: repeat (Go 0) 5 ++ Request 0 (OpLookup (str "d")) :: repeat (Go 1) 5 ++
  [Request 0 (OpUnlink (str "e")); Go 2; Go 1].

(** The next thing goroutine [i] does is crash. *)
Definition at_crash (s : fuse_state) (i : nat) : bool :=
  match fu_threads s !! i with Some (_, Vis Crash _) => true | _ => false end.

(** Two requests can end the client. Lookup takes the expiry time of the
    directory's listing anew after it has waited for the prefetched contents; if
    another request has changed the directory in between, the listing is gone and
    the nil pointer is dereferenced. Here the root is listed, and while /d is looked
    up the removal of /e drops the listing. *)
Theorem lookup_race_crashes :
  exists s, fuse_reachable a_hash a_fs (abi := linux_amd64) s /\ at_crash s 1 = true /\
    option_map fst (fu_threads s !! 2%nat) = Some (OpUnlink (str "e")).
Proof.
  destruct (fuse_play a_hash a_fs (abi := linux_amd64) one_dir wiped_lookup fuse_init) as [s|] eqn:E; [|by vm_compute in E].
  exists s. split.
  - eapply fuse_play_reachable; [exact one_dir_ok| |apply reach_init|exact E].
    repeat (constructor; [first [exact I|by apply ordinary_b]|]). constructor.
  - assert (((fun s => (at_crash s 1, option_map fst (fu_threads s !! 2%nat))) <$>
      fuse_play a_hash a_fs (abi := linux_amd64) one_dir wiped_lookup fuse_init) = Some (true, Some (OpUnlink (str "e")))) as E1 by (by vm_compute).
    rewrite E in E1. by injection E1 as -> ->.
Qed.

(** ** Changes the caches do not see *)

Section Stale.
Context {abi : UnixABI} (hash : gostring -> Z) (fsd : fileSystem).
Abbreviation awp p g Q := (wp (ans := fans) true (fuse_env (fs_structTimeout fsd) true false) p g Q).

(** A request when no other request runs. *)
Lemma alone_call e g (Q : fans e -> fuse_ghost -> Prop) :
  fuse_pre (fs_structTimeout fsd) false g e ->
  (forall r g0 g', fg_dir g0 = fg_dir g -> fg_attr g0 = fg_attr g -> grows g g0 ->
     fuse_effect g0 e r g' -> Q r g') -> awp (call e) g Q.
Proof.
  intros Hp HQ. apply wp_trigger; [exact Hp|]. intros r g' (g0 & (Hl & Hn & _ & _ & Ha) & He).
  destruct (Ha eq_refl) as [Hd Hat]. by apply (HQ r g0 g').
Qed.

#[local] Ltac alone r g0 g1 Hd Ha Hn He :=
  first [apply wp_bind|idtac]; apply alone_call;
  [first [exact I|done|by apply valid_plain|by apply plain_join|split; by apply plain_join]|];
  let Hl := fresh "Hl" in intros r g0 g1 Hd Ha [Hl Hn] He; cbn in He.

#[local] Ltac returns := unfold mret, prog_ret; cbn [wp].

(** A lookup of a name that is absent from a cached listing which has not expired. *)
Lemma lookup_cached n name items ex g :
  ordinary name -> fg_dir g !! n = Some (mkDirCache (Some items) ex) -> find_item name items = None ->
  awp (Lookup hash fsd n name) g (fun lo g' => fg_now g' <= ex -> exists d, lo = mkLookupOut (Some d) (Err ENOENT)).
Proof.
  intros Hname Hc Hf. unfold Lookup, node_path. apply wp_bind. alone p g0 g1 Hd Ha Hn He. destruct He as [-> Hp%tree_path_plain].
  returns. unfold lookup_attr, lookupDirCache. apply wp_bind, wp_bind. alone c g2 g3 Hd2 Ha2 Hn2 He. destruct He as [-> ->].
  rewrite Hd2, Hd, Hc. alone now g4 g5 Hd4 Ha4 Hn4 He. destruct He as [-> ->]. destruct (Z.ltb_spec (ex - fg_now g4) 0).
  - alone u g6 g7 Hd6 Ha6 Hn6 He. subst g7. returns. alone fi g8 g9 Hd8 Ha8 Hn8 He.
    assert (fg_now g6 <= fg_now g9) as Hn9 by (subst g9; destruct (fi.2 =? ErrorOK); exact Hn8). clear He.
    destruct (negb _); returns; [lia|]. alone ch g10 g11 Hd10 Ha10 Hn10 He. subst g11. returns.
    alone ok g12 g13 Hd12 Ha12 Hn12 He. subst g13. returns. lia.
  - returns. rewrite Hf. cbn [wp]. eauto.
Qed.
(** A lookup of a name that is in a cached listing which has not expired. *)
Lemma lookup_hit n name items ex item g :
  ordinary name -> fg_dir g !! n = Some (mkDirCache (Some items) ex) -> find_item name items = Some item ->
  ex <= fg_now g + fs_structTimeout fsd ->
  awp (Lookup hash fsd n name) g (fun lo g' => fg_now g' <= ex ->
    match lo_result lo with
    | Ok (_, attr) => exists p, attr = attrFromDirItem hash p item.2 (fs_fsIds fsd)
    | Err e => e = EIO
    end).
Proof.
  intros Hname Hc Hf Hex. unfold Lookup, node_path. apply wp_bind. alone p g0 g1 Hd Ha Hn He. destruct He as [-> Hp%tree_path_plain].
  returns. unfold lookup_attr, lookupDirCache. apply wp_bind, wp_bind. alone c g2 g3 Hd2 Ha2 Hn2 He. destruct He as [-> ->].
  rewrite Hd2, Hd, Hc. alone now g4 g5 Hd4 Ha4 Hn4 He. destruct He as [-> ->]. destruct (Z.ltb_spec (ex - fg_now g4) 0).
  - alone u g6 g7 Hd6 Ha6 Hn6 He. subst g7. returns. alone fi g8 g9 Hd8 Ha8 Hn8 He.
    assert (fg_now g6 <= fg_now g9) as Hn9 by (subst g9; destruct (fi.2 =? ErrorOK); exact Hn8). clear He.
    destruct (negb _); returns; [lia|]. alone ch g10 g11 Hd10 Ha10 Hn10 He. subst g11. returns.
    alone ok g12 g13 Hd12 Ha12 Hn12 He. subst g13. returns. lia.
  - returns. rewrite Hf. cbn [wp]. alone child g6 g7 Hd6 Ha6 Hn6 He. subst g7.
    assert (forall g8, awp (ch ← call (NewInode n child (idFromStat (attrFromDirItem hash (Join (slash :: p) name) item.2 (fs_fsIds fsd))));
      mret (mkLookupOut (Some (ex - fg_now g4))
        (if ch : bool then Ok (child, attrFromDirItem hash (Join (slash :: p) name) item.2 (fs_fsIds fsd)) else Err EIO))) g8
      (fun lo g' => fg_now g' <= ex -> match lo_result lo with
        | Ok (_, attr) => exists p, attr = attrFromDirItem hash p item.2 (fs_fsIds fsd) | Err e => e = EIO end)) as Hend.
    { intros g8. alone ok g9 g10 Hd10 Ha10 Hn10 He. returns. intros _. destruct ok; cbn; [eauto|done]. }
    apply wp_bind. unfold inherit_cache. alone r g8 g9 Hd8 Ha8 Hn8 He. destruct r as [[kids|] data]; cbn in He; destruct He as [-> ->];
      [|returns; apply Hend]. unfold subDirCache. alone c g10 g11 Hd10 Ha10 Hn10 He. destruct He as [-> ->].
    assert (fg_dir g10 = fg_dir g) as -> by (cbn in Hd10; congruence). rewrite Hc. apply alone_call.
    + split; [|cbn in *; lia]. cbn. intros ? [= <-]. match goal with H : fg_log (fg_add _ _) ⊆ _ |- _ => apply H; by left end.
    + intros u g12 g13 Hd12 Ha12 Hn12 He. apply Hend.
Qed.

Lemma find_item_absent name items : Forall (fun e => di_Name e.2 <> name) items -> find_item name items = None.
Proof.
  intros H. destruct (find_item name items) as [e|] eqn:E; [|done]. apply find_item_Some in E as [Hi Hn].
  rewrite Forall_forall in H. by apply H in Hi.
Qed.

(** Attributes that are cached and have not expired. *)
Lemma getattr_hit n fi ex g :
  fg_attr g !! n = Some (mkAttrCache fi ex) ->
  awp (Getattr hash fsd n) g (fun a g' => fg_now g' <= ex -> exists p, a = Ok (attrFromFileInfo hash p fi (fs_fsIds fsd))).
Proof.
  intros Hc. unfold Getattr, node_path. apply wp_bind. alone p g0 g1 Hd Ha Hn He. destruct He as [-> Hp%tree_path_plain].
  returns. unfold getAttrCache. apply wp_bind. alone c g2 g3 Hd2 Ha2 Hn2 He. destruct He as [-> ->].
  rewrite Ha2, Ha, Hc. alone now g4 g5 Hd4 Ha4 Hn4 He. destruct He as [-> ->]. destruct (Z.ltb_spec ex (fg_now g4)).
  - alone u g6 g7 Hd6 Ha6 Hn6 He. subst g7. returns. alone r g8 g9 Hd8 Ha8 Hn8 He. destruct r as [fi2 code]. cbn in He.
    destruct (code =? ErrorOK) eqn:Ec; cbn [negb]; [|returns; subst g9; cbn in *; lia]. subst g9. unfold saveAttrCache.
    apply wp_bind. alone now g10 g11 Hd10 Ha10 Hn10 He. destruct He as [-> ->]. apply alone_call.
    + split; [|cbn in *; lia]. cbn. exists (slash :: p).
      match goal with H : fg_log (fg_add _ _) ⊆ _ |- _ => apply H; by left end.
    + intros u2 g12 g13 _ _ [_ Hn12] He. cbn in He. subst g13. returns. cbn in *. lia.
  - returns. eauto.
Qed.

Lemma rename_keeps n name n2 name2 flags g :
  ordinary name -> ordinary name2 -> n <> n2 ->
  awp (Rename n name n2 name2 flags) g (fun _ g' => fg_dir g' !! n2 = fg_dir g !! n2).
Proof.
  intros Ho Ho2 Hne. unfold Rename, wipeDirCache, node_path. alone u g0 g1 Hd Ha Hn He. subst g1.
  assert (fg_dir (fg_set_dir n None g0) !! n2 = fg_dir g !! n2) as E by (cbn; rewrite lookup_partial_alter_ne by done; by rewrite Hd).
  apply wp_bind. alone p g2 g3 Hd2 Ha2 Hn2 He. destruct He as [-> Hp%tree_path_plain]. returns. cbv zeta.
  alone p2 g4 g5 Hd4 Ha4 Hn4 He. destruct He as [-> Hp2%tree_path_plain].
  destruct (negb _); [returns; congruence|]. alone code g6 g7 Hd6 Ha6 Hn6 He. subst g7. returns. congruence.
Qed.

(** The handlers that wipe the data and attributes of node [n] touch nothing else. *)
Lemma wipe_keeps {A} n (k : FP A) g Q :
  (forall g', fg_dir g' = fg_dir g -> (forall m, m <> n -> fg_attr g' !! m = fg_attr g !! m) -> grows g g' -> awp k g' Q) ->
  awp (wipeDataCache n ;; wipeAttrCache n ;; k) g Q.
Proof.
  intros Hk. unfold wipeDataCache, wipeAttrCache. apply wp_bind. alone c g0 g1 Hd Ha Hn He. destruct He as [-> ->]. returns.
  alone u g2 g3 Hd2 Ha2 Hn2 He. subst g3. apply Hk.
  - cbn. congruence.
  - intros m Hm. cbn. rewrite lookup_partial_alter_ne by done. by rewrite Ha2, Ha.
  - split; [by cbn; etrans|cbn in *; lia].
Qed.

(** Changes a client makes itself can stay unseen by it until its caches expire,
    with no other request running, whatever the session answers:
    - Rename wipes the listing of the directory the name is moved from, but not that
      of the one it is moved to: there the new name does not exist;
    - CopyFileRange wipes the attributes of the file it reads from, not of the one it
      writes to: that one still shows its old size;
    - Write wipes the attributes of the file, but not the listing of its directory:
      a lookup still shows the old size. *)
Theorem changes_unseen (g : fuse_ghost) (n n2 : nat) (name name2 : gostring) (items : list entry) (ex flags : Z) :
  ordinary name -> ordinary name2 -> n <> n2 ->
  fg_dir g !! n2 = Some (mkDirCache (Some items) ex) -> ex <= fg_now g + fs_structTimeout fsd ->
  (Forall (fun e => di_Name e.2 <> name2) items ->
     awp (err ← Rename n name n2 name2 flags; lo ← Lookup hash fsd n2 name2; mret (err, lo)) g
       (fun r g' => fg_now g' <= ex -> exists d, r.2 = mkLookupOut (Some d) (Err ENOENT))) /\
  (forall fdIn offIn fdOut offOut size fi ex2, fg_attr g !! n2 = Some (mkAttrCache fi ex2) ->
     awp (r ← CopyFileRange n fdIn offIn fdOut offOut size 0; a ← Getattr hash fsd n2; mret (r, a)) g
       (fun r g' => fg_now g' <= ex2 -> exists p, r.2 = Ok (attrFromFileInfo hash p fi (fs_fsIds fsd)))) /\
  (forall item fd data off, find_item name2 items = Some item ->
     awp (r ← Write n fd data off; lo ← Lookup hash fsd n2 name2; mret (r, lo)) g
       (fun r g' => fg_now g' <= ex -> match lo_result r.2 with
        | Ok (_, attr) => exists p, attr = attrFromDirItem hash p item.2 (fs_fsIds fsd)
        | Err e => e = EIO
        end)).
Proof.
  intros Ho Ho2 Hne Hc Hex. split_and!.
  - intros Habs%find_item_absent. eapply wp_bind_mono; [by apply rename_keeps|]. intros err g1 E.
    eapply wp_bind_mono; [eapply lookup_cached; [done|by rewrite E|done]|]. intros lo g2 H. exact H.
  - intros fdIn offIn fdOut offOut size fi ex2 Hat.
    eapply wp_bind_mono with (P := fun _ (g' : fuse_ghost) => fg_attr g' !! n2 = fg_attr g !! n2).
    + unfold CopyFileRange. destruct fdIn as [fdIn|]; [|done]. destruct fdOut as [fdOut|]; [|done]. cbn [Z.eqb negb].
      apply wipe_keeps. intros g1 Hd Ha Hg. alone r g2 g3 Hd2 Ha2 Hn2 He. subst g3. returns. rewrite Ha2. by apply Ha.
    + intros r g1 E. eapply wp_bind_mono; [eapply getattr_hit; by rewrite E|]. intros a g2 H. exact H.
  - intros item fd data off Hf.
    eapply wp_bind_mono with (P := fun _ (g' : fuse_ghost) => fg_dir g' = fg_dir g /\ grows g g').
    + unfold Write. destruct fd as [fd|]; [|done].
      apply wipe_keeps. intros g1 Hd Ha Hg. alone r g2 g3 Hd2 Ha2 Hn2 He. subst g3. destruct r as [count code].
      assert (fg_dir g2 = fg_dir g /\ grows g g2) as H by (split; [congruence|by etrans; [|split]]).
      by destruct (negb (code =? ErrorOK)).
    + intros r g1 [E [_ Hg]]. eapply wp_bind_mono; [eapply lookup_hit; [done|by rewrite E|exact Hf|lia]|]. intros a g2 H. exact H.
Qed.
End Stale.

(** ** Witness *)

(** The listing of node 2 is cached and names one file, "f". *)
Definition item_f : DirItem := mkDirItem (str "f") 10 (mkTimespec 1700000000 0) 0x1a4 3 false.
Definition cached_dir : fuse_ghost :=
  mkFg [FList [(0%nat, item_f)]] 0 {[2%nat := mkDirCache (Some [(0%nat, item_f)]) 1000]} ∅ ∅.

Lemma changes_unseen_witness :
  wp (ans := fans) true (fuse_env 1000 true false)
    (err ← Rename (abi := linux_amd64) 1 (str "a") 2 (str "b") 0; lo ← Lookup a_hash a_fs 2 (str "b"); mret (err, lo)) cached_dir
    (fun r g' => fg_now g' <= 1000 -> exists d, r.2 = mkLookupOut (Some d) (Err ENOENT)) /\
  wp (ans := fans) true (fuse_env 1000 true false)
    (r ← Write 3 (Some 7) [x00] 10; lo ← Lookup a_hash a_fs 2 (str "f"); mret (r, lo)) cached_dir
    (fun r g' => fg_now g' <= 1000 -> match lo_result r.2 with
      | Ok (_, attr) => exists p, attr = attrFromDirItem a_hash p item_f (fs_fsIds a_fs)
      | Err e => e = EIO
      end).
Proof.
  assert (ordinary (str "a") /\ ordinary (str "b") /\ ordinary (str "f")) as (Ha & Hb & Hf)
    by (split_and!; apply ordinary_b; reflexivity).
  assert (fg_dir cached_dir !! 2%nat = Some (mkDirCache (Some [(0%nat, item_f)]) 1000)) as Hc by reflexivity.
  assert (1000 <= fg_now cached_dir + fs_structTimeout a_fs) as Hex by (cbn; lia).
  split.
  - destruct (changes_unseen (abi := linux_amd64) a_hash a_fs cached_dir 1 2 (str "a") (str "b") [(0%nat, item_f)] 1000 0 Ha Hb
      ltac:(lia) Hc Hex) as [H _]. apply H. by repeat constructor.
  - destruct (changes_unseen (abi := linux_amd64) a_hash a_fs cached_dir 3 2 (str "a") (str "f") [(0%nat, item_f)] 1000 0 Ha Hf
      ltac:(lia) Hc Hex) as (_ & _ & H). apply (H (0%nat, item_f) (Some 7) [x00] 10). reflexivity.
Defined.

Lemma handles_balanced_witness :
  wp (ans := fans) true (fuse_env 1000 true false) (handle (abi := linux_amd64) a_hash a_fs 2 (OpCreate (str "b") 0xc1 0x1a4)) cached_dir
    (fun r g' => fg_open g' = held r /\ honest a_hash a_fs g' (OpCreate (str "b") 0xc1 0x1a4) r).
Proof.
  apply (handles_balanced (abi := linux_amd64) a_hash a_fs true 2 (OpCreate (str "b") 0xc1 0x1a4) cached_dir); [|by apply ordinary_b|by left|reflexivity].
  split; [|apply map_Forall_empty]. intros m c H. cbn in H. apply lookup_singleton_Some in H as [<- <-].
  split; [|cbn; lia]. intros items [= <-]. by left.
Defined.
