(* ===== verification/ClientWindowsThms.v ===== *)
(** * The Windows client with many callbacks at once

    WinFsp calls the client from several threads; the cleaner of the cache and the
    goroutines that cache prefetched listings run beside them. A step lets one of
    them carry out its next request, time pass, or the session resolve a prefetched
    listing; the session answers as it likes. What the callbacks promise one by one
    (ClientWindowsOk) holds for all of them together. *)
From S2P Require Import Prelude GoIO Codec Structs StructGen Prog Paths UnixConv ServerEnv ServerCmds ClientEnv ClientUnix ClientFuse ClientWindows ClientWindowsOk ClientUnixThms.

Inductive win_who := ByWinFsp (op : win_op) | Cleaner | Prefetcher.
Definition win_thread : Type := win_who * WP win_reply.

(** [wn_ready]: the channels that are closed; [wn_items]: the items there are;
    [wn_log]: what the session has answered. *)
Record win_state := mkWin {
  wn_cache : gmap gostring cacheRecord;
  wn_pending : gmap gostring nat;
  wn_ready : gset nat;
  wn_items : gset nat;
  wn_now : Z;
  wn_log : list wfact;
  wn_threads : list win_thread;
}.

Definition wn_set_threads (l : list win_thread) (s : win_state) : win_state :=
  mkWin (wn_cache s) (wn_pending s) (wn_ready s) (wn_items s) (wn_now s) (wn_log s) l.
Definition wn_set_cache (m : gmap (list byte) cacheRecord) (s : win_state) : win_state :=
  mkWin m (wn_pending s) (wn_ready s) (wn_items s) (wn_now s) (wn_log s) (wn_threads s).
Definition wn_set_pending (m : gmap (list byte) nat) (s : win_state) : win_state :=
  mkWin (wn_cache s) m (wn_ready s) (wn_items s) (wn_now s) (wn_log s) (wn_threads s).
Definition wn_add (fs : list wfact) (items : list entry) (s : win_state) : win_state :=
  mkWin (wn_cache s) (wn_pending s) (wn_ready s) (list_to_set (map fst items) ∪ wn_items s) (wn_now s) (fs ++ wn_log s) (wn_threads s).
Definition wn_tick (d : Z) (s : win_state) : win_state :=
  mkWin (wn_cache s) (wn_pending s) (wn_ready s) (wn_items s) (wn_now s + d) (wn_log s) (wn_threads s).
Definition wn_resolve (ch : nat) (s : win_state) : win_state :=
  mkWin (wn_cache s) (wn_pending s) ({[ch]} ∪ wn_ready s) (wn_items s) (wn_now s) (wn_log s) (wn_threads s).

(** The items an answer brings; they are new. *)
Definition items_of (e : fev) : fans e -> list entry :=
  match e return fans e -> list entry with
  | SReadDirPlus p => fun r => default [] r.1
  | SReadDir p => fun r => default [] r.1
  | WaitPrefetch _ => fun r => default [] r.1
  | _ => fun _ => []
  end.
Definition new_items (s : win_state) (items : list entry) : bool :=
  bool_decide (NoDup (map fst items)) && bool_decide (Forall (fun it : entry => it.1 ∉ wn_items s) items).

(** How a request may be answered. *)
Definition win_legal (s : win_state) (e : wev) : wans e -> bool :=
  match e return wans e -> bool with
  | CLoad key => fun r => true
  | Receive ch => fun _ => bool_decide (ch ∈ wn_ready s)
  | CKeys => fun r => bool_decide (NoDup r)
  | WSess (WaitPrefetch it) => fun r => bool_decide (it ∈ wn_ready s) && new_items s (default [] r.1)
  | WSess e => fun r => new_items s (items_of e r)
  | _ => fun _ => true
  end.
Definition win_answers (s : win_state) (e : wev) : wans e -> Prop :=
  match e return wans e -> Prop with
  | CLoad key => fun r => r = wn_cache s !! key
  | PLoad key => fun r => r = wn_pending s !! key
  | WNow => fun r => r = wn_now s
  | _ => fun _ => True
  end.

Section Run.
Context {cgo : CgoFuse} (winJoin : gostring -> gostring -> gostring) (timeout : Z) (mountpoint : gostring).

Definition silent (p : WP unit) : WP win_reply := win_into (fun _ => WrNone) p.

(** The state after it. *)
Definition win_next (s : win_state) (e : wev) : wans e -> win_state :=
  match e return wans e -> win_state with
  | CStore key c => fun _ => wn_set_cache (<[key := c]> (wn_cache s)) s
  | CDelete key => fun _ => wn_set_cache (delete key (wn_cache s)) s
  | PStore key ch => fun _ => wn_set_pending (<[key := ch]> (wn_pending s)) s
  | PDelete key => fun _ => wn_set_pending (delete key (wn_pending s)) s
  | GoPrefetched parentPath items => fun _ =>
      wn_set_threads (wn_threads s ++ [(Prefetcher, silent (cachePrefetchedDirChildren timeout parentPath items))]) s
  | WSess e => fun r => wn_add (facts_of e r) (items_of e r) s
  | _ => fun _ => s
  end.

(** NewFS; [fuel] rounds of the cleaner. *)
Definition win_init (fuel : nat) : win_state := mkWin ∅ ∅ ∅ ∅ 0 [] [(Cleaner, silent (cache_Run timeout fuel))].

Definition wn_put (i : nat) (th : win_thread) (s : win_state) : win_state := wn_set_threads (<[i := th]> (wn_threads s)) s.

Inductive win_step (s : win_state) : win_state -> Prop :=
| win_step_call op : win_op_ok op ->
    win_step s (wn_set_threads (wn_threads s ++ [(ByWinFsp op, win_handle winJoin timeout mountpoint op)]) s)
| win_step_go i who e k r :
    wn_threads s !! i = Some (who, Vis e k) -> win_legal s e r = true -> win_answers s e r ->
    win_step s (win_next (wn_put i (who, k r) s) e r)
| win_step_resolve ch : win_step s (wn_resolve ch s)
| win_step_tick d : 0 <= d -> win_step s (wn_tick d s).

Inductive win_reachable (fuel : nat) : win_state -> Prop :=
| win_reach_init : win_reachable fuel (win_init fuel)
| win_reach_step s s' : win_reachable fuel s -> win_step s s' -> win_reachable fuel s'.

(** ** The view of a thread *)

Definition win_view (s : win_state) (asked : list said) : win_ghost :=
  mkWg (wn_log s) (wn_now s) (wn_cache s) (wn_pending s) asked.

Definition who_says (who : win_who) (r : win_reply) (g : win_ghost) : Prop :=
  match who with ByWinFsp op => win_op_ok op /\ win_honest (wg_log g) op r | _ => True end.

Definition win_thread_ok (s : win_state) (th : win_thread) : Prop :=
  exists asked, wp (ans := wans) false (win_env timeout false) th.2 (win_view s asked) (who_says th.1).

Definition win_inv (s : win_state) : Prop :=
  cache_ok timeout (win_view s []) /\ Forall (win_thread_ok s) (wn_threads s).

Lemma w_others_trans alone g g1 g2 : w_others timeout alone g g1 -> w_others timeout alone g1 g2 -> w_others timeout alone g g2.
Proof.
  intros (L1 & N1 & O1 & C1 & A1) (L2 & N2 & O2 & C2 & A2). split_and!; [set_solver|lia|congruence|tauto|].
  intros Ha. destruct (A1 Ha), (A2 Ha). split; congruence.
Qed.

Lemma honest_child_grows log log' K name r : log ⊆ log' -> honest_child log K name r -> honest_child log' K name r.
Proof. intros Hl (items & Ht & Hr). exists items. split; [by eapply told_list_grows|done]. Qed.

Lemma honest_attr_grows log log' path r : log ⊆ log' -> honest_attr log path r -> honest_attr log' path r.
Proof. intros Hl. destruct r; cbn; [by apply told_attr_grows|]. intros (code & ? & ? & ->). exists code. split_and!; [done|by apply Hl|done]. Qed.

Lemma win_honest_grows log log' op r : log ⊆ log' -> win_honest log op r -> win_honest log' op r.
Proof.
  intros Hl. destruct op; try done; destruct r as [e|e fh|st|sf|e t|e b|d|]; try done; cbn.
  - intros [(r' & Hr & ->)|[Hd Hr]]; [left; exists r'; split; [by eapply honest_attr_grows|done]|right].
    split; [done|by eapply honest_child_grows].
  - intros [[-> [H|[(fi & H & Hm)|H]]]|[[-> (items & H & Hn)]|(code & Hc & -> & H)]].
    + left. split; [done|by left].
    + left. split; [done|]. right. left. exists fi. split; [by eapply told_attr_grows|done].
    + left. split; [done|]. right. right. by apply Hl.
    + right. left. split; [done|]. exists items. split; [by apply Hl|done].
    + right. right. exists code. split_and!; [done|done|]. destruct H; [left|right]; by apply Hl.
  - destruct d as [l|e]; cbn.
    + intros (fi & items & Ha & Hi & ->). exists fi, items. split_and!; [by eapply told_attr_grows|by eapply told_list_grows|done].
    + intros (code & Hc & -> & H). exists code. split_and!; [done|done|]. destruct H; [left|right]; by apply Hl.
Qed.

Lemma win_wp_others who (p : WP win_reply) g g' :
  w_others timeout false g g' ->
  wp false (win_env timeout false) p g (who_says who) -> wp false (win_env timeout false) p g' (who_says who).
Proof.
  destruct p as [r|e k| |]; cbn; [|..|done|done].
  - intros Ho. destruct who; [|done..]. intros [Hop H]. split; [done|]. eapply win_honest_grows; [apply Ho|done].
  - intros Ho [Hp Hk]. split; [by eapply win_pre_stable|]. intros r g2 (g0 & Ho0 & He). apply Hk.
    exists g0. split; [by eapply w_others_trans|done].
Qed.

Lemma win_thread_others s s' th :
  (forall asked, w_others timeout false (win_view s asked) (win_view s' asked)) -> win_thread_ok s th -> win_thread_ok s' th.
Proof. intros Ho [asked Hw]. exists asked. by eapply win_wp_others. Qed.

(** The answers are those the specification expects. *)
Lemma win_answer_effect s asked e r :
  win_answers s e r -> exists asked', win_effect (win_view s asked) e r (win_view (win_next s e r) asked').
Proof.
  intros Ha. destruct e; cbn in Ha; try (by exists asked); try (exists asked; cbn; split; [done|exact Ha]).
  by exists (asked ++ [said_of e r]).
Qed.

Lemma win_view_put s i th e r asked : win_view (win_next (wn_put i th s) e r) asked = win_view (win_next s e r) asked.
Proof. by destruct e. Qed.

Lemma win_next_threads s i th e r :
  exists new, wn_threads (win_next (wn_put i th s) e r) = <[i := th]> (wn_threads s) ++ new /\
    Forall (fun t => exists parentPath items, e = GoPrefetched parentPath items /\
      t = (Prefetcher, silent (cachePrefetchedDirChildren timeout parentPath items))) new.
Proof.
  destruct e; try (exists []; split; [by rewrite app_nil_r|constructor]).
  eexists. split; [done|]. constructor; [|constructor]. by do 2 eexists.
Qed.

Lemma win_effect_others s asked e r s' asked' asked2 :
  cache_ok timeout (win_view s []) -> win_pre timeout (win_view s asked) e ->
  win_effect (win_view s asked) e r (win_view s' asked') ->
  w_others timeout false (win_view s asked2) (win_view s' asked2).
Proof.
  intros Hok Hp He. destruct (w_effect_ok timeout (win_view s asked) e r (win_view s' asked')) as [[Hl Hn] Hok']; [done..|].
  by split_and!.
Qed.

Lemma win_step_inv s s' : win_inv s -> win_step s s' -> win_inv s'.
Proof.
  intros (Hok & Hth) Hs. destruct Hs as [op Hop|i who e k r Hi Hleg Ha|ch|d Hd].
  - split; [done|]. cbn. apply Forall_app. split; [done|]. constructor; [|done].
    exists []. eapply wp_mono; [by apply ww_handle|]. by intros a g [_ H].
  - assert (win_thread_ok s (who, Vis e k)) as (asked & Hp & Hk) by (by eapply Forall_lookup_1). cbn [fst] in *.
    destruct (win_answer_effect s asked e r Ha) as [asked' He]. set (s' := win_next (wn_put i (who, k r) s) e r).
    assert (forall asked, win_view s' asked = win_view (win_next s e r) asked) as Hv by (intros; apply win_view_put).
    rewrite <-Hv in He.
    assert (forall asked2, w_others timeout false (win_view s asked2) (win_view s' asked2)) as Ho by (intros; by apply (win_effect_others s asked e r s' asked')).
    split; [by apply (Ho [])|]. destruct (win_next_threads s i (who, k r) e r) as (new & Et & Hnew). fold s' in Et. rewrite Et.
    apply Forall_app. split.
    + apply Forall_insert; [eapply Forall_impl; [exact Hth|]; intros th; by apply win_thread_others|].
      exists asked'. apply Hk. exists (win_view s asked). split; [by split_and!|done].
    + eapply Forall_impl; [exact Hnew|]. intros t (parentPath & items & -> & ->). exists []. cbn in Hp.
      apply ww_into. eapply wp_mono; [eapply (ww_prefetched timeout false false parentPath items items); [by apply (Ho [])| |done]|done].
      eapply told_list_grows; [|exact Hp]. by apply (Ho []).
  - split; [done|]. eapply Forall_impl; [exact Hth|]. intros th. apply win_thread_others. intros asked. by split_and!.
  - assert (forall asked, w_others timeout false (win_view s asked) (win_view (wn_tick d s) asked)) as Ho.
    { intros asked. split_and!; try done; [cbn; lia|]. intros H. eapply (cache_ok_keeps timeout (win_view s asked)); try done.
      split; [done|]. cbn. lia. }
    split; [by apply (Ho [])|]. eapply Forall_impl; [exact Hth|]. intros th. by apply win_thread_others.
Qed.

(** ** What is asked for

    Attributes and listings are asked for only of the paths of callbacks, a directory
    also with a slash behind it. *)

Definition asked_event (e : wev) : Prop :=
  match e with
  | WSess (SGetAttr q) | WSess (SReadDirPlus q) | WSess (SReadDir q) => exists path, asked_path path q
  | _ => True
  end.

Fixpoint asks {A} (p : WP A) : Prop :=
  match p with Vis e k => asked_event e /\ forall r, asks (k r) | _ => True end.

Lemma asks_bind {A B} (p : WP A) (k : A -> WP B) : asks p -> (forall a, asks (k a)) -> asks (p ≫= k).
Proof. induction p as [a|e c IH| |]; intros Hp Hk; [apply Hk| |done|done]. destruct Hp as [He Hc]. split; [done|]. intros r. by apply IH. Qed.

Lemma asks_loop {St A} fuel (body : St -> WP (St + A)) st : (forall st, asks (body st)) -> asks (loop fuel body st).
Proof.
  intros Hb. revert st. induction fuel as [|n IH]; intros st; [done|]. cbn [loop]. apply asks_bind; [apply Hb|].
  intros [st'|a]; [apply IH|done].
Qed.

(** Down the structure of a callback. *)
Ltac asks_step :=
  first [ progress intros ?
        | exact I
        | (apply asks_bind; [|intros ?])
        | (split; [first [exact I|cbn; eauto]|intros ?])
        | case_match
        | progress cbv zeta ].

Lemma asks_sweep keys : asks (sweep keys).
Proof. induction keys as [|key keys IH]; cbn [sweep]; [done|]. by repeat first [exact IH|asks_step]. Qed.
Lemma asks_Run fuel : asks (cache_Run timeout fuel).
Proof. apply asks_loop. intros st. repeat first [apply asks_sweep|asks_step]. Qed.
Lemma asks_prefetched parentPath items : asks (cachePrefetchedDirChildren timeout parentPath items).
Proof.
  induction items as [|it items IH]; cbn [cachePrefetchedDirChildren]; [done|].
  apply asks_bind; [|done]. unfold cache_Set, deletePendingIfMatch. repeat asks_step.
Qed.
Lemma asks_store path items : asks (store_pending path items).
Proof. induction items as [|it items IH]; cbn [store_pending]; [done|]. unfold storePendingDir. repeat first [exact IH|asks_step]. Qed.

Lemma asks_handle op : win_op_ok op -> asks (win_handle winJoin timeout mountpoint op).
Proof.
  intros Hop.
  assert (forall path, win_path path -> exists path', asked_path path' path) as Hself by (intros path Hp; exists path; split; auto).
  destruct op; cbn [win_handle win_op_ok] in *; unfold win_into; (apply asks_bind; [|done]);
    unfold Statfs, Open, Mkdir, Unlink, Rmdir, Symlink, Readlink, Rename, Rename3, rename, Create, Truncate, Read, Write, Flush, Release,
      Fsync, Destroy, delParentCache, deletePathState, deleteDirState, cache_Del; try (by repeat asks_step).
  - specialize (Hself _ Hop). unfold Getattr, getattr_parent, lookupChildFromDirCache, loadPendingDir, cache_Get, cache_Del, cache_Set.
    repeat asks_step.
  - specialize (Hself _ Hop). unfold Access, access_attr, cache_Get, cache_Del, cache_Set. repeat asks_step.
  - unfold Readdir. destruct (last path) as [c|] eqn:Ec; [|split; [done|intros []]].
    set (path' := if negb (bool_decide (c = slash)) then path ++ [slash] else path). assert (exists path0, asked_path path0 path') as Hp.
    { exists path. split; [done|]. subst path'. destruct (negb _); auto. }
    unfold readdir_cached, readdir_fetch, loadPendingDir, cache_Get, cache_Del, cache_Set.
    repeat first [apply asks_store|asks_step].
Qed.

Definition all_asked (s : win_state) : Prop :=
  Forall fact_asked (wn_log s) /\ Forall (fun th : win_thread => asks th.2) (wn_threads s).

Lemma facts_asked e r : asked_event (WSess e) -> Forall fact_asked (facts_of e r).
Proof.
  intros He. destruct e; cbn in *; try constructor; repeat case_match; cbn; try done; repeat constructor.
Qed.

Lemma reachable_asked fuel s : win_reachable fuel s -> all_asked s.
Proof.
  induction 1 as [|s s' _ [Hl Ht] Hs].
  - split; [constructor|]. constructor; [|constructor]. cbn. apply asks_bind; [apply asks_Run|done].
  - destruct Hs as [op Hop|i who e k r Hi Hleg Ha|ch|d Hd]; [|..|done|done].
    + split; [done|]. apply Forall_app. split; [done|]. constructor; [by apply asks_handle|constructor].
    + assert (asks (A := win_reply) (Vis e k)) as [He Hk] by (rewrite Forall_forall in Ht; apply (Ht _ (list_elem_of_lookup_2 _ _ _ Hi))).
      destruct (win_next_threads s i (who, k r) e r) as (new & Et & Hnew). split.
      * destruct e; try done. cbn. apply Forall_app. split; [by apply facts_asked|done].
      * rewrite Et. apply Forall_app. split; [apply Forall_insert; [done|apply Hk]|]. eapply Forall_impl; [exact Hnew|].
        intros t (parentPath & items & _ & ->). cbn. apply asks_bind; [apply asks_prefetched|done].
Qed.

Lemma win_reachable_inv fuel s : win_reachable fuel s -> win_inv s.
Proof.
  induction 1 as [|s s' _ IH Hs]; [|by eapply win_step_inv]. split; [apply map_Forall_empty|].
  constructor; [|constructor]. exists []. apply ww_into. eapply wp_mono; [apply ww_Run; [apply map_Forall_empty|done]|done].
Qed.

(** ** Executable runs *)

Inductive win_act := Call (op : win_op) | WGo (i : nat) | Resolve (ch : nat) | WTick (d : Z).

(** The answers of the session; the maps and the clock answer themselves. *)
Definition win_oracle : Type := forall e : fev, option (fans e).
Definition win_answered (o : win_oracle) (s : win_state) (e : wev) : option (wans e) :=
  match e return option (wans e) with
  | CLoad key => Some (wn_cache s !! key)
  | CKeys => Some (map fst (map_to_list (wn_cache s)))
  | PLoad key => Some (wn_pending s !! key)
  | WNow => Some (wn_now s)
  | WCrash => None
  | WSess e => o e
  | _ => Some tt
  end.

Definition win_play1 (o : win_oracle) (a : win_act) (s : win_state) : option win_state :=
  match a with
  | Call op => Some (wn_set_threads (wn_threads s ++ [(ByWinFsp op, win_handle winJoin timeout mountpoint op)]) s)
  | Resolve ch => Some (wn_resolve ch s)
  | WTick d => if 0 <=? d then Some (wn_tick d s) else None
  | WGo i =>
      match wn_threads s !! i with
      | Some (who, Vis e k) =>
          match win_answered o s e with
          | Some r => if win_legal s e r then Some (win_next (wn_put i (who, k r) s) e r) else None
          | None => None
          end
      | _ => None
      end
  end.

Fixpoint win_play (o : win_oracle) (l : list win_act) (s : win_state) : option win_state :=
  match l with
  | [] => Some s
  | a :: l' => match win_play1 o a s with Some s' => win_play o l' s' | None => None end
  end.

Definition win_act_ok (a : win_act) : Prop := match a with Call op => win_op_ok op | _ => True end.

Lemma win_play_reachable fuel o l s s' :
  Forall win_act_ok l -> win_reachable fuel s -> win_play o l s = Some s' -> win_reachable fuel s'.
Proof.
  intros Hl. revert s. induction Hl as [|a l Ha Hl IH]; intros s Hs; cbn [win_play]; [by intros [= <-]|].
  destruct (win_play1 o a s) as [s1|] eqn:E; [|done]. apply IH. eapply win_reach_step; [exact Hs|].
  destruct a as [op|i|ch|d]; cbn in E.
  - injection E as <-. by apply win_step_call.
  - destruct (wn_threads s !! i) as [[who [|e k| |]]|] eqn:Ei; try done.
    destruct (win_answered o s e) as [r|] eqn:Er; [|done]. destruct (win_legal s e r) eqn:El; [|done].
    injection E as <-. eapply win_step_go; [exact Ei|exact El|]. by destruct e; try done; injection Er as <-.
  - injection E as <-. apply win_step_resolve.
  - destruct (Z.leb_spec 0 d); [|done]. injection E as <-. by apply win_step_tick.
Qed.
End Run.

(** ** Theorems: the Windows client

    What its cache holds and answers with any number of callbacks at once, what
    every callback asks the session and forgets, that a change is seen afterwards,
    and changes that are not seen. *)

(** C11: The cache of the Windows client never makes anything up. With any number of
    callbacks of WinFsp at once, the cleaner and the goroutines of prefetched
    listings running beside them, whatever the session answers: the record under a
    key has attributes the session told for that key (asked for, or in a listing of
    its parent) and, if it has one, the listing it told for that directory (asked
    for, or prefetched with the parent's), and expires within the timeout. A reply of
    Getattr shows such attributes, an error of the session, or that a listing of the
    parent lacks the name; one of Readdir such a listing or an error of the session;
    one of Access allows deleting only what is not a directory or was listed empty.
    Nothing ends the process. Keys are the paths with backslashes read as slashes: as
    long as no listing has a name with a backslash or a slash, a key stands for one
    path, and what is cached and answered for a path was said of that very path (a
    name with a backslash is confused with another path, see backslash_key). *)
Theorem windows_answers_honest {cgo : CgoFuse} (winJoin : gostring -> gostring -> gostring) (timeout : Z) (mountpoint : gostring)
    (fuel : nat) (s : win_state) :
  win_reachable winJoin timeout mountpoint fuel s ->
  (forall key r, wn_cache s !! key = Some r ->
     told_attr (wn_log s) (pathCacheKey key) (cd_attr (cr_data r)) /\
     (forall items, cd_items (cr_data r) = Some items -> told_list (wn_log s) key items) /\
     cr_expireAt r <= wn_now s + timeout) /\
  (forall i path r, wn_threads s !! i = Some (ByWinFsp (WinGetattr path), Ret (WrStat r)) ->
     match r with
     | Ok stat => exists fi, told_attr (wn_log s) path fi /\ stat = statFromFileInfo fi
     | Err e =>
         (exists code, code <> ErrorOK /\ WNoAttr path code ∈ wn_log s /\ e = errnoFromCode code) \/
         e = - fuse_ENOENT /\ exists items, told_list (wn_log s) (dirCacheKey (Dir path)) items /\
           Forall (fun it : entry => di_Name it.2 <> Base path) items
     end) /\
  (forall i path r, wn_threads s !! i = Some (ByWinFsp (WinReaddir path), Ret (WrDir r)) -> honest_dir (wn_log s) path r) /\
  (forall i path mask e, wn_threads s !! i = Some (ByWinFsp (WinAccess path mask), Ret (WrErrno e)) ->
     honest_access (wn_log s) path mask e) /\
  (forall i who, wn_threads s !! i <> Some (who, Panic) /\ forall k, wn_threads s !! i <> Some (who, Vis WCrash k)) /\
  (names_plain (wn_log s) ->
     (forall key r, wn_cache s !! key = Some r -> exists path, win_path path /\ pathCacheKey key = path /\
        said_attr (wn_log s) path (cd_attr (cr_data r)) /\
        (forall items, cd_items (cr_data r) = Some items -> key = dirCacheKey path /\ said_list (wn_log s) path items)) /\
     (forall path, win_path path ->
        (forall fi, told_attr (wn_log s) path fi -> said_attr (wn_log s) path fi) /\
        (forall items, told_list (wn_log s) (dirCacheKey path) items -> said_list (wn_log s) path items))).
Proof.
  intros Hs. destruct (reachable_asked _ _ _ _ _ Hs) as [Hasked _]. apply win_reachable_inv in Hs as [Hok Hth]. rewrite Forall_lookup in Hth.
  assert (forall i op r, wn_threads s !! i = Some (ByWinFsp op, Ret r) -> win_op_ok op /\ win_honest (wn_log s) op r) as Hret.
  { intros i op r Hi. by destruct (Hth i _ Hi) as [asked Hw]. }
  split_and!.
  - exact Hok.
  - intros i path r Hi. destruct (Hret _ _ _ Hi) as [Hp Hh]. by apply honest_getattr_told.
  - intros i path r Hi. by apply (Hret _ _ _ Hi).
  - intros i path mask e Hi. by apply (Hret _ _ _ Hi).
  - intros i who. split; [intros Hi; by destruct (Hth i _ Hi)|intros k Hi; by destruct (Hth i _ Hi) as [asked [[] _]]].
  - intros Hplain. split; [|intros path Hp; split; [intros fi; by apply told_attr_said|intros items; by apply told_list_said]].
    intros key r Hr. destruct (Hok _ _ Hr) as (Ha & Hl & _). exists (pathCacheKey key).
    destruct (told_attr_said _ Hplain Hasked _ _ Ha) as [Hw Hs]. split_and!; [done..|].
    intros items (path & -> & Hi)%Hl%(told_said_list _ Hplain Hasked). rewrite path_of_dir_key.
    by rewrite win_path_key by apply (said_list_path _ Hplain _ _ Hi).
Qed.

(** Every callback of WinFsp that is not answered from the cache asks the session
    for exactly what it stands for, once, and replies with the answer: with 0 or the
    result when the session succeeded and with its error otherwise. Before that it
    deletes the records of the path, of its listing and of its parent's listing (both
    paths of a rename, for Mkdir the parent's only, for Write none), and
    when no other callback runs no other record is touched: not those below a
    directory that is renamed. It ends and never panics. Only Symlink of a target
    outside the mount point, Flush and Destroy ask nothing. *)
Theorem windows_calls {cgo : CgoFuse} (winJoin : gostring -> gostring -> gostring) (timeout : Z) (mountpoint : gostring)
    (alone : bool) (op : win_op) (act : win_reply + exchange) (g : win_ghost) :
  cache_ok timeout g -> win_does winJoin mountpoint op = Some act ->
  wp (ans := wans) true (win_env timeout alone) (win_handle winJoin timeout mountpoint op) g (fun r g' =>
    match act with
    | inl reply => r = reply /\ wg_asked g' = wg_asked g
    | inr (mkExchange e reply) => exists a, wg_asked g' = wg_asked g ++ [said_of e a] /\ r = reply a
    end /\
    (alone = true ->
       wg_cache g' = delete_all (forgotten_keys mountpoint op) (wg_cache g) /\
       wg_pending g' = delete_all (forgotten_pending mountpoint op) (wg_pending g))).
Proof. intros Hok Hd. eapply wp_mono; [by apply ww_does|]. by intros r g' (_ & H1 & H2). Qed.

(** ** Reading after a change *)





(** ** The constants of WinFsp *)

#[local] Instance winfsp : CgoFuse := {|
  fuse_S_ISUID := 0x800; fuse_S_ISGID := 0x400; fuse_S_ISVTX := 0x200;
  fuse_S_IFDIR := 0x4000; fuse_S_IFLNK := 0xa000; fuse_S_IFREG := 0x8000;
  fuse_O_WRONLY := 1; fuse_O_RDWR := 2; fuse_O_TRUNC := 0x200; fuse_O_EXCL := 0x400; fuse_O_CREAT := 0x100; fuse_O_APPEND := 8;
  fuse_DELETE_OK := 0x40000000;
  fuse_EIO := 5; fuse_EACCES := 13; fuse_EBUSY := 16; fuse_EEXIST := 17; fuse_ENAMETOOLONG := 38; fuse_EINVAL := 22;
  fuse_EBADF := 9; fuse_ENOENT := 2; fuse_ELOOP := 114; fuse_ENOSPC := 28; fuse_ENOTEMPTY := 41; fuse_ENOTDIR := 20;
  fuse_ENOTSUP := 129; fuse_EPERM := 1; fuse_EXDEV := 18;
|}.

(** ** A run *)

Definition w_join (a b : gostring) : gostring := a ++ b.
Definition w_mount : gostring := str "Z:".
Definition w_time : Timespec := mkTimespec 1700000000 5.
Definition w_dir : DirItem := mkDirItem (str "d") 4096 w_time (2 ^ 31 + 0x1ed) 3 true.
Definition w_file : DirItem := mkDirItem (str "x") 700 w_time 0x1a4 3 false.
Definition w_stat : Stat_t := mkStat_t 700 w_time 0x81ff 1 4096 2.

(** A server with a directory /d, whose listing comes with that of the root, and a
    file /d/x, which it removes and writes when asked. *)
Definition w_server : win_oracle := fun e =>
  match e return option (fans e) with
  | SReadDirPlus _ => Some (Some [(0%nat, w_dir)], ErrorOK)
  | SGetAttr _ => Some (mkFileInfo 700 w_time 0x1a4 3, ErrorOK)
  | WaitPrefetch _ => Some (Some [(1%nat, w_file)], None)
  | SRemove _ => Some ErrorOK
  | SWriteAt _ _ data => Some (len data, ErrorOK)
  | _ => None
  end.

Abbreviation w_play := (win_play w_join 1000 w_mount w_server).
Abbreviation w_reachable := (win_reachable w_join 1000 w_mount 1).

Lemma w_path path cs : path = abs_path cs -> cs <> [] -> forallb (fun c => bool_decide (ordinary c) && bool_decide (backslash ∉ c)) cs = true -> win_path path.
Proof.
  intros -> Hne H. right. exists cs. split_and!; [done| |done]. rewrite Forall_forall. intros c Hc.
  rewrite forallb_forall in H. specialize (H c (proj1 (list_elem_of_In _ _) Hc)). apply andb_true_iff in H as [H1 H2].
  apply bool_decide_eq_true_1 in H1, H2. by split.
Qed.

Lemma root_path : win_path (str "/").
Proof. by left. Qed.
Lemma dx_path : win_path (str "/d/x").
Proof. by apply (w_path _ [str "d"; str "x"]). Qed.

(** The root is listed, the listing of /d arrives, and /d/x is asked for. *)
Definition prefetched_getattr : list win_act :=
  Call (WinReaddir (str "/")) :: repeat (WGo 1) 8 ++ Resolve 0 :: repeat (WGo 2) 5 ++ Call (WinGetattr (str "/d/x")) :: repeat (WGo 3) 2.

Definition plain_item (it : entry) : bool := bool_decide (ordinary (di_Name it.2)) && bool_decide (backslash ∉ di_Name it.2).
Definition plain_fact (f : wfact) : bool :=
  match f with WList _ items | WChild _ items => forallb plain_item items | _ => true end.
Lemma plain_facts log : forallb plain_fact log = true -> names_plain log.
Proof.
  intros H. apply Forall_forall. intros f Hf. rewrite forallb_forall in H. specialize (H f (proj1 (list_elem_of_In _ _) Hf)).
  assert (forall items, forallb plain_item items = true -> Forall (fun it : entry => win_name (di_Name it.2)) items) as Hi.
  { intros items Hb. apply Forall_forall. intros it Hit. rewrite forallb_forall in Hb.
    specialize (Hb it (proj1 (list_elem_of_In _ _) Hit)). apply andb_true_iff in Hb as [H1 H2].
    apply bool_decide_eq_true_1 in H1, H2. by split. }
  destruct f; try done; by apply Hi.
Qed.

Definition the_reply (i : nat) (s : win_state) : option (win_who * win_reply) :=
  match wn_threads s !! i with Some (who, Ret r) => Some (who, r) | _ => None end.

Lemma windows_answers_honest_witness :
  exists s, w_play prefetched_getattr (win_init 1000 1) = Some s /\
    wn_threads s !! 3%nat = Some (ByWinFsp (WinGetattr (str "/d/x")), Ret (WrStat (Ok w_stat))) /\
    exists fi, said_attr (wn_log s) (str "/d/x") fi /\ w_stat = statFromFileInfo fi.
Proof.
  destruct (w_play prefetched_getattr (win_init 1000 1)) as [s|] eqn:E; [|by vm_compute in E].
  exists s. split; [done|].
  assert (wn_threads s !! 3%nat = Some (ByWinFsp (WinGetattr (str "/d/x")), Ret (WrStat (Ok w_stat)))) as Ht.
  { assert ((s ← w_play prefetched_getattr (win_init 1000 1); wn_threads s !! 3%nat) =
      Some (ByWinFsp (WinGetattr (str "/d/x")), Ret (WrStat (Ok w_stat)))) as E1 by (by vm_compute). by rewrite E in E1. }
  split; [exact Ht|].
  assert (w_reachable s) as Hs.
  { eapply win_play_reachable; [|apply win_reach_init|exact E].
    repeat (constructor; [first [exact I|exact root_path|exact dx_path]|]). constructor. }
  assert (names_plain (wn_log s)) as Hn.
  { apply plain_facts. assert ((forallb plain_fact ∘ wn_log <$> w_play prefetched_getattr (win_init 1000 1)) = Some true) as E1 by (by vm_compute).
    rewrite E in E1. by injection E1. }
  destruct (windows_answers_honest w_join 1000 w_mount 1 s Hs) as (_ & H & _ & _ & _ & H2).
  destruct (H _ _ _ Ht) as (fi & Ha & Hst). exists fi. split; [|exact Hst]. apply (proj2 (H2 Hn) _ dx_path), Ha.
Defined.

(** The listing of /d is cached. *)
Definition w_fi : FileInfo := mkFileInfo 4096 w_time (2 ^ 31 + 0x1ed) 3.
Definition w_items : list entry := [(1%nat, w_file)].
Definition w_ghost : win_ghost :=
  mkWg [WAttr (str "/d") w_fi; WList (str "/d/") w_items] 0 {[str "/d/" := mkCacheRecord 1000 (mkCachedData (Some w_items) w_fi)]} ∅ [].

Lemma w_ghost_ok : cache_ok 1000 w_ghost.
Proof.
  apply map_Forall_singleton. split_and!; [apply (told_getattr _ (str "/d")); left| |cbn; lia].
  intros items [= <-]. apply (told_asked _ (str "/d/")). right. left.
Qed.

Lemma windows_calls_witness :
  wg_cache w_ghost !! str "/d/" <> None /\
  wp (ans := wans) true (win_env 1000 true) (win_handle w_join 1000 w_mount (WinUnlink (str "/d/x"))) w_ghost (fun r g' =>
    (exists a, wg_asked g' = [said_of (SRemove (str "/d/x")) a] /\ r = WrErrno (errnoFromCode a)) /\
    wg_cache g' !! str "/d/" = None).
Proof.
  split; [by vm_compute|].
  eapply wp_mono; [apply (windows_calls w_join 1000 w_mount true (WinUnlink (str "/d/x")) (inr (mkExchange (SRemove (str "/d/x")) err_reply)) w_ghost w_ghost_ok eq_refl)|].
  intros r g' [H1 H2]. split; [exact H1|]. destruct (H2 eq_refl) as [-> _]. by vm_compute.
Defined.


(** ** Changes that are not seen *)

(** The root is listed; before the listing of /d has arrived, /d/x is removed. *)
Definition removed_early : list win_act :=
  Call (WinReaddir (str "/")) :: repeat (WGo 1) 8 ++ Call (WinUnlink (str "/d/x")) :: repeat (WGo 3) 6.
Definition then_listed : list win_act :=
  Resolve 0 :: repeat (WGo 2) 4 ++ Call (WinGetattr (str "/d/x")) :: repeat (WGo 4) 2.

(** A removed file comes back. A callback forgets the listings it makes wrong, but
    not those on their way: the goroutine that waits for a prefetched listing stores
    it even when the entry for it has been deleted in the meantime. Here Unlink of
    /d/x has returned 0, and Getattr of /d/x called afterwards finds the file. *)
Theorem removed_file_reappears :
  exists s1 s2, w_reachable s1 /\ the_reply 3 s1 = Some (ByWinFsp (WinUnlink (str "/d/x")), WrErrno 0) /\
    wn_threads s1 !! 4%nat = None /\
    w_play then_listed s1 = Some s2 /\ w_reachable s2 /\
    the_reply 4 s2 = Some (ByWinFsp (WinGetattr (str "/d/x")), WrStat (Ok w_stat)).
Proof.
  destruct (w_play removed_early (win_init 1000 1)) as [s1|] eqn:E1; [|by vm_compute in E1].
  assert (w_reachable s1) as H1.
  { eapply win_play_reachable; [|apply win_reach_init|exact E1].
    repeat (constructor; [first [exact I|exact root_path|exact dx_path]|]). constructor. }
  destruct (w_play then_listed s1) as [s2|] eqn:E2.
  2:{ assert ((w_play removed_early (win_init 1000 1) ≫= w_play then_listed) <> None) as E by (by vm_compute). by rewrite E1 in E. }
  exists s1, s2. split_and!; [exact H1| | |done| |].
  - assert ((the_reply 3 <$> w_play removed_early (win_init 1000 1)) = Some (Some (ByWinFsp (WinUnlink (str "/d/x")), WrErrno 0))) as E by (by vm_compute).
    rewrite E1 in E. by injection E as ->.
  - assert (((fun s => length (wn_threads s)) <$> w_play removed_early (win_init 1000 1)) = Some 4%nat) as E by (by vm_compute).
    rewrite E1 in E. injection E as E. apply lookup_ge_None_2. lia.
  - eapply win_play_reachable; [|exact H1|exact E2].
    repeat (constructor; [first [exact I|exact root_path|exact dx_path]|]). constructor.
  - assert ((the_reply 4 <$> (w_play removed_early (win_init 1000 1) ≫= w_play then_listed)) =
      Some (Some (ByWinFsp (WinGetattr (str "/d/x")), WrStat (Ok w_stat)))) as E by (by vm_compute).
    rewrite E1 in E. change (Some s1 ≫= w_play then_listed) with (w_play then_listed s1) in E. rewrite E2 in E. by injection E as ->.
Qed.

(** A name with a backslash, which a server may have, stands for another directory:
    the listing prefetched for a directory named "a\b" is served for /a/b. *)
Example backslash_key : forall i size time mode owner,
  dirCacheKey (child_path (str "/") (i, mkDirItem (str "a\b") size time mode owner true)) = dirCacheKey (str "/a/b").
Proof. intros. by vm_compute. Qed.

(** ** Flags and errors *)

(** The server never refuses the flags the client makes of those of WinFsp, and
    opens with exactly them, their values being those of Linux. *)
Theorem win_open_accepted {cgo : CgoFuse} (winflag : Z) :
  server_open_flags (wsfsOpenFlagFromWinOpenFlag winflag) = Some (wsfsOpenFlagFromWinOpenFlag winflag).
Proof.
  unfold wsfsOpenFlagFromWinOpenFlag.
  destruct (has_flag winflag fuse_O_TRUNC), (has_flag winflag fuse_O_EXCL), (has_flag winflag fuse_O_CREAT), (has_flag winflag fuse_O_APPEND);
    repeat match goal with |- context [if ?b then _ else _] => lazymatch b with Z.eqb _ _ => destruct b end end; by vm_compute.
Qed.

Lemma mlookup_elem k m v : mlookup k m = Some v -> (k, v) ∈ m.
Proof.
  induction m as [|[k' v'] m IH]; [done|]. cbn. destruct (Z.eqb_spec k k') as [->|]; [intros [= ->]; left|right; by apply IH].
Qed.

(** No error of the server is reported as success. *)
Theorem win_errors {cgo : CgoFuse} (code : Z) :
  Forall (fun e => 0 < e) [fuse_EIO; fuse_EACCES; fuse_EBUSY; fuse_EEXIST; fuse_ENAMETOOLONG; fuse_EINVAL; fuse_EBADF; fuse_ENOENT;
    fuse_ELOOP; fuse_ENOSPC; fuse_ENOTEMPTY; fuse_ENOTDIR; fuse_ENOTSUP; fuse_EPERM; fuse_EXDEV] ->
  errnoFromCode code <= 0 /\ (errnoFromCode code = 0 <-> code = ErrorOK).
Proof.
  intros H. rewrite !Forall_cons in H.
  assert (Forall (fun p => p.2 <= 0 /\ (p.2 = 0 <-> p.1 = ErrorOK)) win_errorCodeMap) as Hm.
  { repeat (constructor; [cbn [fst snd]; unfold ErrorOK; split; [lia|split; [lia|done]]|]). constructor. }
  unfold errnoFromCode. destruct (mlookup code win_errorCodeMap) as [e|] eqn:E.
  - apply mlookup_elem in E. rewrite Forall_forall in Hm. exact (Hm _ E).
  - split; [lia|]. split; [lia|]. by intros ->.
Qed.
