(* ===== verification/ServerTemplatesThms.v ===== *)
(** * The pages are what they should be, nearly

    The answer to PROPFIND is well-formed XML and names what it lists, unless a name
    holds a quote or a control character; what is put into a page of the web
    interface never becomes markup. *)
From S2P Require Import Prelude Utf8 Paths ServerWebdav ServerTemplates.

(** ** XML, on bytes *)

(** Characters a document may hold; the bytes of UTF-8 sequences are not looked at. *)
Definition xml_legal (c : byte) : bool :=
  (0x20 <=? byte_val c) || bool_decide (c ∈ [x09; x0a; x0d]).

Definition is_dec (c : byte) : bool := (0x30 <=? byte_val c) && (byte_val c <=? 0x39).
Definition is_hex (c : byte) : bool :=
  is_dec c || ((0x41 <=? byte_val c) && (byte_val c <=? 0x46)) || ((0x61 <=? byte_val c) && (byte_val c <=? 0x66)).

(** What may stand between [&] and [;] without a document type. *)
Definition xml_reference (r : gostring) : bool :=
  bool_decide (r ∈ [str "amp"; str "lt"; str "gt"; str "quot"; str "apos"]) ||
  match r with
  | x23 :: x78 :: ds => negb (bool_decide (ds = [])) && forallb is_hex ds
  | x23 :: ds => negb (bool_decide (ds = [])) && forallb is_dec ds
  | _ => false
  end.

(** A scanner: in text, in a reference, in a tag; with the elements that are open. *)
Inductive xstate :=
| XText (open : list gostring)
| XRef (acc : gostring) (open : list gostring)
| XTag (acc : gostring) (open : list gostring).

Definition tag_name (t : gostring) : gostring := match IndexByte t x20 with Some i => take i t | None => t end.

Definition xml_tag (t : gostring) (open : list gostring) : option xstate :=
  match t with
  | x3f :: _ => Some (XText open)
  | x2f :: name =>
      match open with
      | top :: open' => if bool_decide (name = top) then Some (XText open') else None
      | [] => None
      end
  | _ => if HasSuffix t (str "/") then Some (XText open) else Some (XText (tag_name t :: open))
  end.

Definition xml_step (st : xstate) (c : byte) : option xstate :=
  match st with
  | XText open =>
      if bool_decide (c = x3c) then Some (XTag [] open)
      else if bool_decide (c = x26) then Some (XRef [] open)
      else if xml_legal c then Some st else None
  | XRef acc open =>
      if bool_decide (c = x3b) then (if xml_reference acc then Some (XText open) else None)
      else Some (XRef (acc ++ [c]) open)
  | XTag acc open =>
      if bool_decide (c = x3e) then xml_tag acc open
      else if bool_decide (c = x3c) then None
      else Some (XTag (acc ++ [c]) open)
  end.

Fixpoint xml_run (st : xstate) (s : gostring) : option xstate :=
  match s with
  | [] => Some st
  | c :: s' => st' ← xml_step st c; xml_run st' s'
  end.


Lemma xml_run_app st a b : xml_run st (a ++ b) = st' ← xml_run st a; xml_run st' b.
Proof.
  revert st. induction a as [|c a IH]; intros st; [done|]. cbn [app xml_run].
  destruct (xml_step st c) as [st'|]; [|done]. cbn [mbind option_bind]. apply IH.
Qed.

(** Text that can stand anywhere between tags. *)
Definition xml_text (s : gostring) : Prop := forall open, xml_run (XText open) s = Some (XText open).

Lemma xml_text_nil : xml_text [].
Proof. done. Qed.
Lemma xml_text_app a b : xml_text a -> xml_text b -> xml_text (a ++ b).
Proof. intros Ha Hb open. rewrite xml_run_app, Ha. apply Hb. Qed.

(** *** Escaping *)





Lemma url_escape_app a b : url_escape (a ++ b) = url_escape a ++ url_escape b.
Proof. unfold url_escape. by rewrite map_app, concat_app. Qed.

(** What is escaped for a URL holds nothing of XML but [&]. *)
Definition inert (c : byte) : bool := xml_legal c && negb (bool_decide (c ∈ [x3c; x26])).







(** ** The name in a response *)













(** ** The answer to PROPFIND *)

(** What the printers are relied on for. *)
Class PrinterLaws {pr : Printers} := {
  E_S_xml : forall s, forallb xml_legal s = true -> xml_text (E_S s);
  E_S_markup : forall s, (x3c ∉ E_S s) /\ (x22 ∉ E_S s);
  N_D_plain : forall n, forallb inert (N_D n) = true /\ (x22 ∉ N_D n);
  TypeByExtension_legal : forall e, forallb xml_legal (TypeByExtension e) = true;
  Format_http_plain : forall t, forallb inert (Format_http t) = true /\ (x22 ∉ Format_http t);
  Format_local_markup : forall t, x3c ∉ Format_local t;
  IBytes_markup : forall n, x3c ∉ IBytes n;
}.

Section Propfind.
Context {pr : Printers} {laws : PrinterLaws}.








Lemma forallb_Forall (f : byte -> bool) s : forallb f s = true <-> Forall (fun c => f c = true) s.
Proof. rewrite forallb_forall, Forall_forall. by setoid_rewrite list_elem_of_In. Qed.








End Propfind.

(** A quote in a name makes the answer malformed: the reference that stands for it is
    escaped for URLs afterwards. *)
Example quote_breaks_href :
  escapeWebdavHref (str "it's") = str "it&%2339;s" /\ xml_run (XText []) (escapeWebdavHref (str "it's")) = None.
Proof. split; vm_compute; reflexivity. Qed.

(** ** The page of a directory *)

(** A scanner for HTML: in text, in a tag, in a quoted attribute value. *)
Inductive hstate := HText | HTag (acc : gostring) | HValue (acc : gostring).

Definition html_step (st : hstate) (c : byte) : hstate * list gostring :=
  match st with
  | HText => if bool_decide (c = x3c) then (HTag [], []) else (HText, [])
  | HTag acc =>
      if bool_decide (c = x3e) then (HText, [acc])
      else if bool_decide (c = x22) then (HValue acc, [])
      else (HTag (acc ++ [c]), [])
  | HValue acc => if bool_decide (c = x22) then (HTag acc, []) else (HValue acc, [])
  end.

(** The tags of a page, with their attributes but without the values of these. *)
Fixpoint html_run (st : hstate) (s : gostring) : hstate * list gostring :=
  match s with
  | [] => (st, [])
  | c :: s' =>
      let '(st', out) := html_step st c in
      let '(st2, out2) := html_run st' s' in (st2, out ++ out2)
  end.
Definition html_tags (page : gostring) : list gostring := (html_run HText page).2.

Lemma html_run_app st a b :
  html_run st (a ++ b) = ((html_run (html_run st a).1 b).1, (html_run st a).2 ++ (html_run (html_run st a).1 b).2).
Proof.
  revert st. induction a as [|c a IH]; intros st; cbn [app html_run]; [cbn [fst snd app]; by rewrite <-surjective_pairing|].
  destruct (html_step st c) as [st' out]. rewrite IH. destruct (html_run st' a) as [st2 out2]. cbn [fst snd].
  by rewrite app_assoc.
Qed.

(** From the state [st] both texts give the same tags and the state [st']. *)
Definition alike (st : hstate) (a b : gostring) (st' : hstate) : Prop :=
  exists tags, html_run st a = (st', tags) /\ html_run st b = (st', tags).

Lemma alike_app st a b st1 a' b' st2 : alike st a b st1 -> alike st1 a' b' st2 -> alike st (a ++ a') (b ++ b') st2.
Proof.
  intros (t1 & Ha & Hb) (t2 & Ha' & Hb'). exists (t1 ++ t2). rewrite !html_run_app, Ha, Hb. cbn [fst snd].
  by rewrite Ha', Hb'.
Qed.

Lemma alike_same st c : alike st c c (html_run st c).1.
Proof. exists (html_run st c).2. by rewrite <-surjective_pairing. Qed.

Lemma text_stays s : (x3c ∉ s) -> html_run HText s = (HText, []).
Proof.
  induction s as [|c s IH]; intros H; [done|]. apply not_elem_of_cons in H as [Hc Hs].
  cbn [html_run html_step]. rewrite bool_decide_false by congruence. by rewrite IH.
Qed.
Lemma value_stays acc s : (x22 ∉ s) -> html_run (HValue acc) s = (HValue acc, []).
Proof.
  induction s as [|c s IH]; intros H; [done|]. apply not_elem_of_cons in H as [Hc Hs].
  cbn [html_run html_step]. rewrite bool_decide_false by congruence. by rewrite IH.
Qed.

Lemma alike_text a b : (x3c ∉ a) -> (x3c ∉ b) -> alike HText a b HText.
Proof. intros Ha Hb. exists []. by rewrite !text_stays. Qed.
Lemma alike_value acc a b : (x22 ∉ a) -> (x22 ∉ b) -> alike (HValue acc) a b (HValue acc).
Proof. intros Ha Hb. exists []. by rewrite !value_stays. Qed.

Lemma url_escape_value s : x22 ∉ url_escape s.
Proof.
  induction s as [|c s IH]; [by apply not_elem_of_nil|].
  change (c :: s) with ([c] ++ s). rewrite url_escape_app. apply not_elem_of_app. split; [|done].
  destruct c; apply (bool_decide_unpack _); vm_compute; exact I.
Qed.

Lemma EscapedPath_value s : x22 ∉ EscapedPath s.
Proof.
  unfold EscapedPath. case_bool_decide; [|apply url_escape_value].
  apply (bool_decide_unpack _); vm_compute; exact I.
Qed.

Section Pages.
Context {pr : Printers} {laws : PrinterLaws}.

(** The parts of two pages that differ, each in its place. *)
Lemma alike_E_S a b : alike HText (E_S a) (E_S b) HText.
Proof. apply alike_text; apply E_S_markup. Qed.
Lemma alike_path acc a b : alike (HValue acc) (EscapedPath a) (EscapedPath b) (HValue acc).
Proof. apply alike_value; apply EscapedPath_value. Qed.
Lemma alike_N_D acc a b : alike (HValue acc) (N_D a) (N_D b) (HValue acc).
Proof. apply alike_value; apply N_D_plain. Qed.
Lemma alike_http acc a b : alike (HValue acc) (Format_http a) (Format_http b) (HValue acc).
Proof. apply alike_value; apply Format_http_plain. Qed.
Lemma alike_local a b : alike HText (Format_local a) (Format_local b) HText.
Proof. apply alike_text; apply Format_local_markup. Qed.
Lemma alike_IBytes a b : alike HText (IBytes a) (IBytes b) HText.
Proof. apply alike_text; apply IBytes_markup. Qed.

(** Constant markup, with the state it leads to computed. *)
Lemma alike_const st c st' : (html_run st c).1 = st' -> alike st c c st'.
Proof. intros <-. apply alike_same. Qed.

Ltac page :=
  repeat first
    [ eapply alike_app;
      [ first [ apply alike_E_S | apply alike_path | apply alike_N_D | apply alike_http | apply alike_local
              | apply alike_IBytes | eapply alike_const; vm_compute; reflexivity ] | ]
    | apply alike_E_S | apply alike_local
    | eapply alike_const; vm_compute; reflexivity ].

Lemma list_file_alike showDirSize f g :
  FileInfo_IsDir f = FileInfo_IsDir g -> alike HText (list_file showDirSize f) (list_file showDirSize g) HText.
Proof. intros E. unfold list_file. rewrite <-E. destruct (FileInfo_IsDir f), showDirSize; cbn [negb orb app]; rewrite <-?app_assoc; cbn [app]; page. Qed.

Lemma list_files_alike showDirSize fs gs :
  map FileInfo_IsDir fs = map FileInfo_IsDir gs ->
  alike HText (concat (map (list_file showDirSize) fs)) (concat (map (list_file showDirSize) gs)) HText.
Proof.
  revert gs. induction fs as [|f fs IH]; intros [|g gs] E; try done; [by apply alike_same|].
  cbn [map] in E. injection E as E1 E2. cbn [map concat]. eapply alike_app; [by apply list_file_alike|by apply IH].
Qed.

Lemma Repeat_up_value n : x22 ∉ Repeat_up n.
Proof.
  induction n as [|n IH]; [by apply not_elem_of_nil|]. unfold Repeat_up. cbn [replicate concat].
  apply not_elem_of_app. split; [apply (bool_decide_unpack _); vm_compute; exact I|exact IH].
Qed.

Lemma list_path_alike count i p q : alike HText (list_path count i p) (list_path count i q) HText.
Proof.
  unfold list_path. eapply alike_app; [eapply alike_const; vm_compute; reflexivity|].
  eapply alike_app; [apply alike_value; apply Repeat_up_value|]. page.
Qed.

Lemma imap_alike (f : nat -> gostring -> gostring) ps qs :
  (forall i p q, alike HText (f i p) (f i q) HText) -> length ps = length qs ->
  alike HText (concat (imap f ps)) (concat (imap f qs)) HText.
Proof.
  revert f qs. induction ps as [|p ps IH]; intros f [|q qs] Hf E; try done; [by apply alike_same|].
  cbn [imap concat]. eapply alike_app; [apply Hf|]. apply IH; [by intros i; apply (Hf (S i))|by injection E].
Qed.

(** The ids of the cache are letters and digits (cacheIdRunes of server.go). *)
Definition alnum (c : byte) : bool :=
  ((0x61 <=? byte_val c) && (byte_val c <=? 0x7a)) || ((0x41 <=? byte_val c) && (byte_val c <=? 0x5a)) || is_dec c.

Lemma alnum_not c s : forallb alnum s = true -> alnum c = false -> c ∉ s.
Proof. rewrite forallb_Forall, Forall_forall. intros H Hc Hin. by rewrite (H c Hin) in Hc. Qed.

Section CacheId.
Context (cacheId : gostring) (Hid : forallb alnum cacheId = true).

Lemma alike_id_value acc : alike (HValue acc) cacheId cacheId (HValue acc).
Proof. apply alike_value; by eapply alnum_not. Qed.
Lemma alike_id_text : alike HText cacheId cacheId HText.
Proof. apply alike_text; by eapply alnum_not. Qed.

Lemma list_page_alike paths paths' files files' showDirSize customCSS customJS ro :
  length paths = length paths' -> map FileInfo_IsDir files = map FileInfo_IsDir files' ->
  alike HText (List_page cacheId paths files showDirSize customCSS customJS ro)
    (List_page cacheId paths' files' showDirSize customCSS customJS ro) HText.
Proof.
  intros Hp Hf. unfold List_page, WriteList, StreamList. rewrite !app_nil_l, Hp.
  pose proof (list_files_alike showDirSize _ _ Hf) as Hfiles.
  pose proof (imap_alike (list_path (length paths')) paths paths' (list_path_alike _) Hp) as Hpaths.
  destruct (negb _), customCSS, customJS, ro; rewrite <-?app_assoc; cbn [app];
    repeat first
      [ eapply alike_app;
        [ first [ exact Hfiles | exact Hpaths | apply alike_id_value | apply alike_id_text | apply alike_E_S
                | eapply alike_const; vm_compute; reflexivity ] | ]
      | eapply alike_const; vm_compute; reflexivity ].
Qed.

Lemma error_page_alike status msg msg' customCSS customJS :
  alike HText (Error_page cacheId status msg customCSS customJS) (Error_page cacheId status msg' customCSS customJS) HText.
Proof.
  assert (alike HText (N_D status) (N_D status) HText) as Hs.
  { apply alike_text; intros H; destruct (N_D_plain status) as [Hn _];
      rewrite forallb_Forall, Forall_forall in Hn; apply Hn in H; by vm_compute in H. }
  unfold Error_page, WriteError, StreamError. rewrite !app_nil_l.
  destruct customCSS, customJS; rewrite <-?app_assoc; cbn [app];
    repeat first
      [ eapply alike_app;
        [ first [ exact Hs | apply alike_id_value | apply alike_id_text | apply alike_E_S
                | eapply alike_const; vm_compute; reflexivity ] | ]
      | eapply alike_const; vm_compute; reflexivity ].
Qed.
End CacheId.

(** C22: Nothing that is put into a page of the web interface becomes markup. The tags
    of the listing of a directory, with their attributes, are the same for any two
    listings of as many path components and as many files, with directories at the
    same places, whatever their names, sizes and times; the tags of an error page do
    not depend on its message; and each page ends outside any tag. *)
Theorem pages_no_injection (cacheId : gostring) (paths paths' : list gostring) (files files' : list FileInfo)
    (showDirSize customCSS customJS ro : bool) (status : Z) (msg msg' : gostring) :
  forallb alnum cacheId = true -> length paths = length paths' ->
  map FileInfo_IsDir files = map FileInfo_IsDir files' ->
  html_tags (List_page cacheId paths files showDirSize customCSS customJS ro) =
    html_tags (List_page cacheId paths' files' showDirSize customCSS customJS ro) /\
  (html_run HText (List_page cacheId paths files showDirSize customCSS customJS ro)).1 = HText /\
  html_tags (Error_page cacheId status msg customCSS customJS) =
    html_tags (Error_page cacheId status msg' customCSS customJS) /\
  (html_run HText (Error_page cacheId status msg customCSS customJS)).1 = HText.
Proof.
  intros Hid Hp Hf. unfold html_tags.
  destruct (list_page_alike cacheId Hid paths paths' files files' showDirSize customCSS customJS ro Hp Hf) as (t & -> & ->).
  destruct (error_page_alike cacheId Hid status msg msg' customCSS customJS) as (u & -> & ->). done.
Qed.
End Pages.

(** A name with a scheme becomes a link with that scheme: it is not made relative. *)
Example script_link : EscapedPath (str "javascript:alert(1)") = str "javascript:alert%281%29".
Proof. vm_compute. reflexivity. Qed.

(** ** Witnesses *)

(** Printers that escape as quicktemplate does; numbers and times are printed as a
    digit. *)
Definition demo_escape (c : byte) : gostring :=
  if bool_decide (c = x3c) then str "&lt;" else if bool_decide (c = x3e) then str "&gt;"
  else if bool_decide (c = x26) then str "&amp;" else if bool_decide (c = x22) then str "&quot;"
  else if bool_decide (c = x27) then str "&#39;" else [c].
Definition demo_printers : Printers := {|
  E_S := fun s => concat (map demo_escape s); N_D := fun _ => str "7"; TypeByExtension := fun _ => str "text/plain";
  Format_http := fun _ => str "Thu, 01 Jan 1970 00:00:00 GMT"; Format_local := fun _ => str "1970-01-01 00:00:00";
  IBytes := fun _ => str "7 B";
|}.

Lemma demo_escape_xml c : xml_legal c = true -> xml_text (demo_escape c).
Proof. intros H open. destruct c; vm_compute in H; try discriminate H; vm_compute; reflexivity. Qed.

Lemma demo_escape_markup c : (x3c ∉ demo_escape c) /\ (x22 ∉ demo_escape c).
Proof. destruct c; split; apply (bool_decide_unpack _); vm_compute; exact I. Qed.

Lemma demo_laws : PrinterLaws (pr := demo_printers).
Proof.
  split.
  - intros s. cbn [E_S demo_printers]. induction s as [|c s IH]; [intros _; apply xml_text_nil|].
    cbn [forallb map concat]. intros [Hc Hs]%andb_true_iff. apply xml_text_app; [by apply demo_escape_xml|by apply IH].
  - intros s. cbn [E_S demo_printers]. induction s as [|c s IH]; [split; apply not_elem_of_nil|].
    cbn [map concat]. destruct IH, (demo_escape_markup c). split; by apply not_elem_of_app.
  - intros n. split; [reflexivity|apply (bool_decide_unpack _); vm_compute; exact I].
  - intros e. reflexivity.
  - intros t. split; [reflexivity|apply (bool_decide_unpack _); vm_compute; exact I].
  - intros t. apply (bool_decide_unpack _); vm_compute; exact I.
  - intros n. apply (bool_decide_unpack _); vm_compute; exact I.
Qed.



Lemma pages_no_injection_witness :
  html_tags (List_page (pr := demo_printers) (str "Ab3") [str "/"] [mkFileInfo (str "</a><script>") false 5 0] false false false true) =
  html_tags (List_page (pr := demo_printers) (str "Ab3") [str "/"] [mkFileInfo (str "plain") false 7 1] false false false true).
Proof.
  destruct (pages_no_injection (pr := demo_printers) (laws := demo_laws) (str "Ab3") [str "/"] [str "/"]
    [mkFileInfo (str "</a><script>") false 5 0] [mkFileInfo (str "plain") false 7 1] false false false true 404 [] []) as [H _];
    [reflexivity|reflexivity|reflexivity|exact H].
Defined.
