(* ===== verification/ServerWebuiThms.v ===== *)
(** * Theorems: the web interface

    What a request that Server.ServeHTTP passes to the web interface may read, and
    the files it gives away when no directory of custom resources is set. *)
From S2P Require Import Prelude GoIO Prog Paths ServerRegistry ServerHttp ServerWebdav ServerWebui ServerHttpThms.

(** The user of a request is one of the server's. *)
Lemma tryAuth_user compare s req u :
  tryAuth compare s req = inr u -> (exists name, sv_users s !! name = Some u) \/ sv_anonymous s = Some u.
Proof.
  unfold tryAuth, httpBasicAuth, authUser. intros H.
  repeat case_match; simplify_eq; eauto.
Qed.

Lemma ServeList_only compare s req u :
  Server_ServeHTTP compare s req = ServeList u ->
  HasSuffix (hr_Path req) (str "/") = true /\ tryAuth compare s req = inr u.
Proof.
  unfold Server_ServeHTTP, TryServerHTTP, serve_files. intros H.
  destruct (tryAuth compare s req) as [rsp|v] eqn:Ea.
  - exfalso. unfold tryAuth in Ea. repeat case_match; simplify_eq.
  - repeat case_match; simplify_eq; split; try done;
      match goal with E : sv_webui s && _ && _ = true |- _ => by apply andb_prop in E as [[_ ?]%andb_prop _] end.
Qed.

Lemma NewUsers_roots cwd st us an users anonymous u :
  is_rooted cwd = true -> NewUsers cwd st us an = Ok (users, anonymous) ->
  (exists name, users !! name = Some u) \/ anonymous = Some u -> root_ok (su_Path u).
Proof.
  intros Hcwd Hn. destruct (NewUsers_spec _ _ _ _ _ _ Hn) as [Hus Han].
  intros [[name Hu]|Hu].
  - destruct (Hus _ _ Hu) as [_ (c & path & ro & _ & (c' & _ & _ & -> & _) & _ & ->)]. by apply NewStorage_root_ok.
  - destruct (Han _ Hu) as (path & ro & _ & (c' & _ & _ & -> & _) & ->). by apply NewStorage_root_ok.
Qed.

(** C15: The web interface reads only what it is meant to show, for every request that
    Server.ServeHTTP passes to it but those below /custom/ of a server without an
    absolute directory of custom resources (one without "." and ".."); there, so in the
    default configuration, it serves any file (custom_resources_leak). Whatever the
    operating system answers, a listing opens and inspects only paths of the user's
    storage, an asset is one of the built-in resources or, below /custom/, lies below
    the directory of custom resources; nothing is changed, every directory is closed
    again and the status line is sent exactly once. *)
Theorem webui_confined (compare : gostring -> gostring -> comparison) (cwd : gostring) (st : list config_Storage)
    (us : list config_User) (an : config_Anonymous) (s : server) (w : webui_Handler) (req : http_request) :
  is_rooted cwd = true -> NewUsers cwd st us an = Ok (sv_users s, sv_anonymous s) ->
  (HasPrefix (hr_Path req) (str "/custom/") = true -> plain (wh_customResources w)) ->
  match Server_ServeHTTP compare s req with
  | ServeAssets =>
      wp true (ui_env (eq (wh_customResources w))) (webui_ServeAssets w (hr_Path req)) (mkUghost ∅ false) (fun _ => answered)
  | ServeList u =>
      wp true (ui_env (eq (su_Path u))) (webui_ServeList w (hr_Path req) u) (mkUghost ∅ false) (fun _ => answered)
  | _ => True
  end.
Proof.
  intros Hcwd Hnew Hp. destruct (Server_ServeHTTP compare s req) as [| | | | | | |u|] eqn:E; try done.
  - apply uwp_ServeAssets; [done|done|]. unfold Server_ServeHTTP in E. by destruct (IsUrlValid (hr_Path req)).
  - destruct (ServeList_only _ _ _ _ E) as [Hsuf Hu%tryAuth_user].
    apply uwp_ServeList; [done|by eapply NewUsers_roots| |done].
    unfold Server_ServeHTTP in E. by destruct (IsUrlValid (hr_Path req)).
Qed.

(** With no directory of custom resources configured, which is the default,
    anyone can read any file of the host through the web interface: for every
    absolute path without "." and "..", a GET request for "/custom" and the path
    with the query webui-assets is answered, whoever the users are and without
    credentials, with the file of that path. *)
Theorem custom_resources_leak (compare : gostring -> gostring -> comparison) (s : server) (c : config_Webui)
    (req : http_request) (file : gostring) :
  sv_webui s = true -> cw_CustomResources c = [] -> plain file ->
  hr_Method req = str "GET" -> hr_query req (str "webui-assets") = true -> hr_Path req = str "/custom" ++ file ->
  Server_ServeHTTP compare s req = ServeAssets /\
  exists w, webui_NewHandler c = mret w /\ webui_ServeAssets w (hr_Path req) = ui (UServeFile (Clean file)) /\
    components (Clean file) = components file /\ is_rooted (Clean file) = true.
Proof.
  intros Hw Hc Hf Hm Hq Hp. pose proof Hf as [Hfr Hfc]. split.
  - unfold Server_ServeHTTP. rewrite valid_plain, Hq, Hw; [cbn|].
    + unfold is_get. by rewrite Hm.
    + rewrite Hp. destruct file as [|b file]; [done|]. unfold is_rooted in Hfr. case_bool_decide as E; [|done].
      injection E as ->. split; [done|]. rewrite components_app. apply Forall_app. split.
      * change (str "/custom") with (slash :: str "custom"). rewrite components_slash.
        apply (bool_decide_eq_true_1 (Forall ordinary (components (str "custom")))). by vm_compute.
      * by rewrite components_slash in Hfc.
  - exists (mkWebuiHandler [] (cw_ShowDirSize c) false false). split_and!; [unfold webui_NewHandler; by rewrite Hc| | |].
    + unfold webui_ServeAssets. cbn [wh_customResources]. rewrite Hp.
      destruct file as [|b file]; [done|]. unfold is_rooted in Hfr. case_bool_decide as E; [|done]. injection E as ->. by destruct file.
    + by apply Clean_components.
    + by apply Clean_components.
Qed.

(** ** Witnesses *)

Definition req_shadow : http_request :=
  mkHttpRequest (str "GET") (str "/custom/etc/shadow") (fun _ => []) (fun q => bool_decide (q = str "webui-assets")) None.
Definition ui_server : server := mkServer true true true (sv_users a_server) None.
Definition default_Webui : config_Webui := mkConfigWebui true false [].

Lemma custom_resources_leak_witness :
  exists w, webui_NewHandler default_Webui = mret w /\
    webui_ServeAssets w (hr_Path req_shadow) = ui (UServeFile (str "/etc/shadow")).
Proof.
  destruct (custom_resources_leak plain_compare ui_server default_Webui req_shadow (str "/etc/shadow"))
    as [_ (w & Hn & Ha & _)]; [done|done|split; [done|apply (bool_decide_eq_true_1 (Forall ordinary _)); by vm_compute]|done|done|done|].
  exists w. split; [exact Hn|]. rewrite Ha. f_equal.
Defined.

(** Without custom resources. *)
Definition plain_handler : webui_Handler := mkWebuiHandler [] false false false.
Definition req_listing : http_request :=
  mkHttpRequest (str "GET") (str "/d/") (hr_Values an_upgrade) (fun _ => false) (hr_BasicAuth an_upgrade).

Lemma webui_confined_witness :
  Server_ServeHTTP plain_compare (mkServer true true false (sv_users a_server) None) req_listing = ServeList user_alice /\
  wp true (ui_env (eq (str "/srv/files"))) (webui_ServeList plain_handler (str "/d/") user_alice) (mkUghost ∅ false)
    (fun _ => answered).
Proof.
  assert (Server_ServeHTTP plain_compare (mkServer true true false (sv_users a_server) None) req_listing = ServeList user_alice)
    as E by (by vm_compute).
  split; [exact E|].
  pose proof (webui_confined plain_compare (str "/") [a_storage] [config_alice] no_anonymous
    (mkServer true true false (sv_users a_server) None) plain_handler req_listing) as H.
  rewrite E in H. by apply H; [|exact a_server_users|].
Defined.
