(* ===== verification/ServerHubThms.v ===== *)
(** * Theorems: the hub

    What requests are served with over all interleavings of signals, reloads and
    ends of servers; what a reload changes when it succeeds and when it fails; and
    what goes wrong. *)
From S2P Require Import Prelude GoIO Prog Paths ServerXattr ServerRegistry ServerHttp ServerWebdav ServerWebui ServerHub ServerHubOk ServerHubInv.

(** ** What the server is built from *)

Section Hub.
Context (cwd : gostring).

Lemma act_grows a s s' :
  hub_act cwd a s = Some s' -> hub_grows (hu_hub s) (hu_world s) (hu_hub s') (hu_world s').
Proof.
  unfold hub_act. destruct (wd_exited (hu_world s)); [done|]. destruct a as [| |i o]; try (intros [= <-]; apply grows_refl).
  destruct (hu_threads s !! i) as [[| e k | |]|]; try done.
  destruct (hub_answer cwd o e (hu_hub s) (hu_world s)) as [[[r [h' w']] new]|] eqn:Ea; [|done]. intros [= <-].
  by eapply answer_grows.
Qed.

(** The registry is kept. *)
Lemma play_registry acts s s' r :
  hub_play cwd acts s = Some s' -> hb_wsfsRegistry (hu_hub s) = Some r -> hb_wsfsRegistry (hu_hub s') = Some r.
Proof.
  revert s. induction acts as [|a acts IH]; intros s; cbn; [by intros [= ->]|].
  destruct (hub_act cwd a s) as [s1|] eqn:E; [|done]. intros Hp Hr. eapply IH; [exact Hp|]. by apply (act_grows _ _ _ E).
Qed.

(** The configurations the actions hand out. *)
Definition handed_out (acts : list hub_action) (c : config_Server) : Prop :=
  exists i o, HubGo i o ∈ acts /\ ou_config o = GotConfig c.

Lemma answer_configs o e h w r h' w' new c :
  hub_answer cwd o e h w = Some (r, (h', w'), new) -> c ∈ wd_configs w' -> c ∈ wd_configs w \/ ou_config o = GotConfig c.
Proof.
  destruct e; cbn [hub_answer]; intros H; repeat case_match; try discriminate H; injection H as <- <- <- <-; try by left.
  - unfold open_listener. case_match; by left.
  - intros [->|Hc]%elem_of_cons; [by right|by left].
  - destruct (close_listener_same l w) as (_ & _ & E & _). rewrite E. by left.
  - destruct (close_listener_same l w) as (_ & _ & E & _). rewrite E. by left.
  - destruct (close_listener_same l w) as (_ & _ & E & _). rewrite E. by left.
  - match goal with |- context [foldr _ ?w0 ?ls] => destruct (close_listeners_same ls w0) as (_ & _ & E & _) end. rewrite E. by left.
Qed.

Lemma play_configs acts s s' c :
  hub_play cwd acts s = Some s' -> c ∈ wd_configs (hu_world s') -> c ∈ wd_configs (hu_world s) \/ handed_out acts c.
Proof.
  revert s. induction acts as [|a acts IH]; intros s; cbn; [intros [= ->]; by left|].
  destruct (hub_act cwd a s) as [s1|] eqn:E; [|done]. intros Hp Hc.
  destruct (IH _ Hp Hc) as [Hc1|(i & o & Ho & Eo)]; [|right; exists i, o; split; [by right|done]].
  revert E. unfold hub_act. destruct (wd_exited (hu_world s)); [done|]. destruct a as [| |i o]; try (intros [= <-]; by left).
  destruct (hu_threads s !! i) as [[| e k | |]|]; try done.
  destruct (hub_answer cwd o e (hu_hub s) (hu_world s)) as [[[r [h' w']] new]|] eqn:Ea; [|done]. intros [= <-].
  destruct (answer_configs _ _ _ _ _ _ _ _ _ Ea Hc1) as [?|?]; [by left|]. right. exists i, o. split; [left|done].
Qed.

(** C8: Requests are served by one whole configuration. Whatever signals arrive and
    however reloads and ends of servers interleave: as long as an HTTP server
    accepts connections there is an instance (nobody gets status 503), and the
    instance was built by NewServer from one configuration that was valid, the one
    the process began with or one that GetConfig returned. Its WSFS handler uses
    the published registry; that registry is made once and never replaced, so that
    sessions survive reloads, and no registry ever has two collectors. *)
Theorem hub_serves_built (files : gmap gostring Z) (c : config_Server) (acts : list hub_action) (s : hub_state) :
  hub_play cwd acts (hub_init cwd files c) = Some s ->
  (forall hs sv, wd_servers (hu_world s) !! hs = Some sv -> hs_listeners sv <> [] -> hb_inst (hu_hub s) <> None) /\
  (forall srv, hb_inst (hu_hub s) = Some srv ->
    (exists c', (c' = c \/ handed_out acts c') /\ built cwd c' srv) /\
    forall f, so_wsfsHandler srv = Some f -> exists r x, wf_registry f = Some r /\ hb_wsfsRegistry (hu_hub s) = Some r /\
      wd_registries (hu_world s) !! r = Some x) /\
  (forall r x, wd_registries (hu_world s) !! r = Some x ->
    (hr_collectors x <= 1)%nat /\ ((0 < hr_collectors x)%nat -> hb_wsfsRegistry (hu_hub s) = Some r)) /\
  (forall acts' s' r, hub_play cwd acts' s = Some s' ->
    hb_wsfsRegistry (hu_hub s) = Some r -> hb_wsfsRegistry (hu_hub s') = Some r).
Proof.
  intros Hp. assert (hub_inv cwd s) as (gs & Hok) by (eapply hub_reachable_inv; by exists acts).
  destruct Hok as [_ _ [_ S2 S3 S4 S5] _ _]. split_and!.
  - apply S5.
  - intros srv Hs. destruct (S2 srv Hs) as [(c' & Hc & Hb) Hf]. split.
    + exists c'. split; [|done]. destruct (play_configs _ _ _ _ Hp Hc) as [Hi|?]; [left|by right].
      cbn in Hi. by apply list_elem_of_singleton in Hi.
    + intros f Ef. destruct (Hf f Ef) as (r & Er & Hr). destruct (lookup_lt_is_Some_2 _ _ (S3 r Hr)) as [x Hx]. by exists r, x.
  - intros r x Hx. specialize (S4 r x Hx). split.
    + destruct (bool_decide _); cbn in S4; lia.
    + intros Hpos. destruct (decide (hb_wsfsRegistry (hu_hub s) = Some r)) as [|Hne]; [done|].
      rewrite bool_decide_false in S4 by done. cbn in S4. lia.
  - intros acts' s' r. apply play_registry.
Qed.

(** ** The lock of reloading *)

(** The fields of the hub that are not atomic. *)
Definition writes_hub (e : hev) : bool :=
  match e with ListenerStore _ | ListenerConfigStore _ | HttpServerStore _ => true | _ => false end.

Lemma sum_two (f : hghost -> nat) gs i j gi gj :
  gs !! i = Some gi -> gs !! j = Some gj -> i <> j -> (f gi + f gj <= sum_list_with f gs)%nat.
Proof.
  intros Hi Hj Hij. assert (<[i := gj]> gs !! j = Some gj) as Hj' by (by rewrite list_lookup_insert_ne).
  assert (forall (l : list hghost) k g, l !! k = Some g -> f g <= sum_list_with f l)%nat as Hone.
  { induction l as [|g0 l IH]; intros [|k] g Hk; simplify_eq/=; [lia|]. specialize (IH k g Hk). lia. }
  revert i j Hi Hj Hij Hj'. induction gs as [|g gs IH]; intros [|i] [|j] Hi Hj Hij _; simplify_eq/=.
  - specialize (Hone gs j gj Hj). lia.
  - specialize (Hone gs i gi Hi). lia.
  - specialize (IH i j Hi Hj ltac:(lia)). assert (<[i := gj]> gs !! j = Some gj) by (by rewrite list_lookup_insert_ne by lia). specialize (IH H). lia.
Qed.

Lemma writes_holds s gs i e k g :
  hub_ok cwd s gs -> hu_threads s !! i = Some (Vis e k) -> gs !! i = Some g -> writes_hub e = true -> i <> 0%nat -> holds g = 1%nat.
Proof.
  intros Hok Et Hg He Hi. destruct (Forall2_lookup_lr _ _ _ _ _ _ (ok_threads _ _ _ Hok) Et Hg) as [Hp _].
  destruct (hub_pre_cases _ _ _ Hp) as [(_ & _ & Ha)|[(r & _ & ->)|(hs & b & _ & Hx)]]; [|done|by destruct b, Hx as [x ->]].
  unfold holds. assert (hg_lock g = true) as ->; [|done]. destruct e; try done; destruct Ha as [?|Hm]; try done; by destruct Hi; eapply ok_main.
Qed.

(** C14: Reloads exclude each other. In every reachable state no goroutine of the
    hub has panicked; of the goroutines about to write the fields that are not
    atomic (listener, listenerConfig, httpServer) at most one is another than
    Run's; a goroutine only unlocks a mutex that is locked; and while the lock is
    held some goroutine that has not ended holds it, so that no failure of a
    reload, a panic included, leaves the hub locked for ever. *)
Theorem reload_exclusive (files : gmap gostring Z) (c : config_Server) (s : hub_state) :
  hub_reachable cwd files c s ->
  (forall i p, hu_threads s !! i = Some p -> p = Ret tt \/ exists e k, p = Vis e k) /\
  (forall i j ei ki ej kj, hu_threads s !! i = Some (Vis ei ki) -> hu_threads s !! j = Some (Vis ej kj) ->
    writes_hub ei = true -> writes_hub ej = true -> i = j \/ i = 0%nat \/ j = 0%nat) /\
  (forall i k, hu_threads s !! i = Some (Vis HubUnlock k) -> hb_lock (hu_hub s) = true) /\
  (hb_lock (hu_hub s) = true -> exists i e k g, hu_threads s !! i = Some (Vis e k) /\ hg_lock g = true /\
    wp true (hub_env cwd) (Vis e k) g (fun _ => finished)).
Proof.
  intros Hr. destruct (hub_reachable_inv _ _ _ _ Hr) as (gs & Hok). pose proof (ok_threads _ _ _ Hok) as Hw.
  pose proof (sh_lock _ _ _ _ (ok_shared _ _ _ Hok)) as Hlk.
  assert (forall i p, hu_threads s !! i = Some p -> exists g, gs !! i = Some g /\ wp true (hub_env cwd) p g (fun _ => finished)) as Hth
    by (intros i p Hp; by apply (Forall2_lookup_l _ _ _ _ _ Hw)).
  split_and!.
  - intros i p Hp. destruct (Hth i p Hp) as (g & _ & Hwp). destruct p as [[]|e k| |]; [by left|right; by exists e, k|done|done].
  - intros i j ei ki ej kj Hi Hj Hwi Hwj. destruct (decide (i = j)) as [|Hij]; [by left|right].
    destruct (decide (i = 0%nat)) as [|Hi0]; [by left|right]. destruct (decide (j = 0%nat)) as [|Hj0]; [done|exfalso].
    destruct (Hth _ _ Hi) as (gi & Hgi & _), (Hth _ _ Hj) as (gj & Hgj & _).
    pose proof (sum_two holds gs i j gi gj Hgi Hgj Hij) as Hsum.
    rewrite (writes_holds s gs i ei ki gi), (writes_holds s gs j ej kj gj), Hlk in Hsum by done.
    destruct (hb_lock (hu_hub s)); cbn in Hsum; lia.
  - intros i k Hi. destruct (Hth _ _ Hi) as (g & Hg & [Hp _]).
    destruct (hub_pre_cases _ _ _ Hp) as [(_ & _ & Ha)|[(r & _ & ?)|(hs & b & _ & Hx)]]; [|done|by destruct b, Hx].
    cbn in Ha. pose proof (sum_insert holds gs i (hg_set_lock false g) g Hg) as Es. unfold holds in Es at 2 4. rewrite Ha in Es. cbn in Es.
    destruct (hb_lock (hu_hub s)); [done|]. cbn in Hlk. lia.
  - intros Hl. rewrite Hl in Hlk. cbn in Hlk.
    assert (exists i g, gs !! i = Some g /\ hg_lock g = true) as (i & g & Hg & Hgl).
    { clear -Hlk. induction gs as [|g gs IH]; [done|]. cbn in Hlk. unfold holds in Hlk at 1.
      destruct (hg_lock g) eqn:E; [by exists 0%nat, g|]. destruct (IH Hlk) as (i & g' & ? & ?). by exists (S i), g'. }
    destruct (Forall2_lookup_r _ _ _ _ _ Hw Hg) as (p & Hp & Hwp). destruct p as [a|e k| |]; try done.
    + destruct Hwp as [Hwp _]. congruence.
    + by exists i, e, k, g.
Qed.
End Hub.

(** ** A goroutine that runs alone

    The state is that of the hub and the world, the outside decides as it likes. *)

Section Alone.
Context (cwd : gostring).

Definition alone : env hans :=
  mkEnv (hub * world) (fun _ _ => True)
    (fun s e r s' => exists o new, hub_answer cwd o e s.1 s.2 = Some (r, s', new)).

Abbreviation awp p s Q := (wp true alone p s Q).

Lemma awp_ask {A} e (k : hans e -> HP A) s (Q : A -> hub * world -> Prop) :
  (forall o r s' new, hub_answer cwd o e s.1 s.2 = Some (r, s', new) -> awp (k r) s' Q) -> awp (hub_do e ≫= k) s Q.
Proof. intros Hk. apply wp_bind. split; [done|]. intros r s' (o & new & H). by eapply Hk. Qed.

Lemma awp_recover_ask {A} e (k : hans e -> HP A) s (Q : unit -> hub * world -> Prop) :
  (forall o r s' new, hub_answer cwd o e s.1 s.2 = Some (r, s', new) -> awp (with_recover (k r) (mret tt)) s' Q) ->
  awp (with_recover (hub_do e ≫= k) (mret tt)) s Q.
Proof. intros Hk. split; [done|]. intros r s' (o & new & H). by eapply Hk. Qed.

(** ** listen *)

(** Whether a file is a socket. *)
Definition is_sock (f : hub_file) : bool :=
  match f with SocketOf _ => true | OtherFile mode => negb (Z.land mode ModeSocket =? 0) end.

(** The world when the socket in the way of a listener may have been removed. *)
Definition sock_removed (c : config_Listener) (w w' : world) : Prop :=
  w' = w \/
  cl_Network c = unix_network /\ (exists f, wd_files w !! cl_Address c = Some f /\ is_sock f = true) /\
    w' = set_files (delete (cl_Address c) (wd_files w)) w.

(** What listen has done when it returns. *)
Definition listened (c : config_Listener) (h : hub) (w : world) (r : result hub_error (nat * option Z)) (s' : hub * world) : Prop :=
  s'.1 = h /\
  match r with
  | Err _ => sock_removed c w s'.2
  | Ok (l, tls) => exists w1, sock_removed c w w1 /\ l = length (wd_listeners w) /\
      address_in_use (cl_Network c) (cl_Address c) w1 = false /\
      s'.2 = open_listener (cl_Network c) (cl_Address c) w1 /\ (is_Some tls <-> tls_Enable (cl_TLS c) = true)
  end.

Lemma awp_remove_old_sock c h w :
  awp (remove_old_sock c) (h, w) (fun r s' => s'.1 = h /\ sock_removed c w s'.2 /\
    (forall f, wd_files w !! cl_Address c = Some f -> is_sock f = false -> s'.2 = w)).
Proof.
  unfold remove_old_sock. case_bool_decide as Hu; [|split_and!; [done|by left|done]].
  apply awp_ask. intros o r s' new. cbn. intros [= <- <- <-].
  destruct (ou_err o) as [e|]; [split_and!; [done|by left|done]|].
  destruct (wd_files w !! cl_Address c) as [f|] eqn:Ef; [|split_and!; [done|by left|done]].
  assert (negb (Z.land (oi_Mode (file_info (cl_Address c) f)) ModeSocket =? 0) = is_sock f) as -> by (by destruct f).
  destruct (is_sock f) eqn:Es; [|split_and!; [done|by left|done]].
  apply awp_ask. intros o2 r s' new2. cbn. rewrite Ef. destruct (ou_err o2); intros [= <- <- <-].
  - split_and!; [done|by left|done].
  - split_and!; [done|right; split_and!; [done|by exists f|done]|]. intros f' [= <-]. congruence.
Qed.

Lemma awp_listen c h w :
  awp (listen c) (h, w) (fun r s' => listened c h w r s' /\
    (forall f, wd_files w !! cl_Address c = Some f -> is_sock f = false -> wd_files s'.2 !! cl_Address c = Some f)).
Proof.
  unfold listen. apply wp_bind. eapply wp_mono; [apply awp_remove_old_sock|]. intros err [h1 w1] (E1 & Hs & Hfile). cbn in E1, Hs, Hfile. subst h1.
  assert (forall f, wd_files w !! cl_Address c = Some f -> is_sock f = false -> wd_files w1 !! cl_Address c = Some f) as Hf
    by (intros f Hf Hsk; by rewrite (Hfile f Hf Hsk)).
  destruct err as [e|]; [by split|]. apply wp_bind.
  assert (length (wd_listeners w1) = length (wd_listeners w)) as Hlen by (by destruct Hs as [->|(_ & _ & ->)]).
  assert (forall t, (is_Some t <-> tls_Enable (cl_TLS c) = true) ->
    awp (listener ← hub_do (NetListen (cl_Network c) (cl_Address c));
         mret (match listener with Some l => Ok (l, t) | None => Err ListenFailed end)) (h, w1) (fun r s' => listened c h w r s' /\
      (forall f, wd_files w !! cl_Address c = Some f -> is_sock f = false -> wd_files s'.2 !! cl_Address c = Some f))) as Hl.
  { intros t Ht. apply awp_ask. intros o r s' new. cbn.
    destruct (ou_yes o && negb (address_in_use _ _ w1)) eqn:E; intros [= <- <- <-]; [|by split].
    apply andb_prop in E as [_ E%negb_true_iff]. split; [split; [done|]; exists w1; by split_and!|].
    intros f Hfw Hsk. specialize (Hf f Hfw Hsk). cbn. unfold open_listener. unfold address_in_use in E.
    case_bool_decide; [|done]. apply bool_decide_eq_false in E. destruct E. by exists f. }
  destruct (tls_Enable (cl_TLS c)) eqn:Et.
  - apply awp_ask. intros o r s' new. cbn. destruct (ou_yes o); intros [= <- <- <-]; [apply Hl|]; by split.
  - apply Hl. split; [by intros []|done].
Qed.

(** listen, on every path: it changes nothing of the hub; a file at the address
    that is no socket stays; when it fails there is no new listener, and the only
    thing it can have done is to remove the socket at the address of a listener on
    the network "unix" (also when the key pair cannot be read afterwards: a socket
    on which another server still listens is gone then); when it succeeds the
    address was not in use, the listener is the next one, and there is a TLS
    configuration exactly when TLS is enabled. *)
Theorem listen_spec (c : config_Listener) (h : hub) (w : world) :
  awp (listen c) (h, w) (fun r s' => listened c h w r s' /\
    (forall f, wd_files w !! cl_Address c = Some f -> is_sock f = false -> wd_files s'.2 !! cl_Address c = Some f)).
Proof. apply awp_listen. Qed.

(** ** doReload *)

Definition hub_fields_kept (h h' : hub) : Prop :=
  hb_inst h' = hb_inst h /\ hb_listenerConfig h' = hb_listenerConfig h /\ hb_listener h' = hb_listener h /\
  hb_httpServer h' = hb_httpServer h /\ hb_exitErrorChan h' = hb_exitErrorChan h /\
  hb_lock h' = hb_lock h /\ hb_reloadReentrant h' = hb_reloadReentrant h.

Definition world_kept (w w' : world) : Prop :=
  wd_servers w' = wd_servers w /\ wd_listeners w' = wd_listeners w /\ wd_files w' = wd_files w /\ wd_exited w' = wd_exited w.

Lemma awp_ensure c h w (Q : option nat -> hub * world -> Prop) :
  (forall r h' w', hub_fields_kept h h' -> world_kept w w' -> wd_configs w' = wd_configs w -> Q r (h', w')) ->
  awp (ensureWSFSRegistry c) (h, w) Q.
Proof.
  intros HQ. unfold ensureWSFSRegistry. destruct (cf_Enable c); cbn [negb]; [|by apply HQ].
  apply awp_ask. intros o r s' new H. cbn in H. injection H as <- <- <-. destruct (hb_wsfsRegistry h) as [r|] eqn:Er.
  - apply awp_ask. intros o2 r2 s' new2 H. cbn in H. injection H as <- <-. by apply HQ.
  - apply awp_ask. intros o2 r2 s' new2 H. cbn in H. injection H as <- <- <-.
    apply awp_ask. intros o3 r3 s' new3 H. cbn in H. rewrite Er in H. injection H as <- <- <-.
    apply awp_ask. intros o4 r4 s' new4 H. cbn in H. injection H as <- <-. by apply HQ.
Qed.

Lemma awp_NewServer c reg s (Q : result hub_error Server -> hub * world -> Prop) :
  (forall r, (forall srv, r = Ok srv -> built cwd c srv) -> Q r s) -> awp (NewServer cwd c reg) s Q.
Proof.
  intros HQ. apply (rd_NewServer alone); [|intros r Hr; apply HQ; intros srv E; by apply Hr].
  intros e He. split; [done|]. intros r s' (o & new & H). destruct s as [h w].
  destruct e; try done; cbn in H; repeat case_match; try done; by injection H as _ <- _.
Qed.

(** What a reload has done. *)
Inductive reload_outcome (h : hub) (w : world) : hub * world -> Prop :=
| reload_refused h' w' :
    hub_fields_kept h h' -> wd_servers w' = wd_servers w -> wd_listeners w' = wd_listeners w ->
    (wd_files w' = wd_files w \/
     exists c f, c ∈ wd_configs w' /\ cl_Network (sc_Listener c) = unix_network /\
       wd_files w !! cl_Address (sc_Listener c) = Some f /\ is_sock f = true /\
       wd_files w' = delete (cl_Address (sc_Listener c)) (wd_files w)) ->
    reload_outcome h w (h', w')
| reload_swapped c srv h1 w' :
    c ∈ wd_configs w' -> built cwd c srv -> listenerEquals (hb_listenerConfig h) (sc_Listener c) = true ->
    hub_fields_kept h h1 -> world_kept w w' ->
    reload_outcome h w (hb_set_inst srv h1, w')
| reload_replaced c srv old h' w' :
    c ∈ wd_configs w' -> built cwd c srv -> listenerEquals (hb_listenerConfig h) (sc_Listener c) = false ->
    hb_inst h' = Some srv -> hb_listenerConfig h' = sc_Listener c ->
    hb_listener h' = Some (length (wd_listeners w)) -> hb_httpServer h' = Some (length (wd_servers w)) ->
    hb_lock h' = hb_lock h -> hb_reloadReentrant h' = hb_reloadReentrant h -> hb_exitErrorChan h' = hb_exitErrorChan h ->
    hb_httpServer h = Some old -> (exists s, wd_servers w' !! old = Some s /\ hs_shutdown s = true) ->
    wd_listeners w' !! length (wd_listeners w) =
      Some (mkNetListener (cl_Network (sc_Listener c)) (cl_Address (sc_Listener c)) true) ->
    reload_outcome h w (h', w').

Lemma close_others l ls w : l ∉ ls -> wd_listeners (foldr close_listener w ls) !! l = wd_listeners w !! l.
Proof.
  induction ls as [|l0 ls IH]; [done|]. rewrite not_elem_of_cons. intros [Hne Hn]. cbn. rewrite <-(IH Hn).
  unfold close_listener. destruct (_ !! l0) as [nl|]; [|reflexivity]. destruct (nl_open nl); [|reflexivity].
  destruct (bool_decide _); cbn; by rewrite list_lookup_insert_ne.
Qed.

Lemma open_listener_same network address w :
  wd_servers (open_listener network address w) = wd_servers w /\ wd_configs (open_listener network address w) = wd_configs w /\
  wd_listeners (open_listener network address w) = wd_listeners w ++ [mkNetListener network address true].
Proof. unfold open_listener. by case_match. Qed.

Lemma awp_replace c srv l t h w old (Q : unit -> hub * world -> Prop) :
  hb_httpServer h = Some old -> is_Some (wd_servers w !! old) ->
  (forall h' w' s, hb_inst h' = Some srv -> hb_listenerConfig h' = sc_Listener c ->
    hb_listener h' = Some l -> hb_httpServer h' = Some (length (wd_servers w)) ->
    hb_lock h' = hb_lock h -> hb_reloadReentrant h' = hb_reloadReentrant h -> hb_exitErrorChan h' = hb_exitErrorChan h ->
    wd_configs w' = wd_configs w ->
    wd_servers w' !! old = Some s -> hs_shutdown s = true ->
    (forall l0 s0, wd_servers w !! old = Some s0 -> l0 ∉ hs_listeners s0 -> wd_listeners w' !! l0 = wd_listeners w !! l0) ->
    Q tt (h', w')) ->
  awp (with_recover (replace_listener (sc_Listener c) srv l t) (mret tt)) (h, w) Q.
Proof.
  intros Hold [s0 Hs0] HQ. unfold replace_listener.
  apply awp_recover_ask. intros o r s' new H. cbn in H. rewrite Hold in H. injection H as <- <- <-.
  do 7 (apply awp_recover_ask; clear o; intros o r' s' new H; cbn in H; injection H as <- <- <-).
  apply awp_recover_ask. intros o2 r2 s' new2 H. cbn in H. rewrite lookup_app_l in H by (by eapply lookup_lt_Some).
  rewrite Hs0 in H. injection H as <- <- <-.
  apply awp_recover_ask. intros o3 r3 s' new3 H. cbn in H. destruct (ou_yes o3); [|done]. injection H as <- <- <-.
  match goal with |- context [foldr _ ?w0 ?ls] => pose proof (close_listeners_same ls w0) as (E1 & E2 & E3 & E4) end.
  match goal with |- context [foldr _ ?w0 ?ls] => set (w2 := foldr close_listener w0 ls) in * end.
  assert (wd_servers w2 !! old = Some (hs_set_shutdown s0)) as Hw2.
  { rewrite E1. cbn. apply list_lookup_insert_eq. rewrite length_app. apply lookup_lt_Some in Hs0. lia. }
  assert (forall l0 s1, wd_servers w !! old = Some s1 -> l0 ∉ hs_listeners s1 -> wd_listeners w2 !! l0 = wd_listeners w !! l0) as Hl2.
  { intros l0 s1 Hs1 Hl0. assert (s1 = s0) as -> by congruence. unfold w2. by rewrite close_others. }
  assert (forall w', wd_configs w' = wd_configs w2 -> wd_servers w' = wd_servers w2 -> wd_listeners w' = wd_listeners w2 ->
    Q tt (mkHub (Some srv) (sc_Listener c) (Some l) (Some (length (wd_servers w))) (hb_exitErrorChan h) (hb_lock h)
            (hb_reloadReentrant h) (hb_wsfsRegistry h), w')) as Hend.
  { intros w' F1 F2 F3. apply (HQ _ _ (hs_set_shutdown s0)); try done; [by rewrite F1, E3|by rewrite F2|].
    intros l0 s1 Hs1 Hl0. rewrite F3. by eapply Hl2. }
  unfold cleanListen. case_bool_decide as Hunix; [|by apply Hend].
  apply awp_recover_ask. intros o4 r4 s' new4 H. cbn in H. repeat case_match; injection H as <- <- <-; by apply Hend.
Qed.

Lemma sock_removed_files c w w' :
  sock_removed c w w' -> wd_servers w' = wd_servers w /\ wd_listeners w' = wd_listeners w /\ wd_configs w' = wd_configs w /\
  (wd_files w' = wd_files w \/
   cl_Network c = unix_network /\ (exists f, wd_files w !! cl_Address c = Some f /\ is_sock f = true) /\
   wd_files w' = delete (cl_Address c) (wd_files w)).
Proof. intros [->|(Hu & Hf & ->)]; split_and!; try done; [by left|by right]. Qed.

(** A reload is all or nothing, nearly. doReload running alone once the server
    is up, whatever the configuration and the outside, a panic included, ends in
    one of three ways. It was refused: instance, listener, its configuration, the
    HTTP servers and all listeners are as before, and the one thing that may be
    missing is the socket at the address of the refused configuration. The
    listener stays: the instance is built from the configuration, the rest is as
    before. The listener changes: a new HTTP server with a new open listener for
    the new address has taken over, and the old HTTP server is shut down. *)
Theorem reload_effect (h : hub) (w : world) (old : nat) :
  hb_httpServer h = Some old -> is_Some (wd_servers w !! old) ->
  (forall s l, wd_servers w !! old = Some s -> l ∈ hs_listeners s -> (l < length (wd_listeners w))%nat) ->
  awp (with_recover (doReload_body cwd) (mret tt)) (h, w) (fun _ => reload_outcome h w).
Proof.
  intros Hold Hs Hlt. unfold doReload_body.
  assert (forall w', world_kept w w' -> reload_outcome h w (h, w')) as Hrefused.
  { intros w' (E1 & E2 & E3 & _). apply reload_refused; try done. by left. }
  apply awp_recover_ask. intros o conf s' new H. cbn in H. injection H as <- <- <-.
  destruct (ou_config o) as [c| |]; try by apply Hrefused.
  apply wp_recover_bind, awp_ensure. intros reg h1 w1 Hh1 Hw1 Hc1. cbn in Hc1.
  assert (c ∈ wd_configs w1) as Hcin by (rewrite Hc1; left).
  pose proof Hh1 as (Ei & Elc & El & Ehs & Ech & Elk & Ere). pose proof Hw1 as (Fs & Fl & Ff & Fe). cbn in Fs, Fl, Ff, Fe.
  apply wp_recover_bind, awp_NewServer. intros [srv|e] Hb; [specialize (Hb srv eq_refl)|by apply reload_refused; [..|left]].
  apply awp_recover_ask. intros o2 lc s' new2 H. cbn in H. injection H as <- <- <-.
  rewrite Elc. destruct (listenerEquals (hb_listenerConfig h) (sc_Listener c)) eqn:Eeq.
  - split; [done|]. intros r s' (o3 & new3 & H). cbn in H. injection H as <- <-. by eapply reload_swapped.
  - apply wp_recover_bind. eapply wp_mono; [apply awp_listen|]. intros r [h2 w2] [[E Hr] _]. cbn in E, Hr. subst h2.
    destruct r as [[l t]|e].
    + destruct Hr as (w3 & Hsr & -> & _ & -> & _). destruct (sock_removed_files _ _ _ Hsr) as (G1 & G2 & G3 & _).
      destruct (open_listener_same (cl_Network (sc_Listener c)) (cl_Address (sc_Listener c)) w3) as (O1 & O2 & O3).
      apply (awp_replace c srv _ t h1 _ old); [congruence|by rewrite O1, G1, Fs|].
      intros h' w' s I1 I2 I3 I4 I5 I6 I7 I8 I9 I10 I11.
      eapply (reload_replaced h w c srv old h' w'); try done; try congruence.
      * by exists s.
      * destruct Hs as [s0 Hs0]. rewrite (I11 _ s0); [|by rewrite O1, G1, Fs|intros Hin; specialize (Hlt _ _ Hs0 Hin); lia].
        rewrite O3, G2, Fl. rewrite lookup_app_r by done. by rewrite Nat.sub_diag.
    + destruct (sock_removed_files _ _ _ Hr) as (G1 & G2 & G3 & [G4|(Hu & (f & Hf & Hsk) & G4)]).
      * apply reload_refused; try done; [congruence|congruence|]. left. congruence.
      * apply reload_refused; try done; [congruence|congruence|]. right. exists c, f. rewrite G3. split_and!; try done; congruence.
Qed.
End Alone.

(** ** The end of the process *)

Section Exit.
Context (cwd : gostring).

Lemma play_app acts1 acts2 s s1 : hub_play cwd acts1 s = Some s1 -> hub_play cwd (acts1 ++ acts2) s = hub_play cwd acts2 s1.
Proof.
  revert s. induction acts1 as [|a acts1 IH]; intros s; cbn; [by intros [= ->]|].
  destruct (hub_act cwd a s); [|done]. apply IH.
Qed.

Definition quiet : hub_outside := mkHubOutside None true None ConfigError.

(** A request of a goroutine that can be answered. *)
Lemma go_step s gs i g e k o r h' w' new :
  hub_ok cwd s gs -> wd_exited (hu_world s) = None -> hu_threads s !! i = Some (Vis e k) -> gs !! i = Some g ->
  hub_answer cwd o e (hu_hub s) (hu_world s) = Some (r, (h', w'), new) ->
  exists s' gs' g', hub_act cwd (HubGo i o) s = Some s' /\ hub_ok cwd s' gs' /\ hub_next g e r g' /\
    hu_hub s' = h' /\ hu_world s' = w' /\ hu_threads s' !! i = Some (k r) /\ gs' !! i = Some g' /\
    (forall j, j <> i -> (j < length gs)%nat -> hu_threads s' !! j = hu_threads s !! j /\ gs' !! j = gs !! j).
Proof.
  intros Hok Hex Et Hg Ha. destruct (hub_ok_go cwd s gs i g e k o r h' w' new Hok Et Hg Ha) as (g' & Hn & Hok').
  eexists _, _, g'. split_and!; [unfold hub_act; by rewrite Hex, Et, Ha|exact Hok'|done|done|done|..].
  - cbn. rewrite lookup_app_l by (rewrite length_insert; by eapply lookup_lt_Some).
    apply list_lookup_insert_eq. by eapply lookup_lt_Some.
  - rewrite (lookup_step gs i g g' _ i g Hg Hg). by rewrite decide_True.
  - intros j Hj Hlt. assert (length (hu_threads s) = length gs) as Hlen by exact (Forall2_length _ _ _ (ok_threads _ _ _ Hok)). cbn.
    split; rewrite lookup_app_l by (rewrite length_insert; lia); by apply list_lookup_insert_ne.
Qed.

Lemma ends_next g e r g' : ends g -> ending_allowed g e -> hub_next g e r g' -> (exists st, e = ProcessExit st) \/ ends g'.
Proof.
  intros He Ha Hn. destruct e; try done; cbn in Hn; try (subst g'; by right).
  - left. by eexists.
  - destruct Hn as [_ ->]. right. by destruct r.
Qed.

(** A Run that has received an error ends the process, by itself. *)
Lemma ending_exits p s gs g :
  hub_ok cwd s gs -> wd_exited (hu_world s) = None -> hu_threads s !! 0%nat = Some p -> gs !! 0%nat = Some g -> ends g ->
  exists acts s', Forall (fun a => exists o, a = HubGo 0 o) acts /\ hub_play cwd acts s = Some s' /\ is_Some (wd_exited (hu_world s')).
Proof.
  revert s gs g. induction p as [a|e k IH| |]; intros s gs g Hok Hex Et Hg He;
    pose proof (Forall2_lookup_lr _ _ _ _ _ _ (ok_threads _ _ _ Hok) Et Hg) as Hwp; cbn in Hwp; [| |done|done].
  { destruct Hwp as [_ Hp2]. destruct Hp2 as (_ & _ & ?). destruct He as (_ & _ & ?). congruence. }
  destruct Hwp as [Hp _]. assert (ending_allowed g e) as Ha by (pose proof He as (Ho & Hs & Hn); unfold hub_pre in Hp; by rewrite Ho, Hs, Hn in Hp).
  assert (exists r h' w' new, hub_answer cwd quiet e (hu_hub s) (hu_world s) = Some (r, (h', w'), new))
    as (r & h' & w' & new & Hans) by (destruct e; try done; cbn; repeat case_match; eauto 10).
  destruct (go_step s gs 0 g e k _ r h' w' new Hok Hex Et Hg Hans) as (s1 & gs1 & g1 & Hact & Hok1 & Hn & Eh & Ew & Et1 & Hg1 & _).
  destruct (wd_exited (hu_world s1)) as [st|] eqn:Ex.
  - exists [HubGo 0 quiet], s1. cbn [hub_play]. rewrite Hact. split_and!; [|done|by rewrite Ex].
    repeat constructor. by eexists.
  - destruct (ends_next _ _ _ _ He Ha Hn) as [[st ->]|He1].
    { cbn in Hans. injection Hans as _ _ <- _. by rewrite Ew in Ex. }
    destruct (IH r s1 gs1 g1 Hok1 Ex Et1 Hg1 He1) as (acts & s' & Hall & Hplay & Hexit).
    exists (HubGo 0 quiet :: acts), s'. cbn [hub_play]. rewrite Hact. split_and!; [|done|done].
    constructor; [by eexists|done].
Qed.

(** From an error in the channel on. *)
Lemma error_exits s gs k :
  hub_ok cwd s gs -> wd_exited (hu_world s) = None -> hu_threads s !! 0%nat = Some (Vis ExitReceive k) ->
  hb_exitErrorChan (hu_hub s) <> [] ->
  exists acts s', Forall (fun a => exists o, a = HubGo 0 o) acts /\ hub_play cwd acts s = Some s' /\ is_Some (wd_exited (hu_world s')).
Proof.
  intros Hok Hex Et Hc. destruct (Forall2_lookup_l _ _ _ _ _ (ok_threads _ _ _ Hok) Et) as (g & Hg & [Hp _]).
  destruct (hb_exitErrorChan (hu_hub s)) as [|x l] eqn:Ec; [done|].
  assert (hub_answer cwd quiet ExitReceive (hu_hub s) (hu_world s) =
    Some (x, (hb_set_exitErrorChan l (hu_hub s), hu_world s), [])) as Ha by (cbn; by rewrite Ec).
  destruct (go_step s gs 0 g _ k _ _ _ _ _ Hok Hex Et Hg Ha) as (s1 & gs1 & g1 & Hact & Hok1 & Hn & _ & Ew & Et1 & Hg1 & _).
  assert (ends g1) as He.
  { cbn in Hn. subst g1. destruct (hub_pre_cases _ _ _ Hp) as [(Ho & Hs & Hm)|[(r & _ & ?)|(hs & b & _ & Hx)]]; [|done|by destruct b, Hx].
    by split_and!. }
  destruct (ending_exits (k x) s1 gs1 g1 Hok1) as (acts & s' & Hall & Hplay & Hexit); [by rewrite Ew|exact Et1|exact Hg1|done|].
  eexists (_ :: acts), s'. cbn [hub_play]. rewrite Hact. split_and!; [|done|done]. constructor; [by eexists|done].
Qed.

(** A goroutine that serves is not Run's, which waits. *)
Lemma serving_not_main s gs j g k :
  hub_ok cwd s gs -> gs !! j = Some g -> hu_threads s !! 0%nat = Some (Vis ExitReceive k) -> hg_serving g <> None -> (0 <> j)%nat.
Proof.
  intros Hok Hg Hk Hns <-. destruct (Forall2_lookup_lr _ _ _ _ _ _ (ok_threads _ _ _ Hok) Hk Hg) as [Hp _].
  destruct (hub_pre_cases _ _ _ Hp) as [(_ & ? & _)|[(r & _ & ?)|(hs & b & _ & Hx)]]; [done|done|by destruct b, Hx].
Qed.

(** What it requests next. *)
Lemma serving_next s gs j g hs b :
  hub_ok cwd s gs -> gs !! j = Some g -> hg_serving g = Some (hs, b) ->
  exists e k, hu_threads s !! j = Some (Vis e k) /\ if b then exists x, e = ExitSend x else exists l, e = ServeReturns hs l.
Proof.
  intros Hok Hg Hsv. destruct (Forall2_lookup_r _ _ _ _ _ (ok_threads _ _ _ Hok) Hg) as (p & Hp & Hwp).
  destruct p as [a|e k1| |]; cbn in Hwp; try done.
  - destruct Hwp as (_ & _ & Hns & _). congruence.
  - destruct Hwp as [Hpre _]. exists e, k1. split; [done|]. unfold hub_pre in Hpre. rewrite Hsv in Hpre. by destruct b.
Qed.

(** Once Serve has returned, the error gets into the channel. *)
Lemma report_sends s gs j g hs k :
  hub_ok cwd s gs -> wd_exited (hu_world s) = None -> gs !! j = Some g -> hg_serving g = Some (hs, true) ->
  hb_exitErrorChan (hu_hub s) = [] -> hu_threads s !! 0%nat = Some (Vis ExitReceive k) ->
  exists s' gs', hub_act cwd (HubGo j quiet) s = Some s' /\ hub_ok cwd s' gs' /\
    wd_exited (hu_world s') = None /\ hu_threads s' !! 0%nat = Some (Vis ExitReceive k) /\ hb_exitErrorChan (hu_hub s') <> [].
Proof.
  intros Hok Hex Hg Hsv Hc Hk. destruct (serving_next s gs j g hs true Hok Hg Hsv) as (e & k1 & Et & [x ->]).
  assert (hub_answer cwd quiet (ExitSend x) (hu_hub s) (hu_world s) = Some (tt, (hb_set_exitErrorChan [x] (hu_hub s), hu_world s), [])) as Ha
    by (cbn; by rewrite Hc).
  destruct (go_step s gs j g _ k1 quiet _ _ _ _ Hok Hex Et Hg Ha) as (s1 & gs1 & g1 & Hact & Hok1 & _ & Eh & Ew & _ & _ & Hothers).
  destruct (Hothers 0%nat) as [E _]; [apply (serving_not_main s gs j g k); try done; by rewrite Hsv|apply lookup_lt_Some in Hg; lia|].
  exists s1, gs1. split_and!; [done|done|by rewrite Ew|by rewrite E|by rewrite Eh].
Qed.

(** The goroutine of a server that is shut down reports. *)
Lemma serving_reports s gs j g hs b sv k :
  hub_ok cwd s gs -> wd_exited (hu_world s) = None -> gs !! j = Some g -> hg_serving g = Some (hs, b) ->
  wd_servers (hu_world s) !! hs = Some sv -> hs_shutdown sv = true -> hb_exitErrorChan (hu_hub s) = [] ->
  hu_threads s !! 0%nat = Some (Vis ExitReceive k) ->
  exists acts s' gs', Forall (fun a => exists o, a = HubGo j o) acts /\ hub_play cwd acts s = Some s' /\ hub_ok cwd s' gs' /\
    wd_exited (hu_world s') = None /\ hu_threads s' !! 0%nat = Some (Vis ExitReceive k) /\ hb_exitErrorChan (hu_hub s') <> [].
Proof.
  intros Hok Hex Hg Hsv Hhs Hsd Hc Hk. destruct b.
  { destruct (report_sends s gs j g hs k Hok Hex Hg Hsv Hc Hk) as (s1 & gs1 & Hact & Hrest).
    exists [HubGo j quiet], s1, gs1. cbn [hub_play]. rewrite Hact. split_and!; try apply Hrest; [|done]. repeat constructor. by eexists. }
  destruct (serving_next s gs j g hs false Hok Hg Hsv) as (e & k1 & Et & [l ->]).
  assert (hub_answer cwd quiet (ServeReturns hs l) (hu_hub s) (hu_world s) =
    Some (Some ErrServerClosed, (hu_hub s, close_listener l (hu_world s)), [])) as Ha by (cbn; by rewrite Hhs, Hsd).
  destruct (go_step s gs j g _ k1 quiet _ _ _ _ Hok Hex Et Hg Ha) as (s1 & gs1 & g1 & Hact & Hok1 & [_ ->] & Eh & Ew & _ & Hg1 & Hothers).
  destruct (close_listener_same l (hu_world s)) as (_ & _ & _ & Ee).
  destruct (Hothers 0%nat) as [E0 _]; [apply (serving_not_main s gs j g k); try done; by rewrite Hsv|apply lookup_lt_Some in Hg; lia|].
  destruct (report_sends s1 gs1 j (hg_set_serving (Some (hs, true)) g) hs k Hok1) as (s2 & gs2 & Hact2 & Hrest); [by rewrite Ew, Ee|exact Hg1|done|by rewrite Eh|by rewrite E0|].
  exists [HubGo j quiet; HubGo j quiet], s2, gs2. cbn [hub_play]. rewrite Hact. cbn [hub_play]. rewrite Hact2.
  split_and!; try apply Hrest; [|done]. repeat constructor; by eexists.
Qed.

(** When an HTTP server that has served is shut down, the process can end. From
    every reachable state in which Run waits and such a server is shut down, the
    steps of two goroutines, Run's and the one that served, lead to the exit of the
    process; they wait for nobody: neither for the end of Shutdown, nor for
    requests in flight, nor for WSFS sessions. This is so after a signal to shut
    down, and also after a reload with another listener: Serve of the old server
    returns ErrServerClosed to the channel on which Run waits, so that a successful
    change of the listener stops the server. The comments of hub.go and the
    documentation promise the opposite: that requests in flight are waited for and
    WSFS sessions survive a reload. *)
Theorem shutdown_ends_process (files : gmap gostring Z) (c : config_Server) (s : hub_state) (hs : nat) (sv : http_server)
    (k : hub_error -> HP unit) :
  hub_reachable cwd files c s -> wd_exited (hu_world s) = None -> hu_threads s !! 0%nat = Some (Vis ExitReceive k) ->
  wd_servers (hu_world s) !! hs = Some sv -> hs_listeners sv <> [] -> hs_shutdown sv = true ->
  exists j acts s', Forall (fun a => exists o, a = HubGo 0 o \/ a = HubGo j o) acts /\
    hub_play cwd acts s = Some s' /\ is_Some (wd_exited (hu_world s')).
Proof.
  intros Hr Hex Et Hhs Hne Hsd. destruct (hub_reachable_inv _ _ _ _ Hr) as (gs & Hok).
  assert (forall j acts, Forall (fun a => exists o, a = HubGo 0 o) acts -> Forall (fun a => exists o, a = HubGo 0 o \/ a = HubGo j o) acts) as Hmono.
  { intros j acts Hall. eapply Forall_impl; [exact Hall|]. intros a [o ->]. exists o. by left. }
  destruct (decide (hb_exitErrorChan (hu_hub s) = [])) as [Hc|Hc].
  2: { destruct (error_exits s gs k Hok Hex Et Hc) as (acts & s' & Hall & Hp & Hx). exists 0%nat, acts, s'. by split; [apply Hmono|]. }
  destruct (ok_pending _ _ _ Hok hs sv Hhs Hne) as [(j & g & b & Hg & Hsv)|[?|[(g & Hg & Hend)|?]]]; try done.
  - destruct (serving_reports s gs j g hs b sv k Hok Hex Hg Hsv Hhs Hsd Hc Et) as (acts & s1 & gs1 & Hall & Hp & Hok1 & Hex1 & Et1 & Hc1).
    destruct (error_exits s1 gs1 k Hok1 Hex1 Et1 Hc1) as (acts2 & s2 & Hall2 & Hp2 & Hx2).
    exists j, (acts ++ acts2), s2. split_and!; [|by rewrite (play_app _ _ _ s1)|done].
    apply Forall_app; split; [|by apply Hmono]. eapply Forall_impl; [exact Hall|]. intros a [o ->]. exists o. by right.
  - exfalso. destruct (Forall2_lookup_lr _ _ _ _ _ _ (ok_threads _ _ _ Hok) Et Hg) as [Hp _].
    change (hub_pre cwd g ExitReceive) in Hp. unfold hub_pre in Hp. rewrite Hend in Hp. destruct (hg_serving g) as [[? []]|]; [by destruct Hp..|]. by destruct (hg_owes g).
Qed.
End Exit.

(** ** Scenarios

    A server on a TCP port, another port, and a unix socket with and without TLS. *)

Definition fine (c : config_result) : hub_outside := mkHubOutside None true (Some (str "1000", str "1000")) c.
Definition go (n i : nat) (c : config_result) : list hub_action := replicate n (HubGo i (fine c)).

Definition a_config (l : config_Listener) : config_Server :=
  mkConfigServer l (mkConfigWebdav true false false (mkConfigWebui false false []))
    (mkConfigWSFS true false true []) [mkConfigStorage [] (str "/srv") false] (mkConfigAnonymous true true []) [] [] []
    (mkOptionalFsIds None None None None).
Definition on_tcp (address : gostring) : config_Server := a_config (mkConfigListener address (str "tcp") (mkConfigTLS false [] [])).
Definition on_unix (tls : bool) : config_Server := a_config (mkConfigListener (str "/run/wsfs.sock") unix_network (mkConfigTLS tls [] [])).

(** Run until it waits, its server until Serve waits. *)
Definition starting : list hub_action := go 13 0 ConfigError ++ go 1 1 ConfigError.

Definition played (c : config_Server) (acts : list hub_action) : hub_state := default (hub_init [] ∅ c) (hub_play [] acts (hub_init [] ∅ c)).

(** The server is up and a reload to another port has shut the first listener down. *)
Definition moving : list hub_action := starting ++ Sighup :: go 2 2 ConfigError ++ go 18 3 (GotConfig (on_tcp (str ":2"))).

Definition plays (c : config_Server) (acts : list hub_action) : bool :=
  if hub_play [] acts (hub_init [] ∅ c) is Some _ then true else false.

Lemma plays_played c acts : plays c acts = true -> hub_play [] acts (hub_init [] ∅ c) = Some (played c acts).
Proof. unfold plays, played. by destruct (hub_play [] acts (hub_init [] ∅ c)). Qed.

Lemma moving_plays : hub_play [] moving (hub_init [] ∅ (on_tcp (str ":1"))) = Some (played (on_tcp (str ":1")) moving).
Proof. apply plays_played. by vm_compute. Qed.

Lemma hub_serves_built_witness : hb_inst (hu_hub (played (on_tcp (str ":1")) moving)) <> None.
Proof.
  destruct (hub_serves_built [] ∅ (on_tcp (str ":1")) moving _ moving_plays) as [H _].
  apply (H 0%nat (mkHttpServer None true [0%nat])); [by vm_compute|done].
Defined.

Lemma moving_reachable : hub_reachable [] ∅ (on_tcp (str ":1")) (played (on_tcp (str ":1")) moving).
Proof. exists moving. apply moving_plays. Qed.

(** A successful change of the port, and the process has ended, with status 0. *)
Lemma shutdown_ends_process_witness :
  (exists j acts s', Forall (fun a => exists o, a = HubGo 0 o \/ a = HubGo j o) acts /\
    hub_play [] acts (played (on_tcp (str ":1")) moving) = Some s' /\ is_Some (wd_exited (hu_world s'))) /\
  wd_exited (hu_world (played (on_tcp (str ":1")) (moving ++ go 2 1 ConfigError ++ go 4 0 ConfigError))) = Some 0.
Proof.
  split; [|by vm_compute].
  destruct (hu_threads (played (on_tcp (str ":1")) moving) !! 0%nat) as [[| [] k | |]|] eqn:E; try (vm_compute in E; discriminate).
  apply (shutdown_ends_process [] ∅ (on_tcp (str ":1")) _ 0%nat (mkHttpServer None true [0%nat]) k moving_reachable);
    [by vm_compute|exact E|by vm_compute|done|done].
Defined.

(** In the middle of the reload. *)
Definition reloading : list hub_action := starting ++ Sighup :: go 2 2 ConfigError ++ go 3 3 (GotConfig (on_tcp (str ":2"))).

Lemma reload_exclusive_witness :
  exists i e k g, hu_threads (played (on_tcp (str ":1")) reloading) !! i = Some (Vis e k) /\ hg_lock g = true /\
    wp true (hub_env []) (Vis e k) g (fun _ => finished).
Proof.
  assert (hub_reachable [] ∅ (on_tcp (str ":1")) (played (on_tcp (str ":1")) reloading)) as Hr by (exists reloading; apply plays_played; by vm_compute).
  destruct (reload_exclusive [] ∅ (on_tcp (str ":1")) _ Hr) as (_ & _ & _ & H). apply H. by vm_compute.
Defined.

Definition serving_state : hub_state := played (on_tcp (str ":1")) starting.

Lemma reload_effect_witness :
  wp true (alone []) (with_recover (doReload_body []) (mret tt)) (hu_hub serving_state, hu_world serving_state)
    (fun _ => reload_outcome [] (hu_hub serving_state) (hu_world serving_state)).
Proof.
  apply (reload_effect [] (hu_hub serving_state) (hu_world serving_state) 0%nat); [by vm_compute|by eexists; vm_compute|].
  intros s l Hs. vm_compute in Hs. injection Hs as <-. cbn. intros ->%list_elem_of_singleton. vm_compute. lia.
Defined.

(** A reload that is refused because the key pair cannot be read has removed the
    socket on which the server still listens: nobody can connect any more. *)
Definition no_key : hub_outside := mkHubOutside None false None ConfigError.
Definition starting_unix : list hub_action := go 14 0 ConfigError ++ go 1 1 ConfigError.
Definition refusing : list hub_action :=
  starting_unix ++ Sighup :: go 2 2 ConfigError ++ go 8 3 (GotConfig (on_unix true)) ++ [HubGo 3 no_key] ++ go 2 3 ConfigError.

Example refused_reload_removes_socket :
  plays (on_unix false) refusing = true /\
  let before := played (on_unix false) starting_unix in let after := played (on_unix false) refusing in
  wd_files (hu_world before) !! str "/run/wsfs.sock" = Some (SocketOf 0) /\
  wd_files (hu_world after) !! str "/run/wsfs.sock" = None /\
  wd_listeners (hu_world after) = wd_listeners (hu_world before) /\ hb_lock (hu_hub after) = false /\
  hb_listenerConfig (hu_hub after) = hb_listenerConfig (hu_hub before).
Proof. by vm_compute. Qed.

(** A reload requested during a reload is lost when the mutex is unlocked and the
    flag read between the two steps of IssueReload: the flag is set, nobody reads
    it, and the server keeps the configuration read before the request. *)
Definition losing : list hub_action :=
  starting ++ Sighup :: go 2 2 ConfigError ++ go 6 3 (GotConfig (on_tcp (str ":1"))) ++
  Sighup :: go 1 4 ConfigError ++ go 3 3 ConfigError ++ go 1 4 ConfigError.

Example reload_lost :
  plays (on_tcp (str ":1")) losing = true /\
  let s := played (on_tcp (str ":1")) losing in
  hb_lock (hu_hub s) = false /\ hb_reloadReentrant (hu_hub s) = true /\ wd_exited (hu_world s) = None /\
  map (fun p => match p with Ret _ => true | _ => false end) (hu_threads s) = [false; false; true; true; true].
Proof. by vm_compute. Qed.
