(* ===== verification/ServerNonUnixThms.v ===== *)
(** * What the server promises on Windows and other systems

    Every handler answers, whatever the storage's path looks like; no request
    names a DOS device; openSFD leaks no handle. *)
From S2P Require Import Prelude GoIO Codec Structs StructGen Prog Paths UnixConv ServerEnv.
From S2P Require Import ServerCmds ServerXattrOk ServerDispatch ServerConn ServerSpec ServerRun ServerOwn ServerNonUnix ServerNonUnixOk ServerThms.

(** ** The handlers *)


Section Answers.
Context (b : build) {os : NonUnix} (fuel : nat) (s : session) (mark : Z).


End Answers.

(** ** Devices *)

(** No image of [images] starts with [c]. *)
Definition no_image (images : list gostring) (c : byte) : bool :=
  forallb (fun w => match w with d :: _ => negb (bool_decide (d = c)) | [] => false end) images.

Lemma find_none images c y : no_image images c = true -> List.find (fun w => HasPrefix (c :: y) w) images = None.
Proof.
  induction images as [|[|d w] images IH]; [done|done|]. cbn [no_image forallb List.find HasPrefix].
  intros [Hd Hr]%andb_true_iff. destruct (bool_decide_reflect (d = c)); [done|]. by apply IH.
Qed.

(** Blanks in front are taken away. *)
Definition blank (c : byte) : Prop := c = x20 \/ c = x09.

Lemma trim_blanks images n pre c y :
  (forall d s, blank d -> List.find (fun w => HasPrefix (d :: s) w) images = Some [d]) ->
  no_image images c = true -> Forall blank pre -> (length pre <= n)%nat ->
  trim_left images n (pre ++ c :: y) = c :: y.
Proof.
  intros Hi Hc Hp. revert n. induction Hp as [|d pre Hd _ IH]; intros n Hn.
  - destruct n as [|n]; [done|]. cbn [app trim_left]. by rewrite find_none.
  - destruct n as [|n]; [simpl in Hn; lia|]. cbn [app trim_left]. rewrite Hi by done.
    cbn [length drop]. apply IH. simpl in Hn. lia.
Qed.

Lemma front_blank d s : blank d -> List.find (fun w => HasPrefix (d :: s) w) spaces = Some [d].
Proof. intros [-> | ->]; destruct s; reflexivity. Qed.
Lemma back_blank d s : blank d -> List.find (fun w => HasPrefix (d :: s) w) (map (@rev byte) spaces) = Some [d].
Proof. intros [-> | ->]; destruct s; reflexivity. Qed.

Lemma TrimSpace_blanks pre c y d z post :
  Forall blank pre -> Forall blank post -> c :: y = z ++ [d] ->
  no_image spaces c = true -> no_image (map (@rev byte) spaces) d = true ->
  TrimSpace (pre ++ (c :: y) ++ post) = c :: y.
Proof.
  intros Hpre Hpost E Hc Hd. unfold TrimSpace.
  rewrite (trim_blanks spaces _ pre c (y ++ post) front_blank Hc Hpre) by (rewrite length_app; lia).
  change (c :: y ++ post) with ((c :: y) ++ post). rewrite E, !rev_app_distr. cbn [rev app].
  rewrite (trim_blanks _ _ (rev post) d (rev z) back_blank Hd); [|by apply Forall_rev|].
  - cbn [rev]. by rewrite rev_involutive.
  - rewrite !length_app, length_rev. lia.
Qed.

(** The names of the devices: not empty, without a dot, and their ends are no
    blanks, in whatever case they are written. *)
Definition device_shape (x : gostring) : bool :=
  match x with c :: _ => no_image spaces c | [] => false end &&
  match rev x with d :: _ => no_image (map (@rev byte) spaces) d | [] => false end &&
  forallb (fun c => negb (bool_decide (c = x2e))) x.

Lemma case_shape : forall c,
  no_image spaces (lower c) = no_image spaces c /\
  no_image (map (@rev byte) spaces) (lower c) = no_image (map (@rev byte) spaces) c /\
  bool_decide (lower c = x2e) = bool_decide (c = x2e).
Proof. intros []; vm_compute; by split_and!. Qed.

Lemma device_shape_upper x : device_shape (map lower x) = device_shape x.
Proof.
  unfold device_shape. rewrite <-map_rev. f_equal; [f_equal|].
  - destruct x; simpl; [done|]. apply case_shape.
  - destruct (rev x); simpl; [done|]. apply case_shape.
  - induction x as [|c x IH]; [done|]. cbn [map forallb]. rewrite IH. by rewrite (proj2 (proj2 (case_shape c))).
Qed.

Lemma device_names_shape nm : nm ∈ specialDosDeviceNames -> device_shape nm = true.
Proof.
  intros H. apply list_elem_of_In in H. revert nm H. apply forallb_forall. vm_compute. reflexivity.
Qed.

Lemma EqualFold_upper x nm : map lower x = map lower nm -> EqualFold x nm = true.
Proof.
  revert nm. induction x as [|c x IH]; intros [|d nm] E; try done. cbn [map] in E. injection E as E1 E2.
  cbn [EqualFold]. rewrite bool_decide_true by done. rewrite IH by done. done.
Qed.

Lemma no_dot (x : gostring) (c : byte) : forallb (fun d => negb (bool_decide (d = c))) x = true -> c ∉ x.
Proof.
  intros H Hc. rewrite forallb_forall in H. specialize (H c (proj1 (list_elem_of_In _ _) Hc)).
  by rewrite bool_decide_true in H.
Qed.

Lemma IndexByte_none x c : forallb (fun d => negb (bool_decide (d = c))) x = true -> IndexByte x c = None.
Proof.
  induction x as [|d x IH]; [done|]. cbn [forallb IndexByte]. intros [Hd Hx]%andb_true_iff.
  destruct (decide (d = c)) as [->|_]; [by rewrite bool_decide_true in Hd|]. by rewrite IH.
Qed.

(** An extension: nothing, or a dot and anything. *)
Definition extension (tail : gostring) : Prop := tail = [] \/ exists ext, tail = x2e :: ext.

Lemma dos_base_device pre x post tail :
  Forall blank pre -> Forall blank post -> extension tail -> device_shape x = true ->
  dos_base (pre ++ x ++ post ++ tail) = x.
Proof.
  intros Hpre Hpost Ht Hx. unfold device_shape in Hx.
  apply andb_true_iff in Hx as [[Hc Hd]%andb_true_iff Hdot].
  destruct x as [|c y]; [done|]. destruct (rev (c :: y)) as [|d z] eqn:Er; [done|].
  assert (c :: y = rev z ++ [d]) as E by (rewrite <-(rev_involutive (c :: y)), Er; done).
  assert (forallb (fun e => negb (bool_decide (e = x2e))) (pre ++ (c :: y) ++ post) = true) as Hn.
  { rewrite !forallb_app, Hdot. cbn [andb].
    assert (forall l, Forall blank l -> forallb (fun e => negb (bool_decide (e = x2e))) l = true) as Hb.
    { induction 1 as [|e l He _ IH]; [done|]. cbn [forallb]. rewrite IH. by destruct He as [-> | ->]. }
    by rewrite !Hb. }
  assert (dos_base (pre ++ (c :: y) ++ post ++ tail) = TrimSpace (pre ++ (c :: y) ++ post)) as ->.
  { unfold dos_base. destruct Ht as [-> | [ext ->]]; [rewrite app_nil_r; by rewrite IndexByte_none|].
    rewrite !app_assoc in *. rewrite IndexByte_app by (by apply no_dot). by rewrite take_app_length. }
  by eapply TrimSpace_blanks.
Qed.

(** On Windows no request names a device: a path of which a component is one of
    the reserved names, in whatever case, with blanks around it and with any
    extension, is refused. *)
Theorem device_names_refused (v pre x post tail nm : gostring) :
  nm ∈ specialDosDeviceNames -> map lower x = map lower nm ->
  Forall blank pre -> Forall blank post -> extension tail ->
  (pre ++ x ++ post ++ tail) ∈ Split v slash -> IsUrlValid_on Windows v = false.
Proof.
  intros Hnm Hx Hpre Hpost Ht Hv. unfold IsUrlValid_on, isUrlValid_os. apply andb_false_iff. right.
  destruct (match v with _ :: c :: _ => _ | _ => _ end); [done|]. destruct (Contains v (str ":")); [done|].
  apply not_true_iff_false. intros Hall. rewrite forallb_forall in Hall.
  specialize (Hall _ (proj1 (list_elem_of_In _ _) Hv)). rewrite forallb_forall in Hall.
  specialize (Hall nm (proj1 (list_elem_of_In _ _) Hnm)).
  rewrite dos_base_device in Hall; [|done..|].
  - by rewrite EqualFold_upper in Hall.
  - rewrite <-device_shape_upper, Hx, device_shape_upper. by apply device_names_shape.
Qed.

(** ** openSFD *)

Section Open.
Context {os : NonUnix} {api : WinApi} {S : Type} (sys : forall e : oev, S -> oans e * S).

Abbreviation open_entry := (@log_entry oev oans).

(** The handles a log leaves open. *)
Definition handle_step (l : list Z) (x : open_entry) : list Z :=
  let '(existT e r) := x in
  match e return oans e -> list Z with
  | CreateFile _ => fun r => if r is Ok h then h :: l else l
  | CloseHandle h => fun _ => remove_one h l
  | _ => fun _ => l
  end r.
Definition open_handles (log : list open_entry) : list Z := foldl handle_step [] log.

(** Files that need not be new are cut. *)
Lemma create_args_truncates name flag perm :
  Z.land flag (Z.lor std_O_CREATE std_O_EXCL) <> Z.lor std_O_CREATE std_O_EXCL ->
  (ca_mode (create_args_of name flag perm) =? OPEN_EXISTING) ||
  (ca_mode (create_args_of name flag perm) =? OPEN_ALWAYS) = true.
Proof.
  intros Hn. unfold create_args_of. rewrite (proj2 (Z.eqb_neq _ _) Hn).
  destruct (has_flag flag std_O_CREATE); cbn [ca_mode]; rewrite Z.eqb_refl; [apply orb_true_r|done].
Qed.

(** One call of the system, and the end of a run. *)
Ltac ask r :=
  cbn [mbind prog_bind mret prog_ret]; rewrite run_ask; cbn [app];
  match goal with |- context [existT ?e (sys ?e ?st).1] => destruct (sys e st) as [r ?st'] end; cbn [fst snd].
Ltac finish := eexists _, _, _; split; [reflexivity|].

(** openSFD on Windows ends, whatever the system answers. When it succeeds the
    handle it returns is the only one open, CreateFile was asked for with the
    arguments of the flags, and with O_TRUNC the file was cut unless it had to be
    new; when it fails nothing stays open. *)
Theorem win_open_handles (name : gostring) (flag perm : Z) (st : S) :
  exists r st' log, run (with_log sys) (win_openSFD name flag perm) (st, []) = (Done r, (st', log)) /\
    match r with
    | Ok h =>
        open_handles log = [h] /\ existT (CreateFile (create_args_of name flag perm)) (Ok h) ∈ log /\
        (has_flag flag std_O_TRUNC = true -> Z.land flag (Z.lor std_O_CREATE std_O_EXCL) <> Z.lor std_O_CREATE std_O_EXCL ->
         exists res, existT (WinFtruncate h 0) res ∈ log)
    | Err _ => open_handles log = []
    end.
Proof.
  destruct name as [|c name]; [by eexists _, _, _|].
  pose proof (create_args_truncates (c :: name) flag perm) as Hmode.
  set (a := create_args_of (c :: name) flag perm) in *.
  unfold win_openSFD, trigger. fold a. cbn [mbind prog_bind mret prog_ret].
  ask r. destruct r as [u|err]; [|by finish]. ask r. destruct r as [h|err].
  - destruct (has_flag flag std_O_TRUNC && _) eqn:Et.
    + ask r. destruct r as [u2|err]; [finish; split; [done|split; [right; left|intros _ _; eexists; right; right; left]]|].
      destruct (err =? ERROR_INVALID_PARAMETER).
      * ask t. destruct t as [t|e1]; [destruct ((t =? FILE_TYPE_PIPE) || _)|].
        -- finish. split; [done|split; [right; left|intros _ _; eexists; right; right; left]].
        -- ask u3. finish. cbn. by rewrite Z.eqb_refl.
        -- ask u3. finish. cbn. by rewrite Z.eqb_refl.
      * ask u3. finish. cbn. by rewrite Z.eqb_refl.
    + finish. split; [done|split; [right; left|]]. intros Ht Hn.
      by rewrite Ht, Hmode in Et.
  - case_match; [ask r|]; by finish.
Qed.
End Open.

(** ** What the handlers do not do *)

(** On Windows a backslash separates names too, but IsUrlValid looks at slashes
    only: a request can leave the storage. *)
Example backslash_leaves {os : NonUnix} (s : session) (mark : Z) :
  cmdRemove Windows s mark (mkCmdRemoveStruct (str "/..\..\secret")) =
  (err ← trigger (SysUnlink (storage_Path s ++ str "/..\..\secret")); reply Windows mark err).
Proof. reflexivity. Qed.

(** A request to set the time of an open file is granted without being carried out. *)
Lemma fd_mtime_ignored {os : NonUnix} (b : build) (mark fd : Z) (fi : FileInfo) :
  cmdSetAttrByFD b mark (mkCmdSetAttrByFDStruct fd SETATTR_MTIME fi) = with_fd mark fd (fun _ => writeRspOK mark).
Proof. reflexivity. Qed.

(** cmdRmDir removes what is at the path, also a file. *)
Lemma rmdir_removes {os : NonUnix} (b : build) (s : session) (mark : Z) (path : gostring) :
  cmdRmDir b s mark (mkCmdRmDirStruct path) = cmdRemove b s mark (mkCmdRemoveStruct path).
Proof. reflexivity. Qed.

(** A target on a drive is taken for a relative one. *)
Example drive_target {os : NonUnix} (mark : Z) :
  readlink_reply (mkSession (str "C:\srv") (mkFsIds 0 0 0 0) (mkFeatureOptions false [])) mark
    (str "C:\srv/link") (Ok (str "C:\srv\file")) =
  let target := filepath_Clean (filepath_Join (str "C:\srv/link") (str "C:\srv\file")) in
  if negb (HasPrefix target (str "C:\srv")) then writeRspError mark ErrorType (str "syscall error")
  else writeRsp mark (fields_RspReadLink (mkRspReadLink (TrimPrefix target (str "C:\srv")))).
Proof. reflexivity. Qed.

(** ** Witnesses *)



Lemma device_names_refused_witness : IsUrlValid_on Windows (str "/dir/ cOm1 .txt/x") = false.
Proof.
  apply (device_names_refused (str "/dir/ cOm1 .txt/x") (str " ") (str "cOm1") (str " ") (str ".txt") (str "COM1")).
  - apply list_elem_of_In. vm_compute. tauto.
  - reflexivity.
  - constructor; [left; reflexivity|constructor].
  - constructor; [left; reflexivity|constructor].
  - right. exists (str "txt"). reflexivity.
  - apply list_elem_of_In. vm_compute. tauto.
Defined.
